(* ===== verification/_CoqProject ===== *)
-Q . S2P
Prelude.v
KState.v
Spinlock.v
Print.v
Mem.v
Hardware.v
Desc.v
Irq.v
Mp.v
Lapic.v
Ata.v
Args.v
Kalloc.v
Vm.v
AddrSpace.v
UserSpace.v
UserCopy.v
Proc.v
Rendezvous.v
Priority.v
Syscall.v
Sleeplock.v
Bio.v
Ide.v
Boot.v
Log.v
Crash.v
Inode.v
Console.v
Kbd.v
CString.v
Fs.v
FileData.v
FileWrite.v
Mkfs.v
MkfsImage.v
Pipe.v
File.v
ProcLife.v
Fork.v
PrioRange.v
FirstProc.v
Main.v
Exec.v
Sysproc.v
Sysfile.v
Trap.v
X86.v
Asm.v
AsmBoot.v
Ulib.v
Grep.v
UserProgs.v
Shell.v
ShellTrace.v
Umalloc.v
Uos.v
Usched.v
Usertests.v
TestProgs.v
Urun.v
Clib.v
Preprocess.v
Flow.v
FlowRun.v
Leak.v
ForkTest.v
PipeTest.v
TestRuns.v
SharedFd.v
