(* ===== verification/Prelude.v ===== *)
(** * A verification development for xv6-strace

    The program is the xv6 teaching kernel for the PC with three additions: the
    tracer [strace], nice values with a priority scheduler, and user-level locks
    that pass priorities on (priority inheritance).  Around the kernel there is
    a small C library, a shell, user programs, and tools that run on the host.
    All file names below are names under src/.

    ** The parts and how they interact

    Processes enter the kernel through [trap] (trap.c), which dispatches
    interrupts to the drivers and system calls to [syscall] (syscall.c).  The
    handlers (sysproc.c, sysfile.c, proc.c) read their arguments from user
    memory and call the process layer (proc.c), the file layer (file.c,
    pipe.c), the file system (fs.c) on top of the log (log.c) and the buffer
    cache (bio.c), program loading (exec.c) and virtual memory (vm.c), which
    takes its pages from kalloc.c.  Spinlocks (spinlock.c) protect the shared
    tables; sleep locks (sleeplock.c) protect buffers and inodes.  The
    scheduler (proc.c) picks the next process by priority.

    ** The model

    [KState] has the data: one record per C structure, one inductive type per
    enumeration, and [kstate], the global variables.  A kernel function is a
    program of the monad [K] (this file): it takes the state and the
    environment, and ends in one of five ways.  [Ret] is a return; [Panic] a
    call of [panic]; [Switched] a switch to another process from which this
    run does not come back; [Spins] a spinlock that is never released; [Fault]
    an access the C language does not define or the hardware refuses.  The
    environment is a list of state transformers, one for each [swtch]: what
    the rest of the system did before the CPU came back.  Loops that the
    source bounds are recursions on lists or on that bound; [while] loops that
    wait for others take one transformer per turn.  Integers are [Z] with the
    wrap-around of their width written out; pointers into the fixed tables are
    indices, pointers to pages are addresses.

    User programs reach the kernel only through the system calls of user.h.
    The sequential ones are programs of the same monad over any implementation
    of these calls (class [Sys] of [Ulib]).  The test programs, which fork, are
    interaction trees whose events are the calls ([Uos]): [sys] says what a
    call does as seen by a program, and the processes take their steps in any
    order.  It is a specification of the kernel written for these programs and
    is not derived from the kernel model.  The host tools have models of their
    own: [Mkfs] the image as a list of blocks, [Flow] the host's calls as
    events.  A device is a parameter: a state with reads and writes of ports
    and registers (class [Hardware]) and the documented laws a driver needs
    (classes of [Irq], [Lapic] and [Ata]).

    ** The files

    - [Prelude]: machine integers, byte strings, the monad, its rules, the
      tactics [mstep], [msimpl], [bool_facts], [case_if].
    - [KState]: data and global variables (proc.h, file.h, buf.h, fs.h, log.c,
      pipe.c, syscall.c, console.c).
    - [Spinlock] (spinlock.c), with [Mutex], the steps of several CPUs.
    - [Print] (console.c: output), [Console] (console.c: input), [Kbd] (kbd.c).
    - [Mem] (mmu.h, memlayout.h), [Args] (syscall.c: argument access;
      proc.c: [mycpu], [myproc] and the variable [proc]).
    - [Hardware] (x86.h, picirq.c, ioapic.c, timer.c, uart.c), [Irq] (what the
      interrupt controllers then do), [Lapic] (lapic.c), [Desc] (descriptor
      tables of vm.c and trap.c), [Mp] (mp.c), [Ata] and [Ide] (ide.c),
      [Boot] (bootmain.c).
    - [Kalloc] (kalloc.c), [Vm] (vm.c), [Exec] (exec.c); [AddrSpace],
      [UserSpace], [UserCopy]: page tables as maps from pages to frames.
    - [Proc], [ProcLife], [Priority] (proc.c), [Rendezvous] (sleep and wakeup
      of proc.c as a step relation), [Fork] ([fork] through all layers),
      [PrioRange] (priorities over all runs of the calls that set them).
    - [Syscall] (syscall.c: dispatch and tracer), [Sysproc] (sysproc.c),
      [Sysfile] (sysfile.c), [Trap] (trap.c, the system call table).
    - [Sleeplock] (sleeplock.c), [Bio] (bio.c, memide.c), [Log] (log.c),
      [Crash] (crash safety of the log), [Inode] and [Fs] (fs.c), [FileData]
      and [FileWrite] (reading and writing as bytes of a file).
    - [CString] (string.c), [Pipe] (pipe.c), [File] (file.c).
    - [FirstProc] and [Main] (main.c and what it initialises).
    - [X86]: the processor as the assembly files use it; [Asm] (swtch.S,
      trapasm.S, vectors.pl, usys.S, initcode.S), [AsmBoot] (bootasm.S, entry.S,
      entryother.S, asm.h, sign.pl).
    - [Mkfs] and [MkfsImage] (mkfs.c).
    - [Ulib] (ulib.c, printf.c), [Umalloc] (umalloc.c), [Grep] (grep.c),
      [UserProgs] (cat.c, echo.c, init.c, kill.c, ln.c, ls.c, mkdir.c, nice.c,
      rm.c, tail.c, wc.c, zombie.c, dump.c, child.c, hello.c), [Shell] and
      [ShellTrace] (sh.c).
    - [Uos]: programs and their system calls; [Usched]: what is inevitable in
      every schedule; [Urun]: a system to run programs on.
    - [Usertests] (usertests.c), [TestProgs] (etest1.c to etest3.c, test1.c to
      test3.c, forktest.c, stressfs.c, memoryleak.c, finite.c, infinite.c);
      [SharedFd], [PipeTest], [ForkTest], [Leak], [TestRuns]: their runs.
    - [Clib] (the functions of the host's C library), [Preprocess]
      (preprocess.c), [Flow] and [FlowRun] (flow.c).

    ** What the theorems show

    - Scheduling: a round starts the first runnable process of smallest
      priority number, so that a process that only computes keeps the CPU from
      others of its level; sleep and wakeup lose no wakeup in any interleaving;
      kill wakes and marks exactly the process asked for; [fork] makes a copy
      or fails and changes no slot or memory in use.
    - Locks: mutual exclusion of spinlocks for any number of CPUs; inherited
      priorities are the minimum of the contenders', are given back on release,
      prevent inversion and stay in their range over all runs of the system
      calls; the system calls on every branch.
    - Tracing: what a traced and an untraced call leaves, which calls the
      filters let through, what the ring holds, which call a name given to
      the shell's strace selects.
    - Memory: the page allocator refines a stack of pages; growing and copying
      an address space, byte for byte; system call pointers that pass
      [argptr] lie inside the process.
    - Files: commits are atomic for a crash after any disk write; the block
      allocator and inodes are correct on top of the log and the cache; what
      is written is read back, where a file grows by direct blocks; pipes are
      queues, and a writer waits for room; the image [mkfs] makes holds
      its input files.
    - Devices and start: the queueing disk driver implements the immediate
      one, on a disk without errors, and hides a read error from the reader;
      every vector reaches its handler; [mpinit] reads the table the
      BIOS left; the boot loader loads the kernel; [main] leaves a kernel with
      one process, in every schedule of the processors it starts.
    - Assembly: a thread that [swtch] leaves can be gone back to; an interrupt
      builds the trap frame and [trapret] restores what it holds; a system
      call stub brings its number to [trap] and the result back; the boot code
      comes to [bootmain], [main] and [mpenter] in the mode they expect.
    - User code: malloc and free keep a heap of disjoint blocks; grep's
      matcher is the language of its patterns; the shell parses what is
      printed from a command.
    - Tests, on the specification of the system calls in [Uos]: sharedfd,
      pipe1 and forktest pass in every schedule of their processes; the single-process file system tests pass; memoryleak ends;
      etest1 reports a lock its process does not have.
    - Host tools: the flow file is read as it is written, its strings stay
      inside their arrays; [replacing] is a reference expansion of names.
    - Text: decimal output, the memory and string functions.

    ** Bounds

    Loops that wait for a device take a number of polls, and the theorems hold
    for any number that exceeds the polls the device needs.  [malloc] and
    [free] walk the ring with one unit of fuel per byte of the heap, which is
    more than the ring has blocks.  The shell's parser takes four units per
    character and a few more; [parse_terminates] says that it is enough.
    [replacing] takes one round per character of its line.  The trial division
    of test2 takes a thousand rounds, the square root of the largest number it
    comes to.  Programs on [Uos] have no fuel: [inevitably] is an inductive
    predicate, so that what it states does happen.  The runs of [TestRuns] and
    [FlowRun] are computed for the rounds they name.

    ** Not modelled

    - The encoding of instructions, the checks of segment descriptors and of
      page permissions on each access, kernel.ld.  [swtch] of the kernel's
      monad and the trap frame as a record stand for what [Asm] shows; the
      two models are not connected by a theorem.
    - Growth of a file through its indirect block: [bmap] and [writei] are
      modelled as they are, but the theorems on writing do not cover it.
    - Errors of the disk, apart from [ideintr_read_error].
    - defs.h, types.h and the other headers where they only declare.
    - [processingDefine], [file] and [main] of preprocess.c, which use names
      that are not declared and cannot be built.
    - The order in which C evaluates the arguments of a call: where two
      arguments of [printf] are system calls, they are made from the left. *)

From stdpp Require Export prelude gmap strings list_numbers.

#[global] Open Scope Z_scope.
Set Default Goal Selector "!".

(** ** Machine integers

    C integers are modelled as [Z] kept in range by an explicit wrap-around:
    [uint] is 32 bits unsigned, [int] is 32 bits two's complement, [ushort]
    and [short] are 16 bits, [uchar] is 8 bits. *)

Definition u32 (x : Z) : Z := x mod 4294967296.
Definition s32 (x : Z) : Z := (x + 2147483648) mod 4294967296 - 2147483648.
Definition u16 (x : Z) : Z := x mod 65536.
Definition s16 (x : Z) : Z := (x + 32768) mod 65536 - 32768.
Definition u8 (x : Z) : Z := x mod 256.

Definition is_u32 (x : Z) : Prop := 0 ≤ x < 4294967296.
Definition is_s32 (x : Z) : Prop := -2147483648 ≤ x < 2147483648.
Definition is_byte (x : Z) : Prop := 0 ≤ x < 256.

(** The truth value of a C [int]. *)
Definition truthy (x : Z) : bool := negb (x =? 0).

Lemma u32_range x : is_u32 (u32 x).
Proof. unfold is_u32, u32. pose proof (Z.mod_pos_bound x 4294967296). lia. Qed.

Lemma s32_range x : is_s32 (s32 x).
Proof.
  unfold is_s32, s32. pose proof (Z.mod_pos_bound (x + 2147483648) 4294967296). lia.
Qed.

Lemma u8_range x : is_byte (u8 x).
Proof. unfold is_byte, u8. pose proof (Z.mod_pos_bound x 256). lia. Qed.

Lemma u32_id x : is_u32 x → u32 x = x.
Proof. apply Z.mod_small. Qed.

Lemma s32_id x : is_s32 x → s32 x = x.
Proof. unfold is_s32, s32. intros. rewrite Z.mod_small; lia. Qed.

Lemma s16_mod x : -32768 ≤ x < 32768 → s16 (x mod 65536) = x.
Proof. intros. unfold s16. rewrite Z.add_mod_idemp_l, Z.mod_small by lia. lia. Qed.

Lemma s32_u32 x : s32 (u32 x) = s32 x.
Proof. unfold s32, u32. by rewrite Z.add_mod_idemp_l by lia. Qed.

Lemma u8_id x : is_byte x → u8 x = x.
Proof. apply Z.mod_small. Qed.

Lemma u32_idemp x : u32 (u32 x) = u32 x.
Proof. apply u32_id, u32_range. Qed.

Lemma u32_add_l x y : u32 (u32 x + y) = u32 (x + y).
Proof. unfold u32. apply Zplus_mod_idemp_l. Qed.

Lemma u32_add_r x y : u32 (x + u32 y) = u32 (x + y).
Proof. unfold u32. apply Zplus_mod_idemp_r. Qed.

Lemma u32_sub_l x y : u32 (u32 x - y) = u32 (x - y).
Proof. unfold u32. apply Zminus_mod_idemp_l. Qed.

Lemma u32_sub_r x y : u32 (x - u32 y) = u32 (x - y).
Proof. unfold u32. apply Zminus_mod_idemp_r. Qed.

Create HintDb cint.
Create Rewrite HintDb cint.
#[export] Hint Resolve u32_range s32_range u8_range : cint.
#[export] Hint Rewrite u32_idemp u32_add_l u32_add_r u32_sub_l u32_sub_r : cint.

(** ** Little-endian encodings

    The kernel is compiled for x86: a multi-byte integer is stored least
    significant byte first. *)

Fixpoint le_bytes (n : nat) (x : Z) : list Z :=
  match n with
  | O => []
  | S n' => x mod 256 :: le_bytes n' (x / 256)
  end.

Fixpoint le_val (bs : list Z) : Z :=
  match bs with
  | [] => 0
  | b :: bs' => b + 256 * le_val bs'
  end.

Lemma length_le_bytes n x : length (le_bytes n x) = n.
Proof. revert x. induction n as [|n IH]; intros x; simpl; [done|]. by rewrite IH. Qed.

Lemma le_bytes_bytes n x : Forall is_byte (le_bytes n x).
Proof.
  revert x. induction n as [|n IH]; intros x; simpl; constructor; [|apply IH].
  apply u8_range.
Qed.

Lemma le_val_bytes n x : le_val (le_bytes n x) = x mod 256 ^ Z.of_nat n.
Proof.
  revert x. induction n as [|n IH]; intros x; simpl le_bytes; simpl le_val.
  { by rewrite Z.mod_1_r. }
  rewrite IH. replace (Z.of_nat (S n)) with (1 + Z.of_nat n) by lia.
  rewrite Z.pow_add_r by lia. rewrite Z.pow_1_r.
  rewrite Z.rem_mul_r by lia. lia.
Qed.

Lemma le_val_bytes_id n x : 0 ≤ x < 256 ^ Z.of_nat n → le_val (le_bytes n x) = x.
Proof. intros. rewrite le_val_bytes. by apply Z.mod_small. Qed.

Lemma le_val_range bs : Forall is_byte bs → 0 ≤ le_val bs < 256 ^ Z.of_nat (length bs).
Proof.
  induction 1 as [|b bs Hb _ IH]; simpl le_val; simpl length; [lia|].
  replace (Z.of_nat (S (length bs))) with (1 + Z.of_nat (length bs)) by lia.
  rewrite Z.pow_add_r by lia. rewrite Z.pow_1_r. unfold is_byte in Hb. nia.
Qed.

Lemma le_bytes_val bs : Forall is_byte bs → le_bytes (length bs) (le_val bs) = bs.
Proof.
  induction 1 as [|b bs Hb _ IH]; [done|]. simpl.
  unfold is_byte in Hb.
  replace ((b + 256 * le_val bs) mod 256) with b.
  2: { rewrite Z.mul_comm, Z.mod_add by lia. by rewrite Z.mod_small. }
  replace ((b + 256 * le_val bs) / 256) with (le_val bs).
  2: { rewrite Z.mul_comm, Z.div_add by lia. rewrite Z.div_small; lia. }
  by rewrite IH.
Qed.

(** ** Byte-array slices *)

Section slices.
Context {A : Type}.
Implicit Types (l new : list A).

(** [slice off n l]: the [n] elements of [l] from offset [off]. *)
Definition slice (off n : nat) l : list A := take n (drop off l).

(** [splice off new l]: [l] with the elements from [off] overwritten by [new]. *)
Definition splice (off : nat) new l : list A :=
  take off l ++ new ++ drop (off + length new) l.

Lemma length_slice off n l : (off + n ≤ length l)%nat → length (slice off n l) = n.
Proof. intros. unfold slice. rewrite length_take, length_drop. lia. Qed.

Lemma length_splice off new l :
  (off + length new ≤ length l)%nat → length (splice off new l) = length l.
Proof. intros. unfold splice. rewrite !length_app, length_take, length_drop. lia. Qed.

Lemma slice_splice_eq off new l :
  (off + length new ≤ length l)%nat → slice off (length new) (splice off new l) = new.
Proof.
  intros. unfold slice, splice. rewrite drop_app_length'.
  - by rewrite take_app_length.
  - rewrite length_take. lia.
Qed.

Lemma lookup_slice off n l i : (i < n)%nat → slice off n l !! i = l !! (off + i)%nat.
Proof. intros. unfold slice. rewrite lookup_take_lt by done. apply lookup_drop. Qed.

Lemma lookup_splice_in off new l i :
  (off + length new ≤ length l)%nat → (off ≤ i < off + length new)%nat →
  splice off new l !! i = new !! (i - off)%nat.
Proof.
  intros. unfold splice. rewrite lookup_app_r; rewrite length_take; [|lia].
  rewrite lookup_app_l by lia. f_equal. lia.
Qed.

Lemma lookup_splice_out off new l i :
  (off + length new ≤ length l)%nat → (i < off ∨ off + length new ≤ i)%nat →
  splice off new l !! i = l !! i.
Proof.
  intros Hlen [?|?]; unfold splice.
  - rewrite lookup_app_l by (rewrite length_take; lia). by apply lookup_take_lt.
  - rewrite lookup_app_r; rewrite length_take; [|lia].
    rewrite lookup_app_r by lia. rewrite lookup_drop. f_equal. lia.
Qed.

Lemma slice_splice_ne off n off' new l :
  (off' + length new ≤ length l)%nat → (off + n ≤ length l)%nat →
  (off + n ≤ off' ∨ off' + length new ≤ off)%nat →
  slice off n (splice off' new l) = slice off n l.
Proof.
  intros Hl Hl' Hd. apply list_eq. intros i.
  destruct (decide (i < n)%nat).
  - rewrite !lookup_slice by done. apply lookup_splice_out; [done|lia].
  - rewrite !lookup_ge_None_2; [done|..];
      rewrite length_slice; rewrite ?length_splice; lia.
Qed.

Lemma slice_slice off n j k l : (j + k ≤ n)%nat → slice j k (slice off n l) = slice (off + j) k l.
Proof.
  intros. unfold slice. rewrite skipn_firstn_comm, take_take, drop_drop. f_equal. lia.
Qed.

(** Part of what was overwritten. *)
Lemma slice_splice_in off new l j k :
  (off + length new ≤ length l)%nat → (j + k ≤ length new)%nat →
  slice (off + j) k (splice off new l) = slice j k new.
Proof. intros Hl Hk. by rewrite <- (slice_slice off (length new)), slice_splice_eq. Qed.

Lemma slice_app_l off n l new : (off + n ≤ length l)%nat → slice off n (l ++ new) = slice off n l.
Proof. intros. unfold slice. rewrite drop_app_le by lia. rewrite take_app_le; [done|]. rewrite length_drop. lia. Qed.

Lemma slice_app_r off n l new : (length l ≤ off)%nat → slice off n (l ++ new) = slice (off - length l) n new.
Proof. intros. unfold slice. by rewrite drop_app_ge. Qed.

Lemma slice_all n l : length l = n → slice 0 n l = l.
Proof. intros <-. unfold slice. by rewrite drop_0, firstn_all. Qed.

Lemma Forall_slice (P : A → Prop) off n l : Forall P l → Forall P (slice off n l).
Proof. intros. by apply Forall_take, Forall_drop. Qed.

Lemma Forall_splice (P : A → Prop) off new l :
  Forall P l → Forall P new → Forall P (splice off new l).
Proof.
  intros. unfold splice. rewrite !Forall_app. split_and!; [by apply Forall_take|done|by apply Forall_drop].
Qed.

End slices.

(** The words of an encoded array. *)
Lemma slice_words k ws x :
  ws !! k = Some x → slice (4 * k) 4 (ws ≫= le_bytes 4) = le_bytes 4 x.
Proof.
  revert k. induction ws as [|w ws IH]; intros [|k] Hk; [done..| |]; cbn [mbind list_bind].
  - injection Hk as ->. rewrite slice_app_l by (by rewrite length_le_bytes). apply slice_all, length_le_bytes.
  - rewrite slice_app_r by (rewrite length_le_bytes; lia). rewrite length_le_bytes.
    replace (4 * S k - 4)%nat with (4 * k)%nat by lia. by apply IH.
Qed.

Lemma length_words ws : length (ws ≫= le_bytes 4) = (4 * length ws)%nat.
Proof. induction ws as [|w ws IH]; [done|]. cbn [mbind list_bind]. rewrite length_app, length_le_bytes, IH. simpl. lia. Qed.

#[export] Hint Resolve Forall_slice Forall_splice le_bytes_bytes : cint.

(** ** Lists *)

(** Update of a function at one point. *)
Definition upd {A} (f : nat → A) (i : nat) (x : A) : nat → A :=
  λ j, if decide (j = i) then x else f j.

Lemma upd_eq {A} (f : nat → A) i x : upd f i x i = x.
Proof. unfold upd. by rewrite decide_True. Qed.

Lemma upd_ne {A} (f : nat → A) i j x : j ≠ i → upd f i x j = f j.
Proof. intros. unfold upd. by rewrite decide_False. Qed.

Lemma alter_as_insert {A} (f : A → A) (l : list A) i x :
  l !! i = Some x → alter f i l = <[i := f x]> l.
Proof.
  intros Hx. apply list_eq. intros j. destruct (decide (j = i)) as [->|Hne].
  - rewrite list_lookup_alter_eq, Hx, list_lookup_insert_eq; [done|by eapply lookup_lt_Some].
  - by rewrite list_lookup_alter_ne, list_lookup_insert_ne.
Qed.

Lemma foldr_min_le a (l : list Z) : foldr Z.min a l ≤ a.
Proof. induction l as [|x l IH]; simpl; lia. Qed.

Lemma foldr_min_min a b (l : list Z) : foldr Z.min (Z.min a b) l = Z.min (foldr Z.min b l) a.
Proof. induction l as [|x l IH]; simpl; [lia|]. rewrite IH. lia. Qed.

(** ** The kernel monad

    Kernel code is a state transformer with an outcome.  [W] is the kernel
    state.  Code that gives up the CPU calls [swtch] (assembly), and other
    code runs until the scheduler switches back: what that code does to the
    state is an input of the model, a list of transformers, one per return
    from [swtch].  When the list is used up the caller is never resumed. *)

Inductive outcome (W A : Type) : Type :=
| Ret (a : A) (s : W) (e : list (W → W))   (* returned [a] *)
| Panic (msg : string)                     (* called panic(msg) *)
| Switched (s : W)                         (* off the CPU, never resumed *)
| Spins (s : W)                            (* busy-waits for ever *)
| Fault (why : string).                    (* invalid memory access *)
Arguments Ret {W A} a s e.
Arguments Panic {W A} msg.
Arguments Switched {W A} s.
Arguments Spins {W A} s.
Arguments Fault {W A} why.

Definition M (W A : Type) : Type := W → list (W → W) → outcome W A.

Declare Scope kernel_scope.
Delimit Scope kernel_scope with kernel.

Section monad.
Context {W : Type}.

Definition ret {A} (a : A) : M W A := λ s e, Ret a s e.

Definition bind {A B} (m : M W A) (k : A → M W B) : M W B := λ s e,
  match m s e with
  | Ret a s' e' => k a s' e'
  | Panic msg => Panic msg
  | Switched s' => Switched s'
  | Spins s' => Spins s'
  | Fault w => Fault w
  end.

Definition gets {A} (f : W → A) : M W A := λ s e, Ret (f s) s e.
Definition modify (f : W → W) : M W unit := λ s e, Ret tt (f s) e.
Definition panic {A} (msg : string) : M W A := λ _ _, Panic msg.
Definition fault {A} (why : string) : M W A := λ _ _, Fault why.
Definition spins {A} : M W A := λ s _, Spins s.

(** Give up the CPU; the environment's next transformer says in which state
    the CPU comes back. *)
Definition swtch : M W unit := λ s e,
  match e with
  | [] => Switched s
  | f :: e' => Ret tt (f s) e'
  end.

(** Dereference a pointer that may be null or dangling. *)
Definition deref {A} (o : option A) : M W A :=
  match o with Some a => ret a | None => fault "null pointer" end.

(** [for] over a list of indices; the body runs for its effect. *)
Fixpoint for_each {X} (l : list X) (body : X → M W unit) : M W unit :=
  match l with
  | [] => ret tt
  | x :: l' => bind (body x) (λ _, for_each l' body)
  end.

(** [for] whose body may return from the enclosing function. *)
Fixpoint for_ret {X R} (l : list X) (body : X → M W (option R)) : M W (option R) :=
  match l with
  | [] => ret None
  | x :: l' => bind (body x) (λ r, match r with
                                   | Some v => ret (Some v)
                                   | None => for_ret l' body
                                   end)
  end.

(** [while(cond) body] where the body may return from the enclosing function;
    [fuel] bounds the iterations. *)
Fixpoint while_ret {R} (fuel : nat) (cond : M W bool) (body : M W (option R))
    : M W (option R) :=
  match fuel with
  | O => fault "fuel"
  | S fuel' =>
      bind cond (λ b,
        if b : bool then
          bind body (λ r, match r with
                          | Some v => ret (Some v)
                          | None => while_ret fuel' cond body
                          end)
        else ret None)
  end.

(** A loop whose body sleeps in each iteration that does not return: every
    iteration uses one entry of the environment, so its length bounds them. *)
Definition while_sleep {R} (cond : M W bool) (body : M W (option R))
    : M W (option R) := λ s e, while_ret (S (length e)) cond body s e.

(** Total correctness: [m] returns, in a state and with a value in [Q]. *)
Definition wp {A} (m : M W A) (Q : A → W → list (W → W) → Prop) : W → list (W → W) → Prop :=
  λ s e, match m s e with Ret a s' e' => Q a s' e' | _ => False end.

Lemma wp_ret {A} (a : A) (Q : A → W → list (W → W) → Prop) s e :
  Q a s e → wp (ret a) Q s e.
Proof. done. Qed.

Lemma wp_bind {A B} (m : M W A) (k : A → M W B) Q s e :
  wp m (λ a, wp (k a) Q) s e → wp (bind m k) Q s e.
Proof. unfold wp, bind. by destruct (m s e). Qed.

Lemma wp_mono {A} (m : M W A) (Q Q' : A → W → list (W → W) → Prop) s e :
  wp m Q s e → (∀ a s' e', Q a s' e' → Q' a s' e') → wp m Q' s e.
Proof. unfold wp. destruct (m s e); naive_solver. Qed.

Lemma wp_eq {A} (m : M W A) (Q : A → W → list (W → W) → Prop) a s s' e e' :
  m s e = Ret a s' e' → Q a s' e' → wp m Q s e.
Proof. unfold wp. by intros ->. Qed.

Lemma wp_inv {A} (m : M W A) (Q : A → W → list (W → W) → Prop) s e :
  wp m Q s e → ∃ a s' e', m s e = Ret a s' e' ∧ Q a s' e'.
Proof. unfold wp. destruct (m s e); naive_solver. Qed.

Lemma bind_ret_l {A B} (a : A) (k : A → M W B) s e : bind (ret a) k s e = k a s e.
Proof. done. Qed.

Lemma bind_gets {A B} (f : W → A) (k : A → M W B) s e : bind (gets f) k s e = k (f s) s e.
Proof. done. Qed.

Lemma bind_modify {B} (f : W → W) (k : unit → M W B) s e :
  bind (modify f) k s e = k tt (f s) e.
Proof. done. Qed.

Lemma bind_deref {A B} (a : A) (k : A → M W B) s e : bind (deref (Some a)) k s e = k a s e.
Proof. done. Qed.

Lemma bind_assoc {A B C} (m : M W A) (k : A → M W B) (h : B → M W C) s e :
  bind (bind m k) h s e = bind m (λ a, bind (k a) h) s e.
Proof. unfold bind. by destruct (m s e). Qed.

Lemma bind_run {A B} (m : M W A) (k : A → M W B) s e a s' e' :
  m s e = Ret a s' e' → bind m k s e = k a s' e'.
Proof. unfold bind. by intros ->. Qed.

Lemma bind_inv {A B} (m : M W A) (k : A → M W B) s e b s' e' :
  bind m k s e = Ret b s' e' →
  ∃ a s1 e1, m s e = Ret a s1 e1 ∧ k a s1 e1 = Ret b s' e'.
Proof. unfold bind. destruct (m s e); naive_solver. Qed.

Lemma bind_ext {A B} (m : M W A) (k k' : A → M W B) s e :
  (∀ a s' e', k a s' e' = k' a s' e') → bind m k s e = bind m k' s e.
Proof. intros H. unfold bind. destruct (m s e); [apply H|done..]. Qed.

Lemma bind3_run {A B C D} (m1 : M W A) (m2 : M W B) (m3 : M W C) (k : C → M W D) s e c s' e' :
  bind m1 (λ _, bind m2 (λ _, m3)) s e = Ret c s' e' →
  bind m1 (λ _, bind m2 (λ _, bind m3 k)) s e = k c s' e'.
Proof.
  intros H. rewrite <- (bind_run _ k _ _ _ _ _ H), bind_assoc. apply bind_ext. intros. by rewrite bind_assoc.
Qed.

Lemma for_each_app {X} (l l' : list X) (body : X → M W unit) s e :
  for_each (l ++ l') body s e = bind (for_each l body) (λ _, for_each l' body) s e.
Proof.
  revert s e. induction l as [|x l IH]; intros s e; simpl; [done|]. rewrite bind_assoc.
  by apply bind_ext.
Qed.

Lemma while_sleep_false {R} (cond : M W bool) (body : M W (option R)) s e s' e' :
  cond s e = Ret false s' e' → while_sleep cond body s e = Ret None s' e'.
Proof. intros H. unfold while_sleep. cbn [while_ret]. by rewrite (bind_run _ _ _ _ _ _ _ H). Qed.

End monad.

Notation "x <- c1 ;; c2" := (bind c1 (λ x, c2))
  (at level 100, c1 at next level, right associativity) : kernel_scope.
Notation "c1 ;; c2" := (bind c1 (λ _, c2))
  (at level 100, right associativity) : kernel_scope.

Create Rewrite HintDb kmonad.
#[export] Hint Rewrite @bind_ret_l @bind_gets @bind_modify @bind_deref @bind_assoc : kmonad.

(** ** Tactics *)

(** Run the pure and state-access prefix of a monadic computation. *)
Ltac mrun := autorewrite with kmonad.
Ltac msimpl := repeat (progress (autorewrite with kmonad; simpl)).

(** Run the first call of the computation by the lemma [H], which says what it
    returns; side conditions are left to [eauto] and [lia]. *)
Tactic Notation "mstep" uconstr(H) := rewrite (bind_run _ _ _ _ _ _ _ H).
Tactic Notation "mcall" uconstr(H) :=
  erewrite bind_run; [|eapply H; first [eassumption | lia | done | eauto with cint]].

(** Turn the boolean tests of the code into propositions. *)
Ltac bool_facts :=
  repeat match goal with
  | H : (_ =? _) = true |- _ => apply Z.eqb_eq in H
  | H : (_ =? _) = false |- _ => apply Z.eqb_neq in H
  | H : (_ <? _) = true |- _ => apply Z.ltb_lt in H
  | H : (_ <? _) = false |- _ => apply Z.ltb_ge in H
  | H : (_ <=? _) = true |- _ => apply Z.leb_le in H
  | H : (_ <=? _) = false |- _ => apply Z.leb_gt in H
  | H : (_ && _) = true |- _ => apply andb_true_iff in H as [? ?]
  | H : (_ || _) = false |- _ => apply orb_false_iff in H as [? ?]
  | H : negb _ = true |- _ => apply negb_true_iff in H
  | H : negb _ = false |- _ => apply negb_false_iff in H
  | H : bool_decide _ = true |- _ => apply bool_decide_eq_true in H
  | H : bool_decide _ = false |- _ => apply bool_decide_eq_false in H
  end.

(** Case on the test of the first [if] of the goal. *)
Ltac case_if :=
  match goal with
  | |- context [if ?b then _ else _] =>
      match type of b with bool => destruct b eqn:? end
  end.
