(* ===== verification/KState.v ===== *)
(** * The kernel state

    The data of the kernel: the C structures of proc.h, file.h, buf.h, fs.h,
    pipe.c, log.c, syscall.c and console.c as records, the enumerations as
    inductive types, and the global variables as the fields of [kstate].

    Pointers into a fixed table ([struct proc*], [struct inode*], [struct
    file*], [struct buf*]) are indices into that table, with [None] for the
    null pointer.  Pointers to allocated pages are addresses (a [Z], 0 for
    null).  Each record field [f] has a setter [set_f]. *)

From S2P Require Import Prelude.

(** ** Constants: param.h, fs.h, mmu.h, memlayout.h, stat.h, fcntl.h, strace.h *)

Definition NPROC : nat := 64.
Definition KSTACKSIZE : Z := 4096.
Definition NOFILE : nat := 16.
Definition NFILE : nat := 100.
Definition NINODE : nat := 50.
Definition NDEV : Z := 10.
Definition ROOTDEV : Z := 1.
Definition MAXARG : nat := 32.
Definition MAXOPBLOCKS : Z := 10.
Definition LOGSIZE : Z := MAXOPBLOCKS * 3.
Definition NBUF : nat := 30.
Definition FSSIZE : Z := 1000.

Definition ROOTINO : Z := 1.
Definition BSIZE : Z := 512.
Definition NDIRECT : nat := 12.
Definition NINDIRECT : nat := 128.
Definition MAXFILE : Z := 140.
Definition DIRSIZ : nat := 14.
Definition IPB : Z := 8.
Definition BPB : Z := 4096.

Definition T_DIR : Z := 1.
Definition T_FILE : Z := 2.
Definition T_DEV : Z := 3.

Definition O_RDONLY : Z := 0.
Definition O_WRONLY : Z := 1.
Definition O_RDWR : Z := 2.
Definition O_CREATE : Z := 512.

Definition T_UNSTRACE : Z := 0.
Definition T_STRACE : Z := 1.
Definition T_FORK : Z := 2.
Definition NDUMP : nat := 5.

Definition PGSIZE : Z := 4096.
Definition EXTMEM : Z := 1048576.
Definition PHYSTOP : Z := 234881024.
Definition DEVSPACE : Z := 4261412864.
Definition KERNBASE : Z := 2147483648.
Definition KERNLINK : Z := KERNBASE + EXTMEM.

(** The end of the kernel image ([end] and [data] of kernel.ld) depends on the
    link; it is a value of the state, fixed at boot. *)

(** ** Enumerations *)

(** [enum procstate] of proc.h. *)
Inductive procstate : Type :=
| UNUSED | EMBRYO | SLEEPING | RUNNABLE | RUNNING | ZOMBIE.

#[export] Instance procstate_eq_dec : EqDecision procstate.
Proof. solve_decision. Defined.

(** The objects that embed a [struct sleeplock]: a buffer, a cached inode. *)
Inductive sleepid : Type :=
| SLbuf (b : nat) | SLinode (i : nat).

#[export] Instance sleepid_eq_dec : EqDecision sleepid.
Proof. solve_decision. Defined.

#[export] Instance sleepid_countable : Countable sleepid.
Proof.
  refine (inj_countable'
    (λ l, match l with SLbuf b => inl b | SLinode i => inr i end)
    (λ x, match x with inl b => SLbuf b | inr i => SLinode i end) _).
  by intros [].
Defined.

(** The spinlocks of the kernel, one constructor per [struct spinlock]. *)
Inductive lockid : Type :=
| Lptable | Lkmem | Lbcache | Licache | Lftable | Llog | Lcons | Lide | Ltime
| Lpipe (page : Z) | Lsleep (l : sleepid).

#[export] Instance lockid_eq_dec : EqDecision lockid.
Proof. solve_decision. Defined.

#[export] Instance lockid_countable : Countable lockid.
Proof.
  refine (inj_countable'
    (λ l, match l with
          | Lptable => inl 0%nat | Lkmem => inl 1%nat | Lbcache => inl 2%nat
          | Licache => inl 3%nat | Lftable => inl 4%nat | Llog => inl 5%nat
          | Lcons => inl 6%nat | Lide => inl 7%nat | Ltime => inl 8%nat
          | Lpipe p => inr (inl p) | Lsleep l => inr (inr l)
          end)
    (λ x, match x with
          | inl 0%nat => Lptable | inl 1%nat => Lkmem | inl 2%nat => Lbcache
          | inl 3%nat => Licache | inl 4%nat => Lftable | inl 5%nat => Llog
          | inl 6%nat => Lcons | inl 7%nat => Lide | inl _ => Ltime
          | inr (inl p) => Lpipe p | inr (inr l) => Lsleep l
          end) _).
  by intros [].
Defined.

(** The addresses used as sleep channels.  They are addresses of distinct
    objects or fields, so equality of channels is equality of these values. *)
Inductive chan : Type :=
| ChProc (p : nat)          (* a [struct proc] *)
| ChTicks                   (* &ticks *)
| ChLog                     (* &log *)
| ChBuf (b : nat)           (* a [struct buf] *)
| ChSleep (l : sleepid)     (* a [struct sleeplock] *)
| ChPipeR (page : Z)        (* &p->nread *)
| ChPipeW (page : Z)        (* &p->nwrite *)
| ChInput.                  (* &input.r *)

#[export] Instance chan_eq_dec : EqDecision chan.
Proof. solve_decision. Defined.

(** The [type] of a [struct file]. *)
Inductive fdtype : Type := FD_NONE | FD_PIPE | FD_INODE.

#[export] Instance fdtype_eq_dec : EqDecision fdtype.
Proof. solve_decision. Defined.

(** The device drivers [devsw] can point to. *)
Inductive devfn : Type := consoledev.

(** ** Records *)

Set Primitive Projections.

(** [struct trapframe] of x86.h (the padding and the unused [oesp] left out). *)
Record trapframe : Type := Mktrapframe {
  tf_edi : Z;
  tf_esi : Z;
  tf_ebp : Z;
  tf_ebx : Z;
  tf_edx : Z;
  tf_ecx : Z;
  tf_eax : Z;
  tf_gs : Z;
  tf_fs : Z;
  tf_es : Z;
  tf_ds : Z;
  tf_trapno : Z;
  tf_err : Z;
  tf_eip : Z;
  tf_cs : Z;
  tf_eflags : Z;
  tf_esp : Z;
  tf_ss : Z
}.

Definition set_tf_edi (v : Z) (x : trapframe) : trapframe :=
  {| tf_edi := v; tf_esi := x.(tf_esi); tf_ebp := x.(tf_ebp); tf_ebx :=
     x.(tf_ebx); tf_edx := x.(tf_edx); tf_ecx := x.(tf_ecx); tf_eax :=
     x.(tf_eax); tf_gs := x.(tf_gs); tf_fs := x.(tf_fs); tf_es := x.(tf_es);
     tf_ds := x.(tf_ds); tf_trapno := x.(tf_trapno); tf_err := x.(tf_err);
     tf_eip := x.(tf_eip); tf_cs := x.(tf_cs); tf_eflags := x.(tf_eflags);
     tf_esp := x.(tf_esp); tf_ss := x.(tf_ss) |}.
Definition set_tf_esi (v : Z) (x : trapframe) : trapframe :=
  {| tf_edi := x.(tf_edi); tf_esi := v; tf_ebp := x.(tf_ebp); tf_ebx :=
     x.(tf_ebx); tf_edx := x.(tf_edx); tf_ecx := x.(tf_ecx); tf_eax :=
     x.(tf_eax); tf_gs := x.(tf_gs); tf_fs := x.(tf_fs); tf_es := x.(tf_es);
     tf_ds := x.(tf_ds); tf_trapno := x.(tf_trapno); tf_err := x.(tf_err);
     tf_eip := x.(tf_eip); tf_cs := x.(tf_cs); tf_eflags := x.(tf_eflags);
     tf_esp := x.(tf_esp); tf_ss := x.(tf_ss) |}.
Definition set_tf_ebp (v : Z) (x : trapframe) : trapframe :=
  {| tf_edi := x.(tf_edi); tf_esi := x.(tf_esi); tf_ebp := v; tf_ebx :=
     x.(tf_ebx); tf_edx := x.(tf_edx); tf_ecx := x.(tf_ecx); tf_eax :=
     x.(tf_eax); tf_gs := x.(tf_gs); tf_fs := x.(tf_fs); tf_es := x.(tf_es);
     tf_ds := x.(tf_ds); tf_trapno := x.(tf_trapno); tf_err := x.(tf_err);
     tf_eip := x.(tf_eip); tf_cs := x.(tf_cs); tf_eflags := x.(tf_eflags);
     tf_esp := x.(tf_esp); tf_ss := x.(tf_ss) |}.
Definition set_tf_ebx (v : Z) (x : trapframe) : trapframe :=
  {| tf_edi := x.(tf_edi); tf_esi := x.(tf_esi); tf_ebp := x.(tf_ebp); tf_ebx
     := v; tf_edx := x.(tf_edx); tf_ecx := x.(tf_ecx); tf_eax := x.(tf_eax);
     tf_gs := x.(tf_gs); tf_fs := x.(tf_fs); tf_es := x.(tf_es); tf_ds :=
     x.(tf_ds); tf_trapno := x.(tf_trapno); tf_err := x.(tf_err); tf_eip :=
     x.(tf_eip); tf_cs := x.(tf_cs); tf_eflags := x.(tf_eflags); tf_esp :=
     x.(tf_esp); tf_ss := x.(tf_ss) |}.
Definition set_tf_edx (v : Z) (x : trapframe) : trapframe :=
  {| tf_edi := x.(tf_edi); tf_esi := x.(tf_esi); tf_ebp := x.(tf_ebp); tf_ebx
     := x.(tf_ebx); tf_edx := v; tf_ecx := x.(tf_ecx); tf_eax := x.(tf_eax);
     tf_gs := x.(tf_gs); tf_fs := x.(tf_fs); tf_es := x.(tf_es); tf_ds :=
     x.(tf_ds); tf_trapno := x.(tf_trapno); tf_err := x.(tf_err); tf_eip :=
     x.(tf_eip); tf_cs := x.(tf_cs); tf_eflags := x.(tf_eflags); tf_esp :=
     x.(tf_esp); tf_ss := x.(tf_ss) |}.
Definition set_tf_ecx (v : Z) (x : trapframe) : trapframe :=
  {| tf_edi := x.(tf_edi); tf_esi := x.(tf_esi); tf_ebp := x.(tf_ebp); tf_ebx
     := x.(tf_ebx); tf_edx := x.(tf_edx); tf_ecx := v; tf_eax := x.(tf_eax);
     tf_gs := x.(tf_gs); tf_fs := x.(tf_fs); tf_es := x.(tf_es); tf_ds :=
     x.(tf_ds); tf_trapno := x.(tf_trapno); tf_err := x.(tf_err); tf_eip :=
     x.(tf_eip); tf_cs := x.(tf_cs); tf_eflags := x.(tf_eflags); tf_esp :=
     x.(tf_esp); tf_ss := x.(tf_ss) |}.
Definition set_tf_eax (v : Z) (x : trapframe) : trapframe :=
  {| tf_edi := x.(tf_edi); tf_esi := x.(tf_esi); tf_ebp := x.(tf_ebp); tf_ebx
     := x.(tf_ebx); tf_edx := x.(tf_edx); tf_ecx := x.(tf_ecx); tf_eax := v;
     tf_gs := x.(tf_gs); tf_fs := x.(tf_fs); tf_es := x.(tf_es); tf_ds :=
     x.(tf_ds); tf_trapno := x.(tf_trapno); tf_err := x.(tf_err); tf_eip :=
     x.(tf_eip); tf_cs := x.(tf_cs); tf_eflags := x.(tf_eflags); tf_esp :=
     x.(tf_esp); tf_ss := x.(tf_ss) |}.
Definition set_tf_gs (v : Z) (x : trapframe) : trapframe :=
  {| tf_edi := x.(tf_edi); tf_esi := x.(tf_esi); tf_ebp := x.(tf_ebp); tf_ebx
     := x.(tf_ebx); tf_edx := x.(tf_edx); tf_ecx := x.(tf_ecx); tf_eax :=
     x.(tf_eax); tf_gs := v; tf_fs := x.(tf_fs); tf_es := x.(tf_es); tf_ds :=
     x.(tf_ds); tf_trapno := x.(tf_trapno); tf_err := x.(tf_err); tf_eip :=
     x.(tf_eip); tf_cs := x.(tf_cs); tf_eflags := x.(tf_eflags); tf_esp :=
     x.(tf_esp); tf_ss := x.(tf_ss) |}.
Definition set_tf_fs (v : Z) (x : trapframe) : trapframe :=
  {| tf_edi := x.(tf_edi); tf_esi := x.(tf_esi); tf_ebp := x.(tf_ebp); tf_ebx
     := x.(tf_ebx); tf_edx := x.(tf_edx); tf_ecx := x.(tf_ecx); tf_eax :=
     x.(tf_eax); tf_gs := x.(tf_gs); tf_fs := v; tf_es := x.(tf_es); tf_ds :=
     x.(tf_ds); tf_trapno := x.(tf_trapno); tf_err := x.(tf_err); tf_eip :=
     x.(tf_eip); tf_cs := x.(tf_cs); tf_eflags := x.(tf_eflags); tf_esp :=
     x.(tf_esp); tf_ss := x.(tf_ss) |}.
Definition set_tf_es (v : Z) (x : trapframe) : trapframe :=
  {| tf_edi := x.(tf_edi); tf_esi := x.(tf_esi); tf_ebp := x.(tf_ebp); tf_ebx
     := x.(tf_ebx); tf_edx := x.(tf_edx); tf_ecx := x.(tf_ecx); tf_eax :=
     x.(tf_eax); tf_gs := x.(tf_gs); tf_fs := x.(tf_fs); tf_es := v; tf_ds :=
     x.(tf_ds); tf_trapno := x.(tf_trapno); tf_err := x.(tf_err); tf_eip :=
     x.(tf_eip); tf_cs := x.(tf_cs); tf_eflags := x.(tf_eflags); tf_esp :=
     x.(tf_esp); tf_ss := x.(tf_ss) |}.
Definition set_tf_ds (v : Z) (x : trapframe) : trapframe :=
  {| tf_edi := x.(tf_edi); tf_esi := x.(tf_esi); tf_ebp := x.(tf_ebp); tf_ebx
     := x.(tf_ebx); tf_edx := x.(tf_edx); tf_ecx := x.(tf_ecx); tf_eax :=
     x.(tf_eax); tf_gs := x.(tf_gs); tf_fs := x.(tf_fs); tf_es := x.(tf_es);
     tf_ds := v; tf_trapno := x.(tf_trapno); tf_err := x.(tf_err); tf_eip :=
     x.(tf_eip); tf_cs := x.(tf_cs); tf_eflags := x.(tf_eflags); tf_esp :=
     x.(tf_esp); tf_ss := x.(tf_ss) |}.
Definition set_tf_trapno (v : Z) (x : trapframe) : trapframe :=
  {| tf_edi := x.(tf_edi); tf_esi := x.(tf_esi); tf_ebp := x.(tf_ebp); tf_ebx
     := x.(tf_ebx); tf_edx := x.(tf_edx); tf_ecx := x.(tf_ecx); tf_eax :=
     x.(tf_eax); tf_gs := x.(tf_gs); tf_fs := x.(tf_fs); tf_es := x.(tf_es);
     tf_ds := x.(tf_ds); tf_trapno := v; tf_err := x.(tf_err); tf_eip :=
     x.(tf_eip); tf_cs := x.(tf_cs); tf_eflags := x.(tf_eflags); tf_esp :=
     x.(tf_esp); tf_ss := x.(tf_ss) |}.
Definition set_tf_err (v : Z) (x : trapframe) : trapframe :=
  {| tf_edi := x.(tf_edi); tf_esi := x.(tf_esi); tf_ebp := x.(tf_ebp); tf_ebx
     := x.(tf_ebx); tf_edx := x.(tf_edx); tf_ecx := x.(tf_ecx); tf_eax :=
     x.(tf_eax); tf_gs := x.(tf_gs); tf_fs := x.(tf_fs); tf_es := x.(tf_es);
     tf_ds := x.(tf_ds); tf_trapno := x.(tf_trapno); tf_err := v; tf_eip :=
     x.(tf_eip); tf_cs := x.(tf_cs); tf_eflags := x.(tf_eflags); tf_esp :=
     x.(tf_esp); tf_ss := x.(tf_ss) |}.
Definition set_tf_eip (v : Z) (x : trapframe) : trapframe :=
  {| tf_edi := x.(tf_edi); tf_esi := x.(tf_esi); tf_ebp := x.(tf_ebp); tf_ebx
     := x.(tf_ebx); tf_edx := x.(tf_edx); tf_ecx := x.(tf_ecx); tf_eax :=
     x.(tf_eax); tf_gs := x.(tf_gs); tf_fs := x.(tf_fs); tf_es := x.(tf_es);
     tf_ds := x.(tf_ds); tf_trapno := x.(tf_trapno); tf_err := x.(tf_err);
     tf_eip := v; tf_cs := x.(tf_cs); tf_eflags := x.(tf_eflags); tf_esp :=
     x.(tf_esp); tf_ss := x.(tf_ss) |}.
Definition set_tf_cs (v : Z) (x : trapframe) : trapframe :=
  {| tf_edi := x.(tf_edi); tf_esi := x.(tf_esi); tf_ebp := x.(tf_ebp); tf_ebx
     := x.(tf_ebx); tf_edx := x.(tf_edx); tf_ecx := x.(tf_ecx); tf_eax :=
     x.(tf_eax); tf_gs := x.(tf_gs); tf_fs := x.(tf_fs); tf_es := x.(tf_es);
     tf_ds := x.(tf_ds); tf_trapno := x.(tf_trapno); tf_err := x.(tf_err);
     tf_eip := x.(tf_eip); tf_cs := v; tf_eflags := x.(tf_eflags); tf_esp :=
     x.(tf_esp); tf_ss := x.(tf_ss) |}.
Definition set_tf_eflags (v : Z) (x : trapframe) : trapframe :=
  {| tf_edi := x.(tf_edi); tf_esi := x.(tf_esi); tf_ebp := x.(tf_ebp); tf_ebx
     := x.(tf_ebx); tf_edx := x.(tf_edx); tf_ecx := x.(tf_ecx); tf_eax :=
     x.(tf_eax); tf_gs := x.(tf_gs); tf_fs := x.(tf_fs); tf_es := x.(tf_es);
     tf_ds := x.(tf_ds); tf_trapno := x.(tf_trapno); tf_err := x.(tf_err);
     tf_eip := x.(tf_eip); tf_cs := x.(tf_cs); tf_eflags := v; tf_esp :=
     x.(tf_esp); tf_ss := x.(tf_ss) |}.
Definition set_tf_esp (v : Z) (x : trapframe) : trapframe :=
  {| tf_edi := x.(tf_edi); tf_esi := x.(tf_esi); tf_ebp := x.(tf_ebp); tf_ebx
     := x.(tf_ebx); tf_edx := x.(tf_edx); tf_ecx := x.(tf_ecx); tf_eax :=
     x.(tf_eax); tf_gs := x.(tf_gs); tf_fs := x.(tf_fs); tf_es := x.(tf_es);
     tf_ds := x.(tf_ds); tf_trapno := x.(tf_trapno); tf_err := x.(tf_err);
     tf_eip := x.(tf_eip); tf_cs := x.(tf_cs); tf_eflags := x.(tf_eflags);
     tf_esp := v; tf_ss := x.(tf_ss) |}.
Definition set_tf_ss (v : Z) (x : trapframe) : trapframe :=
  {| tf_edi := x.(tf_edi); tf_esi := x.(tf_esi); tf_ebp := x.(tf_ebp); tf_ebx
     := x.(tf_ebx); tf_edx := x.(tf_edx); tf_ecx := x.(tf_ecx); tf_eax :=
     x.(tf_eax); tf_gs := x.(tf_gs); tf_fs := x.(tf_fs); tf_es := x.(tf_es);
     tf_ds := x.(tf_ds); tf_trapno := x.(tf_trapno); tf_err := x.(tf_err);
     tf_eip := x.(tf_eip); tf_cs := x.(tf_cs); tf_eflags := x.(tf_eflags);
     tf_esp := x.(tf_esp); tf_ss := v |}.

(** [struct context] of proc.h. *)
Record context : Type := Mkcontext {
  cx_edi : Z;
  cx_esi : Z;
  cx_ebx : Z;
  cx_ebp : Z;
  cx_eip : Z
}.

Definition set_cx_edi (v : Z) (x : context) : context :=
  {| cx_edi := v; cx_esi := x.(cx_esi); cx_ebx := x.(cx_ebx); cx_ebp :=
     x.(cx_ebp); cx_eip := x.(cx_eip) |}.
Definition set_cx_esi (v : Z) (x : context) : context :=
  {| cx_edi := x.(cx_edi); cx_esi := v; cx_ebx := x.(cx_ebx); cx_ebp :=
     x.(cx_ebp); cx_eip := x.(cx_eip) |}.
Definition set_cx_ebx (v : Z) (x : context) : context :=
  {| cx_edi := x.(cx_edi); cx_esi := x.(cx_esi); cx_ebx := v; cx_ebp :=
     x.(cx_ebp); cx_eip := x.(cx_eip) |}.
Definition set_cx_ebp (v : Z) (x : context) : context :=
  {| cx_edi := x.(cx_edi); cx_esi := x.(cx_esi); cx_ebx := x.(cx_ebx); cx_ebp
     := v; cx_eip := x.(cx_eip) |}.
Definition set_cx_eip (v : Z) (x : context) : context :=
  {| cx_edi := x.(cx_edi); cx_esi := x.(cx_esi); cx_ebx := x.(cx_ebx); cx_ebp
     := x.(cx_ebp); cx_eip := v |}.

(** [struct proc] of proc.h. *)
Record proc : Type := Mkproc {
  p_sz : Z;
  p_pgdir : Z;
  p_kstack : Z;
  p_state : procstate;
  p_pid : Z;
  p_parent : option nat;
  p_tf : trapframe;
  p_context : context;
  p_chan : option chan;
  p_killed : Z;
  p_ofile : list (option nat);
  p_cwd : option nat;
  p_name : list Z;
  p_nice : Z;
  p_priority : Z;
  p_original_priority : Z;
  p_straced : Z
}.

Definition set_p_sz (v : Z) (x : proc) : proc :=
  {| p_sz := v; p_pgdir := x.(p_pgdir); p_kstack := x.(p_kstack); p_state :=
     x.(p_state); p_pid := x.(p_pid); p_parent := x.(p_parent); p_tf :=
     x.(p_tf); p_context := x.(p_context); p_chan := x.(p_chan); p_killed :=
     x.(p_killed); p_ofile := x.(p_ofile); p_cwd := x.(p_cwd); p_name :=
     x.(p_name); p_nice := x.(p_nice); p_priority := x.(p_priority);
     p_original_priority := x.(p_original_priority); p_straced :=
     x.(p_straced) |}.
Definition set_p_pgdir (v : Z) (x : proc) : proc :=
  {| p_sz := x.(p_sz); p_pgdir := v; p_kstack := x.(p_kstack); p_state :=
     x.(p_state); p_pid := x.(p_pid); p_parent := x.(p_parent); p_tf :=
     x.(p_tf); p_context := x.(p_context); p_chan := x.(p_chan); p_killed :=
     x.(p_killed); p_ofile := x.(p_ofile); p_cwd := x.(p_cwd); p_name :=
     x.(p_name); p_nice := x.(p_nice); p_priority := x.(p_priority);
     p_original_priority := x.(p_original_priority); p_straced :=
     x.(p_straced) |}.
Definition set_p_kstack (v : Z) (x : proc) : proc :=
  {| p_sz := x.(p_sz); p_pgdir := x.(p_pgdir); p_kstack := v; p_state :=
     x.(p_state); p_pid := x.(p_pid); p_parent := x.(p_parent); p_tf :=
     x.(p_tf); p_context := x.(p_context); p_chan := x.(p_chan); p_killed :=
     x.(p_killed); p_ofile := x.(p_ofile); p_cwd := x.(p_cwd); p_name :=
     x.(p_name); p_nice := x.(p_nice); p_priority := x.(p_priority);
     p_original_priority := x.(p_original_priority); p_straced :=
     x.(p_straced) |}.
Definition set_p_state (v : procstate) (x : proc) : proc :=
  {| p_sz := x.(p_sz); p_pgdir := x.(p_pgdir); p_kstack := x.(p_kstack);
     p_state := v; p_pid := x.(p_pid); p_parent := x.(p_parent); p_tf :=
     x.(p_tf); p_context := x.(p_context); p_chan := x.(p_chan); p_killed :=
     x.(p_killed); p_ofile := x.(p_ofile); p_cwd := x.(p_cwd); p_name :=
     x.(p_name); p_nice := x.(p_nice); p_priority := x.(p_priority);
     p_original_priority := x.(p_original_priority); p_straced :=
     x.(p_straced) |}.
Definition set_p_pid (v : Z) (x : proc) : proc :=
  {| p_sz := x.(p_sz); p_pgdir := x.(p_pgdir); p_kstack := x.(p_kstack);
     p_state := x.(p_state); p_pid := v; p_parent := x.(p_parent); p_tf :=
     x.(p_tf); p_context := x.(p_context); p_chan := x.(p_chan); p_killed :=
     x.(p_killed); p_ofile := x.(p_ofile); p_cwd := x.(p_cwd); p_name :=
     x.(p_name); p_nice := x.(p_nice); p_priority := x.(p_priority);
     p_original_priority := x.(p_original_priority); p_straced :=
     x.(p_straced) |}.
Definition set_p_parent (v : option nat) (x : proc) : proc :=
  {| p_sz := x.(p_sz); p_pgdir := x.(p_pgdir); p_kstack := x.(p_kstack);
     p_state := x.(p_state); p_pid := x.(p_pid); p_parent := v; p_tf :=
     x.(p_tf); p_context := x.(p_context); p_chan := x.(p_chan); p_killed :=
     x.(p_killed); p_ofile := x.(p_ofile); p_cwd := x.(p_cwd); p_name :=
     x.(p_name); p_nice := x.(p_nice); p_priority := x.(p_priority);
     p_original_priority := x.(p_original_priority); p_straced :=
     x.(p_straced) |}.
Definition set_p_tf (v : trapframe) (x : proc) : proc :=
  {| p_sz := x.(p_sz); p_pgdir := x.(p_pgdir); p_kstack := x.(p_kstack);
     p_state := x.(p_state); p_pid := x.(p_pid); p_parent := x.(p_parent);
     p_tf := v; p_context := x.(p_context); p_chan := x.(p_chan); p_killed :=
     x.(p_killed); p_ofile := x.(p_ofile); p_cwd := x.(p_cwd); p_name :=
     x.(p_name); p_nice := x.(p_nice); p_priority := x.(p_priority);
     p_original_priority := x.(p_original_priority); p_straced :=
     x.(p_straced) |}.
Definition set_p_context (v : context) (x : proc) : proc :=
  {| p_sz := x.(p_sz); p_pgdir := x.(p_pgdir); p_kstack := x.(p_kstack);
     p_state := x.(p_state); p_pid := x.(p_pid); p_parent := x.(p_parent);
     p_tf := x.(p_tf); p_context := v; p_chan := x.(p_chan); p_killed :=
     x.(p_killed); p_ofile := x.(p_ofile); p_cwd := x.(p_cwd); p_name :=
     x.(p_name); p_nice := x.(p_nice); p_priority := x.(p_priority);
     p_original_priority := x.(p_original_priority); p_straced :=
     x.(p_straced) |}.
Definition set_p_chan (v : option chan) (x : proc) : proc :=
  {| p_sz := x.(p_sz); p_pgdir := x.(p_pgdir); p_kstack := x.(p_kstack);
     p_state := x.(p_state); p_pid := x.(p_pid); p_parent := x.(p_parent);
     p_tf := x.(p_tf); p_context := x.(p_context); p_chan := v; p_killed :=
     x.(p_killed); p_ofile := x.(p_ofile); p_cwd := x.(p_cwd); p_name :=
     x.(p_name); p_nice := x.(p_nice); p_priority := x.(p_priority);
     p_original_priority := x.(p_original_priority); p_straced :=
     x.(p_straced) |}.
Definition set_p_killed (v : Z) (x : proc) : proc :=
  {| p_sz := x.(p_sz); p_pgdir := x.(p_pgdir); p_kstack := x.(p_kstack);
     p_state := x.(p_state); p_pid := x.(p_pid); p_parent := x.(p_parent);
     p_tf := x.(p_tf); p_context := x.(p_context); p_chan := x.(p_chan);
     p_killed := v; p_ofile := x.(p_ofile); p_cwd := x.(p_cwd); p_name :=
     x.(p_name); p_nice := x.(p_nice); p_priority := x.(p_priority);
     p_original_priority := x.(p_original_priority); p_straced :=
     x.(p_straced) |}.
Definition set_p_ofile (v : list (option nat)) (x : proc) : proc :=
  {| p_sz := x.(p_sz); p_pgdir := x.(p_pgdir); p_kstack := x.(p_kstack);
     p_state := x.(p_state); p_pid := x.(p_pid); p_parent := x.(p_parent);
     p_tf := x.(p_tf); p_context := x.(p_context); p_chan := x.(p_chan);
     p_killed := x.(p_killed); p_ofile := v; p_cwd := x.(p_cwd); p_name :=
     x.(p_name); p_nice := x.(p_nice); p_priority := x.(p_priority);
     p_original_priority := x.(p_original_priority); p_straced :=
     x.(p_straced) |}.
Definition set_p_cwd (v : option nat) (x : proc) : proc :=
  {| p_sz := x.(p_sz); p_pgdir := x.(p_pgdir); p_kstack := x.(p_kstack);
     p_state := x.(p_state); p_pid := x.(p_pid); p_parent := x.(p_parent);
     p_tf := x.(p_tf); p_context := x.(p_context); p_chan := x.(p_chan);
     p_killed := x.(p_killed); p_ofile := x.(p_ofile); p_cwd := v; p_name :=
     x.(p_name); p_nice := x.(p_nice); p_priority := x.(p_priority);
     p_original_priority := x.(p_original_priority); p_straced :=
     x.(p_straced) |}.
Definition set_p_name (v : list Z) (x : proc) : proc :=
  {| p_sz := x.(p_sz); p_pgdir := x.(p_pgdir); p_kstack := x.(p_kstack);
     p_state := x.(p_state); p_pid := x.(p_pid); p_parent := x.(p_parent);
     p_tf := x.(p_tf); p_context := x.(p_context); p_chan := x.(p_chan);
     p_killed := x.(p_killed); p_ofile := x.(p_ofile); p_cwd := x.(p_cwd);
     p_name := v; p_nice := x.(p_nice); p_priority := x.(p_priority);
     p_original_priority := x.(p_original_priority); p_straced :=
     x.(p_straced) |}.
Definition set_p_nice (v : Z) (x : proc) : proc :=
  {| p_sz := x.(p_sz); p_pgdir := x.(p_pgdir); p_kstack := x.(p_kstack);
     p_state := x.(p_state); p_pid := x.(p_pid); p_parent := x.(p_parent);
     p_tf := x.(p_tf); p_context := x.(p_context); p_chan := x.(p_chan);
     p_killed := x.(p_killed); p_ofile := x.(p_ofile); p_cwd := x.(p_cwd);
     p_name := x.(p_name); p_nice := v; p_priority := x.(p_priority);
     p_original_priority := x.(p_original_priority); p_straced :=
     x.(p_straced) |}.
Definition set_p_priority (v : Z) (x : proc) : proc :=
  {| p_sz := x.(p_sz); p_pgdir := x.(p_pgdir); p_kstack := x.(p_kstack);
     p_state := x.(p_state); p_pid := x.(p_pid); p_parent := x.(p_parent);
     p_tf := x.(p_tf); p_context := x.(p_context); p_chan := x.(p_chan);
     p_killed := x.(p_killed); p_ofile := x.(p_ofile); p_cwd := x.(p_cwd);
     p_name := x.(p_name); p_nice := x.(p_nice); p_priority := v;
     p_original_priority := x.(p_original_priority); p_straced :=
     x.(p_straced) |}.
Definition set_p_original_priority (v : Z) (x : proc) : proc :=
  {| p_sz := x.(p_sz); p_pgdir := x.(p_pgdir); p_kstack := x.(p_kstack);
     p_state := x.(p_state); p_pid := x.(p_pid); p_parent := x.(p_parent);
     p_tf := x.(p_tf); p_context := x.(p_context); p_chan := x.(p_chan);
     p_killed := x.(p_killed); p_ofile := x.(p_ofile); p_cwd := x.(p_cwd);
     p_name := x.(p_name); p_nice := x.(p_nice); p_priority := x.(p_priority);
     p_original_priority := v; p_straced := x.(p_straced) |}.
Definition set_p_straced (v : Z) (x : proc) : proc :=
  {| p_sz := x.(p_sz); p_pgdir := x.(p_pgdir); p_kstack := x.(p_kstack);
     p_state := x.(p_state); p_pid := x.(p_pid); p_parent := x.(p_parent);
     p_tf := x.(p_tf); p_context := x.(p_context); p_chan := x.(p_chan);
     p_killed := x.(p_killed); p_ofile := x.(p_ofile); p_cwd := x.(p_cwd);
     p_name := x.(p_name); p_nice := x.(p_nice); p_priority := x.(p_priority);
     p_original_priority := x.(p_original_priority); p_straced := v |}.

(** [struct lock] of proc.h, the user-visible locks of [sys_lock]. *)
Record ulock : Type := Mkulock {
  l_id : Z;
  l_held : Z;
  l_holder : option nat
}.

Definition set_l_id (v : Z) (x : ulock) : ulock :=
  {| l_id := v; l_held := x.(l_held); l_holder := x.(l_holder) |}.
Definition set_l_held (v : Z) (x : ulock) : ulock :=
  {| l_id := x.(l_id); l_held := v; l_holder := x.(l_holder) |}.
Definition set_l_holder (v : option nat) (x : ulock) : ulock :=
  {| l_id := x.(l_id); l_held := x.(l_held); l_holder := v |}.

(** The [struct cpu] of the running CPU, its interrupt flag (FL_IF of
    %eflags), its page-table register and the
    kernel stack pointer of its task state ([ts.esp0]). *)
Record cpu : Type := Mkcpu {
  c_id : nat;
  c_ncli : Z;
  c_intena : Z;
  c_if : bool;
  c_proc : option nat;
  c_cr3 : Z;
  c_esp0 : Z
}.

Definition set_c_id (v : nat) (x : cpu) : cpu :=
  {| c_id := v; c_ncli := x.(c_ncli); c_intena := x.(c_intena); c_if :=
     x.(c_if); c_proc := x.(c_proc); c_cr3 := x.(c_cr3); c_esp0 := x.(c_esp0)
     |}.
Definition set_c_ncli (v : Z) (x : cpu) : cpu :=
  {| c_id := x.(c_id); c_ncli := v; c_intena := x.(c_intena); c_if :=
     x.(c_if); c_proc := x.(c_proc); c_cr3 := x.(c_cr3); c_esp0 := x.(c_esp0)
     |}.
Definition set_c_intena (v : Z) (x : cpu) : cpu :=
  {| c_id := x.(c_id); c_ncli := x.(c_ncli); c_intena := v; c_if := x.(c_if);
     c_proc := x.(c_proc); c_cr3 := x.(c_cr3); c_esp0 := x.(c_esp0) |}.
Definition set_c_if (v : bool) (x : cpu) : cpu :=
  {| c_id := x.(c_id); c_ncli := x.(c_ncli); c_intena := x.(c_intena); c_if :=
     v; c_proc := x.(c_proc); c_cr3 := x.(c_cr3); c_esp0 := x.(c_esp0) |}.
Definition set_c_proc (v : option nat) (x : cpu) : cpu :=
  {| c_id := x.(c_id); c_ncli := x.(c_ncli); c_intena := x.(c_intena); c_if :=
     x.(c_if); c_proc := v; c_cr3 := x.(c_cr3); c_esp0 := x.(c_esp0) |}.
Definition set_c_cr3 (v : Z) (x : cpu) : cpu :=
  {| c_id := x.(c_id); c_ncli := x.(c_ncli); c_intena := x.(c_intena); c_if :=
     x.(c_if); c_proc := x.(c_proc); c_cr3 := v; c_esp0 := x.(c_esp0) |}.
Definition set_c_esp0 (v : Z) (x : cpu) : cpu :=
  {| c_id := x.(c_id); c_ncli := x.(c_ncli); c_intena := x.(c_intena); c_if :=
     x.(c_if); c_proc := x.(c_proc); c_cr3 := x.(c_cr3); c_esp0 := v |}.

(** The globals of proc.c ([ptable.proc], [initproc], [nextpid], [locks],
    [forkret]'s [first]) and [ticks] of trap.c. *)
Record ptstate : Type := Mkptstate {
  pt_proc : list proc;
  pt_initproc : option nat;
  pt_nextpid : Z;
  pt_locks : list ulock;
  pt_first : Z;
  pt_ticks : Z
}.

Definition set_pt_proc (v : list proc) (x : ptstate) : ptstate :=
  {| pt_proc := v; pt_initproc := x.(pt_initproc); pt_nextpid :=
     x.(pt_nextpid); pt_locks := x.(pt_locks); pt_first := x.(pt_first);
     pt_ticks := x.(pt_ticks) |}.
Definition set_pt_initproc (v : option nat) (x : ptstate) : ptstate :=
  {| pt_proc := x.(pt_proc); pt_initproc := v; pt_nextpid := x.(pt_nextpid);
     pt_locks := x.(pt_locks); pt_first := x.(pt_first); pt_ticks :=
     x.(pt_ticks) |}.
Definition set_pt_nextpid (v : Z) (x : ptstate) : ptstate :=
  {| pt_proc := x.(pt_proc); pt_initproc := x.(pt_initproc); pt_nextpid := v;
     pt_locks := x.(pt_locks); pt_first := x.(pt_first); pt_ticks :=
     x.(pt_ticks) |}.
Definition set_pt_locks (v : list ulock) (x : ptstate) : ptstate :=
  {| pt_proc := x.(pt_proc); pt_initproc := x.(pt_initproc); pt_nextpid :=
     x.(pt_nextpid); pt_locks := v; pt_first := x.(pt_first); pt_ticks :=
     x.(pt_ticks) |}.
Definition set_pt_first (v : Z) (x : ptstate) : ptstate :=
  {| pt_proc := x.(pt_proc); pt_initproc := x.(pt_initproc); pt_nextpid :=
     x.(pt_nextpid); pt_locks := x.(pt_locks); pt_first := v; pt_ticks :=
     x.(pt_ticks) |}.
Definition set_pt_ticks (v : Z) (x : ptstate) : ptstate :=
  {| pt_proc := x.(pt_proc); pt_initproc := x.(pt_initproc); pt_nextpid :=
     x.(pt_nextpid); pt_locks := x.(pt_locks); pt_first := x.(pt_first);
     pt_ticks := v |}.

(** [struct pipe] of pipe.c (its lock is [Lpipe]). *)
Record pipe : Type := Mkpipe {
  pi_data : list Z;
  pi_nread : Z;
  pi_nwrite : Z;
  pi_readopen : Z;
  pi_writeopen : Z
}.

Definition set_pi_data (v : list Z) (x : pipe) : pipe :=
  {| pi_data := v; pi_nread := x.(pi_nread); pi_nwrite := x.(pi_nwrite);
     pi_readopen := x.(pi_readopen); pi_writeopen := x.(pi_writeopen) |}.
Definition set_pi_nread (v : Z) (x : pipe) : pipe :=
  {| pi_data := x.(pi_data); pi_nread := v; pi_nwrite := x.(pi_nwrite);
     pi_readopen := x.(pi_readopen); pi_writeopen := x.(pi_writeopen) |}.
Definition set_pi_nwrite (v : Z) (x : pipe) : pipe :=
  {| pi_data := x.(pi_data); pi_nread := x.(pi_nread); pi_nwrite := v;
     pi_readopen := x.(pi_readopen); pi_writeopen := x.(pi_writeopen) |}.
Definition set_pi_readopen (v : Z) (x : pipe) : pipe :=
  {| pi_data := x.(pi_data); pi_nread := x.(pi_nread); pi_nwrite :=
     x.(pi_nwrite); pi_readopen := v; pi_writeopen := x.(pi_writeopen) |}.
Definition set_pi_writeopen (v : Z) (x : pipe) : pipe :=
  {| pi_data := x.(pi_data); pi_nread := x.(pi_nread); pi_nwrite :=
     x.(pi_nwrite); pi_readopen := x.(pi_readopen); pi_writeopen := v |}.

(** Physical memory, by the kernel virtual address of each byte; [kmem] of
    kalloc.c; [kpgdir] of vm.c; the linker symbols [end] and [data] and the
    addresses of forkret and of the return from cpunum in mycpu; and the
    pages that hold a [struct pipe]. *)
Record memstate : Type := Mkmemstate {
  m_byte : Z → Z;
  m_freelist : Z;
  m_use_lock : Z;
  m_kpgdir : Z;
  m_end : Z;
  m_data : Z;
  m_forkret : Z;
  m_mycpu : Z;
  m_pipes : gmap Z pipe
}.

Definition set_m_byte (v : Z → Z) (x : memstate) : memstate :=
  {| m_byte := v; m_freelist := x.(m_freelist); m_use_lock := x.(m_use_lock);
     m_kpgdir := x.(m_kpgdir); m_end := x.(m_end); m_data := x.(m_data);
     m_forkret := x.(m_forkret); m_mycpu := x.(m_mycpu); m_pipes :=
     x.(m_pipes) |}.
Definition set_m_freelist (v : Z) (x : memstate) : memstate :=
  {| m_byte := x.(m_byte); m_freelist := v; m_use_lock := x.(m_use_lock);
     m_kpgdir := x.(m_kpgdir); m_end := x.(m_end); m_data := x.(m_data);
     m_forkret := x.(m_forkret); m_mycpu := x.(m_mycpu); m_pipes :=
     x.(m_pipes) |}.
Definition set_m_use_lock (v : Z) (x : memstate) : memstate :=
  {| m_byte := x.(m_byte); m_freelist := x.(m_freelist); m_use_lock := v;
     m_kpgdir := x.(m_kpgdir); m_end := x.(m_end); m_data := x.(m_data);
     m_forkret := x.(m_forkret); m_mycpu := x.(m_mycpu); m_pipes :=
     x.(m_pipes) |}.
Definition set_m_kpgdir (v : Z) (x : memstate) : memstate :=
  {| m_byte := x.(m_byte); m_freelist := x.(m_freelist); m_use_lock :=
     x.(m_use_lock); m_kpgdir := v; m_end := x.(m_end); m_data := x.(m_data);
     m_forkret := x.(m_forkret); m_mycpu := x.(m_mycpu); m_pipes :=
     x.(m_pipes) |}.
Definition set_m_end (v : Z) (x : memstate) : memstate :=
  {| m_byte := x.(m_byte); m_freelist := x.(m_freelist); m_use_lock :=
     x.(m_use_lock); m_kpgdir := x.(m_kpgdir); m_end := v; m_data :=
     x.(m_data); m_forkret := x.(m_forkret); m_mycpu := x.(m_mycpu); m_pipes
     := x.(m_pipes) |}.
Definition set_m_data (v : Z) (x : memstate) : memstate :=
  {| m_byte := x.(m_byte); m_freelist := x.(m_freelist); m_use_lock :=
     x.(m_use_lock); m_kpgdir := x.(m_kpgdir); m_end := x.(m_end); m_data :=
     v; m_forkret := x.(m_forkret); m_mycpu := x.(m_mycpu); m_pipes :=
     x.(m_pipes) |}.
Definition set_m_forkret (v : Z) (x : memstate) : memstate :=
  {| m_byte := x.(m_byte); m_freelist := x.(m_freelist); m_use_lock :=
     x.(m_use_lock); m_kpgdir := x.(m_kpgdir); m_end := x.(m_end); m_data :=
     x.(m_data); m_forkret := v; m_mycpu := x.(m_mycpu); m_pipes :=
     x.(m_pipes) |}.
Definition set_m_mycpu (v : Z) (x : memstate) : memstate :=
  {| m_byte := x.(m_byte); m_freelist := x.(m_freelist); m_use_lock :=
     x.(m_use_lock); m_kpgdir := x.(m_kpgdir); m_end := x.(m_end); m_data :=
     x.(m_data); m_forkret := x.(m_forkret); m_mycpu := v; m_pipes :=
     x.(m_pipes) |}.
Definition set_m_pipes (v : gmap Z pipe) (x : memstate) : memstate :=
  {| m_byte := x.(m_byte); m_freelist := x.(m_freelist); m_use_lock :=
     x.(m_use_lock); m_kpgdir := x.(m_kpgdir); m_end := x.(m_end); m_data :=
     x.(m_data); m_forkret := x.(m_forkret); m_mycpu := x.(m_mycpu); m_pipes
     := v |}.

(** [struct buf] of buf.h (its sleep-lock is [SLbuf]; the list links are
    [fs_lru]). *)
Record buf : Type := Mkbuf {
  b_flags : Z;
  b_dev : Z;
  b_blockno : Z;
  b_refcnt : Z;
  b_data : list Z
}.

Definition set_b_flags (v : Z) (x : buf) : buf :=
  {| b_flags := v; b_dev := x.(b_dev); b_blockno := x.(b_blockno); b_refcnt :=
     x.(b_refcnt); b_data := x.(b_data) |}.
Definition set_b_dev (v : Z) (x : buf) : buf :=
  {| b_flags := x.(b_flags); b_dev := v; b_blockno := x.(b_blockno); b_refcnt
     := x.(b_refcnt); b_data := x.(b_data) |}.
Definition set_b_blockno (v : Z) (x : buf) : buf :=
  {| b_flags := x.(b_flags); b_dev := x.(b_dev); b_blockno := v; b_refcnt :=
     x.(b_refcnt); b_data := x.(b_data) |}.
Definition set_b_refcnt (v : Z) (x : buf) : buf :=
  {| b_flags := x.(b_flags); b_dev := x.(b_dev); b_blockno := x.(b_blockno);
     b_refcnt := v; b_data := x.(b_data) |}.
Definition set_b_data (v : list Z) (x : buf) : buf :=
  {| b_flags := x.(b_flags); b_dev := x.(b_dev); b_blockno := x.(b_blockno);
     b_refcnt := x.(b_refcnt); b_data := v |}.

(** [struct logheader] of log.c. *)
Record logheader : Type := Mklogheader {
  lh_n : Z;
  lh_block : list Z
}.

Definition set_lh_n (v : Z) (x : logheader) : logheader :=
  {| lh_n := v; lh_block := x.(lh_block) |}.
Definition set_lh_block (v : list Z) (x : logheader) : logheader :=
  {| lh_n := x.(lh_n); lh_block := v |}.

(** [struct log] of log.c (its lock is [Llog]). *)
Record logstate : Type := Mklogstate {
  lg_start : Z;
  lg_size : Z;
  lg_outstanding : Z;
  lg_committing : Z;
  lg_dev : Z;
  lg_lh : logheader
}.

Definition set_lg_start (v : Z) (x : logstate) : logstate :=
  {| lg_start := v; lg_size := x.(lg_size); lg_outstanding :=
     x.(lg_outstanding); lg_committing := x.(lg_committing); lg_dev :=
     x.(lg_dev); lg_lh := x.(lg_lh) |}.
Definition set_lg_size (v : Z) (x : logstate) : logstate :=
  {| lg_start := x.(lg_start); lg_size := v; lg_outstanding :=
     x.(lg_outstanding); lg_committing := x.(lg_committing); lg_dev :=
     x.(lg_dev); lg_lh := x.(lg_lh) |}.
Definition set_lg_outstanding (v : Z) (x : logstate) : logstate :=
  {| lg_start := x.(lg_start); lg_size := x.(lg_size); lg_outstanding := v;
     lg_committing := x.(lg_committing); lg_dev := x.(lg_dev); lg_lh :=
     x.(lg_lh) |}.
Definition set_lg_committing (v : Z) (x : logstate) : logstate :=
  {| lg_start := x.(lg_start); lg_size := x.(lg_size); lg_outstanding :=
     x.(lg_outstanding); lg_committing := v; lg_dev := x.(lg_dev); lg_lh :=
     x.(lg_lh) |}.
Definition set_lg_dev (v : Z) (x : logstate) : logstate :=
  {| lg_start := x.(lg_start); lg_size := x.(lg_size); lg_outstanding :=
     x.(lg_outstanding); lg_committing := x.(lg_committing); lg_dev := v;
     lg_lh := x.(lg_lh) |}.
Definition set_lg_lh (v : logheader) (x : logstate) : logstate :=
  {| lg_start := x.(lg_start); lg_size := x.(lg_size); lg_outstanding :=
     x.(lg_outstanding); lg_committing := x.(lg_committing); lg_dev :=
     x.(lg_dev); lg_lh := v |}.

(** [struct superblock] of fs.h. *)
Record superblock : Type := Mksuperblock {
  sb_size : Z;
  sb_nblocks : Z;
  sb_ninodes : Z;
  sb_nlog : Z;
  sb_logstart : Z;
  sb_inodestart : Z;
  sb_bmapstart : Z
}.

Definition set_sb_size (v : Z) (x : superblock) : superblock :=
  {| sb_size := v; sb_nblocks := x.(sb_nblocks); sb_ninodes := x.(sb_ninodes);
     sb_nlog := x.(sb_nlog); sb_logstart := x.(sb_logstart); sb_inodestart :=
     x.(sb_inodestart); sb_bmapstart := x.(sb_bmapstart) |}.
Definition set_sb_nblocks (v : Z) (x : superblock) : superblock :=
  {| sb_size := x.(sb_size); sb_nblocks := v; sb_ninodes := x.(sb_ninodes);
     sb_nlog := x.(sb_nlog); sb_logstart := x.(sb_logstart); sb_inodestart :=
     x.(sb_inodestart); sb_bmapstart := x.(sb_bmapstart) |}.
Definition set_sb_ninodes (v : Z) (x : superblock) : superblock :=
  {| sb_size := x.(sb_size); sb_nblocks := x.(sb_nblocks); sb_ninodes := v;
     sb_nlog := x.(sb_nlog); sb_logstart := x.(sb_logstart); sb_inodestart :=
     x.(sb_inodestart); sb_bmapstart := x.(sb_bmapstart) |}.
Definition set_sb_nlog (v : Z) (x : superblock) : superblock :=
  {| sb_size := x.(sb_size); sb_nblocks := x.(sb_nblocks); sb_ninodes :=
     x.(sb_ninodes); sb_nlog := v; sb_logstart := x.(sb_logstart);
     sb_inodestart := x.(sb_inodestart); sb_bmapstart := x.(sb_bmapstart) |}.
Definition set_sb_logstart (v : Z) (x : superblock) : superblock :=
  {| sb_size := x.(sb_size); sb_nblocks := x.(sb_nblocks); sb_ninodes :=
     x.(sb_ninodes); sb_nlog := x.(sb_nlog); sb_logstart := v; sb_inodestart
     := x.(sb_inodestart); sb_bmapstart := x.(sb_bmapstart) |}.
Definition set_sb_inodestart (v : Z) (x : superblock) : superblock :=
  {| sb_size := x.(sb_size); sb_nblocks := x.(sb_nblocks); sb_ninodes :=
     x.(sb_ninodes); sb_nlog := x.(sb_nlog); sb_logstart := x.(sb_logstart);
     sb_inodestart := v; sb_bmapstart := x.(sb_bmapstart) |}.
Definition set_sb_bmapstart (v : Z) (x : superblock) : superblock :=
  {| sb_size := x.(sb_size); sb_nblocks := x.(sb_nblocks); sb_ninodes :=
     x.(sb_ninodes); sb_nlog := x.(sb_nlog); sb_logstart := x.(sb_logstart);
     sb_inodestart := x.(sb_inodestart); sb_bmapstart := v |}.

(** [struct inode] of file.h (its sleep-lock is [SLinode]). *)
Record inode : Type := Mkinode {
  i_dev : Z;
  i_inum : Z;
  i_ref : Z;
  i_flags : Z;
  i_type : Z;
  i_major : Z;
  i_minor : Z;
  i_nlink : Z;
  i_size : Z;
  i_addrs : list Z
}.

Definition set_i_dev (v : Z) (x : inode) : inode :=
  {| i_dev := v; i_inum := x.(i_inum); i_ref := x.(i_ref); i_flags :=
     x.(i_flags); i_type := x.(i_type); i_major := x.(i_major); i_minor :=
     x.(i_minor); i_nlink := x.(i_nlink); i_size := x.(i_size); i_addrs :=
     x.(i_addrs) |}.
Definition set_i_inum (v : Z) (x : inode) : inode :=
  {| i_dev := x.(i_dev); i_inum := v; i_ref := x.(i_ref); i_flags :=
     x.(i_flags); i_type := x.(i_type); i_major := x.(i_major); i_minor :=
     x.(i_minor); i_nlink := x.(i_nlink); i_size := x.(i_size); i_addrs :=
     x.(i_addrs) |}.
Definition set_i_ref (v : Z) (x : inode) : inode :=
  {| i_dev := x.(i_dev); i_inum := x.(i_inum); i_ref := v; i_flags :=
     x.(i_flags); i_type := x.(i_type); i_major := x.(i_major); i_minor :=
     x.(i_minor); i_nlink := x.(i_nlink); i_size := x.(i_size); i_addrs :=
     x.(i_addrs) |}.
Definition set_i_flags (v : Z) (x : inode) : inode :=
  {| i_dev := x.(i_dev); i_inum := x.(i_inum); i_ref := x.(i_ref); i_flags :=
     v; i_type := x.(i_type); i_major := x.(i_major); i_minor := x.(i_minor);
     i_nlink := x.(i_nlink); i_size := x.(i_size); i_addrs := x.(i_addrs) |}.
Definition set_i_type (v : Z) (x : inode) : inode :=
  {| i_dev := x.(i_dev); i_inum := x.(i_inum); i_ref := x.(i_ref); i_flags :=
     x.(i_flags); i_type := v; i_major := x.(i_major); i_minor := x.(i_minor);
     i_nlink := x.(i_nlink); i_size := x.(i_size); i_addrs := x.(i_addrs) |}.
Definition set_i_major (v : Z) (x : inode) : inode :=
  {| i_dev := x.(i_dev); i_inum := x.(i_inum); i_ref := x.(i_ref); i_flags :=
     x.(i_flags); i_type := x.(i_type); i_major := v; i_minor := x.(i_minor);
     i_nlink := x.(i_nlink); i_size := x.(i_size); i_addrs := x.(i_addrs) |}.
Definition set_i_minor (v : Z) (x : inode) : inode :=
  {| i_dev := x.(i_dev); i_inum := x.(i_inum); i_ref := x.(i_ref); i_flags :=
     x.(i_flags); i_type := x.(i_type); i_major := x.(i_major); i_minor := v;
     i_nlink := x.(i_nlink); i_size := x.(i_size); i_addrs := x.(i_addrs) |}.
Definition set_i_nlink (v : Z) (x : inode) : inode :=
  {| i_dev := x.(i_dev); i_inum := x.(i_inum); i_ref := x.(i_ref); i_flags :=
     x.(i_flags); i_type := x.(i_type); i_major := x.(i_major); i_minor :=
     x.(i_minor); i_nlink := v; i_size := x.(i_size); i_addrs := x.(i_addrs)
     |}.
Definition set_i_size (v : Z) (x : inode) : inode :=
  {| i_dev := x.(i_dev); i_inum := x.(i_inum); i_ref := x.(i_ref); i_flags :=
     x.(i_flags); i_type := x.(i_type); i_major := x.(i_major); i_minor :=
     x.(i_minor); i_nlink := x.(i_nlink); i_size := v; i_addrs := x.(i_addrs)
     |}.
Definition set_i_addrs (v : list Z) (x : inode) : inode :=
  {| i_dev := x.(i_dev); i_inum := x.(i_inum); i_ref := x.(i_ref); i_flags :=
     x.(i_flags); i_type := x.(i_type); i_major := x.(i_major); i_minor :=
     x.(i_minor); i_nlink := x.(i_nlink); i_size := x.(i_size); i_addrs := v
     |}.

(** [struct file] of file.h. *)
Record file : Type := Mkfile {
  f_type : fdtype;
  f_ref : Z;
  f_readable : Z;
  f_writable : Z;
  f_pipe : Z;
  f_ip : option nat;
  f_off : Z
}.

Definition set_f_type (v : fdtype) (x : file) : file :=
  {| f_type := v; f_ref := x.(f_ref); f_readable := x.(f_readable); f_writable
     := x.(f_writable); f_pipe := x.(f_pipe); f_ip := x.(f_ip); f_off :=
     x.(f_off) |}.
Definition set_f_ref (v : Z) (x : file) : file :=
  {| f_type := x.(f_type); f_ref := v; f_readable := x.(f_readable);
     f_writable := x.(f_writable); f_pipe := x.(f_pipe); f_ip := x.(f_ip);
     f_off := x.(f_off) |}.
Definition set_f_readable (v : Z) (x : file) : file :=
  {| f_type := x.(f_type); f_ref := x.(f_ref); f_readable := v; f_writable :=
     x.(f_writable); f_pipe := x.(f_pipe); f_ip := x.(f_ip); f_off :=
     x.(f_off) |}.
Definition set_f_writable (v : Z) (x : file) : file :=
  {| f_type := x.(f_type); f_ref := x.(f_ref); f_readable := x.(f_readable);
     f_writable := v; f_pipe := x.(f_pipe); f_ip := x.(f_ip); f_off :=
     x.(f_off) |}.
Definition set_f_pipe (v : Z) (x : file) : file :=
  {| f_type := x.(f_type); f_ref := x.(f_ref); f_readable := x.(f_readable);
     f_writable := x.(f_writable); f_pipe := v; f_ip := x.(f_ip); f_off :=
     x.(f_off) |}.
Definition set_f_ip (v : option nat) (x : file) : file :=
  {| f_type := x.(f_type); f_ref := x.(f_ref); f_readable := x.(f_readable);
     f_writable := x.(f_writable); f_pipe := x.(f_pipe); f_ip := v; f_off :=
     x.(f_off) |}.
Definition set_f_off (v : Z) (x : file) : file :=
  {| f_type := x.(f_type); f_ref := x.(f_ref); f_readable := x.(f_readable);
     f_writable := x.(f_writable); f_pipe := x.(f_pipe); f_ip := x.(f_ip);
     f_off := v |}.

(** The file-system globals: [bcache] (buffers, and their list from [head.next],
    the most recently used, on), the disk and the writes it has received so
    far, oldest first (block number and contents), [log], [sb],
    [icache.inode], [ftable.file], [devsw]. *)
Record fsstate : Type := Mkfsstate {
  fs_bufs : list buf;
  fs_lru : list nat;
  fs_disk : list (list Z);
  fs_writes : list (Z * list Z);
  fs_log : logstate;
  fs_sb : superblock;
  fs_inodes : list inode;
  fs_files : list file;
  fs_devsw : list (option devfn)
}.

Definition set_fs_bufs (v : list buf) (x : fsstate) : fsstate :=
  {| fs_bufs := v; fs_lru := x.(fs_lru); fs_disk := x.(fs_disk); fs_writes :=
     x.(fs_writes); fs_log := x.(fs_log); fs_sb := x.(fs_sb); fs_inodes :=
     x.(fs_inodes); fs_files := x.(fs_files); fs_devsw := x.(fs_devsw) |}.
Definition set_fs_lru (v : list nat) (x : fsstate) : fsstate :=
  {| fs_bufs := x.(fs_bufs); fs_lru := v; fs_disk := x.(fs_disk); fs_writes :=
     x.(fs_writes); fs_log := x.(fs_log); fs_sb := x.(fs_sb); fs_inodes :=
     x.(fs_inodes); fs_files := x.(fs_files); fs_devsw := x.(fs_devsw) |}.
Definition set_fs_disk (v : list (list Z)) (x : fsstate) : fsstate :=
  {| fs_bufs := x.(fs_bufs); fs_lru := x.(fs_lru); fs_disk := v; fs_writes :=
     x.(fs_writes); fs_log := x.(fs_log); fs_sb := x.(fs_sb); fs_inodes :=
     x.(fs_inodes); fs_files := x.(fs_files); fs_devsw := x.(fs_devsw) |}.
Definition set_fs_writes (v : list (Z * list Z)) (x : fsstate) : fsstate :=
  {| fs_bufs := x.(fs_bufs); fs_lru := x.(fs_lru); fs_disk := x.(fs_disk);
     fs_writes := v; fs_log := x.(fs_log); fs_sb := x.(fs_sb); fs_inodes :=
     x.(fs_inodes); fs_files := x.(fs_files); fs_devsw := x.(fs_devsw) |}.
Definition set_fs_log (v : logstate) (x : fsstate) : fsstate :=
  {| fs_bufs := x.(fs_bufs); fs_lru := x.(fs_lru); fs_disk := x.(fs_disk);
     fs_writes := x.(fs_writes); fs_log := v; fs_sb := x.(fs_sb); fs_inodes :=
     x.(fs_inodes); fs_files := x.(fs_files); fs_devsw := x.(fs_devsw) |}.
Definition set_fs_sb (v : superblock) (x : fsstate) : fsstate :=
  {| fs_bufs := x.(fs_bufs); fs_lru := x.(fs_lru); fs_disk := x.(fs_disk);
     fs_writes := x.(fs_writes); fs_log := x.(fs_log); fs_sb := v; fs_inodes
     := x.(fs_inodes); fs_files := x.(fs_files); fs_devsw := x.(fs_devsw) |}.
Definition set_fs_inodes (v : list inode) (x : fsstate) : fsstate :=
  {| fs_bufs := x.(fs_bufs); fs_lru := x.(fs_lru); fs_disk := x.(fs_disk);
     fs_writes := x.(fs_writes); fs_log := x.(fs_log); fs_sb := x.(fs_sb);
     fs_inodes := v; fs_files := x.(fs_files); fs_devsw := x.(fs_devsw) |}.
Definition set_fs_files (v : list file) (x : fsstate) : fsstate :=
  {| fs_bufs := x.(fs_bufs); fs_lru := x.(fs_lru); fs_disk := x.(fs_disk);
     fs_writes := x.(fs_writes); fs_log := x.(fs_log); fs_sb := x.(fs_sb);
     fs_inodes := x.(fs_inodes); fs_files := v; fs_devsw := x.(fs_devsw) |}.
Definition set_fs_devsw (v : list (option devfn)) (x : fsstate) : fsstate :=
  {| fs_bufs := x.(fs_bufs); fs_lru := x.(fs_lru); fs_disk := x.(fs_disk);
     fs_writes := x.(fs_writes); fs_log := x.(fs_log); fs_sb := x.(fs_sb);
     fs_inodes := x.(fs_inodes); fs_files := x.(fs_files); fs_devsw := v |}.

(** The console: [cons.locking], the bytes sent to the serial port so
    far, the CGA cursor and screen memory, the [input] buffer with its
    indices, the [shift] of kbd.c, and the counter [n] of cpunum. *)
Record iostate : Type := Mkiostate {
  io_locking : Z;
  io_out : list Z;
  io_pos : Z;
  io_crt : list Z;
  io_buf : list Z;
  io_r : Z;
  io_w : Z;
  io_e : Z;
  io_shift : Z;
  io_warned : Z
}.

Definition set_io_locking (v : Z) (x : iostate) : iostate :=
  {| io_locking := v; io_out := x.(io_out); io_pos := x.(io_pos); io_crt :=
     x.(io_crt); io_buf := x.(io_buf); io_r := x.(io_r); io_w := x.(io_w);
     io_e := x.(io_e); io_shift := x.(io_shift); io_warned := x.(io_warned)
     |}.
Definition set_io_out (v : list Z) (x : iostate) : iostate :=
  {| io_locking := x.(io_locking); io_out := v; io_pos := x.(io_pos); io_crt
     := x.(io_crt); io_buf := x.(io_buf); io_r := x.(io_r); io_w := x.(io_w);
     io_e := x.(io_e); io_shift := x.(io_shift); io_warned := x.(io_warned)
     |}.
Definition set_io_pos (v : Z) (x : iostate) : iostate :=
  {| io_locking := x.(io_locking); io_out := x.(io_out); io_pos := v; io_crt
     := x.(io_crt); io_buf := x.(io_buf); io_r := x.(io_r); io_w := x.(io_w);
     io_e := x.(io_e); io_shift := x.(io_shift); io_warned := x.(io_warned)
     |}.
Definition set_io_crt (v : list Z) (x : iostate) : iostate :=
  {| io_locking := x.(io_locking); io_out := x.(io_out); io_pos := x.(io_pos);
     io_crt := v; io_buf := x.(io_buf); io_r := x.(io_r); io_w := x.(io_w);
     io_e := x.(io_e); io_shift := x.(io_shift); io_warned := x.(io_warned)
     |}.
Definition set_io_buf (v : list Z) (x : iostate) : iostate :=
  {| io_locking := x.(io_locking); io_out := x.(io_out); io_pos := x.(io_pos);
     io_crt := x.(io_crt); io_buf := v; io_r := x.(io_r); io_w := x.(io_w);
     io_e := x.(io_e); io_shift := x.(io_shift); io_warned := x.(io_warned)
     |}.
Definition set_io_r (v : Z) (x : iostate) : iostate :=
  {| io_locking := x.(io_locking); io_out := x.(io_out); io_pos := x.(io_pos);
     io_crt := x.(io_crt); io_buf := x.(io_buf); io_r := v; io_w := x.(io_w);
     io_e := x.(io_e); io_shift := x.(io_shift); io_warned := x.(io_warned)
     |}.
Definition set_io_w (v : Z) (x : iostate) : iostate :=
  {| io_locking := x.(io_locking); io_out := x.(io_out); io_pos := x.(io_pos);
     io_crt := x.(io_crt); io_buf := x.(io_buf); io_r := x.(io_r); io_w := v;
     io_e := x.(io_e); io_shift := x.(io_shift); io_warned := x.(io_warned)
     |}.
Definition set_io_e (v : Z) (x : iostate) : iostate :=
  {| io_locking := x.(io_locking); io_out := x.(io_out); io_pos := x.(io_pos);
     io_crt := x.(io_crt); io_buf := x.(io_buf); io_r := x.(io_r); io_w :=
     x.(io_w); io_e := v; io_shift := x.(io_shift); io_warned := x.(io_warned)
     |}.
Definition set_io_shift (v : Z) (x : iostate) : iostate :=
  {| io_locking := x.(io_locking); io_out := x.(io_out); io_pos := x.(io_pos);
     io_crt := x.(io_crt); io_buf := x.(io_buf); io_r := x.(io_r); io_w :=
     x.(io_w); io_e := x.(io_e); io_shift := v; io_warned := x.(io_warned) |}.
Definition set_io_warned (v : Z) (x : iostate) : iostate :=
  {| io_locking := x.(io_locking); io_out := x.(io_out); io_pos := x.(io_pos);
     io_crt := x.(io_crt); io_buf := x.(io_buf); io_r := x.(io_r); io_w :=
     x.(io_w); io_e := x.(io_e); io_shift := x.(io_shift); io_warned := v |}.

(** The globals of the tracer in syscall.c. *)
Record trstate : Type := Mktrstate {
  t_dumpBuf : list (list Z);
  t_startIndex : Z;
  t_endIndex : Z;
  t_wrap : Z;
  t_e_flag : Z;
  t_s_flag : Z;
  t_f_flag : Z
}.

Definition set_t_dumpBuf (v : list (list Z)) (x : trstate) : trstate :=
  {| t_dumpBuf := v; t_startIndex := x.(t_startIndex); t_endIndex :=
     x.(t_endIndex); t_wrap := x.(t_wrap); t_e_flag := x.(t_e_flag); t_s_flag
     := x.(t_s_flag); t_f_flag := x.(t_f_flag) |}.
Definition set_t_startIndex (v : Z) (x : trstate) : trstate :=
  {| t_dumpBuf := x.(t_dumpBuf); t_startIndex := v; t_endIndex :=
     x.(t_endIndex); t_wrap := x.(t_wrap); t_e_flag := x.(t_e_flag); t_s_flag
     := x.(t_s_flag); t_f_flag := x.(t_f_flag) |}.
Definition set_t_endIndex (v : Z) (x : trstate) : trstate :=
  {| t_dumpBuf := x.(t_dumpBuf); t_startIndex := x.(t_startIndex); t_endIndex
     := v; t_wrap := x.(t_wrap); t_e_flag := x.(t_e_flag); t_s_flag :=
     x.(t_s_flag); t_f_flag := x.(t_f_flag) |}.
Definition set_t_wrap (v : Z) (x : trstate) : trstate :=
  {| t_dumpBuf := x.(t_dumpBuf); t_startIndex := x.(t_startIndex); t_endIndex
     := x.(t_endIndex); t_wrap := v; t_e_flag := x.(t_e_flag); t_s_flag :=
     x.(t_s_flag); t_f_flag := x.(t_f_flag) |}.
Definition set_t_e_flag (v : Z) (x : trstate) : trstate :=
  {| t_dumpBuf := x.(t_dumpBuf); t_startIndex := x.(t_startIndex); t_endIndex
     := x.(t_endIndex); t_wrap := x.(t_wrap); t_e_flag := v; t_s_flag :=
     x.(t_s_flag); t_f_flag := x.(t_f_flag) |}.
Definition set_t_s_flag (v : Z) (x : trstate) : trstate :=
  {| t_dumpBuf := x.(t_dumpBuf); t_startIndex := x.(t_startIndex); t_endIndex
     := x.(t_endIndex); t_wrap := x.(t_wrap); t_e_flag := x.(t_e_flag);
     t_s_flag := v; t_f_flag := x.(t_f_flag) |}.
Definition set_t_f_flag (v : Z) (x : trstate) : trstate :=
  {| t_dumpBuf := x.(t_dumpBuf); t_startIndex := x.(t_startIndex); t_endIndex
     := x.(t_endIndex); t_wrap := x.(t_wrap); t_e_flag := x.(t_e_flag);
     t_s_flag := x.(t_s_flag); t_f_flag := v |}.

(** The whole kernel.  [k_spin] maps each locked [struct spinlock] to the CPU
    that holds it, [k_slk] each locked [struct sleeplock] to the pid it records. *)
Record kstate : Type := Mkkstate {
  k_cpu : cpu;
  k_spin : gmap lockid nat;
  k_slk : gmap sleepid Z;
  k_pt : ptstate;
  k_mem : memstate;
  k_fs : fsstate;
  k_io : iostate;
  k_tr : trstate
}.

Definition set_k_cpu (v : cpu) (x : kstate) : kstate :=
  {| k_cpu := v; k_spin := x.(k_spin); k_slk := x.(k_slk); k_pt := x.(k_pt);
     k_mem := x.(k_mem); k_fs := x.(k_fs); k_io := x.(k_io); k_tr := x.(k_tr)
     |}.
Definition set_k_spin (v : gmap lockid nat) (x : kstate) : kstate :=
  {| k_cpu := x.(k_cpu); k_spin := v; k_slk := x.(k_slk); k_pt := x.(k_pt);
     k_mem := x.(k_mem); k_fs := x.(k_fs); k_io := x.(k_io); k_tr := x.(k_tr)
     |}.
Definition set_k_slk (v : gmap sleepid Z) (x : kstate) : kstate :=
  {| k_cpu := x.(k_cpu); k_spin := x.(k_spin); k_slk := v; k_pt := x.(k_pt);
     k_mem := x.(k_mem); k_fs := x.(k_fs); k_io := x.(k_io); k_tr := x.(k_tr)
     |}.
Definition set_k_pt (v : ptstate) (x : kstate) : kstate :=
  {| k_cpu := x.(k_cpu); k_spin := x.(k_spin); k_slk := x.(k_slk); k_pt := v;
     k_mem := x.(k_mem); k_fs := x.(k_fs); k_io := x.(k_io); k_tr := x.(k_tr)
     |}.
Definition set_k_mem (v : memstate) (x : kstate) : kstate :=
  {| k_cpu := x.(k_cpu); k_spin := x.(k_spin); k_slk := x.(k_slk); k_pt :=
     x.(k_pt); k_mem := v; k_fs := x.(k_fs); k_io := x.(k_io); k_tr :=
     x.(k_tr) |}.
Definition set_k_fs (v : fsstate) (x : kstate) : kstate :=
  {| k_cpu := x.(k_cpu); k_spin := x.(k_spin); k_slk := x.(k_slk); k_pt :=
     x.(k_pt); k_mem := x.(k_mem); k_fs := v; k_io := x.(k_io); k_tr :=
     x.(k_tr) |}.
Definition set_k_io (v : iostate) (x : kstate) : kstate :=
  {| k_cpu := x.(k_cpu); k_spin := x.(k_spin); k_slk := x.(k_slk); k_pt :=
     x.(k_pt); k_mem := x.(k_mem); k_fs := x.(k_fs); k_io := v; k_tr :=
     x.(k_tr) |}.
Definition set_k_tr (v : trstate) (x : kstate) : kstate :=
  {| k_cpu := x.(k_cpu); k_spin := x.(k_spin); k_slk := x.(k_slk); k_pt :=
     x.(k_pt); k_mem := x.(k_mem); k_fs := x.(k_fs); k_io := x.(k_io); k_tr :=
     v |}.

Unset Primitive Projections.

(** Kernel code. *)
Abbreviation K := (M kstate).

(** Apply a transformer to one part of the state. *)

Definition on_cpu (g : cpu → cpu) (s : kstate) : kstate := set_k_cpu (g s.(k_cpu)) s.
Definition on_pt (g : ptstate → ptstate) (s : kstate) : kstate := set_k_pt (g s.(k_pt)) s.
Definition on_mem (g : memstate → memstate) (s : kstate) : kstate := set_k_mem (g s.(k_mem)) s.
Definition on_fs (g : fsstate → fsstate) (s : kstate) : kstate := set_k_fs (g s.(k_fs)) s.
Definition on_io (g : iostate → iostate) (s : kstate) : kstate := set_k_io (g s.(k_io)) s.
Definition on_tr (g : trstate → trstate) (s : kstate) : kstate := set_k_tr (g s.(k_tr)) s.


(** ** The state at boot

    The kernel's globals start as zero (BSS) or as their initialisers say;
    [kend], [kdata] and [kforkret] are the linker symbols, [mem0] what the memory holds and
    [disk] the disk image. *)

Definition zero_tf : trapframe := Mktrapframe 0 0 0 0 0 0 0 0 0 0 0 0 0 0 0 0 0 0.
Definition zero_context : context := Mkcontext 0 0 0 0 0.

Definition zero_proc : proc :=
  {| p_sz := 0; p_pgdir := 0; p_kstack := 0; p_state := UNUSED; p_pid := 0;
     p_parent := None; p_tf := zero_tf; p_context := zero_context; p_chan := None;
     p_killed := 0; p_ofile := replicate NOFILE None; p_cwd := None;
     p_name := replicate 16 0; p_nice := 0; p_priority := 0;
     p_original_priority := 0; p_straced := 0 |}.

Definition zero_buf : buf :=
  {| b_flags := 0; b_dev := 0; b_blockno := 0; b_refcnt := 0; b_data := replicate 512 0 |}.

Definition zero_inode : inode :=
  {| i_dev := 0; i_inum := 0; i_ref := 0; i_flags := 0; i_type := 0; i_major := 0;
     i_minor := 0; i_nlink := 0; i_size := 0; i_addrs := replicate 13 0 |}.

Definition zero_file : file :=
  {| f_type := FD_NONE; f_ref := 0; f_readable := 0; f_writable := 0; f_pipe := 0;
     f_ip := None; f_off := 0 |}.

Definition zero_superblock : superblock := Mksuperblock 0 0 0 0 0 0 0.

Definition zero_log : logstate :=
  {| lg_start := 0; lg_size := 0; lg_outstanding := 0; lg_committing := 0; lg_dev := 0;
     lg_lh := {| lh_n := 0; lh_block := replicate 30 0 |} |}.

Definition boot_state (kend kdata kforkret kmycpu : Z) (mem0 : Z → Z) (disk : list (list Z)) : kstate :=
  {| k_cpu := {| c_id := 0; c_ncli := 0; c_intena := 0; c_if := false; c_proc := None;
                 c_cr3 := 0; c_esp0 := 0 |};
     k_spin := ∅;
     k_slk := ∅;
     k_pt := {| pt_proc := replicate NPROC zero_proc; pt_initproc := None; pt_nextpid := 1;
                pt_locks := replicate 7 {| l_id := 0; l_held := 0; l_holder := None |};
                pt_first := 1; pt_ticks := 0 |};
     k_mem := {| m_byte := mem0; m_freelist := 0; m_use_lock := 0; m_kpgdir := 0;
                 m_end := kend; m_data := kdata; m_forkret := kforkret; m_mycpu := kmycpu; m_pipes := ∅ |};
     k_fs := {| fs_bufs := replicate NBUF zero_buf; fs_lru := []; fs_disk := disk; fs_writes := [];
                fs_log := zero_log; fs_sb := zero_superblock;
                fs_inodes := replicate NINODE zero_inode;
                fs_files := replicate NFILE zero_file;
                fs_devsw := replicate 10 None |};
     k_io := {| io_locking := 0; io_out := []; io_pos := 0; io_crt := replicate 2000 0;
                io_buf := replicate 128 0; io_r := 0; io_w := 0; io_e := 0; io_shift := 0; io_warned := 0 |};
     k_tr := {| t_dumpBuf := replicate NDUMP (replicate 100 0); t_startIndex := 0;
                t_endIndex := 0; t_wrap := 0; t_e_flag := -1; t_s_flag := 0; t_f_flag := 0 |} |}.

(** A boot state for examples: the kernel image ends at 0x80115000, memory and
    disk are zero. *)
Definition demo_state : kstate :=
  boot_state (KERNBASE + 1134592) (KERNBASE + 1110016) (KERNBASE + 1060864) (KERNBASE + 1058816) (λ _, 0) (replicate 1000 (replicate 512 0)).
