(* ===== verification/Spinlock.v ===== *)
(** * Spinlocks (spinlock.c)

    [pushcli]/[popcli], [acquire], [release] and [holding] on the state of the
    running CPU, the rule for a critical section, and, in [Module Mutex], the
    interleaving of several CPUs at the granularity of the [xchg] and of the
    stores to the lock. *)

From S2P Require Import Prelude KState.
#[local] Open Scope kernel_scope.

Definition FL_IF : Z := 512.

(** [cli] and [sti] of x86.h. *)
Definition cli : K unit := modify (on_cpu (set_c_if false)).
Definition sti : K unit := modify (on_cpu (set_c_if true)).

(** [readeflags() & FL_IF]. *)
Definition readeflags_IF : K Z := gets (λ s, if s.(k_cpu).(c_if) then FL_IF else 0).

Definition pushcli : K unit :=
  eflags <- readeflags_IF;;
  cli;;
  n <- gets (λ s, s.(k_cpu).(c_ncli));;
  (if n =? 0 then modify (on_cpu (set_c_intena eflags)) else ret tt);;
  modify (on_cpu (λ c, set_c_ncli (c.(c_ncli) + 1) c)).

Definition popcli : K unit :=
  fl <- readeflags_IF;;
  if truthy fl then panic "popcli - interruptible" else
  modify (on_cpu (λ c, set_c_ncli (c.(c_ncli) - 1) c));;
  c <- gets k_cpu;;
  if c.(c_ncli) <? 0 then panic "popcli" else
  if (c.(c_ncli) =? 0) && truthy c.(c_intena) then sti else ret tt.

(** [lock->locked && lock->cpu == cpu]. *)
Definition holding (lk : lockid) : K bool :=
  gets (λ s, bool_decide (s.(k_spin) !! lk = Some s.(k_cpu).(c_id))).

Definition initlock (lk : lockid) : K unit :=
  modify (λ s, set_k_spin (delete lk s.(k_spin)) s).

(** The [xchg] loop ends at once when the lock is free; when another CPU
    holds it, it spins. *)
Definition acquire (lk : lockid) : K unit :=
  pushcli;;
  h <- holding lk;;
  if h : bool then panic "acquire" else
  o <- gets (λ s, s.(k_spin) !! lk);;
  match o with
  | Some _ => spins
  | None => modify (λ s, set_k_spin (<[lk := s.(k_cpu).(c_id)]> s.(k_spin)) s)
  end.

Definition release (lk : lockid) : K unit :=
  h <- holding lk;;
  if negb h then panic "release" else
  modify (λ s, set_k_spin (delete lk s.(k_spin)) s);;
  popcli.

(** ** Critical sections *)

(** The effect of [pushcli] on the CPU. *)
Definition cpu_push (c : cpu) : cpu :=
  set_c_ncli (c.(c_ncli) + 1)
    (set_c_intena (if c.(c_ncli) =? 0 then if c.(c_if) then FL_IF else 0 else c.(c_intena))
      (set_c_if false c)).

(** What a matched pair leaves behind: [intena] records the interrupt flag. *)
Definition cpu_bracket (c : cpu) : cpu :=
  set_c_intena (if c.(c_ncli) =? 0 then if c.(c_if) then FL_IF else 0 else c.(c_intena)) c.

(** Interrupts are off while the nesting depth is positive. *)
Definition cpu_wf (c : cpu) : Prop :=
  0 ≤ c.(c_ncli) ∧ (0 < c.(c_ncli) → c.(c_if) = false).

Definition locked (lk : lockid) (s : kstate) : kstate :=
  set_k_spin (<[lk := s.(k_cpu).(c_id)]> s.(k_spin)) (on_cpu cpu_push s).

(** [s1] after the section that began in [s] has released its lock. *)
Definition unlocked (s s1 : kstate) : kstate :=
  set_k_cpu (cpu_bracket s.(k_cpu)) (set_k_spin s.(k_spin) s1).

Lemma pushcli_run s e : pushcli s e = Ret tt (on_cpu cpu_push s) e.
Proof.
  unfold pushcli, readeflags_IF, cli, on_cpu, cpu_push. msimpl.
  by destruct (c_ncli (k_cpu s) =? 0).
Qed.

Lemma acquire_run lk s e :
  s.(k_spin) !! lk = None → acquire lk s e = Ret tt (locked lk s) e.
Proof.
  intros Hfree. unfold acquire, holding.
  mstep (pushcli_run s e).
  msimpl. rewrite Hfree. msimpl. by rewrite Hfree.
Qed.

Lemma acquire_held lk s e :
  s.(k_spin) !! lk = Some s.(k_cpu).(c_id) → acquire lk s e = Panic "acquire".
Proof.
  intros Hheld. unfold acquire, holding.
  mstep (pushcli_run s e).
  msimpl. by rewrite Hheld, bool_decide_eq_true_2.
Qed.

Lemma cpu_push_wf c : cpu_wf c → cpu_wf (cpu_push c).
Proof. unfold cpu_wf, cpu_push. simpl. intros [? ?]. split; (lia || done). Qed.

Lemma cpu_bracket_wf c : cpu_wf c → cpu_wf (cpu_bracket c).
Proof. done. Qed.

Lemma cpu_bracket_idemp c : cpu_bracket (cpu_bracket c) = cpu_bracket c.
Proof. unfold cpu_bracket. simpl. by destruct (c_ncli c =? 0). Qed.

Lemma cpu_bracket_push c : cpu_wf c → cpu_bracket (cpu_push c) = cpu_push c.
Proof.
  intros [? _]. unfold cpu_bracket. simpl.
  destruct (c_ncli c + 1 =? 0) eqn:E; [bool_facts; lia|done].
Qed.

Lemma popcli_run c s e :
  cpu_wf c → s.(k_cpu) = cpu_push c → popcli s e = Ret tt (set_k_cpu (cpu_bracket c) s) e.
Proof.
  intros [Hn Hif] Hcpu. unfold popcli, readeflags_IF, sti, on_cpu. msimpl. rewrite Hcpu. msimpl.
  rewrite Hcpu. simpl. replace (c_ncli c + 1 - 1) with (c_ncli c) by lia.
  destruct (c_ncli c <? 0) eqn:E; bool_facts; [lia|].
  unfold cpu_push, cpu_bracket. destruct (c_ncli c =? 0) eqn:E0; simpl.
  - destruct (c_if c) eqn:Ei; simpl; unfold modify, ret, set_k_cpu, set_c_ncli, set_c_if, set_c_intena;
      simpl; repeat f_equal; lia || done.
  - bool_facts. unfold ret, set_k_cpu, set_c_ncli, set_c_if, set_c_intena; simpl.
    rewrite <- Hif by lia. by repeat f_equal.
Qed.

Lemma release_run lk s s1 e :
  cpu_wf s.(k_cpu) → s.(k_spin) !! lk = None →
  s1.(k_cpu) = cpu_push s.(k_cpu) → s1.(k_spin) = <[lk := s.(k_cpu).(c_id)]> s.(k_spin) →
  release lk s1 e = Ret tt (unlocked s s1) e.
Proof.
  intros Hwf Hfree Hcpu Hspin. unfold release, holding. msimpl.
  rewrite Hspin, lookup_insert_eq, Hcpu, bool_decide_eq_true_2 by done. msimpl.
  rewrite (popcli_run (k_cpu s)) by done. rewrite Hspin, delete_insert_id by done. done.
Qed.

(** The effect of [popcli] on a CPU with interrupts off. *)
Definition cpu_pop (c : cpu) : cpu :=
  set_c_ncli (c.(c_ncli) - 1)
    (set_c_if ((c.(c_ncli) - 1 =? 0) && truthy c.(c_intena)) c).

(** The CPU holds [lk] at some nesting depth. *)
Definition holds (lk : lockid) (s : kstate) : Prop :=
  s.(k_spin) !! lk = Some s.(k_cpu).(c_id) ∧ 1 ≤ s.(k_cpu).(c_ncli) ∧ s.(k_cpu).(c_if) = false.

(** The state after its release. *)
Definition released (lk : lockid) (s : kstate) : kstate :=
  on_cpu cpu_pop (set_k_spin (delete lk s.(k_spin)) s).

Lemma popcli_pop s e :
  1 ≤ s.(k_cpu).(c_ncli) → s.(k_cpu).(c_if) = false →
  popcli s e = Ret tt (on_cpu cpu_pop s) e.
Proof.
  intros Hn Hif. unfold popcli, readeflags_IF, sti, on_cpu, cpu_pop. msimpl. rewrite Hif. msimpl.
  destruct (_ - 1 <? 0) eqn:E; bool_facts; [lia|].
  destruct ((_ - 1 =? 0) && _) eqn:E0; simpl; [done|]. unfold ret. by rewrite <- Hif.
Qed.

Lemma release_holds lk s e : holds lk s → release lk s e = Ret tt (released lk s) e.
Proof.
  intros (Hs & Hn & Hif). unfold release, holding. msimpl.
  rewrite bool_decide_eq_true_2 by done. msimpl. by rewrite popcli_pop.
Qed.

Lemma locked_holds lk s : 0 ≤ s.(k_cpu).(c_ncli) → holds lk (locked lk s).
Proof. intros. unfold holds, locked. simpl. rewrite lookup_insert_eq. split_and!; [done|lia|done]. Qed.

(** A section [acquire; body; release] runs its body with the lock held and
    leaves the locks as they were. *)
Lemma critical {A} lk (body : K A) s e a s1 e1 :
  cpu_wf s.(k_cpu) → s.(k_spin) !! lk = None →
  body (locked lk s) e = Ret a s1 e1 →
  s1.(k_cpu) = cpu_push s.(k_cpu) → s1.(k_spin) = <[lk := s.(k_cpu).(c_id)]> s.(k_spin) →
  (acquire lk;; x <- body;; release lk;; ret x) s e = Ret a (unlocked s s1) e1.
Proof.
  intros Hwf Hfree Hb Hc Hs. mstep (acquire_run lk s e Hfree).
  mstep Hb.
  by mstep (release_run lk s s1 e1 Hwf Hfree Hc Hs).
Qed.

(** The same, for a section that returns [unit] and ends with the release. *)
Lemma critical_unit lk (body : K unit) s e s1 e1 :
  cpu_wf s.(k_cpu) → s.(k_spin) !! lk = None →
  body (locked lk s) e = Ret tt s1 e1 →
  s1.(k_cpu) = cpu_push s.(k_cpu) → s1.(k_spin) = <[lk := s.(k_cpu).(c_id)]> s.(k_spin) →
  (acquire lk;; body;; release lk) s e = Ret tt (unlocked s s1) e1.
Proof.
  intros Hwf Hfree Hb Hc Hs. mstep (acquire_run lk s e Hfree).
  mstep Hb. by apply release_run.
Qed.

Lemma locked_cpu_wf lk s : cpu_wf s.(k_cpu) → cpu_wf (locked lk s).(k_cpu).
Proof. apply cpu_push_wf. Qed.

Lemma locked_spin_ne lk lk' s :
  lk ≠ lk' → s.(k_spin) !! lk' = None → (locked lk s).(k_spin) !! lk' = None.
Proof. intros. unfold locked. simpl. by rewrite lookup_insert_ne. Qed.

#[export] Hint Resolve cpu_push_wf cpu_bracket_wf locked_cpu_wf locked_spin_ne : cint.

(** ** Mutual exclusion between CPUs

    Several CPUs run [acquire] and [release] on one lock.  Each shared access
    is one step: the [xchg] of [lk->locked], the store of [lk->cpu] that
    follows it, the clearing of [lk->cpu] and the clearing of [lk->locked] in
    [release].  [Spinning] is the loop of [xchg] that found the lock taken. *)
Module Mutex.

Inductive pc : Type :=
| Outside       (* not in [acquire] or [release] *)
| Spinning      (* in the xchg loop *)
| Won           (* xchg returned 0; lk->cpu not written yet *)
| Inside        (* acquire returned *)
| Leaving.      (* release has cleared lk->cpu, not yet lk->locked *)

Record spin : Type := MkSpin {
  s_locked : Z;               (* lk->locked *)
  s_cpu : option nat;         (* lk->cpu *)
  s_pc : nat → pc             (* where each CPU is *)
}.

(** [holding] as CPU [c] evaluates it. *)
Definition holding (c : nat) (s : spin) : bool :=
  truthy s.(s_locked) && bool_decide (s.(s_cpu) = Some c).

Inductive step : spin → spin → Prop :=
| step_enter s c :
    s.(s_pc) c = Outside → holding c s = false →
    step s (MkSpin s.(s_locked) s.(s_cpu) (upd s.(s_pc) c Spinning))
| step_xchg s c :
    s.(s_pc) c = Spinning →
    step s (MkSpin 1 s.(s_cpu)
              (upd s.(s_pc) c (if s.(s_locked) =? 0 then Won else Spinning)))
| step_own s c :
    s.(s_pc) c = Won →
    step s (MkSpin s.(s_locked) (Some c) (upd s.(s_pc) c Inside))
| step_disown s c :
    s.(s_pc) c = Inside → holding c s = true →
    step s (MkSpin s.(s_locked) None (upd s.(s_pc) c Leaving))
| step_unlock s c :
    s.(s_pc) c = Leaving →
    step s (MkSpin 0 s.(s_cpu) (upd s.(s_pc) c Outside)).

Definition init : spin := MkSpin 0 None (λ _, Outside).

Definition past_xchg (p : pc) : Prop := p = Won ∨ p = Inside ∨ p = Leaving.

(** Some CPU [o], or none, is past its [xchg], and no other; the lock word
    says whether one is, and [lk->cpu] names it exactly while it is [Inside]. *)
Definition inv (s : spin) : Prop :=
  ∃ o : option nat,
    (∀ c, past_xchg (s.(s_pc) c) ↔ o = Some c) ∧
    s.(s_locked) = (match o with Some _ => 1 | None => 0 end) ∧
    (∀ c, s.(s_cpu) = Some c ↔ s.(s_pc) c = Inside).

Lemma inv_init : inv init.
Proof. exists None. unfold init, past_xchg. simpl. naive_solver. Qed.

Ltac upd_cases :=
  repeat match goal with
  | H : context [upd _ ?c _ ?c'] |- _ =>
      destruct (decide (c' = c)) as [->|?]; [rewrite upd_eq in H|rewrite upd_ne in H by done]
  | |- context [upd _ ?c _ ?c'] =>
      destruct (decide (c' = c)) as [->|?]; [rewrite upd_eq|rewrite upd_ne by done]
  end.

Ltac inv_at c Ho Hc :=
  let c1 := fresh "c1" in intros c1;
  pose proof (Ho c1); pose proof (Hc c1); pose proof (Ho c); pose proof (Hc c);
  clear Ho Hc; upd_cases; intuition congruence.

Lemma inv_step s s' : inv s → step s s' → inv s'.
Proof.
  unfold inv, past_xchg. intros (o & Ho & Hl & Hc) Hstep.
  destruct Hstep as [s c Hpc Hh|s c Hpc|s c Hpc|s c Hpc Hh|s c Hpc]; simpl.
  - exists o. split_and!; [|done|]; inv_at c Ho Hc.
  - destruct o as [c0|]; rewrite Hl; simpl.
    + exists (Some c0). split_and!; [|done|]; inv_at c Ho Hc.
    + exists (Some c). split_and!; [|done|]; inv_at c Ho Hc.
  - exists o. assert (o = Some c) as -> by (apply Ho; auto).
    split_and!; [|done|]; inv_at c Ho Hc.
  - exists o. assert (o = Some c) as -> by (apply Ho; auto).
    split_and!; [|done|]; inv_at c Ho Hc.
  - exists None. assert (o = Some c) as -> by (apply Ho; auto).
    split_and!; [|done|]; inv_at c Ho Hc.
Qed.

Lemma inv_reach s0 s : inv s0 → rtc step s0 s → inv s.
Proof. intros Hi H. induction H as [|s1 s2 s3 Hs _ IH]; [done|]. by apply IH, (inv_step s1). Qed.

(** C10: in every interleaving of [acquire] and [release] by any number of CPUs,
    at most one CPU is past its [xchg] (so at most one is in the critical
    section), a CPU in the critical section sees [holding] true, every other
    CPU sees it false, and the lock word is 1 exactly when some CPU has it. *)
Theorem mutual_exclusion s :
  rtc step init s →
  (∀ c c', past_xchg (s.(s_pc) c) → past_xchg (s.(s_pc) c') → c = c') ∧
  (∀ c, holding c s = true ↔ s.(s_pc) c = Inside) ∧
  (s.(s_locked) = 1 ↔ ∃ c, past_xchg (s.(s_pc) c)).
Proof.
  intros H. destruct (inv_reach _ _ inv_init H) as (o & Ho & Hl & Hc). split_and!.
  - intros c c' H1 H2. apply Ho in H1, H2. congruence.
  - intros c. unfold holding. rewrite andb_true_iff, bool_decide_eq_true, Hc.
    split; [by intros [_ ?]|]. intros Hi. split; [|done]. rewrite Hl.
    assert (o = Some c) as -> by (apply Ho; unfold past_xchg; auto). done.
  - rewrite Hl. setoid_rewrite Ho. destruct o as [c|]; [naive_solver|].
    split; [done|]. by intros [? ?].
Qed.

Definition run1 : spin := MkSpin 1 (Some 3%nat) (upd (upd (upd (upd (λ _, Outside) 3 Spinning) 3 Won) 5 Spinning) 3 Inside).

(** CPU 3 wins the lock while CPU 5 spins. *)
Lemma mutual_exclusion_witness :
  rtc step init run1 ∧ (∀ c, holding c run1 = true ↔ run1.(s_pc) c = Inside).
Proof.
  assert (rtc step init run1) as H.
  { eapply rtc_l. { by apply (step_enter init 3). }
    eapply rtc_l. { by apply step_xchg with (c := 3%nat). }
    eapply rtc_l. { by apply step_enter with (c := 5%nat). }
    eapply rtc_l. { by apply step_own with (c := 3%nat). }
    apply rtc_refl. }
  split; [exact H|]. exact (proj1 (proj2 (mutual_exclusion run1 H))).
Defined.

End Mutex.
