(* ===== verification/Print.v ===== *)
(** * Console output (console.c: printint, cprintf, cgaputc, consputc)

    The formatted output of the kernel: [printint] and the format interpreter
    of [cprintf] are functions to the characters they emit, [consputc] sends a
    character to the serial port and to the CGA screen. *)

From S2P Require Import Prelude KState Spinlock.
#[local] Open Scope kernel_scope.

(** The bytes of a string literal. *)
Definition str (x : string) : list Z := (λ a, Z.of_nat (Ascii.nat_of_ascii a)) <$> String.list_ascii_of_string x.

(** The string of one newline character. *)
Definition newline : string := String (Ascii.ascii_of_nat 10) "".

(** A NUL-terminated string ends at its first 0 byte. *)
Fixpoint cstr (bs : list Z) : list Z :=
  match bs with
  | [] => []
  | b :: bs' => if b =? 0 then [] else b :: cstr bs'
  end.

Lemma cstr_nonzero l : Forall (λ b, b ≠ 0) (cstr l).
Proof.
  induction l as [|b l IH]; simpl; [done|]. destruct (b =? 0) eqn:E; bool_facts; by constructor.
Qed.

Lemma cstr_app_nul l rest : Forall (λ b, b ≠ 0) l → cstr (l ++ 0 :: rest) = l.
Proof.
  induction l as [|b l IH]; intros H; simpl; [done|]. apply Forall_cons in H as [Hb H].
  rewrite (proj2 (Z.eqb_neq _ _) Hb). by rewrite IH.
Qed.

Lemma cstr_id l : Forall (λ b, b ≠ 0) l → cstr l = l.
Proof.
  induction 1 as [|b l Hb _ IH]; simpl; [done|]. rewrite (proj2 (Z.eqb_neq _ _) Hb). by rewrite IH.
Qed.

(** ** printint *)

(** [digits[d]] of the table "0123456789abcdef". *)
Definition digit_char (d : Z) : Z := if d <? 10 then 48 + d else 87 + d.

(** The do-while loop that fills [buf], least significant digit first. *)
Fixpoint printint_digits (fuel : nat) (x base : Z) : list Z :=
  match fuel with
  | O => []
  | S fuel' =>
      digit_char (x mod base) ::
      (if x / base =? 0 then [] else printint_digits fuel' (x / base) base)
  end.

(** [xx] is the [int] argument; a 32-bit value has at most 32 digits. *)
Definition printint (xx base : Z) (sign : bool) : list Z :=
  let neg := sign && (xx <? 0) in
  let x := u32 (if neg then - xx else xx) in
  let buf := printint_digits 32 x base in
  reverse (if neg then buf ++ [45] else buf).

(** ** The format interpreter of cprintf *)

(** A vararg: an int, or a pointer to a string ([None] is null). *)
Inductive arg : Type :=
| AInt (x : Z)
| AStr (s : option (list Z)).

(** The characters [cprintf(fmt, args)] emits; [None] when a conversion has no
    argument of its kind (undefined behaviour in C). *)
Fixpoint format (fmt : list Z) (args : list arg) : option (list Z) :=
  match fmt with
  | [] => Some []
  | c :: fmt1 =>
      if negb (c =? 37) then (c ::.) <$> format fmt1 args else
      match fmt1 with
      | [] => Some []
      | d :: fmt2 =>
          if d =? 100 then                            (* %d *)
            match args with
            | AInt x :: args' => (printint x 10 true ++.) <$> format fmt2 args'
            | _ => None
            end
          else if (d =? 120) || (d =? 112) then       (* %x, %p *)
            match args with
            | AInt x :: args' => (printint x 16 false ++.) <$> format fmt2 args'
            | _ => None
            end
          else if d =? 115 then                       (* %s *)
            match args with
            | AStr (Some s) :: args' => (cstr s ++.) <$> format fmt2 args'
            | AStr None :: args' => (str "(null)" ++.) <$> format fmt2 args'
            | _ => None
            end
          else if d =? 37 then (37 ::.) <$> format fmt2 args
          else (λ o, 37 :: d :: o) <$> format fmt2 args
      end
  end.

(** ** The CGA screen *)

Definition BACKSPACE : Z := 256.

(** [cgaputc]: the cursor after [c], before the overflow check and the scroll,
    and the screen with [c] stored. *)
Definition cga_advance (c pos : Z) (crt : list Z) : Z * list Z :=
  if c =? 10 then (pos + (80 - pos mod 80), crt)
  else if c =? BACKSPACE then (if 0 <? pos then pos - 1 else pos, crt)
  else (pos + 1, <[Z.to_nat pos := Z.lor (Z.land c 255) 1792]> crt).

(** The scroll: 23 rows move up, the cursor follows, the rest of the row is
    cleared. *)
Definition cga_scroll (pos : Z) (crt : list Z) : Z * list Z :=
  if 24 <=? pos / 80 then
    let crt1 := splice 0 (slice 80 (23 * 80) crt) crt in
    let pos1 := pos - 80 in
    (pos1, splice (Z.to_nat pos1) (replicate (Z.to_nat (24 * 80 - pos1)) 0) crt1)
  else (pos, crt).

Definition cga (c : Z) (io : iostate) : iostate :=
  let '(pos1, crt1) := cga_advance c io.(io_pos) io.(io_crt) in
  let '(pos2, crt2) := cga_scroll pos1 crt1 in
  set_io_pos pos2 (set_io_crt (<[Z.to_nat pos2 := 1824]> crt2) io).

Definition cgaputc (c : Z) : K unit :=
  io <- gets k_io;;
  let pos1 := fst (cga_advance c io.(io_pos) io.(io_crt)) in
  if (pos1 <? 0) || (25 * 80 <? pos1) then panic "pos under/overflow" else
  modify (on_io (cga c)).

Definition uartputc (c : Z) : K unit :=
  modify (on_io (λ io, set_io_out (io.(io_out) ++ [u8 c]) io)).

Definition consputc (c : Z) : K unit :=
  (if c =? BACKSPACE then uartputc 8;; uartputc 32;; uartputc 8 else uartputc c);;
  cgaputc c.

Definition consputs (cs : list Z) : K unit := for_each cs consputc.

Definition cprintf (fmt : string) (args : list arg) : K unit :=
  locking <- gets (λ s, s.(k_io).(io_locking));;
  (if truthy locking then acquire Lcons else ret tt);;
  cs <- match format (str fmt) args with
        | Some cs => ret cs
        | None => fault "cprintf: missing argument"
        end;;
  consputs cs;;
  (if truthy locking then release Lcons else ret tt).

(** ** printint prints decimal numerals *)

(** The value of a decimal numeral, most significant digit first. *)
Definition dec_val (ds : list Z) : Z := foldl (λ n d, 10 * n + (d - 48)) 0 ds.

Definition is_digit (c : Z) : Prop := 48 ≤ c ≤ 57.

Lemma dec_val_snoc ds d : dec_val (ds ++ [d]) = 10 * dec_val ds + (d - 48).
Proof. unfold dec_val. by rewrite foldl_snoc. Qed.

Lemma digit_char_dec d : 0 ≤ d < 10 → digit_char d = 48 + d.
Proof. intros. unfold digit_char. destruct (d <? 10) eqn:E; bool_facts; lia. Qed.

Lemma printint_digits_dec fuel x :
  0 ≤ x < 10 ^ Z.of_nat fuel → (0 < fuel)%nat →
  dec_val (reverse (printint_digits fuel x 10)) = x ∧
  Forall is_digit (printint_digits fuel x 10).
Proof.
  revert x. induction fuel as [|fuel IH]; intros x Hx Hf; [lia|].
  cbn [printint_digits]. rewrite digit_char_dec by (apply Z.mod_pos_bound; lia).
  pose proof (Z.mod_pos_bound x 10). pose proof (Z.div_mod x 10).
  rewrite reverse_cons, dec_val_snoc.
  destruct (x / 10 =? 0) eqn:E; bool_facts.
  - split; [unfold dec_val; simpl; lia|]. constructor; [unfold is_digit; lia|done].
  - replace (Z.of_nat (S fuel)) with (Z.of_nat fuel + 1) in Hx by lia.
    rewrite Z.pow_add_r, Z.pow_1_r in Hx by lia.
    destruct (decide (fuel = 0%nat)) as [->|].
    { assert (x < 10) by (change (10 ^ Z.of_nat 0) with 1 in Hx; lia). rewrite Z.div_small in E; lia. }
    destruct (IH (x / 10)) as [IH1 IH2]; [|lia|].
    { split; [apply Z.div_pos; lia|apply Z.div_lt_upper_bound; lia]. }
    rewrite IH1. split; [lia|]. constructor; [unfold is_digit; lia|done].
Qed.

Lemma printint_digits_length fuel x k :
  0 ≤ x < 10 ^ Z.of_nat k → (0 < k)%nat → (length (printint_digits fuel x 10) ≤ k)%nat.
Proof.
  revert x fuel. induction k as [|k IH]; intros x fuel Hx Hk; [lia|].
  destruct fuel as [|fuel]; cbn [printint_digits length]; [lia|].
  destruct (x / 10 =? 0) eqn:E; bool_facts; [simpl; lia|].
  replace (Z.of_nat (S k)) with (Z.of_nat k + 1) in Hx by lia.
  rewrite Z.pow_add_r, Z.pow_1_r in Hx by lia.
  destruct (decide (k = 0%nat)) as [->|].
  { change (10 ^ Z.of_nat 0) with 1 in Hx. rewrite Z.div_small in E; lia. }
  assert (0 ≤ x / 10 < 10 ^ Z.of_nat k) as Hx'.
  { split; [apply Z.div_pos; lia|apply Z.div_lt_upper_bound; lia]. }
  pose proof (IH (x / 10) fuel Hx'). lia.
Qed.

(** for every [int], [printint(xx, 10, 1)] emits the decimal numeral of
    [xx], with a leading minus sign exactly when [xx] is negative (also for the
    most negative int, whose negation overflows), and never fills more than
    11 of the 16 bytes of its buffer. *)
Theorem printint_decimal xx :
  is_s32 xx →
  ∃ ds, printint xx 10 true = (if xx <? 0 then [45] else []) ++ ds ∧
        Forall is_digit ds ∧ dec_val ds = Z.abs xx ∧
        (length (printint xx 10 true) ≤ 11)%nat.
Proof.
  unfold is_s32, printint. intros Hx.
  set (x := u32 (if true && (xx <? 0) then - xx else xx)).
  assert (x = Z.abs xx) as Habs.
  { unfold x. simpl. destruct (xx <? 0) eqn:E; bool_facts; rewrite u32_id; unfold is_u32; lia. }
  destruct (printint_digits_dec 32 x) as [Hv Hd]; [lia|lia|].
  assert (length (printint_digits 32 x 10) ≤ 10)%nat as Hlen by (apply printint_digits_length; lia).
  exists (reverse (printint_digits 32 x 10)). simpl andb.
  rewrite Hv, <- Habs. split_and!; [|by apply Forall_reverse|done|].
  - destruct (xx <? 0); [by rewrite reverse_app|done].
  - rewrite length_reverse. destruct (xx <? 0); rewrite ?length_app; cbn [length]; lia.
Qed.

Lemma printint_decimal_witness :
  is_s32 (-2147483648) ∧ printint (-2147483648) 10 true = str "-2147483648" ∧
  ∃ ds, printint (-2147483648) 10 true = (if -2147483648 <? 0 then [45] else []) ++ ds ∧
        Forall is_digit ds ∧ dec_val ds = Z.abs (-2147483648) ∧
        (length (printint (-2147483648) 10 true) ≤ 11)%nat.
Proof.
  assert (is_s32 (-2147483648)) as H by (unfold is_s32; lia).
  split; [exact H|]. split; [vm_compute; reflexivity|]. exact (printint_decimal _ H).
Defined.

(** ** The screen never overflows *)

Definition io_ok (io : iostate) : Prop :=
  0 ≤ io.(io_pos) < 24 * 80 ∧ length io.(io_crt) = (25 * 80)%nat.

(** The bytes a character sends to the serial port. *)
Definition uart_bytes (c : Z) : list Z := if c =? BACKSPACE then [8; 32; 8] else [u8 c].

Definition putc (c : Z) (io : iostate) : iostate :=
  cga c (set_io_out (io.(io_out) ++ uart_bytes c) io).

Definition puts (cs : list Z) (io : iostate) : iostate := foldl (λ io c, putc c io) io cs.

Lemma cga_advance_range c pos crt :
  0 ≤ pos < 24 * 80 → 0 ≤ fst (cga_advance c pos crt) ≤ 24 * 80.
Proof.
  intros. unfold cga_advance. pose proof (Z.mod_pos_bound pos 80). pose proof (Z.div_mod pos 80).
  destruct (c =? 10); simpl; [nia|]. destruct (c =? BACKSPACE); simpl; [|lia].
  destruct (0 <? pos) eqn:E; bool_facts; lia.
Qed.

Lemma cga_advance_length c pos crt : length (snd (cga_advance c pos crt)) = length crt.
Proof. unfold cga_advance. destruct (c =? 10), (c =? BACKSPACE); simpl; by rewrite ?length_insert. Qed.

Lemma cga_scroll_ok pos crt :
  0 ≤ pos ≤ 24 * 80 → length crt = (25 * 80)%nat →
  0 ≤ fst (cga_scroll pos crt) < 24 * 80 ∧ length (snd (cga_scroll pos crt)) = (25 * 80)%nat.
Proof.
  intros Hp Hl. unfold cga_scroll. destruct (24 <=? pos / 80) eqn:E; bool_facts; simpl.
  - assert (pos = 1920) as -> by (pose proof (Z.div_lt_upper_bound pos 80 24); lia).
    split; [lia|]. rewrite length_splice.
    + rewrite length_splice; [done|]. rewrite length_slice; lia.
    + rewrite length_replicate, length_splice; [lia|]. rewrite length_slice; lia.
  - split; [|done]. assert (pos ≠ 1920) by (intros ->; vm_compute in E; done). lia.
Qed.

Lemma cga_ok c io : io_ok io → io_ok (cga c io).
Proof.
  unfold io_ok, cga. intros [Hp Hl].
  pose proof (cga_advance_range c _ io.(io_crt) Hp) as Ha.
  pose proof (cga_advance_length c io.(io_pos) io.(io_crt)) as Hal.
  destruct (cga_advance c _ _) as [pos1 crt1]. simpl in *.
  pose proof (cga_scroll_ok pos1 crt1 Ha) as Hs.
  destruct (cga_scroll pos1 crt1) as [pos2 crt2]. simpl in *.
  rewrite length_insert. apply Hs. congruence.
Qed.

Lemma putc_ok c io : io_ok io → io_ok (putc c io).
Proof. intros. by apply cga_ok. Qed.

Lemma puts_ok cs io : io_ok io → io_ok (puts cs io).
Proof. unfold puts. revert io. induction cs as [|c cs IH]; intros io H; simpl; [done|]. by apply IH, putc_ok. Qed.

Lemma cga_out c io : (cga c io).(io_out) = io.(io_out).
Proof. unfold cga. destruct (cga_advance _ _ _). by destruct (cga_scroll _ _). Qed.

Lemma puts_out cs io : (puts cs io).(io_out) = io.(io_out) ++ (cs ≫= uart_bytes).
Proof.
  unfold puts. revert io. induction cs as [|c cs IH]; intros io; simpl; [by rewrite app_nil_r|].
  rewrite IH. unfold putc. rewrite cga_out. simpl. by rewrite <- app_assoc.
Qed.

Lemma consputc_run c s e : io_ok s.(k_io) → consputc c s e = Ret tt (on_io (putc c) s) e.
Proof.
  intros [Hp Hl]. pose proof (cga_advance_range c _ s.(k_io).(io_crt) Hp).
  unfold consputc, cgaputc, uartputc, putc, uart_bytes, on_io.
  destruct (c =? BACKSPACE); msimpl.
  - destruct (_ || _) eqn:E; [apply orb_true_iff in E as [E|E]; bool_facts; lia|].
    unfold modify. simpl. by rewrite <- !app_assoc.
  - destruct (_ || _) eqn:E; [apply orb_true_iff in E as [E|E]; bool_facts; lia|]. done.
Qed.

Lemma consputs_run cs s e : io_ok s.(k_io) → consputs cs s e = Ret tt (on_io (puts cs) s) e.
Proof.
  unfold consputs. revert s. induction cs as [|c cs IH]; intros s H; [done|].
  cbn [for_each]. mstep (consputc_run c s e H).
  rewrite IH; [done|]. by apply putc_ok.
Qed.

(** The state after [cprintf] printed [cs]. *)
Definition printed (cs : list Z) (s : kstate) : kstate :=
  set_k_cpu (if truthy s.(k_io).(io_locking) then cpu_bracket s.(k_cpu) else s.(k_cpu))
    (on_io (puts cs) s).

(** What [cprintf] needs: the screen in range, the console lock free. *)
Definition can_print (s : kstate) : Prop :=
  io_ok s.(k_io) ∧ cpu_wf s.(k_cpu) ∧ s.(k_spin) !! Lcons = None.

Lemma cprintf_run fmt args cs s e :
  can_print s → format (str fmt) args = Some cs →
  cprintf fmt args s e = Ret tt (printed cs s) e.
Proof.
  intros (Hio & Hwf & Hfree) Hf. unfold cprintf, printed. rewrite Hf, bind_gets.
  destruct (truthy _) eqn:E.
  - mstep (acquire_run Lcons s e Hfree). rewrite bind_ret_l.
    mstep (consputs_run cs (locked Lcons s) e Hio).
    by rewrite (release_run Lcons s).
  - rewrite !bind_ret_l. mstep (consputs_run cs s e Hio). done.
Qed.
