(* ===== verification/Mem.v ===== *)
(** * Memory and page-table words (mmu.h, memlayout.h)

    Memory is the function [m_byte] from kernel virtual addresses to bytes;
    loads and stores of little-endian words; the address macros of mmu.h; and
    the translation the MMU performs on a user address. *)

From S2P Require Import Prelude KState.
#[local] Open Scope kernel_scope.

Abbreviation mem := (Z → Z).

(** ** Loads and stores *)

Definition load32 (m : mem) (a : Z) : Z :=
  le_val [m a; m (a + 1); m (a + 2); m (a + 3)].

(** Overwrite the bytes from [a] on with [bs]. *)
Definition store_bytes (a : Z) (bs : list Z) (m : mem) : mem := λ x,
  if (a <=? x) && (x <? a + Z.of_nat (length bs))
  then bs !!! Z.to_nat (x - a) else m x.

Definition store32 (a v : Z) (m : mem) : mem := store_bytes a (le_bytes 4 v) m.

(** [memset(a, c, n)]. *)
Definition fill (a c n : Z) (m : mem) : mem := λ x,
  if (a <=? x) && (x <? a + n) then u8 c else m x.

(** [memmove(dst, src, n)]. *)
Definition copy (dst src n : Z) (m : mem) : mem := λ x,
  if (dst <=? x) && (x <? dst + n) then m (src + (x - dst)) else m x.

Definition load_bytes (m : mem) (a : Z) (n : nat) : list Z :=
  (λ i, m (a + Z.of_nat i)) <$> seq 0 n.

Lemma store_bytes_out a bs m x :
  x < a ∨ a + Z.of_nat (length bs) ≤ x → store_bytes a bs m x = m x.
Proof.
  intros. unfold store_bytes.
  destruct (a <=? x) eqn:E1, (x <? _) eqn:E2; bool_facts; simpl; (done || lia).
Qed.

Lemma store_bytes_in a bs m x b :
  a ≤ x → bs !! Z.to_nat (x - a) = Some b → store_bytes a bs m x = b.
Proof.
  intros Hx Hb. pose proof (lookup_lt_Some _ _ _ Hb).
  unfold store_bytes.
  destruct (a <=? x) eqn:E1, (x <? _) eqn:E2; bool_facts; simpl; try lia.
  by apply list_lookup_total_correct.
Qed.

Lemma store32_out a v m x : x < a ∨ a + 4 ≤ x → store32 a v m x = m x.
Proof. intros. apply store_bytes_out. rewrite length_le_bytes. lia. Qed.

Lemma load32_store32_eq a v m : is_u32 v → load32 (store32 a v m) a = v.
Proof.
  intros Hv. unfold load32, store32.
  rewrite (store_bytes_in a _ m a (v mod 256)); [|lia|by rewrite Z.sub_diag].
  rewrite (store_bytes_in a _ m (a + 1) (v / 256 mod 256)); [|lia|by rewrite Z.add_simpl_l].
  rewrite (store_bytes_in a _ m (a + 2) (v / 256 / 256 mod 256)); [|lia|by rewrite Z.add_simpl_l].
  rewrite (store_bytes_in a _ m (a + 3) (v / 256 / 256 / 256 mod 256)); [|lia|by rewrite Z.add_simpl_l].
  change (le_val (le_bytes 4 v) = v). rewrite le_val_bytes_id; [done|]. exact Hv.
Qed.

Lemma load32_ext (m m' : mem) a :
  (∀ x, a ≤ x < a + 4 → m x = m' x) → load32 m a = load32 m' a.
Proof. intros H. unfold load32. by rewrite !H by lia. Qed.

Lemma load32_store32_ne a a' v m :
  a' + 4 ≤ a ∨ a + 4 ≤ a' → load32 (store32 a v m) a' = load32 m a'.
Proof. intros. apply load32_ext. intros. apply store32_out. lia. Qed.

Lemma load32_range (m : mem) a : (∀ x, is_byte (m x)) → is_u32 (load32 m a).
Proof. intros H. unfold load32. apply (le_val_range [_; _; _; _]). repeat constructor; apply H. Qed.

Lemma fill_in a c n m x : a ≤ x < a + n → fill a c n m x = u8 c.
Proof. intros. unfold fill. destruct (a <=? x) eqn:E1, (x <? _) eqn:E2; bool_facts; simpl; (done || lia). Qed.

Lemma fill_out a c n m x : x < a ∨ a + n ≤ x → fill a c n m x = m x.
Proof. intros. unfold fill. destruct (a <=? x) eqn:E1, (x <? _) eqn:E2; bool_facts; simpl; (done || lia). Qed.

Lemma copy_in d src n m x : d ≤ x < d + n → copy d src n m x = m (src + (x - d)).
Proof. intros. unfold copy. destruct (d <=? x) eqn:E1, (x <? _) eqn:E2; bool_facts; simpl; (done || lia). Qed.

Lemma copy_out d src n m x : x < d ∨ d + n ≤ x → copy d src n m x = m x.
Proof. intros. unfold copy. destruct (d <=? x) eqn:E1, (x <? _) eqn:E2; bool_facts; simpl; (done || lia). Qed.

Lemma load32_fill0 a n m x : a ≤ x → x + 4 ≤ a + n → load32 (fill a 0 n m) x = 0.
Proof. intros. unfold load32. by rewrite !fill_in by lia. Qed.

Lemma load32_fill_out a c n m x : x + 4 ≤ a ∨ a + n ≤ x → load32 (fill a c n m) x = load32 m x.
Proof. intros. apply load32_ext. intros. apply fill_out. lia. Qed.

Lemma load32_copy_out d src n m x : x + 4 ≤ d ∨ d + n ≤ x → load32 (copy d src n m) x = load32 m x.
Proof. intros. apply load32_ext. intros. apply copy_out. lia. Qed.

(** ** The macros of mmu.h and memlayout.h *)

Definition PGROUNDUP (sz : Z) : Z := Z.land (u32 (sz + PGSIZE - 1)) (Z.lnot (PGSIZE - 1)).
Definition PGROUNDDOWN (a : Z) : Z := Z.land a (Z.lnot (PGSIZE - 1)).
Definition PDX (va : Z) : Z := Z.land (Z.shiftr va 22) 1023.
Definition PTX (va : Z) : Z := Z.land (Z.shiftr va 12) 1023.
Definition PTE_P : Z := 1.
Definition PTE_W : Z := 2.
Definition PTE_U : Z := 4.
Definition PTE_ADDR (pte : Z) : Z := Z.land pte (Z.lnot 4095).
Definition PTE_FLAGS (pte : Z) : Z := Z.land pte 4095.
Definition NPDENTRIES : nat := 1024.
Definition NPTENTRIES : Z := 1024.
Definition V2P (a : Z) : Z := u32 (a - KERNBASE).
Definition P2V (a : Z) : Z := u32 (a + KERNBASE).

Lemma land_lnot_4095 a : Z.land a (Z.lnot 4095) = 4096 * (a / 4096).
Proof.
  rewrite <- Z.ldiff_land.
  change 4095 with (Z.ones 12). rewrite Z.ldiff_ones_r by lia.
  rewrite Z.shiftl_mul_pow2, Z.shiftr_div_pow2 by lia. change (2 ^ 12) with 4096. lia.
Qed.

Lemma land_1023 a : Z.land a 1023 = a mod 1024.
Proof. change 1023 with (Z.ones 10). by rewrite Z.land_ones by lia. Qed.

Lemma land_4095 a : Z.land a 4095 = a mod 4096.
Proof. change 4095 with (Z.ones 12). by rewrite Z.land_ones by lia. Qed.

Lemma PGROUNDDOWN_eq a : PGROUNDDOWN a = 4096 * (a / 4096).
Proof. apply land_lnot_4095. Qed.

Lemma PGROUNDUP_eq sz : PGROUNDUP sz = 4096 * (u32 (sz + 4095) / 4096).
Proof. unfold PGROUNDUP. rewrite land_lnot_4095. do 3 f_equal. unfold PGSIZE. lia. Qed.

Lemma PTE_ADDR_eq a : PTE_ADDR a = 4096 * (a / 4096).
Proof. apply land_lnot_4095. Qed.

Lemma PTE_FLAGS_eq a : PTE_FLAGS a = a mod 4096.
Proof. apply land_4095. Qed.

Lemma PDX_eq va : PDX va = (va / 4194304) mod 1024.
Proof. unfold PDX. rewrite land_1023, Z.shiftr_div_pow2 by lia. done. Qed.

Lemma PTX_eq va : PTX va = (va / 4096) mod 1024.
Proof. unfold PTX. rewrite land_1023, Z.shiftr_div_pow2 by lia. done. Qed.

Lemma PGROUNDUP_spec sz :
  0 ≤ sz → sz + 4095 < 4294967296 →
  sz ≤ PGROUNDUP sz < sz + 4096 ∧ PGROUNDUP sz mod 4096 = 0.
Proof.
  intros. rewrite PGROUNDUP_eq, u32_id by (unfold is_u32; lia).
  pose proof (Z.div_mod (sz + 4095) 4096). pose proof (Z.mod_pos_bound (sz + 4095) 4096).
  split; [lia|]. rewrite Z.mul_comm. apply Z.mod_mul. lia.
Qed.

(** ** The MMU *)

(** The page-directory and page-table walk of the hardware for a kernel-mode
    access to [va] under the page directory at kernel address [pgdir]; [None]
    is a page fault. *)
Definition translate (m : mem) (pgdir va : Z) : option Z :=
  let pde := load32 m (pgdir + 4 * PDX va) in
  if truthy (Z.land pde PTE_P) then
    let pte := load32 m (P2V (PTE_ADDR pde) + 4 * PTX va) in
    if truthy (Z.land pte PTE_P) then Some (P2V (PTE_ADDR pte) + va mod PGSIZE) else None
  else None.

(** A kernel access to a user address, under the page table in %cr3.  A page
    fault in the kernel ends in panic("trap"). *)
Definition uload (va : Z) : K Z :=
  s <- gets (λ s, s);;
  match translate s.(k_mem).(m_byte) (P2V s.(k_cpu).(c_cr3)) va with
  | Some a => ret (s.(k_mem).(m_byte) a)
  | None => panic "trap"
  end.

Definition ustore (va b : Z) : K unit :=
  s <- gets (λ s, s);;
  match translate s.(k_mem).(m_byte) (P2V s.(k_cpu).(c_cr3)) va with
  | Some a => modify (on_mem (λ m, set_m_byte (store_bytes a [b] m.(m_byte)) m))
  | None => panic "trap"
  end.

(** [*(int* )va]. *)
Definition uload32 (va : Z) : K Z :=
  b0 <- uload va;; b1 <- uload (va + 1);; b2 <- uload (va + 2);; b3 <- uload (va + 3);;
  ret (le_val [b0; b1; b2; b3]).

(** ** Copies to and from a caller's buffer *)

Fixpoint ustore_bytes (va : Z) (bs : list Z) : K unit :=
  match bs with [] => ret tt | b :: bs' => ustore va b;; ustore_bytes (va + 1) bs' end.

Fixpoint uload_bytes (va : Z) (n : nat) : K (list Z) :=
  match n with
  | O => ret []
  | S n' => b <- uload va;; bs <- uload_bytes (va + 1) n';; ret (b :: bs)
  end.

(** Storing to user memory changes memory only, in a way that depends only on
    the memory and on the page table in use. *)
Lemma ustore_inv va b s e s1 e1 :
  ustore va b s e = Ret tt s1 e1 →
  ∃ m, s1 = on_mem (set_m_byte m) s ∧ e1 = e ∧
       ∀ s', s'.(k_mem).(m_byte) = s.(k_mem).(m_byte) → s'.(k_cpu).(c_cr3) = s.(k_cpu).(c_cr3) →
             ustore va b s' e = Ret tt (on_mem (set_m_byte m) s') e.
Proof.
  unfold ustore. rewrite bind_gets. destruct (translate _ _ _) as [a|] eqn:E; [|done].
  intros H. inversion H; subst. eexists. split; [done|]. split; [done|].
  intros s' Hm Hc. rewrite bind_gets, Hm, Hc, E. unfold modify, on_mem. by rewrite Hm.
Qed.

Lemma ustore_bytes_inv bs va s e s1 e1 :
  ustore_bytes va bs s e = Ret tt s1 e1 →
  ∃ m, s1 = on_mem (set_m_byte m) s ∧ e1 = e ∧
       ∀ s', s'.(k_mem).(m_byte) = s.(k_mem).(m_byte) → s'.(k_cpu).(c_cr3) = s.(k_cpu).(c_cr3) →
             ustore_bytes va bs s' e = Ret tt (on_mem (set_m_byte m) s') e.
Proof.
  revert va s. induction bs as [|b bs IH]; intros va s H; cbn in *.
  { inversion H; subst. exists (m_byte (k_mem s1)). split; [done|]. split; [done|].
    intros s' <- _. done. }
  apply bind_inv in H as ([] & s2 & e2 & H1 & H2).
  apply ustore_inv in H1 as (m1 & -> & -> & Hp1). apply IH in H2 as (m2 & -> & -> & Hp2).
  exists m2. split; [done|]. split; [done|]. intros s' Hm Hc.
  rewrite (bind_run _ _ _ _ _ _ _ (Hp1 s' Hm Hc)). exact (Hp2 (on_mem (set_m_byte m1) s') eq_refl Hc).
Qed.

(** Where a [char *dst] points: user memory, a kernel page, or a local variable
    of the caller, which takes the bytes from the result. *)
Inductive dst : Type := ToUser (va : Z) | ToKern (a : Z) | ToLocal.

(** [memmove(dst + off, bs, ...)]. *)
Definition put (d : dst) (off : Z) (bs : list Z) : K unit :=
  match d with
  | ToUser va => ustore_bytes (va + off) bs
  | ToKern a => modify (on_mem (λ m, set_m_byte (store_bytes (a + off) bs m.(m_byte)) m))
  | ToLocal => ret tt
  end.

(** Where a [char *src] points: user memory, or given bytes. *)
Inductive src : Type := FromUser (va : Z) | FromLocal (bs : list Z).

(** The [n] bytes from [src + off]. *)
Definition fetch (f : src) (off n : Z) : K (list Z) :=
  match f with
  | FromUser va => uload_bytes (va + off) (Z.to_nat n)
  | FromLocal bs => ret (slice (Z.to_nat off) (Z.to_nat n) bs)
  end.
