(* ===== verification/Hardware.v ===== *)
(** * Device access and the interrupt controllers (x86.h, traps.h, picirq.c, ioapic.c, timer.c, uart.c, lapic.c)

    The devices themselves are a parameter: what a port or a register answers,
    and what it becomes when written, is the class [Hardware].  The drivers are
    programs on a machine that consists of the devices and of the drivers' own
    static variables.  What the theorems need of a device is a class of its own
    that states the documented behaviour. *)

From S2P Require Import Prelude KState Print.
#[local] Open Scope kernel_scope.

(** ** traps.h *)

Definition T_SYSCALL : Z := 64.
Definition T_IRQ0 : Z := 32.
Definition IRQ_TIMER : Z := 0.
Definition IRQ_KBD : Z := 1.
Definition IRQ_COM1 : Z := 4.
Definition IRQ_IDE : Z := 14.
Definition IRQ_ERROR : Z := 19.
Definition IRQ_SPURIOUS : Z := 31.

(** ** Ports and memory-mapped registers *)

Class Hardware (D : Type) : Type := {
  port_in : Z → D → Z * D;
  port_out : Z → Z → D → D;
  mmio_in : Z → D → Z * D;
  mmio_out : Z → Z → D → D
}.

(** The devices and the static variables of the drivers. *)
Record machine (D : Type) : Type := Mkmachine {
  dev : D;
  irqmask : Z;          (* picirq.c *)
  uart : Z;             (* uart.c *)
  ismp : Z;             (* mp.c *)
  ncpu : Z;
  apicids : list Z;     (* cpus[i].apicid *)
  ioapicid : Z;
  lapic : Z;            (* lapic.c *)
  int_on : bool;        (* FL_IF *)
  warned : Z;           (* the counter of cpunum *)
  printed_out : list Z  (* what cprintf has printed *)
}.
Arguments Mkmachine {D}.
Arguments dev {D}.
Arguments irqmask {D}.
Arguments uart {D}.
Arguments ismp {D}.
Arguments ncpu {D}.
Arguments apicids {D}.
Arguments ioapicid {D}.
Arguments lapic {D}.
Arguments int_on {D}.
Arguments warned {D}.
Arguments printed_out {D}.

Section machine.
Context {D : Type}.

Definition set_dev (v : D) (s : machine D) : machine D :=
  Mkmachine v s.(irqmask) s.(uart) s.(ismp) s.(ncpu) s.(apicids) s.(ioapicid) s.(lapic) s.(int_on) s.(warned) s.(printed_out).
Definition set_irqmask (v : Z) (s : machine D) : machine D :=
  Mkmachine s.(dev) v s.(uart) s.(ismp) s.(ncpu) s.(apicids) s.(ioapicid) s.(lapic) s.(int_on) s.(warned) s.(printed_out).
Definition set_uart (v : Z) (s : machine D) : machine D :=
  Mkmachine s.(dev) s.(irqmask) v s.(ismp) s.(ncpu) s.(apicids) s.(ioapicid) s.(lapic) s.(int_on) s.(warned) s.(printed_out).
Definition set_ismp (v : Z) (s : machine D) : machine D :=
  Mkmachine s.(dev) s.(irqmask) s.(uart) v s.(ncpu) s.(apicids) s.(ioapicid) s.(lapic) s.(int_on) s.(warned) s.(printed_out).
Definition set_ncpu (v : Z) (s : machine D) : machine D :=
  Mkmachine s.(dev) s.(irqmask) s.(uart) s.(ismp) v s.(apicids) s.(ioapicid) s.(lapic) s.(int_on) s.(warned) s.(printed_out).
Definition set_apicids (v : list Z) (s : machine D) : machine D :=
  Mkmachine s.(dev) s.(irqmask) s.(uart) s.(ismp) s.(ncpu) v s.(ioapicid) s.(lapic) s.(int_on) s.(warned) s.(printed_out).
Definition set_ioapicid (v : Z) (s : machine D) : machine D :=
  Mkmachine s.(dev) s.(irqmask) s.(uart) s.(ismp) s.(ncpu) s.(apicids) v s.(lapic) s.(int_on) s.(warned) s.(printed_out).
Definition set_lapic (v : Z) (s : machine D) : machine D :=
  Mkmachine s.(dev) s.(irqmask) s.(uart) s.(ismp) s.(ncpu) s.(apicids) s.(ioapicid) v s.(int_on) s.(warned) s.(printed_out).
Definition set_warned (v : Z) (s : machine D) : machine D :=
  Mkmachine s.(dev) s.(irqmask) s.(uart) s.(ismp) s.(ncpu) s.(apicids) s.(ioapicid) s.(lapic) s.(int_on) v s.(printed_out).
Definition set_printed_out (v : list Z) (s : machine D) : machine D :=
  Mkmachine s.(dev) s.(irqmask) s.(uart) s.(ismp) s.(ncpu) s.(apicids) s.(ioapicid) s.(lapic) s.(int_on) s.(warned) v.

Context {HW : Hardware D}.

Definition inb (port : Z) : M (machine D) Z := λ s e,
  let (v, d) := port_in port s.(dev) in Ret (u8 v) (set_dev d s) e.
Definition outb (port data : Z) : M (machine D) unit :=
  modify (λ s, set_dev (port_out port (u8 data) s.(dev)) s).

(** A 32-bit register in memory. *)
Definition readl (addr : Z) : M (machine D) Z := λ s e,
  let (v, d) := mmio_in addr s.(dev) in Ret (u32 v) (set_dev d s) e.
Definition writel (addr data : Z) : M (machine D) unit :=
  modify (λ s, set_dev (mmio_out addr (u32 data) s.(dev)) s).

(** [cprintf], for its text. *)
Definition hprintf (fmt : string) (args : list arg) : M (machine D) unit :=
  modify (λ s, set_printed_out (s.(printed_out) ++ default [] (format (str fmt) args)) s).

(** [insl]: the bytes of [cnt] words. *)
Fixpoint insl (port : Z) (cnt : nat) : M (machine D) (list Z) :=
  match cnt with
  | O => ret []
  | S cnt' => λ s e,
      let (v, d) := port_in port s.(dev) in
      bind (insl port cnt') (λ l, ret (le_bytes 4 v ++ l)) (set_dev d s) e
  end.

(** [outsl] of words. *)
Fixpoint outsl (port : Z) (ws : list Z) : M (machine D) unit :=
  match ws with
  | [] => ret tt
  | w :: ws' => modify (λ s, set_dev (port_out port w s.(dev)) s);; outsl port ws'
  end.
End machine.

Section drivers.
Context {D : Type} {HW : Hardware D}.
Notation dM := (M (machine D)).

(** ** picirq.c *)

Definition IO_PIC1 : Z := 32.
Definition IO_PIC2 : Z := 160.
Definition IRQ_SLAVE : Z := 2.

(** The initial value of [irqmask]. *)
Definition irqmask0 : Z := Z.land 65535 (Z.lnot (Z.shiftl 1 IRQ_SLAVE)).

Definition picsetmask (mask : Z) : dM unit :=
  modify (set_irqmask mask);;
  outb (IO_PIC1 + 1) mask;;
  outb (IO_PIC2 + 1) (Z.shiftr mask 8).

Definition picenable (irq : Z) : dM unit :=
  m <- gets irqmask;;
  picsetmask (u16 (Z.land m (Z.lnot (Z.shiftl 1 irq)))).

Definition picinit : dM unit :=
  outb (IO_PIC1 + 1) 255;;
  outb (IO_PIC2 + 1) 255;;
  outb IO_PIC1 17;;
  outb (IO_PIC1 + 1) T_IRQ0;;
  outb (IO_PIC1 + 1) (Z.shiftl 1 IRQ_SLAVE);;
  outb (IO_PIC1 + 1) 3;;
  outb IO_PIC2 17;;
  outb (IO_PIC2 + 1) (T_IRQ0 + 8);;
  outb (IO_PIC2 + 1) IRQ_SLAVE;;
  outb (IO_PIC2 + 1) 3;;
  outb IO_PIC1 104;;
  outb IO_PIC1 10;;
  outb IO_PIC2 104;;
  outb IO_PIC2 10;;
  m <- gets irqmask;;
  if negb (m =? 65535) then picsetmask m else ret tt.

(** ** ioapic.c *)

Definition IOAPIC : Z := 4273995776.
Definition REG_ID : Z := 0.
Definition REG_VER : Z := 1.
Definition REG_TABLE : Z := 16.
Definition INT_DISABLED : Z := 65536.

(** The offsets of [reg] and [data] in struct ioapic. *)
Definition ioapic_reg : Z := IOAPIC.
Definition ioapic_data : Z := IOAPIC + 16.

Definition ioapicread (reg : Z) : dM Z :=
  writel ioapic_reg reg;;
  readl ioapic_data.

Definition ioapicwrite (reg data : Z) : dM unit :=
  writel ioapic_reg reg;;
  writel ioapic_data data.

Definition ioapicinit : dM unit :=
  mp <- gets ismp;;
  if negb (truthy mp) then ret tt else
  v <- ioapicread REG_VER;;
  let maxintr := Z.land (Z.shiftr v 16) 255 in
  r <- ioapicread REG_ID;;
  let id := Z.shiftr r 24 in
  own <- gets ioapicid;;
  (if negb (id =? own) then hprintf ("ioapicinit: id isn't equal to ioapicid; not a MP" +:+ newline) [] else ret tt);;
  for_each (Z.of_nat <$> seq 0 (S (Z.to_nat maxintr))) (λ i,
    ioapicwrite (REG_TABLE + 2 * i) (Z.lor INT_DISABLED (T_IRQ0 + i));;
    ioapicwrite (REG_TABLE + 2 * i + 1) 0).

Definition ioapicenable (irq cpunum : Z) : dM unit :=
  mp <- gets ismp;;
  if negb (truthy mp) then ret tt else
  ioapicwrite (REG_TABLE + 2 * irq) (T_IRQ0 + irq);;
  ioapicwrite (REG_TABLE + 2 * irq + 1) (Z.shiftl cpunum 24).

(** ** timer.c *)

Definition IO_TIMER1 : Z := 64.
Definition TIMER_FREQ : Z := 1193182.
Definition TIMER_DIV (x : Z) : Z := (TIMER_FREQ + x / 2) / x.
Definition TIMER_MODE : Z := IO_TIMER1 + 3.
Definition TIMER_SEL0 : Z := 0.
Definition TIMER_RATEGEN : Z := 4.
Definition TIMER_16BIT : Z := 48.

Definition timerinit : dM unit :=
  outb TIMER_MODE (Z.lor (Z.lor TIMER_SEL0 TIMER_RATEGEN) TIMER_16BIT);;
  outb IO_TIMER1 (TIMER_DIV 100 mod 256);;
  outb IO_TIMER1 (TIMER_DIV 100 / 256);;
  picenable IRQ_TIMER.

(** ** uart.c *)

Definition COM1 : Z := 1016.

(** The loop of [uartputc] that waits for the transmitter; [microdelay] does nothing. *)
Fixpoint uart_wait (n : nat) : dM unit :=
  match n with
  | O => ret tt
  | S n' => st <- inb (COM1 + 5);; if truthy (Z.land st 32) then ret tt else uart_wait n'
  end.

Definition uartputc (c : Z) : dM unit :=
  u <- gets uart;;
  if negb (truthy u) then ret tt else
  uart_wait 128;;
  outb (COM1 + 0) c.

Definition uartgetc : dM Z :=
  u <- gets uart;;
  if negb (truthy u) then ret (-1) else
  st <- inb (COM1 + 5);;
  if negb (truthy (Z.land st 1)) then ret (-1) else
  inb (COM1 + 0).

Definition uartinit : dM unit :=
  outb (COM1 + 2) 0;;
  outb (COM1 + 3) 128;;
  outb (COM1 + 0) (115200 / 9600);;
  outb (COM1 + 1) 0;;
  outb (COM1 + 3) 3;;
  outb (COM1 + 4) 0;;
  outb (COM1 + 1) 1;;
  st <- inb (COM1 + 5);;
  if st =? 255 then ret tt else
  modify (set_uart 1);;
  inb (COM1 + 2);;
  inb (COM1 + 0);;
  picenable IRQ_COM1;;
  ioapicenable IRQ_COM1 0;;
  for_each (str ("xv6..." +:+ newline)) uartputc.
End drivers.

(** ** Systems that contain the machine

    A driver with variables of its own, the boot loader and the kernel at boot
    run on states that contain the machine. *)
Class Board (D W : Type) : Type := {
  mach : W → machine D;
  set_mach : machine D → W → W;
  mach_set x s : mach (set_mach x s) = x;
  set_mach_set x y s : set_mach y (set_mach x s) = set_mach y s;
  set_mach_id s : set_mach (mach s) s = s
}.

(** Device access from such a system: it does not give up the processor. *)
Definition on_dev {D W A} `{Board D W} (m : M (machine D) A) : M W A := λ s e,
  match m (mach s) [] with
  | Ret a x _ => Ret a (set_mach x s) e
  | Panic msg => Panic msg
  | Switched x => Switched (set_mach x s)
  | Spins x => Spins (set_mach x s)
  | Fault w => Fault w
  end.

Lemma on_dev_run {D W A} `{Board D W} (m : M (machine D) A) (s : W) e a x :
  m (mach s) [] = Ret a x [] → on_dev m s e = Ret a (set_mach x s) e.
Proof. intros Hm. unfold on_dev. by rewrite Hm. Qed.
