(* ===== verification/Desc.v ===== *)
(** * Segment and gate descriptors (mmu.h, vm.c: seginit, trap.c: tvinit, idtinit, x86.h: lgdt, lidt, loadgs)

    The descriptor tables the kernel builds, and what the processor reads in
    them: base, limit and privilege of the segments, handler and privilege of
    the interrupt gates. *)

From S2P Require Import Prelude KState Print Hardware.
#[local] Open Scope kernel_scope.

Definition SEG_KCODE : Z := 1.
Definition SEG_KDATA : Z := 2.
Definition SEG_KCPU : Z := 3.
Definition SEG_UCODE : Z := 4.
Definition SEG_UDATA : Z := 5.
Definition NSEGS : nat := 7.
Definition DPL_USER : Z := 3.
Definition STA_X : Z := 8.
Definition STA_W : Z := 2.
Definition STA_R : Z := 2.
Definition STS_IG32 : Z := 14.
Definition STS_TG32 : Z := 15.

(** The bit fields of struct segdesc, in their order. *)
Record segdesc : Type := Mksegdesc {
  lim_15_0 : Z; base_15_0 : Z; base_23_16 : Z; sd_type : Z; sd_s : Z; sd_dpl : Z; sd_p : Z;
  lim_19_16 : Z; sd_avl : Z; sd_rsv1 : Z; sd_db : Z; sd_g : Z; base_31_24 : Z
}.

(** [SEG(type, base, lim, dpl)]; a field of [n] bits keeps the low [n] bits. *)
Definition SEG (type base lim dpl : Z) : segdesc :=
  Mksegdesc (Z.land (Z.shiftr lim 12) 65535) (Z.land (u32 base) 65535) (Z.land (Z.shiftr (u32 base) 16) 255) (type mod 16) 1 (dpl mod 4) 1
    (Z.shiftr (u32 lim) 28 mod 16) 0 0 1 1 (Z.shiftr (u32 base) 24 mod 256).

Definition SEG16 (type base lim dpl : Z) : segdesc :=
  Mksegdesc (Z.land lim 65535) (Z.land (u32 base) 65535) (Z.land (Z.shiftr (u32 base) 16) 255) (type mod 16) 1 (dpl mod 4) 1
    (Z.shiftr (u32 lim) 16 mod 16) 0 0 1 0 (Z.shiftr (u32 base) 24 mod 256).

Record gatedesc : Type := Mkgatedesc {
  off_15_0 : Z; gd_cs : Z; gd_args : Z; gd_rsv1 : Z; gd_type : Z; gd_s : Z; gd_dpl : Z; gd_p : Z; off_31_16 : Z
}.

(** [SETGATE(gate, istrap, sel, off, d)]: the new value of the gate. *)
Definition SETGATE (istrap : bool) (sel off d : Z) : gatedesc :=
  Mkgatedesc (Z.land (u32 off) 65535) (sel mod 65536) 0 0 (if istrap then STS_TG32 else STS_IG32) 0 (d mod 4) 1 (Z.shiftr (u32 off) 16 mod 65536).

Definition zero_segdesc : segdesc := Mksegdesc 0 0 0 0 0 0 0 0 0 0 0 0 0.
Definition zero_gatedesc : gatedesc := Mkgatedesc 0 0 0 0 0 0 0 0 0.

(** What the descriptor-table instructions and [seginit] set: the table of this
    processor, the registers, and the variables at %gs. *)
Record tables_state : Type := Mktables {
  ts_gdt : list segdesc;
  ts_idt : list gatedesc;
  ts_gdtr : list Z;
  ts_idtr : list Z;
  ts_gs : Z;
  ts_cpu : Z;
  ts_proc : Z
}.

(** The operand of lgdt and lidt: three half-words. *)
Definition pseudo_desc (p size : Z) : list Z := [u16 (size - 1); u16 p; u16 (Z.shiftr (u32 p) 16)].

Definition lgdt (p size : Z) (t : tables_state) : tables_state :=
  Mktables t.(ts_gdt) t.(ts_idt) (pseudo_desc p size) t.(ts_idtr) t.(ts_gs) t.(ts_cpu) t.(ts_proc).
Definition lidt (p size : Z) (t : tables_state) : tables_state :=
  Mktables t.(ts_gdt) t.(ts_idt) t.(ts_gdtr) (pseudo_desc p size) t.(ts_gs) t.(ts_cpu) t.(ts_proc).
Definition loadgs (v : Z) (t : tables_state) : tables_state :=
  Mktables t.(ts_gdt) t.(ts_idt) t.(ts_gdtr) t.(ts_idtr) v t.(ts_cpu) t.(ts_proc).

Definition set_gdt (i : Z) (x : segdesc) (t : tables_state) : tables_state :=
  Mktables (<[Z.to_nat i := x]> t.(ts_gdt)) t.(ts_idt) t.(ts_gdtr) t.(ts_idtr) t.(ts_gs) t.(ts_cpu) t.(ts_proc).
Definition set_idt (i : nat) (x : gatedesc) (t : tables_state) : tables_state :=
  Mktables t.(ts_gdt) (<[i := x]> t.(ts_idt)) t.(ts_gdtr) t.(ts_idtr) t.(ts_gs) t.(ts_cpu) t.(ts_proc).

(** [c] is the address of this processor's struct cpu, [gdt_off] and [cpu_off]
    the offsets of its members [gdt] and [cpu]. *)
Definition seginit (c gdt_off cpu_off : Z) (t : tables_state) : tables_state :=
  let t := set_gdt SEG_KCODE (SEG (Z.lor STA_X STA_R) 0 4294967295 0) t in
  let t := set_gdt SEG_KDATA (SEG STA_W 0 4294967295 0) t in
  let t := set_gdt SEG_UCODE (SEG (Z.lor STA_X STA_R) 0 4294967295 DPL_USER) t in
  let t := set_gdt SEG_UDATA (SEG STA_W 0 4294967295 DPL_USER) t in
  let t := set_gdt SEG_KCPU (SEG STA_W (c + cpu_off) 8 0) t in
  let t := lgdt (c + gdt_off) (8 * Z.of_nat NSEGS) t in
  let t := loadgs (Z.shiftl SEG_KCPU 3) t in
  Mktables t.(ts_gdt) t.(ts_idt) t.(ts_gdtr) t.(ts_idtr) t.(ts_gs) c 0.

(** [vectors] is the table of vectors.S. *)
Definition tvinit (vectors : nat → Z) (t : tables_state) : tables_state :=
  let t := foldl (λ t i, set_idt i (SETGATE false (Z.shiftl SEG_KCODE 3) (vectors i) 0) t) t (seq 0 256) in
  set_idt (Z.to_nat T_SYSCALL) (SETGATE true (Z.shiftl SEG_KCODE 3) (vectors (Z.to_nat T_SYSCALL)) DPL_USER) t.

(** [idt] is the address of the table. *)
Definition idtinit (idt : Z) (t : tables_state) : tables_state := lidt idt (8 * 256) t.

(** ** What the processor reads *)

Definition seg_base (x : segdesc) : Z := x.(base_15_0) + 65536 * x.(base_23_16) + 16777216 * x.(base_31_24).
(** The last offset of the segment: the limit counts pages when the granularity bit is set. *)
Definition seg_limit (x : segdesc) : Z :=
  let l := x.(lim_15_0) + 65536 * x.(lim_19_16) in if x.(sd_g) =? 1 then 4096 * l + 4095 else l.
(** A present 32-bit segment of code or data; one that spans all addresses. *)
Definition usable (x : segdesc) : Prop := x.(sd_p) = 1 ∧ x.(sd_s) = 1 ∧ x.(sd_db) = 1.
Definition flat (x : segdesc) : Prop := usable x ∧ seg_base x = 0 ∧ seg_limit x = 4294967295.
Definition gate_handler (g : gatedesc) : Z := g.(off_15_0) + 65536 * g.(off_31_16).
(** The [int] instruction at privilege [cpl] may use the gate. *)
Definition may_invoke (cpl : Z) (g : gatedesc) : Prop := g.(gd_p) = 1 ∧ cpl ≤ g.(gd_dpl).
(** The processor clears the interrupt flag on the way in. *)
Definition masks_interrupts (g : gatedesc) : Prop := g.(gd_type) = STS_IG32.
(** The table the register points to: address and last byte. *)
Definition table_base (r : list Z) : Z := nth 1 r 0 + 65536 * nth 2 r 0.
Definition table_limit (r : list Z) : Z := nth 0 r 0.

Lemma split16 x : 0 ≤ x < 4294967296 → Z.land x 65535 + 65536 * Z.shiftr x 16 = x ∧ 0 ≤ Z.shiftr x 16 < 65536.
Proof.
  intros Hx. change 65535 with (Z.ones 16). rewrite Z.land_ones, Z.shiftr_div_pow2 by lia. change (2 ^ 16) with 65536.
  pose proof (Z.div_mod x 65536 ltac:(done)). split; [lia|]. split; [apply Z.div_pos; lia|apply Z.div_lt_upper_bound; lia].
Qed.

(** The three pieces of the base and the two pieces of the limit go back together. *)
Lemma SEG_decode type base lim dpl :
  is_u32 base → is_u32 lim → seg_base (SEG type base lim dpl) = base ∧ seg_limit (SEG type base lim dpl) = 4096 * (lim / 4096) + 4095.
Proof.
  intros Hb Hl. unfold is_u32 in *. unfold seg_base, seg_limit, SEG. cbn [base_15_0 base_23_16 base_31_24 lim_15_0 lim_19_16 sd_g].
  rewrite !(u32_id base), (u32_id lim) by done. destruct (split16 base Hb) as [Hs1 Hs2]. split.
  - assert (Z.land (Z.shiftr base 16) 255 + 256 * (Z.shiftr base 24 mod 256) = Z.shiftr base 16) as Hh; [|lia].
    replace (Z.shiftr base 24) with (Z.shiftr (Z.shiftr base 16) 8) by (rewrite Z.shiftr_shiftr by lia; done). generalize dependent (Z.shiftr base 16). intros h _ Hh.
    change 255 with (Z.ones 8). rewrite Z.land_ones, Z.shiftr_div_pow2 by lia. change (2 ^ 8) with 256. rewrite (Z.mod_small (h / 256)) by (split; [apply Z.div_pos; lia|apply Z.div_lt_upper_bound; lia]).
    pose proof (Z.div_mod h 256 ltac:(done)). lia.
  - change (1 =? 1) with true. cbv iota zeta. f_equal. f_equal. replace (Z.shiftr lim 28) with (Z.shiftr (Z.shiftr lim 12) 16) by (rewrite Z.shiftr_shiftr by lia; done).
    rewrite (Z.shiftr_div_pow2 lim 12) by lia. change (2 ^ 12) with 4096. assert (0 ≤ lim / 4096 < 1048576) as Hp by (split; [apply Z.div_pos; lia|apply Z.div_lt_upper_bound; lia]).
    destruct (split16 (lim / 4096) ltac:(lia)) as [H1 H2]. assert (0 ≤ Z.shiftr (lim / 4096) 16 < 16) as H3.
    { rewrite Z.shiftr_div_pow2 by lia. split; [apply Z.div_pos; lia|apply Z.div_lt_upper_bound; [done|]]. change (2 ^ 16) with 65536. lia. }
    rewrite (Z.mod_small _ 16 H3). exact H1.
Qed.

(** The handler's address goes back together. *)
Lemma SETGATE_decode istrap sel off d : is_u32 off → gate_handler (SETGATE istrap sel off d) = off.
Proof.
  intros Ho. unfold gate_handler, SETGATE. cbn [off_15_0 off_31_16]. rewrite u32_id by done. destruct (split16 off Ho) as [H1 H2]. by rewrite Z.mod_small by done.
Qed.

Lemma pseudo_desc_decode p size : is_u32 p → 1 ≤ size ≤ 65536 → table_base (pseudo_desc p size) = p ∧ table_limit (pseudo_desc p size) = size - 1.
Proof.
  intros Hp Hs. unfold table_base, table_limit, pseudo_desc, u16. cbn [nth]. rewrite u32_id by done. destruct (split16 p Hp) as [H1 H2]. rewrite (Z.mod_small (Z.shiftr p 16)) by done.
  rewrite (Z.mod_small (size - 1)) by lia. split; [|done]. change 65535 with (Z.ones 16) in H1. rewrite Z.land_ones in H1 by lia. exact H1.
Qed.

Lemma set_idt_all (f : nat → gatedesc) n : ∀ k t, (k + n ≤ length t.(ts_idt))%nat →
  let t' := foldl (λ t i, set_idt i (f i) t) t (seq k n) in
  length t'.(ts_idt) = length t.(ts_idt) ∧ ∀ i, t'.(ts_idt) !! i = if decide (k ≤ i < k + n)%nat then Some (f i) else t.(ts_idt) !! i.
Proof.
  induction n as [|n IH]; intros k t Hk; cbn [seq foldl].
  - split; [done|]. intros i. rewrite decide_False by lia. done.
  - destruct (IH (S k) (set_idt k (f k) t)) as [Hl Hi]; [simpl; rewrite length_insert; lia|]. simpl in Hl. rewrite length_insert in Hl. split; [done|].
    intros i. rewrite Hi. simpl. destruct (decide (i = k)) as [->|Hne].
    + rewrite decide_False by lia. rewrite decide_True by lia. apply list_lookup_insert_eq. lia.
    + rewrite list_lookup_insert_ne by done. destruct (decide (k ≤ i < k + S n)%nat); [rewrite decide_True by lia|rewrite decide_False by lia]; done.
Qed.

(** C31: after [tvinit], [idtinit] and [seginit] every interrupt vector leads to its handler of vectors.S in the kernel's
    code segment, at kernel privilege.  A user program can invoke the system call gate and no other; that gate leaves
    interrupts on, all others turn them off.  The registers hold the two tables.  The code and data segments of the kernel
    and of the user span all addresses, the kernel's at privilege 0 and the user's at privilege 3; the segment at %gs, at
    privilege 0, starts at this processor's [cpu] and [proc], which are set to it and to 0. *)
Theorem vectors_correct (vectors : nat → Z) (idt c gdt_off cpu_off : Z) (t : tables_state) :
  length t.(ts_idt) = 256%nat → length t.(ts_gdt) = NSEGS → (∀ i, is_u32 (vectors i)) → is_u32 idt → is_u32 (c + gdt_off) → is_u32 (c + cpu_off) →
  let t' := seginit c gdt_off cpu_off (idtinit idt (tvinit vectors t)) in
  (∀ n, (n < 256)%nat → ∃ g, t'.(ts_idt) !! n = Some g ∧ gate_handler g = vectors n ∧ g.(gd_cs) = 8 ∧ may_invoke 0 g ∧
     (may_invoke DPL_USER g ↔ n = Z.to_nat T_SYSCALL) ∧ (masks_interrupts g ↔ n ≠ Z.to_nat T_SYSCALL)) ∧
  table_base t'.(ts_idtr) = idt ∧ table_limit t'.(ts_idtr) = 2047 ∧ table_base t'.(ts_gdtr) = c + gdt_off ∧ table_limit t'.(ts_gdtr) = 55 ∧
  (∃ k, t'.(ts_gdt) !! 1%nat = Some k ∧ k.(sd_type) = STA_X + STA_R ∧ k.(sd_dpl) = 0 ∧ flat k) ∧
  (∃ k, t'.(ts_gdt) !! 2%nat = Some k ∧ k.(sd_type) = STA_W ∧ k.(sd_dpl) = 0 ∧ flat k) ∧
  (∃ k, t'.(ts_gdt) !! 3%nat = Some k ∧ k.(sd_type) = STA_W ∧ k.(sd_dpl) = 0 ∧ usable k ∧ seg_base k = c + cpu_off ∧ 7 ≤ seg_limit k) ∧
  (∃ u, t'.(ts_gdt) !! 4%nat = Some u ∧ u.(sd_type) = STA_X + STA_R ∧ u.(sd_dpl) = DPL_USER ∧ flat u) ∧
  (∃ u, t'.(ts_gdt) !! 5%nat = Some u ∧ u.(sd_type) = STA_W ∧ u.(sd_dpl) = DPL_USER ∧ flat u) ∧
  t'.(ts_gs) = 24 ∧ t'.(ts_cpu) = c ∧ t'.(ts_proc) = 0.
Proof.
  intros Hi Hg Hv Hidt Hc Hcpu t'. destruct (set_idt_all (λ i, SETGATE false (Z.shiftl SEG_KCODE 3) (vectors i) 0) 256 0 t) as [Hl Hf]; [rewrite Hi; done|].
  set (t1 := foldl _ t (seq 0 256)) in *. assert (t'.(ts_idt) = <[64%nat := SETGATE true (Z.shiftl SEG_KCODE 3) (vectors 64%nat) DPL_USER]> t1.(ts_idt)) as Ht by done.
  destruct (pseudo_desc_decode idt (8 * 256) Hidt ltac:(lia)) as [D1 D2]. destruct (pseudo_desc_decode (c + gdt_off) (8 * Z.of_nat NSEGS) Hc ltac:(unfold NSEGS; lia)) as [D3 D4].
  split; [|split; [exact D1|split; [exact D2|split; [exact D3|split; [exact D4|]]]]].
  - intros n Hn. rewrite Ht. change (Z.to_nat T_SYSCALL) with 64%nat. destruct (decide (n = 64%nat)) as [->|Hne].
    + rewrite list_lookup_insert_eq by (rewrite Hl, Hi; lia). eexists. split; [reflexivity|]. split; [by apply SETGATE_decode|]. split; [done|]. split; [done|]. split; [|split; [|done]].
      * split; [done|]. intros _. by split.
      * by intros Hm%(f_equal (λ z, z =? 14)).
    + rewrite list_lookup_insert_ne by done. rewrite Hf, decide_True by lia. eexists. split; [reflexivity|]. split; [by apply SETGATE_decode|]. split; [done|]. split; [done|].
      split; [|done]. split; [|done]. intros [_ Hd]. change (3 ≤ 0) in Hd. lia.
  - assert (t'.(ts_gdt) = <[3%nat := SEG STA_W (c + cpu_off) 8 0]> (<[5%nat := SEG STA_W 0 4294967295 DPL_USER]> (<[4%nat := SEG 10 0 4294967295 DPL_USER]>
      (<[2%nat := SEG STA_W 0 4294967295 0]> (<[1%nat := SEG 10 0 4294967295 0]> t.(ts_gdt)))))) as Hgdt by done.
    destruct (SEG_decode STA_W (c + cpu_off) 8 0 Hcpu ltac:(done)) as [B1 B2].
    rewrite Hgdt. clear -Hg B1 B2. destruct t.(ts_gdt) as [|x0 [|x1 [|x2 [|x3 [|x4 [|x5 [|x6 [|]]]]]]]]; try discriminate Hg.
    split_and!; try done; eexists; (split; [reflexivity|]); [vm_compute; done|vm_compute; done| |vm_compute; done|vm_compute; done].
    split; [done|]. split; [done|]. split; [done|]. split; [exact B1|]. rewrite B2. by vm_compute.
Qed.

Lemma vectors_correct_witness :
  let t' := seginit 2148532224 16 172 (idtinit 2148540416 (tvinit (λ i, 2148533000 + 8 * Z.of_nat i) (Mktables (replicate 7 zero_segdesc) (replicate 256 zero_gatedesc) [] [] 0 0 0))) in
  ∃ g, t'.(ts_idt) !! 64%nat = Some g ∧ gate_handler g = 2148533512 ∧ may_invoke DPL_USER g.
Proof.
  intros t'. destruct (vectors_correct (λ i, u32 (2148533000 + 8 * Z.of_nat i)) 2148540416 2148532224 16 172 (Mktables (replicate 7 zero_segdesc) (replicate 256 zero_gatedesc) [] [] 0 0 0))
    as (H & _); [done|done|intros i; apply u32_range|done|done|done|].
  destruct (H 64%nat ltac:(lia)) as (g & Hg & Hh & _ & _ & Hm & _). exists g. split; [|split; [rewrite Hh; reflexivity|by apply Hm]].
  rewrite <- Hg. reflexivity.
Defined.
