(* ===== verification/Irq.v ===== *)
(** * What the interrupt controllers are programmed to do

    The documented behaviour of the 8259A and of the I/O APIC as laws on
    [Hardware], and what [picinit], [picenable], [ioapicinit] and
    [ioapicenable] make of them. *)

From S2P Require Import Prelude KState Print Hardware.
#[local] Open Scope kernel_scope.

(** ** The 8259A

    A write of an initialization word ICW1 (bit 4 set, at the even port) starts
    a sequence: the words at the odd port are then ICW2, ICW3 unless ICW1 says
    that the chip is single, and ICW4 if ICW1 asks for it.  Otherwise a write to
    the odd port is the mask register, and the even port takes commands that
    leave the mask as it is. *)
Inductive icw := Ready | ICW2 | ICW3 | ICW4.

Record pic : Type := Mkpic {
  pic_next : icw;
  pic_icw1 : Z;
  pic_vector : Z;
  pic_cascade : Z;
  pic_mode : Z;
  pic_mask : Z
}.

Definition pic_write (odd : bool) (v : Z) (p : pic) : pic :=
  if odd then
    match p.(pic_next) with
    | ICW2 => Mkpic (if Z.testbit p.(pic_icw1) 1 then if Z.testbit p.(pic_icw1) 0 then ICW4 else Ready else ICW3)
                    p.(pic_icw1) v p.(pic_cascade) p.(pic_mode) p.(pic_mask)
    | ICW3 => Mkpic (if Z.testbit p.(pic_icw1) 0 then ICW4 else Ready) p.(pic_icw1) p.(pic_vector) v p.(pic_mode) p.(pic_mask)
    | ICW4 => Mkpic Ready p.(pic_icw1) p.(pic_vector) p.(pic_cascade) v p.(pic_mask)
    | Ready => Mkpic Ready p.(pic_icw1) p.(pic_vector) p.(pic_cascade) p.(pic_mode) v
    end
  else if Z.testbit v 4 then Mkpic ICW2 v 0 0 0 0 else p.

(** Two of them, at their ports. *)
Class Pics (D : Type) `{Hardware D} : Type := {
  pic1 : D → pic;
  pic2 : D → pic;
  pic1_out port v d : pic1 (port_out port v d) =
    if port =? IO_PIC1 then pic_write false v (pic1 d) else if port =? IO_PIC1 + 1 then pic_write true v (pic1 d) else pic1 d;
  pic2_out port v d : pic2 (port_out port v d) =
    if port =? IO_PIC2 then pic_write false v (pic2 d) else if port =? IO_PIC2 + 1 then pic_write true v (pic2 d) else pic2 d
}.

(** ** The I/O APIC

    A register is selected through the index register and accessed through the
    data window. *)
Class IoApic (D : Type) `{Hardware D} : Type := {
  io_sel : D → Z;
  io_reg : Z → D → Z;
  io_select v d : io_sel (mmio_out ioapic_reg v d) = v;
  io_select_reg r v d : io_reg r (mmio_out ioapic_reg v d) = io_reg r d;
  io_write r v d : io_reg r (mmio_out ioapic_data v d) = if decide (r = io_sel d) then v else io_reg r d;
  io_write_sel v d : io_sel (mmio_out ioapic_data v d) = io_sel d;
  io_read d : fst (mmio_in ioapic_data d) = io_reg (io_sel d) d;
  io_read_reg r d : io_reg r (snd (mmio_in ioapic_data d)) = io_reg r d
}.

Create Rewrite HintDb pics.

Section pic.
Context {D : Type} `{Pics D}.
Notation dM := (M (machine D)).

Lemma outb_run port v (s : machine D) e : outb port v s e = Ret tt (set_dev (port_out port (u8 v) s.(dev)) s) e.
Proof. done. Qed.

(** The laws at the ports of the chips. *)
Lemma pic1_even v d : pic1 (port_out IO_PIC1 v d) = pic_write false v (pic1 d).
Proof. by rewrite pic1_out. Qed.
Lemma pic1_odd v d : pic1 (port_out (IO_PIC1 + 1) v d) = pic_write true v (pic1 d).
Proof. by rewrite pic1_out. Qed.
Lemma pic1_slave_even v d : pic1 (port_out IO_PIC2 v d) = pic1 d.
Proof. by rewrite pic1_out. Qed.
Lemma pic1_slave_odd v d : pic1 (port_out (IO_PIC2 + 1) v d) = pic1 d.
Proof. by rewrite pic1_out. Qed.
Lemma pic2_even v d : pic2 (port_out IO_PIC2 v d) = pic_write false v (pic2 d).
Proof. by rewrite pic2_out. Qed.
Lemma pic2_odd v d : pic2 (port_out (IO_PIC2 + 1) v d) = pic_write true v (pic2 d).
Proof. by rewrite pic2_out. Qed.
Lemma pic2_master_even v d : pic2 (port_out IO_PIC1 v d) = pic2 d.
Proof. by rewrite pic2_out. Qed.
Lemma pic2_master_odd v d : pic2 (port_out (IO_PIC1 + 1) v d) = pic2 d.
Proof. by rewrite pic2_out. Qed.
Hint Rewrite pic1_even pic1_odd pic1_slave_even pic1_slave_odd pic2_even pic2_odd pic2_master_even pic2_master_odd : pics.

(** Both chips operate, with the vectors of traps.h, and mask [m] in all. *)
Definition pics_ready (m : Z) (s : machine D) : Prop :=
  s.(irqmask) = m ∧ 0 ≤ m < 65536 ∧
  pic1 s.(dev) = Mkpic Ready 17 T_IRQ0 4 3 (m mod 256) ∧ pic2 s.(dev) = Mkpic Ready 17 (T_IRQ0 + 8) 2 3 (m / 256).

Lemma picsetmask_run m (s : machine D) e :
  0 ≤ m < 65536 → (∃ m0, pics_ready m0 s ∨ s.(irqmask) = m ∧ pic1 s.(dev) = Mkpic Ready 17 T_IRQ0 4 3 m0 ∧ pic2 s.(dev) = Mkpic Ready 17 (T_IRQ0 + 8) 2 3 m0) →
  ∃ s', picsetmask m s e = Ret tt s' e ∧ pics_ready m s'.
Proof.
  intros Hm Hs. unfold picsetmask, outb. rewrite !bind_modify. eexists. split; [reflexivity|]. split; [done|]. split; [done|].
  cbn [dev set_dev set_irqmask]. autorewrite with pics. unfold u8. rewrite Z.shiftr_div_pow2 by lia. change (2 ^ 8) with 256.
  assert (m / 256 mod 256 = m / 256) as -> by (apply Z.mod_small; split; [apply Z.div_pos; lia|apply Z.div_lt_upper_bound; lia]).
  destruct Hs as (m0 & [(_ & _ & -> & ->)|(_ & -> & ->)]); done.
Qed.

Lemma picinit_run (s : machine D) e :
  s.(irqmask) = irqmask0 → ∃ s', picinit s e = Ret tt s' e ∧ pics_ready irqmask0 s'.
Proof.
  intros Hm. unfold picinit, outb. rewrite !bind_modify, bind_gets.
  set (s1 := set_dev _ _). replace (irqmask s1) with irqmask0 by done. change (negb (irqmask0 =? 65535)) with true. cbv iota.
  apply picsetmask_run; [done|]. exists 0. right. split; [done|]. unfold s1. cbn [dev set_dev]. autorewrite with pics. split; reflexivity.
Qed.

(** Interrupt [i] gets through the chips. *)
Definition unmasked (i : Z) (s : machine D) : Prop :=
  if i <? 8 then Z.testbit (pic1 s.(dev)).(pic_mask) i = false else Z.testbit (pic2 s.(dev)).(pic_mask) (i - 8) = false.

Lemma unmasked_bit m i s : pics_ready m s → 0 ≤ i < 16 → unmasked i s ↔ Z.testbit m i = false.
Proof.
  intros (_ & Hm & H1 & H2) Hi. unfold unmasked. rewrite H1, H2. simpl. destruct (Z.ltb_spec i 8).
  - change 256 with (2 ^ 8). by rewrite Z.mod_pow2_bits_low by lia.
  - change 256 with (2 ^ 8). rewrite Z.div_pow2_bits by lia. by replace (i - 8 + 8) with i by lia.
Qed.

(** [irqmask & ~(1<<irq)]. *)
Lemma clear_irq m irq i : 0 ≤ m < 65536 → 0 ≤ irq → 0 ≤ i < 16 →
  0 ≤ u16 (Z.land m (Z.lnot (Z.shiftl 1 irq))) < 65536 ∧
  Z.testbit (u16 (Z.land m (Z.lnot (Z.shiftl 1 irq)))) i = Z.testbit m i && negb (i =? irq).
Proof.
  intros Hm Hirq Hi. split; [apply Z.mod_pos_bound; done|]. unfold u16. change 65536 with (2 ^ 16). rewrite Z.mod_pow2_bits_low by lia.
  rewrite Z.land_spec, Z.lnot_spec by lia. f_equal. f_equal. rewrite Z.shiftl_1_l, Z.pow2_bits_eqb by lia. apply Z.eqb_sym.
Qed.

(** After [picinit] and any sequence of [picenable] calls both 8259A chips are initialised with the vectors of traps.h
    (32 to 39 and 40 to 47), and an interrupt is unmasked exactly if it is the cascade line or was enabled. *)
Theorem pic_correct (irqs : list Z) (s : machine D) e :
  s.(irqmask) = irqmask0 → Forall (λ irq, 0 ≤ irq < 16) irqs →
  ∃ s', (picinit;; for_each irqs picenable) s e = Ret tt s' e ∧
    (pic1 s'.(dev)).(pic_next) = Ready ∧ (pic2 s'.(dev)).(pic_next) = Ready ∧
    (pic1 s'.(dev)).(pic_vector) = T_IRQ0 ∧ (pic2 s'.(dev)).(pic_vector) = T_IRQ0 + 8 ∧
    ∀ i, 0 ≤ i < 16 → unmasked i s' ↔ i = IRQ_SLAVE ∨ i ∈ irqs.
Proof.
  intros Hm Hirqs. destruct (picinit_run s e Hm) as (s1 & Hr1 & R1). mstep Hr1.
  assert (∀ i, 0 ≤ i < 16 → Z.testbit irqmask0 i = negb (i =? IRQ_SLAVE)) as Hbits.
  { intros i Hi. unfold irqmask0. rewrite Z.land_spec, Z.lnot_spec by lia. change 65535 with (Z.ones 16). rewrite Z.ones_spec_low by lia.
    rewrite Z.shiftl_1_l, Z.pow2_bits_eqb by done. simpl. by rewrite Z.eqb_sym. }
  cut (∀ done m s, pics_ready m s → (∀ i, 0 ≤ i < 16 → Z.testbit m i = false ↔ i = IRQ_SLAVE ∨ i ∈ done) → Forall (λ irq, 0 ≤ irq < 16) irqs →
    ∃ m' s', for_each irqs picenable s e = Ret tt s' e ∧ pics_ready m' s' ∧ ∀ i, 0 ≤ i < 16 → Z.testbit m' i = false ↔ i = IRQ_SLAVE ∨ i ∈ done ++ irqs).
  { intros Hcut. destruct (Hcut [] irqmask0 s1 R1) as (m' & s' & Hr & R & Hall); [|done|].
    - intros i Hi. rewrite Hbits by done. rewrite elem_of_nil. destruct (Z.eqb_spec i IRQ_SLAVE); simpl; intuition congruence.
    - exists s'. split; [done|]. pose proof R as (_ & _ & H1 & H2). rewrite H1, H2. do 4 (split; [done|]).
      intros i Hi. rewrite (unmasked_bit _ _ _ R Hi). by apply Hall. }
  clear. induction irqs as [|irq irqs IH]; intros done m s R Hd Hirqs; [exists m, s; by rewrite app_nil_r|].
  apply Forall_cons in Hirqs as [Hirq Hirqs]. cbn [for_each]. pose proof R as (Hm & Hmr & _ & _).
  destruct (clear_irq m irq 0 Hmr ltac:(lia) ltac:(lia)) as [Hr' _].
  destruct (picsetmask_run (u16 (Z.land m (Z.lnot (Z.shiftl 1 irq)))) s e Hr') as (s1 & Hr1 & R1); [by exists m; left|].
  assert (picenable irq s e = Ret tt s1 e) as Hpe by (unfold picenable; rewrite bind_gets, Hm; exact Hr1). mstep Hpe.
  destruct (IH (done ++ [irq]) _ s1 R1) as (m' & s' & Hr & R' & Hall); [|done|].
  - intros i Hi. destruct (clear_irq m irq i Hmr ltac:(lia) Hi) as [_ ->]. rewrite andb_false_iff, negb_false_iff, Z.eqb_eq, (Hd i Hi), elem_of_app, list_elem_of_singleton. tauto.
  - exists m', s'. split; [done|]. split; [done|]. intros i Hi. rewrite (Hall i Hi), <- app_assoc. done.
Qed.
End pic.

Section ioapic.
Context {D : Type} `{IoApic D}.
Notation dM := (M (machine D)).

(** Two machines that differ in registers of the I/O APIC only as [f] says. *)
Lemma ioapicwrite_run r v (s : machine D) e : 0 ≤ r < 4294967296 →
  ∃ d', ioapicwrite r v s e = Ret tt (set_dev d' s) e ∧ ∀ r', io_reg r' d' = if decide (r' = r) then u32 v else io_reg r' s.(dev).
Proof.
  intros Hr. eexists. split; [reflexivity|]. intros r'. simpl. rewrite io_write, io_select, (u32_id r) by done.
  destruct (decide (r' = r)); [done|]. by rewrite io_select_reg.
Qed.

(** The redirection entry [i]: [None] is masked, [Some cpu] is sent to [cpu]. *)
Definition entry_low (i : Z) (o : option Z) : Z := match o with None => Z.lor INT_DISABLED (T_IRQ0 + i) | Some _ => T_IRQ0 + i end.
Definition entry_high (o : option Z) : Z := match o with None => 0 | Some cpu => u32 (Z.shiftl cpu 24) end.
Definition routed (top : Z) (m : gmap Z Z) (d : D) : Prop :=
  ∀ i, 0 ≤ i ≤ top → io_reg (REG_TABLE + 2 * i) d = entry_low i (m !! i) ∧ io_reg (REG_TABLE + 2 * i + 1) d = entry_high (m !! i).

Lemma entry_small i : 0 ≤ i < 256 → u32 (Z.lor INT_DISABLED (T_IRQ0 + i)) = Z.lor INT_DISABLED (T_IRQ0 + i).
Proof.
  intros Hi. apply u32_id. split; [apply Z.lor_nonneg; unfold INT_DISABLED, T_IRQ0; lia|].
  apply (Z.log2_lt_cancel); rewrite Z.log2_lor by (unfold INT_DISABLED, T_IRQ0; lia).
  change (Z.log2 4294967296) with 32. apply Z.max_lub_lt; [done|]. apply Z.log2_lt_pow2; unfold T_IRQ0; lia.
Qed.

(** One entry. *)
Lemma set_entry i o v1 v2 (s : machine D) e :
  0 ≤ i < 256 → u32 v1 = entry_low i o → u32 v2 = entry_high o →
  ∃ d', (ioapicwrite (REG_TABLE + 2 * i) v1;; ioapicwrite (REG_TABLE + 2 * i + 1) v2) s e = Ret tt (set_dev d' s) e ∧
    io_reg (REG_TABLE + 2 * i) d' = entry_low i o ∧ io_reg (REG_TABLE + 2 * i + 1) d' = entry_high o ∧
    ∀ r, r ≠ REG_TABLE + 2 * i → r ≠ REG_TABLE + 2 * i + 1 → io_reg r d' = io_reg r s.(dev).
Proof.
  intros Hi H1 H2. destruct (ioapicwrite_run (REG_TABLE + 2 * i) v1 s e ltac:(unfold REG_TABLE; lia)) as (d1 & Hr1 & R1).
  destruct (ioapicwrite_run (REG_TABLE + 2 * i + 1) v2 (set_dev d1 s) e ltac:(unfold REG_TABLE; lia)) as (d2 & Hr2 & R2).
  exists d2. split; [by mstep Hr1|]. cbn [dev set_dev] in R2. split; [|split].
  - rewrite R2, decide_False by lia. by rewrite R1, decide_True by done.
  - by rewrite R2, decide_True by done.
  - intros r Hr Hr'. by rewrite R2, R1, !decide_False by done.
Qed.

(** The loop of [ioapicinit]. *)
Lemma ioapic_mask_all n : ∀ k (s : machine D) e, (k + n ≤ 256)%nat → routed (Z.of_nat k - 1) ∅ s.(dev) →
  ∃ d', for_each (Z.of_nat <$> seq k n) (λ i, ioapicwrite (REG_TABLE + 2 * i) (Z.lor INT_DISABLED (T_IRQ0 + i));; ioapicwrite (REG_TABLE + 2 * i + 1) 0) s e = Ret tt (set_dev d' s) e ∧
    routed (Z.of_nat (k + n) - 1) ∅ d'.
Proof.
  induction n as [|n IH]; intros k s e Hk Hs.
  - exists s.(dev). split; [by destruct s|]. by replace (k + 0)%nat with k by lia.
  - cbn [seq fmap list_fmap for_each].
    destruct (set_entry (Z.of_nat k) None (Z.lor INT_DISABLED (T_IRQ0 + Z.of_nat k)) 0 s e) as (d1 & Hr1 & R1 & R2 & R3); [lia|apply entry_small; lia|done|].
    destruct (IH (S k) (set_dev d1 s) e ltac:(lia)) as (d' & Hr' & R').
    + intros i Hi. cbn [dev set_dev]. rewrite lookup_empty. destruct (decide (i = Z.of_nat k)) as [->|Hne]; [done|].
      rewrite !R3 by lia. destruct (Hs i ltac:(lia)) as [A B]. by rewrite lookup_empty in A, B.
    + exists d'. split; [by mstep Hr1|]. by replace (k + S n)%nat with (S k + n)%nat by lia.
Qed.

Lemma ioapicread_run r (s : machine D) e : 0 ≤ r < 4294967296 →
  ∃ d', ioapicread r s e = Ret (u32 (io_reg r s.(dev))) (set_dev d' s) e ∧ ∀ r', io_reg r' d' = io_reg r' s.(dev).
Proof.
  intros Hr. unfold ioapicread, writel, readl. rewrite bind_modify. cbn [dev set_dev]. set (d0 := mmio_out _ _ _).
  pose proof (io_read d0) as Hv. pose proof (λ r', io_read_reg r' d0) as Hd. destruct (mmio_in ioapic_data d0) as [v d]. cbn [fst snd] in *. subst v.
  exists d. unfold d0 in Hd. split; [|intros r'; by rewrite Hd, io_select_reg]. unfold d0. by rewrite io_select, io_select_reg, (u32_id r) by done.
Qed.

Lemma ioapicinit_run (s : machine D) e :
  s.(ismp) ≠ 0 → let top := Z.land (Z.shiftr (u32 (io_reg REG_VER s.(dev))) 16) 255 in
  ∃ s1, ioapicinit s e = Ret tt s1 e ∧ s1.(ismp) = s.(ismp) ∧ routed top ∅ s1.(dev).
Proof.
  intros Hmp top. unfold ioapicinit. rewrite bind_gets. unfold truthy. rewrite (proj2 (Z.eqb_neq _ 0) Hmp). cbn [negb].
  destruct (ioapicread_run REG_VER s e ltac:(done)) as (d1 & Hr1 & R1). mstep Hr1. fold top. cbv zeta.
  destruct (ioapicread_run REG_ID (set_dev d1 s) e ltac:(done)) as (d2 & Hr2 & R2). mstep Hr2. rewrite bind_gets.
  assert (0 ≤ top < 256) as Htop by (unfold top; change 255 with (Z.ones 8); rewrite Z.land_ones by lia; by apply Z.mod_pos_bound).
  set (c := if negb _ then _ else _). assert (∃ o, c (set_dev d2 (set_dev d1 s)) e = Ret tt (set_printed_out o (set_dev d2 s)) e) as (o & Hr3).
  { unfold c. destruct (negb _); [by eexists|]. exists s.(printed_out). by destruct s. }
  mstep Hr3. destruct (ioapic_mask_all (S (Z.to_nat top)) 0 (set_printed_out o (set_dev d2 s)) e) as (d' & Hr' & R'); [lia|intros i Hi; lia|].
  eexists. split; [exact Hr'|]. split; [done|]. by replace (Z.of_nat (0 + S (Z.to_nat top)) - 1) with top in R' by lia.
Qed.

(** One call of [ioapicenable]. *)
Lemma ioapicenable_run irq cpu top m (s : machine D) e :
  s.(ismp) ≠ 0 → 0 ≤ irq ≤ top → top < 256 → routed top m s.(dev) →
  ∃ d', ioapicenable irq cpu s e = Ret tt (set_dev d' s) e ∧ routed top (<[irq := cpu]> m) d'.
Proof.
  intros Hmp Hirq Htop R. unfold ioapicenable. rewrite bind_gets. unfold truthy. rewrite (proj2 (Z.eqb_neq _ 0) Hmp). cbn [negb].
  destruct (set_entry irq (Some cpu) (T_IRQ0 + irq) (Z.shiftl cpu 24) s e) as (d' & Hr & R1 & R2 & R3); [lia| |done|].
  { change (entry_low irq (Some cpu)) with (T_IRQ0 + irq). apply u32_id. unfold is_u32, T_IRQ0. lia. }
  exists d'. split; [done|]. intros i Hi. destruct (decide (i = irq)) as [->|Hne]; [by rewrite lookup_insert_eq|].
  rewrite lookup_insert_ne by done. rewrite !R3 by lia. by apply R.
Qed.

(** On a multiprocessor, after [ioapicinit] and any sequence of [ioapicenable] calls on lines the chip has, every
    redirection entry has the vector of its line; it is masked if the line was never enabled, and otherwise sends to the
    processor of the last call for it. *)
Theorem ioapic_correct (enables : list (Z * Z)) (s : machine D) e :
  s.(ismp) ≠ 0 → let top := Z.land (Z.shiftr (u32 (io_reg REG_VER s.(dev))) 16) 255 in
  Forall (λ x, 0 ≤ x.1 ≤ top) enables →
  ∃ s', (ioapicinit;; for_each enables (λ x, ioapicenable x.1 x.2)) s e = Ret tt s' e ∧
    routed top (list_to_map (reverse enables)) s'.(dev).
Proof.
  intros Hmp top Hen. destruct (ioapicinit_run s e Hmp) as (s1 & Hr1 & Hmp1 & R1). fold top in R1. mstep Hr1. rewrite <- Hmp1 in Hmp.
  assert (top < 256) as Htop by (unfold top; change 255 with (Z.ones 8); rewrite Z.land_ones by lia; by apply Z.mod_pos_bound). clearbody top.
  assert (∀ old s, s.(ismp) ≠ 0 → routed top (list_to_map (reverse old)) s.(dev) →
    ∃ s', for_each enables (λ x, ioapicenable x.1 x.2) s e = Ret tt s' e ∧ routed top (list_to_map (reverse (old ++ enables))) s'.(dev)) as Hloop.
  { clear -Hen Htop. induction Hen as [|[irq cpu] enables Hirq Hen IH]; intros old s Hmp R; [exists s; by rewrite app_nil_r|]. cbn [for_each].
    destruct (ioapicenable_run irq cpu top _ s e Hmp Hirq Htop R) as (d' & Hr & R'). cbn [fst snd]. mstep Hr.
    destruct (IH (old ++ [(irq, cpu)]) (set_dev d' s) Hmp) as (s' & Hr' & Hs'); [by rewrite reverse_snoc|].
    exists s'. split; [done|]. by rewrite <- app_assoc in Hs'. }
  apply (Hloop [] s1 Hmp R1).
Qed.
End ioapic.

(** ** A machine with these chips *)

Record chips : Type := Mkchips { ch_pic1 : pic; ch_pic2 : pic; ch_sel : Z; ch_reg : Z → Z }.

#[export] Instance chips_hardware : Hardware chips := {|
  port_in _ d := (0, d);
  port_out port v d :=
    if port =? IO_PIC1 then Mkchips (pic_write false v d.(ch_pic1)) d.(ch_pic2) d.(ch_sel) d.(ch_reg) else
    if port =? IO_PIC1 + 1 then Mkchips (pic_write true v d.(ch_pic1)) d.(ch_pic2) d.(ch_sel) d.(ch_reg) else
    if port =? IO_PIC2 then Mkchips d.(ch_pic1) (pic_write false v d.(ch_pic2)) d.(ch_sel) d.(ch_reg) else
    if port =? IO_PIC2 + 1 then Mkchips d.(ch_pic1) (pic_write true v d.(ch_pic2)) d.(ch_sel) d.(ch_reg) else d;
  mmio_in addr d := (if addr =? ioapic_data then d.(ch_reg) d.(ch_sel) else 0, d);
  mmio_out addr v d :=
    if addr =? ioapic_reg then Mkchips d.(ch_pic1) d.(ch_pic2) v d.(ch_reg) else
    if addr =? ioapic_data then Mkchips d.(ch_pic1) d.(ch_pic2) d.(ch_sel) (λ r, if decide (r = d.(ch_sel)) then v else d.(ch_reg) r) else d
|}.

#[export] Instance chips_pics : Pics chips.
Proof.
  refine {| pic1 := ch_pic1; pic2 := ch_pic2 |}; intros port v d; simpl.
  - destruct (Z.eqb_spec port IO_PIC1); [done|]. destruct (Z.eqb_spec port (IO_PIC1 + 1)); [done|]. by destruct (port =? IO_PIC2), (port =? IO_PIC2 + 1).
  - destruct (Z.eqb_spec port IO_PIC1) as [->|]; [done|]. destruct (Z.eqb_spec port (IO_PIC1 + 1)) as [->|]; [done|]. by destruct (port =? IO_PIC2), (port =? IO_PIC2 + 1).
Defined.

#[export] Instance chips_ioapic : IoApic chips.
Proof. by refine {| io_sel := ch_sel; io_reg r d := d.(ch_reg) r |}. Defined.

(** The machine at power-on, with a 24-line I/O APIC. *)
Definition chips0 : chips := Mkchips (Mkpic Ready 0 0 0 0 0) (Mkpic Ready 0 0 0 0 0) 0 (λ r, if r =? REG_VER then 1507345 else 0).
Definition board : machine chips := Mkmachine chips0 irqmask0 0 1 2 [0; 1] 0 0 false 0 [].

Lemma pic_correct_witness : ∃ s', (picinit;; for_each [IRQ_KBD; IRQ_IDE] picenable) board [] = Ret tt s' [] ∧
  unmasked IRQ_IDE s' ∧ unmasked IRQ_KBD s' ∧ ¬ unmasked IRQ_TIMER s'.
Proof.
  destruct (pic_correct [IRQ_KBD; IRQ_IDE] board [] eq_refl) as (s' & Hr & _ & _ & _ & _ & Hu).
  - repeat constructor; done.
  - exists s'. split; [exact Hr|]. rewrite !Hu by done. split; [right; right; by left|]. split; [right; by left|].
    intros [?|[?|[?|Hno]%elem_of_cons]%elem_of_cons]; [done|done|done|by apply elem_of_nil in Hno].
Defined.

Lemma ioapic_correct_witness : ∃ s', (ioapicinit;; for_each [(IRQ_KBD, 0); (IRQ_IDE, 1)] (λ x, ioapicenable x.1 x.2)) board [] = Ret tt s' [] ∧
  io_reg (REG_TABLE + 2 * IRQ_IDE) s'.(dev) = 46 ∧ io_reg (REG_TABLE + 2 * IRQ_IDE + 1) s'.(dev) = 16777216 ∧ io_reg (REG_TABLE + 2 * IRQ_COM1) s'.(dev) = 65572.
Proof.
  destruct (ioapic_correct [(IRQ_KBD, 0); (IRQ_IDE, 1)] board []) as (s' & Hr & R).
  - done.
  - repeat constructor; done.
  - exists s'. split; [exact Hr|]. destruct (R IRQ_IDE ltac:(done)) as [A B]. destruct (R IRQ_COM1 ltac:(done)) as [C _].
    split; [exact A|]. split; [exact B|exact C].
Defined.
