(* ===== verification/Mp.v ===== *)
(** * Processor discovery (mp.c, mp.h)

    The search for the BIOS tables and the walk over the configuration table,
    on the bytes of memory.  The table as a list of entries is the
    specification: what [mpinit] makes of its bytes is a function of the
    entries.  A table with an entry of unknown type makes the walk spin. *)

From S2P Require Import Prelude KState Print Mem Hardware.
#[local] Open Scope kernel_scope.

Definition NCPU : Z := 8.
Definition MPPROC : Z := 0.
Definition MPBUS : Z := 1.
Definition MPIOAPIC : Z := 2.
Definition MPIOINTR : Z := 3.
Definition MPLINTR : Z := 4.

Section mp.
Context {D : Type} {HW : Hardware D}.
Variable m : mem.
Notation dM := (M (machine D)).

(** The sizes of struct mp, mpconf, mpproc and mpioapic. *)
Definition sizeof_mp : Z := 16.
Definition sizeof_mpconf : Z := 44.
Definition sizeof_mpproc : Z := 20.
Definition sizeof_mpioapic : Z := 8.

(** Fields, by their offsets. *)
Definition mp_physaddr (mp : Z) : Z := load32 m (mp + 4).
Definition mp_imcrp (mp : Z) : Z := m (mp + 12).
Definition conf_length (conf : Z) : Z := le_val (load_bytes m (conf + 4) 2).
Definition conf_version (conf : Z) : Z := m (conf + 6).
Definition conf_lapicaddr (conf : Z) : Z := load32 m (conf + 36).

(** [memcmp(p, s, 4) == 0] for a literal [s]. *)
Definition signature (p : Z) (s : string) : bool := bool_decide (load_bytes m p 4 = str s).

Definition sum (addr len : Z) : Z :=
  u8 (foldl (λ acc i, s32 (acc + m (addr + Z.of_nat i))) 0 (seq 0 (Z.to_nat len))).

(** The loop of [mpsearch1]; [n] is the number of places left. *)
Fixpoint mpsearch1_loop (n : nat) (p e : Z) : Z :=
  match n with
  | O => 0
  | S n' =>
      if negb (p <? e) then 0 else
      if signature p "_MP_" && (sum p sizeof_mp =? 0) then p else mpsearch1_loop n' (p + sizeof_mp) e
  end.

Definition mpsearch1 (a len : Z) : Z :=
  let addr := P2V a in
  mpsearch1_loop (Z.to_nat (len / sizeof_mp + 1)) addr (addr + len).

Definition mpsearch : Z :=
  let bda := P2V 1024 in
  let p := Z.shiftl (Z.lor (Z.shiftl (m (bda + 15)) 8) (m (bda + 14))) 4 in
  let mp := if truthy p then mpsearch1 p 1024
            else mpsearch1 (u32 (Z.lor (Z.shiftl (m (bda + 20)) 8) (m (bda + 19)) * 1024 - 1024)) 1024 in
  if truthy mp then mp else mpsearch1 983040 65536.

(** The structure found and its table. *)
Definition mpconfig : option (Z * Z) :=
  let mp := mpsearch in
  if negb (truthy mp) || negb (truthy (mp_physaddr mp)) then None else
  let conf := P2V (mp_physaddr mp) in
  if negb (signature conf "PCMP") then None else
  if negb (conf_version conf =? 1) && negb (conf_version conf =? 4) then None else
  if negb (sum conf (conf_length conf) =? 0) then None else
  Some (mp, conf).

(** The walk over the entries.  The [break] of the default case leaves the
    switch, not the loop: [p] stays where it is. *)
Fixpoint mp_walk (fuel : nat) (p e : Z) : dM unit :=
  match fuel with
  | O => fault "fuel"
  | S fuel' =>
      if negb (p <? e) then ret tt else
      if m p =? MPPROC then
        n <- gets ncpu;;
        (if n <? NCPU then
           modify (λ s, set_apicids (<[Z.to_nat n := m (p + 1)]> s.(apicids)) s);;
           modify (set_ncpu (n + 1))
         else ret tt);;
        mp_walk fuel' (p + sizeof_mpproc) e
      else if m p =? MPIOAPIC then
        modify (set_ioapicid (m (p + 1)));;
        mp_walk fuel' (p + sizeof_mpioapic) e
      else if (m p =? MPBUS) || (m p =? MPIOINTR) || (m p =? MPLINTR) then
        mp_walk fuel' (p + 8) e
      else
        modify (set_ismp 0);;
        mp_walk fuel' p e
  end.

Definition mpinit (fuel : nat) : dM unit :=
  match mpconfig with
  | None => ret tt
  | Some (mp, conf) =>
      modify (set_ismp 1);;
      modify (set_lapic (conf_lapicaddr conf));;
      mp_walk fuel (conf + sizeof_mpconf) (conf + conf_length conf);;
      is_mp <- gets ismp;;
      if negb (truthy is_mp) then
        modify (set_ncpu 1);;
        modify (set_lapic 0);;
        modify (set_ioapicid 0)
      else if truthy (mp_imcrp mp) then
        outb 34 112;;
        v <- inb 35;;
        outb 35 (Z.lor v 1)
      else ret tt
  end.
End mp.

(** ** The search *)

Lemma load_bytes_ext (m m' : mem) a n : (∀ x, a ≤ x < a + Z.of_nat n → m' x = m x) → load_bytes m' a n = load_bytes m a n.
Proof. intros Hm. unfold load_bytes. apply list_fmap_ext. intros i k Hi. apply Hm. apply lookup_seq in Hi as [-> ?]. lia. Qed.

(** A checksum is the sum of the bytes modulo 256, whatever the length. *)
Lemma sum_spec m addr len : sum m addr len = foldr Z.add 0 (load_bytes m addr (Z.to_nat len)) mod 256.
Proof.
  unfold sum, load_bytes, u8. generalize (seq 0 (Z.to_nat len)) as ix. intros ix.
  assert (∀ acc, foldl (λ acc i, s32 (acc + m (addr + Z.of_nat i))) acc ix mod 256 = (acc + foldr Z.add 0 ((λ i, m (addr + Z.of_nat i)) <$> ix)) mod 256) as H; [|apply H].
  induction ix as [|i ix IH]; intros acc; cbn [foldl foldr fmap list_fmap]; [by rewrite Z.add_0_r|].
  rewrite IH, Z.add_assoc. rewrite <- Z.add_mod_idemp_l, <- (Z.add_mod_idemp_l (acc + _)) by done. f_equal. f_equal.
  unfold s32. rewrite Zminus_mod, <- (Znumtheory.Zmod_div_mod 256 4294967296) by (done || by exists 16777216).
  rewrite <- Zminus_mod. f_equal. lia.
Qed.

(** A floating pointer structure is at [p]. *)
Definition mp_at (m : mem) (p : Z) : Prop := load_bytes m p 4 = str "_MP_" ∧ foldr Z.add 0 (load_bytes m p 16) mod 256 = 0.

Lemma mp_at_dec m p : signature m p "_MP_" && (sum m p sizeof_mp =? 0) = true ↔ mp_at m p.
Proof.
  unfold mp_at, signature. rewrite andb_true_iff, bool_decide_eq_true, Z.eqb_eq, sum_spec. done.
Qed.

(** [mpsearch1] finds the first structure at a multiple of 16 bytes, or there is none. *)
Lemma mpsearch1_spec m a len : 0 ≤ len → 0 < P2V a →
  let r := mpsearch1 m a len in
  (r = 0 ∧ ∀ k, 0 ≤ k → 16 * k < len → ¬ mp_at m (P2V a + 16 * k)) ∨
  (∃ k, 0 ≤ k ∧ 16 * k < len ∧ r = P2V a + 16 * k ∧ mp_at m r ∧ ∀ j, 0 ≤ j < k → ¬ mp_at m (P2V a + 16 * j)).
Proof.
  intros Hlen Ha r. assert (∀ n i, 0 ≤ i → len - 16 * i < 16 * Z.of_nat n → (∀ j, 0 ≤ j < i → ¬ mp_at m (P2V a + 16 * j)) →
    let r := mpsearch1_loop m n (P2V a + 16 * i) (P2V a + len) in
    (r = 0 ∧ ∀ k, 0 ≤ k → 16 * k < len → ¬ mp_at m (P2V a + 16 * k)) ∨
    (∃ k, 0 ≤ k ∧ 16 * k < len ∧ r = P2V a + 16 * k ∧ mp_at m r ∧ ∀ j, 0 ≤ j < k → ¬ mp_at m (P2V a + 16 * j))) as H.
  { induction n as [|n IH]; intros i Hi Hn Hno; cbn [mpsearch1_loop].
    - left. split; [done|]. intros k Hk Hkl. apply Hno. lia.
    - destruct (Z.ltb_spec (P2V a + 16 * i) (P2V a + len)) as [Hlt|Hge]; cbn [negb].
      + destruct (signature m (P2V a + 16 * i) "_MP_" && (sum m (P2V a + 16 * i) sizeof_mp =? 0)) eqn:E.
        * right. exists i. apply mp_at_dec in E. split; [done|]. split; [lia|]. done.
        * replace (P2V a + 16 * i + sizeof_mp) with (P2V a + 16 * (i + 1)) by (unfold sizeof_mp; lia). apply IH; [lia|lia|].
          intros j Hj. destruct (decide (j = i)) as [->|]; [|apply Hno; lia]. intros Hat%mp_at_dec. congruence.
      + left. split; [done|]. intros k Hk Hkl. apply Hno. lia. }
  specialize (H (Z.to_nat (len / sizeof_mp + 1)) 0). rewrite Z.mul_0_r, Z.add_0_r in H. apply H; [done| |intros j Hj; lia].
  pose proof (Z.div_mod len 16 ltac:(done)). pose proof (Z.mod_pos_bound len 16 eq_refl). pose proof (Z.div_pos len 16 Hlen eq_refl). unfold sizeof_mp. lia.
Qed.

(** What the search finds depends on low memory only. *)
Section stable.
Context (m m' : mem) (top : Z).
Hypothesis Htop : KERNBASE + 1048576 + 4096 ≤ top.
Hypothesis Hext : ∀ x, x < top → m' x = m x.
Hypothesis Hbytes : ∀ x, is_byte (m x).

Lemma sum_ext addr len : addr + Z.of_nat (Z.to_nat len) ≤ top → sum m' addr len = sum m addr len.
Proof. intros H. rewrite !sum_spec. do 2 f_equal. apply load_bytes_ext. intros x Hx. apply Hext. lia. Qed.

Lemma mpsearch1_loop_ext n : ∀ p e, e + 16 ≤ top → mpsearch1_loop m' n p e = mpsearch1_loop m n p e ∧ (mpsearch1_loop m n p e = 0 ∨ mpsearch1_loop m n p e + 16 ≤ top).
Proof.
  induction n as [|n IH]; intros p e He; cbn [mpsearch1_loop]; [by auto|]. destruct (Z.ltb_spec p e); cbn [negb]; [|by auto].
  rewrite sum_ext by (unfold sizeof_mp; lia). unfold signature. rewrite (load_bytes_ext m m') by (intros x Hx; apply Hext; lia).
  destruct (_ && _); [split; [done|right; lia]|by apply IH].
Qed.

Lemma word_bound hi lo : is_byte hi → is_byte lo → Z.lor (Z.shiftl hi 8) lo = 256 * hi + lo.
Proof.
  unfold is_byte. intros Hh Hl. rewrite <- Z.add_nocarry_lor; [rewrite Z.shiftl_mul_pow2; lia|].
  apply Z.bits_inj'. intros n Hn. rewrite Z.land_spec, Z.bits_0, Z.shiftl_spec by lia. rewrite andb_comm.
  destruct (decide (n < 8)); [rewrite (Z.testbit_neg_r hi) by lia; by rewrite andb_false_r|].
  rewrite (Z.bits_above_log2 lo); [done|lia|]. destruct (decide (lo = 0)) as [->|]; [simpl; lia|]. apply Z.log2_lt_pow2; [lia|]. apply Z.lt_le_trans with (2 ^ 8); [lia|]. apply Z.pow_le_mono_r; lia.
Qed.

(** The base memory the BIOS reports, in Kbytes. *)
Definition base_memory : Z := 256 * m (P2V 1024 + 20) + m (P2V 1024 + 19).

Lemma mpsearch_ext : base_memory ≤ 1024 → mpsearch m' = mpsearch m ∧ (mpsearch m = 0 ∨ mpsearch m + 16 ≤ top).
Proof.
  intros Hbase. unfold mpsearch. change (P2V 1024) with (KERNBASE + 1024). cbv zeta. rewrite !(Hext (KERNBASE + 1024 + _)) by lia.
  rewrite !word_bound by apply Hbytes. pose proof (Hbytes (KERNBASE + 1024 + 15)) as B1. pose proof (Hbytes (KERNBASE + 1024 + 14)) as B2.
  pose proof (Hbytes (KERNBASE + 1024 + 20)) as B3. pose proof (Hbytes (KERNBASE + 1024 + 19)) as B4. unfold is_byte, base_memory in *. change (P2V 1024) with (KERNBASE + 1024) in Hbase.
  set (p := Z.shiftl _ 4). set (q := u32 _). assert (0 ≤ p ≤ 1048560) as Hp by (unfold p; rewrite Z.shiftl_mul_pow2 by lia; lia).
  assert (P2V q + 1024 + 16 ≤ top) as Hq.
  { unfold q, P2V, u32, KERNBASE in *. rewrite Z.add_mod_idemp_l by done. rewrite Z.mod_small by lia. lia. }
  assert (P2V p + 1024 + 16 ≤ top) as Hp' by (unfold P2V, u32, KERNBASE in *; rewrite Z.mod_small by lia; lia).
  unfold mpsearch1. generalize (Z.to_nat (1024 / sizeof_mp + 1)) as n1. generalize (Z.to_nat (65536 / sizeof_mp + 1)) as n2. intros n2 n1.
  destruct (mpsearch1_loop_ext n1 (P2V p) (P2V p + 1024) Hp') as [E1 L1]. destruct (mpsearch1_loop_ext n1 (P2V q) (P2V q + 1024) Hq) as [E2 L2].
  assert (P2V 983040 + 65536 + 16 ≤ top) as H3 by (change (P2V 983040) with (KERNBASE + 983040); lia).
  destruct (mpsearch1_loop_ext n2 (P2V 983040) (P2V 983040 + 65536) H3) as [E3 L3]. rewrite E1, E2, E3. split; [reflexivity|].
  destruct (truthy p); (destruct (truthy (mpsearch1_loop _ _ _ _)); [assumption|exact L3]).
Qed.

(** The table is the same when it is in low memory as well. *)
Lemma mpconfig_ext mp conf : base_memory ≤ 1024 → mpconfig m = Some (mp, conf) → 44 ≤ conf_length m conf → conf + conf_length m conf ≤ top →
  mpconfig m' = Some (mp, conf) ∧ conf_length m' conf = conf_length m conf ∧ conf_lapicaddr m' conf = conf_lapicaddr m conf.
Proof.
  intros Hbase. destruct (mpsearch_ext Hbase) as [Es Hs]. unfold mpconfig. rewrite Es. cbv zeta.
  destruct (truthy (mpsearch m)) eqn:Et; cbn [negb orb]; [|done]. destruct Hs as [Hs|Hs]; [by rewrite Hs in Et|].
  assert (mp_physaddr m' (mpsearch m) = mp_physaddr m (mpsearch m)) as ->.
  { unfold mp_physaddr, load32. by rewrite !Hext by lia. }
  destruct (truthy _); cbn [negb]; [|done]. set (c := P2V _). intros Hc Hl He. assert (c = conf) as Hcc by (repeat case_match; congruence). subst conf.
  assert (conf_length m' c = conf_length m c) as El by (unfold conf_length; by rewrite (load_bytes_ext m m') by (intros x Hx; apply Hext; lia)).
  assert (signature m' c "PCMP" = signature m c "PCMP") as -> by (unfold signature; by rewrite (load_bytes_ext m m') by (intros x Hx; apply Hext; lia)).
  assert (conf_version m' c = conf_version m c) as -> by (apply Hext; lia). rewrite El, sum_ext by lia.
  split; [exact Hc|]. split; [done|]. unfold conf_lapicaddr, load32. by rewrite !Hext by lia.
Qed.
End stable.

(** ** The table *)

(** An entry of a configuration table, with the bytes [mpinit] does not look at. *)
Inductive mpentry :=
| EProc (apicid : Z) (rest : list Z)
| EIoapic (apicno : Z) (rest : list Z)
| EOther (type : Z) (rest : list Z).

Definition entry_bytes (x : mpentry) : list Z :=
  match x with
  | EProc id rest => MPPROC :: id :: rest
  | EIoapic id rest => MPIOAPIC :: id :: rest
  | EOther ty rest => ty :: rest
  end.

Definition entry_ok (x : mpentry) : Prop :=
  match x with
  | EProc _ rest => length rest = 18%nat
  | EIoapic _ rest => length rest = 6%nat
  | EOther ty rest => (ty = MPBUS ∨ ty = MPIOINTR ∨ ty = MPLINTR) ∧ length rest = 7%nat
  end.

Definition proc_ids (xs : list mpentry) : list Z := omap (λ x, match x with EProc id _ => Some id | _ => None end) xs.
Definition ioapic_ids (xs : list mpentry) : list Z := omap (λ x, match x with EIoapic id _ => Some id | _ => None end) xs.

(** What the entries [xs] make of the drivers' variables: the processors they name, up to the bound, after those known. *)
Record announced {D} (xs : list mpentry) (s s' : machine D) : Prop := {
  an_ncpu : s'.(ncpu) = Z.min NCPU (s.(ncpu) + Z.of_nat (length (proc_ids xs)));
  an_length : length s'.(apicids) = length s.(apicids);
  an_new : ∀ i, s.(ncpu) ≤ i < s'.(ncpu) → s'.(apicids) !! Z.to_nat i = proc_ids xs !! Z.to_nat (i - s.(ncpu));
  an_old : ∀ i, (Z.of_nat i < s.(ncpu) ∨ s'.(ncpu) ≤ Z.of_nat i) → s'.(apicids) !! i = s.(apicids) !! i;
  an_ioapic : s'.(ioapicid) = default s.(ioapicid) (last (ioapic_ids xs));
  an_rest : s'.(dev) = s.(dev) ∧ s'.(ismp) = s.(ismp) ∧ s'.(lapic) = s.(lapic) ∧ s'.(irqmask) = s.(irqmask) ∧ s'.(uart) = s.(uart) ∧ s'.(printed_out) = s.(printed_out) ∧ s'.(int_on) = s.(int_on)
}.

Lemma load_bytes_app (m : mem) a k n : load_bytes m a (k + n) = load_bytes m a k ++ load_bytes m (a + Z.of_nat k) n.
Proof.
  unfold load_bytes. rewrite seq_app, fmap_app. f_equal.
  replace (seq (0 + k) n) with ((λ i, k + i)%nat <$> seq 0 n) by (rewrite fmap_add_seq; f_equal; lia).
  rewrite <- list_fmap_compose. apply list_fmap_ext. intros _ i _. simpl. f_equal. lia.
Qed.

Lemma load_bytes_split (m : mem) a l1 l2 :
  load_bytes m a (length (l1 ++ l2)) = l1 ++ l2 → load_bytes m a (length l1) = l1 ∧ load_bytes m (a + Z.of_nat (length l1)) (length l2) = l2.
Proof.
  rewrite length_app, load_bytes_app. intros H. apply app_inj_1 in H; [done|]. unfold load_bytes. by rewrite length_fmap, length_seq.
Qed.

Lemma load_bytes_at (m : mem) a l i b : load_bytes m a (length l) = l → l !! i = Some b → m (a + Z.of_nat i) = b.
Proof.
  intros H Hi. rewrite <- H in Hi. unfold load_bytes in Hi. apply list_lookup_fmap_Some in Hi as (j & -> & Hj%lookup_seq). by destruct Hj as [-> _].
Qed.

Section walk.
Context {D : Type} {HW : Hardware D}.
Variable m : mem.
Notation dM := (M (machine D)).

(** The state after one processor entry. *)
Definition add_cpu (id : Z) (s : machine D) : machine D :=
  if s.(ncpu) <? NCPU then set_ncpu (s.(ncpu) + 1) (set_apicids (<[Z.to_nat s.(ncpu) := id]> s.(apicids)) s) else s.

Lemma announced_proc id rest xs (s s' : machine D) :
  0 ≤ s.(ncpu) ≤ NCPU → length s.(apicids) = 8%nat → announced xs (add_cpu id s) s' → announced (EProc id rest :: xs) s s'.
Proof.
  unfold NCPU, add_cpu. intros Hn Hl. destruct (Z.ltb_spec s.(ncpu) NCPU) as [Hlt|Hge]; unfold NCPU in *.
  - intros [A1 A2 A3 A4 A5 A6]. cbn [ncpu apicids ioapicid dev ismp lapic irqmask uart printed_out set_ncpu set_apicids] in *.
    rewrite length_insert in A2. split; [simpl; unfold NCPU in *; lia|done| | |done|done].
    + intros i Hi. destruct (decide (i = s.(ncpu))) as [->|Hne].
      * rewrite A4 by (left; lia). rewrite Z.sub_diag. simpl. apply list_lookup_insert_eq. lia.
      * rewrite A3 by lia. replace (Z.to_nat (i - s.(ncpu))) with (S (Z.to_nat (i - (s.(ncpu) + 1)))) by lia. done.
    + intros i Hi. destruct Hi as [Hi|Hi].
      * rewrite A4 by lia. apply list_lookup_insert_ne. lia.
      * rewrite A4 by (right; lia). apply list_lookup_insert_ne. unfold NCPU in *. lia.
  - intros [A1 A2 A3 A4 A5 A6]. unfold NCPU in *. split; [simpl; unfold NCPU; lia|done|intros i Hi; lia|done|done|done].
Qed.

Lemma announced_ioapic id rest xs (s s' : machine D) : announced xs (set_ioapicid id s) s' → announced (EIoapic id rest :: xs) s s'.
Proof.
  intros [A1 A2 A3 A4 A5 A6]. split; [done|done|done|done| |done]. rewrite A5. simpl. rewrite last_cons. by destruct (last _).
Qed.

Lemma announced_other ty rest xs (s s' : machine D) : announced xs s s' → announced (EOther ty rest :: xs) s s'.
Proof. by intros [A1 A2 A3 A4 A5 A6]. Qed.

Lemma mp_walk_run xs : ∀ fuel p e (s : machine D) env,
  Forall entry_ok xs → load_bytes m p (length (xs ≫= entry_bytes)) = xs ≫= entry_bytes → e = p + Z.of_nat (length (xs ≫= entry_bytes)) →
  (length xs < fuel)%nat → 0 ≤ s.(ncpu) ≤ NCPU → length s.(apicids) = 8%nat →
  ∃ s', mp_walk m fuel p e s env = Ret tt s' env ∧ announced xs s s'.
Proof.
  induction xs as [|x xs IH]; intros fuel p e s env Hok Hm He Hf Hn Hl; (destruct fuel as [|fuel]; [simpl in *; lia|]); cbn [mp_walk].
  - simpl in He. replace e with p by lia. rewrite Z.ltb_irrefl. exists s. split; [done|].
    split; [simpl; unfold NCPU in *; lia|done|intros i Hi; lia|done|done|done].
  - apply Forall_cons in Hok as [Hx Hok]. cbn [mbind list_bind] in Hm, He. rewrite length_app in He.
    apply load_bytes_split in Hm as [Hm1 Hm2].
    assert (p < e) as Hpe by (assert (0 < length (entry_bytes x))%nat by (destruct x; simpl; lia); lia).
    rewrite (proj2 (Z.ltb_lt p e) Hpe). cbn [negb].
    assert (∀ b l, entry_bytes x = b :: l → m p = b) as H0 by (intros b l Hb; rewrite <- (Z.add_0_r p); apply (load_bytes_at m p _ 0%nat b Hm1); by rewrite Hb).
    assert (∀ b b' l, entry_bytes x = b :: b' :: l → m (p + 1) = b') as H1 by (intros b b' l Hb; apply (load_bytes_at m p _ 1%nat b' Hm1); by rewrite Hb).
    assert (∀ k, length (entry_bytes x) = k → ∀ s1, 0 ≤ s1.(ncpu) ≤ NCPU → length s1.(apicids) = 8%nat →
      ∃ s', mp_walk m fuel (p + Z.of_nat k) e s1 env = Ret tt s' env ∧ announced xs s1 s') as Hrec.
    { intros k Hk s1 Hn1 Hl1. apply IH; [done|by rewrite <- Hk|lia|simpl in Hf; lia|done|done]. }
    destruct x as [id rest|id rest|ty rest]; simpl in Hx.
    + rewrite (H0 _ _ eq_refl), (H1 _ _ _ eq_refl), Z.eqb_refl. rewrite bind_gets.
      destruct (Hrec 20%nat ltac:(simpl; lia) (add_cpu id s)) as (s' & Hr & A).
      { unfold add_cpu, NCPU in *. destruct (Z.ltb_spec s.(ncpu) 8); simpl; lia. }
      { unfold add_cpu. destruct (_ <? _); [|done]. simpl. by rewrite length_insert. }
      exists s'. split; [|by apply announced_proc]. rewrite <- Hr. unfold add_cpu. destruct (s.(ncpu) <? NCPU); [|by rewrite bind_ret_l].
      by rewrite bind_assoc, !bind_modify.
    + rewrite (H0 _ _ eq_refl), (H1 _ _ _ eq_refl). change (MPIOAPIC =? MPPROC) with false. rewrite Z.eqb_refl. cbv iota. rewrite bind_modify.
      destruct (Hrec 8%nat ltac:(simpl; lia) (set_ioapicid id s) Hn Hl) as (s' & Hr & A). exists s'. split; [exact Hr|by apply announced_ioapic].
    + rewrite (H0 _ _ eq_refl). destruct Hx as [Hty Hx]. destruct (Hrec 8%nat ltac:(simpl; lia) s Hn Hl) as (s' & Hr & A).
      exists s'. split; [|by apply announced_other]. by destruct Hty as [->|[->| ->]].
Qed.

(** The local APIC ids of the processors found. *)
Lemma announced_ids xs (s s' : machine D) : announced xs s s' → s.(ncpu) = 0 → take (Z.to_nat s'.(ncpu)) s'.(apicids) = take 8 (proc_ids xs).
Proof.
  intros [A1 A2 A3 _ _ _] Hn. rewrite Hn in *. apply list_eq. intros i. destruct (decide (i < Z.to_nat s'.(ncpu))%nat) as [Hi|Hi].
  - rewrite !lookup_take_lt by (unfold NCPU in *; lia). rewrite <- (Nat2Z.id i) at 1. rewrite A3 by lia. f_equal. lia.
  - rewrite lookup_take_ge by lia. symmetry. destruct (decide (i < 8)%nat); [|apply lookup_take_ge; lia].
    rewrite lookup_take_lt by lia. apply lookup_ge_None. unfold NCPU in *. lia.
Qed.

(** C30: when the BIOS has a valid configuration table, [mpinit] returns with the processors it names, in their order and at
    most NCPU of them, the I/O APIC of its last I/O APIC entry and the address of the local APIC; the loop over the entries
    ends. *)
Theorem mpinit_correct (xs : list mpentry) mp conf fuel (s : machine D) env :
  mpconfig m = Some (mp, conf) → Forall entry_ok xs →
  conf_length m conf = sizeof_mpconf + Z.of_nat (length (xs ≫= entry_bytes)) →
  load_bytes m (conf + sizeof_mpconf) (length (xs ≫= entry_bytes)) = xs ≫= entry_bytes →
  s.(ncpu) = 0 → length s.(apicids) = 8%nat → (length xs < fuel)%nat →
  ∃ s', mpinit m fuel s env = Ret tt s' env ∧ s'.(ismp) = 1 ∧ s'.(lapic) = conf_lapicaddr m conf ∧
    s'.(ncpu) = Z.min NCPU (Z.of_nat (length (proc_ids xs))) ∧
    take (Z.to_nat s'.(ncpu)) s'.(apicids) = take 8 (proc_ids xs) ∧
    s'.(ioapicid) = default s.(ioapicid) (last (ioapic_ids xs)).
Proof.
  intros Hconf Hok Hlen Hm Hn Hl Hf. unfold mpinit. rewrite Hconf, !bind_modify. set (s1 := set_lapic _ _).
  destruct (mp_walk_run xs fuel (conf + sizeof_mpconf) (conf + conf_length m conf) s1 env Hok Hm) as (s2 & Hr & An);
    [lia|done|unfold NCPU; simpl; lia|done|]. pose proof (announced_ids xs s1 s2 An Hn) as Hids. destruct An as [A1 A2 A3 A4 A5 (A6 & A7 & A8 & _)]. cbn [ncpu apicids ioapicid ismp lapic set_lapic set_ismp s1] in *. rewrite Hn in *.
  mstep Hr. rewrite bind_gets. rewrite A7. cbn [truthy Z.eqb negb].
  destruct (truthy (mp_imcrp m mp)).
  - unfold outb, inb. rewrite bind_modify. unfold bind. destruct (port_in _ _) as [v d]. eexists. split; [reflexivity|]. done.
  - exists s2. done.
Qed.

(** A table with an entry of a type mp.h does not name: the walk never ends. *)
Lemma mp_walk_spins fuel p e (s : machine D) env :
  p < e → (∀ ty, ty ∈ [MPPROC; MPBUS; MPIOAPIC; MPIOINTR; MPLINTR] → m p ≠ ty) → mp_walk m fuel p e s env = Fault "fuel".
Proof.
  intros Hp Hty. revert s. induction fuel as [|fuel IH]; intros s; [done|]. cbn [mp_walk].
  rewrite (proj2 (Z.ltb_lt p e) Hp). cbn [negb].
  rewrite !(λ ty H, proj2 (Z.eqb_neq (m p) ty) (Hty ty H)) by (repeat (first [by left|right])). cbn [orb]. rewrite bind_modify. apply IH.
Qed.
End walk.

(** ** An example: two processors and an I/O APIC *)

Definition demo_entries : list mpentry :=
  [EProc 0 (replicate 18 0); EProc 2 (replicate 18 0); EOther MPBUS (replicate 7 0); EIoapic 5 (replicate 6 0)].
(** The bytes [l] with the byte at [k], zero so far, set so that all add up to 0. *)
Definition summed (k : nat) (l : list Z) : list Z := <[k := u8 (- foldr Z.add 0 l)]> l.
Definition demo_mp : list Z := summed 10 (str "_MP_" ++ le_bytes 4 983056 ++ [1; 4; 0; 0; 0; 0; 0; 0]).
Definition demo_conf : list Z :=
  summed 7 (str "PCMP" ++ le_bytes 2 100 ++ [4; 0] ++ replicate 28 0 ++ le_bytes 4 4276092928 ++ replicate 4 0 ++ (demo_entries ≫= entry_bytes)).
Definition demo_bios : mem := store_bytes (KERNBASE + 983040) (demo_mp ++ demo_conf) (λ _, 0).

#[local] Instance no_device : Hardware unit := {| port_in _ d := (0, d); port_out _ _ d := d; mmio_in _ d := (0, d); mmio_out _ _ d := d |}.

Lemma mpinit_correct_witness : ∃ s', mpinit demo_bios 10 (Mkmachine tt 0 0 0 0 (replicate 8 0) 0 0 false 0 []) [] = Ret tt s' [] ∧
  s'.(ncpu) = 2 ∧ take 2 s'.(apicids) = [0; 2] ∧ s'.(ioapicid) = 5 ∧ s'.(lapic) = 4276092928.
Proof.
  destruct (mpinit_correct demo_bios demo_entries (KERNBASE + 983040) (KERNBASE + 983056) 10 (Mkmachine tt 0 0 0 0 (replicate 8 0) 0 0 false 0 []) [])
    as (s' & Hr & _ & Hl & Hn & Hids & Hio).
  - vm_compute. reflexivity.
  - repeat constructor; done.
  - vm_compute. reflexivity.
  - vm_compute. reflexivity.
  - reflexivity.
  - reflexivity.
  - simpl. lia.
  - exists s'. split; [exact Hr|]. rewrite Hn in *. split; [done|]. split; [exact Hids|]. split; [exact Hio|]. rewrite Hl. vm_compute. reflexivity.
Defined.
