(* ===== verification/Lapic.v ===== *)
(** * The local APIC and the real-time clock (lapic.c)

    The registers are 32-bit words at [lapic + 4 * index].  Loops that wait for
    a device take the number of polls as fuel; a device that is ready after
    fewer polls makes the loop return. *)

From S2P Require Import Prelude KState Print Mem Hardware.
#[local] Open Scope kernel_scope.

Section lapic.
Context {D : Type} {HW : Hardware D}.
Notation dM := (M (machine D)).

Definition ID : Z := 32 / 4.
Definition VER : Z := 48 / 4.
Definition TPR : Z := 128 / 4.
Definition EOI : Z := 176 / 4.
Definition SVR : Z := 240 / 4.
Definition ENABLE : Z := 256.
Definition ESR : Z := 640 / 4.
Definition ICRLO : Z := 768 / 4.
Definition INIT : Z := 1280.
Definition STARTUP : Z := 1536.
Definition DELIVS : Z := 4096.
Definition ASSERT : Z := 16384.
Definition LEVEL : Z := 32768.
Definition BCAST : Z := 524288.
Definition ICRHI : Z := 784 / 4.
Definition TIMER : Z := 800 / 4.
Definition X1 : Z := 11.
Definition PERIODIC : Z := 131072.
Definition PCINT : Z := 832 / 4.
Definition LINT0 : Z := 848 / 4.
Definition LINT1 : Z := 864 / 4.
Definition ERROR : Z := 880 / 4.
Definition MASKED : Z := 65536.
Definition TICR : Z := 896 / 4.
Definition TDCR : Z := 992 / 4.

(** [lapic[index]]. *)
Definition lapicr (index : Z) : dM Z :=
  base <- gets lapic;; readl (base + 4 * index).

Definition lapicw (index value : Z) : dM unit :=
  base <- gets lapic;;
  writel (base + 4 * index) value;;
  lapicr ID;;
  ret tt.

(** [while(lapic[ICRLO] & DELIVS);] *)
Fixpoint wait_delivered (fuel : nat) : dM unit :=
  match fuel with
  | O => fault "fuel"
  | S fuel' => v <- lapicr ICRLO;; if truthy (Z.land v DELIVS) then wait_delivered fuel' else ret tt
  end.

Definition lapicinit (fuel : nat) : dM unit :=
  base <- gets lapic;;
  if base =? 0 then ret tt else
  lapicw SVR (Z.lor ENABLE (T_IRQ0 + IRQ_SPURIOUS));;
  lapicw TDCR X1;;
  lapicw TIMER (Z.lor PERIODIC (T_IRQ0 + IRQ_TIMER));;
  lapicw TICR 10000000;;
  lapicw LINT0 MASKED;;
  lapicw LINT1 MASKED;;
  v <- lapicr VER;;
  (if 4 <=? Z.land (Z.shiftr v 16) 255 then lapicw PCINT MASKED else ret tt);;
  lapicw ERROR (T_IRQ0 + IRQ_ERROR);;
  lapicw ESR 0;;
  lapicw ESR 0;;
  lapicw EOI 0;;
  lapicw ICRHI 0;;
  lapicw ICRLO (Z.lor (Z.lor BCAST INIT) LEVEL);;
  wait_delivered fuel;;
  lapicw TPR 0.

(** [pc] is the caller's return address. *)
Definition cpunum (pc : Z) : dM Z :=
  on <- gets int_on;;
  (if on : bool then
     n <- gets warned;;
     modify (set_warned (s32 (n + 1)));;
     if n =? 0 then hprintf ("cpu called from %x with interrupts enabled" +:+ newline) [AInt pc] else ret tt
   else ret tt);;
  base <- gets lapic;;
  if base =? 0 then ret 0 else
  v <- lapicr ID;;
  let apicid := Z.shiftr v 24 in
  n <- gets ncpu;;
  ids <- gets apicids;;
  match list_find (λ x, x = apicid) (take (Z.to_nat n) ids) with
  | Some (i, _) => ret (Z.of_nat i)
  | None => panic ("unknown apicid" +:+ newline)
  end.

Definition lapiceoi : dM unit :=
  base <- gets lapic;;
  if base =? 0 then ret tt else lapicw EOI 0.

Definition microdelay (us : Z) : dM unit := ret tt.

Definition CMOS_PORT : Z := 112.
Definition CMOS_RETURN : Z := 113.

(** The warm reset vector is in memory: [wrv] is its address, and a half-word
    store goes to the memory bus like a register. *)
Definition lapicstartap (apicid addr : Z) : dM unit :=
  outb CMOS_PORT 15;;
  outb (CMOS_PORT + 1) 10;;
  let wrv := P2V (Z.lor (Z.shiftl 64 4) 103) in
  modify (λ s, set_dev (mmio_out wrv 0 s.(dev)) s);;
  modify (λ s, set_dev (mmio_out (wrv + 2) (u16 (Z.shiftr addr 4)) s.(dev)) s);;
  lapicw ICRHI (Z.shiftl apicid 24);;
  lapicw ICRLO (Z.lor (Z.lor INIT LEVEL) ASSERT);;
  microdelay 200;;
  lapicw ICRLO (Z.lor INIT LEVEL);;
  microdelay 100;;
  for_each (seq 0 2) (λ _,
    lapicw ICRHI (Z.shiftl apicid 24);;
    lapicw ICRLO (Z.lor STARTUP (Z.shiftr addr 12));;
    microdelay 200).

(** ** The clock *)

Record rtcdate : Type := Mkrtcdate { second : Z; minute : Z; hour : Z; day : Z; month : Z; year : Z }.

#[export] Instance rtcdate_eq_dec : EqDecision rtcdate.
Proof. solve_decision. Defined.

Definition CMOS_STATA : Z := 10.
Definition CMOS_STATB : Z := 11.
Definition CMOS_UIP : Z := Z.shiftl 1 7.
Definition SECS : Z := 0.
Definition MINS : Z := 2.
Definition HOURS : Z := 4.
Definition DAY : Z := 7.
Definition MONTH : Z := 8.
Definition YEAR : Z := 9.

Definition cmos_read (reg : Z) : dM Z :=
  outb CMOS_PORT reg;;
  microdelay 200;;
  inb CMOS_RETURN.

Definition fill_rtcdate : dM rtcdate :=
  s <- cmos_read SECS;;
  m <- cmos_read MINS;;
  h <- cmos_read HOURS;;
  d <- cmos_read DAY;;
  mo <- cmos_read MONTH;;
  y <- cmos_read YEAR;;
  ret (Mkrtcdate s m h d mo y).

(** The loop of [cmostime]: two equal readings without an update between. *)
Fixpoint cmos_stable (fuel : nat) : dM rtcdate :=
  match fuel with
  | O => fault "fuel"
  | S fuel' =>
      t1 <- fill_rtcdate;;
      a <- cmos_read CMOS_STATA;;
      if truthy (Z.land a CMOS_UIP) then cmos_stable fuel' else
      t2 <- fill_rtcdate;;
      if bool_decide (t1 = t2) then ret t1 else cmos_stable fuel'
  end.

(** The macro [CONV]. *)
Definition CONV (x : Z) : Z := Z.shiftr x 4 * 10 + Z.land x 15.

Definition cmostime (fuel : nat) : dM rtcdate :=
  sb <- cmos_read CMOS_STATB;;
  let bcd := Z.land sb (Z.shiftl 1 2) =? 0 in
  t1 <- cmos_stable fuel;;
  let t := if bcd then Mkrtcdate (CONV t1.(second)) (CONV t1.(minute)) (CONV t1.(hour)) (CONV t1.(day)) (CONV t1.(month)) (CONV t1.(year)) else t1 in
  ret (Mkrtcdate t.(second) t.(minute) t.(hour) t.(day) t.(month) (u32 (t.(year) + 2000))).
End lapic.

(** ** Reading the clock

    The clock chip has its registers behind an index port and a data port, and
    changes them in updates of its own.  [clock t r] is what register [r] holds
    when the chip has been read [t] times. *)
Class Cmos (D : Type) `{Hardware D} : Type := {
  cm_now : D → nat;
  cm_sel : D → Z;
  clock : nat → Z → Z;
  clock_byte t r : is_byte (clock t r);
  cm_select r d : cm_sel (port_out CMOS_PORT r d) = r;
  cm_select_now r d : cm_now (port_out CMOS_PORT r d) = cm_now d;
  cm_read d : fst (port_in CMOS_RETURN d) = clock (cm_now d) (cm_sel d);
  cm_read_now d : cm_now (snd (port_in CMOS_RETURN d)) = S (cm_now d)
}.

(** Binary coded decimal. *)
Definition bcd (n : Z) : Z := 16 * (n / 10) + n mod 10.

Lemma CONV_bcd n : 0 ≤ n < 100 → CONV (bcd n) = n.
Proof.
  intros Hn. unfold CONV, bcd. change 15 with (Z.ones 4). rewrite Z.land_ones, Z.shiftr_div_pow2 by lia. change (2 ^ 4) with 16.
  pose proof (Z.div_mod n 10 ltac:(done)). pose proof (Z.mod_pos_bound n 10 eq_refl).
  rewrite <- (Z.div_unique_pos (16 * (n / 10) + n mod 10) 16 (n / 10) (n mod 10)) by lia.
  rewrite <- (Z.mod_unique_pos (16 * (n / 10) + n mod 10) 16 (n / 10) (n mod 10)) by lia. lia.
Qed.

Section clock.
Context {D : Type} `{Cmos D}.

Definition date_at (t : nat) : rtcdate := Mkrtcdate (clock t SECS) (clock t MINS) (clock t HOURS) (clock t DAY) (clock t MONTH) (clock t YEAR).

Lemma cmos_read_run r (s : machine D) e : is_byte r →
  ∃ d', cmos_read r s e = Ret (clock (cm_now s.(dev)) r) (set_dev d' s) e ∧ cm_now d' = S (cm_now s.(dev)).
Proof.
  intros Hr. unfold cmos_read, outb, microdelay. rewrite bind_modify, bind_ret_l. unfold inb. cbn [dev set_dev]. set (d0 := port_out _ _ _).
  pose proof (cm_read d0) as Hv. pose proof (cm_read_now d0) as Hn. destruct (port_in CMOS_RETURN d0) as [v d]. cbn [fst snd] in *. subst v.
  exists d. unfold d0 in *. rewrite cm_select_now in Hn. split; [|done]. rewrite cm_select_now, cm_select, (u8_id r) by done. by rewrite u8_id by apply clock_byte.
Qed.

(** Six reads: each register at its own time. *)
Definition scan_at (t : nat) : rtcdate :=
  Mkrtcdate (clock (t + 0) SECS) (clock (t + 1) MINS) (clock (t + 2) HOURS) (clock (t + 3) DAY) (clock (t + 4) MONTH) (clock (t + 5) YEAR).

Lemma fill_run (s : machine D) e : let t := cm_now s.(dev) in
  ∃ d', fill_rtcdate s e = Ret (scan_at t) (set_dev d' s) e ∧ cm_now d' = (t + 6)%nat.
Proof.
  intros t. unfold fill_rtcdate.
  destruct (cmos_read_run SECS s e ltac:(done)) as (d1 & R1 & N1). mstep R1. destruct (cmos_read_run MINS (set_dev d1 s) e ltac:(done)) as (d2 & R2 & N2). mstep R2.
  destruct (cmos_read_run HOURS (set_dev d2 s) e ltac:(done)) as (d3 & R3 & N3). mstep R3. destruct (cmos_read_run DAY (set_dev d3 s) e ltac:(done)) as (d4 & R4 & N4). mstep R4.
  destruct (cmos_read_run MONTH (set_dev d4 s) e ltac:(done)) as (d5 & R5 & N5). mstep R5. destruct (cmos_read_run YEAR (set_dev d5 s) e ltac:(done)) as (d6 & R6 & N6). mstep R6.
  exists d6. cbn [dev set_dev] in *. split; [|unfold t; lia]. unfold scan_at, t. rewrite N5, N4, N3, N2, N1. unfold ret. repeat f_equal; lia.
Qed.

(** At most one update in any thirteen reads. *)
Definition rare_updates : Prop := ∀ t, ∃ (u : nat) (old new : Z → Z), ∀ i r, (i < 13)%nat → r ≠ CMOS_STATA → clock (t + i) r = if (i <? u)%nat then old r else new r.

(** An update that two scans do not show has not torn them. *)
Lemma scan_consistent t : rare_updates → scan_at t = scan_at (t + 7) → ∃ t', scan_at t = date_at t'.
Proof.
  intros Hrare. destruct (Hrare t) as (u & old & new & Hc). unfold scan_at, date_at. rewrite <- !Nat.add_assoc. simpl (7 + _)%nat.
  rewrite !Hc by (lia || done). intros Heq.
  destruct (decide (u ≤ 7)%nat) as [Hu|Hu].
  - exists (t + 12)%nat. rewrite !Hc by (lia || done). assert (∀ i, (7 ≤ i)%nat → (i <? u)%nat = false) as H7 by (intros i Hi; apply Nat.ltb_ge; lia).
    rewrite !(H7 7%nat), !(H7 8%nat), !(H7 9%nat), !(H7 10%nat), !(H7 11%nat), !(H7 12%nat) in Heq by lia. rewrite (H7 12%nat) by lia. exact Heq.
  - exists (t + 0)%nat. rewrite !Hc by (lia || done). assert (∀ i, (i ≤ 7)%nat → (i <? u)%nat = true) as H7 by (intros i Hi; apply Nat.ltb_lt; lia).
    by rewrite !H7 by lia.
Qed.

(** The registers hold still, and no update is announced, for the reads of two rounds. *)
Definition calm (t : nat) : Prop :=
  ∀ i, (i < 26)%nat → (∀ r, r ≠ CMOS_STATA → clock (t + i) r = clock t r) ∧ Z.land (clock (t + i) CMOS_STATA) CMOS_UIP = 0.

Lemma calm_scan t j : calm t → (j + 13 ≤ 26)%nat →
  Z.land (clock (t + j + 6) CMOS_STATA) CMOS_UIP = 0 ∧ scan_at (t + j) = scan_at (t + j + 7).
Proof.
  intros Hc Hj. split; [rewrite <- Nat.add_assoc; apply Hc; lia|]. unfold scan_at. rewrite <- !Nat.add_assoc.
  by rewrite !(λ i Hi, proj1 (Hc i Hi)) by (lia || done).
Qed.

(** The loop ends in the calm time [T] at the latest, with a date the clock has shown. *)
Lemma cmos_stable_run T fuel : ∀ (s : machine D) e,
  rare_updates → calm T → (cm_now s.(dev) ≤ T + 12)%nat → (T - cm_now s.(dev) < fuel)%nat →
  ∃ t d', cmos_stable fuel s e = Ret (date_at t) (set_dev d' s) e.
Proof.
  induction fuel as [|fuel IH]; intros s e Hrare Hcalm Hnow Hfuel; [lia|]. cbn [cmos_stable]. set (t := cm_now s.(dev)) in *.
  destruct (fill_run s e) as (d1 & R1 & N1). fold t in R1, N1. mstep R1.
  destruct (cmos_read_run CMOS_STATA (set_dev d1 s) e ltac:(done)) as (d2 & R2 & N2). mstep R2. cbn [dev set_dev] in *. rewrite N1 in N2 |- *.
  assert ((T ≤ t)%nat → Z.land (clock (t + 6) CMOS_STATA) CMOS_UIP = 0 ∧ scan_at t = scan_at (t + 7)) as Hcs.
  { intros Ht. replace t with (T + (t - T))%nat by lia. apply calm_scan; [done|lia]. }
  unfold truthy. destruct (Z.eqb_spec (Z.land (clock (t + 6) CMOS_STATA) CMOS_UIP) 0) as [Hu|Hu]; cbn [negb].
  - destruct (fill_run (set_dev d2 s) e) as (d3 & R3 & N3). cbn [dev set_dev] in R3, N3. mstep R3. rewrite N2 in *. replace (S (t + 6)) with (t + 7)%nat in * by lia.
    destruct (bool_decide_reflect (scan_at t = scan_at (t + 7))) as [Heq|Hne].
    + destruct (scan_consistent t Hrare Heq) as (t' & ->). by exists t', d3.
    + assert (t < T)%nat by (destruct (decide (T ≤ t)%nat) as [Ht|]; [by destruct (Hcs Ht)|lia]).
      destruct (IH (set_dev d3 s) e) as (t' & d' & Hr); [done|done|cbn [dev set_dev]; lia|cbn [dev set_dev]; lia|]. by exists t', d'.
  - assert (t < T)%nat by (destruct (decide (T ≤ t)%nat) as [Ht|]; [by destruct (Hcs Ht)|lia]).
    destruct (IH (set_dev d2 s) e) as (t' & d' & Hr); [done|done|cbn [dev set_dev]; lia|cbn [dev set_dev]; lia|]. by exists t', d'.
Qed.

(** What the six registers mean, in the mode of status register B. *)
Definition shown (sb : Z) (t : rtcdate) : rtcdate :=
  let c x := if Z.land sb 4 =? 0 then CONV x else x in
  Mkrtcdate (c t.(second)) (c t.(minute)) (c t.(hour)) (c t.(day)) (c t.(month)) (c t.(year) + 2000).

(** [cmostime] returns a date that the clock has shown as a whole, never one with fields from before and after an
    update, as long as the clock is updated at most once while it is read twice.  It returns at the latest in the first
    calm time of the clock. *)
Theorem cmostime_correct T fuel (s : machine D) e :
  rare_updates → calm T → (cm_now s.(dev) < T)%nat → (T ≤ fuel)%nat →
  ∃ t d', cmostime fuel s e = Ret (shown (clock (cm_now s.(dev)) CMOS_STATB) (date_at t)) (set_dev d' s) e.
Proof.
  intros Hrare Hcalm Hnow Hfuel. unfold cmostime. destruct (cmos_read_run CMOS_STATB s e ltac:(done)) as (d1 & R1 & N1). mstep R1. cbv zeta.
  destruct (cmos_stable_run T fuel (set_dev d1 s) e Hrare Hcalm) as (t & d2 & R2); [cbn [dev set_dev]; lia|cbn [dev set_dev]; lia|]. mstep R2.
  exists t, d2. unfold shown. change (Z.shiftl 1 2) with 4. unfold ret. pose proof (clock_byte t YEAR) as Hb. unfold is_byte in Hb.
  destruct (Z.land _ 4 =? 0); simpl; do 2 f_equal; apply u32_id; unfold is_u32.
  - unfold CONV. pose proof (Z.land_nonneg (clock t YEAR) 15). pose proof (Z.shiftr_div_pow2 (clock t YEAR) 4 ltac:(done)) as ->.
    assert (0 ≤ clock t YEAR / 2 ^ 4 < 16) by (split; [apply Z.div_pos; lia|apply Z.div_lt_upper_bound; lia]).
    assert (0 ≤ Z.land (clock t YEAR) 15 < 16) by (change 15 with (Z.ones 4); rewrite Z.land_ones by lia; by apply Z.mod_pos_bound). lia.
  - lia.
Qed.
End clock.

(** A clock chip that shows one date and then another. *)
Record cmos_chip : Type := Mkcmos { cc_now : nat; cc_sel : Z }.
Definition cc_clock (t : nat) (r : Z) : Z :=
  if r =? CMOS_STATA then (if (t =? 7)%nat then 128 else 0) else
  if r =? SECS then (if (t <? 10)%nat then 89 else 0) else
  if r =? MINS then (if (t <? 10)%nat then 69 else 70) else
  if r =? DAY then 1 else if r =? MONTH then 18 else if r =? YEAR then 36 else 0.

#[export] Instance cmos_hardware : Hardware cmos_chip := {|
  port_in port d := (cc_clock d.(cc_now) d.(cc_sel), Mkcmos (S d.(cc_now)) d.(cc_sel));
  port_out port v d := Mkcmos d.(cc_now) v;
  mmio_in _ d := (0, d);
  mmio_out _ _ d := d
|}.

#[export] Instance cmos_laws : Cmos cmos_chip.
Proof.
  refine {| cm_now := cc_now; cm_sel := cc_sel; clock := cc_clock |}; try done.
  intros t r. unfold cc_clock, is_byte. repeat case_match; lia.
Defined.

Lemma cmostime_correct_witness : ∃ t d', cmostime 30 (Mkmachine (Mkcmos 0 0) 0 0 0 0 [] 0 0 false 0 []) [] =
  Ret (shown 0 (date_at t)) (Mkmachine d' 0 0 0 0 [] 0 0 false 0 []) [].
Proof.
  refine (cmostime_correct 10 30 (Mkmachine (Mkcmos 0 0) 0 0 0 0 [] 0 0 false 0 []) [] _ _ _ _).
  - intros t. exists (10 - t)%nat, (cc_clock 9), (cc_clock 10). intros i r Hi Hr. change (@clock _ _ cmos_laws) with cc_clock. unfold cc_clock. rewrite (proj2 (Z.eqb_neq r CMOS_STATA) Hr).
    destruct (Nat.ltb_spec i (10 - t)); [rewrite !(proj2 (Nat.ltb_lt (t + i) 10)) by lia|rewrite !(proj2 (Nat.ltb_ge (t + i) 10)) by lia]; done.
  - intros i Hi. change (@clock _ _ cmos_laws) with cc_clock. unfold cc_clock. split.
    + intros r Hr. rewrite (proj2 (Z.eqb_neq r CMOS_STATA) Hr). by rewrite !(proj2 (Nat.ltb_ge (10 + i) 10)) by lia.
    + rewrite Z.eqb_refl. by rewrite (proj2 (Nat.eqb_neq (10 + i) 7)) by lia.
  - simpl. lia.
  - lia.
Defined.
