(* ===== verification/Ata.v ===== *)
(** * An ATA disk

    The documented registers of the disk as laws on [Hardware], and what the
    accesses that the drivers make do to it.  The disk driver and the boot
    loader use it. *)

From S2P Require Import Prelude KState Print Hardware.
#[local] Open Scope kernel_scope.

Definition SECTOR_SIZE : Z := 512.
Definition IDE_BSY : Z := 128.
Definition IDE_DRDY : Z := 64.
Definition IDE_DF : Z := 32.
Definition IDE_ERR : Z := 1.
Definition IDE_CMD_READ : Z := 32.
Definition IDE_CMD_WRITE : Z := 48.
Definition IDE_CMD_RDMUL : Z := 196.
Definition IDE_CMD_WRMUL : Z := 197.

(** The words of a block. *)
Fixpoint words_of (n : nat) (l : list Z) : list Z :=
  match n with O => [] | S n' => le_val (take 4 l) :: words_of n' (drop 4 l) end.

(** ** The disk

    The registers of an ATA disk: the sector number and the drive are in the
    ports 499 to 502; a command for one sector makes the words of the sector
    available at the data port, or takes them from it; the status port is busy
    for some polls after a command. *)
Record ata : Type := Mkata {
  a_reg : Z → Z;
  a_disk : gmap (Z * Z) (list Z);
  a_busy : nat;
  a_fifo : list Z;
  a_sink : option (Z * Z * list Z);
  a_cmds : nat
}.

Definition a_lba (a : ata) : Z := a.(a_reg) 499 + 256 * a.(a_reg) 500 + 65536 * a.(a_reg) 501 + 16777216 * (a.(a_reg) 502 mod 16).
Definition a_drive (a : ata) : Z := a.(a_reg) 502 / 16 mod 2.
Definition sector_of (k : Z * Z) (a : ata) : list Z := default (replicate 512 0) (a.(a_disk) !! k).

(** [delay k] is the number of polls the disk is busy after command [k]. *)
Definition ata_out (delay : nat → nat) (port v : Z) (a : ata) : ata :=
  if (498 <=? port) && (port <=? 502) then
    Mkata (λ p, if p =? port then v else a.(a_reg) p) a.(a_disk) a.(a_busy) a.(a_fifo) a.(a_sink) a.(a_cmds)
  else if (port =? 503) && (v =? IDE_CMD_READ) then
    Mkata a.(a_reg) a.(a_disk) (delay a.(a_cmds)) (words_of 128 (sector_of (a_drive a, a_lba a) a)) None (S a.(a_cmds))
  else if (port =? 503) && (v =? IDE_CMD_WRITE) then
    Mkata a.(a_reg) a.(a_disk) (delay a.(a_cmds)) [] (Some (a_drive a, a_lba a, [])) (S a.(a_cmds))
  else if port =? 496 then
    match a.(a_sink) with
    | Some (dr, lba, ws) =>
        if (length ws =? 127)%nat
        then Mkata a.(a_reg) (<[(dr, lba) := (ws ++ [v]) ≫= le_bytes 4]> a.(a_disk)) a.(a_busy) a.(a_fifo) None a.(a_cmds)
        else Mkata a.(a_reg) a.(a_disk) a.(a_busy) a.(a_fifo) (Some (dr, lba, ws ++ [v])) a.(a_cmds)
    | None => a
    end
  else a.

Definition ata_in (port : Z) (a : ata) : Z * ata :=
  if port =? 503 then
    match a.(a_busy) with
    | S n => (IDE_BSY, Mkata a.(a_reg) a.(a_disk) n a.(a_fifo) a.(a_sink) a.(a_cmds))
    | O => (IDE_DRDY, a)
    end
  else match a.(a_fifo) with
       | w :: ws => (w, Mkata a.(a_reg) a.(a_disk) a.(a_busy) ws a.(a_sink) a.(a_cmds))
       | [] => (0, a)
       end.

(** The machine has such a disk at these ports. *)
Class Ata (D : Type) `{Hardware D} : Type := {
  at_disk : D → ata;
  at_delay : nat → nat;
  at_out port v d : at_disk (port_out port v d) = ata_out at_delay port v (at_disk d);
  at_in port d : port = 503 ∨ port = 496 →
    fst (port_in port d) = fst (ata_in port (at_disk d)) ∧ at_disk (snd (port_in port d)) = snd (ata_in port (at_disk d))
}.

Lemma words_le n : ∀ l, Forall is_byte l → length l = (4 * n)%nat → words_of n l ≫= le_bytes 4 = l.
Proof.
  induction n as [|n IH]; intros l Hb Hl; [by destruct l|]. cbn [words_of mbind list_bind].
  rewrite IH; [|by apply Forall_drop|rewrite length_drop; lia].
  replace 4%nat with (length (take 4 l)) at 1 by (rewrite length_take; lia). rewrite le_bytes_val by (by apply Forall_take). apply take_drop.
Qed.

Lemma length_words_of n : ∀ l, length (words_of n l) = n.
Proof. induction n as [|n IH]; intros l; [done|]. simpl. by rewrite IH. Qed.

(** ** Accesses *)

Section access.
Context {D : Type} `{Ata D} {W : Type} `{!Board D W}.
Notation disk_of s := (at_disk (mach s).(dev)).

(** Only the devices have changed, and the disk is in state [a]. *)
Definition moved (s s' : W) (a : ata) : Prop := ∃ x, s' = set_mach x s ∧ at_disk x.(dev) = a.

Lemma moved_trans s s1 s2 a a' : moved s s1 a → moved s1 s2 a' → moved s s2 a'.
Proof. intros (x & -> & _) (y & -> & Hy). exists y. by rewrite set_mach_set. Qed.

Lemma moved_disk s s' a : moved s s' a → disk_of s' = a.
Proof. intros (x & -> & Hx). by rewrite mach_set. Qed.

Lemma moved_refl s : moved s s (disk_of s).
Proof. exists (mach s). by rewrite set_mach_id. Qed.

Lemma on_dev_outb port v (s : W) e :
  ∃ s', on_dev (outb port v) s e = Ret tt s' e ∧ moved s s' (ata_out at_delay port (u8 v) (disk_of s)).
Proof. eexists. split; [by apply on_dev_run|]. eexists. split; [reflexivity|]. apply at_out. Qed.

(** The status port. *)
Definition rest (a : ata) : ata := Mkata a.(a_reg) a.(a_disk) 0 a.(a_fifo) a.(a_sink) a.(a_cmds).
Definition polled (a : ata) : ata := Mkata a.(a_reg) a.(a_disk) (pred a.(a_busy)) a.(a_fifo) a.(a_sink) a.(a_cmds).

Lemma on_dev_status (s : W) e :
  ∃ s', on_dev (inb 503) s e = Ret (if (disk_of s).(a_busy) then IDE_DRDY else IDE_BSY) s' e ∧ moved s s' (polled (disk_of s)).
Proof.
  destruct (at_in 503 (mach s).(dev) (or_introl eq_refl)) as [H1 H2]. unfold on_dev, inb.
  destruct (port_in 503 (dev (mach s))) as [v d]. cbn [fst snd] in *. subst v. eexists. unfold ata_in in *. rewrite Z.eqb_refl in *.
  split; [by destruct (a_busy (disk_of s))|]. eexists. split; [reflexivity|]. cbn [dev set_dev]. rewrite H2. unfold polled. by destruct (disk_of s) as [? ? [] ? ? ?].
Qed.

(** The data of a write. *)
Lemma outsl_dev l : ∀ (x : machine D) e dr lba ws, (at_disk x.(dev)).(a_sink) = Some (dr, lba, ws) → (length ws + length l = 128)%nat → l ≠ [] →
  ∃ x', outsl 496 l x e = Ret tt x' e ∧ let a := at_disk x.(dev) in
    at_disk x'.(dev) = Mkata a.(a_reg) (<[(dr, lba) := (ws ++ l) ≫= le_bytes 4]> a.(a_disk)) a.(a_busy) a.(a_fifo) None a.(a_cmds).
Proof.
  induction l as [|w l IH]; intros x e dr lba ws Hs Hl Hne; [done|]. simpl in Hl.
  pose proof (at_out 496 w x.(dev)) as Ho. unfold ata_out in Ho. simpl in Ho. rewrite Hs in Ho.
  set (d1 := port_out 496 w _) in *. cbn [outsl]. rewrite bind_modify. destruct l as [|w' l].
  - rewrite (proj2 (Nat.eqb_eq (length ws) 127)) in Ho by (simpl in Hl; lia). by eexists.
  - rewrite (proj2 (Nat.eqb_neq (length ws) 127)) in Ho by (simpl in Hl; lia).
    destruct (IH (set_dev d1 x) e dr lba (ws ++ [w])) as (x' & Hr & Hx'); [simpl; by rewrite Ho|rewrite length_app; simpl in *; lia|done|].
    exists x'. split; [done|]. cbn [dev set_dev] in Hx'. rewrite Ho in Hx'. cbn [a_reg a_disk a_busy a_fifo a_cmds] in Hx'. by rewrite <- app_assoc in Hx'.
Qed.

Lemma outsl_run l (s : W) e dr lba : (disk_of s).(a_sink) = Some (dr, lba, []) → length l = 128%nat →
  ∃ s', on_dev (outsl 496 l) s e = Ret tt s' e ∧ let a := disk_of s in
    moved s s' (Mkata a.(a_reg) (<[(dr, lba) := l ≫= le_bytes 4]> a.(a_disk)) a.(a_busy) a.(a_fifo) None a.(a_cmds)).
Proof.
  intros Hs Hl. destruct (outsl_dev l (mach s) [] dr lba [] Hs) as (x & Hr & Hx); [simpl; lia|by destruct l|].
  exists (set_mach x s). split; [by apply on_dev_run|]. by exists x.
Qed.

(** The data of a read. *)
Lemma insl_dev n : ∀ (x : machine D) e ws, (at_disk x.(dev)).(a_fifo) = ws → length ws = n →
  ∃ x', insl 496 n x e = Ret (ws ≫= le_bytes 4) x' e ∧ let a := at_disk x.(dev) in
    at_disk x'.(dev) = Mkata a.(a_reg) a.(a_disk) a.(a_busy) [] a.(a_sink) a.(a_cmds).
Proof.
  induction n as [|n IH]; intros x e ws Hs Hl.
  - destruct ws; [|done]. exists x. split; [done|]. simpl. rewrite <- Hs. by destruct (at_disk (dev x)).
  - destruct ws as [|w ws]; [done|]. destruct (at_in 496 x.(dev) (or_intror eq_refl)) as [H1 H2].
    unfold ata_in in H1, H2. simpl in H1, H2. rewrite Hs in H1, H2. cbn [fst snd] in H1, H2. cbn [insl].
    destruct (port_in 496 (dev x)) as [v d] eqn:Ep. cbn [fst snd] in *. subst v.
    destruct (IH (set_dev d x) e ws) as (x' & Hr & Hx'); [simpl; by rewrite H2|simpl in Hl; lia|].
    exists x'. split; [by mstep Hr|]. cbn [dev set_dev] in Hx'. by rewrite H2 in Hx'.
Qed.

Lemma insl_run n (s : W) e ws : (disk_of s).(a_fifo) = ws → length ws = n →
  ∃ s', on_dev (insl 496 n) s e = Ret (ws ≫= le_bytes 4) s' e ∧ let a := disk_of s in
    moved s s' (Mkata a.(a_reg) a.(a_disk) a.(a_busy) [] a.(a_sink) a.(a_cmds)).
Proof.
  intros Hs Hl. destruct (insl_dev n (mach s) [] ws Hs Hl) as (x & Hr & Hx). exists (set_mach x s). split; [by apply on_dev_run|]. by exists x.
Qed.

(** A write to one of the registers that select a sector. *)
Definition reg_write (port v : Z) (a : ata) : ata :=
  Mkata (λ p, if p =? port then v else a.(a_reg) p) a.(a_disk) a.(a_busy) a.(a_fifo) a.(a_sink) a.(a_cmds).

Lemma outb_reg port v (s : W) e : 498 ≤ port ≤ 502 →
  ∃ s', on_dev (outb port v) s e = Ret tt s' e ∧ moved s s' (reg_write port (u8 v) (disk_of s)).
Proof.
  intros Hp. destruct (on_dev_outb port v s e) as (s' & Hr & Hm). exists s'. split; [done|]. unfold ata_out in Hm.
  by rewrite (proj2 (Z.leb_le 498 port)), (proj2 (Z.leb_le port 502)) in Hm by lia.
Qed.


Lemma outb_regs (s : W) e v3 v4 v5 v6 :
  ∃ s' a', (∀ B (k : M W B), (on_dev (outb 498 1);; on_dev (outb 499 v3);; on_dev (outb 500 v4);; on_dev (outb 501 v5);; on_dev (outb 502 v6);; k) s e = k s' e) ∧
    moved s s' a' ∧ a_lba a' = u8 v3 + 256 * u8 v4 + 65536 * u8 v5 + 16777216 * (u8 v6 mod 16) ∧ a_drive a' = u8 v6 / 16 mod 2 ∧
    a'.(a_disk) = (disk_of s).(a_disk) ∧ a'.(a_busy) = (disk_of s).(a_busy) ∧ a'.(a_sink) = (disk_of s).(a_sink).
Proof.
  destruct (outb_reg 498 1 s e ltac:(done)) as (s2 & R2 & M2).
  destruct (outb_reg 499 v3 s2 e ltac:(done)) as (s3 & R3 & M3). destruct (outb_reg 500 v4 s3 e ltac:(done)) as (s4 & R4 & M4).
  destruct (outb_reg 501 v5 s4 e ltac:(done)) as (s5 & R5 & M5). destruct (outb_reg 502 v6 s5 e ltac:(done)) as (s6 & R6 & M6).
  exists s6, (disk_of s6). split; [intros B k; mstep R2; mstep R3; mstep R4; mstep R5; by mstep R6|].
  rewrite (moved_disk _ _ _ M6). split; [do 4 (eapply moved_trans; [eassumption|]); exact M6|].
  rewrite (moved_disk _ _ _ M5), (moved_disk _ _ _ M4), (moved_disk _ _ _ M3), (moved_disk _ _ _ M2).
  unfold a_lba, a_drive, reg_write. cbn [a_reg a_disk a_busy a_sink].
  generalize (u8 v3), (u8 v4), (u8 v5), (u8 v6). intros w3 w4 w5 w6. split; [reflexivity|]. split; [reflexivity|]. done.
Qed.
End access.

(** ** A machine that is such a disk *)

#[export] Instance ata_hardware : Hardware ata := {|
  port_in port d := ata_in port d;
  port_out port v d := ata_out (λ _, 3%nat) port v d;
  mmio_in _ d := (0, d);
  mmio_out _ _ d := d
|}.
#[export] Instance ata_laws : Ata ata.
Proof. by refine {| at_disk d := d; at_delay _ := 3%nat |}. Defined.
