(* ===== verification/Args.v ===== *)
(** * System call arguments (syscall.c: fetchint, fetchstr, argint, argptr, argstr)

    The accesses to the current process and to its user memory.  A C function
    that returns -1 or 0 and stores its result through a pointer returns an
    [option] here: [None] for -1. *)

From S2P Require Import Prelude KState Spinlock Print Mem.
#[local] Open Scope kernel_scope.

(** ** The current process (proc.c: mycpu, myproc, and the variable proc) *)

(** The variable [proc] at %gs, which is [c->proc]. *)
Definition proc_var : K (option nat) := gets (λ s, s.(k_cpu).(c_proc)).

(** [proc] where the code dereferences it. *)
Definition curproc : K nat := o <- proc_var;; deref o.

Definition fmt_cpu_called : string := "cpu called from %x with interrupts enabled" +:+ newline.

(** [mycpu] calls [cpunum], which complains the first time it is called with
    interrupts on.  The processor it finds is the one whose state is [k_cpu]. *)
Definition mycpu : K unit :=
  on <- gets (λ s, s.(k_cpu).(c_if));;
  if on : bool then
    n <- gets (λ s, s.(k_io).(io_warned));;
    modify (on_io (set_io_warned (s32 (n + 1))));;
    if n =? 0 then
      pc <- gets (λ s, s.(k_mem).(m_mycpu));; cprintf fmt_cpu_called [AInt pc]
    else ret tt
  else ret tt.

Definition myproc : K (option nat) := mycpu;; proc_var.

Definition getp (i : nat) : K proc := o <- gets (λ s, s.(k_pt).(pt_proc) !! i);; deref o.

Definition setp (i : nat) (p : proc) : K unit :=
  modify (on_pt (λ pt, set_pt_proc (<[i := p]> pt.(pt_proc)) pt)).

Definition modp (i : nat) (f : proc → proc) : K unit := p <- getp i;; setp i (f p).

(** The current process is slot [i] of the table and holds [p]. *)
Definition running (s : kstate) (i : nat) (p : proc) : Prop :=
  s.(k_cpu).(c_proc) = Some i ∧ s.(k_pt).(pt_proc) !! i = Some p.

Lemma curproc_run s i p e : running s i p → curproc s e = Ret i s e.
Proof. intros [H _]. unfold curproc, proc_var. mrun. by rewrite H. Qed.

Lemma getp_run s i p e : s.(k_pt).(pt_proc) !! i = Some p → getp i s e = Ret p s e.
Proof. intros H. unfold getp. mrun. by rewrite H. Qed.

(** The state with slot [i] replaced. *)
Definition putp (i : nat) (p : proc) (s : kstate) : kstate :=
  on_pt (λ pt, set_pt_proc (<[i := p]> pt.(pt_proc)) pt) s.

Lemma modp_run s i p f e :
  s.(k_pt).(pt_proc) !! i = Some p → modp i f s e = Ret tt (putp i (f p) s) e.
Proof. intros H. unfold modp. by mstep (getp_run s i p e H). Qed.

(** The state after [mycpu]: what [cpunum] may have printed and counted. *)
Definition cpu_warned (s : kstate) : kstate :=
  if s.(k_cpu).(c_if) then
    let s1 := on_io (set_io_warned (s32 (s.(k_io).(io_warned) + 1))) s in
    if s.(k_io).(io_warned) =? 0 then
      printed (default [] (format (str fmt_cpu_called) [AInt s.(k_mem).(m_mycpu)])) s1
    else s1
  else s.

Lemma fmt_cpu_called_ok pc : is_Some (format (str fmt_cpu_called) [AInt pc]).
Proof. by eexists. Qed.

Lemma mycpu_run s e : can_print s → mycpu s e = Ret tt (cpu_warned s) e.
Proof.
  intros Hp. unfold mycpu, cpu_warned. rewrite bind_gets. destruct (c_if _); [|done].
  rewrite bind_gets, bind_modify. destruct (_ =? 0); [|done]. rewrite bind_gets.
  destruct (fmt_cpu_called_ok s.(k_mem).(m_mycpu)) as [cs Hcs].
  change (m_mycpu (k_mem (on_io _ s))) with (m_mycpu (k_mem s)). rewrite Hcs. by apply cprintf_run.
Qed.

Lemma mycpu_off s e : s.(k_cpu).(c_if) = false → mycpu s e = Ret tt s e.
Proof. intros H. unfold mycpu. by rewrite bind_gets, H. Qed.

(** ** Arguments *)

Definition fetchint (addr : Z) : K (option Z) :=
  i <- curproc;; p <- getp i;;
  if (p.(p_sz) <=? addr) || (p.(p_sz) <? u32 (addr + 4)) then ret None else
  v <- uload32 addr;; ret (Some (s32 v)).

(** The scan for the terminating NUL, up to the end of the process; the bytes
    it passed over. *)
Fixpoint fetchstr_loop (n : nat) (va : Z) : K (option (list Z)) :=
  match n with
  | O => ret None
  | S n' =>
      b <- uload va;;
      if b =? 0 then ret (Some []) else
      r <- fetchstr_loop n' (va + 1);; ret ((b ::.) <$> r)
  end.

(** [*pp] and the string it points to; the C function returns its length. *)
Definition fetchstr (addr : Z) : K (option (Z * list Z)) :=
  i <- curproc;; p <- getp i;;
  if p.(p_sz) <=? addr then ret None else
  r <- fetchstr_loop (Z.to_nat (p.(p_sz) - addr)) addr;;
  ret ((addr,.) <$> r).

Definition argint (n : Z) : K (option Z) :=
  i <- curproc;; p <- getp i;;
  fetchint (u32 (p.(p_tf).(tf_esp) + 4 + 4 * n)).

Definition argptr (n size : Z) : K (option Z) :=
  a <- argint n;;
  match a with
  | None => ret None
  | Some v =>
      i <- curproc;; p <- getp i;;
      if (size <? 0) || (p.(p_sz) <=? u32 v) || (p.(p_sz) <? u32 (u32 v + size))
      then ret None else ret (Some (u32 v))
  end.

Definition argstr (n : Z) : K (option (Z * list Z)) :=
  a <- argint n;;
  match a with
  | None => ret None
  | Some addr => fetchstr (u32 addr)
  end.

(** ** What the checks guarantee *)

(** Reading user memory does not change the state. *)
Lemma uload_inv va s e b s' e' :
  uload va s e = Ret b s' e' →
  s' = s ∧ e' = e ∧
  ∃ a, translate s.(k_mem).(m_byte) (P2V s.(k_cpu).(c_cr3)) va = Some a ∧ b = s.(k_mem).(m_byte) a.
Proof.
  unfold uload. rewrite bind_gets. destruct (translate _ _ _) as [a|] eqn:E; [|done].
  intros H. inversion H; subst. eauto.
Qed.

Lemma uload32_inv va s e v s' e' : uload32 va s e = Ret v s' e' → s' = s ∧ e' = e.
Proof.
  unfold uload32. intros H.
  repeat (apply bind_inv in H as (? & ? & ? & H1 & H); apply uload_inv in H1 as (-> & -> & _)).
  by inversion H.
Qed.

(** The state in which the code reads memory the MMU maps. *)
Definition mapped (s : kstate) (lo hi : Z) : Prop :=
  ∀ va, lo ≤ va < hi →
    is_Some (translate s.(k_mem).(m_byte) (P2V s.(k_cpu).(c_cr3)) va).

(** The byte at a mapped user address. *)
Definition ubyte (s : kstate) (va : Z) : Z :=
  match translate s.(k_mem).(m_byte) (P2V s.(k_cpu).(c_cr3)) va with
  | Some a => s.(k_mem).(m_byte) a
  | None => 0
  end.

Lemma uload_run s e lo hi va : mapped s lo hi → lo ≤ va < hi → uload va s e = Ret (ubyte s va) s e.
Proof.
  intros Hm Hva. destruct (Hm va Hva) as [a Ha]. unfold uload, ubyte. rewrite bind_gets. by rewrite Ha.
Qed.

(** The int at a mapped user address. *)
Definition uint_at (s : kstate) (va : Z) : Z :=
  s32 (le_val [ubyte s va; ubyte s (va + 1); ubyte s (va + 2); ubyte s (va + 3)]).

Lemma uload32_run s e lo hi va :
  mapped s lo hi → lo ≤ va → va + 4 ≤ hi →
  uload32 va s e = Ret (le_val [ubyte s va; ubyte s (va + 1); ubyte s (va + 2); ubyte s (va + 3)]) s e.
Proof.
  intros Hm H1 H2. unfold uload32.
  by do 4 mcall (uload_run s e lo hi).
Qed.

(** [fetchint] on a process whose memory [0, sz) is mapped. *)
Lemma fetchint_run s e i p addr :
  running s i p → p.(p_sz) < KERNBASE → mapped s 0 p.(p_sz) → is_u32 addr →
  fetchint addr s e =
    Ret (if decide (addr + 4 ≤ p.(p_sz)) then Some (uint_at s addr) else None) s e.
Proof.
  intros Hr Hsz Hm Ha. unfold fetchint, is_u32, KERNBASE in *.
  mstep (curproc_run s i p e Hr).
  mstep (getp_run s i p e (proj2 Hr)).
  destruct (p_sz p <=? addr) eqn:E1; bool_facts; simpl.
  { rewrite decide_False by lia. done. }
  rewrite u32_id by (unfold is_u32; lia).
  destruct (p_sz p <? addr + 4) eqn:E2; bool_facts; simpl.
  { rewrite decide_False by lia. done. }
  rewrite decide_True by lia.
  by mstep (uload32_run s e 0 (p_sz p) addr Hm ltac:(lia) ltac:(lia)).
Qed.

(** The [n]-th argument word of a system call, when it lies in the process. *)
Definition arg_at (s : kstate) (p : proc) (n : Z) : option Z :=
  let a := u32 (p.(p_tf).(tf_esp) + 4 + 4 * n) in
  if decide (a + 4 ≤ p.(p_sz)) then Some (uint_at s a) else None.

Lemma argint_run s e i p n :
  running s i p → p.(p_sz) < KERNBASE → mapped s 0 p.(p_sz) →
  argint n s e = Ret (arg_at s p n) s e.
Proof.
  intros Hr Hsz Hm. unfold argint.
  mstep (curproc_run s i p e Hr).
  mstep (getp_run s i p e (proj2 Hr)).
  rewrite (fetchint_run s e i p) by (done || apply u32_range). done.
Qed.

(** On a process smaller than KERNBASE whose memory is mapped, [argptr]
    never faults, leaves the state alone, and every pointer it accepts points
    to [size] bytes that lie inside the process. *)
Theorem argptr_in_bounds s e i p n size :
  running s i p → p.(p_sz) < KERNBASE → mapped s 0 p.(p_sz) → is_s32 size →
  ∃ r, argptr n size s e = Ret r s e ∧
       ∀ va, r = Some va → 0 ≤ size ∧ 0 ≤ va ∧ va + size ≤ p.(p_sz) ∧
                           ∃ v, arg_at s p n = Some v ∧ va = u32 v.
Proof.
  intros Hr Hsz Hm Hsize. unfold argptr.
  mstep (argint_run s e i p n Hr Hsz Hm).
  destruct (arg_at s p n) as [v|]; [|by eexists].
  mstep (curproc_run s i p e Hr).
  mstep (getp_run s i p e (proj2 Hr)).
  destruct (_ || _ || _) eqn:E; [by eexists|]. bool_facts.
  eexists. split; [done|]. intros va [= <-].
  pose proof (u32_range v). unfold is_u32, is_s32, KERNBASE in *.
  rewrite u32_id in * by (unfold is_u32; lia). split_and!; [lia..|by eauto].
Qed.

(** ** An example process *)

(** One page of user memory at physical 0x202000, its page table at 0x201000
    and its page directory at 0x200000; the words [args] from address 4 on. *)
Definition user_mem (args : list Z) : mem :=
  store_bytes (KERNBASE + 2105348) (args ≫= le_bytes 4)
    (store32 (KERNBASE + 2101248) 2105351
      (store32 (KERNBASE + 2097152) 2101255 (λ _, 0))).

Definition user_proc : proc :=
  set_p_sz 4096 (set_p_pgdir (KERNBASE + 2097152) (set_p_kstack (KERNBASE + 2109440)
    (set_p_state RUNNING (set_p_pid 1 (set_p_nice 3 (set_p_priority 3
      (set_p_original_priority (-1) zero_proc))))))).

(** Slot 0 runs [user_proc] in a system call with these arguments. *)
Definition user_state (args : list Z) : kstate :=
  putp 0 user_proc
    (on_mem (set_m_byte (user_mem args))
      (on_cpu (λ c, set_c_proc (Some 0%nat) (set_c_cr3 2097152 c)) demo_state)).

Lemma user_running args : running (user_state args) 0 user_proc.
Proof. done. Qed.

Lemma user_mapped args : (length args ≤ 100)%nat → mapped (user_state args) 0 4096.
Proof.
  intros Hlen va Hva.
  assert (length (args ≫= le_bytes 4) = 4 * length args)%nat as Hl.
  { clear Hlen. induction args as [|a args IH]; [done|]. cbn [mbind list_bind]. rewrite length_app, IH, length_le_bytes. simpl. lia. }
  assert (∀ a, a + 4 ≤ KERNBASE + 2105348 →
            load32 (user_mem args) a =
            load32 (store32 (KERNBASE + 2101248) 2105351 (store32 (KERNBASE + 2097152) 2101255 (λ _, 0))) a) as Hld.
  { intros a Ha. apply load32_ext. intros x Hx. apply store_bytes_out. lia. }
  assert (PDX va = 0) as Hd by (rewrite PDX_eq, (Z.div_small va); [done|lia]).
  assert (PTX va = 0) as Ht by (rewrite PTX_eq, (Z.div_small va); [done|lia]).
  change (is_Some (translate (user_mem args) (P2V 2097152) va)).
  assert (load32 (user_mem args) (P2V 2097152 + 4 * PDX va) = 2101255) as H1.
  { rewrite Hd, Hld by (vm_compute; discriminate). vm_compute. reflexivity. }
  assert (load32 (user_mem args) (P2V (PTE_ADDR 2101255) + 4 * PTX va) = 2105351) as H2.
  { rewrite Ht, Hld by (vm_compute; discriminate). vm_compute. reflexivity. }
  unfold translate. rewrite H1. change (truthy (Z.land 2101255 PTE_P)) with true. cbv zeta iota.
  rewrite H2. eexists. reflexivity.
Qed.

Lemma argptr_in_bounds_witness :
  mapped (user_state [100; 50]) 0 4096 ∧
  ∃ r, argptr 0 50 (user_state [100; 50]) [] = Ret r (user_state [100; 50]) [] ∧
       ∀ va, r = Some va → va + 50 ≤ 4096.
Proof.
  assert (mapped (user_state [100; 50]) 0 4096) as Hm by (apply user_mapped; simpl; lia).
  split; [exact Hm|].
  destruct (argptr_in_bounds (user_state [100; 50]) [] 0 user_proc 0 50) as (r & Hr & Hb);
    [apply user_running|vm_compute; reflexivity|exact Hm|unfold is_s32; lia|].
  exists r. split; [exact Hr|]. intros va Hva. apply (Hb va Hva).
Defined.
