(* ===== verification/Kalloc.v ===== *)
(** * The physical page allocator (kalloc.c)

    The free list lives in the free pages themselves: the first word of a free
    page is the address of the next one.  The operations work on that memory;
    [free_list] relates it to the abstract allocator, a stack of pages. *)

From S2P Require Import Prelude KState Spinlock Mem.
#[local] Open Scope kernel_scope.

Definition lock_kmem : K unit :=
  u <- gets (λ s, s.(k_mem).(m_use_lock));;
  if truthy u then acquire Lkmem else ret tt.

Definition unlock_kmem : K unit :=
  u <- gets (λ s, s.(k_mem).(m_use_lock));;
  if truthy u then release Lkmem else ret tt.

Definition kfree (v : Z) : K unit :=
  m <- gets k_mem;;
  if truthy (v mod PGSIZE) || (v <? m.(m_end)) || (PHYSTOP <=? V2P v) then panic "kfree" else
  modify (on_mem (λ m, set_m_byte (fill v 1 PGSIZE m.(m_byte)) m));;
  lock_kmem;;
  modify (on_mem (λ m, set_m_byte (store32 v m.(m_freelist) m.(m_byte)) m));;
  modify (on_mem (set_m_freelist v));;
  unlock_kmem.

(** The page, or 0. *)
Definition kalloc : K Z :=
  lock_kmem;;
  m <- gets k_mem;;
  let r := m.(m_freelist) in
  (if truthy r then modify (on_mem (set_m_freelist (load32 m.(m_byte) r))) else ret tt);;
  unlock_kmem;;
  ret r.

(** The loop of [freerange] from page [p], [n] iterations at most. *)
Fixpoint freerange_loop (n : nat) (p vend : Z) : K unit :=
  match n with
  | O => ret tt
  | S n' => if p + PGSIZE <=? vend then kfree p;; freerange_loop n' (p + PGSIZE) vend else ret tt
  end.

Definition freerange (vstart vend : Z) : K unit :=
  let p := PGROUNDUP vstart in
  freerange_loop (S (Z.to_nat (vend - p))) p vend.

Definition kinit1 (vstart vend : Z) : K unit :=
  initlock Lkmem;;
  modify (on_mem (set_m_use_lock 0));;
  freerange vstart vend.

Definition kinit2 (vstart vend : Z) : K unit :=
  freerange vstart vend;;
  modify (on_mem (set_m_use_lock 1)).

(** ** The abstract allocator *)

(** The chain of free pages from [head] is [l]. *)
Fixpoint free_list (m : mem) (head : Z) (l : list Z) : Prop :=
  match l with
  | [] => head = 0
  | a :: l' => head = a ∧ free_list m (load32 m a) l'
  end.

(** A page of allocatable memory. *)
Definition page_ok (m : memstate) (a : Z) : Prop :=
  a mod PGSIZE = 0 ∧ m.(m_end) ≤ a ∧ a + PGSIZE ≤ KERNBASE + PHYSTOP.

(** The allocator's free pages are [l]: pages, without duplicates, chained in
    this order. *)
Definition kmem_free (m : memstate) (l : list Z) : Prop :=
  KERNBASE < m.(m_end) ∧ NoDup l ∧ Forall (page_ok m) l ∧ free_list m.(m_byte) m.(m_freelist) l.

(** The free lock and the interrupt state [kalloc] and [kfree] need. *)
Definition kmem_idle (s : kstate) : Prop :=
  cpu_wf s.(k_cpu) ∧ s.(k_spin) !! Lkmem = None.

(** The CPU after a section that took [kmem.lock]. *)
Definition kmem_cpu (s : kstate) : cpu :=
  if truthy s.(k_mem).(m_use_lock) then cpu_bracket s.(k_cpu) else s.(k_cpu).

Definition freed (v : Z) (s : kstate) : kstate :=
  set_k_cpu (kmem_cpu s)
    (on_mem (λ m, set_m_freelist v
       (set_m_byte (store32 v m.(m_freelist) (fill v 1 PGSIZE m.(m_byte))) m)) s).

Definition alloced (next : Z) (s : kstate) : kstate :=
  set_k_cpu (kmem_cpu s) (on_mem (set_m_freelist next) s).

Lemma page_ok_range m a :
  KERNBASE < m.(m_end) → page_ok m a →
  is_u32 a ∧ 0 < a ∧ V2P a = a - KERNBASE ∧ V2P a < PHYSTOP.
Proof.
  unfold page_ok, is_u32, V2P, KERNBASE, PHYSTOP, PGSIZE. intros He (_ & ? & ?).
  rewrite u32_id by (unfold is_u32; lia). split_and!; lia.
Qed.

(** Two different pages do not overlap. *)
Lemma pages_disjoint a b :
  a mod PGSIZE = 0 → b mod PGSIZE = 0 → a ≠ b → a + PGSIZE ≤ b ∨ b + PGSIZE ≤ a.
Proof. unfold PGSIZE. intros Ha Hb Hne. pose proof (Z.div_mod a 4096). pose proof (Z.div_mod b 4096). lia. Qed.

Lemma free_list_ext (m m' : mem) head l :
  (∀ a, a ∈ l → load32 m a = load32 m' a) → free_list m head l → free_list m' head l.
Proof.
  revert head. induction l as [|a l IH]; intros head H; simpl; [done|].
  intros [-> Hl]. split; [done|]. rewrite <- (H a) by set_solver.
  apply IH; [|done]. set_solver.
Qed.

Lemma kfree_run v s e :
  KERNBASE < s.(k_mem).(m_end) → kmem_idle s → page_ok s.(k_mem) v →
  kfree v s e = Ret tt (freed v s) e.
Proof.
  intros He [Hwf Hfree] Hp. destruct (page_ok_range _ _ He Hp) as (_ & _ & _ & HP).
  destruct Hp as (Hmod & Hend & _). unfold kfree, lock_kmem, unlock_kmem, kmem_cpu, freed, on_mem.
  rewrite bind_gets, Hmod. simpl truthy. simpl orb.
  destruct (v <? _) eqn:E1; bool_facts; [lia|]. destruct (PHYSTOP <=? _) eqn:E2; bool_facts; [lia|]. simpl.
  rewrite bind_modify, bind_assoc, bind_gets. simpl.
  unfold kmem_cpu. destruct (truthy _) eqn:Eu.
  - mcall (acquire_run Lkmem). rewrite !bind_modify, bind_gets. simpl. rewrite Eu.
    erewrite (release_run Lkmem s); done.
  - rewrite !bind_ret_l, !bind_modify, bind_gets. simpl. rewrite Eu. done.
Qed.

Lemma kalloc_run s e :
  kmem_idle s →
  kalloc s e = Ret s.(k_mem).(m_freelist)
    (alloced (if truthy s.(k_mem).(m_freelist)
              then load32 s.(k_mem).(m_byte) s.(k_mem).(m_freelist)
              else s.(k_mem).(m_freelist)) s) e.
Proof.
  intros [Hwf Hfree]. unfold kalloc, lock_kmem, unlock_kmem, alloced, kmem_cpu, on_mem.
  rewrite bind_assoc, bind_gets. destruct (truthy (m_use_lock _)) eqn:Eu.
  - mstep (acquire_run Lkmem s e Hfree). rewrite bind_gets. simpl.
    destruct (truthy (m_freelist _)) eqn:Ef; rewrite ?bind_modify, ?bind_ret_l, bind_assoc, bind_gets; simpl; rewrite Eu.
    + by mcall (release_run Lkmem s).
    + by mcall (release_run Lkmem s).
  - rewrite bind_ret_l, bind_gets.
    destruct (truthy (m_freelist _)) eqn:Ef; rewrite ?bind_modify, ?bind_ret_l, bind_assoc, bind_gets; simpl; rewrite Eu;
    by rewrite bind_ret_l.
Qed.

(** ** The allocator refines a stack of pages *)

(** [kfree] of a page that is not free pushes it. *)
Lemma kfree_push v l s e :
  kmem_idle s → kmem_free s.(k_mem) l → page_ok s.(k_mem) v → v ∉ l →
  kfree v s e = Ret tt (freed v s) e ∧ kmem_free (freed v s).(k_mem) (v :: l).
Proof.
  intros Hi (He & Hnd & Hok & Hl) Hv Hnin. split; [by apply kfree_run|].
  split_and!; simpl; [done|by constructor|by constructor|].
  split; [done|].
  destruct (page_ok_range _ _ He Hv) as (Hr & _).
  assert (is_u32 s.(k_mem).(m_freelist)) as Hu.
  { destruct l as [|a l']; simpl in Hl; [rewrite Hl; unfold is_u32; lia|].
    destruct Hl as [-> _]. apply Forall_cons in Hok as [Ha _]. by destruct (page_ok_range _ _ He Ha). }
  rewrite load32_store32_eq by done. revert Hl. apply free_list_ext. intros a Ha.
  rewrite Forall_forall in Hok. pose proof (Hok a Ha) as (Hma & _). destruct Hv as (Hmv & _).
  destruct (pages_disjoint a v) as [?|?]; [done..|set_solver| |]; unfold PGSIZE in *;
    rewrite load32_store32_ne by lia; by rewrite load32_fill_out by lia.
Qed.

Lemma kalloc_pop a l s e :
  kmem_idle s → kmem_free s.(k_mem) (a :: l) →
  let s' := alloced (load32 s.(k_mem).(m_byte) a) s in
  kalloc s e = Ret a s' e ∧ kmem_free s'.(k_mem) l ∧ page_ok s.(k_mem) a ∧ a ∉ l ∧ a ≠ 0.
Proof.
  intros Hi (He & Hnd & Hok & Hh & Hl) s'.
  apply NoDup_cons in Hnd as [Hnin Hnd]. apply Forall_cons in Hok as [Ha Hok].
  destruct (page_ok_range _ _ He Ha) as (_ & Hpos & _).
  assert (truthy a = true) as Ht by (unfold truthy; destruct (a =? 0) eqn:E; bool_facts; [lia|done]).
  split; [by rewrite kalloc_run, Hh, Ht|]. split_and!; [by split_and!|done|done|lia].
Qed.

Lemma kalloc_empty s e :
  kmem_idle s → kmem_free s.(k_mem) [] → kalloc s e = Ret 0 (alloced 0 s) e ∧ kmem_free (alloced 0 s).(k_mem) [].
Proof.
  intros Hi (He & Hnd & Hok & Hl). simpl in Hl. split; [|done].
  rewrite kalloc_run by done. by rewrite Hl.
Qed.

Lemma freed_idle v s : kmem_idle s → kmem_idle (freed v s).
Proof. intros [? ?]. split; [|done]. unfold freed, kmem_cpu. simpl. by destruct (truthy _). Qed.

Lemma alloced_idle v s : kmem_idle s → kmem_idle (alloced v s).
Proof. intros [? ?]. split; [|done]. unfold alloced, kmem_cpu. simpl. by destruct (truthy _). Qed.

#[export] Hint Resolve freed_idle alloced_idle : cint.

(** The abstract operations. *)
Inductive kop : Type := OpAlloc | OpFree (v : Z).

(** The abstract allocator: a stack of free pages; the result of [OpAlloc] is
    the page, or 0. *)
Definition spec_step (o : kop) (l : list Z) : Z * list Z :=
  match o, l with
  | OpAlloc, [] => (0, [])
  | OpAlloc, a :: l' => (a, l')
  | OpFree v, _ => (0, v :: l)
  end.

Definition run_op (o : kop) : K Z :=
  match o with OpAlloc => kalloc | OpFree v => kfree v;; ret 0 end.

(** A sequence of operations, each result in order. *)
Fixpoint run_ops (os : list kop) : K (list Z) :=
  match os with
  | [] => ret []
  | o :: os' => r <- run_op o;; rs <- run_ops os';; ret (r :: rs)
  end.

Fixpoint spec_ops (os : list kop) (l : list Z) : list Z * list Z :=
  match os with
  | [] => ([], l)
  | o :: os' => let '(r, l1) := spec_step o l in
                let '(rs, l2) := spec_ops os' l1 in (r :: rs, l2)
  end.

(** Clients free only pages of allocatable memory that are not free. *)
Fixpoint client_ok (m : memstate) (os : list kop) (l : list Z) : Prop :=
  match os with
  | [] => True
  | o :: os' => match o with OpFree v => page_ok m v ∧ v ∉ l | OpAlloc => True end ∧
                client_ok m os' (snd (spec_step o l))
  end.

Lemma client_ok_end m m' os l : m.(m_end) = m'.(m_end) → client_ok m os l → client_ok m' os l.
Proof.
  intros He. revert l. induction os as [|o os IH]; intros l; simpl; [done|].
  intros [Ho Hr]. split; [|by apply IH]. destruct o; [done|]. unfold page_ok in *. by rewrite <- He.
Qed.

(** C14: the free list threaded through the free pages refines the abstract
    stack: for every sequence of calls in which clients free only allocated
    pages, [kalloc] and [kfree] return exactly what the stack returns, no call
    panics or faults, and the pages on the chain are the stack's pages. *)
Theorem kalloc_refines_stack os l s e :
  kmem_idle s → kmem_free s.(k_mem) l → client_ok s.(k_mem) os l →
  ∃ s', run_ops os s e = Ret (fst (spec_ops os l)) s' e ∧
        kmem_free s'.(k_mem) (snd (spec_ops os l)).
Proof.
  revert l s. induction os as [|o os IH]; intros l s Hi Hf Hc; [by eexists|].
  cbn [run_ops spec_ops]. destruct Hc as [Ho Hc].
  assert (∃ s1, run_op o s e = Ret (fst (spec_step o l)) s1 e ∧ kmem_idle s1 ∧
                kmem_free s1.(k_mem) (snd (spec_step o l)) ∧ s1.(k_mem).(m_end) = s.(k_mem).(m_end))
    as (s1 & Hrun & Hi1 & Hf1 & He1).
  { destruct o as [|v]; simpl in *.
    - destruct l as [|a l].
      + destruct (kalloc_empty s e Hi Hf). eexists. split_and!; [done|auto with cint|done|done].
      + destruct (kalloc_pop a l s e Hi Hf) as (? & ? & _). eexists. split_and!; [done|auto with cint|done|done].
    - destruct Ho as [Hv Hnin]. destruct (kfree_push v l s e Hi Hf Hv Hnin) as [Hk ?].
      mstep Hk. eexists. split_and!; [done|auto with cint|done|done]. }
  destruct (spec_step o l) as [r l1] eqn:Es. simpl in *.
  apply (client_ok_end _ s1.(k_mem)) in Hc; [|done].
  destruct (IH l1 s1 Hi1 Hf1 Hc) as (s' & Hr & Hf').
  destruct (spec_ops os l1) as [rs l2]. simpl in *.
  exists s'. split; [|done]. mstep Hrun. by mstep Hr.
Qed.

Definition ops_demo : list kop := [OpFree (KERNBASE + 2097152); OpFree (KERNBASE + 2101248); OpAlloc; OpAlloc; OpAlloc].

Lemma kalloc_refines_stack_witness :
  kmem_idle demo_state ∧ kmem_free demo_state.(k_mem) [] ∧ client_ok demo_state.(k_mem) ops_demo [] ∧
  ∃ s', run_ops ops_demo demo_state [] = Ret [0; 0; KERNBASE + 2101248; KERNBASE + 2097152; 0] s' [] ∧
        kmem_free s'.(k_mem) [].
Proof.
  assert (kmem_idle demo_state) as H1 by (split; [vm_compute; split; done|done]).
  assert (kmem_free demo_state.(k_mem) []) as H2 by (split_and!; [done|constructor|constructor|done]).
  assert (client_ok demo_state.(k_mem) ops_demo []) as H3.
  { cbn [client_ok ops_demo spec_step snd]. rewrite elem_of_nil, list_elem_of_singleton.
    unfold page_ok. split_and!; try done; vm_compute; tauto || congruence. }
  split; [exact H1|]. split; [exact H2|]. split; [exact H3|].
  exact (kalloc_refines_stack ops_demo [] demo_state [] H1 H2 H3).
Defined.

(** ** Boot: which pages become free *)

(** The pages from [p], [n] of them. *)
Fixpoint pages_from (p : Z) (n : nat) : list Z :=
  match n with
  | O => []
  | S n' => p :: pages_from (p + PGSIZE) n'
  end.

Lemma elem_of_pages_from a p n :
  a ∈ pages_from p n ↔ ∃ i, 0 ≤ i < Z.of_nat n ∧ a = p + PGSIZE * i.
Proof.
  revert p. induction n as [|n IH]; intros p; simpl.
  - split; [set_solver|]. intros (i & ? & _). lia.
  - rewrite elem_of_cons, IH. split.
    + intros [->|(i & ? & ->)]; [exists 0; lia|]. exists (i + 1). lia.
    + intros (i & ? & ->). destruct (decide (i = 0)) as [->|]; [left; lia|]. right. exists (i - 1). lia.
Qed.

Lemma pages_from_nodup n p : NoDup (pages_from p n).
Proof.
  revert p. induction n as [|n IH]; intros p; [constructor|]. constructor; [|apply IH].
  intros (i & ? & ?)%elem_of_pages_from. unfold PGSIZE in *. lia.
Qed.

Lemma length_pages_from n p : length (pages_from p n) = n.
Proof. revert p. induction n as [|n IH]; intros p; [done|]. simpl. by rewrite IH. Qed.

Lemma freerange_loop_run k : ∀ n p vend l s e,
  (k < n)%nat → p + PGSIZE * Z.of_nat k ≤ vend < p + PGSIZE * (Z.of_nat k + 1) →
  p mod PGSIZE = 0 → s.(k_mem).(m_end) ≤ p → vend ≤ KERNBASE + PHYSTOP →
  (∀ a, a ∈ l → a < p ∨ vend ≤ a) →
  kmem_idle s → kmem_free s.(k_mem) l →
  ∃ s', freerange_loop n p vend s e = Ret tt s' e ∧ kmem_idle s' ∧
        kmem_free s'.(k_mem) (reverse (pages_from p k) ++ l) ∧
        s'.(k_mem).(m_end) = s.(k_mem).(m_end) ∧ s'.(k_mem).(m_use_lock) = s.(k_mem).(m_use_lock).
Proof.
  induction k as [|k IH]; intros n p vend l s e Hn Hv Hm He Htop Hl Hi Hf.
  - destruct n as [|n]; [lia|]. simpl. destruct (_ <=? _) eqn:E; bool_facts; [unfold PGSIZE in *; lia|].
    by eexists.
  - destruct n as [|n]; [lia|]. cbn [freerange_loop].
    destruct (p + PGSIZE <=? vend) eqn:E; bool_facts; [|unfold PGSIZE in *; lia].
    assert (page_ok s.(k_mem) p) as Hp by (split_and!; [done|done|unfold PGSIZE in *; lia]).
    assert (p ∉ l) as Hnin.
    { intros Hin. destruct (Hl p Hin); unfold PGSIZE in *; lia. }
    destruct (kfree_push p l s e Hi Hf Hp Hnin) as [Hk Hf1]. mstep Hk.
    destruct (IH n (p + PGSIZE) vend (p :: l) (freed p s) e) as (s' & Hr & Hi' & Hf' & He' & Hu');
      [lia|unfold PGSIZE in *; lia| | |done| |auto with cint|done|].
    + unfold PGSIZE in *. rewrite <- Z.add_mod_idemp_l, Hm by lia. done.
    + simpl. unfold PGSIZE. lia.
    + intros a [->|Ha]%elem_of_cons; [unfold PGSIZE; lia|]. destruct (Hl a Ha); unfold PGSIZE; lia.
    + exists s'. split; [done|]. split; [done|].
      cbn [pages_from]. by rewrite reverse_cons, <- app_assoc.
Qed.

(** after [kinit1(end, mid)] and [kinit2(mid, top)] on an empty free
    list, with [mid] page-aligned, the allocator holds exactly the pages from
    the first page boundary at or above [end] up to [top], each once. *)
Theorem kinit_free_pages s e mid top :
  cpu_wf s.(k_cpu) → s.(k_mem).(m_freelist) = 0 →
  KERNBASE < s.(k_mem).(m_end) ≤ KERNBASE + PHYSTOP →
  mid mod PGSIZE = 0 → PGROUNDUP s.(k_mem).(m_end) ≤ mid ≤ top → top mod PGSIZE = 0 →
  top ≤ KERNBASE + PHYSTOP →
  ∃ s' l, (kinit1 s.(k_mem).(m_end) mid;; kinit2 mid top) s e = Ret tt s' e ∧
          kmem_free s'.(k_mem) l ∧ s'.(k_mem).(m_use_lock) = 1 ∧
          ∀ a, a ∈ l ↔ a mod PGSIZE = 0 ∧ s.(k_mem).(m_end) ≤ a < top.
Proof.
  intros Hwf Hfl [He He'] Hmid Hlo Htop Hmax.
  destruct (PGROUNDUP_spec s.(k_mem).(m_end)) as [Hup Hupm]; [unfold KERNBASE, PHYSTOP in *; lia..|].
  set (p0 := PGROUNDUP s.(k_mem).(m_end)) in *. fold PGSIZE in Hupm.
  pose (s0 := on_mem (set_m_use_lock 0) (set_k_spin (delete Lkmem s.(k_spin)) s)).
  assert (kmem_idle s0) as Hi0 by (split; [done|apply lookup_delete_eq]).
  assert (kmem_free s0.(k_mem) []) as Hf0 by (split_and!; [done|constructor|constructor|done]).
  assert (∀ lo hi, lo mod PGSIZE = 0 → hi mod PGSIZE = 0 → lo ≤ hi →
    ∃ k, hi = lo + PGSIZE * Z.of_nat k ∧ (k < S (Z.to_nat (hi - lo)))%nat) as Hk.
  { intros lo hi Hl Hh Hle. unfold PGSIZE in *. exists (Z.to_nat ((hi - lo) / 4096)).
    pose proof (Z.div_mod lo 4096). pose proof (Z.div_mod hi 4096). pose proof (Z.div_mod (hi - lo) 4096).
    pose proof (Z.mod_pos_bound (hi - lo) 4096). assert (0 ≤ (hi - lo) / 4096) by (apply Z.div_pos; lia). lia. }
  destruct (Hk p0 mid Hupm Hmid ltac:(lia)) as (k1 & Hk1 & Hn1).
  destruct (Hk mid top Hmid Htop ltac:(lia)) as (k2 & Hk2 & Hn2).
  destruct (freerange_loop_run k1 _ p0 mid [] s0 e Hn1) as (s1 & Hr1 & Hi1 & Hf1 & He1 & Hu1);
    [unfold PGSIZE in *; lia|done|simpl; lia|lia|set_solver|done|done|].
  rewrite app_nil_r in Hf1.
  destruct (freerange_loop_run k2 _ mid top (reverse (pages_from p0 k1)) s1 e Hn2) as (s2 & Hr2 & Hi2 & Hf2 & He2 & Hu2);
    [unfold PGSIZE in *; lia|done|rewrite He1; simpl; lia|lia| |done|exact Hf1|].
  { intros a Ha%elem_of_reverse%elem_of_pages_from. destruct Ha as (i & ? & ->). unfold PGSIZE in *. lia. }
  assert (PGROUNDUP mid = mid) as Hmid'.
  { rewrite PGROUNDUP_eq, u32_id by (unfold is_u32, KERNBASE, PHYSTOP in *; lia).
    unfold PGSIZE in Hmid. clear -Hmid. Z.div_mod_to_equations. lia. }
  eexists _, _. split_and!.
  - unfold kinit1, initlock. rewrite !bind_assoc, bind_modify, bind_assoc, bind_modify.
    unfold freerange. fold p0. fold s0. mstep Hr1. unfold kinit2, freerange. rewrite Hmid'. mstep Hr2. done.
  - simpl. exact Hf2.
  - done.
  - intros a. rewrite elem_of_app, !elem_of_reverse, !elem_of_pages_from. unfold PGSIZE in *.
    pose proof (Z.div_mod a 4096) as Ha. split.
    + intros [(i & ? & ->)|(i & ? & ->)]; (split; [|lia]).
      * rewrite Z.mul_comm, Z.mod_add by lia. done.
      * rewrite Z.mul_comm, Z.mod_add by lia. done.
    + intros [Hm [Hge Hlt]].
      pose proof (Z.div_mod p0 4096). pose proof (Z.div_mod mid 4096). pose proof (Z.div_mod top 4096).
      destruct (decide (mid ≤ a)).
      * left. exists (a / 4096 - mid / 4096). lia.
      * right. exists (a / 4096 - p0 / 4096). lia.
Qed.

Lemma kinit_free_pages_witness :
  ∃ s' l, (kinit1 demo_state.(k_mem).(m_end) (KERNBASE + 4194304);;
           kinit2 (KERNBASE + 4194304) (KERNBASE + PHYSTOP)) demo_state [] = Ret tt s' [] ∧
          kmem_free s'.(k_mem) l ∧ s'.(k_mem).(m_use_lock) = 1 ∧
          ∀ a, a ∈ l ↔ a mod PGSIZE = 0 ∧ demo_state.(k_mem).(m_end) ≤ a < KERNBASE + PHYSTOP.
Proof.
  apply (kinit_free_pages demo_state [] (KERNBASE + 4194304) (KERNBASE + PHYSTOP)).
  - vm_compute. done.
  - reflexivity.
  - vm_compute. split; [reflexivity|discriminate].
  - reflexivity.
  - vm_compute. split; discriminate.
  - reflexivity.
  - vm_compute. discriminate.
Defined.
