(* ===== verification/Vm.v ===== *)
(** * Virtual memory (vm.c)

    The two-level page tables, in memory: [walkpgdir], [mappages], the kernel
    map, and the operations on the user part of an address space.  Functions
    that return a pointer or 0 return that [Z]; those that return -1 or 0
    return that [Z]. *)

From S2P Require Import Prelude KState Spinlock Print Mem Kalloc.
#[local] Open Scope kernel_scope.

Definition storeM (a v : Z) : K unit :=
  modify (on_mem (λ m, set_m_byte (store32 a v m.(m_byte)) m)).
Definition memsetM (a c n : Z) : K unit :=
  modify (on_mem (λ m, set_m_byte (fill a c n m.(m_byte)) m)).
Definition memmoveM (d src n : Z) : K unit :=
  modify (on_mem (λ m, set_m_byte (copy d src n m.(m_byte)) m)).
Definition loadM (a : Z) : K Z := gets (λ s, load32 s.(k_mem).(m_byte) a).

(** The address of the PTE of [va], or 0. *)
Definition walkpgdir (pgdir va : Z) (alloc : bool) : K Z :=
  let pde := pgdir + 4 * PDX va in
  e <- loadM pde;;
  if truthy (Z.land e PTE_P) then ret (P2V (PTE_ADDR e) + 4 * PTX va) else
  if negb alloc then ret 0 else
  pgtab <- kalloc;;
  if pgtab =? 0 then ret 0 else
  memsetM pgtab 0 PGSIZE;;
  storeM pde (Z.lor (Z.lor (Z.lor (V2P pgtab) PTE_P) PTE_W) PTE_U);;
  ret (pgtab + 4 * PTX va).

(** The loop of [mappages]: [n] bounds the iterations. *)
Fixpoint mappages_loop (n : nat) (pgdir a last pa perm : Z) : K Z :=
  match n with
  | O => fault "fuel"
  | S n' =>
      pte <- walkpgdir pgdir a true;;
      if pte =? 0 then ret (-1) else
      e <- loadM pte;;
      if truthy (Z.land e PTE_P) then panic "remap" else
      storeM pte (Z.lor (Z.lor pa perm) PTE_P);;
      if a =? last then ret 0 else
      mappages_loop n' pgdir (u32 (a + PGSIZE)) last (u32 (pa + PGSIZE)) perm
  end.

(** [a] reaches [last], both page-aligned, after (last - a) / PGSIZE steps,
    counting around the 32-bit address space. *)
Definition mappages (pgdir va size pa perm : Z) : K Z :=
  let a := PGROUNDDOWN va in
  let last := PGROUNDDOWN (u32 (va + size - 1)) in
  mappages_loop (S (Z.to_nat (u32 (last - a) / PGSIZE))) pgdir a last pa perm.

(** [kmap]: virt, phys_start, phys_end, perm. *)
Definition kmap (data : Z) : list (Z * Z * Z * Z) :=
  [(KERNBASE, 0, EXTMEM, PTE_W);
   (KERNLINK, V2P KERNLINK, V2P data, 0);
   (data, V2P data, PHYSTOP, PTE_W);
   (DEVSPACE, DEVSPACE, 0, PTE_W)].

Definition setupkvm : K Z :=
  pgdir <- kalloc;;
  if pgdir =? 0 then ret 0 else
  memsetM pgdir 0 PGSIZE;;
  if DEVSPACE <? P2V PHYSTOP then panic "PHYSTOP too high" else
  data <- gets (λ s, s.(k_mem).(m_data));;
  r <- for_ret (kmap data) (λ '(virt, ps, pe, perm),
         r <- mappages pgdir virt (u32 (pe - ps)) ps perm;;
         ret (if r <? 0 then Some 0 else None));;
  ret (default pgdir r).

(** [lcr3]. *)
Definition lcr3 (val : Z) : K unit := modify (on_cpu (set_c_cr3 val)).

Definition switchkvm : K unit := k <- gets (λ s, s.(k_mem).(m_kpgdir));; lcr3 (V2P k).

Definition kvmalloc : K unit :=
  p <- setupkvm;;
  modify (on_mem (set_m_kpgdir p));;
  switchkvm.

(** [switchuvm(p)]; [p] and the current process [cur] are given by value.  Of
    the task state only [esp0] is kept; the descriptor-table entries are
    constants. *)
Definition switchuvm (p cur : proc) : K unit :=
  pushcli;;
  modify (on_cpu (set_c_esp0 (u32 (cur.(p_kstack) + KSTACKSIZE))));;
  if p.(p_pgdir) =? 0 then panic "switchuvm: no pgdir" else
  lcr3 (V2P p.(p_pgdir));;
  popcli.

(** [init] is the initcode image. *)
Definition inituvm (pgdir : Z) (init : list Z) : K unit :=
  if PGSIZE <=? Z.of_nat (length init) then panic "inituvm: more than a page" else
  mem <- kalloc;;
  memsetM mem 0 PGSIZE;;
  mappages pgdir 0 PGSIZE (V2P mem) (Z.lor PTE_W PTE_U);;
  modify (on_mem (λ m, set_m_byte (store_bytes mem init m.(m_byte)) m)).

(** The loop of [deallocuvm] from [a]. *)
Fixpoint deallocuvm_loop (n : nat) (pgdir a oldsz : Z) : K unit :=
  match n with
  | O => fault "fuel"
  | S n' =>
      if negb (a <? oldsz) then ret tt else
      pte <- walkpgdir pgdir a false;;
      if pte =? 0 then
        deallocuvm_loop n' pgdir (u32 (a + (NPTENTRIES - 1) * PGSIZE + PGSIZE)) oldsz
      else
        e <- loadM pte;;
        (if truthy (Z.land e PTE_P) then
           let pa := PTE_ADDR e in
           if pa =? 0 then panic "kfree" else
           kfree (P2V pa);; storeM pte 0
         else ret tt);;
        deallocuvm_loop n' pgdir (u32 (a + PGSIZE)) oldsz
  end.

Definition deallocuvm (pgdir oldsz newsz : Z) : K Z :=
  if oldsz <=? newsz then ret oldsz else
  let a := PGROUNDUP newsz in
  deallocuvm_loop (Z.to_nat ((oldsz - a) / PGSIZE + 2)) pgdir a oldsz;;
  ret newsz.

(** The loop of [allocuvm] from [a]; [Some 0] on failure. *)
Fixpoint allocuvm_loop (n : nat) (pgdir a oldsz newsz : Z) : K (option Z) :=
  match n with
  | O => fault "fuel"
  | S n' =>
      if negb (a <? newsz) then ret None else
      mem <- kalloc;;
      if mem =? 0 then
        cprintf ("allocuvm out of memory" +:+ String (Ascii.ascii_of_nat 10) "") [];;
        deallocuvm pgdir newsz oldsz;;
        ret (Some 0)
      else
      memsetM mem 0 PGSIZE;;
      r <- mappages pgdir a PGSIZE (V2P mem) (Z.lor PTE_W PTE_U);;
      if r <? 0 then
        cprintf ("allocuvm out of memory (2)" +:+ String (Ascii.ascii_of_nat 10) "") [];;
        deallocuvm pgdir newsz oldsz;;
        kfree mem;;
        ret (Some 0)
      else allocuvm_loop n' pgdir (u32 (a + PGSIZE)) oldsz newsz
  end.

(** The new size, or 0. *)
Definition allocuvm (pgdir oldsz newsz : Z) : K Z :=
  if KERNBASE <=? newsz then ret 0 else
  if newsz <? oldsz then ret oldsz else
  let a := PGROUNDUP oldsz in
  r <- allocuvm_loop (Z.to_nat ((newsz - a) / PGSIZE + 2)) pgdir a oldsz newsz;;
  ret (default newsz r).

Definition freevm (pgdir : Z) : K unit :=
  if pgdir =? 0 then panic "freevm: no pgdir" else
  deallocuvm pgdir KERNBASE 0;;
  for_each (seq 0 NPDENTRIES) (λ i,
    e <- loadM (pgdir + 4 * Z.of_nat i);;
    if truthy (Z.land e PTE_P) then kfree (P2V (PTE_ADDR e)) else ret tt);;
  kfree pgdir.

Definition clearpteu (pgdir uva : Z) : K unit :=
  pte <- walkpgdir pgdir uva false;;
  if pte =? 0 then panic "clearpteu" else
  e <- loadM pte;;
  storeM pte (Z.land e (Z.lnot PTE_U)).

(** The loop of [copyuvm] over the user pages of the parent; [false] is
    [goto bad]. *)
Fixpoint copyuvm_loop (n : nat) (pgdir d i sz : Z) : K bool :=
  match n with
  | O => fault "fuel"
  | S n' =>
      if negb (i <? sz) then ret true else
      pte <- walkpgdir pgdir i false;;
      if pte =? 0 then panic "copyuvm: pte should exist" else
      e <- loadM pte;;
      if negb (truthy (Z.land e PTE_P)) then panic "copyuvm: page not present" else
      let pa := PTE_ADDR e in
      let flags := PTE_FLAGS e in
      mem <- kalloc;;
      if mem =? 0 then ret false else
      memmoveM mem (P2V pa) PGSIZE;;
      r <- mappages d i PGSIZE (V2P mem) flags;;
      if r <? 0 then ret false else
      copyuvm_loop n' pgdir d (u32 (i + PGSIZE)) sz
  end.

Definition copyuvm (pgdir sz : Z) : K Z :=
  d <- setupkvm;;
  if d =? 0 then ret 0 else
  ok <- copyuvm_loop (Z.to_nat (sz / PGSIZE + 2)) pgdir d 0 sz;;
  if ok : bool then ret d else freevm d;; ret 0.

(** [uva2ka] dereferences the PTE address without a null check. *)
Definition uva2ka (pgdir uva : Z) : K Z :=
  pte <- walkpgdir pgdir uva false;;
  if pte =? 0 then fault "null pointer" else
  e <- loadM pte;;
  if negb (truthy (Z.land e PTE_P)) then ret 0 else
  if negb (truthy (Z.land e PTE_U)) then ret 0 else
  ret (P2V (PTE_ADDR e)).

(** The loop of [copyout]; [buf] is what is left to copy. *)
Fixpoint copyout_loop (n : nat) (pgdir va : Z) (buf : list Z) : K Z :=
  match n with
  | O => fault "fuel"
  | S n' =>
      if (length buf =? 0)%nat then ret 0 else
      let va0 := PGROUNDDOWN va in
      pa0 <- uva2ka pgdir va0;;
      if pa0 =? 0 then ret (-1) else
      let k := Z.min (PGSIZE - (va - va0)) (Z.of_nat (length buf)) in
      modify (on_mem (λ m, set_m_byte (store_bytes (pa0 + (va - va0)) (take (Z.to_nat k) buf) m.(m_byte)) m));;
      copyout_loop n' pgdir (u32 (va0 + PGSIZE)) (drop (Z.to_nat k) buf)
  end.

(** Every iteration but the last reaches a page boundary, so [length buf + 1]
    iterations are enough. *)
Definition copyout (pgdir va : Z) (buf : list Z) : K Z :=
  copyout_loop (S (length buf)) pgdir va buf.
