(* ===== verification/AddrSpace.v ===== *)
(** * Address spaces (vm.c)

    What the page-table functions of Vm.v do to an address space.  The state of
    an address space is the page table in memory as the MMU reads it: [pte] is
    the entry for an address, [tab] the page-table page of a directory entry.
    The pages of a page table, the pages it maps and the free pages of the
    allocator are kept apart, so that an update of one is invisible to the
    others. *)

From S2P Require Import Prelude KState Spinlock Print Mem Kalloc Vm.
#[local] Open Scope kernel_scope.

(** ** Words of a page table *)

Definition present (e : Z) : bool := truthy (Z.land e PTE_P).

Lemma present_mod e : present e = (e mod 2 =? 1).
Proof.
  unfold present, truthy, PTE_P. change 1 with (Z.ones 1) at 1. rewrite Z.land_ones by lia. change (2 ^ 1) with 2.
  pose proof (Z.mod_pos_bound e 2 eq_refl). destruct (e mod 2 =? 0) eqn:E, (e mod 2 =? 1) eqn:E'; bool_facts; simpl; (done || lia).
Qed.

(** The bits of a page address and of the flags do not meet. *)
Lemma lor_page pa x : pa mod 4096 = 0 → 0 ≤ x < 4096 → Z.lor pa x = pa + x.
Proof.
  intros Hpa Hx. assert (Z.land pa x = 0) as Hl.
  { apply Z.bits_inj'. intros n Hn. rewrite Z.land_spec, Z.bits_0. destruct (decide (n < 12)) as [Hlt|Hge].
    - rewrite (Z.div_mod pa 4096), Hpa, Z.add_0_r, Z.mul_comm by done. change 4096 with (2 ^ 12) at 2. by rewrite Z.mul_pow2_bits_low.
    - rewrite <- (Z.mod_small x 4096 Hx). change 4096 with (2 ^ 12). rewrite Z.mod_pow2_bits_high by lia. apply andb_false_r. }
  pose proof (Z.add_lor_land pa x). lia.
Qed.

Lemma lor_small x y : 0 ≤ x < 4096 → 0 ≤ y < 4096 → 0 ≤ Z.lor x y < 4096.
Proof.
  intros Hx Hy. split; [apply Z.lor_nonneg; lia|]. change 4096 with (2 ^ 12).
  destruct (decide (Z.lor x y = 0)) as [->|Hne]; [done|]. apply Z.log2_lt_pow2; [pose proof (proj2 (Z.lor_nonneg x y)); lia|].
  rewrite Z.log2_lor by lia. apply Z.max_lub_lt.
  - destruct (decide (x = 0)) as [->|]; [done|]. apply Z.log2_lt_pow2; [lia|]. apply Hx.
  - destruct (decide (y = 0)) as [->|]; [done|]. apply Z.log2_lt_pow2; [lia|]. apply Hy.
Qed.

(** The entry [mappages] stores. *)
Definition mkpte (pa perm : Z) : Z := Z.lor (Z.lor pa perm) PTE_P.

Lemma mkpte_spec pa perm :
  pa mod 4096 = 0 → 0 ≤ pa < 4294967296 → 0 ≤ perm < 4096 →
  present (mkpte pa perm) = true ∧ PTE_ADDR (mkpte pa perm) = pa ∧ PTE_FLAGS (mkpte pa perm) = Z.lor perm PTE_P ∧ is_u32 (mkpte pa perm).
Proof.
  intros Hpa Hr Hp. pose proof (lor_small perm PTE_P Hp ltac:(done)) as Hl.
  assert (mkpte pa perm = pa + Z.lor perm PTE_P) as E by (unfold mkpte; rewrite <- Z.lor_assoc; by apply lor_page).
  assert (PTE_FLAGS (mkpte pa perm) = Z.lor perm PTE_P) as Hf.
  { rewrite PTE_FLAGS_eq, E, <- Z.add_mod_idemp_l, Hpa by done. by apply Z.mod_small. }
  split; [|split; [|split; [done|]]].
  - unfold present, mkpte, PTE_P. rewrite Z.land_lor_distr_l. unfold truthy. destruct (Z.lor _ _ =? 0) eqn:E0; [|done]. bool_facts.
    apply Z.lor_eq_0_iff in E0 as [_ E0]. done.
  - rewrite PTE_ADDR_eq, E. pose proof (Z.div_mod (pa + Z.lor perm PTE_P) 4096 ltac:(done)) as Hd.
    rewrite <- (Z.add_mod_idemp_l pa), Hpa in Hd by done. rewrite (Z.mod_small (0 + _)) in Hd by lia. lia.
  - unfold is_u32. rewrite E. pose proof (Z.div_mod pa 4096 ltac:(done)). lia.
Qed.

(** The directory entry [walkpgdir] stores. *)
Lemma pde_spec t :
  t mod 4096 = 0 → KERNBASE ≤ t < 4294967296 →
  let e := Z.lor (Z.lor (Z.lor (V2P t) PTE_P) PTE_W) PTE_U in
  present e = true ∧ P2V (PTE_ADDR e) = t ∧ is_u32 e.
Proof.
  intros Ht Hr e. assert (V2P t = t - KERNBASE) as Hv by (unfold V2P, KERNBASE in *; rewrite u32_id; (done || unfold is_u32; lia)).
  assert (V2P t mod 4096 = 0) as Hm by (rewrite Hv, Zminus_mod, Ht; done).
  assert (e = mkpte (V2P t) 6) as -> by (unfold e, mkpte; rewrite <- !Z.lor_assoc; done).
  destruct (mkpte_spec (V2P t) 6 Hm) as (H1 & H2 & _ & H3); [unfold KERNBASE in *; lia|lia|].
  split; [done|]. split; [|done]. rewrite H2, Hv. unfold P2V. rewrite u32_id; [lia|]. unfold is_u32, KERNBASE in *. lia.
Qed.

(** ** The page table as the MMU reads it *)

(** The page-table page of directory entry [i], and the entry for [va], 0 where there is no such page. *)
Definition tab (m : mem) (pd i : Z) : option Z :=
  let e := load32 m (pd + 4 * i) in if present e then Some (P2V (PTE_ADDR e)) else None.

Definition pte (m : mem) (pd va : Z) : Z :=
  match tab m pd (PDX va) with Some t => load32 m (t + 4 * PTX va) | None => 0 end.

Lemma translate_pte m pd va :
  translate m pd va = if present (pte m pd va) then Some (P2V (PTE_ADDR (pte m pd va)) + va mod PGSIZE) else None.
Proof. unfold translate, pte, tab, present. by destruct (truthy _). Qed.

Lemma PDX_range va : 0 ≤ PDX va < 1024.
Proof. rewrite PDX_eq. by apply Z.mod_pos_bound. Qed.

Lemma PTX_range va : 0 ≤ PTX va < 1024.
Proof. rewrite PTX_eq. by apply Z.mod_pos_bound. Qed.

Lemma PDX_mono va va' : 0 ≤ va ≤ va' → va' < 4294967296 → PDX va ≤ PDX va'.
Proof.
  intros H H'. rewrite !PDX_eq, !Z.mod_small by (split; [apply Z.div_pos; lia|apply Z.div_lt_upper_bound; lia]). apply Z.div_le_mono; lia.
Qed.

(** Two addresses with the same entry are in the same page. *)
Lemma same_entry va va' :
  is_u32 va → is_u32 va' → PDX va = PDX va' → PTX va = PTX va' → va / 4096 = va' / 4096.
Proof.
  unfold is_u32. rewrite !PDX_eq, !PTX_eq. intros H H'. rewrite !(Z.mod_small (_ / 4194304)) by (split; [apply Z.div_pos; lia|apply Z.div_lt_upper_bound; lia]).
  change 4194304 with (4096 * 1024). rewrite <- !Z.div_div by lia. intros E1 E2.
  rewrite (Z.div_mod (va / 4096) 1024), (Z.div_mod (va' / 4096) 1024) by done. lia.
Qed.

(** ** The pages of a page table *)

Definition in_page (p x : Z) : Prop := p ≤ x < p + PGSIZE.

(** The directory or one of its tables. *)
Definition pt_page (m : mem) (pd p : Z) : Prop := p = pd ∨ ∃ i, 0 ≤ i < 1024 ∧ tab m pd i = Some p.

(** The pages of the table under [pd] are pages of allocatable memory, different from each other and from the free
    pages [free]. *)
Record tables (m : memstate) (pd : Z) (free : list Z) : Prop := {
  tb_page : ∀ p, pt_page m.(m_byte) pd p → page_ok m p ∧ p ∉ free;
  tb_tab : ∀ i t, 0 ≤ i < 1024 → tab m.(m_byte) pd i = Some t → t ≠ pd;
  tb_inj : ∀ i j t, 0 ≤ i < 1024 → 0 ≤ j < 1024 → tab m.(m_byte) pd i = Some t → tab m.(m_byte) pd j = Some t → i = j
}.

(** A page of the table or a free page: where the page-table functions write. *)
Definition pt_area (m : mem) (pd : Z) (free : list Z) (x : Z) : Prop := ∃ p, (pt_page m pd p ∨ p ∈ free) ∧ in_page p x.

(** Only memory, the free list, the interrupt flag saved by the CPU and the console output differ. *)
Definition vm_same (s s' : kstate) : Prop :=
  (∃ b f c io, s' = set_k_io io (set_k_cpu c (on_mem (λ m, set_m_freelist f (set_m_byte b m)) s))) ∧
  (s'.(k_cpu) = s.(k_cpu) ∨ s'.(k_cpu) = cpu_bracket s.(k_cpu)) ∧ ∃ cs, s'.(k_io) = puts cs s.(k_io).

Lemma vm_same_intro b f c s :
  c = s.(k_cpu) ∨ c = cpu_bracket s.(k_cpu) → vm_same s (set_k_cpu c (on_mem (λ m, set_m_freelist f (set_m_byte b m)) s)).
Proof. intros Hc. split; [exists b, f, c, s.(k_io); by destruct s as [? ? ? ? [] ? ? ?]|]. split; [exact Hc|by exists []]. Qed.

Lemma vm_same_refl s : vm_same s s.
Proof.
  replace s with (set_k_cpu s.(k_cpu) (on_mem (λ m, set_m_freelist m.(m_freelist) (set_m_byte m.(m_byte) m)) s)) at 2 by (by destruct s as [? ? ? ? [] ? ? ?]).
  apply (vm_same_intro s.(k_mem).(m_byte) s.(k_mem).(m_freelist)). by left.
Qed.

Lemma vm_same_trans s s' s'' : vm_same s s' → vm_same s' s'' → vm_same s s''.
Proof.
  intros [(b & f & c & io & ->) [Hc [cs Hio]]] [(b' & f' & c' & io' & ->) [Hc' [cs' Hio']]]. split; [by exists b', f', c', io'|]. simpl in *. split.
  - destruct Hc as [->| ->], Hc' as [->| ->]; auto. right. apply cpu_bracket_idemp.
  - exists (cs ++ cs'). rewrite Hio', Hio. unfold puts. by rewrite foldl_app.
Qed.

Lemma vm_same_bytes b s : vm_same s (on_mem (set_m_byte b) s).
Proof.
  replace (on_mem (set_m_byte b) s) with (set_k_cpu s.(k_cpu) (on_mem (λ m, set_m_freelist m.(m_freelist) (set_m_byte b m)) s)) by (by destruct s as [? ? ? ? [] ? ? ?]).
  apply (vm_same_intro b s.(k_mem).(m_freelist)). by left.
Qed.

Lemma kmem_cpu_same s : kmem_cpu s = s.(k_cpu) ∨ kmem_cpu s = cpu_bracket s.(k_cpu).
Proof. unfold kmem_cpu. destruct (truthy _); auto. Qed.

Lemma vm_same_alloced v s : vm_same s (alloced v s).
Proof.
  replace (alloced v s) with (set_k_cpu (kmem_cpu s) (on_mem (λ m, set_m_freelist v (set_m_byte m.(m_byte) m)) s)) by (by destruct s as [? ? ? ? [] ? ? ?]).
  apply (vm_same_intro s.(k_mem).(m_byte)), kmem_cpu_same.
Qed.

Lemma vm_same_freed v s : vm_same s (freed v s).
Proof. apply (vm_same_intro (store32 v s.(k_mem).(m_freelist) (fill v 1 PGSIZE s.(k_mem).(m_byte)))), kmem_cpu_same. Qed.

Lemma vm_same_printed cs s : vm_same s (printed cs s).
Proof.
  split; [exists s.(k_mem).(m_byte), s.(k_mem).(m_freelist), (printed cs s).(k_cpu), (puts cs s.(k_io))|].
  - unfold printed. destruct s as [? ? ? ? [] ? [] ?]. simpl. by destruct (truthy _).
  - unfold printed. split; [simpl; destruct (truthy _); auto|]. by exists cs.
Qed.

Lemma vm_same_end s s' : vm_same s s' → s'.(k_mem).(m_end) = s.(k_mem).(m_end).
Proof. by intros [(b & f & c & io & ->) _]. Qed.

Lemma vm_same_data s s' : vm_same s s' → s'.(k_mem).(m_data) = s.(k_mem).(m_data).
Proof. by intros [(b & f & c & io & ->) _]. Qed.

Lemma page_ok_same s s' p : vm_same s s' → page_ok s.(k_mem) p → page_ok s'.(k_mem) p.
Proof. intros Hs. unfold page_ok. by rewrite (vm_same_end _ _ Hs). Qed.

(** ** Steps of the page-table functions *)

(** The table under [pd] may have got more pages, taken from the front of the free pages; nothing else in memory has
    changed but entries of the table. *)
Record pt_step (pd : Z) (s : kstate) (free : list Z) (s' : kstate) (free' : list Z) : Prop := {
  ps_same : vm_same s s';
  ps_idle : kmem_idle s';
  ps_free : kmem_free s'.(k_mem) free';
  ps_tables : tables s'.(k_mem) pd free';
  ps_used : ∃ used, free = used ++ free' ∧ ∀ p, pt_page s'.(k_mem).(m_byte) pd p ↔ pt_page s.(k_mem).(m_byte) pd p ∨ p ∈ used;
  ps_bytes : ∀ x, ¬ pt_area s.(k_mem).(m_byte) pd free x → s'.(k_mem).(m_byte) x = s.(k_mem).(m_byte) x
}.

Lemma pt_step_area pd s free s' free' x :
  pt_step pd s free s' free' → pt_area s'.(k_mem).(m_byte) pd free' x → pt_area s.(k_mem).(m_byte) pd free x.
Proof.
  intros [_ _ _ _ (used & -> & Hu) _] (p & Hp & Hx). exists p. split; [|done]. rewrite elem_of_app. rewrite Hu in Hp. tauto.
Qed.

Lemma pt_step_trans pd s free s' free' s'' free'' :
  pt_step pd s free s' free' → pt_step pd s' free' s'' free'' → pt_step pd s free s'' free''.
Proof.
  intros A B. pose proof (λ x, pt_step_area pd s free s' free' x A) as Harea.
  destruct A as [A1 A2 A3 A4 (u & -> & A5) A6], B as [B1 B2 B3 B4 (u' & -> & B5) B6].
  split; [by eapply vm_same_trans|done|done|done| |].
  - exists (u ++ u'). split; [by rewrite app_assoc|]. intros p. rewrite B5, A5, elem_of_app. tauto.
  - intros x Hx. rewrite B6, A6; [done|done|]. intros Hx'. by apply Hx, Harea.
Qed.

Lemma pt_step_refl pd s free : kmem_idle s → kmem_free s.(k_mem) free → tables s.(k_mem) pd free → pt_step pd s free s free.
Proof.
  intros. split; [apply vm_same_refl|done|done|done| |done]. exists []. split; [done|]. intros p. rewrite elem_of_nil. tauto.
Qed.

(** Pages do not overlap. *)
Lemma in_page_eq m p q x : page_ok m p → page_ok m q → in_page p x → in_page q x → p = q.
Proof.
  intros (Hp & _) (Hq & _) Hx Hx'. destruct (decide (p = q)) as [|Hne]; [done|]. unfold in_page in *.
  destruct (pages_disjoint p q Hp Hq Hne); lia.
Qed.

Lemma load32_frame (m m' : mem) a : (∀ x, a ≤ x < a + 4 → m' x = m x) → load32 m' a = load32 m a.
Proof. intros. by apply load32_ext. Qed.

(** Reading the table is not affected by what happens outside of its pages. *)
Lemma tab_ext (m m' : mem) pd i : (∀ x, in_page pd x → m' x = m x) → 0 ≤ i < 1024 → tab m' pd i = tab m pd i.
Proof. intros H Hi. unfold tab. rewrite (load32_frame m m'); [done|]. intros x Hx. apply H. unfold in_page, PGSIZE. lia. Qed.

Lemma pte_ext (m m' : mem) pd va : (∀ p x, pt_page m pd p → in_page p x → m' x = m x) → pte m' pd va = pte m pd va.
Proof.
  intros H. pose proof (PDX_range va) as Hi. pose proof (PTX_range va) as Hj. unfold pte.
  rewrite (tab_ext m m') by (done || (intros x Hx; apply (H pd x); [by left|done])).
  destruct (tab m pd (PDX va)) as [t|] eqn:E; [|done]. apply load32_frame. intros x Hx. apply (H t); [right; by exists (PDX va)|]. unfold in_page, PGSIZE. lia.
Qed.

Lemma page_ok_kern m free p : kmem_free m free → page_ok m p → p mod 4096 = 0 ∧ KERNBASE ≤ p ∧ p + 4096 ≤ KERNBASE + PHYSTOP.
Proof. intros [He _]. unfold page_ok, PGSIZE. intros (? & ? & ?). split; [done|]. lia. Qed.

(** Memory with a new empty table for directory entry [D] in page [a]. *)
Lemma new_table_mem (m : mem) pd a D :
  pd mod PGSIZE = 0 → a mod PGSIZE = 0 → KERNBASE ≤ a < 4294967296 → pd ≠ a → 0 ≤ D < 1024 → tab m pd D = None →
  (∀ i t, 0 ≤ i < 1024 → tab m pd i = Some t → t mod PGSIZE = 0 ∧ t ≠ a ∧ t ≠ pd) →
  let m' := store32 (pd + 4 * D) (Z.lor (Z.lor (Z.lor (V2P a) PTE_P) PTE_W) PTE_U) (fill a 0 PGSIZE m) in
  (∀ i, 0 ≤ i < 1024 → tab m' pd i = if decide (i = D) then Some a else tab m pd i) ∧
  (∀ va, pte m' pd va = pte m pd va) ∧ (∀ x, ¬ in_page pd x → ¬ in_page a x → m' x = m x).
Proof.
  intros Hpd Ha Hk Hne HD Hnone Htabs m'. set (pde := Z.lor _ _) in *. destruct (pde_spec a Ha Hk) as (P1 & P2 & P3). fold pde in P1, P2, P3.
  pose proof (pages_disjoint pd a Hpd Ha Hne) as Hdis.
  assert (∀ i, 0 ≤ i < 1024 → tab m' pd i = if decide (i = D) then Some a else tab m pd i) as H1.
  { intros i Hi. unfold tab, m'. case_decide as Hd.
    - subst i. rewrite load32_store32_eq, P1, P2 by done. done.
    - rewrite load32_store32_ne, load32_fill_out by (unfold PGSIZE in *; lia). done. }
  split; [done|]. split.
  - intros va. pose proof (PDX_range va). pose proof (PTX_range va). unfold pte. rewrite H1 by done. case_decide as Hd.
    + rewrite Hd, Hnone. unfold m'. rewrite load32_store32_ne, load32_fill0 by (unfold PGSIZE in *; lia). done.
    + destruct (tab m pd (PDX va)) as [t|] eqn:E; [|done]. destruct (Htabs (PDX va) t ltac:(done) E) as (T1 & T2 & T3).
      destruct (pages_disjoint t a T1 Ha T2), (pages_disjoint t pd T1 Hpd T3); unfold m';
        rewrite load32_store32_ne, load32_fill_out by (unfold PGSIZE in *; lia); done.
  - intros x Hx Hx'. unfold m', in_page in *. rewrite store32_out, fill_out by (unfold PGSIZE in *; lia). done.
Qed.

Section walk.
Context (pd : Z) (s : kstate) (free : list Z) (e : list (kstate → kstate)).
Hypothesis Hidle : kmem_idle s.
Hypothesis Hfree : kmem_free s.(k_mem) free.
Hypothesis Htab : tables s.(k_mem) pd free.

#[local] Notation m := (s.(k_mem).(m_byte)).

(** [walkpgdir] where there is a table, and without allocation. *)
Lemma walkpgdir_find va alloc t : tab m pd (PDX va) = Some t → walkpgdir pd va alloc s e = Ret (t + 4 * PTX va) s e.
Proof.
  unfold tab. intros Ht. unfold walkpgdir, loadM. rewrite bind_gets. fold (present (load32 m (pd + 4 * PDX va))).
  destruct (present _); [|done]. by injection Ht as <-.
Qed.

Lemma walkpgdir_none va : tab m pd (PDX va) = None → walkpgdir pd va false s e = Ret 0 s e.
Proof.
  unfold tab. intros Ht. unfold walkpgdir, loadM. rewrite bind_gets. fold (present (load32 m (pd + 4 * PDX va))). by destruct (present _).
Qed.

Lemma walkpgdir_full va : tab m pd (PDX va) = None → free = [] →
  ∃ s', walkpgdir pd va true s e = Ret 0 s' e ∧ s'.(k_mem).(m_byte) = m ∧ pt_step pd s free s' [].
Proof.
  intros Ht ->. destruct (kalloc_empty s e Hidle Hfree) as [Hk Hf']. exists (alloced 0 s). split; [|split; [done|]].
  - unfold walkpgdir, loadM. rewrite bind_gets. unfold tab in Ht. fold (present (load32 m (pd + 4 * PDX va))). destruct (present _); [done|].
    simpl. by mstep Hk.
  - split; [apply vm_same_alloced|auto with cint|done|destruct Htab; by split| |done]. exists []. split; [done|]. intros p. rewrite elem_of_nil. tauto.
Qed.

(** [walkpgdir] makes an empty table of the first free page. *)
Lemma walkpgdir_new va a free' : tab m pd (PDX va) = None → free = a :: free' →
  ∃ s', walkpgdir pd va true s e = Ret (a + 4 * PTX va) s' e ∧
    (∀ i, 0 ≤ i < 1024 → tab s'.(k_mem).(m_byte) pd i = if decide (i = PDX va) then Some a else tab m pd i) ∧
    (∀ va', pte s'.(k_mem).(m_byte) pd va' = pte m pd va') ∧ pt_step pd s free s' free'.
Proof.
  intros Ht Hfr. pose proof Hfree as Hfree0. rewrite Hfr in Hfree0.
  destruct (kalloc_pop a free' s e Hidle Hfree0) as (Hk & Hf' & Ha & Hnin & Ha0). pose proof (PDX_range va) as HD.
  set (s1 := alloced _ s) in *. pose proof (page_ok_kern _ _ a Hfree Ha) as Hak.
  destruct (tb_page _ _ _ Htab pd (or_introl eq_refl)) as [Hpd Hpdf]. rewrite Hfr in Hpdf. apply not_elem_of_cons in Hpdf as [Hpda Hpdf].
  destruct (new_table_mem m pd a (PDX va)) as (H1 & H2 & H3); [apply Hpd|apply Ha|unfold KERNBASE, PHYSTOP in *; lia|done|done|done| |].
  { intros i t Hi Hit. destruct (tb_page _ _ _ Htab t) as [Htp Htf]; [right; by exists i|]. rewrite Hfr in Htf. apply not_elem_of_cons in Htf as [? _].
    split; [apply Htp|]. split; [done|by apply (tb_tab _ _ _ Htab i)]. }
  set (m' := store32 _ _ _) in *. exists (on_mem (set_m_byte m') s1). split; [|split; [done|split; [done|]]].
  - unfold walkpgdir, loadM. rewrite bind_gets. unfold tab in Ht. fold (present (load32 m (pd + 4 * PDX va))). destruct (present _); [done|].
    change (negb true) with false. cbv iota. mstep Hk. rewrite (proj2 (Z.eqb_neq a 0) Ha0). unfold memsetM, storeM. rewrite !bind_modify. done.
  - assert (∀ p, pt_page m' pd p ↔ pt_page m pd p ∨ p ∈ [a]) as Hpages.
    { intros p. rewrite list_elem_of_singleton. unfold pt_page. split.
      - intros [->|(i & Hi & Hp)]; [by left; left|]. rewrite H1 in Hp by done. case_decide; [right; congruence|left; right; by exists i].
      - intros [[->|(i & Hi & Hp)]| ->]; [by left|right; exists i; rewrite H1 by done; rewrite decide_False by congruence; done|].
        right. exists (PDX va). rewrite H1 by done. by rewrite decide_True. }
    split.
    + eapply vm_same_trans; [apply (vm_same_alloced (load32 m a))|apply vm_same_bytes].
    + destruct (alloced_idle (load32 m a) s Hidle) as [? ?]. by split.
    + destruct Hf' as (F1 & F2 & F3 & F4). split; [done|]. split; [done|]. split; [done|]. revert F4. apply free_list_ext.
      intros q Hq. simpl. symmetry. apply load32_frame. intros x Hx. pose proof (proj1 (Forall_forall _ _) F3 q Hq) as Hqp.
      assert (in_page q x) as Hqx by (unfold in_page, PGSIZE; lia).
      apply H3; intros Hx'; [assert (q = pd)|assert (q = a)]; try (by eapply in_page_eq); by subst.
    + split; simpl.
      * intros p Hp%Hpages. rewrite list_elem_of_singleton in Hp. destruct Hp as [Hp| ->]; [|done].
        destruct (tb_page _ _ _ Htab p Hp) as [? Hpf]. rewrite Hfr in Hpf. split; [done|]. set_solver.
      * intros i t Hi. rewrite H1 by done. case_decide; [intros [= <-]; congruence|by apply (tb_tab _ _ _ Htab)].
      * assert (∀ i, 0 ≤ i < 1024 → tab m pd i ≠ Some a) as Hna.
        { intros i Hi Hit. destruct (tb_page _ _ _ Htab a) as [_ Hn]; [right; by exists i|]. rewrite Hfr in Hn. set_solver. }
        intros i j t Hi Hj. rewrite !H1 by done. repeat case_decide; [congruence|intros [= <-] ?; by destruct (Hna j)|intros ? [= <-]; by destruct (Hna i)|by apply (tb_inj _ _ _ Htab)].
    + exists [a]. split; [done|]. exact Hpages.
    + intros x Hx. apply H3; intros Hp; apply Hx; [exists pd|exists a]; (split; [|done]); [left; by left|right; rewrite Hfr; set_solver].
Qed.
End walk.

(** An entry of a table is not in the directory. *)
Lemma store_tab (m : memstate) pd free t va v i :
  tables m pd free → tab m.(m_byte) pd (PDX va) = Some t → 0 ≤ i < 1024 →
  tab (store32 (t + 4 * PTX va) v m.(m_byte)) pd i = tab m.(m_byte) pd i.
Proof.
  intros Htab Ht Hi. pose proof (PDX_range va) as HD. pose proof (PTX_range va). apply tab_ext; [|done]. intros x Hx.
  destruct (tb_page _ _ _ Htab pd (or_introl eq_refl)) as [Hpd _]. destruct (tb_page _ _ _ Htab t) as [Hto _]; [right; by exists (PDX va)|].
  apply store32_out. destruct (decide (in_page t x)) as [Hx'|Hx']; [|unfold in_page, PGSIZE in Hx'; lia].
  destruct (tb_tab _ _ _ Htab (PDX va) t HD Ht). by eapply in_page_eq.
Qed.

Lemma store_pte pd s free va t v :
  kmem_idle s → kmem_free s.(k_mem) free → tables s.(k_mem) pd free → tab s.(k_mem).(m_byte) pd (PDX va) = Some t → is_u32 v → is_u32 va →
  let s' := on_mem (set_m_byte (store32 (t + 4 * PTX va) v s.(k_mem).(m_byte))) s in
  pt_step pd s free s' free ∧
  ∀ va', is_u32 va' → pte s'.(k_mem).(m_byte) pd va' = if decide (va' / 4096 = va / 4096) then v else pte s.(k_mem).(m_byte) pd va'.
Proof.
  intros Hidle Hfree Htab Ht Hv Hva s'. pose proof (PDX_range va) as HD. pose proof (PTX_range va) as HT. set (m := s.(k_mem).(m_byte)) in *.
  assert (pt_page m pd t) as Htp by (right; by exists (PDX va)). destruct (tb_page _ _ _ Htab t Htp) as [Hto Htf].
  assert (∀ x, ¬ in_page t x → s'.(k_mem).(m_byte) x = m x) as Hout.
  { intros x Hx. apply store32_out. unfold in_page, PGSIZE in Hx. lia. }
  assert (∀ i, 0 ≤ i < 1024 → tab s'.(k_mem).(m_byte) pd i = tab m pd i) as Htabs by (intros i Hi; by eapply store_tab).
  assert (∀ p, pt_page s'.(k_mem).(m_byte) pd p ↔ pt_page m pd p) as Hpages.
  { intros p. unfold pt_page. split; (intros [->|(i & Hi & Hp)]; [by left|right; exists i; split; [done|]]); by rewrite Htabs in *. }
  split.
  - split; [apply vm_same_bytes|destruct Hidle; by split| | | |].
    + destruct Hfree as (F1 & F2 & F3 & F4). split; [done|]. split; [done|]. split; [done|]. revert F4. apply free_list_ext.
      intros q Hq. symmetry. apply load32_frame. intros x Hx. apply Hout. intros Hx'. apply Htf.
      replace t with q; [done|]. eapply in_page_eq; [exact (proj1 (Forall_forall _ _) F3 q Hq)|exact Hto| |done]. unfold in_page, PGSIZE. lia.
    + split.
      * intros p Hp%Hpages. by apply (tb_page _ _ _ Htab).
      * intros i t' Hi. rewrite Htabs by done. by apply (tb_tab _ _ _ Htab).
      * intros i j t' Hi Hj. rewrite !Htabs by done. by apply (tb_inj _ _ _ Htab).
    + exists []. split; [done|]. intros p. rewrite Hpages, elem_of_nil. tauto.
    + intros x Hx. apply Hout. intros Hx'. apply Hx. exists t. split; [by left|done].
  - intros va' Hva'. pose proof (PDX_range va') as HD'. pose proof (PTX_range va') as HT'. unfold pte. rewrite Htabs by done. case_decide as Hd.
    + assert (PDX va' = PDX va ∧ PTX va' = PTX va) as [-> ->].
      { rewrite !PDX_eq, !PTX_eq, Hd. change 4194304 with (4096 * 1024). rewrite <- !Z.div_div, Hd by lia. done. }
      rewrite Ht. by apply load32_store32_eq.
    + destruct (tab m pd (PDX va')) as [t'|] eqn:E; [|done]. apply load32_store32_ne.
      destruct (decide (t' = t)) as [->|Hne].
      * assert (PTX va' ≠ PTX va); [|lia]. intros HX. apply Hd. apply same_entry; [done|done| |done]. by apply (tb_inj _ _ _ Htab _ _ t).
      * destruct (tb_page _ _ _ Htab t') as [Hto' _]; [right; by exists (PDX va')|].
        destruct (pages_disjoint t' t (proj1 Hto') (proj1 Hto) Hne); unfold PGSIZE in *; lia.
Qed.

(** The entry for [va], from a table that is there or is made. *)
Lemma walkpgdir_alloc pd s free e va :
  kmem_idle s → kmem_free s.(k_mem) free → tables s.(k_mem) pd free →
  ∃ r s' free', walkpgdir pd va true s e = Ret r s' e ∧ pt_step pd s free s' free' ∧
    (∀ va', pte s'.(k_mem).(m_byte) pd va' = pte s.(k_mem).(m_byte) pd va') ∧
    (∀ i, 0 ≤ i < PDX va → tab s'.(k_mem).(m_byte) pd i = tab s.(k_mem).(m_byte) pd i) ∧
    (r = 0 ∧ free' = [] ∨ r ≠ 0 ∧ ∃ t, tab s'.(k_mem).(m_byte) pd (PDX va) = Some t ∧ r = t + 4 * PTX va).
Proof.
  intros Hidle Hfree Htab. pose proof (PDX_range va) as HD. pose proof (PTX_range va) as HT.
  assert (∀ t, page_ok s.(k_mem) t → t + 4 * PTX va ≠ 0) as Hnz.
  { intros t Ht. pose proof (page_ok_kern _ _ t Hfree Ht). unfold KERNBASE in *. lia. }
  destruct (tab s.(k_mem).(m_byte) pd (PDX va)) as [t|] eqn:E.
  - exists (t + 4 * PTX va), s, free. split; [by apply walkpgdir_find|]. split; [by apply pt_step_refl|]. split; [done|]. split; [done|]. right.
    split; [|by exists t]. apply Hnz. apply (tb_page _ _ _ Htab). right. by exists (PDX va).
  - destruct free as [|a free'].
    + destruct (walkpgdir_full pd s [] e Hidle Hfree Htab va E eq_refl) as (s' & Hr & Hm & Hs). exists 0, s', []. split; [done|]. split; [done|].
      split; [by rewrite Hm|]. split; [by rewrite Hm|by left].
    + destruct (walkpgdir_new pd s (a :: free') e Hidle Hfree Htab va a free' E eq_refl) as (s' & Hr & Ht & Hp & Hs).
      exists (a + 4 * PTX va), s', free'. split; [done|]. split; [done|]. split; [done|].
      split; [intros i Hi; rewrite Ht by lia; by rewrite decide_False by lia|]. right. split; [|exists a; rewrite Ht by done; by rewrite decide_True].
      apply Hnz. destruct Hfree as (_ & _ & Hok & _). by apply Forall_cons in Hok as [? _].
Qed.

(** The entries of [n] pages from [a] on, mapped to [pa] on. *)
Definition mapped_pages (m m' : mem) (pd a pa perm : Z) (n : Z) : Prop :=
  ∀ va, is_u32 va → pte m' pd va = if decide (a ≤ va < a + 4096 * n) then mkpte (pa + 4096 * ((va - a) / 4096)) perm else pte m pd va.

(** [mappages]: all the pages are mapped, or memory runs out on the way and the first [k] are. *)
Lemma mappages_loop_run n : ∀ pd s free e a pa perm,
  kmem_idle s → kmem_free s.(k_mem) free → tables s.(k_mem) pd free → (0 < n)%nat →
  a mod 4096 = 0 → pa mod 4096 = 0 → 0 ≤ a → 0 ≤ pa → 0 ≤ perm < 4096 → a + 4096 * Z.of_nat n ≤ 4294967296 → pa + 4096 * Z.of_nat n ≤ 4294967296 →
  (∀ va, a ≤ va < a + 4096 * Z.of_nat n → present (pte s.(k_mem).(m_byte) pd va) = false) →
  ∃ r k s' free', mappages_loop n pd a (a + 4096 * (Z.of_nat n - 1)) pa perm s e = Ret r s' e ∧ pt_step pd s free s' free' ∧
    mapped_pages s.(k_mem).(m_byte) s'.(k_mem).(m_byte) pd a pa perm k ∧
    (∀ i, 0 ≤ i < PDX a → tab s'.(k_mem).(m_byte) pd i = tab s.(k_mem).(m_byte) pd i) ∧
    (r = 0 ∧ k = Z.of_nat n ∨ r = -1 ∧ 0 ≤ k < Z.of_nat n ∧ free' = []).
Proof.
  induction n as [|n IH]; intros pd s free e a pa perm Hidle Hfree Htab Hn Ha Hpa Ha0 Hpa0 Hperm Htop Hptop Hnone; [lia|].
  cbn [mappages_loop]. destruct (walkpgdir_alloc pd s free e a Hidle Hfree Htab) as (r & s1 & free1 & Hr & Hs1 & Hp1 & Hlow1 & Hcase). mstep Hr.
  destruct Hcase as [[-> ->]|(Hr0 & t & Ht & ->)].
  { exists (-1), 0, s1, []. split; [done|]. split; [done|]. split; [|split; [done|right; split; [done|split; [lia|done]]]].
    intros va Hva. rewrite decide_False by lia. apply Hp1. }
  rewrite (proj2 (Z.eqb_neq _ 0) Hr0). unfold loadM. rewrite bind_gets.
  assert (load32 s1.(k_mem).(m_byte) (t + 4 * PTX a) = pte s.(k_mem).(m_byte) pd a) as Hl by (rewrite <- Hp1; unfold pte; by rewrite Ht).
  rewrite Hl. fold (present (pte s.(k_mem).(m_byte) pd a)). rewrite Hnone by lia. unfold storeM. rewrite bind_modify.
  destruct (mkpte_spec pa perm Hpa ltac:(lia) Hperm) as (M1 & M2 & M3 & M4).
  destruct (store_pte pd s1 free1 a t (mkpte pa perm)) as [Hs2 Hp2]; [apply Hs1|apply Hs1|apply Hs1|done|done|unfold is_u32; lia|].
  fold (mkpte pa perm). set (s2 := on_mem _ s1) in *. change (on_mem (λ m, set_m_byte (store32 (t + 4 * PTX a) (mkpte pa perm) m.(m_byte)) m) s1) with s2.
  assert (mapped_pages s.(k_mem).(m_byte) s2.(k_mem).(m_byte) pd a pa perm 1) as Hone.
  { intros va Hva. rewrite Hp2, Hp1 by done. pose proof (Z.div_mod va 4096 ltac:(done)). pose proof (Z.mod_pos_bound va 4096 eq_refl). pose proof (Z.div_mod a 4096 ltac:(done)).
    do 2 case_decide; try lia. f_equal. replace ((va - a) / 4096) with 0; [lia|]. symmetry. apply Z.div_small. lia. }
  assert (∀ i, 0 ≤ i < PDX a → tab s2.(k_mem).(m_byte) pd i = tab s.(k_mem).(m_byte) pd i) as Hlow.
  { intros i Hi. rewrite <- Hlow1 by done. pose proof (PDX_range a). eapply store_tab; [apply Hs1|done|lia]. }
  pose proof (pt_step_trans _ _ _ _ _ _ _ Hs1 Hs2) as Hs. destruct n as [|n].
  { replace (a + 4096 * (Z.of_nat 1 - 1)) with a by lia. rewrite Z.eqb_refl. exists 0, 1, s2, free1. do 4 (split; [done|]). by left. }
  rewrite (proj2 (Z.eqb_neq a _)) by lia. rewrite !u32_id by (unfold is_u32, PGSIZE; lia).
  destruct (IH pd s2 free1 e (a + PGSIZE) (pa + PGSIZE) perm) as (r & k & s' & free' & Hr' & Hs' & Hm' & Hl' & Hc');
    [apply Hs|apply Hs|apply Hs|lia|unfold PGSIZE; by rewrite <- Z.add_mod_idemp_l, Ha|unfold PGSIZE; by rewrite <- Z.add_mod_idemp_l, Hpa|unfold PGSIZE; lia..| |].
  { intros va Hva. unfold PGSIZE in Hva. rewrite Hone by (unfold is_u32; lia). rewrite decide_False by lia. apply Hnone. lia. }
  exists r, (k + 1), s', free'. split; [|split; [by eapply pt_step_trans|split; [|split]]].
  - rewrite <- Hr'. f_equal. unfold PGSIZE. lia.
  - assert (0 ≤ k) as Hk by (destruct Hc' as [[_ ->]|(_ & ? & _)]; lia).
    intros va Hva. rewrite Hm', Hone by done. unfold PGSIZE. repeat case_decide; try lia.
    f_equal. replace (va - a) with (va - (a + 4096) + 1 * 4096) by lia. rewrite Z.div_add by done. lia.
  - intros i Hi. rewrite Hl', Hlow; [done|done|]. pose proof (PDX_mono a (a + PGSIZE)). unfold PGSIZE in *. lia.
  - destruct Hc' as [[-> ->]|(-> & Hk & ->)]; [left|right]; (split; [done|]); [lia|]. split; [lia|done].
Qed.

(** ** Mapping *)

Lemma round_page a x : a mod 4096 = 0 → 0 ≤ x < 4096 → PGROUNDDOWN (a + x) = a.
Proof.
  intros Ha Hx. rewrite PGROUNDDOWN_eq. pose proof (Z.div_mod a 4096 ltac:(done)).
  replace ((a + x) / 4096) with (a / 4096); [lia|]. apply (Z.div_unique_pos _ _ _ x); lia.
Qed.

Lemma mappages_run pd s free e a pa perm n :
  kmem_idle s → kmem_free s.(k_mem) free → tables s.(k_mem) pd free → 0 < n →
  a mod 4096 = 0 → pa mod 4096 = 0 → 0 ≤ a → 0 ≤ pa → 0 ≤ perm < 4096 → a + 4096 * n ≤ 4294967296 → pa + 4096 * n ≤ 4294967296 →
  (∀ va, a ≤ va < a + 4096 * n → present (pte s.(k_mem).(m_byte) pd va) = false) →
  ∃ r k s' free', mappages pd a (4096 * n) pa perm s e = Ret r s' e ∧ pt_step pd s free s' free' ∧
    mapped_pages s.(k_mem).(m_byte) s'.(k_mem).(m_byte) pd a pa perm k ∧
    (∀ i, 0 ≤ i < PDX a → tab s'.(k_mem).(m_byte) pd i = tab s.(k_mem).(m_byte) pd i) ∧
    (r = 0 ∧ k = n ∨ r = -1 ∧ 0 ≤ k < n ∧ free' = []).
Proof.
  intros Hidle Hfree Htab Hn Ha Hpa Ha0 Hpa0 Hperm Htop Hptop Hnone.
  destruct (mappages_loop_run (Z.to_nat n) pd s free e a pa perm) as (r & k & s' & free' & Hr & Hs & Hm & Hc); try (done || lia).
  { intros va Hva. apply Hnone. lia. }
  exists r, k, s', free'. rewrite Z2Nat.id in Hr, Hc by lia. split; [|done]. rewrite <- Hr. unfold mappages.
  rewrite (u32_id (a + 4096 * n - 1)) by (unfold is_u32; lia). replace (PGROUNDDOWN a) with a by (rewrite <- (Z.add_0_r a) at 2; by rewrite round_page).
  replace (a + 4096 * n - 1) with (a + 4096 * (n - 1) + 4095) by lia.
  rewrite round_page by (lia || (rewrite Z.mul_comm, Z.mod_add by done; done)).
  rewrite u32_id by (unfold is_u32; lia). replace ((a + 4096 * (n - 1) - a) / PGSIZE) with (n - 1); [by replace (S (Z.to_nat (n - 1))) with (Z.to_nat n) by lia|].
  unfold PGSIZE. apply (Z.div_unique_pos _ _ _ 0); lia.
Qed.

(** Pages were taken from the front of the free pages, and only these pages were written. *)
Record takes (s : kstate) (free : list Z) (s' : kstate) (used free' : list Z) : Prop := {
  tk_same : vm_same s s';
  tk_idle : kmem_idle s';
  tk_free : kmem_free s'.(k_mem) free';
  tk_used : free = used ++ free';
  tk_bytes : ∀ x, (∀ p, p ∈ free → ¬ in_page p x) → s'.(k_mem).(m_byte) x = s.(k_mem).(m_byte) x
}.

(** [kalloc] of a page that is then written by [g]. *)
Lemma take_page (g : mem → mem) s free e a :
  kmem_idle s → kmem_free s.(k_mem) (a :: free) → (∀ m x, ¬ in_page a x → g m x = m x) →
  let s1 := alloced (load32 s.(k_mem).(m_byte) a) s in
  let s' := on_mem (λ m, set_m_byte (g m.(m_byte)) m) s1 in
  kalloc s e = Ret a s1 e ∧ takes s (a :: free) s' [a] free ∧ page_ok s.(k_mem) a ∧ a ≠ 0 ∧ a ∉ free ∧
  s'.(k_mem).(m_byte) = g s.(k_mem).(m_byte).
Proof.
  intros Hidle Hfree Hg s1 s'. destruct (kalloc_pop a free s e Hidle Hfree) as (Hk & Hf' & Ha & Hnin & Ha0). fold s1 in Hk, Hf'.
  split; [done|]. split; [|done]. split.
  - eapply vm_same_trans; [apply (vm_same_alloced (load32 s.(k_mem).(m_byte) a))|apply vm_same_bytes].
  - destruct (alloced_idle (load32 s.(k_mem).(m_byte) a) s Hidle) as [? ?]. by split.
  - destruct Hf' as (F1 & F2 & F3 & F4). split; [done|]. split; [done|]. split; [done|]. revert F4. apply free_list_ext.
    intros q Hq. symmetry. apply load32_frame. intros x Hx. apply Hg. intros Hx'. apply Hnin.
    replace a with q; [done|]. eapply in_page_eq; [exact (proj1 (Forall_forall _ _) F3 q Hq)|exact Ha| |done]. unfold in_page, PGSIZE. lia.
  - done.
  - intros x Hx. apply Hg. apply Hx. set_solver.
Qed.

Lemma zero_page s free e a :
  kmem_idle s → kmem_free s.(k_mem) (a :: free) →
  ∃ s1 s', kalloc s e = Ret a s1 e ∧ memsetM a 0 PGSIZE s1 e = Ret tt s' e ∧ takes s (a :: free) s' [a] free ∧
    page_ok s.(k_mem) a ∧ a ≠ 0 ∧ a ∉ free ∧ s'.(k_mem).(m_byte) = fill a 0 PGSIZE s.(k_mem).(m_byte).
Proof.
  intros Hidle Hfree. destruct (take_page (fill a 0 PGSIZE) s free e a Hidle Hfree) as (Hk & T).
  - intros m x Hx. apply fill_out. unfold in_page in Hx. lia.
  - eexists _, _. split; [exact Hk|]. split; [done|exact T].
Qed.

(** A page of zeros is an empty directory. *)
Lemma empty_pgdir m pd free :
  (∀ x, in_page pd x → m.(m_byte) x = 0) → page_ok m pd → pd ∉ free →
  tables m pd free ∧ (∀ p, pt_page m.(m_byte) pd p ↔ p = pd) ∧ ∀ va, pte m.(m_byte) pd va = 0.
Proof.
  intros Hz Hpd Hnin.
  assert (∀ i, 0 ≤ i < 1024 → tab m.(m_byte) pd i = None) as Hnone.
  { intros i Hi. unfold tab, load32. by rewrite !Hz by (unfold in_page, PGSIZE; lia). }
  assert (∀ p, pt_page m.(m_byte) pd p ↔ p = pd) as Hpages.
  { intros p. unfold pt_page. split; [|by left]. intros [->|(i & Hi & Hp)]; [done|]. by rewrite Hnone in Hp. }
  split; [|split; [done|]].
  - split; [by intros p ->%Hpages|intros i t Hi; by rewrite Hnone|intros i j t Hi Hj; by rewrite Hnone].
  - intros va. unfold pte. by rewrite Hnone by apply PDX_range.
Qed.

(** ** The kernel part *)

(** The entry of a kernel address in every page table; [data] is where the kernel's writable data begins. *)
Definition kernel_pte (data va : Z) : Z :=
  let p := 4096 * (va / 4096) in
  if decide (KERNBASE ≤ va < KERNLINK) then mkpte (p - KERNBASE) PTE_W
  else if decide (KERNLINK ≤ va < data) then mkpte (p - KERNBASE) 0
  else if decide (data ≤ va < KERNBASE + PHYSTOP) then mkpte (p - KERNBASE) PTE_W
  else if decide (DEVSPACE ≤ va) then mkpte p PTE_W else 0.

(** The kernel is linked with its data on a page boundary of the mapped memory. *)
Definition data_ok (data : Z) : Prop := data mod 4096 = 0 ∧ KERNLINK < data < KERNBASE + PHYSTOP.

Lemma mapped_pages_at m m' pd a pa perm n va :
  mapped_pages m m' pd a pa perm n → is_u32 va → a mod 4096 = 0 →
  pte m' pd va = if decide (a ≤ va < a + 4096 * n) then mkpte (4096 * (va / 4096) - a + pa) perm else pte m pd va.
Proof.
  intros Hm Hva Ha. rewrite Hm by done. case_decide; [|done]. f_equal. pose proof (Z.div_mod a 4096 ltac:(done)).
  replace ((va - a) / 4096) with (va / 4096 - a / 4096); [lia|].
  replace va with (va - a + a / 4096 * 4096) at 1 by lia. rewrite Z.div_add by done. lia.
Qed.

(** The entry of [va] after the ranges [ks] have been mapped, [old] where there is none. *)
Definition kmap_pte (ks : list (Z * Z * Z * Z)) (old va : Z) : Z :=
  foldr (λ '(v, ps, pe, perm) acc, if decide (v ≤ va < v + u32 (pe - ps)) then mkpte (4096 * (va / 4096) - v + ps) perm else acc) old ks.

(** The ranges are whole pages, do not meet, and are in the part [P] of the address space. *)
Fixpoint kmap_ok (P : Z → Prop) (ks : list (Z * Z * Z * Z)) : Prop :=
  match ks with
  | [] => True
  | (v, ps, pe, perm) :: ks' =>
      let size := u32 (pe - ps) in
      0 < size ∧ size mod 4096 = 0 ∧ v mod 4096 = 0 ∧ ps mod 4096 = 0 ∧ 0 ≤ v ∧ 0 ≤ ps ∧ 0 ≤ perm < 4096 ∧
      v + size ≤ 4294967296 ∧ ps + size ≤ 4294967296 ∧ (∀ va, v ≤ va < v + size → P va) ∧
      kmap_ok (λ va, P va ∧ ¬ (v ≤ va < v + size)) ks'
  end.

Lemma kmap_ok_mono (P Q : Z → Prop) ks : (∀ va, is_u32 va → P va → Q va) → kmap_ok P ks → kmap_ok Q ks.
Proof.
  revert P Q. induction ks as [|[[[v ps] pe] perm] ks IH]; intros P Q HPQ; simpl; [done|].
  intros (H1 & H2 & H3 & H4 & H5 & H6 & H7 & H8 & H9 & H10 & H11). split_and!; try done; try lia.
  - intros va Hva. apply HPQ; [unfold is_u32; lia|]. by apply H10.
  - revert H11. apply IH. intros va Hva [? ?]. split; [by apply HPQ|done].
Qed.

Lemma kmap_pte_out (P : Z → Prop) ks old va : kmap_ok P ks → ¬ P va → kmap_pte ks old va = old.
Proof.
  revert P. induction ks as [|[[[v ps] pe] perm] ks IH]; intros P; simpl; [done|].
  intros (_ & _ & _ & _ & _ & _ & _ & _ & _ & H10 & H11) Hn. rewrite decide_False by (intros Hv; by apply Hn, H10).
  apply (IH _ H11). tauto.
Qed.

Lemma kmap_run pd e ks : ∀ s free,
  kmem_idle s → kmem_free s.(k_mem) free → tables s.(k_mem) pd free →
  kmap_ok (λ va, present (pte s.(k_mem).(m_byte) pd va) = false) ks →
  ∃ r s' free', for_ret ks (λ '(virt, ps, pe, perm),
      r <- mappages pd virt (u32 (pe - ps)) ps perm;; ret (if r <? 0 then Some 0 else None)) s e = Ret r s' e ∧
    pt_step pd s free s' free' ∧ (∀ i, (∀ k, k ∈ ks → i < PDX k.1.1.1) → 0 ≤ i → tab s'.(k_mem).(m_byte) pd i = tab s.(k_mem).(m_byte) pd i) ∧
    (r = None ∧ (∀ va, is_u32 va → pte s'.(k_mem).(m_byte) pd va = kmap_pte ks (pte s.(k_mem).(m_byte) pd va) va) ∨ r = Some 0 ∧ free' = []).
Proof.
  induction ks as [|[[[v ps] pe] perm] ks IH]; intros s free Hidle Hfree Htab Hok.
  { exists None, s, free. split; [done|]. split; [by apply pt_step_refl|]. split; [done|]. by left. }
  destruct Hok as (H1 & H2 & H3 & H4 & H5 & H6 & H7 & H8 & H9 & H10 & H11). set (size := u32 (pe - ps)) in *.
  assert (size = 4096 * (size / 4096)) as Hsize by (pose proof (Z.div_mod size 4096 ltac:(done)); lia). set (n := size / 4096) in *.
  destruct (mappages_run pd s free e v ps perm n) as (r & k & s1 & free1 & Hr & Hs1 & Hm1 & Hlow1 & Hc); try (done || lia).
  { intros va Hva. apply H10. lia. }
  rewrite <- Hsize in Hr. cbn [for_ret]. fold size.
  assert ((r <- mappages pd v size ps perm;; ret (if r <? 0 then Some 0 else None)) s e = Ret (if r <? 0 then Some 0 else None) s1 e) as Hstep by (by mstep Hr).
  destruct Hc as [[-> ->]|(-> & Hk & ->)].
  - simpl in Hstep. mstep Hstep. cbn [kmap_pte foldr]. fold (kmap_pte ks).
    assert (∀ va, is_u32 va → pte s1.(k_mem).(m_byte) pd va = if decide (v ≤ va < v + size) then mkpte (4096 * (va / 4096) - v + ps) perm else pte s.(k_mem).(m_byte) pd va) as Hp1.
    { intros va Hva. rewrite (mapped_pages_at _ _ _ _ _ _ _ va Hm1 Hva H3). by rewrite <- Hsize. }
    destruct (IH s1 free1) as (r' & s' & free' & Hr' & Hs' & Hl' & Hc'); [apply Hs1|apply Hs1|apply Hs1| |].
    { revert H11. apply kmap_ok_mono. intros va Hva [Hn Hnot]. rewrite Hp1 by done. by rewrite decide_False. }
    exists r', s', free'. split; [done|]. split; [by eapply pt_step_trans|].
    split; [intros i Hi Hi0; rewrite Hl', Hlow1; [done|split; [done|]; by apply (Hi (v, ps, pe, perm)), list_elem_of_here|intros k Hk; apply Hi; by right|done]|].
    destruct Hc' as [[-> Hp']|?]; [left|by right]. split; [done|].
    intros va Hva. rewrite Hp', Hp1 by done. simpl. fold size. case_decide as Hd; [|done]. apply (kmap_pte_out _ _ _ _ H11). tauto.
  - simpl in Hstep. mstep Hstep. exists (Some 0), s1, []. split; [done|]. split; [done|].
    split; [intros i Hi Hi0; apply Hlow1; split; [done|]; by apply (Hi (v, ps, pe, perm)), list_elem_of_here|by right].
Qed.

Lemma kmap_data_ok data : data_ok data → kmap_ok (λ _, True) (kmap data).
Proof.
  intros [Hd Hr]. unfold kmap. cbn [kmap_ok].
  assert (V2P KERNLINK = EXTMEM) as -> by done. assert (V2P data = data - KERNBASE) as ->.
  { unfold V2P. apply u32_id. unfold is_u32, KERNLINK, KERNBASE, EXTMEM, PHYSTOP in *. lia. }
  change (u32 (EXTMEM - 0)) with EXTMEM. change (u32 (0 - DEVSPACE)) with 33554432.
  rewrite !u32_id by (unfold is_u32, KERNLINK, KERNBASE, EXTMEM, PHYSTOP in *; lia).
  pose proof (Z.div_mod data 4096 ltac:(done)) as Hdiv.
  assert (∀ k, (4096 * k) mod 4096 = 0) as Hmod by (intros k; rewrite Z.mul_comm; by apply Z.mod_mul).
  unfold KERNLINK, KERNBASE, EXTMEM, PHYSTOP, DEVSPACE, PTE_W in *.
  split_and!; try (done || lia || (intros; split_and!; (done || lia))).
  - rewrite <- (Hmod (data / 4096 - 524544)). f_equal. lia.
  - rewrite <- (Hmod (581632 - data / 4096)). f_equal. lia.
  - rewrite <- (Hmod (data / 4096 - 524288)). f_equal. lia.
Qed.

Lemma kmap_high data k : data_ok data → k ∈ kmap data → 512 ≤ PDX k.1.1.1.
Proof.
  intros [_ Hr]. unfold KERNLINK, KERNBASE, EXTMEM, PHYSTOP in Hr. change 512 with (PDX 2147483648).
  intros [->|[->|[->|[->|[]%elem_of_nil]%elem_of_cons]%elem_of_cons]%elem_of_cons]%elem_of_cons; cbn [fst]; apply PDX_mono; unfold KERNLINK, KERNBASE, EXTMEM, DEVSPACE in *; lia.
Qed.

Lemma kmap_kernel_pte data va : data_ok data → is_u32 va → kmap_pte (kmap data) 0 va = kernel_pte data va.
Proof.
  intros [Hd Hr] Hva. unfold kmap, kmap_pte, kernel_pte. cbn [foldr].
  assert (V2P KERNLINK = EXTMEM) as -> by done. assert (V2P data = data - KERNBASE) as ->.
  { unfold V2P. apply u32_id. unfold is_u32, KERNLINK, KERNBASE, EXTMEM, PHYSTOP in *. lia. }
  change (u32 (EXTMEM - 0)) with EXTMEM. change (u32 (0 - DEVSPACE)) with 33554432.
  rewrite !u32_id by (unfold is_u32, KERNLINK, KERNBASE, EXTMEM, PHYSTOP in *; lia).
  unfold is_u32, KERNLINK, KERNBASE, EXTMEM, PHYSTOP, DEVSPACE in *.
  repeat case_decide; try lia; f_equal; lia.
Qed.

Lemma length_omap_le {A B} (f : A → option B) l : (length (omap f l) ≤ length l)%nat.
Proof. induction l as [|x l IH]; [done|]. cbn. destruct (f x); cbn; [by apply le_n_S|by apply le_S]. Qed.

(** A page table without tables below index [lo] has at most 1025 - [lo] pages. *)
Lemma pt_pages_bound m pd l (lo : nat) : (lo ≤ 1024)%nat → NoDup l → (∀ p, p ∈ l → pt_page m pd p) → (∀ i, 0 ≤ i < Z.of_nat lo → tab m pd i = None) →
  (length l ≤ S (1024 - lo))%nat.
Proof.
  intros Hle Hnd Hl Hlo. assert (∃ ns, length ns = (1024 - lo)%nat ∧ ∀ i, Z.of_nat lo ≤ i < 1024 → Z.to_nat i ∈ ns) as (ns & Hlen & Hns).
  { exists (seq lo (1024 - lo)). split; [apply length_seq|]. intros i Hi. apply elem_of_seq. lia. }
  rewrite <- Hlen. transitivity (length (pd :: omap (λ i, tab m pd (Z.of_nat i)) ns)).
  - apply submseteq_length, NoDup_submseteq; [done|]. intros p Hp. destruct (Hl p Hp) as [->|(i & Hi & Ht)]; [by left|right].
    apply list_elem_of_omap. exists (Z.to_nat i). rewrite Z2Nat.id by lia. split; [|done]. apply Hns. destruct (decide (i < Z.of_nat lo)); [|lia].
    rewrite Hlo in Ht by lia. done.
  - cbn [length]. apply le_n_S, length_omap_le.
Qed.

(** [setupkvm] makes a page table with the kernel part and nothing else, out of free pages, or runs out of them. *)
Lemma setupkvm_run s free e :
  kmem_idle s → kmem_free s.(k_mem) free → data_ok s.(k_mem).(m_data) →
  ∃ r s' used free', setupkvm s e = Ret r s' e ∧ takes s free s' used free' ∧ (length used ≤ 513)%nat ∧
    (r = 0 ∧ free' = [] ∨
     r ≠ 0 ∧ tables s'.(k_mem) r free' ∧ (∀ p, pt_page s'.(k_mem).(m_byte) r p ↔ p ∈ used) ∧
     ∀ va, is_u32 va → pte s'.(k_mem).(m_byte) r va = kernel_pte s.(k_mem).(m_data) va).
Proof.
  intros Hidle Hfree Hdata. unfold setupkvm. destruct free as [|pd free].
  { destruct (kalloc_empty s e Hidle Hfree) as [Hk Hf']. exists 0, (alloced 0 s), [], []. split; [by mstep Hk|]. split; [|split; [apply Nat.le_0_l|by left]].
    split; [apply vm_same_alloced|auto with cint|done|done|done]. }
  destruct (zero_page s free e pd Hidle Hfree) as (s1 & s2 & Hk & Hz & T & Hpd & Hpd0 & Hnin & Hm2).
  destruct (empty_pgdir s2.(k_mem) pd free) as (Htab & Hpages & Hpte); [|by eapply page_ok_same, Hpd; apply T|done|].
  { intros x Hx. rewrite Hm2. by rewrite fill_in by exact Hx. }
  destruct (kmap_run pd e (kmap s.(k_mem).(m_data)) s2 free) as (r & s' & free' & Hr & Hs & Hlow & Hc); [apply T|apply T|done| |].
  { generalize (kmap_data_ok _ Hdata). apply kmap_ok_mono. intros va _ _. by rewrite Hpte. }
  assert (s2.(k_mem).(m_data) = s.(k_mem).(m_data)) as Hd2 by (destruct (tk_same _ _ _ _ _ T) as [(? & ? & ? & ? & ->) _]; done).
  destruct (ps_used _ _ _ _ _ Hs) as (used & -> & Hu).
  assert (takes s (pd :: used ++ free') s' (pd :: used) free') as T'.
  { split; [eapply vm_same_trans; [apply T|apply Hs]|apply Hs|apply Hs|done|]. intros x Hx. rewrite (ps_bytes _ _ _ _ _ Hs).
    - by apply (tk_bytes _ _ _ _ _ T).
    - intros (p & [Hp|Hp] & Hxp); apply (Hx p); try done; [apply Hpages in Hp as ->|]; set_solver. }
  exists (if r is Some v then v else pd), s', (pd :: used), free'. split; [|split; [done|]].
  - mstep Hk. rewrite (proj2 (Z.eqb_neq pd 0) Hpd0). mstep Hz. change (DEVSPACE <? P2V PHYSTOP) with false. cbv iota.
    rewrite bind_gets, Hd2. mstep Hr. by destruct r.
  - assert (∀ p, pt_page s'.(k_mem).(m_byte) pd p ↔ p ∈ pd :: used) as Hall by (intros p; rewrite Hu, Hpages, elem_of_cons; done).
    split.
    { apply (pt_pages_bound s'.(k_mem).(m_byte) pd _ 512); [lia| |intros p; apply Hall|].
      - destruct Hfree as (_ & Hnd & _). change (pd :: used ++ free') with ((pd :: used) ++ free') in Hnd. by apply NoDup_app in Hnd as [? _].
      - intros i Hi. rewrite Hlow; [| |lia].
        + destruct (tab s2.(k_mem).(m_byte) pd i) as [t|] eqn:Et; [|done]. destruct (tb_tab _ _ _ Htab i t); [lia|done|]. apply Hpages. right. exists i. split; [lia|done].
        + intros k Hki. apply kmap_high in Hki; [lia|done]. }
    destruct Hc as [[-> Hp]|[-> ->]]; [right|by left]. split; [done|]. split; [apply Hs|]. split.
    + done.
    + intros va Hva. rewrite Hp, Hpte by done. by apply kmap_kernel_pte.
Qed.
