(* ===== verification/UserSpace.v ===== *)
(** * The user part of an address space (vm.c)

    [allocuvm], [deallocuvm], [copyuvm] and [freevm] on the abstract user space
    of a page table: a finite map from page numbers to the page frame and the
    flags.  Growing fills the new pages with zeros and keeps the others; it is
    all or nothing.  Shrinking gives the frames back.  A copy has the same bytes
    in frames of its own. *)

From S2P Require Import Prelude KState Spinlock Print Mem Kalloc Vm AddrSpace.
#[local] Open Scope kernel_scope.

(** The number of user pages. *)
Definition UPAGES : Z := 524288.

(** Entries depend on the page only. *)
Lemma pte_page m pd va : pte m pd va = pte m pd (4096 * (va / 4096)).
Proof.
  assert (4096 * (va / 4096) / 4096 = va / 4096) as E by (rewrite Z.mul_comm; by apply Z.div_mul).
  unfold pte. rewrite !PDX_eq, !PTX_eq, E. change 4194304 with (4096 * 1024). by rewrite <- !Z.div_div, E by lia.
Qed.

(** The user part of the table under [pd] is [us]: page [k] is at the frame and with the flags [us !! k]. *)
Record uspace (s : kstate) (pd : Z) (free : list Z) (us : gmap Z (Z * Z)) : Prop := {
  us_idle : kmem_idle s;
  us_free : kmem_free s.(k_mem) free;
  us_tables : tables s.(k_mem) pd free;
  us_range : ∀ k f fl, us !! k = Some (f, fl) → 0 ≤ k < UPAGES ∧ 0 ≤ fl < 4096;
  us_frame : ∀ k f fl, us !! k = Some (f, fl) → page_ok s.(k_mem) f ∧ f ∉ free ∧ ¬ pt_page s.(k_mem).(m_byte) pd f;
  us_pte : ∀ k f fl, us !! k = Some (f, fl) → pte s.(k_mem).(m_byte) pd (4096 * k) = mkpte (V2P f) fl;
  us_none : ∀ k, 0 ≤ k < UPAGES → us !! k = None → present (pte s.(k_mem).(m_byte) pd (4096 * k)) = false;
  us_inj : ∀ k k' f fl fl', us !! k = Some (f, fl) → us !! k' = Some (f, fl') → k = k'
}.

(** The kernel part is the same. *)
Definition same_kernel (s s' : kstate) (pd : Z) : Prop :=
  ∀ va, KERNBASE ≤ va < 4294967296 → pte s'.(k_mem).(m_byte) pd va = pte s.(k_mem).(m_byte) pd va.

Lemma page_va k va : 0 ≤ k < UPAGES → 4096 * k ≤ va < 4096 * k + 4096 → is_u32 va ∧ va / 4096 = k.
Proof. unfold UPAGES, is_u32. intros. split; [lia|]. symmetry. apply (Z.div_unique_pos _ _ _ (va - 4096 * k)); lia. Qed.

Lemma frame_pa m free f : kmem_free m free → page_ok m f → V2P f = f - KERNBASE ∧ V2P f mod 4096 = 0 ∧ 0 < V2P f ∧ V2P f + 4096 ≤ PHYSTOP ∧ P2V (V2P f) = f.
Proof.
  intros Hfree Hf. pose proof (page_ok_kern _ _ _ Hfree Hf) as (Hm & Hl & Hh). destruct Hfree as [He _], Hf as (_ & Hge & _).
  assert (V2P f = f - KERNBASE) as E by (unfold V2P, KERNBASE, PHYSTOP in *; rewrite u32_id; (done || unfold is_u32; lia)).
  rewrite E. split; [done|]. split; [by rewrite Zminus_mod, Hm|]. split; [lia|]. split; [lia|].
  unfold P2V. rewrite Z.sub_add. apply u32_id. unfold is_u32, KERNBASE, PHYSTOP in *. lia.
Qed.

(** One page is mapped, or there is no memory for its table. *)
Lemma uspace_map s pd free us e k f fl :
  uspace s pd free us → us !! k = None → 0 ≤ k < UPAGES → 0 ≤ fl < 4096 →
  page_ok s.(k_mem) f → f ∉ free → ¬ pt_page s.(k_mem).(m_byte) pd f → (∀ k' fl', us !! k' ≠ Some (f, fl')) →
  ∃ r s' free', mappages pd (4096 * k) PGSIZE (V2P f) fl s e = Ret r s' e ∧ pt_step pd s free s' free' ∧ same_kernel s s' pd ∧
    (r = 0 ∧ uspace s' pd free' (<[k := (f, fl)]> us) ∨ r = -1 ∧ free' = [] ∧ uspace s' pd [] us).
Proof.
  intros [U1 U2 U3 U4 U5 U6 U7 U8] Hk Hkr Hfl Hf Hff Hfp Hfu. pose proof (frame_pa _ _ f U2 Hf) as (F1 & F2 & F3 & F4 & F5).
  unfold UPAGES in Hkr. destruct (mappages_run pd s free e (4096 * k) (V2P f) fl 1) as (r & n & s' & free' & Hr & Hs & Hm & _ & Hc); try (done || lia).
  { rewrite Z.mul_comm. by apply Z.mod_mul. }
  { unfold PHYSTOP in *. lia. }
  { intros va Hva. destruct (page_va k va) as [? Hdiv]; [done|lia|]. rewrite pte_page, Hdiv. by apply U7. }
  change (4096 * 1) with PGSIZE in Hr. exists r, s', free'. split; [done|]. split; [done|].
  destruct (ps_used _ _ _ _ _ Hs) as (used & Hused & Hpages).
  assert (∀ k' f' fl', us !! k' = Some (f', fl') → page_ok s'.(k_mem) f' ∧ f' ∉ free' ∧ ¬ pt_page s'.(k_mem).(m_byte) pd f') as Hframes.
  { intros k' f' fl' Hk'. destruct (U5 _ _ _ Hk') as (A & B & C). split; [by eapply page_ok_same, A; apply Hs|]. rewrite Hpages. set_solver. }
  assert (∀ va, is_u32 va → ¬ (0 ≤ va / 4096 < UPAGES ∧ va / 4096 = k) → pte s'.(k_mem).(m_byte) pd va = pte s.(k_mem).(m_byte) pd va) as Hold.
  { intros va Hva Hne. rewrite Hm by done. destruct Hc as [[_ ->]|(_ & ? & _)]; rewrite decide_False; [done| |done|lia].
    intros Hin. apply Hne. destruct (page_va k va) as [? ->]; [done|lia|]. done. }
  assert (∀ k', 0 ≤ k' < UPAGES → k' ≠ k → pte s'.(k_mem).(m_byte) pd (4096 * k') = pte s.(k_mem).(m_byte) pd (4096 * k')) as Hoth.
  { intros k' Hk' Hne. destruct (page_va k' (4096 * k')) as [Hu Hd]; [done|lia|]. apply Hold; [done|]. rewrite Hd. tauto. }
  split.
  { intros va Hva. apply Hold; [unfold is_u32, KERNBASE in *; lia|]. intros [Hlt _]. unfold UPAGES, KERNBASE in *.
    pose proof (Z.div_mod va 4096 ltac:(done)). pose proof (Z.mod_pos_bound va 4096 eq_refl). lia. }
  destruct Hc as [[-> ->]|(-> & Hn & ->)]; [left|right].
  - split; [done|]. split; [apply Hs|apply Hs|apply Hs| | | | |].
    + intros k' f' fl' [[-> [= -> ->]]|[Hne Hk']]%lookup_insert_Some; [done|by apply (U4 _ _ _ Hk')].
    + intros k' f' fl' [[-> [= -> ->]]|[Hne Hk']]%lookup_insert_Some; [|by apply (Hframes _ _ _ Hk')].
      split; [by eapply page_ok_same, Hf; apply Hs|]. rewrite Hpages. set_solver.
    + intros k' f' fl' [[-> [= -> ->]]|[Hne Hk']]%lookup_insert_Some.
      * destruct (page_va k' (4096 * k')) as [Hu Hd]; [done|lia|]. rewrite Hm, decide_True by (done || lia). rewrite Z.sub_diag. change (0 / 4096) with 0. by rewrite Z.mul_0_r, Z.add_0_r.
      * rewrite Hoth by (done || by apply (U4 _ _ _ Hk')). by apply (U6 _ _ _ Hk').
    + intros k' Hk' [Hn Hne]%lookup_insert_None. rewrite Hoth by done. by apply U7.
    + intros k1 k2 f' fl1 fl2 [[-> [= -> ->]]|[Hne1 H1]]%lookup_insert_Some [[-> Heq]|[Hne2 H2]]%lookup_insert_Some;
        [done|by destruct (Hfu _ _ H2)|injection Heq as -> _; by destruct (Hfu _ _ H1)|by eapply U8].
  - split; [done|]. split; [done|]. assert (n = 0) as -> by lia.
    assert (∀ va, is_u32 va → pte s'.(k_mem).(m_byte) pd va = pte s.(k_mem).(m_byte) pd va) as Hsame by (intros va Hva; rewrite Hm by done; by rewrite decide_False by lia).
    split; [apply Hs|apply Hs|apply Hs|done| | | |done].
    + intros k' f' fl' Hk'. by apply (Hframes _ _ _ Hk').
    + intros k' f' fl' Hk'. destruct (page_va k' (4096 * k')) as [Hu Hd]; [by apply (U4 _ _ _ Hk')|lia|]. rewrite Hsame by done. by apply (U6 _ _ _ Hk').
    + intros k' Hk' Hn'. destruct (page_va k' (4096 * k')) as [Hu Hd]; [done|lia|]. rewrite Hsame by done. by apply U7.
Qed.

(** A change of memory outside of the pages of the table. *)
Lemma tables_frame (m m' : memstate) pd free free' :
  tables m pd free → m'.(m_end) = m.(m_end) → (∀ p x, pt_page m.(m_byte) pd p → in_page p x → m'.(m_byte) x = m.(m_byte) x) →
  (∀ p, pt_page m.(m_byte) pd p → p ∉ free') →
  tables m' pd free' ∧ (∀ p, pt_page m'.(m_byte) pd p ↔ pt_page m.(m_byte) pd p) ∧
  (∀ i, 0 ≤ i < 1024 → tab m'.(m_byte) pd i = tab m.(m_byte) pd i) ∧ ∀ va, pte m'.(m_byte) pd va = pte m.(m_byte) pd va.
Proof.
  intros [T1 T2 T3] Hend Hx Hf.
  assert (∀ i, 0 ≤ i < 1024 → tab m'.(m_byte) pd i = tab m.(m_byte) pd i) as Ht by (intros i Hi; apply tab_ext; [intros x Hin; apply (Hx pd); [by left|done]|done]).
  assert (∀ p, pt_page m'.(m_byte) pd p ↔ pt_page m.(m_byte) pd p) as Hp.
  { intros p. unfold pt_page. split; (intros [->|(i & Hi & Hp)]; [by left|right; exists i; split; [done|]]); by rewrite Ht in *. }
  split; [|split; [done|split; [done|intros va; by apply pte_ext]]]. split.
  - intros p Hpp%Hp. destruct (T1 p Hpp) as [Hok _]. split; [|by apply Hf]. unfold page_ok in *. by rewrite Hend.
  - intros i t Hi. rewrite Ht by done. by apply T2.
  - intros i j t Hi Hj. rewrite !Ht by done. by apply T3.
Qed.

(** [kfree] of a page outside of the free pages. *)
Lemma freed_bytes f s x : ¬ in_page f x → (freed f s).(k_mem).(m_byte) x = s.(k_mem).(m_byte) x.
Proof. intros Hx. unfold in_page, PGSIZE in Hx. simpl. rewrite store32_out, fill_out by (unfold PGSIZE; lia). done. Qed.

(** The frame of page [k] is freed and its entry is cleared. *)
Lemma uspace_unmap s pd free us e k f fl :
  uspace s pd free us → us !! k = Some (f, fl) →
  ∃ t, tab s.(k_mem).(m_byte) pd (PDX (4096 * k)) = Some t ∧
    let s1 := freed f s in
    let s' := on_mem (set_m_byte (store32 (t + 4 * PTX (4096 * k)) 0 s1.(k_mem).(m_byte))) s1 in
    kfree f s e = Ret tt s1 e ∧ vm_same s s' ∧ uspace s' pd (f :: free) (delete k us) ∧ same_kernel s s' pd ∧
    (∀ p, pt_page s'.(k_mem).(m_byte) pd p ↔ pt_page s.(k_mem).(m_byte) pd p) ∧
    (∀ x, ¬ in_page f x → (∀ p, pt_page s.(k_mem).(m_byte) pd p → ¬ in_page p x) → s'.(k_mem).(m_byte) x = s.(k_mem).(m_byte) x).
Proof.
  intros [U1 U2 U3 U4 U5 U6 U7 U8] Hk. destruct (U4 _ _ _ Hk) as [Hkr Hfl]. destruct (U5 _ _ _ Hk) as (Hf & Hff & Hfp).
  destruct (page_va k (4096 * k)) as [Hu Hd]; [done|lia|]. pose proof (U6 _ _ _ Hk) as Hpte.
  destruct (frame_pa _ _ f U2 Hf) as (F1 & F2 & F3 & F4 & F5).
  destruct (mkpte_spec (V2P f) fl F2 ltac:(unfold PHYSTOP in *; lia) Hfl) as (M1 & _).
  destruct (tab s.(k_mem).(m_byte) pd (PDX (4096 * k))) as [t|] eqn:Ht.
  2: { unfold pte in Hpte. rewrite Ht in Hpte. rewrite <- Hpte in M1. done. }
  exists t. split; [done|]. intros s1 s'. destruct (kfree_push f free s e U1 U2 Hf Hff) as [Hr Hf1]. fold s1 in Hr, Hf1.
  assert (∀ p, pt_page s.(k_mem).(m_byte) pd p → p ≠ f ∧ page_ok s.(k_mem) p) as Hpf.
  { intros p Hp. split; [by intros ->|by apply (tb_page _ _ _ U3)]. }
  destruct (tables_frame s.(k_mem) s1.(k_mem) pd free (f :: free) U3) as (T1 & P1 & B1 & E1); [done| | |].
  { intros p x Hp Hx. apply freed_bytes. intros Hx'. destruct (Hpf p Hp) as [Hne Hok]. apply Hne. by eapply in_page_eq. }
  { intros p Hp. destruct (Hpf p Hp) as [Hne _]. destruct (tb_page _ _ _ U3 p Hp) as [_ ?]. set_solver. }
  destruct (store_pte pd s1 (f :: free) (4096 * k) t 0) as [Hs Hp']; [by apply freed_idle|done|done|by rewrite B1 by apply PDX_range|done|done|].
  fold s' in Hs, Hp'. destruct (ps_used _ _ _ _ _ Hs) as (used & Hused & Hpages).
  assert (used = []) as -> by (apply (f_equal length) in Hused; rewrite length_app in Hused; apply length_zero_iff_nil; lia).
  assert (∀ p, pt_page s'.(k_mem).(m_byte) pd p ↔ pt_page s.(k_mem).(m_byte) pd p) as Hpp by (intros p; rewrite Hpages, P1, elem_of_nil; tauto).
  assert (∀ va, is_u32 va → pte s'.(k_mem).(m_byte) pd va = if decide (va / 4096 = k) then 0 else pte s.(k_mem).(m_byte) pd va) as Hpte'.
  { intros va Hva. rewrite Hp', E1 by done. by rewrite Hd. }
  assert (vm_same s s') as Hsame by (eapply vm_same_trans; [apply vm_same_freed|apply Hs]).
  split; [done|]. split; [done|]. split; [|split; [|split; [done|]]].
  - split; [apply Hs|apply Hs|apply Hs| | | | |].
    + intros k' f' fl' [_ Hk']%lookup_delete_Some. by apply (U4 _ _ _ Hk').
    + intros k' f' fl' [Hne Hk']%lookup_delete_Some. destruct (U5 _ _ _ Hk') as (A & B & C). split; [by eapply page_ok_same, A|]. split; [|by rewrite Hpp].
      apply not_elem_of_cons. split; [|done]. intros ->. apply Hne. by eapply U8.
    + intros k' f' fl' [Hne Hk']%lookup_delete_Some. destruct (page_va k' (4096 * k')) as [Hu' Hd']; [by apply (U4 _ _ _ Hk')|lia|].
      rewrite Hpte', Hd', decide_False by done. by apply (U6 _ _ _ Hk').
    + intros k' Hk' Hn. destruct (page_va k' (4096 * k')) as [Hu' Hd']; [done|lia|]. rewrite Hpte', Hd' by done. case_decide as Hkk; [done|].
      apply U7; [done|]. by rewrite lookup_delete_ne in Hn.
    + intros k1 k2 f' fl1 fl2 [_ H1]%lookup_delete_Some [_ H2]%lookup_delete_Some. by eapply U8.
  - intros va Hva. rewrite Hpte', decide_False; [done| |unfold is_u32, KERNBASE in *; lia]. unfold UPAGES, KERNBASE in *.
    pose proof (Z.div_mod va 4096 ltac:(done)). pose proof (Z.mod_pos_bound va 4096 eq_refl). lia.
  - intros x Hx Hx'. simpl. rewrite store32_out; [by apply freed_bytes|].
    assert (pt_page s.(k_mem).(m_byte) pd t) as Htp by (right; exists (PDX (4096 * k)); split; [apply PDX_range|done]).
    specialize (Hx' t Htp). pose proof (PTX_range (4096 * k)). unfold in_page, PGSIZE in Hx'. lia.
Qed.

(** ** Shrinking *)

(** Pages from [j] on are given up: what is left, and where the bytes may have changed. *)
Record ushrunk (pd j : Z) (s : kstate) (free : list Z) (us : gmap Z (Z * Z)) (s' : kstate) (free' : list Z) : Prop := {
  sh_same : vm_same s s';
  sh_space : uspace s' pd free' (filter (λ kv, kv.1 < j) us);
  sh_kernel : same_kernel s s' pd;
  sh_pages : ∀ p, pt_page s'.(k_mem).(m_byte) pd p ↔ pt_page s.(k_mem).(m_byte) pd p;
  sh_free : ∀ p, p ∈ free' ↔ p ∈ free ∨ ∃ k fl, j ≤ k ∧ us !! k = Some (p, fl);
  sh_bytes : ∀ x, (∀ p, pt_page s.(k_mem).(m_byte) pd p → ¬ in_page p x) → (∀ k f fl, us !! k = Some (f, fl) → j ≤ k → ¬ in_page f x) →
    s'.(k_mem).(m_byte) x = s.(k_mem).(m_byte) x
}.

Lemma ushrunk_refl pd j s free us : uspace s pd free us → (∀ k, j ≤ k → us !! k = None) → ushrunk pd j s free us s free.
Proof.
  intros U Hn. assert (filter (λ kv, kv.1 < j) us = us) as Hf.
  { apply map_filter_id. intros k f Hk. destruct (decide (k < j)) as [|Hge]; [done|]. by rewrite Hn in Hk by lia. }
  split; [apply vm_same_refl|by rewrite Hf|done|done| |done]. intros p. split; [by left|]. intros [?|(k & fl & Hk & Hp)]; [done|]. by rewrite Hn in Hp.
Qed.

(** One more page at the front. *)
Lemma ushrunk_step pd j s free us s1 f fl s' free' :
  us !! j = Some (f, fl) → vm_same s s1 → uspace s1 pd (f :: free) (delete j us) → same_kernel s s1 pd →
  (∀ p, pt_page s1.(k_mem).(m_byte) pd p ↔ pt_page s.(k_mem).(m_byte) pd p) →
  (∀ x, ¬ in_page f x → (∀ p, pt_page s.(k_mem).(m_byte) pd p → ¬ in_page p x) → s1.(k_mem).(m_byte) x = s.(k_mem).(m_byte) x) →
  ushrunk pd (j + 1) s1 (f :: free) (delete j us) s' free' → ushrunk pd j s free us s' free'.
Proof.
  intros Hj A1 A2 A3 A4 A5 [B1 B2 B3 B4 B5 B6].
  assert (filter (λ kv, kv.1 < j + 1) (delete j us) = filter (λ kv, kv.1 < j) us) as Hf.
  { apply map_eq. intros k. apply option_eq. intros v. rewrite !map_lookup_filter_Some, lookup_delete_Some. simpl. split.
    - intros [[? ?] ?]. split; [done|lia].
    - intros [? ?]. split; [split; [lia|done]|lia]. }
  rewrite Hf in B2. split; [by eapply vm_same_trans|done| | | |].
  - intros va Hva. by rewrite B3, A3.
  - intros p. by rewrite B4, A4.
  - intros p. rewrite B5, elem_of_cons. setoid_rewrite lookup_delete_Some. split.
    + intros [[->|?]|(k & fl' & Hk & ? & Hp)]; [right; exists j, fl; split; [lia|done]|by left|right; exists k, fl'; split; [lia|done]].
    + intros [?|(k & fl' & Hk & Hp)]; [by left; right|]. destruct (decide (k = j)) as [->|Hne]; [left; left; congruence|].
      right. exists k, fl'. split; [lia|]. split; [done|done].
  - intros x Hx Hx'. rewrite B6, A5; [done| |done| |].
    + by apply (Hx' j f fl).
    + intros p Hp%A4. by apply Hx.
    + intros k f' fl' [_ Hk]%lookup_delete_Some Hge. apply (Hx' k f' fl'); [done|lia].
Qed.

Lemma deallocuvm_loop_run pd e oldsz L : ∀ n s free us j,
  uspace s pd free us → 0 ≤ j → oldsz ≤ KERNBASE → 4096 * L < oldsz + 4096 → oldsz - 4096 * j ≤ 4096 * (Z.of_nat n - 1) → (0 < n)%nat →
  (∀ k, j ≤ k → is_Some (us !! k) ↔ k < L) →
  ∃ s' free', deallocuvm_loop n pd (4096 * j) oldsz s e = Ret tt s' e ∧ ushrunk pd j s free us s' free'.
Proof.
  induction n as [|n IH]; intros s free us j U Hj Htop HL Hn Hn0 Hus; [lia|]. cbn [deallocuvm_loop].
  assert (∀ k, j ≤ k → L ≤ k → us !! k = None) as Hnone by (intros k Hk Hk'; apply eq_None_not_Some; rewrite Hus by done; lia).
  destruct (Z.ltb_spec (4096 * j) oldsz) as [Hlt|Hge].
  2: { exists s, free. split; [done|]. apply ushrunk_refl; [done|]. intros k Hk. apply Hnone; lia. }
  change (negb true) with false. cbv iota. assert (0 ≤ j < UPAGES) as Hjr by (unfold UPAGES, KERNBASE in *; lia).
  destruct (page_va j (4096 * j)) as [Hu Hd]; [done|lia|].
  destruct (decide (j < L)) as [HjL|HjL].
  - destruct (proj2 (Hus j ltac:(lia)) HjL) as [[f fl] Hf].
    destruct (uspace_unmap s pd free us e j f fl U Hf) as (t & Ht & Hkf & A1 & A2 & A3 & A4 & A5). set (s1 := on_mem _ (freed f s)) in *.
    destruct (IH s1 (f :: free) (delete j us) (j + 1) A2) as (s' & free' & Hr & Hsh); [lia|done|done|lia|lia| |].
    { intros k Hk. rewrite lookup_delete_ne by lia. apply Hus. lia. }
    exists s', free'. split; [|by eapply ushrunk_step].
    mstep (walkpgdir_find pd s e (4096 * j) false t Ht). pose proof (PTX_range (4096 * j)) as HX.
    destruct (us_frame _ _ _ _ U _ _ _ Hf) as (Hfo & _). destruct (frame_pa _ _ f (us_free _ _ _ _ U) Hfo) as (F1 & F2 & F3 & F4 & F5).
    destruct (mkpte_spec (V2P f) fl F2 ltac:(unfold PHYSTOP in *; lia) (proj2 (us_range _ _ _ _ U _ _ _ Hf))) as (M1 & M2 & _).
    pose proof (us_pte _ _ _ _ U _ _ _ Hf) as Hp. unfold pte in Hp. rewrite Ht in Hp.
    destruct (tb_page _ _ _ (us_tables _ _ _ _ U) t) as [Hto _]; [right; exists (PDX (4096 * j)); split; [apply PDX_range|done]|].
    pose proof (page_ok_kern _ _ t (us_free _ _ _ _ U) Hto). rewrite (proj2 (Z.eqb_neq _ 0)) by (unfold KERNBASE in *; lia).
    unfold loadM. rewrite bind_gets, Hp. fold (present (mkpte (V2P f) fl)). rewrite M1, M2, F5. cbv zeta. rewrite (proj2 (Z.eqb_neq _ 0)) by lia.
    rewrite bind_assoc. mstep Hkf. unfold storeM. rewrite bind_modify. replace (u32 (4096 * j + PGSIZE)) with (4096 * (j + 1)); [exact Hr|].
    unfold PGSIZE. rewrite u32_id by (unfold is_u32, KERNBASE in *; lia). lia.
  - assert (us !! j = None) as Hfj by (apply Hnone; lia). pose proof (us_none _ _ _ _ U j Hjr Hfj) as Hp.
    assert (∀ d, 0 ≤ d → filter (λ kv, kv.1 < j + d) us = filter (λ kv, kv.1 < j) us) as Hfil.
    { intros d Hd0. apply map_filter_ext. intros k v Hk. simpl. split; [|lia]. intros _. destruct (decide (k < j)); [done|]. by rewrite Hnone in Hk by lia. }
    assert (∀ d s' free', 0 ≤ d → ushrunk pd (j + d) s free us s' free' → ushrunk pd j s free us s' free') as Hskip.
    { intros d s' free' Hd0 [S1 S2 S3 S4 S5 S6]. rewrite Hfil in S2 by done. split; try done.
      - intros p. rewrite S5. split; (intros [?|(k & fl & Hk & Hkp)]; [by left|]); [right; exists k, fl; split; [lia|done]|by rewrite Hnone in Hkp by lia].
      - intros x Hx _. apply S6; [done|]. intros k f fl Hk Hge. by rewrite Hnone in Hk by lia. }
    unfold pte in Hp. destruct (tab s.(k_mem).(m_byte) pd (PDX (4096 * j))) as [t|] eqn:Ht.
    + destruct (IH s free us (j + 1) U) as (s' & free' & Hr & Hsh); [lia|done|done|lia|lia|intros k Hk; apply Hus; lia|].
      exists s', free'. split; [|by apply (Hskip 1)]. mstep (walkpgdir_find pd s e (4096 * j) false t Ht). pose proof (PTX_range (4096 * j)) as HX.
      destruct (tb_page _ _ _ (us_tables _ _ _ _ U) t) as [Hto _]; [right; exists (PDX (4096 * j)); split; [apply PDX_range|done]|].
      pose proof (page_ok_kern _ _ t (us_free _ _ _ _ U) Hto). rewrite (proj2 (Z.eqb_neq _ 0)) by (unfold KERNBASE in *; lia).
      unfold loadM. rewrite bind_gets. fold (present (load32 s.(k_mem).(m_byte) (t + 4 * PTX (4096 * j)))). rewrite Hp, bind_ret_l.
      replace (u32 (4096 * j + PGSIZE)) with (4096 * (j + 1)); [exact Hr|]. unfold PGSIZE. rewrite u32_id by (unfold is_u32, KERNBASE in *; lia). lia.
    + destruct (IH s free us (j + 1024) U) as (s' & free' & Hr & Hsh); [lia|done|done|lia|lia|intros k Hk; apply Hus; lia|].
      exists s', free'. split; [|by apply (Hskip 1024)]. mstep (walkpgdir_none pd s e (4096 * j) Ht). rewrite Z.eqb_refl.
      replace (u32 _) with (4096 * (j + 1024)); [exact Hr|]. unfold NPTENTRIES, PGSIZE. rewrite u32_id by (unfold is_u32, KERNBASE in *; lia). lia.
Qed.

(** The pages of [sz] bytes, and a user space that consists of the first [L] pages. *)
Definition pages (sz : Z) : Z := (sz + 4095) / 4096.
Definition contiguous (us : gmap Z (Z * Z)) (L : Z) : Prop := ∀ k, is_Some (us !! k) ↔ 0 ≤ k < L.

Lemma pages_spec sz : 4096 * pages sz < sz + 4096 ∧ sz ≤ 4096 * pages sz.
Proof. unfold pages. pose proof (Z.div_mod (sz + 4095) 4096 ltac:(done)). pose proof (Z.mod_pos_bound (sz + 4095) 4096 eq_refl). lia. Qed.

Lemma pages_mono a b : a ≤ b → pages a ≤ pages b.
Proof. intros. unfold pages. apply Z.div_le_mono; lia. Qed.

Lemma round_pages sz : 0 ≤ sz ≤ KERNBASE → PGROUNDUP sz = 4096 * pages sz.
Proof. intros. rewrite PGROUNDUP_eq, u32_id by (unfold is_u32, KERNBASE in *; lia). done. Qed.

Lemma deallocuvm_run pd e s free us oldsz newsz L :
  uspace s pd free us → contiguous us L → 0 ≤ newsz < oldsz → oldsz ≤ KERNBASE → L ≤ pages oldsz →
  ∃ s' free', deallocuvm pd oldsz newsz s e = Ret newsz s' e ∧ ushrunk pd (pages newsz) s free us s' free'.
Proof.
  intros U Hc Hsz Htop HL. pose proof (pages_spec oldsz). pose proof (pages_spec newsz). assert (0 ≤ pages newsz) as Hp by lia.
  destruct (deallocuvm_loop_run pd e oldsz L (Z.to_nat ((oldsz - 4096 * pages newsz) / PGSIZE + 2)) s free us (pages newsz)) as (s' & free' & Hr & Hs); try (done || lia).
  - unfold PGSIZE. pose proof (Z.div_mod (oldsz - 4096 * pages newsz) 4096 ltac:(done)). pose proof (Z.mod_pos_bound (oldsz - 4096 * pages newsz) 4096 eq_refl). lia.
  - assert (-1 ≤ (oldsz - 4096 * pages newsz) / PGSIZE) by (unfold PGSIZE; apply Z.div_le_lower_bound; lia). lia.
  - intros k Hk. rewrite (Hc k). lia.
  - exists s', free'. split; [|done]. unfold deallocuvm. rewrite (proj2 (Z.leb_gt _ _)) by lia. rewrite round_pages by lia. by mstep Hr.
Qed.

(** [kfree] of a page that no part of the space uses. *)
Lemma uspace_kfree s pd free us e f :
  uspace s pd free us → page_ok s.(k_mem) f → f ∉ free → ¬ pt_page s.(k_mem).(m_byte) pd f → (∀ k fl, us !! k ≠ Some (f, fl)) →
  kfree f s e = Ret tt (freed f s) e ∧ uspace (freed f s) pd (f :: free) us ∧ same_kernel s (freed f s) pd ∧
  ∀ p, pt_page (freed f s).(k_mem).(m_byte) pd p ↔ pt_page s.(k_mem).(m_byte) pd p.
Proof.
  intros [U1 U2 U3 U4 U5 U6 U7 U8] Hf Hff Hfp Hfu. destruct (kfree_push f free s e U1 U2 Hf Hff) as [Hr Hf1].
  destruct (tables_frame s.(k_mem) (freed f s).(k_mem) pd free (f :: free) U3) as (T1 & P1 & _ & E1); [done| | |].
  { intros p x Hp Hx. apply freed_bytes. intros Hx'. apply Hfp. replace f with p; [done|]. eapply in_page_eq; [by apply (tb_page _ _ _ U3)|exact Hf|done|done]. }
  { intros p Hp. destruct (tb_page _ _ _ U3 p Hp) as [_ Hn]. apply not_elem_of_cons. split; [by intros ->|done]. }
  split; [done|]. split; [|split; [intros va _; apply E1|done]]. split; [by apply freed_idle|done|done|done| | | |done].
  - intros k f' fl Hk. destruct (U5 _ _ _ Hk) as (A & B & C). split; [done|]. split; [|by rewrite P1].
    apply not_elem_of_cons. split; [|done]. intros ->. by apply (Hfu _ _ Hk).
  - intros k f' fl Hk. rewrite E1. by apply (U6 _ _ _ Hk).
  - intros k Hk Hn. rewrite E1. by apply U7.
Qed.

(** Page [p] belongs to the address space: to its table, or as the frame of a page. *)
Definition owns (s : kstate) (pd : Z) (us : gmap Z (Z * Z)) (p : Z) : Prop :=
  pt_page s.(k_mem).(m_byte) pd p ∨ ∃ k fl, us !! k = Some (p, fl).

Lemma owns_page s pd free us p : uspace s pd free us → owns s pd us p → page_ok s.(k_mem) p ∧ p ∉ free.
Proof.
  intros U [Hp|(k & fl & Hk)]; [by apply (tb_page _ _ _ (us_tables _ _ _ _ U))|]. by destruct (us_frame _ _ _ _ U _ _ _ Hk) as (? & ? & _).
Qed.

(** Pages go back to the allocator in the order [fs]. *)
Lemma kfree_all (fs : list Z) : ∀ s free e,
  kmem_idle s → kmem_free s.(k_mem) free → Forall (page_ok s.(k_mem)) fs → NoDup fs → (∀ p, p ∈ fs → p ∉ free) →
  ∃ s', for_each fs kfree s e = Ret tt s' e ∧ vm_same s s' ∧ kmem_idle s' ∧ kmem_free s'.(k_mem) (reverse fs ++ free) ∧
    ∀ x, (∀ p, p ∈ fs → ¬ in_page p x) → s'.(k_mem).(m_byte) x = s.(k_mem).(m_byte) x.
Proof.
  induction fs as [|p fs IH]; intros s free e Hi Hf Hok Hnd Hn; [exists s; repeat split; (done || apply vm_same_refl || apply Hi || apply Hf)|].
  apply Forall_cons in Hok as [Hp Hok]. apply NoDup_cons in Hnd as [Hpn Hnd].
  destruct (kfree_push p free s e Hi Hf Hp (Hn p (list_elem_of_here _ _))) as [Hr Hf1].
  destruct (IH (freed p s) (p :: free) e) as (s' & Hr' & Hs & Hi' & Hf' & Hb).
  - by apply freed_idle.
  - done.
  - done.
  - done.
  - intros q Hq. apply not_elem_of_cons. split; [by intros ->|]. apply Hn. by right.
  - exists s'. split; [cbn [for_each]; by mstep Hr|]. split; [eapply vm_same_trans; [apply vm_same_freed|done]|]. split; [done|].
    split; [by rewrite reverse_cons, <- app_assoc|]. intros x Hx. rewrite Hb by (intros q Hq; apply Hx; by right).
    apply freed_bytes, Hx. by left.
Qed.

(** ** Counting pages *)

(** The pages of the tables, in the order of the directory. *)
Definition table_pages (m : mem) (pd : Z) (ix : list nat) : list Z := omap (λ i, tab m pd (Z.of_nat i)) ix.

Lemma elem_of_table_pages m pd ix p :
  (∀ i, 0 ≤ i < 1024 ↔ Z.to_nat i ∈ ix ∧ 0 ≤ i) → p ∈ table_pages m pd ix ↔ ∃ i, 0 ≤ i < 1024 ∧ tab m pd i = Some p.
Proof.
  intros Hix. unfold table_pages. rewrite list_elem_of_omap. split.
  - intros (i & Hi & Ht). exists (Z.of_nat i). split; [|done]. apply Hix. rewrite Nat2Z.id. split; [done|lia].
  - intros (i & Hi & Ht). exists (Z.to_nat i). rewrite Z2Nat.id by lia. split; [|done]. by apply Hix.
Qed.

(** The indices of a directory. *)
Lemma directory_indices :
  ∃ ix, seq 0 NPDENTRIES = ix ∧ NoDup ix ∧ Forall (λ i, (i < 1024)%nat) ix ∧ ∀ i, 0 ≤ i < 1024 ↔ Z.to_nat i ∈ ix ∧ 0 ≤ i.
Proof.
  exists (seq 0 NPDENTRIES). split; [done|]. split; [apply NoDup_seq|]. unfold NPDENTRIES. split.
  - apply Forall_forall. intros i Hi%elem_of_seq. lia.
  - intros i. rewrite elem_of_seq. lia.
Qed.

(** Nothing is lost but the pages of [lost]. *)
Definition conserved (free0 : list Z) (d : Z) (s : kstate) (free : list Z) (usd : gmap Z (Z * Z)) (lost : list Z) : Prop :=
  ∀ p, p ∈ free0 → p ∈ free ∨ owns s d usd p ∨ p ∈ lost.

Lemma contiguous_size us L : contiguous us L → 0 ≤ L → size us = Z.to_nat L.
Proof.
  intros Hc HL. rewrite <- size_dom. assert (dom us = list_to_set (seqZ 0 L)) as ->.
  { apply set_eq. intros k. rewrite elem_of_dom, (Hc k), elem_of_list_to_set, elem_of_seqZ. lia. }
  rewrite size_list_to_set by apply NoDup_seqZ. by rewrite length_seqZ.
Qed.

(** Memory runs out only when it is small. *)
Lemma conserved_bound free0 d s free usd lost L :
  NoDup free0 → conserved free0 d s free usd lost → contiguous usd L → 0 ≤ L →
  Z.of_nat (length free0) ≤ Z.of_nat (length free) + L + 1025 + Z.of_nat (length lost).
Proof.
  intros Hnd Hcons Hc HL. destruct directory_indices as (ix & Hix & _ & _ & Hin).
  assert (length ix = NPDENTRIES) as Hl by (rewrite <- Hix; apply length_seq).
  pose proof (length_omap_le (λ i, tab s.(k_mem).(m_byte) d (Z.of_nat i)) ix) as Hom. fold (table_pages s.(k_mem).(m_byte) d ix) in Hom.
  assert (length free0 ≤ length ((d :: table_pages s.(k_mem).(m_byte) d ix) ++ ((map_to_list usd).*2).*1 ++ lost ++ free))%nat as Hle.
  { apply submseteq_length, NoDup_submseteq; [done|]. intros p Hp. rewrite !elem_of_app, elem_of_cons.
    destruct (Hcons p Hp) as [?|[[[->|Ht]|(k & fl & Hk)]|?]]; [by right; right; right|by left; left| | |by right; right; left].
    - left. right. by apply elem_of_table_pages.
    - right. left. apply list_elem_of_fmap. exists (p, fl). split; [done|]. apply list_elem_of_fmap. exists (k, (p, fl)). split; [done|]. by apply elem_of_map_to_list. }
  rewrite !length_app, !length_fmap, length_map_to_list, (contiguous_size _ _ Hc HL) in Hle. cbn [length] in Hle. unfold NPDENTRIES in Hl. lia.
Qed.

(** Every page that was free or belonged to the space still does, but for those of [lost]. *)
Definition kept (pd : Z) (s : kstate) (free : list Z) (us : gmap Z (Z * Z)) (s' : kstate) (free' : list Z) (us' : gmap Z (Z * Z)) (lost : list Z) : Prop :=
  ∀ p, p ∈ free ∨ owns s pd us p → p ∈ free' ∨ owns s' pd us' p ∨ p ∈ lost.

Lemma kept_trans pd s free us s1 free1 us1 s2 free2 us2 lost :
  kept pd s free us s1 free1 us1 [] → kept pd s1 free1 us1 s2 free2 us2 lost → kept pd s free us s2 free2 us2 lost.
Proof. intros K1 K2 p Hp. destruct (K1 p Hp) as [?|[?|Hno]]; [apply K2; by left|apply K2; by right|by apply elem_of_nil in Hno]. Qed.

Lemma kept_lost pd s free us s1 free1 us1 s2 free2 us2 lost :
  kept pd s free us s1 free1 us1 lost → kept pd s1 free1 us1 s2 free2 us2 [] → kept pd s free us s2 free2 us2 lost.
Proof.
  intros K1 K2 p Hp. destruct (K1 p Hp) as [?|[?|?]]; [| |tauto].
  - destruct (K2 p) as [?|[?|Hno]]; [by left|tauto|tauto|by apply elem_of_nil in Hno].
  - destruct (K2 p) as [?|[?|Hno]]; [by right|tauto|tauto|by apply elem_of_nil in Hno].
Qed.

Lemma kept_conserved pd s free us s' free' us' lost : kept pd s free us s' free' us' lost → conserved free pd s' free' us' lost.
Proof. intros K p Hp. apply K. by left. Qed.

(** ** Growing *)

(** New zeroed pages, writable by the user, in frames that were free; the old ones are as they were. *)
Record ugrown (pd : Z) (s : kstate) (free : list Z) (us : gmap Z (Z * Z)) (s' : kstate) (free' : list Z) (us' : gmap Z (Z * Z)) : Prop := {
  ug_same : vm_same s s';
  ug_space : uspace s' pd free' us';
  ug_kernel : same_kernel s s' pd;
  ug_sub : us ⊆ us';
  ug_new : ∀ k f fl, us' !! k = Some (f, fl) → us !! k = None →
    f ∈ free ∧ fl = Z.lor PTE_W PTE_U ∧ ∀ x, in_page f x → s'.(k_mem).(m_byte) x = 0;
  ug_pages : ∀ p, pt_page s'.(k_mem).(m_byte) pd p → pt_page s.(k_mem).(m_byte) pd p ∨ p ∈ free;
  ug_free : ∀ p, p ∈ free' → p ∈ free;
  ug_bytes : ∀ x, ¬ pt_area s.(k_mem).(m_byte) pd free x → s'.(k_mem).(m_byte) x = s.(k_mem).(m_byte) x
}.

Lemma ugrown_refl pd s free us : uspace s pd free us → ugrown pd s free us s free us.
Proof. intros U. split; try done; [apply vm_same_refl|congruence|by left]. Qed.

(** A frame of the space is outside of its tables and of the free pages. *)
Lemma frame_area s pd free us k f fl x : uspace s pd free us → us !! k = Some (f, fl) → in_page f x → ¬ pt_area s.(k_mem).(m_byte) pd free x.
Proof.
  intros U Hk Hx (p & Hp & Hxp). destruct (us_frame _ _ _ _ U _ _ _ Hk) as (Hf & Hff & Hfp).
  assert (p = f); [|subst p; tauto]. eapply in_page_eq; [|exact Hf|done|done]. destruct Hp as [Hp|Hp]; [by apply (tb_page _ _ _ (us_tables _ _ _ _ U))|].
  destruct (us_free _ _ _ _ U) as (_ & _ & Hok & _). by apply (proj1 (Forall_forall _ _) Hok).
Qed.

Lemma ugrown_trans pd s free us s1 free1 us1 s2 free2 us2 :
  ugrown pd s free us s1 free1 us1 → ugrown pd s1 free1 us1 s2 free2 us2 → ugrown pd s free us s2 free2 us2.
Proof.
  intros [A1 A2 A3 A4 A5 A6 A7 A8] [B1 B2 B3 B4 B5 B6 B7 B8].
  assert (∀ x, pt_area s1.(k_mem).(m_byte) pd free1 x → pt_area s.(k_mem).(m_byte) pd free x) as Harea.
  { intros x (p & Hp & Hx). exists p. split; [|done]. destruct Hp as [Hp|Hp]; [by apply A6|right; by apply A7]. }
  split; [by eapply vm_same_trans|done|intros va Hva; by rewrite B3, A3|by etrans| | | |].
  - intros k f fl Hk Hn. destruct (us1 !! k) as [[f1 fl1]|] eqn:E1.
    + pose proof (lookup_weaken _ _ _ _ E1 B4) as Hk'. rewrite Hk in Hk'. injection Hk' as -> ->. destruct (A5 k f1 fl1 E1 Hn) as (H1 & H2 & H3). split; [done|]. split; [done|].
      intros x Hx. rewrite B8; [by apply H3|]. by eapply frame_area.
    + destruct (B5 k f fl Hk E1) as (H1 & H2 & H3). split; [by apply A7|done].
  - intros p Hp. destruct (B6 p Hp) as [Hp'|Hp']; [by apply A6|right; by apply A7].
  - intros p Hp. by apply A7, B7.
  - intros x Hx. rewrite B8, A8; [done|done|]. intros Hx'. by apply Hx, Harea.
Qed.

(** Pages are taken from the free pages; the space is as before. *)
Lemma uspace_takes s pd free us s' used free' :
  uspace s pd free us → takes s free s' used free' →
  ugrown pd s free us s' free' us ∧ (∀ p, pt_page s'.(k_mem).(m_byte) pd p ↔ pt_page s.(k_mem).(m_byte) pd p) ∧
  ∀ p, p ∈ used → page_ok s'.(k_mem) p ∧ p ∉ free' ∧ ¬ pt_page s'.(k_mem).(m_byte) pd p ∧ ∀ k fl, us !! k ≠ Some (p, fl).
Proof.
  intros U [T1 T2 T3 T4 T5]. pose proof U as [U1 U2 U3 U4 U5 U6 U7 U8]. pose proof U2 as (_ & Hnd & Hok & _). rewrite Forall_forall in Hok.
  destruct (tables_frame s.(k_mem) s'.(k_mem) pd free free' U3) as (V1 & V2 & _ & V4); [by apply vm_same_end| | |].
  { intros p x Hp Hx. apply T5. intros q Hq Hx'. destruct (tb_page _ _ _ U3 p Hp) as [Hpo Hpf]. apply Hpf. replace p with q; [done|]. eapply in_page_eq; [by apply Hok|done|done|done]. }
  { intros p Hp. destruct (tb_page _ _ _ U3 p Hp) as [_ Hn]. rewrite T4, elem_of_app in Hn. tauto. }
  split; [|split; [done|]].
  - split; [done| |intros va _; apply V4|done|congruence|intros p Hp; left; by apply V2|intros p Hp; rewrite T4, elem_of_app; by right|].
    + split; [done|done|done|done| | | |done].
      * intros k f fl Hk. destruct (U5 _ _ _ Hk) as (A & B & C). split; [by eapply page_ok_same, A|]. split; [rewrite T4, elem_of_app in B; tauto|by rewrite V2].
      * intros k f fl Hk. rewrite V4. by apply (U6 _ _ _ Hk).
      * intros k Hk Hn. rewrite V4. by apply U7.
    + intros x Hx. apply T5. intros p Hp Hxp. apply Hx. exists p. split; [by right|done].
  - intros p Hp. assert (p ∈ free) as Hpf by (rewrite T4, elem_of_app; by left). split; [by eapply page_ok_same, Hok, Hpf|]. split; [|split].
    + rewrite T4 in Hnd. apply NoDup_app in Hnd as (_ & Hdis & _). by apply Hdis.
    + rewrite V2. intros Hpp. by destruct (tb_page _ _ _ U3 p Hpp).
    + intros k fl Hk. by destruct (U5 _ _ _ Hk) as (_ & ? & _).
Qed.

(** A step of the tables that keeps the user part. *)
Lemma ugrown_pt pd s free us s' free' :
  pt_step pd s free s' free' → same_kernel s s' pd → uspace s' pd free' us → ugrown pd s free us s' free' us.
Proof.
  intros Hs Hk U. destruct (ps_used _ _ _ _ _ Hs) as (used & Hu & Hp). split; [apply Hs|done|done|done|congruence| | |apply Hs].
  - intros p Hpp%Hp. rewrite Hu, elem_of_app. tauto.
  - intros p Hpp. rewrite Hu, elem_of_app. by right.
Qed.

(** One page of [allocuvm]: the calls it makes, and their effect. *)
Lemma grow_page s pd free us e k :
  uspace s pd free us → us !! k = None → 0 ≤ k < UPAGES →
  (∃ s1, kalloc s e = Ret 0 s1 e ∧ ugrown pd s free us s1 [] us ∧ kept pd s free us s1 [] us []) ∨
  (∃ a s1 s2 r s3 free3, kalloc s e = Ret a s1 e ∧ a ≠ 0 ∧ memsetM a 0 PGSIZE s1 e = Ret tt s2 e ∧
     mappages pd (4096 * k) PGSIZE (V2P a) (Z.lor PTE_W PTE_U) s2 e = Ret r s3 e ∧
     (r = 0 ∧ ugrown pd s free us s3 free3 (<[k := (a, Z.lor PTE_W PTE_U)]> us) ∧ kept pd s free us s3 free3 (<[k := (a, Z.lor PTE_W PTE_U)]> us) [] ∨
      r = -1 ∧ ugrown pd s free us s3 [] us ∧ kept pd s free us s3 [] us [a] ∧
        page_ok s3.(k_mem) a ∧ a ∈ free ∧ ¬ pt_page s3.(k_mem).(m_byte) pd a ∧ ∀ k fl, us !! k ≠ Some (a, fl))).
Proof.
  intros U Hk Hkr. pose proof (us_idle _ _ _ _ U) as Hidle. pose proof (us_free _ _ _ _ U) as Hfree. destruct free as [|a free].
  { left. destruct (kalloc_empty s e Hidle Hfree) as [Hr Hf]. exists (alloced 0 s). split; [done|].
    destruct (uspace_takes s pd [] us (alloced 0 s) [] [] U) as (G & P & _); [split; [apply vm_same_alloced|auto with cint|done|done|done]|].
    split; [done|]. intros p. unfold owns. rewrite P. tauto. }
  right. destruct (zero_page s free e a Hidle Hfree) as (s1 & s2 & Hr1 & Hr2 & T & Ha & Ha0 & Hnin & Hm2).
  destruct (uspace_takes _ _ _ _ _ _ _ U T) as (G2 & P2 & Hused). destruct (Hused a ltac:(by apply list_elem_of_singleton)) as (A1 & A2 & A3 & A4).
  destruct (uspace_map s2 pd free us e k a (Z.lor PTE_W PTE_U) (ug_space _ _ _ _ _ _ _ G2) Hk Hkr ltac:(done) A1 A2 A3 A4) as (r & s3 & free3 & Hr3 & Hs & Hker & Hc).
  exists a, s1, s2, r, s3, free3. split; [done|]. split; [done|]. split; [done|]. split; [done|].
  destruct (ps_used _ _ _ _ _ Hs) as (used & Hu & Hp).
  assert (∀ p, p ∈ a :: free ∨ owns s pd us p → p ∈ free3 ∨ pt_page s3.(k_mem).(m_byte) pd p ∨ (∃ k fl, us !! k = Some (p, fl)) ∨ p = a) as Hkept.
  { intros p. unfold owns. rewrite Hp, P2, elem_of_cons, Hu, elem_of_app. tauto. }
  destruct Hc as [[-> U3]|(-> & -> & U3)]; [left|right]; (split; [done|]).
  - split; [split; [eapply vm_same_trans; [apply T|apply Hs]|done|intros va Hva; rewrite Hker by done; by apply (ug_kernel _ _ _ _ _ _ _ G2)|by apply insert_subseteq| | | |]|].
    + intros k' f fl [[-> [= -> ->]]|[_ Hk']]%lookup_insert_Some Hn; [|congruence]. split; [by left|]. split; [done|].
      intros x Hx. rewrite (ps_bytes _ _ _ _ _ Hs); [rewrite Hm2; by rewrite fill_in by exact Hx|].
      intros (p & Hpp & Hxp). destruct (us_free _ _ _ _ (ug_space _ _ _ _ _ _ _ G2)) as (_ & _ & Hok & _). rewrite Forall_forall in Hok.
      assert (page_ok s2.(k_mem) p) as Hpo by (destruct Hpp as [Hpp|?]; [by apply (tb_page _ _ _ (us_tables _ _ _ _ (ug_space _ _ _ _ _ _ _ G2)))|by apply Hok]).
      rewrite (in_page_eq _ _ _ x Hpo A1 Hxp Hx) in Hpp. tauto.
    + intros p [Hpp|Hpp]%Hp; [left; by apply P2|right; right; rewrite Hu, elem_of_app; by left].
    + intros p Hpp. right. rewrite Hu, elem_of_app. by right.
    + intros x Hx. rewrite (ps_bytes _ _ _ _ _ Hs); [by apply (ug_bytes _ _ _ _ _ _ _ G2)|]. intros (p & Hpp & Hxp). apply Hx. exists p. split; [|done].
      destruct Hpp as [Hpp|?]; [left; by apply P2|right; by right].
    + intros p [?|[?|[(k' & fl & Hk')| ->]]]%Hkept; [by left|right; left; by left| |].
      * right. left. right. exists k', fl. rewrite lookup_insert_ne by congruence. done.
      * right. left. right. exists k, (Z.lor PTE_W PTE_U). by rewrite lookup_insert_eq.
  - split; [eapply ugrown_trans; [exact G2|by apply ugrown_pt]|].
    split; [intros p [?|[?|[?| ->]]]%Hkept; [by left|right; left; by left|right; left; by right|right; right; by left]|]. split; [by eapply page_ok_same, A1; apply Hs|]. split; [by left|]. split; [|done].
    rewrite Hp. intros [?|Hin]; [done|]. apply A2. rewrite Hu, elem_of_app. by left.
Qed.

(** Growing, and giving the new pages back. *)
Lemma ugrown_shrunk pd s free us s1 free1 us1 s2 free2 L :
  ugrown pd s free us s1 free1 us1 → contiguous us L → ushrunk pd L s1 free1 us1 s2 free2 → ugrown pd s free us s2 free2 us.
Proof.
  intros [A1 A2 A3 A4 A5 A6 A7 A8] Hc [B1 B2 B3 B4 B5 B6].
  assert (∀ k f fl, L ≤ k → us1 !! k = Some (f, fl) → f ∈ free) as Hnew.
  { intros k f fl Hk Hf. apply (A5 k f fl Hf). apply eq_None_not_Some. rewrite (Hc k). lia. }
  assert (filter (λ kv, kv.1 < L) us1 = us) as Hf.
  { apply map_eq. intros k. apply option_eq. intros v. rewrite map_lookup_filter_Some. simpl. split.
    - intros [Hk Hlt]. destruct v as [f fl]. pose proof (us_range _ _ _ _ A2 _ _ _ Hk) as [Hr _].
      destruct (proj2 (Hc k) ltac:(lia)) as [v Hv]. pose proof (lookup_weaken _ _ _ _ Hv A4). congruence.
    - intros Hk. split; [by eapply lookup_weaken|]. apply (Hc k). by eexists. }
  rewrite Hf in B2. split; [by eapply vm_same_trans|done|intros va Hva; by rewrite B3, A3|done|congruence| | |].
  - intros p Hp%B4. by apply A6.
  - intros p [Hp|(k & fl & Hk & Hp)]%B5; [by apply A7|by eapply Hnew].
  - intros x Hx. rewrite B6, A8; [done|done| |].
    + intros p Hp Hxp. apply Hx. exists p. split; [by apply A6|done].
    + intros k f fl Hk Hge Hxf. apply Hx. exists f. split; [right; by eapply Hnew|done].
Qed.

Lemma can_print_same s s' : can_print s → vm_same s s' → can_print s'.
Proof.
  intros (H1 & H2 & H3) [(b & f & c & io & ->) [Hc [cs Hio]]]. simpl in *. split; [|split; [|done]].
  - simpl. rewrite Hio. by apply puts_ok.
  - simpl. by destruct Hc as [->| ->].
Qed.

(** [cprintf] does not touch memory. *)
Lemma ugrown_printed pd s free us cs : uspace s pd free us → ugrown pd s free us (printed cs s) free us.
Proof.
  intros U. apply (uspace_takes _ _ _ _ _ [] free U). destruct (us_idle _ _ _ _ U) as [Hwf Hsp].
  split; [apply vm_same_printed| |apply U|done|done]. split; [|done]. unfold printed. simpl. by destruct (truthy _).
Qed.

Lemma contiguous_insert us L v : contiguous us L → 0 ≤ L → contiguous (<[L := v]> us) (L + 1).
Proof.
  intros Hc HL k. destruct (decide (k = L)) as [->|Hne].
  - rewrite lookup_insert_eq. split; [lia|by eexists].
  - rewrite lookup_insert_ne by done. rewrite (Hc k). lia.
Qed.

(** Memory has run out: the message, and the new pages go back. *)
Lemma alloc_undo pd s0 free0 us0 s free us e msg cs oldsz newsz j :
  ugrown pd s0 free0 us0 s free us → contiguous us0 (pages oldsz) → contiguous us j → can_print s0 → format (str msg) [] = Some cs →
  0 ≤ oldsz < newsz → newsz ≤ KERNBASE → j ≤ pages newsz →
  ∃ s1 s2 free2, cprintf msg [] s e = Ret tt s1 e ∧ deallocuvm pd newsz oldsz s1 e = Ret oldsz s2 e ∧ ugrown pd s0 free0 us0 s2 free2 us0 ∧
    (∀ p, p ∈ free2 → p ∈ free ∨ ∃ k fl, us !! k = Some (p, fl)) ∧ (∀ p, pt_page s2.(k_mem).(m_byte) pd p ↔ pt_page s.(k_mem).(m_byte) pd p) ∧ vm_same s s2 ∧
    kept pd s free us s2 free2 us0 [].
Proof.
  intros G Hc0 Hc Hp Hmsg Hsz Htop Hj. pose proof (ugrown_printed pd s free us cs (ug_space _ _ _ _ _ _ _ G)) as Gp.
  destruct (deallocuvm_run pd e (printed cs s) free us newsz oldsz j (ug_space _ _ _ _ _ _ _ Gp) Hc Hsz Htop Hj) as (s2 & free2 & Hr & Hsh).
  exists (printed cs s), s2, free2. split; [apply cprintf_run; [|done]; by eapply can_print_same, G|]. split; [done|].
  split; [eapply ugrown_shrunk; [by eapply ugrown_trans|done|done]|]. split; [|split; [|split]].
  - intros p [?|(k & fl & _ & ?)]%(sh_free _ _ _ _ _ _ _ Hsh); [by left|right; by exists k, fl].
  - intros p. by rewrite (sh_pages _ _ _ _ _ _ _ Hsh).
  - eapply vm_same_trans; [apply Gp|apply Hsh].
  - intros p [Hp'|[Hp'|(k & fl & Hk)]]; [left; apply (sh_free _ _ _ _ _ _ _ Hsh); by left|right; left; left; by apply (sh_pages _ _ _ _ _ _ _ Hsh)|].
    destruct (decide (k < pages oldsz)) as [Hlt|Hge]; [|left; apply (sh_free _ _ _ _ _ _ _ Hsh); right; exists k, fl; split; [lia|done]].
    right. left. right. exists k, fl. destruct (proj2 (Hc0 k)) as [v Hv]; [assert (0 ≤ k < j) by (apply Hc; by eexists); lia|].
    rewrite (lookup_weaken _ _ _ _ Hv (ug_sub _ _ _ _ _ _ _ G)) in Hk. congruence.
Qed.

(** When the free list is empty, every page of it is a page of a table, of the user part, or the one in hand. *)
Lemma kept_bound pd s free us s' us' lost L :
  NoDup free → kept pd s free us s' [] us' lost → contiguous us' L → 0 ≤ L → (length lost ≤ 1)%nat → Z.of_nat (length free) ≤ L + 1026.
Proof. intros Hnd K%kept_conserved Hc HL Hl. pose proof (conserved_bound _ _ _ _ _ _ _ Hnd K Hc HL). simpl in *. lia. Qed.

Lemma kept_freed pd s free us s' free' us' a :
  kept pd s free us s' free' us' [a] → (∀ p, pt_page (freed a s').(k_mem).(m_byte) pd p ↔ pt_page s'.(k_mem).(m_byte) pd p) →
  kept pd s free us (freed a s') (a :: free') us' [].
Proof.
  intros K Hp p Hin. destruct (K p Hin) as [?|[[?|?]|?]]; [left; by right|right; left; left; by apply Hp|right; left; by right|]. apply list_elem_of_singleton in H as ->. left. by left.
Qed.

(** A page taken on the way goes back as well. *)
Lemma ugrown_kfree pd s free us s1 free1 us1 e a :
  ugrown pd s free us s1 free1 us1 → a ∈ free → page_ok s1.(k_mem) a → a ∉ free1 → ¬ pt_page s1.(k_mem).(m_byte) pd a → (∀ k fl, us1 !! k ≠ Some (a, fl)) →
  kfree a s1 e = Ret tt (freed a s1) e ∧ ugrown pd s free us (freed a s1) (a :: free1) us1 ∧
    ∀ p, pt_page (freed a s1).(k_mem).(m_byte) pd p ↔ pt_page s1.(k_mem).(m_byte) pd p.
Proof.
  intros [A1 A2 A3 A4 A5 A6 A7 A8] Ha Hok Hnin Hnp Hnu. destruct (uspace_kfree s1 pd free1 us1 e a A2 Hok Hnin Hnp Hnu) as (Hr & U & Hk & Hp).
  split; [done|]. split; [|done]. split; [eapply vm_same_trans; [done|apply vm_same_freed]|done|intros va Hva; by rewrite Hk, A3|done| | | |].
  - intros k f fl Hf Hn. destruct (A5 k f fl Hf Hn) as (H1 & H2 & H3). split; [done|]. split; [done|]. intros x Hx. rewrite freed_bytes; [by apply H3|].
    intros Hx'. apply (Hnu k fl). rewrite Hf. destruct (us_frame _ _ _ _ A2 _ _ _ Hf) as (Hfo & _). by rewrite (in_page_eq _ _ _ x Hfo Hok Hx Hx').
  - intros p Hpp%Hp. by apply A6.
  - intros p [->|Hpf]%elem_of_cons; [done|by apply A7].
  - intros x Hx. rewrite freed_bytes; [by apply A8|]. intros Hx'. apply Hx. exists a. split; [by right|done].
Qed.

(** What [allocuvm] leaves behind: the pages asked for, or everything as it was, which only happens when the free list was
    too short for them, their tables and the page in hand. *)
Definition alloced_or_undone (pd : Z) (s : kstate) (free : list Z) (us : gmap Z (Z * Z)) (newL : Z) (done : bool) (s' : kstate) (free' : list Z) (us' : gmap Z (Z * Z)) : Prop :=
  ugrown pd s free us s' free' us' ∧ kept pd s free us s' free' us' [] ∧
  if done then contiguous us' newL else us' = us ∧ Z.of_nat (length free) ≤ newL + 1026.

Lemma allocuvm_loop_run pd e oldsz newsz s0 free0 us0 : ∀ n s free us j,
  can_print s0 → NoDup free0 → contiguous us0 (pages oldsz) → 0 ≤ oldsz → newsz < KERNBASE → newsz - 4096 * j ≤ 4096 * (Z.of_nat n - 1) → (0 < n)%nat →
  ugrown pd s0 free0 us0 s free us → kept pd s0 free0 us0 s free us [] → contiguous us j → pages oldsz ≤ j →
  ∃ r s' free' us', allocuvm_loop n pd (4096 * j) oldsz newsz s e = Ret r s' e ∧
    (r = None ∧ alloced_or_undone pd s0 free0 us0 (Z.max j (pages newsz)) true s' free' us' ∨
     r = Some 0 ∧ alloced_or_undone pd s0 free0 us0 (Z.max j (pages newsz)) false s' free' us').
Proof.
  induction n as [|n IH]; intros s free us j Hprint Hnd Hc0 Hold Hnew Hn Hn0 G K Hc Hj; [lia|]. cbn [allocuvm_loop].
  pose proof (pages_spec newsz) as Hpn. pose proof (pages_spec oldsz) as Hpo. destruct (Z.ltb_spec (4096 * j) newsz) as [Hlt|Hge].
  2: { exists None, s, free, us. split; [done|]. left. split; [done|]. split; [done|]. split; [done|]. by replace (Z.max j (pages newsz)) with j by lia. }
  change (negb true) with false. cbv iota. assert (0 ≤ j < UPAGES) as Hjr by (unfold UPAGES, KERNBASE in *; lia).
  assert (us !! j = None) as Hnone by (apply eq_None_not_Some; rewrite (Hc j); lia).
  destruct (grow_page s pd free us e j (ug_space _ _ _ _ _ _ _ G) Hnone Hjr) as [(s1 & Hk & G1 & K1)|(a & s1 & s2 & r & s3 & free3 & Hk & Ha0 & Hz & Hm & Hcase)].
  - destruct (alloc_undo pd s0 free0 us0 s1 [] us e ("allocuvm out of memory" +:+ newline) _ oldsz newsz j (ugrown_trans _ _ _ _ _ _ _ _ _ _ G G1) Hc0 Hc Hprint eq_refl ltac:(lia) ltac:(lia) ltac:(lia))
      as (s2 & s3 & free3 & Hr2 & Hr3 & G3 & _ & _ & _ & K3). pose proof (kept_trans _ _ _ _ _ _ _ _ _ _ _ K K1) as K1'.
    exists (Some 0), s3, free3, us0. split; [mstep Hk; rewrite Z.eqb_refl; mstep Hr2; by mstep Hr3|]. right. split; [done|]. split; [done|].
    split; [by eapply kept_trans|]. split; [done|]. pose proof (kept_bound _ _ _ _ _ _ _ j Hnd K1' Hc ltac:(lia) ltac:(simpl; lia)). lia.
  - destruct Hcase as [(-> & G3 & K3)|(-> & G3 & K3 & A1 & A2 & A3 & A4)].
    + destruct (IH s3 free3 (<[j := (a, Z.lor PTE_W PTE_U)]> us) (j + 1)) as (r & s' & free' & us' & Hr & Hcase); try (done || lia);
        [by eapply ugrown_trans|by eapply kept_trans|by apply contiguous_insert; [|lia]|].
      exists r, s', free', us'. split.
      * mstep Hk. rewrite (proj2 (Z.eqb_neq a 0) Ha0). mstep Hz. mstep Hm. change (0 <? 0) with false. cbv iota.
        replace (u32 (4096 * j + PGSIZE)) with (4096 * (j + 1)); [exact Hr|]. unfold PGSIZE. rewrite u32_id by (unfold is_u32, KERNBASE in *; lia). lia.
      * by replace (Z.max j (pages newsz)) with (Z.max (j + 1) (pages newsz)) by lia.
    + destruct (alloc_undo pd s0 free0 us0 s3 [] us e ("allocuvm out of memory (2)" +:+ newline) _ oldsz newsz j (ugrown_trans _ _ _ _ _ _ _ _ _ _ G G3) Hc0 Hc Hprint eq_refl ltac:(lia) ltac:(lia) ltac:(lia))
        as (s4 & s5 & free5 & Hr4 & Hr5 & G5 & Hf5 & Hp5 & Hs5 & K5). pose proof (kept_trans _ _ _ _ _ _ _ _ _ _ _ K K3) as K3'.
      destruct (ugrown_kfree pd s0 free0 us0 s5 free5 us0 e a G5) as (Hr6 & G6 & Hp6).
      * by apply (ug_free _ _ _ _ _ _ _ G).
      * by eapply page_ok_same.
      * intros [Hin|(k & fl & Hin)]%Hf5; [by apply elem_of_nil in Hin|by apply (A4 k fl)].
      * by rewrite Hp5.
      * intros k fl Hk'. apply (A4 k fl). eapply lookup_weaken; [done|apply G].
      * exists (Some 0), (freed a s5), (a :: free5), us0. split.
        { mstep Hk. rewrite (proj2 (Z.eqb_neq a 0) Ha0). mstep Hz. mstep Hm. change (-1 <? 0) with true. cbv iota. mstep Hr4. mstep Hr5. by mstep Hr6. }
        right. split; [done|]. split; [done|]. split; [apply kept_freed; [by eapply kept_lost|done]|]. split; [done|].
        pose proof (kept_bound _ _ _ _ _ _ _ j Hnd K3' Hc ltac:(lia) ltac:(simpl; lia)). lia.
Qed.

(** [allocuvm] is all or nothing: the process gets zeroed pages up to the new size and keeps what it had, or memory has run
    out, the answer is 0, and the process is as before.  The kernel part of the table never changes, and no page is lost. *)
Lemma allocuvm_run pd e s free us oldsz newsz :
  uspace s pd free us → can_print s → contiguous us (pages oldsz) → 0 ≤ oldsz ≤ newsz → newsz < KERNBASE →
  ∃ r s' free' us', allocuvm pd oldsz newsz s e = Ret r s' e ∧
    (r = newsz ∧ alloced_or_undone pd s free us (pages newsz) true s' free' us' ∨ r = 0 ∧ alloced_or_undone pd s free us (pages newsz) false s' free' us').
Proof.
  intros U Hp Hc Hsz Htop. unfold allocuvm. rewrite (proj2 (Z.leb_gt _ _)) by lia. rewrite (proj2 (Z.ltb_ge _ _)) by lia.
  rewrite round_pages by lia. pose proof (pages_spec newsz). pose proof (pages_spec oldsz). pose proof (pages_mono oldsz newsz ltac:(lia)).
  destruct (us_free _ _ _ _ U) as (_ & Hnd & _).
  destruct (allocuvm_loop_run pd e oldsz newsz s free us (Z.to_nat ((newsz - 4096 * pages oldsz) / PGSIZE + 2)) s free us (pages oldsz)) as (r & s' & free' & us' & Hr & Hcase); try (done || lia).
  - unfold PGSIZE. pose proof (Z.div_mod (newsz - 4096 * pages oldsz) 4096 ltac:(done)). pose proof (Z.mod_pos_bound (newsz - 4096 * pages oldsz) 4096 eq_refl). lia.
  - assert (-1 ≤ (newsz - 4096 * pages oldsz) / PGSIZE) by (unfold PGSIZE; apply Z.div_le_lower_bound; lia). lia.
  - by apply ugrown_refl.
  - intros p Hin. tauto.
  - cbv zeta. rewrite Z.max_r in Hcase by lia. destruct Hcase as [[-> G]|[-> G]].
    + exists newsz, s', free', us'. split; [by mstep Hr|]. by left.
    + exists 0, s', free', us'. split; [by mstep Hr|]. by right.
Qed.

(** ** What the process sees *)

Lemma uspace_translate s pd free us k f fl va :
  uspace s pd free us → us !! k = Some (f, fl) → 4096 * k ≤ va < 4096 * k + 4096 → translate s.(k_mem).(m_byte) pd va = Some (f + va mod 4096).
Proof.
  intros U Hk Hva. destruct (us_range _ _ _ _ U _ _ _ Hk) as [Hkr Hfl]. destruct (page_va k va Hkr Hva) as [_ Hd].
  destruct (us_frame _ _ _ _ U _ _ _ Hk) as (Hf & _). destruct (frame_pa _ _ f (us_free _ _ _ _ U) Hf) as (F1 & F2 & F3 & F4 & F5).
  destruct (mkpte_spec (V2P f) fl F2 ltac:(unfold PHYSTOP in *; lia) Hfl) as (M1 & M2 & _).
  rewrite translate_pte, pte_page, Hd, (us_pte _ _ _ _ U _ _ _ Hk), M1, M2, F5. done.
Qed.

(** A page table with the kernel part only. *)
Lemma uspace_new s0 free0 d data s used free :
  takes s0 free0 s used free → tables s.(k_mem) d free → (∀ va, is_u32 va → pte s.(k_mem).(m_byte) d va = kernel_pte data va) → data_ok data →
  uspace s d free ∅.
Proof.
  intros T Ht Hk [_ Hd]. split; [apply T|apply T|done|..]; try (intros *; by rewrite lookup_empty).
  intros k Hkr _. rewrite Hk by (unfold is_u32, UPAGES in *; lia). unfold kernel_pte, KERNLINK, KERNBASE, EXTMEM, PHYSTOP, DEVSPACE, UPAGES in *.
  by rewrite !decide_False by lia.
Qed.

(** The byte at the user address [va], through the table [pd]. *)
Definition user_byte (s : kstate) (pd va : Z) : option Z :=
  s.(k_mem).(m_byte) <$> translate s.(k_mem).(m_byte) pd va.

Lemma contiguous_translate s pd free us L va :
  uspace s pd free us → contiguous us L → 0 ≤ va < 4096 * L →
  ∃ f fl, us !! (va / 4096) = Some (f, fl) ∧ page_ok s.(k_mem) f ∧ translate s.(k_mem).(m_byte) pd va = Some (f + va mod 4096) ∧ 0 ≤ va mod 4096 < 4096.
Proof.
  intros U Hc Hva. pose proof (Z.div_mod va 4096 ltac:(done)). pose proof (Z.mod_pos_bound va 4096 eq_refl).
  destruct (proj2 (Hc (va / 4096)) ltac:(lia)) as [[f fl] Hf]. exists f, fl. split; [done|].
  split; [by apply (us_frame _ _ _ _ U _ _ _ Hf)|]. split; [|lia]. eapply uspace_translate; [done|done|lia].
Qed.

(** ** Two address spaces *)

(** A change of memory outside of the pages of the table, in the frames of the user or elsewhere. *)
Lemma uspace_stable s pd free us s' free' :
  uspace s pd free us → s'.(k_mem).(m_end) = s.(k_mem).(m_end) → kmem_idle s' → kmem_free s'.(k_mem) free' →
  (∀ p x, pt_page s.(k_mem).(m_byte) pd p → in_page p x → s'.(k_mem).(m_byte) x = s.(k_mem).(m_byte) x) → (∀ p, owns s pd us p → p ∉ free') →
  uspace s' pd free' us ∧ (∀ p, owns s' pd us p ↔ owns s pd us p) ∧ ∀ va, pte s'.(k_mem).(m_byte) pd va = pte s.(k_mem).(m_byte) pd va.
Proof.
  intros [U1 U2 U3 U4 U5 U6 U7 U8] He Hi Hf Hx Hn.
  destruct (tables_frame s.(k_mem) s'.(k_mem) pd free free' U3) as (V1 & V2 & _ & V4); [done|done|intros p Hp; apply Hn; by left|].
  split; [|split; [|done]].
  - split; [done|done|done|done| | | |done].
    + intros k f fl Hk. destruct (U5 _ _ _ Hk) as (A & B & C). split; [unfold page_ok in *; by rewrite He|]. split; [apply Hn; right; by exists k, fl|by rewrite V2].
    + intros k f fl Hk. rewrite V4. by apply (U6 _ _ _ Hk).
    + intros k Hk Hnk. rewrite V4. by apply U7.
  - intros p. unfold owns. by rewrite V2.
Qed.

(** A change of memory outside of the pages of the address space. *)
Lemma uspace_frame s pd free us s' free' :
  uspace s pd free us → vm_same s s' → kmem_idle s' → kmem_free s'.(k_mem) free' →
  (∀ p x, owns s pd us p → in_page p x → s'.(k_mem).(m_byte) x = s.(k_mem).(m_byte) x) → (∀ p, owns s pd us p → p ∉ free') →
  uspace s' pd free' us ∧ (∀ p, owns s' pd us p ↔ owns s pd us p) ∧ ∀ va, pte s'.(k_mem).(m_byte) pd va = pte s.(k_mem).(m_byte) pd va.
Proof.
  intros U Hs Hi Hf Hx Hn. eapply uspace_stable; [exact U|by apply vm_same_end|done|done|intros p x Hp; apply Hx; by left|done].
Qed.

(** Two address spaces without common pages. *)
Definition apart (s : kstate) (pd : Z) (us : gmap Z (Z * Z)) (d : Z) (usd : gmap Z (Z * Z)) : Prop :=
  ∀ p, owns s pd us p → ¬ owns s d usd p.

(** A page of one address space is outside of where the other grows. *)
Lemma apart_area s pd us d usd free p x :
  uspace s pd free us → uspace s d free usd → apart s pd us d usd → owns s pd us p → in_page p x → ¬ pt_area s.(k_mem).(m_byte) d free x.
Proof.
  intros U Ud Hap Hp Hx (q & Hq & Hxq). destruct (owns_page _ _ _ _ _ U Hp) as [Hpo Hpf].
  assert (q = p) as ->; [|destruct Hq as [Hq|Hq]; [apply (Hap p Hp); by left|done]].
  eapply in_page_eq; [|exact Hpo|done|done]. destruct Hq as [Hq|Hq]; [by apply (tb_page _ _ _ (us_tables _ _ _ _ Ud))|].
  destruct (us_free _ _ _ _ U) as (_ & _ & Hok & _). by apply (proj1 (Forall_forall _ _) Hok).
Qed.

(** ** The contract of [allocuvm] *)

(** No page is lost and none is made up. *)
Definition conservation (pd : Z) (s : kstate) (free : list Z) (us : gmap Z (Z * Z)) (s' : kstate) (free' : list Z) (us' : gmap Z (Z * Z)) : Prop :=
  ∀ p, (p ∈ free ∨ owns s pd us p) ↔ (p ∈ free' ∨ owns s' pd us' p).

Lemma ugrown_conservation pd s free us s' free' us' :
  ugrown pd s free us s' free' us' → kept pd s free us s' free' us' [] → conservation pd s free us s' free' us'.
Proof.
  intros G K p. split; [intros [?|[?|Hno]]%K; [tauto|tauto|by apply elem_of_nil in Hno]|].
  intros [Hp|[Hp|(k & fl & Hk)]]; [left; by apply G| |].
  - apply (ug_pages _ _ _ _ _ _ _ G) in Hp as [?|?]; [right; by left|by left].
  - destruct (us !! k) as [v|] eqn:E; [|left; by apply (ug_new _ _ _ _ _ _ _ G k p fl)].
    right. right. exists k, fl. rewrite (lookup_weaken _ _ _ _ E (ug_sub _ _ _ _ _ _ _ G)) in Hk. congruence.
Qed.

Lemma ugrown_user_byte pd s free us s' free' us' L va :
  uspace s pd free us → ugrown pd s free us s' free' us' → contiguous us L → 0 ≤ va < 4096 * L → user_byte s' pd va = user_byte s pd va.
Proof.
  intros U G Hc Hva. destruct (contiguous_translate _ _ _ _ _ _ U Hc Hva) as (f & fl & Hf & _ & Ht & Ho).
  pose proof (Z.div_mod va 4096 ltac:(done)). pose proof (lookup_weaken _ _ _ _ Hf (ug_sub _ _ _ _ _ _ _ G)) as Hf'.
  unfold user_byte. rewrite Ht, (uspace_translate _ _ _ _ _ _ _ va (ug_space _ _ _ _ _ _ _ G) Hf' ltac:(lia)). cbn [fmap option_fmap option_map]. f_equal.
  apply (ug_bytes _ _ _ _ _ _ _ G). eapply frame_area; [done|done|]. unfold in_page, PGSIZE. lia.
Qed.

(** C15: growing a process from [oldsz] to [newsz] bytes always returns and is all or nothing.  Either the answer is the new
    size and the addresses between the sizes are mapped and zero, or the answer is 0, the map from user pages to frames is
    the old one, and the free list was too short for the new pages and their tables.  In both cases the old bytes and the
    kernel part of the table are as before, and no page of the free list or of the process is lost or shared. *)
Theorem allocuvm_correct pd e s free us oldsz newsz :
  uspace s pd free us → can_print s → contiguous us (pages oldsz) → 0 ≤ oldsz ≤ newsz → newsz < KERNBASE →
  ∃ r s' free' us', allocuvm pd oldsz newsz s e = Ret r s' e ∧ vm_same s s' ∧ same_kernel s s' pd ∧ uspace s' pd free' us' ∧
    conservation pd s free us s' free' us' ∧ (∀ va, 0 ≤ va < 4096 * pages oldsz → user_byte s' pd va = user_byte s pd va) ∧
    (r = newsz ∧ contiguous us' (pages newsz) ∧ (∀ va, 4096 * pages oldsz ≤ va < 4096 * pages newsz → user_byte s' pd va = Some 0) ∨
     r = 0 ∧ us' = us ∧ Z.of_nat (length free) ≤ pages newsz + 1026).
Proof.
  intros U Hp Hc Hsz Htop. pose proof (pages_spec oldsz). pose proof (pages_mono oldsz newsz ltac:(lia)).
  destruct (allocuvm_run pd e s free us oldsz newsz U Hp Hc Hsz Htop) as (r & s' & free' & us' & Hr & Hcase).
  exists r, s', free', us'. split; [done|].
  assert (ugrown pd s free us s' free' us' ∧ kept pd s free us s' free' us' []) as [G K] by (destruct Hcase as [(_ & G & K & _)|(_ & G & K & _)]; done).
  split; [apply G|]. split; [apply G|]. split; [apply G|]. split; [by apply ugrown_conservation|].
  split; [intros va Hva; by eapply ugrown_user_byte|]. destruct Hcase as [(-> & _ & _ & Hc')|(-> & _ & _ & Hu & Hl)]; [left|by right].
  split; [done|]. split; [done|]. intros va Hva. destruct (contiguous_translate _ _ _ _ _ va (ug_space _ _ _ _ _ _ _ G) Hc' ltac:(lia)) as (f & fl & Hf & _ & Ht & Ho).
  pose proof (Z.div_mod va 4096 ltac:(done)). assert (us !! (va / 4096) = None) as Hn by (apply eq_None_not_Some; rewrite (Hc _); lia).
  destruct (ug_new _ _ _ _ _ _ _ G _ _ _ Hf Hn) as (_ & _ & Hz). unfold user_byte. rewrite Ht. cbn [fmap option_fmap option_map]. f_equal.
  apply Hz. unfold in_page, PGSIZE. lia.
Qed.

(** ** An address space for the examples *)

Lemma demo_free : ∃ s free, for_each (pages_from (KERNBASE + 2097152) 6000) kfree demo_state [] = Ret tt s [] ∧
  vm_same demo_state s ∧ kmem_idle s ∧ kmem_free s.(k_mem) free ∧ Z.of_nat (length free) = 6000.
Proof.
  assert (∀ p, p ∈ pages_from (KERNBASE + 2097152) 6000 → page_ok demo_state.(k_mem) p) as Hok.
  { intros p (i & Hi & ->)%elem_of_pages_from. change (Z.of_nat 6000) with 6000 in Hi. unfold page_ok. change (m_end (k_mem demo_state)) with (KERNBASE + 1134592).
    unfold PGSIZE, KERNBASE, PHYSTOP. rewrite (Z.mul_comm 4096), Z.mod_add by done. split; [done|]. lia. }
  destruct (kfree_all (pages_from (KERNBASE + 2097152) 6000) demo_state [] []) as (s & Hr & Hs & Hi & Hf & _).
  - split; [vm_compute; split; done|done].
  - split_and!; [done|constructor|constructor|done].
  - by apply Forall_forall.
  - apply pages_from_nodup.
  - intros p _. apply not_elem_of_nil.
  - eexists _, _. split; [exact Hr|]. split; [done|]. split; [done|]. split; [exact Hf|].
    by rewrite app_nil_r, length_reverse, length_pages_from.
Qed.

(** A process of two pages. *)
Lemma demo_space : ∃ s pd free us,
  uspace s pd free us ∧ contiguous us (pages 8000) ∧ can_print s ∧ data_ok s.(k_mem).(m_data) ∧ 3000 ≤ Z.of_nat (length free) ∧ vm_same demo_state s.
Proof.
  destruct demo_free as (s0 & free0 & _ & V0 & I0 & F0 & L0). assert (data_ok s0.(k_mem).(m_data)) as Hd.
  { rewrite (vm_same_data _ _ V0). split; [reflexivity|split; reflexivity]. }
  destruct (setupkvm_run s0 free0 [] I0 F0 Hd) as (pd & s1 & used & free1 & _ & T & Hlen & [(-> & ->)|(Hd0 & Ht & Hp & Hk)]).
  { exfalso. rewrite (tk_used _ _ _ _ _ T), app_nil_r in L0. lia. }
  pose proof (uspace_new _ _ _ _ _ _ _ T Ht Hk Hd) as U1. pose proof (tk_used _ _ _ _ _ T) as Hu.
  assert (contiguous ∅ (pages 0)) as Hc0 by (change (pages 0) with 0; intros k; rewrite lookup_empty; split; [by intros []|lia]).
  assert (Z.of_nat (length free0) ≤ Z.of_nat (length free1) + 0 + 1025 + 0) as Hl1.
  { apply (conserved_bound free0 pd s1 free1 ∅ [] 0); [by destruct F0 as (_ & ? & _)| |done|done]. intros p. rewrite Hu, elem_of_app. unfold owns. rewrite Hp. tauto. }
  assert (can_print s1) as Hpr by (eapply can_print_same; [|apply T]; eapply can_print_same; [|done]; split; [vm_compute; repeat split; done|split; [vm_compute; split; done|done]]).
  destruct (allocuvm_run pd [] s1 free1 ∅ 0 8000 U1 Hpr Hc0 ltac:(done) ltac:(done)) as (r & s2 & free2 & us & _ & [(_ & G & K & Hc)|(_ & _ & _ & _ & Hl)]).
  2: { exfalso. change (pages 8000) with 2 in Hl. lia. }
  exists s2, pd, free2, us. split; [apply G|]. split; [done|]. split; [by eapply can_print_same, G|].
  split; [by rewrite (vm_same_data _ _ (ug_same _ _ _ _ _ _ _ G)), (vm_same_data _ _ (tk_same _ _ _ _ _ T))|]. split.
  - destruct (us_free _ _ _ _ U1) as (_ & Hnd & _). pose proof (conserved_bound _ _ _ _ _ _ _ Hnd (kept_conserved _ _ _ _ _ _ _ _ K) Hc ltac:(done)).
    change (pages 8000) with 2 in *. simpl in *. lia.
  - eapply vm_same_trans; [done|]. eapply vm_same_trans; [apply T|apply G].
Qed.

Lemma allocuvm_correct_witness : ∃ s pd free us r s' free' us',
  allocuvm pd 8000 16000 s [] = Ret r s' [] ∧ r = 16000 ∧ uspace s' pd free' us' ∧ conservation pd s free us s' free' us' ∧
  ∀ va, 8192 ≤ va < 16384 → user_byte s' pd va = Some 0.
Proof.
  destruct demo_space as (s & pd & free & us & U & Hc & Hp & _ & Hl & _). exists s, pd, free, us.
  destruct (allocuvm_correct pd [] s free us 8000 16000 U Hp Hc ltac:(done) ltac:(done)) as (r & s' & free' & us' & Hr & _ & _ & U' & Hcons & _ & [(-> & _ & Hz)|(_ & _ & Hno)]).
  - exists 16000, s', free', us'. done.
  - exfalso. change (pages 16000) with 4 in Hno. lia.
Defined.
