(* ===== verification/UserCopy.v ===== *)
(** * Copying and freeing address spaces (vm.c: copyuvm, freevm)

    [copyuvm] gives a child a page table of its own with the parent's bytes in
    pages that were free; the parent does not change.  [freevm] gives back every
    page of an address space.  Both are stated with the abstract user spaces of
    UserSpace.v. *)

From S2P Require Import Prelude KState Spinlock Print Mem Kalloc Vm AddrSpace UserSpace.
#[local] Open Scope kernel_scope.

(** ** Freeing *)

(** The last loop of [freevm] frees the tables. *)
Lemma free_tables_loop pd ix : ∀ s free e,
  kmem_idle s → kmem_free s.(k_mem) free → page_ok s.(k_mem) pd →
  Forall (λ i, (i < 1024)%nat) ix → NoDup (table_pages s.(k_mem).(m_byte) pd ix) →
  (∀ p, p ∈ table_pages s.(k_mem).(m_byte) pd ix → page_ok s.(k_mem) p ∧ p ∉ free ∧ p ≠ pd) →
  for_each ix (λ i, e <- loadM (pd + 4 * Z.of_nat i);; if truthy (Z.land e PTE_P) then kfree (P2V (PTE_ADDR e)) else ret tt) s e =
    for_each (table_pages s.(k_mem).(m_byte) pd ix) kfree s e.
Proof.
  induction ix as [|i ix IH]; intros s free e Hi Hf Hpd His Hnd Hp; [done|]. apply Forall_cons in His as [Hil His].
  cbn [for_each]. unfold table_pages in *. cbn [omap list_omap] in *. unfold loadM at 1. rewrite bind_assoc, bind_gets.
  unfold tab at 1 in Hnd. unfold tab at 1 in Hp. unfold tab at 1.
  fold (present (load32 s.(k_mem).(m_byte) (pd + 4 * Z.of_nat i))). destruct (present _).
  - set (t := P2V _) in *. apply NoDup_cons in Hnd as [Htn Hnd].
    destruct (Hp t) as (Hto & Htf & Htp); [by left|]. destruct (kfree_push t free s e Hi Hf Hto Htf) as [Hr Hf1].
    cbn [for_each]. mstep Hr. mstep Hr.
    assert (∀ j, (j < 1024)%nat → tab (freed t s).(k_mem).(m_byte) pd (Z.of_nat j) = tab s.(k_mem).(m_byte) pd (Z.of_nat j)) as Htab.
    { intros j Hj. apply tab_ext; [|lia]. intros x Hx. apply freed_bytes. intros Hx'. apply Htp. by eapply in_page_eq. }
    assert (omap (λ i, tab (freed t s).(k_mem).(m_byte) pd (Z.of_nat i)) ix = omap (λ i, tab s.(k_mem).(m_byte) pd (Z.of_nat i)) ix) as Hom.
    { clear -Htab His. induction His as [|j ix Hj His IH]; [done|]. cbn [omap list_omap]. rewrite Htab by done. destruct (tab _ _ _); [f_equal|]; exact IH. }
    rewrite (IH (freed t s) (t :: free)); rewrite ?Hom; try done.
    + by apply freed_idle.
    + intros p Hpi. destruct (Hp p) as (A & B & C); [by right|]. split; [done|]. split; [|done]. apply not_elem_of_cons. split; [by intros ->|done].
  - rewrite bind_ret_l. apply (IH s free); try done.
Qed.

Lemma table_pages_nodup m pd ix :
  NoDup ix → Forall (λ i, (i < 1024)%nat) ix →
  (∀ i j t, 0 ≤ i < 1024 → 0 ≤ j < 1024 → tab m pd i = Some t → tab m pd j = Some t → i = j) → NoDup (table_pages m pd ix).
Proof.
  intros Hnd Hix Hinj. induction Hnd as [|i ix Hi Hnd IH]; [constructor|]. apply Forall_cons in Hix as [Hil Hix].
  unfold table_pages. cbn [omap list_omap]. destruct (tab m pd (Z.of_nat i)) as [t|] eqn:E; [|by apply IH].
  constructor; [|by apply IH]. intros (j & Hj & Htj)%list_elem_of_omap. apply Hi.
  pose proof (proj1 (Forall_forall _ _) Hix j Hj) as Hjl. cbn beta in Hil, Hjl. replace i with j; [done|]. apply Nat2Z.inj. by apply (Hinj _ _ t); [lia|lia| |].
Qed.

(** [freevm] gives back the frames, the tables and the directory, and nothing else changes. *)
Lemma freevm_run s pd free us e L :
  uspace s pd free us → contiguous us L →
  ∃ s' free', freevm pd s e = Ret tt s' e ∧ vm_same s s' ∧ kmem_idle s' ∧ kmem_free s'.(k_mem) free' ∧
    (∀ p, p ∈ free' ↔ p ∈ free ∨ owns s pd us p) ∧
    ∀ x, (∀ p, owns s pd us p → ¬ in_page p x) → s'.(k_mem).(m_byte) x = s.(k_mem).(m_byte) x.
Proof.
  intros U Hc. destruct (tb_page _ _ _ (us_tables _ _ _ _ U) pd (or_introl eq_refl)) as [Hpd _].
  pose proof (page_ok_kern _ _ _ (us_free _ _ _ _ U) Hpd) as Hpdk.
  assert (L ≤ pages KERNBASE) as HL.
  { change (pages KERNBASE) with 524288. destruct (decide (L ≤ 524288)) as [|Hn]; [done|]. destruct (proj2 (Hc 524288) ltac:(lia)) as [[f fl] Hf].
    destruct (us_range _ _ _ _ U _ _ _ Hf) as [Hr _]. unfold UPAGES in Hr. lia. }
  destruct (deallocuvm_run pd e s free us KERNBASE 0 L U Hc ltac:(done) ltac:(done) HL) as (s1 & free1 & Hr1 & [S1 S2 S3 S4 S5 S6]). change (pages 0) with 0 in *.
  assert (∀ p, p ∈ free1 ↔ p ∈ free ∨ ∃ k fl, us !! k = Some (p, fl)) as Hfree1.
  { intros p. rewrite S5. split; (intros [?|(k & fl & H)]; [by left|right; exists k, fl]); [apply H|]. split; [|done].
    by destruct (us_range _ _ _ _ U _ _ _ H) as [[? _] _]. }
  pose proof S2 as [V1 V2 V3 _ _ _ _ _]. destruct directory_indices as (ix & Hix & Hnd & Hlt & Hin).
  set (ts := table_pages s1.(k_mem).(m_byte) pd ix).
  assert (∀ p, p ∈ ts ↔ ∃ i, 0 ≤ i < 1024 ∧ tab s1.(k_mem).(m_byte) pd i = Some p) as Hts by (intros p; by apply elem_of_table_pages).
  assert (∀ p, p ∈ ts → page_ok s1.(k_mem) p ∧ p ∉ free1 ∧ p ≠ pd) as Htp.
  { intros p (i & Hi & Ht)%Hts. destruct (tb_page _ _ _ V3 p) as [? ?]; [right; by exists i|]. split; [done|]. split; [done|]. by apply (tb_tab _ _ _ V3 i). }
  assert (NoDup ts) as Htn by (apply table_pages_nodup; [done|done|apply V3]).
  destruct (tb_page _ _ _ V3 pd (or_introl eq_refl)) as [Hpd1 Hpdf].
  destruct (kfree_all ts s1 free1 e V1 V2) as (s2 & Hr2 & T1 & T2 & T3 & T4);
    [apply Forall_forall; intros p Hp; by apply Htp|done|intros p Hp; by apply Htp|].
  assert (page_ok s2.(k_mem) pd) as Hpd2 by (by eapply page_ok_same).
  assert (pd ∉ reverse ts ++ free1) as Hpdn by (rewrite elem_of_app, elem_of_reverse; intros [Hq|?]; [by destruct (Htp pd Hq) as (_ & _ & ?)|done]).
  destruct (kfree_push pd _ s2 e T2 T3 Hpd2 Hpdn) as [Hr3 Hf3].
  exists (freed pd s2), (pd :: reverse ts ++ free1). split; [|split; [|split; [|split; [done|split]]]].
  - unfold freevm. rewrite (proj2 (Z.eqb_neq pd 0)) by (unfold KERNBASE in *; lia). mstep Hr1. rewrite Hix.
    pose proof (free_tables_loop pd ix s1 free1 e V1 V2 Hpd1 Hlt Htn Htp) as Hloop. fold ts in Hloop; rewrite Hr2 in Hloop. mstep Hloop. exact Hr3.
  - eapply vm_same_trans; [exact S1|]. eapply vm_same_trans; [exact T1|apply vm_same_freed].
  - by apply freed_idle.
  - intros p. rewrite elem_of_cons, elem_of_app, elem_of_reverse, Hts, Hfree1. unfold owns. rewrite <- S4. unfold pt_page. tauto.
  - intros x Hx. rewrite freed_bytes, T4, S6; [done| | | |].
    + intros p Hp. apply Hx. by left.
    + intros k f fl Hk _. apply Hx. right. by exists k, fl.
    + intros p (i & Hi & Ht)%Hts. apply Hx. left. apply S4. right. by exists i.
    + apply Hx. left. by left.
Qed.

(** ** Copying *)

(** [copyuvm] under way: the pages of the child come from what was free, [free0]; the first [i] pages are copied. *)
Record copying (s0 : kstate) (free0 : list Z) (pd : Z) (us : gmap Z (Z * Z)) (d data i : Z) (s : kstate) (free : list Z) (usd : gmap Z (Z * Z)) : Prop := {
  cp_same : vm_same s0 s;
  cp_parent : uspace s pd free us;
  cp_child : uspace s d free usd;
  cp_apart : ∀ p, owns s pd us p → p ∉ free0;
  cp_from : ∀ p, p ∈ free ∨ owns s d usd p → p ∈ free0;
  cp_cont : contiguous usd i;
  cp_bytes : ∀ x, (∀ p, p ∈ free0 → ¬ in_page p x) → s.(k_mem).(m_byte) x = s0.(k_mem).(m_byte) x;
  cp_copy : ∀ k f fl, k < i → us !! k = Some (f, fl) → ∃ a, usd !! k = Some (a, Z.lor fl PTE_P) ∧
    ∀ o, 0 ≤ o < 4096 → s.(k_mem).(m_byte) (a + o) = s0.(k_mem).(m_byte) (f + o);
  cp_kernel : ∀ va, KERNBASE ≤ va < 4294967296 → pte s.(k_mem).(m_byte) d va = kernel_pte data va;
  cp_owns : ∀ p, owns s pd us p ↔ owns s0 pd us p
}.

Section copying.
Context (s0 : kstate) (free0 : list Z) (pd : Z) (us : gmap Z (Z * Z)) (d data : Z) (e : list (kstate → kstate)).
Hypothesis Hfree0 : Forall (page_ok s0.(k_mem)) free0.

(** Pages of the parent are not where the child and the free pages are. *)
Lemma copying_parent_area i s free usd p x :
  copying s0 free0 pd us d data i s free usd → owns s pd us p → in_page p x → ∀ q, q ∈ free0 → ¬ in_page q x.
Proof.
  intros C Hp Hx q Hq Hxq. apply (cp_apart _ _ _ _ _ _ _ _ _ _ C p Hp). replace p with q; [done|].
  eapply in_page_eq; [|by apply (owns_page _ _ _ _ _ (cp_parent _ _ _ _ _ _ _ _ _ _ C))|done|done].
  eapply page_ok_same; [apply C|]. by apply (proj1 (Forall_forall _ _) Hfree0).
Qed.

(** A step that takes pages of the free ones for the child keeps the parent. *)
Lemma copying_step i s free usd s' free' usd' i' :
  copying s0 free0 pd us d data i s free usd →
  vm_same s s' → uspace s' d free' usd' → contiguous usd' i' →
  (∀ p, p ∈ free' ∨ owns s' d usd' p → p ∈ free ∨ owns s d usd p) →
  (∀ x, (∀ p, p ∈ free ∨ owns s d usd p → ¬ in_page p x) → s'.(k_mem).(m_byte) x = s.(k_mem).(m_byte) x) →
  (∀ k f fl, k < i' → us !! k = Some (f, fl) → ∃ a, usd' !! k = Some (a, Z.lor fl PTE_P) ∧
    ∀ o, 0 ≤ o < 4096 → s'.(k_mem).(m_byte) (a + o) = s0.(k_mem).(m_byte) (f + o)) →
  same_kernel s s' d → copying s0 free0 pd us d data i' s' free' usd'.
Proof.
  intros C Hs U Hc Hfrom Hb Hcopy Hk. pose proof C as [C1 C2 C3 C4 C5 C6 C7 C8 C9 C10].
  assert (∀ p x, owns s pd us p → in_page p x → s'.(k_mem).(m_byte) x = s.(k_mem).(m_byte) x) as Hpar.
  { intros p x Hp Hx. apply Hb. intros q Hq. eapply copying_parent_area; [done|done|done|by apply C5]. }
  destruct (uspace_frame s pd free us s' free' C2 Hs (us_idle _ _ _ _ U) (us_free _ _ _ _ U) Hpar) as (U' & Ho & _).
  { intros p Hp Hf. apply (C4 p Hp), C5, Hfrom. by left. }
  split; [by eapply vm_same_trans|done|done| | |done| |done| |].
  - intros p Hp%Ho. by apply C4.
  - intros p Hp. by apply C5, Hfrom.
  - intros x Hx. rewrite Hb; [by apply C7|]. intros p Hp. by apply Hx, C5.
  - intros va Hva. rewrite Hk by done. by apply C9.
  - intros p. by rewrite Ho, C10.
Qed.

(** The copied pages stay as they are. *)
Lemma copied_kept i s free usd s' :
  copying s0 free0 pd us d data i s free usd → (∀ x, ¬ pt_area s.(k_mem).(m_byte) d free x → s'.(k_mem).(m_byte) x = s.(k_mem).(m_byte) x) →
  ∀ k f fl, k < i → us !! k = Some (f, fl) → ∃ a, usd !! k = Some (a, Z.lor fl PTE_P) ∧
    ∀ o, 0 ≤ o < 4096 → s'.(k_mem).(m_byte) (a + o) = s0.(k_mem).(m_byte) (f + o).
Proof.
  intros C Hb k f fl Hk Hf. destruct (cp_copy _ _ _ _ _ _ _ _ _ _ C k f fl Hk Hf) as (a & Ha & Hbytes). exists a. split; [done|].
  intros o Ho. rewrite Hb; [by apply Hbytes|]. eapply frame_area; [apply C|exact Ha|]. unfold in_page, PGSIZE. lia.
Qed.

Lemma area_from i s free usd x :
  copying s0 free0 pd us d data i s free usd → (∀ p, p ∈ free ∨ owns s d usd p → ¬ in_page p x) → ¬ pt_area s.(k_mem).(m_byte) d free x.
Proof. intros _ Hx (p & Hp & Hxp). apply (Hx p); [|done]. destruct Hp; [right; by left|by left]. Qed.

(** One page is taken off the free ones and written, before it is mapped. *)
Lemma copying_take i s s1 free usd a f fl :
  copying s0 free0 pd us d data i s (a :: free) usd → us !! i = Some (f, fl) →
  kalloc s e = Ret a s1 e → ∀ s2, s2 = on_mem (λ m, set_m_byte (copy a f PGSIZE m.(m_byte)) m) s1 →
  takes s (a :: free) s2 [a] free → s2.(k_mem).(m_byte) = copy a f PGSIZE s.(k_mem).(m_byte) →
  uspace s2 d free usd ∧ (∀ p, pt_page s2.(k_mem).(m_byte) d p ↔ pt_page s.(k_mem).(m_byte) d p) ∧ same_kernel s s2 d ∧
  page_ok s2.(k_mem) a ∧ a ∉ free ∧ ¬ pt_page s2.(k_mem).(m_byte) d a ∧ (∀ k fl, usd !! k ≠ Some (a, fl)) ∧
  ∀ o, 0 ≤ o < 4096 → s2.(k_mem).(m_byte) (a + o) = s0.(k_mem).(m_byte) (f + o).
Proof.
  intros C Hf Hk s2 _ T Hm. destruct (uspace_takes _ _ _ _ _ _ _ (cp_child _ _ _ _ _ _ _ _ _ _ C) T) as (G & Hp & Hu).
  destruct (Hu a) as (A1 & A2 & A3 & A4); [by apply list_elem_of_singleton|].
  split; [apply (ug_space _ _ _ _ _ _ _ G)|]. split; [done|]. split; [apply (ug_kernel _ _ _ _ _ _ _ G)|]. do 4 (split; [done|]).
  intros o Ho. rewrite Hm, copy_in by (unfold PGSIZE; lia). replace (f + (a + o - a)) with (f + o) by lia.
  apply (cp_bytes _ _ _ _ _ _ _ _ _ _ C). eapply copying_parent_area; [done|right; by exists i, fl|unfold in_page, PGSIZE; lia].
Qed.

(** Page [i] is in the frame [a], and [mappages] of it has gone from [s2] to [s3]. *)
Section page.
Context (i : Z) (s : kstate) (a : Z) (free : list Z) (usd : gmap Z (Z * Z)) (f fl : Z) (s3 : kstate) (used free3 : list Z).
Hypothesis C : copying s0 free0 pd us d data i s (a :: free) usd.
Hypothesis Hi : 0 ≤ i.
Hypothesis Hf : us !! i = Some (f, fl).
Hypothesis Hcons : conserved free0 d s (a :: free) usd [].
Hypothesis Hu : free = used ++ free3.
Hypothesis Hsame : vm_same s s3.
Hypothesis Hker : same_kernel s s3 d.
Hypothesis P : ∀ p, pt_page s3.(k_mem).(m_byte) d p ↔ pt_page s.(k_mem).(m_byte) d p ∨ p ∈ used.
Hypothesis Hb : ∀ x, ¬ pt_area s.(k_mem).(m_byte) d (a :: free) x → s3.(k_mem).(m_byte) x = s.(k_mem).(m_byte) x.

Lemma page_from p : p ∈ free3 ∨ pt_page s3.(k_mem).(m_byte) d p → p ∈ a :: free ∨ owns s d usd p.
Proof.
  rewrite P, elem_of_cons, Hu, elem_of_app. intros [?|[?|?]]; [by left; right; right|right; by left|by left; right; left].
Qed.

Lemma page_kept : ∀ p, p ∈ free0 → p ∈ free3 ∨ owns s3 d usd p ∨ p = a.
Proof.
  intros p Hp. unfold owns. rewrite P. destruct (Hcons p Hp) as [[->|Hpf]%elem_of_cons|[[Ho|Hk]|Hno]].
  - by right; right.
  - rewrite Hu in Hpf. apply elem_of_app in Hpf as [Hpf|Hpf]; [right; left; by left; right|by left].
  - right. left. by left; left.
  - right. left. by right.
  - by apply elem_of_nil in Hno.
Qed.

Lemma page_mapped :
  uspace s3 d free3 (<[i := (a, Z.lor fl PTE_P)]> usd) → (∀ o, 0 ≤ o < 4096 → s3.(k_mem).(m_byte) (a + o) = s0.(k_mem).(m_byte) (f + o)) →
  copying s0 free0 pd us d data (i + 1) s3 free3 (<[i := (a, Z.lor fl PTE_P)]> usd) ∧ conserved free0 d s3 free3 (<[i := (a, Z.lor fl PTE_P)]> usd) [].
Proof.
  intros U3 Ha. pose proof (cp_cont _ _ _ _ _ _ _ _ _ _ C) as Hc. split; [eapply copying_step; [done|done|done|by apply contiguous_insert| | | |done]|].
  - intros p [Hp|[Hp|(k & fl' & Hk')]]; [apply page_from; by left|apply page_from; by right|].
    apply lookup_insert_Some in Hk' as [[_ [= <- _]]|[_ Hk']]; [left; by left|right; right; by exists k, fl'].
  - intros x Hx. apply Hb. by eapply area_from.
  - intros k f' fl' Hk' Hf'. destruct (decide (k = i)) as [->|Hne].
    + rewrite Hf in Hf'. injection Hf' as <- <-. exists a. by rewrite lookup_insert_eq.
    + rewrite lookup_insert_ne by done. apply (copied_kept i s (a :: free) usd s3 C Hb k f' fl'); [lia|done].
  - intros p Hp. destruct (page_kept p Hp) as [?|[[Ho|(k & fl' & Hk)]| ->]]; [by left|right; left; by left| |].
    + right. left. right. exists k, fl'. rewrite lookup_insert_ne; [done|]. intros <-.
      assert (is_Some (usd !! i)) as Hs by (by eexists). apply (Hc i) in Hs. lia.
    + right. left. right. exists i, (Z.lor fl PTE_P). by rewrite lookup_insert_eq.
Qed.

Lemma page_failed : uspace s3 d free3 usd → copying s0 free0 pd us d data i s3 free3 usd ∧ conserved free0 d s3 free3 usd [a].
Proof.
  intros U3. split; [eapply copying_step; [done|done|done|apply C| | |by apply (copied_kept i s (a :: free))|done]|].
  - intros p [Hp|[Hp|(k & fl' & Hk')]]; [apply page_from; by left|apply page_from; by right|right; right; by exists k, fl'].
  - intros x Hx. apply Hb. by eapply area_from.
  - intros p Hp. rewrite list_elem_of_singleton. by apply page_kept.
Qed.
End page.

(** One page of the loop: the calls it makes, and their effect. *)
Lemma copy_page i s free usd f fl :
  copying s0 free0 pd us d data i s free usd → us !! i = Some (f, fl) → conserved free0 d s free usd [] →
  (∃ s1, kalloc s e = Ret 0 s1 e ∧ copying s0 free0 pd us d data i s1 [] usd ∧ conserved free0 d s1 [] usd []) ∨
  (∃ a s1 s2 r s3 free3, kalloc s e = Ret a s1 e ∧ a ≠ 0 ∧ memmoveM a f PGSIZE s1 e = Ret tt s2 e ∧
     mappages d (4096 * i) PGSIZE (V2P a) (Z.lor fl PTE_P) s2 e = Ret r s3 e ∧
     (r = 0 ∧ (∃ usd3, copying s0 free0 pd us d data (i + 1) s3 free3 usd3 ∧ conserved free0 d s3 free3 usd3 []) ∨
      r = -1 ∧ copying s0 free0 pd us d data i s3 [] usd ∧ conserved free0 d s3 [] usd [a])).
Proof.
  intros C Hf Hcons. pose proof (cp_child _ _ _ _ _ _ _ _ _ _ C) as U. pose proof (us_idle _ _ _ _ U) as Hidle. pose proof (us_free _ _ _ _ U) as Hfree.
  destruct (us_range _ _ _ _ (cp_parent _ _ _ _ _ _ _ _ _ _ C) _ _ _ Hf) as [Hir Hfl]. destruct free as [|a free].
  { left. destruct (kalloc_empty s e Hidle Hfree) as [Hr Hf']. exists (alloced 0 s). split; [done|].
    destruct (uspace_takes s d [] usd (alloced 0 s) [] [] U) as (G & Hp & _); [split; [apply vm_same_alloced|auto with cint|done|done|done]|].
    split; [|intros p Hpf; destruct (Hcons p Hpf) as [?|[Ho|?]]; [by left|right; left; unfold owns; by rewrite Hp|by right; right]].
    eapply copying_step; [done|apply vm_same_alloced|apply (ug_space _ _ _ _ _ _ _ G)|apply C| |done|apply (copied_kept _ _ _ _ _ C); done|done].
    intros p. unfold owns. by rewrite Hp. }
  right. destruct (take_page (copy a f PGSIZE) s free e a Hidle Hfree) as (Hk & T & Ha & Ha0 & Hnin & Hm2).
  { intros m x Hx. apply copy_out. unfold in_page in Hx. lia. }
  set (s1 := alloced _ s) in *. set (s2 := on_mem _ s1) in *.
  destruct (copying_take i s s1 free usd a f fl C Hf Hk s2 eq_refl T Hm2) as (U2 & P2 & K2 & A1 & A2 & A3 & A4 & A5).
  assert (usd !! i = None) as Hnone by (apply eq_None_not_Some; rewrite (cp_cont _ _ _ _ _ _ _ _ _ _ C i); lia).
  destruct (uspace_map s2 d free usd e i a (Z.lor fl PTE_P) U2 Hnone Hir (lor_small fl PTE_P Hfl ltac:(done)) A1 A2 A3 A4) as (r & s3 & free3 & Hr & Hs & K3 & Hc).
  exists a, s1, s2, r, s3, free3. split; [done|]. split; [done|]. split; [done|]. split; [done|].
  destruct (ps_used _ _ _ _ _ Hs) as (used & Hu & P3).
  assert (∀ x, ¬ pt_area s.(k_mem).(m_byte) d (a :: free) x → s3.(k_mem).(m_byte) x = s.(k_mem).(m_byte) x) as Hb.
  { intros x Hx. rewrite (ps_bytes _ _ _ _ _ Hs).
    - apply (tk_bytes _ _ _ _ _ T). intros p Hp Hxp. apply Hx. exists p. split; [by right|done].
    - intros (p & Hp & Hxp). apply Hx. exists p. split; [|done]. destruct Hp as [Hp|Hp]; [left; by apply P2|right; by right]. }
  assert (vm_same s s3) as Hsame by (eapply vm_same_trans; [apply T|apply Hs]).
  assert (same_kernel s s3 d) as Hker by (intros va Hva; by rewrite K3, K2).
  assert (∀ p, pt_page s3.(k_mem).(m_byte) d p ↔ pt_page s.(k_mem).(m_byte) d p ∨ p ∈ used) as P by (intros p; by rewrite P3, P2).
  destruct Hc as [[-> U3]|(-> & -> & U3)]; [left|right]; (split; [done|]).
  - eexists. eapply page_mapped; try done; [lia|]. intros o Ho. rewrite <- A5 by done. apply (ps_bytes _ _ _ _ _ Hs).
    intros (p & Hp & Hxp). assert (p = a) as ->; [|by destruct Hp]. eapply in_page_eq; [|exact A1|done|unfold in_page, PGSIZE; lia].
    destruct Hp as [Hp|Hp]; [by apply (tb_page _ _ _ (us_tables _ _ _ _ U2))|]. destruct (us_free _ _ _ _ U2) as (_ & _ & Hok & _). by apply (proj1 (Forall_forall _ _) Hok).
  - by eapply page_failed.
Qed.
End copying.

Lemma copyuvm_loop_run s0 free0 pd us d data e sz : ∀ n s free usd j,
  Forall (page_ok s0.(k_mem)) free0 → contiguous us (pages sz) → 0 ≤ sz ≤ KERNBASE → 0 ≤ j ≤ pages sz →
  sz - 4096 * j ≤ 4096 * (Z.of_nat n - 1) → (0 < n)%nat →
  copying s0 free0 pd us d data j s free usd → conserved free0 d s free usd [] →
  ∃ b s' free' usd' j' lost, copyuvm_loop n pd d (4096 * j) sz s e = Ret b s' e ∧
    copying s0 free0 pd us d data j' s' free' usd' ∧ conserved free0 d s' free' usd' lost ∧ 0 ≤ j' ≤ pages sz ∧
    (b = true ∧ j' = pages sz ∧ lost = [] ∨ b = false ∧ free' = [] ∧ (length lost ≤ 1)%nat).
Proof.
  induction n as [|n IH]; intros s free usd j Hok0 Hc Hsz Hj Hn Hn0 C Hcons; [lia|]. cbn [copyuvm_loop]. pose proof (pages_spec sz).
  destruct (Z.ltb_spec (4096 * j) sz) as [Hlt|Hge].
  2: { exists true, s, free, usd, j, []. split; [done|]. split; [done|]. split; [done|]. split; [done|]. left. split; [done|]. split; [lia|done]. }
  change (negb true) with false. cbv iota. destruct (proj2 (Hc j) ltac:(lia)) as [[f fl] Hf].
  pose proof (cp_parent _ _ _ _ _ _ _ _ _ _ C) as U. destruct (us_range _ _ _ _ U _ _ _ Hf) as [Hjr Hfl]. destruct (us_frame _ _ _ _ U _ _ _ Hf) as (Hfo & _).
  destruct (frame_pa _ _ f (us_free _ _ _ _ U) Hfo) as (F1 & F2 & F3 & F4 & F5).
  destruct (mkpte_spec (V2P f) fl F2 ltac:(unfold PHYSTOP in *; lia) Hfl) as (M1 & M2 & M3 & _).
  pose proof (us_pte _ _ _ _ U _ _ _ Hf) as Hp. unfold pte in Hp.
  destruct (tab s.(k_mem).(m_byte) pd (PDX (4096 * j))) as [t|] eqn:Ht; [|by rewrite <- Hp in M1].
  destruct (tb_page _ _ _ (us_tables _ _ _ _ U) t) as [Hto _]; [right; exists (PDX (4096 * j)); split; [apply PDX_range|done]|].
  pose proof (page_ok_kern _ _ t (us_free _ _ _ _ U) Hto) as Htk. pose proof (PTX_range (4096 * j)).
  mstep (walkpgdir_find pd s e (4096 * j) false t Ht). rewrite (proj2 (Z.eqb_neq _ 0)) by (unfold KERNBASE in *; lia).
  unfold loadM. rewrite bind_gets, Hp. fold (present (mkpte (V2P f) fl)). rewrite M1, M2, M3, F5. change (negb true) with false. cbv iota zeta.
  destruct (copy_page s0 free0 pd us d data e Hok0 j s free usd f fl C Hf Hcons) as [(s1 & Hk & C1 & Hc1)|(a & s1 & s2 & r & s3 & free3 & Hk & Ha0 & Hm & Hr & Hcase)].
  - exists false, s1, [], usd, j, []. split; [by mstep Hk|]. split; [done|]. split; [done|]. split; [done|]. right. split; [done|]. split; [done|simpl; lia].
  - mstep Hk. rewrite (proj2 (Z.eqb_neq a 0) Ha0). mstep Hm. mstep Hr. destruct Hcase as [[-> (usd3 & C3 & Hc3)]|(-> & C3 & Hc3)].
    + change (0 <? 0) with false. cbv iota. replace (u32 (4096 * j + PGSIZE)) with (4096 * (j + 1)).
      * apply (IH s3 free3 usd3 (j + 1)); try done; lia.
      * unfold PGSIZE. rewrite u32_id by (unfold is_u32, KERNBASE in *; lia). lia.
    + exists false, s3, [], usd, j, [a]. split; [done|]. split; [done|]. split; [done|]. split; [done|]. right. split; [done|]. split; [done|simpl; lia].
Qed.

(** The start of the loop: a page table with the kernel part only. *)
Lemma copying_start s0 free0 pd us d data s used free :
  uspace s0 pd free0 us → takes s0 free0 s used free → tables s.(k_mem) d free → (∀ p, pt_page s.(k_mem).(m_byte) d p ↔ p ∈ used) →
  (∀ va, is_u32 va → pte s.(k_mem).(m_byte) d va = kernel_pte data va) → data_ok data →
  copying s0 free0 pd us d data 0 s free ∅ ∧ conserved free0 d s free ∅ [].
Proof.
  intros U T Ht Hp Hk Hd. destruct (uspace_takes _ _ _ _ _ _ _ U T) as (G & P & _). pose proof (tk_used _ _ _ _ _ T) as Hu.
  assert (∀ p, owns s d ∅ p ↔ p ∈ used) as Ho.
  { intros p. unfold owns. rewrite Hp. split; [|by left]. intros [?|(k & fl & Hk')]; [done|]. by rewrite lookup_empty in Hk'. }
  split.
  - split; [apply T|apply (ug_space _ _ _ _ _ _ _ G)| | | | |apply T| | |intros p; unfold owns; by rewrite P].
    + by eapply uspace_new.
    + intros p Hpo. apply (owns_page s0 pd free0 us p U). unfold owns in *. by rewrite P in Hpo.
    + intros p. rewrite Ho, Hu, elem_of_app. tauto.
    + intros k. rewrite lookup_empty. split; [by intros []|lia].
    + intros k f fl Hk0 Hf. destruct (us_range _ _ _ _ U _ _ _ Hf). lia.
    + intros va Hva. apply Hk. unfold is_u32, KERNBASE in *. lia.
  - intros p. rewrite Ho, Hu, elem_of_app. tauto.
Qed.

(** The child is given up: its pages are free again, the parent is as it was. *)
Lemma copying_abort s0 free0 pd us d data i s free usd e :
  copying s0 free0 pd us d data i s free usd → Forall (page_ok s0.(k_mem)) free0 →
  ∃ s' free', freevm d s e = Ret tt s' e ∧ vm_same s0 s' ∧ uspace s' pd free' us ∧ (∀ p, p ∈ free' → p ∈ free0) ∧ (∀ p, owns s' pd us p ↔ owns s0 pd us p) ∧
    ∀ x, (∀ p, p ∈ free0 → ¬ in_page p x) → s'.(k_mem).(m_byte) x = s0.(k_mem).(m_byte) x.
Proof.
  intros C Hok. pose proof C as [C1 C2 C3 C4 C5 C6 C7 C8 C9 C10]. destruct (freevm_run s d free usd e i C3 C6) as (s' & free' & Hr & V1 & V2 & V3 & V4 & V5).
  destruct (uspace_frame s pd free us s' free' C2 V1 V2 V3) as (U' & Ho & _).
  - intros p x Hp Hx. apply V5. intros q Hq. eapply copying_parent_area; [done|done|done|done|]. apply C5. by right.
  - intros p Hp Hf%V4. by apply (C4 p Hp), C5.
  - exists s', free'. split; [done|]. split; [by eapply vm_same_trans|]. split; [done|]. split; [intros p Hp%V4; by apply C5|].
    split; [intros p; by rewrite Ho|]. intros x Hx. rewrite V5; [by apply C7|]. intros p Hp. apply Hx, C5. by right.
Qed.

Lemma copyuvm_run s pd free us sz e :
  uspace s pd free us → contiguous us (pages sz) → 0 ≤ sz ≤ KERNBASE → data_ok s.(k_mem).(m_data) →
  ∃ r s' free', copyuvm pd sz s e = Ret r s' e ∧ vm_same s s' ∧ uspace s' pd free' us ∧ (∀ p, p ∈ free' → p ∈ free) ∧ (∀ p, owns s' pd us p ↔ owns s pd us p) ∧
    (∀ x, (∀ p, p ∈ free → ¬ in_page p x) → s'.(k_mem).(m_byte) x = s.(k_mem).(m_byte) x) ∧
    (r = 0 ∧ Z.of_nat (length free) ≤ pages sz + 1026 ∨
     r ≠ 0 ∧ ∃ usd, copying s free pd us r s.(k_mem).(m_data) (pages sz) s' free' usd).
Proof.
  intros U Hc Hsz Hd. destruct (us_free _ _ _ _ U) as (_ & Hnd & Hok & _). pose proof (pages_spec sz).
  destruct (setupkvm_run s free e (us_idle _ _ _ _ U) (us_free _ _ _ _ U) Hd) as (d & s1 & used & free1 & Hr1 & T & Hl & [(-> & ->)|(Hd0 & Ht & Hp & Hk)]).
  { destruct (uspace_takes _ _ _ _ _ _ _ U T) as (G & P & _). exists 0, s1, []. split; [unfold copyuvm; by mstep Hr1|].
    split; [apply T|]. split; [apply (ug_space _ _ _ _ _ _ _ G)|]. split; [intros p Hin; by apply elem_of_nil in Hin|]. split; [intros p; unfold owns; by rewrite P|]. split; [apply T|]. left. split; [done|].
    rewrite (tk_used _ _ _ _ _ T), length_app. unfold NPDENTRIES in Hl. simpl. lia. }
  destruct (copying_start s free pd us d s.(k_mem).(m_data) s1 used free1 U T Ht Hp Hk Hd) as [C Hcons].
  destruct (copyuvm_loop_run s free pd us d s.(k_mem).(m_data) e sz (Z.to_nat (sz / PGSIZE + 2)) s1 free1 ∅ 0) as (b & s2 & free2 & usd & j & lost & Hr2 & C2 & Hcons2 & Hj & Hcase); try (done || lia).
  { pose proof (Z.div_mod sz PGSIZE ltac:(done)). pose proof (Z.mod_pos_bound sz PGSIZE eq_refl). pose proof (Z.div_pos sz PGSIZE ltac:(lia) eq_refl). unfold PGSIZE in *. lia. }
  { pose proof (Z.div_pos sz PGSIZE ltac:(lia) eq_refl). lia. }
  assert (copyuvm pd sz s e = ((if b then ret d else freevm d;; ret 0) s2 e)) as Hrun.
  { unfold copyuvm. mstep Hr1. rewrite (proj2 (Z.eqb_neq d 0) Hd0). change 0 with (4096 * 0) at 1. by mstep Hr2. }
  destruct Hcase as [(-> & -> & ->)|(-> & -> & Hlost)].
  - exists d, s2, free2. split; [done|]. split; [apply C2|]. split; [apply C2|]. split; [intros p Hin; apply C2; by left|]. split; [apply C2|]. split; [apply C2|]. right. split; [done|]. by exists usd.
  - destruct (copying_abort _ _ _ _ _ _ _ _ _ _ e C2 Hok) as (s3 & free3 & Hr3 & V1 & V2 & V3 & V4 & V5).
    exists 0, s3, free3. split; [rewrite Hrun; by mstep Hr3|]. do 5 (split; [done|]). left. split; [done|].
    pose proof (conserved_bound _ _ _ _ _ _ _ Hnd Hcons2 (cp_cont _ _ _ _ _ _ _ _ _ _ C2) ltac:(lia)). simpl in *. lia.
Qed.

(** All that a caller can know of [copyuvm]. *)
Lemma copyuvm_spec s pd free us sz e :
  uspace s pd free us → contiguous us (pages sz) → 0 ≤ sz ≤ KERNBASE → data_ok s.(k_mem).(m_data) →
  ∃ r s' free', copyuvm pd sz s e = Ret r s' e ∧ vm_same s s' ∧ uspace s' pd free' us ∧ (∀ p, p ∈ free' → p ∈ free) ∧ (∀ p, owns s' pd us p ↔ owns s pd us p) ∧
    (∀ va, 0 ≤ va < 4096 * pages sz → user_byte s' pd va = user_byte s pd va ∧ is_Some (user_byte s pd va)) ∧
    (r = 0 → Z.of_nat (length free) ≤ pages sz + 1026) ∧
    (r ≠ 0 →
      (∃ usd, uspace s' r free' usd ∧ contiguous usd (pages sz) ∧ apart s' pd us r usd ∧ ∀ p, owns s' r usd p → p ∈ free) ∧
      (∀ va, 0 ≤ va < 4096 * pages sz → user_byte s' r va = user_byte s pd va ∧ translate s'.(k_mem).(m_byte) r va ≠ translate s'.(k_mem).(m_byte) pd va) ∧
      ∀ va, KERNBASE ≤ va < 4294967296 → pte s'.(k_mem).(m_byte) r va = kernel_pte s.(k_mem).(m_data) va).
Proof.
  intros U Hc Hsz Hd. destruct (copyuvm_run s pd free us sz e U Hc Hsz Hd) as (r & s' & free' & Hr & Hs & U' & Hsub & Hown & Hb & Hcase).
  destruct (us_free _ _ _ _ U) as (_ & _ & Hok & _). exists r, s', free'. do 5 (split; [done|]). split; [|split].
  - intros va Hva. destruct (contiguous_translate _ _ _ _ _ _ U Hc Hva) as (f & fl & Hf & Hfo & Ht & Ho).
    destruct (contiguous_translate _ _ _ _ _ _ U' Hc Hva) as (f' & fl' & Hf' & _ & Ht' & _). simplify_eq.
    unfold user_byte. rewrite Ht, Ht'. split; [|by eexists]. cbn [fmap option_fmap option_map]. f_equal. apply Hb. intros p Hp Hx.
    destruct (us_frame _ _ _ _ U _ _ _ Hf) as (_ & Hnf & _). apply Hnf. replace f with p; [done|].
    eapply in_page_eq; [by apply (proj1 (Forall_forall _ _) Hok)|done|done|unfold in_page, PGSIZE; lia].
  - intros ->. by destruct Hcase as [[_ ?]|[? _]].
  - intros Hr0. destruct Hcase as [[? _]|(_ & usd & C)]; [done|]. pose proof C as [C1 C2 C3 C4 C5 C6 C7 C8 C9 C10]. split; [|split; [|done]].
    + exists usd. split; [done|]. split; [done|]. split; [intros p Hp Hp'; apply (C4 p Hp), C5; by right|]. intros p Hp. apply C5. by right.
    + intros va Hva. destruct (contiguous_translate _ _ _ _ _ _ U Hc Hva) as (f & fl & Hf & Hfo & Ht & Ho).
      destruct (contiguous_translate _ _ _ _ _ _ U' Hc Hva) as (f' & fl' & Hf' & Hfo' & Ht' & _). simplify_eq.
      destruct (contiguous_translate _ _ _ _ _ _ C3 C6 Hva) as (a & fla & Ha & Hao & Hta & _).
      destruct (C8 (va / 4096) f fl) as (a' & Ha' & Hbytes); [apply Z.div_lt_upper_bound; lia|done|]. simplify_eq.
      unfold user_byte. rewrite Ht, Ht', Hta. split; [cbn [fmap option_fmap option_map]; f_equal; by apply Hbytes|].
      intros [= Heq]. replace a with f in * by lia. apply (C4 f); [right; by exists (va / 4096), fl|]. apply C5. right. right. by eexists _, _.
Qed.

(** C6: [copyuvm] copies the user memory of a process of [sz] bytes.  It always returns.  The parent's memory, page table and
    bytes, is as before.  When it answers a page directory, the child has pages of its own: every user address of the parent
    is mapped in the child, to a different physical byte with the same value, and the child's kernel part is the one of
    [setupkvm].  It answers 0 only when fewer pages are free than the copy and its tables can need. *)
Theorem copyuvm_correct s pd free us sz e :
  uspace s pd free us → contiguous us (pages sz) → 0 ≤ sz ≤ KERNBASE → data_ok s.(k_mem).(m_data) →
  ∃ r s' free', copyuvm pd sz s e = Ret r s' e ∧ vm_same s s' ∧ uspace s' pd free' us ∧
    (∀ va, 0 ≤ va < 4096 * pages sz → user_byte s' pd va = user_byte s pd va ∧ is_Some (user_byte s pd va)) ∧
    (r = 0 → Z.of_nat (length free) ≤ pages sz + 1026) ∧
    (r ≠ 0 →
      (∃ usd, uspace s' r free' usd ∧ contiguous usd (pages sz) ∧ apart s' pd us r usd) ∧
      (∀ va, 0 ≤ va < 4096 * pages sz → user_byte s' r va = user_byte s pd va ∧ translate s'.(k_mem).(m_byte) r va ≠ translate s'.(k_mem).(m_byte) pd va) ∧
      ∀ va, KERNBASE ≤ va < 4294967296 → pte s'.(k_mem).(m_byte) r va = kernel_pte s.(k_mem).(m_data) va).
Proof.
  intros U Hc Hsz Hd. destruct (copyuvm_spec s pd free us sz e U Hc Hsz Hd) as (r & s' & free' & Hr & Hs & U' & _ & _ & Hp & H0 & H1).
  exists r, s', free'. do 5 (split; [done|]). intros Hr0. destruct (H1 Hr0) as ((usd & Ud & Hcd & Hap & _) & H2). split; [by exists usd|done].
Qed.

Lemma copyuvm_correct_witness : ∃ s pd r s', copyuvm pd 8000 s [] = Ret r s' [] ∧ r ≠ 0 ∧
  ∀ va, 0 ≤ va < 8192 → user_byte s' r va = user_byte s pd va ∧ translate s'.(k_mem).(m_byte) r va ≠ translate s'.(k_mem).(m_byte) pd va.
Proof.
  destruct demo_space as (s & pd & free & us & U & Hc & _ & Hd & Hl & _). exists s, pd.
  destruct (copyuvm_correct s pd free us 8000 [] U Hc ltac:(done) Hd) as (r & s' & free' & Hr & _ & _ & _ & Hfail & Hok).
  exists r, s'. split; [done|]. assert (r ≠ 0) as Hr0 by (intros Hr0; specialize (Hfail Hr0); change (pages 8000) with 2 in Hfail; lia).
  split; [done|]. by apply Hok.
Defined.
