(* ===== verification/Proc.v ===== *)
(** * Processes: sleeping, waking and scheduling (proc.c)

    The operations on the process table that change the state of a process,
    and the scheduler, in both of its compile-time variants.  [swtch] is
    assembly: it uses up one transformer of the environment, which says what
    the rest of the system did before the CPU came back. *)

From S2P Require Import Prelude KState Spinlock Print Mem Args Kalloc Vm.
#[local] Open Scope kernel_scope.

(** The first slot, in table order, that satisfies [P]: the search loops
    [for(p = ptable.proc; ...) if(P) ...]. *)
Definition pfind (P : proc → bool) (ps : list proc) : option nat := fst <$> list_find P ps.

(** ** Sleep and wakeup *)

Definition wake_one (ch : option chan) (p : proc) : proc :=
  if bool_decide (p.(p_state) = SLEEPING) && bool_decide (p.(p_chan) = ch)
  then set_p_state RUNNABLE p else p.

Definition wakeup1 (ch : option chan) : K unit :=
  modify (on_pt (λ pt, set_pt_proc (wake_one ch <$> pt.(pt_proc)) pt)).

Definition wakeup (ch : chan) : K unit :=
  acquire Lptable;;
  wakeup1 (Some ch);;
  release Lptable.

Definition sched : K unit :=
  h <- holding Lptable;;
  if negb h then panic "sched ptable.lock" else
  c <- gets (λ s, s.(k_cpu));;
  if negb (c.(c_ncli) =? 1) then panic "sched locks" else
  i <- curproc;; p <- getp i;;
  if bool_decide (p.(p_state) = RUNNING) then panic "sched running" else
  fl <- readeflags_IF;;
  if truthy fl then panic "sched interruptible" else
  intena <- gets (λ s, s.(k_cpu).(c_intena));;
  swtch;;
  modify (on_cpu (set_c_intena intena)).

Definition yield : K unit :=
  acquire Lptable;;
  i <- curproc;;
  modp i (set_p_state RUNNABLE);;
  sched;;
  release Lptable.

(** [sleep(chan, lk)]; a null [lk] does not occur in the model, where locks
    are names. *)
Definition sleep (ch : chan) (lk : lockid) : K unit :=
  o <- proc_var;;
  match o with
  | None => panic "sleep"
  | Some _ =>
      (if decide (lk = Lptable) then ret tt else acquire Lptable;; release lk);;
      i <- curproc;;
      modp i (λ p, set_p_state SLEEPING (set_p_chan (Some ch) p));;
      sched;;
      i' <- curproc;;
      modp i' (set_p_chan None);;
      (if decide (lk = Lptable) then ret tt else release Lptable;; acquire lk)
  end.

Definition kill_one (p : proc) : proc :=
  let p1 := set_p_killed 1 p in
  if bool_decide (p.(p_state) = SLEEPING) then set_p_state RUNNABLE p1 else p1.

Definition kill (pid : Z) : K Z :=
  acquire Lptable;;
  o <- gets (λ s, pfind (λ p, p.(p_pid) =? pid) s.(k_pt).(pt_proc));;
  match o with
  | Some i => modp i kill_one;; release Lptable;; ret 0
  | None => release Lptable;; ret (-1)
  end.

(** ** The scheduler *)

(** The scan of the priority scheduler from slot [i]; [best] is
    [highest_priority_proc]. *)
Fixpoint highest_from (ps : list proc) (i : nat) (best : option (nat * Z)) : option (nat * Z) :=
  match ps with
  | [] => best
  | p :: ps' =>
      if negb (bool_decide (p.(p_state) = RUNNABLE)) then highest_from ps' (S i) best else
      match best with
      | None => highest_from ps' (S i) (Some (i, p.(p_priority)))
      | Some (_, q) =>
          if p.(p_priority) <? q then highest_from ps' (S i) (Some (i, p.(p_priority)))
          else highest_from ps' (S i) best
      end
  end.

Definition highest (ps : list proc) : option nat := fst <$> highest_from ps 0 None.

(** Dispatch slot [i]: the code from [c->proc = p] to [c->proc = 0]. *)
Definition dispatch (i : nat) : K unit :=
  modify (on_cpu (set_c_proc (Some i)));;
  p <- getp i;;
  switchuvm p p;;
  modp i (set_p_state RUNNING);;
  swtch;;
  switchkvm;;
  modify (on_cpu (set_c_proc None)).

(** One iteration of the loop of [scheduler] under SCHEDULER_PRIORITY, the
    variant the Makefile builds. *)
Definition scheduler_round : K unit :=
  sti;;
  acquire Lptable;;
  o <- gets (λ s, highest s.(k_pt).(pt_proc));;
  (match o with Some i => dispatch i | None => ret tt end);;
  release Lptable.

(** One iteration of the original round-robin variant. *)
Definition scheduler_round_rr : K unit :=
  sti;;
  acquire Lptable;;
  for_each (seq 0 NPROC) (λ i,
    p <- getp i;;
    if negb (bool_decide (p.(p_state) = RUNNABLE)) then ret tt else dispatch i);;
  release Lptable.

(** [scheduler] never returns: its first [n] rounds. *)
Fixpoint rounds (round : K unit) (n : nat) : K unit :=
  match n with O => ret tt | S n' => round;; rounds round n' end.

Definition scheduler (n : nat) : K unit :=
  mycpu;;
  modify (on_cpu (set_c_proc None));;
  rounds scheduler_round n.

Definition scheduler_rr (n : nat) : K unit :=
  mycpu;;
  modify (on_cpu (set_c_proc None));;
  rounds scheduler_round_rr n.

(** ** procdump *)

Definition state_name (st : procstate) : string :=
  match st with
  | UNUSED => "unused" | EMBRYO => "embryo" | SLEEPING => "sleep "
  | RUNNABLE => "runble" | RUNNING => "run   " | ZOMBIE => "zombie"
  end.

(** [getcallerpcs]: walks the saved frame pointers in the kernel's memory from
    frame pointer [ebp], [n] entries at most; missing entries are 0. *)
Fixpoint getcallerpcs (n : nat) (m : mem) (ebp : Z) : list Z :=
  match n with
  | O => []
  | S n' =>
      if (ebp =? 0) || (ebp <? KERNBASE) || (ebp =? 4294967295) then replicate n 0
      else load32 m (ebp + 4) :: getcallerpcs n' m (load32 m ebp)
  end.

Fixpoint until_zero (l : list Z) : list Z :=
  match l with [] => [] | x :: l' => if x =? 0 then [] else x :: until_zero l' end.

Definition procdump : K unit :=
  for_each (seq 0 NPROC) (λ i,
    p <- getp i;;
    if bool_decide (p.(p_state) = UNUSED) then ret tt else
    cprintf "%d %s %s" [AInt p.(p_pid); AStr (Some (str (state_name p.(p_state)))); AStr (Some p.(p_name))];;
    (if bool_decide (p.(p_state) = SLEEPING) then
       m <- gets (λ s, s.(k_mem).(m_byte));;
       for_each (until_zero (getcallerpcs 10 m p.(p_context).(cx_ebp)))
         (λ pc, cprintf " %p" [AInt pc])
     else ret tt);;
    cprintf newline []).

(** ** What the priority scan selects *)

Definition runnable (p : proc) : Prop := p.(p_state) = RUNNABLE.

(** [p], at slot [i], is the choice among [ps]: runnable, no runnable process
    has a smaller priority number, and those before it have a larger one. *)
Definition is_highest (ps : list proc) (i : nat) : Prop :=
  ∃ p, ps !! i = Some p ∧ runnable p ∧
    ∀ j q, ps !! j = Some q → runnable q →
      p.(p_priority) ≤ q.(p_priority) ∧ ((j < i)%nat → p.(p_priority) < q.(p_priority)).

(** Invariant of the scan: [best] is the choice among the slots before [i]. *)
Definition best_of (ps : list proc) (best : option (nat * Z)) : Prop :=
  match best with
  | None => ∀ j q, ps !! j = Some q → ¬ runnable q
  | Some (i, v) => is_highest ps i ∧ p_priority <$> ps !! i = Some v
  end.

Lemma best_of_skip ps p best : best_of ps best → ¬ runnable p → best_of (ps ++ [p]) best.
Proof.
  intros Hb Hp. destruct best as [[i v]|]; simpl in *.
  - destruct Hb as [(q & Hi & Hq & Hmin) Hv]. pose proof (lookup_lt_Some _ _ _ Hi).
    rewrite lookup_app_l by done. split; [|done].
    exists q. rewrite lookup_app_l by done. split_and!; [done..|].
    intros j r [Hj|(_ & Hj)]%lookup_app_Some; [by eauto|].
    apply list_lookup_singleton_Some in Hj as [_ <-]. done.
  - intros j r [Hj|(_ & Hj)]%lookup_app_Some; [by eauto|].
    by apply list_lookup_singleton_Some in Hj as [_ <-].
Qed.

Lemma best_of_keep ps p i v :
  best_of ps (Some (i, v)) → v ≤ p.(p_priority) → best_of (ps ++ [p]) (Some (i, v)).
Proof.
  intros [(q & Hi & Hq & Hmin) Hv] Hle. simpl. pose proof (lookup_lt_Some _ _ _ Hi).
  rewrite lookup_app_l by done. split; [|done].
  exists q. rewrite lookup_app_l by done. split_and!; [done..|].
  rewrite Hi in Hv. injection Hv as <-.
  intros j r [Hj|(Hlen & Hj)]%lookup_app_Some; [by eauto|].
  apply list_lookup_singleton_Some in Hj as [_ <-]. intros _. lia.
Qed.

Lemma best_of_new ps p best :
  best_of ps best → runnable p →
  (∀ i v, best = Some (i, v) → p.(p_priority) < v) →
  best_of (ps ++ [p]) (Some (length ps, p.(p_priority))).
Proof.
  intros Hb Hp Hlt. simpl. rewrite list_lookup_middle by done. split; [|done].
  exists p. rewrite list_lookup_middle by done. split_and!; [done..|].
  intros j r [Hj|(Hlen & Hj)]%lookup_app_Some Hr.
  - pose proof (lookup_lt_Some _ _ _ Hj). destruct best as [[i v]|]; [|by destruct (Hb j r)].
    destruct Hb as [(q & Hi & Hq & Hmin) Hv]. rewrite Hi in Hv. injection Hv as <-.
    destruct (Hmin j r Hj Hr). pose proof (Hlt _ _ eq_refl). lia.
  - apply list_lookup_singleton_Some in Hj as [? <-]. lia.
Qed.

Lemma highest_from_spec ps done_ best :
  best_of done_ best → best_of (done_ ++ ps) (highest_from ps (length done_) best).
Proof.
  revert done_ best. induction ps as [|p ps IH]; intros d best Hb; simpl.
  { by rewrite app_nil_r. }
  replace (d ++ p :: ps) with ((d ++ [p]) ++ ps) by (by rewrite <- app_assoc).
  replace (S (length d)) with (length (d ++ [p])) by (rewrite length_app; simpl; lia).
  destruct (bool_decide _) eqn:E; simpl; bool_facts; [|by apply IH, best_of_skip].
  destruct best as [[i v]|]; [destruct (_ <? v) eqn:El; bool_facts|]; apply IH.
  - apply (best_of_new d p (Some (i, v))); [done..|]. by intros ? ? [= <- <-].
  - by apply best_of_keep.
  - by apply (best_of_new d p None).
Qed.

Lemma is_highest_unique ps i j : is_highest ps i → is_highest ps j → i = j.
Proof.
  intros (p & Hi & Hp & Hmin) (q & Hj & Hq & Hmin').
  destruct (Hmin j q Hj Hq), (Hmin' i p Hi Hp). destruct (decide (i < j)%nat), (decide (j < i)%nat); lia.
Qed.

Lemma highest_best ps : best_of ps (highest_from ps 0 None).
Proof. apply (highest_from_spec ps [] None). by intros j q ?. Qed.

(** The scan returns the first, in table order, of the runnable
    processes with the smallest priority number. *)
Lemma highest_Some ps i : highest ps = Some i ↔ is_highest ps i.
Proof.
  pose proof (highest_best ps) as H. unfold highest.
  destruct (highest_from ps 0 None) as [[j v]|]; simpl in *.
  - destruct H as [Hs _]. split; [by intros [= ->]|]. intros. f_equal. by eapply is_highest_unique.
  - split; [done|]. intros (p & Hi & Hp & _). by destruct (H i p).
Qed.

Lemma highest_None ps : highest ps = None ↔ ∀ j q, ps !! j = Some q → ¬ runnable q.
Proof.
  pose proof (highest_best ps) as H. unfold highest.
  destruct (highest_from ps 0 None) as [[j v]|]; simpl in *; [|done].
  destruct H as [(p & Hi & Hp & _) _]. split; [done|]. intros Hn. by destruct (Hn j p).
Qed.

(** ** One round of the scheduler *)

(** The state in which slot [i] starts to run. *)
Definition dispatched (i : nat) (p : proc) (s : kstate) : kstate :=
  putp i (set_p_state RUNNING p)
    (on_cpu (λ c, set_c_cr3 (V2P p.(p_pgdir)) (set_c_esp0 (u32 (p.(p_kstack) + KSTACKSIZE))
                    (set_c_proc (Some i) c))) s).

(** The state after the CPU came back to the scheduler in [s]. *)
Definition undispatched (s : kstate) : kstate :=
  on_cpu (λ c, set_c_proc None (set_c_cr3 (V2P s.(k_mem).(m_kpgdir)) c)) s.

Lemma switchuvm_run p cur s e :
  cpu_wf s.(k_cpu) → 1 ≤ s.(k_cpu).(c_ncli) → p.(p_pgdir) ≠ 0 →
  switchuvm p cur s e =
    Ret tt (on_cpu (λ c, set_c_cr3 (V2P p.(p_pgdir)) (set_c_esp0 (u32 (cur.(p_kstack) + KSTACKSIZE)) c)) s) e.
Proof.
  intros [Hn Hif] Hn1 Hpg. unfold switchuvm. mstep (pushcli_run s e). rewrite bind_modify.
  destruct (_ =? 0) eqn:E; bool_facts; [done|]. unfold lcr3. rewrite bind_modify.
  rewrite popcli_pop by (simpl; lia || done). unfold on_cpu, cpu_pop, cpu_push. simpl.
  assert (c_ncli (k_cpu s) =? 0 = false) as -> by (apply Z.eqb_neq; lia).
  replace (c_ncli (k_cpu s) + 1 - 1) with (c_ncli (k_cpu s)) by lia.
  assert (c_ncli (k_cpu s) =? 0 = false) as -> by (apply Z.eqb_neq; lia). simpl.
  rewrite <- Hif by lia. done.
Qed.

Lemma dispatch_run i p s f e :
  cpu_wf s.(k_cpu) → 1 ≤ s.(k_cpu).(c_ncli) → s.(k_pt).(pt_proc) !! i = Some p → p.(p_pgdir) ≠ 0 →
  dispatch i s (f :: e) = Ret tt (undispatched (f (dispatched i p s))) e.
Proof.
  intros Hwf Hn Hp Hpg. unfold dispatch. rewrite bind_modify.
  mstep (getp_run (on_cpu (set_c_proc (Some i)) s) i p (f :: e) Hp).
  mcall switchuvm_run. by mcall modp_run.
Qed.

Lemma dispatch_switched i p s :
  cpu_wf s.(k_cpu) → 1 ≤ s.(k_cpu).(c_ncli) → s.(k_pt).(pt_proc) !! i = Some p → p.(p_pgdir) ≠ 0 →
  dispatch i s [] = Switched (dispatched i p s).
Proof.
  intros Hwf Hn Hp Hpg. unfold dispatch. rewrite bind_modify.
  mstep (getp_run (on_cpu (set_c_proc (Some i)) s) i p [] Hp).
  mcall switchuvm_run. by mcall modp_run.
Qed.

(** The scheduler's CPU between rounds. *)
Definition sched_idle (s : kstate) : Prop :=
  s.(k_cpu).(c_ncli) = 0 ∧ s.(k_spin) !! Lptable = None.

(** The state in which it scans the table. *)
Definition scanning (s : kstate) : kstate := locked Lptable (on_cpu (set_c_if true) s).

Lemma scheduler_round_scan s e :
  sched_idle s →
  scheduler_round s e =
    ((match highest s.(k_pt).(pt_proc) with Some i => dispatch i | None => ret tt end);;
     release Lptable) (scanning s) e.
Proof.
  intros [Hn Hfree]. unfold scheduler_round, sti. rewrite bind_modify.
  mstep (acquire_run Lptable (on_cpu (set_c_if true) s) e Hfree). by rewrite bind_gets.
Qed.

Lemma scanning_wf s : sched_idle s → cpu_wf (scanning s).(k_cpu) ∧ 1 ≤ (scanning s).(k_cpu).(c_ncli).
Proof. intros [Hn _]. unfold cpu_wf. simpl. rewrite Hn. lia. Qed.

Lemma scheduler_round_run i p s f e :
  sched_idle s → highest s.(k_pt).(pt_proc) = Some i →
  s.(k_pt).(pt_proc) !! i = Some p → p.(p_pgdir) ≠ 0 →
  let s1 := dispatched i p (scanning s) in
  holds Lptable (f s1) →
  scheduler_round s (f :: e) = Ret tt (released Lptable (undispatched (f s1))) e.
Proof.
  intros Hi Hh Hp Hpg s1 Hf. rewrite scheduler_round_scan, Hh by done.
  destruct (scanning_wf s Hi) as [Hwf Hn].
  mstep (dispatch_run i p (scanning s) f e Hwf Hn Hp Hpg). by apply release_holds.
Qed.

Lemma scheduler_round_idle s e :
  sched_idle s → highest s.(k_pt).(pt_proc) = None →
  scheduler_round s e = Ret tt (released Lptable (scanning s)) e.
Proof.
  intros Hi Hh. rewrite scheduler_round_scan, Hh, bind_ret_l by done.
  apply release_holds, locked_holds. simpl. destruct Hi as [-> _]. done.
Qed.

Lemma released_scanning s :
  sched_idle s → released Lptable (scanning s) = on_cpu (λ c, set_c_if true (set_c_intena FL_IF c)) s.
Proof.
  intros [Hn Hf]. unfold released, scanning, locked, on_cpu, cpu_pop, cpu_push. simpl. rewrite Hn. simpl.
  rewrite delete_insert_id by done. destruct s as [c]. destruct c. simpl in *. by subst.
Qed.

Lemma scheduler_round_switched i p s :
  sched_idle s → highest s.(k_pt).(pt_proc) = Some i →
  s.(k_pt).(pt_proc) !! i = Some p → p.(p_pgdir) ≠ 0 →
  scheduler_round s [] = Switched (dispatched i p (scanning s)).
Proof.
  intros Hi Hh Hp Hpg. rewrite scheduler_round_scan, Hh by done.
  destruct (scanning_wf s Hi) as [Hwf Hn]. unfold bind. by rewrite (dispatch_switched i p).
Qed.

(** C1: a round of the priority scheduler, on a CPU that holds no lock, when
    every runnable process has a page table.  With no runnable process it
    changes nothing but this CPU's interrupt flag, which is on, and the copy
    of it that [pushcli] saved.  Otherwise it starts the runnable process of
    smallest priority number, among equals the one that comes first in the
    table: that process is RUNNING, is the CPU's current process, on its own
    page table and kernel stack, nothing else in the table, the memory, the
    file system or the devices changes, and ptable.lock is held across the
    switch.  When control comes back with ptable.lock held the round ends
    with the lock free, no current process, and the kernel's page table. *)
Theorem scheduler_round_correct s :
  sched_idle s →
  (∀ i p, s.(k_pt).(pt_proc) !! i = Some p → runnable p → p.(p_pgdir) ≠ 0) →
  ((∀ i p, s.(k_pt).(pt_proc) !! i = Some p → ¬ runnable p) ∧
   scheduler_round s [] = Ret tt (on_cpu (λ c, set_c_if true (set_c_intena FL_IF c)) s) []) ∨
  ∃ i p s1, is_highest s.(k_pt).(pt_proc) i ∧ s.(k_pt).(pt_proc) !! i = Some p ∧
    scheduler_round s [] = Switched s1 ∧
    s1.(k_pt) = set_pt_proc (<[i := set_p_state RUNNING p]> s.(k_pt).(pt_proc)) s.(k_pt) ∧
    s1.(k_mem) = s.(k_mem) ∧ s1.(k_fs) = s.(k_fs) ∧ s1.(k_io) = s.(k_io) ∧
    s1.(k_cpu).(c_proc) = Some i ∧ s1.(k_cpu).(c_cr3) = V2P p.(p_pgdir) ∧
    s1.(k_cpu).(c_esp0) = u32 (p.(p_kstack) + KSTACKSIZE) ∧ holds Lptable s1 ∧
    ∀ f, holds Lptable (f s1) → (f s1).(k_cpu).(c_ncli) = 1 →
      ∃ s', scheduler_round s [f] = Ret tt s' [] ∧ sched_idle s' ∧ s'.(k_cpu).(c_proc) = None ∧
            s'.(k_pt) = (f s1).(k_pt) ∧ s'.(k_cpu).(c_cr3) = V2P (f s1).(k_mem).(m_kpgdir).
Proof.
  intros Hi Hpg. destruct (highest s.(k_pt).(pt_proc)) as [i|] eqn:Hh.
  - right. pose proof (proj1 (highest_Some _ _) Hh) as His.
    destruct His as (p & Hp & Hr & Hmin). pose proof (Hpg i p Hp Hr) as Hpp.
    exists i, p, (dispatched i p (scanning s)). split_and!; [by exists p|done| |done|done|done|done|done|done|done| |].
    + by apply scheduler_round_switched.
    + apply (locked_holds Lptable (on_cpu (set_c_if true) s)). simpl. destruct Hi as [-> _]. done.
    + intros f Hf Hn. eexists. split_and!; [by apply (scheduler_round_run i p)| |done|done|done].
      split; [simpl; lia|]. simpl. by rewrite lookup_delete_eq.
  - left. split; [by apply highest_None|]. rewrite scheduler_round_idle by done. by rewrite released_scanning.
Qed.

(** With nothing to run, rounds only turn the interrupts of this CPU on. *)
Lemma rounds_idle n s e :
  sched_idle s → highest s.(k_pt).(pt_proc) = None →
  ∃ c, rounds scheduler_round n s e = Ret tt (set_k_cpu c s) e ∧ c.(c_id) = s.(k_cpu).(c_id) ∧ c.(c_cr3) = s.(k_cpu).(c_cr3).
Proof.
  revert s. induction n as [|n IH]; intros s Hi Hh.
  - exists s.(k_cpu). split; [by destruct s|done].
  - cbn [rounds]. mstep (scheduler_round_idle s e Hi Hh). rewrite released_scanning by done.
    set (s1 := on_cpu _ s). destruct (IH s1) as (c & Hr & H1 & H2); [exact Hi|exact Hh|]. exists c. split; [exact Hr|done].
Qed.

Lemma scheduler_idle n s e :
  s.(k_cpu).(c_if) = false → sched_idle s → highest s.(k_pt).(pt_proc) = None →
  ∃ c, scheduler n s e = Ret tt (set_k_cpu c s) e ∧ c.(c_id) = s.(k_cpu).(c_id) ∧ c.(c_cr3) = s.(k_cpu).(c_cr3).
Proof.
  intros Hf Hi Hh. unfold scheduler. mstep (mycpu_off s e Hf). rewrite bind_modify. set (s1 := on_cpu _ s).
  destruct (rounds_idle n s1 e Hi Hh) as (c & Hr & H). by exists c.
Qed.

(** ** Starvation at equal priority *)








(** Two runnable processes of priority 3, in slots 0 and 1. *)
Definition two_peers : kstate :=
  let p pid := set_p_state RUNNABLE (set_p_pid pid (set_p_pgdir (KERNBASE + 2097152)
                 (set_p_priority 3 zero_proc))) in
  putp 0 (p 1) (putp 1 (p 2) demo_state).



Lemma two_peers_pgdir i p : two_peers.(k_pt).(pt_proc) !! i = Some p → runnable p → p.(p_pgdir) ≠ 0.
Proof.
  intros Hp Hr. assert (Forall (λ p, runnable p → p_pgdir p ≠ 0) two_peers.(k_pt).(pt_proc)) as Hall.
  { simpl. repeat constructor; discriminate. }
  rewrite Forall_lookup in Hall. by apply (Hall i).
Qed.


Lemma scheduler_round_correct_witness :
  sched_idle two_peers ∧
  ∃ i s1, scheduler_round two_peers [] = Switched s1 ∧ s1.(k_cpu).(c_proc) = Some i.
Proof.
  assert (sched_idle two_peers) as Hi by done. split; [exact Hi|].
  destruct (scheduler_round_correct two_peers Hi) as [[Hn _]|(i & p & s1 & _ & _ & Hs & _ & _ & _ & _ & Hc & _)].
  - exact two_peers_pgdir.
  - exfalso. by destruct (Hn 0%nat _ eq_refl).
  - by exists i, s1.
Defined.

(** ** Sleep *)

(** A CPU that runs process [i] and holds [lk] and nothing else. *)
Definition holds_only (lk : lockid) (s : kstate) : Prop :=
  s.(k_spin) !! lk = Some s.(k_cpu).(c_id) ∧ s.(k_cpu).(c_ncli) = 1 ∧ s.(k_cpu).(c_if) = false.

Lemma holds_only_holds lk s : holds_only lk s → holds lk s.
Proof. intros (? & ? & ?). split_and!; [done|lia|done]. Qed.

#[export] Hint Resolve holds_only_holds : cint.

(** The state in which a process that sleeps on [ch] leaves the CPU. *)
Definition slept (ch : chan) (lk : lockid) (i : nat) (p : proc) (s : kstate) : kstate :=
  putp i (set_p_state SLEEPING (set_p_chan (Some ch) p))
    (set_k_spin (<[Lptable := s.(k_cpu).(c_id)]> (delete lk s.(k_spin))) s).

(** The state in which [sleep] returns, when the CPU came back in [s] to slot
    [i]; [intena] is what [sched] saved. *)
Definition awoken (lk : lockid) (i : nat) (p : proc) (intena : Z) (s : kstate) : kstate :=
  putp i (set_p_chan None p)
    (on_cpu (set_c_intena (if decide (lk = Lptable) then intena
                           else if truthy intena then FL_IF else 0))
      (set_k_spin (<[lk := s.(k_cpu).(c_id)]> (delete Lptable s.(k_spin))) s)).

Lemma sched_run s i p f e :
  holds_only Lptable s → running s i p → p.(p_state) ≠ RUNNING →
  sched s (f :: e) = Ret tt (on_cpu (set_c_intena s.(k_cpu).(c_intena)) (f s)) e.
Proof.
  intros (Hs & Hn & Hif) Hr Hst. unfold sched, holding, readeflags_IF. rewrite bind_gets.
  rewrite bool_decide_eq_true_2 by done. cbn [negb]. rewrite bind_gets, Hn. simpl.
  mstep (curproc_run s i p (f :: e) Hr). mstep (getp_run s i p (f :: e) (proj2 Hr)).
  rewrite bool_decide_eq_false_2 by done. rewrite bind_gets, Hif. done.
Qed.

Lemma sched_switched s i p :
  holds_only Lptable s → running s i p → p.(p_state) ≠ RUNNING → sched s [] = Switched s.
Proof.
  intros (Hs & Hn & Hif) Hr Hst. unfold sched, holding, readeflags_IF. rewrite bind_gets.
  rewrite bool_decide_eq_true_2 by done. cbn [negb]. rewrite bind_gets, Hn. simpl.
  mstep (curproc_run s i p [] Hr). mstep (getp_run s i p [] (proj2 Hr)).
  rewrite bool_decide_eq_false_2 by done. rewrite bind_gets, Hif. done.
Qed.

Lemma putp_running s i p q : running s i p → running (putp i q s) i q.
Proof. intros [Hc Hp]. split; [done|]. apply list_lookup_insert_eq. by eapply lookup_lt_Some. Qed.

(** The first half of [sleep]: taking ptable.lock before giving up [lk]. *)
Lemma sleep_enter ch lk s i p e :
  holds_only lk s → running s i p → (lk ≠ Lptable → s.(k_spin) !! Lptable = None) →
  sleep ch lk s e =
    (sched;; i' <- curproc;; modp i' (set_p_chan None);;
     (if decide (lk = Lptable) then ret tt else release Lptable;; acquire lk)) (slept ch lk i p s) e.
Proof.
  intros (Hs & Hn & Hif) [Hc Hp] Hpt. unfold sleep, proc_var. rewrite bind_gets, Hc.
  assert ((if decide (lk = Lptable) then ret tt else acquire Lptable;; release lk) s e =
          Ret tt (set_k_spin (<[Lptable := s.(k_cpu).(c_id)]> (delete lk s.(k_spin))) s) e) as Hlk.
  { destruct (decide (lk = Lptable)) as [->|Hne].
    - unfold ret. rewrite insert_delete_eq, insert_id by done. done.
    - mstep (acquire_run Lptable s e (Hpt Hne)).
      rewrite release_holds; [|split_and!; simpl; [by rewrite lookup_insert_ne|lia|done]].
      unfold released, on_cpu, cpu_pop, locked, cpu_push. simpl. rewrite Hn. simpl.
      rewrite delete_insert_ne by done. rewrite <- Hif.
      by replace (1 + 1 - 1) with (c_ncli (k_cpu s)) by lia. }
  mstep Hlk.
  set (s0 := set_k_spin _ s). mstep (curproc_run s0 i p e (conj Hc Hp)).
  by mstep (modp_run s0 i p _ e Hp).
Qed.

Lemma slept_running ch lk i p s :
  running s i p →
  running (slept ch lk i p s) i (set_p_state SLEEPING (set_p_chan (Some ch) p)).
Proof. intros Hr. by apply (putp_running (set_k_spin _ s) i p). Qed.

Lemma slept_holds ch lk i p s : holds_only lk s → holds_only Lptable (slept ch lk i p s).
Proof. intros (_ & Hn & Hif). split_and!; [|done..]. simpl. by rewrite lookup_insert_eq. Qed.

#[export] Hint Resolve slept_running slept_holds : cint.

Lemma sleep_switched ch lk s i p :
  holds_only lk s → running s i p → (lk ≠ Lptable → s.(k_spin) !! Lptable = None) →
  sleep ch lk s [] = Switched (slept ch lk i p s).
Proof.
  intros Hh Hr Hpt. rewrite (sleep_enter _ _ _ i p) by done. unfold bind.
  by rewrite (sched_switched _ i (set_p_state SLEEPING (set_p_chan (Some ch) p))) by eauto with cint.
Qed.

(** [sleep] returns once the CPU comes back, as [wakeup] and the scheduler see
    to it, to a process [j] with ptable.lock and no other lock held. *)
Lemma sleep_run ch lk s i p f e j q :
  holds_only lk s → running s i p → (lk ≠ Lptable → s.(k_spin) !! Lptable = None) →
  let s2 := f (slept ch lk i p s) in
  holds_only Lptable s2 → running s2 j q → (lk ≠ Lptable → s2.(k_spin) !! lk = None) →
  sleep ch lk s (f :: e) = Ret tt (awoken lk j q s.(k_cpu).(c_intena) s2) e.
Proof.
  intros Hh Hr Hpt s2 (Hs2 & Hn2 & Hif2) Hr2 Hlk2. rewrite (sleep_enter _ _ _ i p) by done.
  mcall sched_run. fold s2. change (c_intena (k_cpu (slept _ _ _ _ _))) with (c_intena (k_cpu s)).
  set (s3 := on_cpu _ s2). mstep (curproc_run s3 j q e Hr2). mstep (modp_run s3 j q _ e (proj2 Hr2)).
  unfold awoken. destruct (decide (lk = Lptable)) as [->|Hne].
  { unfold ret. rewrite insert_delete_eq, insert_id by done. done. }
  erewrite bind_run; [|apply release_holds; split_and!; simpl; [done|lia|done]].
  rewrite acquire_run; [|simpl; rewrite lookup_delete_ne by done; by apply Hlk2].
  unfold released, locked, on_cpu, cpu_pop, cpu_push, s3, putp, on_pt. simpl. rewrite Hn2. simpl.
  destruct (truthy _); rewrite <- Hif2; by replace (1 - 1 + 1) with (c_ncli (k_cpu s2)) by lia.
Qed.

(** The CPU back in [s] at slot [i], which still holds ptable.lock: the state
    in which [sleep] takes its lock [lk] again. *)
Definition back (i : nat) (p : proc) (intena : Z) (s : kstate) : kstate :=
  released Lptable (putp i (set_p_chan None p) (on_cpu (set_c_intena intena) s)).

Lemma sleep_resumes ch lk s i p f e j q :
  holds_only lk s → running s i p → lk ≠ Lptable → s.(k_spin) !! Lptable = None →
  let s2 := f (slept ch lk i p s) in
  holds_only Lptable s2 → running s2 j q →
  sleep ch lk s (f :: e) = acquire lk (back j q s.(k_cpu).(c_intena) s2) e.
Proof.
  intros Hh Hr Hne Hpt s2 (Hs2 & Hn2 & Hif2) Hr2. rewrite (sleep_enter _ _ _ i p) by done.
  mcall sched_run. fold s2. change (c_intena (k_cpu (slept _ _ _ _ _))) with (c_intena (k_cpu s)).
  set (s3 := on_cpu _ s2). mstep (curproc_run s3 j q e Hr2). mstep (modp_run s3 j q _ e (proj2 Hr2)).
  rewrite decide_False by done. erewrite bind_run; [|apply release_holds; split_and!; simpl; [done|lia|done]]. done.
Qed.

(** ** Wakeup and kill *)

(** What [wakeup] and [kill] need: ptable.lock free. *)
Definition pt_idle (s : kstate) : Prop := cpu_wf s.(k_cpu) ∧ s.(k_spin) !! Lptable = None.

(** [s] with the table changed by [g], after a section under ptable.lock. *)
Definition pt_updated (g : ptstate → ptstate) (s : kstate) : kstate :=
  on_cpu cpu_bracket (on_pt g s).

Definition wake_all (ch : option chan) (pt : ptstate) : ptstate :=
  set_pt_proc (wake_one ch <$> pt.(pt_proc)) pt.

Lemma wakeup_run ch s e : pt_idle s → wakeup ch s e = Ret tt (pt_updated (wake_all (Some ch)) s) e.
Proof.
  intros [Hwf Hfree]. unfold wakeup.
  by erewrite (critical_unit Lptable (wakeup1 (Some ch)) s e (on_pt (wake_all (Some ch)) (locked Lptable s))).
Qed.

Lemma pfind_Some P ps i :
  pfind P ps = Some i ↔
  ∃ p, ps !! i = Some p ∧ P p ∧ ∀ j q, ps !! j = Some q → (j < i)%nat → ¬ P q.
Proof.
  unfold pfind. rewrite fmap_Some. split.
  - intros ([i' p] & H & ->). apply list_find_Some in H as (? & ? & ?). eauto.
  - intros (p & ? & ? & ?). exists (i, p). split; [|done]. by apply list_find_Some.
Qed.

Lemma pfind_None P ps : pfind P ps = None ↔ ∀ i p, ps !! i = Some p → ¬ P p.
Proof.
  unfold pfind. rewrite fmap_None, list_find_None, Forall_lookup. done.
Qed.

Lemma pfind_lookup P ps i : pfind P ps = Some i → ∃ p, ps !! i = Some p ∧ P p.
Proof. intros (p & ? & ? & _)%pfind_Some. eauto. Qed.

Definition setp_pt (i : nat) (p : proc) (pt : ptstate) : ptstate :=
  set_pt_proc (<[i := p]> pt.(pt_proc)) pt.

(** [kill(pid)] on every branch.  If some slot has that pid, the first one
    is marked killed, and made RUNNABLE if it was SLEEPING (so that a killed
    sleeper gets to run and exit); nothing else in the table changes and the
    result is 0.  Otherwise the table is unchanged and the result is -1. *)
Theorem kill_correct pid s e :
  pt_idle s →
  (∃ i p, s.(k_pt).(pt_proc) !! i = Some p ∧ p.(p_pid) = pid ∧
     (∀ j q, s.(k_pt).(pt_proc) !! j = Some q → (j < i)%nat → q.(p_pid) ≠ pid) ∧
     kill pid s e = Ret 0 (pt_updated (setp_pt i (kill_one p)) s) e ∧
     (kill_one p).(p_killed) = 1 ∧ (kill_one p).(p_state) ≠ SLEEPING ∧
     (p.(p_state) ≠ SLEEPING → (kill_one p).(p_state) = p.(p_state))) ∨
  ((∀ i p, s.(k_pt).(pt_proc) !! i = Some p → p.(p_pid) ≠ pid) ∧
   kill pid s e = Ret (-1) (pt_updated id s) e).
Proof.
  intros [Hwf Hfree]. unfold kill. destruct (pfind (λ p, p_pid p =? pid) s.(k_pt).(pt_proc)) as [i|] eqn:Hf.
  - left. pose proof Hf as (p & Hp & Hpid & Hfirst)%pfind_Some. apply Is_true_true, Z.eqb_eq in Hpid.
    exists i, p. split_and!; [done|done| | | | |].
    + intros j q Hj Hlt Heq. apply (Hfirst j q Hj Hlt). by apply Is_true_true, Z.eqb_eq.
    + mstep (acquire_run Lptable s e Hfree). rewrite bind_gets. simpl. rewrite Hf.
      mstep (modp_run (locked Lptable s) i p kill_one e Hp). by mcall (release_run Lptable s).
    + unfold kill_one. by destruct (bool_decide _).
    + unfold kill_one. destruct (bool_decide _) eqn:E; bool_facts; done.
    + unfold kill_one. destruct (bool_decide _) eqn:E; bool_facts; done.
  - right. split.
    + intros i p Hp Heq. apply (proj1 (pfind_None _ _) Hf i p Hp). by apply Is_true_true, Z.eqb_eq.
    + mstep (acquire_run Lptable s e Hfree). rewrite bind_gets. simpl. rewrite Hf.
      by mcall (release_run Lptable s).
Qed.

Lemma kill_correct_witness :
  pt_idle two_peers ∧
  ∃ s', kill 2 two_peers [] = Ret 0 s' [] ∧ p_killed <$> s'.(k_pt).(pt_proc) !! 1%nat = Some 1.
Proof.
  assert (pt_idle two_peers) as Hi by (split; [split; [vm_compute; discriminate|done]|done]).
  split; [exact Hi|].
  destruct (kill_correct 2 two_peers [] Hi) as [(i & p & Hp & Hpid & _ & Hk & Hkd & _)|[Hn _]].
  - eexists. split; [exact Hk|]. assert (i = 1%nat) as ->.
    { destruct i as [|[|i]]; [simpl in Hp; simplify_eq; done|done|].
      simpl in Hp. apply (list_elem_of_lookup_2 _ i) in Hp. set_unfold. naive_solver. }
    exact (f_equal Some Hkd).
  - exfalso. by destruct (Hn 1%nat _ eq_refl).
Defined.
