(* ===== verification/Rendezvous.v ===== *)
(** * No lost wakeups (proc.c: sleep, wakeup)

    The interleaving of any number of processes that wait for a condition
    with [acquire(lk); while(!cond) sleep(chan, lk); ...; release(lk)] and of
    processes that establish it with [acquire(lk); cond = 1; wakeup(chan);
    release(lk)].  Each access to a lock or to the table is one step; [sleep]
    and [wakeup] are their code, statement by statement. *)

From S2P Require Import Prelude.

(** Where a process is. *)
Inductive pc : Type :=
| Out          (* elsewhere *)
| Test         (* holds lk, at the test of the while loop *)
| SAcq         (* in sleep, before acquire(&ptable.lock) *)
| SRel         (* before release(lk) *)
| SSet         (* before proc->state = SLEEPING *)
| SSwtch       (* before the swtch of sched *)
| Asleep       (* off the CPU; the scheduler has released ptable.lock *)
| Ready        (* RUNNABLE again *)
| SBack        (* back from sched, holding ptable.lock *)
| SReacq       (* before acquire(lk) at the end of sleep *)
| Done         (* holds lk and has seen the condition *)
| WSet         (* holds lk, before cond = 1 *)
| WPt          (* in wakeup, before acquire(&ptable.lock) *)
| WWake        (* before wakeup1(chan) *)
| WRel         (* before release(&ptable.lock) *)
| WOut.        (* before release(lk) *)

#[export] Instance pc_eq_dec : EqDecision pc.
Proof. solve_decision. Defined.

Record st : Type := MkSt {
  cond : bool;
  lk : option nat;           (* the holder of lk *)
  ptl : option nat;          (* the holder of ptable.lock *)
  at_ : nat → pc
}.

(** [wakeup1]: every process asleep on the channel becomes runnable. *)
Definition wake (f : nat → pc) : nat → pc :=
  λ j, if decide (f j = Asleep) then Ready else f j.

Inductive step : st → st → Prop :=
| wait_enter c i l f :
    f i = Out → step (MkSt c None l f) (MkSt c (Some i) l (upd f i Test))
| wait_seen i k l f :
    f i = Test → step (MkSt true k l f) (MkSt true k l (upd f i Done))
| wait_sleep i k l f :
    f i = Test → step (MkSt false k l f) (MkSt false k l (upd f i SAcq))
| sleep_acquire c i k f :
    f i = SAcq → step (MkSt c k None f) (MkSt c k (Some i) (upd f i SRel))
| sleep_release c i k l f :
    f i = SRel → step (MkSt c k l f) (MkSt c None l (upd f i SSet))
| sleep_set c i k l f :
    f i = SSet → step (MkSt c k l f) (MkSt c k l (upd f i SSwtch))
| sleep_swtch c i k l f :
    f i = SSwtch → step (MkSt c k l f) (MkSt c k None (upd f i Asleep))
| sched_pick c i k f :
    f i = Ready → step (MkSt c k None f) (MkSt c k (Some i) (upd f i SBack))
| sleep_back c i k l f :
    f i = SBack → step (MkSt c k l f) (MkSt c k None (upd f i SReacq))
| sleep_reacquire c i l f :
    f i = SReacq → step (MkSt c None l f) (MkSt c (Some i) l (upd f i Test))
| wait_leave c i k l f :
    f i = Done → step (MkSt c k l f) (MkSt c None l (upd f i Out))
| wait_consume c i k l f :
    f i = Done → step (MkSt c k l f) (MkSt false None l (upd f i Out))
| set_enter c i l f :
    f i = Out → step (MkSt c None l f) (MkSt c (Some i) l (upd f i WSet))
| set_cond c i k l f :
    f i = WSet → step (MkSt c k l f) (MkSt true k l (upd f i WPt))
| wakeup_acquire c i k f :
    f i = WPt → step (MkSt c k None f) (MkSt c k (Some i) (upd f i WWake))
| wakeup_wake c i k l f :
    f i = WWake → step (MkSt c k l f) (MkSt c k l (upd (wake f) i WRel))
| wakeup_release c i k l f :
    f i = WRel → step (MkSt c k l f) (MkSt c k None (upd f i WOut))
| set_leave c i k l f :
    f i = WOut → step (MkSt c k l f) (MkSt c None l (upd f i Out)).

Definition init : st := MkSt false None None (λ _, Out).

(** The program points at which a process holds each lock. *)
Definition has_lk (p : pc) : bool :=
  match p with Test | SAcq | SRel | Done | WSet | WPt | WWake | WRel | WOut => true | _ => false end.

Definition has_ptl (p : pc) : bool :=
  match p with SRel | SSet | SSwtch | SBack | WWake | WRel => true | _ => false end.

(** Committed to sleep, still holding lk; and past its release. *)
Definition closing (p : pc) : bool := match p with SAcq | SRel => true | _ => false end.
Definition sleeping (p : pc) : bool := match p with SSet | SSwtch | Asleep => true | _ => false end.

(** A waker that has set the condition and not yet run wakeup1. *)
Definition waking (p : pc) : bool := match p with WPt | WWake => true | _ => false end.

Definition inv (s : st) : Prop :=
  (∀ i, has_lk (s.(at_) i) = true ↔ s.(lk) = Some i) ∧
  (∀ i, has_ptl (s.(at_) i) = true ↔ s.(ptl) = Some i) ∧
  (∀ i, closing (s.(at_) i) = true → s.(cond) = false) ∧
  (∀ i, sleeping (s.(at_) i) = true → s.(cond) = true → ∃ j, waking (s.(at_) j) = true).

Lemma rdv_inv_init : inv init.
Proof. split_and!; simpl; done. Qed.

Lemma wake_flags f j :
  has_lk (wake f j) = has_lk (f j) ∧ has_ptl (wake f j) = has_ptl (f j) ∧
  closing (wake f j) = closing (f j) ∧ waking (wake f j) = waking (f j) ∧
  (sleeping (wake f j) = true → has_ptl (f j) = true).
Proof. unfold wake. case_decide as E; [rewrite E|]; split_and!; try done. by destruct (f j). Qed.

(** Case on whether [j] is the process that stepped. *)
Ltac at_step i j := destruct (decide (j = i)) as [->|]; [rewrite ?upd_eq|rewrite ?upd_ne by done].

(** [o] is the process at a point where [h] holds, if there is one. *)
Definition owner (h : pc → bool) (f : nat → pc) (o : option nat) : Prop :=
  ∀ i, h (f i) = true ↔ o = Some i.

Lemma owner_step h f o i p o' :
  owner h f o →
  (h p = true → o' = Some i ∧ (h (f i) = true ∨ o = None)) →
  (h p = false → o' = if h (f i) then None else o) →
  owner h (upd f i p) o'.
Proof.
  intros Ho H1 H0 j. pose proof (Ho i). pose proof (Ho j).
  destruct (h p) eqn:Hp; [destruct (H1 eq_refl) as [-> ?]|rewrite (H0 eq_refl)]; clear H0 H1;
    destruct (h (f i)) eqn:Hi; at_step i j; rewrite ?Hp; intuition congruence.
Qed.

(** The two clauses about the condition, for a step that keeps its value. *)
Lemma cond_step (c : bool) f i p :
  (∀ j, closing (f j) = true → c = false) →
  (∀ j, sleeping (f j) = true → c = true → ∃ j', waking (f j') = true) →
  (closing p = true → c = false) →
  (sleeping p = true → sleeping (f i) = true ∨ c = false) →
  (waking (f i) = true → waking p = true) →
  (∀ j, closing (upd f i p j) = true → c = false) ∧
  (∀ j, sleeping (upd f i p j) = true → c = true → ∃ j', waking (upd f i p j') = true).
Proof.
  intros Hc Hs H1 H2 H3. split; intros j.
  - at_step i j; [done|apply Hc].
  - intros Hj Hct. assert (∃ j', waking (f j') = true) as [j' Hj'].
    { revert Hj. at_step i j; [|by intros; apply (Hs j)].
      intros Hp. destruct (H2 Hp); [by apply (Hs i)|congruence]. }
    exists j'. at_step i j'; [auto|done].
Qed.

(** A step of [wakeup1] by [i]: nobody is left asleep. *)
Lemma wake_step (c : bool) f i :
  owner has_ptl f (Some i) → (∀ j, closing (f j) = true → c = false) →
  f i = WWake →
  (∀ j, closing (upd (wake f) i WRel j) = true → c = false) ∧
  (∀ j, sleeping (upd (wake f) i WRel j) = true → c = true → ∃ j', waking (upd (wake f) i WRel j') = true).
Proof.
  intros Ho Hc Hi. split; intros j; at_step i j; [done| |done|];
    destruct (wake_flags f j) as (_ & _ & Hcl & _ & Hsl).
  - rewrite Hcl. apply Hc.
  - intros Hj%Hsl. apply Ho in Hj. congruence.
Qed.

(** A step of the waker [i], holder of lk, that sets the condition. *)
Lemma set_step f i :
  owner has_lk f (Some i) → f i = WSet →
  (∀ j, closing (upd f i WPt j) = true → true = false) ∧
  (∀ j, sleeping (upd f i WPt j) = true → true = true → ∃ j', waking (upd f i WPt j') = true).
Proof.
  intros Ho Hi. split; intros j.
  - at_step i j; [done|]. intros Hj. assert (has_lk (f j) = true) as Hl by (by destruct (f j)).
    apply Ho in Hl. congruence.
  - intros _ _. exists i. by rewrite upd_eq.
Qed.

Lemma owner_wake h f o :
  (∀ j, h (wake f j) = h (f j)) → owner h f o → owner h (wake f) o.
Proof. intros Hw Ho j. by rewrite Hw. Qed.

Ltac solve_owner Ho i H :=
  apply (owner_step _ _ _ i _ _ Ho); rewrite ?H; simpl;
  let Hi := fresh in pose proof (Ho i) as Hi; rewrite ?H in Hi; simpl in Hi; intuition congruence.

Lemma rdv_inv_step s s' : inv s → step s s' → inv s'.
Proof.
  intros (Hl & Hp & Hc & Hs) Hstep. change (owner has_lk s.(at_) s.(lk)) in Hl.
  change (owner has_ptl s.(at_) s.(ptl)) in Hp.
  enough (owner has_lk s'.(at_) s'.(lk) ∧ owner has_ptl s'.(at_) s'.(ptl) ∧
          (∀ i, closing (s'.(at_) i) = true → s'.(cond) = false) ∧
          (∀ i, sleeping (s'.(at_) i) = true → s'.(cond) = true → ∃ j, waking (s'.(at_) j) = true)) by done.
  destruct Hstep as [? i ? f H|i ? ? f H|i ? ? f H|? i ? f H|? i ? ? f H|? i ? ? f H|? i ? ? f H
    |? i ? f H|? i ? ? f H|? i ? f H|? i ? ? f H|? i ? ? f H|? i ? f H|? i k l f H|? i ? f H
    |? i k l f H|? i ? ? f H|? i ? ? f H]; simpl in *;
    try (split_and!; [solve_owner Hl i H|solve_owner Hp i H|..];
         apply cond_step; rewrite ?H; simpl; try done; pose proof (Hc i) as Hci; rewrite H in Hci; by eauto).
  - (* set_cond *) assert (k = Some i) as -> by (apply Hl; by rewrite H).
    split_and!; [solve_owner Hl i H|solve_owner Hp i H|..]; by apply set_step.
  - (* wakeup_wake *) assert (k = Some i) as -> by (apply Hl; by rewrite H).
    assert (l = Some i) as -> by (apply Hp; by rewrite H).
    assert (wake f i = WWake) as H' by (unfold wake; by rewrite H).
    assert (owner has_lk (wake f) (Some i)) as Hl' by (apply owner_wake; [apply wake_flags|done]).
    assert (owner has_ptl (wake f) (Some i)) as Hp' by (apply owner_wake; [apply wake_flags|done]).
    split_and!; [solve_owner Hl' i H'|solve_owner Hp' i H'|..]; by apply wake_step.
Qed.

Lemma rdv_inv_reach s : rtc step init s → inv s.
Proof.
  intros H. assert (∀ s0, inv s0 → rtc step s0 s → inv s) as Hgen.
  { intros s0 Hi Hr. induction Hr as [|s1 s2 s3 Hs _ IH]; [done|]. by apply IH, (rdv_inv_step s1). }
  exact (Hgen _ rdv_inv_init H).
Qed.

(** A process that holds only ptable.lock gives it back. *)
Lemma ptl_released s j :
  inv s → waking (s.(at_) j) = true →
  ∃ s', rtc step s s' ∧ (s'.(ptl) = None ∨ s'.(ptl) = Some j) ∧ s'.(at_) j = s.(at_) j ∧
        ∀ i, s.(at_) i = Asleep → s'.(at_) i = Asleep.
Proof.
  intros (Hl & Hp & _ & _) Hj. destruct s as [c k l f]; simpl in *.
  destruct l as [i|]; [|by eexists; split; [apply rtc_refl|eauto]].
  destruct (decide (i = j)) as [->|Hne]; [by eexists; split; [apply rtc_refl|eauto]|].
  assert (has_lk (f j) = true) as Hlj by (by destruct (f j)).
  assert (has_lk (f i) = false) as Hli.
  { destruct (has_lk (f i)) eqn:E; [|done]. apply Hl in E, Hlj. congruence. }
  pose proof (proj2 (Hp i) eq_refl) as Hpi.
  destruct (f i) eqn:Hfi; try done.
  - eexists. split; [eapply rtc_l; [by eapply sleep_set|]; eapply rtc_once, sleep_swtch, upd_eq|]. simpl.
    split; [by left|]. rewrite !upd_ne by done. split; [done|]. intros i0 Hi0. by at_step i i0.
  - eexists. split; [eapply rtc_once; by eapply sleep_swtch|]. simpl.
    split; [by left|]. rewrite upd_ne by done. split; [done|]. intros i0 Hi0. by at_step i i0.
  - eexists. split; [eapply rtc_once; by eapply sleep_back|]. simpl.
    split; [by left|]. rewrite upd_ne by done. split; [done|]. intros i0 Hi0.
    at_step i i0; [congruence|done].
Qed.

(** C4: no wakeup is lost.  In every interleaving, a process that sleeps while
    the condition is true has a waker that has set the condition and not yet
    run [wakeup1], and the steps that process and the holder of ptable.lock
    take from there make the sleeper runnable. *)
Theorem no_lost_wakeup s i :
  rtc step init s → s.(at_) i = Asleep → s.(cond) = true →
  (∃ j, s.(at_) j = WPt ∨ s.(at_) j = WWake) ∧
  ∃ s', rtc step s s' ∧ s'.(at_) i = Ready.
Proof.
  intros Hr Hi Hc. pose proof (rdv_inv_reach s Hr) as Hinv. pose proof Hinv as (_ & _ & _ & Hs).
  destruct (Hs i) as [j Hj]; [by rewrite Hi|done|].
  split; [exists j; destruct (s.(at_) j); (done || auto)|].
  destruct (ptl_released s j Hinv Hj) as (s1 & Hr1 & Hptl & Hj1 & Hi1). specialize (Hi1 i Hi).
  assert (∃ s2, rtc step s1 s2 ∧ s2.(at_) j = WWake ∧ s2.(at_) i = Asleep) as (s2 & Hr2 & Hj2 & Hi2).
  { destruct s1 as [c k l f]; simpl in *. rewrite <- Hj1 in Hj. destruct (f j) eqn:Hfj; try done.
    - destruct Hptl as [->| ->].
      + eexists. split; [eapply rtc_once; by eapply wakeup_acquire|]. simpl. rewrite upd_eq, upd_ne by congruence. done.
      + pose proof (rdv_inv_reach _ (transitivity Hr Hr1)) as (_ & Hp & _).
        pose proof (proj2 (Hp j) eq_refl) as Hbad. simpl in Hbad. by rewrite Hfj in Hbad.
    - eexists. split; [apply rtc_refl|]. done. }
  destruct s2 as [c k l f]; simpl in *.
  exists (MkSt c k l (upd (wake f) j WRel)). split.
  - etrans; [exact Hr1|]. etrans; [exact Hr2|]. apply rtc_once. by constructor.
  - simpl. rewrite upd_ne by congruence. unfold wake. by rewrite decide_True.
Qed.

(** Process 0 goes to sleep; process 1 then sets the condition. *)
Definition trace_end : st :=
  MkSt true (Some 1%nat) None
    (upd (upd (upd (upd (upd (upd (upd (upd (λ _, Out) 0 Test) 0 SAcq) 0 SRel) 0 SSet) 0 SSwtch) 0 Asleep) 1 WSet) 1 WPt).

Lemma trace_reach : rtc step init trace_end.
Proof.
  eapply rtc_l. { by apply (wait_enter false 0%nat). }
  eapply rtc_l. { by apply wait_sleep with (i := 0%nat). }
  eapply rtc_l. { by apply sleep_acquire with (i := 0%nat). }
  eapply rtc_l. { by apply sleep_release with (i := 0%nat). }
  eapply rtc_l. { by apply sleep_set with (i := 0%nat). }
  eapply rtc_l. { by apply sleep_swtch with (i := 0%nat). }
  eapply rtc_l. { by apply set_enter with (i := 1%nat). }
  eapply rtc_l. { by apply set_cond with (i := 1%nat). }
  apply rtc_refl.
Qed.

Lemma no_lost_wakeup_witness :
  rtc step init trace_end ∧ ∃ s', rtc step trace_end s' ∧ s'.(at_) 0%nat = Ready.
Proof.
  split; [exact trace_reach|]. exact (proj2 (no_lost_wakeup trace_end 0 trace_reach eq_refl eq_refl)).
Defined.
