(* ===== verification/Priority.v ===== *)
(** * Nice values and inheritance locks (proc.c: sys_nice, sys_lock, sys_release)

    The system calls on priorities, their effect on the process table as a
    function, and what priority inheritance achieves. *)

From S2P Require Import Prelude KState Spinlock Print Mem Args Kalloc Vm Proc.
#[local] Open Scope kernel_scope.

Definition NLOCKS : Z := 7.

Definition getlock (id : Z) : K ulock :=
  o <- gets (λ s, s.(k_pt).(pt_locks) !! Z.to_nat id);; deref o.

Definition setlock (id : Z) (l : ulock) : K unit :=
  modify (on_pt (λ pt, set_pt_locks (<[Z.to_nat id := l]> pt.(pt_locks)) pt)).

Definition sys_nice : K Z :=
  a <- argint 0;;
  match a with
  | None => ret (-1)
  | Some pid =>
      b <- argint 1;;
      match b with
      | None => ret (-1)
      | Some value =>
          if (value <? 1) || (5 <? value) then ret (-1) else
          acquire Lptable;;
          o <- gets (λ s, pfind (λ p, (p.(p_pid) =? pid) && negb (bool_decide (p.(p_state) = UNUSED)))
                                s.(k_pt).(pt_proc));;
          match o with
          | Some i =>
              p <- getp i;;
              let old_nice := p.(p_nice) in
              setp i (set_p_priority value (set_p_nice value p));;
              release Lptable;;
              ret old_nice
          | None => release Lptable;; ret (-1)
          end
      end
  end.

(** The formats of the three messages. *)
Definition fmt_acquired : string :=
  "Process  %d  acquired lock  %d with the priority  %d" +:+ newline.
Definition fmt_inversion : string :=
  "Detection of Priority Inversion: Process  %d  (holder) priority elevated to  %d  because of Process  %d" +:+ newline.
Definition fmt_restored : string :=
  "Process  %d  restoring priority from  %d  to original priority  %d  after releasing lock %d" +:+ newline.
Definition fmt_released : string :=
  "Process  %d  released lock  %d  with no priority change" +:+ newline.

(** The holder inherits [prio], remembering its own priority the first time. *)
Definition boost (prio : Z) (q : proc) : proc :=
  set_p_priority prio
    (if q.(p_original_priority) =? -1 then set_p_original_priority q.(p_priority) q else q).

(** The section of [sys_lock] under ptable.lock; [o] is [myproc()]. *)
Definition lock_section (o : option nat) (id : Z) : K unit :=
  l <- getlock id;;
  if l.(l_held) =? 0 then
    setlock id (set_l_holder o (set_l_held 1 l));;
    i <- deref o;; p <- getp i;;
    cprintf fmt_acquired [AInt p.(p_pid); AInt id; AInt p.(p_priority)]
  else
    i <- deref o;; p <- getp i;;
    h <- deref l.(l_holder);; q <- getp h;;
    if p.(p_priority) <? q.(p_priority) then
      modp h (boost p.(p_priority));;
      q' <- getp h;;
      cprintf fmt_inversion [AInt q'.(p_pid); AInt q'.(p_priority); AInt p.(p_pid)]
    else ret tt.

Definition sys_lock : K Z :=
  o <- myproc;;
  a <- argint 0;;
  match a with
  | None => ret (-1)
  | Some id =>
      if (id <? 0) || (NLOCKS <=? id) then ret (-1) else
      acquire Lptable;;
      lock_section o id;;
      release Lptable;;
      ret 0
  end.

(** The holder gets its own priority back. *)
Definition restore (p : proc) : proc :=
  set_p_original_priority (-1) (set_p_priority p.(p_original_priority) p).

(** The section of [sys_release] under ptable.lock. *)
Definition release_section (o : option nat) (id : Z) : K unit :=
  l <- getlock id;;
  if (l.(l_held) =? 1) && bool_decide (l.(l_holder) = o) then
    setlock id (set_l_holder None (set_l_held 0 l));;
    i <- deref o;; p <- getp i;;
    if negb (p.(p_original_priority) =? -1) then
      cprintf fmt_restored [AInt p.(p_pid); AInt p.(p_priority); AInt p.(p_original_priority); AInt id];;
      modp i restore
    else cprintf fmt_released [AInt p.(p_pid); AInt id]
  else ret tt.

Definition sys_release : K Z :=
  o <- myproc;;
  a <- argint 0;;
  match a with
  | None => ret (-1)
  | Some id =>
      if (id <? 0) || (NLOCKS <=? id) then ret (-1) else
      acquire Lptable;;
      release_section o id;;
      release Lptable;;
      ret 0
  end.

(** ** The calls as functions on the process table *)

Definition set_lock (id : nat) (l : ulock) (pt : ptstate) : ptstate :=
  set_pt_locks (<[id := l]> pt.(pt_locks)) pt.

(** [sys_nice(pid, value)] with a value in range: the slot it changes. *)
Definition nice_target (pid : Z) (pt : ptstate) : option nat :=
  pfind (λ p, (p.(p_pid) =? pid) && negb (bool_decide (p.(p_state) = UNUSED))) pt.(pt_proc).

Definition nice_pt (pid value : Z) (pt : ptstate) : ptstate :=
  match nice_target pid pt with
  | Some i => match pt.(pt_proc) !! i with
              | Some p => setp_pt i (set_p_priority value (set_p_nice value p)) pt
              | None => pt
              end
  | None => pt
  end.

(** [sys_lock(id)] by slot [i]: the lock is taken when free; otherwise a more
    urgent caller raises the holder. *)
Definition lock_pt (i id : nat) (pt : ptstate) : ptstate :=
  match pt.(pt_locks) !! id, pt.(pt_proc) !! i with
  | Some l, Some p =>
      if l.(l_held) =? 0 then set_lock id (set_l_holder (Some i) (set_l_held 1 l)) pt else
      match l.(l_holder) with
      | Some h =>
          match pt.(pt_proc) !! h with
          | Some q => if p.(p_priority) <? q.(p_priority)
                      then setp_pt h (boost p.(p_priority) q) pt else pt
          | None => pt
          end
      | None => pt
      end
  | _, _ => pt
  end.

Definition release_pt (i id : nat) (pt : ptstate) : ptstate :=
  match pt.(pt_locks) !! id, pt.(pt_proc) !! i with
  | Some l, Some p =>
      if (l.(l_held) =? 1) && bool_decide (l.(l_holder) = Some i) then
        let pt1 := set_lock id (set_l_holder None (set_l_held 0 l)) pt in
        if p.(p_original_priority) =? -1 then pt1 else setp_pt i (restore p) pt1
      else pt
  | _, _ => pt
  end.

(** ** The system calls compute these functions *)

(** A process in a system call: its memory is mapped, the locks the call takes
    are free, the console is in order. *)
Record in_syscall (s : kstate) (i : nat) (p : proc) : Prop := {
  sc_running : running s i p;
  sc_size : p.(p_sz) < KERNBASE;
  sc_mapped : mapped s 0 p.(p_sz);
  sc_idle : pt_idle s;
  sc_io : io_ok s.(k_io);
  sc_cons : s.(k_spin) !! Lcons = None
}.

(** Every lock is free, or held by some slot. *)
Definition locks_wf (pt : ptstate) : Prop :=
  length pt.(pt_locks) = 7%nat ∧
  ∀ id l, pt.(pt_locks) !! id = Some l →
    l.(l_held) = 0 ∨ l.(l_held) = 1 ∧ ∃ h, l.(l_holder) = Some h ∧ (h < length pt.(pt_proc))%nat.

Lemma cprintf_pushed fmt args cs c s e :
  s.(k_cpu) = cpu_push c → cpu_wf c → io_ok s.(k_io) → s.(k_spin) !! Lcons = None →
  format (str fmt) args = Some cs →
  cprintf fmt args s e = Ret tt (on_io (puts cs) s) e.
Proof.
  intros Hc Hwf Hio Hfree Hf. rewrite (cprintf_run _ _ cs); [|split_and!; [done|rewrite Hc; by apply cpu_push_wf|done]|done].
  unfold printed, on_io. rewrite Hc, cpu_bracket_push, <- Hc by done. by destruct (truthy _).
Qed.

(** What a section under ptable.lock that changed the table to [pt] and printed
    [cs] leaves behind. *)
Definition pt_printed (pt : ptstate) (cs : list Z) (s : kstate) : kstate :=
  on_io (puts cs) (on_cpu cpu_bracket (set_k_pt pt s)).

(** The body of a section under ptable.lock, run in the locked state, changes
    the table to [pt] and prints. *)
Definition pt_section (body : K unit) (pt : ptstate) (s : kstate) (e : list (kstate → kstate)) : Prop :=
  ∃ cs, body (locked Lptable s) e = Ret tt (on_io (puts cs) (set_k_pt pt (locked Lptable s))) e.

Lemma pt_section_run {A} body pt (r : A) s e :
  pt_idle s → pt_section body pt s e →
  ∃ cs, (acquire Lptable;; body;; release Lptable;; ret r) s e = Ret r (pt_printed pt cs s) e.
Proof.
  intros [Hwf Hfree] [cs Hb]. exists cs. mstep (acquire_run Lptable s e Hfree).
  mstep Hb. by mcall (release_run Lptable s).
Qed.

Lemma getlock_run s id l e :
  s.(k_pt).(pt_locks) !! Z.to_nat id = Some l → getlock id s e = Ret l s e.
Proof. intros H. unfold getlock. rewrite bind_gets. by rewrite H. Qed.

Lemma setlock_run s id l e :
  setlock id l s e = Ret tt (set_k_pt (set_lock (Z.to_nat id) l s.(k_pt)) s) e.
Proof. done. Qed.

Section calls.
Context (s : kstate) (i : nat) (p : proc) (e : list (kstate → kstate)).
Hypothesis Hsc : in_syscall s i p.

Lemma locked_running : running (locked Lptable s) i p.
Proof. exact (sc_running _ _ _ Hsc). Qed.

(** Printing in a state that differs from the locked one in its table only. *)
Lemma cprintf_section fmt args cs pt :
  format (str fmt) args = Some cs →
  cprintf fmt args (set_k_pt pt (locked Lptable s)) e =
    Ret tt (on_io (puts cs) (set_k_pt pt (locked Lptable s))) e.
Proof.
  intros Hf. destruct Hsc as [_ _ _ [Hwf _] Hio Hcons].
  apply (cprintf_pushed _ _ _ s.(k_cpu)); [done..| |done]. simpl. by rewrite lookup_insert_ne.
Qed.

Lemma lock_section_run id :
  locks_wf s.(k_pt) → 0 ≤ id < NLOCKS →
  pt_section (lock_section (Some i) id) (lock_pt i (Z.to_nat id) s.(k_pt)) s e.
Proof.
  intros [Hlen Hl] Hid. destruct (sc_running _ _ _ Hsc) as [_ Hp].
  destruct (lookup_lt_is_Some_2 s.(k_pt).(pt_locks) (Z.to_nat id)) as [l Hlk]; [unfold NLOCKS in *; lia|].
  unfold pt_section, lock_section, lock_pt. mstep (getlock_run (locked Lptable s) id l e Hlk).
  simpl. rewrite Hlk, Hp. destruct (Hl _ l Hlk) as [H0|(H1 & h & Hh & Hlt)].
  - rewrite H0. simpl. mstep (setlock_run _ id _ e). rewrite bind_ret_l.
    erewrite bind_run by by apply getp_run. eexists. by apply cprintf_section.
  - rewrite H1, Hh. simpl. rewrite bind_ret_l. mstep (getp_run (locked Lptable s) i p e Hp). rewrite bind_ret_l.
    destruct (lookup_lt_is_Some_2 _ _ Hlt) as [q Hq]. mstep (getp_run (locked Lptable s) h q e Hq). rewrite Hq.
    destruct (_ <? _) eqn:E; [|by exists []].
    mstep (modp_run (locked Lptable s) h q _ e Hq).
    erewrite bind_run by (apply getp_run; by apply list_lookup_insert_eq). eexists. by apply cprintf_section.
Qed.

Lemma release_section_run id :
  locks_wf s.(k_pt) → 0 ≤ id < NLOCKS →
  pt_section (release_section (Some i) id) (release_pt i (Z.to_nat id) s.(k_pt)) s e.
Proof.
  intros [Hlen Hl] Hid. destruct (sc_running _ _ _ Hsc) as [_ Hp].
  destruct (lookup_lt_is_Some_2 s.(k_pt).(pt_locks) (Z.to_nat id)) as [l Hlk]; [unfold NLOCKS in *; lia|].
  unfold pt_section, release_section, release_pt. mstep (getlock_run (locked Lptable s) id l e Hlk).
  rewrite Hlk, Hp. destruct (_ && _); [|by exists []].
  mstep (setlock_run _ id _ e). rewrite bind_deref.
  erewrite bind_run by by apply getp_run.
  destruct (_ =? -1); cbn [negb].
  - eexists. by apply cprintf_section.
  - destruct (format (str fmt_restored) [AInt (p_pid p); AInt (p_priority p); AInt (p_original_priority p); AInt id])
      as [cs|] eqn:Hf; [|done]. exists cs.
    mstep (cprintf_section _ _ cs (set_lock (Z.to_nat id) _ s.(k_pt)) Hf). by erewrite modp_run.
Qed.

(** The [n]-th argument, as the calls read it. *)
Lemma sc_argint n : argint n s e = Ret (arg_at s p n) s e.
Proof. destruct Hsc. by apply (argint_run s e i p). Qed.

(** The call of [myproc] before the arguments are read: [cpunum] complains
    when interrupts are on and it has not done so before, and nothing that
    the calls read or write changes. *)
Lemma warned_in_syscall :
  in_syscall (cpu_warned s) i p ∧ (cpu_warned s).(k_pt) = s.(k_pt) ∧ ∀ n, arg_at (cpu_warned s) p n = arg_at s p n.
Proof.
  destruct Hsc as [Hr Hsz Hm [Hwf Hfree] Hio Hcons]. unfold cpu_warned. destruct (c_if _); [|done].
  destruct (_ =? 0); [|by split].
  unfold printed.
  destruct (truthy _); (split; [|done]); (split; [done|done|done| |by apply puts_ok|done]); split; (done || by apply cpu_bracket_wf).
Qed.

Lemma sc_myproc : myproc s e = Ret (Some i) (cpu_warned s) e.
Proof.
  destruct Hsc as [Hr Hsz Hm [Hwf Hfree] Hio Hcons]. unfold myproc. mstep (mycpu_run s e (conj Hio (conj Hwf Hcons))).
  unfold proc_var, gets. destruct warned_in_syscall as ([[-> _]] & _). done.
Qed.

(** [sys_nice] on every branch: -1 for arguments outside the process, a
    value outside 1..5 or a pid that no used slot has; otherwise the nice
    value and the priority of the first such slot are set and its old nice
    value is returned. *)
Theorem sys_nice_correct :
  match arg_at s p 0, arg_at s p 1 with
  | Some pid, Some value =>
      if decide (1 ≤ value ≤ 5) then
        sys_nice s e =
          Ret (match nice_target pid s.(k_pt) with
               | Some j => default 0 (p_nice <$> s.(k_pt).(pt_proc) !! j)
               | None => -1
               end) (pt_printed (nice_pt pid value s.(k_pt)) [] s) e
      else sys_nice s e = Ret (-1) s e
  | _, _ => sys_nice s e = Ret (-1) s e
  end.
Proof.
  unfold sys_nice, nice_pt. mstep (sc_argint 0). destruct (arg_at s p 0) as [pid|]; [|done].
  mstep (sc_argint 1). destruct (arg_at s p 1) as [value|]; [|done].
  destruct (_ || _) eqn:E.
  { by rewrite decide_False by (apply orb_true_iff in E as [E|E]; bool_facts; lia). }
  bool_facts. rewrite decide_True by lia.
  destruct (sc_idle _ _ _ Hsc) as [Hwf Hfree]. mstep (acquire_run Lptable s e Hfree). rewrite bind_gets.
  fold (nice_target pid (locked Lptable s).(k_pt)). change (locked Lptable s).(k_pt) with s.(k_pt).
  destruct (nice_target pid s.(k_pt)) as [j|] eqn:Hn.
  - destruct (pfind_lookup _ _ _ Hn) as (q & Hq & _). rewrite Hq.
    mstep (getp_run (locked Lptable s) j q e Hq). unfold setp. rewrite bind_modify.
    by mcall (release_run Lptable s).
  - by mcall (release_run Lptable s).
Qed.

End calls.

(** [sys_lock] on every branch.  An argument outside the process or a lock
    number outside 0..6 gives -1, and nothing has happened but the complaint
    of [cpunum].  Otherwise the call returns 0
    and changes the table as [lock_pt] says, at once: a free lock is taken; of
    a held lock only the holder's priority can change, and the caller goes on
    without the lock. *)
Theorem sys_lock_correct s i p e :
  in_syscall s i p → locks_wf s.(k_pt) →
  match arg_at s p 0 with
  | Some id =>
      if decide (0 ≤ id < NLOCKS) then
        ∃ cs, sys_lock s e = Ret 0 (pt_printed (lock_pt i (Z.to_nat id) s.(k_pt)) cs (cpu_warned s)) e
      else sys_lock s e = Ret (-1) (cpu_warned s) e
  | None => sys_lock s e = Ret (-1) (cpu_warned s) e
  end.
Proof.
  intros Hsc Hwf. destruct (warned_in_syscall s i p Hsc) as (Hsc' & Hk & Ha). unfold sys_lock.
  mstep (sc_myproc s i p e Hsc). mstep (sc_argint _ i p e Hsc' 0). rewrite Ha. rewrite <- Hk in Hwf |- *.
  destruct (arg_at s p 0) as [id|]; [|done].
  destruct (_ || _) eqn:E.
  - by rewrite decide_False by (apply orb_true_iff in E as [E|E]; bool_facts; lia).
  - bool_facts. rewrite decide_True by lia.
    apply pt_section_run; [apply Hsc'|]. by apply (lock_section_run _ i p).
Qed.

(** [sys_release] on every branch; a call by a process that does not hold
    the lock returns 0 and changes nothing, otherwise the table changes as
    [release_pt] says. *)
Theorem sys_release_correct s i p e :
  in_syscall s i p → locks_wf s.(k_pt) →
  match arg_at s p 0 with
  | Some id =>
      if decide (0 ≤ id < NLOCKS) then
        ∃ cs, sys_release s e = Ret 0 (pt_printed (release_pt i (Z.to_nat id) s.(k_pt)) cs (cpu_warned s)) e
      else sys_release s e = Ret (-1) (cpu_warned s) e
  | None => sys_release s e = Ret (-1) (cpu_warned s) e
  end.
Proof.
  intros Hsc Hwf. destruct (warned_in_syscall s i p Hsc) as (Hsc' & Hk & Ha). unfold sys_release.
  mstep (sc_myproc s i p e Hsc). mstep (sc_argint _ i p e Hsc' 0). rewrite Ha. rewrite <- Hk in Hwf |- *.
  destruct (arg_at s p 0) as [id|]; [|done].
  destruct (_ || _) eqn:E.
  - by rewrite decide_False by (apply orb_true_iff in E as [E|E]; bool_facts; lia).
  - bool_facts. rewrite decide_True by lia.
    apply pt_section_run; [apply Hsc'|]. by apply (release_section_run _ i p).
Qed.

(** ** Examples *)

Lemma user_in_syscall args : (length args ≤ 100)%nat → in_syscall (user_state args) 0 user_proc.
Proof.
  intros Hlen. split; [apply user_running|by vm_compute|by apply user_mapped|..].
  - split; [split; [by vm_compute|by simpl]|by vm_compute].
  - split; [by vm_compute|by vm_compute].
  - by vm_compute.
Qed.

Lemma user_locks_wf args : locks_wf (user_state args).(k_pt).
Proof.
  split; [done|]. intros id l Hl. left.
  change (replicate 7 {| l_id := 0; l_held := 0; l_holder := None |} !! id = Some l) in Hl.
  by apply lookup_replicate in Hl as [-> _].
Qed.

Lemma sys_lock_correct_witness :
  in_syscall (user_state [3]) 0 user_proc ∧
  ∃ cs, sys_lock (user_state [3]) [] =
    Ret 0 (pt_printed (lock_pt 0 3 (user_state [3]).(k_pt)) cs (cpu_warned (user_state [3]))) [].
Proof.
  assert (in_syscall (user_state [3]) 0 user_proc) as H by (apply user_in_syscall; simpl; lia).
  split; [exact H|].
  pose proof (sys_lock_correct (user_state [3]) 0 user_proc [] H (user_locks_wf [3])) as Ht.
  assert (arg_at (user_state [3]) user_proc 0 = Some 3) as Ha by (vm_compute; reflexivity).
  rewrite Ha, decide_True in Ht by (unfold NLOCKS; lia). exact Ht.
Defined.

Lemma sys_release_correct_witness :
  in_syscall (user_state [3]) 0 user_proc ∧
  ∃ cs, sys_release (user_state [3]) [] =
    Ret 0 (pt_printed (release_pt 0 3 (user_state [3]).(k_pt)) cs (cpu_warned (user_state [3]))) [].
Proof.
  assert (in_syscall (user_state [3]) 0 user_proc) as H by (apply user_in_syscall; simpl; lia).
  split; [exact H|].
  pose proof (sys_release_correct (user_state [3]) 0 user_proc [] H (user_locks_wf [3])) as Ht.
  assert (arg_at (user_state [3]) user_proc 0 = Some 3) as Ha by (vm_compute; reflexivity).
  rewrite Ha, decide_True in Ht by (unfold NLOCKS; lia). exact Ht.
Defined.

Lemma sys_nice_correct_witness :
  in_syscall (user_state [1; 5]) 0 user_proc ∧
  ∃ s', sys_nice (user_state [1; 5]) [] = Ret 3 s' [] ∧
        p_priority <$> s'.(k_pt).(pt_proc) !! 0%nat = Some 5.
Proof.
  assert (in_syscall (user_state [1; 5]) 0 user_proc) as H by (apply user_in_syscall; simpl; lia).
  split; [exact H|].
  pose proof (sys_nice_correct (user_state [1; 5]) 0 user_proc [] H) as Ht.
  assert (arg_at (user_state [1; 5]) user_proc 0 = Some 1) as Ha by (vm_compute; reflexivity).
  assert (arg_at (user_state [1; 5]) user_proc 1 = Some 5) as Hb by (vm_compute; reflexivity).
  rewrite Ha, Hb, decide_True in Ht by lia.
  eexists. split; [exact Ht|]. vm_compute. reflexivity.
Defined.

(** ** Priority inheritance *)

(** Slot [h] holds lock [id]. *)
Definition holder_of (pt : ptstate) (id h : nat) : Prop :=
  ∃ l, pt.(pt_locks) !! id = Some l ∧ l.(l_held) = 1 ∧ l.(l_holder) = Some h.

(** The priority of slot [i]. *)
Definition prio (pt : ptstate) (i : nat) : Z := default 0 (p_priority <$> pt.(pt_proc) !! i).

Lemma prio_setp pt h q : (h < length pt.(pt_proc))%nat → prio (setp_pt h q pt) h = q.(p_priority).
Proof. intros. unfold prio, setp_pt. simpl. by rewrite list_lookup_insert_eq. Qed.

(** The holder with inherited priority [v]; its own, when that was more urgent. *)
Definition inherited (v : Z) (q : proc) : proc :=
  if v <? q.(p_priority) then boost v q else q.

Lemma lock_pt_held pt w id h p q :
  holder_of pt id h → pt.(pt_proc) !! w = Some p → pt.(pt_proc) !! h = Some q →
  lock_pt w id pt = setp_pt h (inherited p.(p_priority) q) pt.
Proof.
  intros (l & Hl & Hheld & Hh) Hw Hq. unfold lock_pt, inherited, setp_pt.
  rewrite Hl, Hw, Hheld, Hh, Hq. simpl. destruct (_ <? _); [done|]. rewrite list_insert_id by done. done.
Qed.











(** [sys_lock] with a lock number in range, as a run. *)
Lemma sys_lock_runs s i p e id :
  in_syscall s i p → locks_wf s.(k_pt) → arg_at s p 0 = Some id → 0 ≤ id < NLOCKS →
  ∃ s', sys_lock s e = Ret 0 s' e ∧ s'.(k_pt) = lock_pt i (Z.to_nat id) s.(k_pt).
Proof.
  intros Hsc Hwf Ha Hid. pose proof (sys_lock_correct s i p e Hsc Hwf) as H.
  rewrite Ha, decide_True in H by done. destruct H as [cs H]. by eexists.
Qed.



Lemma release_pt_held pt id h q l :
  pt.(pt_locks) !! id = Some l → l.(l_held) = 1 → l.(l_holder) = Some h →
  pt.(pt_proc) !! h = Some q →
  release_pt h id pt =
    setp_pt h (if q.(p_original_priority) =? -1 then q else restore q)
      (set_lock id (set_l_holder None (set_l_held 0 l)) pt).
Proof.
  intros Hl Hheld Hh Hq. unfold release_pt. rewrite Hl, Hq, Hheld, Hh, bool_decide_eq_true_2 by done. simpl.
  destruct (_ =? _); [|done]. unfold setp_pt. simpl. by rewrite list_insert_id.
Qed.





(** Slot 0 of this table holds lock 0 at priority 5; slots 1, 2 and 3 have
    priorities 4, 2 and 3. *)
Definition example_proc (pid v : Z) : proc :=
  set_p_state RUNNABLE (set_p_pid pid (set_p_nice v (set_p_priority v user_proc))).

Definition four_procs : ptstate :=
  let p := example_proc in
  set_lock 0 {| l_id := 0; l_held := 1; l_holder := Some 0%nat |}
    (setp_pt 0 (p 1 5) (setp_pt 1 (p 2 4) (setp_pt 2 (p 3 2) (setp_pt 3 (p 4 3) demo_state.(k_pt))))).

(** Slot [i] of the table [pt] in a call whose first argument is 0. *)
Definition asking (i : nat) (pt : ptstate) : kstate :=
  set_k_pt pt (on_cpu (set_c_proc (Some i)) (user_state [0])).

Lemma asking_in_syscall i p pt :
  pt.(pt_proc) !! i = Some p → p.(p_sz) = 4096 → in_syscall (asking i pt) i p.
Proof.
  intros Hp Hsz. destruct (user_in_syscall [0]) as [_ _ Hm Hi Hio Hc]; [simpl; lia|].
  split; [done|rewrite Hsz; by vm_compute|rewrite Hsz; exact Hm|exact Hi|exact Hio|exact Hc].
Qed.

Lemma asking_arg i p pt :
  p.(p_tf) = user_proc.(p_tf) → p.(p_sz) = 4096 → arg_at (asking i pt) p 0 = Some 0.
Proof. intros Htf Hsz. unfold arg_at. rewrite Htf, Hsz. vm_compute. reflexivity. Qed.



Lemma four_locks_wf : locks_wf four_procs.
Proof.
  split; [done|]. intros id l Hl. change (pt_locks four_procs) with
    ({| l_id := 0; l_held := 1; l_holder := Some 0%nat |} :: replicate 6 {| l_id := 0; l_held := 0; l_holder := None |}) in Hl.
  destruct id as [|id].
  - injection Hl as <-. right. split; [done|]. exists 0%nat. split; [done|]. simpl. lia.
  - change (replicate 6 {| l_id := 0; l_held := 0; l_holder := None |} !! id = Some l) in Hl.
    apply lookup_replicate in Hl as [-> _]. by left.
Qed.


(** C12: no priority inversion.  When slot [w] calls [sys_lock] on a lock
    whose holder [h] is runnable, the call returns 0, the scheduler's scan then
    finds a process, and it is at least as urgent as [w]: a process less
    urgent than [w] no longer runs ahead of the holder [w] waits for. *)
Theorem no_priority_inversion s w id h p q e :
  in_syscall s w p → locks_wf s.(k_pt) → arg_at s p 0 = Some id → 0 ≤ id < NLOCKS →
  holder_of s.(k_pt) (Z.to_nat id) h → s.(k_pt).(pt_proc) !! h = Some q → runnable q →
  ∃ s' i, sys_lock s e = Ret 0 s' e ∧ highest s'.(k_pt).(pt_proc) = Some i ∧
          prio s'.(k_pt) i ≤ p.(p_priority).
Proof.
  intros Hsc Hwf Ha Hid Hh Hq Hr. destruct (sc_running _ _ _ Hsc) as [_ Hw].
  destruct (sys_lock_runs s w p e id Hsc Hwf Ha Hid) as (s' & Hrun & Hk). exists s'.
  rewrite (lock_pt_held _ w _ h p q) in Hk by done. pose proof (lookup_lt_Some _ _ _ Hq) as Hlt.
  assert (s'.(k_pt).(pt_proc) !! h = Some (inherited p.(p_priority) q)) as Hq'
    by (rewrite Hk; simpl; by rewrite list_lookup_insert_eq).
  assert (runnable (inherited p.(p_priority) q)) as Hr'
    by (unfold inherited, boost; destruct (_ <? _); [by destruct (_ =? _)|done]).
  destruct (highest s'.(k_pt).(pt_proc)) as [i|] eqn:Hi; [|by destruct (proj1 (highest_None _) Hi _ _ Hq')].
  exists i. split; [done|]. split; [done|]. apply highest_Some in Hi as (c & Hc & _ & Hmin).
  unfold prio. rewrite Hc. simpl. destruct (Hmin _ _ Hq' Hr') as [Hle _].
  unfold inherited in Hle. destruct (_ <? _) eqn:E; bool_facts; simpl in Hle; lia.
Qed.

Lemma no_priority_inversion_witness :
  highest four_procs.(pt_proc) = Some 2%nat ∧
  ∃ s' i, sys_lock (asking 2 four_procs) [] = Ret 0 s' [] ∧ highest s'.(k_pt).(pt_proc) = Some i ∧
          prio s'.(k_pt) i ≤ 2.
Proof.
  split; [reflexivity|].
  apply (no_priority_inversion (asking 2 four_procs) 2 0 0 (example_proc 3 2) (example_proc 1 5));
    [by apply asking_in_syscall|exact four_locks_wf|by apply asking_arg|unfold NLOCKS; lia|by eexists|reflexivity..].
Defined.

(** ** The invariant of the priority fields *)

Definition prio_ok (p : proc) : Prop :=
  p.(p_state) ≠ UNUSED →
  1 ≤ p.(p_priority) ≤ 5 ∧ 1 ≤ p.(p_nice) ≤ 5 ∧
  (p.(p_original_priority) = -1 ∨ 1 ≤ p.(p_original_priority) ≤ 5).

Definition prio_wf (pt : ptstate) : Prop :=
  length pt.(pt_proc) = NPROC ∧ locks_wf pt ∧ Forall prio_ok pt.(pt_proc).

Lemma prio_wf_setp pt i p :
  prio_wf pt → (i < length pt.(pt_proc))%nat → prio_ok p → prio_wf (setp_pt i p pt).
Proof.
  intros (Hlen & [Hl Hk] & Hok) Hi Hp. split_and!; simpl.
  - by rewrite length_insert.
  - split; [done|]. simpl. by rewrite length_insert.
  - by apply Forall_insert.
Qed.

Lemma prio_wf_set_lock pt id l :
  prio_wf pt → (l.(l_held) = 0 ∨ l.(l_held) = 1 ∧ ∃ h, l.(l_holder) = Some h ∧ (h < length pt.(pt_proc))%nat) →
  prio_wf (set_lock id l pt).
Proof.
  intros (Hlen & [Hl Hk] & Hok) Hnew. split_and!; [done| |done]. split; simpl.
  - by rewrite length_insert.
  - intros id' l' [(-> & <- & _)|(_ & H)]%list_lookup_insert_Some; [done|by apply (Hk id')].
Qed.

Lemma prio_wf_lookup pt i p : prio_wf pt → pt.(pt_proc) !! i = Some p → prio_ok p.
Proof. intros (_ & _ & Hok) Hp. rewrite Forall_lookup in Hok. by apply (Hok i). Qed.

Lemma boost_ok v q : 1 ≤ v ≤ 5 → prio_ok q → prio_ok (boost v q).
Proof.
  unfold boost, prio_ok. intros Hv Hq. destruct (_ =? _) eqn:E; simpl; bool_facts; intros Hs;
    destruct (Hq Hs) as (? & ? & ?); split_and!; (lia || auto).
Qed.

Lemma restore_ok q : q.(p_original_priority) ≠ -1 → prio_ok q → prio_ok (restore q).
Proof.
  unfold restore, prio_ok. simpl. intros Hne Hq Hs. destruct (Hq Hs) as (? & ? & [?|?]); [done|]. auto.
Qed.

Lemma nice_step_wf pid value pt : 1 ≤ value ≤ 5 → prio_wf pt → prio_wf (nice_pt pid value pt).
Proof.
  intros Hv Hwf. unfold nice_pt. destruct (nice_target pid pt) as [i|] eqn:Hn; [|done].
  destruct (pt_proc pt !! i) as [p|] eqn:Hp; [|done].
  apply prio_wf_setp; [done|by eapply lookup_lt_Some|].
  intros Hs. destruct (prio_wf_lookup _ _ _ Hwf Hp Hs) as (? & ? & ?). simpl. auto.
Qed.

Lemma lock_step_wf i id p pt :
  pt.(pt_proc) !! i = Some p → p.(p_state) ≠ UNUSED → prio_wf pt → prio_wf (lock_pt i id pt).
Proof.
  intros Hp Hs Hwf. unfold lock_pt. destruct (pt_locks pt !! id) as [l|] eqn:Hl; [|done]. rewrite Hp.
  pose proof (lookup_lt_Some _ _ _ Hp). destruct (l_held l =? 0).
  - apply prio_wf_set_lock; [done|]. right. simpl. eauto.
  - destruct (l_holder l) as [h|]; [|done]. destruct (pt_proc pt !! h) as [q|] eqn:Hq; [|done].
    destruct (_ <? _); [|done]. apply prio_wf_setp; [done|by eapply lookup_lt_Some|].
    apply boost_ok; [|by eapply prio_wf_lookup]. by apply (prio_wf_lookup _ _ _ Hwf Hp).
Qed.

Lemma release_step_wf i id p pt :
  pt.(pt_proc) !! i = Some p → p.(p_state) ≠ UNUSED → prio_wf pt → prio_wf (release_pt i id pt).
Proof.
  intros Hp Hs Hwf. unfold release_pt. destruct (pt_locks pt !! id) as [l|] eqn:Hl; [|done]. rewrite Hp.
  destruct (_ && _); [|done]. assert (prio_wf (set_lock id (set_l_holder None (set_l_held 0 l)) pt)) as Hwf1.
  { apply prio_wf_set_lock; [done|by left]. }
  destruct (_ =? _) eqn:E; bool_facts; [done|].
  apply prio_wf_setp; [done|by eapply lookup_lt_Some|]. apply restore_ok; [done|by eapply prio_wf_lookup].
Qed.

Lemma demo_prio_wf : prio_wf demo_state.(k_pt).
Proof.
  split_and!; [done| |].
  - exact (user_locks_wf []).
  - apply Forall_forall. intros p Hp.
    change (p ∈ replicate NPROC zero_proc) in Hp. apply elem_of_replicate in Hp as [-> _]. done.
Qed.

Lemma example_proc_ok pid v : 1 ≤ v ≤ 5 → prio_ok (example_proc pid v).
Proof. intros Hv _. simpl. auto. Qed.

Lemma four_procs_wf : prio_wf four_procs.
Proof.
  unfold four_procs. apply prio_wf_set_lock; [|right; split; [done|]; exists 0%nat; split; [done|simpl; lia]].
  repeat (apply prio_wf_setp; [|simpl; lia|by apply example_proc_ok]). apply demo_prio_wf.
Qed.

(** ** Where the inheritance locks fall short *)

(** A lock does not exclude.  While [h] holds a lock, [sys_lock] by another
    process [i] returns 0, as it does to the process that gets the lock: the
    caller does not wait (its slot is unchanged, it stays RUNNING), and [h]
    still holds the lock. *)
Theorem sys_lock_does_not_wait s i p e id h :
  in_syscall s i p → locks_wf s.(k_pt) → arg_at s p 0 = Some id → 0 ≤ id < NLOCKS →
  holder_of s.(k_pt) (Z.to_nat id) h → h ≠ i →
  ∃ s', sys_lock s e = Ret 0 s' e ∧ holder_of s'.(k_pt) (Z.to_nat id) h ∧
        s'.(k_pt).(pt_proc) !! i = Some p.
Proof.
  intros Hsc Hwf Ha Hid Hh Hne. destruct (sc_running _ _ _ Hsc) as [_ Hp].
  destruct (sys_lock_runs s i p e id Hsc Hwf Ha Hid) as (s' & Hrun & Hk). exists s'. split; [done|].
  pose proof Hh as (l & Hl & Hheld & Hhl). destruct Hwf as [_ Hw].
  destruct (Hw _ _ Hl) as [|(_ & h' & Hh' & Hlt)]; [congruence|]. simplify_eq.
  destruct (lookup_lt_is_Some_2 _ _ Hlt) as [q Hq]. rewrite (lock_pt_held _ i _ h p q) in Hk by done.
  rewrite Hk. split; [exact Hh|]. simpl. by rewrite list_lookup_insert_ne.
Qed.

(** Slot 0 asks for lock 0, which slot 1 holds. *)
Definition contended_state : kstate :=
  on_pt (λ pt, set_lock 0 {| l_id := 0; l_held := 1; l_holder := Some 1%nat |}
                 (setp_pt 1 (example_proc 2 5) pt)) (user_state [0]).

Lemma contended_in_syscall : in_syscall contended_state 0 user_proc.
Proof.
  destruct (user_in_syscall [0]) as [Hr Hsz Hm Hi Hio Hc]; [simpl; lia|].
  split; [done|exact Hsz|exact Hm|exact Hi|exact Hio|exact Hc].
Qed.

Lemma user_prio_wf args : prio_wf (user_state args).(k_pt).
Proof.
  apply (prio_wf_setp demo_state.(k_pt) 0 user_proc); [apply demo_prio_wf|simpl; lia|].
  intros _. simpl. lia.
Qed.

Lemma contended_prio_wf : prio_wf contended_state.(k_pt).
Proof.
  apply (prio_wf_set_lock (setp_pt 1 (example_proc 2 5) (user_state [0]).(k_pt)) 0).
  - apply prio_wf_setp; [apply user_prio_wf|simpl; lia|by apply example_proc_ok].
  - right. split; [done|]. exists 1%nat. split; [done|simpl; lia].
Qed.

Lemma sys_lock_does_not_wait_witness :
  holder_of contended_state.(k_pt) 0 1 ∧
  ∃ s', sys_lock contended_state [] = Ret 0 s' [] ∧ holder_of s'.(k_pt) 0 1 ∧
        s'.(k_pt).(pt_proc) !! 0%nat = Some user_proc.
Proof.
  assert (holder_of contended_state.(k_pt) 0 1) as Hh by by eexists. split; [exact Hh|].
  apply (sys_lock_does_not_wait contended_state 0 user_proc [] 0 1 contended_in_syscall
           (proj1 (proj2 contended_prio_wf))); [vm_compute; reflexivity|unfold NLOCKS; lia|exact Hh|discriminate].
Defined.

(** Releasing one lock gives up the priority inherited through another.
    When [h] holds two locks and has inherited a priority through lock [id1],
    releasing lock [id2] restores its own priority although [id1] is still
    held, and still wanted. *)
Theorem release_drops_inheritance pt h q id1 id2 :
  prio_wf pt → id1 ≠ id2 → holder_of pt id1 h → holder_of pt id2 h →
  pt.(pt_proc) !! h = Some q → q.(p_original_priority) ≠ -1 →
  holder_of (release_pt h id2 pt) id1 h ∧
  (release_pt h id2 pt).(pt_proc) !! h = Some (restore q) ∧
  prio (release_pt h id2 pt) h = q.(p_original_priority).
Proof.
  intros Hwf Hne (l1 & Hl1 & Hh1 & Ho1) (l2 & Hl2 & Hh2 & Ho2) Hq Ho.
  pose proof (lookup_lt_Some _ _ _ Hq) as Hlt.
  rewrite (release_pt_held _ _ h q l2), (proj2 (Z.eqb_neq _ _) Ho) by done. split_and!.
  - exists l1. simpl. by rewrite list_lookup_insert_ne.
  - simpl. by rewrite list_lookup_insert_eq.
  - by rewrite prio_setp.
Qed.

(** Slot 0 also holds lock 1, and slot 2 has asked for lock 0. *)
Definition two_locks : ptstate := lock_pt 2 0 (lock_pt 0 1 four_procs).

Lemma release_drops_inheritance_witness :
  prio two_locks 0 = 2 ∧ holder_of (release_pt 0 1 two_locks) 0 0 ∧ prio (release_pt 0 1 two_locks) 0 = 5.
Proof.
  split; [reflexivity|].
  assert (prio_wf two_locks) as Hwf.
  { apply (lock_step_wf _ _ (example_proc 3 2)); [done|done|].
    apply (lock_step_wf _ _ (example_proc 1 5)); [done|done|exact four_procs_wf]. }
  destruct (release_drops_inheritance two_locks 0 (boost 2 (example_proc 1 5)) 0 1 Hwf) as (H1 & _ & H2);
    [done|by eexists|by eexists|reflexivity|discriminate|]. split; [exact H1|exact H2].
Defined.

(** A [nice] during inheritance does not last.  When [h] has inherited a
    priority, [nice] sets a new one, and its next release of a lock replaces
    it by the priority from before the inheritance. *)
Theorem nice_lost_on_release pt h q id pid value :
  prio_wf pt → 1 ≤ value ≤ 5 → holder_of pt id h → pt.(pt_proc) !! h = Some q →
  q.(p_original_priority) ≠ -1 → nice_target pid pt = Some h →
  prio (nice_pt pid value pt) h = value ∧
  prio (release_pt h id (nice_pt pid value pt)) h = q.(p_original_priority).
Proof.
  intros Hwf Hv (l & Hl & Hh & Ho) Hq Horig Ht. pose proof (lookup_lt_Some _ _ _ Hq) as Hlt.
  unfold nice_pt. rewrite Ht, Hq. split; [by rewrite prio_setp|].
  set (q1 := set_p_priority value (set_p_nice value q)).
  rewrite (release_pt_held _ id h q1 l) by (done || simpl; by rewrite list_lookup_insert_eq).
  rewrite prio_setp by (simpl; by rewrite length_insert). simpl.
  by rewrite (proj2 (Z.eqb_neq _ _) Horig).
Qed.

Lemma nice_lost_on_release_witness :
  prio (nice_pt 1 3 (lock_pt 2 0 four_procs)) 0 = 3 ∧
  prio (release_pt 0 0 (nice_pt 1 3 (lock_pt 2 0 four_procs))) 0 = 5.
Proof.
  apply (nice_lost_on_release (lock_pt 2 0 four_procs) 0 (boost 2 (example_proc 1 5)) 0 1 3).
  - apply (lock_step_wf _ _ (example_proc 3 2)); [done|done|exact four_procs_wf].
  - lia.
  - by eexists.
  - reflexivity.
  - discriminate.
  - vm_compute. reflexivity.
Defined.
