(* ===== verification/Syscall.v ===== *)
(** * System calls and the tracer (syscall.c)

    The dispatcher [syscall], the texts the tracer builds, the ring of the
    last [N] traced calls, and the calls that control tracing.  The table of
    handlers is an argument of the dispatcher. *)

From S2P Require Import Prelude KState Spinlock Print Mem Args Proc.
#[local] Open Scope kernel_scope.

Definition SYS_exit : Z := 2.
Definition SYS_exec : Z := 7.
Definition SYS_nice : Z := 22.
Definition NSYSCALLS : Z := 30.

(** [syscallnames], as an array of pointers: [None] is a null entry. *)
Definition syscallnames : list (option string) :=
  [None; Some "fork"; Some "exit"; Some "wait"; Some "pipe"; Some "read"; Some "kill";
   Some "exec"; Some "fstat"; Some "chdir"; Some "dup"; Some "getpid"; Some "sbrk";
   Some "sleep"; Some "uptime"; Some "open"; Some "write"; Some "mknod"; Some "unlink";
   Some "link"; Some "mkdir"; Some "close"; None; None; None; Some "trace"; Some "dump"].

(** [syscallnames[k]]; an access past the end is an invalid one. *)
Definition syscallname (k : Z) : K (option string) :=
  if (k <? 0) || (27 <=? k) then fault "syscallnames out of range" else
  o <- ret (syscallnames !! Z.to_nat k);; deref o.

(** The characters of a string that the code reads up to its NUL. *)
Definition deref_string (o : option string) : K (list Z) :=
  match o with Some s => ret (str s) | None => fault "null pointer" end.

(** ** Building the text of a traced call *)

(** [num % 10 + '0'], [num /= 10], until 0: least significant digit first.  An
    int has at most 10 digits. *)
Fixpoint digits_rev (fuel : nat) (num : Z) : list Z :=
  match fuel with
  | O => []
  | S f => if num =? 0 then [] else u8 (Z.rem num 10 + 48) :: digits_rev f (Z.quot num 10)
  end.

(** [pid_to_string] into the zeroed [pidS[5]], and the scan for its NUL: more
    than 4 digits leave no NUL in the array. *)
Definition pid_to_string (pid : Z) : K (list Z) :=
  let ds := digits_rev 10 pid in
  if (length ds <=? 4)%nat then ret (reverse ds) else fault "pidS overflow".

(** [number_to_string], with its own [pidS[5]]. *)
Definition number_to_string (num : Z) : K (list Z) :=
  if num =? 0 then ret [48] else
  let ds := digits_rev 10 num in
  if (length ds <=? 5)%nat then ret (reverse ds) else fault "pidS overflow".

(** The text and its NUL must fit in [straceBuf[100]]. *)
Definition in_straceBuf (line : list Z) : K (list Z) :=
  if (length line <? 100)%nat then ret line else fault "straceBuf overflow".

Definition create_strace (pid : Z) (processN : list Z) (syscallNum : Z) : K (list Z) :=
  pidS <- pid_to_string pid;;
  o <- syscallname syscallNum;;
  nm <- deref_string o;;
  in_straceBuf (str "TRACE: pid = " ++ pidS ++ [32] ++ str " | command name = " ++ [32] ++ processN
    ++ [32] ++ str " | syscall = " ++ [32] ++ nm).

Definition strace_return (pid : Z) (processN : list Z) (syscallNum returnV : Z) : K (list Z) :=
  pidS <- pid_to_string pid;;
  o <- syscallname syscallNum;;
  nm <- deref_string o;;
  num <- number_to_string returnV;;
  in_straceBuf (str "TRACE: pid = " ++ pidS ++ [32] ++ str " | command name = " ++ [32] ++ processN
    ++ [32] ++ str " | syscall = " ++ [32] ++ nm ++ [32] ++ str " | return value = " ++ num).

(** ** The ring of traced calls *)

(** [memset(row, 0, strlen(row))]. *)
Definition clear_row (row : list Z) : list Z :=
  replicate (length (cstr row)) 0 ++ drop (length (cstr row)) row.

Definition add_line (line : list Z) (t : trstate) : trstate :=
  let start := t.(t_startIndex) in
  let e := t.(t_endIndex) in
  let clear := (start =? e) && truthy t.(t_wrap) in
  let buf1 := if clear then alter clear_row (Z.to_nat e) t.(t_dumpBuf) else t.(t_dumpBuf) in
  let e1 := if clear then (e + 1) mod Z.of_nat NDUMP else e in
  let buf2 := alter (splice 0 line) (Z.to_nat start) buf1 in
  let start1 := (start + 1) mod Z.of_nat NDUMP in
  set_t_dumpBuf buf2
    (set_t_startIndex start1
      (set_t_endIndex e1
        (set_t_wrap (if start1 =? 0 then 1 else t.(t_wrap)) t))).

Definition adding (straceBuf : list Z) : K unit := modify (on_tr (add_line straceBuf)).

(** [compare] of two C strings. *)
Fixpoint compare (s1 s2 : list Z) : Z :=
  match s1, s2 with
  | [], [] => 0
  | a :: s1', b :: s2' => if a =? b then compare s1' s2' else -1
  | _, _ => -1
  end.

(** ** The tracing calls *)

Definition sys_strace : K Z :=
  a <- argint 0;;
  let i := default 0 a in
  c <- curproc;;
  modp c (set_p_straced (if truthy (Z.land i T_STRACE) then i else 0));;
  ret 0.

(** [dumpBuf[i] != 0] compares an array with null: it is always true. *)
Definition sys_dump : K Z :=
  for_each (seq 0 NDUMP) (λ i,
    o <- gets (λ s, s.(k_tr).(t_dumpBuf) !! i);;
    row <- deref o;;
    cprintf ("%s" +:+ newline) [AStr (Some row)]);;
  ret 0.

(** The flag calls leave the flag alone when the argument cannot be read. *)
Definition sys_eflag : K Z :=
  a <- argint 0;;
  (match a with Some v => modify (on_tr (set_t_e_flag v)) | None => ret tt end);;
  ret 0.

Definition sys_sflag : K Z :=
  a <- argint 0;;
  (match a with Some v => modify (on_tr (set_t_s_flag v)) | None => ret tt end);;
  ret 0.

Definition sys_fflag : K Z :=
  a <- argint 0;;
  (match a with Some v => modify (on_tr (set_t_f_flag v)) | None => ret tt end);;
  ret 0.

(** ** The dispatcher *)

Definition fmt_call : string :=
  "TRACE: pid = %d | command name = %s | syscall = %s" +:+ newline.
Definition fmt_return : string :=
  "TRACE: pid = %d | command name = %s | syscall = %s | return value = %d" +:+ newline.
Definition fmt_strace : string :=
  "TRACE: pid = %d | command name = sh | syscall = trace | return value = 0" +:+ newline.
Definition fmt_unknown : string :=
  "Unknown syscall: pid = %d, process = %s, syscall number = %d" +:+ newline.

(** The messages of the tracer. *)
Definition print_call (pid : Z) (processN : list Z) (num : Z) : K unit :=
  o <- syscallname num;;
  cprintf fmt_call [AInt pid; AStr (Some processN); AStr (str <$> o)].

Definition print_return (pid : Z) (processN : list Z) (num v : Z) : K unit :=
  o <- syscallname num;;
  cprintf fmt_return [AInt pid; AStr (Some processN); AStr (str <$> o); AInt v].

(** [compare(syscallnames[e_flag+1], syscallnames[num]) == 0]. *)
Definition names_match (e_flag num : Z) : K bool :=
  a <- syscallname (e_flag + 1);;
  x <- deref_string a;;
  b <- syscallname num;;
  y <- deref_string b;;
  ret (compare x y =? 0).

(** No filter is set. *)
Definition no_flags (t : trstate) : bool :=
  (t.(t_e_flag) =? -1) && (t.(t_s_flag) =? 0) && (t.(t_f_flag) =? 0).

(** Before the call: [exit] is traced here because it does not return. *)
Definition trace_exit (pid : Z) (processN : list Z) (num : Z) : K unit :=
  line <- create_strace pid processN num;;
  adding line;;
  t <- gets (λ s, s.(k_tr));;
  if no_flags t then print_call pid processN num else
  (if negb (t.(t_e_flag) =? -1) then
     m <- names_match t.(t_e_flag) num;;
     if m && (t.(t_f_flag) =? 0) then print_call pid processN num else ret tt
   else if t.(t_f_flag) =? 0 then print_call pid processN num else ret tt);;
  modify (on_tr (λ t, set_t_f_flag 0 (set_t_s_flag 0 (set_t_e_flag (-1) t)))).

(** After an [exec] that succeeded. *)
Definition trace_exec (pid : Z) (processN : list Z) (num : Z) : K unit :=
  line <- create_strace pid processN num;;
  adding line;;
  t <- gets (λ s, s.(k_tr));;
  if no_flags t then cprintf fmt_strace [AInt pid];; print_call pid processN num else
  if negb (t.(t_e_flag) =? -1) then
    m <- names_match t.(t_e_flag) num;;
    if m && (t.(t_f_flag) =? 0) then print_call pid processN num else ret tt
  else if t.(t_s_flag) =? 1 then cprintf fmt_strace [AInt pid];; print_call pid processN num
  else ret tt.

(** After any other call; [v] is its return value. *)
Definition trace_return (pid : Z) (processN : list Z) (num v : Z) : K unit :=
  line <- strace_return pid processN num v;;
  adding line;;
  t <- gets (λ s, s.(k_tr));;
  if no_flags t then print_return pid processN num v else
  if negb (t.(t_e_flag) =? -1) then
    m <- names_match t.(t_e_flag) num;;
    if m : bool then
      if (t.(t_s_flag) =? 1) && (0 <=? v) then print_return pid processN num v else
      if (t.(t_s_flag) =? 1) && (v <=? -1) then ret tt else
      if (t.(t_f_flag) =? 1) && (v <=? -1) then print_return pid processN num v else
      if (t.(t_f_flag) =? 1) && (0 <=? v) then ret tt else
      print_return pid processN num v
    else ret tt
  else if (t.(t_s_flag) =? 1) && (0 <=? v) then print_return pid processN num v
  else if (t.(t_f_flag) =? 1) && (v <=? -1) then print_return pid processN num v
  else ret tt.

Definition set_eax (v : Z) (p : proc) : proc := set_p_tf (set_tf_eax v p.(p_tf)) p.

Section dispatcher.
(** The entry of [syscalls] for a number; [None] is a null entry. *)
Variable syscalls : Z → option (K Z).

(** The copy of [proc->name] into [processN] is kept by value; the store of its
    NUL is one past the end of that array. *)
Definition syscall : K unit :=
  i <- curproc;; p <- getp i;;
  let straced := truthy (Z.land p.(p_straced) T_STRACE) in
  let processN := cstr p.(p_name) in
  let num := s32 p.(p_tf).(tf_eax) in
  (if (num =? SYS_exit) && straced then trace_exit p.(p_pid) processN num else ret tt);;
  match (if (0 <? num) && (num <? NSYSCALLS) then syscalls num else None) with
  | Some handler =>
      v <- handler;;
      i' <- curproc;;
      modp i' (set_eax (u32 v));;
      if negb straced then ret tt else
      p' <- getp i';;
      if (num =? SYS_exec) && (p'.(p_tf).(tf_eax) =? 0) then trace_exec p'.(p_pid) processN num
      else trace_return p'.(p_pid) processN num (s32 p'.(p_tf).(tf_eax))
  | None =>
      cprintf fmt_unknown [AInt p.(p_pid); AStr (Some p.(p_name)); AInt num];;
      modp i (set_eax (u32 (-1)))
  end.

End dispatcher.

(** ** The ring keeps the last N lines *)

(** A text that fits in a row with its NUL. *)
Definition line_ok (line : list Z) : Prop := (length line < 100)%nat ∧ Forall (λ b, b ≠ 0) line.

(** The row that holds [line]. *)
Definition row_of (line : list Z) : list Z := line ++ replicate (100 - length line) 0.

Definition empty_row : list Z := replicate 100 0.

Definition boot_tr : trstate := demo_state.(k_tr).

Definition add_lines (ls : list (list Z)) : trstate := foldl (λ t l, add_line l t) boot_tr ls.

Lemma row_of_split line : (length line < 100)%nat →
  row_of line = line ++ 0 :: replicate (99 - length line) 0.
Proof. intros. unfold row_of. by replace (100 - length line)%nat with (S (99 - length line)) by lia. Qed.

Lemma clear_row_of line : line_ok line → clear_row (row_of line) = empty_row.
Proof.
  intros [Hlen Hnz]. unfold clear_row. rewrite row_of_split, cstr_app_nul by done.
  rewrite drop_app_length. change (0 :: replicate (99 - length line) 0) with (replicate (S (99 - length line)) 0).
  rewrite <- replicate_add. unfold empty_row. f_equal. lia.
Qed.

Lemma splice_empty line : line_ok line → splice 0 line empty_row = row_of line.
Proof.
  intros [Hlen _]. unfold splice, empty_row, row_of. rewrite take_0, app_nil_l. f_equal.
  by rewrite drop_replicate.
Qed.

(** The state of the ring after [n] lines have been added. *)
Record ring_inv (n : nat) (ls : list (list Z)) (t : trstate) : Prop := {
  ring_start : t.(t_startIndex) = Z.of_nat (n mod NDUMP);
  ring_end : t.(t_endIndex) = Z.of_nat (if (n <? NDUMP)%nat then 0 else n mod NDUMP)%nat;
  ring_wrap : t.(t_wrap) = (if (n <? NDUMP)%nat then 0 else 1);
  ring_len : length t.(t_dumpBuf) = NDUMP;
  ring_last : ∀ j l, ls !! j = Some l → (n ≤ j + NDUMP)%nat →
                t.(t_dumpBuf) !! (j mod NDUMP)%nat = Some (row_of l);
  ring_free : ∀ k, (n ≤ k < NDUMP)%nat → t.(t_dumpBuf) !! k = Some empty_row
}.

Lemma ring_boot : ring_inv 0 [] boot_tr.
Proof.
  split; [done..| |]; [done|]. intros k Hk. unfold boot_tr, NDUMP in *. simpl.
  do 5 (destruct k as [|k]; [done|]). lia.
Qed.

Lemma mod_succ_Z n : (Z.of_nat (n mod NDUMP) + 1) mod Z.of_nat NDUMP = Z.of_nat (S n mod NDUMP).
Proof.
  unfold NDUMP. rewrite !Nat2Z.inj_mod. change (Z.of_nat 5) with 5. rewrite Nat2Z.inj_succ.
  rewrite Z.add_mod_idemp_l by lia. done.
Qed.

(** The slot written next is free of old text after the clearing step. *)
Lemma ring_next_row n ls t :
  ring_inv n ls t → length ls = n → Forall line_ok ls →
  ∃ row, t.(t_dumpBuf) !! (n mod NDUMP)%nat = Some row ∧
         (if (n <? NDUMP)%nat then row else clear_row row) = empty_row.
Proof.
  intros Hr Hlen Hok. destruct (n <? NDUMP)%nat eqn:E.
  - apply Nat.ltb_lt in E. exists empty_row. rewrite Nat.mod_small by done.
    split; [|done]. apply (ring_free _ _ _ Hr). lia.
  - apply Nat.ltb_ge in E. destruct (lookup_lt_is_Some_2 ls (n - NDUMP)%nat) as [l Hl]; [unfold NDUMP in *; lia|].
    exists (row_of l). split.
    + rewrite <- (ring_last _ _ _ Hr _ _ Hl) by lia. f_equal.
      replace n with ((n - NDUMP) + 1 * NDUMP)%nat at 1 by lia. by rewrite Nat.Div0.mod_add.
    + rewrite Forall_lookup in Hok. by eapply clear_row_of, Hok.
Qed.

Lemma add_line_eq n ls t line row :
  ring_inv n ls t → line_ok line → t.(t_dumpBuf) !! (n mod NDUMP)%nat = Some row →
  (if (n <? NDUMP)%nat then row else clear_row row) = empty_row →
  (add_line line t).(t_dumpBuf) = <[(n mod NDUMP)%nat := row_of line]> t.(t_dumpBuf).
Proof.
  intros [Hst Hen Hwr Hln _ _] Hl Hrow Hclear. unfold add_line. simpl. rewrite Hst, Hen, Hwr, Nat2Z.id.
  pose proof (lookup_lt_Some _ _ _ Hrow) as Hlt.
  destruct (n <? NDUMP)%nat eqn:E.
  - rewrite andb_false_r. subst row. rewrite (alter_as_insert _ _ _ _ Hrow), splice_empty by done. done.
  - rewrite Nat2Z.id, Z.eqb_refl. change (true && truthy 1) with true. cbn iota. rewrite (alter_as_insert clear_row _ _ _ Hrow), Hclear.
    rewrite (alter_as_insert _ _ _ empty_row), list_insert_insert_eq, splice_empty; [done|done|].
    by apply list_lookup_insert_eq.
Qed.

Lemma ring_step n ls t line :
  ring_inv n ls t → length ls = n → Forall line_ok ls → line_ok line →
  ring_inv (S n) (ls ++ [line]) (add_line line t).
Proof.
  intros Hr Hlen Hok Hl. destruct (ring_next_row n ls t Hr Hlen Hok) as (row & Hrow & Hclear).
  pose proof (add_line_eq n ls t line row Hr Hl Hrow Hclear) as Hbuf.
  pose proof (lookup_lt_Some _ _ _ Hrow) as Hlt.
  destruct Hr as [Hst Hen Hwr Hln Hlast Hfree]. split.
  - unfold add_line. simpl. by rewrite Hst, mod_succ_Z.
  - unfold add_line. simpl. rewrite Hst, Hen, Hwr.
    destruct (n <? NDUMP)%nat eqn:E; [apply Nat.ltb_lt in E|apply Nat.ltb_ge in E].
    + rewrite andb_false_r. destruct (S n <? NDUMP)%nat eqn:E2; [done|].
      apply Nat.ltb_ge in E2. unfold NDUMP in *. replace n with 4%nat by lia. done.
    + rewrite Z.eqb_refl. cbn [andb]. rewrite mod_succ_Z. assert (S n <? NDUMP = false)%nat as -> by (apply Nat.ltb_ge; lia). done.
  - unfold add_line. simpl. rewrite Hst, mod_succ_Z, Hwr.
    destruct (n <? NDUMP)%nat eqn:E; [apply Nat.ltb_lt in E|apply Nat.ltb_ge in E].
    + destruct (S n <? NDUMP)%nat eqn:E2; [apply Nat.ltb_lt in E2|apply Nat.ltb_ge in E2].
      * rewrite Nat.mod_small by done. by destruct (_ =? 0) eqn:E3; bool_facts; [lia|].
      * unfold NDUMP in *. replace n with 4%nat by lia. done.
    + assert (S n <? NDUMP = false)%nat as -> by (apply Nat.ltb_ge; lia). by destruct (_ =? 0).
  - rewrite Hbuf. by rewrite length_insert.
  - intros j l Hj Hn. rewrite Hbuf. apply lookup_app_Some in Hj as [Hj|(Hge & Hj)].
    + pose proof (lookup_lt_Some _ _ _ Hj). rewrite list_lookup_insert_ne; [apply Hlast; [done|lia]|].
      unfold NDUMP in *. intros Heq. revert Hn Heq. clear -H Hlen.
      rewrite (Nat.Div0.mod_eq n 5), (Nat.Div0.mod_eq j 5).
      pose proof (Nat.Div0.mul_div_le n 5). pose proof (Nat.mul_succ_div_gt n 5).
      pose proof (Nat.Div0.mul_div_le j 5). pose proof (Nat.mul_succ_div_gt j 5). lia.
    + apply list_lookup_singleton_Some in Hj as [Hj <-]. replace j with n by lia.
      by apply list_lookup_insert_eq.
  - intros k Hk. rewrite Hbuf. rewrite list_lookup_insert_ne; [apply Hfree; lia|].
    rewrite Nat.mod_small; unfold NDUMP in *; lia.
Qed.

Lemma ring_lines ls : Forall line_ok ls → ring_inv (length ls) ls (add_lines ls).
Proof.
  unfold add_lines. induction ls as [|l ls IH] using rev_ind; intros H; [exact ring_boot|].
  apply Forall_app in H as [Hls [Hl _]%Forall_cons]. rewrite foldl_snoc, length_app, Nat.add_1_r.
  by apply ring_step; [apply IH|..].
Qed.

(** The ring keeps the last five traced lines.  After any sequence of
    lines that fit in a row, each of the last five can be read back unchanged
    from its slot, no slot holds anything else, and no row grows past the
    array. *)
Theorem ring_keeps_last_lines ls :
  Forall line_ok ls →
  (∀ j l, ls !! j = Some l → (length ls ≤ j + NDUMP)%nat →
     cstr <$> (add_lines ls).(t_dumpBuf) !! (j mod NDUMP)%nat = Some l) ∧
  (∀ k, (length ls ≤ k < NDUMP)%nat → (add_lines ls).(t_dumpBuf) !! k = Some empty_row) ∧
  length (add_lines ls).(t_dumpBuf) = NDUMP ∧
  Forall (λ row, length row = 100%nat) (add_lines ls).(t_dumpBuf).
Proof.
  intros Hok. destruct (ring_lines ls Hok) as [_ _ _ Hlen Hlast Hfree].
  assert (∀ j l, ls !! j = Some l → line_ok l) as Hline.
  { intros j l Hj. rewrite Forall_lookup in Hok. by apply (Hok j). }
  split_and!; [|done|done|].
  - intros j l Hj Hn. rewrite (Hlast j l Hj Hn). simpl. f_equal.
    destruct (Hline j l Hj). by rewrite row_of_split, cstr_app_nul.
  - apply Forall_lookup. intros k row Hk. pose proof (lookup_lt_Some _ _ _ Hk) as Hlt. rewrite Hlen in Hlt.
    destruct (decide (length ls ≤ k)%nat) as [Hle|Hgt].
    { rewrite Hfree in Hk by lia. simplify_eq. apply length_replicate. }
    set (j := (length ls - 1 - (length ls - 1 - k) mod NDUMP)%nat).
    pose proof (Nat.mod_upper_bound (length ls - 1 - k) NDUMP) as Hm.
    assert (j mod NDUMP = k)%nat as Hj.
    { unfold j, NDUMP in *. rewrite (Nat.Div0.mod_eq (length ls - 1 - k) 5).
      replace (length ls - 1 - (length ls - 1 - k - 5 * ((length ls - 1 - k) / 5)))%nat
        with (k + ((length ls - 1 - k) / 5) * 5)%nat by (pose proof (Nat.Div0.mul_div_le (length ls - 1 - k) 5); lia).
      rewrite Nat.Div0.mod_add. by apply Nat.mod_small. }
    destruct (lookup_lt_is_Some_2 ls j) as [l Hl]; [unfold j; lia|].
    assert (length ls ≤ j + NDUMP)%nat as Hjn by (unfold j, NDUMP in *; lia).
    pose proof (Hlast j l Hl Hjn) as Hrow. rewrite Hj, Hk in Hrow. injection Hrow as ->.
    destruct (Hline j l Hl). unfold row_of. rewrite length_app, length_replicate. lia.
Qed.

Definition demo_lines : list (list Z) := str <$> ["one"; "two"; "three"; "four"; "five"; "six"; "seven"].

Lemma demo_lines_ok : Forall line_ok demo_lines.
Proof. repeat (constructor; [split; [simpl; lia|repeat constructor; discriminate]|]). constructor. Qed.

Lemma ring_keeps_last_lines_witness :
  Forall line_ok demo_lines ∧
  cstr <$> (add_lines demo_lines).(t_dumpBuf) !! 1%nat = Some (str "seven") ∧
  cstr <$> (add_lines demo_lines).(t_dumpBuf) !! 2%nat = Some (str "three").
Proof.
  split; [exact demo_lines_ok|]. destruct (ring_keeps_last_lines demo_lines demo_lines_ok) as [H _].
  split; [apply (H 6%nat)|apply (H 2%nat)]; (reflexivity || (vm_compute; lia)).
Defined.

(** ** The numerals of the tracer *)

Lemma digits_rev_pos f f' v :
  0 < v < 10 ^ Z.of_nat f → (f ≤ f')%nat → digits_rev f v = printint_digits f' v 10.
Proof.
  revert f' v. induction f as [|f IH]; intros f' v Hv Hf; [change (10 ^ Z.of_nat 0) with 1 in Hv; lia|].
  destruct f' as [|f']; [lia|]. cbn [digits_rev printint_digits].
  destruct (v =? 0) eqn:E; bool_facts; [lia|].
  rewrite Z.rem_mod_nonneg, Z.quot_div_nonneg by lia. pose proof (Z.mod_pos_bound v 10).
  rewrite digit_char_dec by lia. f_equal.
  { unfold u8. rewrite Z.mod_small by lia. lia. }
  destruct (v / 10 =? 0) eqn:E2; bool_facts.
  { rewrite E2. by destruct f. }
  apply IH; [|lia]. replace (Z.of_nat (S f)) with (Z.of_nat f + 1) in Hv by lia.
  rewrite Z.pow_add_r, Z.pow_1_r in Hv by lia. pose proof (Z.div_pos v 10).
  split; [lia|]. apply Z.div_lt_upper_bound; lia.
Qed.

Lemma digits_rev_neg f v : 0 ≤ v → digits_rev f (- v) = (λ c, 96 - c) <$> digits_rev f v.
Proof.
  revert v. induction f as [|f IH]; intros v Hv; [done|]. cbn [digits_rev].
  destruct (v =? 0) eqn:E; bool_facts; [by subst|].
  assert (- v =? 0 = false) as -> by (apply Z.eqb_neq; lia). cbn [fmap list_fmap].
  rewrite Z.rem_opp_l', Z.quot_opp_l by lia. rewrite Z.rem_mod_nonneg, Z.quot_div_nonneg by lia.
  pose proof (Z.mod_pos_bound v 10). f_equal.
  - unfold u8. rewrite !(Z.mod_small _ 256) by lia. lia.
  - apply IH. apply Z.div_pos; lia.
Qed.

Lemma printint_digits_length_ge fuel x k :
  10 ^ Z.of_nat k ≤ x < 10 ^ Z.of_nat fuel → (k < length (printint_digits fuel x 10))%nat.
Proof.
  revert x k. induction fuel as [|fuel IH]; intros x k Hx.
  { change (10 ^ Z.of_nat 0) with 1 in Hx. pose proof (Z.pow_pos_nonneg 10 (Z.of_nat k)). lia. }
  cbn [printint_digits length]. destruct k as [|k]; [lia|].
  replace (Z.of_nat (S k)) with (Z.of_nat k + 1) in Hx by lia.
  replace (Z.of_nat (S fuel)) with (Z.of_nat fuel + 1) in Hx by lia.
  rewrite !Z.pow_add_r, !Z.pow_1_r in Hx by lia.
  assert (10 ^ Z.of_nat k ≤ x / 10 < 10 ^ Z.of_nat fuel) as Hd.
  { split; [apply Z.div_le_lower_bound; lia|apply Z.div_lt_upper_bound; lia]. }
  pose proof (Z.pow_pos_nonneg 10 (Z.of_nat k)).
  destruct (x / 10 =? 0) eqn:E; bool_facts; [lia|]. pose proof (IH _ _ Hd). lia.
Qed.

Lemma digits_rev_printint v : 0 < v < 10 ^ 10 → digits_rev 10 v = printint_digits 32 v 10.
Proof. intros. apply digits_rev_pos; [change (Z.of_nat 10) with 10; lia|lia]. Qed.

Lemma digits_rev_length v k :
  (0 < k ≤ 9)%nat → Z.abs v < 10 ^ 10 →
  (length (digits_rev 10 v) ≤ k)%nat ↔ Z.abs v < 10 ^ Z.of_nat k.
Proof.
  intros Hk Hv. assert (∀ w, 0 ≤ w < 10 ^ 10 → (length (digits_rev 10 w) ≤ k)%nat ↔ w < 10 ^ Z.of_nat k) as Hpos.
  { intros w Hw. pose proof (Z.pow_pos_nonneg 10 (Z.of_nat k)).
    destruct (decide (w = 0)) as [->|Hne]; [simpl; lia|]. rewrite digits_rev_printint by lia. split.
    - intros Hl. destruct (decide (w < 10 ^ Z.of_nat k)); [done|].
      pose proof (printint_digits_length_ge 32 w k) as Hge. change (Z.of_nat 32) with 32 in Hge. lia.
    - intros Hlt. apply printint_digits_length; lia. }
  destruct (decide (0 ≤ v)) as [Hn|Hn].
  - rewrite Z.abs_eq in * by done. by apply Hpos.
  - rewrite Z.abs_neq in * by lia. rewrite <- (Z.opp_involutive v) at 1.
    rewrite digits_rev_neg, length_fmap by lia. apply Hpos. lia.
Qed.

Lemma printint_nonneg v : 0 ≤ v ≤ 2147483647 → printint v 10 true = reverse (printint_digits 32 v 10).
Proof.
  intros. unfold printint. destruct (v <? 0) eqn:E; bool_facts; [lia|]. cbn [andb].
  by rewrite u32_id by (unfold is_u32; lia).
Qed.

(** the tracer's [number_to_string], on every int.  From 0 to 99999 it
    writes what [cprintf("%d")] writes.  A value of six digits or more
    overruns its five-byte array.  A negative value of up to five digits gives
    one character between an apostrophe and '0' per digit and no minus sign:
    not its decimal numeral. *)
Theorem number_to_string_correct v s e :
  is_s32 v →
  (0 ≤ v ≤ 99999 → number_to_string v s e = Ret (printint v 10 true) s e) ∧
  (100000 ≤ Z.abs v → number_to_string v s e = Fault "pidS overflow") ∧
  (-99999 ≤ v < 0 → ∃ ds, number_to_string v s e = Ret ds s e ∧
     Forall (λ c, 39 ≤ c ≤ 48) ds ∧ ds = (λ c, 96 - c) <$> printint (- v) 10 true).
Proof.
  unfold is_s32, number_to_string. intros Hv.
  pose proof (digits_rev_length v 5 ltac:(lia) ltac:(lia)) as Hlen. change (10 ^ Z.of_nat 5) with 100000 in Hlen.
  assert ((length (digits_rev 10 v) <=? 5)%nat = bool_decide (Z.abs v < 100000)) as Hb.
  { case_bool_decide; [apply Nat.leb_le, Hlen; lia|apply Nat.leb_gt]. apply Nat.nle_gt. rewrite Hlen. lia. }
  split_and!; intros Hr.
  - destruct (v =? 0) eqn:E; bool_facts; [by subst|]. rewrite Hb, bool_decide_eq_true_2 by lia.
    by rewrite printint_nonneg, digits_rev_printint by lia.
  - destruct (v =? 0) eqn:E; bool_facts; [lia|]. by rewrite Hb, bool_decide_eq_false_2 by lia.
  - destruct (v =? 0) eqn:E; bool_facts; [lia|]. rewrite Hb, bool_decide_eq_true_2 by lia.
    eexists. split; [done|]. rewrite <- (Z.opp_involutive v), digits_rev_neg, Z.opp_involutive by lia.
    rewrite digits_rev_printint, printint_nonneg by lia. rewrite fmap_reverse. split; [|done].
    apply Forall_reverse, Forall_fmap. destruct (printint_digits_dec 32 (- v)) as [_ Hd]; [lia|lia|].
    eapply Forall_impl; [exact Hd|]. unfold is_digit. simpl. lia.
Qed.

Lemma number_to_string_correct_witness :
  number_to_string 131072 demo_state [] = Fault "pidS overflow" ∧
  number_to_string 42 demo_state [] = Ret (str "42") demo_state [] ∧
  number_to_string (-1) demo_state [] = Ret (str "/") demo_state [].
Proof.
  destruct (number_to_string_correct 131072 demo_state []) as (_ & H1 & _); [unfold is_s32; lia|].
  destruct (number_to_string_correct 42 demo_state []) as (H2 & _ & _); [unfold is_s32; lia|].
  destruct (number_to_string_correct (-1) demo_state []) as (_ & _ & H3); [unfold is_s32; lia|].
  split; [apply H1; lia|]. split; [rewrite H2 by lia; vm_compute; reflexivity|].
  destruct H3 as (ds & Hd & _ & ->); [lia|]. rewrite Hd. vm_compute. reflexivity.
Defined.

(** ** The text of a traced call fits its buffer *)

(** [num] is a call with a name. *)
Definition named (num : Z) (nm : string) : Prop :=
  0 ≤ num < 27 ∧ syscallnames !! Z.to_nat num = Some (Some nm).

Definition nonzero (b : Z) : bool := negb (b =? 0).

Lemma str_nonzero (s : string) : forallb nonzero (str s) = true → Forall (λ b, b ≠ 0) (str s).
Proof.
  intros H. apply Forall_forall. intros b Hb. rewrite forallb_forall in H.
  specialize (H b (proj1 (list_elem_of_In _ _) Hb)). unfold nonzero in H. by bool_facts.
Qed.

Lemma syscallnames_short num nm :
  named num nm → (length (str nm) ≤ 6)%nat ∧ Forall (λ b, b ≠ 0) (str nm).
Proof.
  intros [_ Hn]. assert (Forall (λ o, match o with
    | Some nm => (length (str nm) <=? 6)%nat && forallb nonzero (str nm) = true | None => True end) syscallnames) as Hall
    by (unfold syscallnames; repeat constructor).
  rewrite Forall_lookup in Hall. pose proof (Hall _ _ Hn) as [Hl Hz]%andb_true_iff.
  split; [by apply Nat.leb_le|by apply str_nonzero].
Qed.

Lemma syscallname_run num nm s e : named num nm → syscallname num s e = Ret (Some nm) s e.
Proof.
  intros [Hr Hn]. unfold syscallname. destruct (_ || _) eqn:E.
  { apply orb_true_iff in E as [E|E]; bool_facts; lia. }
  rewrite bind_ret_l, Hn. done.
Qed.

Lemma pid_to_string_run pid s e :
  1 ≤ pid ≤ 9999 → pid_to_string pid s e = Ret (printint pid 10 true) s e.
Proof.
  intros Hp. unfold pid_to_string.
  pose proof (digits_rev_length pid 4 ltac:(lia) ltac:(lia)) as Hlen. change (10 ^ Z.of_nat 4) with 10000 in Hlen.
  destruct (length (digits_rev 10 pid) <=? 4)%nat eqn:E; [|apply Nat.leb_gt in E; lia].
  by rewrite printint_nonneg, digits_rev_printint by lia.
Qed.

(** What [number_to_string] writes for a value of at most five digits. *)
Definition num_text (v : Z) : list Z :=
  if 0 <=? v then printint v 10 true else (λ c, 96 - c) <$> printint (- v) 10 true.

Lemma number_to_string_run v s e :
  -99999 ≤ v ≤ 99999 → number_to_string v s e = Ret (num_text v) s e.
Proof.
  intros Hv. unfold number_to_string, num_text.
  destruct (v =? 0) eqn:E; bool_facts; [by subst|].
  pose proof (digits_rev_length v 5 ltac:(lia) ltac:(lia)) as Hlen. change (10 ^ Z.of_nat 5) with 100000 in Hlen.
  destruct (length (digits_rev 10 v) <=? 5)%nat eqn:E2; [|apply Nat.leb_gt in E2; lia].
  destruct (0 <=? v) eqn:E3; bool_facts; rewrite printint_nonneg by lia.
  - by rewrite digits_rev_printint by lia.
  - rewrite <- (Z.opp_involutive v), digits_rev_neg, Z.opp_involutive by lia.
    by rewrite digits_rev_printint, fmap_reverse by lia.
Qed.

(** The lines. *)
Definition call_line (pid : Z) (processN : list Z) (nm : string) : list Z :=
  str "TRACE: pid = " ++ printint pid 10 true ++ [32] ++ str " | command name = " ++ [32] ++ processN
    ++ [32] ++ str " | syscall = " ++ [32] ++ str nm.

Definition return_line (pid : Z) (processN : list Z) (nm : string) (v : Z) : list Z :=
  str "TRACE: pid = " ++ printint pid 10 true ++ [32] ++ str " | command name = " ++ [32] ++ processN
    ++ [32] ++ str " | syscall = " ++ [32] ++ str nm ++ [32] ++ str " | return value = " ++ num_text v.

(** A process name as [proc->name] holds it. *)
Definition name_ok (processN : list Z) : Prop :=
  (length processN ≤ 15)%nat ∧ Forall (λ b, b ≠ 0) processN.

Lemma printint_short v k :
  (0 < k)%nat → 0 ≤ v ≤ 2147483647 → v < 10 ^ Z.of_nat k →
  (length (printint v 10 true) ≤ k)%nat ∧ Forall (λ b, b ≠ 0) (printint v 10 true).
Proof.
  intros Hk Hv Hlt. rewrite printint_nonneg, length_reverse by lia. split.
  - apply printint_digits_length; lia.
  - apply Forall_reverse. destruct (printint_digits_dec 32 v) as [_ Hd]; [lia|lia|].
    eapply Forall_impl; [exact Hd|]. unfold is_digit. lia.
Qed.

Lemma num_text_short v :
  -99999 ≤ v ≤ 99999 → (length (num_text v) ≤ 5)%nat ∧ Forall (λ b, b ≠ 0) (num_text v).
Proof.
  intros Hv. unfold num_text. destruct (0 <=? v) eqn:E; bool_facts; [apply printint_short; simpl; lia|].
  rewrite length_fmap. destruct (printint_short (- v) 5) as [Hl _]; [lia|lia|simpl; lia|]. split; [done|].
  apply Forall_fmap. rewrite printint_nonneg by lia. apply Forall_reverse.
  destruct (printint_digits_dec 32 (- v)) as [_ Hd]; [lia|lia|].
  eapply Forall_impl; [exact Hd|]. unfold is_digit. simpl. lia.
Qed.

Lemma return_line_ok pid processN num nm v :
  1 ≤ pid ≤ 9999 → name_ok processN → named num nm → -99999 ≤ v ≤ 99999 →
  line_ok (return_line pid processN nm v).
Proof.
  intros Hp [Hl Hz] Hn Hv. destruct (syscallnames_short _ _ Hn) as [Hnl Hnz].
  destruct (printint_short pid 4) as [Hpl Hpz]; [lia|lia|simpl; lia|].
  destruct (num_text_short v Hv) as [Hvl Hvz].
  unfold return_line. split.
  - rewrite !length_app. simpl. lia.
  - rewrite !Forall_app. split_and!; (done || (apply str_nonzero; reflexivity) || (repeat constructor; done)).
Qed.

Lemma call_line_ok pid processN num nm :
  1 ≤ pid ≤ 9999 → name_ok processN → named num nm → line_ok (call_line pid processN nm).
Proof.
  intros Hp [Hl Hz] Hn. destruct (syscallnames_short _ _ Hn) as [Hnl Hnz].
  destruct (printint_short pid 4) as [Hpl Hpz]; [lia|lia|simpl; lia|].
  unfold call_line. split.
  - rewrite !length_app. simpl. lia.
  - rewrite !Forall_app. split_and!; (done || (apply str_nonzero; reflexivity) || (repeat constructor; done)).
Qed.

Lemma in_straceBuf_run line s e : line_ok line → in_straceBuf line s e = Ret line s e.
Proof. intros [Hl _]. unfold in_straceBuf. apply Nat.ltb_lt in Hl. by rewrite Hl. Qed.

Lemma strace_return_run pid processN num nm v s e :
  1 ≤ pid ≤ 9999 → name_ok processN → named num nm → -99999 ≤ v ≤ 99999 →
  strace_return pid processN num v s e = Ret (return_line pid processN nm v) s e.
Proof.
  intros Hp Hname Hn Hv. unfold strace_return.
  mcall pid_to_string_run. mcall syscallname_run. cbn [deref_string]. rewrite bind_ret_l.
  mcall number_to_string_run. apply in_straceBuf_run. by eapply return_line_ok.
Qed.

Lemma create_strace_run pid processN num nm s e :
  1 ≤ pid ≤ 9999 → name_ok processN → named num nm →
  create_strace pid processN num s e = Ret (call_line pid processN nm) s e.
Proof.
  intros Hp Hname Hn. unfold create_strace.
  mcall pid_to_string_run. mcall syscallname_run. cbn [deref_string]. rewrite bind_ret_l.
  apply in_straceBuf_run. by eapply call_line_ok.
Qed.

Lemma compare_eq s1 s2 : compare s1 s2 = 0 ↔ s1 = s2.
Proof.
  revert s2. induction s1 as [|a s1 IH]; intros [|b s2]; simpl; try done.
  destruct (a =? b) eqn:E; bool_facts; [subst; rewrite IH; naive_solver|]. split; [done|]. congruence.
Qed.

Lemma names_match_run ef num nm nm' s e :
  named (ef + 1) nm' → named num nm →
  names_match ef num s e = Ret (bool_decide (str nm' = str nm)) s e.
Proof.
  intros H' H. unfold names_match. mcall syscallname_run. cbn [deref_string]. rewrite bind_ret_l.
  mcall syscallname_run. cbn [deref_string]. rewrite bind_ret_l. unfold ret. f_equal.
  destruct (_ =? 0) eqn:E; symmetry; bool_facts; [by apply bool_decide_eq_true, compare_eq|].
  apply bool_decide_eq_false. by rewrite <- compare_eq.
Qed.

(** ** The filters *)

(** Which lines the flags let through: [-e] selects one call by name, [-s] the
    calls that did not fail, [-f] those that did. *)
Definition shown (t : trstate) (nm : string) (v : Z) : Prop :=
  if decide (t.(t_e_flag) = -1) then
    t.(t_s_flag) = 0 ∧ t.(t_f_flag) = 0 ∨ t.(t_s_flag) = 1 ∧ 0 ≤ v ∨ t.(t_f_flag) = 1 ∧ v < 0
  else
    (∃ nm', named (t.(t_e_flag) + 1) nm' ∧ str nm' = str nm) ∧
    (t.(t_s_flag) = 1 → 0 ≤ v) ∧ (t.(t_s_flag) ≠ 1 → t.(t_f_flag) = 1 → v < 0).

(** The flags in use: -e names a call. *)
Definition flags_ok (t : trstate) : Prop :=
  t.(t_e_flag) = -1 ∨ ∃ nm, named (t.(t_e_flag) + 1) nm.



(** The state after a return line was recorded, and printed or not. *)
Definition recorded (line : list Z) (s : kstate) : kstate := on_tr (add_line line) s.

Definition return_text (pid : Z) (processN : list Z) (nm : string) (v : Z) : list Z :=
  default [] (format (str fmt_return) [AInt pid; AStr (Some processN); AStr (Some (str nm)); AInt v]).

Lemma print_return_run pid processN num nm v s e :
  named num nm → can_print s →
  print_return pid processN num v s e = Ret tt (printed (return_text pid processN nm v) s) e.
Proof.
  intros Hn Hc. unfold print_return. mcall syscallname_run. by apply cprintf_run.
Qed.

Lemma print_return_shown (b : bool) pid processN num nm v s e :
  named num nm → can_print s →
  (if b then print_return pid processN num v else ret tt) s e =
    Ret tt (if b then printed (return_text pid processN nm v) s else s) e.
Proof. intros Hn Hc. destruct b; [by apply print_return_run|done]. Qed.

(** The tracer after a call other than [exec], for pids and return values
    its buffers have room for.  The line is recorded in the ring whatever the
    flags say, and it is printed exactly when they let it through: -e selects
    one call, -s the calls that did not fail and -f those that did. *)
Theorem trace_return_filters pid processN num nm v s e :
  1 ≤ pid ≤ 9999 → name_ok processN → named num nm → -99999 ≤ v ≤ 99999 →
  flags_ok s.(k_tr) → can_print s →
  let s1 := recorded (return_line pid processN nm v) s in
  (shown s.(k_tr) nm v →
     trace_return pid processN num v s e = Ret tt (printed (return_text pid processN nm v) s1) e) ∧
  (¬ shown s.(k_tr) nm v → trace_return pid processN num v s e = Ret tt s1 e).
Proof.
  intros Hp Hname Hn Hv Hf Hc s1.
  assert (can_print s1) as Hc1 by exact Hc.
  assert (∃ b : bool, (b = true ↔ shown s.(k_tr) nm v) ∧
            trace_return pid processN num v s e =
              (if b then print_return pid processN num v else ret tt) s1 e) as (b & Hb & ->).
  { unfold trace_return. mcall strace_return_run. unfold adding. rewrite bind_modify, bind_gets.
    fold s1. change (k_tr s1) with (add_line (return_line pid processN nm v) (k_tr s)).
    unfold shown, no_flags, flags_ok, add_line in *. simpl. generalize dependent (k_tr s). intros t Hf.
    destruct (t_e_flag t =? -1) eqn:Ee; bool_facts.
    - rewrite decide_True by done. simpl. destruct (t_s_flag t =? 0) eqn:Es, (t_f_flag t =? 0) eqn:Eff,
        (t_s_flag t =? 1) eqn:Es1, (t_f_flag t =? 1) eqn:Ef1, (0 <=? v) eqn:E0, (v <=? -1) eqn:E1; simpl; bool_facts;
        try lia; first [exists true; split; [lia|done] | exists false; split; [lia|done]].
    - rewrite decide_False by done. destruct Hf as [?|[nm' Hn']]; [done|]. simpl.
      mcall names_match_run. case_bool_decide as Heq.
      + destruct (t_s_flag t =? 1) eqn:Es1, (t_f_flag t =? 1) eqn:Ef1, (0 <=? v) eqn:E0, (v <=? -1) eqn:E1; simpl; bool_facts;
          try lia; first [exists true; split; [|done]; split; [intros _; split; [by eauto|lia]|done]
                         |exists false; split; [|done]; split; [done|]; intros (_ & ? & ?); lia].
      + exists false. split; [|done]. split; [done|]. intros ((nm2 & [_ H2] & H3) & _).
        destruct Hn' as [_ Hn']. congruence. }
  rewrite (print_return_shown b _ _ _ nm) by done. destruct b; split; intros H; (done || exfalso; by intuition).
Qed.

Lemma demo_can_print : can_print demo_state.
Proof. split_and!; [split; by vm_compute|split; by vm_compute|by vm_compute]. Qed.

Lemma trace_return_filters_witness :
  named 16 "write" ∧
  trace_return 3 (str "ls") 16 1 demo_state [] =
    Ret tt (printed (return_text 3 (str "ls") "write" 1) (recorded (return_line 3 (str "ls") "write" 1) demo_state)) [].
Proof.
  assert (named 16 "write") as Hn by (split; [lia|reflexivity]). split; [exact Hn|].
  destruct (trace_return_filters 3 (str "ls") 16 "write" 1 demo_state []) as [H _];
    [lia|split; [simpl; lia|by apply str_nonzero]|exact Hn|lia|by left|exact demo_can_print|].
  apply H. unfold shown. simpl. auto.
Defined.

(** ** Dispatching *)

Section dispatch.
Context (syscalls : Z → option (K Z)).

(** The call a process makes. *)
Definition call_num (p : proc) : Z := s32 p.(p_tf).(tf_eax).
Definition is_traced (p : proc) : bool := truthy (Z.land p.(p_straced) T_STRACE).

(** [handler] is the entry of the table for [num]. *)
Definition entry (num : Z) (handler : K Z) : Prop :=
  0 < num < NSYSCALLS ∧ syscalls num = Some handler.

(** The part of [syscall] before the trace, when the handler returns. *)
Lemma syscall_handled s e i p handler v s1 e1 p1 :
  running s i p → (call_num p ≠ SYS_exit ∨ is_traced p = false) →
  entry (call_num p) handler → handler s e = Ret v s1 e1 → running s1 i p1 →
  let s2 := putp i (set_eax (u32 v) p1) s1 in
  syscall syscalls s e =
    (if is_traced p then
       if (call_num p =? SYS_exec) && (u32 v =? 0) then trace_exec p1.(p_pid) (cstr p.(p_name)) (call_num p)
       else trace_return p1.(p_pid) (cstr p.(p_name)) (call_num p) (s32 (u32 v))
     else ret tt) s2 e1.
Proof.
  intros Hr Hex [Hnum Hh] Hrun Hr1 s2. unfold syscall.
  mstep (curproc_run s i p e Hr). mstep (getp_run s i p e (proj2 Hr)).
  fold (call_num p) (is_traced p). set (c := if _ && _ then _ else ret tt).
  assert (c = ret tt) as ->.
  { unfold c. destruct Hex as [Hne|Hu]; [by rewrite (proj2 (Z.eqb_neq _ _) Hne)|by rewrite Hu, andb_false_r]. }
  rewrite bind_ret_l.
  destruct (0 <? call_num p) eqn:E1, (call_num p <? NSYSCALLS) eqn:E2; bool_facts; try lia.
  cbn [andb]. rewrite Hh. mstep Hrun. mstep (curproc_run s1 i p1 e1 Hr1).
  mstep (modp_run s1 i p1 (set_eax (u32 v)) e1 (proj2 Hr1)). destruct (is_traced p); [|done]. cbn [negb].
  by mstep (getp_run s2 i _ e1 (proj2 (putp_running s1 i p1 (set_eax (u32 v) p1) Hr1))).
Qed.

(** Dispatching for an untraced process.  A call whose table entry is
    present runs that handler, and its result is what the process finds in
    %eax; nothing else changes beyond what the handler did.  Any other number
    gives -1. *)
Theorem syscall_untraced s e i p :
  running s i p → is_traced p = false →
  (∀ handler v s1 e1 p1,
     entry (call_num p) handler → handler s e = Ret v s1 e1 → running s1 i p1 →
     syscall syscalls s e = Ret tt (putp i (set_eax (u32 v) p1) s1) e1) ∧
  ((¬ 0 < call_num p < NSYSCALLS ∨ syscalls (call_num p) = None) → can_print s →
     ∃ cs, syscall syscalls s e = Ret tt (putp i (set_eax 4294967295 p) (printed cs s)) e).
Proof.
  intros Hr Hu. split.
  - intros handler v s1 e1 p1 Hent Hrun Hr1.
    rewrite (syscall_handled s e i p handler v s1 e1 p1) by auto. by rewrite Hu.
  - intros Hno Hc. unfold syscall.
    mstep (curproc_run s i p e Hr). mstep (getp_run s i p e (proj2 Hr)).
    fold (call_num p) (is_traced p). rewrite Hu, andb_false_r, bind_ret_l.
    assert ((if (0 <? call_num p) && (call_num p <? NSYSCALLS) then syscalls (call_num p) else None) = None) as ->.
    { destruct (0 <? call_num p) eqn:E1, (call_num p <? NSYSCALLS) eqn:E2; bool_facts; simpl; try done.
      destruct Hno as [?|?]; [lia|done]. }
    destruct (format (str fmt_unknown) [AInt (p_pid p); AStr (Some (p_name p)); AInt (call_num p)])
      as [cs|] eqn:Hf; [|done]. exists cs. mstep (cprintf_run _ _ cs s e Hc Hf).
    by apply modp_run, Hr.
Qed.


(** Tracing the calls that have no name.  When a traced process calls
    [nice], [lock] or [release], the name is a null pointer; for the flag
    calls (27 to 29) it is read past the end of [syscallnames].  Whatever the
    handler does, the tracer then makes an invalid access. *)
Theorem syscall_unnamed_faults s e i p handler v s1 e1 p1 :
  running s i p → is_traced p = true → 22 ≤ call_num p ≤ 24 ∨ 27 ≤ call_num p ≤ 29 →
  entry (call_num p) handler → handler s e = Ret v s1 e1 → running s1 i p1 →
  1 ≤ p1.(p_pid) ≤ 9999 →
  ∃ why, syscall syscalls s e = Fault why.
Proof.
  intros Hr Ht Hnum Hent Hrun Hr1 Hpid.
  rewrite (syscall_handled s e i p handler v s1 e1 p1), Ht by (auto; left; unfold SYS_exit; lia).
  destruct (call_num p =? SYS_exec) eqn:E; bool_facts; [unfold SYS_exec in E; lia|]. cbn [andb].
  unfold trace_return, strace_return. rewrite bind_assoc. mcall pid_to_string_run.
  destruct Hnum as [Hnum|Hnum].
  - assert (call_num p = 22 ∨ call_num p = 23 ∨ call_num p = 24) as [-> |[-> | ->]] by lia; by eexists.
  - assert (call_num p = 27 ∨ call_num p = 28 ∨ call_num p = 29) as [-> |[-> | ->]] by lia; by eexists.
Qed.

End dispatch.

(** ** Examples *)

(** A process named "ls" making call [num], traced or not. *)
Definition calling_proc (straced num : Z) : proc :=
  set_eax num (set_p_straced straced (set_p_name (str "ls" ++ replicate 14 0) user_proc)).

Definition calling_state (straced num : Z) : kstate := putp 0 (calling_proc straced num) (user_state []).

Definition table7 (num : Z) : option (K Z) := if num =? 9 then None else Some (ret 7).

Lemma calling_running straced num : running (calling_state straced num) 0 (calling_proc straced num).
Proof. done. Qed.

Lemma calling_can_print straced num : can_print (calling_state straced num).
Proof. exact demo_can_print. Qed.

Lemma syscall_untraced_witness :
  syscall table7 (calling_state 0 11) [] =
    Ret tt (putp 0 (set_eax 7 (calling_proc 0 11)) (calling_state 0 11)) [] ∧
  ∃ cs, syscall table7 (calling_state 0 9) [] =
    Ret tt (putp 0 (set_eax 4294967295 (calling_proc 0 9)) (printed cs (calling_state 0 9))) [].
Proof.
  destruct (syscall_untraced table7 (calling_state 0 11) [] 0 _ (calling_running 0 11) eq_refl) as [H1 _].
  destruct (syscall_untraced table7 (calling_state 0 9) [] 0 _ (calling_running 0 9) eq_refl) as [_ H2].
  split.
  - apply (H1 (ret 7) 7 (calling_state 0 11) [] (calling_proc 0 11)); [split; [vm_compute; auto|reflexivity]|reflexivity|apply calling_running].
  - apply H2; [right; reflexivity|apply calling_can_print].
Defined.


Lemma syscall_unnamed_faults_witness :
  ∃ why, syscall table7 (calling_state 1 SYS_nice) [] = Fault why.
Proof.
  apply (syscall_unnamed_faults table7 (calling_state 1 SYS_nice) [] 0 (calling_proc 1 SYS_nice) (ret 7) 7
           (calling_state 1 SYS_nice) [] (calling_proc 1 SYS_nice)).
  - apply calling_running.
  - reflexivity.
  - left. vm_compute. split; congruence.
  - split; [vm_compute; auto|reflexivity].
  - reflexivity.
  - apply calling_running.
  - simpl. lia.
Defined.
