(* ===== verification/Sleeplock.v ===== *)
(** * Sleeping locks (sleeplock.c)

    A lock [l] is locked exactly when [k_slk] has an entry for it, the pid of
    its holder. *)

From S2P Require Import Prelude KState Spinlock Print Mem Args Proc.
#[local] Open Scope kernel_scope.

Definition initsleeplock (l : sleepid) : K unit :=
  initlock (Lsleep l);;
  modify (λ s, set_k_slk (delete l s.(k_slk)) s).

Definition acquiresleep (l : sleepid) : K unit :=
  acquire (Lsleep l);;
  while_sleep (gets (λ s, bool_decide (is_Some (s.(k_slk) !! l))))
    (sleep (ChSleep l) (Lsleep l);; ret (None : option unit));;
  i <- curproc;; p <- getp i;;
  modify (λ s, set_k_slk (<[l := p.(p_pid)]> s.(k_slk)) s);;
  release (Lsleep l).

Definition releasesleep (l : sleepid) : K unit :=
  acquire (Lsleep l);;
  modify (λ s, set_k_slk (delete l s.(k_slk)) s);;
  wakeup (ChSleep l);;
  release (Lsleep l).

(** [lk->locked], whoever holds it. *)
Definition holdingsleep (l : sleepid) : K bool :=
  acquire (Lsleep l);;
  r <- gets (λ s, bool_decide (is_Some (s.(k_slk) !! l)));;
  release (Lsleep l);;
  ret r.

(** ** Uncontended use *)

(** The spinlocks these operations take are free. *)
Definition slk_idle (l : sleepid) (s : kstate) : Prop :=
  cpu_wf s.(k_cpu) ∧ s.(k_spin) !! Lsleep l = None ∧ s.(k_spin) !! Lptable = None.

Definition slept_locked (l : sleepid) (pid : Z) (s : kstate) : kstate :=
  on_cpu cpu_bracket (set_k_slk (<[l := pid]> s.(k_slk)) s).

Definition slept_unlocked (l : sleepid) (s : kstate) : kstate :=
  on_cpu cpu_bracket (on_pt (wake_all (Some (ChSleep l))) (set_k_slk (delete l s.(k_slk)) s)).

Lemma acquiresleep_run l s i p e :
  slk_idle l s → running s i p → s.(k_slk) !! l = None →
  acquiresleep l s e = Ret tt (slept_locked l p.(p_pid) s) e.
Proof.
  intros (Hwf & Hfree & _) Hr Hl. unfold acquiresleep.
  mstep (acquire_run (Lsleep l) s e Hfree).
  erewrite bind_run; [|apply while_sleep_false; unfold gets; simpl; by rewrite Hl].
  mstep (curproc_run (locked (Lsleep l) s) i p e Hr).
  mstep (getp_run (locked (Lsleep l) s) i p e (proj2 Hr)). rewrite bind_modify.
  by erewrite (release_run (Lsleep l) s).
Qed.

Lemma releasesleep_run l s e :
  slk_idle l s → releasesleep l s e = Ret tt (slept_unlocked l s) e.
Proof.
  intros (Hwf & Hfree & Hpt). unfold releasesleep.
  mstep (acquire_run (Lsleep l) s e Hfree). rewrite bind_modify.
  set (s1 := set_k_slk _ _).
  assert (pt_idle s1) as Hidle by (split; [by apply cpu_push_wf|simpl; by rewrite lookup_insert_ne]).
  mstep (wakeup_run (ChSleep l) s1 e Hidle).
  erewrite (release_run (Lsleep l) s); [done|done|done| |done].
  unfold pt_updated. simpl. by apply cpu_bracket_push.
Qed.

Lemma holdingsleep_run l s e :
  slk_idle l s →
  holdingsleep l s e = Ret (bool_decide (is_Some (s.(k_slk) !! l))) (on_cpu cpu_bracket s) e.
Proof.
  intros (Hwf & Hfree & _). unfold holdingsleep.
  mstep (acquire_run (Lsleep l) s e Hfree). rewrite bind_gets. by mcall (release_run (Lsleep l) s).
Qed.
