(* ===== verification/Bio.v ===== *)
(** * The buffer cache and the disk (bio.c, memide.c)

    The cache is the list [fs_bufs]; [fs_lru] is the linked list of buffers
    from [bcache.head.next], most recently used first.  A [struct buf*] is an
    index.  The disk is memide.c, whose transfers are synchronous; [fs_writes]
    is the trace of the blocks written to it. *)

From S2P Require Import Prelude KState Spinlock Print Mem Args Proc Sleeplock.
#[local] Open Scope kernel_scope.

Definition B_VALID : Z := 2.
Definition B_DIRTY : Z := 4.

Definition getb (i : nat) : K buf := o <- gets (λ s, s.(k_fs).(fs_bufs) !! i);; deref o.

Definition setb (i : nat) (b : buf) : K unit :=
  modify (on_fs (λ f, set_fs_bufs (<[i := b]> f.(fs_bufs)) f)).

Definition modb (i : nat) (g : buf → buf) : K unit := b <- getb i;; setb i (g b).

(** [iderw] of memide.c. *)
Definition iderw (i : nat) : K unit :=
  h <- holdingsleep (SLbuf i);;
  if negb h then panic "iderw: buf not locked" else
  b <- getb i;;
  if Z.land b.(b_flags) (Z.lor B_VALID B_DIRTY) =? B_VALID then panic "iderw: nothing to do" else
  if negb (b.(b_dev) =? 1) then panic "iderw: request not for disk 1" else
  disk <- gets (λ s, s.(k_fs).(fs_disk));;
  if Z.of_nat (length disk) <=? b.(b_blockno) then panic "iderw: block out of range" else
  (if truthy (Z.land b.(b_flags) B_DIRTY) then
     modb i (λ b, set_b_flags (Z.land b.(b_flags) (Z.lnot B_DIRTY)) b);;
     modify (on_fs (λ f, set_fs_disk (<[Z.to_nat b.(b_blockno) := b.(b_data)]> f.(fs_disk))
                          (set_fs_writes (f.(fs_writes) ++ [(b.(b_blockno), b.(b_data))]) f)))
   else
     modb i (set_b_data (default [] (disk !! Z.to_nat b.(b_blockno)))));;
  modb i (λ b, set_b_flags (Z.lor b.(b_flags) B_VALID) b).

(** The linked list is built by inserting each buffer at the head. *)
Definition binit : K unit :=
  initlock Lbcache;;
  for_each (seq 0 NBUF) (λ i, initsleeplock (SLbuf i));;
  modify (on_fs (set_fs_lru (reverse (seq 0 NBUF)))).

Definition buf_is (P : buf → bool) (bufs : list buf) (i : nat) : bool :=
  match bufs !! i with Some b => P b | None => false end.

(** The first buffer of [order] that satisfies [P]. *)
Definition bfind (P : buf → bool) (bufs : list buf) (order : list nat) : option nat :=
  snd <$> list_find (λ i, buf_is P bufs i) order.

Definition cached_at (dev blockno : Z) (b : buf) : bool :=
  (b.(b_dev) =? dev) && (b.(b_blockno) =? blockno).

Definition recyclable (b : buf) : bool :=
  (b.(b_refcnt) =? 0) && (Z.land b.(b_flags) B_DIRTY =? 0).

Definition bget (dev blockno : Z) : K nat :=
  acquire Lbcache;;
  f <- gets (λ s, s.(k_fs));;
  match bfind (cached_at dev blockno) f.(fs_bufs) f.(fs_lru) with
  | Some i =>
      modb i (λ b, set_b_refcnt (u32 (b.(b_refcnt) + 1)) b);;
      release Lbcache;;
      acquiresleep (SLbuf i);;
      ret i
  | None =>
      match bfind recyclable f.(fs_bufs) (reverse f.(fs_lru)) with
      | Some i =>
          modb i (λ b, set_b_dev dev (set_b_blockno blockno (set_b_flags 0 (set_b_refcnt 1 b))));;
          release Lbcache;;
          acquiresleep (SLbuf i);;
          ret i
      | None => panic "bget: no buffers"
      end
  end.

Definition bread (dev blockno : Z) : K nat :=
  i <- bget dev blockno;;
  b <- getb i;;
  (if negb (truthy (Z.land b.(b_flags) B_VALID)) then iderw i else ret tt);;
  ret i.

Definition bwrite (i : nat) : K unit :=
  h <- holdingsleep (SLbuf i);;
  if negb h then panic "bwrite" else
  modb i (λ b, set_b_flags (Z.lor b.(b_flags) B_DIRTY) b);;
  iderw i.

(** [b] moves to the head of the list. *)
Definition to_front (i : nat) (order : list nat) : list nat :=
  i :: filter (λ j, j ≠ i) order.

Definition brelse (i : nat) : K unit :=
  h <- holdingsleep (SLbuf i);;
  if negb h then panic "brelse" else
  releasesleep (SLbuf i);;
  acquire Lbcache;;
  modb i (λ b, set_b_refcnt (u32 (b.(b_refcnt) - 1)) b);;
  b <- getb i;;
  (if b.(b_refcnt) =? 0 then modify (on_fs (λ f, set_fs_lru (to_front i f.(fs_lru)) f)) else ret tt);;
  release Lbcache.

(** ** Running the operations *)

Definition putb (i : nat) (b : buf) (s : kstate) : kstate :=
  on_fs (λ f, set_fs_bufs (<[i := b]> f.(fs_bufs)) f) s.

Lemma getb_run s i b e : s.(k_fs).(fs_bufs) !! i = Some b → getb i s e = Ret b s e.
Proof. intros H. unfold getb. mrun. by rewrite H. Qed.

Lemma modb_run s i b g e : s.(k_fs).(fs_bufs) !! i = Some b → modb i g s e = Ret tt (putb i (g b) s) e.
Proof. intros H. unfold modb. by mstep (getb_run s i b e H). Qed.

(** The other spinlocks of the file system. *)
Definition fs_lock (lk : lockid) : Prop :=
  match lk with Llog | Licache | Lftable | Lsleep _ => True | _ => False end.

(** What code that uses the cache needs of the rest of the kernel: its
    spinlocks free, and a process that runs. *)
Definition kidle (s : kstate) : Prop :=
  cpu_wf s.(k_cpu) ∧ s.(k_spin) !! Lbcache = None ∧ s.(k_spin) !! Lptable = None ∧
  (∀ lk, fs_lock lk → s.(k_spin) !! lk = None) ∧
  ∃ i p, running s i p ∧ p.(p_state) = RUNNING.

Lemma kidle_fs g s : kidle s → kidle (on_fs g s).
Proof. done. Qed.

Lemma kidle_slk m s : kidle s → kidle (set_k_slk m s).
Proof. done. Qed.

Lemma kidle_bracket s : kidle s → kidle (on_cpu cpu_bracket s).
Proof. done. Qed.

Lemma kidle_wake ch s : kidle s → kidle (on_pt (wake_all ch) s).
Proof.
  intros (? & ? & ? & ? & i & p & [Hc Hp] & Hst). split_and!; [done..|]. exists i, p.
  split; [|done]. split; [done|]. simpl. rewrite list_lookup_fmap, Hp. simpl.
  unfold wake_one. by rewrite Hst.
Qed.

Lemma kidle_slk_idle i s : kidle s → slk_idle (SLbuf i) s.
Proof. intros (? & ? & ? & Hsl & _). split_and!; [done|by apply Hsl|done]. Qed.

Create HintDb bio.
#[export] Hint Resolve kidle_fs kidle_slk kidle_bracket kidle_wake kidle_slk_idle : bio.

(** The state in which a process has taken buffer [i], now [b], for itself. *)
Definition claimed (i : nat) (b : buf) (s s' : kstate) : Prop :=
  ∃ pid, s' = on_cpu cpu_bracket (set_k_slk (<[SLbuf i := pid]> s.(k_slk)) (putb i b s)).

Lemma claimed_kidle i b s s' : claimed i b s s' → kidle s → kidle s'.
Proof. intros [pid ->]. done. Qed.

(** The end of [bget] in either case. *)
Lemma bget_claim i b0 (g : buf → buf) s e :
  kidle s → s.(k_fs).(fs_bufs) !! i = Some b0 → s.(k_slk) !! SLbuf i = None →
  ∃ s', (modb i g;; release Lbcache;; acquiresleep (SLbuf i);; ret i) (locked Lbcache s) e = Ret i s' e ∧
        claimed i (g b0) s s'.
Proof.
  intros Hk Hb Hl. pose proof Hk as (Hwf & Hbc & Hpt & Hsl & j & p & Hr & _).
  mstep (modb_run (locked Lbcache s) i b0 g e Hb).
  mstep (release_run Lbcache s (putb i (g b0) (locked Lbcache s)) e Hwf Hbc eq_refl eq_refl).
  set (s1 := unlocked _ _).
  mstep (acquiresleep_run (SLbuf i) s1 j p e (kidle_slk_idle i s1 Hk) Hr Hl).
  eexists. split; [done|]. exists p.(p_pid).
  unfold slept_locked, s1, unlocked, on_cpu, putb, on_fs. simpl. by rewrite cpu_bracket_idemp.
Qed.

Lemma bget_cached dev n i b s e :
  kidle s → bfind (cached_at dev n) s.(k_fs).(fs_bufs) s.(k_fs).(fs_lru) = Some i →
  s.(k_fs).(fs_bufs) !! i = Some b → s.(k_slk) !! SLbuf i = None →
  ∃ s', bget dev n s e = Ret i s' e ∧ claimed i (set_b_refcnt (u32 (b.(b_refcnt) + 1)) b) s s'.
Proof.
  intros Hk Hf Hb Hl. pose proof Hk as (Hwf & Hbc & _). unfold bget.
  mstep (acquire_run Lbcache s e Hbc). rewrite bind_gets. simpl. rewrite Hf.
  by apply (bget_claim i b (λ b, set_b_refcnt (u32 (b.(b_refcnt) + 1)) b)).
Qed.

Lemma bget_recycled dev n i b s e :
  kidle s → bfind (cached_at dev n) s.(k_fs).(fs_bufs) s.(k_fs).(fs_lru) = None →
  bfind recyclable s.(k_fs).(fs_bufs) (reverse s.(k_fs).(fs_lru)) = Some i →
  s.(k_fs).(fs_bufs) !! i = Some b → s.(k_slk) !! SLbuf i = None →
  ∃ s', bget dev n s e = Ret i s' e ∧
        claimed i (set_b_dev dev (set_b_blockno n (set_b_flags 0 (set_b_refcnt 1 b)))) s s'.
Proof.
  intros Hk Hf Hf' Hb Hl. pose proof Hk as (Hwf & Hbc & _). unfold bget.
  mstep (acquire_run Lbcache s e Hbc). rewrite bind_gets. simpl. rewrite Hf, Hf'.
  by apply (bget_claim i b (λ b, set_b_dev dev (set_b_blockno n (set_b_flags 0 (set_b_refcnt 1 b))))).
Qed.

Definition put_block (n : Z) (d : list Z) (f : fsstate) : fsstate :=
  set_fs_disk (<[Z.to_nat n := d]> f.(fs_disk)) (set_fs_writes (f.(fs_writes) ++ [(n, d)]) f).

Lemma putb_twice i b c s : putb i c (putb i b s) = putb i c s.
Proof. unfold putb, on_fs. simpl. by rewrite list_insert_insert_eq. Qed.

Lemma putb_lookup i b c s : s.(k_fs).(fs_bufs) !! i = Some c → (putb i b s).(k_fs).(fs_bufs) !! i = Some b.
Proof. intros H. apply list_lookup_insert_eq. by eapply lookup_lt_Some. Qed.

(** A request for a block of the disk by the holder of a buffer. *)
Definition io_ready (i : nat) (b : buf) (s : kstate) : Prop :=
  kidle s ∧ is_Some (s.(k_slk) !! SLbuf i) ∧ s.(k_fs).(fs_bufs) !! i = Some b ∧ b.(b_dev) = 1 ∧
  0 ≤ b.(b_blockno) < Z.of_nat (length s.(k_fs).(fs_disk)).

Lemma iderw_read i b s e :
  io_ready i b s → b.(b_flags) = 0 →
  iderw i s e = Ret tt (on_cpu cpu_bracket
    (putb i (set_b_flags 2 (set_b_data (default [] (s.(k_fs).(fs_disk) !! Z.to_nat b.(b_blockno))) b)) s)) e.
Proof.
  intros (Hk & Hl & Hb & Hd & Hn) Hf. unfold iderw.
  mstep (holdingsleep_run (SLbuf i) s e (kidle_slk_idle i s Hk)).
  rewrite bool_decide_eq_true_2 by done. cbn [negb].
  set (s1 := on_cpu cpu_bracket s). mstep (getb_run s1 i b e Hb). rewrite Hf, Hd. cbn [negb].
  change (Z.land 0 (Z.lor B_VALID B_DIRTY) =? B_VALID) with false.
  change (negb (1 =? 1)) with false. cbv iota. rewrite bind_gets.
  change (s1.(k_fs).(fs_disk)) with (s.(k_fs).(fs_disk)).
  destruct (Z.of_nat _ <=? _) eqn:E; bool_facts; [lia|].
  change (truthy (Z.land 0 B_DIRTY)) with false. cbv iota.
  mstep (modb_run s1 i b _ e Hb).
  rewrite (modb_run _ i _ _ e (putb_lookup i _ b s1 Hb)). rewrite putb_twice. cbn [b_flags set_b_data].
  rewrite Hf. done.
Qed.

Lemma iderw_write i b s e :
  io_ready i b s → b.(b_flags) = 4 ∨ b.(b_flags) = 6 →
  iderw i s e = Ret tt (on_cpu cpu_bracket
    (on_fs (put_block b.(b_blockno) b.(b_data)) (putb i (set_b_flags 2 b) s))) e.
Proof.
  intros (Hk & Hl & Hb & Hd & Hn) Hf. unfold iderw.
  mstep (holdingsleep_run (SLbuf i) s e (kidle_slk_idle i s Hk)).
  rewrite bool_decide_eq_true_2 by done. cbn [negb].
  set (s1 := on_cpu cpu_bracket s). mstep (getb_run s1 i b e Hb). rewrite Hd.
  assert (Z.land (b_flags b) (Z.lor B_VALID B_DIRTY) =? B_VALID = false) as -> by (by destruct Hf as [->| ->]).
  assert (truthy (Z.land (b_flags b) B_DIRTY) = true) as -> by (by destruct Hf as [->| ->]).
  change (negb (1 =? 1)) with false. cbv iota. rewrite bind_gets.
  change (s1.(k_fs).(fs_disk)) with (s.(k_fs).(fs_disk)).
  destruct (Z.of_nat _ <=? _) eqn:E; bool_facts; [lia|].
  rewrite bind_assoc. mstep (modb_run s1 i b _ e Hb). rewrite bind_modify.
  set (b1 := set_b_flags _ b). rewrite (modb_run _ i b1) by (simpl; by apply (putb_lookup i b1 b s1)).
  assert (set_b_flags (Z.lor (b_flags b1) B_VALID) b1 = set_b_flags 2 b) as ->.
  { unfold b1. destruct Hf as [Hf|Hf]; rewrite Hf; done. }
  f_equal. unfold putb, on_fs, put_block, s1, on_cpu. simpl. by rewrite list_insert_insert_eq.
Qed.

Lemma bwrite_run i b s e :
  io_ready i b s → b.(b_flags) = 2 ∨ b.(b_flags) = 6 →
  bwrite i s e = Ret tt (on_cpu cpu_bracket
    (on_fs (put_block b.(b_blockno) b.(b_data)) (putb i (set_b_flags 2 b) s))) e.
Proof.
  intros (Hk & Hl & Hb & Hd & Hn) Hf. unfold bwrite.
  mstep (holdingsleep_run (SLbuf i) s e (kidle_slk_idle i s Hk)).
  rewrite bool_decide_eq_true_2 by done. cbn [negb].
  set (s1 := on_cpu cpu_bracket s). mstep (modb_run s1 i b _ e Hb).
  assert (Z.lor (b_flags b) B_DIRTY = 6) as -> by (by destruct Hf as [->| ->]).
  rewrite (iderw_write i (set_b_flags 6 b)); [| |by right].
  - f_equal. rewrite putb_twice. unfold on_cpu, s1, putb, on_fs. simpl. by rewrite cpu_bracket_idemp.
  - split_and!; try done; [|simpl; lia..]. by apply (putb_lookup i _ b).
Qed.

(** [brelse] of a buffer no one else waits for. *)
Definition brelsed (i : nat) (b : buf) (s : kstate) : kstate :=
  on_cpu cpu_bracket (on_fs (λ f, set_fs_lru (to_front i f.(fs_lru)) f)
    (putb i (set_b_refcnt 0 b)
      (on_pt (wake_all (Some (ChSleep (SLbuf i)))) (set_k_slk (delete (SLbuf i) s.(k_slk)) s)))).

Lemma brelse_run i b s e :
  io_ready i b s → b.(b_refcnt) = 1 → brelse i s e = Ret tt (brelsed i b s) e.
Proof.
  intros (Hk & Hl & Hb & Hd & Hn) Hr. unfold brelse.
  mstep (holdingsleep_run (SLbuf i) s e (kidle_slk_idle i s Hk)).
  rewrite bool_decide_eq_true_2 by done. cbn [negb]. set (s1 := on_cpu cpu_bracket s).
  mstep (releasesleep_run (SLbuf i) s1 e (kidle_slk_idle i s1 Hk)).
  set (s2 := slept_unlocked _ s1). pose proof Hk as (Hwf & Hbc & _).
  mstep (acquire_run Lbcache s2 e Hbc). mstep (modb_run (locked Lbcache s2) i b _ e Hb).
  rewrite Hr. change (u32 (1 - 1)) with 0.
  mstep (getb_run _ i _ e (putb_lookup i (set_b_refcnt 0 b) b (locked Lbcache s2) Hb)).
  cbn [b_refcnt set_b_refcnt]. change (0 =? 0) with true. cbv iota. rewrite bind_modify.
  rewrite (release_run Lbcache s2) by done. f_equal.
  unfold brelsed, unlocked, s2, slept_unlocked, s1, on_cpu, on_fs, on_pt, putb, on_fs. simpl.
  by rewrite !cpu_bracket_idemp.
Qed.

(** ** The invariant of the cache

    [H] is the set of buffers that are locked.  At most one buffer stands for
    a block, and a clean buffer no one holds agrees with the disk.  Buffers
    marked B_DIRTY (by the log) are pinned: they are not recycled. *)

Definition buf_ok (disk : list (list Z)) (held : Prop) (b : buf) : Prop :=
  (b.(b_flags) = 0 ∨ b.(b_flags) = 2 ∨ b.(b_flags) = 6) ∧
  (b.(b_flags) ≠ 0 → b.(b_dev) = 1 ∧ 0 ≤ b.(b_blockno) < Z.of_nat (length disk)) ∧
  (held → b.(b_refcnt) = 1 ∧ b.(b_flags) ≠ 0) ∧
  (¬ held → b.(b_refcnt) = 0 ∧
            (b.(b_flags) = 2 → disk !! Z.to_nat b.(b_blockno) = Some b.(b_data))).

Definition uniq (bufs : list buf) : Prop :=
  ∀ i j b c, bufs !! i = Some b → bufs !! j = Some c → b.(b_dev) = 1 → c.(b_dev) = 1 →
    b.(b_blockno) = c.(b_blockno) → i = j.

Record cache_ok (H : gset nat) (s : kstate) : Prop := {
  ok_kidle : kidle s;
  ok_len : length s.(k_fs).(fs_bufs) = NBUF;
  ok_lru : s.(k_fs).(fs_lru) ≡ₚ seq 0 NBUF;
  ok_slk : ∀ i, is_Some (s.(k_slk) !! SLbuf i) ↔ i ∈ H;
  ok_uniq : uniq s.(k_fs).(fs_bufs);
  ok_buf : ∀ i b, s.(k_fs).(fs_bufs) !! i = Some b → buf_ok s.(k_fs).(fs_disk) (i ∈ H) b
}.

(** The contents of block [n] as the kernel sees it: in the cache, or else on
    the disk. *)
Definition stands_for (n : Z) (b : buf) : bool := cached_at 1 n b && negb (b.(b_flags) =? 0).

Definition content (f : fsstate) (n : Z) : list Z :=
  match list_find (stands_for n) f.(fs_bufs) with
  | Some (_, b) => b.(b_data)
  | None => default [] (f.(fs_disk) !! Z.to_nat n)
  end.

Definition pinned (f : fsstate) (n : Z) : Prop :=
  ∃ i b, f.(fs_bufs) !! i = Some b ∧ b.(b_flags) = 6 ∧ b.(b_blockno) = n.

(** Some buffer can be recycled. *)
Definition room (f : fsstate) : Prop := ∃ i b, f.(fs_bufs) !! i = Some b ∧ recyclable b = true.

(** Buffer [i] is the cached copy of block [n]. *)
Definition buf_of (f : fsstate) (i : nat) (n : Z) : Prop :=
  ∃ b, f.(fs_bufs) !! i = Some b ∧ b.(b_flags) ≠ 0 ∧ b.(b_dev) = 1 ∧ b.(b_blockno) = n.

(** Nothing of the file system changes but the cache. *)
Definition fs_quiet (f f' : fsstate) : Prop :=
  f' = set_fs_bufs f'.(fs_bufs) (set_fs_lru f'.(fs_lru) f).

Definition same_view (f f' : fsstate) : Prop :=
  (∀ n, 0 ≤ n → content f' n = content f n) ∧ (∀ n, pinned f' n ↔ pinned f n).

Lemma stands_for_true n b :
  stands_for n b ↔ b.(b_dev) = 1 ∧ b.(b_blockno) = n ∧ b.(b_flags) ≠ 0.
Proof.
  unfold stands_for, cached_at. rewrite Is_true_true, !andb_true_iff, negb_true_iff, !Z.eqb_eq, Z.eqb_neq.
  tauto.
Qed.

Lemma stands_for_valid n b : stands_for n b → b.(b_flags) ≠ 0.
Proof. intros (_ & _ & ?)%stands_for_true. done. Qed.

Lemma content_cached f i b n :
  uniq f.(fs_bufs) → f.(fs_bufs) !! i = Some b → stands_for n b → content f n = b.(b_data).
Proof.
  intros Hu Hb Hs. unfold content. destruct (list_find _ _) as [[j c]|] eqn:E.
  - apply list_find_Some in E as (Hc & Hs' & _).
    apply stands_for_true in Hs as (? & ? & _), Hs' as (? & ? & _).
    assert (j = i) as -> by (by eapply Hu; eauto; congruence). congruence.
  - rewrite list_find_None, Forall_lookup in E. by destruct (E i b Hb).
Qed.

Lemma content_uncached f n :
  (∀ i b, f.(fs_bufs) !! i = Some b → ¬ stands_for n b) →
  content f n = default [] (f.(fs_disk) !! Z.to_nat n).
Proof.
  intros H. unfold content. destruct (list_find _ _) as [[j c]|] eqn:E; [|done].
  apply list_find_Some in E as (Hc & Hs & _). by destruct (H j c).
Qed.

(** Replacing buffer [i]: blocks that neither the old nor the new buffer
    stands for keep their contents. *)
Lemma content_other f f' i b b' n :
  f.(fs_bufs) !! i = Some b → f'.(fs_bufs) = <[i := b']> f.(fs_bufs) →
  uniq f.(fs_bufs) → uniq f'.(fs_bufs) →
  f'.(fs_disk) !! Z.to_nat n = f.(fs_disk) !! Z.to_nat n →
  ¬ stands_for n b → ¬ stands_for n b' → content f' n = content f n.
Proof.
  intros Hb Hbs Hu Hu' Hd Hn Hn'. pose proof (lookup_lt_Some _ _ _ Hb).
  unfold content at 2. destruct (list_find _ f.(fs_bufs)) as [[j c]|] eqn:E.
  - apply list_find_Some in E as (Hc & Hs & _).
    apply (content_cached f' j); [done| |done]. rewrite Hbs, list_lookup_insert_ne; [done|].
    intros ->. congruence.
  - rewrite list_find_None, Forall_lookup in E. rewrite content_uncached, Hd; [done|].
    intros j c Hj. rewrite Hbs in Hj. destruct (decide (i = j)) as [->|Hne].
    + rewrite list_lookup_insert_eq in Hj by done. by simplify_eq.
    + rewrite list_lookup_insert_ne in Hj by done. by eapply E.
Qed.

Lemma uniq_insert bufs i b b' :
  uniq bufs → bufs !! i = Some b →
  (b'.(b_dev) = 1 → ∀ j c, j ≠ i → bufs !! j = Some c → c.(b_dev) = 1 → c.(b_blockno) ≠ b'.(b_blockno)) →
  uniq (<[i := b']> bufs).
Proof.
  intros Hu Hb Hn j k c d. pose proof (lookup_lt_Some _ _ _ Hb).
  rewrite !list_lookup_insert_Some. intros [(<- & <- & _)|[? Hc]] [(<- & <- & _)|[? Hd]] Hc1 Hd1 Heq; try done.
  - by destruct (Hn Hc1 k d).
  - by destruct (Hn Hd1 j c).
  - by eapply Hu.
Qed.

Lemma bfind_Some P bufs order i :
  bfind P bufs order = Some i → i ∈ order ∧ ∃ b, bufs !! i = Some b ∧ P b = true.
Proof.
  unfold bfind. intros ([k i'] & H & ->)%fmap_Some. apply list_find_Some in H as (H & Hp & _).
  split; [by eapply list_elem_of_lookup_2|]. unfold buf_is in Hp. simpl.
  destruct (bufs !! i') as [b|]; [|done]. exists b. by destruct (P b).
Qed.

Lemma bfind_None P bufs order i b :
  bfind P bufs order = None → i ∈ order → bufs !! i = Some b → P b = false.
Proof.
  unfold bfind. rewrite fmap_None, list_find_None, Forall_forall. intros H Hi Hb.
  specialize (H i Hi). unfold buf_is in H. rewrite Hb in H. by destruct (P b).
Qed.

(** A clean buffer agrees with the disk. *)
Definition settled (f : fsstate) (i : nat) : Prop :=
  ∀ b, f.(fs_bufs) !! i = Some b → b.(b_flags) = 2 →
    f.(fs_disk) !! Z.to_nat b.(b_blockno) = Some b.(b_data).

(** [s'] is [s] with buffer [i] replaced by [b'] and locked. *)
Definition taken (i : nat) (b' : buf) (s s' : kstate) : Prop :=
  kidle s' ∧ s'.(k_fs) = set_fs_bufs (<[i := b']> s.(k_fs).(fs_bufs)) s.(k_fs) ∧
  ∃ pid, s'.(k_slk) = <[SLbuf i := pid]> s.(k_slk).

Lemma claimed_taken i b s s' : kidle s → claimed i b s s' → taken i b s s'.
Proof. intros Hk [pid ->]. split_and!; [by apply Hk|done|by exists pid]. Qed.

(** Buffers a process holds stay as they are, and so do the locks of inodes. *)
Definition held_same (H : gset nat) (s s' : kstate) : Prop :=
  (∀ j, j ∈ H → s'.(k_fs).(fs_bufs) !! j = s.(k_fs).(fs_bufs) !! j) ∧
  ∀ ip, s'.(k_slk) !! SLinode ip = s.(k_slk) !! SLinode ip.

(** The buffer [b] of the cache becomes the locked copy [b'] of block [n]. *)
Definition fetched (f : fsstate) (b b' : buf) (n : Z) : Prop :=
  b'.(b_dev) = 1 ∧ b'.(b_blockno) = n ∧ b'.(b_refcnt) = 1 ∧
  ((stands_for n b ∧ b'.(b_flags) = b.(b_flags) ∧ b'.(b_data) = b.(b_data)) ∨
   (b.(b_flags) ≠ 6 ∧ b'.(b_flags) = 2 ∧ f.(fs_disk) !! Z.to_nat n = Some b'.(b_data) ∧
    ¬ stands_for n b)).

Section fetch.
Context (H : gset nat) (s s' : kstate) (i : nat) (b b' : buf) (n : Z).
Hypothesis Hok : cache_ok H s.
Hypothesis Hb : s.(k_fs).(fs_bufs) !! i = Some b.
Hypothesis Hi : i ∉ H.
Hypothesis Hn : 0 ≤ n < Z.of_nat (length s.(k_fs).(fs_disk)).
Hypothesis Halone : ∀ j c, j ≠ i → s.(k_fs).(fs_bufs) !! j = Some c → c.(b_dev) = 1 → c.(b_blockno) ≠ n.
Hypothesis Hf : fetched s.(k_fs) b b' n.
Hypothesis Ht : taken i b' s s'.

Lemma fetch_uniq : uniq s'.(k_fs).(fs_bufs).
Proof.
  destruct Ht as (_ & -> & _). apply (uniq_insert _ i b); [apply Hok|done|].
  intros _ j c Hne Hc Hd. destruct Hf as (_ & -> & _). eauto.
Qed.

Lemma fetch_ok : cache_ok ({[i]} ∪ H) s'.
Proof.
  pose proof fetch_uniq as Hu. pose proof (lookup_lt_Some _ _ _ Hb).
  destruct Hf as (Hdev & Hbn & Href & Hfl). destruct Ht as (Hk & Hfs & pid & Hsl).
  split; [done| | | |done|]; rewrite ?Hfs; simpl.
  - rewrite length_insert. apply Hok.
  - apply Hok.
  - intros j. rewrite Hsl, elem_of_union, elem_of_singleton. destruct (decide (i = j)) as [->|Hne].
    + rewrite lookup_insert_eq. split; [by left|by eexists].
    + rewrite lookup_insert_ne by congruence. rewrite (ok_slk H s Hok). intuition congruence.
  - intros j c [(<- & <- & _)|[Hne Hc]]%list_lookup_insert_Some.
    + destruct (ok_buf _ _ Hok _ _ Hb) as (? & _). unfold buf_ok. rewrite Hdev, Hbn, Href.
      assert (b_flags b' ≠ 0). { destruct Hfl as [(Hs & -> & _)|(_ & -> & _)]; [by eapply stands_for_valid|done]. }
      split_and!; [|done|done|set_solver]. destruct Hfl as [(_ & -> & _)|(_ & -> & _)]; [done|tauto].
    + destruct (ok_buf _ _ Hok _ _ Hc) as (? & ? & ? & ?). unfold buf_ok. set_solver.
Qed.

Lemma fetch_content m : content s'.(k_fs) m = content s.(k_fs) m.
Proof.
  pose proof fetch_uniq as Hu. pose proof (lookup_lt_Some _ _ _ Hb). pose proof (ok_buf _ _ Hok _ _ Hb) as Hbok.
  destruct Hf as (Hdev & Hbn & Href & Hfl). destruct Ht as (_ & Hfs & _).
  assert (s'.(k_fs).(fs_bufs) !! i = Some b') as Hb' by (rewrite Hfs; by apply list_lookup_insert_eq).
  assert (stands_for n b') as Hs'.
  { apply stands_for_true. split_and!; [done|done|].
    destruct Hfl as [(Hs & -> & _)|(_ & -> & _)]; [by eapply stands_for_valid|done]. }
  destruct (decide (m = n)) as [->|Hne].
  { rewrite (content_cached s'.(k_fs) i b' n) by done. destruct Hfl as [(Hs & _ & ->)|(_ & _ & Hd & Hs)].
    - by rewrite (content_cached s.(k_fs) i b n) by (done || apply Hok).
    - rewrite content_uncached; [by rewrite Hd|]. intros j c Hc Hsc.
      destruct (decide (j = i)) as [->|Hji]; [congruence|].
      apply stands_for_true in Hsc as (? & ? & _). by eapply Halone. }
  destruct (decide (stands_for m b)) as [Hsm|Hsm].
  - rewrite (content_cached s.(k_fs) i b m) by (done || apply Hok).
    destruct Hfl as [(Hs & _ & _)|(Hfb & _ & _ & _)].
    { apply stands_for_true in Hs as (_ & ? & _), Hsm as (_ & ? & _). congruence. }
    rewrite content_uncached.
    + apply stands_for_true in Hsm as (_ & <- & Hb0). destruct Hbok as (Hfl & _ & _ & Hc).
      assert (b_flags b = 2) as Hb2 by (destruct Hfl as [|[|]]; congruence).
      rewrite Hfs. simpl. by rewrite (proj2 (Hc Hi) Hb2).
    + intros j c Hc Hsc. rewrite Hfs in Hc. simpl in Hc.
      apply list_lookup_insert_Some in Hc as [(<- & <- & _)|[Hji Hc]].
      * apply stands_for_true in Hsc as (_ & ? & _). congruence.
      * apply stands_for_true in Hsc as (? & ? & _), Hsm as (? & ? & _).
        apply Hji. by eapply (ok_uniq _ _ Hok i j b c Hb Hc); congruence.
  - apply (content_other _ _ i b b'); try done; [by rewrite Hfs|apply Hok|by rewrite Hfs|].
    intros (_ & ? & _)%stands_for_true. congruence.
Qed.

Lemma fetch_pinned m : pinned s'.(k_fs) m ↔ pinned s.(k_fs) m.
Proof.
  pose proof (lookup_lt_Some _ _ _ Hb). destruct Hf as (Hdev & Hbn & Href & Hfl). destruct Ht as (_ & Hfs & _).
  unfold pinned. rewrite Hfs. simpl. split.
  - intros (j & c & [(<- & <- & _)|[Hne Hc]]%list_lookup_insert_Some & Hc6 & Hcm); [|by exists j, c].
    destruct Hfl as [(Hs & Heq & _)|(_ & ? & _)]; [|congruence].
    apply stands_for_true in Hs as (_ & ? & _). exists i, b. split_and!; [done|congruence..].
  - intros (j & c & Hc & Hc6 & Hcm). destruct (decide (i = j)) as [->|Hne].
    + simplify_eq. destruct Hfl as [(Hs & Heq & _)|(? & _)]; [|done].
      apply stands_for_true in Hs as (_ & ? & _). exists j, b'.
      rewrite list_lookup_insert_eq by done. split_and!; [done|congruence..].
    + exists j, c. by rewrite list_lookup_insert_ne.
Qed.

Lemma fetch_spec :
  cache_ok ({[i]} ∪ H) s' ∧ buf_of s'.(k_fs) i n ∧ fs_quiet s.(k_fs) s'.(k_fs) ∧
  same_view s.(k_fs) s'.(k_fs) ∧ held_same H s s' ∧ settled s'.(k_fs) i.
Proof.
  pose proof (lookup_lt_Some _ _ _ Hb). pose proof fetch_ok as Hok'. destruct Ht as (_ & Hfs & pid & Hsl).
  split_and!; [done| |by rewrite Hfs|split; [intros m _; apply fetch_content|apply fetch_pinned]| |].
  - destruct Hf as (? & ? & ? & Hfl). exists b'. split_and!; [|destruct Hfl as [(Hs & -> & _)|(_ & -> & _)]|done..].
    + rewrite Hfs. by apply list_lookup_insert_eq.
    + by eapply stands_for_valid.
    + done.
  - split; [intros j Hj; rewrite Hfs; simpl; by rewrite list_lookup_insert_ne by congruence|].
    intros ip. rewrite Hsl. by rewrite lookup_insert_ne.
  - intros c. rewrite Hfs. simpl. rewrite list_lookup_insert_eq by done. intros [= <-] Hc2.
    destruct Hf as (_ & -> & _ & [(Hs & Hfl & ->)|(_ & _ & Hd & _)]); [|done].
    apply stands_for_true in Hs as (_ & <- & _). apply (ok_buf _ _ Hok _ _ Hb); congruence.
Qed.

End fetch.

(** Reading the disk into a buffer just claimed. *)
Lemma claimed_read i b n s s1 e :
  kidle s → claimed i b s s1 → (i < length s.(k_fs).(fs_bufs))%nat →
  b.(b_flags) = 0 → b.(b_dev) = 1 → b.(b_blockno) = n → 0 ≤ n < Z.of_nat (length s.(k_fs).(fs_disk)) →
  ∃ s2 d, iderw i s1 e = Ret tt s2 e ∧ s.(k_fs).(fs_disk) !! Z.to_nat n = Some d ∧
          taken i (set_b_flags 2 (set_b_data d b)) s s2.
Proof.
  intros Hk [pid ->] Hlt Hf Hd Hbn Hn.
  destruct (lookup_lt_is_Some_2 s.(k_fs).(fs_disk) (Z.to_nat n)) as [d Hdk]; [lia|].
  rewrite (iderw_read i b); [| |done].
  - eexists _, d. split_and!; [done|done|]. split; [by apply Hk|split; [|by exists pid]].
    rewrite Hbn. simpl. rewrite Hdk. by rewrite list_insert_insert_eq.
  - split_and!; simpl; [by apply Hk| |by apply list_lookup_insert_eq|done|lia|lia].
    rewrite lookup_insert_eq. by eexists.
Qed.

Lemma in_lru H s i b : cache_ok H s → s.(k_fs).(fs_bufs) !! i = Some b → i ∈ s.(k_fs).(fs_lru).
Proof.
  intros Hok Hb%lookup_lt_Some. rewrite (ok_len _ _ Hok) in Hb. rewrite (ok_lru _ _ Hok).
  apply elem_of_seq. unfold NBUF in *. lia.
Qed.

Lemma free_slk H s i : cache_ok H s → i ∉ H → s.(k_slk) !! SLbuf i = None.
Proof.
  intros Hok Hi. destruct (s.(k_slk) !! SLbuf i) eqn:E; [|done].
  destruct Hi. apply (ok_slk _ _ Hok). by eexists.
Qed.

(** The end of [bread], once [bget] has returned the buffer [b1]. *)
Lemma bread_claimed H s i b b1 n e s1 :
  cache_ok H s → s.(k_fs).(fs_bufs) !! i = Some b → i ∉ H →
  0 ≤ n < Z.of_nat (length s.(k_fs).(fs_disk)) →
  (∀ j c, j ≠ i → s.(k_fs).(fs_bufs) !! j = Some c → c.(b_dev) = 1 → c.(b_blockno) ≠ n) →
  bget 1 n s e = Ret i s1 e → claimed i b1 s s1 →
  b1.(b_dev) = 1 → b1.(b_blockno) = n → b1.(b_refcnt) = 1 →
  (stands_for n b ∧ b1.(b_flags) = b.(b_flags) ∧ b1.(b_data) = b.(b_data) ∨
   b1.(b_flags) = 0 ∧ b.(b_flags) ≠ 6 ∧ ¬ stands_for n b) →
  ∃ s', bread 1 n s e = Ret i s' e ∧
        cache_ok ({[i]} ∪ H) s' ∧ buf_of s'.(k_fs) i n ∧ fs_quiet s.(k_fs) s'.(k_fs) ∧
        same_view s.(k_fs) s'.(k_fs) ∧ held_same H s s' ∧ settled s'.(k_fs) i.
Proof.
  intros Hok Hb Hi Hn Halone Hg Hcl Hd1 Hn1 Hr1 Hcase. pose proof (ok_kidle _ _ Hok) as Hk.
  pose proof (lookup_lt_Some _ _ _ Hb). unfold bread. mstep Hg.
  assert (s1.(k_fs).(fs_bufs) !! i = Some b1) as Hb1.
  { destruct Hcl as [pid ->]. by apply list_lookup_insert_eq. }
  mstep (getb_run s1 i b1 e Hb1). destruct Hcase as [(Hs & Hfl & Hda)|(Hfl & Hf6 & Hs)].
  - assert (negb (truthy (Z.land (b_flags b1) B_VALID)) = false) as ->.
    { rewrite Hfl. apply stands_for_valid in Hs. destruct (ok_buf _ _ Hok _ _ Hb) as ([E|[E|E]] & _); rewrite E; done. }
    exists s1. split; [done|]. apply (fetch_spec H s s1 i b b1); try done; [|by apply claimed_taken].
    split_and!; [done..|by left].
  - rewrite Hfl. change (negb (truthy (Z.land 0 B_VALID))) with true. cbv iota.
    destruct (claimed_read i b1 n s s1 e) as (s2 & d & Hio & Hdk & Ht); try done.
    mstep Hio. exists s2. split; [done|]. eapply (fetch_spec H s s2 i b _ n Hok Hb Hi Hn Halone); [|exact Ht].
    split_and!; [done..|by right].
Qed.

(** [bread] returns a locked buffer with the block's contents.  It needs the
    block to be cached, or a buffer to recycle. *)
Lemma bread_spec H n s e :
  cache_ok H s → 0 ≤ n < Z.of_nat (length s.(k_fs).(fs_disk)) →
  (∀ i, i ∈ H → ¬ buf_of s.(k_fs) i n) → (∃ i, buf_of s.(k_fs) i n) ∨ room s.(k_fs) →
  ∃ i s', bread 1 n s e = Ret i s' e ∧ i ∉ H ∧
          cache_ok ({[i]} ∪ H) s' ∧ buf_of s'.(k_fs) i n ∧ fs_quiet s.(k_fs) s'.(k_fs) ∧
          same_view s.(k_fs) s'.(k_fs) ∧ held_same H s s' ∧ settled s'.(k_fs) i.
Proof.
  intros Hok Hn Hh Hroom. pose proof (ok_kidle _ _ Hok) as Hk.
  destruct (bfind (cached_at 1 n) s.(k_fs).(fs_bufs) s.(k_fs).(fs_lru)) as [i|] eqn:Hf.
  - pose proof Hf as (Hin & b & Hb & Hc)%bfind_Some. unfold cached_at in Hc. bool_facts.
    destruct (ok_buf _ _ Hok _ _ Hb) as (Hfl & Hr & Hheld & Hfree).
    assert (i ∉ H) as Hi. { intros Hi. apply (Hh i Hi). exists b. split_and!; try done. by apply Hheld. }
    destruct (bget_cached 1 n i b s e Hk Hf Hb (free_slk _ _ _ Hok Hi)) as (s1 & Hg & Hcl).
    exists i. eapply (bread_claimed H s i b _ n e s1) in Hcl as (s' & ? & ?); try done; [by exists s'|..].
    + intros j c Hji Hc Hdc Heq. apply Hji. by eapply (ok_uniq _ _ Hok j i c b); congruence.
    + simpl. by rewrite (proj1 (Hfree Hi)).
    + destruct (decide (b_flags b = 0)) as [E|E]; [right|left].
      * split_and!; [done|congruence|]. intros ?%stands_for_valid. done.
      * split_and!; [|done..]. by apply stands_for_true.
  - assert (∀ j c, s.(k_fs).(fs_bufs) !! j = Some c → c.(b_dev) = 1 → c.(b_blockno) ≠ n) as Hnone.
    { intros j c Hc Hd Heq. pose proof (bfind_None _ _ _ j c Hf (in_lru _ _ _ _ Hok Hc) Hc) as Hx.
      unfold cached_at in Hx. rewrite Hd, Heq, !Z.eqb_refl in Hx. done. }
    destruct Hroom as [(j & c & Hc & _ & Hd & Heq)|(j & c & Hc & Hrec)]; [by destruct (Hnone j c)|].
    destruct (bfind recyclable s.(k_fs).(fs_bufs) (reverse s.(k_fs).(fs_lru))) as [i|] eqn:Hf'.
    2: { rewrite (bfind_None _ _ _ j c Hf') in Hrec; [done| |done].
         apply elem_of_reverse. by eapply in_lru. }
    pose proof Hf' as (Hin & b & Hb & Hrb)%bfind_Some. unfold recyclable in Hrb. bool_facts.
    destruct (ok_buf _ _ Hok _ _ Hb) as (Hfl & Hr & Hheld & Hfree).
    assert (i ∉ H) as Hi. { intros Hi. destruct (Hheld Hi) as [? _]. congruence. }
    destruct (bget_recycled 1 n i b s e Hk Hf Hf' Hb (free_slk _ _ _ Hok Hi)) as (s1 & Hg & Hcl).
    exists i. eapply (bread_claimed H s i b _ n e s1) in Hcl as (s' & ? & ?); try done; [by exists s'|by eauto|].
    right. split_and!; [done| |].
    + intros E. by rewrite E in *.
    + intros (? & ? & _)%stands_for_true. by destruct (Hnone i b).
Qed.

Lemma held_io_ready H s i b :
  cache_ok H s → i ∈ H → s.(k_fs).(fs_bufs) !! i = Some b →
  io_ready i b s ∧ b.(b_refcnt) = 1 ∧ (b.(b_flags) = 2 ∨ b.(b_flags) = 6).
Proof.
  intros Hok Hi Hb. destruct (ok_buf _ _ Hok _ _ Hb) as (Hfl & Hv & Hh & _). destruct (Hh Hi) as [? ?].
  destruct (Hv ltac:(done)) as [? ?]. split_and!; [|done|tauto]. split_and!; try (done || lia); [apply Hok|].
  by apply (ok_slk _ _ Hok).
Qed.

Lemma held_buf_of H s i b :
  cache_ok H s → i ∈ H → s.(k_fs).(fs_bufs) !! i = Some b → stands_for b.(b_blockno) b.
Proof.
  intros Hok Hi Hb. destruct (held_io_ready H s i b Hok Hi Hb) as ((_ & _ & _ & ? & _) & _ & ?).
  apply stands_for_true. split_and!; [done..|lia].
Qed.

Lemma buf_of_lookup H s i n :
  cache_ok H s → buf_of s.(k_fs) i n →
  ∃ b, s.(k_fs).(fs_bufs) !! i = Some b ∧ b.(b_blockno) = n ∧ b.(b_data) = content s.(k_fs) n ∧ b.(b_flags) ≠ 0.
Proof.
  intros Hok (b & Hb & Hf & Hd & Hn). exists b. split_and!; try done.
  symmetry. apply (content_cached _ i); [apply Hok|done|]. by apply stands_for_true.
Qed.

(** A buffer replaced by one for the same block, as full and as dirty. *)
Lemma same_view_put f f' i b b' :
  uniq f.(fs_bufs) → f.(fs_bufs) !! i = Some b → f'.(fs_bufs) = <[i := b']> f.(fs_bufs) →
  f'.(fs_disk) = f.(fs_disk) → b'.(b_dev) = b.(b_dev) → b'.(b_blockno) = b.(b_blockno) →
  b'.(b_flags) = b.(b_flags) → b'.(b_data) = b.(b_data) →
  uniq f'.(fs_bufs) ∧ same_view f f'.
Proof.
  intros Hu Hb Hbs Hdk Hd Hn Hf Hda. pose proof (lookup_lt_Some _ _ _ Hb).
  assert (uniq f'.(fs_bufs)) as Hu'.
  { rewrite Hbs. apply (uniq_insert _ i b); [done..|]. rewrite Hd, Hn. intros Hb1 j c Hji Hc Hc1 Heq.
    apply Hji. by eapply (Hu j i c b). }
  split; [done|split].
  - intros m _. destruct (decide (stands_for m b)) as [Hs|Hs].
    + rewrite (content_cached f i b m), (content_cached f' i b' m); try done.
      * by rewrite Hbs, list_lookup_insert_eq.
      * rewrite stands_for_true in *. by rewrite Hd, Hn, Hf.
    + apply (content_other f f' i b b'); try done; [by rewrite Hdk|].
      rewrite stands_for_true in *. by rewrite Hd, Hn, Hf.
  - intros m. unfold pinned. rewrite Hbs. split.
    + intros (j & c & [(<- & <- & _)|[Hji Hc]]%list_lookup_insert_Some & ? & ?); [exists i, b|by exists j, c].
      by rewrite <- Hf, <- Hn.
    + intros (j & c & Hc & ? & ?). destruct (decide (i = j)) as [->|Hji].
      * simplify_eq. exists j, b'. rewrite list_lookup_insert_eq by done. by rewrite Hf, Hn.
      * exists j, c. by rewrite list_lookup_insert_ne.
Qed.

Lemma to_front_perm i l : NoDup l → i ∈ l → to_front i l ≡ₚ l.
Proof.
  intros Hnd Hi. apply NoDup_Permutation; [|done|].
  - constructor; [|by apply NoDup_filter]. rewrite list_elem_of_filter. naive_solver.
  - intros j. unfold to_front. rewrite elem_of_cons, list_elem_of_filter.
    destruct (decide (j = i)); naive_solver.
Qed.

Lemma brelse_spec H i s e :
  cache_ok ({[i]} ∪ H) s → i ∉ H → settled s.(k_fs) i → (i < NBUF)%nat →
  ∃ s', brelse i s e = Ret tt s' e ∧ cache_ok H s' ∧ fs_quiet s.(k_fs) s'.(k_fs) ∧
        same_view s.(k_fs) s'.(k_fs) ∧ held_same H s s'.
Proof.
  intros Hok Hi Hset Hlt. destruct (lookup_lt_is_Some_2 s.(k_fs).(fs_bufs) i) as [b Hb].
  { by rewrite (ok_len _ _ Hok). }
  destruct (held_io_ready _ s i b Hok ltac:(set_solver) Hb) as (Hio & Hr & Hfl).
  rewrite (brelse_run i b s e Hio Hr). eexists. split; [done|]. set (s' := brelsed i b s).
  destruct (same_view_put s.(k_fs) s'.(k_fs) i b (set_b_refcnt 0 b) (ok_uniq _ _ Hok) Hb) as [Hu Hv]; try done.
  pose proof (lookup_lt_Some _ _ _ Hb). split_and!; [|done|done|].
  - split; [| | | |done|].
    + apply (kidle_wake (Some (ChSleep (SLbuf i))) s). apply Hok.
    + simpl. rewrite length_insert. apply Hok.
    + simpl. rewrite to_front_perm; [apply Hok| |by eapply in_lru].
      rewrite (ok_lru _ _ Hok). apply NoDup_seq.
    + intros j. simpl. destruct (decide (j = i)) as [->|Hne].
      * rewrite lookup_delete_eq. split; [by intros []|done].
      * rewrite lookup_delete_ne by congruence. rewrite (ok_slk _ _ Hok). set_solver.
    + intros j c [(<- & <- & _)|[Hne Hc]]%list_lookup_insert_Some.
      * destruct (ok_buf _ _ Hok _ _ Hb) as (? & ? & _). split_and!; [done|done|done|].
        intros _. split; [done|]. intros Hf2. exact (Hset b Hb Hf2).
      * destruct (ok_buf _ _ Hok _ _ Hc) as (? & ? & ? & ?). unfold buf_ok. set_solver.
  - split; [intros j Hj; simpl; by rewrite list_lookup_insert_ne by congruence|].
    intros ip. simpl. by rewrite lookup_delete_ne.
Qed.

(** [bwrite] puts the buffer's contents on the disk; what the kernel sees does
    not change, and the block is no longer pinned. *)
Lemma bwrite_spec H i n s e :
  cache_ok H s → i ∈ H → buf_of s.(k_fs) i n →
  ∃ s' bufs', bwrite i s e = Ret tt s' e ∧ cache_ok H s' ∧ buf_of s'.(k_fs) i n ∧ settled s'.(k_fs) i ∧
        s'.(k_fs) = put_block n (content s.(k_fs) n) (set_fs_bufs bufs' s.(k_fs)) ∧
        (∀ m, 0 ≤ m → content s'.(k_fs) m = content s.(k_fs) m) ∧
        (∀ m, pinned s'.(k_fs) m ↔ pinned s.(k_fs) m ∧ m ≠ n) ∧
        (∀ j, j ≠ i → s'.(k_fs).(fs_bufs) !! j = s.(k_fs).(fs_bufs) !! j).
Proof.
  intros Hok Hi Hbo. destruct (buf_of_lookup H s i n Hok Hbo) as (b & Hb & Hn & Hda & Hf0).
  pose proof (lookup_lt_Some _ _ _ Hb) as Hlt.
  destruct (held_io_ready H s i b Hok Hi Hb) as (Hio & Hr & Hfl). pose proof Hio as (_ & _ & _ & Hd1 & Hrg).
  rewrite (bwrite_run i b s e Hio Hfl). eexists _, _. split; [done|].
  rewrite Hda, Hn. set (b' := set_b_flags 2 b). set (s' := on_cpu _ _).
  assert (uniq s'.(k_fs).(fs_bufs)) as Hu.
  { apply (uniq_insert _ i b); [apply Hok|done|]. intros _ j c Hji Hc Hc1 Heq. apply Hji.
    by eapply (ok_uniq _ _ Hok j i c b). }
  assert (s'.(k_fs).(fs_bufs) !! i = Some b') as Hb' by (by apply list_lookup_insert_eq).
  assert (stands_for n b) as Hs by (by apply stands_for_true).
  assert (stands_for n b') as Hs' by (by apply stands_for_true).
  assert (length s'.(k_fs).(fs_disk) = length s.(k_fs).(fs_disk)) as Hdl by (simpl; apply length_insert).
  split_and!; [| | |done| | |].
  - split; [apply Hok| |apply Hok|apply Hok|done|].
    + simpl. rewrite length_insert. apply Hok.
    + intros j c Hc. unfold buf_ok. rewrite Hdl.
      apply list_lookup_insert_Some in Hc as [(<- & <- & _)|[Hji Hc]].
      * split_and!; [by right; left|done|done|done].
      * destruct (ok_buf _ _ Hok _ _ Hc) as (Hcf & Hcv & ? & Hcn). split_and!; [done..|].
        intros Hnh. destruct (Hcn Hnh) as [? Hc2]. split; [done|]. intros Hcf2. simpl.
        rewrite list_lookup_insert_ne; [by apply Hc2|]. destruct (Hcv ltac:(lia)) as [Hc1 Hcr].
        intros Heq. apply Hji. eapply (ok_uniq _ _ Hok i j b c); try done. lia.
  - exists b'. by split_and!.
  - intros c Hc Hc2. simplify_eq. simpl. rewrite list_lookup_insert_eq by lia. by rewrite <- Hda.
  - intros m Hm. destruct (decide (m = n)) as [->|Hne].
    + rewrite (content_cached s'.(k_fs) i b' n) by done. done.
    + apply (content_other _ _ i b b'); try done; [apply Hok| |..].
      * simpl. rewrite list_lookup_insert_ne by lia. done.
      * intros (_ & ? & _)%stands_for_true. congruence.
      * intros (_ & ? & _)%stands_for_true. simpl in *. congruence.
  - intros m. unfold pinned. split.
    + intros (j & c & [(<- & <- & _)|[Hji Hc]]%list_lookup_insert_Some & Hc6 & Hcm); [done|].
      split; [by exists j, c|]. intros ->. apply Hji. destruct (ok_buf _ _ Hok _ _ Hc) as (_ & Hcv & _).
      destruct (Hcv ltac:(lia)). eapply (ok_uniq _ _ Hok i j b c); try done. congruence.
    + intros [(j & c & Hc & Hc6 & Hcm) Hne]. exists j, c. split_and!; [|done..].
      simpl. rewrite list_lookup_insert_ne; [done|]. intros ->. congruence.
  - intros j Hj. simpl. by rewrite list_lookup_insert_ne by congruence.
Qed.

(** The holder of a buffer changes its data. *)
Lemma moddata_spec H i n g s e :
  cache_ok H s → i ∈ H → buf_of s.(k_fs) i n →
  ∃ s', modb i (λ b, set_b_data (g b.(b_data)) b) s e = Ret tt s' e ∧ cache_ok H s' ∧ buf_of s'.(k_fs) i n ∧
        fs_quiet s.(k_fs) s'.(k_fs) ∧ content s'.(k_fs) n = g (content s.(k_fs) n) ∧
        (∀ m, m ≠ n → content s'.(k_fs) m = content s.(k_fs) m) ∧
        (∀ m, pinned s'.(k_fs) m ↔ pinned s.(k_fs) m) ∧
        (∀ j, j ≠ i → s'.(k_fs).(fs_bufs) !! j = s.(k_fs).(fs_bufs) !! j) ∧ s'.(k_slk) = s.(k_slk).
Proof.
  intros Hok Hi Hbo. destruct (buf_of_lookup H s i n Hok Hbo) as (b & Hb & Hn & Hda & Hf0).
  pose proof (lookup_lt_Some _ _ _ Hb) as Hlt.
  destruct (held_io_ready H s i b Hok Hi Hb) as ((_ & _ & _ & Hd1 & Hrg) & Hr & Hfl).
  rewrite (modb_run s i b _ e Hb). eexists. split; [done|]. set (b' := set_b_data _ b). set (s' := putb _ _ _).
  assert (uniq s'.(k_fs).(fs_bufs)) as Hu.
  { apply (uniq_insert _ i b); [apply Hok|done|]. intros _ j c Hji Hc Hc1 Heq. apply Hji.
    by eapply (ok_uniq _ _ Hok j i c b). }
  assert (s'.(k_fs).(fs_bufs) !! i = Some b') as Hb' by (by apply list_lookup_insert_eq).
  assert (stands_for n b') as Hs' by (by apply stands_for_true).
  split_and!; [| |done| | | | |done].
  - split; [apply Hok| |apply Hok|apply Hok|done|].
    + simpl. rewrite length_insert. apply Hok.
    + intros j c [(<- & <- & _)|[Hji Hc]]%list_lookup_insert_Some; [|by apply (ok_buf _ _ Hok)].
      destruct (ok_buf _ _ Hok _ _ Hb) as (? & ? & ? & _). by split_and!.
  - exists b'. by split_and!.
  - rewrite (content_cached s'.(k_fs) i b' n) by done. simpl. by rewrite Hda.
  - intros m Hne. apply (content_other _ _ i b b'); try done; [apply Hok|..].
    + intros (_ & ? & _)%stands_for_true. congruence.
    + intros (_ & ? & _)%stands_for_true. simpl in *. congruence.
  - intros m. unfold pinned. split.
    + intros (j & c & [(<- & <- & _)|[Hji Hc]]%list_lookup_insert_Some & ? & ?); [by exists i, b|by exists j, c].
    + intros (j & c & Hc & ? & ?). destruct (decide (i = j)) as [->|Hji].
      * simplify_eq. by exists j, b'.
      * exists j, c. simpl. by rewrite list_lookup_insert_ne.
  - intros j Hj. simpl. by rewrite list_lookup_insert_ne by congruence.
Qed.

(** Marking a held buffer dirty pins its block. *)
Lemma pin_spec H i n b s :
  cache_ok H s → i ∈ H → buf_of s.(k_fs) i n → s.(k_fs).(fs_bufs) !! i = Some b →
  let s' := putb i (set_b_flags (Z.lor b.(b_flags) B_DIRTY) b) s in
  cache_ok H s' ∧ (∀ m, content s'.(k_fs) m = content s.(k_fs) m) ∧
  (∀ m, pinned s'.(k_fs) m ↔ pinned s.(k_fs) m ∨ m = n).
Proof.
  intros Hok Hi Hbo Hb. destruct (buf_of_lookup H s i n Hok Hbo) as (b1 & Hb1 & Hn & Hda & Hf0).
  rewrite Hb in Hb1. injection Hb1 as <-. pose proof (lookup_lt_Some _ _ _ Hb) as Hlt.
  destruct (held_io_ready H s i b Hok Hi Hb) as ((_ & _ & _ & Hd1 & Hrg) & Hr & Hfl). cbv zeta.
  assert (Z.lor b.(b_flags) B_DIRTY = 6) as -> by (by destruct Hfl as [->| ->]).
  set (b' := set_b_flags 6 b). set (s' := putb _ _ _).
  assert (uniq s'.(k_fs).(fs_bufs)) as Hu.
  { apply (uniq_insert _ i b); [apply Hok|done|]. intros _ j c Hji Hc Hc1 Heq. apply Hji.
    by eapply (ok_uniq _ _ Hok j i c b). }
  assert (s'.(k_fs).(fs_bufs) !! i = Some b') as Hb' by (by apply list_lookup_insert_eq).
  assert (stands_for n b') as Hs' by (by apply stands_for_true).
  split_and!.
  - split; [apply Hok| |apply Hok|apply Hok|done|].
    + simpl. rewrite length_insert. apply Hok.
    + intros j c [(<- & <- & _)|[Hji Hc]]%list_lookup_insert_Some; [|by apply (ok_buf _ _ Hok)].
      split_and!; [by right; right|done..].
  - intros m. destruct (decide (m = n)) as [->|Hne].
    + by rewrite (content_cached s'.(k_fs) i b' n) by done.
    + apply (content_other _ _ i b b'); try done; [apply Hok|..].
      * intros (_ & ? & _)%stands_for_true. congruence.
      * intros (_ & ? & _)%stands_for_true. simpl in *. congruence.
  - intros m. unfold pinned. split.
    + intros (j & c & [(<- & <- & _)|[Hji Hc]]%list_lookup_insert_Some & ? & ?); [|left; by exists j, c].
      right. simpl in *. congruence.
    + intros [(j & c & Hc & ? & ?)| ->]; [|by exists i, b']. destruct (decide (i = j)) as [->|Hji].
      * simplify_eq. by exists j, b'.
      * exists j, c. simpl. by rewrite list_lookup_insert_ne.
Qed.

(** While fewer than NBUF buffers are locked or pinned, one can be recycled. *)
Lemma room_if H s P :
  cache_ok H s → (∀ n, pinned s.(k_fs) n → n ∈ P) → (length P + size H < NBUF)%nat → room s.(k_fs).
Proof.
  intros Hok HP Hlen. pose proof (ok_len _ _ Hok) as Hbl. set (bufs := s.(k_fs).(fs_bufs)) in *.
  destruct (decide (Exists (λ b, recyclable b = true) bufs)) as [Hex|Hex].
  { apply Exists_exists in Hex as (b & Hin & Hr). apply list_elem_of_lookup_1 in Hin as [i Hi]. by exists i, b. }
  exfalso. set (L := filter (λ i, i ∉ H) (seq 0 NBUF)).
  set (num := λ i, default 0 (b_blockno <$> bufs !! i)).
  assert (∀ i, i ∈ L → ∃ b, bufs !! i = Some b ∧ b.(b_flags) = 6 ∧ b.(b_dev) = 1 ∧ num i = b.(b_blockno)) as HL.
  { intros i. unfold L. rewrite list_elem_of_filter, elem_of_seq. intros [Hi Hr].
    destruct (lookup_lt_is_Some_2 bufs i) as [b Hb]; [rewrite Hbl; unfold NBUF in *; lia|].
    exists b. destruct (ok_buf _ _ Hok _ _ Hb) as (Hfl & Hv & _ & Hn). destruct (Hn Hi) as [Hr0 _].
    assert (b.(b_flags) = 6) as H6.
    { destruct Hfl as [E|[E|E]]; [| |done]; exfalso; apply Hex, Exists_exists; exists b;
        (split; [by eapply list_elem_of_lookup_2|]); unfold recyclable; rewrite Hr0, E; done. }
    split_and!; [done..|by apply Hv; lia|]. unfold num. by rewrite Hb. }
  assert (length L ≤ length P)%nat as H1.
  { rewrite <- (length_fmap num). apply submseteq_length, NoDup_submseteq.
    - apply NoDup_fmap_2_strong; [|apply NoDup_filter, NoDup_seq].
      intros i j (b & Hb & _ & ? & Eb)%HL (c & Hc & _ & ? & Ec)%HL Heq.
      eapply (ok_uniq _ _ Hok i j b c); try done. congruence.
    - intros n (i & -> & (b & Hb & ? & _ & ->)%HL)%list_elem_of_fmap. apply HP. by exists i, b. }
  assert (length (filter (λ i, i ∈ H) (seq 0 NBUF)) ≤ size H)%nat as H2.
  { change (size H) with (length (elements H)). apply submseteq_length, NoDup_submseteq.
    - apply NoDup_filter, NoDup_seq.
    - intros i [? _]%list_elem_of_filter. by apply elem_of_elements. }
  assert (length (filter (λ i, i ∈ H) (seq 0 NBUF)) + length L = NBUF)%nat as H3.
  { unfold L. rewrite <- (length_seq NBUF 0) at 3. generalize (seq 0 NBUF). intros l.
    induction l as [|x l IH]; [done|]. rewrite !filter_cons. simpl.
    destruct (decide (x ∈ H)), (decide (x ∉ H)); simpl; done || lia. }
  lia.
Qed.

(** An example: a cache whose first buffer is [b], on a disk of zeros. *)
Definition cached_state (b : buf) : kstate :=
  on_fs (λ f, set_fs_lru (seq 0 NBUF) (set_fs_bufs (b :: replicate 29 zero_buf) f)) (user_state []).

Lemma cached_state_lookup b i c :
  (cached_state b).(k_fs).(fs_bufs) !! i = Some c → i = 0%nat ∧ c = b ∨ c = zero_buf.
Proof.
  change ((b :: replicate 29 zero_buf) !! i = Some c → i = 0%nat ∧ c = b ∨ c = zero_buf).
  rewrite lookup_cons_Some, lookup_replicate. naive_solver.
Qed.

Lemma cached_state_length b : length (cached_state b).(k_fs).(fs_disk) = Z.to_nat 1000.
Proof. change (length (replicate 1000 (replicate 512 0)) = Z.to_nat 1000). apply length_replicate. Qed.

Lemma zero_buf_ok d : buf_ok d False zero_buf.
Proof. split_and!; [by left|intros H; by destruct H|done|]. intros _. split; [done|]. intros H. discriminate H. Qed.

Lemma cached_state_ok b :
  b = zero_buf ∨ (b.(b_flags) = 6 ∧ b.(b_dev) = 1 ∧ 0 ≤ b.(b_blockno) < 1000 ∧ b.(b_refcnt) = 0) →
  cache_ok ∅ (cached_state b).
Proof.
  intros Hb. split.
  - split_and!; [split; [vm_compute; discriminate|done]|done..|]. by exists 0%nat, user_proc.
  - reflexivity.
  - done.
  - intros i. split; [by intros []|set_solver].
  - intros i j c c' Hc Hc'. by apply cached_state_lookup in Hc as [[-> ->]| ->], Hc' as [[-> ->]| ->].
  - intros i c Hc. pose proof (cached_state_length b) as Hl. set (d := fs_disk _) in *. clearbody d.
    pose proof (zero_buf_ok d) as Hz. unfold buf_ok in *. rewrite Hl in *. rewrite elem_of_empty.
    apply cached_state_lookup in Hc as [[-> ->]| ->]; [|done].
    destruct Hb as [->|(H6 & Hd & Hn & Hr)]; [done|]. rewrite H6.
    split_and!; [by right; right|intros _; split; [done|lia]|done|done].
Qed.

Lemma cached_state_clean m : ¬ pinned (cached_state zero_buf).(k_fs) m.
Proof. intros (i & b & Hb & H6 & _). by apply cached_state_lookup in Hb as [[_ ->]| ->]. Qed.

Lemma cached_state_room b : room (cached_state b).(k_fs).
Proof. by exists 1%nat, zero_buf. Qed.
