(* ===== verification/Ide.v ===== *)
(** * The disk driver (ide.c)

    The driver queues requests: the first of the queue is at the disk, the
    interrupt handler completes it and starts the next.  The disk is a parameter
    with the documented registers of an ATA disk as laws.  The other driver of
    the kernel, memide.c, serves a request at once; it is the specification that
    the queueing driver is shown to implement. *)

From S2P Require Import Prelude KState Print Hardware Ata Bio.
#[local] Open Scope kernel_scope.

(** The driver's variables, the buffers, and who is woken.  [ide_held] are the
    buffers whose sleep lock the caller holds; the links [qnext] are the list
    [idequeue]. *)
Record ide (D : Type) : Type := Mkide {
  ide_mach : machine D;
  idelock : bool;
  idequeue : list nat;
  havedisk1 : Z;
  ide_bufs : list buf;
  ide_held : list nat;
  ide_woken : list nat
}.
Arguments Mkide {D}.
Arguments ide_mach {D}.
Arguments idelock {D}.
Arguments idequeue {D}.
Arguments havedisk1 {D}.
Arguments ide_bufs {D}.
Arguments ide_held {D}.
Arguments ide_woken {D}.

Section ide.
Context {D : Type} {HW : Hardware D}.
Notation iM := (M (ide D)).

Definition set_ide_mach (v : machine D) (s : ide D) : ide D := Mkide v s.(idelock) s.(idequeue) s.(havedisk1) s.(ide_bufs) s.(ide_held) s.(ide_woken).
Definition set_idelock (v : bool) (s : ide D) : ide D := Mkide s.(ide_mach) v s.(idequeue) s.(havedisk1) s.(ide_bufs) s.(ide_held) s.(ide_woken).
Definition set_idequeue (v : list nat) (s : ide D) : ide D := Mkide s.(ide_mach) s.(idelock) v s.(havedisk1) s.(ide_bufs) s.(ide_held) s.(ide_woken).
Definition set_havedisk1 (v : Z) (s : ide D) : ide D := Mkide s.(ide_mach) s.(idelock) s.(idequeue) v s.(ide_bufs) s.(ide_held) s.(ide_woken).
Definition set_ide_bufs (v : list buf) (s : ide D) : ide D := Mkide s.(ide_mach) s.(idelock) s.(idequeue) s.(havedisk1) v s.(ide_held) s.(ide_woken).
Definition set_ide_woken (v : list nat) (s : ide D) : ide D := Mkide s.(ide_mach) s.(idelock) s.(idequeue) s.(havedisk1) s.(ide_bufs) s.(ide_held) v.

#[export] Instance ide_board : Board D (ide D).
Proof. refine {| mach := ide_mach; set_mach := set_ide_mach |}; [done|done|by intros []]. Defined.

Definition acquire_ide : iM unit :=
  l <- gets idelock;;
  if l : bool then spins else modify (set_idelock true).
Definition release_ide : iM unit :=
  l <- gets idelock;;
  if l : bool then modify (set_idelock false) else panic "release".

Definition ide_buf (b : nat) : iM buf := o <- gets (λ s, s.(ide_bufs) !! b);; deref o.
Definition set_ide_buf (b : nat) (x : buf) : iM unit := modify (λ s, set_ide_bufs (<[b := x]> s.(ide_bufs)) s).

Definition wake_buf (b : nat) : iM unit := modify (λ s, set_ide_woken (s.(ide_woken) ++ [b]) s).
(** [sleep(b, &idelock)]: the lock is free while others run. *)
Definition sleep_buf : iM unit := release_ide;; swtch;; acquire_ide.

(** [fuel] bounds the polls. *)
Fixpoint idewait (fuel : nat) (checkerr : bool) : iM Z :=
  match fuel with
  | O => fault "fuel"
  | S fuel' =>
      r <- on_dev (inb 503);;
      if negb (Z.land r (Z.lor IDE_BSY IDE_DRDY) =? IDE_DRDY) then idewait fuel' checkerr else
      if checkerr && truthy (Z.land r (Z.lor IDE_DF IDE_ERR)) then ret (-1) else ret 0
  end.

(** The loop of [ideinit] that looks for disk 1. *)
Fixpoint probe (n : nat) : iM unit :=
  match n with
  | O => ret tt
  | S n' => v <- on_dev (inb 503);; if truthy v then modify (set_havedisk1 1) else probe n'
  end.

Definition ideinit (fuel : nat) : iM unit :=
  modify (set_idelock false);;
  on_dev (picenable IRQ_IDE);;
  n <- gets (λ s, s.(ide_mach).(ncpu));;
  on_dev (ioapicenable IRQ_IDE (n - 1));;
  idewait fuel false;;
  on_dev (outb 502 (Z.lor 224 (Z.shiftl 1 4)));;
  probe 1000;;
  on_dev (outb 502 (Z.lor 224 (Z.shiftl 0 4))).

(** [b] is [None] for a null pointer. *)
Definition idestart (fuel : nat) (b : option nat) : iM unit :=
  match b with
  | None => panic "idestart"
  | Some b =>
      x <- ide_buf b;;
      if FSSIZE <=? x.(b_blockno) then panic "incorrect blockno" else
      let sector_per_block := BSIZE / SECTOR_SIZE in
      let sector := x.(b_blockno) * sector_per_block in
      let read_cmd := if sector_per_block =? 1 then IDE_CMD_READ else IDE_CMD_RDMUL in
      let write_cmd := if sector_per_block =? 1 then IDE_CMD_WRITE else IDE_CMD_WRMUL in
      if 7 <? sector_per_block then panic "idestart" else
      idewait fuel false;;
      on_dev (outb 1014 0);;
      on_dev (outb 498 sector_per_block);;
      on_dev (outb 499 (Z.land sector 255));;
      on_dev (outb 500 (Z.land (Z.shiftr sector 8) 255));;
      on_dev (outb 501 (Z.land (Z.shiftr sector 16) 255));;
      on_dev (outb 502 (Z.lor (Z.lor 224 (Z.shiftl (Z.land x.(b_dev) 1) 4)) (Z.land (Z.shiftr sector 24) 15)));;
      if truthy (Z.land x.(b_flags) B_DIRTY) then
        on_dev (outb 503 write_cmd);;
        on_dev (outsl 496 (words_of (Z.to_nat (BSIZE / 4)) x.(b_data)))
      else on_dev (outb 503 read_cmd)
  end.

Definition ideintr (fuel : nat) : iM unit :=
  acquire_ide;;
  q <- gets idequeue;;
  match q with
  | [] => release_ide
  | b :: q' =>
      modify (set_idequeue q');;
      x <- ide_buf b;;
      (if negb (truthy (Z.land x.(b_flags) B_DIRTY)) then
         r <- idewait fuel true;;
         if 0 <=? r then
           data <- on_dev (insl 496 (Z.to_nat (BSIZE / 4)));;
           set_ide_buf b (set_b_data data x)
         else ret tt
       else ret tt);;
      x <- ide_buf b;;
      set_ide_buf b (set_b_flags (Z.land (Z.lor x.(b_flags) B_VALID) (Z.lnot B_DIRTY)) x);;
      wake_buf b;;
      q <- gets idequeue;;
      (match q with [] => ret tt | b' :: _ => idestart fuel (Some b') end);;
      release_ide
  end.

(** [(b->flags & (B_VALID|B_DIRTY)) == B_VALID]. *)
Definition synced (x : buf) : bool := Z.land x.(b_flags) (Z.lor B_VALID B_DIRTY) =? B_VALID.

(** [iderw] up to the wait. *)
Definition iderw_enqueue (fuel b : nat) : iM unit :=
  held <- gets ide_held;;
  if negb (bool_decide (b ∈ held)) then panic "iderw: buf not locked" else
  x <- ide_buf b;;
  if synced x then panic "iderw: nothing to do" else
  h1 <- gets havedisk1;;
  if negb (x.(b_dev) =? 0) && negb (truthy h1) then panic "iderw: ide disk 1 not present" else
  acquire_ide;;
  q <- gets idequeue;;
  modify (set_idequeue (q ++ [b]));;
  q <- gets idequeue;;
  if bool_decide (head q = Some b) then idestart fuel (Some b) else ret tt.

Definition iderw (fuel b : nat) : iM unit :=
  iderw_enqueue fuel b;;
  while_sleep (x <- ide_buf b;; ret (negb (synced x))) (sleep_buf;; ret (None : option unit));;
  release_ide.
End ide.

Section runs.
Context {D : Type} `{Ata D}.
Context (fuel : nat).
Hypothesis Hfuel : ∀ k, (at_delay k < fuel)%nat.
Notation iM := (M (ide D)).
Notation disk_of s := (at_disk (mach s).(dev)).

Lemma idewait_run c n : ∀ (s : ide D) e, ((disk_of s).(a_busy) < n)%nat →
  ∃ s', idewait n c s e = Ret 0 s' e ∧ moved s s' (rest (disk_of s)).
Proof.
  induction n as [|n IH]; intros s e Hn; [lia|]. cbn [idewait]. destruct (on_dev_status s e) as (s1 & R1 & M1). mstep R1.
  pose proof (moved_disk _ _ _ M1) as Hd. destruct (a_busy (disk_of s)) as [|k] eqn:Eb.
  - exists s1. split; [by destruct c|]. unfold polled in M1. unfold rest. by rewrite Eb in M1.
  - destruct (IH s1 e) as (s' & Hr & Hm); [rewrite Hd; unfold polled; cbn [a_busy]; rewrite Eb; cbn [pred]; lia|].
    exists s'. split; [exact Hr|]. rewrite Hd in Hm. by eapply moved_trans.
Qed.

(** A buffer the driver can serve. *)
Definition servable (x : buf) : Prop := 0 ≤ x.(b_blockno) < FSSIZE ∧ length x.(b_data) = 512%nat ∧ Forall is_byte x.(b_data).
Definition place (x : buf) : Z * Z := (x.(b_dev) mod 2, x.(b_blockno)).
Definition dirty (x : buf) : bool := truthy (Z.land x.(b_flags) B_DIRTY).

(** The disk [a'] once the request for [x] is at it; a write has reached its sector. *)
Definition started (x : buf) (a a' : ata) : Prop :=
  (a'.(a_busy) < fuel)%nat ∧ a'.(a_sink) = None ∧
  if dirty x then a'.(a_disk) = <[place x := x.(b_data)]> a.(a_disk)
  else a'.(a_disk) = a.(a_disk) ∧ a'.(a_fifo) = words_of 128 (sector_of (place x) a).

(** The registers [idestart] writes select the block. *)
Lemma selected x : servable x →
  let sector := x.(b_blockno) in
  let dr := u8 (Z.lor (Z.lor 224 (Z.shiftl (Z.land x.(b_dev) 1) 4)) (Z.land (Z.shiftr sector 24) 15)) in
  u8 (Z.land sector 255) + 256 * u8 (Z.land (Z.shiftr sector 8) 255) + 65536 * u8 (Z.land (Z.shiftr sector 16) 255) + 16777216 * (dr mod 16) = sector ∧
  dr / 16 mod 2 = x.(b_dev) mod 2.
Proof.
  intros [Hb _]. cbv zeta. unfold FSSIZE in Hb. revert Hb. generalize x.(b_blockno) as sector. intros sector Hb.
  change 255 with (Z.ones 8). change 15 with (Z.ones 4). change (Z.land x.(b_dev) 1) with (Z.land x.(b_dev) (Z.ones 1)). rewrite !Z.land_ones, !Z.shiftr_div_pow2 by lia. change (2 ^ 8) with 256. change (2 ^ 16) with 65536. change (2 ^ 24) with 16777216. change (2 ^ 4) with 16. change (2 ^ 1) with 2.
  rewrite (Z.div_small sector 65536), (Z.div_small sector 16777216) by lia. rewrite !Z.mod_0_l by done. rewrite Z.lor_0_r. unfold u8. rewrite !Z.mod_mod by done.
  assert (0 ≤ x.(b_dev) mod 2 < 2) as Hd by (by apply Z.mod_pos_bound). rewrite (Z.mod_small (sector / 256)) by (split; [apply Z.div_pos; lia|apply Z.div_lt_upper_bound; lia]).
  pose proof (Z.div_mod sector 256 ltac:(done)).
  assert (x.(b_dev) mod 2 = 0 ∨ x.(b_dev) mod 2 = 1) as [->| ->] by lia; (split; [|done]).
  - change (Z.lor 224 (Z.shiftl 0 4) mod 256 mod 16) with 0. change (0 mod 256) with 0. lia.
  - change (Z.lor 224 (Z.shiftl 1 4) mod 256 mod 16) with 0. change (0 mod 256) with 0. lia.
Qed.

Lemma idestart_run (s : ide D) e b x :
  s.(ide_bufs) !! b = Some x → servable x → ((disk_of s).(a_busy) < fuel)%nat → 
  ∃ s' a', idestart fuel (Some b) s e = Ret tt s' e ∧ moved s s' a' ∧ started x (disk_of s) a'.
Proof.
  intros Hx Hok Hbusy. destruct Hok as (Hb & Hl & Hbytes). unfold idestart. unfold ide_buf. rewrite bind_assoc, bind_gets, Hx, bind_deref.
  rewrite (proj2 (Z.leb_gt _ _)) by lia. change (BSIZE / SECTOR_SIZE) with 1. rewrite Z.mul_1_r. cbv zeta. change (1 =? 1) with true. change (7 <? 1) with false. cbv iota.
  destruct (idewait_run false fuel s e Hbusy) as (s0 & R0 & M0). mstep R0.
  destruct (selected x) as [Hlba Hdr]; [done|]. cbv zeta in Hlba, Hdr.
  destruct (on_dev_outb 1014 0 s0 e) as (s1 & R1 & M1). mstep R1.
  destruct (outb_regs s1 e (Z.land x.(b_blockno) 255) (Z.land (Z.shiftr x.(b_blockno) 8) 255) (Z.land (Z.shiftr x.(b_blockno) 16) 255)
    (Z.lor (Z.lor 224 (Z.shiftl (Z.land x.(b_dev) 1) 4)) (Z.land (Z.shiftr x.(b_blockno) 24) 15))) as (s6 & a6 & R6 & M6 & L1 & L2 & L3 & L4 & L5).
  rewrite (moved_disk _ _ _ M1) in L3, L4, L5. change (ata_out at_delay 1014 (u8 0) (disk_of s0)) with (disk_of s0) in L3, L4, L5.
  rewrite Hlba in L1. rewrite Hdr in L2. rewrite (moved_disk _ _ _ M0) in L3, L4, L5. cbn [rest a_disk a_busy a_sink] in L3, L4, L5.
  assert (moved s s6 a6) as M by (eapply moved_trans; [exact M0|]; by eapply moved_trans).
  rewrite R6. fold (dirty x). unfold started. destruct (dirty x).
  - destruct (on_dev_outb 503 IDE_CMD_WRITE s6 e) as (s7 & R7 & M7). mstep R7. rewrite (moved_disk _ _ _ M6) in M7.
    destruct (outsl_run (words_of (Z.to_nat (BSIZE / 4)) x.(b_data)) s7 e (a_drive a6) (a_lba a6)) as (s8 & R8 & M8).
    + by rewrite (moved_disk _ _ _ M7).
    + by rewrite length_words_of.
    + rewrite (moved_disk _ _ _ M7) in M8. eexists s8, _. split; [exact R8|]. split; [eapply moved_trans; [exact M|]; eapply moved_trans; [exact M7|exact M8]|].
      split; [apply Hfuel|]. split; [done|]. cbn [a_disk]. rewrite L1, L2, words_le by (done || by rewrite Hl).
      change (a_disk (ata_out at_delay 503 (u8 IDE_CMD_WRITE) a6)) with (a_disk a6). by rewrite L3.
  - destruct (on_dev_outb 503 IDE_CMD_READ s6 e) as (s7 & R7 & M7). rewrite (moved_disk _ _ _ M6) in M7.
    eexists s7, _. split; [exact R7|]. split; [eapply moved_trans; [exact M|exact M7]|]. split; [apply Hfuel|]. split; [done|]. split; [exact L3|].
    change (a_fifo (ata_out at_delay 503 (u8 IDE_CMD_READ) a6)) with (words_of 128 (sector_of (a_drive a6, a_lba a6) a6)).
    unfold sector_of, place. by rewrite L1, L2, L3.
Qed.

(** ** The specification: a request is served at once

    This is what [iderw] of memide.c does to the disk and the buffer. *)
Definition served (dk : gmap (Z * Z) (list Z)) (x : buf) : buf :=
  set_b_flags (Z.lor (Z.land x.(b_flags) (Z.lnot B_DIRTY)) B_VALID)
    (if dirty x then x else set_b_data (default (replicate 512 0) (dk !! place x)) x).

Definition serve (st : gmap (Z * Z) (list Z) * list buf) (b : nat) : gmap (Z * Z) (list Z) * list buf :=
  match st.2 !! b with
  | Some x => (if dirty x then <[place x := x.(b_data)]> st.1 else st.1, <[b := served st.1 x]> st.2)
  | None => st
  end.

(** The disk and the buffers once the queue is served. *)
Definition settle (s : ide D) : gmap (Z * Z) (list Z) * list buf := foldl serve ((disk_of s).(a_disk), s.(ide_bufs)) s.(idequeue).

Definition disk_ok (dk : gmap (Z * Z) (list Z)) : Prop := ∀ k l, dk !! k = Some l → length l = 512%nat ∧ Forall is_byte l.

Record ide_inv (s : ide D) : Prop := {
  iv_lock : s.(idelock) = false;
  iv_nodup : NoDup s.(idequeue);
  iv_bufs : ∀ b, b ∈ s.(idequeue) → ∃ x, s.(ide_bufs) !! b = Some x ∧ servable x ∧ synced x = false;
  iv_busy : ((disk_of s).(a_busy) < fuel)%nat;
  iv_disk : disk_ok (disk_of s).(a_disk);
  iv_active : ∀ b q x, s.(idequeue) = b :: q → s.(ide_bufs) !! b = Some x →
    if dirty x then (disk_of s).(a_disk) !! place x = Some x.(b_data) else (disk_of s).(a_fifo) = words_of 128 (sector_of (place x) (disk_of s))
}.

Lemma flags_served f : Z.land (Z.lor f B_VALID) (Z.lnot B_DIRTY) = Z.lor (Z.land f (Z.lnot B_DIRTY)) B_VALID.
Proof.
  apply Z.bits_inj'. intros n Hn. rewrite !Z.land_spec, !Z.lor_spec, !Z.land_spec, !Z.lnot_spec by done.
  destruct (Z.testbit f n); simpl; [|destruct (decide (n = 1)) as [->|Hne]; [done|]].
  - destruct (Z.testbit B_VALID n) eqn:E; [|by rewrite orb_false_r]. rewrite orb_true_r. unfold B_VALID, B_DIRTY in *.
    change 2 with (2 ^ 1) in E. rewrite Z.pow2_bits_eqb in E by done. apply Z.eqb_eq in E as <-. done.
  - unfold B_VALID. change 2 with (2 ^ 1). rewrite Z.pow2_bits_eqb by done. rewrite (proj2 (Z.eqb_neq 1 n)) by lia. done.
Qed.

Lemma served_synced dk x : synced (served dk x) = true.
Proof.
  unfold synced, served. assert (∀ y v, (set_b_flags v y).(b_flags) = v) as -> by done. apply Z.eqb_eq. apply Z.bits_inj'. intros n Hn.
  rewrite !Z.land_spec, !Z.lor_spec, !Z.land_spec, !Z.lnot_spec by done.
  unfold B_VALID, B_DIRTY. change 2 with (2 ^ 1). change 4 with (2 ^ 2). rewrite !Z.pow2_bits_eqb by done.
  destruct (Z.eqb_spec 1 n) as [<-|]; [by rewrite orb_true_r|]. destruct (Z.eqb_spec 2 n) as [<-|]; simpl; by rewrite ?andb_false_r, ?orb_false_r.
Qed.

Lemma dirty_served dk x : dirty (served dk x) = false.
Proof.
  unfold dirty, served, truthy. assert (∀ y v, (set_b_flags v y).(b_flags) = v) as -> by done. apply negb_false_iff, Z.eqb_eq. apply Z.bits_inj'. intros n Hn.
  rewrite !Z.land_spec, !Z.lor_spec, !Z.land_spec, !Z.lnot_spec, Z.bits_0 by done.
  unfold B_VALID, B_DIRTY. change 2 with (2 ^ 1). change 4 with (2 ^ 2). rewrite !Z.pow2_bits_eqb by done.
  destruct (Z.eqb_spec 2 n) as [<-|]; simpl; by rewrite ?andb_false_r.
Qed.

(** The state without its lock. *)
Definition unlocked_inv (s : ide D) : Prop := ide_inv (set_idelock false s).

(** Starting the first request of the queue changes nothing of what the queue will have done. *)
Lemma start_settle (s : ide D) e h q x :
  s.(idequeue) = h :: q → NoDup s.(idequeue) → (∀ b, b ∈ s.(idequeue) → ∃ x, s.(ide_bufs) !! b = Some x ∧ servable x ∧ synced x = false) →
  s.(ide_bufs) !! h = Some x → ((disk_of s).(a_busy) < fuel)%nat → disk_ok (disk_of s).(a_disk) →
  ∃ s' a', idestart fuel (Some h) s e = Ret tt s' e ∧ moved s s' a' ∧ settle s' = settle s ∧ unlocked_inv s'.
Proof.
  intros Hq Hnd Hb Hx Hbusy Hd. destruct (Hb h) as (x' & Hx' & Hok & _); [rewrite Hq; by left|]. simplify_eq.
  destruct (idestart_run s e h x Hx Hok Hbusy) as (s' & a' & Hr & (y & -> & Hy) & Hst & Hsink & Hcase). exists (set_mach y s), a'.
  split; [done|]. split; [by exists y|]. destruct Hok as (Hok1 & Hok2 & Hok3). split.
  - unfold settle. cbn [mach set_mach ide_board set_ide_mach ide_mach ide_bufs idequeue set_mach]. rewrite Hq. cbn [foldl]. f_equal. unfold serve. cbn [fst snd]. rewrite Hx, Hy. unfold served.
    destruct (dirty x); [by rewrite Hcase, insert_insert_eq|]. by destruct Hcase as [-> _].
  - split; [done|done|exact Hb|by rewrite <- Hy in Hst| |].
    + cbn [mach set_mach ide_board set_ide_mach ide_mach set_mach set_idelock]. rewrite Hy. destruct (dirty x); [rewrite Hcase|destruct Hcase as [-> _]; done].
      intros k l [[<- <-]|[_ Hk]]%lookup_insert_Some; [done|by apply (Hd k)].
    + intros b q' x' Hq' Hx'. cbn [mach set_mach ide_board set_ide_mach ide_mach ide_bufs idequeue set_mach set_idelock] in *. rewrite Hy. rewrite Hq in Hq'. simplify_eq.
      destruct (dirty x); [rewrite Hcase; apply lookup_insert_eq|]. destruct Hcase as [Hc1 ->]. unfold sector_of. by rewrite Hc1.
Qed.

(** The part of [ideintr] that completes the request. *)
Lemma complete_run (s : ide D) e b q x :
  ide_inv s → s.(idequeue) = b :: q → s.(ide_bufs) !! b = Some x →
  ∃ s2 y, moved (set_ide_bufs (<[b := served (disk_of s).(a_disk) x]> s.(ide_bufs)) (set_idequeue q (set_idelock true s))) s2 y ∧
    y.(a_disk) = (disk_of s).(a_disk) ∧ (y.(a_busy) < fuel)%nat ∧
    ∀ B (k : iM B), (acquire_ide;; modify (set_idequeue q);; x <- ide_buf b;;
      (if negb (truthy (Z.land x.(b_flags) B_DIRTY)) then
         r <- idewait fuel true;;
         if 0 <=? r then
           data <- on_dev (insl 496 (Z.to_nat (BSIZE / 4)));;
           set_ide_buf b (set_b_data data x)
         else ret tt
       else ret tt);;
      x <- ide_buf b;;
      set_ide_buf b (set_b_flags (Z.land (Z.lor x.(b_flags) B_VALID) (Z.lnot B_DIRTY)) x);; k) s e = k s2 e.
Proof.
  intros I Hq Hx. pose proof (iv_active _ I _ _ _ Hq Hx) as Hact. pose proof (lookup_lt_Some _ _ _ Hx) as Hlt.
  set (s1 := set_idequeue q (set_idelock true s)).
  assert (∀ B (k : iM B), (acquire_ide;; modify (set_idequeue q);; k) s e = k s1 e) as Hacq.
  { intros B k. unfold acquire_ide. rewrite bind_assoc, bind_gets, (iv_lock _ I). by rewrite !bind_modify. }
  unfold served. destruct (dirty x) eqn:Ed.
  - exists (set_ide_bufs (<[b := set_b_flags (Z.lor (Z.land x.(b_flags) (Z.lnot B_DIRTY)) B_VALID) x]> s.(ide_bufs)) s1), (disk_of s). split; [exists s.(ide_mach); by destruct s|].
    split; [done|]. split; [apply I|]. intros B k. rewrite Hacq. unfold ide_buf. rewrite bind_assoc, bind_gets. replace (ide_bufs s1) with (ide_bufs s) by done.
    rewrite Hx, bind_deref. fold (dirty x). rewrite Ed. cbn [negb]. rewrite bind_ret_l, bind_assoc, bind_gets. replace (ide_bufs s1) with (ide_bufs s) by done.
    rewrite Hx, bind_deref. unfold set_ide_buf. by rewrite bind_modify, flags_served.
  - destruct (idewait_run true fuel s1 e (iv_busy _ I)) as (s2 & R2 & M2).
    destruct (insl_run 128 s2 e (words_of 128 (sector_of (place x) (disk_of s)))) as (s3 & R3 & M3); [by rewrite (moved_disk _ _ _ M2)|apply length_words_of|].
    assert (words_of 128 (sector_of (place x) (disk_of s)) ≫= le_bytes 4 = sector_of (place x) (disk_of s)) as Hw.
    { unfold sector_of. destruct (_ !! place x) as [l|] eqn:E; [|reflexivity]. destruct (iv_disk _ I _ _ E). by apply words_le. }
    rewrite Hw in R3. rewrite (moved_disk _ _ _ M2) in M3. destruct M2 as (y2 & -> & _). destruct M3 as (y3 & -> & Hy3).
    set (x' := set_b_data (sector_of (place x) (disk_of s)) x).
    exists (set_ide_bufs (<[b := set_b_flags (Z.lor (Z.land x.(b_flags) (Z.lnot B_DIRTY)) B_VALID) x']> s.(ide_bufs)) (set_mach y3 s1)), (at_disk y3.(dev)).
    split; [by exists y3|]. split; [by rewrite Hy3|]. split; [rewrite Hy3; simpl; pose proof (iv_busy _ I); lia|].
    intros B k. rewrite Hacq. unfold ide_buf. rewrite bind_assoc, bind_gets. replace (ide_bufs s1) with (ide_bufs s) by done. rewrite Hx, bind_deref. fold (dirty x). rewrite Ed. cbn [negb].
    rewrite bind_assoc. mstep R2. change (0 <=? 0) with true. cbv iota. rewrite bind_assoc. change (Z.to_nat (BSIZE / 4)) with 128%nat. mstep R3.
    unfold set_ide_buf. rewrite bind_modify, bind_assoc, bind_gets. cbn [ide_bufs set_ide_bufs set_mach]. replace (ide_bufs s1) with (ide_bufs s) by done.
    rewrite list_lookup_insert_eq by done. rewrite bind_deref, bind_modify, flags_served. cbn [ide_bufs set_ide_bufs set_mach].
    f_equal. unfold set_ide_bufs. cbn. by rewrite list_insert_insert_eq.
Qed.

(** What the others do not touch. *)
Definition same_callers (s s' : ide D) : Prop := s'.(ide_held) = s.(ide_held) ∧ s'.(havedisk1) = s.(havedisk1) ∧ length s'.(ide_bufs) = length s.(ide_bufs).

Lemma ideintr_run (s : ide D) e b q :
  ide_inv s → s.(idequeue) = b :: q →
  ∃ s', ideintr fuel s e = Ret tt s' e ∧ ide_inv s' ∧ s'.(idequeue) = q ∧ settle s' = settle s ∧ same_callers s s' ∧
    s'.(ide_woken) = s.(ide_woken) ++ [b] ∧ (∃ x, s'.(ide_bufs) !! b = Some x ∧ synced x = true) ∧ ∀ c, c ≠ b → s'.(ide_bufs) !! c = s.(ide_bufs) !! c.
Proof.
  intros I Hq. destruct (iv_bufs _ I b) as (x & Hx & _); [rewrite Hq; by left|]. pose proof (lookup_lt_Some _ _ _ Hx) as Hlt.
  destruct (complete_run s e b q x I Hq Hx) as (s2 & a2 & (y & -> & Hy) & Hd & Hbusy & Hrun). set (s2 := set_mach y _) in *.
  pose proof (iv_nodup _ I) as Hnd. rewrite Hq in Hnd. apply NoDup_cons in Hnd as [Hbq Hnd].
  set (s3 := set_ide_woken (s2.(ide_woken) ++ [b]) s2).
  assert (foldl serve ((disk_of s3).(a_disk), s3.(ide_bufs)) q = settle s) as Hset.
  { unfold settle. rewrite Hq. cbn [foldl]. f_equal. unfold serve. cbn [fst snd]. rewrite Hx. unfold s3, s2. cbn [mach set_mach ide_board set_ide_mach ide_mach ide_bufs set_mach set_ide_woken set_ide_bufs]. rewrite Hy, Hd.
    f_equal. pose proof (iv_active _ I _ _ _ Hq Hx) as Hact. destruct (dirty x); [|done]. symmetry. by apply insert_id. }
  assert (∀ c, c ∈ q → ∃ x, s3.(ide_bufs) !! c = Some x ∧ servable x ∧ synced x = false) as Hbufs.
  { intros c Hc. destruct (iv_bufs _ I c) as (z & Hz & Hz1 & Hz2); [rewrite Hq; by right|]. exists z. split; [|done].
    unfold s3, s2. cbn. rewrite list_lookup_insert_ne; [done|]. by intros ->. }
  assert (ideintr fuel s e = (match q with [] => ret tt | b' :: _ => idestart fuel (Some b') end;; release_ide) s3 e) as ->.
  { transitivity ((wake_buf b;; q <- gets idequeue;; (match q with [] => ret tt | b' :: _ => idestart fuel (Some b') end);; release_ide) s2 e); [|done].
    rewrite <- Hrun. unfold ideintr, acquire_ide. rewrite !bind_assoc, !bind_gets, (iv_lock _ I). rewrite !bind_modify, bind_gets. cbn [idequeue set_idelock]. rewrite Hq. done. }
  assert (∃ s4 a4, (match q with [] => ret tt | b' :: _ => idestart fuel (Some b') end) s3 e = Ret tt s4 e ∧ moved s3 s4 a4 ∧ settle s4 = settle s ∧ unlocked_inv s4)
    as (s4 & a4 & Hr4 & (z & -> & _) & Hs4 & I4).
  { destruct q as [|h q].
    - exists s3, (disk_of s3). split; [done|]. split; [exists s3.(ide_mach); by destruct s3|]. split; [exact Hset|]. pose proof (iv_disk _ I).
      split; [done|constructor|intros c Hc; by apply elem_of_nil in Hc| | |intros ? ? ? Hno; done]; unfold s3, s2; cbn; by rewrite Hy, ?Hd.
    - destruct (Hbufs h) as (z & Hz & _); [by left|]. destruct (start_settle s3 e h q z) as (s4 & a4 & Hr & Hm & Hs & I4); try done.
      + unfold s3, s2. cbn. by rewrite Hy.
      + unfold s3, s2. cbn. rewrite Hy, Hd. apply I.
      + exists s4, a4. split; [done|]. split; [done|]. split; [|done]. rewrite Hs. exact Hset. }
  mstep Hr4. unfold release_ide. rewrite bind_gets. cbn [idelock set_mach]. change (idelock s3) with true. cbv iota.
  eexists. split; [reflexivity|]. split; [exact I4|]. split; [done|]. split; [exact Hs4|]. split; [split; [done|]; split; [done|]; unfold s3, s2; cbn; by rewrite length_insert|].
  split; [done|]. unfold s3, s2. cbn. split; [|intros c Hc; by apply list_lookup_insert_ne]. eexists. split; [by apply list_lookup_insert_eq|]. apply served_synced.
Qed.

(** [iderw] up to its wait adds the request to what the queue will have done. *)
Lemma enqueue_run (s : ide D) e b x :
  ide_inv s → b ∈ s.(ide_held) → s.(ide_bufs) !! b = Some x → servable x → synced x = false → b ∉ s.(idequeue) → (x.(b_dev) = 0 ∨ s.(havedisk1) ≠ 0) →
  ∃ s', iderw_enqueue fuel b s e = Ret tt s' e ∧ s'.(idelock) = true ∧ unlocked_inv s' ∧ s'.(idequeue) = s.(idequeue) ++ [b] ∧
    s'.(ide_bufs) = s.(ide_bufs) ∧ settle s' = serve (settle s) b ∧ same_callers s s' ∧ s'.(ide_woken) = s.(ide_woken).
Proof.
  intros I Hheld Hx Hok Hsync Hnin Hdev. unfold iderw_enqueue. rewrite bind_gets, bool_decide_eq_true_2 by done. cbn [negb].
  unfold ide_buf. rewrite bind_assoc, bind_gets, Hx, bind_deref, Hsync, bind_gets.
  assert (negb (x.(b_dev) =? 0) && negb (truthy s.(havedisk1)) = false) as ->.
  { unfold truthy. destruct Hdev as [->|Hh]; [done|]. rewrite (proj2 (Z.eqb_neq _ 0) Hh). cbn [negb]. by rewrite andb_false_r. }
  unfold acquire_ide. rewrite bind_assoc, bind_gets, (iv_lock _ I), bind_modify, bind_gets, bind_modify, bind_gets.
  set (s1 := set_idequeue _ _). change (idequeue s1) with (idequeue s ++ [b]).
  assert (foldl serve ((disk_of s).(a_disk), s.(ide_bufs)) (s.(idequeue) ++ [b]) = serve (settle s) b) as Hset by (by rewrite foldl_app).
  assert (NoDup (s.(idequeue) ++ [b])) as Hnd.
  { apply NoDup_app. split; [apply I|]. split; [|apply NoDup_singleton]. intros c Hc Hc2%list_elem_of_singleton. by subst. }
  assert (∀ c, c ∈ s.(idequeue) ++ [b] → ∃ x, s.(ide_bufs) !! c = Some x ∧ servable x ∧ synced x = false) as Hbufs.
  { intros c [Hc|Hc%list_elem_of_singleton]%elem_of_app; [by apply I|]. subst. by exists x. }
  assert (idequeue s1 = s.(idequeue) ++ [b]) as Hq1 by done.
  destruct (s.(idequeue)) as [|h q] eqn:Hq.
  - cbn [app head] in *. rewrite bool_decide_eq_true_2 by done. destruct (start_settle s1 e b [] x) as (s' & a' & Hr & (y & -> & _) & Hs & I').
    + exact Hq1.
    + by rewrite Hq1.
    + by rewrite Hq1.
    + exact Hx.
    + apply I.
    + apply I.
    + exists (set_mach y s1). split; [exact Hr|]. split; [done|]. split; [exact I'|]. split; [exact Hq1|]. split; [done|].
      split; [rewrite Hs; unfold settle; rewrite Hq1; exact Hset|]. done.
  - cbn [app head]. rewrite bool_decide_eq_false_2 by (intros [= ->]; apply Hnin; by left). exists s1. split; [done|]. split; [done|].
    split; [|split; [exact Hq1|]; split; [done|]; split; [unfold settle; rewrite Hq1; exact Hset|]; done].
    split; [done|change (NoDup (idequeue s1)); by rewrite Hq1|change (idequeue (set_idelock false s1)) with (idequeue s1); by rewrite Hq1|apply I|apply I|].
    intros c q' z Hq' Hz. change (idequeue (set_idelock false s1)) with (idequeue s1) in Hq'. rewrite Hq1 in Hq'. injection Hq' as <- <-. by apply (iv_active _ I h q).
Qed.

(** The interrupt, as what happens while the caller sleeps. *)
Definition interrupt (s : ide D) : ide D := match ideintr fuel s [] with Ret _ s' _ => s' | _ => s end.

Lemma interrupt_run (s : ide D) b q : ide_inv s → s.(idequeue) = b :: q →
  ide_inv (interrupt s) ∧ (interrupt s).(idequeue) = q ∧ settle (interrupt s) = settle s ∧ same_callers s (interrupt s) ∧
  (interrupt s).(ide_woken) = s.(ide_woken) ++ [b] ∧ (∃ x, (interrupt s).(ide_bufs) !! b = Some x ∧ synced x = true) ∧ ∀ c, c ≠ b → (interrupt s).(ide_bufs) !! c = s.(ide_bufs) !! c.
Proof. intros I Hq. destruct (ideintr_run s [] b q I Hq) as (s' & Hr & H'). unfold interrupt. by rewrite Hr. Qed.

Definition wait_for (b n : nat) : iM (option unit) := while_ret n (x <- ide_buf b;; ret (negb (synced x))) (sleep_buf;; ret (None : option unit)).

Lemma wait_done (s : ide D) e b x n : s.(ide_bufs) !! b = Some x → synced x = true → wait_for b (S n) s e = Ret None s e.
Proof.
  intros Hx Hs. unfold wait_for. cbn [while_ret]. unfold ide_buf. rewrite !bind_assoc, bind_gets, Hx, bind_deref, bind_ret_l. by rewrite Hs.
Qed.

Lemma wait_step (s : ide D) e b x n : s.(idelock) = true → (interrupt (set_idelock false s)).(idelock) = false → s.(ide_bufs) !! b = Some x → synced x = false →
  wait_for b (S n) s (interrupt :: e) = wait_for b n (set_idelock true (interrupt (set_idelock false s))) e.
Proof.
  intros Hl Hi Hx Hs. unfold wait_for at 1. cbn [while_ret].
  assert ((x <- ide_buf b;; ret (negb (synced x))) s (interrupt :: e) = Ret true s (interrupt :: e)) as Hc.
  { unfold ide_buf. by rewrite !bind_assoc, bind_gets, Hx, bind_deref, Hs. }
  assert (sleep_buf s (interrupt :: e) = Ret tt (set_idelock true (interrupt (set_idelock false s))) e) as Hsl.
  { unfold sleep_buf, release_ide. rewrite bind_assoc, bind_gets, Hl, bind_modify. unfold acquire_ide, swtch, bind, gets. by rewrite Hi. }
  mstep Hc. rewrite bind_assoc. by mstep Hsl.
Qed.

(** The wait lasts for one interrupt per request up to the caller's own. *)
Lemma wait_run b q' : ∀ q n (s : ide D) e,
  s.(idelock) = true → unlocked_inv s → s.(idequeue) = q ++ b :: q' → (S (length q) < n)%nat →
  ∃ s' x, wait_for b n s (replicate (S (length q)) interrupt ++ e) = Ret None s' e ∧ s'.(idelock) = true ∧ unlocked_inv s' ∧ s'.(idequeue) = q' ∧
    settle s' = settle s ∧ same_callers s s' ∧ s'.(ide_bufs) !! b = Some x ∧ synced x = true ∧ s'.(ide_woken) = s.(ide_woken) ++ q ++ [b].
Proof.
  induction q as [|c q IH]; intros n s e Hl I Hq Hn; (destruct n as [|n]; [lia|]).
  all: destruct (iv_bufs _ I b) as (x & Hx & _ & Hns); [change (b ∈ s.(idequeue)); rewrite Hq; apply elem_of_app; right; by left|].
  - destruct (interrupt_run (set_idelock false s) b q' I Hq) as (I1 & Q1 & S1 & C1 & W1 & (z & Hz & Hzs) & _).
    exists (set_idelock true (interrupt (set_idelock false s))), z. cbn [length replicate app]. rewrite (wait_step _ _ _ x) by (done || apply I1).
    destruct n as [|n]; [simpl in Hn; lia|]. rewrite (wait_done _ _ b z) by done. split; [done|]. split; [done|].
    split; [|split; [exact Q1|]; split; [exact S1|]; split; [exact C1|]; split; [exact Hz|]; split; [exact Hzs|exact W1]].
    by destruct (interrupt (set_idelock false s)), I1 as [? ? ? ? ? ?].
  - destruct (interrupt_run (set_idelock false s) c (q ++ b :: q') I Hq) as (I1 & Q1 & S1 & C1 & W1 & _ & Hkeep).
    cbn [length replicate app] in Hn |- *. rewrite (wait_step _ _ _ x) by (done || apply I1).
    set (s1 := set_idelock true (interrupt (set_idelock false s))).
    destruct (IH n s1 e) as (s' & z & Hr & H1 & H2 & H3 & H4 & H5 & H6 & H7 & H8); [done| |exact Q1|lia|].
    { by destruct (interrupt (set_idelock false s)), I1 as [? ? ? ? ? ?]. }
    exists s', z. split; [exact Hr|]. split; [done|]. split; [done|]. split; [done|]. split; [rewrite H4; exact S1|].
    split; [destruct H5 as (A & B & E'), C1 as (A' & B' & E1); unfold same_callers; rewrite A, B, E'; done|]. split; [done|]. split; [done|].
    rewrite H8. change (ide_woken s1) with (ide_woken (interrupt (set_idelock false s))). rewrite W1. simpl. by rewrite <- !app_assoc.
Qed.

(** C16: the queueing driver implements the driver that serves a request at once.  With any requests queued before it,
    [iderw] of a locked buffer returns after one interrupt for each of them and one for its own; interrupts never find
    the disk or the queue in a state they cannot handle; the requests are completed and their waiters woken in queue
    order; and when the queue is empty again, the disk and all buffers are as if every request had been served at once in
    the order they were made, this one last.  The buffer is then valid and clean. *)
Theorem iderw_correct (s : ide D) e b x :
  ide_inv s → b ∈ s.(ide_held) → s.(ide_bufs) !! b = Some x → servable x → synced x = false → b ∉ s.(idequeue) → (x.(b_dev) = 0 ∨ s.(havedisk1) ≠ 0) →
  ∃ s' x', iderw fuel b s (replicate (S (length s.(idequeue))) interrupt ++ e) = Ret tt s' e ∧ ide_inv s' ∧ s'.(idequeue) = [] ∧
    ((disk_of s').(a_disk), s'.(ide_bufs)) = serve (settle s) b ∧ s'.(ide_woken) = s.(ide_woken) ++ s.(idequeue) ++ [b] ∧
    s'.(ide_bufs) !! b = Some x' ∧ synced x' = true.
Proof.
  intros I Hheld Hx Hok Hsync Hnin Hdev. unfold iderw.
  destruct (enqueue_run s (replicate (S (length s.(idequeue))) interrupt ++ e) b x I Hheld Hx Hok Hsync Hnin Hdev) as (s1 & Hr1 & L1 & I1 & Q1 & _ & S1 & _ & W1).
  mstep Hr1. unfold while_sleep, bind at 1. fold (wait_for b (S (length (replicate (S (length s.(idequeue))) interrupt ++ e)))).
  destruct (wait_run b [] s.(idequeue) (S (length (replicate (S (length s.(idequeue))) interrupt ++ e))) s1 e L1 I1) as (s2 & z & Hr2 & L2 & I2 & Q2 & S2 & _ & Hz & Hzs & W2).
  { by rewrite Q1. }
  { rewrite length_app, length_replicate. lia. }
  rewrite Hr2. unfold release_ide. rewrite bind_gets, L2. eexists _, z. split; [reflexivity|]. split; [exact I2|]. split; [exact Q2|].
  split; [|split; [rewrite <- W1; exact W2|split; [exact Hz|exact Hzs]]].
  rewrite <- S1, <- S2. unfold settle. rewrite Q2. done.
Qed.
End runs.

(** ** A disk that fails *)

Section fails.
Context {D : Type} {HW : Hardware D}.

(** The status is busy for [n] polls, then ready with the fault or the error bit. *)
Fixpoint status_fails (n : nat) (d : D) : Prop :=
  let '(v, d') := port_in 503 d in
  match n with
  | O => Z.land (u8 v) 192 = 64 ∧ Z.land (u8 v) 33 ≠ 0
  | S n' => Z.land (u8 v) 192 ≠ 64 ∧ status_fails n' d'
  end.

Lemma idewait_fails n : ∀ fuel (s : ide D) e, (n < fuel)%nat → status_fails n s.(ide_mach).(dev) →
  ∃ x, idewait fuel true s e = Ret (-1) (set_ide_mach x s) e.
Proof.
  induction n as [|n IH]; intros [|fuel] s e Hn Hf; try lia; cbn [idewait status_fails] in *.
  all: destruct (port_in 503 s.(ide_mach).(dev)) as [v d'] eqn:Hp.
  all: assert (on_dev (inb 503) s e = Ret (u8 v) (set_ide_mach (set_dev d' s.(ide_mach)) s) e) as Hr
    by (unfold on_dev, inb; change (mach s) with s.(ide_mach); by rewrite Hp).
  all: mstep Hr; change (Z.lor IDE_BSY IDE_DRDY) with 192; change IDE_DRDY with 64; destruct Hf as [Hs Hf].
  - rewrite Hs. change (Z.lor IDE_DF IDE_ERR) with 33. unfold truthy. rewrite (proj2 (Z.eqb_neq _ _) Hf). by eexists.
  - rewrite (proj2 (Z.eqb_neq _ _) Hs). cbn [negb].
    destruct (IH fuel (set_ide_mach (set_dev d' s.(ide_mach)) s) e ltac:(lia) Hf) as [x Hx]. exists x. exact Hx.
Qed.

(** C17: a read that fails.  When the disk answers the only request, a read, with the fault or the error bit, [ideintr]
    takes no data from it; but it marks the buffer valid and wakes the waiter all the same, which then finds the
    buffer's old contents and no sign of the error. *)
Theorem ideintr_read_error fuel (s : ide D) e b x n :
  s.(idelock) = false → s.(idequeue) = [b] → s.(ide_bufs) !! b = Some x → Z.land x.(b_flags) B_DIRTY = 0 →
  (n < fuel)%nat → status_fails n s.(ide_mach).(dev) →
  ∃ s' x', ideintr fuel s e = Ret tt s' e ∧ s'.(ide_bufs) = <[b := x']> s.(ide_bufs) ∧ x'.(b_data) = x.(b_data) ∧ synced x' = true ∧
    s'.(idequeue) = [] ∧ s'.(ide_woken) = s.(ide_woken) ++ [b] ∧ s'.(idelock) = false.
Proof.
  intros Hl Hq Hb Hd Hn Hf. pose proof (lookup_lt_Some _ _ _ Hb) as Hlt.
  set (x' := set_b_flags (Z.land (Z.lor x.(b_flags) B_VALID) (Z.lnot B_DIRTY)) x).
  set (s1 := set_idequeue [] (set_idelock true s)).
  destruct (idewait_fails n fuel s1 e Hn Hf) as [m Hw].
  exists (set_idelock false (set_ide_woken (s.(ide_woken) ++ [b]) (set_ide_bufs (<[b := x']> s.(ide_bufs)) (set_ide_mach m s1)))), x'.
  split; [|split; [done|split; [done|split; [|done]]]].
  - unfold ideintr, acquire_ide. rewrite bind_assoc, bind_gets, Hl, bind_modify, bind_gets. change (idequeue (set_idelock true s)) with (idequeue s). rewrite Hq, bind_modify. fold s1.
    unfold ide_buf at 1. rewrite bind_assoc, bind_gets. change (ide_bufs s1) with (ide_bufs s). rewrite Hb, bind_deref. rewrite Hd. change (negb (truthy 0)) with true. cbv iota.
    rewrite bind_assoc. mstep Hw. change (0 <=? -1) with false. cbv iota. rewrite bind_ret_l.
    unfold ide_buf. rewrite bind_assoc, bind_gets. change (ide_bufs (set_ide_mach m s1)) with (ide_bufs s). rewrite Hb, bind_deref.
    unfold set_ide_buf, wake_buf. rewrite !bind_modify, bind_gets. cbn [idequeue set_ide_woken set_ide_bufs set_ide_mach s1 set_idequeue].
    rewrite bind_ret_l. done.
  - unfold synced, x'. cbn [b_flags set_b_flags]. apply Z.eqb_eq. apply Z.bits_inj'. intros k Hk. change B_VALID with (2 ^ 1). change B_DIRTY with (2 ^ 2).
    rewrite Z.land_spec, Z.land_spec, !Z.lor_spec, Z.lnot_spec by done. rewrite !Z.pow2_bits_eqb by done.
    destruct (1 =? k) eqn:E1, (2 =? k) eqn:E2; bool_facts; subst; try lia; by rewrite ?orb_true_r, ?andb_false_r, ?andb_true_r.
Qed.
End fails.

(** ** An example *)

(** A read of block 7 is at the disk; buffer 1 is to be written to block 9. *)
Definition demo_block : list Z := replicate 512 65.
Definition demo_ide : ide ata :=
  let a := Mkata (λ _, 0) {[(1, 7) := demo_block]} 2 (words_of 128 demo_block) None 1 in
  Mkide (Mkmachine a 0 0 0 1 [] 0 0 false 0 []) false [0%nat] 1
    [Mkbuf 0 1 7 1 (replicate 512 0); Mkbuf B_DIRTY 1 9 1 (replicate 512 66)] [1%nat] [].

Lemma iderw_correct_witness : ∃ s', iderw 10 1 demo_ide (replicate 2 (interrupt 10)) = Ret tt s' [] ∧
  ide_bufs s' = [Mkbuf B_VALID 1 7 1 demo_block; Mkbuf B_VALID 1 9 1 (replicate 512 66)] ∧
  s'.(ide_mach).(dev).(a_disk) !! (1, 9) = Some (replicate 512 66) ∧ s'.(ide_woken) = [0%nat; 1%nat].
Proof.
  assert (∀ v, is_byte v → Forall is_byte (replicate 512 v)) as Hb by (intros v Hv; by apply Forall_replicate).
  assert (∀ k, (at_delay (D := ata) k < 10)%nat) as Hd by (intros k; simpl; lia).
  destruct (iderw_correct 10 Hd demo_ide [] 1 (Mkbuf B_DIRTY 1 9 1 (replicate 512 66))) as (s' & x' & Hr & _ & _ & Hst & Hw & _).
  - split; [done|apply NoDup_singleton| | | |].
    + intros b Hb'%list_elem_of_singleton. subst. eexists. split; [reflexivity|]. split; [|done]. split; [done|]. split; [done|by apply Hb].
    + simpl. lia.
    + intros k l Hk. change (({[(1, 7) := demo_block]} : gmap (Z * Z) (list Z)) !! k = Some l) in Hk. apply lookup_singleton_Some in Hk as [<- <-]. split; [done|by apply Hb].
    + intros b q x [= <- <-] [= <-]. vm_compute. reflexivity.
  - by left.
  - reflexivity.
  - split; [done|]. split; [done|by apply Hb].
  - reflexivity.
  - intros [?|Hno]%elem_of_cons; [done|by apply elem_of_nil in Hno].
  - by right.
  - exists s'. split; [exact Hr|]. assert (serve (settle demo_ide) 1 = (<[(1, 9) := replicate 512 66]> {[(1, 7) := demo_block]},
      [Mkbuf B_VALID 1 7 1 demo_block; Mkbuf B_VALID 1 9 1 (replicate 512 66)])) as Hs by (vm_compute; reflexivity).
    rewrite Hs in Hst. injection Hst as H1 H2. change (at_disk (dev (ide_mach s'))) with (dev (ide_mach s')) in H1.
    split; [exact H2|]. split; [rewrite H1; apply lookup_insert_eq|exact Hw].
Defined.

(** A disk whose status is first busy, then ready with the error bit. *)
#[local] Instance broken_disk : Hardware nat := {|
  port_in port k := match k with O => (65, O) | S k' => (128, k') end;
  port_out _ _ k := k; mmio_in _ k := (0, k); mmio_out _ _ k := k |}.

Definition broken_ide : ide nat :=
  Mkide (Mkmachine 1%nat 0 0 0 1 [] 0 0 false 0 []) false [0%nat] 1 [Mkbuf 0 1 7 1 demo_block] [0%nat] [].

Lemma ideintr_read_error_witness : ∃ s' x', ideintr 10 broken_ide [] = Ret tt s' [] ∧ s'.(ide_bufs) = [x'] ∧ x'.(b_data) = demo_block ∧ synced x' = true.
Proof.
  destruct (ideintr_read_error 10 broken_ide [] 0 (Mkbuf 0 1 7 1 demo_block) 1) as (s' & x' & H1 & H2 & H3 & H4 & _); [reflexivity..|lia|vm_compute; done|].
  exists s', x'. by split_and!.
Defined.
