(* ===== verification/Boot.v ===== *)
(** * The boot loader (bootmain.c, elf.h)

    [bootmain] reads the kernel's ELF file from the disk into memory.  The disk
    is the ATA disk of Ata.v; memory is a function from physical addresses to
    bytes.  Pointers and offsets are 32-bit words and wrap around. *)

From S2P Require Import Prelude KState Print Mem Hardware Ata.
#[local] Open Scope kernel_scope.

Record loader (D : Type) : Type := Mkloader { ld_mem : mem; ld_mach : machine D }.
Arguments Mkloader {D}.
Arguments ld_mem {D}.
Arguments ld_mach {D}.

Definition SECTSIZE : Z := 512.
Definition ELF_MAGIC : Z := 1179403647.
Definition elf_scratch : Z := 65536.

(** The fields of struct elfhdr and struct proghdr in memory. *)
Definition elf_magic (m : mem) (elf : Z) : Z := load32 m elf.
Definition elf_entry (m : mem) (elf : Z) : Z := load32 m (elf + 24).
Definition elf_phoff (m : mem) (elf : Z) : Z := load32 m (elf + 28).
Definition elf_phnum (m : mem) (elf : Z) : Z := le_val (load_bytes m (elf + 44) 2).
Definition sizeof_proghdr : Z := 32.
Definition ph_off (m : mem) (ph : Z) : Z := load32 m (ph + 4).
Definition ph_paddr (m : mem) (ph : Z) : Z := load32 m (ph + 12).
Definition ph_filesz (m : mem) (ph : Z) : Z := load32 m (ph + 16).
Definition ph_memsz (m : mem) (ph : Z) : Z := load32 m (ph + 20).

(** insl and stosb go through memory from [a] on, past the last address to 0. *)
Definition put_bytes (a : Z) (bs : list Z) (m : mem) : mem := λ x,
  if decide (is_u32 x) then default (m x) (bs !! Z.to_nat (u32 (x - a))) else m x.
Definition stosb (a v n : Z) (m : mem) : mem := λ x,
  if decide (is_u32 x ∧ u32 (x - a) < n) then u8 v else m x.

Section boot.
Context {D : Type} {HW : Hardware D}.
Notation bM := (M (loader D)).

Definition set_ld_mem (v : mem) (s : loader D) : loader D := Mkloader v s.(ld_mach).
Definition set_ld_mach (v : machine D) (s : loader D) : loader D := Mkloader s.(ld_mem) v.

#[export] Instance loader_board : Board D (loader D).
Proof. refine {| mach := ld_mach; set_mach := set_ld_mach |}; [done|done|by intros []]. Defined.

(** [fuel] bounds the polls. *)
Fixpoint waitdisk (fuel : nat) : bM unit :=
  match fuel with
  | O => fault "fuel"
  | S fuel' => v <- on_dev (inb 503);; if negb (Z.land v 192 =? 64) then waitdisk fuel' else ret tt
  end.

Definition readsect (fuel : nat) (dst offset : Z) : bM unit :=
  waitdisk fuel;;
  on_dev (outb 498 1);;
  on_dev (outb 499 offset);;
  on_dev (outb 500 (Z.shiftr offset 8));;
  on_dev (outb 501 (Z.shiftr offset 16));;
  on_dev (outb 502 (Z.lor (Z.shiftr offset 24) 224));;
  on_dev (outb 503 32);;
  waitdisk fuel;;
  data <- on_dev (insl 496 (Z.to_nat (SECTSIZE / 4)));;
  modify (λ s, set_ld_mem (put_bytes dst data s.(ld_mem)) s).

(** The loop of [readseg]; [n] bounds its iterations.  A segment that ends in
    the last sector of the address space makes it run on from address 0. *)
Fixpoint readseg_loop (fuel n : nat) (pa epa offset : Z) : bM unit :=
  match n with
  | O => fault "fuel"
  | S n' => if negb (pa <? epa) then ret tt else readsect fuel pa offset;; readseg_loop fuel n' (u32 (pa + SECTSIZE)) epa (u32 (offset + 1))
  end.

Definition readseg (fuel : nat) (pa count offset : Z) : bM unit :=
  let epa := u32 (pa + count) in
  let pa := u32 (pa - offset mod SECTSIZE) in
  let offset := u32 (offset / SECTSIZE + 1) in
  readseg_loop fuel (S (Z.to_nat ((epa - pa) / SECTSIZE + 1))) pa epa offset.

(** The loop over the program headers. *)
Fixpoint load_segments (fuel n : nat) (ph eph : Z) : bM unit :=
  match n with
  | O => fault "fuel"
  | S n' =>
      if negb (ph <? eph) then ret tt else
      m <- gets ld_mem;;
      let pa := ph_paddr m ph in
      readseg fuel pa (ph_filesz m ph) (ph_off m ph);;
      m <- gets ld_mem;;
      (if ph_filesz m ph <? ph_memsz m ph then
         modify (λ s, set_ld_mem (stosb (u32 (pa + ph_filesz m ph)) 0 (ph_memsz m ph - ph_filesz m ph) s.(ld_mem)) s)
       else ret tt);;
      load_segments fuel n' (u32 (ph + sizeof_proghdr)) eph
  end.

(** The address [bootmain] jumps to, or [None] when it returns to bootasm.S. *)
Definition bootmain (fuel : nat) : bM (option Z) :=
  let elf := elf_scratch in
  readseg fuel elf 4096 0;;
  m <- gets ld_mem;;
  if negb (elf_magic m elf =? ELF_MAGIC) then ret None else
  let ph := u32 (elf + elf_phoff m elf) in
  let eph := u32 (ph + sizeof_proghdr * elf_phnum m elf) in
  load_segments fuel (S (Z.to_nat (elf_phnum m elf))) ph eph;;
  m <- gets ld_mem;;
  ret (Some (elf_entry m elf)).
End boot.

(** ** Memory that does not wrap *)

Lemma u32_negative z : -4294967296 ≤ z < 0 → u32 z = z + 4294967296.
Proof. intros Hz. unfold u32. symmetry. apply (Z.mod_unique _ _ (-1)); lia. Qed.

Lemma put_bytes_in a bs m x b : 0 ≤ a → x < 4294967296 → a ≤ x → bs !! Z.to_nat (x - a) = Some b → put_bytes a bs m x = b.
Proof.
  intros Ha Hx Hax Hb. unfold put_bytes. rewrite decide_True by (unfold is_u32; lia). rewrite u32_id by (unfold is_u32; lia). by rewrite Hb.
Qed.

Lemma put_bytes_out a bs m x : 0 ≤ a → a + Z.of_nat (length bs) ≤ 4294967296 → x < a ∨ a + Z.of_nat (length bs) ≤ x → put_bytes a bs m x = m x.
Proof.
  intros Ha Hl Hx. unfold put_bytes. destruct (decide (is_u32 x)) as [Hu|]; [|done]. unfold is_u32 in Hu.
  rewrite lookup_ge_None_2; [done|]. destruct (decide (a ≤ x)).
  - rewrite u32_id by (unfold is_u32; lia). lia.
  - rewrite u32_negative by lia. lia.
Qed.

Lemma stosb_eq a v n m x : 0 ≤ a → 0 ≤ n → a + n ≤ 4294967296 → stosb a v n m x = fill a v n m x.
Proof.
  intros Ha Hn Hl. unfold stosb. destruct (decide (a ≤ x < a + n)) as [Hx|Hx].
  - rewrite fill_in by lia. rewrite decide_True; [done|]. unfold is_u32. rewrite u32_id by (unfold is_u32; lia). lia.
  - rewrite fill_out by lia. apply decide_False. intros [Hu Hlt]. unfold is_u32 in Hu. destruct (decide (a ≤ x)); [rewrite u32_id in Hlt by (unfold is_u32; lia); lia|].
    rewrite u32_negative in Hlt by lia. lia.
Qed.

(** ** Reading *)

(** Byte [k] of the kernel's file, which starts at sector 1 of the first drive. *)
Definition image (dk : gmap (Z * Z) (list Z)) (k : Z) : Z :=
  default (replicate 512 0) (dk !! (0, k / 512 + 1)) !!! Z.to_nat (k mod 512).

Section runs.
Context {D : Type} `{Ata D}.
Context (fuel : nat) (dk : gmap (Z * Z) (list Z)).
Hypothesis Hfuel : ∀ k, (at_delay k < fuel)%nat.
Hypothesis Hdk : ∀ k l, dk !! k = Some l → length l = 512%nat ∧ Forall is_byte l.
Notation bM := (M (loader D)).
Notation disk_of s := (at_disk (mach s).(dev)).

(** The disk answers in time, and its contents are [dk]. *)
Definition disk_ready (s : loader D) : Prop := ((disk_of s).(a_busy) < fuel)%nat ∧ (disk_of s).(a_disk) = dk.

Lemma waitdisk_run n : ∀ (s : loader D) e, ((disk_of s).(a_busy) < n)%nat →
  ∃ s', waitdisk n s e = Ret tt s' e ∧ moved s s' (rest (disk_of s)).
Proof.
  induction n as [|n IH]; intros s e Hn; [lia|]. cbn [waitdisk]. destruct (on_dev_status s e) as (s1 & R1 & M1). mstep R1.
  pose proof (moved_disk _ _ _ M1) as Hd. destruct (a_busy (disk_of s)) as [|k] eqn:Eb.
  - exists s1. split; [done|]. unfold polled in M1. unfold rest. by rewrite Eb in M1.
  - destruct (IH s1 e) as (s' & Hr & Hm); [rewrite Hd; unfold polled; cbn [a_busy]; rewrite Eb; cbn [pred]; lia|].
    exists s'. split; [exact Hr|]. rewrite Hd in Hm. by eapply moved_trans.
Qed.

(** The registers that [readsect] writes select sector [offset] of drive 0. *)
Lemma sector_selected offset : 0 ≤ offset < 268435456 →
  u8 offset + 256 * u8 (Z.shiftr offset 8) + 65536 * u8 (Z.shiftr offset 16) + 16777216 * (u8 (Z.lor (Z.shiftr offset 24) 224) mod 16) = offset ∧
  u8 (Z.lor (Z.shiftr offset 24) 224) / 16 mod 2 = 0.
Proof.
  intros Ho. rewrite !Z.shiftr_div_pow2 by lia. change (2 ^ 8) with 256. change (2 ^ 16) with 65536. change (2 ^ 24) with 16777216.
  assert (0 ≤ offset / 16777216 < 16) as Hh by (split; [apply Z.div_pos; lia|apply Z.div_lt_upper_bound; lia]).
  assert (Z.lor (offset / 16777216) 224 = offset / 16777216 + 224) as ->.
  { remember (offset / 16777216) as h. clear -Hh. assert (h = 0 ∨ h = 1 ∨ h = 2 ∨ h = 3 ∨ h = 4 ∨ h = 5 ∨ h = 6 ∨ h = 7 ∨ h = 8 ∨ h = 9 ∨ h = 10 ∨ h = 11 ∨ h = 12 ∨ h = 13 ∨ h = 14 ∨ h = 15) as Hc by lia.
    repeat destruct Hc as [->|Hc]; try reflexivity. by subst. }
  unfold u8. rewrite (Z.mod_small (offset / 16777216 + 224)) by lia.
  replace (offset / 16777216 + 224) with (offset / 16777216 + 14 * 16) by lia. rewrite Z.mod_add, Z.div_add, (Z.mod_small (offset / 16777216) 16), (Z.div_small (offset / 16777216) 16) by lia.
  split; [|done]. replace (offset / 65536) with (offset / 256 / 256) by (rewrite Z.div_div by lia; done).
  replace (offset / 16777216) with (offset / 256 / 256 / 256) by (rewrite !Z.div_div by lia; done).
  pose proof (Z.div_mod offset 256 ltac:(done)). pose proof (Z.div_mod (offset / 256) 256 ltac:(done)). pose proof (Z.div_mod (offset / 256 / 256) 256 ltac:(done)). lia.
Qed.

Definition sector_bytes (offset : Z) : list Z := default (replicate 512 0) (dk !! (0, offset)).

Lemma length_sector offset : length (sector_bytes offset) = 512%nat.
Proof. unfold sector_bytes. destruct (dk !! _) as [l|] eqn:E; [by apply (Hdk _ _ E)|done]. Qed.

Lemma sector_is_bytes offset : Forall is_byte (sector_bytes offset).
Proof. unfold sector_bytes. destruct (dk !! _) as [l|] eqn:E; [by apply (Hdk _ _ E)|by apply Forall_replicate]. Qed.

Lemma readsect_run (s : loader D) e dst offset : disk_ready s → 0 ≤ offset < 268435456 →
  ∃ s', readsect fuel dst offset s e = Ret tt s' e ∧ disk_ready s' ∧ s'.(ld_mem) = put_bytes dst (sector_bytes offset) s.(ld_mem).
Proof.
  intros [Hb Hd] Ho. unfold readsect. destruct (waitdisk_run fuel s e Hb) as (s1 & R1 & M1). mstep R1.
  destruct (outb_regs s1 e offset (Z.shiftr offset 8) (Z.shiftr offset 16) (Z.lor (Z.shiftr offset 24) 224)) as (s2 & a2 & R2 & M2 & L1 & L2 & L3 & _ & _).
  destruct (sector_selected offset Ho) as [S1 S2]. rewrite S1 in L1. rewrite S2 in L2. rewrite R2. rewrite (moved_disk _ _ _ M1) in L3. cbn [rest a_disk] in L3.
  destruct (on_dev_outb 503 32 s2 e) as (s3 & R3 & M3). mstep R3. rewrite (moved_disk _ _ _ M2) in M3.
  set (a3 := ata_out _ _ _ _) in M3. assert (a3.(a_fifo) = words_of 128 (sector_bytes offset) ∧ a3.(a_disk) = dk ∧ (a3.(a_busy) < fuel)%nat) as (F1 & F2 & F3).
  { change a3 with (Mkata a2.(a_reg) a2.(a_disk) (at_delay a2.(a_cmds)) (words_of 128 (sector_of (a_drive a2, a_lba a2) a2)) None (S a2.(a_cmds))).
    cbn [a_fifo a_disk a_busy]. unfold sector_of. rewrite L1, L2, L3, Hd. done. }
  destruct (waitdisk_run fuel s3 e) as (s4 & R4 & M4); [by rewrite (moved_disk _ _ _ M3)|]. mstep R4. rewrite (moved_disk _ _ _ M3) in M4.
  destruct (insl_run 128 s4 e (words_of 128 (sector_bytes offset))) as (s5 & R5 & M5); [by rewrite (moved_disk _ _ _ M4)|apply length_words_of|].
  change (Z.to_nat (SECTSIZE / 4)) with 128%nat. mstep R5. rewrite words_le by (apply sector_is_bytes || apply length_sector).
  assert (∃ y, s5 = set_mach y s ∧ at_disk y.(dev) = disk_of s5) as (y & -> & Hy).
  { assert (moved s s5 (disk_of s5)) as (y & -> & Hy); [|by exists y].
    eapply moved_trans; [exact M1|]. eapply moved_trans; [exact M2|]. eapply moved_trans; [exact M3|]. eapply moved_trans; [exact M4|]. destruct M5 as (y & -> & _). by exists y. }
  eexists. split; [reflexivity|]. split; [|done]. pose proof (moved_disk _ _ _ M5) as H5. rewrite (moved_disk _ _ _ M4) in H5. unfold disk_ready.
  change (disk_of (set_ld_mem _ (set_mach y s))) with (disk_of (set_mach y s)). rewrite H5. simpl. split; [lia|done].
Qed.

Lemma readseg_loop_run n : ∀ (s : loader D) e pa epa o,
  disk_ready s → 0 ≤ pa → epa + 511 < 4294967296 → 0 ≤ o → o + Z.of_nat n < 268435456 → epa - pa ≤ 512 * (Z.of_nat n - 1) → (0 < n)%nat →
  ∃ s', readseg_loop fuel n pa epa o s e = Ret tt s' e ∧ disk_ready s' ∧
    (∀ x, pa ≤ x < epa → s'.(ld_mem) x = sector_bytes (o + (x - pa) / 512) !!! Z.to_nat ((x - pa) mod 512)) ∧
    (∀ x, x < pa ∨ epa + 511 ≤ x → s'.(ld_mem) x = s.(ld_mem) x).
Proof.
  induction n as [|n IH]; intros s e pa epa o Hs Hpa Hepa Ho Hon Hn Hn0; [lia|]. cbn [readseg_loop]. destruct (Z.ltb_spec pa epa) as [Hlt|Hge]; cbn [negb].
  2: { exists s. split; [done|]. split; [done|]. split; [intros x Hx; lia|done]. }
  destruct (readsect_run s e pa o Hs ltac:(lia)) as (s1 & R1 & D1 & M1). mstep R1. unfold SECTSIZE. rewrite (u32_id (pa + 512)), (u32_id (o + 1)) by (unfold is_u32; lia).
  destruct (IH s1 e (pa + 512) epa (o + 1) D1 ltac:(lia) ltac:(lia) ltac:(lia) ltac:(lia) ltac:(lia) ltac:(lia)) as (s' & R' & D' & M' & O'). exists s'. split; [exact R'|]. split; [done|].
  assert (∀ x, x < pa ∨ pa + 512 ≤ x → s1.(ld_mem) x = s.(ld_mem) x) as Hout by (intros x Hx; rewrite M1; apply put_bytes_out; rewrite ?length_sector; lia).
  split.
  - intros x Hx. destruct (decide (x < pa + 512)) as [Hx1|Hx1].
    + rewrite O' by lia. rewrite M1, (Z.div_small (x - pa)), Z.add_0_r, Z.mod_small by lia.
      assert (Z.to_nat (x - pa) < length (sector_bytes o))%nat as Hlt' by (rewrite length_sector; lia). apply lookup_lt_is_Some in Hlt' as [b Hb].
      rewrite (put_bytes_in _ _ _ x b) by (lia || done). symmetry. by apply list_lookup_total_correct.
    + rewrite M' by lia. replace (x - pa) with (x - (pa + 512) + 1 * 512) by lia. rewrite Z.div_add, Z.mod_add by lia. do 2 f_equal. lia.
  - intros x Hx. rewrite O' by lia. apply Hout. lia.
Qed.

(** [readseg] puts the bytes of the file from [offset] on at [pa]; it may write less than a sector before and after. *)
Lemma readseg_run (s : loader D) e pa count offset :
  disk_ready s → 0 ≤ count → 0 ≤ offset < 4294967296 → 0 ≤ pa - offset mod 512 → pa + count + 511 < 4294967296 →
  ∃ s', readseg fuel pa count offset s e = Ret tt s' e ∧ disk_ready s' ∧
    (∀ i, 0 ≤ i < count → s'.(ld_mem) (pa + i) = image dk (offset + i)) ∧
    (∀ x, x < pa - offset mod 512 ∨ pa + count + 511 ≤ x → s'.(ld_mem) x = s.(ld_mem) x).
Proof.
  intros Hs Hc Ho Hlo Hhi. unfold readseg. change SECTSIZE with 512. cbv zeta. pose proof (Z.mod_pos_bound offset 512 eq_refl). pose proof (Z.div_mod offset 512 ltac:(done)).
  assert (0 ≤ offset / 512 < 8388608) by (split; [apply Z.div_pos; lia|apply Z.div_lt_upper_bound; lia]).
  rewrite (u32_id (pa + count)), (u32_id (pa - _)), (u32_id (_ + 1)) by (unfold is_u32; lia).
  set (pa0 := pa - offset mod 512). set (o0 := offset / 512 + 1). set (n := S (Z.to_nat ((pa + count - pa0) / 512 + 1))).
  assert (0 ≤ (pa + count - pa0) / 512 ≤ 8388610) as Hdiv.
  { split; [apply Z.div_pos; unfold pa0; lia|]. assert (pa + count - pa0 < 4294967296 + 512) by (unfold pa0; lia). apply Z.lt_succ_r, Z.div_lt_upper_bound; lia. }
  pose proof (Z.div_mod (pa + count - pa0) 512 ltac:(done)). pose proof (Z.mod_pos_bound (pa + count - pa0) 512 eq_refl).
  destruct (readseg_loop_run n s e pa0 (pa + count) o0 Hs) as (s' & Hr & Hd & Hm & Hout); [done|lia|unfold o0; lia|unfold n, o0; lia|unfold n; lia|unfold n; lia|].
  exists s'. split; [done|]. split; [done|]. split; [|exact Hout]. intros i Hi. rewrite Hm by (unfold pa0; lia). unfold image, sector_bytes, o0.
  replace (pa + i - pa0) with (offset mod 512 + i) by (unfold pa0; lia).
  replace (offset + i) with (offset mod 512 + i + offset / 512 * 512) by lia. rewrite Z.div_add, Z.mod_add by lia. do 4 f_equal. lia.
Qed.

(** ** Loading the kernel *)

Lemma image_byte k : is_byte (image dk k).
Proof.
  unfold image. pose proof (sector_is_bytes (k / 512 + 1)) as Hb. pose proof (length_sector (k / 512 + 1)) as Hl. unfold sector_bytes in Hb, Hl.
  pose proof (Z.mod_pos_bound k 512 eq_refl). destruct (lookup_lt_is_Some_2 (default (replicate 512 0) (dk !! (0, k / 512 + 1))) (Z.to_nat (k mod 512))) as [b Hk]; [rewrite Hl; lia|].
  rewrite (list_lookup_total_correct _ _ _ Hk). by eapply Forall_lookup_1 in Hk.
Qed.

(** The headers, as they are in the file. *)
Definition phnum : Z := elf_phnum (image dk) 0.
Definition phdr (i : Z) : Z := elf_phoff (image dk) 0 + 32 * i.
Definition seg_off (i : Z) : Z := ph_off (image dk) (phdr i).
Definition seg_pa (i : Z) : Z := ph_paddr (image dk) (phdr i).
Definition seg_filesz (i : Z) : Z := ph_filesz (image dk) (phdr i).
Definition seg_memsz (i : Z) : Z := ph_memsz (image dk) (phdr i).
Definition seg_end (i : Z) : Z := seg_pa i + Z.max (seg_filesz i) (seg_memsz i).
(** The bytes that loading a segment may write. *)
Definition seg_low (i : Z) : Z := seg_pa i - seg_off i mod 512.
Definition seg_high (i : Z) : Z := Z.max (seg_end i) (seg_pa i + seg_filesz i + 511).

(** A kernel file that can be loaded: its headers are in the first page, the segments with the rest of their first and last
    sectors are in the address space and do not touch the page the headers are read to, and the segments are in increasing
    order, with room for the sector that a segment starts in.  They need not be aligned to sectors. *)
Record loadable : Prop := {
  lo_magic : elf_magic (image dk) 0 = ELF_MAGIC;
  lo_headers : phdr phnum ≤ 4096;
  lo_fits : ∀ i, 0 ≤ i < phnum → 0 ≤ seg_low i ∧ seg_high i < 4294967296;
  lo_scratch : ∀ i, 0 ≤ i < phnum → seg_high i ≤ elf_scratch ∨ elf_scratch + 4096 ≤ seg_low i;
  lo_order : ∀ i j, 0 ≤ i < j → j < phnum → seg_end i ≤ seg_low j
}.

(** Segment [i] is in memory. *)
Definition loaded (m : mem) (i : Z) : Prop :=
  (∀ k, 0 ≤ k < seg_filesz i → m (seg_pa i + k) = image dk (seg_off i + k)) ∧ (∀ k, seg_filesz i ≤ k < seg_memsz i → m (seg_pa i + k) = 0).

(** The first page of the file is at the scratch address. *)
Definition headers_at (m : mem) : Prop := ∀ k, 0 ≤ k < 4096 → m (elf_scratch + k) = image dk k.

Lemma headers_load32 m k : headers_at m → 0 ≤ k → k + 4 ≤ 4096 → load32 m (elf_scratch + k) = load32 (image dk) k.
Proof. intros Hm Hk Hk4. unfold load32. rewrite <- !Z.add_assoc. by rewrite !Hm by lia. Qed.

Lemma seg_range i : is_u32 (seg_off i) ∧ is_u32 (seg_pa i) ∧ is_u32 (seg_filesz i) ∧ is_u32 (seg_memsz i).
Proof. split_and!; apply load32_range, image_byte. Qed.

Lemma phdr_nonneg i : 0 ≤ i → 0 ≤ phdr i.
Proof. intros Hi. assert (is_u32 (elf_phoff (image dk) 0)) as [? _] by (apply load32_range, image_byte). unfold phdr. lia. Qed.

(** One segment. *)
Lemma load_segment_run (s : loader D) e i :
  loadable → 0 ≤ i < phnum → disk_ready s → headers_at s.(ld_mem) →
  ∃ s', disk_ready s' ∧ headers_at s'.(ld_mem) ∧ loaded s'.(ld_mem) i ∧ (∀ x, x < seg_low i ∨ seg_high i ≤ x → s'.(ld_mem) x = s.(ld_mem) x) ∧
    ∀ n eph, elf_scratch + phdr i < eph → load_segments fuel (S n) (elf_scratch + phdr i) eph s e = load_segments fuel n (elf_scratch + phdr (i + 1)) eph s' e.
Proof.
  intros L Hi Hd Hh. pose proof (phdr_nonneg i ltac:(lia)) as Hp0. destruct (seg_range i) as (Ro & Rp & Rf & Rm). unfold is_u32 in *.
  assert (phdr i + 32 ≤ 4096) as Hpi by (pose proof (lo_headers L); unfold phdr in *; lia).
  pose proof (Z.mod_pos_bound (seg_off i) 512 eq_refl) as Hmod.
  assert (∀ m, headers_at m → ph_paddr m (elf_scratch + phdr i) = seg_pa i ∧ ph_filesz m (elf_scratch + phdr i) = seg_filesz i ∧
    ph_off m (elf_scratch + phdr i) = seg_off i ∧ ph_memsz m (elf_scratch + phdr i) = seg_memsz i) as Hf.
  { intros m Hm. unfold ph_paddr, ph_filesz, ph_off, ph_memsz. rewrite <- !Z.add_assoc. rewrite !headers_load32 by (done || lia). done. }
  destruct (Hf _ Hh) as (F1 & F2 & F3 & F4).
  pose proof (lo_fits L i Hi) as [Hfit1 Hfit2]. unfold seg_low, seg_high, seg_end in Hfit1, Hfit2.
  destruct (readseg_run s e (seg_pa i) (seg_filesz i) (seg_off i) Hd ltac:(lia) Ro ltac:(lia) ltac:(lia)) as (s1 & R1 & D1 & M1 & O1).
  assert (headers_at s1.(ld_mem)) as Hh1.
  { intros k Hk. rewrite O1; [by apply Hh|]. pose proof (lo_scratch L i Hi). unfold seg_high, seg_low in *. lia. }
  destruct (Hf _ Hh1) as (_ & F2' & _ & F4').
  set (s2 := if seg_filesz i <? seg_memsz i then set_ld_mem (stosb (seg_pa i + seg_filesz i) 0 (seg_memsz i - seg_filesz i) s1.(ld_mem)) s1 else s1).
  assert (∀ x, x < seg_pa i + seg_filesz i ∨ seg_end i ≤ x → s2.(ld_mem) x = s1.(ld_mem) x) as O2.
  { intros x Hx. unfold s2. destruct (Z.ltb_spec (seg_filesz i) (seg_memsz i)); [|done]. unfold set_ld_mem, ld_mem. rewrite stosb_eq by lia. apply fill_out. unfold seg_end in Hx. lia. }
  exists s2. split; [unfold s2; by destruct (_ <? _)|]. split; [|split; [|split]].
  - intros k Hk. rewrite O2; [by apply Hh1|]. pose proof (lo_scratch L i Hi). unfold seg_high, seg_low in *. lia.
  - split; [intros k Hk; rewrite O2 by lia; by apply M1|]. intros k Hk. unfold s2. rewrite (proj2 (Z.ltb_lt _ _)) by lia. simpl. rewrite stosb_eq, fill_in by lia. done.
  - intros x Hx. unfold seg_high, seg_low in Hx. rewrite O2 by lia. apply O1. lia.
  - intros n eph Heph. cbn [load_segments]. rewrite (proj2 (Z.ltb_lt _ _) Heph). cbn [negb]. rewrite bind_gets, F1, F2, F3. mstep R1. rewrite bind_gets, F2', F4'.
    replace (elf_scratch + phdr i + sizeof_proghdr) with (elf_scratch + phdr (i + 1)) by (unfold phdr, sizeof_proghdr; lia).
    rewrite (u32_id (elf_scratch + _)) by (unfold is_u32, elf_scratch; unfold phdr in *; lia). rewrite (u32_id (seg_pa i + _)) by (unfold is_u32; lia).
    unfold s2. destruct (_ <? _); [by rewrite bind_modify|by rewrite bind_ret_l].
Qed.

Lemma load_segments_run n : ∀ (s : loader D) e i,
  loadable → 0 ≤ i → i + Z.of_nat n = phnum → disk_ready s → headers_at s.(ld_mem) → (∀ j, 0 ≤ j < i → loaded s.(ld_mem) j) →
  ∃ s', load_segments fuel (S n) (elf_scratch + phdr i) (elf_scratch + phdr phnum) s e = Ret tt s' e ∧ disk_ready s' ∧ headers_at s'.(ld_mem) ∧
    (∀ j, 0 ≤ j < phnum → loaded s'.(ld_mem) j) ∧
    ∀ x, (∀ j, i ≤ j < phnum → x < seg_low j ∨ seg_high j ≤ x) → s'.(ld_mem) x = s.(ld_mem) x.
Proof.
  induction n as [|n IH]; intros s e i L Hi Hn Hd Hh Hl.
  - replace i with phnum in * by lia. exists s. cbn [load_segments]. rewrite Z.ltb_irrefl. done.
  - destruct (load_segment_run s e i L ltac:(lia) Hd Hh) as (s1 & D1 & H1 & L1 & O1 & Hr).
    destruct (IH s1 e (i + 1) L ltac:(lia) ltac:(lia) D1 H1) as (s' & R' & D' & H' & L' & O').
    + intros j Hj. destruct (decide (j = i)) as [->|Hne]; [done|]. destruct (Hl j ltac:(lia)) as [A B]. pose proof (lo_order L j i ltac:(lia) ltac:(lia)) as Ho. unfold seg_end in Ho.
      split; intros k Hk; rewrite O1 by (destruct (seg_range j) as (_ & _ & [? _] & _); lia); [by apply A|by apply B].
    + exists s'. split; [rewrite Hr; [exact R'|unfold phdr; lia]|]. do 3 (split; [done|]). intros x Hx. rewrite O' by (intros j Hj; apply Hx; lia). apply O1, Hx. lia.
Qed.

(** C28: for a kernel file that can be loaded, [bootmain] returns the entry point of the file, and every program segment is
    in memory at its physical address, whether or not it is aligned to sectors: the bytes of the file, and zeroes up to its
    size in memory.  The loader reads whole sectors: it may also change the up to 511 bytes before and after a segment
    that share a sector with it, and the scratch page with the 511 bytes after it; all other memory is as it was. *)
Theorem bootmain_correct (s : loader D) e :
  loadable → disk_ready s →
  ∃ s', bootmain fuel s e = Ret (Some (elf_entry (image dk) 0)) s' e ∧ (∀ i, 0 ≤ i < phnum → loaded s'.(ld_mem) i) ∧
    ∀ x, (∀ i, 0 ≤ i < phnum → x < seg_low i ∨ seg_high i ≤ x) → x < elf_scratch ∨ elf_scratch + 4607 ≤ x → s'.(ld_mem) x = s.(ld_mem) x.
Proof.
  intros L Hd. unfold bootmain. destruct (readseg_run s e elf_scratch 4096 0 Hd ltac:(lia) ltac:(lia) ltac:(done) ltac:(done)) as (s1 & R1 & D1 & M1 & O1). mstep R1. rewrite bind_gets.
  assert (headers_at s1.(ld_mem)) as Hh by (intros k Hk; by apply (M1 k)).
  assert (∀ m, headers_at m → elf_magic m elf_scratch = ELF_MAGIC ∧ elf_phoff m elf_scratch = elf_phoff (image dk) 0 ∧ elf_phnum m elf_scratch = phnum ∧
    elf_entry m elf_scratch = elf_entry (image dk) 0) as Hf.
  { intros m Hm. unfold elf_magic, elf_phoff, elf_entry, elf_phnum, phnum. rewrite <- (lo_magic L). unfold elf_magic. rewrite <- (Z.add_0_r elf_scratch) at 1.
    rewrite !headers_load32 by (done || lia). split; [done|]. split; [done|]. split; [|done]. unfold elf_phnum, load_bytes. simpl. unfold elf_scratch in *. rewrite <- !Z.add_assoc. rewrite !Hm by lia. done. }
  destruct (Hf _ Hh) as (F1 & F2 & F3 & F4). rewrite F1, Z.eqb_refl. cbn [negb]. rewrite F2, F3. cbv zeta.
  assert (0 ≤ phnum) as Hn.
  { unfold phnum, elf_phnum. pose proof (le_val_range (load_bytes (image dk) (0 + 44) 2)) as Hr. apply Hr. unfold load_bytes. apply Forall_fmap, Forall_forall. intros k _. apply image_byte. }
  pose proof (lo_headers L) as Hph. pose proof (phdr_nonneg 0 ltac:(lia)) as Hp0. assert (phdr 0 ≤ phdr phnum) as Hpp by (unfold phdr; lia).
  replace (elf_scratch + elf_phoff (image dk) 0) with (elf_scratch + phdr 0) by (unfold phdr; lia). rewrite (u32_id (elf_scratch + phdr 0)) by (unfold is_u32, elf_scratch; lia).
  replace (elf_scratch + phdr 0 + sizeof_proghdr * phnum) with (elf_scratch + phdr phnum) by (unfold phdr, sizeof_proghdr; lia). rewrite (u32_id (elf_scratch + phdr phnum)) by (unfold is_u32, elf_scratch; lia).
  destruct (load_segments_run (Z.to_nat phnum) s1 e 0 L ltac:(lia) ltac:(lia) D1 Hh) as (s' & R' & D' & H' & L' & O'); [intros j Hj; lia|].
  mstep R'. rewrite bind_gets. destruct (Hf _ H') as (_ & _ & _ & F5). rewrite F5. exists s'. split; [done|]. split; [done|].
  intros x Hx Hs. rewrite O' by done. apply O1. rewrite Zmod_0_l. lia.
Qed.
End runs.

(** ** An example: a file with one segment of 100 bytes, 600 in memory *)

Definition demo_header : list Z :=
  le_bytes 4 ELF_MAGIC ++ replicate 20 0 ++ le_bytes 4 1048588 ++ le_bytes 4 52 ++ replicate 12 0 ++ le_bytes 2 1 ++ replicate 6 0 ++
  le_bytes 4 1 ++ le_bytes 4 4096 ++ le_bytes 4 2148532224 ++ le_bytes 4 1048576 ++ le_bytes 4 100 ++ le_bytes 4 600 ++ replicate 8 0 ++ replicate 428 0.
Definition demo_kernel : gmap (Z * Z) (list Z) := {[(0, 1) := demo_header; (0, 9) := replicate 512 144]}.
Definition demo_loader : loader ata := Mkloader (λ _, 7) (Mkmachine (Mkata (λ _, 0) demo_kernel 0 [] None 0) 0 0 0 1 [] 0 0 false 0 []).

Lemma bootmain_correct_witness : ∃ s', bootmain 10 demo_loader [] = Ret (Some 1048588) s' [] ∧
  s'.(ld_mem) 1048675 = 144 ∧ s'.(ld_mem) 1048676 = 0 ∧ s'.(ld_mem) 1049175 = 0 ∧ s'.(ld_mem) 1049187 = 7.
Proof.
  assert (∀ k, (at_delay (D := ata) k < 10)%nat) as Hfuel by (intros k; simpl; lia).
  assert (∀ k l, demo_kernel !! k = Some l → length l = 512%nat ∧ Forall is_byte l) as Hdk.
  { intros k l. unfold demo_kernel. intros [[<- <-]|[_ [<- <-]%lookup_singleton_Some]]%lookup_insert_Some.
    - split; [done|]. unfold demo_header. repeat (apply Forall_app; split); (apply le_bytes_bytes || by apply Forall_replicate).
    - split; [done|]. by apply Forall_replicate. }
  assert (phnum demo_kernel = 1) as Hn by (vm_compute; reflexivity).
  assert (seg_pa demo_kernel 0 = 1048576 ∧ seg_filesz demo_kernel 0 = 100 ∧ seg_memsz demo_kernel 0 = 600 ∧ seg_off demo_kernel 0 = 4096) as (P1 & P2 & P3 & P4) by (vm_compute; done).
  assert (seg_low demo_kernel 0 = 1048576 ∧ seg_high demo_kernel 0 = 1049187) as (P5 & P6) by (vm_compute; done).
  destruct (bootmain_correct 10 demo_kernel Hfuel Hdk demo_loader []) as (s' & Hr & Hl & Ho).
  - split; [vm_compute; reflexivity|vm_compute; discriminate| | |].
    + intros i Hi. rewrite Hn in Hi. replace i with 0 by lia. rewrite P5, P6. lia.
    + intros i Hi. rewrite Hn in Hi. replace i with 0 by lia. right. rewrite P5. vm_compute. discriminate.
    + intros i j Hi Hj. rewrite Hn in Hj. lia.
  - split; [simpl; lia|done].
  - exists s'. split; [rewrite Hr; do 2 f_equal; vm_compute; reflexivity|]. destruct (Hl 0 ltac:(rewrite Hn; lia)) as [A B]. rewrite P1, P2, P3, P4 in *.
    split; [change 1048675 with (1048576 + 99); rewrite (A 99) by lia; vm_compute; reflexivity|]. split; [by apply (B 100); lia|]. split; [by apply (B 599); lia|].
    rewrite Ho; [done| |right; vm_compute; discriminate]. intros i Hi. rewrite Hn in Hi. replace i with 0 by lia. rewrite P6. lia.
Defined.
