(* ===== verification/Log.v ===== *)
(** * The redo log (log.c) *)

From S2P Require Import Prelude KState Spinlock Print Mem Args Proc Sleeplock Bio.
#[local] Open Scope kernel_scope.

(** ** Structures in a block *)

(** The [k]-th little-endian word of a block. *)
Definition word (d : list Z) (k : nat) : Z := le_val (slice (4 * k) 4 d).

Definition set_word (k : nat) (v : Z) (d : list Z) : list Z := splice (4 * k) (le_bytes 4 v) d.

(** The superblock in block 1. *)
Definition decode_sb (d : list Z) : superblock :=
  {| sb_size := word d 0; sb_nblocks := word d 1; sb_ninodes := word d 2; sb_nlog := word d 3;
     sb_logstart := word d 4; sb_inodestart := word d 5; sb_bmapstart := word d 6 |}.

(** [readsb] of fs.c; the superblock it copies out. *)
Definition readsb (dev : Z) : K superblock :=
  bp <- bread dev 1;;
  b <- getb bp;;
  brelse bp;;
  ret (decode_sb b.(b_data)).

(** ** The log *)

Definition getlog : K logstate := gets (λ s, s.(k_fs).(fs_log)).
Definition modlog (g : logstate → logstate) : K unit := modify (on_fs (λ f, set_fs_log (g f.(fs_log)) f)).

Definition set_n (n : Z) (l : logstate) : logstate := set_lg_lh (set_lh_n n l.(lg_lh)) l.
Definition set_block (i : nat) (bno : Z) (l : logstate) : logstate :=
  set_lg_lh (set_lh_block (<[i := bno]> l.(lg_lh).(lh_block)) l.(lg_lh)) l.

(** [log.lh.block[i]]; [LOGSIZE] entries. *)
Definition log_block (l : logstate) (i : nat) : K Z := deref (l.(lg_lh).(lh_block) !! i).

(** The indices of a loop [for(tail = 0; tail < n; tail++)]. *)
Definition upto (n : Z) : list nat := seq 0 (Z.to_nat n).

(** Copy the data of buffer [src] to buffer [dst]. *)
Definition copybuf (dst src : nat) : K unit := b <- getb src;; modb dst (set_b_data b.(b_data)).

Definition install_trans : K unit :=
  l <- getlog;;
  for_each (upto l.(lg_lh).(lh_n)) (λ tail,
    lbuf <- bread l.(lg_dev) (l.(lg_start) + Z.of_nat tail + 1);;
    bno <- log_block l tail;;
    dbuf <- bread l.(lg_dev) bno;;
    copybuf dbuf lbuf;;
    bwrite dbuf;;
    brelse lbuf;;
    brelse dbuf).

(** The header's block numbers, one by one, from the words of the block. *)
Definition read_head : K unit :=
  l <- getlog;;
  buf <- bread l.(lg_dev) l.(lg_start);;
  b <- getb buf;;
  let n := s32 (word b.(b_data) 0) in
  modlog (set_n n);;
  for_each (upto n) (λ i,
    l <- getlog;;
    log_block l i;;
    modlog (set_block i (s32 (word b.(b_data) (S i)))));;
  brelse buf.

Definition write_head : K unit :=
  l <- getlog;;
  buf <- bread l.(lg_dev) l.(lg_start);;
  modb buf (λ b, set_b_data (set_word 0 l.(lg_lh).(lh_n) b.(b_data)) b);;
  for_each (upto l.(lg_lh).(lh_n)) (λ i,
    bno <- log_block l i;;
    modb buf (λ b, set_b_data (set_word (S i) bno b.(b_data)) b));;
  bwrite buf;;
  brelse buf.

Definition recover_from_log : K unit :=
  read_head;;
  install_trans;;
  modlog (set_n 0);;
  write_head.

(** [sizeof(struct logheader)] is 4 + 4 * LOGSIZE = 124. *)
Definition initlog (dev : Z) : K unit :=
  if BSIZE <=? 4 + 4 * LOGSIZE then panic "initlog: too big logheader" else
  initlock Llog;;
  sb <- readsb dev;;
  modlog (λ l, set_lg_dev dev (set_lg_size sb.(sb_nlog) (set_lg_start sb.(sb_logstart) l)));;
  recover_from_log.

(** The wait of [begin_op]: sleep while a commit runs or while this operation
    might not fit. *)
Definition log_busy (l : logstate) : bool :=
  truthy l.(lg_committing) || (LOGSIZE <? l.(lg_lh).(lh_n) + (l.(lg_outstanding) + 1) * MAXOPBLOCKS).

Definition begin_op : K unit :=
  acquire Llog;;
  while_sleep (l <- getlog;; ret (log_busy l))
    (sleep ChLog Llog;; ret (None : option unit));;
  modlog (λ l, set_lg_outstanding (l.(lg_outstanding) + 1) l);;
  release Llog.

Definition write_log : K unit :=
  l <- getlog;;
  for_each (upto l.(lg_lh).(lh_n)) (λ tail,
    to <- bread l.(lg_dev) (l.(lg_start) + Z.of_nat tail + 1);;
    bno <- log_block l tail;;
    from <- bread l.(lg_dev) bno;;
    copybuf to from;;
    bwrite to;;
    brelse from;;
    brelse to).

Definition commit : K unit :=
  l <- getlog;;
  if 0 <? l.(lg_lh).(lh_n) then
    write_log;;
    write_head;;
    install_trans;;
    modlog (set_n 0);;
    write_head
  else ret tt.

Definition end_op : K unit :=
  acquire Llog;;
  modlog (λ l, set_lg_outstanding (l.(lg_outstanding) - 1) l);;
  l <- getlog;;
  if truthy l.(lg_committing) then panic "log.committing" else
  let do_commit := l.(lg_outstanding) =? 0 in
  (if do_commit then modlog (set_lg_committing 1) else wakeup ChLog);;
  release Llog;;
  if do_commit then
    commit;;
    acquire Llog;;
    modlog (set_lg_committing 0);;
    wakeup ChLog;;
    release Llog
  else ret tt.

(** The index of [bno] among the logged blocks, or [n]. *)
Definition log_slot (l : logstate) (bno : Z) : nat :=
  match list_find (λ b, b = bno) (take (Z.to_nat l.(lg_lh).(lh_n)) l.(lg_lh).(lh_block)) with
  | Some (i, _) => i
  | None => Z.to_nat l.(lg_lh).(lh_n)
  end.

Definition log_write (i : nat) : K unit :=
  l <- getlog;;
  if (LOGSIZE <=? l.(lg_lh).(lh_n)) || (l.(lg_size) - 1 <=? l.(lg_lh).(lh_n)) then panic "too big a transaction" else
  if l.(lg_outstanding) <? 1 then panic "log_write outside of trans" else
  acquire Llog;;
  l <- getlog;;
  b <- getb i;;
  let k := log_slot l b.(b_blockno) in
  modlog (set_block k b.(b_blockno));;
  (if Z.of_nat k =? l.(lg_lh).(lh_n) then modlog (set_n (l.(lg_lh).(lh_n) + 1)) else ret tt);;
  modb i (λ b, set_b_flags (Z.lor b.(b_flags) B_DIRTY) b);;
  release Llog.

(** ** Copying a block through the cache *)

(** The parts of the file system the cache does not touch. *)
Definition fs_frame (f f' : fsstate) : Prop :=
  f'.(fs_log) = f.(fs_log) ∧ f'.(fs_sb) = f.(fs_sb) ∧ f'.(fs_inodes) = f.(fs_inodes) ∧
  f'.(fs_files) = f.(fs_files) ∧ f'.(fs_devsw) = f.(fs_devsw).

Lemma fs_frame_trans f f' f'' : fs_frame f f' → fs_frame f' f'' → fs_frame f f''.
Proof. intros (? & ? & ? & ? & ?) (? & ? & ? & ? & ?). split_and!; congruence. Qed.

Lemma quiet_frame f f' : fs_quiet f f' → fs_frame f f' ∧ f'.(fs_disk) = f.(fs_disk) ∧ f'.(fs_writes) = f.(fs_writes).
Proof. intros ->. done. Qed.

Definition in_disk (f : fsstate) (n : Z) : Prop := 0 ≤ n < Z.of_nat (length f.(fs_disk)).

(** [f'] is [f] after [d] has been written to block [b] of the disk. *)
Record written (b : Z) (d : list Z) (f f' : fsstate) : Prop := {
  wr_frame : fs_frame f f';
  wr_disk : f'.(fs_disk) = <[Z.to_nat b := d]> f.(fs_disk);
  wr_writes : f'.(fs_writes) = f.(fs_writes) ++ [(b, d)];
  wr_view : ∀ m, 0 ≤ m → content f' m = if decide (m = b) then d else content f m;
  wr_pinned : ∀ m, pinned f' m ↔ pinned f m ∧ m ≠ b
}.

(** A copy of block [a] to block [b]. *)
Definition copied (a b : Z) (f f' : fsstate) : Prop := written b (content f a) f f'.

Lemma settled_frame f f' i n :
  settled f i → buf_of f i n → f'.(fs_bufs) !! i = f.(fs_bufs) !! i →
  f'.(fs_disk) !! Z.to_nat n = f.(fs_disk) !! Z.to_nat n → settled f' i.
Proof.
  intros Hs (b & Hb & _ & _ & Hn) Hbs Hd c Hc Hc2. rewrite Hbs in Hc. simplify_eq. rewrite Hd. by apply Hs.
Qed.

Lemma buf_of_frame f f' i n : buf_of f i n → f'.(fs_bufs) !! i = f.(fs_bufs) !! i → buf_of f' i n.
Proof. intros (b & Hb & ?) Hbs. exists b. by rewrite Hbs. Qed.

Lemma buf_of_lt H s i n : cache_ok H s → buf_of s.(k_fs) i n → (i < NBUF)%nat.
Proof. intros Hok (b & Hb & _). apply lookup_lt_Some in Hb. by rewrite (ok_len _ _ Hok) in Hb. Qed.

Lemma pinned_buf H s n : cache_ok H s → pinned s.(k_fs) n → ∃ i, buf_of s.(k_fs) i n.
Proof.
  intros Hok (i & b & Hb & H6 & Hn). exists i, b. destruct (ok_buf _ _ Hok _ _ Hb) as (_ & Hv & _).
  split_and!; [done|lia|by apply Hv; lia|done].
Qed.

Lemma buf_of_inj f i n m : buf_of f i n → buf_of f i m → n = m.
Proof. intros (b & Hb & _ & _ & ?) (c & Hc & _ & _ & ?). congruence. Qed.

(** The two reads at the start of a copy. *)
Lemma two_breads p q P s e :
  cache_ok ∅ s → in_disk s.(k_fs) p → in_disk s.(k_fs) q → p ≠ q →
  (∀ m, pinned s.(k_fs) m → m ∈ P) → (length P < NBUF)%nat →
  pinned s.(k_fs) q ∨ (S (length P) < NBUF)%nat →
  ∃ i j s1 s', bread 1 p s e = Ret i s1 e ∧ bread 1 q s1 e = Ret j s' e ∧ i ≠ j ∧
    cache_ok ({[i]} ∪ {[j]}) s' ∧ buf_of s'.(k_fs) i p ∧ buf_of s'.(k_fs) j q ∧
    settled s'.(k_fs) i ∧ settled s'.(k_fs) j ∧ fs_quiet s.(k_fs) s'.(k_fs) ∧ same_view s.(k_fs) s'.(k_fs).
Proof.
  intros Hok Hp Hq Hpq HP Hlen Hroom.
  destruct (bread_spec ∅ p s e Hok Hp) as (i & s1 & Hr1 & _ & Hok1 & Hb1 & Hq1 & [Hv1 Hpin1] & _ & Hset1).
  { set_solver. }
  { right. apply (room_if ∅ s P); [done..|]. rewrite size_empty. lia. }
  pose proof (quiet_frame _ _ Hq1) as (Hfr1 & Hd1 & Hw1).
  destruct (bread_spec ({[i]} ∪ ∅) q s1 e Hok1) as (j & s2 & Hr2 & Hj & Hok2 & Hb2 & Hq2 & [Hv2 Hpin2] & Hh2 & Hset2).
  { unfold in_disk in Hq. by rewrite Hd1. }
  { intros j Hj Hbj. assert (j = i) as -> by set_solver. apply Hpq. by eapply buf_of_inj. }
  { destruct Hroom as [Hpq'|Hl]; [left|right].
    - eapply pinned_buf; [done|]. by apply Hpin1.
    - apply (room_if ({[i]} ∪ ∅) s1 P); [done| |].
      + intros m Hm. by apply HP, Hpin1.
      + rewrite union_empty_r_L, size_singleton. lia. }
  assert (s2.(k_fs).(fs_bufs) !! i = s1.(k_fs).(fs_bufs) !! i) as Hbi by (apply Hh2; set_solver).
  exists i, j, s1, s2. split_and!; try done.
  - set_solver.
  - by replace ({[i]} ∪ {[j]} : gset nat) with ({[j]} ∪ ({[i]} ∪ ∅) : gset nat) by set_solver.
  - by eapply buf_of_frame.
  - eapply settled_frame; [done..|]. by rewrite (proj1 (proj2 (quiet_frame _ _ Hq2))).
  - rewrite Hq1 in Hq2. exact Hq2.
  - split; intros; [by rewrite Hv2, Hv1|by rewrite Hpin2, Hpin1].
Qed.

(** The rest of a copy: buffer [x] holds block [a], buffer [y] block [b]. *)
Lemma copy_block_out x y a b s e :
  cache_ok ({[x]} ∪ {[y]}) s → x ≠ y → a ≠ b → buf_of s.(k_fs) x a → buf_of s.(k_fs) y b →
  settled s.(k_fs) x → in_disk s.(k_fs) a → in_disk s.(k_fs) b →
  ∃ s', (copybuf y x;; bwrite y;; brelse x;; brelse y) s e = Ret tt s' e ∧
        cache_ok ∅ s' ∧ copied a b s.(k_fs) s'.(k_fs).
Proof.
  intros Hok Hxy Hab Hbx Hby Hsx [Ha _] [Hb _]. set (H := {[x]} ∪ {[y]} : gset nat) in *.
  destruct (buf_of_lookup H s x a Hok Hbx) as (bx & Hx & Hxn & Hxd & _).
  destruct (moddata_spec H y b (λ _, content s.(k_fs) a) s e Hok ltac:(set_solver) Hby)
    as (s1 & Hm & Hok1 & Hby1 & Hq1 & Hc1 & Hv1 & Hpin1 & Ho1 & _).
  destruct (quiet_frame _ _ Hq1) as (Hfr1 & Hd1 & Hw1).
  destruct (bwrite_spec H y b s1 e Hok1 ltac:(set_solver) Hby1)
    as (s2 & bufs2 & Hw & Hok2 & Hby2 & Hsy2 & Hfs2 & Hv2 & Hpin2 & Ho2).
  assert (s2.(k_fs).(fs_bufs) !! x = s.(k_fs).(fs_bufs) !! x) as Hx2 by (by rewrite Ho2, Ho1).
  destruct (brelse_spec {[y]} x s2 e Hok2) as (s3 & Hr3 & Hok3 & Hq3 & [Hv3 Hpin3] & Hh3).
  { set_solver. }
  { eapply settled_frame; [done..|]. rewrite Hfs2. simpl. rewrite list_lookup_insert_ne by lia. by rewrite Hd1. }
  { exact (buf_of_lt H s x a Hok Hbx). }
  destruct (quiet_frame _ _ Hq3) as (Hfr3 & Hd3 & Hw3).
  assert (s3.(k_fs).(fs_bufs) !! y = s2.(k_fs).(fs_bufs) !! y) as Hy3 by (apply Hh3; set_solver).
  destruct (brelse_spec ∅ y s3 e) as (s4 & Hr4 & Hok4 & Hq4 & [Hv4 Hpin4] & _).
  { by rewrite union_empty_r_L. }
  { set_solver. }
  { eapply settled_frame; [done..|]. by rewrite Hd3. }
  { exact (buf_of_lt H s y b Hok Hby). }
  destruct (quiet_frame _ _ Hq4) as (Hfr4 & Hd4 & Hw4).
  exists s4. split; [|split; [done|]].
  - unfold copybuf. rewrite bind_assoc. mstep (getb_run s x bx e Hx). rewrite Hxd.
    mstep Hm. mstep Hw. mstep Hr3. exact Hr4.
  - split.
    + eapply fs_frame_trans; [exact Hfr1|]. eapply fs_frame_trans; [|eapply fs_frame_trans; [exact Hfr3|exact Hfr4]].
      by rewrite Hfs2.
    + rewrite Hd4, Hd3, Hfs2. simpl. by rewrite Hd1, Hc1.
    + rewrite Hw4, Hw3, Hfs2. simpl. by rewrite Hw1, Hc1.
    + intros m Hm0. rewrite Hv4, Hv3, Hv2 by done. case_decide as Hmb; [by subst|by apply Hv1].
    + intros m. rewrite Hpin4, Hpin3, Hpin2. by rewrite Hpin1.
Qed.

Lemma written_quiet b d f f1 f' :
  fs_quiet f f1 → same_view f f1 → written b d f1 f' → written b d f f'.
Proof.
  intros Hq [Hv Hpin] [Hfr Hcd Hcw Hcv Hcp]. destruct (quiet_frame _ _ Hq) as (Hfr1 & Hd & Hw). split.
  - by eapply fs_frame_trans.
  - by rewrite Hcd, Hd.
  - by rewrite Hcw, Hw.
  - intros k Hk. rewrite Hcv by done. by rewrite Hv.
  - intros k. by rewrite Hcp, Hpin.
Qed.

(** A copy from [a] to [b], whichever block is read first. *)
Lemma copy_forward a b P (m : K unit) s e :
  cache_ok ∅ s → in_disk s.(k_fs) a → in_disk s.(k_fs) b → a ≠ b →
  (∀ k, pinned s.(k_fs) k → k ∈ P) → (length P < NBUF)%nat →
  pinned s.(k_fs) b ∨ (S (length P) < NBUF)%nat →
  (∀ x y s1 s2 e, bread 1 a s e = Ret x s1 e → bread 1 b s1 e = Ret y s2 e →
     m s e = (copybuf y x;; bwrite y;; brelse x;; brelse y) s2 e) →
  ∃ s', m s e = Ret tt s' e ∧ cache_ok ∅ s' ∧ copied a b s.(k_fs) s'.(k_fs).
Proof.
  intros Hok Ha Hb Hab HP Hlen Hroom Hm.
  destruct (two_breads a b P s e) as (x & y & s1 & s2 & Hr1 & Hr2 & Hxy & Hok2 & Hbx & Hby & Hsx & _ & Hq & Hv); try done.
  rewrite (Hm x y s1 s2 e Hr1 Hr2). destruct (quiet_frame _ _ Hq) as (Hfr & Hd & Hw). unfold in_disk in *.
  destruct (copy_block_out x y a b s2 e) as (s' & Hrun & Hok' & Hcp); try done; unfold in_disk; rewrite ?Hd; try done.
  exists s'. split_and!; [done..|]. unfold copied in *. rewrite (proj1 Hv) in Hcp by lia. by eapply written_quiet.
Qed.

Lemma copy_backward a b P (m : K unit) s e :
  cache_ok ∅ s → in_disk s.(k_fs) a → in_disk s.(k_fs) b → a ≠ b →
  (∀ k, pinned s.(k_fs) k → k ∈ P) → (length P < NBUF)%nat →
  pinned s.(k_fs) a ∨ (S (length P) < NBUF)%nat →
  (∀ x y s1 s2 e, bread 1 b s e = Ret y s1 e → bread 1 a s1 e = Ret x s2 e →
     m s e = (copybuf y x;; bwrite y;; brelse x;; brelse y) s2 e) →
  ∃ s', m s e = Ret tt s' e ∧ cache_ok ∅ s' ∧ copied a b s.(k_fs) s'.(k_fs).
Proof.
  intros Hok Ha Hb Hab HP Hlen Hroom Hm.
  destruct (two_breads b a P s e) as (y & x & s1 & s2 & Hr1 & Hr2 & Hxy & Hok2 & Hby & Hbx & _ & Hsx & Hq & Hv); try done.
  rewrite (Hm x y s1 s2 e Hr1 Hr2). destruct (quiet_frame _ _ Hq) as (Hfr & Hd & Hw). unfold in_disk in *.
  rewrite union_comm_L in Hok2.
  destruct (copy_block_out x y a b s2 e) as (s' & Hrun & Hok' & Hcp); try done; unfold in_disk; rewrite ?Hd; try done.
  exists s'. split_and!; [done..|]. unfold copied in *. rewrite (proj1 Hv) in Hcp by lia. by eapply written_quiet.
Qed.

(** ** Sequences of copies *)

(** The disk after a sequence of writes. *)
Definition disk_after (d : list (list Z)) (ws : list (Z * list Z)) : list (list Z) :=
  foldl (λ d w, <[Z.to_nat (fst w) := snd w]> d) d ws.

Lemma disk_after_app d ws ws' : disk_after d (ws ++ ws') = disk_after (disk_after d ws) ws'.
Proof. apply foldl_app. Qed.

Lemma length_disk_after d ws : length (disk_after d ws) = length d.
Proof.
  revert d. induction ws as [|w ws IH]; intros d; [done|]. simpl. by rewrite IH, length_insert.
Qed.

Lemma disk_after_out d ws n :
  0 ≤ n → (∀ w, w ∈ ws → 0 ≤ fst w ∧ fst w ≠ n) → disk_after d ws !! Z.to_nat n = d !! Z.to_nat n.
Proof.
  intros Hn. revert d. induction ws as [|w ws IH]; intros d Hw; [done|]. simpl.
  rewrite IH by (intros w' ?; apply Hw; by right). destruct (Hw w) as [? ?]; [by left|].
  rewrite list_lookup_insert_ne; [done|lia].
Qed.

Section copies.
Context (A B : nat → Z) (body : nat → K unit) (k : nat) (s : kstate) (e : list (kstate → kstate)).
Hypothesis Hok : cache_ok ∅ s.

(** The writes of the copies [A i] to [B i], and the blocks written. *)
Definition copy_writes (f : fsstate) (j : nat) : list (Z * list Z) :=
  (λ i, (B i, content f (A i))) <$> seq k j.
Definition targets (j : nat) : list Z := B <$> seq k j.

Record copies (j : nat) (s' : kstate) : Prop := {
  cs_ok : cache_ok ∅ s';
  cs_frame : fs_frame s.(k_fs) s'.(k_fs);
  cs_pinned : ∀ m, pinned s'.(k_fs) m ↔ pinned s.(k_fs) m ∧ m ∉ targets j;
  cs_writes : s'.(k_fs).(fs_writes) = s.(k_fs).(fs_writes) ++ copy_writes s.(k_fs) j;
  cs_disk : s'.(k_fs).(fs_disk) = disk_after s.(k_fs).(fs_disk) (copy_writes s.(k_fs) j);
  cs_in : ∀ i, (k ≤ i < k + j)%nat → content s'.(k_fs) (B i) = content s.(k_fs) (A i);
  cs_out : ∀ m, 0 ≤ m → m ∉ targets j → content s'.(k_fs) m = content s.(k_fs) m
}.

Lemma copies_run j :
  (∀ i, (k ≤ i < k + j)%nat → 0 ≤ A i ∧ 0 ≤ B i) →
  (∀ i i', (k ≤ i < k + j)%nat → (k ≤ i' < k + j)%nat → A i ≠ B i' ∧ (B i = B i' → i = i')) →
  (∀ i s1, (k ≤ i < k + j)%nat → copies (i - k) s1 →
     ∃ s2, body i s1 e = Ret tt s2 e ∧ cache_ok ∅ s2 ∧ copied (A i) (B i) s1.(k_fs) s2.(k_fs)) →
  ∃ s', for_each (seq k j) body s e = Ret tt s' e ∧ copies j s'.
Proof.
  induction j as [|j IH]; intros Hpos Hdis Hbody.
  { exists s. split; [done|]. unfold copy_writes, targets. split; simpl; try done.
    - intros m. split; [|naive_solver]. split; [done|apply not_elem_of_nil].
    - by rewrite app_nil_r.
    - intros i ?. lia. }
  destruct IH as (s1 & Hrun & [Hok1 Hfr1 Hpin1 Hw1 Hd1 Hin1 Hout1]).
  { intros i ?. apply Hpos. lia. }
  { intros i i' ? ?. apply Hdis; lia. }
  { intros i s1 Hi Hs1. apply Hbody; [lia|done]. }
  destruct (Hbody (k + j)%nat s1) as (s2 & Hrun2 & Hok2 & [Hfr2 Hd2 Hw2 Hv2 Hpin2]); [lia| |].
  { by replace (k + j - k)%nat with j by lia. }
  destruct (Hpos (k + j)%nat) as [HA HB]; [lia|].
  assert (A (k + j)%nat ∉ targets j) as HAt.
  { intros (i & Hi & Hin)%list_elem_of_fmap. apply elem_of_seq in Hin.
    by destruct (Hdis (k + j)%nat i) as [? _]; [lia..|]. }
  rewrite (Hout1 _ HA HAt) in Hd2, Hw2. exists s2. split.
  { rewrite seq_S, for_each_app. rewrite (bind_run _ _ _ _ _ _ _ Hrun). simpl. by mstep Hrun2. }
  assert (targets (S j) = targets j ++ [B (k + j)%nat]) as Htg by (unfold targets; by rewrite seq_S, fmap_app).
  assert (copy_writes s.(k_fs) (S j) = copy_writes s.(k_fs) j ++ [(B (k + j)%nat, content s.(k_fs) (A (k + j)%nat))]) as Hcw
    by (unfold copy_writes; by rewrite seq_S, fmap_app).
  split; [done|by eapply fs_frame_trans|..].
  - intros m. rewrite Hpin2, Hpin1, Htg, elem_of_app, list_elem_of_singleton. tauto.
  - by rewrite Hw2, Hw1, Hcw, (assoc_L _).
  - by rewrite Hd2, Hd1, Hcw, disk_after_app.
  - intros i Hi. destruct (Hpos i) as [_ HBi]; [lia|]. rewrite Hv2 by done. case_decide as HBB.
    + apply (Hdis i (k + j)%nat) in HBB as ->; [|lia..]. by apply Hout1.
    + apply Hin1. assert (i ≠ k + j)%nat by (intros ->; done). lia.
  - intros m Hm. rewrite Htg, elem_of_app, list_elem_of_singleton. intros Hnot.
    rewrite Hv2, decide_False by (done || tauto). apply Hout1; tauto.
Qed.

End copies.

(** ** The phases of a commit *)

(** The blocks of the transaction, and the place of each in the log. *)
Definition logged (l : logstate) : list Z := take (Z.to_nat l.(lg_lh).(lh_n)) l.(lg_lh).(lh_block).
Definition log_at (l : logstate) (i : nat) : Z := l.(lg_start) + Z.of_nat i + 1.
Definition bno (l : logstate) (i : nat) : Z := l.(lg_lh).(lh_block) !!! i.

Definition in_log (l : logstate) (m : Z) : Prop := l.(lg_start) ≤ m < l.(lg_start) + l.(lg_size).

(** A transaction that fits the log and the cache, on a disk of [size] blocks. *)
Record log_wf (l : logstate) (size : nat) : Prop := {
  lw_dev : l.(lg_dev) = 1;
  lw_start : 0 ≤ l.(lg_start);
  lw_area : l.(lg_start) + l.(lg_size) ≤ Z.of_nat size;
  lw_block : length l.(lg_lh).(lh_block) = Z.to_nat LOGSIZE;
  lw_n : 0 ≤ l.(lg_lh).(lh_n) < l.(lg_size);
  lw_nbuf : l.(lg_lh).(lh_n) < Z.of_nat NBUF;
  lw_nodup : NoDup (logged l);
  lw_home : ∀ b, b ∈ logged l → 0 ≤ b < Z.of_nat size ∧ ¬ in_log l b
}.

Section phases.
Context (l : logstate) (s : kstate) (e : list (kstate → kstate)).
Hypothesis Hwf : log_wf l (length s.(k_fs).(fs_disk)).
Hypothesis Hok : cache_ok ∅ s.
Hypothesis Hl : s.(k_fs).(fs_log) = l.

#[local] Notation n := (Z.to_nat l.(lg_lh).(lh_n)).

Lemma n_bound : (n < NBUF)%nat ∧ (n < Z.to_nat LOGSIZE)%nat ∧ Z.of_nat n < l.(lg_size).
Proof. pose proof (lw_n _ _ Hwf). pose proof (lw_nbuf _ _ Hwf). unfold NBUF, LOGSIZE, MAXOPBLOCKS in *. lia. Qed.

Lemma block_lookup i : (i < n)%nat → l.(lg_lh).(lh_block) !! i = Some (bno l i).
Proof.
  intros. apply list_lookup_lookup_total_lt. rewrite (lw_block _ _ Hwf). pose proof n_bound. lia.
Qed.

Lemma length_logged : length (logged l) = n.
Proof. unfold logged. rewrite length_take, (lw_block _ _ Hwf). pose proof n_bound. lia. Qed.

Lemma logged_lookup i : (i < n)%nat → logged l !! i = Some (bno l i).
Proof. intros. unfold logged. rewrite lookup_take_lt by done. by apply block_lookup. Qed.

Lemma bno_logged i : (i < n)%nat → bno l i ∈ logged l.
Proof. intros. eapply list_elem_of_lookup_2. by apply logged_lookup. Qed.

Lemma logged_bno b : b ∈ logged l → ∃ i, (i < n)%nat ∧ b = bno l i.
Proof.
  intros [i Hi]%list_elem_of_lookup_1. pose proof (lookup_lt_Some _ _ _ Hi) as Hlt.
  rewrite length_logged in Hlt. exists i. rewrite logged_lookup in Hi by done. split; [done|]. clear Hl. congruence.
Qed.

Lemma bno_inj i j : (i < n)%nat → (j < n)%nat → bno l i = bno l j → i = j.
Proof.
  intros Hi Hj Heq. eapply (NoDup_lookup (logged l)); [apply Hwf|by apply logged_lookup|].
  rewrite Heq. by apply logged_lookup.
Qed.

Lemma log_at_range i : (i < n)%nat → 0 ≤ log_at l i < Z.of_nat (length s.(k_fs).(fs_disk)) ∧ in_log l (log_at l i).
Proof.
  intros. pose proof n_bound. pose proof (lw_start _ _ Hwf). pose proof (lw_area _ _ Hwf).
  unfold log_at, in_log. lia.
Qed.

Lemma bno_range i : (i < n)%nat → 0 ≤ bno l i < Z.of_nat (length s.(k_fs).(fs_disk)) ∧ ¬ in_log l (bno l i).
Proof. intros. by apply (lw_home _ _ Hwf), bno_logged. Qed.

Lemma bno_log_at i j : (i < n)%nat → (j < n)%nat → bno l i ≠ log_at l j.
Proof.
  intros Hi Hj Heq. destruct (bno_range i Hi) as [_ Hnot]. apply Hnot. rewrite Heq. by apply log_at_range.
Qed.

Lemma copies_length A B k j s1 : copies A B k s j s1 → length s1.(k_fs).(fs_disk) = length s.(k_fs).(fs_disk).
Proof. intros []. rewrite cs_disk0. apply length_disk_after. Qed.

Lemma write_log_run :
  (∀ m, pinned s.(k_fs) m ↔ m ∈ logged l) →
  ∃ s', write_log s e = Ret tt s' e ∧ copies (bno l) (log_at l) 0 s n s'.
Proof.
  intros Hpin. unfold write_log, getlog.
  rewrite bind_gets, Hl. unfold upto. pose proof n_bound as (? & ? & ?). apply copies_run; [done|..].
  - intros i Hi. destruct (bno_range i), (log_at_range i); lia.
  - intros i j Hi Hj. split; [apply bno_log_at; lia|unfold log_at; lia].
  - intros i s1 Hi Hs1. pose proof (copies_length _ _ _ _ _ Hs1) as Hlen.
    apply (copy_backward (bno l i) (log_at l i) (logged l)).
    + apply Hs1.
    + unfold in_disk. rewrite Hlen. apply bno_range. lia.
    + unfold in_disk. rewrite Hlen. apply log_at_range. lia.
    + apply bno_log_at; lia.
    + intros k Hk. by apply (cs_pinned _ _ _ _ _ _ Hs1), proj1, Hpin in Hk.
    + rewrite length_logged. lia.
    + left. apply (cs_pinned _ _ _ _ _ _ Hs1). split; [apply Hpin, bno_logged; lia|].
      intros (j & Hj & Hin)%list_elem_of_fmap. apply elem_of_seq in Hin. revert Hj. apply bno_log_at; lia.
    + intros x y s2 s3 e' Hr1 Hr2. rewrite (lw_dev _ _ Hwf). unfold log_at in Hr1. mstep Hr1.
      unfold log_block. rewrite (block_lookup i) by lia. rewrite bind_deref. by mstep Hr2.
Qed.

(** In a commit every block of the transaction is pinned; in recovery none is. *)
Lemma install_trans_run :
  (∀ m, pinned s.(k_fs) m ↔ m ∈ logged l) ∨ (∀ m, ¬ pinned s.(k_fs) m) →
  ∃ s', install_trans s e = Ret tt s' e ∧ copies (log_at l) (bno l) 0 s n s'.
Proof.
  intros Hpin. unfold install_trans, getlog. rewrite bind_gets, Hl. unfold upto.
  pose proof n_bound as (? & ? & ?).
  assert (∃ P, (∀ m, pinned s.(k_fs) m → m ∈ P) ∧ (length P < NBUF)%nat ∧
               (∀ i, (i < n)%nat → pinned s.(k_fs) (bno l i) ∨ (S (length P) < NBUF)%nat)) as (P & HP & HPl & HPr).
  { destruct Hpin as [Hpin|Hpin]; [exists (logged l)|exists []].
    - rewrite length_logged. split_and!; [by intros; apply Hpin|done|]. intros. left. by apply Hpin, bno_logged.
    - split_and!; [naive_solver|simpl; unfold NBUF; lia|]. intros. right. simpl. unfold NBUF. lia. }
  apply copies_run; [done|..].
  - intros i Hi. destruct (bno_range i), (log_at_range i); lia.
  - intros i j Hi Hj. split; [|apply bno_inj; lia]. intros ?. by apply (bno_log_at j i); [lia..|].
  - intros i s1 Hi Hs1. pose proof (copies_length _ _ _ _ _ Hs1) as Hlen.
    apply (copy_forward (log_at l i) (bno l i) P).
    + apply Hs1.
    + unfold in_disk. rewrite Hlen. apply log_at_range. lia.
    + unfold in_disk. rewrite Hlen. apply bno_range. lia.
    + intros ?. by apply (bno_log_at i i); [lia..|].
    + intros k Hk. by apply (cs_pinned _ _ _ _ _ _ Hs1), proj1, HP in Hk.
    + done.
    + destruct (HPr i) as [Hp|?]; [lia| |by right]. left. apply (cs_pinned _ _ _ _ _ _ Hs1).
      split; [done|]. intros (j & Hj & Hin)%list_elem_of_fmap. apply elem_of_seq in Hin.
      apply bno_inj in Hj; lia.
    + intros x y s2 s3 e' Hr1 Hr2. rewrite (lw_dev _ _ Hwf). unfold log_at in Hr1. mstep Hr1.
      unfold log_block. rewrite (block_lookup i) by lia. rewrite bind_deref. by mstep Hr2.
Qed.

End phases.

(** ** The header block *)

Lemma length_set_word k v d : (4 * k + 4 ≤ length d)%nat → length (set_word k v d) = length d.
Proof. intros. unfold set_word. apply length_splice. by rewrite length_le_bytes. Qed.

Lemma word_set_word_eq k v d : (4 * k + 4 ≤ length d)%nat → is_u32 v → word (set_word k v d) k = v.
Proof.
  intros Hl Hv. unfold word, set_word. pose proof (slice_splice_eq (4 * k) (le_bytes 4 v) d) as Hs.
  rewrite length_le_bytes in Hs. rewrite Hs by lia. by apply le_val_bytes_id.
Qed.

Lemma word_set_word_ne k k' v d :
  k ≠ k' → (4 * k + 4 ≤ length d)%nat → (4 * k' + 4 ≤ length d)%nat → word (set_word k v d) k' = word d k'.
Proof.
  intros. unfold word, set_word. by rewrite slice_splice_ne by (rewrite ?length_le_bytes; lia).
Qed.

(** The header block that [write_head] makes from the old one, [d]. *)
Definition head_words (l : logstate) (j : nat) (d : list Z) : list Z :=
  foldl (λ d i, set_word (S i) (bno l i) d) d (seq 0 j).
Definition head_block (l : logstate) (d : list Z) : list Z :=
  head_words l (Z.to_nat l.(lg_lh).(lh_n)) (set_word 0 l.(lg_lh).(lh_n) d).

Lemma head_words_S l j d : head_words l (S j) d = set_word (S j) (bno l j) (head_words l j d).
Proof. unfold head_words. by rewrite seq_S, foldl_app. Qed.

Lemma head_words_spec l j d :
  (4 * j + 4 ≤ length d)%nat → (∀ i, (i < j)%nat → is_u32 (bno l i)) →
  length (head_words l j d) = length d ∧ word (head_words l j d) 0 = word d 0 ∧
  ∀ i, (i < j)%nat → word (head_words l j d) (S i) = bno l i.
Proof.
  induction j as [|j IH]; intros Hl Hb; [split_and!; [done..|lia]|].
  destruct IH as (IH1 & IH2 & IH3); [lia|intros; apply Hb; lia|]. rewrite head_words_S.
  split_and!.
  - rewrite length_set_word; [done|]. rewrite IH1. lia.
  - rewrite word_set_word_ne; [done|done|rewrite IH1; lia..].
  - intros i Hi. destruct (decide (i = j)) as [->|Hne].
    + apply word_set_word_eq; [rewrite IH1; lia|apply Hb; lia].
    + rewrite word_set_word_ne; [apply IH3; lia|lia|rewrite IH1; lia..].
Qed.

(** [s'] is [s] with the data of the held buffer [i], of block [n], now [d]. *)
Record edited (H : gset nat) (i : nat) (n : Z) (d : list Z) (s s' : kstate) : Prop := {
  ed_ok : cache_ok H s';
  ed_buf : buf_of s'.(k_fs) i n;
  ed_quiet : fs_quiet s.(k_fs) s'.(k_fs);
  ed_data : content s'.(k_fs) n = d;
  ed_view : ∀ m, m ≠ n → content s'.(k_fs) m = content s.(k_fs) m;
  ed_pinned : ∀ m, pinned s'.(k_fs) m ↔ pinned s.(k_fs) m
}.

Lemma edit_run H i n g d s0 s e :
  i ∈ H → edited H i n d s0 s →
  ∃ s', modb i (λ b, set_b_data (g b.(b_data)) b) s e = Ret tt s' e ∧ edited H i n (g d) s0 s'.
Proof.
  intros Hi [Hok Hb Hq Hd Hv Hp].
  destruct (moddata_spec H i n g s e Hok Hi Hb) as (s' & Hrun & Hok' & Hb' & Hq' & Hd' & Hv' & Hp' & _).
  exists s'. split; [done|]. split; try done.
  - rewrite Hq in Hq'. exact Hq'.
  - by rewrite Hd', Hd.
  - intros m Hm. by rewrite Hv', Hv.
  - intros m. by rewrite Hp', Hp.
Qed.

Section header.
Context (l : logstate) (s : kstate) (e : list (kstate → kstate)).
Hypothesis Hwf : log_wf l (length s.(k_fs).(fs_disk)).
Hypothesis Hok : cache_ok ∅ s.
Hypothesis Hl : s.(k_fs).(fs_log) = l.

Lemma head_words_run H i n d s0 s1 j :
  i ∈ H → (j ≤ Z.to_nat l.(lg_lh).(lh_n))%nat → edited H i n d s0 s1 →
  ∃ s', for_each (seq 0 j) (λ k, bno <- log_block l k;; modb i (λ b, set_b_data (set_word (S k) bno b.(b_data)) b)) s1 e
          = Ret tt s' e ∧ edited H i n (head_words l j d) s0 s'.
Proof.
  intros Hi. induction j as [|j IH]; intros Hj Hed; [by exists s1|].
  destruct IH as (s2 & Hrun & Hed2); [lia|done|].
  destruct (edit_run H i n (set_word (S j) (bno l j)) _ s0 s2 e Hi Hed2) as (s3 & Hrun3 & Hed3).
  exists s3. rewrite head_words_S. split; [|done].
  rewrite seq_S, for_each_app. rewrite (bind_run _ _ _ _ _ _ _ Hrun). simpl.
  rewrite bind_assoc. unfold log_block. rewrite (block_lookup l s Hwf j) by lia. rewrite bind_deref.
  by mstep Hrun3.
Qed.

Lemma start_in_disk : in_disk s.(k_fs) l.(lg_start).
Proof.
  pose proof (lw_n _ _ Hwf). pose proof (lw_start _ _ Hwf). pose proof (lw_area _ _ Hwf).
  unfold in_disk. lia.
Qed.

Lemma write_head_run P :
  (∀ m, pinned s.(k_fs) m → m ∈ P) → (length P < NBUF)%nat →
  ∃ s', write_head s e = Ret tt s' e ∧ cache_ok ∅ s' ∧
        written l.(lg_start) (head_block l (content s.(k_fs) l.(lg_start))) s.(k_fs) s'.(k_fs).
Proof.
  intros HP HPl. destruct start_in_disk as [Hs0 Hs1].
  destruct (bread_spec ∅ l.(lg_start) s e Hok start_in_disk) as (i & s1 & Hr1 & _ & Hok1 & Hb1 & Hq1 & Hv1 & _ & _).
  { set_solver. }
  { right. apply (room_if ∅ s P); [done..|]. rewrite size_empty. lia. }
  pose proof Hv1 as [Hv1c Hv1p]. set (st := l.(lg_start)) in *.
  assert (edited ({[i]} ∪ ∅) i st (content s.(k_fs) st) s1 s1) as Hed1 by (split; done || by rewrite Hv1c).
  assert (i ∈ ({[i]} ∪ ∅ : gset nat)) as Hi by set_solver.
  destruct (edit_run _ i st (set_word 0 l.(lg_lh).(lh_n)) _ s1 s1 e Hi Hed1) as (s2 & Hr2 & Hed2).
  destruct (head_words_run _ i st _ s1 s2 (Z.to_nat l.(lg_lh).(lh_n)) Hi ltac:(lia) Hed2)
    as (s3 & Hr3 & [Hok3 Hb3 Hq3 Hd3 Hv3 Hp3]).
  fold (head_block l (content s.(k_fs) st)) in Hd3.
  destruct (bwrite_spec _ i st s3 e Hok3 Hi Hb3)
    as (s4 & bufs4 & Hr4 & Hok4 & Hb4 & Hst4 & Hfs4 & Hv4 & Hp4 & _).
  destruct (brelse_spec ∅ i s4 e Hok4 ltac:(set_solver) Hst4 (buf_of_lt _ s4 i st Hok4 Hb4))
    as (s5 & Hr5 & Hok5 & Hq5 & [Hv5 Hp5] & _).
  exists s5. split_and!; [|done|].
  - unfold write_head, getlog. rewrite bind_gets, Hl, (lw_dev _ _ Hwf). mstep Hr1. mstep Hr2.
    unfold upto. mstep Hr3. mstep Hr4. exact Hr5.
  - apply (written_quiet _ _ s.(k_fs) s1.(k_fs)); [done..|].
    destruct (quiet_frame _ _ Hq3) as (Hfr3 & Hdk3 & Hw3). destruct (quiet_frame _ _ Hq5) as (Hfr5 & Hdk5 & Hw5).
    split.
    + eapply fs_frame_trans; [exact Hfr3|]. eapply fs_frame_trans; [|exact Hfr5]. by rewrite Hfs4.
    + rewrite Hdk5, Hfs4. simpl. by rewrite Hdk3, Hd3.
    + rewrite Hw5, Hfs4. simpl. by rewrite Hw3, Hd3.
    + intros m Hm. rewrite Hv5, Hv4 by done. case_decide as Hmb; [by subst|by apply Hv3].
    + intros m. rewrite Hp5, Hp4. by rewrite Hp3.
Qed.

End header.

(** ** Commit *)

Definition with_log (g : logstate → logstate) (s : kstate) : kstate :=
  on_fs (λ f, set_fs_log (g f.(fs_log)) f) s.

Lemma cache_ok_log H g s : cache_ok H s → cache_ok H (with_log g s).
Proof. intros []. by split. Qed.

Lemma disk_with_log g s : (with_log g s).(k_fs).(fs_disk) = s.(k_fs).(fs_disk).
Proof. done. Qed.

Lemma pinned_with_log g s m : pinned (with_log g s).(k_fs) m ↔ pinned s.(k_fs) m.
Proof. done. Qed.

Lemma room_with_log g s : room (with_log g s).(k_fs) ↔ room s.(k_fs).
Proof. done. Qed.

Lemma log_wf_cleared l size : log_wf l size → log_wf (set_n 0 l) size.
Proof.
  intros []. split; try done; simpl; [lia|constructor|]. intros b []%elem_of_nil.
Qed.

(** The writes of a commit, in order: the blocks to the log, the header, the
    blocks to their places, and the cleared header. *)
Definition commit_writes (l : logstate) (f : fsstate) : list (Z * list Z) :=
  let idx := seq 0 (Z.to_nat l.(lg_lh).(lh_n)) in
  let hd := head_block l (content f l.(lg_start)) in
  ((λ i, (log_at l i, content f (bno l i))) <$> idx) ++ [(l.(lg_start), hd)] ++
  ((λ i, (bno l i, content f (bno l i))) <$> idx) ++ [(l.(lg_start), set_word 0 0 hd)].

Lemma start_not_log_at l i : l.(lg_start) ≠ log_at l i.
Proof. unfold log_at. lia. Qed.

Section commit.
Context (l : logstate) (s : kstate) (e : list (kstate → kstate)).
Hypothesis Hwf : log_wf l (length s.(k_fs).(fs_disk)).
Hypothesis Hok : cache_ok ∅ s.
Hypothesis Hl : s.(k_fs).(fs_log) = l.
Hypothesis Hpin : ∀ m, pinned s.(k_fs) m ↔ m ∈ logged l.
#[local] Notation n := (Z.to_nat l.(lg_lh).(lh_n)).
#[local] Notation st := l.(lg_start).

Lemma start_not_logged : st ∉ logged l.
Proof.
  intros [_ Hnot]%(lw_home _ _ Hwf). apply Hnot. pose proof (lw_n _ _ Hwf). unfold in_log. lia.
Qed.

Lemma log_at_not_logged i : (i < n)%nat → log_at l i ∉ logged l.
Proof.
  intros Hi (j & Hj & Heq)%(logged_bno l s Hwf). symmetry in Heq. by apply (bno_log_at l s Hwf j i).
Qed.

(** The state once the header is on the disk. *)
Lemma commit_head :
  ∃ s1 s2, write_log s e = Ret tt s1 e ∧ write_head s1 e = Ret tt s2 e ∧ cache_ok ∅ s2 ∧
    fs_frame s.(k_fs) s2.(k_fs) ∧ (∀ m, pinned s2.(k_fs) m ↔ m ∈ logged l) ∧
    let ws := ((λ i, (log_at l i, content s.(k_fs) (bno l i))) <$> seq 0 n) ++
              [(st, head_block l (content s.(k_fs) st))] in
    s2.(k_fs).(fs_writes) = s.(k_fs).(fs_writes) ++ ws ∧
    s2.(k_fs).(fs_disk) = disk_after s.(k_fs).(fs_disk) ws ∧
    content s2.(k_fs) st = head_block l (content s.(k_fs) st) ∧
    ∀ i, (i < n)%nat → content s2.(k_fs) (log_at l i) = content s.(k_fs) (bno l i).
Proof.
  destruct (write_log_run l s e Hwf Hok Hl Hpin) as (s1 & Hr1 & Hc1).
  pose proof (copies_length s _ _ _ _ _ Hc1) as Hlen1. destruct Hc1 as [Hok1 Hfr1 Hp1 Hw1 Hd1 Hin1 Hout1].
  assert (s1.(k_fs).(fs_log) = l) as Hl1 by (rewrite <- Hl; apply Hfr1).
  assert (log_wf l (length s1.(k_fs).(fs_disk))) as Hwf1 by (by rewrite Hlen1).
  assert (∀ m, pinned s1.(k_fs) m ↔ m ∈ logged l) as Hp1'.
  { intros m. rewrite Hp1, Hpin. split; [by intros [? _]|]. intros Hm. split; [done|].
    intros (j & -> & Hj%elem_of_seq)%list_elem_of_fmap. by apply (log_at_not_logged j); [lia|]. }
  assert (content s1.(k_fs) st = content s.(k_fs) st) as Hst1.
  { apply Hout1; [apply Hwf|]. intros (j & Hj & _)%list_elem_of_fmap. by apply start_not_log_at in Hj. }
  destruct (write_head_run l s1 e Hwf1 Hok1 Hl1 (logged l)) as (s2 & Hr2 & Hok2 & [Hfr2 Hd2 Hw2 Hv2 Hp2]).
  { intros m. apply Hp1'. }
  { rewrite (length_logged l s Hwf). by apply (n_bound l s Hwf). }
  rewrite Hst1 in *. exists s1, s2. cbv zeta. split_and!; try done.
  - by eapply fs_frame_trans.
  - intros m. rewrite Hp2, Hp1'. split; [by intros [? _]|]. intros Hm. split; [done|].
    intros ->. by apply start_not_logged.
  - by rewrite Hw2, Hw1, <- app_assoc.
  - by rewrite Hd2, Hd1, disk_after_app.
  - rewrite Hv2 by apply Hwf. by rewrite decide_True.
  - intros i Hi. rewrite Hv2 by (by apply (log_at_range l s Hwf)).
    rewrite decide_False by (apply not_eq_sym, start_not_log_at). apply Hin1. lia.
Qed.

Lemma commit_run :
  0 < l.(lg_lh).(lh_n) →
  ∃ s', commit s e = Ret tt s' e ∧ cache_ok ∅ s' ∧ s'.(k_fs).(fs_log) = set_n 0 l ∧
        (∀ m, ¬ pinned s'.(k_fs) m) ∧
        s'.(k_fs).(fs_writes) = s.(k_fs).(fs_writes) ++ commit_writes l s.(k_fs) ∧
        s'.(k_fs).(fs_disk) = disk_after s.(k_fs).(fs_disk) (commit_writes l s.(k_fs)).
Proof.
  intros Hn. destruct commit_head as (s1 & s2 & Hr1 & Hr2 & Hok2 & Hfr2 & Hp2 & Hw2 & Hd2 & Hst2 & Hc2).
  assert (s2.(k_fs).(fs_log) = l) as Hl2 by (rewrite <- Hl; apply Hfr2).
  assert (log_wf l (length s2.(k_fs).(fs_disk))) as Hwf2 by (by rewrite Hd2, length_disk_after).
  destruct (install_trans_run l s2 e Hwf2 Hok2 Hl2 (or_introl Hp2)) as (s3 & Hr3 & Hc3).
  pose proof (copies_length s2 _ _ _ _ _ Hc3) as Hlen3. destruct Hc3 as [Hok3 Hfr3 Hp3 Hw3 Hd3 Hin3 Hout3].
  set (s3' := with_log (set_n 0) s3).
  assert (∀ m, ¬ pinned s3'.(k_fs) m) as Hp3'.
  { intros m [Hm Hnot]%Hp3. apply Hp2, (logged_bno l s Hwf) in Hm as (j & Hj & ->).
    apply Hnot. apply list_elem_of_fmap. exists j. rewrite elem_of_seq. split; [done|lia]. }
  assert (s3'.(k_fs).(fs_log) = set_n 0 l) as Hl3 by (simpl; rewrite <- Hl2; f_equal; apply Hfr3).
  assert (log_wf (set_n 0 l) (length s3'.(k_fs).(fs_disk))) as Hwf3 by (apply log_wf_cleared; simpl; by rewrite Hlen3).
  assert (content s3'.(k_fs) st = head_block l (content s.(k_fs) st)) as Hst3.
  { rewrite <- Hst2. apply Hout3; [apply Hwf|]. intros (j & Hj & Hin%elem_of_seq)%list_elem_of_fmap.
    apply start_not_logged. rewrite Hj. apply (bno_logged l s Hwf). lia. }
  destruct (write_head_run (set_n 0 l) s3' e Hwf3 (cache_ok_log _ _ _ Hok3) Hl3 []) as (s4 & Hr4 & Hok4 & [Hfr4 Hd4 Hw4 _ Hp4]).
  { intros m Hm. by destruct (Hp3' m). }
  { unfold NBUF. simpl. lia. }
  cbn [lg_start set_n set_lg_lh] in *. rewrite Hst3 in *. change (head_block (set_n 0 l) ?d) with (set_word 0 0 d) in *.
  assert (copy_writes (log_at l) (bno l) 0 s2.(k_fs) n = (λ i, (bno l i, content s.(k_fs) (bno l i))) <$> seq 0 n) as Hcw.
  { apply list_fmap_ext. intros i j [-> Hj]%lookup_seq. by rewrite Hc2. }
  rewrite Hcw in Hw3, Hd3. exists s4. split_and!; try done.
  - unfold commit, getlog. rewrite bind_gets, Hl. apply Z.ltb_lt in Hn as ->. mstep Hr1. mstep Hr2. mstep Hr3.
    unfold modlog. rewrite bind_modify. exact Hr4.
  - rewrite <- Hl3. apply Hfr4.
  - intros m [Hm _]%Hp4. by destruct (Hp3' m).
  - rewrite Hw4. change (fs_writes (k_fs s3')) with (fs_writes (k_fs s3)). rewrite Hw3, Hw2.
    unfold commit_writes. cbv zeta. by rewrite <- !app_assoc.
  - rewrite Hd4. change (fs_disk (k_fs s3')) with (fs_disk (k_fs s3)). rewrite Hd3, Hd2.
    unfold commit_writes. cbv zeta. by rewrite !disk_after_app.
Qed.

End commit.

(** ** Recording a block in the transaction *)

(** The invariant of an open transaction: the pinned buffers are the logged
    blocks. *)
Record log_inv (H : gset nat) (s : kstate) : Prop := {
  li_cache : cache_ok H s;
  li_log : log_wf s.(k_fs).(fs_log) (length s.(k_fs).(fs_disk));
  li_pinned : ∀ m, pinned s.(k_fs) m ↔ m ∈ logged s.(k_fs).(fs_log)
}.

(** [log_write]'s change to the in-memory header. *)
Definition record_block (m : Z) (l : logstate) : logstate :=
  if decide (m ∈ logged l) then l else set_n (l.(lg_lh).(lh_n) + 1) (set_block (Z.to_nat l.(lg_lh).(lh_n)) m l).

Section record.
Context (l : logstate) (size : nat) (m : Z).
Hypothesis Hwf : log_wf l size.
#[local] Notation n := (Z.to_nat l.(lg_lh).(lh_n)).

Lemma log_wf_n_lt : (n < length l.(lg_lh).(lh_block))%nat.
Proof.
  pose proof (lw_n _ _ Hwf). pose proof (lw_nbuf _ _ Hwf). rewrite (lw_block _ _ Hwf).
  unfold NBUF, LOGSIZE, MAXOPBLOCKS in *. lia.
Qed.

Lemma log_slot_new : m ∉ logged l → log_slot l m = n.
Proof.
  intros Hm. unfold log_slot. destruct (list_find _ _) as [[i b]|] eqn:E; [|done].
  apply list_find_Some in E as (Hb & -> & _). destruct Hm. by eapply list_elem_of_lookup_2.
Qed.

Lemma log_slot_old : m ∈ logged l → ∃ i, log_slot l m = i ∧ (i < n)%nat ∧ l.(lg_lh).(lh_block) !! i = Some m.
Proof.
  intros Hm. unfold log_slot. destruct (list_find _ _) as [[i b]|] eqn:E.
  - apply list_find_Some in E as (Hb & -> & _). exists i. apply lookup_take_Some in Hb as [? ?]. done.
  - rewrite list_find_None, Forall_forall in E. by destruct (E m Hm).
Qed.

Lemma logged_record : m ∉ logged l → logged (record_block m l) = logged l ++ [m].
Proof.
  intros Hm. unfold record_block. rewrite decide_False by done. unfold logged. simpl.
  pose proof log_wf_n_lt. pose proof (lw_n _ _ Hwf). replace (Z.to_nat (_ + 1)) with (S n) by lia.
  rewrite (take_S_r _ _ m); [|by apply list_lookup_insert_eq]. by rewrite take_insert_ge.
Qed.

Lemma log_wf_record :
  0 ≤ m < Z.of_nat size → ¬ in_log l m → l.(lg_lh).(lh_n) < l.(lg_size) - 1 → l.(lg_size) ≤ LOGSIZE →
  log_wf (record_block m l) size.
Proof.
  intros Hm Hlog Hn Hsz. destruct (decide (m ∈ logged l)) as [Hin|Hnot].
  { unfold record_block. by rewrite decide_True. }
  pose proof (logged_record Hnot) as Hlg. unfold record_block in *. rewrite decide_False in * by done.
  destruct Hwf. unfold NBUF, LOGSIZE, MAXOPBLOCKS in *. split; simpl; try done.
  - by rewrite length_insert.
  - lia.
  - unfold NBUF. lia.
  - rewrite Hlg. apply NoDup_app. split_and!; [done| |apply NoDup_singleton].
    intros x Hx ->%list_elem_of_singleton. done.
  - rewrite Hlg. intros b [Hb| ->%list_elem_of_singleton]%elem_of_app; [by apply lw_home0|done].
Qed.

Lemma log_write_record :
  (let k := log_slot l m in
   if Z.of_nat k =? l.(lg_lh).(lh_n) then set_n (l.(lg_lh).(lh_n) + 1) (set_block k m l) else set_block k m l)
  = record_block m l.
Proof.
  cbv zeta. pose proof (lw_n _ _ Hwf) as [Hn _]. unfold record_block. case_decide as Hm.
  - destruct (log_slot_old Hm) as (i & -> & Hi & Hb). destruct (_ =? _) eqn:E; bool_facts; [lia|].
    unfold set_block, set_lg_lh, set_lh_block. rewrite list_insert_id by done. done.
  - rewrite log_slot_new by done. rewrite Z2Nat.id by lia. by rewrite Z.eqb_refl.
Qed.

End record.

Lemma logged_record_iff l size m b :
  log_wf l size → b ∈ logged (record_block m l) ↔ b ∈ logged l ∨ b = m.
Proof.
  intros Hwf. destruct (decide (m ∈ logged l)) as [Hin|Hnot].
  - unfold record_block. rewrite decide_True by done. naive_solver.
  - by rewrite (logged_record l _ m Hwf Hnot), elem_of_app, list_elem_of_singleton.
Qed.

(** A transaction with room for one more block. *)
Definition log_room (l : logstate) : Prop :=
  l.(lg_size) ≤ LOGSIZE ∧ 1 ≤ l.(lg_outstanding) ∧ l.(lg_lh).(lh_n) < l.(lg_size) - 1.

Lemma log_write_run H s e i m :
  log_inv H s → i ∈ H → buf_of s.(k_fs) i m → ¬ in_log s.(k_fs).(fs_log) m → log_room s.(k_fs).(fs_log) →
  ∃ s', log_write i s e = Ret tt s' e ∧ log_inv H s' ∧ settled s'.(k_fs) i ∧
        (∀ b, content s'.(k_fs) b = content s.(k_fs) b) ∧ s'.(k_slk) = s.(k_slk) ∧
        ∃ bufs, s'.(k_fs) = set_fs_bufs bufs (set_fs_log (record_block m s.(k_fs).(fs_log)) s.(k_fs)).
Proof.
  intros [Hok Hwf Hpin] Hi Hbo Hm (Hsz & Hout & Hn). set (l := s.(k_fs).(fs_log)) in *.
  pose proof (ok_kidle _ _ Hok) as (Hcw & _ & _ & Hfl & _). assert (s.(k_spin) !! Llog = None) as Hfree by (by apply Hfl).
  unfold log_write, getlog. rewrite bind_gets. fold l.
  destruct (_ || _) eqn:E; [exfalso; apply orb_true_iff in E as [E|E]; bool_facts; lia|clear E].
  destruct (l.(lg_outstanding) <? 1) eqn:E1; bool_facts; [lia|].
  mstep (acquire_run Llog s e Hfree). rewrite bind_gets.
  destruct (buf_of_lookup H s i m Hok Hbo) as (b & Hb & Hbm & _ & Hf0).
  mstep (getb_run (locked Llog s) i b e Hb). rewrite Hbm. unfold modlog. rewrite bind_modify.
  change (s.(k_fs).(fs_log)) with l. pose proof (log_write_record l _ m Hwf) as Hrec. cbv zeta in Hrec.
  set (k := log_slot l m) in *. set (b' := set_b_flags (Z.lor b.(b_flags) B_DIRTY) b).
  set (s1 := with_log (λ _, record_block m l) s).
  destruct (pin_spec H i m b s1 (cache_ok_log _ _ _ Hok) Hi Hbo Hb) as (Hok2 & Hc2 & Hp2). fold b' in Hok2, Hc2, Hp2.
  exists (on_cpu cpu_bracket (putb i b' s1)). split_and!; [| | |exact Hc2|done|by eexists].
  - erewrite (bind_run _ _ _ _ tt (with_log (λ _, record_block m l) (locked Llog s))).
    2: { rewrite <- Hrec. by destruct (_ =? _). }
    mstep (modb_run (with_log (λ _, record_block m l) (locked Llog s)) i b _ e Hb).
    by rewrite (release_run Llog s).
  - split.
    + split; [apply kidle_bracket|..]; apply Hok2.
    + apply (log_wf_record l _ m Hwf); try done. destruct Hbo as (c & Hc & Hcf & _ & <-).
      by apply (ok_buf _ _ Hok _ _ Hc).
    + intros c. etransitivity; [apply (Hp2 c)|]. change (pinned (k_fs s1) c) with (pinned (k_fs s) c).
      rewrite Hpin. symmetry. exact (logged_record_iff l _ m c Hwf).
  - intros c. simpl. rewrite list_lookup_insert_eq by (by eapply lookup_lt_Some). intros [= <-] Hb2. exfalso.
    destruct (held_io_ready H s i b Hok Hi Hb) as (_ & _ & Hfl2). simpl in Hb2. by destruct Hfl2 as [Ef|Ef]; rewrite Ef in Hb2.
Qed.

(** [log_write] of a held buffer in an open transaction.  While the log has
    room the block joins the transaction, once however often it is written
    (absorption), and its buffer is pinned; nothing reaches the disk and the
    contents of every block stay as the kernel sees them.  At [lg_size] - 1
    blocks the call panics, also for a block that is already logged. *)
Theorem log_write_correct H s e i m :
  log_inv H s → i ∈ H → buf_of s.(k_fs) i m → ¬ in_log s.(k_fs).(fs_log) m →
  s.(k_fs).(fs_log).(lg_size) ≤ LOGSIZE → 1 ≤ s.(k_fs).(fs_log).(lg_outstanding) →
  if decide (s.(k_fs).(fs_log).(lg_lh).(lh_n) < s.(k_fs).(fs_log).(lg_size) - 1) then
    ∃ s', log_write i s e = Ret tt s' e ∧ log_inv H s' ∧
          (∀ b, b ∈ logged s'.(k_fs).(fs_log) ↔ b ∈ logged s.(k_fs).(fs_log) ∨ b = m) ∧
          (∀ b, content s'.(k_fs) b = content s.(k_fs) b) ∧
          s'.(k_fs).(fs_disk) = s.(k_fs).(fs_disk) ∧ s'.(k_fs).(fs_writes) = s.(k_fs).(fs_writes)
  else log_write i s e = Panic "too big a transaction".
Proof.
  intros Hinv Hi Hbo Hm Hsz Hout. case_decide as Hn.
  - destruct (log_write_run H s e i m) as (s' & Hrun & Hinv' & _ & Hc & _ & bufs & Hfs); try done.
    exists s'. rewrite Hfs in *. split_and!; try done. intros b. eapply logged_record_iff. apply Hinv.
  - unfold log_write, getlog. rewrite bind_gets. set (l := s.(k_fs).(fs_log)) in *.
    destruct (l.(lg_size) - 1 <=? l.(lg_lh).(lh_n)) eqn:E; bool_facts; [by rewrite orb_true_r|lia].
Qed.

(** An example: a log of [n] blocks, the first of which is 35, in blocks 2 to
    31, with [out] operations open. *)
Definition txn_log (n out : Z) : logstate :=
  {| lg_start := 2; lg_size := 30; lg_outstanding := out; lg_committing := 0; lg_dev := 1;
     lg_lh := {| lh_n := n; lh_block := 35 :: replicate 29 0 |} |}.

Definition open_txn : kstate := with_log (λ _, txn_log 0 1) (cached_state zero_buf).

Lemma open_txn_wf : log_wf (txn_log 0 1) (length open_txn.(k_fs).(fs_disk)).
Proof.
  unfold open_txn. rewrite disk_with_log, cached_state_length. split; try done; [constructor|]. intros b []%elem_of_nil.
Qed.

Lemma log_write_correct_witness :
  ∃ i s1 s2, bread 1 35 open_txn [] = Ret i s1 [] ∧ log_write i s1 [] = Ret tt s2 [] ∧
             35 ∈ logged s2.(k_fs).(fs_log).
Proof.
  destruct (bread_spec ∅ 35 open_txn []) as (i & s1 & Hr & _ & Hok & Hb & Hq & [_ Hp] & _).
  - apply cache_ok_log, cached_state_ok. by left.
  - unfold open_txn. rewrite disk_with_log, cached_state_length. lia.
  - intros j []%elem_of_empty.
  - right. apply room_with_log, cached_state_room.
  - destruct (quiet_frame _ _ Hq) as ((Hl & _) & Hd & _). change (fs_log (k_fs open_txn)) with (txn_log 0 1) in Hl.
    pose proof (log_write_correct ({[i]} ∪ ∅) s1 [] i 35) as Hlw. rewrite Hl in Hlw.
    rewrite decide_True in Hlw by (vm_compute; done).
    destruct Hlw as (s2 & Hrun & _ & Hin & _); [|apply elem_of_union_l, elem_of_singleton; done|done|..|].
    + split; [done|rewrite Hl, Hd; apply open_txn_wf|]. intros m. rewrite Hp, Hl.
      split; [|intros []%elem_of_nil]. intros Hm%pinned_with_log. by destruct (cached_state_clean m).
    + unfold in_log. simpl. lia.
    + vm_compute. done.
    + done.
    + exists i, s1, s2. split_and!; [done..|]. apply Hin. by right.
Defined.

(** ** Changing a block in a transaction *)

(** [s'] is [s] after [bread] has returned buffer [i], locked, with block [n]. *)
Record held_block (i : nat) (n : Z) (s s' : kstate) : Prop := {
  hb_inv : log_inv ({[i]} ∪ ∅) s';
  hb_buf : buf_of s'.(k_fs) i n;
  hb_settled : settled s'.(k_fs) i;
  hb_quiet : fs_quiet s.(k_fs) s'.(k_fs);
  hb_view : ∀ m, 0 ≤ m → content s'.(k_fs) m = content s.(k_fs) m;
  hb_slk : ∀ ip, s'.(k_slk) !! SLinode ip = s.(k_slk) !! SLinode ip
}.

Lemma log_inv_quiet H H' s s' :
  log_inv H s → cache_ok H' s' → fs_quiet s.(k_fs) s'.(k_fs) →
  (∀ m, pinned s'.(k_fs) m ↔ pinned s.(k_fs) m) → log_inv H' s'.
Proof.
  intros [_ Hwf Hpin] Hok Hq Hp. destruct (quiet_frame _ _ Hq) as ((Hl & _) & Hd & _).
  split; [done|by rewrite Hl, Hd|]. intros m. by rewrite Hp, Hl.
Qed.

Lemma bread_txn n s e :
  log_inv ∅ s → in_disk s.(k_fs) n → ∃ i s', bread 1 n s e = Ret i s' e ∧ held_block i n s s'.
Proof.
  intros Hinv Hn. pose proof Hinv as [Hok Hwf Hpin].
  destruct (bread_spec ∅ n s e Hok Hn) as (i & s1 & Hr1 & _ & Hok1 & Hb1 & Hq1 & [Hv1 Hp1] & [_ Hslk] & Hset).
  { intros j []%elem_of_empty. }
  { right. apply (room_if ∅ s (logged s.(k_fs).(fs_log))); [done|by intros; apply Hpin|].
    rewrite (length_logged _ s Hwf), size_empty. pose proof (n_bound _ s Hwf). lia. }
  exists i, s1. split; [done|]. split; try done. by apply (log_inv_quiet ∅ _ s s1).
Qed.

Lemma held_getb i n s s1 e :
  held_block i n s s1 → 0 ≤ n → ∃ b, getb i s1 e = Ret b s1 e ∧ b.(b_data) = content s.(k_fs) n.
Proof.
  intros [Hinv Hb _ _ Hv _] Hn. destruct (buf_of_lookup _ s1 i n (li_cache _ _ Hinv) Hb) as (b & Hl & _ & Hd & _).
  exists b. split; [by apply getb_run|]. by rewrite Hd, Hv.
Qed.

Lemma brelse_txn i s e :
  log_inv ({[i]} ∪ ∅) s → settled s.(k_fs) i → (i < NBUF)%nat →
  ∃ s', brelse i s e = Ret tt s' e ∧ log_inv ∅ s' ∧ fs_quiet s.(k_fs) s'.(k_fs) ∧
        (∀ m, 0 ≤ m → content s'.(k_fs) m = content s.(k_fs) m) ∧
        ∀ ip, s'.(k_slk) !! SLinode ip = s.(k_slk) !! SLinode ip.
Proof.
  intros Hinv Hset Hi.
  destruct (brelse_spec ∅ i s e (li_cache _ _ Hinv)) as (s4 & Hr4 & Hok4 & Hq4 & [Hv4 Hp4] & _ & Hs4); [set_solver|done..|].
  exists s4. split_and!; try done. by apply (log_inv_quiet ({[i]} ∪ ∅) _ s s4).
Qed.

Lemma fs_quiet_trans f f' f'' : fs_quiet f f' → fs_quiet f' f'' → fs_quiet f f''.
Proof. unfold fs_quiet. intros H1 H2. rewrite H2 at 1. by rewrite H1. Qed.

(** Reading a block changes nothing but the cache. *)
Lemma release_held i n s s1 e :
  held_block i n s s1 →
  ∃ s', brelse i s1 e = Ret tt s' e ∧ log_inv ∅ s' ∧ fs_quiet s.(k_fs) s'.(k_fs) ∧
        ∀ m, 0 ≤ m → content s'.(k_fs) m = content s.(k_fs) m.
Proof.
  intros [Hinv Hb Hset Hq Hv Hs].
  destruct (brelse_txn i s1 e Hinv Hset) as (s2 & Hr & Hinv2 & Hq2 & Hv2 & Hs2).
  { exact (buf_of_lt _ s1 i n (li_cache _ _ Hinv) Hb). }
  exists s2. split_and!; try done; [by eapply fs_quiet_trans|]. intros m Hm. by rewrite Hv2, Hv.
Qed.

(** [s'] is [s] after block [n] has been changed to [d] in the transaction. *)
Record block_updated (n : Z) (d : list Z) (s s' : kstate) : Prop := {
  bu_inv : log_inv ∅ s';
  bu_data : content s'.(k_fs) n = d;
  bu_other : ∀ m, 0 ≤ m → m ≠ n → content s'.(k_fs) m = content s.(k_fs) m;
  bu_log : s'.(k_fs).(fs_log) = record_block n s.(k_fs).(fs_log);
  bu_fs : ∃ bufs lru, s'.(k_fs) = set_fs_bufs bufs (set_fs_lru lru
                                    (set_fs_log (record_block n s.(k_fs).(fs_log)) s.(k_fs)));
  bu_slk : ∀ ip, s'.(k_slk) !! SLinode ip = s.(k_slk) !! SLinode ip
}.

(** The tail of [bread; change; log_write; brelse]. *)
Lemma update_held i n g s s1 e :
  held_block i n s s1 → log_room s.(k_fs).(fs_log) → 0 ≤ n → ¬ in_log s.(k_fs).(fs_log) n →
  ∃ s', (modb i (λ b, set_b_data (g b.(b_data)) b);; log_write i;; brelse i) s1 e = Ret tt s' e ∧
        block_updated n (g (content s.(k_fs) n)) s s'.
Proof.
  intros [Hinv1 Hb1 _ Hq1 Hv1 Hs1] Hroom Hn0 Hlog. assert (i ∈ ({[i]} ∪ ∅ : gset nat)) as Hi by set_solver.
  pose proof (li_cache _ _ Hinv1) as Hok1.
  destruct (moddata_spec _ i n g s1 e Hok1 Hi Hb1) as (s2 & Hr2 & Hok2 & Hb2 & Hq2 & Hd2 & Hv2 & Hp2 & _ & Hs2).
  destruct (quiet_frame _ _ Hq1) as ((Hl1 & _) & _). destruct (quiet_frame _ _ Hq2) as ((Hl2 & _) & _).
  assert (s2.(k_fs).(fs_log) = s.(k_fs).(fs_log)) as Hl by congruence.
  destruct (log_write_run ({[i]} ∪ ∅) s2 e i n) as (s3 & Hr3 & Hinv3 & Hset3 & Hc3 & Hs3 & bufs3 & Hfs3);
    [by apply (log_inv_quiet ({[i]} ∪ ∅) _ s1 s2)|done|done|by rewrite Hl..|].
  destruct (brelse_txn i s3 e Hinv3 Hset3 (buf_of_lt _ s2 i n Hok2 Hb2)) as (s4 & Hr4 & Hinv4 & Hq4 & Hv4 & Hs4).
  exists s4. split; [mstep Hr2; mstep Hr3; exact Hr4|].
  assert (∃ bufs lru, s4.(k_fs) = set_fs_bufs bufs (set_fs_lru lru
            (set_fs_log (record_block n s.(k_fs).(fs_log)) s.(k_fs)))) as Hfs.
  { exists s4.(k_fs).(fs_bufs), s4.(k_fs).(fs_lru). etransitivity; [exact Hq4|]. by rewrite Hfs3, Hl, Hq2, Hq1. }
  split; [done|by rewrite Hv4, Hc3, Hd2, Hv1| |by destruct Hfs as (? & ? & ->)|done|].
  - intros m Hm Hne. by rewrite Hv4, Hc3, Hv2, Hv1.
  - intros ip. by rewrite Hs4, Hs3, Hs2, Hs1.
Qed.

Lemma update_block_run n g s e :
  log_inv ∅ s → log_room s.(k_fs).(fs_log) → in_disk s.(k_fs) n → ¬ in_log s.(k_fs).(fs_log) n →
  ∃ s', (bp <- bread 1 n;; modb bp (λ b, set_b_data (g b.(b_data)) b);; log_write bp;; brelse bp) s e
          = Ret tt s' e ∧ block_updated n (g (content s.(k_fs) n)) s s'.
Proof.
  intros Hinv Hroom Hn Hlog. destruct (bread_txn n s e Hinv Hn) as (i & s1 & Hr1 & Hheld).
  destruct (update_held i n g s s1 e Hheld Hroom (proj1 Hn) Hlog) as (s2 & Hr2 & Hu).
  exists s2. split; [by mstep Hr1|done].
Qed.

Lemma readsb_run s e :
  log_inv ∅ s → in_disk s.(k_fs) 1 →
  ∃ s', readsb 1 s e = Ret (decode_sb (content s.(k_fs) 1)) s' e ∧ log_inv ∅ s' ∧ fs_quiet s.(k_fs) s'.(k_fs) ∧
        ∀ m, 0 ≤ m → content s'.(k_fs) m = content s.(k_fs) m.
Proof.
  intros Hinv Hn. destruct (bread_txn 1 s e Hinv Hn) as (i & s1 & Hr1 & Hheld).
  destruct (held_getb i 1 s s1 e Hheld) as (b & Hg & Hd); [lia|].
  destruct (release_held i 1 s s1 e Hheld) as (s2 & Hr2 & Hrest).
  exists s2. split; [|done]. unfold readsb. mstep Hr1. mstep Hg. mstep Hr2. by rewrite Hd.
Qed.

(** ** Recovery *)

Lemma content_disk s n :
  cache_ok ∅ s → in_disk s.(k_fs) n → ¬ pinned s.(k_fs) n →
  s.(k_fs).(fs_disk) !! Z.to_nat n = Some (content s.(k_fs) n).
Proof.
  intros Hok [Hn Hlt] Hp. unfold content. destruct (list_find _ _) as [[i b]|] eqn:E.
  - apply list_find_Some in E as (Hb & Hs & _). destruct (ok_buf _ _ Hok _ _ Hb) as (Hfl & _ & _ & Hc).
    apply stands_for_true in Hs as (Hd & <- & Hf0). apply Hc; [set_solver|].
    destruct Hfl as [?|[?|?]]; [done|done|]. destruct Hp. by exists i, b.
  - destruct (lookup_lt_is_Some_2 s.(k_fs).(fs_disk) (Z.to_nat n)) as [d ->]; [lia|done].
Qed.

(** The log that [read_head] makes of the header block [hd]. *)
Definition head_n (hd : list Z) : Z := s32 (word hd 0).
Definition load_words (hd : list Z) (j : nat) (l : logstate) : logstate :=
  foldl (λ l i, set_block i (s32 (word hd (S i))) l) l (seq 0 j).
Definition loaded (hd : list Z) (l : logstate) : logstate :=
  load_words hd (Z.to_nat (head_n hd)) (set_n (head_n hd) l).

Lemma load_words_S hd j l :
  load_words hd (S j) l = set_block j (s32 (word hd (S j))) (load_words hd j l).
Proof. unfold load_words. by rewrite seq_S, foldl_app. Qed.

Lemma load_words_spec hd j l :
  (j ≤ length l.(lg_lh).(lh_block))%nat →
  let l' := load_words hd j l in
  l'.(lg_dev) = l.(lg_dev) ∧ l'.(lg_start) = l.(lg_start) ∧ l'.(lg_size) = l.(lg_size) ∧
  l'.(lg_lh).(lh_n) = l.(lg_lh).(lh_n) ∧ length l'.(lg_lh).(lh_block) = length l.(lg_lh).(lh_block) ∧
  ∀ i, (i < j)%nat → bno l' i = s32 (word hd (S i)).
Proof.
  induction j as [|j IH]; intros Hj; [split_and!; [done..|lia]|].
  destruct IH as (? & ? & ? & ? & Hlen & Hb); [lia|]. cbv zeta. rewrite load_words_S.
  split_and!; try done; [simpl; by rewrite length_insert|].
  intros i Hi. unfold bno. simpl. destruct (decide (i = j)) as [->|Hne].
  - rewrite list_lookup_total_insert_eq; [done|]. rewrite Hlen. lia.
  - rewrite list_lookup_total_insert_ne by done. apply Hb. lia.
Qed.

Section recovery.
Context (s : kstate) (e : list (kstate → kstate)).
#[local] Notation l := s.(k_fs).(fs_log).
#[local] Notation hd := (content s.(k_fs) l.(lg_start)).
Hypothesis Hok : cache_ok ∅ s.
Hypothesis Hpin : ∀ m, ¬ pinned s.(k_fs) m.
Hypothesis Hdev : l.(lg_dev) = 1.
Hypothesis Hst : in_disk s.(k_fs) l.(lg_start).
Hypothesis Hlen : length l.(lg_lh).(lh_block) = Z.to_nat LOGSIZE.
Hypothesis Hn : 0 ≤ head_n hd ≤ LOGSIZE.

Lemma load_words_run j l1 d s1 :
  s1.(k_fs).(fs_log) = l1 → (j ≤ length l1.(lg_lh).(lh_block))%nat →
  for_each (seq 0 j) (λ i, l <- getlog;; log_block l i;; modlog (set_block i (s32 (word d (S i))))) s1 e
    = Ret tt (with_log (load_words d j) s1) e.
Proof.
  intros Hl1. induction j as [|j IH]; intros Hj; [done|].
  rewrite seq_S, for_each_app, (bind_run _ _ _ _ _ _ _ (IH ltac:(lia))). simpl. unfold getlog, log_block.
  rewrite bind_assoc, bind_gets, bind_assoc. simpl.
  destruct (load_words_spec d j l1) as (_ & _ & _ & _ & Hlj & _); [lia|].
  destruct (lookup_lt_is_Some_2 (load_words d j l1).(lg_lh).(lh_block) j) as [x Hx]; [rewrite Hlj; lia|].
  rewrite Hl1, Hx, bind_deref. unfold with_log, modlog, modify, on_fs. simpl. by rewrite load_words_S.
Qed.

Lemma read_head_run :
  ∃ s', read_head s e = Ret tt s' e ∧ cache_ok ∅ s' ∧ s'.(k_fs).(fs_log) = loaded hd l ∧
        s'.(k_fs).(fs_disk) = s.(k_fs).(fs_disk) ∧ s'.(k_fs).(fs_writes) = s.(k_fs).(fs_writes) ∧
        same_view s.(k_fs) s'.(k_fs).
Proof.
  set (st := l.(lg_start)) in *.
  destruct (bread_spec ∅ st s e Hok Hst) as (i & s1 & Hr1 & _ & Hok1 & Hb1 & Hq1 & [Hv1 Hp1] & _ & Hset1).
  { set_solver. }
  { right. apply (room_if ∅ s []); [done| |rewrite size_empty; unfold NBUF; simpl; lia].
    intros m Hm. by destruct (Hpin m). }
  destruct (buf_of_lookup _ s1 i st Hok1 Hb1) as (b & Hb & _ & Hbd & _). rewrite Hv1 in Hbd by apply Hst.
  destruct (quiet_frame _ _ Hq1) as ((Hl1 & _) & Hd1 & Hw1).
  set (s2 := with_log (load_words hd (Z.to_nat (head_n hd))) (with_log (set_n (head_n hd)) s1)).
  destruct (brelse_spec ∅ i s2 e) as (s3 & Hr3 & Hok3 & Hq3 & [Hv3 Hp3] & _).
  { by do 2 apply cache_ok_log. }
  { set_solver. }
  { exact Hset1. }
  { exact (buf_of_lt _ s1 i st Hok1 Hb1). }
  destruct (quiet_frame _ _ Hq3) as ((Hl3 & _) & Hd3 & Hw3).
  exists s3. split_and!; [|done|..].
  - unfold read_head, getlog. rewrite bind_gets, Hdev. fold st. mstep Hr1. mstep (getb_run s1 i b e Hb).
    cbv zeta. unfold modlog at 1. rewrite bind_modify, Hbd. fold (head_n hd).
    change (on_fs _ s1) with (with_log (set_n (head_n hd)) s1). unfold upto.
    erewrite bind_run; [|eapply load_words_run; [done|]].
    + exact Hr3.
    + simpl. rewrite Hl1, Hlen. unfold head_n, st in *. lia.
  - rewrite Hl3. simpl. by rewrite Hl1.
  - rewrite Hd3. exact Hd1.
  - rewrite Hw3. exact Hw1.
  - split; [intros m Hm; rewrite Hv3 by done; by apply Hv1|intros m; rewrite Hp3; apply Hp1].
Qed.

Lemma recover_run :
  log_wf (loaded hd l) (length s.(k_fs).(fs_disk)) →
  ∃ s', recover_from_log s e = Ret tt s' e ∧
        s'.(k_fs).(fs_disk) =
          disk_after s.(k_fs).(fs_disk)
            (((λ i, (bno (loaded hd l) i, content s.(k_fs) (log_at l i))) <$> seq 0 (Z.to_nat (head_n hd))) ++
             [(l.(lg_start), set_word 0 0 hd)]).
Proof.
  intros Hwf. destruct read_head_run as (s1 & Hr1 & Hok1 & Hl1 & Hd1 & Hw1 & [Hv1 Hp1]).
  destruct (load_words_spec hd (Z.to_nat (head_n hd)) (set_n (head_n hd) l)) as (_ & Hls & _ & Hln & _).
  { simpl. rewrite Hlen. lia. }
  fold (loaded hd l) in *. simpl in Hls, Hln.
  assert (log_wf (loaded hd l) (length s1.(k_fs).(fs_disk))) as Hwf1 by (by rewrite Hd1).
  destruct (install_trans_run (loaded hd l) s1 e Hwf1 Hok1 Hl1) as (s2 & Hr2 & Hc2).
  { right. intros m Hm%Hp1. by apply (Hpin m). }
  pose proof (copies_length s1 _ _ _ _ _ Hc2) as Hlen2. destruct Hc2 as [Hok2 Hfr2 Hp2 Hw2 Hd2 Hin2 Hout2].
  set (s2' := with_log (set_n 0) s2).
  assert (s2'.(k_fs).(fs_log) = set_n 0 (loaded hd l)) as Hl2 by (simpl; rewrite <- Hl1; f_equal; apply Hfr2).
  destruct (write_head_run (set_n 0 (loaded hd l)) s2' e) with (P := @nil Z) as (s3 & Hr3 & _ & [_ Hd3 _ _ _]).
  { apply log_wf_cleared. simpl. by rewrite Hlen2, Hd1. }
  { by apply cache_ok_log. }
  { done. }
  { intros m [Hm%Hp1 _]%Hp2. by destruct (Hpin m). }
  { unfold NBUF. simpl. lia. }
  exists s3. split.
  { unfold recover_from_log. mstep Hr1. mstep Hr2. unfold modlog. rewrite bind_modify. exact Hr3. }
  rewrite Hd3. cbn [lg_start set_n set_lg_lh]. change (fs_disk (k_fs s2')) with (fs_disk (k_fs s2)).
  change (content (k_fs s2') ?x) with (content (k_fs s2) x). rewrite Hd2, Hd1, disk_after_app, Hls, Hln. simpl.
  change (head_block (set_n 0 ?x) ?d) with (set_word 0 0 d). f_equal.
  - f_equal. rewrite Hout2; [by apply Hv1, Hst|by apply Hst|].
    intros (j & Hj & Hin%elem_of_seq)%list_elem_of_fmap. rewrite Hln in Hin.
    destruct (bno_range (loaded hd l) s Hwf j) as [_ Hnot]; [rewrite Hln; lia|]. apply Hnot. rewrite <- Hj.
    pose proof (lw_n _ _ Hwf). unfold in_log. rewrite Hls. lia.
  - f_equal. unfold copy_writes. apply list_fmap_ext. intros i j [-> Hj]%lookup_seq. f_equal.
    assert (log_at (loaded hd l) (0 + i)%nat = log_at l (0 + i)%nat) as -> by (unfold log_at; by rewrite Hls).
    apply Hv1. unfold log_at. destruct Hst. lia.
Qed.

End recovery.
