(* ===== verification/Crash.v ===== *)
(** * Crash safety of the log (log.c)

    The disk receives the writes of a commit one block at a time, and the
    machine may stop between any two.  This file shows that recovery at the
    next boot then finds either all the blocks of the transaction or none. *)

From S2P Require Import Prelude KState Spinlock Args Proc Sleeplock Bio Log.
#[local] Open Scope kernel_scope.

(** The state in which the last [end_op] of a transaction calls [commit]: the
    logged blocks are the pinned buffers, and the header on disk is clear. *)
Record committing (s : kstate) : Prop := {
  cm_cache : cache_ok ∅ s;
  cm_log : log_wf s.(k_fs).(fs_log) (length s.(k_fs).(fs_disk));
  cm_pinned : ∀ m, pinned s.(k_fs) m ↔ m ∈ logged s.(k_fs).(fs_log);
  cm_size : Z.of_nat (length s.(k_fs).(fs_disk)) ≤ 2147483648;
  cm_head : length (content s.(k_fs) s.(k_fs).(fs_log).(lg_start)) = Z.to_nat BSIZE;
  cm_clear : word (content s.(k_fs) s.(k_fs).(fs_log).(lg_start)) 0 = 0
}.

(** A machine that has booted with disk [d] and is about to recover the log
    whose place is that of [l]. *)
Record booted (l : logstate) (d : list (list Z)) (s : kstate) : Prop := {
  bt_cache : cache_ok ∅ s;
  bt_clean : ∀ m, ¬ pinned s.(k_fs) m;
  bt_disk : s.(k_fs).(fs_disk) = d;
  bt_dev : s.(k_fs).(fs_log).(lg_dev) = l.(lg_dev);
  bt_start : s.(k_fs).(fs_log).(lg_start) = l.(lg_start);
  bt_size : s.(k_fs).(fs_log).(lg_size) = l.(lg_size);
  bt_block : length s.(k_fs).(fs_log).(lg_lh).(lh_block) = Z.to_nat LOGSIZE
}.

(** The blocks outside the log. *)
Definition home (l : logstate) (d : list (list Z)) (m : Z) : Prop :=
  0 ≤ m < Z.of_nat (length d) ∧ ¬ in_log l m.

(** ** Sequences of writes *)

Lemma prefix_app_or {A} (p l l' : list A) :
  p `prefix_of` l ++ l' → p `prefix_of` l ∨ ∃ p', p = l ++ p' ∧ p' `prefix_of` l'.
Proof.
  revert p. induction l as [|x l IH]; intros p Hp; [by right; exists p|].
  destruct p as [|y p]; [left; apply prefix_nil|]. simpl in Hp.
  pose proof (prefix_cons_inv_1 _ _ _ _ Hp) as ->. apply prefix_cons_inv_2 in Hp.
  destruct (IH p Hp) as [?|(p' & -> & ?)]; [left; by apply prefix_cons|right; by exists p'].
Qed.

Lemma prefix_singleton {A} (p : list A) x : p `prefix_of` [x] → p = [] ∨ p = [x].
Proof.
  destruct p as [|y p]; [by left|]. intros Hp. pose proof (prefix_cons_inv_1 _ _ _ _ Hp) as ->.
  apply prefix_cons_inv_2, prefix_nil_inv in Hp as ->. by right.
Qed.

Lemma prefix_fmap_seq {A} (f : nat → A) p n :
  p `prefix_of` f <$> seq 0 n → ∃ j, (j ≤ n)%nat ∧ p = f <$> seq 0 j.
Proof.
  intros [q Hq]. exists (length p). assert (length p ≤ n)%nat as Hle.
  { apply (f_equal length) in Hq. rewrite length_app, length_fmap, length_seq in Hq. lia. }
  split; [done|]. apply (f_equal (take (length p))) in Hq.
  rewrite take_app_length, <- fmap_take, take_seq, Nat.min_l in Hq by done. done.
Qed.

Lemma disk_after_in d (B : nat → Z) (C : nat → list Z) j i :
  (∀ k k', (k < j)%nat → (k' < j)%nat → B k = B k' → k = k') →
  (∀ k, (k < j)%nat → 0 ≤ B k < Z.of_nat (length d)) → (i < j)%nat →
  disk_after d ((λ k, (B k, C k)) <$> seq 0 j) !! Z.to_nat (B i) = Some (C i).
Proof.
  induction j as [|j IH]; intros Hinj Hr Hi; [lia|].
  rewrite seq_S, fmap_app, disk_after_app. simpl. pose proof (Hr i ltac:(lia)). pose proof (Hr j ltac:(lia)).
  destruct (decide (i = j)) as [->|Hne].
  - rewrite list_lookup_insert_eq; [done|]. rewrite length_disk_after. lia.
  - rewrite list_lookup_insert_ne.
    + apply IH; [|intros; apply Hr; lia|lia]. intros k k' ? ?. apply Hinj; lia.
    + intros Heq. apply Hne, Hinj; lia.
Qed.

Lemma disk_after_not d (B : nat → Z) (C : nat → list Z) j m :
  0 ≤ m → (∀ k, (k < j)%nat → 0 ≤ B k ∧ B k ≠ m) →
  disk_after d ((λ k, (B k, C k)) <$> seq 0 j) !! Z.to_nat m = d !! Z.to_nat m.
Proof.
  intros Hm HB. apply disk_after_out; [done|]. intros w (k & -> & Hk%elem_of_seq)%list_elem_of_fmap.
  apply HB. lia.
Qed.

(** ** Recovery from a disk *)

Lemma log_wf_same l l' size :
  log_wf l size → l'.(lg_dev) = l.(lg_dev) → l'.(lg_start) = l.(lg_start) → l'.(lg_size) = l.(lg_size) →
  l'.(lg_lh).(lh_n) = l.(lg_lh).(lh_n) → length l'.(lg_lh).(lh_block) = Z.to_nat LOGSIZE →
  (∀ i, (i < Z.to_nat l.(lg_lh).(lh_n))%nat → bno l' i = bno l i) → log_wf l' size.
Proof.
  intros [Hdev Hst Hsz Hbl Hn Hnb Hnd Hh] Ed Es Ez En El Eb.
  assert (logged l' = logged l) as Elg.
  { unfold logged. rewrite En. apply list_eq. intros i. unfold NBUF, LOGSIZE, MAXOPBLOCKS in *.
    destruct (decide (i < Z.to_nat (lh_n (lg_lh l)))%nat) as [Hi|Hi].
    - rewrite !lookup_take_lt by done. rewrite !list_lookup_lookup_total_lt by lia.
      f_equal. by apply Eb.
    - by rewrite !lookup_take_ge by lia. }
  split; rewrite ?Ed, ?Es, ?Ez, ?En, ?El, ?Elg; try done.
  intros b Hb. destruct (Hh b Hb) as [? Hnot]. split; [done|]. unfold in_log in *. by rewrite Es, Ez.
Qed.

Section recover.
Context (l : logstate) (d : list (list Z)) (s : kstate) (e : list (kstate → kstate)) (hd : list Z).
Hypothesis Hwf : log_wf l (length d).
Hypothesis Hb : booted l d s.
Hypothesis Hhd : d !! Z.to_nat l.(lg_start) = Some hd.
#[local] Notation n := (Z.to_nat l.(lg_lh).(lh_n)).

Lemma boot_content m : 0 ≤ m < Z.of_nat (length d) → d !! Z.to_nat m = Some (content s.(k_fs) m).
Proof.
  intros Hm. destruct Hb. subst d. by apply content_disk.
Qed.

Lemma boot_head : content s.(k_fs) s.(k_fs).(fs_log).(lg_start) = hd.
Proof.
  rewrite (bt_start _ _ _ Hb). pose proof (lw_start _ _ Hwf). pose proof (lw_area _ _ Hwf).
  pose proof (lw_n _ _ Hwf). rewrite (boot_content l.(lg_start)) in Hhd by lia. by simplify_eq.
Qed.

(** Recovery when the header on disk is that of transaction [l']. *)
Lemma recover_header l' :
  log_wf l' (length d) → l'.(lg_dev) = l.(lg_dev) → l'.(lg_start) = l.(lg_start) → l'.(lg_size) = l.(lg_size) →
  head_n hd = l'.(lg_lh).(lh_n) →
  (∀ i, (i < Z.to_nat l'.(lg_lh).(lh_n))%nat → s32 (word hd (S i)) = bno l' i) →
  ∃ s', recover_from_log s e = Ret tt s' e ∧
        ∀ m, home l d m →
          (m ∉ logged l' → s'.(k_fs).(fs_disk) !! Z.to_nat m = d !! Z.to_nat m) ∧
          (∀ i, (i < Z.to_nat l'.(lg_lh).(lh_n))%nat → m = bno l' i →
             s'.(k_fs).(fs_disk) !! Z.to_nat m = d !! Z.to_nat (log_at l' i)).
Proof.
  intros Hwf' Ed Es Ez En Ew. pose proof Hb as [Hc Hcl Hdk Hdev Hst Hsz Hbl].
  pose proof (lw_n _ _ Hwf'). pose proof (lw_nbuf _ _ Hwf'). pose proof (lw_start _ _ Hwf'). pose proof (lw_area _ _ Hwf').
  assert (s.(k_fs).(fs_log).(lg_dev) = 1) as Hdev1 by (rewrite Hdev, <- Ed; apply Hwf').
  pose proof boot_head as Hbh. unfold NBUF, LOGSIZE, MAXOPBLOCKS in *.
  set (lb := s.(k_fs).(fs_log)) in *.
  assert (0 ≤ head_n hd ≤ 30) as Hhn by (rewrite En; lia).
  destruct (load_words_spec hd (Z.to_nat (head_n hd)) (set_n (head_n hd) lb)) as (L1 & L2 & L3 & L4 & L5 & L6).
  { simpl. rewrite Hbl. lia. }
  fold (loaded hd lb) in L1, L2, L3, L4, L5, L6. cbn [set_n set_lg_lh set_lh_n lg_dev lg_start lg_size lg_lh lh_n lh_block] in L1, L2, L3, L4, L5.
  assert (∀ i, (i < Z.to_nat l'.(lg_lh).(lh_n))%nat → bno (loaded hd lb) i = bno l' i) as Hbno.
  { intros i Hi. rewrite L6 by (rewrite En; done). by apply Ew. }
  assert (log_wf (loaded hd lb) (length d)) as Hwfl.
  { apply (log_wf_same l'); try done; unfold LOGSIZE, MAXOPBLOCKS; congruence. }
  destruct (recover_run s e) as (s' & Hrun & Hdisk); try done.
  { unfold in_disk. rewrite Hdk. fold lb. lia. }
  { fold lb. rewrite Hbh. exact Hhn. }
  { fold lb. by rewrite Hbh, Hdk. }
  exists s'. split; [done|]. intros m [Hm Hnl]. fold lb in Hdisk. rewrite Hbh, Hdk in Hdisk.
  rewrite Hdisk, disk_after_app. simpl. rewrite list_lookup_insert_ne.
  2: { intros Heq. apply Hnl. unfold in_log. lia. }
  rewrite En. split.
  - intros Hnot. apply disk_after_not; [lia|]. intros k Hk. rewrite Hbno by done.
    assert (bno l' k ∈ logged l') as Hin by (apply (bno_logged l' s); [by rewrite Hdk|done]).
    split; [by apply (lw_home _ _ Hwf')|]. intros Heq. apply Hnot. by rewrite <- Heq.
  - intros i Hi ->. rewrite <- Hbno by done.
    rewrite (disk_after_in d (bno (loaded hd lb)) (λ i, content s.(k_fs) (log_at lb i))); [| | |done].
    + symmetry. replace (log_at l' i) with (log_at lb i) by (unfold log_at; lia). apply boot_content.
      unfold log_at. lia.
    + intros k k' Hk Hk'. rewrite !Hbno by done. apply (bno_inj l' s); [by rewrite Hdk|done..].
    + intros k Hk. rewrite Hbno by done. apply (lw_home _ _ Hwf').
      apply (bno_logged l' s); [by rewrite Hdk|done].
Qed.

End recover.

(** ** The points at which a commit can be cut *)

Section crash.
Context (s : kstate).
Hypothesis Hcm : committing s.
#[local] Notation f := s.(k_fs).
#[local] Notation d := s.(k_fs).(fs_disk).
#[local] Notation l := s.(k_fs).(fs_log).
#[local] Notation st := l.(lg_start).
#[local] Notation n := (Z.to_nat l.(lg_lh).(lh_n)).
#[local] Notation hd0 := (content f st).
#[local] Notation hd1 := (head_block l hd0).

(** The writes to the log area, and to the first [j] home blocks. *)
Definition to_log (j : nat) : list (Z * list Z) := (λ i, (log_at l i, content f (bno l i))) <$> seq 0 j.
Definition to_home (j : nat) : list (Z * list Z) := (λ i, (bno l i, content f (bno l i))) <$> seq 0 j.

(** What recovery leaves: the old contents of every block, or the new ones. *)
Definition old_state (d' : list (list Z)) : Prop := ∀ m, home l d m → d' !! Z.to_nat m = d !! Z.to_nat m.
Definition new_state (d' : list (list Z)) : Prop :=
  ∀ m, home l d m → d' !! Z.to_nat m = Some (content f m).

Lemma wf_log : log_wf l (length d).
Proof. apply Hcm. Qed.

Lemma head_old : d !! Z.to_nat st = Some hd0 ∧ head_n hd0 = 0.
Proof.
  split; [|unfold head_n; by rewrite (cm_clear _ Hcm)].
  apply content_disk; [apply Hcm|by apply (start_in_disk l s wf_log)|].
  intros Hp%(cm_pinned _ Hcm). revert Hp. apply (start_not_logged l s wf_log).
Qed.

Lemma bno_s32 i : (i < n)%nat → is_u32 (bno l i) ∧ is_s32 (bno l i).
Proof.
  intros Hi. pose proof (bno_range l s wf_log i Hi). pose proof (cm_size _ Hcm).
  unfold is_u32, is_s32. lia.
Qed.

Lemma head_new : head_n hd1 = l.(lg_lh).(lh_n) ∧ length hd1 = Z.to_nat BSIZE ∧
  ∀ i, (i < n)%nat → s32 (word hd1 (S i)) = bno l i.
Proof.
  pose proof (n_bound l s wf_log) as (_ & Hn & _). pose proof (lw_n _ _ wf_log) as [Hn0 _].
  pose proof (cm_head _ Hcm) as Hlen. unfold LOGSIZE, MAXOPBLOCKS, BSIZE in *. unfold head_block.
  destruct (head_words_spec l n (set_word 0 l.(lg_lh).(lh_n) hd0)) as (H1 & H2 & H3).
  { rewrite length_set_word; lia. }
  { intros i Hi. by apply bno_s32. }
  split_and!.
  - unfold head_n. rewrite H2, word_set_word_eq by (unfold is_u32; lia). apply s32_id. unfold is_s32. lia.
  - rewrite H1, length_set_word by lia. done.
  - intros i Hi. rewrite H3 by done. by apply s32_id, bno_s32.
Qed.

Lemma home_not_log m i : home l d m → (i < n)%nat → log_at l i ≠ m.
Proof. intros [_ Hm] Hi <-. by apply Hm, (log_at_range l s wf_log). Qed.

Lemma home_not_start m : home l d m → st ≠ m.
Proof. intros [_ Hm] <-. apply Hm. pose proof (lw_n _ _ wf_log). unfold in_log. lia. Qed.

Lemma to_log_out j m : (j ≤ n)%nat → 0 ≤ m → (∀ i, (i < j)%nat → log_at l i ≠ m) →
  disk_after d (to_log j) !! Z.to_nat m = d !! Z.to_nat m.
Proof.
  intros Hj Hm Hne. apply disk_after_not; [done|]. intros k Hk.
  split; [by apply (log_at_range l s wf_log); lia|by apply Hne].
Qed.

(** The blocks once the log, the header [hd] and [j] home blocks are written. *)
Lemma after_home hd j :
  (j ≤ n)%nat →
  let d' := disk_after d (to_log n ++ [(st, hd)] ++ to_home j) in
  d' !! Z.to_nat st = Some hd ∧
  (∀ i, (i < n)%nat → d' !! Z.to_nat (log_at l i) = Some (content f (bno l i))) ∧
  (∀ m, home l d m → m ∉ logged l → d' !! Z.to_nat m = Some (content f m)) ∧
  (∀ i, (i < j)%nat → d' !! Z.to_nat (bno l i) = Some (content f (bno l i))).
Proof.
  intros Hj d'. pose proof (start_in_disk l s wf_log) as [Hst0 Hst1]. unfold d'.
  rewrite disk_after_app, disk_after_app. simpl. set (d1 := disk_after d (to_log n)).
  assert (length d1 = length d) as Hl1 by apply length_disk_after.
  assert (∀ k, (k < j)%nat → 0 ≤ bno l k < Z.of_nat (length d)) as Hbr.
  { intros k Hk. apply (bno_range l s wf_log). lia. }
  assert (∀ m, 0 ≤ m → (∀ k, (k < j)%nat → bno l k ≠ m) → st ≠ m →
    disk_after (<[Z.to_nat st := hd]> d1) (to_home j) !! Z.to_nat m = d1 !! Z.to_nat m) as Hout.
  { intros m Hm Hne Hsm. unfold to_home. rewrite disk_after_not; [|done|].
    - rewrite list_lookup_insert_ne; [done|lia].
    - intros k Hk. split; [by apply Hbr|by apply Hne]. }
  split_and!.
  - unfold to_home. rewrite disk_after_not; [|lia|].
    + apply list_lookup_insert_eq. lia.
    + intros k Hk. split; [by apply Hbr|]. intros Heq. apply (start_not_logged l s wf_log).
      rewrite <- Heq. apply (bno_logged l s wf_log). lia.
  - intros i Hi. pose proof (log_at_range l s wf_log i Hi). rewrite Hout; [|lia| |apply start_not_log_at].
    + apply disk_after_in; [unfold log_at; lia| |done]. intros k Hk. by apply (log_at_range l s wf_log).
    + intros k Hk. apply (bno_log_at l s wf_log); lia.
  - intros m Hm Hnot. pose proof Hm as [Hr _]. rewrite Hout; [|lia| |by apply home_not_start].
    + unfold d1. rewrite to_log_out; [|lia|lia|intros; by apply home_not_log].
      apply content_disk; [apply Hcm|done|]. by rewrite (cm_pinned _ Hcm).
    + intros k Hk <-. apply Hnot, (bno_logged l s wf_log). lia.
  - intros i Hi. apply disk_after_in; [| |done].
    + intros k k' Hk Hk'. apply (bno_inj l s wf_log); lia.
    + intros k Hk. rewrite length_insert, Hl1. by apply Hbr.
Qed.

Lemma home_length d' m : length d' = length d → home l d m → home l d' m.
Proof. intros Hl. unfold home. by rewrite Hl. Qed.

(** A header with no blocks: recovery changes nothing outside the log. *)
Lemma recover_clear d' hd sb eb :
  length d' = length d → booted l d' sb → d' !! Z.to_nat st = Some hd → head_n hd = 0 →
  ∃ sr, recover_from_log sb eb = Ret tt sr eb ∧
        ∀ m, home l d m → sr.(k_fs).(fs_disk) !! Z.to_nat m = d' !! Z.to_nat m.
Proof.
  intros Hlen Hb Hhd Hn. pose proof wf_log as Hwf. rewrite <- Hlen in Hwf.
  destruct (recover_header l d' sb eb hd Hwf Hb Hhd (set_n 0 l)) as (sr & Hrun & Hsr); try done.
  { by apply log_wf_cleared. }
  { simpl. lia. }
  exists sr. split; [done|]. intros m Hm. apply (Hsr m); [by apply home_length|apply not_elem_of_nil].
Qed.

Lemma cut_in_log j sb eb :
  (j ≤ n)%nat → booted l (disk_after d (to_log j)) sb →
  ∃ sr, recover_from_log sb eb = Ret tt sr eb ∧ old_state sr.(k_fs).(fs_disk).
Proof.
  intros Hj Hb. destruct head_old as [Hhd Hn0]. pose proof (lw_start _ _ wf_log).
  destruct (recover_clear (disk_after d (to_log j)) hd0 sb eb) as (sr & Hrun & Hsr); try done.
  { apply length_disk_after. }
  { rewrite to_log_out; try done. intros i _. apply not_eq_sym, start_not_log_at. }
  exists sr. split; [done|]. intros m Hm. rewrite Hsr by done. pose proof Hm as [Hr _].
  apply to_log_out; [done|lia|]. intros i Hi. apply home_not_log; [done|lia].
Qed.

Lemma cut_in_home j sb eb :
  (j ≤ n)%nat → booted l (disk_after d (to_log n ++ [(st, hd1)] ++ to_home j)) sb →
  ∃ sr, recover_from_log sb eb = Ret tt sr eb ∧ new_state sr.(k_fs).(fs_disk).
Proof.
  intros Hj Hb. destruct (after_home hd1 j Hj) as (Hhd & Hlog & Hout & _). destruct head_new as (Hn & _ & Hw).
  set (d' := disk_after d _) in *. assert (length d' = length d) as Hlen by apply length_disk_after.
  pose proof wf_log as Hwf. rewrite <- Hlen in Hwf.
  destruct (recover_header l d' sb eb hd1 Hwf Hb Hhd l) as (sr & Hrun & Hsr); try done.
  exists sr. split; [done|]. intros m Hm. destruct (Hsr m) as [Hsame Hnew]; [by apply home_length|].
  destruct (decide (m ∈ logged l)) as [Hin|Hnot].
  - apply (logged_bno l s wf_log) in Hin as (i & Hi & ->). rewrite (Hnew i Hi eq_refl). by apply Hlog.
  - rewrite (Hsame Hnot). by apply Hout.
Qed.

Lemma commit_writes_eq :
  commit_writes l f = (to_log n ++ [(st, hd1)] ++ to_home n) ++ [(st, set_word 0 0 hd1)].
Proof. unfold commit_writes. cbv zeta. by rewrite <- !app_assoc. Qed.

Lemma committed : new_state (disk_after d (commit_writes l f)).
Proof.
  intros m Hm. destruct (after_home hd1 n) as (_ & _ & Hout & Hin); [done|].
  rewrite commit_writes_eq, disk_after_app. set (d' := disk_after d _) in *. simpl.
  pose proof (home_not_start m Hm). pose proof (lw_start _ _ wf_log). pose proof Hm as [? _].
  rewrite list_lookup_insert_ne by lia. destruct (decide (m ∈ logged l)) as [Hl|Hnot]; [|by apply Hout].
  apply (logged_bno l s wf_log) in Hl as (i & Hi & ->). by apply Hin.
Qed.

Lemma cut_done sb eb :
  booted l (disk_after d (commit_writes l f)) sb →
  ∃ sr, recover_from_log sb eb = Ret tt sr eb ∧ new_state sr.(k_fs).(fs_disk).
Proof.
  intros Hb. destruct (recover_clear (disk_after d (commit_writes l f)) (set_word 0 0 hd1) sb eb)
    as (sr & Hrun & Hsr); try done.
  { apply length_disk_after. }
  { rewrite commit_writes_eq, disk_after_app. simpl. apply list_lookup_insert_eq.
    rewrite length_disk_after. pose proof (start_in_disk l s wf_log) as [? ?]. lia. }
  exists sr. split; [done|]. intros m Hm. rewrite Hsr by done. by apply committed.
Qed.

Lemma cut_anywhere ws1 sb eb :
  ws1 `prefix_of` commit_writes l f → booted l (disk_after d ws1) sb →
  ∃ sr, recover_from_log sb eb = Ret tt sr eb ∧
        (old_state sr.(k_fs).(fs_disk) ∨ new_state sr.(k_fs).(fs_disk)).
Proof.
  intros Hp Hb. rewrite commit_writes_eq, <- app_assoc in Hp.
  destruct (prefix_app_or _ _ _ Hp) as [Hp1|(p1 & -> & Hp1)].
  { apply prefix_fmap_seq in Hp1 as (j & Hj & ->).
    destruct (cut_in_log j sb eb Hj Hb) as (sr & ? & ?). eauto. }
  rewrite <- app_assoc in Hp1. destruct (prefix_app_or _ _ _ Hp1) as [[->| ->]%prefix_singleton|(p2 & -> & Hp2)].
  - rewrite app_nil_r in Hb. destruct (cut_in_log n sb eb) as (sr & ? & ?); eauto.
  - destruct (cut_in_home 0 sb eb) as (sr & ? & ?); [lia|done|]. eauto.
  - destruct (prefix_app_or _ _ _ Hp2) as [Hp3|(p3 & -> & [->| ->]%prefix_singleton)].
    + apply prefix_fmap_seq in Hp3 as (j & Hj & ->). destruct (cut_in_home j sb eb Hj Hb) as (sr & ? & ?). eauto.
    + rewrite app_nil_r in Hb. destruct (cut_in_home n sb eb) as (sr & ? & ?); eauto.
    + destruct (cut_done sb eb) as (sr & ? & ?); [|by eauto]. rewrite commit_writes_eq. by rewrite <- !app_assoc.
Qed.

End crash.

(** C3: commits are atomic.  From a state ready to commit, [commit] returns; the
    disk then holds, outside the log, what the kernel saw of every block, the
    transaction is over and no buffer is pinned.  And if the machine stops
    after any number of the writes [commit] makes, recovery at the next boot
    returns and leaves every block outside the log as it was before the
    commit, or every block as the transaction made it. *)
Theorem commit_atomic s e :
  committing s →
  let l := s.(k_fs).(fs_log) in
  let d := s.(k_fs).(fs_disk) in
  ∃ s' ws, commit s e = Ret tt s' e ∧ s'.(k_fs).(fs_writes) = s.(k_fs).(fs_writes) ++ ws ∧
    new_state s s'.(k_fs).(fs_disk) ∧ cache_ok ∅ s' ∧ (∀ m, ¬ pinned s'.(k_fs) m) ∧
    s'.(k_fs).(fs_log) = set_n 0 l ∧
    ∀ ws1 sb eb, ws1 `prefix_of` ws → booted l (disk_after d ws1) sb →
      ∃ sr, recover_from_log sb eb = Ret tt sr eb ∧
            (old_state s sr.(k_fs).(fs_disk) ∨ new_state s sr.(k_fs).(fs_disk)).
Proof.
  intros Hcm l d. destruct (decide (0 < l.(lg_lh).(lh_n))) as [Hn|Hn].
  - destruct (commit_run l s e) as (s' & Hrun & Hok & Hl & Hp & Hw & Hd); try (done || apply Hcm).
    exists s', (commit_writes l s.(k_fs)). split_and!; try done.
    + rewrite Hd. by apply committed.
    + intros. by eapply cut_anywhere.
  - assert (l.(lg_lh).(lh_n) = 0) as Hn0 by (pose proof (lw_n _ _ (cm_log _ Hcm)); unfold l in *; lia).
    assert (∀ m, ¬ pinned s.(k_fs) m) as Hp.
    { intros m Hm%(cm_pinned _ Hcm). fold l in Hm. unfold logged in Hm. rewrite Hn0 in Hm. by apply not_elem_of_nil in Hm. }
    exists s, []. split_and!; [| | |apply Hcm|done| |].
    + unfold commit, getlog. rewrite bind_gets. fold l. by rewrite Hn0.
    + by rewrite app_nil_r.
    + intros m [Hm _]. by apply content_disk; [apply Hcm|..].
    + unfold l. destruct (fs_log (k_fs s)) as [a b c g h [k m]]. simpl in *. unfold set_n. simpl. by rewrite <- Hn0.
    + intros ws1 sb eb ->%prefix_nil_inv Hb. destruct (cut_in_log s Hcm 0 sb eb) as (sr & ? & ?); [lia|done|]. eauto.
Qed.

(** An example: a transaction of one block, 35, on a disk of zeros. *)
Definition txn_buf : buf :=
  {| b_flags := 6; b_dev := 1; b_blockno := 35; b_refcnt := 0; b_data := replicate 512 7 |}.
Definition txn_state : kstate := with_log (λ _, txn_log 1 0) (cached_state txn_buf).
Definition boot_txn : kstate := with_log (λ _, txn_log 0 0) (cached_state zero_buf).

Lemma txn_length : length txn_state.(k_fs).(fs_disk) = Z.to_nat 1000.
Proof. exact (cached_state_length txn_buf). Qed.

Lemma txn_committing : committing txn_state.
Proof.
  split.
  - apply cache_ok_log, cached_state_ok. right. vm_compute. intuition congruence.
  - split; [reflexivity|vm_compute; discriminate|vm_compute; discriminate|reflexivity|done|done|apply NoDup_singleton|].
    intros b Hb. apply list_elem_of_singleton in Hb as ->. rewrite txn_length. unfold in_log. simpl lg_start. simpl lg_size. lia.
  - intros m. unfold pinned. change (logged _) with [35]. rewrite list_elem_of_singleton. split.
    + intros (i & b & Hb & H6 & <-). by apply cached_state_lookup in Hb as [[_ ->]| ->].
    + intros ->. by exists 0%nat, txn_buf.
  - rewrite txn_length. lia.
  - reflexivity.
  - reflexivity.
Qed.

Lemma commit_atomic_witness :
  committing txn_state ∧
  ∃ s' sr, commit txn_state [] = Ret tt s' [] ∧ s'.(k_fs).(fs_disk) !! 35%nat = Some (replicate 512 7) ∧
    recover_from_log boot_txn [] = Ret tt sr [] ∧
    (sr.(k_fs).(fs_disk) !! 35%nat = Some (replicate 512 0) ∨ sr.(k_fs).(fs_disk) !! 35%nat = Some (replicate 512 7)).
Proof.
  split; [exact txn_committing|].
  destruct (commit_atomic txn_state [] txn_committing) as (s' & ws & Hrun & _ & Hnew & _ & _ & _ & Hcut).
  assert (home (txn_log 1 0) txn_state.(k_fs).(fs_disk) 35) as Hh.
  { unfold home. rewrite txn_length. unfold in_log. simpl lg_start. simpl lg_size. lia. }
  destruct (Hcut [] boot_txn []) as (sr & Hrec & Hor); [apply prefix_nil| |].
  { split; try reflexivity; [apply cache_ok_log, cached_state_ok; by left|].
    intros m. exact (cached_state_clean m). }
  exists s', sr. split_and!; [exact Hrun|exact (Hnew 35 Hh)|exact Hrec|].
  destruct Hor as [Ho|Hn]; [left|right]; [exact (Ho 35 Hh)|exact (Hn 35 Hh)].
Defined.
