(* ===== verification/Inode.v ===== *)
(** * Block allocator and inodes (fs.c, first half) *)

From S2P Require Import Prelude KState Spinlock Print Mem Args Proc Sleeplock Bio Log.
#[local] Open Scope kernel_scope.

Definition I_VALID : Z := 2.

(** Buffers and inodes. *)
Definition bdata (i : nat) : K (list Z) := b <- getb i;; ret b.(b_data).
Definition modbdata (i : nat) (g : list Z → list Z) : K unit := modb i (λ b, set_b_data (g b.(b_data)) b).

Definition geti (ip : nat) : K inode := o <- gets (λ s, s.(k_fs).(fs_inodes) !! ip);; deref o.
Definition seti (ip : nat) (x : inode) : K unit :=
  modify (on_fs (λ f, set_fs_inodes (<[ip := x]> f.(fs_inodes)) f)).
Definition modi (ip : nat) (g : inode → inode) : K unit := x <- geti ip;; seti ip (g x).

Definition getsb : K superblock := gets (λ s, s.(k_fs).(fs_sb)).

(** [IBLOCK] and [BBLOCK]. *)
Definition IBLOCK (i : Z) (sb : superblock) : Z := i / IPB + sb.(sb_inodestart).
Definition BBLOCK (b : Z) (sb : superblock) : Z := b / BPB + sb.(sb_bmapstart).

(** ** Blocks *)

Definition bzero (dev bno : Z) : K unit :=
  bp <- bread dev bno;;
  modbdata bp (λ _, replicate (Z.to_nat BSIZE) 0);;
  log_write bp;;
  brelse bp.

(** Bit [bi] of a bitmap block. *)
Definition bit_set (d : list Z) (bi : nat) : bool :=
  truthy (Z.land (d !!! (bi / 8)%nat) (Z.shiftl 1 (Z.of_nat (bi mod 8)))).
Definition set_bit (bi : nat) (d : list Z) : list Z :=
  alter (λ c, Z.lor c (Z.shiftl 1 (Z.of_nat (bi mod 8)))) (bi / 8)%nat d.
Definition clear_bit (bi : nat) (d : list Z) : list Z :=
  alter (λ c, Z.land c (Z.lnot (Z.shiftl 1 (Z.of_nat (bi mod 8))))) (bi / 8)%nat d.

(** The inner loop of [balloc]: the first free bit of the bitmap block that
    describes the blocks from [b] on. *)
Definition free_bit (d : list Z) (b size : Z) : option nat :=
  snd <$> list_find (λ bi, b + Z.of_nat bi < size ∧ bit_set d bi = false) (seq 0 (Z.to_nat BPB)).

(** The body of [balloc]'s loop, on the bitmap block of the [k]-th group of
    [BPB] blocks. *)
Definition balloc_group (dev : Z) (sb : superblock) (k : nat) : K (option Z) :=
  let b := Z.of_nat k * BPB in
  bp <- bread dev (BBLOCK b sb);;
  d <- bdata bp;;
  match free_bit d b sb.(sb_size) with
  | Some bi =>
      modbdata bp (set_bit bi);;
      log_write bp;;
      brelse bp;;
      bzero dev (b + Z.of_nat bi);;
      ret (Some (b + Z.of_nat bi))
  | None => brelse bp;; ret None
  end.

Definition balloc (dev : Z) : K Z :=
  sb <- getsb;;
  r <- for_ret (seq 0 (Z.to_nat ((sb.(sb_size) + BPB - 1) / BPB))) (balloc_group dev sb);;
  match r with Some b => ret b | None => panic "balloc: out of blocks" end.

Definition bfree (dev b : Z) : K unit :=
  sb <- readsb dev;;
  modify (on_fs (set_fs_sb sb));;
  bp <- bread dev (BBLOCK b sb);;
  let bi := Z.to_nat (b mod BPB) in
  d <- bdata bp;;
  if negb (bit_set d bi) then panic "freeing free block" else
  modbdata bp (clear_bit bi);;
  log_write bp;;
  brelse bp.

(** ** Inodes on disk *)

Definition half (d : list Z) (off : nat) : Z := s16 (le_val (slice off 2 d)).
Definition word_at (d : list Z) (off : nat) : Z := le_val (slice off 4 d).

(** The offset of [struct dinode] [inum] in its block. *)
Definition dinode_off (inum : Z) : nat := Z.to_nat (64 * (inum mod IPB)).

(** Copy the fields of a [struct dinode] at [off] into an inode. *)
Definition load_dinode (d : list Z) (off : nat) (x : inode) : inode :=
  set_i_type (half d off) (set_i_major (half d (off + 2)) (set_i_minor (half d (off + 4))
    (set_i_nlink (half d (off + 6)) (set_i_size (word_at d (off + 8))
      (set_i_addrs ((λ k, word_at d (off + 12 + 4 * k)) <$> seq 0 (S NDIRECT)) x))))).

(** The bytes of a [struct dinode]. *)
Definition dinode_bytes (x : inode) : list Z :=
  le_bytes 2 x.(i_type) ++ le_bytes 2 x.(i_major) ++ le_bytes 2 x.(i_minor) ++ le_bytes 2 x.(i_nlink)
    ++ le_bytes 4 x.(i_size) ++ (x.(i_addrs) ≫= le_bytes 4).

Definition iinit (dev : Z) : K unit :=
  initlock Licache;;
  for_each (seq 0 NINODE) (λ i, initsleeplock (SLinode i));;
  sb <- readsb dev;;
  modify (on_fs (set_fs_sb sb));;
  cprintf ("sb: size %d nblocks %d ninodes %d nlog %d logstart %d inodestart %d bmap start %d" +:+ newline)
    [AInt sb.(sb_size); AInt sb.(sb_nblocks); AInt sb.(sb_ninodes); AInt sb.(sb_nlog);
     AInt sb.(sb_logstart); AInt sb.(sb_inodestart); AInt sb.(sb_bmapstart)].

(** The cache slot of an inode: the one in use for it, or the first free one. *)
Definition ifind (P : inode → bool) (xs : list inode) : option nat := fst <$> list_find P xs.

Definition iget (dev inum : Z) : K nat :=
  acquire Licache;;
  xs <- gets (λ s, s.(k_fs).(fs_inodes));;
  match ifind (λ x, (0 <? x.(i_ref)) && (x.(i_dev) =? dev) && (x.(i_inum) =? inum)) xs with
  | Some ip =>
      modi ip (λ x, set_i_ref (x.(i_ref) + 1) x);;
      release Licache;;
      ret ip
  | None =>
      match ifind (λ x, x.(i_ref) =? 0) xs with
      | None => panic "iget: no inodes"
      | Some ip =>
          modi ip (λ x, set_i_dev dev (set_i_inum inum (set_i_ref 1 (set_i_flags 0 x))));;
          release Licache;;
          ret ip
      end
  end.

Definition ialloc (dev type : Z) : K nat :=
  sb <- getsb;;
  r <- for_ret (seq 1 (Z.to_nat (sb.(sb_ninodes) - 1))) (λ inum,
         let inum := Z.of_nat inum in
         bp <- bread dev (IBLOCK inum sb);;
         d <- bdata bp;;
         if half d (dinode_off inum) =? 0 then
           modbdata bp (splice (dinode_off inum) (le_bytes 2 type ++ replicate 62 0));;
           log_write bp;;
           brelse bp;;
           ip <- iget dev inum;;
           ret (Some ip)
         else brelse bp;; ret None);;
  match r with Some ip => ret ip | None => panic "ialloc: no inodes" end.

Definition iupdate (ip : nat) : K unit :=
  x <- geti ip;;
  sb <- getsb;;
  bp <- bread x.(i_dev) (IBLOCK x.(i_inum) sb);;
  modbdata bp (splice (dinode_off x.(i_inum)) (dinode_bytes x));;
  log_write bp;;
  brelse bp.

Definition idup (ip : nat) : K nat :=
  acquire Licache;;
  modi ip (λ x, set_i_ref (x.(i_ref) + 1) x);;
  release Licache;;
  ret ip.

(** [ilock(ip)] and [iunlock(ip)] check for a null pointer. *)
Definition ilock (o : option nat) : K unit :=
  match o with
  | None => panic "ilock"
  | Some ip =>
      x <- geti ip;;
      if x.(i_ref) <? 1 then panic "ilock" else
      acquiresleep (SLinode ip);;
      x <- geti ip;;
      if truthy (Z.land x.(i_flags) I_VALID) then ret tt else
      sb <- getsb;;
      bp <- bread x.(i_dev) (IBLOCK x.(i_inum) sb);;
      d <- bdata bp;;
      modi ip (load_dinode d (dinode_off x.(i_inum)));;
      brelse bp;;
      modi ip (λ x, set_i_flags (Z.lor x.(i_flags) I_VALID) x);;
      x <- geti ip;;
      if x.(i_type) =? 0 then panic "ilock: no type" else ret tt
  end.

Definition iunlock (o : option nat) : K unit :=
  match o with
  | None => panic "iunlock"
  | Some ip =>
      h <- holdingsleep (SLinode ip);;
      if negb h then panic "iunlock" else
      x <- geti ip;;
      if x.(i_ref) <? 1 then panic "iunlock" else
      releasesleep (SLinode ip)
  end.

(** ** Inode content *)

Definition bmap (ip : nat) (bn : Z) : K Z :=
  if bn <? Z.of_nat NDIRECT then
    x <- geti ip;;
    let addr := x.(i_addrs) !!! Z.to_nat bn in
    if addr =? 0 then
      addr <- balloc x.(i_dev);;
      modi ip (λ x, set_i_addrs (<[Z.to_nat bn := addr]> x.(i_addrs)) x);;
      ret addr
    else ret addr
  else
    let bn := bn - Z.of_nat NDIRECT in
    if bn <? Z.of_nat NINDIRECT then
      x <- geti ip;;
      let addr0 := x.(i_addrs) !!! NDIRECT in
      addr1 <- (if addr0 =? 0 then
                  addr <- balloc x.(i_dev);;
                  modi ip (λ x, set_i_addrs (<[NDIRECT := addr]> x.(i_addrs)) x);;
                  ret addr
                else ret addr0);;
      bp <- bread x.(i_dev) addr1;;
      d <- bdata bp;;
      let a := word d (Z.to_nat bn) in
      addr <- (if a =? 0 then
                 addr <- balloc x.(i_dev);;
                 modbdata bp (set_word (Z.to_nat bn) addr);;
                 log_write bp;;
                 ret addr
               else ret a);;
      brelse bp;;
      ret addr
    else panic "bmap: out of range".

Definition itrunc (ip : nat) : K unit :=
  for_each (seq 0 NDIRECT) (λ i,
    x <- geti ip;;
    let a := x.(i_addrs) !!! i in
    if truthy a then
      bfree x.(i_dev) a;;
      modi ip (λ x, set_i_addrs (<[i := 0]> x.(i_addrs)) x)
    else ret tt);;
  x <- geti ip;;
  let a := x.(i_addrs) !!! NDIRECT in
  (if truthy a then
     bp <- bread x.(i_dev) a;;
     for_each (seq 0 NINDIRECT) (λ j,
       d <- bdata bp;;
       if truthy (word d j) then bfree x.(i_dev) (word d j) else ret tt);;
     brelse bp;;
     bfree x.(i_dev) a;;
     modi ip (λ x, set_i_addrs (<[NDIRECT := 0]> x.(i_addrs)) x)
   else ret tt);;
  modi ip (set_i_size 0);;
  iupdate ip.

Definition iput (ip : nat) : K unit :=
  acquire Licache;;
  x <- geti ip;;
  (if (x.(i_ref) =? 1) && truthy (Z.land x.(i_flags) I_VALID) && (x.(i_nlink) =? 0) then
     release Licache;;
     itrunc ip;;
     modi ip (set_i_type 0);;
     iupdate ip;;
     acquire Licache;;
     modi ip (set_i_flags 0)
   else ret tt);;
  modi ip (λ x, set_i_ref (x.(i_ref) - 1) x);;
  release Licache.

Definition iunlockput (ip : nat) : K unit := iunlock (Some ip);; iput ip.

(** [struct stat], in the order [stati] fills it. *)
Record stat : Type := Mkstat {
  st_type : Z; st_dev : Z; st_ino : Z; st_nlink : Z; st_size : Z
}.

Definition stati (ip : nat) : K stat :=
  x <- geti ip;;
  ret {| st_type := x.(i_type); st_dev := x.(i_dev); st_ino := x.(i_inum);
         st_nlink := x.(i_nlink); st_size := x.(i_size) |}.

(** ** Correctness of the block allocator *)

Lemma truthy_bit x k : 0 ≤ k → truthy (Z.land x (Z.shiftl 1 k)) = Z.testbit x k.
Proof.
  intros Hk. rewrite Z.shiftl_1_l. unfold truthy. destruct (Z.testbit x k) eqn:E.
  - apply negb_true_iff, Z.eqb_neq. intros H. apply (f_equal (λ z, Z.testbit z k)) in H.
    rewrite Z.land_spec, E, Z.pow2_bits_true, Z.bits_0 in H; done.
  - apply negb_false_iff, Z.eqb_eq, Z.bits_inj'. intros n Hn. rewrite Z.land_spec, Z.bits_0.
    destruct (decide (k = n)) as [->|]; [by rewrite E|]. by rewrite Z.pow2_bits_false, andb_false_r.
Qed.

Lemma bit_set_testbit d bi : bit_set d bi = Z.testbit (d !!! (bi / 8)%nat) (Z.of_nat (bi mod 8)).
Proof. apply truthy_bit. lia. Qed.

Lemma lookup_total_alter_ne `{Inhabited A} (f : A → A) (l : list A) i j :
  i ≠ j → alter f i l !!! j = l !!! j.
Proof. intros. by rewrite !list_lookup_total_alt, list_lookup_alter_ne. Qed.

Lemma lookup_total_alter_eq `{Inhabited A} (f : A → A) (l : list A) i :
  (i < length l)%nat → alter f i l !!! i = f (l !!! i).
Proof.
  intros [x Hx]%lookup_lt_is_Some_2. by rewrite !list_lookup_total_alt, list_lookup_alter_eq, Hx.
Qed.

(** Changing bit [bi] of a block with [f]. *)
Lemma bit_set_alter (f : Z → Z) (v : bool) d bi bj :
  length d = Z.to_nat BSIZE → (bi < Z.to_nat BPB)%nat →
  (∀ c k, 0 ≤ k → Z.testbit (f c) k = if decide (k = Z.of_nat (bi mod 8)) then v else Z.testbit c k) →
  bit_set (alter f (bi / 8)%nat d) bj = if decide (bj = bi) then v else bit_set d bj.
Proof.
  intros Hd Hbi Hf. rewrite !bit_set_testbit.
  assert (bi / 8 < length d)%nat as Hlt by (rewrite Hd; apply Nat.Div0.div_lt_upper_bound; exact Hbi).
  destruct (decide (bj / 8 = bi / 8)%nat) as [Eq|Ne].
  - rewrite Eq, lookup_total_alter_eq, Hf by (done || lia).
    assert (Z.of_nat (bj mod 8) = Z.of_nat (bi mod 8) ↔ bj = bi) as Hiff.
    { split; [|by intros ->]. intros E%Nat2Z.inj.
      rewrite (Nat.div_mod_eq bj 8), (Nat.div_mod_eq bi 8). lia. }
    by destruct (decide (bj = bi)), (decide (Z.of_nat (bj mod 8) = _)); try tauto.
  - rewrite lookup_total_alter_ne by done. rewrite decide_False; [done|congruence].
Qed.

Lemma bit_set_set_bit d bi bj :
  length d = Z.to_nat BSIZE → (bi < Z.to_nat BPB)%nat →
  bit_set (set_bit bi d) bj = if decide (bj = bi) then true else bit_set d bj.
Proof.
  intros Hd Hbi. apply bit_set_alter; [done..|]. intros c k Hk. rewrite Z.lor_spec, Z.shiftl_1_l.
  case_decide as E; [by rewrite <- E, Z.pow2_bits_true, orb_true_r|by rewrite Z.pow2_bits_false, orb_false_r].
Qed.

Lemma bit_set_clear_bit d bi bj :
  length d = Z.to_nat BSIZE → (bi < Z.to_nat BPB)%nat →
  bit_set (clear_bit bi d) bj = if decide (bj = bi) then false else bit_set d bj.
Proof.
  intros Hd Hbi. apply bit_set_alter; [done..|]. intros c k Hk.
  rewrite Z.land_spec, Z.lnot_spec, Z.shiftl_1_l by done.
  case_decide as E; [by rewrite <- E, Z.pow2_bits_true, andb_false_r|by rewrite Z.pow2_bits_false, andb_true_r].
Qed.

Lemma free_bit_Some d b size bi :
  free_bit d b size = Some bi →
  (bi < Z.to_nat BPB)%nat ∧ b + Z.of_nat bi < size ∧ bit_set d bi = false ∧
  ∀ bj, (bj < bi)%nat → bit_set d bj = true.
Proof.
  unfold free_bit. intros ([k bi'] & (Hl & [Hlt Hbit] & Hmin)%list_find_Some & E)%fmap_Some. simpl in E. subst bi'.
  apply lookup_seq in Hl as [-> Hk]. simpl. split_and!; try done.
  intros bj Hj. destruct (bit_set d bj) eqn:E; [done|]. exfalso.
  apply (Hmin bj bj); [apply lookup_seq; split; lia|done|split; [lia|done]].
Qed.

Lemma free_bit_None d b size bi :
  free_bit d b size = None → (bi < Z.to_nat BPB)%nat → b + Z.of_nat bi < size → bit_set d bi = true.
Proof.
  unfold free_bit. intros Hn%fmap_None%list_find_None Hbi Hlt. rewrite Forall_forall in Hn.
  destruct (bit_set d bi) eqn:E; [done|]. exfalso. apply (Hn bi); [apply elem_of_seq; lia|done].
Qed.

(** Whether the bitmap marks block [b] as used. *)
Definition in_use (f : fsstate) (b : Z) : bool :=
  bit_set (content f (BBLOCK b f.(fs_sb))) (Z.to_nat (b mod BPB)).

(** The bitmap blocks are whole blocks of the disk outside the log. *)
Definition bitmap_ok (f : fsstate) : Prop :=
  0 ≤ f.(fs_sb).(sb_size) ≤ Z.of_nat (length f.(fs_disk)) ∧
  ∀ b, 0 ≤ b < f.(fs_sb).(sb_size) →
    in_disk f (BBLOCK b f.(fs_sb)) ∧ ¬ in_log f.(fs_log) (BBLOCK b f.(fs_sb)) ∧
    length (content f (BBLOCK b f.(fs_sb))) = Z.to_nat BSIZE.

(** The log and the bitmap are marked as used. *)
Definition metadata_used (f : fsstate) : Prop :=
  ∀ b, 0 ≤ b < f.(fs_sb).(sb_size) → in_use f b = false →
    ¬ in_log f.(fs_log) b ∧ ∀ b', 0 ≤ b' < f.(fs_sb).(sb_size) → BBLOCK b' f.(fs_sb) ≠ b.

(** [s'] is [s] after the free block [b] has been marked as used and zeroed. *)
Record allocated (b : Z) (s s' : kstate) : Prop := {
  al_inv : log_inv ∅ s';
  al_zero : content s'.(k_fs) b = replicate (Z.to_nat BSIZE) 0;
  al_map : ∀ b', 0 ≤ b' < s.(k_fs).(fs_sb).(sb_size) →
             in_use s'.(k_fs) b' = if decide (b' = b) then true else in_use s.(k_fs) b';
  al_other : ∀ m, 0 ≤ m → m ≠ b → m ≠ BBLOCK b s.(k_fs).(fs_sb) → content s'.(k_fs) m = content s.(k_fs) m;
  al_log : s'.(k_fs).(fs_log) = record_block b (record_block (BBLOCK b s.(k_fs).(fs_sb)) s.(k_fs).(fs_log));
  al_len : length (content s'.(k_fs) (BBLOCK b s.(k_fs).(fs_sb))) = Z.to_nat BSIZE;
  al_fs : s'.(k_fs).(fs_sb) = s.(k_fs).(fs_sb) ∧ s'.(k_fs).(fs_inodes) = s.(k_fs).(fs_inodes) ∧
          s'.(k_fs).(fs_disk) = s.(k_fs).(fs_disk)
}.

(** [s'] differs from [s] in the cache only. *)
Definition unchanged (s s' : kstate) : Prop :=
  fs_quiet s.(k_fs) s'.(k_fs) ∧ ∀ m, 0 ≤ m → content s'.(k_fs) m = content s.(k_fs) m.

Lemma unchanged_trans s s' s'' : unchanged s s' → unchanged s' s'' → unchanged s s''.
Proof.
  intros [Hq Hv] [Hq' Hv']. split; [by eapply fs_quiet_trans|]. intros m Hm. by rewrite Hv', Hv.
Qed.

Lemma unchanged_in_use s s' b :
  unchanged s s' → bitmap_ok s.(k_fs) → 0 ≤ b < s.(k_fs).(fs_sb).(sb_size) → in_use s'.(k_fs) b = in_use s.(k_fs) b.
Proof.
  intros [Hq Hv] Hok Hb. destruct (quiet_frame _ _ Hq) as ((_ & Hsb & _) & _).
  unfold in_use. rewrite Hsb, Hv; [done|]. by apply Hok.
Qed.

Lemma unchanged_bitmap s s' : unchanged s s' → bitmap_ok s.(k_fs) → bitmap_ok s'.(k_fs).
Proof.
  intros [Hq Hv] [Hsz Hm]. destruct (quiet_frame _ _ Hq) as ((Hl & Hsb & _) & Hd & _).
  unfold bitmap_ok, in_disk in *. rewrite Hsb, Hd, Hl. split; [done|]. intros b Hb.
  destruct (Hm b Hb) as ((? & ?) & ? & ?). by rewrite Hv.
Qed.

Lemma unchanged_metadata s s' :
  unchanged s s' → bitmap_ok s.(k_fs) → metadata_used s.(k_fs) → metadata_used s'.(k_fs).
Proof.
  intros Hu Hok Hm. pose proof Hu as [Hq _]. destruct (quiet_frame _ _ Hq) as ((Hl & Hsb & _) & _).
  unfold metadata_used. rewrite Hsb, Hl. intros b Hb. rewrite (unchanged_in_use s s' b Hu Hok Hb). by apply Hm.
Qed.

Lemma unchanged_allocated s s1 s' b :
  unchanged s s1 → bitmap_ok s.(k_fs) → 0 ≤ b < s.(k_fs).(fs_sb).(sb_size) → allocated b s1 s' → allocated b s s'.
Proof.
  intros Hu Hok Hb [Hinv Hz Hm Ho Hl Hlen (Hsb & Hi & Hd)]. pose proof Hu as [Hq Hv].
  destruct (quiet_frame _ _ Hq) as ((Hl1 & Hsb1 & Hi1 & _) & Hd1 & _). rewrite Hsb1 in *.
  split; try done.
  - intros b' Hb'. by rewrite Hm, (unchanged_in_use s s1) by done.
  - intros m ???. by rewrite Ho, Hv.
  - by rewrite Hl, Hl1.
  - split_and!; congruence.
Qed.

Lemma held_bdata i n s s1 e :
  held_block i n s s1 → 0 ≤ n → bdata i s1 e = Ret (content s.(k_fs) n) s1 e.
Proof.
  intros Hh Hn. destruct (held_getb i n s s1 e Hh Hn) as (b & Hg & <-). unfold bdata. by mstep Hg.
Qed.

Lemma BBLOCK_group k sb bi :
  (bi < Z.to_nat BPB)%nat →
  BBLOCK (Z.of_nat k * BPB + Z.of_nat bi) sb = BBLOCK (Z.of_nat k * BPB) sb ∧
  Z.to_nat ((Z.of_nat k * BPB + Z.of_nat bi) mod BPB) = bi.
Proof.
  intros Hbi. unfold BBLOCK, BPB in *. rewrite Z.div_mul by done.
  split; [f_equal; symmetry; apply (Z.div_unique _ _ _ (Z.of_nat bi)); lia|].
  rewrite Z.add_comm, Z.mod_add, Z.mod_small by lia. lia.
Qed.

(** Two blocks of a group differ in their bits. *)
Lemma group_bit_eq b b' sb :
  BBLOCK b sb = BBLOCK b' sb → Z.to_nat (b mod BPB) = Z.to_nat (b' mod BPB) ↔ b = b'.
Proof.
  unfold BBLOCK. intros Eq. split; [|by intros ->]. intros E.
  rewrite (Z.div_mod b BPB), (Z.div_mod b' BPB) by done.
  pose proof (Z.mod_pos_bound b' BPB eq_refl). pose proof (Z.mod_pos_bound b BPB eq_refl). lia.
Qed.

(** A group's blocks are [k * BPB + bi]. *)
Lemma group_block k b :
  Z.of_nat k * BPB ≤ b < Z.of_nat (S k) * BPB → ∃ bi, b = Z.of_nat k * BPB + Z.of_nat bi ∧ (bi < Z.to_nat BPB)%nat.
Proof. unfold BPB. intros Hb. exists (Z.to_nat (b - Z.of_nat k * 4096)). lia. Qed.

Lemma in_use_group f k bi :
  (bi < Z.to_nat BPB)%nat →
  in_use f (Z.of_nat k * BPB + Z.of_nat bi) = bit_set (content f (BBLOCK (Z.of_nat k * BPB) f.(fs_sb))) bi.
Proof. intros Hbi. unfold in_use. by destruct (BBLOCK_group k f.(fs_sb) bi Hbi) as [-> ->]. Qed.

Section balloc.
Context (s : kstate) (e : list (kstate → kstate)).
#[local] Notation f := s.(k_fs).
#[local] Notation sb := f.(fs_sb).
Hypothesis Hinv : log_inv ∅ s.
Hypothesis Hmap : bitmap_ok f.
Hypothesis Hmeta : metadata_used f.
Hypothesis Hsize : f.(fs_log).(lg_size) ≤ LOGSIZE.
Hypothesis Hout : 1 ≤ f.(fs_log).(lg_outstanding).
Hypothesis Hn : f.(fs_log).(lg_lh).(lh_n) < f.(fs_log).(lg_size) - 2.

Lemma log_room_record m : log_room (record_block m f.(fs_log)).
Proof. unfold log_room, record_block. case_decide; simpl; lia. Qed.

Lemma in_log_record l m n : in_log (record_block m l) n ↔ in_log l n.
Proof. unfold in_log, record_block. by case_decide. Qed.

(** Marking and zeroing the free block [bi] of group [k]. *)
Lemma allocated_group k bi s1 s2 :
  let b := Z.of_nat k * BPB + Z.of_nat bi in
  (bi < Z.to_nat BPB)%nat → 0 ≤ b < sb.(sb_size) → in_use f b = false →
  block_updated (BBLOCK b sb) (set_bit bi (content f (BBLOCK b sb))) s s1 →
  block_updated b (replicate (Z.to_nat BSIZE) 0) s1 s2 → allocated b s s2.
Proof.
  intros b Hbi Hb Hfree [Hinv1 Hd1 Ho1 Hl1 (bufs & lru & Hf1) _] [Hinv2 Hd2 Ho2 Hl2 (bufs2 & lru2 & Hf2) _].
  destruct (Hmeta b Hb Hfree) as [Hnl Hnb]. assert (s1.(k_fs).(fs_sb) = sb) as Hsb1 by (by rewrite Hf1).
  assert (s2.(k_fs).(fs_sb) = sb) as Hsb2 by (by rewrite Hf2, Hf1).
  destruct (BBLOCK_group k sb bi Hbi) as [_ Hbm]. fold b in Hbm.
  destruct (proj2 Hmap b Hb) as ([? _] & _ & Hlen).
  split; [done|done| | |by rewrite Hl2, Hl1| |by rewrite Hf2, Hf1].
  - intros b' Hb'. unfold in_use. rewrite Hsb2. destruct (proj2 Hmap b' Hb') as ([? _] & _ & _).
    rewrite Ho2 by (done || by apply Hnb). destruct (decide (BBLOCK b' sb = BBLOCK b sb)) as [Eq|Ne].
    + rewrite Eq, Hd1, bit_set_set_bit by done.
      rewrite <- Hbm. by rewrite (decide_ext _ _ _ _ (group_bit_eq b' b sb Eq)).
    + rewrite Ho1 by done. rewrite decide_False; [done|congruence].
  - intros m Hm Hne Hne'. by rewrite Ho2, Ho1.
  - rewrite Ho2 by (done || by apply Hnb). rewrite Hd1. unfold set_bit. by rewrite length_alter.
Qed.

Lemma balloc_group_run k :
  Z.of_nat k * BPB < sb.(sb_size) →
  (∃ b s', balloc_group 1 sb k s e = Ret (Some b) s' e ∧ 0 ≤ b < sb.(sb_size) ∧ in_use f b = false ∧
           (∀ b', Z.of_nat k * BPB ≤ b' < b → in_use f b' = true) ∧ allocated b s s') ∨
  (∃ s', balloc_group 1 sb k s e = Ret None s' e ∧ log_inv ∅ s' ∧ unchanged s s' ∧
         ∀ b, Z.of_nat k * BPB ≤ b < Z.of_nat (S k) * BPB → b < sb.(sb_size) → in_use f b = true).
Proof.
  intros Hk. assert (0 ≤ Z.of_nat k * BPB < sb.(sb_size)) as Hk0 by (unfold BPB in *; lia).
  destruct (proj2 Hmap _ Hk0) as (Hdisk & Hnl & Hlen). pose proof Hdisk as [Hn0 _].
  destruct (bread_txn (BBLOCK (Z.of_nat k * BPB) sb) s e Hinv Hdisk) as (i & s1 & Hr1 & Hh).
  pose proof (held_bdata i _ s s1 e Hh Hn0) as Hbd. unfold balloc_group. cbv zeta.
  mstep Hr1. mstep Hbd. destruct (free_bit _ _ _) as [bi|] eqn:Efb; [left|right].
  - apply free_bit_Some in Efb as (Hbi & Hlt & Hbit & Hmin). set (b := Z.of_nat k * BPB + Z.of_nat bi) in *.
    destruct (BBLOCK_group k sb bi Hbi) as [HBB _]. fold b in HBB.
    assert (0 ≤ b < sb.(sb_size)) as Hb by (unfold b in *; lia).
    assert (in_use f b = false) as Hfree by (unfold b; by rewrite in_use_group).
    destruct (update_held i _ (set_bit bi) s s1 e Hh) as (s2 & Hr2 & Hu2); [split_and!; lia|done..|].
    destruct (update_block_run b (λ _, replicate (Z.to_nat BSIZE) 0) s2 e) as (s3 & Hr3 & Hu3).
    { apply Hu2. }
    { rewrite (bu_log _ _ _ _ Hu2). apply log_room_record. }
    { destruct (bu_fs _ _ _ _ Hu2) as (bufs & lru & ->). unfold in_disk. simpl. destruct Hmap as [? _]. lia. }
    { rewrite (bu_log _ _ _ _ Hu2), in_log_record. by apply Hmeta. }
    exists b, s3. split_and!; try (done || lia).
    + unfold modbdata. rewrite (bind3_run _ _ _ _ _ _ _ _ _ Hr2). fold b. unfold bzero, modbdata. by mstep Hr3.
    + intros b' Hb'. destruct (group_block k b') as (bj & -> & Hbj); [unfold b, BPB in *; lia|].
      rewrite in_use_group by done. apply Hmin. unfold b in *. lia.
    + rewrite <- HBB in Hu2. by apply (allocated_group k bi s2 s3).
  - destruct (release_held i _ s s1 e Hh) as (s2 & Hr2 & Hinv2 & Hq2 & Hv2).
    exists s2. split_and!; try done; [by mstep Hr2|].
    intros b Hb Hlt. destruct (group_block k b Hb) as (bi & -> & Hbi). rewrite in_use_group by done.
    by apply (free_bit_None _ (Z.of_nat k * BPB) sb.(sb_size)).
Qed.
End balloc.

(** What [balloc] relies on: an open transaction with room for the bitmap block
    and the new block. *)
Record balloc_ready (s : kstate) : Prop := {
  br_inv : log_inv ∅ s;
  br_map : bitmap_ok s.(k_fs);
  br_meta : metadata_used s.(k_fs);
  br_size : s.(k_fs).(fs_log).(lg_size) ≤ LOGSIZE;
  br_out : 1 ≤ s.(k_fs).(fs_log).(lg_outstanding);
  br_n : s.(k_fs).(fs_log).(lg_lh).(lh_n) < s.(k_fs).(fs_log).(lg_size) - 2
}.

Lemma unchanged_ready s s' : balloc_ready s → log_inv ∅ s' → unchanged s s' → balloc_ready s'.
Proof.
  intros [Hi Hm Hmt Hs Ho Hn] Hi' Hu. pose proof Hu as [Hq _].
  destruct (quiet_frame _ _ Hq) as ((Hl & _) & _).
  split; [done|by eapply unchanged_bitmap|by eapply unchanged_metadata|by rewrite Hl..].
Qed.

Lemma balloc_scan n k s e :
  let sb := s.(k_fs).(fs_sb) in
  balloc_ready s → (∀ j, (k ≤ j < k + n)%nat → Z.of_nat j * BPB < sb.(sb_size)) →
  (∃ b s', for_ret (seq k n) (balloc_group 1 sb) s e = Ret (Some b) s' e ∧ 0 ≤ b < sb.(sb_size) ∧
           in_use s.(k_fs) b = false ∧ (∀ b', Z.of_nat k * BPB ≤ b' < b → in_use s.(k_fs) b' = true) ∧
           allocated b s s') ∨
  (∃ s', for_ret (seq k n) (balloc_group 1 sb) s e = Ret None s' e ∧
         ∀ b, Z.of_nat k * BPB ≤ b < Z.of_nat (k + n) * BPB → b < sb.(sb_size) → in_use s.(k_fs) b = true).
Proof.
  revert k s. induction n as [|n IH]; intros k s sb Hr Hk.
  { right. exists s. split; [done|]. intros b Hb. unfold BPB in *. lia. }
  pose proof Hr as [Hi Hm Hmt Hs Ho Hn]. simpl.
  destruct (balloc_group_run s e Hi Hm Hmt Hs Ho Hn k) as [(b & s' & Hrun & Hb & Hf & Hmin & Hal)|(s1 & Hrun & Hi1 & Hu & Hfull)].
  { apply Hk. lia. }
  { left. exists b, s'. fold sb in Hrun. mstep Hrun. exact (conj eq_refl (conj Hb (conj Hf (conj Hmin Hal)))). }
  fold sb in Hrun. mstep Hrun. pose proof Hu as [Hq _]. destruct (quiet_frame _ _ Hq) as ((_ & Hsb & _) & _).
  assert (∀ b, 0 ≤ b < sb.(sb_size) → in_use s1.(k_fs) b = in_use s.(k_fs) b) as Hiu
    by (intros; by apply unchanged_in_use).
  destruct (IH (S k) s1) as [(b & s' & Hrun1 & Hb & Hf & Hmin & Hal)|(s' & Hrun1 & Hfull1)];
    [by eapply unchanged_ready|rewrite Hsb; intros j Hj; apply Hk; lia| |]; rewrite Hsb in *; fold sb in Hrun1.
  - left. exists b, s'. fold sb in Hb. assert (0 ≤ b < sb.(sb_size)) as Hb0 by exact Hb.
    split; [done|]. split; [done|]. split; [by rewrite <- Hiu|]. split.
    + intros b' Hb'. destruct (decide (b' < Z.of_nat (S k) * BPB)).
      * apply Hfull; unfold BPB in *; fold sb; lia.
      * rewrite <- Hiu by (unfold BPB in *; lia). apply Hmin. lia.
    + by eapply unchanged_allocated.
  - right. exists s'. split; [done|]. intros b Hb Hlt. destruct (decide (b < Z.of_nat (S k) * BPB)).
    + apply Hfull; [lia|done].
    + rewrite <- Hiu by (unfold BPB in *; lia). apply Hfull1; [lia|done].
Qed.

(** The scan of the whole bitmap. *)
Lemma balloc_run s e :
  balloc_ready s →
  (∃ b s', balloc 1 s e = Ret b s' e ∧ 0 ≤ b < s.(k_fs).(fs_sb).(sb_size) ∧ in_use s.(k_fs) b = false ∧
           (∀ b', 0 ≤ b' < b → in_use s.(k_fs) b' = true) ∧ allocated b s s') ∨
  ((∀ b, 0 ≤ b < s.(k_fs).(fs_sb).(sb_size) → in_use s.(k_fs) b = true) ∧
   balloc 1 s e = Panic "balloc: out of blocks").
Proof.
  intros Hr. unfold balloc, getsb. rewrite bind_gets. set (sb := s.(k_fs).(fs_sb)).
  assert (0 ≤ sb.(sb_size)) as Hsz by apply (br_map _ Hr).
  pose proof (Z.mul_div_le (sb.(sb_size) + BPB - 1) BPB eq_refl).
  pose proof (Z.mul_succ_div_gt (sb.(sb_size) + BPB - 1) BPB eq_refl).
  destruct (balloc_scan (Z.to_nat ((sb.(sb_size) + BPB - 1) / BPB)) 0 s e Hr)
    as [(b & s' & Hrun & ?)|(s' & Hrun & Hfull)].
  - intros j [_ Hj]. fold sb. unfold BPB in *. lia.
  - left. exists b, s'. fold sb in Hrun. mstep Hrun. split; [done|]. assumption.
  - right. fold sb in Hrun. mstep Hrun. split; [|done]. intros b Hb. apply Hfull; [unfold BPB in *; fold sb; lia|apply Hb].
Qed.

(** C19: [balloc] in an open transaction with room for two more blocks.  It
    returns the lowest free block of the bitmap, marks that one bit and no
    other, zeroes the block, puts both blocks into the transaction and changes
    no other block; when the bitmap is full it panics. *)
Theorem balloc_correct s e :
  balloc_ready s →
  (∃ b s', balloc 1 s e = Ret b s' e ∧ 0 ≤ b < s.(k_fs).(fs_sb).(sb_size) ∧ in_use s.(k_fs) b = false ∧
           (∀ b', 0 ≤ b' < b → in_use s.(k_fs) b' = true) ∧ allocated b s s') ∨
  ((∀ b, 0 ≤ b < s.(k_fs).(fs_sb).(sb_size) → in_use s.(k_fs) b = true) ∧
   balloc 1 s e = Panic "balloc: out of blocks").
Proof. apply balloc_run. Qed.

(** [bfree] in an open transaction, on a disk whose superblock is the one in
    memory.  A block in use is marked as free; no other bit and no other block
    than the bitmap block changes, and the bitmap block joins the transaction.
    Freeing a free block panics. *)
Theorem bfree_correct s e b :
  log_inv ∅ s → log_room s.(k_fs).(fs_log) → bitmap_ok s.(k_fs) → in_disk s.(k_fs) 1 →
  decode_sb (content s.(k_fs) 1) = s.(k_fs).(fs_sb) → 0 ≤ b < s.(k_fs).(fs_sb).(sb_size) →
  if in_use s.(k_fs) b then
    ∃ s', bfree 1 b s e = Ret tt s' e ∧ log_inv ∅ s' ∧
          (∀ b', 0 ≤ b' < s.(k_fs).(fs_sb).(sb_size) →
             in_use s'.(k_fs) b' = if decide (b' = b) then false else in_use s.(k_fs) b') ∧
          (∀ m, 0 ≤ m → m ≠ BBLOCK b s.(k_fs).(fs_sb) → content s'.(k_fs) m = content s.(k_fs) m) ∧
          s'.(k_fs).(fs_log) = record_block (BBLOCK b s.(k_fs).(fs_sb)) s.(k_fs).(fs_log)
  else bfree 1 b s e = Panic "freeing free block".
Proof.
  intros Hinv Hroom Hmap H1 Hsb Hb. set (sb := s.(k_fs).(fs_sb)) in *. set (n := BBLOCK b sb).
  destruct (readsb_run s e Hinv H1) as (s1 & Hr1 & Hinv1 & Hq1 & Hv1). rewrite Hsb in Hr1.
  pose proof (conj Hq1 Hv1 : unchanged s s1) as Hu1. destruct (quiet_frame _ _ Hq1) as ((Hl1 & Hsb1 & _) & Hd1 & _).
  destruct (proj2 Hmap b Hb) as (Hn & Hnl & Hlen). fold sb n in Hn, Hnl, Hlen. pose proof Hn as [Hn0 _].
  assert (on_fs (set_fs_sb sb) s1 = s1) as Hsame by (unfold sb; rewrite <- Hsb1; reflexivity).
  destruct (bread_txn n s1 e Hinv1) as (i & s2 & Hr2 & Hh); [unfold in_disk; by rewrite Hd1|].
  pose proof (held_bdata i n s1 s2 e Hh Hn0) as Hbd. rewrite Hv1 in Hbd by done.
  unfold bfree. mstep Hr1. rewrite bind_modify, Hsame. fold n. mstep Hr2. mstep Hbd.
  change (bit_set (content s.(k_fs) n) (Z.to_nat (b mod BPB))) with (in_use s.(k_fs) b).
  destruct (in_use s.(k_fs) b); [|done]. simpl.
  destruct (update_held i n (clear_bit (Z.to_nat (b mod BPB))) s1 s2 e Hh) as (s3 & Hr3 & [Hinv3 Hd3 Ho3 Hl3 (bf & lr & Hf3) _]);
    [by rewrite Hl1|done|by rewrite Hl1|].
  exists s3. split; [exact Hr3|]. split; [done|]. split; [|split].
  - intros b' Hb'. unfold in_use. replace (s3.(k_fs).(fs_sb)) with sb by (rewrite Hf3; exact (eq_sym Hsb1)). fold sb.
    destruct (proj2 Hmap b' Hb') as ([? _] & _ & _). pose proof (Z.mod_pos_bound b BPB eq_refl).
    destruct (decide (BBLOCK b' sb = n)) as [Eq|Ne].
    + rewrite Eq, Hd3, bit_set_clear_bit, Hv1 by (done || (by rewrite Hv1) || (unfold BPB in *; lia)).
      by rewrite (decide_ext _ _ _ _ (group_bit_eq b' b sb Eq)).
    + rewrite Ho3, Hv1 by done. rewrite decide_False; [done|by intros ->].
  - intros m Hm Hne. by rewrite Ho3, Hv1.
  - by rewrite Hl3, Hl1.
Qed.

(** ** Inodes in memory and on disk *)

Definition is_s16 (x : Z) : Prop := -32768 ≤ x < 32768.

(** The fields fit their on-disk types. *)
Record dinode_wf (x : inode) : Prop := {
  dw_type : is_s16 x.(i_type); dw_major : is_s16 x.(i_major);
  dw_minor : is_s16 x.(i_minor); dw_nlink : is_s16 x.(i_nlink);
  dw_size : 0 ≤ x.(i_size) < 4294967296;
  dw_len : length x.(i_addrs) = S NDIRECT;
  dw_addrs : Forall (λ a, 0 ≤ a < 4294967296) x.(i_addrs)
}.

(** [y] with the fields of [struct dinode] taken from [x]. *)
Definition dinode_of (x y : inode) : inode :=
  set_i_type x.(i_type) (set_i_major x.(i_major) (set_i_minor x.(i_minor)
    (set_i_nlink x.(i_nlink) (set_i_size x.(i_size) (set_i_addrs x.(i_addrs) y))))).

Lemma length_dinode_bytes x : dinode_wf x → length (dinode_bytes x) = 64%nat.
Proof. intros Hx. unfold dinode_bytes. rewrite !length_app, !length_le_bytes, length_words, (dw_len _ Hx). done. Qed.

Section dinode.
Context (x : inode) (off : nat) (d : list Z).
Hypothesis Hx : dinode_wf x.
Hypothesis Hoff : (off + 64 ≤ length d)%nat.

#[local] Notation d' := (splice off (dinode_bytes x) d).

Lemma dinode_slice j n : (j + n ≤ 64)%nat → slice (off + j) n d' = slice j n (dinode_bytes x).
Proof. intros Hj. apply slice_splice_in; rewrite length_dinode_bytes by done; lia. Qed.

Lemma dinode_half j v :
  (j + 2 ≤ 64)%nat → slice j 2 (dinode_bytes x) = le_bytes 2 v → is_s16 v → half d' (off + j) = v.
Proof.
  intros Hj Hv Hr. unfold half. rewrite dinode_slice, Hv, le_val_bytes by done. exact (s16_mod v Hr).
Qed.

Lemma dinode_word j v :
  (j + 4 ≤ 64)%nat → slice j 4 (dinode_bytes x) = le_bytes 4 v → 0 ≤ v < 4294967296 → word_at d' (off + j) = v.
Proof.
  intros Hj Hv Hr. unfold word_at. rewrite dinode_slice, Hv, le_val_bytes by done. by apply Z.mod_small.
Qed.

Lemma dinode_addr k v : x.(i_addrs) !! k = Some v → word_at d' (off + 12 + 4 * k) = v.
Proof.
  intros Hk. pose proof (lookup_lt_Some _ _ _ Hk) as Hlt. rewrite (dw_len _ Hx) in Hlt. unfold NDIRECT in *.
  replace (off + 12 + 4 * k)%nat with (off + (12 + 4 * k))%nat by lia. apply dinode_word; [lia| |].
  - unfold dinode_bytes. do 5 (rewrite slice_app_r by (rewrite !length_le_bytes; lia)). rewrite !length_le_bytes.
    replace (12 + 4 * k - 2 - 2 - 2 - 2 - 4)%nat with (4 * k)%nat by lia. by apply slice_words.
  - by apply (proj1 (Forall_lookup _ _) (dw_addrs _ Hx) k).
Qed.

Lemma load_dinode_bytes y : load_dinode d' off y = dinode_of x y.
Proof.
  unfold load_dinode, dinode_of. pose proof (dinode_half 0 x.(i_type)) as H0. rewrite Nat.add_0_r in H0.
  rewrite H0, (dinode_half 2 x.(i_major)), (dinode_half 4 x.(i_minor)), (dinode_half 6 x.(i_nlink)),
    (dinode_word 8 x.(i_size)); try (lia || reflexivity || apply Hx).
  do 6 f_equal. apply list_eq. intros k. rewrite list_lookup_fmap. destruct (decide (k < S NDIRECT)%nat) as [Hk|Hk].
  - rewrite lookup_seq_lt by done. destruct (lookup_lt_is_Some_2 x.(i_addrs) k) as [v Hv]; [by rewrite (dw_len _ Hx)|].
    rewrite Hv. exact (f_equal Some (dinode_addr k v Hv)).
  - rewrite lookup_seq_ge by lia. rewrite lookup_ge_None_2; [done|]. rewrite (dw_len _ Hx). lia.
Qed.

(** Another inode of the block keeps its bytes. *)
Lemma load_dinode_other off' y :
  (off' + 64 ≤ length d)%nat → (off' + 64 ≤ off ∨ off + 64 ≤ off')%nat → load_dinode d' off' y = load_dinode d off' y.
Proof.
  intros Hl Hd. assert (∀ j n, (j + n ≤ 64)%nat → slice (off' + j) n d' = slice (off' + j) n d) as Hs.
  { intros j n Hj. apply slice_splice_ne; rewrite ?length_dinode_bytes by done; lia. }
  unfold load_dinode, half, word_at. pose proof (Hs 0%nat 2%nat) as H0. rewrite Nat.add_0_r in H0.
  rewrite H0, !Hs by lia. do 6 f_equal. apply list_fmap_ext. intros k j [-> Hk]%lookup_seq.
  unfold NDIRECT in *. replace (off' + 12 + 4 * (0 + k))%nat with (off' + (12 + 4 * k))%nat by lia. by rewrite Hs by lia.
Qed.

End dinode.

Lemma geti_run s e ip x : s.(k_fs).(fs_inodes) !! ip = Some x → geti ip s e = Ret x s e.
Proof. intros Hx. unfold geti. rewrite bind_gets, Hx. done. Qed.

Definition with_inode (ip : nat) (x : inode) (s : kstate) : kstate :=
  on_fs (λ f, set_fs_inodes (<[ip := x]> f.(fs_inodes)) f) s.

Lemma modi_run s e ip x g :
  s.(k_fs).(fs_inodes) !! ip = Some x → modi ip g s e = Ret tt (with_inode ip (g x) s) e.
Proof. intros Hx. unfold modi. by mstep (geti_run s e ip x Hx). Qed.

Lemma log_inv_inodes H xs s : log_inv H s → log_inv H (on_fs (set_fs_inodes xs) s).
Proof. intros [[] ? ?]. by split. Qed.

Lemma log_inv_inode H ip x s : log_inv H s → log_inv H (with_inode ip x s).
Proof. apply (log_inv_inodes H (<[ip := x]> s.(k_fs).(fs_inodes))). Qed.

Lemma log_inv_slept H ip pid s : log_inv H s → log_inv H (slept_locked (SLinode ip) pid s).
Proof.
  intros [[? ? ? Hs ? ?] ? ?]. split; [|done..]. split; try done. intros i. simpl. rewrite lookup_insert_ne by done. apply Hs.
Qed.

(** Two inodes of a block are apart. *)
Lemma dinode_off_bound j : (dinode_off j + 64 ≤ Z.to_nat BSIZE)%nat.
Proof. unfold dinode_off, BSIZE, IPB. pose proof (Z.mod_pos_bound j 8 eq_refl). lia. Qed.

Lemma dinode_off_apart j k sb :
  IBLOCK j sb = IBLOCK k sb → j ≠ k → (dinode_off j + 64 ≤ dinode_off k ∨ dinode_off k + 64 ≤ dinode_off j)%nat.
Proof.
  unfold IBLOCK, dinode_off, IPB. intros Eq Hne. pose proof (Z.mod_pos_bound j 8 eq_refl).
  pose proof (Z.mod_pos_bound k 8 eq_refl). pose proof (Z.div_mod j 8 ltac:(done)). pose proof (Z.div_mod k 8 ltac:(done)). lia.
Qed.

(** An inode whose block is a whole block of the disk outside the log. *)
Record inode_ok (f : fsstate) (x : inode) : Prop := {
  io_dev : x.(i_dev) = 1;
  io_disk : in_disk f (IBLOCK x.(i_inum) f.(fs_sb));
  io_log : ¬ in_log f.(fs_log) (IBLOCK x.(i_inum) f.(fs_sb));
  io_len : length (content f (IBLOCK x.(i_inum) f.(fs_sb))) = Z.to_nat BSIZE
}.

(** The inode [inum] of the disk as the kernel sees it, read into [y]. *)
Definition dinode_at (f : fsstate) (inum : Z) (y : inode) : inode :=
  load_dinode (content f (IBLOCK inum f.(fs_sb))) (dinode_off inum) y.

Lemma iupdate_run s e ip x :
  log_inv ∅ s → log_room s.(k_fs).(fs_log) → s.(k_fs).(fs_inodes) !! ip = Some x → inode_ok s.(k_fs) x →
  let n := IBLOCK x.(i_inum) s.(k_fs).(fs_sb) in
  ∃ s', iupdate ip s e = Ret tt s' e ∧
        block_updated n (splice (dinode_off x.(i_inum)) (dinode_bytes x) (content s.(k_fs) n)) s s'.
Proof.
  intros Hinv Hroom Hx [Hdev Hd Hl _] n. unfold iupdate. mstep (geti_run s e ip x Hx).
  unfold getsb. rewrite bind_gets, Hdev. by apply update_block_run.
Qed.

Lemma updated_dinode s s' x y :
  let n := IBLOCK x.(i_inum) s.(k_fs).(fs_sb) in
  inode_ok s.(k_fs) x → dinode_wf x →
  block_updated n (splice (dinode_off x.(i_inum)) (dinode_bytes x) (content s.(k_fs) n)) s s' →
  dinode_at s'.(k_fs) x.(i_inum) y = dinode_of x y.
Proof.
  intros n [_ _ _ Hlen] Hx [_ Hd _ _ (? & ? & Hf) _]. unfold dinode_at. replace (s'.(k_fs).(fs_sb)) with s.(k_fs).(fs_sb) by (by rewrite Hf).
  fold n. rewrite Hd. apply load_dinode_bytes; [done|]. fold n in Hlen. rewrite Hlen. apply dinode_off_bound.
Qed.

(** [iupdate] in an open transaction.  The inode on disk, as the kernel then
    sees it, has the fields of the inode in memory; every other inode, also one
    of the same block, and every other block is as before, and the block joins
    the transaction. *)
Theorem iupdate_correct s e ip x :
  log_inv ∅ s → log_room s.(k_fs).(fs_log) → s.(k_fs).(fs_inodes) !! ip = Some x → inode_ok s.(k_fs) x → dinode_wf x →
  0 ≤ s.(k_fs).(fs_sb).(sb_inodestart) →
  ∃ s', iupdate ip s e = Ret tt s' e ∧ log_inv ∅ s' ∧ (∀ y, dinode_at s'.(k_fs) x.(i_inum) y = dinode_of x y) ∧
        (∀ j y, 0 ≤ j → j ≠ x.(i_inum) → dinode_at s'.(k_fs) j y = dinode_at s.(k_fs) j y) ∧
        (∀ m, 0 ≤ m → m ≠ IBLOCK x.(i_inum) s.(k_fs).(fs_sb) → content s'.(k_fs) m = content s.(k_fs) m) ∧
        (∀ m, m ∈ logged s'.(k_fs).(fs_log) ↔ m ∈ logged s.(k_fs).(fs_log) ∨ m = IBLOCK x.(i_inum) s.(k_fs).(fs_sb)).
Proof.
  intros Hinv Hroom Hx Hok Hwf Hst. set (n := IBLOCK x.(i_inum) s.(k_fs).(fs_sb)).
  destruct (iupdate_run s e ip x Hinv Hroom Hx Hok) as (s' & Hrun & Hu). fold n in Hu. exists s'.
  pose proof (λ y, updated_dinode s s' x y Hok Hwf Hu) as Hself. destruct Hu as [Hinv' Hd Ho Hl (bf & lr & Hf) _].
  split; [exact Hrun|]. split; [exact Hinv'|]. split; [exact Hself|]. split; [|split; [exact Ho|]].
  - intros j y Hj Hne. unfold dinode_at. replace (s'.(k_fs).(fs_sb)) with s.(k_fs).(fs_sb) by (by rewrite Hf).
    destruct (decide (IBLOCK j s.(k_fs).(fs_sb) = n)) as [Eq|Hne'].
    + rewrite Eq, Hd. pose proof (io_len _ _ Hok) as Hlen. fold n in Hlen. pose proof (dinode_off_bound j).
      pose proof (dinode_off_bound x.(i_inum)).
      apply load_dinode_other; [done|lia|lia|by eapply dinode_off_apart].
    + rewrite Ho; [done| |done]. unfold IBLOCK. pose proof (Z.div_pos j IPB Hj eq_refl). lia.
  - intros m. rewrite Hl. eapply logged_record_iff. apply Hinv.
Qed.

(** The slot [ip] of the inode cache is in use for [y], unlocked and not read
    from the disk yet. *)
Record unread (s : kstate) (ip : nat) (y : inode) : Prop := {
  ur_slot : s.(k_fs).(fs_inodes) !! ip = Some y;
  ur_ref : 1 ≤ y.(i_ref);
  ur_flags : Z.land y.(i_flags) I_VALID = 0;
  ur_free : s.(k_slk) !! SLinode ip = None
}.

(** [y] as [ilock] completes it. *)
Definition read_in (f : fsstate) (y : inode) : inode :=
  let z := dinode_at f y.(i_inum) y in set_i_flags (Z.lor z.(i_flags) I_VALID) z.

Lemma ilock_load_run s e ip y :
  log_inv ∅ s → unread s ip y → y.(i_dev) = 1 → in_disk s.(k_fs) (IBLOCK y.(i_inum) s.(k_fs).(fs_sb)) →
  let z := read_in s.(k_fs) y in
  if z.(i_type) =? 0 then ilock (Some ip) s e = Panic "ilock: no type"
  else ∃ s', ilock (Some ip) s e = Ret tt s' e ∧ log_inv ∅ s' ∧
             s'.(k_fs).(fs_inodes) = <[ip := z]> s.(k_fs).(fs_inodes) ∧ is_Some (s'.(k_slk) !! SLinode ip) ∧
             s'.(k_fs).(fs_disk) = s.(k_fs).(fs_disk) ∧ ∀ m, 0 ≤ m → content s'.(k_fs) m = content s.(k_fs) m.
Proof.
  intros Hinv [Hy Href Hfl Hfree] Hdev Hd z. set (n := IBLOCK y.(i_inum) s.(k_fs).(fs_sb)) in *. pose proof Hd as [Hn0 _].
  pose proof (ok_kidle _ _ (li_cache _ _ Hinv)) as (Hcw & _ & Hpt & Hsp & j & p & Hr & _).
  unfold ilock. mstep (geti_run s e ip y Hy). destruct (y.(i_ref) <? 1) eqn:E; bool_facts; [lia|clear E].
  mstep (acquiresleep_run (SLinode ip) s j p e (conj Hcw (conj (Hsp (Lsleep (SLinode ip)) I) Hpt)) Hr Hfree).
  set (s1 := slept_locked (SLinode ip) p.(p_pid) s). assert (log_inv ∅ s1) as Hinv1 by (by apply log_inv_slept).
  mstep (geti_run s1 e ip y Hy). rewrite Hfl. unfold getsb. change (truthy 0) with false. cbv iota. rewrite bind_gets, Hdev.
  change (IBLOCK y.(i_inum) s1.(k_fs).(fs_sb)) with n.
  destruct (bread_txn n s1 e Hinv1 Hd) as (i & s2 & Hr2 & Hh). mstep Hr2. mstep (held_bdata i n s1 s2 e Hh Hn0).
  change (load_dinode _ _) with (dinode_at s.(k_fs) y.(i_inum)). set (y1 := dinode_at s.(k_fs) y.(i_inum) y).
  destruct Hh as [Hinv2 Hb2 Hset2 Hq2 Hv2 Hs2]. destruct (quiet_frame _ _ Hq2) as ((_ & _ & Hi2 & _) & Hd2 & _).
  assert (s2.(k_fs).(fs_inodes) !! ip = Some y) as Hy2 by (by rewrite Hi2).
  mstep (modi_run s2 e ip y (dinode_at s.(k_fs) y.(i_inum)) Hy2). fold y1. set (s3 := with_inode ip y1 s2).
  destruct (brelse_txn i s3 e (log_inv_inode _ ip y1 s2 Hinv2) Hset2) as (s4 & Hr4 & Hinv4 & Hq4 & Hv4 & Hs4).
  { exact (buf_of_lt _ s2 i n (li_cache _ _ Hinv2) Hb2). }
  destruct (quiet_frame _ _ Hq4) as ((_ & _ & Hi4 & _) & Hd4 & _).
  assert (s4.(k_fs).(fs_inodes) !! ip = Some y1) as Hy4.
  { rewrite Hi4. apply list_lookup_insert_eq. by eapply lookup_lt_Some. }
  mstep Hr4. mstep (modi_run s4 e ip y1 (λ x, set_i_flags (Z.lor x.(i_flags) I_VALID) x) Hy4).
  fold z. change (set_i_flags _ y1) with z. set (s5 := with_inode ip z s4).
  erewrite bind_run; [|apply (geti_run s5 e ip z), list_lookup_insert_eq; by eapply lookup_lt_Some].
  destruct (z.(i_type) =? 0) eqn:Et; [done|]. exists s5.
  split; [done|]. split; [by apply log_inv_inode|]. split; [|split; [|split]].
  - simpl. rewrite Hi4. simpl. by rewrite Hi2, list_insert_insert_eq.
  - exists p.(p_pid). etransitivity; [exact (Hs4 ip)|]. etransitivity; [exact (Hs2 ip)|]. apply lookup_insert_eq.
  - etransitivity; [exact Hd4|exact Hd2].
  - intros m Hm. etransitivity; [exact (Hv4 m Hm)|]. etransitivity; [exact (Hv2 m Hm)|]. done.
Qed.

(** C18: what [iupdate] writes is what [ilock] reads.  After [iupdate] of an
    inode, [ilock] of a cache slot for the same inode number that has not been
    read yet takes the slot's lock, marks the slot valid and fills it with the
    fields that were written, before any of it has reached the disk. *)
Theorem inode_round_trip s e ip x jp y :
  log_inv ∅ s → log_room s.(k_fs).(fs_log) → s.(k_fs).(fs_inodes) !! ip = Some x → inode_ok s.(k_fs) x → dinode_wf x →
  x.(i_type) ≠ 0 → unread s jp y → y.(i_dev) = 1 → y.(i_inum) = x.(i_inum) →
  ∃ s' z, (iupdate ip;; ilock (Some jp)) s e = Ret tt s' e ∧
          s'.(k_fs).(fs_inodes) = <[jp := z]> s.(k_fs).(fs_inodes) ∧ is_Some (s'.(k_slk) !! SLinode jp) ∧
          z = set_i_flags (Z.lor y.(i_flags) I_VALID) (dinode_of x y) ∧ s'.(k_fs).(fs_disk) = s.(k_fs).(fs_disk).
Proof.
  intros Hinv Hroom Hx Hok Hwf Hty Hur Hdev Hnum.
  destruct (iupdate_run s e ip x Hinv Hroom Hx Hok) as (s1 & Hrun & Hu).
  pose proof (updated_dinode s s1 x y Hok Hwf Hu) as Hdi. destruct Hu as [Hinv1 _ _ _ (bf & lr & Hf) Hs].
  rewrite <- Hnum in Hdi. pose proof (io_disk _ _ Hok) as Hd. rewrite <- Hnum in Hd.
  assert (read_in s1.(k_fs) y = set_i_flags (Z.lor y.(i_flags) I_VALID) (dinode_of x y)) as Hread
    by (unfold read_in; by rewrite Hdi).
  assert (unread s1 jp y) as Hur1.
  { destruct Hur as [Hy ? ? Hfree]. split; [by rewrite Hf|done|done|by rewrite Hs]. }
  assert (in_disk s1.(k_fs) (IBLOCK y.(i_inum) s1.(k_fs).(fs_sb))) as Hd1 by (by rewrite Hf).
  pose proof (ilock_load_run s1 e jp y Hinv1 Hur1 Hdev Hd1) as Hil. cbv zeta in Hil. rewrite Hread in Hil.
  apply Z.eqb_neq in Hty. change (i_type (set_i_flags _ (dinode_of x y))) with x.(i_type) in Hil. rewrite Hty in Hil.
  destruct Hil as (s2 & Hrun2 & _ & Hi2 & Hs2 & Hd2 & _). exists s2. eexists.
  split; [by mstep Hrun|]. split; [by rewrite Hi2, Hf|]. split; [done|]. split; [done|]. by rewrite Hd2, Hf.
Qed.

(** An example: a disk of 1000 blocks whose first 36 blocks, with the log and
    the bitmap block 35, are in use. *)
Definition map_sb : superblock :=
  {| sb_size := 1000; sb_nblocks := 964; sb_ninodes := 8; sb_nlog := 30; sb_logstart := 2;
     sb_inodestart := 32; sb_bmapstart := 35 |}.
Definition map_data : list Z := replicate 4 255 ++ 15 :: replicate 507 0.
Definition map_buf : buf :=
  {| b_flags := 6; b_dev := 1; b_blockno := 35; b_refcnt := 0; b_data := map_data |}.
Definition map_sb_block : list Z :=
  ([1000; 964; 8; 30; 2; 32; 35] ≫= le_bytes 4) ++ replicate 484 0.
Definition map_state : kstate :=
  on_fs (λ f, set_fs_sb map_sb (set_fs_disk (<[1%nat := map_sb_block]> f.(fs_disk)) f))
    (with_log (λ _, txn_log 1 1) (cached_state map_buf)).

Lemma map_length : length map_state.(k_fs).(fs_disk) = Z.to_nat 1000.
Proof. etransitivity; [apply length_insert|exact (cached_state_length map_buf)]. Qed.

Lemma map_content : content map_state.(k_fs) 35 = map_data.
Proof. reflexivity. Qed.

Lemma map_BBLOCK b : 0 ≤ b < 1000 → BBLOCK b map_sb = 35.
Proof. intros Hb. unfold BBLOCK. by rewrite Z.div_small by (unfold BPB; lia). Qed.

Lemma map_in_use b : 0 ≤ b < 1000 → in_use map_state.(k_fs) b = bit_set map_data (Z.to_nat b).
Proof.
  intros Hb. unfold in_use. change (fs_sb (k_fs map_state)) with map_sb.
  by rewrite map_BBLOCK, map_content, Z.mod_small by (done || unfold BPB; lia).
Qed.

Lemma map_inv : log_inv ∅ map_state.
Proof.
  split.
  - destruct (cached_state_ok map_buf) as [? ? ? ? ? Hbuf]; [right; vm_compute; intuition congruence|].
    split; [done..|]. intros i b Hb. pose proof (Hbuf i b Hb) as (H1 & H2 & H3 & H4). unfold buf_ok.
    rewrite map_length. rewrite cached_state_length in H2. split_and!; try done. intros Hh.
    split; [by apply H4|]. intros E. by apply cached_state_lookup in Hb as [[_ ->]| ->].
  - split; [reflexivity|vm_compute; discriminate|vm_compute; discriminate|reflexivity|done|done|apply NoDup_singleton|].
    intros b Hb. apply list_elem_of_singleton in Hb as ->. rewrite map_length. unfold in_log. simpl lg_start. simpl lg_size. lia.
  - intros m. unfold pinned. change (logged _) with [35]. rewrite list_elem_of_singleton. split.
    + intros (i & b & Hb & H6 & <-). by apply cached_state_lookup in Hb as [[_ ->]| ->].
    + intros ->. by exists 0%nat, map_buf.
Qed.

Lemma map_low b : (b < 36)%nat → bit_set map_data b = true.
Proof. intros Hb. do 36 (destruct b as [|b]; [reflexivity|]). lia. Qed.

Lemma map_ready : balloc_ready map_state.
Proof.
  split; [exact map_inv| | |change (30 ≤ 30)|change (1 ≤ 1)|change (1 < 28)]; try lia.
  - unfold bitmap_ok. change (fs_sb (k_fs map_state)) with map_sb. change (fs_log (k_fs map_state)) with (txn_log 1 1).
    rewrite map_length. split; [simpl; lia|].
    intros b Hb. rewrite map_BBLOCK by done. unfold in_disk. rewrite map_length, map_content.
    split_and!; [lia|lia| |reflexivity]. unfold in_log. simpl. lia.
  - intros b Hb. change (fs_sb (k_fs map_state)) with map_sb in *. rewrite map_in_use by done. intros Hf.
    destruct (decide (b < 36)) as [Hlt|Hge]; [by rewrite map_low in Hf by lia|].
    split; [|intros b' Hb'; rewrite map_BBLOCK by done; lia].
    change (fs_log (k_fs map_state)) with (txn_log 1 1). unfold in_log. simpl. lia.
Qed.

Lemma map_36 : in_use map_state.(k_fs) 36 = false ∧ in_use map_state.(k_fs) 37 = false.
Proof. rewrite !map_in_use by lia. split; reflexivity. Qed.

Lemma map_first b :
  0 ≤ b < 1000 → in_use map_state.(k_fs) b = false → (∀ b', 0 ≤ b' < b → in_use map_state.(k_fs) b' = true) → b = 36.
Proof.
  intros Hb Hf Hmin. destruct (decide (b < 36)) as [Hlt|Hge].
  - rewrite map_in_use, map_low in Hf by lia. discriminate.
  - destruct (decide (36 < b)) as [Hgt|]; [|lia]. pose proof (Hmin 36 ltac:(lia)) as H36.
    rewrite (proj1 map_36) in H36. discriminate.
Qed.

Lemma balloc_correct_witness :
  balloc_ready map_state ∧
  ∃ s', balloc 1 map_state [] = Ret 36 s' [] ∧ content s'.(k_fs) 36 = replicate 512 0 ∧
        in_use s'.(k_fs) 36 = true ∧ in_use s'.(k_fs) 37 = false.
Proof.
  split; [exact map_ready|].
  destruct (balloc_correct map_state [] map_ready) as [(b & s' & Hrun & Hb & Hf & Hmin & Hal)|[Hfull _]].
  - apply map_first in Hmin as ->; [|exact Hb|exact Hf].
    exists s'. destruct Hal as [_ Hz Hm _ _ _ _]. split_and!; [exact Hrun|exact Hz|exact (Hm 36 ltac:(by change (0 ≤ 36 < 1000)))|].
    etransitivity; [exact (Hm 37 ltac:(by change (0 ≤ 37 < 1000)))|exact (proj2 map_36)].
  - exfalso. pose proof (Hfull 36 ltac:(by change (0 ≤ 36 < 1000))) as H36. rewrite (proj1 map_36) in H36. discriminate.
Defined.

Lemma bfree_correct_witness :
  log_inv ∅ map_state ∧ in_use map_state.(k_fs) 35 = true ∧
  bfree 1 36 map_state [] = Panic "freeing free block" ∧
  ∃ s', bfree 1 35 map_state [] = Ret tt s' [] ∧ in_use s'.(k_fs) 35 = false.
Proof.
  split; [exact map_inv|].
  assert (in_disk map_state.(k_fs) 1) as H1 by (unfold in_disk; rewrite map_length; lia).
  assert (decode_sb (content map_state.(k_fs) 1) = map_sb) as Hsb by reflexivity.
  assert (log_room map_state.(k_fs).(fs_log)) as Hroom by (change (log_room (txn_log 1 1)); done).
  pose proof (bfree_correct map_state [] 35 map_inv Hroom (br_map _ map_ready) H1 Hsb ltac:(by change (0 ≤ 35 < 1000))) as H35.
  pose proof (bfree_correct map_state [] 36 map_inv Hroom (br_map _ map_ready) H1 Hsb ltac:(by change (0 ≤ 36 < 1000))) as H36.
  assert (in_use map_state.(k_fs) 35 = true) as E35 by (rewrite map_in_use by lia; reflexivity).
  rewrite E35 in H35. rewrite (proj1 map_36) in H36. destruct H35 as (s' & Hrun & _ & Hm & _).
  split; [exact E35|]. split; [exact H36|]. exists s'. split; [exact Hrun|].
  exact (Hm 35 ltac:(by change (0 ≤ 35 < 1000))).
Defined.

(** An example: inode 1, a file of 1000 bytes in blocks 40 and 41, in slot 0 of
    the inode cache, and slot 1 just taken for it. *)
Definition file_inode : inode :=
  {| i_dev := 1; i_inum := 1; i_ref := 1; i_flags := I_VALID; i_type := 2; i_major := 0; i_minor := 0;
     i_nlink := 1; i_size := 1000; i_addrs := 40 :: 41 :: replicate 11 0 |}.
Definition taken_inode : inode :=
  {| i_dev := 1; i_inum := 1; i_ref := 1; i_flags := 0; i_type := 0; i_major := 0; i_minor := 0;
     i_nlink := 0; i_size := 0; i_addrs := replicate 13 0 |}.
Definition inode_state : kstate := on_fs (set_fs_inodes [file_inode; taken_inode]) map_state.

Lemma inode_state_inv : log_inv ∅ inode_state.
Proof. exact (log_inv_inodes ∅ _ map_state map_inv). Qed.

Lemma inode_state_room : log_room inode_state.(k_fs).(fs_log).
Proof. change (log_room (txn_log 1 1)). done. Qed.

Lemma inode_state_ok : inode_ok inode_state.(k_fs) file_inode.
Proof.
  split; [reflexivity| | |reflexivity].
  - change (0 ≤ 32 < Z.of_nat (length map_state.(k_fs).(fs_disk))). rewrite map_length. lia.
  - change (¬ (2 ≤ 32 < 2 + 30)). lia.
Qed.

Lemma file_inode_wf : dinode_wf file_inode.
Proof. by split; [..|repeat constructor]. Qed.

Lemma taken_inode_unread : unread inode_state 1 taken_inode.
Proof. split; reflexivity || done. Qed.

Lemma iupdate_correct_witness :
  log_inv ∅ inode_state ∧
  ∃ s', iupdate 0 inode_state [] = Ret tt s' [] ∧ (dinode_at s'.(k_fs) 1 taken_inode).(i_size) = 1000 ∧
        (dinode_at s'.(k_fs) 2 taken_inode).(i_size) = 0.
Proof.
  split; [exact inode_state_inv|].
  destruct (iupdate_correct inode_state [] 0 file_inode inode_state_inv inode_state_room eq_refl inode_state_ok
              file_inode_wf ltac:(change (0 ≤ 32); lia)) as (s' & Hrun & _ & Hself & Hother & _).
  exists s'. split; [exact Hrun|]. split.
  - change 1 with file_inode.(i_inum) at 1. rewrite Hself. reflexivity.
  - rewrite Hother; [reflexivity|lia|discriminate].
Defined.

Lemma inode_round_trip_witness :
  log_inv ∅ inode_state ∧ unread inode_state 1 taken_inode ∧
  ∃ s', (iupdate 0;; ilock (Some 1%nat)) inode_state [] = Ret tt s' [] ∧
        s'.(k_fs).(fs_inodes) !! 1%nat = Some file_inode.
Proof.
  split; [exact inode_state_inv|]. split; [exact taken_inode_unread|].
  destruct (inode_round_trip inode_state [] 0 file_inode 1 taken_inode inode_state_inv inode_state_room eq_refl
              inode_state_ok file_inode_wf ltac:(discriminate) taken_inode_unread eq_refl eq_refl)
    as (s' & z & Hrun & Hin & _ & -> & _).
  exists s'. split; [exact Hrun|]. rewrite Hin. reflexivity.
Defined.
