(* ===== verification/Console.v ===== *)
(** * The console device (console.c)

    Line editing at interrupt time, and the [read] and [write] functions of
    the console device.  The interrupt handler's [getc] is the list of the
    characters it returns before a negative value. *)

From S2P Require Import Prelude KState Spinlock Print Mem Args Proc Sleeplock Bio Log Inode.
#[local] Open Scope kernel_scope.

Definition INPUT_BUF : Z := 128.

(** [input.buf[i % INPUT_BUF]]. *)
Definition in_char (io : iostate) (i : Z) : Z := io.(io_buf) !!! Z.to_nat (i mod INPUT_BUF).

Definition getio : K iostate := gets (λ s, s.(k_io)).
Definition modio (g : iostate → iostate) : K unit := modify (on_io g).

(** [C('U')]: erase back to the last newline or to [w]; [e - w] characters at
    most. *)
Fixpoint kill_line (n : nat) : K unit :=
  match n with
  | O => ret tt
  | S n' =>
      io <- getio;;
      if negb (io.(io_e) =? io.(io_w)) && negb (in_char io (u32 (io.(io_e) - 1)) =? 10) then
        modio (set_io_e (u32 (io.(io_e) - 1)));;
        consputc BACKSPACE;;
        kill_line n'
      else ret tt
  end.

(** The body of the loop of [consoleintr]; [true] asks for a process listing. *)
Definition console_key (c : Z) : K bool :=
  if c =? 16 then ret true else                                   (* C('P') *)
  if c =? 21 then                                                 (* C('U') *)
    io <- getio;; kill_line (S (Z.to_nat (u32 (io.(io_e) - io.(io_w)))));; ret false else
  if (c =? 8) || (c =? 127) then                                  (* C('H'), delete *)
    io <- getio;;
    (if negb (io.(io_e) =? io.(io_w)) then
       modio (set_io_e (u32 (io.(io_e) - 1)));; consputc BACKSPACE
     else ret tt);;
    ret false
  else
    io <- getio;;
    (if negb (c =? 0) && (u32 (io.(io_e) - io.(io_r)) <? INPUT_BUF) then
       let c := if c =? 13 then 10 else c in
       modio (λ io, set_io_e (u32 (io.(io_e) + 1))
                      (set_io_buf (<[Z.to_nat (io.(io_e) mod INPUT_BUF) := u8 c]> io.(io_buf)) io));;
       consputc c;;
       io <- getio;;
       if (c =? 10) || (c =? 4) || (io.(io_e) =? u32 (io.(io_r) + INPUT_BUF)) then
         modio (set_io_w io.(io_e));; wakeup ChInput
       else ret tt
     else ret tt);;
    ret false.

Fixpoint console_keys (cs : list Z) (doprocdump : bool) : K bool :=
  match cs with
  | [] => ret doprocdump
  | c :: cs' => d <- console_key c;; console_keys cs' (doprocdump || d)
  end.

Definition consoleintr (cs : list Z) : K unit :=
  acquire Lcons;;
  d <- console_keys cs false;;
  release Lcons;;
  if d : bool then procdump else ret tt.

(** The inner loop of [consoleread]; [true] when the process was killed. *)
Definition console_wait : K bool :=
  r <- while_sleep (io <- getio;; ret (io.(io_r) =? io.(io_w)))
         (i <- curproc;; p <- getp i;;
          if truthy p.(p_killed) then ret (Some tt) else sleep ChInput Lcons;; ret None);;
  ret (match r with Some _ => true | None => false end).

(** The outer loop, [n] characters to go out of [target]; the count left and
    the characters read, or [None] when killed. *)
Fixpoint consoleread_loop (k : nat) (d : dst) (n target : Z) : K (option (Z * list Z)) :=
  match k with
  | O => ret (Some (n, []))
  | S k' =>
      killed <- console_wait;;
      if killed : bool then ret None else
      io <- getio;;
      let c := in_char io io.(io_r) in
      modio (set_io_r (u32 (io.(io_r) + 1)));;
      if c =? 4 then
        (if n <? target then modio (λ io, set_io_r (u32 (io.(io_r) - 1)) io) else ret tt);;
        ret (Some (n, []))
      else
        put d (target - n) [c];;
        if c =? 10 then ret (Some (n - 1, [c])) else
        r <- consoleread_loop k' d (n - 1) target;;
        ret ((λ '(n', cs), (n', c :: cs)) <$> r)
  end.

(** The count, and the characters. *)
Definition consoleread (ip : nat) (d : dst) (n : Z) : K (Z * list Z) :=
  iunlock (Some ip);;
  acquire Lcons;;
  r <- consoleread_loop (Z.to_nat n) d n n;;
  release Lcons;;
  ilock (Some ip);;
  match r with
  | None => ret (-1, [])
  | Some (n', cs) => ret (n - n', cs)
  end.

Definition consolewrite (ip : nat) (f : src) (n : Z) : K Z :=
  iunlock (Some ip);;
  acquire Lcons;;
  for_each (seq 0 (Z.to_nat n)) (λ i,
    bs <- fetch f (Z.of_nat i) 1;;
    consputc (Z.land (default 0 (head bs)) 255));;
  release Lcons;;
  ilock (Some ip);;
  ret n.

Definition consoleinit : K unit :=
  initlock Lcons;;
  modify (on_fs (λ f, set_fs_devsw (<[1%nat := Some consoledev]> f.(fs_devsw)) f));;
  modio (set_io_locking 1).
