(* ===== verification/Kbd.v ===== *)
(** * The keyboard driver (kbd.c, kbd.h)

    The translation of scan codes to characters.  The controller's ports are
    an input: the list of the scan codes that wait in its buffer. *)

From S2P Require Import Prelude KState Spinlock Print Mem Args Proc Sleeplock Bio Log Inode Console.
#[local] Open Scope kernel_scope.

(** ** The tables of kbd.h *)

Definition SHIFT : Z := 1.
Definition CTL : Z := 2.
Definition ALT : Z := 4.
Definition CAPSLOCK : Z := 8.
Definition E0ESC : Z := 64.

(** An initialised array: its first entries, and the designated ones. *)
Definition table (dense : list Z) (designated : list (Z * Z)) (i : Z) : Z :=
  match list_find (λ x, fst x = i) designated with
  | Some (_, (_, c)) => c
  | None => dense !!! Z.to_nat i
  end.

Definition shiftcode : Z → Z :=
  table
    []
    [(29, 2); (42, 1); (54, 1); (56, 4); (157, 2); (184, 4)].

Definition togglecode : Z → Z :=
  table
    []
    [(58, 8); (69, 16); (70, 32)].

Definition normalmap : Z → Z :=
  table
    [0; 27; 49; 50; 51; 52; 53; 54; 55; 56; 57; 48; 45; 61; 8; 9; 113; 119; 101; 114; 116;
     121; 117; 105; 111; 112; 91; 93; 10; 0; 97; 115; 100; 102; 103; 104; 106; 107; 108;
     59; 39; 96; 0; 92; 122; 120; 99; 118; 98; 110; 109; 44; 46; 47; 0; 42; 0; 32; 0; 0;
     0; 0; 0; 0; 0; 0; 0; 0; 0; 0; 0; 55; 56; 57; 45; 52; 53; 54; 43; 49; 50; 51; 48; 46;
     0; 0; 0; 0]
    [(156, 10); (181, 47); (200, 226); (208, 227); (201, 230); (209, 231); (203, 228);
     (205, 229); (151, 224); (207, 225); (210, 232); (211, 233)].

Definition shiftmap : Z → Z :=
  table
    [0; 27; 33; 64; 35; 36; 37; 94; 38; 42; 40; 41; 95; 43; 8; 9; 81; 87; 69; 82; 84; 89;
     85; 73; 79; 80; 123; 125; 10; 0; 65; 83; 68; 70; 71; 72; 74; 75; 76; 58; 34; 126; 0;
     124; 90; 88; 67; 86; 66; 78; 77; 60; 62; 63; 0; 42; 0; 32; 0; 0; 0; 0; 0; 0; 0; 0; 0;
     0; 0; 0; 0; 55; 56; 57; 45; 52; 53; 54; 43; 49; 50; 51; 48; 46; 0; 0; 0; 0]
    [(156, 10); (181, 47); (200, 226); (208, 227); (201, 230); (209, 231); (203, 228);
     (205, 229); (151, 224); (207, 225); (210, 232); (211, 233)].

Definition ctlmap : Z → Z :=
  table
    [0; 0; 0; 0; 0; 0; 0; 0; 0; 0; 0; 0; 0; 0; 0; 0; 17; 23; 5; 18; 20; 25; 21; 9; 15; 16;
     0; 0; 13; 0; 1; 19; 4; 6; 7; 8; 10; 11; 12; 0; 0; 0; 0; 28; 26; 24; 3; 22; 2; 14; 13;
     0; 0; 239; 0; 0]
    [(156, 13); (181, 239); (200, 226); (208, 227); (201, 230); (209, 231); (203, 228);
     (205, 229); (151, 224); (207, 225); (210, 232); (211, 233)].

(** ** kbdgetc *)

Definition clear_bits (x m : Z) : Z := Z.land x (Z.lnot m).

Definition swapcase (c : Z) : Z :=
  if (97 <=? c) && (c <=? 122) then c - 32
  else if (65 <=? c) && (c <=? 90) then c + 32 else c.

Definition charcode (shift : Z) : Z → Z :=
  if Z.land shift (Z.lor CTL SHIFT) =? 0 then normalmap
  else if Z.land shift (Z.lor CTL SHIFT) =? SHIFT then shiftmap else ctlmap.

(** One scan code: the character and the new [shift]. *)
Definition kbd_code (shift data : Z) : Z * Z :=
  if data =? 224 then (0, Z.lor shift E0ESC)
  else if truthy (Z.land data 128) then
    let data := if truthy (Z.land shift E0ESC) then data else Z.land data 127 in
    (0, clear_bits shift (Z.lor (shiftcode data) E0ESC))
  else
    let esc := truthy (Z.land shift E0ESC) in
    let data := if esc then Z.lor data 128 else data in
    let shift := if esc then clear_bits shift E0ESC else shift in
    let shift := Z.lxor (Z.lor shift (shiftcode data)) (togglecode data) in
    let c := charcode shift data in
    (if truthy (Z.land shift CAPSLOCK) then swapcase c else c, shift).

(** [kbdgetc]: -1 when no scan code waits. *)
Definition kbdgetc (shift : Z) (port : list Z) : Z * Z * list Z :=
  match port with
  | [] => (-1, shift, [])
  | data :: port' => let '(c, shift') := kbd_code shift data in (c, shift', port')
  end.

(** The characters [kbdgetc] returns until it returns -1. *)
Fixpoint kbd_drain (shift : Z) (port : list Z) : list Z * Z :=
  match port with
  | [] => ([], shift)
  | data :: port' =>
      let '(c, shift') := kbd_code shift data in
      let '(cs, shift'') := kbd_drain shift' port' in (c :: cs, shift'')
  end.

(** [consoleintr(kbdgetc)]. *)
Definition kbdintr (port : list Z) : K unit :=
  io <- getio;;
  let '(cs, shift) := kbd_drain io.(io_shift) port in
  modio (set_io_shift shift);;
  consoleintr cs.
