(* ===== verification/CString.v ===== *)
(** * Memory and string functions (string.c)

    The functions on memory work on [Z → Z], with the loops of the source; the
    functions on NUL-terminated strings work on lists of characters, where the
    end of the list reads as NUL. *)

From S2P Require Import Prelude KState Print Mem.

(** ** Memory *)

(** [stosb] and [stosl] of x86.h. *)
Fixpoint stosb (n : nat) (a c : Z) (m : mem) : mem :=
  match n with O => m | S n' => stosb n' (a + 1) c (store_bytes a [u8 c] m) end.

Fixpoint stosl (n : nat) (a v : Z) (m : mem) : mem :=
  match n with O => m | S n' => stosl n' (a + 4) v (store32 a v m) end.

Definition memset (dst c n : Z) (m : mem) : mem :=
  if (dst mod 4 =? 0) && (n mod 4 =? 0) then
    let c := Z.land c 255 in
    stosl (Z.to_nat (n / 4)) dst
      (Z.lor (Z.lor (Z.lor (Z.shiftl c 24) (Z.shiftl c 16)) (Z.shiftl c 8)) c) m
  else stosb (Z.to_nat n) dst c m.

Fixpoint memcmp (n : nat) (s1 s2 : Z) (m : mem) : Z :=
  match n with
  | O => 0
  | S n' => if negb (m s1 =? m s2) then m s1 - m s2 else memcmp n' (s1 + 1) (s2 + 1) m
  end.

(** The two loops of [memmove]. *)
Fixpoint move_back (n : nat) (d s : Z) (m : mem) : mem :=
  match n with
  | O => m
  | S n' => move_back n' (d - 1) (s - 1) (store_bytes (d - 1) [m (s - 1)] m)
  end.

Fixpoint move_forth (n : nat) (d s : Z) (m : mem) : mem :=
  match n with
  | O => m
  | S n' => move_forth n' (d + 1) (s + 1) (store_bytes d [m s] m)
  end.

Definition memmove (dst src n : Z) (m : mem) : mem :=
  if (src <? dst) && (dst <? src + n)
  then move_back (Z.to_nat n) (dst + n) (src + n) m
  else move_forth (Z.to_nat n) dst src m.

Definition memcpy (dst src n : Z) (m : mem) : mem := memmove dst src n m.

(** ** Strings *)

Definition hd0 (s : list Z) : Z := default 0 (head s).

Fixpoint strncmp (n : nat) (p q : list Z) : Z :=
  match n with
  | O => 0
  | S n' =>
      if negb (hd0 p =? 0) && (hd0 p =? hd0 q) then strncmp n' (tail p) (tail q)
      else u8 (hd0 p) - u8 (hd0 q)
  end.

(** The [n] bytes [strncpy] stores. *)
Fixpoint strncpy (n : nat) (t : list Z) : list Z :=
  match n with
  | O => []
  | S n' => if hd0 t =? 0 then replicate n 0 else hd0 t :: strncpy n' (tail t)
  end.

(** The bytes [safestrcpy] stores, when [n - 1] is [k]. *)
Fixpoint safestrcpy_loop (k : nat) (t : list Z) : list Z :=
  match k with
  | O => [0]
  | S k' => if hd0 t =? 0 then [0; 0] else hd0 t :: safestrcpy_loop k' (tail t)
  end.

(** [s] after [safestrcpy(s, t, n)]. *)
Definition safestrcpy (s t : list Z) (n : Z) : list Z :=
  if n <=? 0 then s else splice 0 (safestrcpy_loop (Z.to_nat (n - 1)) t) s.

Fixpoint strlen (s : list Z) : Z :=
  match s with [] => 0 | b :: s' => if b =? 0 then 0 else 1 + strlen s' end.

(** ** memset is fill, memmove is copy *)

Lemma store1_eq a b m x : store_bytes a [b] m x = if x =? a then b else m x.
Proof.
  destruct (x =? a) eqn:E; bool_facts.
  - subst. apply store_bytes_in; [lia|]. by rewrite Z.sub_diag.
  - apply store_bytes_out. simpl. lia.
Qed.

Lemma stosb_fill n a c m x : stosb n a c m x = fill a c (Z.of_nat n) m x.
Proof.
  revert a m. induction n as [|n IH]; intros a m.
  - rewrite fill_out by lia. done.
  - cbn [stosb]. rewrite IH. destruct (decide (a ≤ x < a + Z.of_nat (S n))).
    + rewrite (fill_in a) by lia. destruct (decide (x = a)) as [->|].
      * rewrite fill_out, store1_eq, Z.eqb_refl by lia. done.
      * by rewrite fill_in by lia.
    + rewrite !fill_out, store1_eq by lia. destruct (x =? a) eqn:E; bool_facts; [lia|done].
Qed.

(** The word whose four bytes are all [c]. *)
Definition rep_word (c : Z) : Z :=
  Z.lor (Z.lor (Z.lor (Z.shiftl c 24) (Z.shiftl c 16)) (Z.shiftl c 8)) c.

Lemma rep_word_bytes c : 0 ≤ c < 256 → le_bytes 4 (rep_word c) = [c; c; c; c].
Proof.
  intros Hc.
  assert (Forall (λ n, le_bytes 4 (rep_word (Z.of_nat n)) = replicate 4 (Z.of_nat n)) (seq 0 256)) as Hall.
  { apply (bool_decide_eq_true_1 _). vm_compute. reflexivity. }
  rewrite Forall_seq in Hall. specialize (Hall (Z.to_nat c)). rewrite Z2Nat.id in Hall by lia. apply Hall. lia.
Qed.

Lemma store32_rep a c m x :
  0 ≤ c < 256 → store32 a (rep_word c) m x = if bool_decide (a ≤ x < a + 4) then c else m x.
Proof.
  intros Hc. unfold store32. rewrite rep_word_bytes by done. case_bool_decide.
  - apply store_bytes_in; [lia|]. change [c; c; c; c] with (replicate 4 c).
    apply lookup_replicate_2. lia.
  - apply store_bytes_out. simpl. lia.
Qed.

Lemma stosl_fill n a c m x :
  0 ≤ c < 256 → stosl n a (rep_word c) m x = fill a c (4 * Z.of_nat n) m x.
Proof.
  intros Hc. assert (u8 c = c) as Hu by (unfold u8; apply Z.mod_small; lia).
  revert a m. induction n as [|n IH]; intros a m; [by rewrite fill_out by lia|].
  cbn [stosl]. rewrite IH. destruct (decide (a ≤ x < a + 4 * Z.of_nat (S n))).
  - rewrite (fill_in a) by lia. destruct (decide (x < a + 4)).
    + rewrite fill_out, store32_rep, bool_decide_eq_true_2 by lia. done.
    + by rewrite fill_in by lia.
  - rewrite !fill_out, store32_rep, bool_decide_eq_false_2 by lia. done.
Qed.

Lemma move_back_copy n d s m x :
  s < d →
  move_back n (d + Z.of_nat n) (s + Z.of_nat n) m x = copy d s (Z.of_nat n) m x.
Proof.
  intros Hsd. revert m. induction n as [|n IH]; intros m; [by rewrite copy_out by lia|].
  cbn [move_back]. replace (d + Z.of_nat (S n) - 1) with (d + Z.of_nat n) by lia.
  replace (s + Z.of_nat (S n) - 1) with (s + Z.of_nat n) by lia. rewrite IH.
  destruct (decide (d ≤ x < d + Z.of_nat n)).
  - rewrite !copy_in, store1_eq by lia. destruct (_ =? _) eqn:E; bool_facts; [lia|done].
  - rewrite copy_out, store1_eq by lia. destruct (_ =? _) eqn:E; bool_facts.
    + rewrite copy_in by lia. f_equal. lia.
    + by rewrite copy_out by lia.
Qed.

Lemma move_forth_copy n d s m x :
  d ≤ s ∨ s + Z.of_nat n ≤ d →
  move_forth n d s m x = copy d s (Z.of_nat n) m x.
Proof.
  revert d s m. induction n as [|n IH]; intros d s m Hds; [by rewrite copy_out by lia|].
  cbn [move_forth]. rewrite IH by lia. destruct (decide (d + 1 ≤ x < d + 1 + Z.of_nat n)).
  - rewrite !copy_in, store1_eq by lia. destruct (_ =? _) eqn:E; bool_facts; [lia|]. f_equal. lia.
  - rewrite copy_out, store1_eq by lia. destruct (_ =? _) eqn:E; bool_facts.
    + subst. rewrite copy_in by lia. f_equal. lia.
    + by rewrite copy_out by lia.
Qed.

Lemma memset_fill dst c n m x : 0 ≤ n → memset dst c n m x = fill dst c n m x.
Proof.
  intros Hn. unfold memset. destruct (_ && _) eqn:E; bool_facts.
  - change (Z.lor _ (Z.land c 255)) with (rep_word (Z.land c 255)).
    change 255 with (Z.ones 8). rewrite Z.land_ones by lia. change (2 ^ 8) with 256.
    rewrite stosl_fill by (apply Z.mod_pos_bound; lia).
    rewrite Z2Nat.id by (apply Z.div_pos; lia). replace (4 * (n / 4)) with n by (Z.div_mod_to_equations; lia).
    unfold fill. destruct (_ && _); [|done]. unfold u8. apply Z.mod_mod. lia.
  - rewrite stosb_fill. by rewrite Z2Nat.id.
Qed.

(** [memset] (by words when it can, by bytes otherwise) stores the byte in
    exactly the [n] bytes from [dst], and [memmove] copies as if through a
    buffer: overlapping areas, in either direction, end up with what the
    source held before. *)
Theorem memory_functions_correct dst src c n m :
  0 ≤ n →
  (∀ x, memset dst c n m x = if decide (dst ≤ x < dst + n) then u8 c else m x) ∧
  (∀ x, memmove dst src n m x = if decide (dst ≤ x < dst + n) then m (src + (x - dst)) else m x).
Proof.
  intros Hn. split; intros x.
  - rewrite memset_fill by done. case_decide; [by apply fill_in|by apply fill_out; lia].
  - assert (memmove dst src n m x = copy dst src n m x) as ->.
    { unfold memmove. destruct (_ && _) eqn:E.
      - bool_facts. rewrite <- (Z2Nat.id n) at 2 3 by done. rewrite move_back_copy by lia. by rewrite Z2Nat.id.
      - rewrite move_forth_copy; [by rewrite Z2Nat.id|]. rewrite Z2Nat.id by done.
        apply andb_false_iff in E as [E|E]; bool_facts; lia. }
    case_decide; [by apply copy_in|by apply copy_out; lia].
Qed.

Lemma memory_functions_correct_witness :
  0 ≤ 6 ∧ memmove 102 100 6 (λ x, x) 107 = 105 ∧ memmove 100 102 6 (λ x, x) 100 = 102.
Proof.
  split; [lia|].
  destruct (memory_functions_correct 102 100 0 6 (λ x, x)) as [_ H1]; [lia|].
  destruct (memory_functions_correct 100 102 0 6 (λ x, x)) as [_ H2]; [lia|].
  rewrite H1, H2, !decide_True by lia. split; lia.
Defined.

(** ** Strings *)

Lemma strncmp_zero n p q :
  Forall is_byte p → Forall is_byte q →
  strncmp n p q = 0 ↔ take n (cstr p) = take n (cstr q).
Proof.
  revert p q. induction n as [|n IH]; intros p q Hp Hq; [done|]. cbn [strncmp].
  assert (∀ l, Forall is_byte l → is_byte (hd0 l)) as Hb.
  { intros [|b l] H; [unfold hd0, is_byte; simpl; lia|]. by apply Forall_cons in H as [? _]. }
  assert (∀ l, take (S n) (cstr l) = if hd0 l =? 0 then [] else hd0 l :: take n (cstr (tail l))) as Ht.
  { intros [|b l]; [done|]. unfold hd0. simpl. by destruct (b =? 0). }
  rewrite !Ht. pose proof (Hb p Hp) as Hbp. pose proof (Hb q Hq) as Hbq.
  assert (u8 (hd0 p) = hd0 p ∧ u8 (hd0 q) = hd0 q) as [-> ->].
  { unfold u8, is_byte in *. rewrite !Z.mod_small by lia. done. }
  destruct (hd0 p =? 0) eqn:E1; cbn [negb andb]; bool_facts.
  - destruct (hd0 q =? 0) eqn:E2; bool_facts; split; (done || lia || discriminate).
  - destruct (hd0 p =? hd0 q) eqn:E2; bool_facts.
    + rewrite <- E2, (proj2 (Z.eqb_neq _ _) E1). rewrite IH by (by apply Forall_tail).
      split; [by intros ->|]. by intros [= ->].
    + destruct (hd0 q =? 0) eqn:E3; bool_facts; split; try lia; try discriminate. congruence.
Qed.

Lemma strncpy_eq n t : strncpy n t = take n (cstr t) ++ replicate (n - length (cstr t)) 0.
Proof.
  revert t. induction n as [|n IH]; intros t; [done|]. cbn [strncpy].
  destruct t as [|b t]; [done|]. unfold hd0. simpl. destruct (b =? 0); [done|]. simpl. by rewrite IH.
Qed.

Lemma safestrcpy_loop_eq k t :
  ∃ z, safestrcpy_loop k t = take k (cstr t) ++ 0 :: z ∧ (length (safestrcpy_loop k t) ≤ S k)%nat.
Proof.
  revert t. induction k as [|k IH]; intros t; [by exists []|]. cbn [safestrcpy_loop].
  destruct t as [|b t]; [exists [0]; split; [done|simpl; lia]|]. unfold hd0. simpl.
  destruct (b =? 0); [exists [0]; split; [done|simpl; lia]|]. destruct (IH t) as (z & -> & Hl).
  exists z. split; [done|]. simpl. lia.
Qed.

(** the string functions.  [strncmp] is 0 exactly when the strings agree
    on their first [n] characters; [strncpy] fills its [n] bytes with the
    string and NULs; [safestrcpy] stays inside the destination, always leaves a
    NUL, and keeps as much of the string as fits before it. *)
Theorem string_functions_correct p q s n :
  Forall is_byte p → Forall is_byte q → 0 < Z.of_nat n → (n ≤ length s)%nat →
  (strncmp n p q = 0 ↔ take n (cstr p) = take n (cstr q)) ∧
  strncpy n p = take n (cstr p) ++ replicate (n - length (cstr p)) 0 ∧
  length (strncpy n p) = n ∧
  length (safestrcpy s p (Z.of_nat n)) = length s ∧
  cstr (safestrcpy s p (Z.of_nat n)) = take (n - 1) (cstr p).
Proof.
  intros Hp Hq Hn Hlen. split; [by apply strncmp_zero|]. split; [apply strncpy_eq|].
  split; [rewrite strncpy_eq, length_app, length_take, length_replicate; lia|].
  unfold safestrcpy. destruct (_ <=? 0) eqn:E; bool_facts; [lia|].
  replace (Z.to_nat (Z.of_nat n - 1)) with (n - 1)%nat by lia.
  destruct (safestrcpy_loop_eq (n - 1) p) as (z & Heq & Hl). split.
  - apply length_splice. simpl. lia.
  - unfold splice. rewrite take_0, Heq. rewrite <- app_assoc, <- app_comm_cons.
    apply (cstr_app_nul (take (n - 1) (cstr p))). apply Forall_take, cstr_nonzero.
Qed.

Lemma string_functions_correct_witness :
  cstr (safestrcpy (replicate 16 7) (str "a-name-longer-than-that") 16) = str "a-name-longer-t" ∧
  strncmp 14 (str "README") (str "README") = 0.
Proof.
  assert (Forall is_byte (str "README")) as H1 by (repeat constructor; vm_compute; congruence).
  assert (Forall is_byte (str "a-name-longer-than-that")) as H2 by (repeat constructor; vm_compute; congruence).
  destruct (string_functions_correct (str "a-name-longer-than-that") [] (replicate 16 7) 16) as (_ & _ & _ & _ & H3);
    [exact H2|constructor|lia|rewrite length_replicate; lia|].
  destruct (string_functions_correct (str "README") (str "README") (replicate 14 0) 14) as (H4 & _);
    [exact H1|exact H1|lia|rewrite length_replicate; lia|].
  split; [exact H3|apply H4; reflexivity].
Defined.
