(* ===== verification/Fs.v ===== *)
(** * File contents, directories and paths (fs.c, second half) *)

From S2P Require Import Prelude KState Spinlock Print Mem Args Proc Sleeplock Bio Log Inode Console CString.
#[local] Open Scope kernel_scope.

(** ** Reading and writing *)

(** The device functions of a device inode. *)
Definition devsw_of (x : inode) (s : kstate) : option devfn :=
  if (x.(i_major) <? 0) || (NDEV <=? x.(i_major)) then None
  else default None (s.(k_fs).(fs_devsw) !! Z.to_nat x.(i_major)).

(** The loop of [readi], [left] bytes to go; the bytes it moved. *)
Fixpoint readi_loop (fuel : nat) (ip : nat) (d : dst) (tot off n : Z) : K (list Z) :=
  match fuel with
  | O => fault "fuel"
  | S fuel' =>
      if negb (tot <? n) then ret [] else
      x <- geti ip;;
      a <- bmap ip (off / BSIZE);;
      bp <- bread x.(i_dev) a;;
      let m := Z.min (n - tot) (BSIZE - off mod BSIZE) in
      data <- bdata bp;;
      let bs := slice (Z.to_nat (off mod BSIZE)) (Z.to_nat m) data in
      put d tot bs;;
      brelse bp;;
      rest <- readi_loop fuel' ip d (tot + m) (u32 (off + m)) n;;
      ret (bs ++ rest)
  end.

(** The count or -1, and the bytes.  Every iteration but the first starts at a
    block boundary, so [n / BSIZE + 3] iterations are enough. *)
Definition readi (ip : nat) (d : dst) (off n : Z) : K (Z * list Z) :=
  x <- geti ip;;
  if x.(i_type) =? T_DEV then
    o <- gets (devsw_of x);;
    match o with
    | None => ret (-1, [])
    | Some consoledev => consoleread ip d (s32 n)
    end
  else
  if (x.(i_size) <? off) || (u32 (off + n) <? off) then ret (-1, []) else
  let n := if x.(i_size) <? u32 (off + n) then x.(i_size) - off else n in
  bs <- readi_loop (Z.to_nat (n / BSIZE + 3)) ip d 0 off n;;
  ret (n, bs).

Fixpoint writei_loop (fuel : nat) (ip : nat) (f : src) (tot off n : Z) : K Z :=
  match fuel with
  | O => fault "fuel"
  | S fuel' =>
      if negb (tot <? n) then ret off else
      x <- geti ip;;
      a <- bmap ip (off / BSIZE);;
      bp <- bread x.(i_dev) a;;
      let m := Z.min (n - tot) (BSIZE - off mod BSIZE) in
      bs <- fetch f tot m;;
      modbdata bp (splice (Z.to_nat (off mod BSIZE)) bs);;
      log_write bp;;
      brelse bp;;
      writei_loop fuel' ip f (tot + m) (u32 (off + m)) n
  end.

Definition writei (ip : nat) (f : src) (off n : Z) : K Z :=
  x <- geti ip;;
  if x.(i_type) =? T_DEV then
    o <- gets (devsw_of x);;
    match o with
    | None => ret (-1)
    | Some consoledev => consolewrite ip f (s32 n)
    end
  else
  if (x.(i_size) <? off) || (u32 (off + n) <? off) then ret (-1) else
  if MAXFILE * BSIZE <? u32 (off + n) then ret (-1) else
  off' <- writei_loop (Z.to_nat (n / BSIZE + 3)) ip f 0 off n;;
  x <- geti ip;;
  (if (0 <? n) && (x.(i_size) <? off') then modi ip (set_i_size off');; iupdate ip else ret tt);;
  ret n.

(** ** Directories *)

(** Names are strings of at most [DIRSIZ] characters, with no NUL. *)
Definition namecmp (s t : list Z) : Z := strncmp DIRSIZ s t.

(** [struct dirent]: two bytes of inode number and the name. *)
Definition de_inum (de : list Z) : Z := le_val (slice 0 2 de).
Definition de_name (de : list Z) : list Z := slice 2 DIRSIZ de.
Definition dirent_size : Z := 16.

(** The offsets of the loops [for(off = 0; off < size; off += sizeof(de))]. *)
Definition dirent_offs (size : Z) : list Z :=
  (λ k, 16 * Z.of_nat k) <$> seq 0 (Z.to_nat ((size + 15) / 16)).

(** The inode and the offset of the entry. *)
Definition dirlookup (dp : nat) (name : list Z) : K (option (nat * Z)) :=
  x <- geti dp;;
  if negb (x.(i_type) =? T_DIR) then panic "dirlookup not DIR" else
  for_ret (dirent_offs x.(i_size)) (λ off,
    r <- readi dp ToLocal off dirent_size;;
    if negb (fst r =? dirent_size) then panic "dirlink read" else
    let de := snd r in
    if de_inum de =? 0 then ret None else
    if namecmp name (de_name de) =? 0 then
      ip <- iget x.(i_dev) (de_inum de);; ret (Some (ip, off))
    else ret None).

(** The search for an empty entry in [dirlink]. *)
Definition empty_entry (dp : nat) : K (option Z) :=
  x <- geti dp;;
  for_ret (dirent_offs x.(i_size)) (λ off,
    r <- readi dp ToLocal off dirent_size;;
    if negb (fst r =? dirent_size) then panic "dirlink read" else
    if de_inum (snd r) =? 0 then ret (Some off) else ret None).

Definition dirlink (dp : nat) (name : list Z) (inum : Z) : K Z :=
  o <- dirlookup dp name;;
  match o with
  | Some (ip, _) => iput ip;; ret (-1)
  | None =>
      e <- empty_entry dp;;
      x <- geti dp;;
      let off := match e with Some off => off | None => 16 * ((x.(i_size) + 15) / 16) end in
      r <- writei dp (FromLocal (le_bytes 2 inum ++ strncpy DIRSIZ name)) off dirent_size;;
      if negb (r =? dirent_size) then panic "dirlink" else ret 0
  end.

(** ** Paths *)

Fixpoint skip_slashes (path : list Z) : list Z :=
  match path with
  | c :: path' => if c =? 47 then skip_slashes path' else path
  | [] => []
  end.

(** The characters up to the next slash, and the rest. *)
Fixpoint path_elem (path : list Z) : list Z * list Z :=
  match path with
  | c :: path' => if c =? 47 then ([], path) else
                  let '(s, rest) := path_elem path' in (c :: s, rest)
  | [] => ([], [])
  end.

(** The next element, cut to [DIRSIZ] characters, and the rest of the path. *)
Definition skipelem (path : list Z) : option (list Z * list Z) :=
  match skip_slashes path with
  | [] => None
  | p => let '(s, rest) := path_elem p in Some (take DIRSIZ s, skip_slashes rest)
  end.

(** The loop of [namex] from inode [ip]; the inode, and the last element when
    the parent is wanted.  Every iteration removes a character of the path. *)
Fixpoint namex_loop (fuel : nat) (ip : nat) (path : list Z) (nameiparent : bool)
    : K (option (nat * list Z)) :=
  match fuel with
  | O => fault "fuel"
  | S fuel' =>
      match skipelem path with
      | None => if nameiparent then iput ip;; ret None else ret (Some (ip, []))
      | Some (name, rest) =>
          ilock (Some ip);;
          x <- geti ip;;
          if negb (x.(i_type) =? T_DIR) then iunlockput ip;; ret None else
          if nameiparent && bool_decide (rest = []) then iunlock (Some ip);; ret (Some (ip, name)) else
          next <- dirlookup ip name;;
          match next with
          | None => iunlockput ip;; ret None
          | Some (nx, _) => iunlockput ip;; namex_loop fuel' nx rest nameiparent
          end
      end
  end.

Definition namex (path : list Z) (nameiparent : bool) : K (option (nat * list Z)) :=
  ip <- (if hd0 path =? 47 then iget ROOTDEV ROOTINO
         else i <- curproc;; p <- getp i;; c <- deref p.(p_cwd);; idup c);;
  namex_loop (S (length path)) ip path nameiparent.

Definition namei (path : list Z) : K (option nat) :=
  r <- namex path false;; ret (fst <$> r).

Definition nameiparent (path : list Z) : K (option (nat * list Z)) := namex path true.

(** ** Path elements *)

(** The path cut at its slashes. *)
Fixpoint split_slash (path : list Z) : list (list Z) :=
  match path with
  | [] => [[]]
  | c :: path' =>
      if c =? 47 then [] :: split_slash path'
      else match split_slash path' with w :: ws => (c :: w) :: ws | [] => [[c]] end
  end.

(** The names of a path: the non-empty pieces, cut to [DIRSIZ] characters. *)
Definition elements (path : list Z) : list (list Z) :=
  take DIRSIZ <$> filter (λ w, w ≠ []) (split_slash path).

(** What the loop of [namex] gets from [skipelem]. *)
Fixpoint skipelems (fuel : nat) (path : list Z) : option (list (list Z)) :=
  match fuel with
  | O => None
  | S fuel' =>
      match skipelem path with
      | None => Some []
      | Some (name, rest) => (name ::.) <$> skipelems fuel' rest
      end
  end.

Lemma path_elem_split path :
  split_slash path =
    fst (path_elem path) :: match snd (path_elem path) with [] => [] | _ :: r => split_slash r end.
Proof.
  induction path as [|c path IH]; [done|]. simpl. destruct (c =? 47); [done|].
  rewrite IH. by destruct (path_elem path) as [w r].
Qed.

Lemma path_elem_rest path :
  snd (path_elem path) = [] ∨ ∃ r, snd (path_elem path) = 47 :: r.
Proof.
  induction path as [|c path IH]; [by left|]. simpl. destruct (c =? 47) eqn:E.
  - bool_facts. subst. right. by exists path.
  - by destruct (path_elem path).
Qed.

Lemma path_elem_length path : (length (fst (path_elem path)) + length (snd (path_elem path)) = length path)%nat.
Proof.
  induction path as [|c path IH]; [done|]. simpl. destruct (c =? 47); [done|].
  destruct (path_elem path). simpl in *. lia.
Qed.

Lemma skip_slashes_elements path : elements (skip_slashes path) = elements path.
Proof.
  induction path as [|c path IH]; [done|]. simpl. destruct (c =? 47) eqn:E; [|done].
  rewrite IH. unfold elements. cbn [split_slash]. rewrite E. by rewrite filter_cons_False by naive_solver.
Qed.

Lemma skip_slashes_head path : skip_slashes path = [] ∨ ∃ c r, skip_slashes path = c :: r ∧ c ≠ 47.
Proof.
  induction path as [|c path IH]; [by left|]. simpl. destruct (c =? 47) eqn:E; [done|].
  bool_facts. right. by exists c, path.
Qed.

Lemma skip_slashes_length path : (length (skip_slashes path) ≤ length path)%nat.
Proof. induction path as [|c path IH]; [done|]. simpl. destruct (c =? 47); simpl; lia. Qed.

Lemma skipelem_None path : skipelem path = None → elements path = [].
Proof.
  unfold skipelem. intros H. rewrite <- skip_slashes_elements. destruct (skip_slashes path) as [|c r]; [done|].
  by destruct (path_elem (c :: r)).
Qed.

Lemma skipelem_Some path name rest :
  skipelem path = Some (name, rest) →
  elements path = name :: elements rest ∧ (length rest < length path)%nat ∧
  name ≠ [] ∧ (length name ≤ DIRSIZ)%nat.
Proof.
  unfold skipelem. intros H. rewrite <- (skip_slashes_elements path). pose proof (skip_slashes_length path) as Hl.
  destruct (skip_slashes_head path) as [E|(c & r & E & Hc)]; rewrite E in *; [done|].
  pose proof (path_elem_split (c :: r)) as Hs. pose proof (path_elem_length (c :: r)) as Hlen.
  pose proof (path_elem_rest (c :: r)) as Hr.
  assert (fst (path_elem (c :: r)) ≠ []) as Hne.
  { simpl. apply Z.eqb_neq in Hc as ->. by destruct (path_elem r). }
  destruct (path_elem (c :: r)) as [w q]. cbn [fst snd] in *. injection H as <- <-.
  assert (length (skip_slashes q) ≤ length q)%nat by apply skip_slashes_length.
  split_and!; [|destruct w; [done|simpl in *; lia]|by destruct w|rewrite length_take; lia].
  unfold elements at 1. rewrite Hs, filter_cons_True by done. rewrite fmap_cons. f_equal.
  rewrite skip_slashes_elements. unfold elements.
  destruct Hr as [->|(r' & ->)]; [done|]. cbn [split_slash]. change (47 =? 47) with true. cbv iota.
  by rewrite filter_cons_False by naive_solver.
Qed.

Lemma namex_loop_fuel fuel fuel' ip path b s e :
  (length path < fuel)%nat → (length path < fuel')%nat →
  namex_loop fuel ip path b s e = namex_loop fuel' ip path b s e.
Proof.
  revert fuel' ip path s e. induction fuel as [|fuel IH]; intros [|fuel'] ip path s e H H'; [lia..|]. simpl.
  destruct (skipelem path) as [[name rest]|] eqn:E; [|done]. apply skipelem_Some in E as (_ & ? & _).
  apply bind_ext. intros _ s1 e1. apply bind_ext. intros x s2 e2. case_if; [done|].
  case_if; [done|]. apply bind_ext. intros [[nx off]|] s3 e3; [|done].
  apply bind_ext. intros _ s4 e4. apply IH; lia.
Qed.

(** Path names are cut as the comment of [skipelem] says.  The names the
    loop of [namex] sees are the non-empty pieces between slashes, in order,
    each cut to DIRSIZ characters; repeated, leading and trailing slashes do
    not matter.  The loop ends within one iteration per character: the bound
    [namex] runs it with can be replaced by any larger one. *)
Theorem path_names path :
  skipelems (S (length path)) path = Some (elements path) ∧
  Forall (λ name, name ≠ [] ∧ (length name ≤ DIRSIZ)%nat) (elements path) ∧
  ∀ k ip b s e,
    namex_loop (S (length path) + k) ip path b s e = namex_loop (S (length path)) ip path b s e.
Proof.
  split_and!.
  - remember (S (length path)) as fuel eqn:Hf. assert (length path < fuel)%nat as Hlt by lia. clear Hf.
    revert path Hlt. induction fuel as [|fuel IH]; intros path Hlt; [lia|]. simpl.
    destruct (skipelem path) as [[name rest]|] eqn:E.
    + apply skipelem_Some in E as (-> & ? & _). by rewrite IH by lia.
    + by rewrite (skipelem_None _ E).
  - unfold elements. apply Forall_fmap, Forall_forall. intros w [Hw _]%list_elem_of_filter. simpl.
    rewrite length_take. split; [by destruct w|lia].
  - intros. apply namex_loop_fuel; lia.
Qed.
