(* ===== verification/FileData.v ===== *)
(** * The contents of a file (fs.c)

    What [readi], [writei] and the directory functions of Fs.v do, in terms of
    the bytes of a file: the blocks its inode leads to, one after the other, up
    to its size. *)

From S2P Require Import Prelude KState Spinlock Print Mem Args Proc Sleeplock Bio Log Inode Console CString Fs.
#[local] Open Scope kernel_scope.

(** ** Bytes in blocks *)

Section concat.
Context {A : Type} (n : nat).

Lemma length_concat (bs : list (list A)) : Forall (λ b, length b = n) bs → length (concat bs) = (n * length bs)%nat.
Proof. induction 1 as [|b bs Hb _ IH]; simpl; [lia|]. rewrite length_app, Hb, IH. lia. Qed.

(** A piece of one block. *)
Lemma slice_concat (bs : list (list A)) k b r m :
  Forall (λ b, length b = n) bs → bs !! k = Some b → (r + m ≤ n)%nat →
  slice (n * k + r) m (concat bs) = slice r m b.
Proof.
  intros Hbs. revert k. induction Hbs as [|c bs Hc Hbs IH]; intros k Hk Hm; [done|]. destruct k as [|k]; simpl in *.
  - injection Hk as ->. rewrite Nat.mul_0_r. apply slice_app_l. lia.
  - rewrite slice_app_r by lia. rewrite <- (IH k Hk Hm). f_equal. lia.
Qed.

Lemma slice_split (l : list A) off m m' : slice off (m + m') l = slice off m l ++ slice (off + m) m' l.
Proof. unfold slice. by rewrite <- drop_drop, take_take_drop. Qed.

Lemma slice_nil (l : list A) off : slice off 0 l = [].
Proof. done. Qed.
End concat.

(** ** The blocks of a file *)

(** The number of blocks of [size] bytes. *)
Definition nblocks (size : Z) : Z := (size + BSIZE - 1) / BSIZE.

Section blocks.
(** What is in a block. *)
Context (blk : Z → list Z).

(** The block that holds bytes [k * BSIZE] on. *)
Definition file_block (x : inode) (k : Z) : Z :=
  if k <? Z.of_nat NDIRECT then x.(i_addrs) !!! Z.to_nat k
  else word (blk (x.(i_addrs) !!! NDIRECT)) (Z.to_nat (k - Z.of_nat NDIRECT)).

Definition file_blocks (x : inode) : list (list Z) :=
  (λ k, blk (file_block x (Z.of_nat k))) <$> seq 0 (Z.to_nat (nblocks x.(i_size))).

Definition file_bytes (x : inode) : list Z := take (Z.to_nat x.(i_size)) (concat (file_blocks x)).

(** The blocks of the file are whole. *)
Definition whole (x : inode) : Prop :=
  ∀ k, 0 ≤ k < nblocks x.(i_size) → length (blk (file_block x k)) = Z.to_nat BSIZE.

Lemma file_blocks_lookup x k :
  0 ≤ k < nblocks x.(i_size) → file_blocks x !! Z.to_nat k = Some (blk (file_block x k)).
Proof.
  intros Hk. unfold file_blocks. rewrite list_lookup_fmap, lookup_seq_lt by lia. simpl. by rewrite Z2Nat.id by lia.
Qed.

Lemma file_blocks_whole x : whole x → Forall (λ b, length b = Z.to_nat BSIZE) (file_blocks x).
Proof.
  intros Hw. unfold file_blocks. apply Forall_fmap, Forall_forall. intros k Hk%elem_of_seq. apply Hw. lia.
Qed.

Lemma nblocks_le size : 0 ≤ size → size ≤ BSIZE * nblocks size.
Proof. unfold nblocks, BSIZE. intros. pose proof (Z.div_mod (size + 512 - 1) 512 ltac:(lia)). pose proof (Z.mod_pos_bound (size + 512 - 1) 512 ltac:(lia)). lia. Qed.

Lemma nblocks_lt size off : 0 ≤ off < size → 0 ≤ off / BSIZE < nblocks size.
Proof.
  unfold nblocks, BSIZE. intros. pose proof (Z.div_mod (size + 512 - 1) 512 ltac:(lia)). pose proof (Z.mod_pos_bound (size + 512 - 1) 512 ltac:(lia)).
  pose proof (Z.div_mod off 512 ltac:(lia)). pose proof (Z.mod_pos_bound off 512 ltac:(lia)). lia.
Qed.

Lemma length_file_bytes x : whole x → 0 ≤ x.(i_size) → length (file_bytes x) = Z.to_nat x.(i_size).
Proof.
  intros Hw Hs. unfold file_bytes. rewrite length_take, (length_concat (Z.to_nat BSIZE)) by (by apply file_blocks_whole).
  unfold file_blocks. rewrite length_fmap, length_seq. pose proof (nblocks_le _ Hs). unfold BSIZE in *. lia.
Qed.

(** A piece of the file that lies in one block. *)
Lemma file_bytes_piece x off m :
  whole x → 0 ≤ off → 0 < m → off mod BSIZE + m ≤ BSIZE → off + m ≤ x.(i_size) →
  slice (Z.to_nat off) (Z.to_nat m) (file_bytes x) =
    slice (Z.to_nat (off mod BSIZE)) (Z.to_nat m) (blk (file_block x (off / BSIZE))).
Proof.
  intros Hw Ho Hm Hin Hle. pose proof (nblocks_lt x.(i_size) off ltac:(lia)) as Hk.
  unfold file_bytes. unfold slice at 1. rewrite skipn_firstn_comm, take_take, Nat.min_l by lia. fold (slice (Z.to_nat off) (Z.to_nat m) (concat (file_blocks x))).
  pose proof (Z.div_mod off BSIZE ltac:(done)). pose proof (Z.mod_pos_bound off BSIZE ltac:(done)).
  rewrite <- (slice_concat (Z.to_nat BSIZE) (file_blocks x) (Z.to_nat (off / BSIZE)) (blk (file_block x (off / BSIZE))));
    [|by apply file_blocks_whole|by apply file_blocks_lookup|unfold BSIZE in *; lia].
  f_equal. change (Z.to_nat BSIZE) with 512%nat. unfold BSIZE in *. lia.
Qed.
End blocks.

(** ** Reading *)

(** The first [nb] blocks of a file are there. *)
Record mapped (f : fsstate) (x : inode) (nb : Z) : Prop := {
  mp_dev : x.(i_dev) = 1;
  mp_max : nb ≤ MAXFILE;
  mp_block : ∀ k, 0 ≤ k < nb → file_block (content f) x k ≠ 0 ∧ in_disk f (file_block (content f) x k);
  mp_indirect : Z.of_nat NDIRECT < nb → x.(i_addrs) !!! NDIRECT ≠ 0 ∧ in_disk f (x.(i_addrs) !!! NDIRECT)
}.

(** A file whose blocks are all there. *)
Record file_wf (f : fsstate) (x : inode) : Prop := {
  fw_type : x.(i_type) ≠ T_DEV;
  fw_size : 0 ≤ x.(i_size) ≤ MAXFILE * BSIZE;
  fw_mapped : mapped f x (nblocks x.(i_size));
  fw_whole : whole (content f) x
}.

(** The state after a read: the same but for the buffer cache. *)
Definition seen (s s' : kstate) : Prop := log_inv ∅ s' ∧ unchanged s s'.

Lemma seen_refl s : log_inv ∅ s → seen s s.
Proof. intros H. split; [done|]. split; [by destruct (k_fs s)|done]. Qed.

Lemma seen_trans s s' s'' : seen s s' → seen s' s'' → seen s s''.
Proof. intros [_ H] [H' H'']. split; [done|by eapply unchanged_trans]. Qed.

Lemma seen_inodes s s' : seen s s' → s'.(k_fs).(fs_inodes) = s.(k_fs).(fs_inodes).
Proof. intros [_ [Hq _]]. by destruct (quiet_frame _ _ Hq) as ((_ & _ & ? & _) & _). Qed.

Lemma nblocks_max size : 0 ≤ size ≤ MAXFILE * BSIZE → nblocks size ≤ MAXFILE.
Proof. unfold nblocks, MAXFILE, BSIZE, NDIRECT, NINDIRECT. intros. apply Z.lt_succ_r. apply Z.div_lt_upper_bound; lia. Qed.

Lemma seen_block s s' x nb k :
  seen s s' → mapped s.(k_fs) x nb → 0 ≤ k < nb →
  file_block (content s'.(k_fs)) x k = file_block (content s.(k_fs)) x k.
Proof.
  intros [_ [_ Hv]] Hw Hk. unfold file_block. destruct (k <? _) eqn:E; bool_facts; [done|].
  rewrite Hv; [done|]. apply (mp_indirect _ _ _ Hw). lia.
Qed.

Lemma seen_mapped s s' x nb : seen s s' → mapped s.(k_fs) x nb → mapped s'.(k_fs) x nb.
Proof.
  intros Hs Hw. pose proof Hs as [_ [Hq Hv]]. destruct (quiet_frame _ _ Hq) as (_ & Hd & _).
  split; [apply Hw|apply Hw| |]; unfold in_disk; rewrite Hd; [|apply Hw].
  intros k Hk. rewrite (seen_block s s' x nb) by done. by apply Hw.
Qed.

Lemma seen_wf s s' x : seen s s' → file_wf s.(k_fs) x → file_wf s'.(k_fs) x.
Proof.
  intros Hs Hw. pose proof Hs as [_ [_ Hv]]. destruct Hw as [H2 H3 H4 H6].
  split; [done|done|by eapply seen_mapped|].
  intros k Hk. rewrite (seen_block s s' x _ k Hs H4 Hk), Hv by (apply H4; lia). by apply H6.
Qed.

Lemma seen_bytes s s' x : seen s s' → file_wf s.(k_fs) x → file_bytes (content s'.(k_fs)) x = file_bytes (content s.(k_fs)) x.
Proof.
  intros Hs Hw. pose proof Hs as [_ [_ Hv]]. pose proof (fw_mapped _ _ Hw) as Hm. unfold file_bytes, file_blocks. do 2 f_equal. apply list_fmap_ext.
  intros i k [-> Hk]%lookup_seq. rewrite (seen_block s s' x _ _ Hs Hm) by lia. apply Hv. apply Hm. lia.
Qed.

(** [bmap] finds a block that is there. *)
Lemma bmap_mapped s e ip x nb k :
  log_inv ∅ s → s.(k_fs).(fs_inodes) !! ip = Some x → mapped s.(k_fs) x nb → 0 ≤ k < nb →
  ∃ s', bmap ip k s e = Ret (file_block (content s.(k_fs)) x k) s' e ∧ seen s s'.
Proof.
  intros Hinv Hx Hw Hk. destruct (mp_block _ _ _ Hw k Hk) as [Hne _]. pose proof (mp_max _ _ _ Hw) as Hmax.
  unfold bmap, file_block in *. destruct (k <? Z.of_nat NDIRECT) eqn:E; bool_facts.
  - mstep (geti_run s e ip x Hx). rewrite (proj2 (Z.eqb_neq _ _) Hne). exists s. split; [done|by apply seen_refl].
  - destruct (mp_indirect _ _ _ Hw) as [Hi0 Hid]; [lia|]. unfold MAXFILE, NDIRECT, NINDIRECT in *.
    rewrite (proj2 (Z.ltb_lt _ _)) by lia. mstep (geti_run s e ip x Hx).
    cbv zeta. rewrite (proj2 (Z.eqb_neq _ _) Hi0), bind_ret_l, (mp_dev _ _ _ Hw).
    destruct (bread_txn _ s e Hinv Hid) as (i & s1 & Hr1 & Hheld). mstep Hr1. mstep (held_bdata i _ s s1 e Hheld (proj1 Hid)).
    rewrite (proj2 (Z.eqb_neq _ _) Hne), bind_ret_l.
    destruct (release_held i _ s s1 e Hheld) as (s2 & Hr2 & Hinv2 & Hq2 & Hv2). mstep Hr2. exists s2. by split.
Qed.

(** The loop of [readi]: every turn but the first starts at a block boundary. *)
Lemma readi_loop_run fuel s e ip x tot off n :
  log_inv ∅ s → s.(k_fs).(fs_inodes) !! ip = Some x → file_wf s.(k_fs) x →
  0 ≤ off → tot ≤ n → off + (n - tot) ≤ x.(i_size) → (0 < fuel)%nat →
  (tot < n → (n - tot) + off mod BSIZE ≤ (Z.of_nat fuel - 1) * BSIZE) →
  ∃ s', readi_loop fuel ip ToLocal tot off n s e =
          Ret (slice (Z.to_nat off) (Z.to_nat (n - tot)) (file_bytes (content s.(k_fs)) x)) s' e ∧ seen s s'.
Proof.
  revert s tot off. induction fuel as [|fuel IH]; intros s tot off Hinv Hx Hw Ho Ht Hle Hf Hfuel; [lia|].
  cbn [readi_loop]. destruct (tot <? n) eqn:E; bool_facts; cbn [negb]; cbv iota.
  2: { replace (n - tot) with 0 by lia. exists s. split; [done|by apply seen_refl]. }
  specialize (Hfuel E). pose proof (nblocks_lt x.(i_size) off ltac:(lia)) as Hk. pose proof (fw_size _ _ Hw) as Hsz.
  pose proof (Z.div_mod off BSIZE ltac:(done)) as Hdm. pose proof (Z.mod_pos_bound off BSIZE ltac:(done)) as Hr.
  mstep (geti_run s e ip x Hx). pose proof (fw_mapped _ _ Hw) as Hmp.
  destruct (bmap_mapped s e ip x _ _ Hinv Hx Hmp Hk) as (s1 & Hr1 & Hs1). mstep Hr1. rewrite (mp_dev _ _ _ Hmp). set (a := file_block (content (k_fs s)) x (off / BSIZE)).
  destruct (mp_block _ _ _ (seen_mapped s s1 x _ Hs1 Hmp) _ Hk) as [_ Hin]. rewrite (seen_block s s1 x _ _ Hs1 Hmp Hk) in Hin. fold a in Hin.
  destruct (bread_txn a s1 e (proj1 Hs1) Hin) as (i & s2 & Hr2 & Hheld). mstep Hr2. mstep (held_bdata i a s1 s2 e Hheld (proj1 Hin)).
  cbn [put]. rewrite bind_ret_l. destruct (release_held i a s1 s2 e Hheld) as (s3 & Hr3 & Hinv3 & Hq3 & Hv3). mstep Hr3.
  assert (seen s s3) as Hs3 by (eapply seen_trans; [exact Hs1|by split]).
  set (m := Z.min (n - tot) (BSIZE - off mod BSIZE)). unfold BSIZE in *. assert (0 < m ≤ n - tot) as Hm by (unfold m; lia).
  unfold MAXFILE, NDIRECT, NINDIRECT in Hsz. rewrite u32_id by (unfold is_u32; lia).
  destruct (IH s3 (tot + m) (off + m)) as (s4 & Hr4 & Hs4); [done|by rewrite (seen_inodes s s3)|by eapply seen_wf|lia|lia|lia|lia| |].
  { intros Hlt. assert (m = 512 - off mod 512) as Hme by (unfold m in *; lia).
    replace (off + m) with (512 * (off / 512 + 1)) by lia. rewrite Z.mul_comm, Z.mod_mul by lia. lia. }
  mstep Hr4. exists s4. split; [|by eapply seen_trans]. unfold ret. f_equal. rewrite (seen_bytes s s3 x Hs3 Hw).
  rewrite (proj2 (proj2 Hs1) a) by apply Hin.
  replace (Z.to_nat (n - tot)) with (Z.to_nat m + Z.to_nat (n - (tot + m)))%nat by lia. rewrite slice_split. f_equal.
  - symmetry. apply (file_bytes_piece _ x off m (fw_whole _ _ Hw)); [lia|lia|unfold m, BSIZE; lia|lia].
  - f_equal. lia.
Qed.

Lemma readi_run s e ip x off n :
  log_inv ∅ s → s.(k_fs).(fs_inodes) !! ip = Some x → file_wf s.(k_fs) x → is_u32 off → is_u32 n →
  ∃ s', seen s s' ∧
    readi ip ToLocal off n s e =
      Ret (if (x.(i_size) <? off) || (4294967296 <=? off + n) then (-1, [])
           else let m := Z.min n (x.(i_size) - off) in
                (m, slice (Z.to_nat off) (Z.to_nat m) (file_bytes (content s.(k_fs)) x))) s' e.
Proof.
  intros Hinv Hx Hw Ho Hn. unfold is_u32 in *. pose proof (fw_size _ _ Hw) as Hsz. unfold MAXFILE, NDIRECT, NINDIRECT, BSIZE in Hsz.
  unfold readi. mstep (geti_run s e ip x Hx). rewrite (proj2 (Z.eqb_neq _ _) (fw_type _ _ Hw)).
  assert ((u32 (off + n) <? off) = (4294967296 <=? off + n)) as ->.
  { destruct (4294967296 <=? off + n) eqn:E; bool_facts.
    - apply Z.ltb_lt. replace (off + n) with (off + n - 4294967296 + 1 * 4294967296) by lia. unfold u32. rewrite Z.mod_add, Z.mod_small by lia. lia.
    - apply Z.ltb_ge. rewrite u32_id by (unfold is_u32; lia). lia. }
  destruct ((x.(i_size) <? off) || (4294967296 <=? off + n)) eqn:E; [exists s; split; [by apply seen_refl|done]|]. bool_facts.
  rewrite u32_id by (unfold is_u32; lia). cbv zeta.
  assert ((if x.(i_size) <? off + n then x.(i_size) - off else n) = Z.min n (x.(i_size) - off)) as ->
    by (destruct (Z.ltb_spec x.(i_size) (off + n)); lia).
  set (m := Z.min n (x.(i_size) - off)). pose proof (Z.mod_pos_bound off BSIZE ltac:(done)).
  destruct (readi_loop_run (Z.to_nat (m / BSIZE + 3)) s e ip x 0 off m Hinv Hx Hw) as (s' & Hr & Hs);
    [lia|lia|lia| | |mstep Hr; rewrite Z.sub_0_r; by exists s'].
  - unfold BSIZE. pose proof (Z.div_pos m 512 ltac:(lia) ltac:(lia)). lia.
  - intros _. unfold BSIZE in *. pose proof (Z.div_pos m 512 ltac:(lia) ltac:(lia)).
    pose proof (Z.div_mod m 512 ltac:(lia)). pose proof (Z.mod_pos_bound m 512 ltac:(lia)). lia.
Qed.

(** C22: [readi] returns the bytes of the file.  For a file whose blocks are all there, reading [n] bytes at [off] into
    a kernel buffer returns those of the bytes that lie before the end of the file, and their number; an offset past the end,
    or one whose sum with [n] overflows, gives -1.  Nothing changes but the buffer cache. *)
Theorem readi_correct s e ip x off n :
  log_inv ∅ s → s.(k_fs).(fs_inodes) !! ip = Some x → file_wf s.(k_fs) x → is_u32 off → is_u32 n →
  ∃ s', seen s s' ∧
    readi ip ToLocal off n s e =
      Ret (if (x.(i_size) <? off) || (4294967296 <=? off + n) then (-1, [])
           else let m := Z.min n (x.(i_size) - off) in
                (m, slice (Z.to_nat off) (Z.to_nat m) (file_bytes (content s.(k_fs)) x))) s' e.
Proof. apply readi_run. Qed.

(** ** Directories *)

(** The entry at [off] of a directory's bytes has the name. *)
Definition entry_named (name bytes : list Z) (off : Z) : bool :=
  let de := slice (Z.to_nat off) 16 bytes in negb (de_inum de =? 0) && (namecmp name (de_name de) =? 0).

(** The offset and the inode number of the first entry in use that has the name. *)
Definition dir_find (name bytes : list Z) (offs : list Z) : option (Z * Z) :=
  match list_find (λ off, entry_named name bytes off = true) offs with
  | Some (_, off) => Some (off, de_inum (slice (Z.to_nat off) 16 bytes))
  | None => None
  end.

Lemma dir_find_cons name bytes off offs :
  dir_find name bytes (off :: offs) =
    if entry_named name bytes off then Some (off, de_inum (slice (Z.to_nat off) 16 bytes)) else dir_find name bytes offs.
Proof.
  unfold dir_find. cbn [list_find]. destruct (entry_named name bytes off) eqn:E.
  - by rewrite decide_True.
  - rewrite decide_False by done. by destruct (list_find _ offs) as [[]|].
Qed.

(** What [dirlookup] does with an entry it has found. *)
Definition found_entry (dev : Z) (r : option (Z * Z)) : K (option (nat * Z)) :=
  match r with
  | Some (off, inum) => ip <- iget dev inum;; ret (Some (ip, off))
  | None => ret None
  end.

Lemma dirent_read s e dp x off :
  log_inv ∅ s → s.(k_fs).(fs_inodes) !! dp = Some x → file_wf s.(k_fs) x → 0 ≤ off → off + 16 ≤ x.(i_size) →
  ∃ s', readi dp ToLocal off dirent_size s e = Ret (16, slice (Z.to_nat off) 16 (file_bytes (content s.(k_fs)) x)) s' e ∧ seen s s'.
Proof.
  intros Hinv Hx Hw Ho Hle. pose proof (fw_size _ _ Hw) as Hsz. unfold MAXFILE, NDIRECT, NINDIRECT, BSIZE in Hsz.
  destruct (readi_run s e dp x off dirent_size Hinv Hx Hw) as (s' & Hs & Hr); [unfold is_u32; lia|done|].
  exists s'. split; [|done]. rewrite Hr. unfold dirent_size. rewrite (proj2 (Z.ltb_ge _ _)), (proj2 (Z.leb_gt _ _)) by lia. cbn [orb].
  by rewrite Z.min_l by lia.
Qed.

(** [dirlookup] finds the first entry of the name.  In a directory whose blocks are all there and whose size is a
    multiple of the size of an entry, it reads the entries in order, skips the free ones, and for the first one of the
    name returns the inode of its number and its offset; it returns 0 when there is none. *)
Theorem dirlookup_correct s e dp x name :
  log_inv ∅ s → s.(k_fs).(fs_inodes) !! dp = Some x → file_wf s.(k_fs) x → x.(i_type) = T_DIR → x.(i_size) mod 16 = 0 →
  ∃ s', seen s s' ∧
    dirlookup dp name s e =
      found_entry x.(i_dev) (dir_find name (file_bytes (content s.(k_fs)) x) (dirent_offs x.(i_size))) s' e.
Proof.
  intros Hinv Hx Hw Ht Hmod. unfold dirlookup. mstep (geti_run s e dp x Hx). rewrite Ht. change (negb (T_DIR =? T_DIR)) with false. cbv iota.
  set (bytes := file_bytes (content s.(k_fs)) x).
  assert (Forall (λ off, 0 ≤ off ∧ off + 16 ≤ x.(i_size)) (dirent_offs x.(i_size))) as Hoffs.
  { unfold dirent_offs. apply Forall_fmap, Forall_forall. intros k Hk%elem_of_seq. pose proof (fw_size _ _ Hw). cbn [compose].
    pose proof (Z.div_mod x.(i_size) 16 ltac:(lia)). assert ((x.(i_size) + 15) / 16 = x.(i_size) / 16) as Hd; [|lia].
    symmetry. apply (Z.div_unique _ _ _ 15); lia. }
  assert (file_bytes (content s.(k_fs)) x = bytes) as Hb by done. clearbody bytes. revert s Hinv Hx Hw Hb.
  induction Hoffs as [|off offs [Ho Hle] Hoffs IH]; intros s Hinv Hx Hw Hb.
  { exists s. split; [by apply seen_refl|done]. }
  cbn [for_ret]. rewrite bind_assoc. destruct (dirent_read s e dp x off Hinv Hx Hw Ho Hle) as (s1 & Hr1 & Hs1). mstep Hr1.
  cbn [fst snd]. change (negb (16 =? dirent_size)) with false. cbv iota zeta. rewrite Hb, dir_find_cons. unfold entry_named.
  destruct (IH s1) as (s2 & Hs2 & Hr2); [apply Hs1|by rewrite (seen_inodes s s1)|by eapply seen_wf|by rewrite (seen_bytes s s1)|].
  destruct (de_inum (slice (Z.to_nat off) 16 bytes) =? 0); cbn [negb andb].
  { rewrite bind_ret_l. exists s2. split; [by eapply seen_trans|done]. }
  destruct (namecmp name (de_name (slice (Z.to_nat off) 16 bytes)) =? 0).
  - exists s1. split; [done|]. cbn [found_entry]. rewrite bind_assoc. apply bind_ext. done.
  - rewrite bind_ret_l. exists s2. split; [by eapply seen_trans|done].
Qed.

(** ** An example *)

(** The file of [inode_state]: 1000 bytes in the blocks 40 and 41. *)
Lemma file_inode_blocks k : 0 ≤ k < 2 → file_block (content inode_state.(k_fs)) file_inode k = 40 + k.
Proof. intros Hk. assert (k = 0 ∨ k = 1) as [-> | ->] by lia; reflexivity. Qed.

Lemma file_inode_file : file_wf inode_state.(k_fs) file_inode.
Proof.
  assert (∀ n, 0 ≤ n < 1000 → in_disk (k_fs inode_state) n) as Hin.
  { intros n Hn. change (0 ≤ n < Z.of_nat (length map_state.(k_fs).(fs_disk))). rewrite map_length. lia. }
  split; [discriminate|cbn [i_size file_inode]; unfold MAXFILE, NDIRECT, NINDIRECT, BSIZE; lia|split; [reflexivity|..]|];
    change (nblocks (i_size file_inode)) with 2.
  - unfold MAXFILE, NDIRECT, NINDIRECT. lia.
  - intros k Hk. rewrite file_inode_blocks by done. split; [lia|apply Hin; lia].
  - unfold NDIRECT. lia.
  - intros k Hk. change (nblocks (i_size file_inode)) with 2 in Hk. rewrite file_inode_blocks by done.
    assert (k = 0 ∨ k = 1) as [-> | ->] by lia; reflexivity.
Qed.

(** Witness: reading 24 bytes at 990 returns the last 10. *)
Lemma readi_correct_witness :
  log_inv ∅ inode_state ∧
  ∃ s', readi 0 ToLocal 990 24 inode_state [] = Ret (10, replicate 10 0) s' [].
Proof.
  split; [exact inode_state_inv|].
  destruct (readi_correct inode_state [] 0 file_inode 990 24 inode_state_inv eq_refl file_inode_file) as (s' & _ & Hr); [done|done|].
  exists s'. rewrite Hr. reflexivity.
Defined.

(** A directory of two free entries, in block 40. *)
Definition dir_inode : inode :=
  {| i_dev := 1; i_inum := 1; i_ref := 1; i_flags := I_VALID; i_type := T_DIR; i_major := 0; i_minor := 0;
     i_nlink := 1; i_size := 32; i_addrs := 40 :: replicate 12 0 |}.
Definition dir_state : kstate := on_fs (set_fs_inodes [dir_inode]) map_state.

Lemma dir_inode_file : file_wf dir_state.(k_fs) dir_inode.
Proof.
  assert (in_disk (k_fs dir_state) 40) as Hin
    by (change (0 ≤ 40 < Z.of_nat (length map_state.(k_fs).(fs_disk))); rewrite map_length; lia).
  split; [discriminate|cbn [i_size dir_inode]; unfold MAXFILE, NDIRECT, NINDIRECT, BSIZE; lia|split; [reflexivity|..]|];
    change (nblocks (i_size dir_inode)) with 1.
  - unfold MAXFILE, NDIRECT, NINDIRECT. lia.
  - intros k Hk. assert (k = 0) as -> by lia. by change (40 ≠ 0 ∧ in_disk (k_fs dir_state) 40).
  - unfold NDIRECT. lia.
  - intros k Hk. change (nblocks (i_size dir_inode)) with 1 in Hk. assert (k = 0) as -> by lia. reflexivity.
Qed.

(** Witness: no name is found in it. *)
Lemma dirlookup_correct_witness :
  ∃ s', seen dir_state s' ∧ dirlookup 0 (str "x") dir_state [] = Ret None s' [].
Proof.
  destruct (dirlookup_correct dir_state [] 0 dir_inode (str "x") (log_inv_inodes ∅ [dir_inode] map_state map_inv) eq_refl
              dir_inode_file eq_refl eq_refl) as (s' & Hs & Hr).
  exists s'. split; [exact Hs|]. rewrite Hr. reflexivity.
Defined.
