(* ===== verification/FileWrite.v ===== *)
(** * Writing to a file (fs.c)

    [writei] of Fs.v in terms of the bytes of a file (FileData.v): the bytes
    written are there, all others are as before, and [readi] returns what was
    written.  The blocks that the file grows by are direct ones. *)

From S2P Require Import Prelude KState Spinlock Print Mem Args Proc Sleeplock Bio Log Inode Console CString Fs FileData.
#[local] Open Scope kernel_scope.

(** ** Blocks in use *)

(** The file system in a transaction, between two of its operations. *)
Record fs_ok (s : kstate) : Prop := {
  fo_inv : log_inv ∅ s;
  fo_map : bitmap_ok s.(k_fs);
  fo_meta : metadata_used s.(k_fs);
  fo_boot : 0 < s.(k_fs).(fs_sb).(sb_size) ∧ in_use s.(k_fs) 0 = true
}.

(** The transaction has room for [k] more blocks. *)
Definition log_left (l : logstate) (k : Z) : Prop :=
  l.(lg_size) ≤ LOGSIZE ∧ 1 ≤ l.(lg_outstanding) ∧ l.(lg_lh).(lh_n) + k < l.(lg_size).

Lemma log_left_record l m k : log_left l (k + 1) → log_left (record_block m l) k.
Proof. unfold log_left, record_block. case_decide; simpl; lia. Qed.

Lemma log_left_ge l k k' : log_left l k → k' ≤ k → log_left l k'.
Proof. unfold log_left. lia. Qed.

Lemma log_left_room l k : 1 < k → log_left l k → log_room l.
Proof. unfold log_left, log_room. lia. Qed.

(** A block that holds data: in use, and not a block of the log or of the bitmap. *)
Record usable (f : fsstate) (b : Z) : Prop := {
  us_range : 0 < b < f.(fs_sb).(sb_size);
  us_used : in_use f b = true;
  us_whole : length (content f b) = Z.to_nat BSIZE;
  us_log : ¬ in_log f.(fs_log) b;
  us_map : ∀ b', 0 ≤ b' < f.(fs_sb).(sb_size) → BBLOCK b' f.(fs_sb) ≠ b
}.

Lemma usable_in_disk s b : fs_ok s → usable s.(k_fs) b → in_disk s.(k_fs) b.
Proof. intros Hok Hu. unfold in_disk. destruct (fo_map _ Hok) as [Hsz _]. pose proof (us_range _ _ Hu). lia. Qed.

(** [s'] is [s] after operations that changed no block in use but those of [D]. *)
Record keeps (D : Z → Prop) (s s' : kstate) : Prop := {
  kp_ok : fs_ok s';
  kp_usable : ∀ b, usable s.(k_fs) b → usable s'.(k_fs) b;
  kp_content : ∀ b, usable s.(k_fs) b → ¬ D b → content s'.(k_fs) b = content s.(k_fs) b;
  kp_sb : s'.(k_fs).(fs_sb) = s.(k_fs).(fs_sb)
}.

Lemma keeps_refl D s : fs_ok s → keeps D s s.
Proof. by split. Qed.

Lemma keeps_trans D s s' s'' : keeps D s s' → keeps D s' s'' → keeps D s s''.
Proof.
  intros [_ H2 H3 H4] [H1' H2' H3' H4']. split; [done|auto| |congruence]. intros b Hb Hn. rewrite H3' by auto. by apply H3.
Qed.

Lemma keeps_mono (D D' : Z → Prop) s s' : keeps D s s' → (∀ b, D b → D' b) → keeps D' s s'.
Proof. intros [H1 H2 H3 H4] HD. split; auto. Qed.

(** The bitmap says the same. *)
Definition same_use (s s' : kstate) : Prop :=
  ∀ b, 0 ≤ b < s.(k_fs).(fs_sb).(sb_size) → in_use s'.(k_fs) b = in_use s.(k_fs) b.

Lemma seen_keeps D s s' :
  fs_ok s → seen s s' → keeps D s s' ∧ s'.(k_fs).(fs_log) = s.(k_fs).(fs_log) ∧ same_use s s'.
Proof.
  intros [H1 H2 H3 [H4 H5]] [Hinv Hu]. pose proof Hu as [Hq Hv]. destruct (quiet_frame _ _ Hq) as ((Hl & Hsb & _) & Hd & _).
  assert (∀ b, 0 ≤ b < s.(k_fs).(fs_sb).(sb_size) → in_use (k_fs s') b = in_use (k_fs s) b) as Hiu by (intros; by apply unchanged_in_use).
  split; [|by split]. split; [split; [done|by eapply unchanged_bitmap|by eapply unchanged_metadata|]|..|done].
  - rewrite Hsb, Hiu by lia. done.
  - intros b [Hr Hb Hw Hlg Hm]. split; rewrite ?Hsb, ?Hl, ?Hv, ?Hiu by lia; done.
  - intros b [Hr _ _ _ _] _. apply Hv. lia.
Qed.

(** Allocating a block: it becomes usable, and no usable block changes. *)
Lemma alloc_keeps s s' b :
  fs_ok s → 0 ≤ b < s.(k_fs).(fs_sb).(sb_size) → in_use s.(k_fs) b = false → allocated b s s' →
  keeps (λ _, False) s s' ∧ usable s'.(k_fs) b ∧ ¬ usable s.(k_fs) b.
Proof.
  intros [H1 [Hsz H2] H3 [H4 H5]] Hb Hfree [Hinv Hz Hm Ho Hl Hlen (Hsb & Hi & Hd)]. destruct (H3 b Hb Hfree) as [Hnl Hnm].
  assert (∀ n, in_log s'.(k_fs).(fs_log) n ↔ in_log s.(k_fs).(fs_log) n) as Hin by (intros n; by rewrite Hl, !in_log_record).
  assert (∀ c, usable s.(k_fs) c → content s'.(k_fs) c = content s.(k_fs) c) as Hc.
  { intros c [Hr Hu _ _ Hmc]. apply Ho; [lia| |by apply not_eq_sym, Hmc]. intros ->. congruence. }
  split; [split; [split; [done|..]|..|done]|].
  - unfold bitmap_ok, in_disk. rewrite Hsb, Hd. split; [done|]. intros c Hc0. destruct (H2 c Hc0) as (Hcd & Hcl & Hcn). rewrite Hin.
    split_and!; [apply Hcd|apply Hcd|done|]. destruct (decide (BBLOCK c s.(k_fs).(fs_sb) = BBLOCK b s.(k_fs).(fs_sb))) as [->|Hne]; [done|].
    rewrite Ho; [done|apply Hcd|by apply Hnm|done].
  - intros c. rewrite Hsb. intros Hcr Hcu. rewrite Hm in Hcu by done. rewrite Hin. case_decide; [done|]. by apply H3.
  - rewrite Hsb, Hm by lia. split; [done|]. by case_decide.
  - intros c Hcu. pose proof (Hc c Hcu) as Hcc. destruct Hcu as [Hr Hu Hw Hlg Hmc].
    split; rewrite ?Hsb, ?Hcc, ?Hin; [done| |done|done|done]. rewrite Hm by lia. by case_decide.
  - intros c Hcu _. by apply Hc.
  - split; [|intros [_ Hu _ _ _]; congruence]. split; rewrite ?Hsb, ?Hin; [|rewrite Hm by done; by case_decide|by rewrite Hz, length_replicate|done|done].
    assert (b ≠ 0) by congruence. lia.
Qed.

(** Changing a usable block in the transaction. *)
Lemma update_keeps s s' b d :
  fs_ok s → usable s.(k_fs) b → length d = Z.to_nat BSIZE → block_updated b d s s' →
  keeps (λ c, c = b) s s' ∧ same_use s s'.
Proof.
  intros [H1 [Hsz H2] H3 [H4 H5]] [Hr Hu Hw Hlg Hmp] Hd [Hinv Hc Ho Hl (bufs & lru & Hf) _].
  assert (s'.(k_fs).(fs_sb) = s.(k_fs).(fs_sb) ∧ s'.(k_fs).(fs_disk) = s.(k_fs).(fs_disk)) as [Hsb Hdk] by (by rewrite Hf).
  assert (∀ n, in_log s'.(k_fs).(fs_log) n ↔ in_log s.(k_fs).(fs_log) n) as Hin by (intros n; by rewrite Hl, in_log_record).
  assert (∀ c, 0 ≤ c < s.(k_fs).(fs_sb).(sb_size) → content s'.(k_fs) (BBLOCK c s.(k_fs).(fs_sb)) = content s.(k_fs) (BBLOCK c s.(k_fs).(fs_sb))) as Hbm.
  { intros c Hcr. destruct (H2 c Hcr) as ((? & _) & _). apply Ho; [done|by apply Hmp]. }
  assert (∀ c, 0 ≤ c < s.(k_fs).(fs_sb).(sb_size) → in_use s'.(k_fs) c = in_use s.(k_fs) c) as Hiu.
  { intros c Hcr. unfold in_use. by rewrite Hsb, Hbm. }
  split; [|done]. split; [split; [done|..]|..|done].
  - unfold bitmap_ok, in_disk. rewrite Hsb, Hdk. split; [done|]. intros c Hcr. rewrite Hin, Hbm by done. by apply H2.
  - intros c. rewrite Hsb, Hin. intros Hcr. rewrite Hiu by done. by apply H3.
  - rewrite Hsb, Hiu by lia. done.
  - intros c [Hcr Hcu Hcw Hcl Hcm]. split; rewrite ?Hsb, ?Hin, ?Hiu by lia; [done|done| |done|done].
    destruct (decide (c = b)) as [->|Hne]; [by rewrite Hc|by rewrite Ho by (done || lia)].
  - intros c [Hcr _ _ _ _] Hne. apply Ho; [lia|done].
Qed.

(** At least [n] blocks are free. *)
Definition room_for (f : fsstate) (n : nat) : Prop :=
  ∃ F : gset Z, (n ≤ size F)%nat ∧ ∀ b, b ∈ F → 0 ≤ b < f.(fs_sb).(sb_size) ∧ in_use f b = false.

Lemma room_for_same s s' n :
  same_use s s' → s'.(k_fs).(fs_sb) = s.(k_fs).(fs_sb) → room_for s.(k_fs) n → room_for s'.(k_fs) n.
Proof.
  intros Hu Hsb (F & Hl & HF). exists F. split; [done|]. intros b Hb. destruct (HF b Hb). by rewrite Hsb, Hu.
Qed.

Lemma room_for_alloc s s' b n : allocated b s s' → room_for s.(k_fs) (S n) → room_for s'.(k_fs) n.
Proof.
  intros [_ _ Hm _ _ _ (Hsb & _)] (F & Hl & HF). exists (F ∖ {[b]}). split.
  - destruct (decide (b ∈ F)) as [Hb|Hb].
    + rewrite size_difference, size_singleton by set_solver. lia.
    + replace (F ∖ {[b]}) with F by set_solver. lia.
  - intros c Hc. destruct (HF c) as [Hr Hu]; [set_solver|]. rewrite Hsb, Hm, decide_False by set_solver. done.
Qed.

(** ** The blocks of a file *)

(** The inode has its first [nb] blocks, all different, and none after them. *)
Record owned (f : fsstate) (x : inode) (nb : Z) : Prop := {
  ow_dev : x.(i_dev) = 1;
  ow_len : length x.(i_addrs) = S NDIRECT;
  ow_nb : 0 ≤ nb ≤ MAXFILE;
  ow_block : ∀ k, 0 ≤ k < nb → usable f (file_block (content f) x k);
  ow_indirect : Z.of_nat NDIRECT < nb → usable f (x.(i_addrs) !!! NDIRECT);
  ow_distinct : ∀ j k, 0 ≤ j < nb → 0 ≤ k < nb → file_block (content f) x j = file_block (content f) x k → j = k;
  ow_apart : Z.of_nat NDIRECT < nb → ∀ k, 0 ≤ k < nb → file_block (content f) x k ≠ x.(i_addrs) !!! NDIRECT;
  ow_free : ∀ k, nb ≤ k < Z.of_nat NDIRECT → x.(i_addrs) !!! Z.to_nat k = 0
}.

Lemma owned_mapped s x nb : fs_ok s → owned s.(k_fs) x nb → mapped s.(k_fs) x nb.
Proof.
  intros Hok Ho. split; [apply Ho|apply Ho| |].
  - intros k Hk. pose proof (ow_block _ _ _ Ho k Hk) as Hu. split; [pose proof (us_range _ _ Hu); lia|by apply usable_in_disk].
  - intros Hk. pose proof (ow_indirect _ _ _ Ho Hk) as Hu. split; [pose proof (us_range _ _ Hu); lia|by apply usable_in_disk].
Qed.

(** Changing blocks other than the indirect one leaves the file where it is. *)
Lemma keeps_block D s s' x nb k :
  keeps D s s' → owned s.(k_fs) x nb → (Z.of_nat NDIRECT < nb → ¬ D (x.(i_addrs) !!! NDIRECT)) → 0 ≤ k < nb →
  file_block (content s'.(k_fs)) x k = file_block (content s.(k_fs)) x k.
Proof.
  intros Hk Ho Hi Hr. unfold file_block. destruct (k <? Z.of_nat NDIRECT) eqn:E; bool_facts; [done|].
  rewrite (kp_content _ _ _ Hk); [done|apply (ow_indirect _ _ _ Ho); lia|apply Hi; lia].
Qed.

Lemma keeps_owned D s s' x nb :
  keeps D s s' → owned s.(k_fs) x nb → (Z.of_nat NDIRECT < nb → ¬ D (x.(i_addrs) !!! NDIRECT)) → owned s'.(k_fs) x nb.
Proof.
  intros Hk Ho Hi. pose proof (keeps_block D s s' x nb) as Hb. destruct Ho as [H1 H2 H3 H4 H5 H6 H7 H8] eqn:E. clear E.
  split; [done|done|done| | | | |done].
  - intros k Hr. rewrite Hb by done. by apply (kp_usable _ _ _ Hk), H4.
  - intros Hn. by apply (kp_usable _ _ _ Hk), H5.
  - intros j k Hj Hr. rewrite !Hb by done. by apply H6.
  - intros Hn k Hr. rewrite Hb by done. by apply H7.
Qed.

(** ** The bytes of the first blocks *)

Definition data (f : fsstate) (x : inode) (nb : Z) : list Z :=
  concat ((λ k, content f (file_block (content f) x (Z.of_nat k))) <$> seq 0 (Z.to_nat nb)).

Lemma lookup_concat {A} (n : nat) (bs : list (list A)) k r b :
  Forall (λ b, length b = n) bs → bs !! k = Some b → (r < n)%nat → concat bs !! (n * k + r)%nat = b !! r.
Proof.
  intros Hbs. revert k. induction Hbs as [|c bs Hc Hbs IH]; intros k Hk Hr; [done|]. destruct k as [|k]; simpl in *.
  - injection Hk as ->. rewrite Nat.mul_0_r. apply lookup_app_l. lia.
  - rewrite lookup_app_r by lia. rewrite <- (IH k Hk Hr). f_equal. lia.
Qed.

Lemma data_lookup f x nb k r :
  owned f x nb → 0 ≤ k < nb → (r < 512)%nat →
  data f x nb !! (512 * Z.to_nat k + r)%nat = content f (file_block (content f) x k) !! r.
Proof.
  intros Ho Hk Hr. unfold data. apply (lookup_concat 512); [|rewrite list_lookup_fmap, lookup_seq_lt by lia; simpl; by rewrite Z2Nat.id by lia|done].
  apply Forall_fmap, Forall_forall. intros j Hj%elem_of_seq. apply (us_whole _ _ (ow_block _ _ _ Ho (Z.of_nat j) ltac:(lia))).
Qed.

Lemma length_data f x nb : owned f x nb → length (data f x nb) = (512 * Z.to_nat nb)%nat.
Proof.
  intros Ho. unfold data. rewrite (length_concat 512); [by rewrite length_fmap, length_seq|].
  apply Forall_fmap, Forall_forall. intros j Hj%elem_of_seq. apply (us_whole _ _ (ow_block _ _ _ Ho (Z.of_nat j) ltac:(lia))).
Qed.

(** [B'] is [B] with [bs] at [off]; bytes that are new in [B'] and not in [bs] may be anything. *)
Definition overwritten (off : nat) (bs B B' : list Z) : Prop :=
  (length B ≤ length B')%nat ∧ (off + length bs ≤ length B')%nat ∧
  (∀ i, (i < length B)%nat → (i < off ∨ off + length bs ≤ i)%nat → B' !! i = B !! i) ∧
  ∀ i, (i < length bs)%nat → B' !! (off + i)%nat = bs !! i.

Lemma overwritten_app off bs bs' B B' B'' :
  overwritten off bs B B' → overwritten (off + length bs) bs' B' B'' → overwritten off (bs ++ bs') B B''.
Proof.
  intros (H1 & H2 & H3 & H4) (H1' & H2' & H3' & H4'). unfold overwritten. rewrite length_app. split_and!; [lia|lia| |].
  - intros i Hi Ho. rewrite H3' by lia. apply H3; lia.
  - intros i Hi. destruct (decide (i < length bs)%nat) as [Hl|Hl].
    + rewrite lookup_app_l by done. rewrite H3' by lia. by apply H4.
    + rewrite lookup_app_r by lia. rewrite <- H4' by lia. f_equal. lia.
Qed.

(** Writing into a block that is there. *)
Lemma data_update s s' x nb off p :
  let k := off / BSIZE in let r := Z.to_nat (off mod BSIZE) in let a := file_block (content s.(k_fs)) x k in
  owned s.(k_fs) x nb → 0 ≤ off → k < nb → (r + length p ≤ 512)%nat →
  keeps (λ c, c = a) s s' → content s'.(k_fs) a = splice r p (content s.(k_fs) a) →
  overwritten (Z.to_nat off) p (data s.(k_fs) x nb) (data s'.(k_fs) x nb).
Proof.
  intros k r a Ho Hoff Hk Hr Hkp Hc. pose proof (Z.div_mod off BSIZE ltac:(done)) as Hdm. pose proof (Z.mod_pos_bound off BSIZE ltac:(done)) as Hm.
  pose proof (Z.div_pos off BSIZE ltac:(lia) ltac:(done)) as Hk0. fold k in Hdm, Hk0. unfold BSIZE in Hdm, Hm.
  assert (Z.of_nat NDIRECT < nb → x.(i_addrs) !!! NDIRECT ≠ a) as Hi.
  { intros Hn Heq. by apply (ow_apart _ _ _ Ho Hn k). }
  pose proof (keeps_owned _ _ _ _ _ Hkp Ho Hi) as Ho'. pose proof (λ j, keeps_block _ _ _ _ _ j Hkp Ho Hi) as Hb.
  pose proof (us_whole _ _ (ow_block _ _ _ Ho k ltac:(lia))) as Hlen. fold a in Hlen. change (Z.to_nat BSIZE) with 512%nat in Hlen.
  assert (Z.of_nat r = off mod 512) as Hre by (unfold r, BSIZE; lia). clearbody r.
  assert (∀ i, (i < 512 * Z.to_nat nb)%nat → data (k_fs s') x nb !! i =
    if decide (Z.to_nat off ≤ i < Z.to_nat off + length p)%nat then p !! (i - Z.to_nat off)%nat else data (k_fs s) x nb !! i) as Hlook.
  { intros i Hilt. set (j := Z.of_nat (i / 512)). pose proof (Nat.div_mod_eq i 512) as Hij. pose proof (Nat.mod_upper_bound i 512 ltac:(lia)) as Hq.
    assert (0 ≤ j < nb) as Hj by (unfold j; lia). assert (i = 512 * Z.to_nat j + i mod 512)%nat as Hie by (unfold j; lia).
    assert (∀ f, owned f x nb → data f x nb !! i = content f (file_block (content f) x j) !! (i mod 512)%nat) as Hdl
      by (intros f Hf; rewrite <- (data_lookup f x nb) by done; by rewrite <- Hie).
    rewrite !Hdl, Hb by done. destruct (decide (j = k)) as [Hjk|Hjk].
    - rewrite Hjk. fold a. rewrite Hc. case_decide as Hd.
      + rewrite lookup_splice_in by lia. f_equal. lia.
      + rewrite lookup_splice_out by lia. done.
    - rewrite decide_False by (unfold j in *; lia). rewrite (kp_content _ _ _ Hkp); [done|by apply (ow_block _ _ _ Ho)|].
      intros Heq. apply Hjk. apply (ow_distinct _ _ _ Ho); [done|lia|done]. }
  unfold overwritten. rewrite !length_data by done. split_and!; [lia|lia| |].
  - intros i Hilt Hout. rewrite Hlook by lia. by rewrite decide_False by lia.
  - intros i Hip. rewrite Hlook by lia. rewrite decide_True by lia. f_equal. lia.
Qed.

(** ** Growing by a direct block *)

Lemma with_inode_keeps D ip x s : fs_ok s → keeps D s (with_inode ip x s).
Proof.
  intros [H1 H2 H3 H4]. split; [split; [by apply log_inv_inode|exact H2|exact H3|exact H4]| |done|done].
  intros b [Hr Hu Hw Hl Hm]. split; [exact Hr|exact Hu|exact Hw|exact Hl|exact Hm].
Qed.

Definition add_block (nb b : Z) (x : inode) : inode := set_i_addrs (<[Z.to_nat nb := b]> x.(i_addrs)) x.

Lemma add_block_at f f' x nb b k :
  length x.(i_addrs) = S NDIRECT → 0 ≤ nb < Z.of_nat NDIRECT → 0 ≤ k ≤ nb →
  file_block f' (add_block nb b x) k = if decide (k = nb) then b else file_block f x k.
Proof.
  unfold NDIRECT. intros Hl Hnb Hk. unfold file_block. rewrite (proj2 (Z.ltb_lt _ _)) by (unfold NDIRECT; lia). cbn [i_addrs add_block set_i_addrs].
  case_decide as Hd.
  - subst k. by rewrite list_lookup_total_insert_eq by lia.
  - by rewrite list_lookup_total_insert_ne by lia.
Qed.

Lemma add_block_owned s s' x nb b :
  keeps (λ _, False) s s' → usable s'.(k_fs) b → ¬ usable s.(k_fs) b → owned s.(k_fs) x nb → nb < Z.of_nat NDIRECT →
  owned s'.(k_fs) (add_block nb b x) (nb + 1).
Proof.
  intros Hk Hb Hnb Ho Hlt. pose proof (ow_nb _ _ _ Ho) as Hn. unfold NDIRECT in Hlt.
  assert (∀ k, 0 ≤ k < nb + 1 → file_block (content s'.(k_fs)) (add_block nb b x) k = if decide (k = nb) then b else file_block (content s.(k_fs)) x k) as Hfb.
  { intros k Hk'. apply add_block_at; [apply Ho|unfold NDIRECT; lia|lia]. }
  split; [apply Ho|cbn [i_addrs add_block set_i_addrs]; rewrite length_insert; apply Ho|unfold MAXFILE, NDIRECT, NINDIRECT; lia|..].
  - intros k Hk'. rewrite Hfb by done. case_decide; [done|]. apply (kp_usable _ _ _ Hk), (ow_block _ _ _ Ho). lia.
  - unfold NDIRECT. lia.
  - intros j k Hj Hk'. rewrite !Hfb by done. case_decide as Hd; case_decide as Hd'; intros Heq; [lia| | |apply (ow_distinct _ _ _ Ho); [lia|lia|done]].
    + destruct Hnb. rewrite Heq. apply (ow_block _ _ _ Ho). lia.
    + destruct Hnb. rewrite <- Heq. apply (ow_block _ _ _ Ho). lia.
  - unfold NDIRECT. lia.
  - intros k Hk'. cbn [i_addrs add_block set_i_addrs]. rewrite list_lookup_total_insert_ne by lia. apply (ow_free _ _ _ Ho). unfold NDIRECT in *. lia.
Qed.

Lemma data_grow s s' x nb b :
  keeps (λ _, False) s s' → owned s.(k_fs) x nb → owned s'.(k_fs) (add_block nb b x) (nb + 1) → nb < Z.of_nat NDIRECT →
  overwritten (512 * Z.to_nat nb) [] (data s.(k_fs) x nb) (data s'.(k_fs) (add_block nb b x) (nb + 1)).
Proof.
  intros Hk Ho Ho' Hlt. pose proof (ow_nb _ _ _ Ho) as Hn. unfold overwritten. rewrite !length_data by done. simpl length.
  split_and!; [lia|lia| |intros; lia]. intros i Hi _.
  pose proof (Nat.div_mod_eq i 512) as Hij. pose proof (Nat.mod_upper_bound i 512 ltac:(lia)) as Hq.
  set (j := Z.of_nat (i / 512)). assert (i = 512 * Z.to_nat j + i mod 512)%nat as -> by (unfold j; lia).
  assert (0 ≤ j < nb) as Hj by (unfold j; lia).
  rewrite !data_lookup by (done || lia). rewrite (add_block_at (content s.(k_fs))) by (apply Ho || lia). rewrite decide_False by lia.
  rewrite (kp_content _ _ _ Hk); [done|by apply Ho|tauto].
Qed.

Lemma bmap_grow s e ip x nb n c :
  fs_ok s → s.(k_fs).(fs_inodes) !! ip = Some x → owned s.(k_fs) x nb → nb < Z.of_nat NDIRECT →
  room_for s.(k_fs) (S n) → log_left s.(k_fs).(fs_log) (c + 2) → 0 ≤ c →
  ∃ b s', bmap ip nb s e = Ret b s' e ∧ s'.(k_fs).(fs_inodes) = <[ip := add_block nb b x]> s.(k_fs).(fs_inodes) ∧
    keeps (λ _, False) s s' ∧ owned s'.(k_fs) (add_block nb b x) (nb + 1) ∧ ¬ usable s.(k_fs) b ∧
    file_block (content s'.(k_fs)) (add_block nb b x) nb = b ∧ room_for s'.(k_fs) n ∧ log_left s'.(k_fs).(fs_log) c.
Proof.
  intros Hok Hx Ho Hlt Hroom Hlog Hc. pose proof (ow_nb _ _ _ Ho) as Hn. unfold bmap. rewrite (proj2 (Z.ltb_lt _ _) Hlt).
  mstep (geti_run s e ip x Hx). rewrite (ow_free _ _ _ Ho) by lia. change (0 =? 0) with true. cbv iota. rewrite (ow_dev _ _ _ Ho).
  destruct (balloc_run s e) as [(b & s1 & Hrun & Hb & Hfree & _ & Hal)|[Hfull _]].
  { destruct Hok as [H1 H2 H3 _]. destruct Hlog as (Hl1 & Hl2 & Hl3). split; [done..|lia]. }
  2: { destruct Hroom as (F & Hsz & HF). destruct (set_choose_L F) as [b Hb]; [intros ->; rewrite size_empty in Hsz; lia|].
       destruct (HF b Hb) as [Hr Hu]. rewrite Hfull in Hu by done. done. }
  destruct (alloc_keeps s s1 b Hok Hb Hfree Hal) as (Hk1 & Hub & Hnub). pose proof Hal as [_ _ _ _ Hl _ (Hsb & Hi & _)].
  mstep Hrun. assert (s1.(k_fs).(fs_inodes) !! ip = Some x) as Hx1 by (by rewrite Hi). mstep (modi_run s1 e ip x _ Hx1).
  exists b, (with_inode ip (add_block nb b x) s1).
  assert (keeps (λ _, False) s (with_inode ip (add_block nb b x) s1)) as Hk2.
  { eapply keeps_trans; [exact Hk1|]. apply with_inode_keeps, Hk1. }
  split_and!; [done|by rewrite <- Hi|done| |done| | |].
  - eapply add_block_owned; [exact Hk2| |done..]. by apply (kp_usable _ _ _ (with_inode_keeps (λ _, False) ip _ s1 (kp_ok _ _ _ Hk1))).
  - rewrite (add_block_at (content s.(k_fs))) by (apply Ho || lia). by rewrite decide_True.
  - exact (room_for_alloc s s1 b n Hal Hroom).
  - change (log_left s1.(k_fs).(fs_log) c). rewrite Hl. apply log_left_record, log_left_record. by replace (c + 1 + 1) with (c + 2) by lia.
Qed.

(** ** One turn of the loop *)

(** The data blocks of a file. *)
Definition data_block (f : fsstate) (x : inode) (nb c : Z) : Prop := ∃ j, 0 ≤ j < nb ∧ c = file_block (content f) x j.

Lemma keeps_then (D D' : Z → Prop) s s' s'' :
  keeps D s s' → keeps D' s' s'' → (∀ c, usable s.(k_fs) c → D' c → D c) → keeps D s s''.
Proof.
  intros [_ H2 H3 H4] [H1' H2' H3' H4'] HD. split; [done|auto| |congruence].
  intros b Hb Hn. rewrite H3' by auto. by apply H3.
Qed.

(** [x'] is [x] but for the block addresses. *)
Definition same_inode (x x' : inode) : Prop := ∃ l, x' = set_i_addrs l x.

Lemma same_inode_refl x : same_inode x x.
Proof. exists x.(i_addrs). by destruct x. Qed.

Lemma same_inode_trans x x' x'' : same_inode x x' → same_inode x' x'' → same_inode x x''.
Proof. intros [l ->] [l' ->]. by exists l'. Qed.

(** [s'] is [s] after the file of slot [ip] has been given blocks or bytes: what all steps of [writei] keep. *)
Record wstep (ip : nat) (x : inode) (nb : Z) (s : kstate) (x' : inode) (nb' : Z) (s' : kstate) : Prop := {
  ws_inodes : s'.(k_fs).(fs_inodes) = <[ip := x']> s.(k_fs).(fs_inodes);
  ws_same : same_inode x x';
  ws_indirect : x'.(i_addrs) !!! NDIRECT = x.(i_addrs) !!! NDIRECT;
  ws_owned : owned s'.(k_fs) x' nb';
  ws_keeps : keeps (data_block s.(k_fs) x nb) s s';
  ws_blocks : ∀ c, usable s.(k_fs) c → data_block s'.(k_fs) x' nb' c → data_block s.(k_fs) x nb c;
  ws_grows : nb ≤ nb' ∧ (nb' = nb → x' = x)
}.

Lemma wstep_trans ip x nb s x' nb' s' x'' nb'' s'' :
  wstep ip x nb s x' nb' s' → wstep ip x' nb' s' x'' nb'' s'' → wstep ip x nb s x'' nb'' s''.
Proof.
  intros [H1 H2 Hi H3 H4 H5 [H6 H7]] [H1' H2' Hi' H3' H4' H5' [H6' H7']]. split.
  - by rewrite H1', H1, list_insert_insert_eq.
  - by eapply same_inode_trans.
  - by rewrite Hi'.
  - done.
  - by eapply keeps_then.
  - intros c Hc Hd. apply H5; [done|]. apply H5'; [by apply (kp_usable _ _ _ H4)|done].
  - split; [lia|]. intros Heq. rewrite H7', H7 by lia. done.
Qed.

Lemma wstep_refl ip x nb s : fs_ok s → s.(k_fs).(fs_inodes) !! ip = Some x → owned s.(k_fs) x nb → wstep ip x nb s x nb s.
Proof. intros Hok Hx Ho. split; [by rewrite list_insert_id|apply same_inode_refl|done|done|by apply keeps_refl|done|by split]. Qed.

(** [bmap] for the next block to write: there already, or allocated. *)
Lemma bmap_turn s e ip x nb k n c :
  fs_ok s → s.(k_fs).(fs_inodes) !! ip = Some x → owned s.(k_fs) x nb → 0 ≤ k ≤ nb → (k = nb → nb < Z.of_nat NDIRECT) →
  0 ≤ c → (if decide (k = nb) then room_for s.(k_fs) (S n) ∧ log_left s.(k_fs).(fs_log) (c + 2)
           else room_for s.(k_fs) n ∧ log_left s.(k_fs).(fs_log) c) →
  ∃ x1 s1, bmap ip k s e = Ret (file_block (content s1.(k_fs)) x1 k) s1 e ∧ wstep ip x nb s x1 (Z.max nb (k + 1)) s1 ∧
    overwritten (512 * Z.to_nat nb) [] (data s.(k_fs) x nb) (data s1.(k_fs) x1 (Z.max nb (k + 1))) ∧
    room_for s1.(k_fs) n ∧ log_left s1.(k_fs).(fs_log) c.
Proof.
  intros Hok Hx Ho Hk Hdir Hc. case_decide as Hkn; intros [Hroom Hlog].
  - subst k. specialize (Hdir eq_refl). rewrite Z.max_r by lia.
    destruct (bmap_grow s e ip x nb n c Hok Hx Ho Hdir Hroom Hlog Hc) as (b & s1 & Hr & Hi & Hk1 & Ho1 & Hnu & Hfb & Hroom1 & Hlog1).
    exists (add_block nb b x), s1. rewrite Hfb. split_and!; [done| |by apply data_grow|done|done].
    split; [done|by eexists| |done|eapply keeps_mono; [exact Hk1|done]| |split; lia].
    { cbn [i_addrs add_block set_i_addrs]. apply list_lookup_total_insert_ne. unfold NDIRECT in *. pose proof (ow_nb _ _ _ Ho). lia. }
    intros d Hd (j & Hj & ->). exists j. rewrite (add_block_at (content s.(k_fs))) in Hd |- * by (apply Ho || lia).
    case_decide; [done|]. split; [lia|done].
  - rewrite Z.max_l by lia. destruct (bmap_mapped s e ip x nb k (fo_inv _ Hok) Hx (owned_mapped s x nb Hok Ho)) as (s1 & Hr & Hs); [lia|].
    destruct (seen_keeps (λ _, False) s s1 Hok Hs) as (Hk1 & Hl & Hu). exists x, s1. pose proof (keeps_block _ _ _ _ _ k Hk1 Ho ltac:(tauto)) as Hfb.
    rewrite Hfb by lia. pose proof (keeps_owned _ _ _ _ _ Hk1 Ho ltac:(tauto)) as Ho1. split_and!; [done| | | |by rewrite Hl].
    + split; [rewrite (seen_inodes s s1 Hs); by rewrite list_insert_id|apply same_inode_refl|done|done|eapply keeps_mono; [exact Hk1|done]| |by split].
      intros d _ (j & Hj & ->). exists j. split; [done|]. by apply (keeps_block _ _ _ _ _ j Hk1 Ho ltac:(tauto)).
    + assert (data (k_fs s1) x nb = data (k_fs s) x nb) as ->.
      { unfold data. f_equal. apply list_fmap_ext. intros i j [-> Hj]%lookup_seq.
        rewrite (keeps_block _ _ _ _ _ _ Hk1 Ho ltac:(tauto)) by lia. apply (kp_content _ _ _ Hk1); [apply Ho; lia|tauto]. }
      unfold overwritten. rewrite !length_data by done. simpl length. split_and!; [lia|lia|done|intros; lia].
    + exact (room_for_same s s1 n Hu (kp_sb _ _ _ Hk1) Hroom).
Qed.

(** Bytes into a block of the file. *)
Lemma write_block s e ip x nb off p c :
  fs_ok s → s.(k_fs).(fs_inodes) !! ip = Some x → owned s.(k_fs) x nb → 0 ≤ off → off / BSIZE < nb →
  let r := Z.to_nat (off mod BSIZE) in (r + length p ≤ 512)%nat → log_left s.(k_fs).(fs_log) (c + 1) → 0 ≤ c →
  ∃ i s1 s', bread 1 (file_block (content s.(k_fs)) x (off / BSIZE)) s e = Ret i s1 e ∧
    (modbdata i (splice r p);; log_write i;; brelse i) s1 e = Ret tt s' e ∧
    wstep ip x nb s x nb s' ∧ overwritten (Z.to_nat off) p (data s.(k_fs) x nb) (data s'.(k_fs) x nb) ∧
    log_left s'.(k_fs).(fs_log) c ∧ same_use s s'.
Proof.
  intros Hok Hx Ho Hoff Hk r Hr Hlog Hc. pose proof (Z.div_pos off BSIZE ltac:(lia) ltac:(done)) as Hk0.
  set (a := file_block (content s.(k_fs)) x (off / BSIZE)). pose proof (ow_block _ _ _ Ho (off / BSIZE) ltac:(lia)) as Hu. fold a in Hu.
  destruct (bread_txn a s e (fo_inv _ Hok) (usable_in_disk s a Hok Hu)) as (i & s1 & Hr1 & Hheld).
  destruct (update_held i a (splice r p) s s1 e Hheld) as (s' & Hr2 & Hup);
    [unfold log_left, log_room in *; lia|pose proof (us_range _ _ Hu); lia|apply Hu|].
  exists i, s1, s'. split; [done|]. split; [exact Hr2|]. pose proof (us_whole _ _ Hu) as Hw. change (Z.to_nat BSIZE) with 512%nat in Hw.
  destruct (update_keeps s s' a (splice r p (content s.(k_fs) a)) Hok Hu) as [Hkp Huse]; [by rewrite length_splice by lia|done|].
  assert (Z.of_nat NDIRECT < nb → x.(i_addrs) !!! NDIRECT ≠ a) as Hi by (intros Hn Heq; by apply (ow_apart _ _ _ Ho Hn (off / BSIZE))).
  pose proof (λ j, keeps_block _ _ _ _ _ j Hkp Ho Hi) as Hfb. destruct Hup as [_ Hd _ Hl (bufs & lru & Hf) _].
  split_and!; [|by eapply data_update|rewrite Hl; by apply log_left_record|done].
  split; [by rewrite Hf; cbn; rewrite list_insert_id|apply same_inode_refl|done|by eapply keeps_owned| | |by split].
  - eapply keeps_mono; [exact Hkp|]. intros b ->. exists (off / BSIZE). split; [lia|done].
  - intros d _ (j & Hj & ->). exists j. split; [done|]. by apply Hfb.
Qed.

(** The number of blocks that [n] bytes at [off] touch, and how many of them a file of [nb] blocks has not got. *)
Definition touched (off n : Z) : Z := nblocks (off + n) - off / BSIZE.
Definition missing (nb off n : Z) : Z := Z.max 0 (nblocks (off + n) - nb).

Lemma nblocks_piece off n :
  0 ≤ off → 0 < n → let m := Z.min n (BSIZE - off mod BSIZE) in
  0 < m ≤ n ∧ off mod BSIZE + m ≤ BSIZE ∧ off / BSIZE < nblocks (off + n) ∧
  (m < n → (off + m) / BSIZE = off / BSIZE + 1 ∧ (off + m) mod BSIZE = 0 ∧ m = BSIZE - off mod BSIZE) ∧
  (m = n → nblocks (off + n) = off / BSIZE + 1).
Proof.
  intros Ho Hn m. unfold nblocks, BSIZE in *. pose proof (Z.div_mod off 512 ltac:(lia)). pose proof (Z.mod_pos_bound off 512 ltac:(lia)).
  pose proof (Z.div_mod (off + n + 512 - 1) 512 ltac:(lia)). pose proof (Z.mod_pos_bound (off + n + 512 - 1) 512 ltac:(lia)).
  unfold m. split_and!; [lia|lia|lia|lia|intros Hm|intros Hm; lia].
  assert (off + Z.min n (512 - off mod 512) = (off / 512 + 1) * 512) as -> by lia.
  rewrite Z.div_mul, Z.mod_mul by lia. lia.
Qed.

Lemma overwritten_grow o off p B B1 B2 : overwritten o [] B B1 → overwritten off p B1 B2 → overwritten off p B B2.
Proof.
  intros (H1 & _ & H3 & _) (H1' & H2' & H3' & H4'). simpl in H3. split_and!; [lia|lia| |done].
  intros i Hi Ho. rewrite H3' by lia. apply H3; lia.
Qed.

Lemma overwritten_nil off B : (off ≤ length B)%nat → overwritten off [] B B.
Proof. intros. unfold overwritten. simpl. split_and!; [lia|lia|done|lia]. Qed.

(** One turn: [p] goes to [off], which is in a block of the file or at the start of a new direct one. *)
Lemma write_turn s e ip x nb off p n c (next : K Z) :
  fs_ok s → s.(k_fs).(fs_inodes) !! ip = Some x → owned s.(k_fs) x nb → 0 ≤ off → off / BSIZE ≤ nb →
  (off / BSIZE = nb → nb < Z.of_nat NDIRECT) → (Z.to_nat (off mod BSIZE) + length p ≤ 512)%nat → 0 ≤ c →
  (let new := if decide (off / BSIZE = nb) then 1 else 0 in
   room_for s.(k_fs) (Z.to_nat new + n) ∧ log_left s.(k_fs).(fs_log) (c + 1 + 2 * new)) →
  ∃ x1 s1, (a <- bmap ip (off / BSIZE);; bp <- bread x.(i_dev) a;; modbdata bp (splice (Z.to_nat (off mod BSIZE)) p);; log_write bp;; brelse bp;; next) s e
             = next s1 e ∧
    wstep ip x nb s x1 (Z.max nb (off / BSIZE + 1)) s1 ∧
    overwritten (Z.to_nat off) p (data s.(k_fs) x nb) (data s1.(k_fs) x1 (Z.max nb (off / BSIZE + 1))) ∧
    room_for s1.(k_fs) n ∧ log_left s1.(k_fs).(fs_log) c.
Proof.
  intros Hok Hx Ho Hoff Hk Hdir Hp Hc [Hroom Hlog]. pose proof (Z.div_pos off BSIZE ltac:(lia) ltac:(done)) as Hk0.
  destruct (bmap_turn s e ip x nb (off / BSIZE) n (c + 1) Hok Hx Ho) as (x1 & s1 & Hr1 & Hw1 & Hd1 & Hroom1 & Hlog1);
    [lia|done|lia|case_decide; [by replace (c + 1 + 2) with (c + 1 + 2 * 1) by lia|by replace (c + 1) with (c + 1 + 2 * 0) by lia]|].
  mstep Hr1. rewrite (ow_dev _ _ _ Ho). pose proof (ws_keeps _ _ _ _ _ _ _ Hw1) as Hk1.
  assert (s1.(k_fs).(fs_inodes) !! ip = Some x1) as Hx1.
  { rewrite (ws_inodes _ _ _ _ _ _ _ Hw1). apply list_lookup_insert_eq. by eapply lookup_lt_Some. }
  destruct (write_block s1 e ip x1 (Z.max nb (off / BSIZE + 1)) off p c) as (i & s2 & s3 & Hr2 & Hr3 & Hw3 & Hd3 & Hlog3 & Huse3);
    [apply Hk1|done|apply Hw1|done|lia|done|done|done|].
  mstep Hr2. exists x1, s3. split; [by rewrite (bind3_run _ _ _ _ _ _ _ _ _ Hr3)|].
  split; [by eapply wstep_trans|]. split; [by eapply overwritten_grow|]. split; [|done].
  eapply room_for_same; [exact Huse3|apply (ws_keeps _ _ _ _ _ _ _ Hw3)|done].
Qed.

Lemma writei_loop_run fuel s e ip x nb bs tot off n c :
  fs_ok s → s.(k_fs).(fs_inodes) !! ip = Some x → owned s.(k_fs) x nb → length bs = Z.to_nat n →
  0 ≤ off ≤ 512 * nb → 0 ≤ tot ≤ n → off + (n - tot) ≤ MAXFILE * BSIZE → (0 < fuel)%nat → 0 ≤ c → log_left s.(k_fs).(fs_log) c →
  (tot < n → (n - tot) + off mod BSIZE ≤ (Z.of_nat fuel - 1) * BSIZE ∧
             nblocks (off + (n - tot)) ≤ Z.max nb (Z.of_nat NDIRECT) ∧
             room_for s.(k_fs) (Z.to_nat (missing nb off (n - tot))) ∧
             log_left s.(k_fs).(fs_log) (c + touched off (n - tot) + 2 * missing nb off (n - tot))) →
  ∃ x' nb' s', writei_loop fuel ip (FromLocal bs) tot off n s e = Ret (off + (n - tot)) s' e ∧
    wstep ip x nb s x' nb' s' ∧ nb' = (if decide (tot < n) then Z.max nb (nblocks (off + (n - tot))) else nb) ∧
    overwritten (Z.to_nat off) (drop (Z.to_nat tot) bs) (data s.(k_fs) x nb) (data s'.(k_fs) x' nb') ∧
    log_left s'.(k_fs).(fs_log) c.
Proof.
  intros Hok Hx Ho Hbs. revert s x nb tot off Hok Hx Ho. induction fuel as [|fuel IH]; intros s x nb tot off Hok Hx Ho Hoff Htot Hmax Hf Hc Hlc Hcond; [lia|].
  cbn [writei_loop]. destruct (tot <? n) eqn:E; bool_facts; cbn [negb]; cbv iota.
  2: { exists x, nb, s. replace (n - tot) with 0 by lia. rewrite Z.add_0_r, decide_False, drop_ge by lia.
       split_and!; [done|by apply wstep_refl|done|apply overwritten_nil; rewrite length_data by done; lia|done]. }
  destruct (Hcond E) as (Hfuel & Hnb & Hroom & Hlog). clear Hcond. destruct (nblocks_piece off (n - tot)) as (Hm & Hrm & Hkn & Hmid & Hlast); [lia|lia|].
  mstep (geti_run s e ip x Hx). set (m := Z.min (n - tot) (BSIZE - off mod BSIZE)) in *. cbn [fetch]. cbv zeta.
  pose proof (Z.mod_pos_bound off BSIZE ltac:(done)) as Hr. pose proof (Z.div_mod off BSIZE ltac:(done)) as Hdm. pose proof (ow_nb _ _ _ Ho) as Hn0.
  assert (off / BSIZE ≤ nb) as Hk by (unfold BSIZE in *; lia). set (k := off / BSIZE) in *. set (N := nblocks (off + (n - tot))) in *.
  set (p := slice (Z.to_nat tot) (Z.to_nat m) bs). assert (length p = Z.to_nat m) as Hp by (apply length_slice; lia).
  set (left := missing (Z.max nb (k + 1)) off (n - tot)).
  assert (Z.to_nat (missing nb off (n - tot)) = Z.to_nat (if decide (k = nb) then 1 else 0) + Z.to_nat left)%nat as Hneed.
  { unfold left, missing. fold N. case_decide; lia. }
  destruct (write_turn s e ip x nb off p (Z.to_nat left) (c + touched off (n - tot) - 1 + 2 * left)
              (writei_loop fuel ip (FromLocal bs) (tot + m) (u32 (off + m)) n) Hok Hx Ho) as (x1 & s1 & Hrun & Hw & Hd & Hroom1 & Hlog1).
  { lia. } { done. } { intros Hkn'. fold k in Hkn'. unfold NDIRECT in *. lia. } { unfold BSIZE in *. lia. }
  { unfold touched, left, missing. fold N k. lia. }
  { fold k. cbv zeta. split; [by rewrite <- Hneed|]. eapply log_left_ge; [exact Hlog|]. unfold left, missing, touched. fold N k. case_decide; lia. }
  fold k in Hw, Hd. assert (is_u32 (off + m)) as Hu by (unfold is_u32, MAXFILE, NDIRECT, NINDIRECT, BSIZE in *; lia).
  assert (off + m + (n - (tot + m)) = off + (n - tot)) as Hsum by lia.
  destruct (IH s1 x1 (Z.max nb (k + 1)) (tot + m) (off + m)) as (x' & nb' & s' & Hrun' & Hw' & Hnb' & Hd' & Hlog').
  { apply Hw. } { rewrite (ws_inodes _ _ _ _ _ _ _ Hw). apply list_lookup_insert_eq. by eapply lookup_lt_Some. } { apply Hw. }
  { unfold BSIZE in *. lia. } { lia. } { lia. } { unfold BSIZE in *. lia. } { done. }
  { eapply log_left_ge; [exact Hlog1|]. unfold touched, left, missing. fold N k. lia. }
  { intros Hlt. destruct Hmid as (Hk' & Hr' & Hme); [lia|]. rewrite Hsum. fold N. split; [rewrite Hr'; unfold BSIZE in *; lia|]. split; [lia|].
    assert (missing (Z.max nb (k + 1)) (off + m) (n - (tot + m)) = left) as -> by (unfold left, missing; by rewrite Hsum).
    split; [done|]. eapply log_left_ge; [exact Hlog1|]. unfold touched. rewrite Hsum, Hk'. fold N k. lia. }
  rewrite Hsum in Hrun', Hnb'. fold N in Hnb'. exists x', nb', s'.
  split; [etransitivity; [exact Hrun|]; by rewrite u32_id|]. split; [by eapply wstep_trans|].
  split; [rewrite decide_True by done; case_decide; [lia|rewrite Hnb', (Hlast ltac:(lia)); lia]|]. split; [|done].
  replace (drop (Z.to_nat tot) bs) with (p ++ drop (Z.to_nat (tot + m)) bs).
  - eapply overwritten_app; [exact Hd|]. by replace (Z.to_nat off + length p)%nat with (Z.to_nat (off + m)) by lia.
  - unfold p, slice. rewrite Z2Nat.inj_add, <- drop_drop by lia. apply take_drop.
Qed.

(** ** writei *)

(** Slot [ip] holds the inode [x] of a file, whose blocks and whose place in the inode table are different blocks. *)
Record file_at (s : kstate) (ip : nat) (x : inode) : Prop := {
  fa_ok : fs_ok s;
  fa_inode : s.(k_fs).(fs_inodes) !! ip = Some x;
  fa_type : x.(i_type) ≠ T_DEV;
  fa_size : 0 ≤ x.(i_size) ≤ MAXFILE * BSIZE;
  fa_owned : owned s.(k_fs) x (nblocks x.(i_size));
  fa_home : usable s.(k_fs) (IBLOCK x.(i_inum) s.(k_fs).(fs_sb));
  fa_apart : ¬ data_block s.(k_fs) x (nblocks x.(i_size)) (IBLOCK x.(i_inum) s.(k_fs).(fs_sb));
  fa_indirect : Z.of_nat NDIRECT < nblocks x.(i_size) → x.(i_addrs) !!! NDIRECT ≠ IBLOCK x.(i_inum) s.(k_fs).(fs_sb)
}.

Lemma file_bytes_data f x : file_bytes (content f) x = take (Z.to_nat x.(i_size)) (data f x (nblocks x.(i_size))).
Proof. done. Qed.

(** The bytes of the file after an overwrite, up to the new size. *)
Lemma overwritten_bytes off bs B B' size size' :
  overwritten off bs B B' → (off ≤ size ≤ length B)%nat → size' = Nat.max size (off + length bs) →
  take size' B' = take off (take size B) ++ bs ++ drop (off + length bs) (take size B).
Proof.
  intros (H1 & H2 & H3 & H4) Ho ->. apply list_eq. intros i.
  assert (length (take off (take size B)) = off) as Hl by (rewrite !length_take; lia).
  destruct (decide (i < off)%nat) as [Hi|Hi].
  { rewrite lookup_app_l, !lookup_take_lt by lia. apply H3; lia. }
  rewrite (lookup_app_r (take off _)), Hl by lia. destruct (decide (i < off + length bs)%nat) as [Hi2|Hi2].
  { rewrite lookup_app_l, lookup_take_lt by lia. rewrite <- H4 by lia. f_equal. lia. }
  rewrite lookup_app_r, lookup_drop by lia. replace (off + length bs + (i - off - length bs))%nat with i by lia.
  destruct (decide (i < size)%nat) as [Hi3|Hi3].
  - rewrite !lookup_take_lt by lia. apply H3; lia.
  - rewrite !lookup_take_ge by lia. done.
Qed.

Lemma nblocks_mono a b : a ≤ b → nblocks a ≤ nblocks b.
Proof. unfold nblocks, BSIZE. intros. apply Z.div_le_mono; lia. Qed.

Lemma nblocks_max2 a b : nblocks (Z.max a b) = Z.max (nblocks a) (nblocks b).
Proof.
  destruct (Z.max_spec a b) as [[H ->]|[H ->]]; [|rewrite Z.max_l; [done|by apply nblocks_mono]].
  pose proof (nblocks_mono a b ltac:(lia)). lia.
Qed.

Lemma owned_size f x v nb : owned f x nb → owned f (set_i_size v x) nb.
Proof. intros [H1 H2 H3 H4 H5 H6 H7 H8]. split; [exact H1|exact H2|exact H3|exact H4|exact H5|exact H6|exact H7|exact H8]. Qed.

Lemma length_dinode_bytes' x : length x.(i_addrs) = S NDIRECT → length (dinode_bytes x) = 64%nat.
Proof. intros Hl. unfold dinode_bytes. rewrite !length_app, !length_le_bytes, length_words, Hl. done. Qed.

(** The inode on disk is the one in memory: the 64 bytes of its place in the inode table encode it. *)
Definition on_disk (f : fsstate) (x : inode) : Prop :=
  slice (dinode_off x.(i_inum)) 64 (content f (IBLOCK x.(i_inum) f.(fs_sb))) = dinode_bytes x.

(** The inode table of [f'] differs from that of [f] in inode [inum] only. *)
Definition only_inode (inum : Z) (f f' : fsstate) : Prop :=
  let n0 := IBLOCK inum f.(fs_sb) in
  ∀ j, (j < dinode_off inum ∨ dinode_off inum + 64 ≤ j)%nat → content f' n0 !! j = content f n0 !! j.

(** Storing the new size in the inode, in memory and in its block. *)
Lemma store_size s e ip x nb v c :
  fs_ok s → s.(k_fs).(fs_inodes) !! ip = Some x → owned s.(k_fs) x nb →
  let n0 := IBLOCK x.(i_inum) s.(k_fs).(fs_sb) in
  usable s.(k_fs) n0 → ¬ data_block s.(k_fs) x nb n0 → (Z.of_nat NDIRECT < nb → x.(i_addrs) !!! NDIRECT ≠ n0) →
  log_left s.(k_fs).(fs_log) (c + 1) → 0 ≤ c →
  ∃ s', (modi ip (set_i_size v);; iupdate ip) s e = Ret tt s' e ∧
    s'.(k_fs).(fs_inodes) = <[ip := set_i_size v x]> s.(k_fs).(fs_inodes) ∧ keeps (λ b, b = n0) s s' ∧
    owned s'.(k_fs) (set_i_size v x) nb ∧ data s'.(k_fs) (set_i_size v x) nb = data s.(k_fs) x nb ∧
    log_left s'.(k_fs).(fs_log) c ∧ on_disk s'.(k_fs) (set_i_size v x) ∧ only_inode x.(i_inum) s.(k_fs) s'.(k_fs).
Proof.
  intros Hok Hx Ho n0 Hu Hnd Hni Hlog Hc. mstep (modi_run s e ip x _ Hx). set (s1 := with_inode ip (set_i_size v x) s).
  assert (s1.(k_fs).(fs_inodes) !! ip = Some (set_i_size v x)) as Hx1 by (apply list_lookup_insert_eq; by eapply lookup_lt_Some).
  pose proof (with_inode_keeps (λ b, b = n0) ip (set_i_size v x) s Hok) as Hk1. fold s1 in Hk1.
  destruct (iupdate_run s1 e ip (set_i_size v x)) as (s' & Hrun & Hup);
    [apply Hk1|unfold log_left, log_room in *; simpl in *; lia|done| |].
  { split; [apply Ho|apply (usable_in_disk s n0 Hok Hu)|apply Hu|apply Hu]. }
  change (i_inum (set_i_size v x)) with (i_inum x) in Hup. change (fs_sb (k_fs s1)) with (fs_sb (k_fs s)) in Hup. fold n0 in Hup.
  change (content (k_fs s1) n0) with (content (k_fs s) n0) in Hup.
  edestruct (λ H, update_keeps s1 s' n0 _ (kp_ok _ _ _ Hk1) (kp_usable _ _ _ Hk1 n0 Hu) H Hup) as [Hk2 _].
  { pose proof (us_whole _ _ Hu) as Hw. rewrite length_splice; [done|]. rewrite Hw, length_dinode_bytes' by apply Ho. apply dinode_off_bound. }
  pose proof (keeps_trans _ _ _ _ Hk1 Hk2) as Hk. pose proof Hup as [_ Hdt _ Hl (bufs & lru & Hf) _].
  exists s'. split_and!; [done|by rewrite Hf|done|by apply owned_size; eapply keeps_owned| |rewrite Hl; by apply log_left_record| |].
  3: { intros j Hj. fold n0. rewrite Hdt. pose proof (us_whole _ _ Hu) as Hw. pose proof (dinode_off_bound x.(i_inum)).
       rewrite lookup_splice_out by (rewrite ?length_dinode_bytes' by apply Ho; lia). done. }
  2: { unfold on_disk. change (i_inum (set_i_size v x)) with (i_inum x). rewrite (kp_sb _ _ _ Hk). fold n0. rewrite Hdt.
       pose proof (us_whole _ _ Hu) as Hw. rewrite <- (length_dinode_bytes' (set_i_size v x)) by apply Ho.
       apply slice_splice_eq. rewrite Hw, length_dinode_bytes' by apply Ho. apply dinode_off_bound. }
  unfold data. f_equal. apply list_fmap_ext. intros i j [-> Hj]%lookup_seq. change (file_block ?f (set_i_size v x)) with (file_block f x).
  rewrite (keeps_block _ _ _ _ _ _ Hk Ho Hni) by lia. apply (kp_content _ _ _ Hk); [apply Ho; lia|].
  intros Heq. apply Hnd. eexists. split; [|by symmetry]. lia.
Qed.

(** What [writei] of [bs] at [off] needs: a place in the file, direct blocks to grow by, free blocks and room in the log. *)
Record can_write (s : kstate) (x : inode) (off n : Z) : Prop := {
  cw_off : 0 ≤ off ≤ x.(i_size);
  cw_end : off + n ≤ MAXFILE * BSIZE;
  cw_direct : nblocks (off + n) ≤ Z.max (nblocks x.(i_size)) (Z.of_nat NDIRECT);
  cw_room : room_for s.(k_fs) (Z.to_nat (missing (nblocks x.(i_size)) off n));
  cw_log : log_left s.(k_fs).(fs_log) (2 + touched off n + 2 * missing (nblocks x.(i_size)) off n)
}.

(** [s'] is [s] after [bs] has been written at [off] of the file in slot [ip]. *)
Record written_at (s : kstate) (ip : nat) (x : inode) (off : Z) (bs : list Z) (x' : inode) (s' : kstate) : Prop := {
  wa_file : file_at s' ip x';
  wa_size : x'.(i_size) = Z.max x.(i_size) (off + Z.of_nat (length bs));
  wa_bytes : file_bytes (content s'.(k_fs)) x' =
    take (Z.to_nat off) (file_bytes (content s.(k_fs)) x) ++ bs ++
    drop (Z.to_nat off + length bs) (file_bytes (content s.(k_fs)) x);
  wa_inodes : s'.(k_fs).(fs_inodes) = <[ip := x']> s.(k_fs).(fs_inodes);
  wa_others : ∀ b, usable s.(k_fs) b → ¬ data_block s.(k_fs) x (nblocks x.(i_size)) b →
    b ≠ IBLOCK x.(i_inum) s.(k_fs).(fs_sb) → content s'.(k_fs) b = content s.(k_fs) b;
  wa_disk : x.(i_size) < x'.(i_size) ∨ on_disk s.(k_fs) x → on_disk s'.(k_fs) x';
  wa_table : only_inode x.(i_inum) s.(k_fs) s'.(k_fs)
}.

(** The loop of [writei] on a file. *)
Lemma writei_body s e ip x bs off :
  let n := Z.of_nat (length bs) in
  file_at s ip x → can_write s x off n →
  ∃ x' s', writei_loop (Z.to_nat (n / BSIZE + 3)) ip (FromLocal bs) 0 off n s e = Ret (off + n) s' e ∧
    let nb' := Z.max (nblocks x.(i_size)) (nblocks (off + n)) in
    wstep ip x (nblocks x.(i_size)) s x' nb' s' ∧
    overwritten (Z.to_nat off) bs (data s.(k_fs) x (nblocks x.(i_size))) (data s'.(k_fs) x' nb') ∧ log_left s'.(k_fs).(fs_log) 2.
Proof.
  intros n Hfa [Hoff Hend Hdir Hroom Hlog]. pose proof (fa_size _ _ _ Hfa) as Hsz. pose proof (nblocks_le _ (proj1 Hsz)) as Hnb.
  pose proof (Z.div_pos n BSIZE ltac:(lia) ltac:(done)) as Hn0. pose proof (Z.mod_pos_bound off BSIZE ltac:(done)).
  pose proof (Z.div_mod n BSIZE ltac:(done)). pose proof (Z.mod_pos_bound n BSIZE ltac:(done)).
  destruct (writei_loop_run (Z.to_nat (n / BSIZE + 3)) s e ip x (nblocks x.(i_size)) bs 0 off n 2 (fa_ok _ _ _ Hfa) (fa_inode _ _ _ Hfa) (fa_owned _ _ _ Hfa))
    as (x' & nb' & s' & Hrun & Hw & Hnb' & Hd & Hl); [lia|unfold BSIZE in *; lia|lia|lia|lia|lia| | |].
  { eapply log_left_ge; [exact Hlog|]. unfold missing, touched. pose proof (nblocks_mono x.(i_size) (Z.max x.(i_size) (off + n)) ltac:(lia)).
    assert (off / BSIZE ≤ nblocks (off + n)); [|lia]. unfold nblocks. apply Z.div_le_mono; unfold BSIZE in *; lia. }
  { intros Hlt. rewrite Z.sub_0_r. split; [unfold BSIZE in *; lia|]. by split. }
  rewrite Z.sub_0_r, ?drop_0 in *. exists x', s'. split; [done|]. simpl drop in Hd.
  assert (nb' = Z.max (nblocks (i_size x)) (nblocks (off + n))) as ->; [|done].
  rewrite Hnb'. case_decide; [done|]. rewrite Z.max_l; [done|]. apply nblocks_mono. lia.
Qed.

Lemma writei_accepts s e ip x bs off :
  let n := Z.of_nat (length bs) in
  file_at s ip x → can_write s x off n →
  writei ip (FromLocal bs) off n s e =
    (off' <- writei_loop (Z.to_nat (n / BSIZE + 3)) ip (FromLocal bs) 0 off n;;
     x <- geti ip;;
     (if (0 <? n) && (x.(i_size) <? off') then modi ip (set_i_size off');; iupdate ip else ret tt);;
     ret n) s e.
Proof.
  intros n Hfa [Hoff Hend _ _ _]. unfold writei. mstep (geti_run s e ip x (fa_inode _ _ _ Hfa)).
  rewrite (proj2 (Z.eqb_neq _ _) (fa_type _ _ _ Hfa)). unfold MAXFILE, NDIRECT, NINDIRECT, BSIZE in *.
  rewrite u32_id by (unfold is_u32; lia). rewrite !(proj2 (Z.ltb_ge _ _)) by lia. done.
Qed.

Lemma written_intro s ip x off bs addrs s' :
  let nb := nblocks x.(i_size) in let n0 := IBLOCK x.(i_inum) s.(k_fs).(fs_sb) in
  let v := Z.max x.(i_size) (off + Z.of_nat (length bs)) in let x' := set_i_size v (set_i_addrs addrs x) in
  file_at s ip x → 0 ≤ off ≤ x.(i_size) → off + Z.of_nat (length bs) ≤ MAXFILE * BSIZE →
  s'.(k_fs).(fs_inodes) = <[ip := x']> s.(k_fs).(fs_inodes) → owned s'.(k_fs) x' (nblocks v) →
  keeps (λ b, data_block s.(k_fs) x nb b ∨ b = n0) s s' → ¬ data_block s'.(k_fs) x' (nblocks v) n0 →
  (Z.of_nat NDIRECT < nblocks v → x'.(i_addrs) !!! NDIRECT ≠ n0) →
  overwritten (Z.to_nat off) bs (data s.(k_fs) x nb) (data s'.(k_fs) x' (nblocks v)) →
  (x.(i_size) < x'.(i_size) ∨ on_disk s.(k_fs) x → on_disk s'.(k_fs) x') → only_inode x.(i_inum) s.(k_fs) s'.(k_fs) →
  written_at s ip x off bs x' s'.
Proof.
  intros nb n0 v x' Hfa Hoff Hend Hi Ho Hk Hnd Hni Hd Hdisk Htab. pose proof (fa_size _ _ _ Hfa) as Hsz. pose proof (kp_sb _ _ _ Hk) as Hsb.
  pose proof (length_data _ _ _ (fa_owned _ _ _ Hfa)) as HlB. pose proof (nblocks_le _ (proj1 Hsz)) as Hnb. unfold BSIZE in Hnb.
  split; [|done| |done| |done|done].
  - split; [apply Hk| |apply (fa_type _ _ _ Hfa)|cbn [i_size x' set_i_size]; unfold v; lia|done| | |];
      change (i_inum x') with (i_inum x); rewrite ?Hsb; fold n0; [|by apply (kp_usable _ _ _ Hk), (fa_home _ _ _ Hfa)|done|done].
    rewrite Hi. apply list_lookup_insert_eq. by eapply lookup_lt_Some, (fa_inode _ _ _ Hfa).
  - rewrite !file_bytes_data. apply (overwritten_bytes _ _ _ _ _ _ Hd); [fold nb in HlB; lia|]. cbn [i_size x' set_i_size]. unfold v. lia.
  - intros b Hb Hn1 Hn2. apply (kp_content _ _ _ Hk); [done|]. tauto.
Qed.

Lemma writei_run s e ip x bs off :
  let n := Z.of_nat (length bs) in
  file_at s ip x → can_write s x off n →
  ∃ x' s', writei ip (FromLocal bs) off n s e = Ret n s' e ∧ written_at s ip x off bs x' s'.
Proof.
  intros n Hfa Hcw. pose proof (writei_accepts s e ip x bs off Hfa Hcw) as Hacc. cbv zeta in Hacc. fold n in Hacc. rewrite Hacc. clear Hacc.
  pose proof Hcw as [Hoff Hend Hdir _ _].
  destruct (writei_body s e ip x bs off Hfa Hcw) as (x1 & s1 & Hrun & Hw & Hd & Hl). fold n in Hrun, Hw, Hd. mstep Hrun.
  set (nb' := Z.max (nblocks (i_size x)) (nblocks (off + n))) in *. pose proof (fa_size _ _ _ Hfa) as Hsz.
  destruct Hw as [Hi [addrs ->] Hind Ho1 Hk Hblk [_ Hsame]]. set (x1 := set_i_addrs addrs x) in *.
  assert (s1.(k_fs).(fs_inodes) !! ip = Some x1) as Hx1 by (rewrite Hi; apply list_lookup_insert_eq; by eapply lookup_lt_Some, (fa_inode _ _ _ Hfa)).
  mstep (geti_run s1 e ip x1 Hx1). set (n0 := IBLOCK x.(i_inum) s.(k_fs).(fs_sb)).
  pose proof (kp_usable _ _ _ Hk _ (fa_home _ _ _ Hfa)) as Hu0. fold n0 in Hu0.
  assert (content s1.(k_fs) n0 = content s.(k_fs) n0) as Hc0 by (apply (kp_content _ _ _ Hk); apply Hfa).
  assert (¬ data_block s1.(k_fs) x1 nb' n0) as Hnd by (intros H; by apply (fa_apart _ _ _ Hfa), Hblk; [apply Hfa|]).
  assert (Z.of_nat NDIRECT < nb' → x1.(i_addrs) !!! NDIRECT ≠ n0) as Hni by (intros H; rewrite Hind; apply (fa_indirect _ _ _ Hfa); lia).
  pose proof (length_data _ _ _ (fa_owned _ _ _ Hfa)) as HlB. pose proof (nblocks_le _ (proj1 Hsz)) as Hnb. unfold BSIZE in Hnb.
  pose proof (kp_sb _ _ _ Hk) as Hsb. change (i_size x1) with (i_size x).
  assert (nblocks (Z.max (i_size x) (off + n)) = nb') as Hnbv by (unfold nb'; apply nblocks_max2).
  assert (keeps (λ b, data_block s.(k_fs) x (nblocks x.(i_size)) b ∨ b = n0) s s1) as Hk1 by (eapply keeps_mono; [exact Hk|tauto]).
  destruct ((0 <? n) && (i_size x <? off + n)) eqn:E.
  - bool_facts. destruct (store_size s1 e ip x1 nb' (off + n) 1 (kp_ok _ _ _ Hk) Hx1 Ho1) as (s2 & Hr2 & Hi2 & Hk2 & Ho2 & Hd2 & _ & Hdisk & Htab);
      change (i_inum x1) with (i_inum x); rewrite ?Hsb; fold n0; [done..|lia|].
    change (i_inum x1) with (i_inum x) in Hk2. rewrite Hsb in Hk2. fold n0 in Hk2. mstep Hr2.
    exists (set_i_size (off + n) x1), s2. split; [done|]. replace (off + n) with (Z.max (i_size x) (off + n)) by lia.
    apply written_intro; [done|done|done| | | | | | | |]; fold n; rewrite ?Hnbv; replace (Z.max (i_size x) (off + n)) with (off + n) by lia; [|done| | |done| |by intros _|].
    + by rewrite Hi2, Hi, list_insert_insert_eq.
    + eapply keeps_then; [exact Hk1|exact Hk2|]. intros c _ ->. by right.
    + intros (j & Hj & Heq). apply Hnd. exists j. split; [done|]. etransitivity; [exact Heq|].
      apply (keeps_block _ _ _ _ _ j Hk2 Ho1); [exact Hni|done].
    + change (set_i_addrs addrs x) with x1. by rewrite Hd2.
    + intros j Hj. specialize (Htab j Hj). change (i_inum x1) with (i_inum x) in Htab. rewrite Hsb in Htab. fold n0 in Htab |- *. by rewrite Htab, Hc0.
  - rewrite bind_ret_l. assert (Z.max (i_size x) (off + n) = i_size x) as Hv.
    { apply andb_false_iff in E as [E|E]; bool_facts; lia. }
    exists x1, s1. split; [done|]. assert (x1 = set_i_size (Z.max (i_size x) (off + n)) (set_i_addrs addrs x)) as Hx1e by (rewrite Hv; by destruct x).
    rewrite Hx1e. apply written_intro; [done|done|done| | | | | | | |]; fold n; rewrite ?Hnbv, <- ?Hx1e; [done..| |by intros j _; fold n0; rewrite Hc0].
    intros [Hlt|Hdisk]; [change (i_size x < i_size x) in Hlt; lia|]. unfold on_disk in *. rewrite Hsb. rewrite Hsame by (by rewrite <- Hnbv, Hv).
    fold n0 in Hdisk |- *. by rewrite Hc0.
Qed.

(** C20: [writei] from a kernel buffer, in a transaction.  At an offset past the end of the file, or beyond the largest file, it
    returns -1 and changes nothing.  Otherwise, when the blocks the file has to grow by are direct ones (a file that already has
    indirect blocks can be overwritten anywhere, but growth through the indirect block is not covered), the disk has free blocks
    for them and the log has room, it returns the number of bytes.  The bytes of the file are then the old ones with the new ones in
    their place, and its size covers them; the inode and the file's blocks are consistent again.  When the size has grown,
    or when it was so before, the inode in the inode table is the one in memory, with its size and its blocks.  No other inode of
    that block of the table and no other block in use is changed. *)
Theorem writei_correct s e ip x bs off :
  let n := Z.of_nat (length bs) in
  file_at s ip x → is_u32 off → is_u32 n →
  (x.(i_size) < off ∨ MAXFILE * BSIZE < off + n → writei ip (FromLocal bs) off n s e = Ret (-1) s e) ∧
  (can_write s x off n → ∃ x' s', writei ip (FromLocal bs) off n s e = Ret n s' e ∧ written_at s ip x off bs x' s').
Proof.
  intros n Hfa Ho Hn. split; [|by apply writei_run]. intros Hbad. unfold writei. mstep (geti_run s e ip x (fa_inode _ _ _ Hfa)).
  rewrite (proj2 (Z.eqb_neq _ _) (fa_type _ _ _ Hfa)). pose proof (fa_size _ _ _ Hfa) as Hsz. unfold is_u32 in *.
  destruct (x.(i_size) <? off) eqn:E1; [done|]. bool_facts. destruct Hbad as [?|Hbad]; [lia|]. cbn [orb].
  destruct (Z.lt_ge_cases (off + n) 4294967296) as [Hlt|Hge].
  - rewrite u32_id by (unfold is_u32; lia). rewrite (proj2 (Z.ltb_ge _ _)), (proj2 (Z.ltb_lt _ _)) by lia. done.
  - replace (off + n) with (off + n - 4294967296 + 1 * 4294967296) by lia. unfold u32. rewrite Z.mod_add, Z.mod_small by lia.
    by rewrite (proj2 (Z.ltb_lt _ _)) by lia.
Qed.

Lemma file_at_wf s ip x : file_at s ip x → file_wf s.(k_fs) x.
Proof.
  intros Hfa. split; [apply Hfa|apply Hfa|apply owned_mapped; apply Hfa|]. intros k Hk.
  apply (us_whole _ _ (ow_block _ _ _ (fa_owned _ _ _ Hfa) k Hk)).
Qed.

(** C21: what [writei] has written, [readi] returns: writing bytes at an offset of a file and reading as many at the same
    offset gives the bytes back, for a write within the file or one that makes it grow by direct blocks only. *)
Theorem write_read_round_trip s e ip x bs off :
  let n := Z.of_nat (length bs) in
  file_at s ip x → can_write s x off n →
  ∃ s', (writei ip (FromLocal bs) off n;; readi ip ToLocal off n) s e = Ret (n, bs) s' e.
Proof.
  intros n Hfa Hcw. destruct (writei_run s e ip x bs off Hfa Hcw) as (x1 & s1 & Hrun & [Hf1 Hs1 Hb1 _ _ _ _]). mstep Hrun. fold n in Hs1.
  pose proof Hcw as [Hoff Hend _ _ _]. unfold MAXFILE, NDIRECT, NINDIRECT, BSIZE in Hend.
  destruct (readi_run s1 e ip x1 off n (fo_inv _ (fa_ok _ _ _ Hf1)) (fa_inode _ _ _ Hf1) (file_at_wf _ _ _ Hf1)) as (s2 & _ & Hr);
    [unfold is_u32; lia|unfold is_u32; lia|].
  exists s2. rewrite Hr. rewrite (proj2 (Z.ltb_ge _ _)), (proj2 (Z.leb_gt _ _)) by lia. cbn [orb]. f_equal. cbv zeta.
  rewrite Hs1, Z.min_l by lia. f_equal. rewrite Hb1. pose proof (file_at_wf _ _ _ Hfa) as Hw.
  assert (length (take (Z.to_nat off) (file_bytes (content (k_fs s)) x)) = Z.to_nat off) as Hl.
  { rewrite length_take, length_file_bytes by apply Hw. lia. }
  unfold slice. rewrite drop_app_length' by done. unfold n. rewrite Nat2Z.id. apply take_app_length.
Qed.

(** ** An example *)

(** A file of 1000 bytes in the blocks 33 and 34 of [map_state]. *)
Definition small_inode : inode :=
  {| i_dev := 1; i_inum := 1; i_ref := 1; i_flags := I_VALID; i_type := 2; i_major := 0; i_minor := 0;
     i_nlink := 1; i_size := 1000; i_addrs := 33 :: 34 :: replicate 11 0 |}.
Definition small_state : kstate := on_fs (set_fs_inodes [small_inode]) map_state.

Lemma small_usable b : 32 ≤ b < 35 → length (content map_state.(k_fs) b) = 512%nat → usable small_state.(k_fs) b.
Proof.
  intros Hb Hl. split.
  - change (0 < b < 1000). lia.
  - change (in_use map_state.(k_fs) b = true). rewrite map_in_use by lia. apply map_low. lia.
  - exact Hl.
  - change (¬ (2 ≤ b < 2 + 30)). lia.
  - intros b' Hb'. change (BBLOCK b' map_sb ≠ b). change (0 ≤ b' < 1000) in Hb'. rewrite map_BBLOCK by done. lia.
Qed.

Lemma small_file : file_at small_state 0 small_inode.
Proof.
  assert (usable small_state.(k_fs) 32 ∧ usable small_state.(k_fs) 33 ∧ usable small_state.(k_fs) 34) as (H32 & H33 & H34)
    by (split_and!; apply small_usable; (lia || reflexivity)).
  assert (∀ k, 0 ≤ k < 2 → file_block (content small_state.(k_fs)) small_inode k = 33 + k) as Hfb
    by (intros k Hk; assert (k = 0 ∨ k = 1) as [-> | ->] by lia; reflexivity).
  pose proof map_ready as [Hinv Hmap Hmeta _ _ _].
  split; [split|reflexivity|discriminate|cbn [i_size small_inode]; unfold MAXFILE, NDIRECT, NINDIRECT, BSIZE; lia|split|exact H32|..];
    change (nblocks (i_size small_inode)) with 2.
  - exact (log_inv_inodes ∅ _ map_state map_inv).
  - exact Hmap.
  - exact Hmeta.
  - split; [done|]. change (in_use map_state.(k_fs) 0 = true). rewrite map_in_use by lia. apply map_low. lia.
  - reflexivity.
  - reflexivity.
  - unfold MAXFILE, NDIRECT, NINDIRECT. lia.
  - intros k Hk. rewrite Hfb by done. assert (k = 0 ∨ k = 1) as [-> | ->] by lia; done.
  - unfold NDIRECT. lia.
  - intros j k Hj Hk. rewrite !Hfb by done. lia.
  - unfold NDIRECT. lia.
  - unfold NDIRECT. intros k Hk. assert (∃ j, Z.to_nat k = S (S j) ∧ (j < 10)%nat) as (j & -> & Hj) by (exists (Z.to_nat k - 2)%nat; lia).
    cbn [i_addrs small_inode]. change ((replicate 11 0) !!! j = 0). apply lookup_total_replicate_2. lia.
  - intros (j & Hj & Heq). change (nblocks (i_size small_inode)) with 2 in Hj. rewrite Hfb in Heq by done. change (32 = 33 + j) in Heq. lia.
  - unfold NDIRECT. lia.
Qed.

(** 600 bytes at 900 need one block more; block 36 is free. *)
Lemma small_can_write : can_write small_state small_inode 900 600.
Proof.
  split; change (nblocks (i_size small_inode)) with 2; change (nblocks (900 + 600)) with 3.
  - cbn [i_size small_inode]. lia.
  - unfold MAXFILE, NDIRECT, NINDIRECT, BSIZE. lia.
  - unfold NDIRECT. lia.
  - change (missing 2 900 600) with 1. exists {[36]}. split; [by rewrite size_singleton|].
    intros b Hb%elem_of_singleton. subst b. split; [by change (0 ≤ 36 < 1000)|exact (proj1 map_36)].
  - change (missing 2 900 600) with 1. change (touched 900 600) with 2. split_and!; [by change (30 ≤ 30)|by change (1 ≤ 1)|by change (1 + 6 < 30)].
Qed.

Lemma writei_correct_witness :
  writei 0 (FromLocal (replicate 600 7)) 1001 600 small_state [] = Ret (-1) small_state [] ∧
  ∃ x' s', writei 0 (FromLocal (replicate 600 7)) 900 600 small_state [] = Ret 600 s' [] ∧
    written_at small_state 0 small_inode 900 (replicate 600 7) x' s'.
Proof.
  split.
  - apply (writei_correct small_state [] 0 small_inode (replicate 600 7) 1001 small_file); [done|done|]. left. cbn [i_size small_inode]. lia.
  - exact (proj2 (writei_correct small_state [] 0 small_inode (replicate 600 7) 900 small_file ltac:(done) ltac:(done)) small_can_write).
Defined.

Lemma write_read_round_trip_witness :
  ∃ s', (writei 0 (FromLocal (replicate 600 7)) 900 600;; readi 0 ToLocal 900 600) small_state [] = Ret (600, replicate 600 7) s' [].
Proof. exact (write_read_round_trip small_state [] 0 small_inode (replicate 600 7) 900 small_file small_can_write). Defined.
