(* ===== verification/Mkfs.v ===== *)
(** * The file system image builder (mkfs.c)

    mkfs.c runs on the host and writes the initial disk image.  The model is the
    image as a list of blocks together with the two counters of the program; the
    host's [lseek], [read] and [write] on the image file are accesses to that
    list, on a little-endian host.  An input file is its name and the pieces
    the calls of [read] return.  A [struct dinode] is the on-disk part of [inode].

    The theorems say that [iappend] appends to a file and touches nothing else,
    and that a finished image has the layout the kernel expects. *)

From S2P Require Import Prelude KState Mem CString Spinlock Print Args Proc Sleeplock Bio Log Inode Console Fs FileData FileWrite.
#[local] Open Scope kernel_scope.

Record image : Type := Mkimage { mk_disk : list (list Z); mk_freeinode : Z; mk_freeblock : Z }.

(** ** The layout *)

Definition NINODES : Z := 200.
Definition nbitmap : Z := FSSIZE / (BSIZE * 8) + 1.
Definition ninodeblocks : Z := NINODES / IPB + 1.
Definition nlog : Z := LOGSIZE.
Definition nmeta : Z := 2 + nlog + ninodeblocks + nbitmap.

(** [xshort] and [xint]: the little-endian bytes of a number, as a number. *)
Definition xshort (x : Z) : Z := le_val (le_bytes 2 x).
Definition xint (x : Z) : Z := le_val (le_bytes 4 x).

Definition mk_sb : superblock :=
  {| sb_size := xint FSSIZE; sb_nblocks := xint (FSSIZE - nmeta); sb_ninodes := xint NINODES; sb_nlog := xint nlog;
     sb_logstart := xint 2; sb_inodestart := xint (2 + nlog); sb_bmapstart := xint (2 + nlog + ninodeblocks) |}.

Definition zeroes : list Z := replicate (Z.to_nat BSIZE) 0.

(** [buf] with the superblock copied to its start. *)
Definition sb_bytes (sb : superblock) : list Z :=
  splice 0 ([sb.(sb_size); sb.(sb_nblocks); sb.(sb_ninodes); sb.(sb_nlog); sb.(sb_logstart); sb.(sb_inodestart);
             sb.(sb_bmapstart)] ≫= le_bytes 4) zeroes.

(** ** Sectors *)

(** A write past the end extends the file, with zeros in between. *)
Definition put_sector (sec : nat) (buf : list Z) (d : list (list Z)) : list (list Z) :=
  if (sec <? length d)%nat then <[sec := buf]> d else d ++ replicate (sec - length d) zeroes ++ [buf].

Definition wsect (sec : Z) (buf : list Z) : M image unit :=
  modify (λ st, Mkimage (put_sector (Z.to_nat sec) buf st.(mk_disk)) st.(mk_freeinode) st.(mk_freeblock)).

(** A read past the end is short, and ends the program. *)
Definition rsect (sec : Z) : M image (list Z) :=
  o <- gets (λ st, st.(mk_disk) !! Z.to_nat sec);;
  match o with Some buf => ret buf | None => panic "read" end.

(** ** Inodes *)

Definition din0 : inode :=
  {| i_dev := 0; i_inum := 0; i_ref := 0; i_flags := 0; i_type := 0; i_major := 0; i_minor := 0; i_nlink := 0;
     i_size := 0; i_addrs := replicate (S NDIRECT) 0 |}.

Definition winode (inum : Z) (ip : inode) : M image unit :=
  let bn := IBLOCK inum mk_sb in
  buf <- rsect bn;;
  wsect bn (splice (dinode_off inum) (dinode_bytes ip) buf).

Definition rinode (inum : Z) : M image inode :=
  buf <- rsect (IBLOCK inum mk_sb);;
  ret (load_dinode buf (dinode_off inum) din0).

Definition mk_ialloc (type : Z) : M image Z :=
  inum <- gets mk_freeinode;;
  modify (λ st, Mkimage st.(mk_disk) (u32 (inum + 1)) st.(mk_freeblock));;
  winode inum (set_i_type (xshort type) (set_i_nlink (xshort 1) (set_i_size (xint 0) din0)));;
  ret inum.

(** ** The bitmap *)

Definition mk_balloc (used : Z) : M image unit :=
  if negb (used <? BSIZE * 8) then panic "assert" else
  wsect mk_sb.(sb_bmapstart) (foldl (λ buf i, set_bit i buf) zeroes (seq 0 (Z.to_nat used))).

(** ** Appending to a file *)

(** [freeblock++]. *)
Definition new_block : M image Z :=
  b <- gets mk_freeblock;;
  modify (λ st, Mkimage st.(mk_disk) st.(mk_freeinode) (u32 (b + 1)));;
  ret b.

(** The block for part [fbn] of the file; the inode may get new addresses. *)
Definition iappend_block (din : inode) (fbn : Z) : M image (inode * Z) :=
  if fbn <? Z.of_nat NDIRECT then
    din <- (if xint (din.(i_addrs) !!! Z.to_nat fbn) =? 0 then
              b <- new_block;; ret (set_i_addrs (<[Z.to_nat fbn := xint b]> din.(i_addrs)) din)
            else ret din);;
    ret (din, xint (din.(i_addrs) !!! Z.to_nat fbn))
  else
    din <- (if xint (din.(i_addrs) !!! NDIRECT) =? 0 then
              b <- new_block;; ret (set_i_addrs (<[NDIRECT := xint b]> din.(i_addrs)) din)
            else ret din);;
    let ind := xint (din.(i_addrs) !!! NDIRECT) in
    let j := Z.to_nat (fbn - Z.of_nat NDIRECT) in
    indirect <- rsect ind;;
    indirect <- (if word indirect j =? 0 then
                   b <- new_block;;
                   let indirect := set_word j (xint b) indirect in
                   wsect ind indirect;;
                   ret indirect
                 else ret indirect);;
    ret (din, xint (word indirect j)).

(** The loop, [off] the offset in the file; one byte at least is copied per turn. *)
Fixpoint iappend_loop (fuel : nat) (din : inode) (p : list Z) (off : Z) : M image (inode * Z) :=
  match fuel with
  | O => fault "fuel"
  | S fuel' =>
      match p with
      | [] => ret (din, off)
      | _ =>
          let fbn := off / BSIZE in
          if negb (fbn <? MAXFILE) then panic "assert" else
          r <- iappend_block din fbn;;
          let '(din, x) := (r : inode * Z) in
          let n1 := Z.min (Z.of_nat (length p)) ((fbn + 1) * BSIZE - off) in
          buf <- rsect x;;
          wsect x (splice (Z.to_nat (off - fbn * BSIZE)) (take (Z.to_nat n1) p) buf);;
          iappend_loop fuel' din (drop (Z.to_nat n1) p) (u32 (off + n1))
      end
  end.

Definition iappend (inum : Z) (p : list Z) : M image unit :=
  din <- rinode inum;;
  r <- iappend_loop (S (length p)) din p (xint din.(i_size));;
  let '(din, off) := (r : inode * Z) in
  winode inum (set_i_size (xint off) din).

(** ** main *)

(** [struct dirent] with the name copied by [strncpy]. *)
Definition dirent (inum : Z) (name : list Z) : list Z := le_bytes 2 (xshort inum) ++ strncpy DIRSIZ name.

(** One file of the command line: its name, and what the calls of [read] return. *)
Definition add_file (f : list Z * list (list Z)) : M image unit :=
  let '(name, pieces) := f in
  if bool_decide (47 ∈ name) then panic "assert" else
  let name := match name with 95 :: name' => name' | _ => name end in
  inum <- mk_ialloc T_FILE;;
  iappend ROOTINO (dirent inum name);;
  for_each pieces (iappend inum).

Definition mkfs_main (files : list (list Z * list (list Z))) : M image unit :=
  modify (λ st, Mkimage st.(mk_disk) st.(mk_freeinode) nmeta);;
  for_each (seq 0 (Z.to_nat FSSIZE)) (λ i, wsect (Z.of_nat i) zeroes);;
  wsect 1 (sb_bytes mk_sb);;
  rootino <- mk_ialloc T_DIR;;
  if negb (rootino =? ROOTINO) then panic "assert" else
  iappend rootino (dirent rootino [46]);;
  iappend rootino (dirent rootino [46; 46]);;
  for_each files add_file;;
  din <- rinode rootino;;
  let off := xint din.(i_size) in
  winode rootino (set_i_size (xint (u32 ((off / BSIZE + 1) * BSIZE))) din);;
  used <- gets mk_freeblock;;
  mk_balloc used.

(** What [mkfs_main] starts from: an empty image file and [freeinode = 1]. *)
Definition mk_start : image := Mkimage [] 1 0.

(** ** Blocks of the image *)

Definition blk (d : list (list Z)) (b : Z) : list Z := default [] (d !! Z.to_nat b).

(** The image has its full size, and the blocks not yet handed out are zero. *)
Record disk_ok (st : image) : Prop := {
  dk_length : length st.(mk_disk) = Z.to_nat FSSIZE;
  dk_whole : Forall (λ b, length b = Z.to_nat BSIZE) st.(mk_disk);
  dk_free : nmeta ≤ st.(mk_freeblock) ≤ FSSIZE;
  dk_zero : ∀ b, st.(mk_freeblock) ≤ b < FSSIZE → blk st.(mk_disk) b = zeroes
}.

Lemma xint_id x : is_u32 x → xint x = x.
Proof. intros Hx. apply le_val_bytes_id. exact Hx. Qed.

Lemma blk_lookup st b : disk_ok st → 0 ≤ b < FSSIZE → st.(mk_disk) !! Z.to_nat b = Some (blk st.(mk_disk) b).
Proof.
  intros Hok Hb. unfold blk. destruct (lookup_lt_is_Some_2 st.(mk_disk) (Z.to_nat b)) as [x Hx]; [rewrite (dk_length _ Hok); lia|]. by rewrite Hx.
Qed.

Lemma length_blk st b : disk_ok st → 0 ≤ b < FSSIZE → length (blk st.(mk_disk) b) = 512%nat.
Proof. intros Hok Hb. exact (proj1 (Forall_lookup _ _) (dk_whole _ Hok) _ _ (blk_lookup st b Hok Hb)). Qed.

Lemma rsect_run st e b : disk_ok st → 0 ≤ b < FSSIZE → rsect b st e = Ret (blk st.(mk_disk) b) st e.
Proof. intros Hok Hb. unfold rsect. rewrite bind_gets, (blk_lookup st b Hok Hb). done. Qed.

(** The image with block [b] replaced. *)
Definition with_block (b : Z) (buf : list Z) (st : image) : image :=
  Mkimage (<[Z.to_nat b := buf]> st.(mk_disk)) st.(mk_freeinode) st.(mk_freeblock).

Lemma wsect_run st e b buf : disk_ok st → 0 ≤ b < FSSIZE → wsect b buf st e = Ret tt (with_block b buf st) e.
Proof.
  intros Hok Hb. unfold wsect, modify, put_sector. rewrite (proj2 (Nat.ltb_lt _ _)); [done|]. rewrite (dk_length _ Hok). lia.
Qed.

Lemma blk_with st b buf c :
  disk_ok st → 0 ≤ b < FSSIZE → 0 ≤ c → blk (with_block b buf st).(mk_disk) c = if decide (c = b) then buf else blk st.(mk_disk) c.
Proof.
  intros Hok Hb Hc. unfold blk. cbn [mk_disk with_block]. case_decide as Hd.
  - subst c. rewrite list_lookup_insert_eq; [done|]. rewrite (dk_length _ Hok). lia.
  - rewrite list_lookup_insert_ne by lia. done.
Qed.

Lemma disk_ok_with st b buf :
  disk_ok st → 0 ≤ b < st.(mk_freeblock) → length buf = 512%nat → disk_ok (with_block b buf st).
Proof.
  intros Hok Hb Hl. pose proof (dk_free _ Hok) as Hf. split; cbn [mk_disk mk_freeblock with_block].
  - rewrite length_insert. apply Hok.
  - by apply Forall_insert; [apply Hok|].
  - done.
  - intros c Hc. change (<[Z.to_nat b := buf]> (mk_disk st)) with (mk_disk (with_block b buf st)).
    change nmeta with 59 in Hf. rewrite blk_with, decide_False by (done || lia). by apply Hok.
Qed.

(** The next free block has been handed out. *)
Definition took_block (st : image) : image := Mkimage st.(mk_disk) st.(mk_freeinode) (st.(mk_freeblock) + 1).

Lemma new_block_run st e : disk_ok st → new_block st e = Ret st.(mk_freeblock) (took_block st) e.
Proof.
  intros Hok. pose proof (dk_free _ Hok) as Hf. change nmeta with 59 in Hf. unfold FSSIZE in Hf.
  unfold new_block. rewrite bind_gets, bind_modify. unfold took_block. by rewrite u32_id by (unfold is_u32; lia).
Qed.

Lemma disk_ok_took st : disk_ok st → st.(mk_freeblock) < FSSIZE → disk_ok (took_block st).
Proof.
  intros [H1 H2 H3 H4] Hlt. split; cbn [mk_disk mk_freeblock took_block]; [done|done|lia|]. intros b Hb. apply H4. lia.
Qed.

(** ** Where the blocks of a file are *)

(** The first [nb] blocks of the file, and its indirect block when [ind], are different blocks of the data area
    below [fb]; it has no others. *)
Record layout (d : list (list Z)) (x : inode) (nb : Z) (ind : bool) (fb : Z) : Prop := {
  ly_len : length x.(i_addrs) = S NDIRECT;
  ly_nb : 0 ≤ nb ≤ MAXFILE;
  ly_ind : Z.of_nat NDIRECT < nb → ind = true;
  ly_block : ∀ k, 0 ≤ k < nb → nmeta ≤ file_block (blk d) x k < fb;
  ly_indirect : ind = true → nmeta ≤ x.(i_addrs) !!! NDIRECT < fb;
  ly_distinct : ∀ j k, 0 ≤ j < nb → 0 ≤ k < nb → file_block (blk d) x j = file_block (blk d) x k → j = k;
  ly_apart : ind = true → ∀ k, 0 ≤ k < nb → file_block (blk d) x k ≠ x.(i_addrs) !!! NDIRECT;
  ly_direct0 : ∀ k, nb ≤ k < Z.of_nat NDIRECT → x.(i_addrs) !!! Z.to_nat k = 0;
  ly_indirect0 : ind = false → x.(i_addrs) !!! NDIRECT = 0;
  ly_words0 : ind = true → ∀ j, nb ≤ j < MAXFILE → Z.of_nat NDIRECT ≤ j →
    word (blk d (x.(i_addrs) !!! NDIRECT)) (Z.to_nat (j - Z.of_nat NDIRECT)) = 0
}.

(** A layout only depends on the indirect block. *)
Lemma layout_ext d d' x nb ind fb fb' :
  layout d x nb ind fb → (ind = true → blk d' (x.(i_addrs) !!! NDIRECT) = blk d (x.(i_addrs) !!! NDIRECT)) → fb ≤ fb' →
  layout d' x nb ind fb' ∧ ∀ k, 0 ≤ k < nb → file_block (blk d') x k = file_block (blk d) x k.
Proof.
  intros [H1 H2 H0 H3 H4 H5 H6 H7 H8 H9] Hi Hfb.
  assert (∀ k, 0 ≤ k < nb → file_block (blk d') x k = file_block (blk d) x k) as Hb.
  { intros k Hk. unfold file_block. destruct (k <? Z.of_nat NDIRECT) eqn:E; bool_facts; [done|]. by rewrite Hi by (apply H0; lia). }
  split; [|done]. split; [done|done|done| | | | |done|done|].
  - intros k Hk. rewrite Hb by done. specialize (H3 k Hk). lia.
  - intros Hn. specialize (H4 Hn). lia.
  - intros j k Hj Hk. rewrite !Hb by done. by apply H5.
  - intros Hn k Hk. rewrite Hb by done. by apply H6.
  - intros Hn. rewrite Hi by done. by apply H9.
Qed.

Lemma layout_size d x nb ind fb v : layout d x nb ind fb → layout d (set_i_size v x) nb ind fb.
Proof. by intros []; split. Qed.

(** A new direct block. *)
Lemma layout_direct d x nb ind fb :
  layout d x nb ind fb → nb < Z.of_nat NDIRECT → nmeta ≤ fb →
  let x' := set_i_addrs (<[Z.to_nat nb := fb]> x.(i_addrs)) x in
  layout d x' (nb + 1) ind (fb + 1) ∧ file_block (blk d) x' nb = fb ∧
  ∀ k, 0 ≤ k < nb → file_block (blk d) x' k = file_block (blk d) x k.
Proof.
  intros [H1 H2 H0 H3 H4 H5 H6 H7 H8 H9] Hlt Hfb x'. unfold NDIRECT in *.
  assert (x'.(i_addrs) !!! 12%nat = x.(i_addrs) !!! 12%nat) as Ha by (apply list_lookup_total_insert_ne; lia).
  assert (∀ k, 0 ≤ k < 12 → file_block (blk d) x' k = if decide (k = nb) then fb else file_block (blk d) x k) as Hb.
  { intros k Hk. unfold file_block, NDIRECT. rewrite (proj2 (Z.ltb_lt _ _)) by lia. cbn [i_addrs x' set_i_addrs]. case_decide as Hd.
    - subst k. by rewrite list_lookup_total_insert_eq by lia.
    - by rewrite list_lookup_total_insert_ne by lia. }
  split; [|split; [by rewrite Hb, decide_True by lia|intros k Hk; by rewrite Hb, decide_False by lia]].
  split; unfold NDIRECT; rewrite ?Ha.
  - cbn [i_addrs x' set_i_addrs]. by rewrite length_insert.
  - unfold MAXFILE. lia.
  - lia.
  - intros k Hk. rewrite Hb by lia. case_decide; [lia|]. specialize (H3 k ltac:(lia)). lia.
  - intros Hn. specialize (H4 Hn). lia.
  - intros j k Hj Hk. rewrite !Hb by lia. repeat case_decide; intros Heq; [lia| | |by apply H5; lia].
    + specialize (H3 k ltac:(lia)). lia.
    + specialize (H3 j ltac:(lia)). lia.
  - intros Hn k Hk. rewrite Hb by lia. specialize (H4 Hn). case_decide; [lia|]. apply H6; [done|lia].
  - intros k Hk. cbn [i_addrs x' set_i_addrs]. rewrite list_lookup_total_insert_ne by lia. apply H7. lia.
  - done.
  - intros Hn j Hj Hj'. apply H9; [done|lia|done].
Qed.

(** A new indirect block. *)
Lemma layout_indirect d x nb fb :
  layout d x nb false fb → nmeta ≤ fb → blk d fb = zeroes →
  let x' := set_i_addrs (<[NDIRECT := fb]> x.(i_addrs)) x in
  layout d x' nb true (fb + 1) ∧ ∀ k, 0 ≤ k < nb → file_block (blk d) x' k = file_block (blk d) x k.
Proof.
  intros [H1 H2 H0 H3 H4 H5 H6 H7 H8 H9] Hfb Hz x'. unfold NDIRECT in *.
  assert (nb ≤ 12) as Hnb by (destruct (decide (12 < nb)); [by discriminate H0|lia]).
  assert (x'.(i_addrs) !!! 12%nat = fb) as Ha by (apply list_lookup_total_insert_eq; lia).
  assert (∀ k, 0 ≤ k < 12 → x'.(i_addrs) !!! Z.to_nat k = x.(i_addrs) !!! Z.to_nat k) as Hd by (intros; apply list_lookup_total_insert_ne; lia).
  assert (∀ k, 0 ≤ k < nb → file_block (blk d) x' k = file_block (blk d) x k) as Hb.
  { intros k Hk. unfold file_block, NDIRECT. rewrite (proj2 (Z.ltb_lt _ _)) by lia. apply Hd. lia. }
  split; [|done]. split; unfold NDIRECT; rewrite ?Ha; [|done|done| |lia| | | |done|].
  - cbn [i_addrs x' set_i_addrs]. by rewrite length_insert.
  - intros k Hk. rewrite Hb by done. specialize (H3 k Hk). lia.
  - intros j k Hj Hk. rewrite !Hb by done. by apply H5.
  - intros _ k Hk. rewrite Hb by done. specialize (H3 k Hk). lia.
  - intros k Hk. rewrite Hd by lia. by apply H7.
  - intros _ j Hj Hj'. rewrite Hz. unfold MAXFILE in Hj. unfold word, zeroes, slice, BSIZE. rewrite drop_replicate, take_replicate, Nat.min_l by lia. done.
Qed.

(** A new block of the indirect part. *)
Lemma layout_word d d' x nb fb :
  layout d x nb true fb → Z.of_nat NDIRECT ≤ nb < MAXFILE → nmeta ≤ fb → is_u32 fb →
  let a := x.(i_addrs) !!! NDIRECT in
  length (blk d a) = 512%nat → blk d' a = set_word (Z.to_nat (nb - Z.of_nat NDIRECT)) fb (blk d a) →
  layout d' x (nb + 1) true (fb + 1) ∧ file_block (blk d') x nb = fb ∧
  ∀ k, 0 ≤ k < nb → file_block (blk d') x k = file_block (blk d) x k.
Proof.
  intros [H1 H2 H0 H3 H4 H5 H6 H7 H8 H9] Hlt Hfb Hu a Hl Ha. unfold NDIRECT, MAXFILE in *. fold a in H4, H6, H8, H9.
  assert (∀ j, 12 ≤ j < 140 → word (blk d' a) (Z.to_nat (j - 12)) = if decide (j = nb) then fb else word (blk d a) (Z.to_nat (j - 12))) as Hw.
  { intros j Hj. rewrite Ha. case_decide as Hd.
    - subst j. apply word_set_word_eq; [lia|done].
    - apply word_set_word_ne; lia. }
  assert (∀ k, 0 ≤ k < 140 → file_block (blk d') x k = if decide (k = nb) then fb else file_block (blk d) x k) as Hb.
  { intros k Hk. unfold file_block, NDIRECT. destruct (k <? Z.of_nat 12) eqn:E; bool_facts; fold a; [by rewrite decide_False by lia|]. apply Hw. lia. }
  split; [|split; [by rewrite Hb, decide_True by lia|intros k Hk; by rewrite Hb, decide_False by lia]].
  split; unfold NDIRECT, MAXFILE; fold a; [done|lia|done| | | | | |done|].
  - intros k Hk. rewrite Hb by lia. case_decide; [lia|]. specialize (H3 k ltac:(lia)). lia.
  - intros _. specialize (H4 eq_refl). lia.
  - intros j k Hj Hk. rewrite !Hb by lia. repeat case_decide; intros Heq; [lia| | |by apply H5; lia].
    + specialize (H3 k ltac:(lia)). lia.
    + specialize (H3 j ltac:(lia)). lia.
  - intros _ k Hk. rewrite Hb by lia. specialize (H4 eq_refl). case_decide; [lia|]. apply H6; [done|lia].
  - lia.
  - intros _ j Hj Hj'. rewrite Hw, decide_False by lia. apply H9; [done|lia|done].
Qed.

(** Block [c] belongs to the file. *)
Definition uses (d : list (list Z)) (x : inode) (nb : Z) (ind : bool) (c : Z) : Prop :=
  (∃ k, 0 ≤ k < nb ∧ c = file_block (blk d) x k) ∨ (ind = true ∧ c = x.(i_addrs) !!! NDIRECT).

Lemma uses_range d x nb ind fb c : layout d x nb ind fb → uses d x nb ind c → nmeta ≤ c < fb.
Proof. intros Hl [(k & Hk & ->)|[Hi ->]]; [by apply (ly_block _ _ _ _ _ Hl)|by apply (ly_indirect _ _ _ _ _ Hl)]. Qed.

(** The blocks of a file of [nb] blocks are taken in order, so it has an indirect block when [nb] is above [NDIRECT]. *)
Definition has_ind (nb : Z) : bool := Z.of_nat NDIRECT <? nb.

(** The blocks taken to grow from [nb] to [nb'] blocks. *)
Definition cost (nb nb' : Z) : Z := nb' - nb + (if negb (has_ind nb) && has_ind nb' then 1 else 0).

Lemma cost_trans nb nb' nb'' : nb ≤ nb' ≤ nb'' → cost nb nb'' = cost nb nb' + cost nb' nb''.
Proof.
  unfold cost, has_ind. intros. destruct (Z.ltb_spec (Z.of_nat NDIRECT) nb), (Z.ltb_spec (Z.of_nat NDIRECT) nb'), (Z.ltb_spec (Z.of_nat NDIRECT) nb''); simpl; lia.
Qed.

Lemma cost_ge nb nb' : nb' - nb ≤ cost nb nb'.
Proof. unfold cost. case_match; lia. Qed.

Lemma cost_same nb : cost nb nb = 0.
Proof. unfold cost, has_ind. destruct (Z.of_nat NDIRECT <? nb); simpl; lia. Qed.

(** The blocks of a file one after the other. *)
Definition fdata (d : list (list Z)) (x : inode) (nb : Z) : list Z :=
  concat ((λ k, blk d (file_block (blk d) x (Z.of_nat k))) <$> seq 0 (Z.to_nat nb)).

(** The file [x] of [nb] blocks became [x'] of [nb'] blocks; no block of another file changed. *)
Record grown (x : inode) (nb : Z) (st : image) (x' : inode) (nb' : Z) (st' : image) : Prop := {
  gr_ok : disk_ok st';
  gr_layout : layout st'.(mk_disk) x' nb' (has_ind nb') st'.(mk_freeblock);
  gr_inode : same_inode x x';
  gr_nb : nb ≤ nb';
  gr_freeblock : st'.(mk_freeblock) = st.(mk_freeblock) + cost nb nb';
  gr_freeinode : st'.(mk_freeinode) = st.(mk_freeinode);
  gr_other : ∀ c, 0 ≤ c < st.(mk_freeblock) → ¬ uses st.(mk_disk) x nb (has_ind nb) c → blk st'.(mk_disk) c = blk st.(mk_disk) c;
  gr_uses : ∀ c, uses st'.(mk_disk) x' nb' (has_ind nb') c → uses st.(mk_disk) x nb (has_ind nb) c ∨ st.(mk_freeblock) ≤ c
}.

Lemma grown_trans x nb st x' nb' st' x'' nb'' st'' :
  grown x nb st x' nb' st' → grown x' nb' st' x'' nb'' st'' → grown x nb st x'' nb'' st''.
Proof.
  intros [A1 A2 A3 A4 A5 A6 A7 A8] [B1 B2 B3 B4 B5 B6 B7 B8]. pose proof (cost_ge nb nb').
  split; [done|done| |lia| | | |].
  - by eapply same_inode_trans.
  - rewrite B5, A5, (cost_trans nb nb' nb'') by lia. lia.
  - congruence.
  - intros c Hc Hu. rewrite B7; [by apply A7|lia|]. intros Hu'. destruct (A8 c Hu'); [done|lia].
  - intros c Hc. destruct (B8 c Hc) as [Hu|?]; [|right; lia]. by apply A8.
Qed.

Lemma grown_refl x nb st : disk_ok st → layout st.(mk_disk) x nb (has_ind nb) st.(mk_freeblock) → grown x nb st x nb st.
Proof.
  intros Hok Hl. split; [done|done|apply same_inode_refl|lia| |done|done|by left]. rewrite cost_same. lia.
Qed.

(** ** A block for the next byte *)

(** The part of [iappend_block] that finds or makes the place in the indirect block. *)
Lemma indirect_run st e x nb :
  disk_ok st → layout st.(mk_disk) x nb true st.(mk_freeblock) → Z.of_nat NDIRECT ≤ nb < MAXFILE → st.(mk_freeblock) < FSSIZE →
  let a := x.(i_addrs) !!! NDIRECT in
  let j := Z.to_nat (nb - Z.of_nat NDIRECT) in
  let st' := with_block a (set_word j st.(mk_freeblock) (blk st.(mk_disk) a)) (took_block st) in
  (indirect <- rsect a;;
   indirect <- (if word indirect j =? 0 then
                  b <- new_block;; let indirect := set_word j (xint b) indirect in wsect a indirect;; ret indirect
                else ret indirect);;
   ret (x, xint (word indirect j))) st e = Ret (x, st.(mk_freeblock)) st' e ∧
  disk_ok st' ∧ layout st'.(mk_disk) x (nb + 1) true st'.(mk_freeblock) ∧ file_block (blk st'.(mk_disk)) x nb = st.(mk_freeblock) ∧
  ∀ k, 0 ≤ k < nb → file_block (blk st'.(mk_disk)) x k = file_block (blk st.(mk_disk)) x k.
Proof.
  intros Hok Hl Hnb Hfb a j st'. pose proof (dk_free _ Hok) as Hf. change nmeta with 59 in Hf.
  assert (0 ≤ a < st.(mk_freeblock)) as Ha by (pose proof (ly_indirect _ _ _ _ _ Hl eq_refl) as Hi; change nmeta with 59 in Hi; fold a in Hi; lia).
  assert (is_u32 st.(mk_freeblock)) as Hu by (unfold is_u32, FSSIZE in *; lia).
  assert (length (blk st.(mk_disk) a) = 512%nat) as Hla by (apply length_blk; [done|lia]).
  assert (4 * j + 4 ≤ 512)%nat as Hj by (unfold j, NDIRECT, MAXFILE in *; lia).
  pose proof (disk_ok_took _ Hok Hfb) as Hok1.
  assert (disk_ok st') as Hok' by (apply disk_ok_with; [done|simpl; lia|rewrite length_set_word by lia; done]).
  split; [|split; [done|]].
  - mstep (rsect_run st e a Hok ltac:(lia)). rewrite (ly_words0 _ _ _ _ _ Hl eq_refl nb ltac:(lia) ltac:(lia) : word (blk (mk_disk st) a) j = 0). simpl (0 =? 0). cbv iota.
    rewrite bind_assoc. mstep (new_block_run st e Hok). rewrite bind_assoc, xint_id by done.
    mstep (wsect_run (took_block st) e a (set_word j st.(mk_freeblock) (blk st.(mk_disk) a)) Hok1 ltac:(lia)). rewrite bind_ret_l.
    rewrite word_set_word_eq, xint_id by (done || lia). done.
  - apply (layout_word st.(mk_disk)); [done|done|exact (proj1 (dk_free _ Hok))|done|done|].
    fold a. unfold st'. rewrite blk_with by (done || lia). by rewrite decide_True.
Qed.

(** One more block, and where it came from. *)
Lemma grown_block x nb st x' st' :
  disk_ok st → layout st.(mk_disk) x nb (has_ind nb) st.(mk_freeblock) →
  disk_ok st' → layout st'.(mk_disk) x' (nb + 1) (has_ind (nb + 1)) st'.(mk_freeblock) → same_inode x x' →
  st'.(mk_freeblock) = st.(mk_freeblock) + cost nb (nb + 1) → st'.(mk_freeinode) = st.(mk_freeinode) →
  (∀ k, 0 ≤ k < nb → file_block (blk st'.(mk_disk)) x' k = file_block (blk st.(mk_disk)) x k) →
  st.(mk_freeblock) ≤ file_block (blk st'.(mk_disk)) x' nb →
  (has_ind (nb + 1) = true → (has_ind nb = true ∧ x'.(i_addrs) !!! NDIRECT = x.(i_addrs) !!! NDIRECT) ∨ st.(mk_freeblock) ≤ x'.(i_addrs) !!! NDIRECT) →
  (∀ c, 0 ≤ c → (has_ind (nb + 1) = true → c ≠ x'.(i_addrs) !!! NDIRECT) → blk st'.(mk_disk) c = blk st.(mk_disk) c) →
  grown x nb st x' (nb + 1) st' ∧ fdata st'.(mk_disk) x' (nb + 1) = fdata st.(mk_disk) x nb ++ zeroes.
Proof.
  intros Hok Hl Hok' Hl' Hi Hfb Hfi Hold Hnew Hind Hsame. pose proof (ly_nb _ _ _ _ _ Hl) as Hnb.
  pose proof (dk_free _ Hok) as Hf. pose proof (dk_free _ Hok') as Hf'. change nmeta with 59 in Hf, Hf'. split.
  - split; [done|done|done|lia|done|done| |].
    + intros c Hc Hu. apply Hsame; [lia|]. intros Hn ->. destruct (Hind Hn) as [[? He]|?]; [|lia]. apply Hu. right. done.
    + intros c [(k & Hk & ->)|[Hn ->]].
      * destruct (decide (k = nb)) as [->|]; [by right|]. left. left. exists k. rewrite Hold by lia. split; [lia|done].
      * destruct (Hind Hn) as [[? He]|?]; [|by right]. left. right. done.
  - assert (∀ k, 0 ≤ k < nb + 1 → blk st'.(mk_disk) (file_block (blk st'.(mk_disk)) x' k) = blk st.(mk_disk) (file_block (blk st'.(mk_disk)) x' k)) as Hc.
    { intros k Hk. apply Hsame; [|intros Hn; by apply (ly_apart _ _ _ _ _ Hl')]. pose proof (ly_block _ _ _ _ _ Hl' k Hk) as Hb. change nmeta with 59 in Hb. lia. }
    unfold fdata. replace (Z.to_nat (nb + 1)) with (S (Z.to_nat nb)) by lia. rewrite seq_S, fmap_app, concat_app. f_equal.
    + f_equal. apply list_fmap_ext. intros i k [-> Hk]%lookup_seq. simpl. rewrite Hc, Hold by lia. done.
    + simpl. rewrite Z2Nat.id, Hc, app_nil_r by lia. apply (dk_zero _ Hok).
      pose proof (ly_block _ _ _ _ _ Hl' nb ltac:(lia)). lia.
Qed.

Lemma xint_addr x k nb : 0 ≤ nb ≤ FSSIZE → nmeta ≤ x.(i_addrs) !!! k < nb → xint (x.(i_addrs) !!! k) = x.(i_addrs) !!! k.
Proof. intros Hn Ha. change nmeta with 59 in Ha. apply xint_id. unfold is_u32, FSSIZE in *. lia. Qed.

(** A block the file does not have yet: one of the inode's own. *)
Lemma block_direct st e x nb :
  disk_ok st → layout st.(mk_disk) x nb (has_ind nb) st.(mk_freeblock) → nb < Z.of_nat NDIRECT → st.(mk_freeblock) < FSSIZE →
  ∃ x' st', iappend_block x nb st e = Ret (x', file_block (blk st'.(mk_disk)) x' nb) st' e ∧
    grown x nb st x' (nb + 1) st' ∧ fdata st'.(mk_disk) x' (nb + 1) = fdata st.(mk_disk) x nb ++ zeroes.
Proof.
  intros Hok Hl Hd Hlt. pose proof (dk_free _ Hok) as Hf. pose proof Hf as Hf59. change nmeta with 59 in Hf59.
  pose proof (ly_len _ _ _ _ _ Hl) as Hlen. pose proof (ly_nb _ _ _ _ _ Hl) as Hnb.
  assert (xint st.(mk_freeblock) = st.(mk_freeblock)) as Hx by (apply xint_id; unfold is_u32, FSSIZE in *; lia).
  assert (has_ind nb = false ∧ has_ind (nb + 1) = false) as [E0 E1] by (unfold has_ind; split; apply Z.ltb_ge; lia).
  destruct (layout_direct _ _ _ _ _ Hl Hd (proj1 Hf)) as (Hl' & Hb & Ho).
  exists (set_i_addrs (<[Z.to_nat nb := st.(mk_freeblock)]> x.(i_addrs)) x), (took_block st).
  split; [|apply grown_block; try done].
  - unfold iappend_block. rewrite (proj2 (Z.ltb_lt _ _)), (ly_direct0 _ _ _ _ _ Hl nb) by lia. simpl (xint 0 =? 0). cbv iota.
    rewrite bind_assoc. mstep (new_block_run st e Hok). rewrite bind_ret_l, Hx. cbn [i_addrs set_i_addrs].
    rewrite list_lookup_total_insert_eq by (rewrite Hlen; unfold NDIRECT in *; lia). rewrite Hx. simpl mk_disk. rewrite Hb. done.
  - by apply disk_ok_took.
  - rewrite E1, <- E0. done.
  - by eexists.
  - unfold cost. rewrite E0, E1. simpl. lia.
  - simpl mk_disk. rewrite Hb. lia.
  - by rewrite E1.
Qed.

(** The first one of the indirect block, which is new as well. *)
Lemma block_first_indirect st e x :
  let nb := Z.of_nat NDIRECT in
  disk_ok st → layout st.(mk_disk) x nb (has_ind nb) st.(mk_freeblock) → st.(mk_freeblock) + 1 < FSSIZE →
  ∃ x' st', iappend_block x nb st e = Ret (x', file_block (blk st'.(mk_disk)) x' nb) st' e ∧
    grown x nb st x' (nb + 1) st' ∧ fdata st'.(mk_disk) x' (nb + 1) = fdata st.(mk_disk) x nb ++ zeroes.
Proof.
  intros nb Hok Hl Hlt. pose proof (dk_free _ Hok) as Hf. pose proof Hf as Hf59. change nmeta with 59 in Hf59.
  pose proof (ly_len _ _ _ _ _ Hl) as Hlen.
  assert (xint st.(mk_freeblock) = st.(mk_freeblock)) as Hx by (apply xint_id; unfold is_u32, FSSIZE in *; lia).
  pose proof (disk_ok_took _ Hok ltac:(lia)) as Hok1.
  destruct (layout_indirect _ _ _ _ Hl (proj1 Hf) (dk_zero _ Hok st.(mk_freeblock) ltac:(lia))) as [Hl1 Ho1].
  set (x' := set_i_addrs (<[NDIRECT := st.(mk_freeblock)]> x.(i_addrs)) x) in *.
  assert (x'.(i_addrs) !!! NDIRECT = st.(mk_freeblock)) as Ha by (apply list_lookup_total_insert_eq; rewrite Hlen; unfold NDIRECT; lia).
  destruct (indirect_run (took_block st) e x' nb Hok1 Hl1 ltac:(done) ltac:(simpl; lia)) as (Hr & Hok' & Hl' & Hb & Ho).
  rewrite Ha in *. eexists x', _. split; [|eapply grown_block; try done].
  - unfold iappend_block. change (nb <? Z.of_nat NDIRECT) with false. cbv iota.
    rewrite (ly_indirect0 _ _ _ _ _ Hl eq_refl). simpl (xint 0 =? 0). cbv iota.
    rewrite bind_assoc. mstep (new_block_run st e Hok). rewrite bind_ret_l, Hx. fold x'. rewrite Ha, Hx.
    etransitivity; [exact Hr|]. rewrite Hb. done.
  - by eexists.
  - simpl mk_freeblock. change (cost nb (nb + 1)) with 2. lia.
  - intros k Hk. rewrite Ho by done. simpl mk_disk. by apply Ho1.
  - rewrite Hb. simpl mk_freeblock. lia.
  - intros _. right. rewrite Ha. lia.
  - intros c Hc Hn. rewrite blk_with by ((apply disk_ok_took; [done|simpl; lia]) || lia). rewrite decide_False; [done|]. rewrite <- Ha. by apply Hn.
Qed.

(** A further one. *)
Lemma block_indirect st e x nb :
  disk_ok st → layout st.(mk_disk) x nb (has_ind nb) st.(mk_freeblock) → Z.of_nat NDIRECT < nb < MAXFILE → st.(mk_freeblock) < FSSIZE →
  ∃ x' st', iappend_block x nb st e = Ret (x', file_block (blk st'.(mk_disk)) x' nb) st' e ∧
    grown x nb st x' (nb + 1) st' ∧ fdata st'.(mk_disk) x' (nb + 1) = fdata st.(mk_disk) x nb ++ zeroes.
Proof.
  intros Hok Hl Hnb Hlt. pose proof (dk_free _ Hok) as Hf. change nmeta with 59 in Hf.
  assert (has_ind nb = true ∧ has_ind (nb + 1) = true) as [E0 E1] by (unfold has_ind; split; apply Z.ltb_lt; lia).
  pose proof Hl as Hl0. rewrite E0 in Hl0. pose proof (ly_indirect _ _ _ _ _ Hl0 eq_refl) as Ha. pose proof Ha as Ha59. change nmeta with 59 in Ha59.
  pose proof (xint_addr x NDIRECT st.(mk_freeblock) ltac:(lia) Ha) as Hx.
  destruct (indirect_run st e x nb Hok Hl0 ltac:(lia) ltac:(lia)) as (Hr & Hok' & Hl' & Hb & Ho).
  eexists x, _. split; [|eapply grown_block; try done].
  - unfold iappend_block. rewrite (proj2 (Z.ltb_ge _ _)) by lia. rewrite Hx, (proj2 (Z.eqb_neq _ 0)) by lia.
    rewrite bind_ret_l, Hx. etransitivity; [exact Hr|]. rewrite Hb. done.
  - rewrite E1. exact Hl'.
  - apply same_inode_refl.
  - simpl mk_freeblock. unfold cost. rewrite E0, E1. simpl. lia.
  - rewrite Hb. lia.
  - intros _. by left.
  - intros c Hc Hn. rewrite blk_with by ((by apply disk_ok_took; [|lia]) || lia). rewrite decide_False; [done|]. by apply Hn.
Qed.

Lemma iappend_block_new st e x nb :
  disk_ok st → layout st.(mk_disk) x nb (has_ind nb) st.(mk_freeblock) → nb < MAXFILE → st.(mk_freeblock) + cost nb (nb + 1) ≤ FSSIZE →
  ∃ x' st', iappend_block x nb st e = Ret (x', file_block (blk st'.(mk_disk)) x' nb) st' e ∧
    grown x nb st x' (nb + 1) st' ∧ fdata st'.(mk_disk) x' (nb + 1) = fdata st.(mk_disk) x nb ++ zeroes.
Proof.
  intros Hok Hl Hmax Hroom. pose proof (cost_ge nb (nb + 1)).
  destruct (Z.lt_trichotomy nb (Z.of_nat NDIRECT)) as [Hd|[->|Hd]].
  - apply block_direct; (done || lia).
  - apply block_first_indirect; [done|done|]. change (cost (Z.of_nat NDIRECT) (Z.of_nat NDIRECT + 1)) with 2 in Hroom. lia.
  - apply block_indirect; (done || lia).
Qed.

(** A block the file has. *)
Lemma iappend_block_old st e x nb k :
  disk_ok st → layout st.(mk_disk) x nb (has_ind nb) st.(mk_freeblock) → 0 ≤ k < nb →
  iappend_block x k st e = Ret (x, file_block (blk st.(mk_disk)) x k) st e.
Proof.
  intros Hok Hl Hk. pose proof (dk_free _ Hok) as Hf. change nmeta with 59 in Hf.
  pose proof (ly_block _ _ _ _ _ Hl k Hk) as Hb. unfold iappend_block. unfold file_block in *.
  destruct (Z.ltb_spec k (Z.of_nat NDIRECT)) as [Hd|Hd].
  - rewrite (xint_addr x (Z.to_nat k) st.(mk_freeblock) ltac:(lia) Hb). change nmeta with 59 in Hb.
    rewrite (proj2 (Z.eqb_neq _ 0)), bind_ret_l by lia. rewrite xint_id; [done|]. unfold is_u32, FSSIZE in *. lia.
  - pose proof (ly_indirect _ _ _ _ _ Hl (proj2 (Z.ltb_lt (Z.of_nat NDIRECT) nb) ltac:(lia))) as Ha.
    rewrite (xint_addr x NDIRECT st.(mk_freeblock) ltac:(lia) Ha). change nmeta with 59 in Ha, Hb.
    rewrite (proj2 (Z.eqb_neq _ 0)), bind_ret_l by lia. rewrite xint_id by (unfold is_u32, FSSIZE in *; lia).
    assert (0 ≤ x.(i_addrs) !!! NDIRECT < FSSIZE) as Hi by lia. mstep (rsect_run st e (x.(i_addrs) !!! NDIRECT) Hok Hi). rewrite (proj2 (Z.eqb_neq _ 0)), bind_ret_l by lia.
    rewrite xint_id; [done|]. unfold is_u32, FSSIZE in *. lia.
Qed.

(** ** Appending *)

Lemma concat_splice {A} (n : nat) (bs : list (list A)) k b r p :
  Forall (λ b, length b = n) bs → bs !! k = Some b → (r + length p ≤ n)%nat →
  concat (<[k := splice r p b]> bs) = splice (n * k + r) p (concat bs).
Proof.
  intros Hbs. revert k. induction Hbs as [|c bs Hc Hbs IH]; intros k Hk Hr; [done|]. destruct k as [|k]; simpl in *.
  - injection Hk as ->. rewrite Nat.mul_0_r. unfold splice. simpl. rewrite take_app_le, drop_app_le, <- !app_assoc by lia. done.
  - rewrite (IH k Hk Hr). unfold splice. replace (n * S k + r)%nat with (length c + (n * k + r))%nat by lia.
    rewrite take_app_add, <- (Nat.add_assoc (length c)), drop_app_add, <- !app_assoc. done.
Qed.

Lemma fdata_blocks st x nb :
  disk_ok st → layout st.(mk_disk) x nb (has_ind nb) st.(mk_freeblock) →
  Forall (λ b, length b = 512%nat) ((λ k, blk st.(mk_disk) (file_block (blk st.(mk_disk)) x (Z.of_nat k))) <$> seq 0 (Z.to_nat nb)).
Proof.
  intros Hok Hl. apply Forall_fmap, Forall_forall. intros k Hk%elem_of_seq. apply length_blk; [done|].
  pose proof (ly_block _ _ _ _ _ Hl (Z.of_nat k) ltac:(lia)) as Hb. pose proof (dk_free _ Hok). change nmeta with 59 in Hb. lia.
Qed.

Lemma length_fdata st x nb :
  disk_ok st → layout st.(mk_disk) x nb (has_ind nb) st.(mk_freeblock) → length (fdata st.(mk_disk) x nb) = (512 * Z.to_nat nb)%nat.
Proof.
  intros Hok Hl. unfold fdata. rewrite (length_concat 512) by (by apply fdata_blocks). by rewrite length_fmap, length_seq.
Qed.

(** Part of a block of the file is overwritten. *)
Lemma write_part st x nb k r p :
  disk_ok st → layout st.(mk_disk) x nb (has_ind nb) st.(mk_freeblock) → 0 ≤ k < nb → (r + length p ≤ 512)%nat →
  let b := file_block (blk st.(mk_disk)) x k in
  let st' := with_block b (splice r p (blk st.(mk_disk) b)) st in
  grown x nb st x nb st' ∧ fdata st'.(mk_disk) x nb = splice (512 * Z.to_nat k + r) p (fdata st.(mk_disk) x nb).
Proof.
  intros Hok Hl Hk Hr b st'. pose proof (dk_free _ Hok) as Hf. pose proof (ly_block _ _ _ _ _ Hl k Hk) as Hb. fold b in Hb. change nmeta with 59 in Hf, Hb.
  assert (length (splice r p (blk st.(mk_disk) b)) = 512%nat) as Hlen by (rewrite length_splice; rewrite length_blk; (done || lia)).
  assert (∀ c, 0 ≤ c → blk st'.(mk_disk) c = if decide (c = b) then splice r p (blk st.(mk_disk) b) else blk st.(mk_disk) c) as Hblk by (intros; apply blk_with; (done || lia)).
  destruct (layout_ext st.(mk_disk) st'.(mk_disk) x nb (has_ind nb) st.(mk_freeblock) st.(mk_freeblock) Hl) as [Hl' Ho]; [|done|].
  { intros Hi. pose proof (ly_indirect _ _ _ _ _ Hl Hi) as Ha. change nmeta with 59 in Ha. rewrite Hblk, decide_False by (lia || (intros He; by apply (ly_apart _ _ _ _ _ Hl Hi k Hk))). done. }
  split.
  - split; [apply disk_ok_with; (done || lia)|exact Hl'|apply same_inode_refl|lia|simpl; rewrite cost_same; lia|done| |].
    + intros c Hc Hu. rewrite Hblk, decide_False; [done| |lia]. intros ->. apply Hu. left. by exists k.
    + intros c [(j & Hj & ->)|Hi]; left; [left; exists j; by rewrite Ho|by right].
  - unfold fdata. rewrite <- (concat_splice 512 _ _ (blk st.(mk_disk) b)); [|by apply fdata_blocks| |done].
    + f_equal. apply list_eq. intros i. rewrite list_lookup_insert. rewrite length_fmap, length_seq. rewrite !list_lookup_fmap.
      destruct (decide (i < Z.to_nat nb)%nat) as [Hi|Hi]; [|rewrite lookup_seq_ge by lia; simpl; rewrite decide_False by lia; done].
      rewrite lookup_seq_lt by done. simpl. pose proof (ly_block _ _ _ _ _ Hl (Z.of_nat i) ltac:(lia)) as Hbi. change nmeta with 59 in Hbi.
      rewrite Ho by lia. rewrite Hblk by lia. destruct (decide (Z.of_nat i = k)) as [<-|Hne].
      * rewrite decide_True, decide_True by (done || lia). done.
      * rewrite decide_False, decide_False by (lia || (intros He; apply Hne; by apply (ly_distinct _ _ _ _ _ Hl); [lia..|])). done.
    + rewrite list_lookup_fmap, lookup_seq_lt by lia. simpl. by rewrite Z2Nat.id by lia.
Qed.

Lemma take_splice {A} off (p l : list A) : (off ≤ length l)%nat → take (off + length p) (splice off p l) = take off l ++ p.
Proof. intros Hl. unfold splice. rewrite app_assoc, take_app_length'; [done|]. rewrite length_app, length_take. lia. Qed.

(** Only zeros. *)
Definition zero (l : list Z) : Prop := Forall (λ b, b = 0) l.

Lemma zero_replicate n : zero (replicate n 0).
Proof. by apply Forall_replicate. Qed.

(** What is past the end stays zero. *)
Lemma zero_splice off p (l z : list Z) :
  (off ≤ length l)%nat → zero (drop off l) → zero z → zero (drop (off + length p) (splice off p (l ++ z))).
Proof.
  intros Hl Hd Hz. unfold splice. rewrite app_assoc, drop_app_ge by (rewrite length_app, length_take, length_app; lia).
  apply Forall_drop. rewrite <- drop_drop. apply Forall_drop. rewrite drop_app_le by done. by apply Forall_app.
Qed.

(** The blocks of [off] bytes, and of [off] and the piece that fits the block of byte [off]. *)
Lemma nblocks_next off :
  0 ≤ off → let k := off / BSIZE in
  k * BSIZE ≤ off < (k + 1) * BSIZE ∧ (nblocks off = k ∧ off = k * BSIZE ∨ nblocks off = k + 1) ∧
  ∀ m, 0 < m ≤ (k + 1) * BSIZE - off → nblocks (off + m) = k + 1.
Proof.
  intros Ho k. unfold nblocks, k, BSIZE in *. pose proof (Z.div_mod off 512 ltac:(done)). pose proof (Z.mod_pos_bound off 512 eq_refl).
  split; [lia|]. split; [destruct (decide (off mod 512 = 0)) as [Hz|Hz]; [left|right]|intros m Hm].
  - split; [|lia]. symmetry. apply (Z.div_unique_pos _ _ _ 511); lia.
  - symmetry. apply (Z.div_unique_pos _ _ _ (off mod 512 - 1)); lia.
  - symmetry. apply (Z.div_unique_pos _ _ _ (off + m - 1 - 512 * (off / 512))); lia.
Qed.

(** The block for byte [off], the end of the file. *)
Lemma iappend_block_run st e x nb off :
  disk_ok st → layout st.(mk_disk) x nb (has_ind nb) st.(mk_freeblock) → 0 ≤ off → nb = nblocks off → off / BSIZE < MAXFILE →
  st.(mk_freeblock) + cost nb (off / BSIZE + 1) ≤ FSSIZE →
  ∃ x' st', iappend_block x (off / BSIZE) st e = Ret (x', file_block (blk st'.(mk_disk)) x' (off / BSIZE)) st' e ∧
    grown x nb st x' (off / BSIZE + 1) st' ∧ ∃ z, fdata st'.(mk_disk) x' (off / BSIZE + 1) = fdata st.(mk_disk) x nb ++ z ∧ zero z.
Proof.
  intros Hok Hl Ho Hnb Hmax Hroom. destruct (nblocks_next off Ho) as (Hk & [[Hn Hz]|Hn] & _).
  - rewrite Hnb, Hn in *. destruct (iappend_block_new st e x (off / BSIZE) Hok Hl ltac:(lia) Hroom) as (x' & st' & Hr & Hg & Hd).
    exists x', st'. split; [done|]. split; [done|]. exists zeroes. split; [done|apply zero_replicate].
  - rewrite Hnb, Hn in *. exists x, st. split; [|split].
    + apply (iappend_block_old st e x (off / BSIZE + 1)); [done|done|]. unfold BSIZE in *. lia.
    + by apply grown_refl.
    + exists []. split; [by rewrite app_nil_r|by constructor].
Qed.

(** One turn of the loop. *)
Lemma iappend_turn st e x nb off p :
  disk_ok st → layout st.(mk_disk) x nb (has_ind nb) st.(mk_freeblock) → 0 ≤ off → nb = nblocks off → off / BSIZE < MAXFILE →
  st.(mk_freeblock) + cost nb (off / BSIZE + 1) ≤ FSSIZE → 0 < Z.of_nat (length p) ≤ (off / BSIZE + 1) * BSIZE - off →
  ∃ x' st' b, iappend_block x (off / BSIZE) st e = Ret (x', b) st' e ∧ disk_ok st' ∧ 0 ≤ b < FSSIZE ∧
    let st'' := with_block b (splice (Z.to_nat (off - off / BSIZE * BSIZE)) p (blk st'.(mk_disk) b)) st' in
    grown x nb st x' (off / BSIZE + 1) st'' ∧
    take (Z.to_nat off + length p) (fdata st''.(mk_disk) x' (off / BSIZE + 1)) = take (Z.to_nat off) (fdata st.(mk_disk) x nb) ++ p ∧
    (zero (drop (Z.to_nat off) (fdata st.(mk_disk) x nb)) → zero (drop (Z.to_nat off + length p) (fdata st''.(mk_disk) x' (off / BSIZE + 1)))).
Proof.
  intros Hok Hl Ho Hnb Hmax Hroom Hp. destruct (nblocks_next off Ho) as (Hk & _ & _).
  destruct (iappend_block_run st e x nb off Hok Hl Ho Hnb Hmax Hroom) as (x' & st' & Hr & Hg & z & Hd & Hz).
  pose proof (gr_ok _ _ _ _ _ _ Hg) as Hok'. pose proof (gr_layout _ _ _ _ _ _ Hg) as Hl'.
  destruct (write_part st' x' (off / BSIZE + 1) (off / BSIZE) (Z.to_nat (off - off / BSIZE * BSIZE)) p Hok' Hl' ltac:(unfold BSIZE in *; lia) ltac:(unfold BSIZE in *; lia)) as [Hg' Hd'].
  exists x', st', (file_block (blk st'.(mk_disk)) x' (off / BSIZE)). split; [done|]. split; [done|]. split.
  { pose proof (ly_block _ _ _ _ _ Hl' (off / BSIZE) ltac:(unfold BSIZE in *; lia)) as Hb. pose proof (dk_free _ Hok'). change nmeta with 59 in Hb. lia. }
  split; [by eapply grown_trans|]. rewrite Hd'. replace (512 * Z.to_nat (off / BSIZE) + Z.to_nat (off - off / BSIZE * BSIZE))%nat with (Z.to_nat off) by (unfold BSIZE in *; lia).
  pose proof (length_fdata _ _ _ Hok' Hl') as Hlen. pose proof (length_fdata _ _ _ Hok Hl) as Hlen0. pose proof (nblocks_le off Ho) as Hle. rewrite <- Hnb in Hle.
  rewrite Hd in *. rewrite length_app in Hlen. split.
  - rewrite take_splice by (rewrite length_app; unfold BSIZE in *; lia). rewrite take_app_le by (unfold BSIZE in *; lia). done.
  - intros Hzero. apply zero_splice; (done || (unfold BSIZE in *; lia)).
Qed.

Lemma iappend_loop_run fuel p : ∀ st e x nb off,
  (length p < fuel)%nat → disk_ok st → layout st.(mk_disk) x nb (has_ind nb) st.(mk_freeblock) → 0 ≤ off → nb = nblocks off →
  let n := off + Z.of_nat (length p) in
  n ≤ MAXFILE * BSIZE → st.(mk_freeblock) + cost nb (nblocks n) ≤ FSSIZE →
  ∃ x' st', iappend_loop fuel x p off st e = Ret (x', n) st' e ∧ grown x nb st x' (nblocks n) st' ∧
    take (Z.to_nat n) (fdata st'.(mk_disk) x' (nblocks n)) = take (Z.to_nat off) (fdata st.(mk_disk) x nb) ++ p ∧
    (zero (drop (Z.to_nat off) (fdata st.(mk_disk) x nb)) → zero (drop (Z.to_nat n) (fdata st'.(mk_disk) x' (nblocks n)))).
Proof.
  revert p. induction fuel as [|fuel IH]; intros p st e x nb off Hfuel Hok Hl Ho Hnb n Hmax Hroom; [lia|].
  destruct p as [|c p]; [exists x, st; unfold n; rewrite Z.add_0_r, <- Hnb; split; [done|]; split; [by apply grown_refl|]; split; [by rewrite app_nil_r|done]|].
  remember (c :: p) as q eqn:Hq. assert (0 < Z.of_nat (length q)) as Hlen by (subst q; simpl; lia).
  destruct (nblocks_next off Ho) as (Hk & Hn & Hpiece). set (k := off / BSIZE) in *.
  set (n1 := Z.min (Z.of_nat (length q)) ((k + 1) * BSIZE - off)). specialize (Hpiece n1 ltac:(unfold n1; lia)).
  assert (k < MAXFILE) as Hkm by (unfold n, BSIZE in *; lia).
  assert (nb ≤ k + 1 ≤ nblocks n) as Hmid by (split; [lia|rewrite <- Hpiece; apply nblocks_mono; unfold n, n1; lia]).
  pose proof (cost_trans nb (k + 1) (nblocks n) Hmid) as Hcost. pose proof (cost_ge (k + 1) (nblocks n)).
  assert (length (take (Z.to_nat n1) q) = Z.to_nat n1) as Hl1 by (rewrite length_take; unfold n1; lia).
  destruct (iappend_turn st e x nb off (take (Z.to_nat n1) q) Hok Hl Ho Hnb Hkm ltac:(fold k; lia) ltac:(rewrite Hl1; fold k; unfold n1; lia))
    as (x1 & st1 & b & Hr & Hok1 & Hb & Hg & Hd & Hz). fold k in Hr, Hg, Hd, Hz. rewrite Hl1 in Hd, Hz.
  set (st2 := with_block b _ st1) in *.
  destruct (IH (drop (Z.to_nat n1) q) st2 e x1 (k + 1) (off + n1)) as (x' & st' & Hr' & Hg' & Hd' & Hz');
    [rewrite length_drop; unfold n1; lia|apply Hg|apply Hg|unfold n1; lia|done|rewrite length_drop; unfold n, n1 in *; lia| |].
  { rewrite (gr_freeblock _ _ _ _ _ _ Hg), length_drop. replace (off + n1 + _) with n by (unfold n, n1; lia). lia. }
  replace (off + n1 + Z.of_nat (length (drop (Z.to_nat n1) q))) with n in Hr', Hg', Hd', Hz' by (rewrite length_drop; unfold n, n1; lia).
  replace (Z.to_nat (off + n1)) with (Z.to_nat off + Z.to_nat n1)%nat in Hd', Hz' by (unfold n1; lia).
  exists x', st'. split; [|split; [by eapply grown_trans|split; [|tauto]]].
  - cbn [iappend_loop]. rewrite Hq, <- Hq. fold k. rewrite (proj2 (Z.ltb_lt _ _) Hkm). cbn [negb]. cbv iota.
    mstep Hr. fold n1. mstep (rsect_run st1 e b Hok1 Hb). mstep (wsect_run st1 e b (splice (Z.to_nat (off - k * BSIZE)) (take (Z.to_nat n1) q) (blk st1.(mk_disk) b)) Hok1 Hb).
    fold st2. rewrite u32_id; [exact Hr'|]. unfold is_u32, n1, n, MAXFILE, BSIZE in *. lia.
  - rewrite Hd', Hd, <- app_assoc, take_drop. done.
Qed.

(** ** Files of the image *)

(** The inode [inum] as a later reader sees it. *)
Definition dinode_in (d : list (list Z)) (inum : Z) : inode := load_dinode (blk d (IBLOCK inum mk_sb)) (dinode_off inum) din0.

(** File [inum] of the image has the inode [x] and holds [bytes]. *)
Record file_in (st : image) (inum : Z) (x : inode) (bytes : list Z) : Prop := {
  fi_inum : 0 ≤ inum < NINODES;
  fi_dinode : dinode_in st.(mk_disk) inum = x;
  fi_wf : dinode_wf x;
  fi_size : x.(i_size) = Z.of_nat (length bytes);
  fi_layout : layout st.(mk_disk) x (nblocks x.(i_size)) (has_ind (nblocks x.(i_size))) st.(mk_freeblock);
  fi_bytes : file_bytes (blk st.(mk_disk)) x = bytes;
  fi_tail : zero (drop (length bytes) (fdata st.(mk_disk) x (nblocks x.(i_size))))
}.

Definition file_uses (st : image) (x : inode) (c : Z) : Prop :=
  uses st.(mk_disk) x (nblocks x.(i_size)) (has_ind (nblocks x.(i_size))) c.

Lemma iblock_range inum : 0 ≤ inum < NINODES → 32 ≤ IBLOCK inum mk_sb < 58.
Proof.
  intros Hi. unfold NINODES in Hi. unfold IBLOCK, IPB. change (sb_inodestart mk_sb) with 32.
  pose proof (Z.div_mod inum 8 ltac:(done)). pose proof (Z.mod_pos_bound inum 8 eq_refl). lia.
Qed.

Lemma layout_addrs d x nb ind fb : layout d x nb ind fb → fb ≤ FSSIZE → Forall (λ a, 0 ≤ a < 4294967296) x.(i_addrs).
Proof.
  intros Hl Hfb. apply Forall_lookup. intros i a Ha. pose proof (lookup_lt_Some _ _ _ Ha) as Hi. rewrite (ly_len _ _ _ _ _ Hl) in Hi.
  apply list_lookup_total_correct in Ha. assert (a = 0 ∨ nmeta ≤ a < fb) as [->|Hr]; [|lia|change nmeta with 59 in Hr; unfold FSSIZE in Hfb; lia].
  destruct (decide (i = NDIRECT)) as [->|Hne].
  - subst a. destruct ind; [right; by apply (ly_indirect _ _ _ _ _ Hl)|left; by apply (ly_indirect0 _ _ _ _ _ Hl)].
  - assert (Z.of_nat i < Z.of_nat NDIRECT) as Hd by lia. rewrite <- (Nat2Z.id i) in Ha. destruct (decide (Z.of_nat i < nb)) as [Hn|Hn].
    + right. pose proof (ly_block _ _ _ _ _ Hl (Z.of_nat i) ltac:(lia)) as Hb. unfold file_block in Hb. rewrite (proj2 (Z.ltb_lt _ _) Hd), Ha in Hb. done.
    + left. rewrite <- Ha. apply (ly_direct0 _ _ _ _ _ Hl). lia.
Qed.

(** The image with inode [inum] replaced. *)
Definition with_dinode (inum : Z) (x : inode) (st : image) : image :=
  with_block (IBLOCK inum mk_sb) (splice (dinode_off inum) (dinode_bytes x) (blk st.(mk_disk) (IBLOCK inum mk_sb))) st.

Lemma winode_run st e inum x : disk_ok st → 0 ≤ inum < NINODES → winode inum x st e = Ret tt (with_dinode inum x st) e.
Proof.
  intros Hok Hi. pose proof (iblock_range inum Hi) as Hb. assert (0 ≤ IBLOCK inum mk_sb < FSSIZE) as Hb' by (unfold FSSIZE; lia).
  unfold winode. mstep (rsect_run st e _ Hok Hb'). by apply wsect_run.
Qed.

Lemma rinode_run st e inum : disk_ok st → 0 ≤ inum < NINODES → rinode inum st e = Ret (dinode_in st.(mk_disk) inum) st e.
Proof.
  intros Hok Hi. pose proof (iblock_range inum Hi) as Hb. assert (0 ≤ IBLOCK inum mk_sb < FSSIZE) as Hb' by (unfold FSSIZE; lia).
  unfold rinode. by mstep (rsect_run st e _ Hok Hb').
Qed.

Section with_dinode.
Context (st : image) (inum : Z) (x : inode).
Hypothesis Hok : disk_ok st.
Hypothesis Hi : 0 ≤ inum < NINODES.
Hypothesis Hx : dinode_wf x.

Lemma iblock_len : length (blk st.(mk_disk) (IBLOCK inum mk_sb)) = 512%nat.
Proof. apply length_blk; [done|]. pose proof (iblock_range inum Hi). unfold FSSIZE. lia. Qed.

Lemma disk_ok_dinode : disk_ok (with_dinode inum x st).
Proof.
  pose proof (iblock_range inum Hi). pose proof (dk_free _ Hok) as Hf. change nmeta with 59 in Hf. apply disk_ok_with; [done|lia|].
  rewrite length_splice; [apply iblock_len|]. rewrite iblock_len, length_dinode_bytes by done. apply dinode_off_bound.
Qed.

Lemma blk_dinode c : 0 ≤ c → c ≠ IBLOCK inum mk_sb → blk (with_dinode inum x st).(mk_disk) c = blk st.(mk_disk) c.
Proof.
  intros Hc Hne. pose proof (iblock_range inum Hi). unfold with_dinode. rewrite blk_with by (done || (unfold FSSIZE; lia)). by rewrite decide_False.
Qed.

Lemma dinode_in_eq : dinode_in (with_dinode inum x st).(mk_disk) inum = dinode_of x din0.
Proof.
  pose proof (iblock_range inum Hi). unfold dinode_in, with_dinode. rewrite blk_with by (done || (unfold FSSIZE; lia)). rewrite decide_True by done.
  apply load_dinode_bytes; [done|]. rewrite iblock_len. apply dinode_off_bound.
Qed.

Lemma dinode_in_ne j : 0 ≤ j < NINODES → j ≠ inum → dinode_in (with_dinode inum x st).(mk_disk) j = dinode_in st.(mk_disk) j.
Proof.
  intros Hj Hne. pose proof (iblock_range inum Hi). pose proof (iblock_range j Hj). unfold dinode_in, with_dinode.
  rewrite blk_with by (done || (unfold FSSIZE; lia)). case_decide as He; [|done]. rewrite He.
  apply load_dinode_other; [done|rewrite iblock_len; apply dinode_off_bound..|].
  by apply (dinode_off_apart j inum mk_sb).
Qed.
End with_dinode.

(** What [iappend] promises: [p] is at the end of file [inum], which has taken new blocks for it; no other inode and no
    block of another file has changed. *)
Record appended (inum : Z) (x : inode) (bytes p : list Z) (st : image) (x' : inode) (st' : image) : Prop := {
  ap_ok : disk_ok st';
  ap_file : file_in st' inum x' (bytes ++ p);
  ap_inode : ∃ addrs, x' = set_i_size (Z.of_nat (length (bytes ++ p))) (set_i_addrs addrs x);
  ap_freeblock : st'.(mk_freeblock) = st.(mk_freeblock) + cost (nblocks x.(i_size)) (nblocks x'.(i_size));
  ap_freeinode : st'.(mk_freeinode) = st.(mk_freeinode);
  ap_dinode : ∀ j, 0 ≤ j < NINODES → j ≠ inum → dinode_in st'.(mk_disk) j = dinode_in st.(mk_disk) j;
  ap_block : ∀ c, 0 ≤ c < st.(mk_freeblock) → ¬ file_uses st x c → c ≠ IBLOCK inum mk_sb → blk st'.(mk_disk) c = blk st.(mk_disk) c;
  ap_uses : ∀ c, file_uses st' x' c → file_uses st x c ∨ st.(mk_freeblock) ≤ c
}.

(** The inode is written back. *)
Lemma appended_intro inum x bytes p st x1 st1 :
  file_in st inum x bytes → disk_ok st →
  let n := Z.of_nat (length (bytes ++ p)) in
  n ≤ MAXFILE * BSIZE → grown x (nblocks x.(i_size)) st x1 (nblocks n) st1 →
  take (Z.to_nat n) (fdata st1.(mk_disk) x1 (nblocks n)) = bytes ++ p →
  zero (drop (Z.to_nat n) (fdata st1.(mk_disk) x1 (nblocks n))) →
  appended inum x bytes p st (set_i_size n x1) (with_dinode inum (set_i_size n x1) st1).
Proof.
  intros [Hi Hd Hw Hsz Hl Hb Ht] Hok n Hmax [G1 G2 [l ->] G4 G5 G6 G7 G8] Hdata Hzero.
  pose proof (iblock_range inum Hi) as Hib. pose proof (dk_free _ G1) as Hf1.
  set (x' := set_i_size n (set_i_addrs l x)).
  assert (dinode_wf x') as Hw'.
  { destruct Hw. split; try done; [simpl; unfold n, MAXFILE, BSIZE in *; lia|exact (ly_len _ _ _ _ _ G2)|exact (layout_addrs _ _ _ _ _ G2 (proj2 Hf1))]. }
  assert (∀ c, nmeta ≤ c → blk (with_dinode inum x' st1).(mk_disk) c = blk st1.(mk_disk) c) as Hdat
    by (intros c Hc; change nmeta with 59 in Hc; apply blk_dinode; (done || lia)).
  destruct (layout_ext st1.(mk_disk) (with_dinode inum x' st1).(mk_disk) _ _ _ _ st1.(mk_freeblock) G2) as [Hl' Ho']; [|lia|].
  { intros Hn. apply Hdat. exact (proj1 (ly_indirect _ _ _ _ _ G2 Hn)). }
  assert (fdata (with_dinode inum x' st1).(mk_disk) x' (nblocks n) = fdata st1.(mk_disk) (set_i_addrs l x) (nblocks n)) as Hsame.
  { unfold fdata. f_equal. apply list_fmap_ext. intros i k [-> Hk]%lookup_seq. simpl.
    change (file_block ?g x') with (file_block g (set_i_addrs l x)). rewrite Ho' by lia. apply Hdat. apply (ly_block _ _ _ _ _ G2). lia. }
  split; [by apply disk_ok_dinode| |by exists l|exact G5|exact G6| | |].
  - split; [done| |done|done|by apply layout_size| |].
    + rewrite dinode_in_eq by done. unfold x'. rewrite <- Hd. reflexivity.
    + rewrite <- Hdata. exact (f_equal (take (Z.to_nat n)) Hsame).
    + change (nblocks x'.(i_size)) with (nblocks n). rewrite Hsame. unfold n in Hzero at 1. by rewrite Nat2Z.id in Hzero.
  - intros j Hj Hne. rewrite dinode_in_ne by done. unfold dinode_in. pose proof (iblock_range j Hj). pose proof (dk_free _ Hok) as Hf. change nmeta with 59 in Hf.
    rewrite G7; [done|lia|]. intros Hu. pose proof (uses_range _ _ _ _ _ _ Hl Hu) as Hr. change nmeta with 59 in Hr. lia.
  - intros c Hc Hu Hne. rewrite blk_dinode by (done || lia). by apply G7.
  - intros c [(k & Hk & ->)|Hn]; apply G8; [left; exists k; rewrite <- Ho' by done; done|by right].
Qed.

Lemma iappend_run st e inum x bytes p :
  file_in st inum x bytes → disk_ok st →
  let n := Z.of_nat (length (bytes ++ p)) in
  n ≤ MAXFILE * BSIZE → st.(mk_freeblock) + cost (nblocks x.(i_size)) (nblocks n) ≤ FSSIZE →
  ∃ x' st', iappend inum p st e = Ret tt st' e ∧ appended inum x bytes p st x' st'.
Proof.
  intros Hf Hok n Hmax Hroom. pose proof Hf as [Hi Hd Hw Hsz Hl Hb Ht]. unfold n in *. rewrite length_app, Nat2Z.inj_add, <- Hsz in *.
  destruct (iappend_loop_run (S (length p)) p st e x (nblocks x.(i_size)) x.(i_size)) as (x1 & st1 & Hr & Hg & Hdata & Hzero);
    [lia|done|done|lia|done|done|done|].
  exists (set_i_size (x.(i_size) + Z.of_nat (length p)) x1), (with_dinode inum (set_i_size (x.(i_size) + Z.of_nat (length p)) x1) st1). split.
  - unfold iappend. mstep (rinode_run st e inum Hok Hi). rewrite Hd, xint_id by (apply Hw). mstep Hr.
    rewrite xint_id by (unfold is_u32, MAXFILE, BSIZE in *; lia). apply winode_run; [apply Hg|done].
  - pose proof (appended_intro inum x bytes p st x1 st1 Hf Hok) as Ha. cbv zeta in Ha. rewrite length_app, Nat2Z.inj_add, <- Hsz in Ha.
    apply Ha; [done|done| |].
    + rewrite Hdata. f_equal. exact Hb.
    + apply Hzero. by rewrite Hsz, Nat2Z.id, <- Hsz.
Qed.
