(* ===== verification/MkfsImage.v ===== *)
(** * A finished file system image (mkfs.c)

    The functions of Mkfs.v put together: [mkfs_main] makes an image that holds
    the files of its command line and nothing else, each in its own inode and
    its own blocks, with their names in the root directory, the superblock the
    kernel reads and a bitmap that marks the blocks in use. *)

From S2P Require Import Prelude KState Mem CString Spinlock Print Args Proc Sleeplock Bio Log Inode Console Fs FileData FileWrite Mkfs.
#[local] Open Scope kernel_scope.

(** ** The image while it is built *)

(** The blocks of a file that holds [bytes], and of all the files, each given as its type and bytes. *)
Definition blocks_of (bytes : list Z) : Z := cost 0 (nblocks (Z.of_nat (length bytes))).
Definition total (fs : list (Z * list Z)) : Z := foldr (λ f n, blocks_of f.2 + n) 0 fs.

Definition inum_of (i : nat) : Z := 1 + Z.of_nat i.
Definition inode_of (st : image) (i : nat) : inode := dinode_in st.(mk_disk) (inum_of i).

(** The image holds exactly the files [fs], file number [i] in inode [1 + i]. *)
Record made (st : image) (fs : list (Z * list Z)) : Prop := {
  md_ok : disk_ok st;
  md_sb : blk st.(mk_disk) 1 = sb_bytes mk_sb;
  md_next : st.(mk_freeinode) = inum_of (length fs);
  md_blocks : st.(mk_freeblock) = nmeta + total fs;
  md_file : ∀ i f, fs !! i = Some f → file_in st (inum_of i) (inode_of st i) f.2;
  md_type : ∀ i f, fs !! i = Some f → (inode_of st i).(i_type) = f.1 ∧ (inode_of st i).(i_nlink) = 1;
  md_apart : ∀ i j c, (i < length fs)%nat → (j < length fs)%nat → i ≠ j → file_uses st (inode_of st i) c → ¬ file_uses st (inode_of st j) c;
  md_rest : ∀ j, st.(mk_freeinode) ≤ j < NINODES → dinode_in st.(mk_disk) j = din0
}.

Lemma nblocks_nonneg n : 0 ≤ n → 0 ≤ nblocks n.
Proof. intros Hn. unfold nblocks, BSIZE. apply Z.div_pos; lia. Qed.

Lemma blocks_of_app bytes p :
  blocks_of (bytes ++ p) = blocks_of bytes + cost (nblocks (Z.of_nat (length bytes))) (nblocks (Z.of_nat (length (bytes ++ p)))).
Proof.
  unfold blocks_of. apply cost_trans. split; [apply nblocks_nonneg; lia|]. apply nblocks_mono. rewrite length_app. lia.
Qed.

Lemma blocks_of_mono bytes p : blocks_of bytes ≤ blocks_of (bytes ++ p).
Proof.
  rewrite blocks_of_app. pose proof (cost_ge (nblocks (Z.of_nat (length bytes))) (nblocks (Z.of_nat (length (bytes ++ p))))).
  pose proof (nblocks_mono (Z.of_nat (length bytes)) (Z.of_nat (length (bytes ++ p))) ltac:(rewrite length_app; lia)). lia.
Qed.

Lemma total_insert fs i f g : fs !! i = Some f → total (<[i := g]> fs) = total fs + blocks_of g.2 - blocks_of f.2.
Proof.
  revert i. induction fs as [|h fs IH]; intros i Hi; [done|]. destruct i as [|i]; simpl in *; [injection Hi as ->; lia|]. rewrite (IH i Hi). lia.
Qed.

Lemma total_app fs gs : total (fs ++ gs) = total fs + total gs.
Proof. induction fs as [|h fs IH]; simpl; [lia|]. rewrite IH. lia. Qed.

(** Another file, none of whose blocks changed, is the same. *)
Lemma file_in_frame st st' j x bytes :
  file_in st j x bytes → dinode_in st'.(mk_disk) j = dinode_in st.(mk_disk) j → st.(mk_freeblock) ≤ st'.(mk_freeblock) →
  (∀ c, file_uses st x c → blk st'.(mk_disk) c = blk st.(mk_disk) c) →
  file_in st' j x bytes ∧ ∀ c, file_uses st' x c → file_uses st x c.
Proof.
  intros [Hi Hd Hw Hsz Hl Hb Ht] Hd' Hfb Hblk.
  destruct (layout_ext st.(mk_disk) st'.(mk_disk) x _ _ st.(mk_freeblock) st'.(mk_freeblock) Hl) as [Hl' Ho]; [|done|].
  { intros Hn. apply Hblk. right. done. }
  assert (fdata st'.(mk_disk) x (nblocks x.(i_size)) = fdata st.(mk_disk) x (nblocks x.(i_size))) as Hs.
  { unfold fdata. f_equal. apply list_fmap_ext. intros i k [-> Hk]%lookup_seq. simpl. rewrite Ho by lia. apply Hblk. left. exists (Z.of_nat i). split; [lia|done]. }
  split.
  - split; [done|congruence|done|done|done| |by rewrite Hs]. rewrite <- Hb. exact (f_equal (take _) Hs).
  - intros c [(k & Hk & ->)|Hn]; [left; exists k; by rewrite Ho|by right].
Qed.

Lemma inum_of_inj i j : inum_of i = inum_of j → i = j.
Proof. unfold inum_of. lia. Qed.

(** The other files of an image after [iappend]. *)
Lemma appended_other st fs i t bytes p x' st' j f :
  made st fs → fs !! i = Some (t, bytes) → appended (inum_of i) (inode_of st i) bytes p st x' st' → fs !! j = Some f → j ≠ i →
  inode_of st' j = inode_of st j ∧ file_in st' (inum_of j) (inode_of st' j) f.2 ∧
  ∀ c, file_uses st' (inode_of st' j) c → file_uses st (inode_of st j) c ∧ c < st.(mk_freeblock).
Proof.
  intros M Hi A Hj Hne. pose proof (md_file _ _ M _ _ Hi) as Hf. pose proof (md_file _ _ M _ _ Hj) as Hfj.
  pose proof (ap_dinode _ _ _ _ _ _ _ A (inum_of j) (fi_inum _ _ _ _ Hfj) ltac:(intros ?%inum_of_inj; done)) as Hd.
  assert (inode_of st' j = inode_of st j) as Hxj by exact Hd. split; [done|]. rewrite Hxj.
  assert (∀ c, file_uses st (inode_of st j) c → 59 ≤ c < st.(mk_freeblock)) as Hrange by (intros c Hc; exact (uses_range _ _ _ _ _ _ (fi_layout _ _ _ _ Hfj) Hc)).
  destruct (file_in_frame st st' (inum_of j) (inode_of st j) f.2) as [Hfj' Hu]; [done|done| | |split; [done|]].
  - rewrite (ap_freeblock _ _ _ _ _ _ _ A), (fi_size _ _ _ _ Hf), (fi_size _ _ _ _ (ap_file _ _ _ _ _ _ _ A)). cbn [snd].
    pose proof (blocks_of_app bytes p). pose proof (blocks_of_mono bytes p). lia.
  - intros c Hc. specialize (Hrange c Hc). pose proof (iblock_range _ (fi_inum _ _ _ _ Hf)).
    apply (ap_block _ _ _ _ _ _ _ A); [lia| |lia]. intros Hu. apply (md_apart _ _ M i j c); (done || by eapply lookup_lt_Some).
  - intros c Hc. split; [by apply Hu|]. exact (proj2 (Hrange c (Hu c Hc))).
Qed.

Lemma appended_made st fs i t bytes p x' st' :
  made st fs → fs !! i = Some (t, bytes) → appended (inum_of i) (inode_of st i) bytes p st x' st' →
  made st' (<[i := (t, bytes ++ p)]> fs).
Proof.
  intros M Hi A. pose proof M as [M1 M2 M3 M4 M5 M6 M7 M8]. pose proof (M5 i _ Hi) as Hf. cbn [snd] in Hf.
  pose proof (appended_other st fs i t bytes p x' st') as Hother.
  pose proof A as [A1 A2 [l A3] A4 A5 A6 A7 A8].
  assert (inode_of st' i = x') as Hx' by apply (fi_dinode _ _ _ _ A2). pose proof (lookup_lt_Some _ _ _ Hi) as Hlt.
  assert (∀ j c, (j < length fs)%nat → file_uses st' (inode_of st' j) c →
    file_uses st (inode_of st j) c ∧ c < st.(mk_freeblock) ∨ j = i ∧ st.(mk_freeblock) ≤ c) as Huses.
  { intros j c Hj Hu. destruct (decide (j = i)) as [->|Hne].
    - rewrite Hx' in Hu. destruct (A8 c Hu) as [Hc|]; [left|by right]. split; [done|]. exact (proj2 (uses_range _ _ _ _ _ _ (fi_layout _ _ _ _ Hf) Hc)).
    - destruct (lookup_lt_is_Some_2 _ _ Hj) as [f Hjf]. left. by apply (Hother j f M Hi A Hjf Hne). }
  split; [done| |by rewrite length_insert, A5| | | | |].
  - rewrite A7; [done| | |pose proof (iblock_range _ (fi_inum _ _ _ _ Hf)); lia]; [pose proof (dk_free _ M1) as Hf'; change nmeta with 59 in Hf'; lia|].
    intros Hu. pose proof (uses_range _ _ _ _ _ _ (fi_layout _ _ _ _ Hf) Hu) as Hrc. change nmeta with 59 in Hrc. lia.
  - rewrite A4, (total_insert _ _ _ _ Hi). cbn [snd]. rewrite blocks_of_app, (fi_size _ _ _ _ Hf), (fi_size _ _ _ _ A2). lia.
  - intros j f Hjf. apply list_lookup_insert_Some in Hjf as [(<- & <- & _)|[Hne Hjf]]; [by rewrite Hx'|].
    by apply (Hother j f M Hi A Hjf).
  - intros j f Hjf. apply list_lookup_insert_Some in Hjf as [(<- & <- & _)|[Hne Hjf]].
    + rewrite Hx', A3. exact (M6 i _ Hi).
    + destruct (Hother j f M Hi A Hjf ltac:(done)) as [-> _]. by apply M6.
  - rewrite length_insert. intros j k c Hjl Hkl Hne Hu Hu'.
    destruct (Huses j c Hjl Hu) as [[Hc Hlc]|[-> Hlc]], (Huses k c Hkl Hu') as [[Hc' Hlc']|[-> Hlc']]; [by apply (M7 j k c)|lia..|done].
  - intros j Hjr. rewrite A5 in Hjr. pose proof (fi_inum _ _ _ _ Hf). rewrite A6; [by apply M8|unfold inum_of in *; lia|unfold inum_of in *; lia].
Qed.

Lemma iappend_made st e fs i t bytes p :
  made st fs → fs !! i = Some (t, bytes) → Z.of_nat (length (bytes ++ p)) ≤ MAXFILE * BSIZE →
  nmeta + total (<[i := (t, bytes ++ p)]> fs) ≤ FSSIZE →
  ∃ st', iappend (inum_of i) p st e = Ret tt st' e ∧ made st' (<[i := (t, bytes ++ p)]> fs).
Proof.
  intros M Hi Hmax Hroom. pose proof (md_file _ _ M i _ Hi) as Hf. cbn [snd] in Hf.
  rewrite (total_insert _ _ _ _ Hi) in Hroom. cbn [snd] in Hroom. rewrite blocks_of_app in Hroom.
  destruct (iappend_run st e (inum_of i) (inode_of st i) bytes p Hf (md_ok _ _ M) Hmax) as (x' & st' & Hr & A).
  { rewrite (fi_size _ _ _ _ Hf), (md_blocks _ _ M). lia. }
  exists st'. split; [done|]. by eapply appended_made.
Qed.

(** The inode [mk_ialloc] writes. *)
Definition new_inode (t : Z) : inode := set_i_type t (set_i_nlink 1 din0).

Lemma new_inode_wf t : is_s16 t → dinode_wf (new_inode t).
Proof. intros Ht. split; simpl; try (unfold is_s16; lia); [done|done|]. by repeat constructor. Qed.

Lemma new_inode_file st i t :
  0 ≤ inum_of i < NINODES → is_s16 t → inode_of st i = new_inode t → nmeta ≤ st.(mk_freeblock) →
  file_in st (inum_of i) (new_inode t) [] ∧ ∀ c, ¬ file_uses st (new_inode t) c.
Proof.
  intros Hi Ht Hx Hfb. split.
  - split; [done|done|by apply new_inode_wf|done| |done|by constructor].
    change (nblocks _) with 0. split; try (done || (intros; change (has_ind 0) with false in *; (done || lia))).
    + intros k Hk. unfold NDIRECT in Hk. change (i_addrs (new_inode t)) with (replicate (S NDIRECT) 0). rewrite list_lookup_total_alt, lookup_replicate_2; [done|]. unfold NDIRECT. lia.
  - intros c [(k & Hk & _)|[? _]]; [|done]. change (nblocks _) with 0 in Hk. lia.
Qed.

Lemma mk_ialloc_made st e fs t :
  made st fs → inum_of (length fs) < NINODES → is_s16 t → 0 ≤ t →
  ∃ st', mk_ialloc t st e = Ret (inum_of (length fs)) st' e ∧ made st' (fs ++ [(t, [])]).
Proof.
  intros [M1 M2 M3 M4 M5 M6 M7 M8] Hlt Ht Ht0. set (inum := inum_of (length fs)) in *.
  set (st1 := Mkimage st.(mk_disk) (inum + 1) st.(mk_freeblock)). assert (disk_ok st1) as Hok1 by (destruct M1; by split).
  assert (0 ≤ inum < NINODES) as Hi by (unfold inum, inum_of in *; lia). pose proof (iblock_range _ Hi) as Hib.
  pose proof (new_inode_wf t Ht) as Hw. set (st' := with_dinode inum (new_inode t) st1).
  assert (inode_of st' (length fs) = new_inode t) as Hnew by exact (dinode_in_eq st1 inum (new_inode t) Hok1 Hi Hw).
  pose proof (dk_free _ M1) as Hfb.
  destruct (new_inode_file st' (length fs) t Hi Ht Hnew (proj1 Hfb)) as [Hfile Hnone].
  assert (∀ j f, fs !! j = Some f → inode_of st' j = inode_of st j ∧ file_in st' (inum_of j) (inode_of st' j) f.2 ∧
    ∀ c, file_uses st' (inode_of st' j) c → file_uses st (inode_of st j) c) as Hother.
  { intros j f Hj. pose proof (M5 j f Hj) as Hfj. pose proof (lookup_lt_Some _ _ _ Hj) as Hjl.
    assert (inode_of st' j = inode_of st j) as Hxj.
    { apply (dinode_in_ne st1 inum (new_inode t) Hok1 Hi Hw); [exact (fi_inum _ _ _ _ Hfj)|unfold inum; intros ?%inum_of_inj; lia]. }
    split; [done|]. rewrite Hxj. apply (file_in_frame st); [done|exact Hxj|simpl; lia|].
    intros c Hc. pose proof (uses_range _ _ _ _ _ _ (fi_layout _ _ _ _ Hfj) Hc) as Hrc. change nmeta with 59 in Hrc.
    apply (blk_dinode st1 inum (new_inode t) Hok1 Hi); lia. }
  exists st'. split.
  - unfold mk_ialloc. rewrite bind_gets, bind_modify, M3. fold inum. rewrite u32_id by (unfold is_u32, NINODES in *; lia).
    unfold xshort at 1. rewrite le_val_bytes_id by (unfold is_s16 in Ht; simpl; lia). by mstep (winode_run st1 e inum (new_inode t) Hok1 Hi).
  - split.
    + by apply disk_ok_dinode.
    + rewrite <- M2. apply (blk_dinode st1 inum (new_inode t) Hok1 Hi); lia.
    + rewrite length_app. simpl. unfold inum, inum_of. lia.
    + rewrite total_app. simpl. change (blocks_of []) with 0. lia.
    + intros j f [Hj|[Hge Hj]]%lookup_app_Some; [by apply Hother|]. apply list_lookup_singleton_Some in Hj as [? <-].
      replace j with (length fs) by lia. by rewrite Hnew.
    + intros j f [Hj|[Hge Hj]]%lookup_app_Some; [destruct (Hother j f Hj) as [-> _]; by apply M6|]. apply list_lookup_singleton_Some in Hj as [? <-].
      replace j with (length fs) by lia. by rewrite Hnew.
    + rewrite length_app. simpl. intros j k c Hj Hk Hne Hu Hu'.
      destruct (decide (j = length fs)) as [->|]; [rewrite Hnew in Hu; by apply (Hnone c)|].
      destruct (decide (k = length fs)) as [->|]; [rewrite Hnew in Hu'; by apply (Hnone c)|].
      destruct (lookup_lt_is_Some_2 fs j ltac:(lia)) as [f Hf], (lookup_lt_is_Some_2 fs k ltac:(lia)) as [g Hg].
      apply (M7 j k c); [lia|lia|done|by apply (Hother j f Hf)|by apply (Hother k g Hg)].
    + simpl. intros j Hj. rewrite <- (M8 j) by (rewrite M3; fold inum; lia). apply (dinode_in_ne st1 inum (new_inode t) Hok1 Hi Hw); unfold inum, inum_of in *; lia.
Qed.

(** ** The start *)

Definition blank : image := Mkimage (replicate (Z.to_nat FSSIZE) zeroes) 1 nmeta.

Lemma wipe_run n e : ∀ k, for_each (seq k n) (λ i, wsect (Z.of_nat i) zeroes) (Mkimage (replicate k zeroes) 1 nmeta) e =
  Ret tt (Mkimage (replicate (k + n) zeroes) 1 nmeta) e.
Proof.
  induction n as [|n IH]; intros k; [simpl; by rewrite Nat.add_0_r|]. cbn [seq for_each].
  assert (wsect (Z.of_nat k) zeroes (Mkimage (replicate k zeroes) 1 nmeta) e = Ret tt (Mkimage (replicate (S k) zeroes) 1 nmeta) e) as Hw.
  { unfold wsect, modify, put_sector. cbn [mk_disk mk_freeinode mk_freeblock]. rewrite Nat2Z.id, length_replicate, Nat.ltb_irrefl, Nat.sub_diag. simpl app.
    by rewrite replicate_S_end. }
  mstep Hw. rewrite IH. do 3 f_equal. lia.
Qed.

Lemma blank_blk b : 0 ≤ b < FSSIZE → blk blank.(mk_disk) b = zeroes.
Proof. intros Hb. unfold blk, blank. cbn [mk_disk]. rewrite lookup_replicate_2; [done|lia]. Qed.

Lemma blank_ok : disk_ok blank.
Proof.
  split; [apply length_replicate|apply Forall_replicate, length_replicate|done|].
  intros b Hb. apply blank_blk. change (mk_freeblock blank) with 59 in Hb. lia.
Qed.

Lemma load_zeroes inum : load_dinode zeroes (dinode_off inum) din0 = din0.
Proof.
  pose proof (dinode_off_bound inum) as Hb.
  assert (∀ o n, (o + n ≤ 512)%nat → slice o n zeroes = replicate n 0) as Hs.
  { intros o n Ho. unfold slice, zeroes. rewrite drop_replicate, take_replicate, Nat.min_l by (unfold BSIZE; lia). done. }
  unfold load_dinode, half, word_at, BSIZE in *. rewrite !Hs by lia. simpl seq. simpl fmap. rewrite !Hs by lia. reflexivity.
Qed.

Lemma made_start : made (with_block 1 (sb_bytes mk_sb) blank) [].
Proof.
  assert (∀ c, 0 ≤ c → blk (with_block 1 (sb_bytes mk_sb) blank).(mk_disk) c = if decide (c = 1) then sb_bytes mk_sb else blk blank.(mk_disk) c) as Hb
    by (intros c Hc; apply blk_with; [apply blank_ok|done|done]).
  split; try (intros; simpl in *; (done || lia)).
  - apply disk_ok_with; [apply blank_ok|done|reflexivity].
  - intros j Hj. change (mk_freeinode _) with 1 in Hj. pose proof (iblock_range j ltac:(lia)) as Hr. unfold dinode_in.
    rewrite Hb, decide_False, blank_blk by (unfold FSSIZE; lia). apply load_zeroes.
Qed.

(** ** The files of the command line *)

(** The name of a file in the image: without a leading underscore. *)
Definition entry_name (name : list Z) : list Z := match name with 95 :: name' => name' | _ => name end.

Definition root_bytes (files : list (list Z * list (list Z))) : list Z :=
  dirent 1 [46] ++ dirent 1 [46; 46] ++ concat (imap (λ i f, dirent (2 + Z.of_nat i) (entry_name f.1)) files).

(** The root directory and the files, as type and contents. *)
Definition image_files (files : list (list Z * list (list Z))) : list (Z * list Z) :=
  (T_DIR, root_bytes files) :: ((λ f, (T_FILE, concat f.2)) <$> files).

Lemma length_dirent inum name : length (dirent inum name) = 16%nat.
Proof. unfold dirent. rewrite length_app, length_le_bytes, strncpy_eq, length_app, length_take, length_replicate. unfold DIRSIZ. lia. Qed.

Lemma length_root_bytes files : length (root_bytes files) = (16 * (2 + length files))%nat.
Proof.
  unfold root_bytes. rewrite !length_app, !length_dirent, (length_concat 16), length_imap; [lia|].
  apply Forall_lookup. intros i d Hi. apply list_lookup_imap_Some in Hi as (f & _ & ->). apply length_dirent.
Qed.

Lemma root_bytes_snoc files f : root_bytes (files ++ [f]) = root_bytes files ++ dirent (2 + Z.of_nat (length files)) (entry_name f.1).
Proof.
  unfold root_bytes. rewrite imap_app, concat_app, <- !app_assoc. do 3 f_equal. simpl. rewrite app_nil_r, Nat.add_0_r. done.
Qed.

(** The files fit: enough inodes and blocks, none is too large, and no name has a slash. *)
Record fits (files : list (list Z * list (list Z))) : Prop := {
  ft_names : Forall (λ f, 47 ∉ f.1) files;
  ft_inodes : Z.of_nat (length files) < NINODES - 1;
  ft_sizes : Forall (λ f, Z.of_nat (length (concat f.2)) ≤ MAXFILE * BSIZE) files;
  ft_blocks : nmeta + total (image_files files) ≤ FSSIZE
}.

Lemma total_mono fs i t bytes p q : fs !! i = Some (t, bytes) → total (<[i := (t, bytes ++ p)]> fs) ≤ total (<[i := (t, bytes ++ p ++ q)]> fs).
Proof. intros Hi. rewrite !(total_insert _ _ _ _ Hi). cbn [snd]. rewrite app_assoc. pose proof (blocks_of_mono (bytes ++ p) q). lia. Qed.

Lemma pieces_made pieces : ∀ st e fs i t bytes,
  made st fs → fs !! i = Some (t, bytes) → Z.of_nat (length (bytes ++ concat pieces)) ≤ MAXFILE * BSIZE →
  nmeta + total (<[i := (t, bytes ++ concat pieces)]> fs) ≤ FSSIZE →
  ∃ st', for_each pieces (iappend (inum_of i)) st e = Ret tt st' e ∧ made st' (<[i := (t, bytes ++ concat pieces)]> fs).
Proof.
  induction pieces as [|p pieces IH]; intros st e fs i t bytes M Hi Hmax Hroom; simpl in *.
  - exists st. split; [done|]. by rewrite app_nil_r, list_insert_id.
  - pose proof (lookup_lt_Some _ _ _ Hi) as Hlt. pose proof (total_mono fs i t bytes p (concat pieces) Hi) as Hmono.
    destruct (iappend_made st e fs i t bytes p M Hi) as (st1 & Hr1 & M1); [rewrite !length_app in *; lia|lia|].
    destruct (IH st1 e (<[i := (t, bytes ++ p)]> fs) i t (bytes ++ p) M1) as (st' & Hr & M');
      [by apply list_lookup_insert_eq|by rewrite <- app_assoc|by rewrite list_insert_insert_eq, <- app_assoc|].
    exists st'. split; [by mstep Hr1|]. rewrite list_insert_insert_eq, <- app_assoc in M'. done.
Qed.

Lemma image_files_snoc files f :
  image_files (files ++ [f]) =
    <[S (length files) := (T_FILE, concat f.2)]> (<[0%nat := (T_DIR, root_bytes (files ++ [f]))]> (image_files files ++ [(T_FILE, [])])).
Proof.
  unfold image_files. simpl. f_equal. rewrite fmap_app. simpl. rewrite insert_app_r_alt; rewrite length_fmap; [|done]. by rewrite Nat.sub_diag.
Qed.

Lemma root_bytes_app files gs : ∃ r, root_bytes (files ++ gs) = root_bytes files ++ r.
Proof. unfold root_bytes. rewrite imap_app, concat_app. eexists. by rewrite <- !app_assoc. Qed.

Lemma total_prefix files gs : total (image_files files) ≤ total (image_files (files ++ gs)).
Proof.
  unfold image_files. simpl. rewrite fmap_app, total_app.
  assert (∀ fs, 0 ≤ total fs) as Hpos.
  { induction fs as [|h fs IH]; simpl; [lia|]. pose proof (blocks_of_mono [] h.2) as Hm. change (blocks_of []) with 0 in Hm. simpl in Hm. lia. }
  pose proof (Hpos ((λ f : list Z * list (list Z), (T_FILE, concat f.2)) <$> gs)).
  assert (blocks_of (root_bytes files) ≤ blocks_of (root_bytes (files ++ gs))); [|lia].
  destruct (root_bytes_app files gs) as [r ->]. apply blocks_of_mono.
Qed.

Lemma fits_prefix files gs : fits (files ++ gs) → fits files.
Proof.
  intros [H1 H2 H3 H4]. apply Forall_app in H1 as [H1 _], H3 as [H3 _]. rewrite length_app in H2.
  pose proof (total_prefix files gs). split; [done|lia|done|lia].
Qed.

Lemma add_file_made st e files f :
  made st (image_files files) → fits (files ++ [f]) →
  ∃ st', add_file f st e = Ret tt st' e ∧ made st' (image_files (files ++ [f])).
Proof.
  intros M [H1 H2 H3 H4]. apply Forall_app in H1 as [_ H1], H3 as [_ H3]. inversion_clear H1 as [|? ? Hname _]. inversion_clear H3 as [|? ? Hsize _].
  rewrite length_app in H2. simpl in H2. destruct f as [name pieces]. simpl in Hname, Hsize.
  assert (length (image_files files) = S (length files)) as Hlen by (unfold image_files; simpl; by rewrite length_fmap).
  destruct (mk_ialloc_made st e (image_files files) T_FILE M) as (st1 & Hr1 & M1); [rewrite Hlen; unfold inum_of, NINODES in *; lia|done|done|].
  rewrite Hlen in Hr1. set (inum := inum_of (S (length files))) in *.
  pose proof (root_bytes_snoc files (name, pieces)) as Hroot. cbn [fst] in Hroot. replace (2 + Z.of_nat (length files)) with inum in Hroot by (unfold inum, inum_of; lia).
  rewrite image_files_snoc in H4 |- *. cbn [snd] in *.
  set (fs1 := image_files files ++ [(T_FILE, [])]) in *.
  set (fs2 := <[0%nat := (T_DIR, root_bytes (files ++ [(name, pieces)]))]> fs1) in *.
  assert (fs2 !! S (length files) = Some (T_FILE, [])) as Hf2.
  { unfold fs2, fs1. rewrite list_lookup_insert_ne by done. rewrite lookup_app_r by lia. by rewrite Hlen, Nat.sub_diag. }
  assert (total fs2 ≤ total (<[S (length files) := (T_FILE, concat pieces)]> fs2)) as Htot.
  { rewrite (total_insert _ _ _ _ Hf2). cbn [snd]. pose proof (blocks_of_mono [] (concat pieces)) as Hm. change ([] ++ concat pieces) with (concat pieces) in Hm. lia. }
  destruct (iappend_made st1 e fs1 0 T_DIR (root_bytes files) (dirent inum (entry_name name)) M1) as (st2 & Hr2 & M2); [done| | |].
  { rewrite length_app, length_root_bytes, length_dirent. unfold NINODES, MAXFILE, BSIZE in *. lia. }
  { rewrite <- Hroot. fold fs2. lia. }
  rewrite <- Hroot in M2. fold fs2 in M2.
  destruct (pieces_made pieces st2 e fs2 (S (length files)) T_FILE [] M2 Hf2 Hsize H4) as (st3 & Hr3 & M3).
  exists st3. split; [|exact M3].
  unfold add_file. rewrite bool_decide_eq_false_2 by done. fold (entry_name name). mstep Hr1. mstep Hr2. exact Hr3.
Qed.

Lemma files_made todo : ∀ st e files,
  made st (image_files files) → fits (files ++ todo) →
  ∃ st', for_each todo add_file st e = Ret tt st' e ∧ made st' (image_files (files ++ todo)).
Proof.
  induction todo as [|f todo IH]; intros st e files M Hfit; [exists st; by rewrite app_nil_r|].
  rewrite (cons_middle f) in Hfit |- *. rewrite app_assoc in Hfit |- *.
  destruct (add_file_made st e files f M (fits_prefix _ _ Hfit)) as (st1 & Hr1 & M1).
  destruct (IH st1 e (files ++ [f]) M1 Hfit) as (st' & Hr & M'). exists st'. split; [|done]. cbn [for_each]. by mstep Hr1.
Qed.

(** ** The end *)

Definition padding (bytes : list Z) : list Z := replicate (Z.to_nat (BSIZE - Z.of_nat (length bytes) mod BSIZE)) 0.

Lemma length_padding bytes :
  let n := Z.of_nat (length bytes) in
  Z.of_nat (length (bytes ++ padding bytes)) = (n / BSIZE + 1) * BSIZE ∧
  (n mod BSIZE ≠ 0 → nblocks (Z.of_nat (length (bytes ++ padding bytes))) = nblocks n).
Proof.
  intros n. assert (Z.of_nat (length (bytes ++ padding bytes)) = (n / BSIZE + 1) * BSIZE) as Hl.
  { unfold padding. rewrite length_app, length_replicate. fold n. pose proof (Z.div_mod n BSIZE ltac:(done)). pose proof (Z.mod_pos_bound n BSIZE ltac:(done)). unfold BSIZE in *. lia. }
  split; [done|]. intros Hn. rewrite Hl. destruct (nblocks_next n ltac:(lia)) as (Hk & [[_ He]|Hn'] & Hm).
  - exfalso. apply Hn. rewrite He. by apply Z.mod_mul.
  - rewrite Hn'. replace ((n / BSIZE + 1) * BSIZE) with (n + ((n / BSIZE + 1) * BSIZE - n)) by lia. apply Hm. lia.
Qed.

Lemma zero_eq l : zero l → l = replicate (length l) 0.
Proof. intros Hz. symmetry. apply replicate_as_elem_of. split; [done|]. by apply Forall_forall. Qed.

(** The blocks of a file hold its bytes and zeros. *)
Lemma file_in_padded st i x bytes :
  file_in st i x bytes → disk_ok st → Z.of_nat (length bytes) mod BSIZE ≠ 0 → fdata st.(mk_disk) x (nblocks x.(i_size)) = bytes ++ padding bytes.
Proof.
  intros [Hi Hd Hw Hsz Hl Hb Ht] Hok Hmod. pose proof (length_fdata st x _ Hok Hl) as Hlen.
  rewrite <- (take_drop (length bytes) (fdata _ _ _)). f_equal.
  - rewrite <- Hb at 2. unfold file_bytes. rewrite Hsz, Nat2Z.id. rewrite <- Hsz. done.
  - rewrite (zero_eq _ Ht), length_drop, Hlen. unfold padding. f_equal.
    destruct (length_padding bytes) as [Hp Hn]. specialize (Hn Hmod). unfold padding in Hp. rewrite length_app, length_replicate in Hp.
    rewrite Hsz. destruct (nblocks_next (Z.of_nat (length bytes)) ltac:(lia)) as (Hk & [[_ He]|Hn'] & _).
    + exfalso. apply Hmod. rewrite He. by apply Z.mod_mul.
    + rewrite Hn'. unfold BSIZE in *. lia.
Qed.

(** A file is extended to the end of its last block. *)
Lemma pad_made st fs i t bytes :
  made st fs → fs !! i = Some (t, bytes) → Z.of_nat (length bytes) mod BSIZE ≠ 0 →
  Z.of_nat (length (bytes ++ padding bytes)) ≤ MAXFILE * BSIZE →
  made (with_dinode (inum_of i) (set_i_size ((Z.of_nat (length bytes) / BSIZE + 1) * BSIZE) (inode_of st i)) st)
    (<[i := (t, bytes ++ padding bytes)]> fs).
Proof.
  intros M Hi Hmod Hmax. pose proof (md_file _ _ M i _ Hi) as Hf. cbn [snd] in Hf.
  pose proof (file_in_padded _ _ _ _ Hf (md_ok _ _ M) Hmod) as HD.
  destruct (length_padding bytes) as [Hlen Hnb]. specialize (Hnb Hmod). rewrite <- Hlen.
  eapply appended_made; [done|done|]. apply appended_intro; [done|apply M|done| | |]; rewrite Hnb, <- (fi_size _ _ _ _ Hf).
  - apply grown_refl; [apply M|apply Hf].
  - rewrite HD, Nat2Z.id. apply firstn_all.
  - rewrite HD, Nat2Z.id, drop_all. constructor.
Qed.

(** The bitmap block. *)
Definition marked (n : nat) : list Z := foldl (λ buf i, set_bit i buf) zeroes (seq 0 n).

Lemma marked_spec n : (n ≤ Z.to_nat BPB)%nat → length (marked n) = 512%nat ∧ ∀ b, (b < Z.to_nat BPB)%nat → bit_set (marked n) b = (b <? n)%nat.
Proof.
  induction n as [|n IH]; intros Hn.
  - split; [apply length_replicate|]. intros b Hb. change (b <? 0)%nat with false. rewrite bit_set_testbit. unfold marked. cbn [seq foldl].
    unfold zeroes. rewrite list_lookup_total_alt.
    rewrite lookup_replicate_2; [apply Z.bits_0|]. unfold BPB, BSIZE in *. pose proof (Nat.div_mod_eq b 8). lia.
  - destruct (IH ltac:(lia)) as [Hl Hb]. unfold marked in *. rewrite seq_S, foldl_app. cbn [foldl Nat.add]. split; [unfold set_bit; by rewrite length_alter|].
    intros b Hbn. rewrite bit_set_set_bit by (done || lia). rewrite Hb by done. case_decide as Hd.
    + subst b. symmetry. apply Nat.ltb_lt. lia.
    + destruct (Nat.ltb_spec b n), (Nat.ltb_spec b (S n)); (done || lia).
Qed.

Lemma bitmap_made st fs buf : made st fs → length buf = 512%nat → made (with_block 58 buf st) fs.
Proof.
  intros [M1 M2 M3 M4 M5 M6 M7 M8] Hlen. pose proof (dk_free _ M1) as Hfb. change nmeta with 59 in Hfb.
  assert (∀ c, 0 ≤ c → c ≠ 58 → blk (with_block 58 buf st).(mk_disk) c = blk st.(mk_disk) c) as Hb.
  { intros c Hc Hne. rewrite blk_with by (done || lia). by rewrite decide_False. }
  assert (∀ j, 0 ≤ j < NINODES → dinode_in (with_block 58 buf st).(mk_disk) j = dinode_in st.(mk_disk) j) as Hd.
  { intros j Hj. pose proof (iblock_range j Hj). unfold dinode_in. by rewrite Hb by lia. }
  assert (∀ j f, fs !! j = Some f → inode_of (with_block 58 buf st) j = inode_of st j ∧ file_in (with_block 58 buf st) (inum_of j) (inode_of st j) f.2 ∧
    ∀ c, file_uses (with_block 58 buf st) (inode_of st j) c → file_uses st (inode_of st j) c) as Hf.
  { intros j f Hj. pose proof (M5 j f Hj) as Hfj. pose proof (Hd _ (fi_inum _ _ _ _ Hfj)) as Hdj. split; [done|]. apply (file_in_frame st); [done|done|simpl; lia|].
    intros c Hc. pose proof (uses_range _ _ _ _ _ _ (fi_layout _ _ _ _ Hfj) Hc) as Hrc. change nmeta with 59 in Hrc. apply Hb; lia. }
  split; [apply disk_ok_with; (done || lia)|by rewrite Hb|done|done| | | |].
  - intros j f Hj. destruct (Hf j f Hj) as (-> & ? & _). done.
  - intros j f Hj. destruct (Hf j f Hj) as (-> & _ & _). by apply M6.
  - intros j k c Hj Hk Hne Hu Hu'. destruct (lookup_lt_is_Some_2 fs j Hj) as [f Hjf], (lookup_lt_is_Some_2 fs k Hk) as [g Hkg].
    destruct (Hf j f Hjf) as (Ej & _ & Uj), (Hf k g Hkg) as (Ek & _ & Uk). rewrite Ej in Hu. rewrite Ek in Hu'. apply (M7 j k c); auto.
  - intros j Hj. change (mk_freeinode _) with st.(mk_freeinode) in Hj. rewrite Hd; [by apply M8|]. rewrite M3 in Hj. unfold inum_of in Hj. lia.
Qed.

(** What a finished image holds: the root directory fills its last block. *)
Definition finished_files (files : list (list Z * list (list Z))) : list (Z * list Z) :=
  (T_DIR, root_bytes files ++ padding (root_bytes files)) :: ((λ f, (T_FILE, concat f.2)) <$> files).

Lemma blank_run e : for_each (seq 0 (Z.to_nat FSSIZE)) (λ i, wsect (Z.of_nat i) zeroes) (Mkimage [] 1 nmeta) e = Ret tt blank e.
Proof. exact (wipe_run (Z.to_nat FSSIZE) e 0). Qed.

(** The root directory and the files are written. *)
Lemma files_run files st e :
  fits files → made st [(T_DIR, [])] →
  ∃ st1 st2 st3, iappend ROOTINO (dirent ROOTINO [46]) st e = Ret tt st1 e ∧ iappend ROOTINO (dirent ROOTINO [46; 46]) st1 e = Ret tt st2 e ∧
    for_each files add_file st2 e = Ret tt st3 e ∧ made st3 (image_files files).
Proof.
  intros Hfit M. change ROOTINO with (inum_of 0). pose proof (length_root_bytes []) as Hlen.
  destruct (iappend_made st e [(T_DIR, [])] 0 T_DIR [] (dirent 1 [46]) M) as (st1 & Hr1 & M1); [done|done|done|].
  destruct (iappend_made st1 e [(T_DIR, dirent 1 [46])] 0 T_DIR (dirent 1 [46]) (dirent 1 [46; 46]) M1) as (st2 & Hr2 & M2); [done|done|done|].
  destruct (files_made files st2 e [] M2 Hfit) as (st3 & Hr3 & M3).
  exists st1, st2, st3. done.
Qed.

(** The size of the root directory is rounded up and the bitmap is written. *)
Lemma finish_run files st e :
  fits files → made st (image_files files) → Z.of_nat (length (root_bytes files)) mod BSIZE ≠ 0 →
  ∃ st', (din <- rinode ROOTINO;;
          let off := xint din.(i_size) in
          winode ROOTINO (set_i_size (xint (u32 ((off / BSIZE + 1) * BSIZE))) din);;
          used <- gets mk_freeblock;;
          mk_balloc used) st e = Ret tt st' e ∧
    made st' (finished_files files) ∧
    ∀ b, (b < Z.to_nat FSSIZE)%nat → bit_set (blk st'.(mk_disk) mk_sb.(sb_bmapstart)) b = (Z.of_nat b <? st'.(mk_freeblock)).
Proof.
  intros [_ F2 _ F4] M Hmod. pose proof (md_ok _ _ M) as Hok. change ROOTINO with (inum_of 0).
  pose proof (md_file _ _ M 0 (T_DIR, root_bytes files) eq_refl) as Hf. cbn [snd] in Hf. pose proof (fi_size _ _ _ _ Hf) as Hsz.
  pose proof (length_root_bytes files) as Hlen. unfold NINODES in F2.
  destruct (length_padding (root_bytes files)) as [Hpad _]. set (n := Z.of_nat (length (root_bytes files))) in *.
  assert (0 ≤ n ≤ 3300) as Hn by lia. assert (0 ≤ (n / BSIZE + 1) * BSIZE ≤ 4096) as Hv.
  { unfold BSIZE. pose proof (Z.div_mod n 512 ltac:(done)). pose proof (Z.mod_pos_bound n 512 eq_refl). lia. }
  pose proof (pad_made st _ 0 T_DIR (root_bytes files) M eq_refl Hmod ltac:(rewrite Hpad; unfold MAXFILE, BSIZE in *; lia)) as M1.
  fold n in M1. set (st1 := with_dinode _ _ st) in M1. change (<[0%nat := _]> (image_files files)) with (finished_files files) in M1.
  pose proof (dk_free _ (md_ok _ _ M1)) as Hfb. change nmeta with 59 in Hfb.
  destruct (marked_spec (Z.to_nat st1.(mk_freeblock))) as [Hml Hmb]; [unfold BPB, BSIZE, FSSIZE in *; lia|].
  exists (with_block 58 (marked (Z.to_nat st1.(mk_freeblock))) st1). split; [|split; [by apply bitmap_made|]].
  - rewrite (bind_run _ _ _ _ _ _ _ (rinode_run st e (inum_of 0) Hok ltac:(done))). fold (inode_of st 0). rewrite Hsz. fold n. cbv zeta.
    rewrite (xint_id n), u32_id by (unfold is_u32; lia). rewrite xint_id by (unfold is_u32; lia).
    rewrite (bind_run _ _ _ _ _ _ _ (winode_run st e (inum_of 0) _ Hok ltac:(done))). fold st1. rewrite bind_gets.
    unfold mk_balloc. rewrite (proj2 (Z.ltb_lt _ _)) by (unfold BSIZE, FSSIZE in *; lia). apply (wsect_run st1 e 58); [apply M1|done].
  - intros b Hb. change (sb_bmapstart mk_sb) with 58. rewrite blk_with by (apply M1 || done). rewrite decide_True by done.
    rewrite Hmb by (unfold FSSIZE, BPB, BSIZE in *; lia). change (mk_freeblock (with_block _ _ st1)) with (mk_freeblock st1).
    destruct (Nat.ltb_spec b (Z.to_nat (mk_freeblock st1))), (Z.ltb_spec (Z.of_nat b) (mk_freeblock st1)); (done || lia).
Qed.

(** C23: [mkfs] builds the file system it is asked for.  When the files fit ([fits]: enough inodes and blocks, none larger than a
    file can be) and the entries do not exactly fill the last block of the root directory, it ends with an image whose superblock is the layout the kernel expects; that holds exactly the root
    directory, with an entry for each file, and the files with the bytes read for them, each in its own inode and blocks;
    and whose bitmap marks exactly the blocks in use.  When the entries do fill it, as with thirty files, the root directory
    is given a size one block beyond its data, see [root_past_end]. *)
Theorem mkfs_correct files e :
  fits files → Z.of_nat (length (root_bytes files)) mod BSIZE ≠ 0 →
  ∃ st, mkfs_main files mk_start e = Ret tt st e ∧
    decode_sb (blk st.(mk_disk) 1) = mk_sb ∧ made st (finished_files files) ∧
    ∀ b, (b < Z.to_nat FSSIZE)%nat → bit_set (blk st.(mk_disk) mk_sb.(sb_bmapstart)) b = (Z.of_nat b <? st.(mk_freeblock)).
Proof.
  intros Hfit Hmod.
  destruct (mk_ialloc_made (with_block 1 (sb_bytes mk_sb) blank) e [] T_DIR made_start) as (st & Hr & M); [done|done|done|].
  destruct (files_run files st e Hfit M) as (st1 & st2 & st3 & Hr1 & Hr2 & Hr3 & M3).
  destruct (finish_run files st3 e Hfit M3 Hmod) as (st' & Hr' & M' & Hb).
  exists st'. split; [|split; [rewrite (md_sb _ _ M'); reflexivity|done]].
  unfold mkfs_main. rewrite bind_modify. rewrite (bind_run _ _ _ _ _ _ _ (blank_run e)).
  rewrite (bind_run _ _ _ _ _ _ _ (wsect_run blank e 1 (sb_bytes mk_sb) blank_ok ltac:(done))).
  rewrite (bind_run _ _ _ _ _ _ _ Hr). change (inum_of (length [])) with ROOTINO. change (negb (ROOTINO =? ROOTINO)) with false. cbv iota.
  rewrite (bind_run _ _ _ _ _ _ _ Hr1), (bind_run _ _ _ _ _ _ _ Hr2), (bind_run _ _ _ _ _ _ _ Hr3). exact Hr'.
Qed.

(** Thirty empty files: with the entries of [.] and [..] the directory fills its block. *)
Definition thirty : list (list Z * list (list Z)) := replicate 30 ([97], []).

(** The rounding at the end of [main] then makes the root directory one block longer than its data: its second
    block has no address. *)
Lemma root_past_end :
  match mkfs_main thirty mk_start [] with
  | Ret _ st _ => let x := dinode_in st.(mk_disk) ROOTINO in x.(i_size) = 1024 ∧ file_block (blk st.(mk_disk)) x 1 = 0
  | _ => False
  end.
Proof. vm_compute. done. Qed.

(** A file of 612 bytes with an underscore in front of its name, and an empty one. *)
Definition two_files : list (list Z * list (list Z)) :=
  [([95; 99; 97; 116], [replicate 512 7; replicate 100 8]); ([105], [])].

Lemma mkfs_correct_witness :
  ∃ st, mkfs_main two_files mk_start [] = Ret tt st [] ∧ file_in st 2 (inode_of st 1) (replicate 512 7 ++ replicate 100 8) ∧
    slice 32 6 (file_bytes (blk st.(mk_disk)) (inode_of st 0)) = [2; 0; 99; 97; 116; 0].
Proof.
  destruct (mkfs_correct two_files []) as (st & Hr & _ & M & _).
  - split; [|done| |done].
    + repeat constructor; simpl; set_solver.
    + repeat constructor; simpl; unfold MAXFILE, BSIZE; lia.
  - done.
  - exists st. split; [done|]. split; [exact (md_file _ _ M 1%nat _ eq_refl)|].
    rewrite (fi_bytes _ _ _ _ (md_file _ _ M 0%nat _ eq_refl)). reflexivity.
Defined.
