(* ===== verification/Pipe.v ===== *)
(** * Pipes (pipe.c)

    A [struct pipe] lives in a page of its own; [m_pipes] maps the address of
    the page to its fields. *)

From S2P Require Import Prelude KState Spinlock Print Mem Args Kalloc Proc.
#[local] Open Scope kernel_scope.

Definition PIPESIZE : Z := 512.

Definition getpipe (pg : Z) : K pipe := o <- gets (λ s, s.(k_mem).(m_pipes) !! pg);; deref o.
Definition setpipe (pg : Z) (p : pipe) : K unit :=
  modify (on_mem (λ m, set_m_pipes (<[pg := p]> m.(m_pipes)) m)).
Definition modpipe (pg : Z) (g : pipe → pipe) : K unit := p <- getpipe pg;; setpipe pg (g p).

Definition pipe_full (p : pipe) : bool := p.(pi_nwrite) =? u32 (p.(pi_nread) + PIPESIZE).
Definition pipe_empty (p : pipe) : bool := p.(pi_nread) =? p.(pi_nwrite).

(** [p->data[p->nwrite++ % PIPESIZE] = c]. *)
Definition push (c : Z) (p : pipe) : pipe :=
  set_pi_nwrite (u32 (p.(pi_nwrite) + 1))
    (set_pi_data (<[Z.to_nat (p.(pi_nwrite) mod PIPESIZE) := u8 c]> p.(pi_data)) p).

(** [p->data[p->nread++ % PIPESIZE]]. *)
Definition front (p : pipe) : Z := p.(pi_data) !!! Z.to_nat (p.(pi_nread) mod PIPESIZE).
Definition pop (p : pipe) : pipe := set_pi_nread (u32 (p.(pi_nread) + 1)) p.

(** The fields [pipealloc] sets; the data are not initialised, and never read
    before they are written. *)
Definition new_pipe : pipe :=
  {| pi_data := replicate (Z.to_nat PIPESIZE) 0; pi_nread := 0; pi_nwrite := 0;
     pi_readopen := 1; pi_writeopen := 1 |}.

Definition pipeclose (pg : Z) (writable : Z) : K unit :=
  acquire (Lpipe pg);;
  (if truthy writable then
     modpipe pg (set_pi_writeopen 0);; wakeup (ChPipeR pg)
   else
     modpipe pg (set_pi_readopen 0);; wakeup (ChPipeW pg));;
  p <- getpipe pg;;
  if (p.(pi_readopen) =? 0) && (p.(pi_writeopen) =? 0) then
    release (Lpipe pg);;
    modify (on_mem (λ m, set_m_pipes (delete pg m.(m_pipes)) m));;
    kfree pg
  else release (Lpipe pg).

Definition killed : K bool := i <- curproc;; p <- getp i;; ret (truthy p.(p_killed)).

(** Wait for room; [true] when the write is to be given up. *)
Definition pipe_wait_room (pg : Z) : K bool :=
  r <- while_sleep (p <- getpipe pg;; ret (pipe_full p))
         (p <- getpipe pg;; k <- killed;;
          if (p.(pi_readopen) =? 0) || k then ret (Some tt) else
          wakeup (ChPipeR pg);;
          sleep (ChPipeW pg) (Lpipe pg);;
          ret None);;
  ret (match r with Some _ => true | None => false end).

(** The loop of [pipewrite], [k] bytes to go from [addr]. *)
Fixpoint pipewrite_loop (k : nat) (pg addr : Z) : K bool :=
  match k with
  | O => ret false
  | S k' =>
      stop <- pipe_wait_room pg;;
      if stop : bool then ret true else
      c <- uload addr;;
      modpipe pg (push c);;
      pipewrite_loop k' pg (addr + 1)
  end.

Definition pipewrite (pg addr n : Z) : K Z :=
  acquire (Lpipe pg);;
  stop <- pipewrite_loop (Z.to_nat n) pg addr;;
  if stop : bool then release (Lpipe pg);; ret (-1) else
  wakeup (ChPipeR pg);;
  release (Lpipe pg);;
  ret n.

(** Wait for data or for the last writer to close; [true] when killed. *)
Definition pipe_wait_data (pg : Z) : K bool :=
  r <- while_sleep (p <- getpipe pg;; ret (pipe_empty p && truthy p.(pi_writeopen)))
         (k <- killed;;
          if k : bool then ret (Some tt) else
          sleep (ChPipeR pg) (Lpipe pg);;
          ret None);;
  ret (match r with Some _ => true | None => false end).

(** The copy loop of [piperead]; the number of bytes it copied. *)
Fixpoint piperead_loop (k : nat) (pg addr : Z) : K Z :=
  match k with
  | O => ret 0
  | S k' =>
      p <- getpipe pg;;
      if pipe_empty p then ret 0 else
      modpipe pg pop;;
      ustore addr (front p);;
      i <- piperead_loop k' pg (addr + 1);;
      ret (1 + i)
  end.

Definition piperead (pg addr n : Z) : K Z :=
  acquire (Lpipe pg);;
  k <- pipe_wait_data pg;;
  if k : bool then release (Lpipe pg);; ret (-1) else
  i <- piperead_loop (Z.to_nat n) pg addr;;
  wakeup (ChPipeW pg);;
  release (Lpipe pg);;
  ret i.

(** ** The ring buffer is a bounded queue *)

Record pipe_wf (p : pipe) : Prop := {
  pw_data : length p.(pi_data) = Z.to_nat PIPESIZE;
  pw_nread : is_u32 p.(pi_nread);
  pw_nwrite : is_u32 p.(pi_nwrite);
  pw_used : u32 (p.(pi_nwrite) - p.(pi_nread)) ≤ PIPESIZE
}.

(** The number of bytes in the pipe; the counters wrap around. *)
Definition used (p : pipe) : nat := Z.to_nat (u32 (p.(pi_nwrite) - p.(pi_nread))).

(** The bytes in the pipe, oldest first. *)
Definition slot (p : pipe) (k : nat) : Z :=
  p.(pi_data) !!! Z.to_nat ((p.(pi_nread) + Z.of_nat k) mod PIPESIZE).

Definition queue (p : pipe) : list Z := slot p <$> seq 0 (used p).

Lemma u32_mod_512 x : u32 x mod 512 = x mod 512.
Proof. unfold u32. symmetry. apply Znumtheory.Zmod_div_mod; [lia|lia|]. by exists 8388608. Qed.

Lemma length_queue p : length (queue p) = used p.
Proof. unfold queue. by rewrite length_fmap, length_seq. Qed.

Lemma pipe_full_used p : pipe_wf p → pipe_full p = true ↔ used p = Z.to_nat PIPESIZE.
Proof.
  intros [_ Hr Hw Hu]. unfold pipe_full, used, PIPESIZE, is_u32, u32 in *. rewrite Z.eqb_eq.
  split; intros H.
  - rewrite H, Zminus_mod_idemp_l. replace (pi_nread p + 512 - pi_nread p) with 512 by lia. done.
  - assert ((pi_nwrite p - pi_nread p) mod 4294967296 = 512) as H' by lia. clear H.
    Z.div_mod_to_equations. lia.
Qed.

Lemma pipe_empty_used p : pipe_wf p → pipe_empty p = true ↔ used p = 0%nat.
Proof.
  intros [_ Hr Hw Hu]. unfold pipe_empty, used, PIPESIZE, is_u32, u32 in *. rewrite Z.eqb_eq.
  split; intros H.
  - rewrite H, Z.sub_diag. done.
  - pose proof (Z.mod_pos_bound (pi_nwrite p - pi_nread p) 4294967296).
    assert ((pi_nwrite p - pi_nread p) mod 4294967296 = 0) as H' by lia. clear H.
    Z.div_mod_to_equations. lia.
Qed.

Lemma used_push c p : pipe_wf p → pipe_full p = false → used (push c p) = S (used p).
Proof.
  intros Hwf Hf. assert (used p ≠ Z.to_nat PIPESIZE) as Hne.
  { intros H. apply (pipe_full_used p Hwf) in H. congruence. }
  destruct Hwf as [_ Hr Hw Hu]. unfold used, PIPESIZE, push in *. simpl.
  rewrite u32_sub_l. replace (pi_nwrite p + 1 - pi_nread p) with ((pi_nwrite p - pi_nread p) + 1) by lia.
  rewrite <- (u32_add_l (_ - _)), (u32_id (u32 _ + 1)); pose proof (u32_range (pi_nwrite p - pi_nread p));
    unfold is_u32 in *; lia.
Qed.

Lemma used_pop p : pipe_wf p → pipe_empty p = false → used p = S (used (pop p)).
Proof.
  intros Hwf He. assert (used p ≠ 0%nat) as Hne.
  { intros H. apply (pipe_empty_used p Hwf) in H. congruence. }
  destruct Hwf as [_ Hr Hw Hu]. unfold used, PIPESIZE, pop in *. simpl.
  rewrite u32_sub_r. replace (pi_nwrite p - (pi_nread p + 1)) with ((pi_nwrite p - pi_nread p) - 1) by lia.
  rewrite <- (u32_sub_l (_ - _)), (u32_id (u32 _ - 1)); pose proof (u32_range (pi_nwrite p - pi_nread p));
    unfold is_u32 in *; lia.
Qed.

Lemma push_wf c p : pipe_wf p → pipe_full p = false → pipe_wf (push c p).
Proof.
  intros Hwf Hf. pose proof (used_push c p Hwf Hf) as Hu. pose proof (pipe_full_used p Hwf) as Hfu.
  assert (used p ≠ Z.to_nat PIPESIZE) as Hne by (rewrite <- Hfu, Hf; done).
  destruct Hwf as [Hd Hr Hw Hle]. split; simpl; [by rewrite length_insert|done|apply u32_range|].
  unfold used, PIPESIZE, push in *. simpl in *. pose proof (u32_range (u32 (pi_nwrite p + 1) - pi_nread p)).
  unfold is_u32 in *. lia.
Qed.

Lemma pop_wf p : pipe_wf p → pipe_empty p = false → pipe_wf (pop p).
Proof.
  intros Hwf He. pose proof (used_pop p Hwf He) as Hu. destruct Hwf as [Hd Hr Hw Hle].
  split; simpl; [done|apply u32_range|done|].
  unfold used, PIPESIZE, pop in *. simpl in *. pose proof (u32_range (pi_nwrite p - u32 (pi_nread p + 1))).
  unfold is_u32 in *. lia.
Qed.

Lemma queue_push c p : pipe_wf p → pipe_full p = false → queue (push c p) = queue p ++ [u8 c].
Proof.
  intros Hwf Hf. unfold queue. rewrite used_push, seq_S, fmap_app by done. simpl.
  assert (used p < 512)%nat as Hlt.
  { pose proof (pipe_full_used p Hwf) as Hfu. pose proof (pw_used p Hwf) as Hle.
    assert (used p ≠ Z.to_nat PIPESIZE) as Hne by (rewrite <- Hfu, Hf; done).
    unfold used, PIPESIZE in *. lia. }
  assert (pi_nwrite p mod PIPESIZE = (pi_nread p + Z.of_nat (used p)) mod PIPESIZE) as Hslot.
  { unfold used. rewrite Z2Nat.id by apply u32_range. unfold PIPESIZE.
    rewrite <- Z.add_mod_idemp_r, u32_mod_512, Z.add_mod_idemp_r by lia. f_equal. lia. }
  destruct Hwf as [Hd _ _ _]. f_equal.
  - apply list_fmap_ext. intros m k Hk. apply lookup_seq in Hk as [-> Hk]. unfold slot, push. simpl.
    rewrite list_lookup_total_insert_ne; [done|]. rewrite Hslot. unfold PIPESIZE in *.
    intros Heq. apply Z2Nat.inj in Heq; [|apply Z.mod_pos_bound; lia..].
    Z.div_mod_to_equations. lia.
  - unfold slot, push. simpl. rewrite <- Hslot. rewrite list_lookup_total_insert_eq; [done|].
    rewrite Hd. pose proof (Z.mod_pos_bound (pi_nwrite p) 512). unfold PIPESIZE. lia.
Qed.

Lemma queue_pop p : pipe_wf p → pipe_empty p = false → queue p = front p :: queue (pop p).
Proof.
  intros Hwf He. unfold queue. rewrite (used_pop p) by done. simpl. f_equal.
  - unfold slot, front. do 3 f_equal. lia.
  - rewrite <- fmap_S_seq, <- list_fmap_compose. apply list_fmap_ext. intros _ k _. unfold slot, pop. simpl.
    do 2 f_equal. unfold PIPESIZE. rewrite <- (u32_mod_512 (_ + Z.of_nat k)), u32_add_l, u32_mod_512. f_equal. lia.
Qed.

(** ** pipewrite and piperead *)

Definition pushes (bs : list Z) (p : pipe) : pipe := foldl (λ p c, push c p) p bs.
Definition pops (k : nat) (p : pipe) : pipe := Nat.iter k pop p.

Definition with_pipe (pg : Z) (p : pipe) (s : kstate) : kstate :=
  on_mem (λ m, set_m_pipes (<[pg := p]> m.(m_pipes)) m) s.

Lemma pushes_wf bs p :
  pipe_wf p → (used p + length bs ≤ 512)%nat →
  pipe_wf (pushes bs p) ∧ queue (pushes bs p) = queue p ++ (u8 <$> bs).
Proof.
  revert p. induction bs as [|b bs IH]; intros p Hwf Hle; simpl in *; [by rewrite app_nil_r|].
  assert (pipe_full p = false) as Hf.
  { destruct (pipe_full p) eqn:E; [|done]. apply (pipe_full_used p Hwf) in E. unfold PIPESIZE in E. lia. }
  destruct (IH (push b p)) as [H1 H2]; [by apply push_wf|rewrite used_push by done; lia|].
  split; [done|]. rewrite H2, queue_push by done. by rewrite <- app_assoc.
Qed.

Lemma pops_wf k p :
  pipe_wf p → (k ≤ used p)%nat → pipe_wf (pops k p) ∧ queue (pops k p) = drop k (queue p).
Proof.
  revert p. induction k as [|k IH]; intros p Hwf Hle; [done|]. unfold pops. rewrite Nat.iter_succ_r.
  assert (pipe_empty p = false) as He.
  { destruct (pipe_empty p) eqn:E; [|done]. apply (pipe_empty_used p Hwf) in E. lia. }
  pose proof (used_pop p Hwf He). destruct (IH (pop p)) as [H1 H2]; [by apply pop_wf|lia|].
  split; [done|]. fold (pops k (pop p)). rewrite H2. by rewrite (queue_pop p).
Qed.

Lemma getpipe_run s pg p e : s.(k_mem).(m_pipes) !! pg = Some p → getpipe pg s e = Ret p s e.
Proof. intros H. unfold getpipe. rewrite bind_gets. by rewrite H. Qed.

Lemma modpipe_run s pg p g e :
  s.(k_mem).(m_pipes) !! pg = Some p → modpipe pg g s e = Ret tt (with_pipe pg (g p) s) e.
Proof. intros H. unfold modpipe. by mstep (getpipe_run s pg p e H). Qed.

Lemma with_pipe_lookup pg p s : (with_pipe pg p s).(k_mem).(m_pipes) !! pg = Some p.
Proof. simpl. apply lookup_insert_eq. Qed.

Lemma with_pipe_twice pg p p' s : with_pipe pg p (with_pipe pg p' s) = with_pipe pg p s.
Proof. unfold with_pipe, on_mem. simpl. by rewrite insert_insert_eq. Qed.

Lemma with_pipe_id pg p s : s.(k_mem).(m_pipes) !! pg = Some p → with_pipe pg p s = s.
Proof. intros H. unfold with_pipe, on_mem. cbv beta. rewrite insert_id by done. done. Qed.

(** Neither wait sleeps when there is something to do. *)
Lemma pipe_wait_room_run s pg p e :
  s.(k_mem).(m_pipes) !! pg = Some p → pipe_full p = false → pipe_wait_room pg s e = Ret false s e.
Proof.
  intros Hp Hf. unfold pipe_wait_room.
  erewrite bind_run; [|apply while_sleep_false; mstep (getpipe_run s pg p e Hp); by rewrite Hf]. done.
Qed.

Lemma pipe_wait_data_run s pg p e :
  s.(k_mem).(m_pipes) !! pg = Some p → pipe_empty p && truthy p.(pi_writeopen) = false →
  pipe_wait_data pg s e = Ret false s e.
Proof.
  intros Hp Hf. unfold pipe_wait_data.
  erewrite bind_run; [|apply while_sleep_false; mstep (getpipe_run s pg p e Hp); by rewrite Hf]. done.
Qed.

(** The [n] bytes of mapped user memory from [va]. *)
Definition user_bytes (s : kstate) (va : Z) (n : nat) : list Z :=
  (λ i, ubyte s (va + Z.of_nat i)) <$> seq 0 n.

Lemma user_bytes_S s va n : user_bytes s va (S n) = ubyte s va :: user_bytes s (va + 1) n.
Proof.
  unfold user_bytes. cbn [seq fmap list_fmap]. f_equal; [f_equal; lia|].
  rewrite <- fmap_S_seq, <- list_fmap_compose. apply list_fmap_ext. intros _ i _. simpl. f_equal. lia.
Qed.

Lemma pipewrite_loop_run k pg addr s p e lo hi :
  s.(k_mem).(m_pipes) !! pg = Some p → pipe_wf p → (used p + k ≤ 512)%nat →
  mapped s lo hi → lo ≤ addr → addr + Z.of_nat k ≤ hi →
  pipewrite_loop k pg addr s e = Ret false (with_pipe pg (pushes (user_bytes s addr k) p) s) e.
Proof.
  revert addr s p. induction k as [|k IH]; intros addr s p Hp Hwf Hroom Hm Hlo Hhi.
  { cbn. unfold ret. by rewrite with_pipe_id. }
  assert (pipe_full p = false) as Hf.
  { destruct (pipe_full p) eqn:E; [|done]. apply (pipe_full_used p Hwf) in E. unfold PIPESIZE in E. lia. }
  cbn [pipewrite_loop]. mstep (pipe_wait_room_run s pg p e Hp Hf).
  mcall (uload_run s e lo hi). mstep (modpipe_run s pg p _ e Hp).
  rewrite (IH (addr + 1) _ (push (ubyte s addr) p));
    [|apply with_pipe_lookup|by apply push_wf|rewrite used_push by done; lia|exact Hm|lia|lia].
  rewrite with_pipe_twice, user_bytes_S. done.
Qed.

Lemma piperead_loop_run k pg addr s p e s1 :
  s.(k_mem).(m_pipes) !! pg = Some p → pipe_wf p →
  let j := Nat.min k (used p) in
  ustore_bytes addr (take j (queue p)) s e = Ret tt s1 e →
  piperead_loop k pg addr s e = Ret (Z.of_nat j) (with_pipe pg (pops j p) s1) e.
Proof.
  revert addr s p s1. induction k as [|k IH]; intros addr s p s1 Hp Hwf j Hst; cbn [piperead_loop].
  { inversion Hst; subst. by rewrite with_pipe_id. }
  mstep (getpipe_run s pg p e Hp). destruct (pipe_empty p) eqn:He.
  { apply (pipe_empty_used p Hwf) in He. unfold j in *. rewrite He, Nat.min_0_r in *. inversion Hst; subst.
    unfold ret. by rewrite with_pipe_id. }
  pose proof (used_pop p Hwf He) as Hu. unfold j in *. rewrite Hu in *. rewrite <- Nat.succ_min_distr in *.
  rewrite (queue_pop p) in Hst by done. cbn in Hst. apply bind_inv in Hst as ([] & s2 & e2 & H1 & H2).
  apply ustore_inv in H1 as (m1 & -> & -> & Hp1). apply ustore_bytes_inv in H2 as (m2 & -> & _ & Hp2).
  mstep (modpipe_run s pg p pop e Hp).
  mstep (Hp1 (with_pipe pg (pop p) s) eq_refl eq_refl).
  set (s2 := on_mem (set_m_byte m1) (with_pipe pg (pop p) s)).
  mstep (IH (addr + 1) s2 (pop p) _ (with_pipe_lookup _ _ _) (pop_wf p Hwf He) (Hp2 s2 eq_refl eq_refl)).
  unfold ret. unfold pops. rewrite Nat.iter_succ_r. f_equal; [lia|].
  unfold with_pipe, on_mem, s2. simpl. by rewrite insert_insert_eq.
Qed.

(** A pipe whose locks are free. *)
Record pipe_ready (s : kstate) (pg : Z) (p : pipe) : Prop := {
  pr_pipe : s.(k_mem).(m_pipes) !! pg = Some p;
  pr_wf : pipe_wf p;
  pr_cpu : cpu_wf s.(k_cpu);
  pr_free : s.(k_spin) !! Lpipe pg = None;
  pr_ptable : s.(k_spin) !! Lptable = None
}.

(** The end of both calls: wake the other side, release the lock. *)
Lemma pipe_finish {A} ch pg s s1 (r : A) e :
  cpu_wf s.(k_cpu) → s.(k_spin) !! Lpipe pg = None → s.(k_spin) !! Lptable = None →
  s1.(k_cpu) = cpu_push s.(k_cpu) → s1.(k_spin) = <[Lpipe pg := s.(k_cpu).(c_id)]> s.(k_spin) →
  (wakeup ch;; release (Lpipe pg);; ret r) s1 e =
    Ret r (unlocked s (on_pt (wake_all (Some ch)) s1)) e.
Proof.
  intros Hwf Hfree Hpt Hc Hs.
  assert (pt_idle s1) as Hidle.
  { split; [rewrite Hc; by apply cpu_push_wf|]. rewrite Hs. by rewrite lookup_insert_ne. }
  mstep (wakeup_run ch s1 e Hidle). unfold pt_updated.
  erewrite bind_run; [|apply (release_run (Lpipe pg) s); [done|done| |done]].
  - done.
  - simpl. rewrite Hc. by apply cpu_bracket_push.
Qed.

(** *** A write that does not fit *)

Lemma pipewrite_loop_app k m pg addr s s1 e e1 :
  pipewrite_loop k pg addr s e = Ret false s1 e1 →
  pipewrite_loop (k + m) pg addr s e = pipewrite_loop m pg (addr + Z.of_nat k) s1 e1.
Proof.
  revert addr s e. induction k as [|k IH]; intros addr s e; cbn [pipewrite_loop Nat.add].
  { intros [= -> ->]. by rewrite Z.add_0_r. }
  intros ([] & s2 & e2 & H1 & H2)%bind_inv; [discriminate|]. mstep H1.
  apply bind_inv in H2 as (c & s3 & e3 & H2 & H3). mstep H2. apply bind_inv in H3 as ([] & s4 & e4 & H3 & H4). mstep H3.
  rewrite (IH _ _ _ H4). f_equal. lia.
Qed.

Lemma acquire_env lk s e s' e' : acquire lk s e = Ret tt s' e' → e' = e.
Proof.
  unfold acquire, holding. mstep (pushcli_run s e). rewrite bind_gets. destruct (bool_decide _); [done|].
  rewrite bind_gets. destruct (k_spin _ !! lk); [done|]. by intros [= _ <-].
Qed.

Lemma while_sleep_true {R} cond (body : K (option R)) s e :
  cond s e = Ret true s e →
  while_sleep cond body s e =
    (r <- body;; match r with Some v => ret (Some v) | None => while_ret (length e) cond body end) s e.
Proof. intros H. unfold while_sleep. cbn [while_ret]. by mstep H. Qed.

(** A full pipe and nobody to read from it, or a killed writer. *)
Lemma pipe_wait_room_stops s pg p i q e :
  s.(k_mem).(m_pipes) !! pg = Some p → pipe_full p = true → running s i q →
  p.(pi_readopen) = 0 ∨ q.(p_killed) ≠ 0 → pipe_wait_room pg s e = Ret true s e.
Proof.
  intros Hp Hf Hr Hend. unfold pipe_wait_room.
  assert ((p.(pi_readopen) =? 0) || truthy q.(p_killed) = true) as Hb.
  { destruct Hend as [->|Hk]; [done|]. unfold truthy. by rewrite (proj2 (Z.eqb_neq _ _) Hk), orb_true_r. }
  unfold bind at 1. rewrite (while_sleep_true _ _ s) by (mstep (getpipe_run s pg p e Hp); by rewrite Hf).
  rewrite bind_assoc. mstep (getpipe_run s pg p e Hp). unfold killed. rewrite !bind_assoc.
  mstep (curproc_run s i q e Hr). rewrite bind_assoc. mstep (getp_run s i q e (proj2 Hr)). by rewrite bind_ret_l, Hb.
Qed.

(** The state in which a writer leaves the CPU: readers are awake. *)
Definition writer_asleep (pg : Z) (i : nat) (q : proc) (s : kstate) : kstate :=
  slept (ChPipeW pg) (Lpipe pg) i (wake_one (Some (ChPipeR pg)) q) (pt_updated (wake_all (Some (ChPipeR pg))) s).

(** A full pipe with readers: the writer wakes them and sleeps, and looks
    again when it gets the CPU and the lock back. *)
Section full.
Context (s : kstate) (pg : Z) (p : pipe) (i : nat) (q : proc).
Hypothesis Hp : s.(k_mem).(m_pipes) !! pg = Some p.
Hypothesis Hfull : pipe_full p = true.
Hypothesis Hr : running s i q.
Hypothesis Hopen : p.(pi_readopen) ≠ 0.
Hypothesis Hkill : q.(p_killed) = 0.
Hypothesis Hh : holds_only (Lpipe pg) s.
Hypothesis Hpt : s.(k_spin) !! Lptable = None.

#[local] Notation s1 := (pt_updated (wake_all (Some (ChPipeR pg))) s).

Lemma woken_running : running s1 i (wake_one (Some (ChPipeR pg)) q).
Proof. destruct Hr as [Hc Hl]. split; [done|]. simpl. by rewrite list_lookup_fmap, Hl. Qed.

Lemma woken_holds : holds_only (Lpipe pg) s1.
Proof.
  destruct Hh as (H1 & H2 & H3). by split_and!.
Qed.

Lemma pipe_wait_room_body e :
  (p <- getpipe pg;; k <- killed;;
   if (p.(pi_readopen) =? 0) || k then ret (Some tt) else
   wakeup (ChPipeR pg);; sleep (ChPipeW pg) (Lpipe pg);; ret None) s e =
  (sleep (ChPipeW pg) (Lpipe pg);; ret (None : option unit)) s1 e.
Proof.
  mstep (getpipe_run s pg p e Hp). unfold killed. rewrite !bind_assoc. mstep (curproc_run s i q e Hr).
  rewrite bind_assoc. mstep (getp_run s i q e (proj2 Hr)). rewrite bind_ret_l, Hkill, (proj2 (Z.eqb_neq _ _) Hopen).
  destruct Hh as (_ & Hn & Hif). cbn [orb truthy Z.eqb negb].
  assert (pt_idle s) as Hidle by (split; [split; [lia|done]|done]). by mstep (wakeup_run (ChPipeR pg) s e Hidle).
Qed.

Lemma pipe_wait_room_sleeps : pipe_wait_room pg s [] = Switched (writer_asleep pg i q s).
Proof.
  unfold pipe_wait_room, bind at 1. rewrite (while_sleep_true _ _ s) by (mstep (getpipe_run s pg p [] Hp); by rewrite Hfull).
  unfold bind at 1. rewrite pipe_wait_room_body. unfold bind at 1.
  by rewrite (sleep_switched _ _ _ i (wake_one (Some (ChPipeR pg)) q) woken_holds woken_running (λ _, Hpt)).
Qed.

Lemma pipe_wait_room_resumes f e j r :
  let s2 := f (writer_asleep pg i q s) in holds_only Lptable s2 → running s2 j r →
  pipe_wait_room pg s (f :: e) = (acquire (Lpipe pg);; pipe_wait_room pg) (back j r s.(k_cpu).(c_intena) s2) e.
Proof.
  intros s2 Hh2 Hr2. assert (Lpipe pg ≠ Lptable) as Hne by done. unfold pipe_wait_room at 1, bind at 1.
  rewrite (while_sleep_true _ _ s) by (mstep (getpipe_run s pg p (f :: e) Hp); by rewrite Hfull).
  unfold bind at 1. rewrite pipe_wait_room_body. unfold bind at 1.
  rewrite (sleep_resumes _ _ _ i (wake_one (Some (ChPipeR pg)) q) f e j r woken_holds woken_running Hne Hpt Hh2 Hr2).
  destruct Hh as (_ & Hn & _). replace (c_intena (k_cpu s1)) with (c_intena (k_cpu s)) by (simpl; unfold cpu_bracket; by rewrite Hn).
  fold s2. unfold bind. destruct (acquire _ _ _) as [[] s4 e4| | | |] eqn:E; [|done..].
  by rewrite (acquire_env _ _ _ _ _ E).
Qed.

End full.

(** [s1] is [s] with the writer [i] asleep until there is room: the pipe is
    [p] and its lock free, every reader that slept is runnable. *)
Record waits_for_room (pg : Z) (i : nat) (q : proc) (p : pipe) (s s1 : kstate) : Prop := {
  wr_mem : s1.(k_mem) = (with_pipe pg p s).(k_mem);
  wr_spin : s1.(k_spin) = <[Lptable := s.(k_cpu).(c_id)]> s.(k_spin);
  wr_proc : s1.(k_pt).(pt_proc) =
    <[i := set_p_state SLEEPING (set_p_chan (Some (ChPipeW pg)) (wake_one (Some (ChPipeR pg)) q))]>
      (wake_one (Some (ChPipeR pg)) <$> s.(k_pt).(pt_proc));
  wr_rest : s1.(k_fs) = s.(k_fs) ∧ s1.(k_io) = s.(k_io) ∧ s1.(k_slk) = s.(k_slk)
}.

Lemma writer_waits pg i q p s :
  s.(k_spin) !! Lpipe pg = None →
  waits_for_room pg i q p s (writer_asleep pg i q (with_pipe pg p (locked (Lpipe pg) s))).
Proof. intros Hfree. split; [done| |done|done]. simpl. by rewrite delete_insert_id. Qed.

Lemma pushes_ends bs p :
  (pushes bs p).(pi_readopen) = p.(pi_readopen) ∧ (pushes bs p).(pi_writeopen) = p.(pi_writeopen).
Proof. revert p. induction bs as [|b bs IH]; intros p; [done|]. apply (IH (push b p)). Qed.

Lemma bind_same {A B} (m m' : K A) (g : A → K B) s e s' e' : m s e = m' s' e' → bind m g s e = bind m' g s' e'.
Proof. unfold bind. by intros ->. Qed.

Section write.
Context (s : kstate) (pg : Z) (p : pipe) (addr n : Z).
Hypothesis Hready : pipe_ready s pg p.
Hypothesis Hn : 0 ≤ n.
Hypothesis Hm : mapped s addr (addr + n).

(** The bytes that fit, and the pipe with them. *)
#[local] Notation k := (Z.min n (PIPESIZE - Z.of_nat (used p))).
#[local] Notation p' := (pushes (user_bytes s addr (Z.to_nat k)) p).
#[local] Notation s0 := (locked (Lpipe pg) s).

Lemma room_bound : 0 ≤ k ∧ Z.of_nat (used p) + k ≤ 512.
Proof. pose proof (pw_used _ (pr_wf _ _ _ Hready)). unfold used, PIPESIZE in *. lia. Qed.

Lemma room_wf : pipe_wf p' ∧ queue p' = queue p ++ (u8 <$> user_bytes s addr (Z.to_nat k)).
Proof.
  pose proof room_bound. apply pushes_wf; [apply Hready|]. unfold user_bytes. rewrite length_fmap, length_seq. lia.
Qed.

Lemma room_fills : k < n → pipe_full p' = true.
Proof.
  intros Hlt. destruct room_wf as [Hwf Hq]. apply (pipe_full_used _ Hwf). rewrite <- length_queue, Hq, length_app, length_queue.
  unfold user_bytes. rewrite !length_fmap, length_seq. pose proof room_bound. unfold PIPESIZE in *. lia.
Qed.

Lemma room_loop m e :
  pipewrite_loop (Z.to_nat k + m) pg addr s0 e = pipewrite_loop m pg (addr + k) (with_pipe pg p' s0) e.
Proof.
  pose proof room_bound as Hb. rewrite (pipewrite_loop_app _ _ _ _ _ (with_pipe pg p' s0) e e); [by rewrite Z2Nat.id by lia|].
  apply (pipewrite_loop_run _ pg addr s0 p e addr (addr + n)); [apply Hready|apply Hready|lia|exact Hm|lia|lia].
Qed.

Lemma pipewrite_fits e :
  k = n → pipewrite pg addr n s e = Ret n (pt_updated (wake_all (Some (ChPipeR pg))) (with_pipe pg p' s)) e.
Proof.
  intros Hk. unfold pipewrite. mstep (acquire_run (Lpipe pg) s e (pr_free _ _ _ Hready)).
  pose proof (room_loop 0 e) as Hl. rewrite Nat.add_0_r, Hk in Hl. mstep Hl. rewrite Hk. destruct Hready as [_ _ Hc Hf Hpt].
  by rewrite (pipe_finish _ pg s).
Qed.

(** The call up to the byte that does not fit. *)
Lemma pipewrite_rest e :
  k < n → ∃ m, Z.to_nat (n - k) = S m ∧
    pipewrite pg addr n s e =
      (stop <- (stop <- pipe_wait_room pg;;
                if stop : bool then ret true else
                c <- uload (addr + k);; modpipe pg (push c);; pipewrite_loop m pg (addr + k + 1));;
       if stop : bool then release (Lpipe pg);; ret (-1) else
       wakeup (ChPipeR pg);; release (Lpipe pg);; ret n) (with_pipe pg p' s0) e.
Proof.
  intros Hlt. pose proof room_bound as Hb. exists (Z.to_nat (n - k - 1)). split; [lia|]. unfold pipewrite.
  mstep (acquire_run (Lpipe pg) s e (pr_free _ _ _ Hready)). unfold bind at 1.
  replace (Z.to_nat n) with (Z.to_nat k + S (Z.to_nat (n - k - 1)))%nat by lia. rewrite room_loop. done.
Qed.

Context (i : nat) (q : proc).
Hypothesis Hr : running s i q.
Hypothesis Hcli : s.(k_cpu).(c_ncli) = 0.

Lemma pipewrite_gives_up e :
  k < n → p.(pi_readopen) = 0 ∨ q.(p_killed) ≠ 0 →
  pipewrite pg addr n s e = Ret (-1) (on_cpu cpu_bracket (with_pipe pg p' s)) e.
Proof.
  intros Hlt Hend. destruct (pipewrite_rest e Hlt) as (m & _ & ->). rewrite bind_assoc.
  mstep (pipe_wait_room_stops (with_pipe pg p' s0) pg p' i q e (with_pipe_lookup _ _ _) (room_fills Hlt) Hr
           ltac:(by rewrite (proj1 (pushes_ends _ _)))).
  rewrite bind_ret_l. destruct Hready as [_ _ Hc Hf _]. by erewrite bind_run by (by apply (release_run (Lpipe pg) s)).
Qed.

Lemma pipewrite_waits :
  k < n → p.(pi_readopen) ≠ 0 → q.(p_killed) = 0 →
  let s1 := writer_asleep pg i q (with_pipe pg p' s0) in
  pipewrite pg addr n s [] = Switched s1 ∧
  ∀ f e j r, holds_only Lptable (f s1) → running (f s1) j r →
    pipewrite pg addr n s (f :: e) =
      (v <- pipewrite pg (addr + k) (n - k);; ret (if v =? -1 then -1 else n))
        (back j r (cpu_push s.(k_cpu)).(c_intena) (f s1)) e.
Proof.
  intros Hlt Hopen Hkill s1. destruct Hready as [_ _ Hc Hf Hpt].
  assert (holds_only (Lpipe pg) (with_pipe pg p' s0)) as Hh.
  { split_and!; simpl; [by rewrite lookup_insert_eq|lia|done]. }
  assert ((with_pipe pg p' s0).(k_spin) !! Lptable = None) as Hpt0 by (simpl; by rewrite lookup_insert_ne).
  assert (pi_readopen p' ≠ 0) as Ho by (by rewrite (proj1 (pushes_ends _ _))).
  split.
  - destruct (pipewrite_rest [] Hlt) as (m & _ & ->). rewrite bind_assoc. unfold bind at 1.
    by rewrite (pipe_wait_room_sleeps (with_pipe pg p' s0) pg p' i q (with_pipe_lookup _ _ _) (room_fills Hlt) Hr Ho Hkill Hh Hpt0).
  - intros f e j r Hh1 Hr1. destruct (pipewrite_rest (f :: e) Hlt) as (m & Hm1 & ->). rewrite bind_assoc.
    rewrite (bind_same _ _ _ _ _ _ _ (pipe_wait_room_resumes (with_pipe pg p' s0) pg p' i q
      (with_pipe_lookup _ _ _) (room_fills Hlt) Hr Ho Hkill Hh Hpt0 f e j r Hh1 Hr1)).
    fold s1. unfold pipewrite. rewrite Hm1. cbn [pipewrite_loop]. change (k_cpu (with_pipe pg p' s0)) with (cpu_push (k_cpu s)).
    rewrite !bind_assoc. apply bind_ext. intros _ s2 e2. rewrite !bind_assoc. apply bind_ext. intros stop s3 e3.
    apply bind_ext. intros [] s4 e4; rewrite ?bind_assoc; apply bind_ext; [done|]. intros _ s5 e5. rewrite ?bind_assoc.
    apply bind_ext. intros _ s6 e6. rewrite bind_ret_l. by rewrite (proj2 (Z.eqb_neq (n - k) (-1))) by lia.
Qed.

End write.

(** C39: [pipewrite], on every branch, for a process that runs in a system call.  The bytes of the caller's buffer go to the end
    of the queue in order, as many as fit in the 512 bytes of the pipe (the counters may wrap around 2^32).  If that is all of
    them, the readers are woken and the result is [n].  If it is not, and no reader has the pipe open or the caller is killed, the
    result is -1: the bytes that fitted stay in the pipe.  Otherwise the readers are woken and the caller sleeps until there is
    room, with the pipe's lock released; when it gets the CPU back, in whatever state, the call goes on as [pipewrite] of the bytes
    that are left, and its result is [n] unless that fails. *)
Theorem pipewrite_correct s pg p i q addr n :
  pipe_ready s pg p → running s i q → s.(k_cpu).(c_ncli) = 0 → 0 ≤ n → mapped s addr (addr + n) →
  let k := Z.min n (PIPESIZE - Z.of_nat (used p)) in
  ∃ p', queue p' = queue p ++ (u8 <$> user_bytes s addr (Z.to_nat k)) ∧ pipe_wf p' ∧
    p'.(pi_readopen) = p.(pi_readopen) ∧ p'.(pi_writeopen) = p.(pi_writeopen) ∧
    (k = n → ∀ e, pipewrite pg addr n s e = Ret n (pt_updated (wake_all (Some (ChPipeR pg))) (with_pipe pg p' s)) e) ∧
    (k < n → p.(pi_readopen) = 0 ∨ q.(p_killed) ≠ 0 →
       ∀ e, pipewrite pg addr n s e = Ret (-1) (on_cpu cpu_bracket (with_pipe pg p' s)) e) ∧
    (k < n → p.(pi_readopen) ≠ 0 → q.(p_killed) = 0 →
       ∃ s1, pipewrite pg addr n s [] = Switched s1 ∧ waits_for_room pg i q p' s s1 ∧
         ∀ f e j r, holds_only Lptable (f s1) → running (f s1) j r →
           pipewrite pg addr n s (f :: e) =
             (v <- pipewrite pg (addr + k) (n - k);; ret (if v =? -1 then -1 else n))
               (back j r (cpu_push s.(k_cpu)).(c_intena) (f s1)) e).
Proof.
  intros Hready Hr Hcli Hn Hm k. destruct (room_wf s pg p addr n Hready Hn) as [Hwf Hq].
  destruct (pushes_ends (user_bytes s addr (Z.to_nat k)) p) as [Ho Hw]. fold k in Hwf, Hq.
  exists (pushes (user_bytes s addr (Z.to_nat k)) p). split_and!; try done.
  - intros Hk e. by apply pipewrite_fits.
  - intros Hk Hend e. by apply (pipewrite_gives_up s pg p addr n Hready Hn Hm i q).
  - intros Hk Hopen Hkill. destruct (pipewrite_waits s pg p addr n Hready Hn Hm i q Hr Hcli Hk Hopen Hkill) as [H1 H2].
    eexists. split_and!; [exact H1|apply writer_waits, Hready|exact H2].
Qed.

(** C40: [piperead] takes from the front.  When there are bytes, or no writer
    is left, the call does not sleep: it stores the oldest bytes, as many as
    asked for and available, in order in the caller's buffer, removes exactly
    those from the queue, wakes the writers and returns their number (0 at
    end of file). *)
Theorem piperead_takes s pg p addr n e s1 :
  pipe_ready s pg p → 0 ≤ n → queue p ≠ [] ∨ p.(pi_writeopen) = 0 →
  let k := Nat.min (Z.to_nat n) (used p) in
  ustore_bytes addr (take k (queue p)) s e = Ret tt s1 e →
  ∃ p', queue p' = drop k (queue p) ∧ pipe_wf p' ∧
        piperead pg addr n s e =
          Ret (Z.of_nat k) (pt_updated (wake_all (Some (ChPipeW pg))) (with_pipe pg p' s1)) e.
Proof.
  intros [Hp Hwf Hcpu Hfree Hpt] Hn Hne k Hst.
  destruct (pops_wf k p Hwf) as [Hwf' Hq]; [unfold k; lia|].
  exists (pops k p). split; [done|]. split; [done|].
  unfold piperead. mstep (acquire_run (Lpipe pg) s e Hfree).
  assert (pipe_empty p && truthy p.(pi_writeopen) = false) as Hw.
  { destruct Hne as [Hq0|Hw0]; [|by rewrite Hw0, andb_false_r].
    destruct (pipe_empty p) eqn:E; [|done]. apply (pipe_empty_used p Hwf) in E.
    rewrite <- length_queue in E. by apply length_zero_iff_nil in E. }
  mstep (pipe_wait_data_run (locked (Lpipe pg) s) pg p e Hp Hw). cbv beta iota.
  apply ustore_bytes_inv in Hst as (m & -> & _ & Hst).
  mstep (piperead_loop_run (Z.to_nat n) pg addr (locked (Lpipe pg) s) p e _ Hp Hwf
           (Hst (locked (Lpipe pg) s) eq_refl eq_refl)).
  fold k. by rewrite (pipe_finish _ pg s).
Qed.

(** ** Examples *)

(** A pipe with three bytes whose counters are about to wrap around. *)
Definition wrap_pipe : pipe :=
  {| pi_data := <[510%nat := 97]> (<[511%nat := 98]> (<[0%nat := 99]> (replicate 512 0)));
     pi_nread := 4294967294; pi_nwrite := 1; pi_readopen := 1; pi_writeopen := 1 |}.

Definition pipe_page : Z := KERNBASE + 4194304.

Definition pipe_state : kstate := with_pipe pipe_page wrap_pipe (user_state [1684234849]).

Lemma wrap_pipe_wf : pipe_wf wrap_pipe.
Proof. split; [reflexivity|unfold is_u32; simpl; lia|unfold is_u32; simpl; lia|vm_compute; discriminate]. Qed.

Lemma pipe_state_ready : pipe_ready pipe_state pipe_page wrap_pipe.
Proof.
  split; [apply with_pipe_lookup|exact wrap_pipe_wf|split; [by vm_compute|done]|by vm_compute|by vm_compute].
Qed.

(** A full pipe. *)
Definition full_pipe : pipe :=
  {| pi_data := replicate 512 7; pi_nread := 4294967040; pi_nwrite := 256; pi_readopen := 1; pi_writeopen := 1 |}.

Definition full_state : kstate := with_pipe pipe_page full_pipe (user_state [1684234849]).

Lemma pipewrite_correct_witness :
  (∃ p', queue p' = str "abcabcd" ∧
         pipewrite pipe_page 4 4 pipe_state [] =
           Ret 4 (pt_updated (wake_all (Some (ChPipeR pipe_page))) (with_pipe pipe_page p' pipe_state)) []) ∧
  ∃ s1, pipewrite pipe_page 4 4 full_state [] = Switched s1.
Proof.
  assert (∀ p, mapped (with_pipe pipe_page p (user_state [1684234849])) 4 (4 + 4)) as Hm
    by (intros p va Hva; apply (user_mapped [1684234849]); [simpl; lia|lia]).
  split.
  - destruct (pipewrite_correct pipe_state pipe_page wrap_pipe 0 user_proc 4 4 pipe_state_ready (user_running _) eq_refl ltac:(lia) (Hm _))
      as (p' & Hq & _ & _ & _ & Hfits & _).
    exists p'. split; [rewrite Hq; vm_compute; reflexivity|]. apply Hfits. vm_compute. reflexivity.
  - assert (pipe_ready full_state pipe_page full_pipe) as Hready.
    { split; [apply with_pipe_lookup| |split; [by vm_compute|done]|by vm_compute|by vm_compute].
      split; [reflexivity|unfold is_u32; simpl; lia|unfold is_u32; simpl; lia|vm_compute; discriminate]. }
    destruct (pipewrite_correct full_state pipe_page full_pipe 0 user_proc 4 4 Hready (user_running _) eq_refl ltac:(lia) (Hm _))
      as (p' & _ & _ & _ & _ & _ & _ & Hwait).
    destruct Hwait as (s1 & Hs & _); [vm_compute; reflexivity|discriminate|reflexivity|]. by exists s1.
Defined.

Lemma piperead_takes_witness :
  ∃ p' s', queue p' = str "c" ∧ piperead pipe_page 100 2 pipe_state [] = Ret 2 s' [].
Proof.
  destruct (piperead_takes pipe_state pipe_page wrap_pipe 100 2 [] (on_mem (set_m_byte
    (store_bytes (KERNBASE + 2105445) [98] (store_bytes (KERNBASE + 2105444) [97] (user_mem [1684234849])))) pipe_state))
    as (p' & Hq & _ & Hr).
  - exact pipe_state_ready.
  - lia.
  - left. vm_compute. discriminate.
  - reflexivity.
  - exists p'. eexists. split; [rewrite Hq; vm_compute; reflexivity|exact Hr].
Defined.
