(* ===== verification/File.v ===== *)
(** * Open files (file.c, and pipealloc of pipe.c) *)

From S2P Require Import Prelude KState Spinlock Print Mem Args Kalloc Proc Sleeplock Bio Log Inode Console CString Fs Pipe.
#[local] Open Scope kernel_scope.

Definition getf (f : nat) : K file := o <- gets (λ s, s.(k_fs).(fs_files) !! f);; deref o.
Definition setf (f : nat) (x : file) : K unit :=
  modify (on_fs (λ fs, set_fs_files (<[f := x]> fs.(fs_files)) fs)).
Definition modf (f : nat) (g : file → file) : K unit := x <- getf f;; setf f (g x).

Definition fileinit : K unit := initlock Lftable.

Definition filealloc : K (option nat) :=
  acquire Lftable;;
  o <- gets (λ s, fst <$> list_find (λ x, x.(f_ref) = 0) s.(k_fs).(fs_files));;
  match o with
  | Some f => modf f (set_f_ref 1);; release Lftable;; ret (Some f)
  | None => release Lftable;; ret None
  end.

Definition filedup (f : nat) : K nat :=
  acquire Lftable;;
  x <- getf f;;
  if x.(f_ref) <? 1 then panic "filedup" else
  setf f (set_f_ref (x.(f_ref) + 1) x);;
  release Lftable;;
  ret f.

Definition fileclose (f : nat) : K unit :=
  acquire Lftable;;
  x <- getf f;;
  if x.(f_ref) <? 1 then panic "fileclose" else
  let ff := set_f_ref (x.(f_ref) - 1) x in
  setf f ff;;
  if 0 <? ff.(f_ref) then release Lftable else
  modf f (λ x, set_f_type FD_NONE (set_f_ref 0 x));;
  release Lftable;;
  match ff.(f_type) with
  | FD_PIPE => pipeclose ff.(f_pipe) ff.(f_writable)
  | FD_INODE =>
      begin_op;;
      ip <- deref ff.(f_ip);;
      iput ip;;
      end_op
  | FD_NONE => ret tt
  end.

(** [struct stat] in user memory: 20 bytes, the fields at 0, 4, 8, 12, 16. *)
Definition put_stat (va : Z) (st : stat) : K unit :=
  ustore_bytes (va + 4) (le_bytes 4 st.(st_dev));;
  ustore_bytes (va + 8) (le_bytes 4 st.(st_ino));;
  ustore_bytes va (le_bytes 2 st.(st_type));;
  ustore_bytes (va + 12) (le_bytes 2 st.(st_nlink));;
  ustore_bytes (va + 16) (le_bytes 4 st.(st_size)).

Definition filestat (f : nat) (va : Z) : K Z :=
  x <- getf f;;
  match x.(f_type) with
  | FD_INODE =>
      ilock x.(f_ip);;
      ip <- deref x.(f_ip);;
      st <- stati ip;;
      put_stat va st;;
      iunlock x.(f_ip);;
      ret 0
  | _ => ret (-1)
  end.

Definition fileread (f : nat) (addr n : Z) : K Z :=
  x <- getf f;;
  if x.(f_readable) =? 0 then ret (-1) else
  match x.(f_type) with
  | FD_PIPE => piperead x.(f_pipe) addr n
  | FD_INODE =>
      ilock x.(f_ip);;
      ip <- deref x.(f_ip);;
      x <- getf f;;
      r <- readi ip (ToUser addr) x.(f_off) (u32 n);;
      (if 0 <? fst r then modf f (λ x, set_f_off (u32 (x.(f_off) + fst r)) x) else ret tt);;
      iunlock x.(f_ip);;
      ret (fst r)
  | FD_NONE => panic "fileread"
  end.

(** The bytes [filewrite] writes per transaction. *)
Definition write_max : Z := (LOGSIZE - 1 - 1 - 2) / 2 * 512.

(** The loop of [filewrite] from byte [i]; the value of [i] at its end. *)
Fixpoint filewrite_loop (fuel : nat) (f : nat) (addr i n : Z) : K Z :=
  match fuel with
  | O => fault "fuel"
  | S fuel' =>
      if negb (i <? n) then ret i else
      let n1 := if write_max <? n - i then write_max else n - i in
      x <- getf f;;
      begin_op;;
      ilock x.(f_ip);;
      ip <- deref x.(f_ip);;
      x <- getf f;;
      r <- writei ip (FromUser (addr + i)) x.(f_off) n1;;
      (if 0 <? r then modf f (λ x, set_f_off (u32 (x.(f_off) + r)) x) else ret tt);;
      iunlock x.(f_ip);;
      end_op;;
      if r <? 0 then ret i else
      if negb (r =? n1) then panic "short filewrite" else
      filewrite_loop fuel' f addr (i + r) n
  end.

(** Every iteration but the last writes [write_max] bytes. *)
Definition filewrite (f : nat) (addr n : Z) : K Z :=
  x <- getf f;;
  if x.(f_writable) =? 0 then ret (-1) else
  match x.(f_type) with
  | FD_PIPE => pipewrite x.(f_pipe) addr n
  | FD_INODE =>
      i <- filewrite_loop (Z.to_nat (Z.max 0 n / write_max + 3)) f addr 0 n;;
      ret (if i =? n then n else -1)
  | FD_NONE => panic "filewrite"
  end.

(** ** pipealloc *)

(** The label [bad]: undo what was allocated. *)
Definition pipealloc_bad (pg : Z) (f0 f1 : option nat) : K (option (nat * nat)) :=
  (if truthy pg then kfree pg else ret tt);;
  (match f0 with Some f => fileclose f | None => ret tt end);;
  (match f1 with Some f => fileclose f | None => ret tt end);;
  ret None.

(** The read end and the write end. *)
Definition pipealloc : K (option (nat * nat)) :=
  o0 <- filealloc;;
  match o0 with
  | None => pipealloc_bad 0 None None
  | Some f0 =>
      o1 <- filealloc;;
      match o1 with
      | None => pipealloc_bad 0 (Some f0) None
      | Some f1 =>
          pg <- kalloc;;
          if pg =? 0 then pipealloc_bad 0 (Some f0) (Some f1) else
          setpipe pg new_pipe;;
          initlock (Lpipe pg);;
          modf f0 (λ x, set_f_pipe pg (set_f_writable 0 (set_f_readable 1 (set_f_type FD_PIPE x))));;
          modf f1 (λ x, set_f_pipe pg (set_f_writable 1 (set_f_readable 0 (set_f_type FD_PIPE x))));;
          ret (Some (f0, f1))
      end
  end.
