(* ===== verification/ProcLife.v ===== *)
(** * Creating and ending processes (proc.c)

    [allocproc], [userinit], [growproc], [fork], [exit], [wait] and
    [forkret].  The trap frame and the context that live on the kernel stack
    are the fields [p_tf] and [p_context]. *)

From S2P Require Import Prelude KState Spinlock Print Mem Desc Args Kalloc Vm Proc Sleeplock Bio Log Inode Console CString Fs Pipe File.
#[local] Open Scope kernel_scope.

Definition pinit : K unit := initlock Lptable.

Definition modpt (g : ptstate → ptstate) : K unit := modify (on_pt g).

(** The memory of a new trap frame is not initialised: [p_tf] keeps what the
    slot held. *)
Definition allocproc : K (option nat) :=
  acquire Lptable;;
  o <- gets (λ s, pfind (λ p, bool_decide (p.(p_state) = UNUSED)) s.(k_pt).(pt_proc));;
  match o with
  | None => release Lptable;; ret None
  | Some i =>
      pid <- gets (λ s, s.(k_pt).(pt_nextpid));;
      modp i (λ p, set_p_straced T_UNSTRACE (set_p_pid pid (set_p_state EMBRYO p)));;
      modpt (set_pt_nextpid (s32 (pid + 1)));;
      release Lptable;;
      modp i (λ p, set_p_original_priority (-1) (set_p_priority 3 (set_p_nice 3 p)));;
      kstack <- kalloc;;
      modp i (set_p_kstack kstack);;
      if kstack =? 0 then modp i (set_p_state UNUSED);; ret None else
      eip <- gets (λ s, s.(k_mem).(m_forkret));;
      modp i (set_p_context (set_cx_eip eip zero_context));;
      ret (Some i)
  end.

(** The trap frame of the first process. *)
Definition init_tf : trapframe :=
  let ds := Z.lor (Z.shiftl SEG_UDATA 3) DPL_USER in
  set_tf_eip 0 (set_tf_esp PGSIZE (set_tf_eflags FL_IF (set_tf_ss ds (set_tf_es ds (set_tf_ds ds
    (set_tf_cs (Z.lor (Z.shiftl SEG_UCODE 3) DPL_USER) zero_tf)))))).

(** [initcode] is the image between the linker's _binary_initcode symbols. *)
Definition userinit (initcode : list Z) : K unit :=
  o <- allocproc;;
  modpt (set_pt_initproc o);;
  i <- deref o;;
  pgdir <- setupkvm;;
  modp i (set_p_pgdir pgdir);;
  if pgdir =? 0 then panic "userinit: out of memory?" else
  inituvm pgdir initcode;;
  modp i (set_p_sz PGSIZE);;
  modp i (set_p_tf init_tf);;
  modp i (λ p, set_p_name (safestrcpy p.(p_name) (str "initcode") 16) p);;
  cwd <- namei (str "/");;
  modp i (set_p_cwd cwd);;
  acquire Lptable;;
  modp i (set_p_state RUNNABLE);;
  release Lptable.

Definition growproc (n : Z) : K Z :=
  i <- curproc;; p <- getp i;;
  sz <- (if 0 <? n then allocuvm p.(p_pgdir) p.(p_sz) (u32 (p.(p_sz) + n))
         else if n <? 0 then deallocuvm p.(p_pgdir) p.(p_sz) (u32 (p.(p_sz) + n))
         else ret p.(p_sz));;
  if negb (n =? 0) && (sz =? 0) then ret (-1) else
  modp i (set_p_sz sz);;
  p <- getp i;;
  switchuvm p p;;
  ret 0.

(** [proc->ofile[k]]. *)
Definition ofile (p : proc) (k : nat) : option nat := default None (p.(p_ofile) !! k).
Definition set_ofile (k : nat) (f : option nat) (p : proc) : proc :=
  set_p_ofile (<[k := f]> p.(p_ofile)) p.

(** [fork] once the address space is copied: the child's fields, its files and
    its directory, and the state RUNNABLE last. *)
Definition fork_fill (i np : nat) : K Z :=
  p <- getp i;;
  modp np (λ q, set_p_tf (set_tf_eax 0 p.(p_tf)) (set_p_parent (Some i) (set_p_sz p.(p_sz)
    (set_p_straced (if truthy (Z.land p.(p_straced) T_FORK) then p.(p_straced) else T_UNSTRACE) q))));;
  for_each (seq 0 NOFILE) (λ k,
    match ofile p k with
    | Some f => f' <- filedup f;; modp np (set_ofile k (Some f'))
    | None => ret tt
    end);;
  c <- deref p.(p_cwd);;
  cwd <- idup c;;
  modp np (set_p_cwd (Some cwd));;
  modp np (λ q, set_p_name (safestrcpy q.(p_name) p.(p_name) 16) q);;
  q <- getp np;;
  let pid := q.(p_pid) in
  acquire Lptable;;
  modp np (set_p_state RUNNABLE);;
  release Lptable;;
  ret pid.

Definition fork : K Z :=
  i <- curproc;;
  o <- allocproc;;
  match o with
  | None => ret (-1)
  | Some np =>
      p <- getp i;;
      pgdir <- copyuvm p.(p_pgdir) p.(p_sz);;
      modp np (set_p_pgdir pgdir);;
      if pgdir =? 0 then
        q <- getp np;;
        kfree q.(p_kstack);;
        modp np (λ q, set_p_state UNUSED (set_p_kstack 0 q));;
        ret (-1)
      else fork_fill i np
  end.

(** The children of [i] go to init. *)
Definition reparent (i : nat) : K unit :=
  init <- gets (λ s, s.(k_pt).(pt_initproc));;
  for_each (seq 0 NPROC) (λ j,
    q <- getp j;;
    if bool_decide (q.(p_parent) = Some i) then
      modp j (set_p_parent init);;
      if bool_decide (q.(p_state) = ZOMBIE) then wakeup1 (ChProc <$> init) else ret tt
    else ret tt).

Definition exit : K Z :=
  o <- proc_var;;
  init <- gets (λ s, s.(k_pt).(pt_initproc));;
  if bool_decide (o = init) then panic "init exiting" else
  i <- deref o;;
  for_each (seq 0 NOFILE) (λ fd,
    p <- getp i;;
    match ofile p fd with
    | Some f => fileclose f;; modp i (set_ofile fd None)
    | None => ret tt
    end);;
  begin_op;;
  p <- getp i;;
  c <- deref p.(p_cwd);;
  iput c;;
  end_op;;
  modp i (set_p_cwd None);;
  acquire Lptable;;
  p <- getp i;;
  wakeup1 (ChProc <$> p.(p_parent));;
  reparent i;;
  modp i (set_p_state ZOMBIE);;
  sched;;
  panic "zombie exit".

Definition is_child (i : nat) (p : proc) : bool := bool_decide (p.(p_parent) = Some i).
Definition is_zombie_child (i : nat) (p : proc) : bool :=
  is_child i p && bool_decide (p.(p_state) = ZOMBIE).

(** Free the slot of a zombie; its pid. *)
Definition reap (j : nat) : K Z :=
  q <- getp j;;
  kfree q.(p_kstack);;
  modp j (set_p_kstack 0);;
  freevm q.(p_pgdir);;
  modp j (λ q, set_p_state UNUSED (set_p_killed 0 (set_p_name (<[0%nat := 0]> q.(p_name))
           (set_p_parent None (set_p_pid 0 q)))));;
  ret q.(p_pid).

(** The loop of [wait]: every round that does not return sleeps. *)
Fixpoint wait_loop (fuel : nat) (i : nat) : K Z :=
  match fuel with
  | O => fault "fuel"
  | S fuel' =>
      ps <- gets (λ s, s.(k_pt).(pt_proc));;
      match pfind (is_zombie_child i) ps with
      | Some j =>
          pid <- reap j;;
          release Lptable;;
          ret pid
      | None =>
          p <- getp i;;
          if negb (existsb (is_child i) ps) || truthy p.(p_killed) then release Lptable;; ret (-1) else
          sleep (ChProc i) Lptable;;
          wait_loop fuel' i
      end
  end.

Definition wait : K Z :=
  i <- curproc;;
  acquire Lptable;;
  λ s e, wait_loop (S (length e)) i s e.

(** Runs in a new process when it is first scheduled. *)
Definition forkret : K unit :=
  release Lptable;;
  first <- gets (λ s, s.(k_pt).(pt_first));;
  if truthy first then
    modpt (set_pt_first 0);;
    iinit ROOTDEV;;
    initlog ROOTDEV
  else ret tt.
