(* ===== verification/Fork.v ===== *)
(** * fork (proc.c: allocproc, fork)

    [fork] composes the process table, the allocator, the copy of the address
    space, the file table and the inode cache.  This file follows one call
    through all of them: what the child is, what the parent keeps, and what a
    failure leaves behind. *)

From S2P Require Import Prelude KState Spinlock Print Mem Args Kalloc Vm AddrSpace UserSpace UserCopy Proc Inode CString Fs File ProcLife.
#[local] Open Scope kernel_scope.

(** ** Calls that leave the locks as they were *)

Record quiet (s s' : kstate) : Prop := {
  qt_spin : s'.(k_spin) = s.(k_spin);
  qt_cpu : s'.(k_cpu) = s.(k_cpu) ∨ s'.(k_cpu) = cpu_bracket s.(k_cpu);
  qt_slk : s'.(k_slk) = s.(k_slk);
  qt_tr : s'.(k_tr) = s.(k_tr)
}.

Lemma quiet_refl s : quiet s s.
Proof. split; try done. by left. Qed.

Lemma quiet_trans s s1 s2 : quiet s s1 → quiet s1 s2 → quiet s s2.
Proof.
  intros [A1 A2 A3 A4] [B1 B2 B3 B4]. split; [congruence| |congruence|congruence].
  destruct B2 as [->| ->]; [done|]. right. destruct A2 as [->| ->]; [done|apply cpu_bracket_idemp].
Qed.

Lemma quiet_vm s s' : vm_same s s' → quiet s s' ∧ s'.(k_pt) = s.(k_pt) ∧ s'.(k_fs) = s.(k_fs).
Proof. intros [(b & f & c & io & ->) [Hc _]]. split; [|done]. by split. Qed.

Lemma quiet_putp s i p : quiet s (putp i p s).
Proof. split; try done. by left. Qed.

Lemma quiet_wf s s' : quiet s s' → cpu_wf s.(k_cpu) → cpu_wf s'.(k_cpu).
Proof. intros Q H. destruct (qt_cpu _ _ Q) as [->| ->]; [done|by apply cpu_bracket_wf]. Qed.

Lemma quiet_free lk s s' : quiet s s' → s.(k_spin) !! lk = None → s'.(k_spin) !! lk = None.
Proof. intros Q. by rewrite (qt_spin _ _ Q). Qed.

Lemma quiet_proc s s' : quiet s s' → s'.(k_cpu).(c_proc) = s.(k_cpu).(c_proc).
Proof. intros Q. by destruct (qt_cpu _ _ Q) as [->| ->]. Qed.

(** The address space is a matter of memory and of kmem.lock. *)
Lemma uspace_mem s s' pd free us : kmem_idle s' → s'.(k_mem) = s.(k_mem) → uspace s pd free us → uspace s' pd free us.
Proof. intros Hi Hm [U1 U2 U3 U4 U5 U6 U7 U8]. split; [done|by rewrite ?Hm..]. Qed.

Lemma uspace_quiet s s' pd free us : quiet s s' → s'.(k_mem) = s.(k_mem) → uspace s pd free us → uspace s' pd free us.
Proof.
  intros Q Hm U. eapply uspace_mem; [|done|done]. destruct (us_idle _ _ _ _ U) as [I1 I2].
  split; [by eapply quiet_wf|by eapply quiet_free].
Qed.

(** ** The new slot *)

(** The slot [q] as [allocproc] hands it out. *)
Definition embryo (pid kstack eip : Z) (q : proc) : proc :=
  set_p_context (set_cx_eip eip zero_context) (set_p_kstack kstack (set_p_original_priority (-1) (set_p_priority 3 (set_p_nice 3
    (set_p_straced T_UNSTRACE (set_p_pid pid (set_p_state EMBRYO q))))))).

(** The slot when no page was free for the stack. *)
Definition stillborn (pid : Z) (q : proc) : proc :=
  set_p_state UNUSED (set_p_kstack 0 (set_p_original_priority (-1) (set_p_priority 3 (set_p_nice 3
    (set_p_straced T_UNSTRACE (set_p_pid pid (set_p_state EMBRYO q))))))).

Definition unused (p : proc) : bool := bool_decide (p.(p_state) = UNUSED).

(** The table with the next pid taken and slot [np] filled. *)
Definition numbered (np : nat) (q : proc) (pt : ptstate) : ptstate :=
  set_pt_nextpid (s32 (pt.(pt_nextpid) + 1)) (set_pt_proc (<[np := q]> pt.(pt_proc)) pt).

Lemma allocproc_full s e : pt_idle s → pfind unused s.(k_pt).(pt_proc) = None → allocproc s e = Ret None (pt_updated id s) e.
Proof.
  intros [Hwf Hl] Hn. unfold allocproc. mstep (acquire_run Lptable s e Hl). rewrite bind_gets. simpl. fold unused. rewrite Hn.
  by mcall (release_run Lptable s).
Qed.

Lemma insert_table np p q (ps : list proc) : <[np := p]> (<[np := q]> ps) = <[np := p]> ps.
Proof. apply list_insert_insert_eq. Qed.

(** [allocproc] up to the allocation of the stack. *)
Lemma allocproc_slot s e np q :
  pt_idle s → pfind unused s.(k_pt).(pt_proc) = Some np → s.(k_pt).(pt_proc) !! np = Some q →
  ∃ s1, quiet s s1 ∧ s1.(k_mem) = s.(k_mem) ∧ s1.(k_fs) = s.(k_fs) ∧ s1.(k_io) = s.(k_io) ∧
    s1.(k_pt) = numbered np (set_p_original_priority (-1) (set_p_priority 3 (set_p_nice 3
      (set_p_straced T_UNSTRACE (set_p_pid s.(k_pt).(pt_nextpid) (set_p_state EMBRYO q)))))) s.(k_pt) ∧
    allocproc s e = (kstack <- kalloc;;
      modp np (set_p_kstack kstack);;
      if kstack =? 0 then modp np (set_p_state UNUSED);; ret None else
      eip <- gets (λ s, s.(k_mem).(m_forkret));;
      modp np (set_p_context (set_cx_eip eip zero_context));;
      ret (Some np)) s1 e.
Proof.
  intros [Hwf Hl] Hf Hq. pose proof (lookup_lt_Some _ _ _ Hq) as Hlt.
  set (q1 := set_p_straced T_UNSTRACE (set_p_pid s.(k_pt).(pt_nextpid) (set_p_state EMBRYO q))).
  set (s1 := unlocked s (on_pt (set_pt_nextpid (s32 (s.(k_pt).(pt_nextpid) + 1))) (putp np q1 (locked Lptable s)))).
  assert (s1.(k_pt).(pt_proc) !! np = Some q1) as Hq1 by (by apply list_lookup_insert_eq).
  exists (putp np (set_p_original_priority (-1) (set_p_priority 3 (set_p_nice 3 q1))) s1).
  split; [|do 3 (split; [done|]); split].
  - split; [done|by right|done|done].
  - unfold numbered, putp. simpl. by rewrite insert_table.
  - unfold allocproc. mstep (acquire_run Lptable s e Hl). rewrite bind_gets. simpl. fold unused. rewrite Hf. rewrite bind_gets. simpl.
    mstep (modp_run (locked Lptable s) np q (λ p, set_p_straced T_UNSTRACE (set_p_pid s.(k_pt).(pt_nextpid) (set_p_state EMBRYO p))) e Hq). fold q1. unfold modpt. rewrite bind_modify.
    mcall (release_run Lptable s). fold s1. by mstep (modp_run s1 np q1 (λ p, set_p_original_priority (-1) (set_p_priority 3 (set_p_nice 3 p))) e Hq1).
Qed.

Lemma numbered_lookup np q pt : (np < length pt.(pt_proc))%nat → (numbered np q pt).(pt_proc) !! np = Some q.
Proof. intros H. simpl. by apply list_lookup_insert_eq. Qed.

Lemma numbered_again np q q' pt : set_pt_proc (<[np := q']> (numbered np q pt).(pt_proc)) (numbered np q pt) = numbered np q' pt.
Proof. unfold numbered. simpl. by rewrite insert_table. Qed.

(** A slot and a page for its kernel stack. *)
Lemma allocproc_some s e np q a free :
  pt_idle s → kmem_idle s → kmem_free s.(k_mem) (a :: free) → pfind unused s.(k_pt).(pt_proc) = Some np → s.(k_pt).(pt_proc) !! np = Some q →
  ∃ s', allocproc s e = Ret (Some np) s' e ∧ quiet s s' ∧ s'.(k_mem) = set_m_freelist (load32 s.(k_mem).(m_byte) a) s.(k_mem) ∧ kmem_free s'.(k_mem) free ∧ s'.(k_fs) = s.(k_fs) ∧ s'.(k_io) = s.(k_io) ∧
    s'.(k_pt) = numbered np (embryo s.(k_pt).(pt_nextpid) a s.(k_mem).(m_forkret) q) s.(k_pt).
Proof.
  intros Hpt Hi Hf Hslot Hq. pose proof (lookup_lt_Some _ _ _ Hq) as Hlt.
  destruct (allocproc_slot s e np q Hpt Hslot Hq) as (s1 & Q1 & M1 & F1 & I1 & P1 & Hr). set (q1 := set_p_original_priority _ _) in P1.
  assert (kmem_idle s1) as Hi1 by (split; [by eapply quiet_wf; [|apply Hi]|by eapply quiet_free; [|apply Hi]]).
  rewrite <- M1 in Hf. destruct (kalloc_pop a free s1 e Hi1 Hf) as (Hk & Hf1 & Ha & Hnin & Ha0). set (s2 := alloced _ s1) in *.
  assert (s2.(k_pt).(pt_proc) !! np = Some q1) as Hq2 by (change (k_pt s2) with (k_pt s1); rewrite P1; by apply numbered_lookup).
  set (s3 := putp np (set_p_kstack a q1) s2).
  assert (s3.(k_pt).(pt_proc) !! np = Some (set_p_kstack a q1)) as Hq3 by (apply list_lookup_insert_eq; by eapply lookup_lt_Some).
  eexists (putp np _ s3). split; [|split; [|split; [|split; [|split; [|split]]]]].
  - rewrite Hr. mstep Hk. mstep (modp_run s2 np q1 (set_p_kstack a) e Hq2). fold s3. rewrite (proj2 (Z.eqb_neq a 0) Ha0). rewrite bind_gets.
    by mstep (modp_run s3 np _ (set_p_context (set_cx_eip s3.(k_mem).(m_forkret) zero_context)) e Hq3).
  - eapply quiet_trans; [exact Q1|]. split; [done| |done|done]. change (k_cpu (putp np _ s3)) with (kmem_cpu s1). unfold kmem_cpu. destruct (truthy _); [by right|by left].
  - change (k_mem (putp np _ s3)) with (set_m_freelist (load32 s1.(k_mem).(m_byte) a) (k_mem s1)). by rewrite M1.
  - exact Hf1.
  - exact F1.
  - exact I1.
  - unfold putp, s3, s2. simpl. rewrite P1. unfold numbered. simpl. rewrite !insert_table. by rewrite M1.
Qed.

Lemma allocproc_nomem s e np q :
  pt_idle s → kmem_idle s → kmem_free s.(k_mem) [] → pfind unused s.(k_pt).(pt_proc) = Some np → s.(k_pt).(pt_proc) !! np = Some q →
  ∃ s', allocproc s e = Ret None s' e ∧ quiet s s' ∧ s'.(k_mem) = set_m_freelist 0 s.(k_mem) ∧ s'.(k_fs) = s.(k_fs) ∧ s'.(k_io) = s.(k_io) ∧
    s'.(k_pt) = numbered np (stillborn s.(k_pt).(pt_nextpid) q) s.(k_pt).
Proof.
  intros Hpt Hi Hf Hslot Hq. pose proof (lookup_lt_Some _ _ _ Hq) as Hlt.
  destruct (allocproc_slot s e np q Hpt Hslot Hq) as (s1 & Q1 & M1 & F1 & I1 & P1 & Hr). set (q1 := set_p_original_priority _ _) in P1.
  assert (kmem_idle s1) as Hi1 by (split; [by eapply quiet_wf; [|apply Hi]|by eapply quiet_free; [|apply Hi]]).
  rewrite <- M1 in Hf. destruct (kalloc_empty s1 e Hi1 Hf) as [Hk Hf1]. set (s2 := alloced _ s1) in *.
  assert (s2.(k_pt).(pt_proc) !! np = Some q1) as Hq2 by (change (k_pt s2) with (k_pt s1); rewrite P1; by apply numbered_lookup).
  set (s3 := putp np (set_p_kstack 0 q1) s2).
  assert (s3.(k_pt).(pt_proc) !! np = Some (set_p_kstack 0 q1)) as Hq3 by (apply list_lookup_insert_eq; by eapply lookup_lt_Some).
  eexists (putp np _ s3). split; [|split; [|split; [|split; [|split]]]].
  - rewrite Hr. mstep Hk. mstep (modp_run s2 np q1 (set_p_kstack 0) e Hq2). fold s3. rewrite Z.eqb_refl.
    by mstep (modp_run s3 np _ (set_p_state UNUSED) e Hq3).
  - eapply quiet_trans; [exact Q1|]. split; [done| |done|done]. change (k_cpu (putp np _ s3)) with (kmem_cpu s1). unfold kmem_cpu. destruct (truthy _); [by right|by left].
  - change (k_mem (putp np _ s3)) with (set_m_freelist 0 (k_mem s1)). by rewrite M1.
  - exact F1.
  - exact I1.
  - unfold putp, s3, s2. simpl. rewrite P1. unfold numbered. simpl. by rewrite !insert_table.
Qed.

(** ** The open files *)

(** References to the file [f] among the descriptors [ks] of [p]. *)
Definition refs_to (p : proc) (f : nat) (ks : list nat) : Z :=
  Z.of_nat (length (filter (λ k, ofile p k = Some f) ks)).

Lemma filedup_run s e f x :
  cpu_wf s.(k_cpu) → s.(k_spin) !! Lftable = None → s.(k_fs).(fs_files) !! f = Some x → 1 ≤ x.(f_ref) →
  filedup f s e = Ret f (unlocked s (on_fs (λ fs, set_fs_files (<[f := set_f_ref (x.(f_ref) + 1) x]> fs.(fs_files)) fs) (locked Lftable s))) e.
Proof.
  intros Hwf Hl Hf Hx. unfold filedup. mstep (acquire_run Lftable s e Hl). unfold getf. rewrite bind_assoc, bind_gets. simpl. rewrite Hf. cbn [deref].
  rewrite bind_ret_l. rewrite (proj2 (Z.ltb_ge _ _)) by lia. unfold setf. rewrite bind_modify. by mcall (release_run Lftable s).
Qed.

(** The descriptors [ks] are copied, and every file has as many more references. *)
Lemma fork_files p np ks : ∀ s e q,
  cpu_wf s.(k_cpu) → s.(k_spin) !! Lftable = None → s.(k_pt).(pt_proc) !! np = Some q →
  (∀ k f, k ∈ ks → ofile p k = Some f → ∃ x, s.(k_fs).(fs_files) !! f = Some x ∧ 1 ≤ x.(f_ref)) →
  NoDup ks → (∀ k, k ∈ ks → (k < length q.(p_ofile))%nat) →
  ∃ s' fl ofs, for_each ks (λ k, match ofile p k with Some f => f' <- filedup f;; modp np (set_ofile k (Some f')) | None => ret tt end) s e = Ret tt s' e ∧
    quiet s s' ∧ s'.(k_mem) = s.(k_mem) ∧ s'.(k_io) = s.(k_io) ∧ s'.(k_fs) = set_fs_files fl s.(k_fs) ∧
    s'.(k_pt) = set_pt_proc (<[np := set_p_ofile ofs q]> s.(k_pt).(pt_proc)) s.(k_pt) ∧
    length ofs = length q.(p_ofile) ∧
    (∀ k, ofs !! k = if decide (k ∈ ks ∧ is_Some (ofile p k)) then Some (ofile p k) else q.(p_ofile) !! k) ∧
    ∀ f, fl !! f = (λ x, set_f_ref (x.(f_ref) + refs_to p f ks) x) <$> s.(k_fs).(fs_files) !! f.
Proof.
  induction ks as [|k ks IH]; intros s e q Hwf Hl Hq Hrefs Hnd Hlen.
  - exists s, s.(k_fs).(fs_files), q.(p_ofile). split; [done|]. split; [apply quiet_refl|]. do 2 (split; [done|]). split; [by destruct s as [? ? ? ? ? [] ? ?]|].
    split; [destruct q; by rewrite list_insert_id by done; destruct s as [? ? ? [] ? ? ? ?]|]. split; [done|]. split.
    + intros k. rewrite decide_False; [done|]. intros [Hno _]. by apply elem_of_nil in Hno.
    + intros f. unfold refs_to. simpl. destruct (_ !! f) as [[]|]; simpl; [by rewrite Z.add_0_r|done].
  - apply NoDup_cons in Hnd as [Hk Hnd]. cbn [for_each]. destruct (ofile p k) as [f|] eqn:Ef.
    + destruct (Hrefs k f) as (x & Hx & Hx1); [by left|done|]. rewrite bind_assoc. mstep (filedup_run s e f x Hwf Hl Hx Hx1). set (s1 := unlocked _ _).
      mstep (modp_run s1 np q (set_ofile k (Some f)) e Hq). set (s2 := putp np _ s1).
      assert (quiet s s2) as Q2 by (split; [done|by right|done|done]).
      pose proof (lookup_lt_Some _ _ _ Hx) as Hflt.
      destruct (IH s2 e (set_ofile k (Some f) q)) as (s' & fl & ofs & Hr & Q & M & I & F & P & Hlo & Ho & Hfl).
      * done.
      * done.
      * apply list_lookup_insert_eq. by eapply lookup_lt_Some.
      * intros k' f' Hk' Hf'. destruct (Hrefs k' f') as (x' & Hx' & Hx1'); [by right|done|]. change (fs_files (k_fs s2)) with (<[f := set_f_ref (x.(f_ref) + 1) x]> s.(k_fs).(fs_files)).
        destruct (decide (f = f')) as [<-|Hne]; [|exists x'; by rewrite list_lookup_insert_ne].
        exists (set_f_ref (x.(f_ref) + 1) x). rewrite list_lookup_insert_eq by done. split; [done|]. simpl. lia.
      * done.
      * intros k' Hk'. simpl. rewrite length_insert. apply Hlen. by right.
      * exists s', fl, ofs. split; [done|]. split; [by eapply quiet_trans|]. split; [done|]. split; [done|]. split; [by rewrite F|].
        split; [|split; [by rewrite Hlo; simpl; rewrite length_insert|split]].
        -- rewrite P. unfold s2, putp. simpl. by rewrite insert_table.
        -- intros k'. rewrite Ho. simpl. destruct (decide (k' = k)) as [->|Hne].
           ++ rewrite decide_False by tauto. rewrite decide_True by (split; [by left|rewrite Ef; by eexists]). rewrite Ef.
              apply list_lookup_insert_eq. apply Hlen. by left.
           ++ rewrite list_lookup_insert_ne by done. apply decide_ext. rewrite elem_of_cons. tauto.
        -- intros f'. rewrite Hfl. change (fs_files (k_fs s2)) with (<[f := set_f_ref (x.(f_ref) + 1) x]> s.(k_fs).(fs_files)). unfold refs_to. rewrite filter_cons.
           destruct (decide (f = f')) as [<-|Hne].
           ++ rewrite list_lookup_insert_eq by done. rewrite Hx, decide_True by done. cbn [fmap option_fmap option_map]. f_equal. unfold set_f_ref. cbn [f_ref f_type f_readable f_writable f_pipe f_ip f_off length]. f_equal. lia.
           ++ rewrite list_lookup_insert_ne by done. rewrite decide_False; [done|congruence].
    + rewrite bind_ret_l. destruct (IH s e q) as (s' & fl & ofs & Hr & Q & M & I & F & P & Hlo & Ho & Hfl); try done.
      * intros k' f Hk'. apply Hrefs. by right.
      * intros k' Hk'. apply Hlen. by right.
      * exists s', fl, ofs. do 7 (split; [done|]). split.
        -- intros k'. rewrite Ho. apply decide_ext. rewrite elem_of_cons. split; [tauto|]. intros [[->|?] Hs]; [|done]. rewrite Ef in Hs. by destruct Hs.
        -- intros f. rewrite Hfl. unfold refs_to. rewrite filter_cons, decide_False; [done|]. by rewrite Ef.
Qed.

(** ** The child *)

Definition inherited_trace (p : proc) : Z := if truthy (Z.land p.(p_straced) T_FORK) then p.(p_straced) else T_UNSTRACE.

(** The slot [q] once [fork] has filled it from the parent [p] in slot [i]. *)
Definition filled (i : nat) (p : proc) (ofs : list (option nat)) (q : proc) : proc :=
  set_p_state RUNNABLE (set_p_name (safestrcpy q.(p_name) p.(p_name) 16) (set_p_cwd p.(p_cwd) (set_p_ofile ofs
    (set_p_tf (set_tf_eax 0 p.(p_tf)) (set_p_parent (Some i) (set_p_sz p.(p_sz) (set_p_straced (inherited_trace p) q))))))).

Lemma idup_run s e c x :
  cpu_wf s.(k_cpu) → s.(k_spin) !! Licache = None → s.(k_fs).(fs_inodes) !! c = Some x →
  idup c s e = Ret c (unlocked s (on_fs (λ fs, set_fs_inodes (<[c := set_i_ref (x.(i_ref) + 1) x]> fs.(fs_inodes)) fs) (locked Licache s))) e.
Proof.
  intros Hwf Hl Hx. unfold idup. mstep (acquire_run Licache s e Hl). unfold modi, geti. rewrite !bind_assoc, bind_gets. simpl. rewrite Hx. cbn [deref].
  rewrite bind_ret_l. unfold seti. rewrite bind_modify. by mcall (release_run Licache s).
Qed.

(** What [fork] needs of the files and the directory of the parent. *)
Record files_ready (s : kstate) (p : proc) : Prop := {
  fr_open : ∀ k f, ofile p k = Some f → ∃ x, s.(k_fs).(fs_files) !! f = Some x ∧ 1 ≤ x.(f_ref);
  fr_cwd : ∃ c x, p.(p_cwd) = Some c ∧ s.(k_fs).(fs_inodes) !! c = Some x;
  fr_ftable : s.(k_spin) !! Lftable = None;
  fr_icache : s.(k_spin) !! Licache = None
}.

(** The references the child adds. *)
Definition shared (p : proc) (fs fs' : fsstate) : Prop :=
  ∃ fl il, fs' = set_fs_inodes il (set_fs_files fl fs) ∧
    (∀ f, fl !! f = (λ x, set_f_ref (x.(f_ref) + refs_to p f (seq 0 NOFILE)) x) <$> fs.(fs_files) !! f) ∧
    ∀ c, il !! c = (λ x, set_i_ref (x.(i_ref) + if decide (p.(p_cwd) = Some c) then 1 else 0) x) <$> fs.(fs_inodes) !! c.

(** The last steps: the directory, the name, and RUNNABLE under ptable.lock. *)
Lemma fork_finish s e np q c name :
  pt_idle s → s.(k_pt).(pt_proc) !! np = Some q →
  ∃ s', (modp np (set_p_cwd (Some c));;
         modp np (λ q, set_p_name (safestrcpy q.(p_name) name 16) q);;
         q <- getp np;;
         let pid := q.(p_pid) in
         acquire Lptable;;
         modp np (set_p_state RUNNABLE);;
         release Lptable;;
         ret pid) s e = Ret q.(p_pid) s' e ∧
    quiet s s' ∧ s'.(k_mem) = s.(k_mem) ∧ s'.(k_io) = s.(k_io) ∧ s'.(k_fs) = s.(k_fs) ∧
    s'.(k_pt) = set_pt_proc (<[np := set_p_state RUNNABLE (set_p_name (safestrcpy q.(p_name) name 16) (set_p_cwd (Some c) q))]> s.(k_pt).(pt_proc)) s.(k_pt).
Proof.
  intros [Hwf Hl] Hq. pose proof (lookup_lt_Some _ _ _ Hq) as Hlt.
  mstep (modp_run s np q (set_p_cwd (Some c)) e Hq). set (q1 := set_p_cwd _ q). set (s1 := putp np q1 s).
  assert (s1.(k_pt).(pt_proc) !! np = Some q1) as Hq1 by (by apply list_lookup_insert_eq).
  mstep (modp_run s1 np q1 (λ q, set_p_name (safestrcpy q.(p_name) name 16) q) e Hq1). set (q2 := set_p_name _ q1). set (s2 := putp np q2 s1).
  assert (s2.(k_pt).(pt_proc) !! np = Some q2) as Hq2 by (apply list_lookup_insert_eq; by eapply lookup_lt_Some).
  mstep (getp_run s2 np q2 e Hq2). cbv zeta. mstep (acquire_run Lptable s2 e Hl).
  mstep (modp_run (locked Lptable s2) np q2 (set_p_state RUNNABLE) e Hq2). eexists. split; [by mcall (release_run Lptable s2)|].
  split; [split; [done|by right|done|done]|]. do 3 (split; [done|]). unfold s2, s1, putp. simpl. by rewrite !insert_table.
Qed.

Lemma fork_fill_run s e i p np q :
  pt_idle s → running s i p → i ≠ np → s.(k_pt).(pt_proc) !! np = Some q → length q.(p_ofile) = NOFILE → files_ready s p →
  ∃ s' ofs, fork_fill i np s e = Ret q.(p_pid) s' e ∧ quiet s s' ∧ s'.(k_mem) = s.(k_mem) ∧ s'.(k_io) = s.(k_io) ∧ shared p s.(k_fs) s'.(k_fs) ∧
    s'.(k_pt) = set_pt_proc (<[np := filled i p ofs q]> s.(k_pt).(pt_proc)) s.(k_pt) ∧
    length ofs = NOFILE ∧ ∀ k, (k < NOFILE)%nat → ofs !! k = if decide (is_Some (ofile p k)) then Some (ofile p k) else q.(p_ofile) !! k.
Proof.
  intros [Hwf Hl] [Hc Hp] Hne Hq Hlen [R1 (c & x & Hcwd & Hx) R3 R4]. pose proof (lookup_lt_Some _ _ _ Hq) as Hlt. unfold fork_fill.
  mstep (getp_run s i p e Hp). fold (inherited_trace p).
  mstep (modp_run s np q (λ q, set_p_tf (set_tf_eax 0 p.(p_tf)) (set_p_parent (Some i) (set_p_sz p.(p_sz) (set_p_straced (inherited_trace p) q)))) e Hq).
  set (q1 := set_p_tf _ _). set (s1 := putp np q1 s). assert (s1.(k_pt).(pt_proc) !! np = Some q1) as Hq1 by (by apply list_lookup_insert_eq).
  destruct (fork_files p np (seq 0 NOFILE) s1 e q1) as (s2 & fl & ofs & Hr2 & Q2 & M2 & I2 & F2 & P2 & Hlo & Ho & Hfl).
  - done.
  - done.
  - done.
  - intros k f _ Hf. by apply (R1 k f).
  - apply NoDup_seq.
  - intros k Hk%elem_of_seq. change (p_ofile q1) with (p_ofile q). rewrite Hlen. lia.
  - mstep Hr2. rewrite Hcwd. cbn [deref]. rewrite bind_ret_l.
    assert (s2.(k_fs).(fs_inodes) !! c = Some x) as Hx2 by (by rewrite F2).
    mstep (idup_run s2 e c x (quiet_wf _ _ Q2 Hwf) (quiet_free _ _ _ Q2 R4) Hx2). set (s3 := unlocked s2 _).
    assert (quiet s s3) as Q3 by (eapply quiet_trans; [exact (quiet_putp s np q1)|]; eapply quiet_trans; [exact Q2|]; split; [done|by right|done|done]).
    destruct (fork_finish s3 e np (set_p_ofile ofs q1) c p.(p_name)) as (s' & Hr' & Q' & M' & I' & F' & P').
    { split; [by eapply quiet_wf|by eapply quiet_free]. }
    { change (k_pt s3) with (k_pt s2). rewrite P2. apply list_lookup_insert_eq. by eapply lookup_lt_Some. }
    exists s', ofs. split; [exact Hr'|]. split; [by eapply quiet_trans|]. split; [by rewrite M'|]. split; [by rewrite I'|]. split; [|split; [|split]].
    + exists fl, (<[c := set_i_ref (x.(i_ref) + 1) x]> s.(k_fs).(fs_inodes)). split; [rewrite F'; change (k_fs s3) with (set_fs_inodes (<[c := set_i_ref (i_ref x + 1) x]> (fs_inodes (k_fs s2))) (k_fs s2)); by rewrite F2|].
      split; [exact Hfl|]. intros c'. rewrite Hcwd. destruct (decide (Some c = Some c')) as [[= <-]|Hnc].
      * rewrite list_lookup_insert_eq by (by eapply lookup_lt_Some). by rewrite Hx.
      * rewrite list_lookup_insert_ne by congruence. destruct (_ !! c') as [[]|]; simpl; [by rewrite Z.add_0_r|done].
    + rewrite P'. change (k_pt s3) with (k_pt s2). rewrite P2. unfold s1, putp, filled. simpl. by rewrite !insert_table, Hcwd.
    + by rewrite Hlo.
    + intros k Hk. rewrite Ho. apply decide_ext. rewrite elem_of_seq. split; [tauto|]. intros H. split; [lia|done].
Qed.

(** ** fork *)

(** The state of a process [p] in slot [i] that can call [fork]. *)
Record fork_ready (s : kstate) (i : nat) (p : proc) (free : list Z) (us : gmap Z (Z * Z)) : Prop := {
  fk_running : running s i p;
  fk_state : p.(p_state) = RUNNING;
  fk_pt : pt_idle s;
  fk_space : uspace s p.(p_pgdir) free us;
  fk_pages : contiguous us (pages p.(p_sz));
  fk_size : 0 ≤ p.(p_sz) ≤ KERNBASE;
  fk_data : data_ok s.(k_mem).(m_data);
  fk_files : files_ready s p;
  fk_table : ∀ j q, s.(k_pt).(pt_proc) !! j = Some q → length q.(p_ofile) = NOFILE
}.

(** The user memory of the parent reads as before. *)
Definition same_user (s s' : kstate) (p : proc) : Prop :=
  ∀ va, 0 ≤ va < 4096 * pages p.(p_sz) → user_byte s' p.(p_pgdir) va = user_byte s p.(p_pgdir) va.

(** The first unused slot of the table is [np], and holds [q]. *)
Definition first_unused (s : kstate) (np : nat) (q : proc) : Prop :=
  s.(k_pt).(pt_proc) !! np = Some q ∧ q.(p_state) = UNUSED ∧
  ∀ j qj, (j < np)%nat → s.(k_pt).(pt_proc) !! j = Some qj → qj.(p_state) ≠ UNUSED.

(** What a failed call leaves of the process table: all of it when no slot was unused; otherwise the next pid is used up and
    the first unused slot has other contents, but is still unused. *)
Definition failed_table (s s' : kstate) : Prop :=
  (∀ j q, s.(k_pt).(pt_proc) !! j = Some q → q.(p_state) ≠ UNUSED) ∧ s'.(k_pt) = s.(k_pt) ∨
  ∃ np q q', first_unused s np q ∧ q'.(p_state) = UNUSED ∧ s'.(k_pt) = numbered np q' s.(k_pt).

(** Pages can be lost to the free list, none comes to it. *)
Definition fork_failed (s : kstate) (p : proc) (free : list Z) (us : gmap Z (Z * Z)) (s' : kstate) : Prop :=
  failed_table s s' ∧ s'.(k_fs) = s.(k_fs) ∧ (∃ free', uspace s' p.(p_pgdir) free' us ∧ ∀ a, a ∈ free' → a ∈ free) ∧ same_user s s' p ∧
  ((∀ j q, s.(k_pt).(pt_proc) !! j = Some q → q.(p_state) ≠ UNUSED) ∨ Z.of_nat (length free) ≤ pages p.(p_sz) + 1027).

Record fork_child (s : kstate) (i : nat) (p : proc) (free : list Z) (us : gmap Z (Z * Z)) (s' : kstate) (np : nat) (q : proc) (kstack pgdir : Z) (ofs : list (option nat)) : Prop := {
  fc_slot : first_unused s np q;
  fc_pt : s'.(k_pt) = numbered np (filled i p ofs (set_p_pgdir pgdir (embryo s.(k_pt).(pt_nextpid) kstack s.(k_mem).(m_forkret) q))) s.(k_pt);
  fc_open : ∀ k, (k < NOFILE)%nat → ofs !! k = if decide (is_Some (ofile p k)) then Some (ofile p k) else q.(p_ofile) !! k;
  fc_fs : shared p s.(k_fs) s'.(k_fs);
  fc_space : ∃ free' usd, uspace s' p.(p_pgdir) free' us ∧ uspace s' pgdir free' usd ∧ contiguous usd (pages p.(p_sz)) ∧
    apart s' p.(p_pgdir) us pgdir usd ∧ kstack ∈ free ∧ kstack ∉ free' ∧ ¬ owns s' p.(p_pgdir) us kstack ∧ ¬ owns s' pgdir usd kstack;
  fc_parent : same_user s s' p;
  fc_copy : ∀ va, 0 ≤ va < 4096 * pages p.(p_sz) →
    user_byte s' pgdir va = user_byte s p.(p_pgdir) va ∧ translate s'.(k_mem).(m_byte) pgdir va ≠ translate s'.(k_mem).(m_byte) p.(p_pgdir) va
}.

Lemma owns_mem s s' pd us p : s'.(k_mem).(m_byte) = s.(k_mem).(m_byte) → owns s' pd us p ↔ owns s pd us p.
Proof. intros H. unfold owns. by rewrite H. Qed.

Lemma user_byte_mem s s' pd va : s'.(k_mem).(m_byte) = s.(k_mem).(m_byte) → user_byte s' pd va = user_byte s pd va.
Proof. intros H. unfold user_byte. by rewrite H. Qed.

(** The parent's space when the page of the child's stack is off the free list. *)
Lemma uspace_stack s s1 pd free a us next :
  uspace s pd (a :: free) us → quiet s s1 → s1.(k_mem) = set_m_freelist next s.(k_mem) → kmem_free s1.(k_mem) free → uspace s1 pd free us ∧ ¬ owns s pd us a.
Proof.
  intros U Q Hm Hf. pose proof (us_idle _ _ _ _ U) as [Hwf Hl]. set (s0 := on_mem (set_m_freelist next) s).
  destruct (uspace_takes s pd (a :: free) us s0 [a] free U) as (G & P & Hu).
  - split; [|done|by rewrite Hm in Hf|done|done]. apply (vm_same_intro s.(k_mem).(m_byte) next s.(k_cpu) s). by left.
  - split; [|intros Ho; apply (owns_page _ _ _ _ _ U Ho); by left].
    eapply (uspace_quiet s0 s1); [|done|apply (ug_space _ _ _ _ _ _ _ G)]. split; [apply Q|apply Q|apply Q|apply Q].
Qed.

Lemma first_unused_found s np q : pfind unused s.(k_pt).(pt_proc) = Some np → s.(k_pt).(pt_proc) !! np = Some q → first_unused s np q.
Proof.
  intros Hn Hq. unfold pfind in Hn. apply fmap_Some in Hn as ([j q'] & Hf & ->). apply list_find_Some in Hf as (Hj & Hu & Hb). simpl in *. simplify_eq.
  split; [done|]. split; [by apply Is_true_true, bool_decide_eq_true in Hu|]. intros k qk Hk Hqk Hs. apply (Hb k qk Hqk Hk). by apply Is_true_true, bool_decide_eq_true.
Qed.

Lemma failed_slot s s' np q q' : first_unused s np q → s'.(k_pt) = numbered np q' s.(k_pt) → q'.(p_state) = UNUSED → failed_table s s'.
Proof. intros H1 H2 H3. right. by exists np, q, q'. Qed.

(** [allocproc] finds no slot, or no page for the stack. *)
Lemma fork_noproc s e i p free us :
  fork_ready s i p free us → (pfind unused s.(k_pt).(pt_proc) = None ∨ free = []) →
  ∃ s', fork s e = Ret (-1) s' e ∧ quiet s s' ∧ fork_failed s p free us s'.
Proof.
  intros [R1 R2 R3 R4 R5 R6 R7 R8 R9] Hcase. unfold fork. mstep (curproc_run s i p e R1). pose proof (pages_spec p.(p_sz)).
  destruct (pfind unused s.(k_pt).(pt_proc)) as [np|] eqn:Hn.
  - destruct Hcase as [?| ->]; [done|]. pose proof Hn as (q & Hq & Hu)%pfind_lookup. apply Is_true_true, bool_decide_eq_true in Hu.
    destruct (allocproc_nomem s e np q R3 (us_idle _ _ _ _ R4) (us_free _ _ _ _ R4) Hn Hq) as (s' & Hr & Q & M & F & _ & P).
    exists s'. split; [by mstep Hr|]. split; [done|]. split; [eapply failed_slot; [by apply first_unused_found|exact P|done]|]. split; [done|].
    split; [|split; [intros va Hva; apply user_byte_mem; by rewrite M|right; simpl; lia]]. exists [].
    assert (s'.(k_mem) = s.(k_mem)) as Hm; [|split; [by eapply uspace_quiet|done]].
    rewrite M. destruct (us_free _ _ _ _ R4) as (_ & _ & _ & Hfl). simpl in Hfl. destruct (k_mem s). simpl in *. by rewrite Hfl.
  - mstep (allocproc_full s e R3 Hn). eexists. split; [done|]. assert (quiet s (pt_updated id s)) as Q by (split; [done|by right|done|done]).
    assert (∀ j q, s.(k_pt).(pt_proc) !! j = Some q → q.(p_state) ≠ UNUSED) as Hno.
    { intros j q Hj Hs. apply (proj1 (pfind_None _ _) Hn j q Hj). by apply Is_true_true, bool_decide_eq_true. }
    split; [done|]. split; [by left|]. split; [done|]. split; [exists free; split; [by eapply uspace_quiet|done]|]. split; [done|]. by left.
Qed.

(** The start of [fork] when there is a slot and a page: the child's slot, and the result of [copyuvm]. *)
Lemma fork_copied s e i p a free us np q :
  fork_ready s i p (a :: free) us → pfind unused s.(k_pt).(pt_proc) = Some np → s.(k_pt).(pt_proc) !! np = Some q → i ≠ np →
  ∃ d s2, quiet s s2 ∧ s2.(k_fs) = s.(k_fs) ∧ s2.(k_pt) = numbered np (set_p_pgdir d (embryo s.(k_pt).(pt_nextpid) a s.(k_mem).(m_forkret) q)) s.(k_pt) ∧
    fork s e = (if d =? 0 then
        q <- getp np;;
        kfree q.(p_kstack);;
        modp np (λ q, set_p_state UNUSED (set_p_kstack 0 q));;
        ret (-1)
      else fork_fill i np) s2 e ∧ same_user s s2 p ∧ ¬ owns s2 p.(p_pgdir) us a ∧ page_ok s2.(k_mem) a ∧
    ∃ free', uspace s2 p.(p_pgdir) free' us ∧ a ∉ free' ∧ (∀ x, x ∈ free' → x ∈ free) ∧
      (d = 0 → Z.of_nat (length free) ≤ pages p.(p_sz) + 1026) ∧
      (d ≠ 0 → (∃ usd, uspace s2 d free' usd ∧ contiguous usd (pages p.(p_sz)) ∧ apart s2 p.(p_pgdir) us d usd ∧ ¬ owns s2 d usd a) ∧
        ∀ va, 0 ≤ va < 4096 * pages p.(p_sz) →
          user_byte s2 d va = user_byte s p.(p_pgdir) va ∧ translate s2.(k_mem).(m_byte) d va ≠ translate s2.(k_mem).(m_byte) p.(p_pgdir) va).
Proof.
  intros [R1 R2 R3 R4 R5 R6 R7 R8 R9] Hn Hq Hne. pose proof (lookup_lt_Some _ _ _ Hq) as Hlt.
  destruct (allocproc_some s e np q a free R3 (us_idle _ _ _ _ R4) (us_free _ _ _ _ R4) Hn Hq) as (s1 & Hr1 & Q1 & M1 & F1 & Fs1 & _ & P1).
  destruct (uspace_stack s s1 _ _ _ _ _ R4 Q1 M1 F1) as [U1 Hoa]. destruct (us_free _ _ _ _ R4) as (_ & Hnd & Hok & _).
  apply NoDup_cons in Hnd as [Hnin Hnd]. apply Forall_cons in Hok as [Hpa Hok].
  assert (s1.(k_mem).(m_byte) = s.(k_mem).(m_byte)) as Hb1 by (by rewrite M1).
  destruct (copyuvm_spec s1 p.(p_pgdir) free us p.(p_sz) e U1 R5 R6 ltac:(by rewrite M1)) as (d & s2 & free' & Hr2 & V2 & U2 & Hsub & Hown & Hpar & H0 & H1).
  destruct (quiet_vm _ _ V2) as (Q2 & P2 & F2).
  exists d, (putp np (set_p_pgdir d (embryo s.(k_pt).(pt_nextpid) a s.(k_mem).(m_forkret) q)) s2).
  assert (s2.(k_pt).(pt_proc) !! np = Some (embryo s.(k_pt).(pt_nextpid) a s.(k_mem).(m_forkret) q)) as Hq2 by (rewrite P2, P1; by apply numbered_lookup).
  split; [eapply quiet_trans; [exact Q1|]; eapply quiet_trans; [exact Q2|apply quiet_putp]|]. split; [simpl; congruence|].
  split; [unfold putp; simpl; by rewrite P2, P1, numbered_again|]. split.
  { unfold fork. mstep (curproc_run s i p e R1). mstep Hr1. assert (s1.(k_pt).(pt_proc) !! i = Some p) as Hp1.
    { rewrite P1. simpl. rewrite list_lookup_insert_ne by done. apply R1. }
    mstep (getp_run s1 i p e Hp1). mstep Hr2. by mstep (modp_run s2 np _ (set_p_pgdir d) e Hq2). }
  split; [intros va Hva; rewrite <- (user_byte_mem s s1) by done; exact (proj1 (Hpar va Hva))|].
  assert (¬ owns s2 p.(p_pgdir) us a) as Hoa2.
  { rewrite Hown. by rewrite (owns_mem s s1). }
  split; [exact Hoa2|]. split; [change (page_ok s2.(k_mem) a); eapply page_ok_same; [exact V2|]; unfold page_ok; by rewrite M1|].
  exists free'. split; [eapply uspace_quiet; [apply quiet_putp|done|done]|]. split; [intros Hin; by apply Hnin, Hsub|]. split; [exact Hsub|]. split; [done|].
  intros Hd. destruct (H1 Hd) as ((usd & Ud & Hcd & Hap & Hfrom) & Hcp & _). split.
  - exists usd. split; [eapply uspace_quiet; [apply quiet_putp|done|done]|]. split; [done|]. split; [done|]. intros Ho. by apply Hnin, Hfrom.
  - intros va Hva. rewrite <- (user_byte_mem s s1) by done. exact (Hcp va Hva).
Qed.

(** The copy failed: the stack goes back, and the slot is unused again. *)
Lemma fork_undone s e np q a pd free us :
  s.(k_pt).(pt_proc) !! np = Some q → q.(p_kstack) = a → uspace s pd free us → page_ok s.(k_mem) a → a ∉ free → ¬ owns s pd us a →
  ∃ s', (q <- getp np;; kfree q.(p_kstack);; modp np (λ q, set_p_state UNUSED (set_p_kstack 0 q));; ret (-1)) s e = Ret (-1) s' e ∧
    quiet s s' ∧ s'.(k_fs) = s.(k_fs) ∧ s'.(k_pt) = set_pt_proc (<[np := set_p_state UNUSED (set_p_kstack 0 q)]> s.(k_pt).(pt_proc)) s.(k_pt) ∧
    uspace s' pd (a :: free) us ∧ ∀ x, ¬ in_page a x → s'.(k_mem).(m_byte) x = s.(k_mem).(m_byte) x.
Proof.
  intros Hq <- U Ha Hnin Ho. destruct (uspace_kfree s pd free us e q.(p_kstack) U Ha Hnin) as (Hk & U' & _ & _).
  { intros Hp. apply Ho. by left. }
  { intros k fl Hk. apply Ho. right. by exists k, fl. }
  mstep (getp_run s np q e Hq). mstep Hk. assert ((freed q.(p_kstack) s).(k_pt).(pt_proc) !! np = Some q) as Hq' by done.
  mstep (modp_run _ np q (λ q, set_p_state UNUSED (set_p_kstack 0 q)) e Hq'). eexists. split; [done|].
  split; [eapply quiet_trans; [apply quiet_vm, vm_same_freed|apply quiet_putp]|]. split; [done|]. split; [done|].
  split; [eapply uspace_quiet; [apply quiet_putp|done|done]|]. intros x Hx. by apply freed_bytes.
Qed.

(** C5: [fork] always returns, and leaves every lock as it was.  Either it answers the next pid and the first unused slot of
    the table holds a runnable child: a copy of the parent's user memory in pages of its own, its registers with 0 in %eax, its
    open files and directory with their reference counts raised, its name, and its trace mask when [T_FORK] is set; the
    parent is as before.  Or it answers -1: then there was no unused slot, and the table is unchanged, or there was not
    enough free memory, and the table has changed in the next pid, which is used up, and in the first unused slot, which is
    still unused; the files and the parent's memory are as before, and the free list has gained no page, but it can have
    lost some. *)
Theorem fork_correct s e i p free us :
  fork_ready s i p free us →
  ∃ r s', fork s e = Ret r s' e ∧ quiet s s' ∧
    (r = -1 ∧ fork_failed s p free us s' ∨
     r = s.(k_pt).(pt_nextpid) ∧ ∃ np q kstack pgdir ofs, fork_child s i p free us s' np q kstack pgdir ofs).
Proof.
  intros R. destruct (pfind unused s.(k_pt).(pt_proc)) as [np|] eqn:Hn; [destruct free as [|a free]|].
  1,3: destruct (fork_noproc s e i p _ us R) as (s' & Hr & Q & Hf); [tauto|]; exists (-1), s'; split; [done|]; split; [done|]; by left.
  pose proof Hn as (q & Hq & Hu)%pfind_lookup. apply Is_true_true, bool_decide_eq_true in Hu. pose proof (lookup_lt_Some _ _ _ Hq) as Hlt.
  assert (i ≠ np) as Hne by (intros ->; destruct (fk_running _ _ _ _ _ R) as [_ Hp]; pose proof (fk_state _ _ _ _ _ R); congruence).
  destruct (fork_copied s e i p a free us np q R Hn Hq Hne) as (d & s2 & Q2 & F2 & P2 & Hr & Hpar & Hoa & Hpa & free' & U2 & Hnin & Hsub & H0 & H1).
  assert (s2.(k_pt).(pt_proc) !! np = Some (set_p_pgdir d (embryo s.(k_pt).(pt_nextpid) a s.(k_mem).(m_forkret) q))) as Hq2 by (rewrite P2; by apply numbered_lookup).
  destruct (Z.eqb_spec d 0) as [->|Hd].
  - destruct (fork_undone s2 e np _ a _ free' us Hq2 eq_refl U2 Hpa Hnin Hoa) as (s' & Hr' & Q' & F' & P' & U' & Hb').
    exists (-1), s'. split; [by rewrite Hr|]. split; [by eapply quiet_trans|]. left. split; [done|].
    split; [eapply failed_slot; [by apply first_unused_found|rewrite P', P2; apply numbered_again|done]|]. split; [congruence|].
    split; [eexists; split; [exact U'|]; intros x [->|Hx]%elem_of_cons; [by left|right; by apply Hsub]|].
    split; [|right; specialize (H0 eq_refl); simpl; lia].
    intros va Hva. rewrite <- Hpar by done. destruct (contiguous_translate _ _ _ _ _ _ U2 (fk_pages _ _ _ _ _ R) Hva) as (f & fl & Hf & Hfo & Ht & Ho).
    destruct (contiguous_translate _ _ _ _ _ _ U' (fk_pages _ _ _ _ _ R) Hva) as (f' & fl' & Hf' & _ & Ht' & _). simplify_eq.
    unfold user_byte. rewrite Ht, Ht'. cbn [fmap option_fmap option_map]. f_equal. apply Hb'. intros Hx. apply Hoa. right. exists (va / 4096), fl.
    rewrite Hf. do 2 f_equal. apply (in_page_eq _ _ _ (f + va mod 4096) Hfo Hpa); [unfold in_page, PGSIZE; lia|exact Hx].
  - destruct (fk_pt _ _ _ _ _ R) as [Hwf Hl]. destruct (fk_running _ _ _ _ _ R) as [Hc Hp]. pose proof (fk_files _ _ _ _ _ R) as [G1 G2 G3 G4].
    destruct (fork_fill_run s2 e i p np (set_p_pgdir d (embryo s.(k_pt).(pt_nextpid) a s.(k_mem).(m_forkret) q))) as (s' & ofs & Hr' & Q' & M' & _ & F' & P' & Hlo & Ho).
    + split; [by eapply quiet_wf|by eapply quiet_free].
    + split; [by rewrite (quiet_proc _ _ Q2)|]. rewrite P2. simpl. by rewrite list_lookup_insert_ne.
    + done.
    + exact Hq2.
    + simpl. by eapply (fk_table _ _ _ _ _ R).
    + split; [by rewrite F2|by rewrite F2|by eapply quiet_free|by eapply quiet_free].
    + exists s.(k_pt).(pt_nextpid), s'. split; [by rewrite Hr|]. split; [by eapply quiet_trans|]. right. split; [done|]. exists np, q, a, d, ofs.
      destruct (H1 Hd) as ((usd & Ud & Hcd & Hap & Hoc) & Hcp). split; [by apply first_unused_found| |exact Ho|by rewrite <- F2| | |].
      * rewrite P', P2. apply numbered_again.
      * exists free', usd. assert (s'.(k_mem).(m_byte) = s2.(k_mem).(m_byte)) as Hmb by (by rewrite M').
        split; [by eapply uspace_quiet|]. split; [by eapply uspace_quiet|]. split; [done|].
        split; [intros x; rewrite !(owns_mem s2 s') by done; apply Hap|]. split; [by left|]. split; [done|]. by rewrite !(owns_mem s2 s').
      * intros va Hva. rewrite (user_byte_mem s2 s') by (by rewrite M'). by apply Hpar.
      * intros va Hva. rewrite (user_byte_mem s2 s') by (by rewrite M'). rewrite M'. by apply Hcp.
Qed.

(** A process of two pages with one open descriptor, the rest of the table unused. *)
Definition forker (pd : Z) : proc :=
  set_p_ofile (Some 0%nat :: replicate 15 None) (set_p_cwd (Some 0%nat) (set_p_state RUNNING (set_p_sz 8000 (set_p_pgdir pd (set_p_pid 1 zero_proc))))).
Definition with_file (s : kstate) : kstate :=
  on_fs (λ fs, set_fs_files (<[0%nat := set_f_ref 1 zero_file]> fs.(fs_files)) fs) s.

Lemma fork_correct_witness : ∃ s pd r s' np q kstack pgdir ofs, fork s [] = Ret r s' [] ∧ r = 1 ∧
  ∃ free us, 3000 ≤ Z.of_nat (length free) ∧ fork_ready s 0 (forker pd) free us ∧ fork_child s 0 (forker pd) free us s' np q kstack pgdir ofs.
Proof.
  destruct demo_space as (s0 & pd & free & us & U & Hc & _ & Hd & Hl & V). destruct (quiet_vm _ _ V) as (Q & P & F).
  set (s := putp 0 (forker pd) (on_cpu (set_c_proc (Some 0%nat)) (with_file s0))).
  assert (s.(k_pt).(pt_proc) = forker pd :: replicate 63 zero_proc) as Ht by (unfold s, putp; simpl; rewrite P; reflexivity).
  assert (fork_ready s 0 (forker pd) free us) as R.
  { assert (cpu_wf s.(k_cpu)) as Hwf by exact (quiet_wf _ _ Q ltac:(vm_compute; split; done)).
    assert (∀ lk, s.(k_spin) !! lk = None) as Hspin by (intros lk; exact (quiet_free lk _ _ Q eq_refl)).
    split; [split; [done|by rewrite Ht]|done|split; [done|apply Hspin]|apply (uspace_mem s0 s); [split; [done|apply Hspin]|done|done]|done|done|done| |].
    - split; [|exists 0%nat, zero_inode|apply Hspin|apply Hspin].
      + intros [|k] f Hk.
        * injection Hk as <-. exists (set_f_ref 1 zero_file). split; [|done]. unfold s, putp, with_file. simpl. by rewrite F.
        * unfold ofile in Hk. change (p_ofile (forker pd) !! S k) with (replicate 15 (@None nat) !! k) in Hk.
          destruct (replicate 15 (@None nat) !! k) as [o|] eqn:E; [|done]. apply lookup_replicate in E as [-> _]. done.
      + split; [done|]. unfold s, putp, with_file. simpl. by rewrite F.
    - intros j q. rewrite Ht. destruct j as [|j]; [by intros [= <-]|]. intros [-> _]%lookup_replicate. done. }
  destruct (fork_correct s [] 0 (forker pd) free us R) as (r & s' & Hr & _ & [(_ & _ & _ & _ & _ & [Hno|Hno])|(Hpid & np & q & kstack & pgdir & ofs & Hch)]).
  - exfalso. by apply (Hno 1%nat zero_proc ltac:(by rewrite Ht)).
  - exfalso. change (pages (p_sz (forker pd))) with 2 in Hno. lia.
  - exists s, pd, r, s', np, q, kstack, pgdir, ofs. split; [done|]. split; [rewrite Hpid; unfold s, putp; simpl; by rewrite P|]. by exists free, us.
Defined.
