(* ===== verification/PrioRange.v ===== *)
(** * The range of the priorities (proc.c: sys_nice, sys_lock, sys_release, allocproc)

    The code that writes a priority, run in any order with the rest of the
    kernel in between, keeps every live process between the five levels. *)

From S2P Require Import Prelude KState Spinlock Print Mem Args Kalloc Vm Proc Priority UserSpace ProcLife Fork.
#[local] Open Scope kernel_scope.

(** What the rest of the kernel does to a slot: anything but its priorities,
    and it does not bring an unused slot to life. *)
Definition rest_keeps (p p' : proc) : Prop :=
  p'.(p_priority) = p.(p_priority) ∧ p'.(p_nice) = p.(p_nice) ∧
  p'.(p_original_priority) = p.(p_original_priority) ∧ (p'.(p_state) ≠ UNUSED → p.(p_state) ≠ UNUSED).

(** The runs of the code that writes priorities. *)
Inductive prio_step : kstate → kstate → Prop :=
| step_nice s s' i p r e e' :
    in_syscall s i p → sys_nice s e = Ret r s' e' → prio_step s s'
| step_lock s s' i p r e e' :
    in_syscall s i p → p.(p_state) ≠ UNUSED → sys_lock s e = Ret r s' e' → prio_step s s'
| step_release s s' i p r e e' :
    in_syscall s i p → p.(p_state) ≠ UNUSED → sys_release s e = Ret r s' e' → prio_step s s'
| step_alloc s s' free o e e' :
    pt_idle s → kmem_idle s → kmem_free s.(k_mem) free → allocproc s e = Ret o s' e' → prio_step s s'
| step_rest s s' :
    Forall2 rest_keeps s.(k_pt).(pt_proc) s'.(k_pt).(pt_proc) →
    s'.(k_pt).(pt_locks) = s.(k_pt).(pt_locks) → prio_step s s'.

(** ** Each step keeps the invariant *)

Lemma sys_nice_keeps s i p r s' e e' :
  in_syscall s i p → sys_nice s e = Ret r s' e' → prio_wf s.(k_pt) → prio_wf s'.(k_pt).
Proof.
  intros Hsc Hr Hwf. pose proof (sys_nice_correct s i p e Hsc) as H. rewrite Hr in H.
  destruct (arg_at s p 0) as [pid|]; [|by injection H as _ -> _].
  destruct (arg_at s p 1) as [value|]; [|by injection H as _ -> _].
  destruct (decide _) as [Hv|]; injection H as _ -> _; [|done]. by apply nice_step_wf.
Qed.

Lemma sys_lock_keeps s i p r s' e e' :
  in_syscall s i p → p.(p_state) ≠ UNUSED → sys_lock s e = Ret r s' e' → prio_wf s.(k_pt) → prio_wf s'.(k_pt).
Proof.
  intros Hsc Hp Hr Hwf. pose proof (sys_lock_correct s i p e Hsc (proj1 (proj2 Hwf))) as H. rewrite Hr in H.
  destruct (warned_in_syscall s i p Hsc) as (_ & Hk & _).
  destruct (arg_at s p 0) as [id|]; [|injection H as _ -> _; by rewrite Hk].
  destruct (decide _) as [Hv|]; [|injection H as _ -> _; by rewrite Hk]. destruct H as [cs H]. injection H as _ -> _.
  apply (lock_step_wf _ _ p); [apply Hsc|done..].
Qed.

Lemma sys_release_keeps s i p r s' e e' :
  in_syscall s i p → p.(p_state) ≠ UNUSED → sys_release s e = Ret r s' e' → prio_wf s.(k_pt) → prio_wf s'.(k_pt).
Proof.
  intros Hsc Hp Hr Hwf. pose proof (sys_release_correct s i p e Hsc (proj1 (proj2 Hwf))) as H. rewrite Hr in H.
  destruct (warned_in_syscall s i p Hsc) as (_ & Hk & _).
  destruct (arg_at s p 0) as [id|]; [|injection H as _ -> _; by rewrite Hk].
  destruct (decide _) as [Hv|]; [|injection H as _ -> _; by rewrite Hk]. destruct H as [cs H]. injection H as _ -> _.
  apply (release_step_wf _ _ p); [apply Hsc|done..].
Qed.

Lemma prio_wf_numbered np q pt :
  prio_wf pt → (np < length pt.(pt_proc))%nat → prio_ok q → prio_wf (numbered np q pt).
Proof. intros Hwf Hnp Hq. exact (prio_wf_setp pt np q Hwf Hnp Hq). Qed.

Lemma allocproc_keeps s free o s' e e' :
  pt_idle s → kmem_idle s → kmem_free s.(k_mem) free → allocproc s e = Ret o s' e' →
  prio_wf s.(k_pt) → prio_wf s'.(k_pt).
Proof.
  intros Hpt Hk Hf Hr Hwf. destruct (pfind unused s.(k_pt).(pt_proc)) as [np|] eqn:Hs.
  - destruct (pfind_lookup _ _ _ Hs) as (q & Hq & _). pose proof (lookup_lt_Some _ _ _ Hq).
    destruct free as [|a free].
    + destruct (allocproc_nomem s e np q Hpt Hk Hf Hs Hq) as (s1 & H1 & _ & _ & _ & _ & Hk1).
      rewrite Hr in H1. injection H1 as _ -> _.
      rewrite Hk1. apply prio_wf_numbered; [done..|]. intros Hst. by destruct Hst.
    + destruct (allocproc_some s e np q a free Hpt Hk Hf Hs Hq) as (s1 & H1 & _ & _ & _ & _ & _ & Hk1).
      rewrite Hr in H1. injection H1 as _ -> _.
      rewrite Hk1. apply prio_wf_numbered; [done..|]. intros _. simpl. lia.
  - pose proof (allocproc_full s e Hpt Hs) as H1.
    rewrite Hr in H1. injection H1 as _ -> _. exact Hwf.
Qed.

Lemma rest_wf pt pt' :
  Forall2 rest_keeps pt.(pt_proc) pt'.(pt_proc) → pt'.(pt_locks) = pt.(pt_locks) → prio_wf pt → prio_wf pt'.
Proof.
  intros Hf Hl (Hlen & [Hll Hk] & Hok). pose proof (Forall2_length _ _ _ Hf) as Hln. split_and!.
  - congruence.
  - split; [by rewrite Hl|]. by rewrite Hl, <- Hln.
  - apply Forall_lookup. intros i p' Hp' Hst. destruct (Forall2_lookup_r _ _ _ _ _ Hf Hp') as (p & Hp & H1 & H2 & H3 & H4).
    rewrite Forall_lookup in Hok. rewrite H1, H2, H3. by apply (Hok i p Hp), H4.
Qed.

Lemma prio_step_wf s s' : prio_step s s' → prio_wf s.(k_pt) → prio_wf s'.(k_pt).
Proof.
  destruct 1.
  - by eapply sys_nice_keeps.
  - by eapply sys_lock_keeps.
  - by eapply sys_release_keeps.
  - by eapply allocproc_keeps.
  - by apply rest_wf.
Qed.

(** The calls return wherever the invariant holds. *)
Lemma prio_calls_return s i p e :
  in_syscall s i p → prio_wf s.(k_pt) →
  (∃ r s', sys_nice s e = Ret r s' e) ∧ (∃ r s', sys_lock s e = Ret r s' e) ∧ (∃ r s', sys_release s e = Ret r s' e).
Proof.
  intros Hsc (_ & Hwf & _). pose proof (sys_nice_correct s i p e Hsc) as H1.
  pose proof (sys_lock_correct s i p e Hsc Hwf) as H2. pose proof (sys_release_correct s i p e Hsc Hwf) as H3.
  destruct (arg_at s p 0) as [a|]; [|by split_and!; do 2 eexists].
  split_and!.
  - destruct (arg_at s p 1); [destruct (decide _)|]; by do 2 eexists.
  - destruct (decide _); [destruct H2|]; by do 2 eexists.
  - destruct (decide _); [destruct H3|]; by do 2 eexists.
Qed.

(** C13: in every sequence of runs of [sys_nice], [sys_lock] and
    [sys_release], with whatever arguments, and of [allocproc], the rest of
    the kernel running in between, from a table in order: every live process
    keeps its priority and nice value between 1 and 5 and a saved priority
    that is -1 or in that range, every held lock has a holder that is a slot
    of the table, and the three calls always return. *)
Theorem priorities_stay_in_range s s' :
  prio_wf s.(k_pt) → rtc prio_step s s' →
  prio_wf s'.(k_pt) ∧
  ∀ i p e, in_syscall s' i p →
    (∃ r s2, sys_nice s' e = Ret r s2 e) ∧ (∃ r s2, sys_lock s' e = Ret r s2 e) ∧
    (∃ r s2, sys_release s' e = Ret r s2 e).
Proof.
  intros Hwf Hr. assert (prio_wf s'.(k_pt)) as H'.
  { induction Hr as [|s1 s2 s3 Hs _ IH]; [done|]. apply IH. by eapply prio_step_wf. }
  split; [done|]. intros i p e Hsc. by eapply prio_calls_return.
Qed.

(** [nice(1, 9)] is refused, [nice(1, 5)] is not. *)
Lemma priorities_stay_in_range_witness :
  ∃ s', sys_nice (user_state [1; 9]) [] = Ret (-1) (user_state [1; 9]) [] ∧
        sys_nice (user_state [1; 5]) [] = Ret 3 s' [] ∧ prio_wf s'.(k_pt) ∧ prio s'.(k_pt) 0 = 5.
Proof.
  assert (in_syscall (user_state [1; 9]) 0 user_proc) as H9 by (apply user_in_syscall; simpl; lia).
  assert (in_syscall (user_state [1; 5]) 0 user_proc) as H5 by (apply user_in_syscall; simpl; lia).
  pose proof (sys_nice_correct (user_state [1; 9]) 0 user_proc [] H9) as R9.
  pose proof (sys_nice_correct (user_state [1; 5]) 0 user_proc [] H5) as R5.
  assert (arg_at (user_state [1; 9]) user_proc 0 = Some 1) as A0 by (vm_compute; reflexivity).
  assert (arg_at (user_state [1; 9]) user_proc 1 = Some 9) as A1 by (vm_compute; reflexivity).
  assert (arg_at (user_state [1; 5]) user_proc 0 = Some 1) as B0 by (vm_compute; reflexivity).
  assert (arg_at (user_state [1; 5]) user_proc 1 = Some 5) as B1 by (vm_compute; reflexivity).
  rewrite A0, A1, decide_False in R9 by lia. rewrite B0, B1, decide_True in R5 by lia.
  eexists. split; [exact R9|]. split; [exact R5|]. split; [|vm_compute; reflexivity].
  refine (proj1 (priorities_stay_in_range (user_state [1; 5]) _ (user_prio_wf [1; 5]) _)).
  eapply rtc_once, step_nice; [exact H5|exact R5].
Defined.
