(* ===== verification/FirstProc.v ===== *)
(** * The first process (kalloc.c: freerange; vm.c: kvmalloc, inituvm; proc.c: userinit)

    What the kernel's memory and process table are at the end of the
    initialisation: the free list, the kernel's own page table and the first
    process with its one page of code.  Main.v puts these steps in the order of
    main.c. *)

From S2P Require Import Prelude KState Spinlock Print Mem Args Kalloc Vm AddrSpace UserSpace UserCopy Proc Inode CString Fs File ProcLife Fork.
#[local] Open Scope kernel_scope.

(** ** Free memory *)

Lemma freerange_for k : ∀ n p vend s e,
  (k < n)%nat → vend = p + PGSIZE * Z.of_nat k → freerange_loop n p vend s e = for_each (pages_from p k) kfree s e.
Proof.
  induction k as [|k IH]; intros n p vend s e Hn Hv; (destruct n as [|n]; [lia|]); cbn [freerange_loop pages_from for_each].
  - destruct (_ <=? _) eqn:E; bool_facts; [unfold PGSIZE in *; lia|done].
  - destruct (_ <=? _) eqn:E; bool_facts; [|unfold PGSIZE in *; lia]. apply bind_ext. intros [] s' e'. apply IH; [lia|]. unfold PGSIZE in *. lia.
Qed.

Lemma PGROUNDUP_mod a : PGROUNDUP a mod 4096 = 0.
Proof. rewrite PGROUNDUP_eq, Z.mul_comm. by apply Z.mod_mul. Qed.

(** [freerange] of whole pages outside of the free list. *)
Lemma freerange_run s free e vstart vend :
  kmem_idle s → kmem_free s.(k_mem) free → vend mod 4096 = 0 → s.(k_mem).(m_end) ≤ PGROUNDUP vstart ≤ vend → vend ≤ KERNBASE + PHYSTOP →
  (∀ p, p ∈ free → p < PGROUNDUP vstart) →
  ∃ s' new, freerange vstart vend s e = Ret tt s' e ∧ vm_same s s' ∧ kmem_idle s' ∧ kmem_free s'.(k_mem) (new ++ free) ∧
    (∀ a, a ∈ new ↔ a mod 4096 = 0 ∧ PGROUNDUP vstart ≤ a < vend) ∧ 4096 * Z.of_nat (length new) = vend - PGROUNDUP vstart ∧
    ∀ x, x < PGROUNDUP vstart ∨ vend ≤ x → s'.(k_mem).(m_byte) x = s.(k_mem).(m_byte) x.
Proof.
  intros Hi Hf Hv [Hlo Hhi] Htop Hfr. pose proof (PGROUNDUP_mod vstart) as Hup. unfold freerange. set (p := PGROUNDUP vstart) in *. cbv zeta.
  pose proof (Z.div_mod p 4096 ltac:(done)). pose proof (Z.div_mod vend 4096 ltac:(done)). set (k := Z.to_nat (vend / 4096 - p / 4096)).
  assert (vend = p + 4096 * Z.of_nat k) as Hk by lia. rewrite (freerange_for k) by (unfold PGSIZE; lia).
  assert (∀ a, a ∈ pages_from p k ↔ a mod 4096 = 0 ∧ p ≤ a < vend) as Hin.
  { intros a. rewrite elem_of_pages_from. unfold PGSIZE. pose proof (Z.div_mod a 4096 ltac:(done)). split.
    - intros (i & Hi' & ->). rewrite Z.mul_comm, Z.mod_add by done. split; [done|lia].
    - intros [Ha ?]. exists (a / 4096 - p / 4096). lia. }
  destruct (kfree_all (pages_from p k) s free e Hi Hf) as (s' & Hr & Hs & Hi' & Hf' & Hb).
  - apply Forall_forall. intros a [Ha Har]%Hin. pose proof (Z.div_mod a 4096 ltac:(done)). split; [done|]. unfold PGSIZE. lia.
  - apply pages_from_nodup.
  - intros a [_ Ha]%Hin Ha'. specialize (Hfr a Ha'). lia.
  - exists s', (reverse (pages_from p k)). split; [done|]. split; [done|]. split; [done|]. split; [done|]. split; [|split].
    + intros a. by rewrite elem_of_reverse, Hin.
    + rewrite length_reverse, length_pages_from. lia.
    + intros x Hx. apply Hb. intros a (i & Hi1 & ->)%elem_of_pages_from. unfold in_page, PGSIZE. lia.
Qed.

(** The state in which a page is part of the kernel's page table, and all the kernel's mappings are in it. *)
Definition kernel_table (s : kstate) (kpd : Z) (free : list Z) : Prop :=
  uspace s kpd free ∅ ∧ ∀ va, is_u32 va → pte s.(k_mem).(m_byte) kpd va = kernel_pte s.(k_mem).(m_data) va.

Lemma setupkvm_new s free e :
  kmem_idle s → kmem_free s.(k_mem) free → data_ok s.(k_mem).(m_data) → (513 < length free)%nat →
  ∃ pd s' used free', setupkvm s e = Ret pd s' e ∧ takes s free s' used free' ∧ pd ≠ 0 ∧ kernel_table s' pd free' ∧
    (∀ p, pt_page s'.(k_mem).(m_byte) pd p ↔ p ∈ used) ∧ (length used ≤ 513)%nat.
Proof.
  intros Hi Hf Hd Hl. destruct (setupkvm_run s free e Hi Hf Hd) as (pd & s' & used & free' & Hr & T & Hu & [(-> & ->)|(Hpd & Ht & Hp & Hk)]).
  { pose proof (tk_used _ _ _ _ _ T) as E. rewrite app_nil_r in E. subst. lia. }
  exists pd, s', used, free'. split; [done|]. split; [done|]. split; [done|]. split; [|by split].
  rewrite <- (vm_same_data _ _ (tk_same _ _ _ _ _ T)) in Hk. split; [|done]. eapply uspace_new; [done|done|done|].
  by rewrite (vm_same_data _ _ (tk_same _ _ _ _ _ T)).
Qed.

(** [kvmalloc]: the kernel's page table, in the register. *)
Lemma kvmalloc_run s free e :
  kmem_idle s → kmem_free s.(k_mem) free → data_ok s.(k_mem).(m_data) → (513 < length free)%nat →
  ∃ pd s1 used free', takes s free s1 used free' ∧ kernel_table s1 pd free' ∧ (∀ p, pt_page s1.(k_mem).(m_byte) pd p ↔ p ∈ used) ∧ (length used ≤ 513)%nat ∧
    kvmalloc s e = Ret tt (on_cpu (set_c_cr3 (V2P pd)) (on_mem (set_m_kpgdir pd) s1)) e.
Proof.
  intros Hi Hf Hd Hl. destruct (setupkvm_new s free e Hi Hf Hd Hl) as (pd & s1 & used & free' & Hr & T & _ & Hk & Hp & Hu).
  exists pd, s1, used, free'. split; [done|]. split; [done|]. split; [done|]. split; [done|]. unfold kvmalloc. by mstep Hr.
Qed.

(** ** A page of code *)

Lemma kmem_free_ext (m m' : memstate) l :
  kmem_free m l → m'.(m_end) = m.(m_end) → m'.(m_freelist) = m.(m_freelist) → (∀ p x, p ∈ l → in_page p x → m'.(m_byte) x = m.(m_byte) x) → kmem_free m' l.
Proof.
  intros (F1 & F2 & F3 & F4) He Hl Hx. split; [by rewrite He|]. split; [done|]. split; [unfold page_ok in *; by rewrite He|]. rewrite Hl. revert F4. apply free_list_ext.
  intros p Hp. symmetry. apply load32_frame. intros x Hxr. apply (Hx p x Hp). unfold in_page, PGSIZE. lia.
Qed.

(** A store into a frame of the user. *)
Lemma uspace_store s pd free us k f fl b :
  uspace s pd free us → us !! k = Some (f, fl) → (∀ x, ¬ in_page f x → b x = s.(k_mem).(m_byte) x) →
  let s' := on_mem (set_m_byte b) s in
  uspace s' pd free us ∧ (∀ p, owns s' pd us p ↔ owns s pd us p) ∧ ∀ va, pte b pd va = pte s.(k_mem).(m_byte) pd va.
Proof.
  intros U Hk Hb s'. destruct (us_frame _ _ _ _ U _ _ _ Hk) as (Hf & Hnf & Hnp). destruct (us_free _ _ _ _ U) as (_ & _ & Hok & _). rewrite Forall_forall in Hok.
  apply (uspace_stable s pd free us s' free); [done|done|destruct (us_idle _ _ _ _ U); by split| | |].
  - apply (kmem_free_ext s.(k_mem)); [apply U|done|done|]. intros p x Hp Hx. apply Hb. intros Hx'. apply Hnf. by rewrite (in_page_eq _ _ _ x Hf (Hok p Hp)).
  - intros p x Hp Hx. apply Hb. intros Hx'. apply Hnp. destruct (tb_page _ _ _ (us_tables _ _ _ _ U) p Hp) as [Hpo _]. by rewrite (in_page_eq _ _ _ x Hf Hpo).
  - intros p Hp. by apply (owns_page _ _ _ _ _ U Hp).
Qed.

Lemma contiguous_empty : contiguous ∅ 0.
Proof. intros k. rewrite lookup_empty. split; [by intros []|lia]. Qed.

(** The effect of [inituvm] on an empty address space. *)
Record loaded_code (pd : Z) (init : list Z) (s : kstate) (free : list Z) (s' : kstate) (free' : list Z) (us : gmap Z (Z * Z)) : Prop := {
  lc_same : vm_same s s';
  lc_space : uspace s' pd free' us;
  lc_one : contiguous us 1;
  lc_code : ∀ va, 0 ≤ va < 4096 → user_byte s' pd va = Some (nth (Z.to_nat va) init 0);
  lc_kernel : same_kernel s s' pd;
  lc_free : ∀ p, p ∈ free' → p ∈ free;
  lc_owns : ∀ p, owns s' pd us p → owns s pd ∅ p ∨ p ∈ free;
  lc_bytes : ∀ x, ¬ pt_area s.(k_mem).(m_byte) pd free x → s'.(k_mem).(m_byte) x = s.(k_mem).(m_byte) x
}.

Lemma inituvm_run s pd free init e :
  uspace s pd free ∅ → Z.of_nat (length init) < 4096 → 1027 < Z.of_nat (length free) →
  ∃ s' free' us, inituvm pd init s e = Ret tt s' e ∧ loaded_code pd init s free s' free' us.
Proof.
  intros U Hlen Hl. pose proof (us_free _ _ _ _ U) as (_ & Hnd & _). unfold inituvm. rewrite (proj2 (Z.leb_gt PGSIZE _)) by (unfold PGSIZE; lia).
  destruct (grow_page s pd free ∅ e 0 U ltac:(done) ltac:(done)) as [(s1 & _ & G & K)|(a & s1 & s2 & r & s3 & free3 & R1 & _ & R2 & R3 & [(-> & G & K)|(-> & G & K & _)])].
  1, 3: exfalso; pose proof (kept_bound _ _ _ _ _ _ _ 0 Hnd K contiguous_empty ltac:(lia) ltac:(simpl; lia)); lia.
  mstep R1. mstep R2. rewrite Z.mul_0_r in R3. mstep R3. set (us := <[0 := (a, _)]> ∅) in *.
  assert (us !! 0 = Some (a, Z.lor PTE_W PTE_U)) as Hus by apply lookup_insert_eq. pose proof (ug_space _ _ _ _ _ _ _ G) as U3.
  destruct (us_frame _ _ _ _ U3 _ _ _ Hus) as (Ha & _ & _). destruct (ug_new _ _ _ _ _ _ _ G 0 a _ Hus ltac:(done)) as (Hafree & _ & Hz).
  assert (contiguous us (0 + 1)) as Hc by (apply contiguous_insert; [apply contiguous_empty|lia]).
  set (b := store_bytes a init s3.(k_mem).(m_byte)).
  assert (∀ x, ¬ in_page a x → b x = s3.(k_mem).(m_byte) x) as Hb by (intros x Hx; apply store_bytes_out; unfold in_page, PGSIZE in Hx; lia).
  destruct (uspace_store s3 pd free3 us 0 a _ b U3 Hus Hb) as (U4 & Ho & Hp4).
  exists (on_mem (set_m_byte b) s3), free3, us. split; [done|]. split; [|done|done| | |apply G| |].
  - eapply vm_same_trans; [apply G|apply vm_same_bytes].
  - intros va Hva. unfold user_byte. rewrite (uspace_translate _ _ _ _ 0 a _ va U4 Hus ltac:(lia)). rewrite Z.mod_small by lia.
    cbn [fmap option_fmap option_map]. f_equal. change (b (a + va) = nth (Z.to_nat va) init 0). destruct (decide (va < Z.of_nat (length init))) as [Hlt|Hge].
    + apply store_bytes_in; [lia|]. rewrite Z.add_simpl_l. rewrite nth_lookup. destruct (lookup_lt_is_Some_2 init (Z.to_nat va) ltac:(lia)) as [x ->]. done.
    + unfold b. rewrite store_bytes_out by lia. rewrite nth_overflow by lia. apply Hz. unfold in_page, PGSIZE. lia.
  - intros va Hva. change (pte b pd va = pte s.(k_mem).(m_byte) pd va). rewrite Hp4. by apply (ug_kernel _ _ _ _ _ _ _ G).
  - intros p [Hp|(k & fl & Hk)]%Ho.
    + apply (ug_pages _ _ _ _ _ _ _ G) in Hp as [?|?]; [left; by left|by right].
    + right. apply (ug_new _ _ _ _ _ _ _ G k p fl Hk). by rewrite lookup_empty.
  - intros x Hx. change (b x = s.(k_mem).(m_byte) x). rewrite Hb; [by apply G|]. intros Hx'. apply Hx. exists a. split; [by right|done].
Qed.

(** ** The root directory *)

(** The inode slot [iget] hands out for the root. *)
Definition root_inode (x : inode) : inode := set_i_dev ROOTDEV (set_i_inum ROOTINO (set_i_ref 1 (set_i_flags 0 x))).

Lemma namei_root s e x xs :
  cpu_wf s.(k_cpu) → s.(k_spin) !! Licache = None → s.(k_fs).(fs_inodes) = x :: xs → Forall (λ y, y.(i_ref) = 0) (x :: xs) →
  namei (str "/") s e = Ret (Some 0%nat) (unlocked s (on_fs (set_fs_inodes (root_inode x :: xs)) (locked Licache s))) e.
Proof.
  intros Hwf Hl Hx Hf. unfold namei, namex. change (hd0 (str "/") =? 47) with true. cbv iota. unfold iget. rewrite !bind_assoc.
  mstep (acquire_run Licache s e Hl). rewrite bind_assoc, bind_gets. change (k_fs (locked Licache s)) with (k_fs s). rewrite Hx.
  assert (ifind (λ y, (0 <? y.(i_ref)) && (y.(i_dev) =? ROOTDEV) && (y.(i_inum) =? ROOTINO)) (x :: xs) = None) as ->.
  { unfold ifind. rewrite fmap_None, list_find_None. eapply Forall_impl; [exact Hf|]. intros y Hy. cbn beta in *. rewrite Hy. tauto. }
  assert (ifind (λ y, y.(i_ref) =? 0) (x :: xs) = Some 0%nat) as ->.
  { unfold ifind. simpl. apply Forall_cons in Hf as [-> _]. done. }
  unfold modi, geti. rewrite !bind_assoc, bind_gets. change (k_fs (locked Licache s)) with (k_fs s). rewrite Hx. cbn [lookup list_lookup]. rewrite bind_deref.
  unfold seti. rewrite bind_modify, bind_assoc. fold (root_inode x).
  mcall (release_run Licache s).
  unfold ret, bind at 1. cbn [str length namex_loop]. unfold on_fs, set_k_fs, locked, unlocked. simpl. by rewrite Hx.
Qed.

(** ** The kernel's table under changes elsewhere *)

Lemma kernel_table_stable s kpd free s' free' :
  kernel_table s kpd free → s'.(k_mem).(m_end) = s.(k_mem).(m_end) → s'.(k_mem).(m_data) = s.(k_mem).(m_data) → kmem_idle s' → kmem_free s'.(k_mem) free' →
  (∀ p x, owns s kpd ∅ p → in_page p x → s'.(k_mem).(m_byte) x = s.(k_mem).(m_byte) x) → (∀ p, owns s kpd ∅ p → p ∉ free') →
  kernel_table s' kpd free' ∧ ∀ p, owns s' kpd ∅ p ↔ owns s kpd ∅ p.
Proof.
  intros [U Hk] He Hd Hi Hf Hx Hn. destruct (uspace_stable s kpd free ∅ s' free' U He Hi Hf) as (U' & Ho & Hp); [intros p x Hp; apply Hx; by left|done|].
  split; [split; [done|]|done]. intros va Hva. by rewrite Hp, Hd, Hk.
Qed.

Lemma kernel_table_mem s kpd free s' : kernel_table s kpd free → kmem_idle s' → s'.(k_mem) = s.(k_mem) → kernel_table s' kpd free ∧ ∀ p, owns s' kpd ∅ p ↔ owns s kpd ∅ p.
Proof.
  intros [U Hk] Hi Hm. unfold kernel_table, owns. rewrite Hm. split; [|done]. split; [|done]. by eapply uspace_mem.
Qed.

(** Pages taken for something else are none of the table. *)
Lemma kernel_table_takes s kpd free s' used free' :
  kernel_table s kpd free → takes s free s' used free' →
  kernel_table s' kpd free' ∧ (∀ p, owns s' kpd ∅ p ↔ owns s kpd ∅ p) ∧ ∀ p, p ∈ used → ¬ owns s' kpd ∅ p ∧ p ∉ free'.
Proof.
  intros K T. destruct (K) as [U _]. pose proof (us_free _ _ _ _ U) as (_ & Hnd & Hok & _). rewrite Forall_forall in Hok.
  destruct (kernel_table_stable s kpd free s' free' K) as [K' Ho]; [apply vm_same_end, T|apply vm_same_data, T|apply T|apply T| | |].
  - intros p x Hp Hx. apply T. intros q Hq Hx'. destruct (owns_page _ _ _ _ _ U Hp) as [Hpo Hpf]. apply Hpf. by rewrite (in_page_eq _ _ _ x Hpo (Hok q Hq)).
  - intros p Hp Hin. destruct (owns_page _ _ _ _ _ U Hp) as [_ Hpf]. apply Hpf. rewrite (tk_used _ _ _ _ _ T). apply elem_of_app. by right.
  - split; [done|]. split; [done|]. intros p Hp. rewrite Ho. rewrite (tk_used _ _ _ _ _ T) in Hnd. apply NoDup_app in Hnd as (_ & Hd & _). split; [|by apply Hd].
    intros Hown. destruct (owns_page _ _ _ _ _ U Hown) as [_ Hpf]. apply Hpf. rewrite (tk_used _ _ _ _ _ T). apply elem_of_app. by left.
Qed.

(** ** userinit *)

Definition first_process (pid kstack eip pd : Z) (q : proc) : proc :=
  set_p_state RUNNABLE (set_p_cwd (Some 0%nat) (set_p_name (safestrcpy q.(p_name) (str "initcode") 16)
    (set_p_tf init_tf (set_p_sz PGSIZE (set_p_pgdir pd (embryo pid kstack eip q)))))).

(** What [userinit] needs: an unused table and cache, the kernel's page table and memory. *)
Record user_ready (s : kstate) (kpd : Z) (free : list Z) : Prop := {
  ur_pt : pt_idle s;
  ur_icache : s.(k_spin) !! Licache = None;
  ur_table : kernel_table s kpd free;
  ur_data : data_ok s.(k_mem).(m_data);
  ur_slot : pfind unused s.(k_pt).(pt_proc) = Some 0%nat;
  ur_inodes : s.(k_fs).(fs_inodes) ≠ [] ∧ Forall (λ y, y.(i_ref) = 0) s.(k_fs).(fs_inodes);
  ur_room : 3000 ≤ Z.of_nat (length free)
}.

(** What it leaves: the process in slot 0 and its address space, apart from the kernel's table. *)
Record user_started (init : list Z) (s : kstate) (kpd : Z) (free : list Z) (s' : kstate) (q : proc) (kstack pd : Z) (free' : list Z) (us : gmap Z (Z * Z)) : Prop := {
  st_quiet : quiet s s';
  st_pt : s'.(k_pt) = set_pt_initproc (Some 0%nat) (numbered 0 (first_process s.(k_pt).(pt_nextpid) kstack s.(k_mem).(m_forkret) pd q) s.(k_pt));
  st_space : uspace s' pd free' us;
  st_one : contiguous us 1;
  st_code : ∀ va, 0 ≤ va < 4096 → user_byte s' pd va = Some (nth (Z.to_nat va) init 0);
  st_kernel : ∀ va, KERNBASE ≤ va < 4294967296 → pte s'.(k_mem).(m_byte) pd va = kernel_pte s.(k_mem).(m_data) va;
  st_table : kernel_table s' kpd free';
  st_apart : apart s' kpd ∅ pd us;
  st_kstack : kstack ∈ free ∧ kstack ∉ free' ∧ ¬ owns s' pd us kstack ∧ ¬ owns s' kpd ∅ kstack;
  st_owns : (∀ p, p ∈ free' ∨ owns s' pd us p → p ∈ free) ∧ ∀ p, owns s' kpd ∅ p ↔ owns s kpd ∅ p;
  st_pgdir : pd ≠ 0;
  st_mem : s'.(k_mem).(m_kpgdir) = s.(k_mem).(m_kpgdir) ∧ s'.(k_mem).(m_end) = s.(k_mem).(m_end) ∧ s'.(k_mem).(m_data) = s.(k_mem).(m_data);
  st_fs : ∃ x xs, s.(k_fs).(fs_inodes) = x :: xs ∧ s'.(k_fs) = set_fs_inodes (root_inode x :: xs) s.(k_fs);
  st_io : ∃ cs, s'.(k_io) = puts cs s.(k_io)
}.

(** The new table and its page of code, next to the kernel's table. *)
Lemma userinit_space s kpd free e init :
  kernel_table s kpd free → data_ok s.(k_mem).(m_data) → Z.of_nat (length init) < 4096 → 2999 ≤ Z.of_nat (length free) →
  ∃ pd s1 free1, setupkvm s e = Ret pd s1 e ∧ pd ≠ 0 ∧ vm_same s s1 ∧
    ∀ s2, kmem_idle s2 → s2.(k_mem) = s1.(k_mem) →
      ∃ s3 free3 us, inituvm pd init s2 e = Ret tt s3 e ∧ loaded_code pd init s2 free1 s3 free3 us ∧ kernel_table s3 kpd free3 ∧ apart s3 kpd ∅ pd us ∧
        (∀ va, KERNBASE ≤ va < 4294967296 → pte s3.(k_mem).(m_byte) pd va = kernel_pte s.(k_mem).(m_data) va) ∧
        (∀ p, p ∈ free3 ∨ owns s3 pd us p → p ∈ free) ∧ ∀ p, owns s3 kpd ∅ p ↔ owns s kpd ∅ p.
Proof.
  intros K Hd Hlen Hl. destruct (K) as [U _]. destruct (setupkvm_new s free e (us_idle _ _ _ _ U) (us_free _ _ _ _ U) Hd ltac:(lia)) as (pd & s1 & used & free1 & Hr & T & Hpd & Kp & Hpu & Hu).
  exists pd, s1, free1. split; [done|]. split; [done|]. split; [apply T|]. intros s2 Hi2 Hm2.
  destruct (kernel_table_takes _ _ _ _ _ _ K T) as (K1 & O1 & Hused). pose proof (tk_used _ _ _ _ _ T) as Hfree.
  destruct (kernel_table_mem _ _ _ s2 K1 Hi2 Hm2) as [K2 O2]. destruct (kernel_table_mem _ _ _ s2 Kp Hi2 Hm2) as [[Up Hp2] Op2].
  destruct (inituvm_run s2 pd free1 init e Up Hlen) as (s3 & free3 & us & Hr3 & L); [rewrite Hfree, length_app in Hl; lia|].
  exists s3, free3, us. split; [done|]. split; [done|].
  assert (∀ p, owns s1 pd ∅ p → p ∈ used) as Hown by (intros p [Hp|(k & fl & Hk)]; [by apply Hpu|by rewrite lookup_empty in Hk]).
  assert (apart s2 kpd ∅ pd ∅) as Hap by (intros p Hp Hq%Op2%Hown; apply O2 in Hp; by destruct (Hused p Hq)).
  destruct (kernel_table_stable s2 kpd free1 s3 free3 K2) as [K3 O3]; [apply vm_same_end, L|apply vm_same_data, L|apply L|apply L| | |].
  - intros p x Hp Hx. apply L. by eapply apart_area; [apply K2|exact Up|exact Hap|exact Hp|].
  - intros p Hp Hin%(lc_free _ _ _ _ _ _ _ L). by apply (owns_page _ _ _ _ _ (proj1 K2) Hp).
  - split; [done|]. split; [|split; [|split]].
    + intros p Hp%O3 [Hq|Hq]%(lc_owns _ _ _ _ _ _ _ L); [by apply (Hap p)|]. by apply (owns_page _ _ _ _ _ (proj1 K2) Hp).
    + intros va Hva. rewrite (lc_kernel _ _ _ _ _ _ _ L) by done. rewrite Hp2 by (unfold is_u32, KERNBASE in *; lia). by rewrite Hm2, (vm_same_data _ _ (tk_same _ _ _ _ _ T)).
    + intros p Hp. rewrite Hfree, elem_of_app. destruct Hp as [Hp|Hp]; [right; by apply L|].
      apply (lc_owns _ _ _ _ _ _ _ L) in Hp as [Hp%Op2%Hown|?]; [by left|by right].
    + intros p. by rewrite O3, O2, O1.
Qed.

(** The steps of [userinit] after the address space. *)
Lemma userinit_finish s e q x xs :
  pt_idle s → s.(k_spin) !! Licache = None → s.(k_pt).(pt_proc) !! 0%nat = Some q →
  s.(k_fs).(fs_inodes) = x :: xs → Forall (λ y, y.(i_ref) = 0) (x :: xs) →
  ∃ s', (modp 0 (set_p_sz PGSIZE);;
         modp 0 (set_p_tf init_tf);;
         modp 0 (λ p, set_p_name (safestrcpy p.(p_name) (str "initcode") 16) p);;
         cwd <- namei (str "/");;
         modp 0 (set_p_cwd cwd);;
         acquire Lptable;;
         modp 0 (set_p_state RUNNABLE);;
         release Lptable) s e = Ret tt s' e ∧ quiet s s' ∧ s'.(k_mem) = s.(k_mem) ∧ s'.(k_io) = s.(k_io) ∧ s'.(k_fs) = set_fs_inodes (root_inode x :: xs) s.(k_fs) ∧
    s'.(k_pt) = set_pt_proc (<[0%nat := set_p_state RUNNABLE (set_p_cwd (Some 0%nat) (set_p_name (safestrcpy q.(p_name) (str "initcode") 16)
                  (set_p_tf init_tf (set_p_sz PGSIZE q))))]> s.(k_pt).(pt_proc)) s.(k_pt).
Proof.
  intros [Hwf Hl] Hic Hq Hx Hf. pose proof (lookup_lt_Some _ _ _ Hq) as Hlt.
  assert (∀ s1 q1, s1.(k_pt).(pt_proc) !! 0%nat = Some q1 → ∀ g e1, modp 0 g s1 e1 = Ret tt (putp 0 (g q1) s1) e1 ∧ (putp 0 (g q1) s1).(k_pt).(pt_proc) !! 0%nat = Some (g q1)) as Hstep.
  { intros s1 q1 Hq1 g e1. split; [by apply modp_run|]. apply list_lookup_insert_eq. by eapply lookup_lt_Some. }
  destruct (Hstep _ _ Hq (set_p_sz PGSIZE) e) as [R1 Q1]. mstep R1. destruct (Hstep _ _ Q1 (set_p_tf init_tf) e) as [R2 Q2]. mstep R2.
  destruct (Hstep _ _ Q2 (λ p, set_p_name (safestrcpy p.(p_name) (str "initcode") 16) p) e) as [R3 Q3]. mstep R3.
  match type of Q3 with (pt_proc (k_pt ?x)) !! _ = _ => set (s3 := x) in * end.
  mstep (namei_root s3 e x xs Hwf Hic Hx Hf). set (s4 := unlocked s3 _).
  destruct (Hstep s4 _ Q3 (set_p_cwd (Some 0%nat)) e) as [R5 Q5]. mstep R5. set (s5 := putp 0 _ s4) in *.
  assert (pt_idle s5) as [Hwf5 Hl5] by (split; [by apply cpu_bracket_wf|done]).
  destruct (Hstep (locked Lptable s5) _ Q5 (set_p_state RUNNABLE) e) as [R6 _].
  rewrite (critical_unit Lptable _ s5 e _ e Hwf5 Hl5 R6) by done. eexists. split; [reflexivity|]. split; [|do 3 (split; [done|])].
  - split; [done| |done|done]. right. change (cpu_bracket (cpu_bracket s.(k_cpu)) = cpu_bracket s.(k_cpu)). apply cpu_bracket_idemp.
  - simpl. by rewrite !list_insert_insert_eq.
Qed.

Lemma userinit_run s kpd free e init q :
  user_ready s kpd free → s.(k_pt).(pt_proc) !! 0%nat = Some q → Z.of_nat (length init) < 4096 →
  ∃ s' kstack pd free' us, userinit init s e = Ret tt s' e ∧ user_started init s kpd free s' q kstack pd free' us.
Proof.
  intros [Hpt Hic K Hd Hslot [Hne Hf] Hroom] Hq Hlen. destruct free as [|a free]; [simpl in Hroom; lia|].
  pose proof (us_idle _ _ _ _ (proj1 K)) as Hi. pose proof (lookup_lt_Some _ _ _ Hq) as Hlt. pose proof (us_free _ _ _ _ (proj1 K)) as Hfree.
  destruct (allocproc_some s e 0 q a free Hpt Hi Hfree Hslot Hq) as (s1 & R1 & Q1 & M1 & F1 & FS1 & IO1 & P1).
  unfold userinit. mstep R1. unfold modpt. rewrite bind_modify, bind_deref. set (s1' := on_pt (set_pt_initproc (Some 0%nat)) s1).
  assert (kmem_idle s1') as Hi1 by (split; [exact (quiet_wf s s1 Q1 (proj1 Hi))|exact (quiet_free Lkmem s s1 Q1 (proj2 Hi))]).
  assert (kernel_table s1' kpd free ∧ ∀ p, owns s1' kpd ∅ p ↔ owns s kpd ∅ p) as [K1 O1].
  { apply (kernel_table_stable s kpd (a :: free)); [done|change (k_mem s1') with (k_mem s1); by rewrite M1..|done|done| |].
    - intros p x _ _. change (k_mem s1') with (k_mem s1). by rewrite M1.
    - intros p Hp. destruct (owns_page _ _ _ _ _ (proj1 K) Hp) as [_ Hn]. intros Hin. apply Hn. by right. }
  destruct (userinit_space s1' kpd free e init K1) as (pd & s2 & free2 & R2 & Hpd & V2 & Hinit); [change (k_mem s1') with (k_mem s1); by rewrite M1|done|simpl in Hroom; lia|].
  mstep R2. pose proof (quiet_vm _ _ V2) as (Q2 & P2 & FS2). set (p1 := embryo _ _ _ _) in *.
  assert (s2.(k_pt).(pt_proc) !! 0%nat = Some p1) as Hq2 by (rewrite P2; change (k_pt s1') with (set_pt_initproc (Some 0%nat) s1.(k_pt)); rewrite P1; by apply numbered_lookup).
  mstep (modp_run s2 0 p1 (set_p_pgdir pd) e Hq2). rewrite (proj2 (Z.eqb_neq pd 0) Hpd). set (s2' := putp 0 _ s2).
  assert (quiet s1' s2') as Q2' by (eapply quiet_trans; [exact Q2|apply quiet_putp]).
  assert (quiet s s2') as Q by (eapply quiet_trans; [|exact Q2']; destruct Q1; by split).
  destruct (Hinit s2') as (s3 & free3 & us & R3 & L & K3 & Hap & Hkern & Hin & O3);
    [split; [exact (quiet_wf _ _ Q (proj1 Hi))|exact (quiet_free _ _ _ Q (proj2 Hi))]|done|]. mstep R3.
  pose proof (quiet_vm _ _ (lc_same _ _ _ _ _ _ _ L)) as (Q3 & P3 & FS3). pose proof (quiet_trans _ _ _ Q Q3) as Q4.
  destruct (s.(k_fs).(fs_inodes)) as [|x xs] eqn:Hx; [done|].
  assert (s3.(k_pt).(pt_proc) !! 0%nat = Some (set_p_pgdir pd p1)) as Hq3 by (rewrite P3; apply list_lookup_insert_eq; by eapply lookup_lt_Some).
  assert (s3.(k_fs) = s.(k_fs)) as FSS by (rewrite FS3; change (k_fs s2') with (k_fs s2); rewrite FS2; exact FS1).
  destruct (userinit_finish s3 e (set_p_pgdir pd p1) x xs) as (s4 & R4 & Q5 & M4 & IO4 & FS4 & P4); [split; [exact (quiet_wf _ _ Q4 (proj1 Hpt))|exact (quiet_free _ _ _ Q4 (proj2 Hpt))]|
    exact (quiet_free _ _ _ Q4 Hic)|exact Hq3|by rewrite FSS|done|].
  exists s4, a, pd, free3, us. split; [exact R4|].
  assert (kmem_idle s4) as Hi4 by (pose proof (quiet_trans _ _ _ Q4 Q5) as Q6; split; [exact (quiet_wf _ _ Q6 (proj1 Hi))|exact (quiet_free _ _ _ Q6 (proj2 Hi))]).
  destruct (kernel_table_mem _ _ _ s4 K3 Hi4 M4) as [K4 O4]. assert (∀ p, owns s4 pd us p ↔ owns s3 pd us p) as Oq by (intros p; unfold owns; by rewrite M4).
  destruct Hfree as (_ & [Hna _]%NoDup_cons & _).
  split; [by eapply quiet_trans| |eapply uspace_mem; [done|exact M4|apply L]|apply L| | |done| | | |done| | |].
  - rewrite P4, P3. change (k_pt s2') with (set_pt_proc (<[0%nat := set_p_pgdir pd p1]> s2.(k_pt).(pt_proc)) s2.(k_pt)). rewrite P2.
    change (k_pt s1') with (set_pt_initproc (Some 0%nat) s1.(k_pt)). rewrite P1. unfold numbered. simpl. by rewrite !list_insert_insert_eq.
  - intros va Hva. rewrite <- (lc_code _ _ _ _ _ _ _ L va Hva). unfold user_byte. by rewrite M4.
  - intros va Hva. rewrite M4, Hkern by done. change (k_mem s1') with (k_mem s1). by rewrite M1.
  - intros p Hp%O4 Hp'%Oq. by apply (Hap p).
  - split; [by left|]. split; [intros Hc; apply Hna, Hin; by left|]. split; [intros Hc%Oq; apply Hna, Hin; by right|].
    intros Hc%O4%O3%O1. destruct (owns_page _ _ _ _ _ (proj1 K) Hc) as [_ Hn]. apply Hn. by left.
  - split; [intros p [Hp|Hp%Oq]; right; apply Hin; [by left|by right]|]. intros p. by rewrite O4, O3, O1.
  - rewrite M4. destruct (lc_same _ _ _ _ _ _ _ L) as [(? & ? & ? & ? & ->) _]. destruct V2 as [(? & ? & ? & ? & ->) _]. simpl. by rewrite M1.
  - exists x, xs. split; [done|]. by rewrite FS4, FSS.
  - rewrite IO4. destruct (lc_same _ _ _ _ _ _ _ L) as (_ & _ & cs' & ->). destruct V2 as (_ & _ & cs & Hcs). change (k_io s2') with (k_io s2). rewrite Hcs. exists (cs ++ cs').
    change (k_io s1') with (k_io s1). rewrite IO1. unfold puts. by rewrite foldl_app.
Qed.
