(* ===== verification/Main.v ===== *)
(** * Initialisation (main.c)

    [main] runs on the boot processor; it initialises the kernel and the devices,
    starts the other processors one at a time and makes the first process.  A
    processor that is started runs the code of entryother.S, which loads what
    [startothers] has left below it in memory and calls [mpenter]. *)

From S2P Require Import Prelude KState Spinlock Print Mem Hardware Desc Mp Lapic Ata Args Kalloc Vm AddrSpace UserSpace UserCopy Proc.
From S2P Require Import Sleeplock Bio Ide Inode Console CString Fs File ProcLife Fork FirstProc.
#[local] Open Scope kernel_scope.

(** What the linker and the assembly files give: the address of [cpus], of [idt]
    and of the handlers of vectors.S, the image of entryother.S and the address
    of [mpenter] in the kernel, the address of [entrypgdir], the image of
    initcode.S, and the return address [cpunum] would print. *)
Record linkmap : Type := Mklinkmap {
  ln_cpus : Z;
  ln_idt : Z;
  ln_vectors : nat → Z;
  ln_entryother : list Z;
  ln_mpenter : Z;
  ln_entrypgdir : Z;
  ln_initcode : list Z;
  ln_return : Z
}.

(** struct cpu of proc.h: its size, and the offsets of [gdt] and [cpu]. *)
Definition sizeof_cpu : Z := 188.
Definition gdt_off : Z := 112.
Definition cpu_off : Z := 180.

(** The kernel as the running processor sees it, the devices with the variables
    of the disk driver, and what each processor has: its struct cpu and page-table
    register while it is not running, its descriptor tables (the interrupt
    descriptor table is one array; every entry here shows it), the [started] flag
    and the stack it was started on. *)
Record system (D : Type) : Type := Mksystem {
  sy_k : kstate;
  sy_ide : ide D;
  sy_cpus : list cpu;
  sy_tab : list tables_state;
  sy_started : list Z;
  sy_stack : list Z
}.
Arguments Mksystem {D}.
Arguments sy_k {D}.
Arguments sy_ide {D}.
Arguments sy_cpus {D}.
Arguments sy_tab {D}.
Arguments sy_started {D}.
Arguments sy_stack {D}.

Section state.
Context {D : Type}.
Definition set_sy_k (v : kstate) (s : system D) : system D := Mksystem v s.(sy_ide) s.(sy_cpus) s.(sy_tab) s.(sy_started) s.(sy_stack).
Definition set_sy_ide (v : ide D) (s : system D) : system D := Mksystem s.(sy_k) v s.(sy_cpus) s.(sy_tab) s.(sy_started) s.(sy_stack).
Definition set_sy_cpus (v : list cpu) (s : system D) : system D := Mksystem s.(sy_k) s.(sy_ide) v s.(sy_tab) s.(sy_started) s.(sy_stack).
Definition set_sy_tab (v : list tables_state) (s : system D) : system D := Mksystem s.(sy_k) s.(sy_ide) s.(sy_cpus) v s.(sy_started) s.(sy_stack).
Definition set_sy_started (v : list Z) (s : system D) : system D := Mksystem s.(sy_k) s.(sy_ide) s.(sy_cpus) s.(sy_tab) v s.(sy_stack).
Definition set_sy_stack (v : list Z) (s : system D) : system D := Mksystem s.(sy_k) s.(sy_ide) s.(sy_cpus) s.(sy_tab) s.(sy_started) v.

#[export] Instance system_board : Board D (system D).
Proof. refine {| mach s := s.(sy_ide).(ide_mach); set_mach x s := set_sy_ide (set_ide_mach x s.(sy_ide)) s |}; [done|done|by intros [? [] ? ? ? ?]]. Defined.

(** A part of the system that does not give up the processor. *)
Definition part {P A} (get : system D → P) (put : P → system D → system D) (m : M P A) : M (system D) A := λ s e,
  match m (get s) [] with
  | Ret a x _ => Ret a (put x s) e
  | Panic msg => Panic msg
  | Switched x => Switched (put x s)
  | Spins x => Spins (put x s)
  | Fault w => Fault w
  end.

Definition on_k {A} (m : K A) : M (system D) A := part sy_k set_sy_k m.
Definition on_ide {A} (m : M (ide D) A) : M (system D) A := part sy_ide set_sy_ide m.
End state.

(** ** main.c *)

Section main.
Context {D : Type} {HW : Hardware D} (L : linkmap).
Notation sM := (M (system D)).

(** A device function.  What it prints goes to the console. *)
Definition on_mach {A} (m : M (machine D) A) : sM A :=
  a <- on_dev m;;
  out <- gets (λ s : system D, (mach s).(printed_out));;
  (if decide (out = []) then ret tt else
   modify (λ s : system D, set_mach (set_printed_out [] (mach s)) s);;
   on_k (cprintf "%s" [AStr (Some out)]));;
  ret a.

Definition cpunum : sM Z := on_mach (Lapic.cpunum L.(ln_return)).

(** [seginit]: [cpu] and [proc] then stand for this processor's variables. *)
Definition seginit : sM unit :=
  c <- cpunum;;
  let i := Z.to_nat c in
  t <- gets (λ s : system D, s.(sy_tab) !! i);;
  t <- deref t;;
  modify (λ s, set_sy_tab (<[i := Desc.seginit (L.(ln_cpus) + sizeof_cpu * c) gdt_off cpu_off t]> s.(sy_tab)) s);;
  on_k (modify (on_cpu (λ c, set_c_id i (set_c_proc None c)))).

(** [consoleinit], with its interrupt. *)
Definition consoleinit : sM unit :=
  on_k Console.consoleinit;;
  on_mach (picenable IRQ_KBD);;
  on_mach (ioapicenable IRQ_KBD 0).

Definition tvinit : sM unit :=
  modify (λ s, set_sy_tab (Desc.tvinit L.(ln_vectors) <$> s.(sy_tab)) s);;
  on_k (initlock Ltime).

(** [idtinit] on the running processor. *)
Definition idtinit : sM unit :=
  i <- gets (λ s : system D, s.(sy_k).(k_cpu).(c_id));;
  t <- gets (λ s : system D, s.(sy_tab) !! i);;
  t <- deref t;;
  modify (λ s, set_sy_tab (<[i := Desc.idtinit L.(ln_idt) t]> s.(sy_tab)) s).

(** [n] rounds of the scheduler, which never returns. *)
Definition mpmain (n : nat) : sM unit :=
  c <- cpunum;;
  on_k (cprintf ("cpu%d: starting" +:+ newline) [AInt c]);;
  idtinit;;
  i <- gets (λ s : system D, s.(sy_k).(k_cpu).(c_id));;
  modify (λ s, set_sy_started (<[i := 1]> s.(sy_started)) s);;
  on_k (scheduler n).

Definition mpenter (fuel n : nat) : sM unit :=
  on_k switchkvm;;
  seginit;;
  on_mach (lapicinit fuel);;
  mpmain n.

(** [while(c->started == 0);]: the other processors run meanwhile. *)
Definition others_run : sM unit := λ s e,
  match e with [] => Spins s | f :: e' => Ret tt (f s) e' end.
Definition wait_started (c : nat) : sM (option unit) :=
  while_sleep (o <- gets (λ s : system D, s.(sy_started) !! c);; v <- deref o;; ret (v =? 0)) (others_run;; ret None).

(** The page [startothers] uses for entryother.S. *)
Definition code : Z := P2V 28672.

Definition startother (c : nat) : sM unit :=
  me <- cpunum;;
  if Z.of_nat c =? me then ret tt else
  stack <- on_k kalloc;;
  on_k (storeM (code - 4) (u32 (stack + KSTACKSIZE)));;
  on_k (storeM (code - 8) L.(ln_mpenter));;
  on_k (storeM (code - 12) (V2P L.(ln_entrypgdir)));;
  o <- gets (λ s : system D, (mach s).(apicids) !! c);;
  id <- deref o;;
  on_mach (lapicstartap id (V2P code));;
  wait_started c;;
  ret tt.

Definition startothers : sM unit :=
  on_k (modify (on_mem (λ m, set_m_byte (store_bytes code L.(ln_entryother) m.(m_byte)) m)));;
  n <- gets (λ s : system D, (mach s).(ncpu));;
  for_each (seq 0 (Z.to_nat n)) startother.

Definition main (fuel n : nat) : sM unit :=
  kend <- gets (λ s : system D, s.(sy_k).(k_mem).(m_end));;
  on_k (kinit1 kend (P2V 4194304));;
  on_k kvmalloc;;
  m <- gets (λ s : system D, s.(sy_k).(k_mem).(m_byte));;
  on_mach (mpinit m fuel);;
  on_mach (lapicinit fuel);;
  seginit;;
  c <- cpunum;;
  on_k (cprintf (newline +:+ "cpu%d: starting xv6" +:+ newline +:+ newline) [AInt c]);;
  on_mach picinit;;
  on_mach ioapicinit;;
  consoleinit;;
  on_mach uartinit;;
  on_k pinit;;
  tvinit;;
  on_k binit;;
  on_k fileinit;;
  on_ide (ideinit fuel);;
  mp <- gets (λ s : system D, (mach s).(ismp));;
  (if negb (truthy mp) then on_mach timerinit else ret tt);;
  startothers;;
  on_k (kinit2 (P2V 4194304) (P2V PHYSTOP));;
  on_k (userinit L.(ln_initcode));;
  mpmain n.
End main.

(** [entrypgdir]: the entries of 4 Mbyte pages entry.S and entryother.S run on. *)
Definition PTE_PS : Z := 128.
Definition entrypgdir : list Z :=
  let entry := Z.lor (Z.lor (Z.lor 0 PTE_P) PTE_W) PTE_PS in
  <[Z.to_nat (KERNBASE / 4194304) := entry]> (<[0%nat := entry]> (replicate NPDENTRIES 0)).

(** The processor's reading of an entry with the page size bit. *)
Definition big_page (pd : list Z) (va : Z) : option Z :=
  x ← pd !! Z.to_nat (PDX va);
  if truthy (Z.land x PTE_P) && truthy (Z.land x PTE_PS) then Some (4194304 * (x / 4194304) + va mod 4194304) else None.

(** The boot page table shows the first 4 Mbytes of memory at 0 and at KERNBASE, and nothing else. *)
Lemma entrypgdir_maps va :
  is_u32 va → big_page entrypgdir va = if decide (va < 4194304 ∨ KERNBASE ≤ va < KERNBASE + 4194304) then Some (va mod 4194304) else None.
Proof.
  unfold is_u32. intros Hva. pose proof (PDX_range va) as HD. rewrite PDX_eq in HD.
  assert (0 ≤ va / 4194304 < 1024) as Hd by (split; [apply Z.div_pos; lia|apply Z.div_lt_upper_bound; lia]).
  pose proof (Z.div_mod va 4194304 ltac:(done)). pose proof (Z.mod_pos_bound va 4194304 eq_refl).
  unfold big_page. rewrite PDX_eq, (Z.mod_small (va / 4194304)) by done. unfold entrypgdir. change (Z.to_nat (KERNBASE / 4194304)) with 512%nat. cbv zeta.
  destruct (decide (va / 4194304 = 512)) as [E|E]; [|destruct (decide (va / 4194304 = 0)) as [E0|E0]].
  - rewrite E. change (Z.to_nat 512) with 512%nat. rewrite list_lookup_insert_eq by (rewrite length_insert, length_replicate; unfold NPDENTRIES; lia).
    rewrite decide_True by (unfold KERNBASE; lia). done.
  - rewrite E0. change (Z.to_nat 0) with 0%nat. rewrite list_lookup_insert_ne by done. rewrite list_lookup_insert_eq by (rewrite length_replicate; unfold NPDENTRIES; lia).
    rewrite decide_True by lia. done.
  - rewrite !list_lookup_insert_ne by lia. rewrite lookup_replicate_2 by (unfold NPDENTRIES; lia). rewrite decide_False by (unfold KERNBASE; lia). done.
Qed.

(** The words at [a]. *)
Definition load_words (m : mem) (a : Z) (n : nat) : list Z := (λ i, load32 m (a + 4 * Z.of_nat i)) <$> seq 0 n.

Lemma load_words_ext (m m' : mem) a n : (∀ x, a ≤ x < a + 4 * Z.of_nat n → m' x = m x) → load_words m' a n = load_words m a n.
Proof.
  intros Hm. unfold load_words. apply list_fmap_ext. intros i k Hi. apply load32_ext. intros x Hx. apply Hm. apply lookup_seq in Hi as [-> ?]. lia.
Qed.

Lemma P2V_V2P a : KERNBASE ≤ a < 4294967296 → P2V (V2P a) = a.
Proof. intros Ha. unfold P2V, V2P. rewrite (u32_id (a - KERNBASE)) by (unfold is_u32, KERNBASE in *; lia). rewrite u32_id by (unfold is_u32, KERNBASE in *; lia). lia. Qed.

(** ** The machine

    What [main] relies on: the disk of Ata.v at its ports; local APICs at
    [pf_base], one for each processor, of which an access reaches the one of the
    processor that makes it; and the startup interrupts, which the registers of
    the local APIC send. *)
Class Platform (D : Type) `{Hardware D} : Type := {
  pf_ata :: Ata D;
  pf_base : Z;
  pf_cpu : D → Z;                   (* the local APIC id of the processor that runs *)
  pf_switch : Z → D → D;            (* the processor with this id runs *)
  pf_icrhi : D → Z;                 (* its destination register *)
  pf_startups : D → list (Z * Z);   (* startup interrupts sent, newest first: to whom, and the address *)
  pf_pending : D → nat;             (* polls until the last interrupt is delivered *)
  pf_patience : nat;
  pf_base_ok : 0 < pf_base < 4294967296 - 4096;
  pf_id d : 0 ≤ pf_cpu d < 256;
  pf_bounded d : (pf_pending d ≤ pf_patience)%nat;
  pf_switched id d : 0 ≤ id < 256 → pf_cpu (pf_switch id d) = id;
  pf_switch_disk id d : at_disk (pf_switch id d) = at_disk d;
  pf_port_out port v d : pf_cpu (port_out port v d) = pf_cpu d ∧ pf_startups (port_out port v d) = pf_startups d;
  pf_port_in port d : pf_cpu (snd (port_in port d)) = pf_cpu d ∧ pf_startups (snd (port_in port d)) = pf_startups d;
  pf_port_disk port d : port < 496 ∨ 503 < port → at_disk (snd (port_in port d)) = at_disk d;
  pf_mmio_in a d : let d' := snd (mmio_in a d) in pf_cpu d' = pf_cpu d ∧ pf_startups d' = pf_startups d ∧ pf_icrhi d' = pf_icrhi d ∧ at_disk d' = at_disk d;
  pf_read_id d : fst (mmio_in (pf_base + 4 * ID) d) = Z.shiftl (pf_cpu d) 24;
  pf_read_icr d : truthy (Z.land (u32 (fst (mmio_in (pf_base + 4 * ICRLO) d))) DELIVS) = negb (pf_pending d =? 0)%nat ∧
    pf_pending (snd (mmio_in (pf_base + 4 * ICRLO) d)) = pred (pf_pending d);
  pf_mmio_out a v d : let d' := mmio_out a v d in
    pf_cpu d' = pf_cpu d ∧ at_disk d' = at_disk d ∧ pf_icrhi d' = (if a =? pf_base + 4 * ICRHI then v else pf_icrhi d) ∧
    pf_startups d' = (if (a =? pf_base + 4 * ICRLO) && (Z.land v 1792 =? STARTUP) then (Z.shiftr (pf_icrhi d) 24, 4096 * (v mod 256)) :: pf_startups d else pf_startups d)
}.

Section platform.
Context {D : Type} `{Platform D} (L : linkmap) (fuel : nat).
Notation sM := (M (system D)).

(** [m] on the processor [c] with the local APIC id [id]; the boot processor is between two instructions. *)
Definition run_as (c : nat) (id : Z) (cr3 esp : Z) (m : sM unit) (s : system D) : system D :=
  match s.(sy_cpus) !! c with
  | None => s
  | Some x =>
      let me := s.(sy_k).(k_cpu) in
      let my_id := pf_cpu (mach s).(dev) in
      let s1 := set_sy_stack (<[c := esp]> s.(sy_stack)) (set_sy_k (set_k_cpu (set_c_cr3 cr3 x) s.(sy_k))
                  (set_mach (set_dev (pf_switch id (mach s).(dev)) (mach s)) s)) in
      match m s1 [] with
      | Ret _ s2 _ =>
          set_sy_cpus (<[c := s2.(sy_k).(k_cpu)]> s2.(sy_cpus)) (set_sy_k (set_k_cpu me s2.(sy_k))
            (set_mach (set_dev (pf_switch my_id (mach s2).(dev)) (mach s2)) s2))
      | _ => s
      end
  end.

(** The processor the newest startup interrupt went to runs the code at its
    address: that of entryother.S, when it is there.  The code turns on paging
    with the directory whose physical address is 12 bytes below it, which must
    be that of the boot page table, and then calls what the word 8 bytes below
    it points to, on the stack the word 4 bytes below it points to.  The
    processor goes through [r] rounds of the scheduler before the boot
    processor goes on. *)
Definition ap_step (r : nat) (s : system D) : system D :=
  match pf_startups (mach s).(dev) with
  | [] => s
  | (id, addr) :: _ =>
      let m := s.(sy_k).(k_mem).(m_byte) in
      let start := P2V addr in
      match list_find (λ x, x = id) (take (Z.to_nat (mach s).(ncpu)) (mach s).(apicids)) with
      | None => s
      | Some (c, _) =>
          if decide (load_bytes m start (length L.(ln_entryother)) = L.(ln_entryother) ∧ load32 m (start - 8) = L.(ln_mpenter) ∧
                     load_words m (P2V (load32 m (start - 12))) NPDENTRIES = entrypgdir) then
            run_as c id (load32 m (start - 12)) (load32 m (start - 4)) (mpenter L fuel r) s
          else s
      end
  end.

(** A schedule of the start of the other processors: for each of them how often
    the boot processor finds it not started, and the rounds it then runs. *)
Definition schedule (ws : list (nat * nat)) : list (system D → system D) :=
  ws ≫= λ wr, replicate wr.1 id ++ [ap_step wr.2].
End platform.

(** ** The kernel during initialisation *)

(** The kernel's table [kpd] is in place, the free pages [free] and the table are below 4 Mbytes, no lock is held, and the
    process table and inode cache are as in the kernel's image. *)
Record kboot (k : kstate) (kpd : Z) (free : list Z) : Prop := {
  kb_cpu : k.(k_cpu).(c_ncli) = 0 ∧ k.(k_cpu).(c_if) = false;
  kb_spin : k.(k_spin) = ∅;
  kb_table : kernel_table k kpd free;
  kb_kpgdir : k.(k_mem).(m_kpgdir) = kpd;
  kb_pages : ∀ p, p ∈ free ∨ owns k kpd ∅ p → p < KERNBASE + 4194304;
  kb_data : data_ok k.(k_mem).(m_data);
  kb_end : KERNBASE + EXTMEM ≤ k.(k_mem).(m_end) ≤ KERNBASE + 4194304;
  kb_io : io_ok k.(k_io);
  kb_pt : k.(k_pt).(pt_proc) = replicate NPROC zero_proc ∧ k.(k_pt).(pt_nextpid) = 1;
  kb_inodes : k.(k_fs).(fs_inodes) = replicate NINODE zero_inode
}.

Lemma kboot_idle k kpd free : kboot k kpd free → cpu_wf k.(k_cpu) ∧ (∀ lk, k.(k_spin) !! lk = None) ∧ can_print k.
Proof.
  intros K. destruct (kb_cpu _ _ _ K) as [Hn Hif]. assert (cpu_wf k.(k_cpu)) as Hwf by (split; [lia|done]).
  assert (∀ lk, k.(k_spin) !! lk = None) as Hs by (intros lk; by rewrite (kb_spin _ _ _ K)). split; [done|]. split; [done|]. split; [apply K|done].
Qed.

(** Changes elsewhere. *)
Lemma kboot_same k k' kpd free :
  kboot k kpd free → k'.(k_mem) = k.(k_mem) → k'.(k_spin) = ∅ → k'.(k_cpu).(c_ncli) = 0 ∧ k'.(k_cpu).(c_if) = false → k'.(k_pt) = k.(k_pt) →
  k'.(k_fs).(fs_inodes) = k.(k_fs).(fs_inodes) → io_ok k'.(k_io) → kboot k' kpd free.
Proof.
  intros K Hm Hs Hc Hp Hf Hio. destruct (kernel_table_mem _ _ _ k' (kb_table _ _ _ K)) as [T O]; [split; [split; [lia|by destruct Hc as [-> ->]]|by rewrite Hs]|done|].
  destruct K. split; try done; rewrite ?Hm, ?Hp, ?Hf; try done. intros p [?|?%O]; auto.
Qed.

Lemma kboot_printed k cs kpd free : kboot k kpd free → kboot (printed cs k) kpd free.
Proof.
  intros K. destruct (kb_cpu _ _ _ K) as [Hn Hif]. apply (kboot_same k); [done|done|apply K| |done|done|by apply puts_ok, K].
  unfold printed. simpl. destruct (truthy _); [|done]. unfold cpu_bracket. rewrite Hn. done.
Qed.

(** Stores below the kernel's end. *)
Lemma kboot_store k b kpd free :
  kboot k kpd free → (∀ x, k.(k_mem).(m_end) ≤ x → b x = k.(k_mem).(m_byte) x) → kboot (on_mem (set_m_byte b) k) kpd free.
Proof.
  intros K Hb. destruct (kboot_idle _ _ _ K) as (Hwf & Hs & _). destruct (kb_table _ _ _ K) as [U _].
  destruct (kernel_table_stable k kpd free (on_mem (set_m_byte b) k) free (kb_table _ _ _ K)) as [T O]; [done|done|by split| | | |].
  - apply (kmem_free_ext k.(k_mem)); [apply U|done|done|]. intros p x Hp Hx. apply Hb. destruct (us_free _ _ _ _ U) as (_ & _ & Hok & _).
    destruct (proj1 (Forall_forall _ _) Hok p Hp) as (_ & He & _). unfold in_page in Hx. lia.
  - intros p x Hp Hx. apply Hb. destruct (owns_page _ _ _ _ _ U Hp) as [(_ & He & _) _]. unfold in_page in Hx. lia.
  - intros p Hp. by apply (owns_page _ _ _ _ _ U Hp).
  - destruct K. split; try done. intros p [?|?%O]; auto.
Qed.

(** A page for a stack. *)
Lemma kboot_kalloc k a kpd free e :
  kboot k kpd (a :: free) → ∃ k', kalloc k e = Ret a k' e ∧ kboot k' kpd free ∧ k'.(k_mem).(m_byte) = k.(k_mem).(m_byte) ∧
    page_ok k.(k_mem) a ∧ a ∉ free ∧ (∀ p, owns k' kpd ∅ p ↔ owns k kpd ∅ p) ∧ vm_same k k'.
Proof.
  intros K. destruct (kboot_idle _ _ _ K) as (Hwf & Hs & _). destruct (kb_table _ _ _ K) as [U _]. destruct (kb_cpu _ _ _ K) as [Hn Hif].
  destruct (kalloc_pop a free k e (us_idle _ _ _ _ U) (us_free _ _ _ _ U)) as (Hr & Hf & Ha & Hna & _). set (k' := alloced _ k) in *.
  assert (takes k (a :: free) k' [a] free) as T by (split; [apply vm_same_alloced|by apply alloced_idle|done|done|done]).
  destruct (kernel_table_takes _ _ _ _ _ _ (kb_table _ _ _ K) T) as (T' & O & Hused). exists k'. split; [done|]. split; [|split; [done|split; [done|split; [done|split; [exact O|apply T]]]]].
  destruct K. split; try done.
  - change (k_cpu k') with (kmem_cpu k). unfold kmem_cpu, cpu_bracket. destruct (truthy _); [|done]. by rewrite Hn.
  - intros p [?|?%O]; apply kb_pages0; [left; by right|by right].
Qed.

Lemma binit_run k e : ∃ k', binit k e = Ret tt k' e ∧ k'.(k_mem) = k.(k_mem) ∧ (k.(k_spin) = ∅ → k'.(k_spin) = ∅) ∧ k'.(k_cpu) = k.(k_cpu) ∧ k'.(k_pt) = k.(k_pt) ∧
  k'.(k_fs).(fs_inodes) = k.(k_fs).(fs_inodes) ∧ k'.(k_io) = k.(k_io).
Proof.
  unfold binit, initlock at 1. rewrite bind_modify. set (k1 := set_k_spin _ k).
  assert (∀ l k2, ∃ k', for_each l (λ i, initsleeplock (SLbuf i)) k2 e = Ret tt k' e ∧ k'.(k_mem) = k2.(k_mem) ∧ (k2.(k_spin) = ∅ → k'.(k_spin) = ∅) ∧
    k'.(k_cpu) = k2.(k_cpu) ∧ k'.(k_pt) = k2.(k_pt) ∧ k'.(k_fs) = k2.(k_fs) ∧ k'.(k_io) = k2.(k_io)) as Hloop.
  { induction l as [|i l IH]; intros k2; [by exists k2|]. cbn [for_each]. unfold initsleeplock at 1, initlock. rewrite bind_assoc, !bind_modify.
    edestruct IH as (k' & Hr & H1 & H2 & H3 & H4 & H5 & H6). exists k'. split; [exact Hr|]. split; [done|]. split; [|done]. intros Hk. apply H2. simpl. rewrite Hk. apply delete_empty. }
  destruct (Hloop (seq 0 NBUF) k1) as (k' & Hr & H1 & H2 & H3 & H4 & H5 & H6). mstep Hr. eexists. split; [reflexivity|]. simpl. rewrite H5. split; [done|]. split; [|done].
  intros Hk. apply H2. simpl. rewrite Hk. apply delete_empty.
Qed.

(** ** Device functions *)

Section devices.
Context {D : Type} `{Platform D}.
Notation dM := (M (machine D)).

(** What the drivers' initialisation does not touch. *)
Record keeps (x x' : machine D) : Prop := {
  ke_conf : (x'.(ncpu), x'.(apicids), x'.(lapic), x'.(int_on), x'.(printed_out)) = (x.(ncpu), x.(apicids), x.(lapic), x.(int_on), x.(printed_out));
  ke_cpu : pf_cpu x'.(dev) = pf_cpu x.(dev);
  ke_disk : at_disk x'.(dev) = at_disk x.(dev)
}.

Lemma keeps_self x : keeps x x.
Proof. by split. Qed.

Lemma keeps_chain x y z : keeps x y → keeps y z → keeps x z.
Proof. intros [A1 A2 A3] [B1 B2 B3]. split; congruence. Qed.

Lemma keeps_lapic x y : keeps x y → y.(lapic) = x.(lapic).
Proof. intros [A _ _]. congruence. Qed.

(** Without a local APIC, or with the one of the platform. *)
Definition apic_ok (x : machine D) : Prop := x.(lapic) = 0 ∨ x.(lapic) = pf_base.

(** [m] always returns and keeps these. *)
Definition tame {A} (m : dM A) : Prop := ∀ x e, apic_ok x → ∃ a x', m x e = Ret a x' e ∧ keeps x x'.

Lemma tame_ret {A} (a : A) : tame (ret a).
Proof. intros x e _. exists a, x. split; [done|apply keeps_self]. Qed.

Lemma tame_bind {A B} (m : dM A) (f : A → dM B) : tame m → (∀ a, tame (f a)) → tame (bind m f).
Proof.
  intros Hm Hf x e Hx. destruct (Hm x e Hx) as (a & x1 & R1 & K1). destruct (Hf a x1 e) as (b & x2 & R2 & K2); [unfold apic_ok; by rewrite (keeps_lapic _ _ K1)|].
  exists b, x2. split; [by mstep R1|by eapply keeps_chain].
Qed.

Lemma tame_gets {A} (f : machine D → A) : tame (gets f).
Proof. intros x e _. eexists _, x. split; [reflexivity|apply keeps_self]. Qed.

Lemma tame_modify g : (∀ x, keeps x (g x)) → tame (modify g).
Proof. intros Hg x e _. by exists tt, (g x). Qed.

Lemma ata_out_other port v a : port < 496 ∨ 503 < port → ata_out at_delay port v a = a.
Proof.
  intros Hp. unfold ata_out. destruct ((498 <=? port) && (port <=? 502)) eqn:E; [bool_facts; lia|].
  by rewrite (proj2 (Z.eqb_neq port 503)), (proj2 (Z.eqb_neq port 496)) by lia.
Qed.

Lemma tame_outb port v : port < 496 ∨ 503 < port → tame (outb port v).
Proof.
  intros Hp. apply tame_modify. intros x. destruct (pf_port_out port (u8 v) x.(dev)) as [H1 _]. split; [done|exact H1|]. simpl. rewrite at_out. by apply ata_out_other.
Qed.

Lemma tame_inb port : port < 496 ∨ 503 < port → tame (inb port).
Proof.
  intros Hp x e _. destruct (pf_port_in port x.(dev)) as [H1 _]. pose proof (pf_port_disk port x.(dev) Hp) as H2. unfold inb. destruct (port_in port (dev x)) as [v d].
  eexists _, _. split; [reflexivity|]. by split.
Qed.

Lemma tame_writel a v : tame (writel a v).
Proof. apply tame_modify. intros x. destruct (pf_mmio_out a (u32 v) x.(dev)) as (H1 & H2 & _). by split. Qed.

Lemma tame_store a v : tame (modify (λ s : machine D, set_dev (mmio_out a v s.(dev)) s)).
Proof. apply tame_modify. intros x. destruct (pf_mmio_out a v x.(dev)) as (H1 & H2 & _). by split. Qed.

Lemma tame_readl a : tame (readl a).
Proof.
  intros x e _. destruct (pf_mmio_in a x.(dev)) as (H1 & _ & _ & H2). unfold readl. destruct (mmio_in a (dev x)) as [v d]. eexists _, _. split; [reflexivity|]. by split.
Qed.

Lemma tame_for_each {X} (l : list X) (f : X → dM unit) : (∀ a, tame (f a)) → tame (for_each l f).
Proof. intros Hf. induction l as [|a l IH]; [apply tame_ret|]. by apply tame_bind; [apply Hf|intros _]. Qed.

Lemma tame_if {A} (b : bool) (m m' : dM A) : tame m → tame m' → tame (if b then m else m').
Proof. by destruct b. Qed.
End devices.

Create HintDb tame.
#[export] Hint Resolve tame_ret tame_gets tame_writel tame_store tame_readl : tame.
#[export] Hint Extern 1 (tame (outb _ _)) => apply tame_outb; first [left; done|right; done] : tame.
#[export] Hint Extern 1 (tame (inb _)) => apply tame_inb; first [left; done|right; done] : tame.
#[export] Hint Extern 1 (tame (modify _)) => apply tame_modify; intros ?; by split : tame.

(** Goes through the code of a driver. *)
Ltac go_tame := repeat (first [progress (eauto with tame nocore)|apply tame_bind; [|intros ?]|apply tame_if|apply tame_for_each; intros ?|progress cbv zeta]).

Section drivers.
Context {D : Type} `{Platform D}.
Notation dM := (M (machine D)).

Lemma tame_picenable irq : tame (picenable (D := D) irq).
Proof. unfold picenable, picsetmask. go_tame. Qed.

Lemma tame_picinit : tame (picinit (D := D)).
Proof. unfold picinit, picsetmask. go_tame. Qed.

Lemma tame_ioapicenable irq c : tame (ioapicenable (D := D) irq c).
Proof. unfold ioapicenable, ioapicwrite. go_tame. Qed.

(** [ioapicinit] may print. *)
Lemma ioapicinit_keeps (x : machine D) e : apic_ok x → ∃ x', ioapicinit x e = Ret tt x' e ∧ keeps x (set_printed_out x.(printed_out) x').
Proof.
  intros Hx. unfold ioapicinit. rewrite bind_gets. destruct (negb _); [exists x; split; [done|by split]|].
  destruct (tame_bind (ioapicread REG_VER) (λ v, r <- ioapicread REG_ID;; own <- gets ioapicid;; ret (v, r, own)) ltac:(unfold ioapicread; go_tame) ltac:(intros; unfold ioapicread; go_tame) x e Hx) as ([[v r] own] & x1 & R1 & K1).
  unfold bind, gets, ret in R1. unfold bind at 1. destruct (ioapicread REG_VER x e) as [v' y1 e1| | | |]; try done. unfold bind at 1. destruct (ioapicread REG_ID y1 e1) as [r' y2 e2| | | |]; try done.
  injection R1 as -> -> <- -> ->. rewrite bind_gets.
  assert (∃ y, (if negb (Z.shiftr r 24 =? ioapicid x1) then hprintf ("ioapicinit: id isn't equal to ioapicid; not a MP" +:+ newline) [] else ret tt) x1 e = Ret tt y e ∧
    keeps x (set_printed_out x.(printed_out) y) ∧ apic_ok y) as (y & Ry & Ky & Hy).
  { destruct K1 as [C1 C2 C3]. destruct (negb _); (eexists; split; [reflexivity|]); (split; [split; [simpl; congruence|done|done]|]); unfold apic_ok in *; simpl; by replace (lapic x1) with (lapic x) by congruence. }
  rewrite (bind_run _ _ _ _ _ _ _ Ry).
  match goal with |- ∃ _, ?m y e = _ ∧ _ => assert (tame m) as Hm by (apply tame_for_each; intros i; unfold ioapicwrite; go_tame) end.
  destruct (Hm y e Hy) as ([] & z & Rz & [Z1 Z2 Z3]).
  exists z. split; [exact Rz|]. clear Rz Hm Ry. destruct Ky as [Y1 Y2 Y3]. split; simpl in *; congruence.
Qed.

Lemma tame_timerinit : tame (timerinit (D := D)).
Proof. unfold timerinit. go_tame; apply tame_picenable. Qed.

Lemma tame_uart_wait n : tame (uart_wait (D := D) n).
Proof. induction n as [|n IH]; cbn [uart_wait]; go_tame. Qed.

#[local] Hint Resolve tame_picenable tame_ioapicenable tame_uart_wait : tame.

Lemma tame_uartinit : tame (uartinit (D := D)).
Proof. unfold uartinit, Hardware.uartputc. go_tame. Qed.

Lemma tame_lapicw i v : tame (lapicw (D := D) i v).
Proof. unfold lapicw, lapicr. go_tame. Qed.

Lemma wait_delivered_run fuel : ∀ (x : machine D) e, x.(lapic) = pf_base → (pf_pending x.(dev) < fuel)%nat →
  ∃ x', wait_delivered fuel x e = Ret tt x' e ∧ keeps x x'.
Proof.
  induction fuel as [|fuel IH]; intros x e Hx Hf; [lia|]. cbn [wait_delivered]. unfold lapicr. rewrite bind_assoc, bind_gets, Hx. unfold readl, bind at 1.
  destruct (pf_read_icr x.(dev)) as [Hv Hp]. destruct (pf_mmio_in (pf_base + 4 * ICRLO) x.(dev)) as (M1 & _ & _ & M2). destruct (mmio_in (pf_base + 4 * ICRLO) (dev x)) as [v d]. cbn [fst snd] in *.
  rewrite Hv. assert (keeps x (set_dev d x)) as Kx by (by split). destruct (pf_pending (dev x)) as [|n]; [by eexists|]. cbn [Nat.eqb negb].
  destruct (IH (set_dev d x) e) as (x' & Hr & K'); [done|cbn [dev set_dev]; simpl in Hp; lia|]. exists x'. split; [done|by eapply keeps_chain].
Qed.

Lemma tame_lapicinit fuel : (pf_patience < fuel)%nat → tame (lapicinit (D := D) fuel).
Proof.
  intros Hf x e Hx. unfold lapicinit. rewrite bind_gets. destruct Hx as [Hx|Hx]; rewrite Hx.
  { exists tt, x. split; [done|apply keeps_self]. }
  pose proof pf_base_ok as Hb. rewrite (proj2 (Z.eqb_neq pf_base 0)) by lia. revert x e Hx.
  assert (∀ {A} (m : dM A) (k : A → dM unit), tame m → (∀ a x e, x.(lapic) = pf_base → ∃ u x', k a x e = Ret u x' e ∧ keeps x x') →
    ∀ x e, x.(lapic) = pf_base → ∃ u x', bind m k x e = Ret u x' e ∧ keeps x x') as Hstep.
  { intros A m k Hm Hk x e Hx. destruct (Hm x e (or_intror Hx)) as (a & x1 & R1 & K1). destruct (Hk a x1 e) as (u & x2 & R2 & K2); [by rewrite (keeps_lapic _ _ K1)|].
    exists u, x2. split; [by mstep R1|by eapply keeps_chain]. }
  repeat (apply Hstep; [first [apply tame_lapicw|unfold lapicr; go_tame; apply tame_lapicw]|intros ?]). intros x e Hx.
  destruct (wait_delivered_run fuel x e Hx) as (x1 & R1 & K1); [pose proof (pf_bounded x.(dev)); lia|]. mstep R1.
  destruct (tame_lapicw TPR 0 x1 e) as (u & x2 & R2 & K2); [right; by rewrite (keeps_lapic _ _ K1)|]. exists u, x2. split; [done|by eapply keeps_chain].
Qed.

(** ** Who runs *)

(** The processors [ids] have been found, and processor [b] runs, with interrupts off.  Without a table of
    processors there is one, and no local APIC. *)
Record located (ids : list Z) (b : nat) (x : machine D) : Prop := {
  lo_int : x.(int_on) = false;
  lo_out : x.(printed_out) = [];
  lo_apic : (ids = [] ∧ x.(lapic) = 0 ∧ x.(ncpu) = 0 ∧ b = 0%nat) ∨
            (x.(lapic) = pf_base ∧ x.(ncpu) = Z.of_nat (length ids) ∧ take (length ids) x.(apicids) = ids ∧ NoDup ids ∧ ids !! b = Some (pf_cpu x.(dev)))
}.

Lemma located_keeps ids b x x' : located ids b x → keeps x x' → located ids b x'.
Proof.
  intros [L1 L2 L3] [K1 K2 _]. injection K1 as E1 E2 E3 E4 E5. split; [congruence|congruence|]. rewrite E1, E2, E3, K2. exact L3.
Qed.

Lemma located_apic ids b x : located ids b x → apic_ok x.
Proof. intros [_ _ [(_ & ? & _)|(? & _)]]; [by left|by right]. Qed.

Lemma find_id (ids : list Z) b id : NoDup ids → ids !! b = Some id → list_find (λ x, x = id) ids = Some (b, id).
Proof.
  intros Hnd Hb. apply list_find_Some. split; [done|]. split; [done|]. intros j y Hj Hlt ->. pose proof (NoDup_lookup _ _ _ _ Hnd Hj Hb). lia.
Qed.

Lemma cpunum_run ids b pc (x : machine D) e : located ids b x → ∃ x', Lapic.cpunum pc x e = Ret (Z.of_nat b) x' e ∧ keeps x x'.
Proof.
  intros [L1 L2 L3]. unfold Lapic.cpunum. rewrite bind_gets, L1, bind_ret_l, bind_gets. destruct L3 as [(_ & -> & _ & ->)|(El & En & Ei & Hnd & Hb)].
  { exists x. split; [done|apply keeps_self]. }
  pose proof pf_base_ok as Hbase. rewrite El, (proj2 (Z.eqb_neq pf_base 0)) by lia. unfold lapicr. rewrite bind_assoc, bind_gets, El.
  destruct (tame_readl (pf_base + 4 * ID) x e (or_intror El)) as (v & x' & R & K). pose proof R as R0. unfold readl in R0.
  pose proof (pf_read_id x.(dev)) as Hid. destruct (mmio_in (pf_base + 4 * ID) (dev x)) as [w d]. injection R0 as Hv _. simpl in Hid. subst w v. mstep R. rewrite !bind_gets.
  pose proof (ke_conf _ _ K) as K1. injection K1 as E1 E2 E3 E4 E5. rewrite E1, E2, En, Nat2Z.id, Ei. pose proof (pf_id x.(dev)) as Hr.
  assert (Z.shiftr (u32 (Z.shiftl (pf_cpu x.(dev)) 24)) 24 = pf_cpu x.(dev)) as ->.
  { rewrite Z.shiftl_mul_pow2, Z.shiftr_div_pow2 by lia. rewrite u32_id by (unfold is_u32; lia). by apply Z.div_mul. }
  rewrite (find_id _ _ _ Hnd Hb). by exists x'.
Qed.

(** A write of the local APIC. *)
Lemma lapicw_run i v (x : machine D) e : x.(lapic) = pf_base →
  ∃ x', lapicw i v x e = Ret tt x' e ∧ keeps x x' ∧ let d := mmio_out (pf_base + 4 * i) (u32 v) x.(dev) in
    pf_icrhi x'.(dev) = pf_icrhi d ∧ pf_startups x'.(dev) = pf_startups d.
Proof.
  intros Hx. destruct (tame_lapicw i v x e (or_intror Hx)) as ([] & x' & R & K). exists x'. split; [done|]. split; [done|]. cbv zeta.
  revert R. unfold lapicw, lapicr, writel. rewrite bind_gets, bind_modify, bind_assoc, bind_gets. cbn [lapic set_dev]. rewrite Hx. unfold readl, bind at 1. cbn [dev set_dev].
  set (d := mmio_out _ _ _). destruct (pf_mmio_in (pf_base + 4 * ID) d) as (_ & M1 & M2 & _). destruct (mmio_in _ d) as [w d']. cbn [snd] in *. intros [= <-]. cbn [dev set_dev]. done.
Qed.

(** The startup interrupt. *)
Lemma lapicstartap_run id (x : machine D) e : x.(lapic) = pf_base → 0 ≤ id < 256 →
  ∃ x' l, lapicstartap id 28672 x e = Ret tt x' e ∧ keeps x x' ∧ pf_startups x'.(dev) = (id, 28672) :: l.
Proof.
  intros Hx Hid. unfold lapicstartap, microdelay. cbv zeta. revert x e Hx.
  assert (∀ {A} (m : dM A) (k : A → dM unit), tame m → (∀ a x e, x.(lapic) = pf_base → ∃ x' l, k a x e = Ret tt x' e ∧ keeps x x' ∧ pf_startups x'.(dev) = (id, 28672) :: l) →
    ∀ x e, x.(lapic) = pf_base → ∃ x' l, bind m k x e = Ret tt x' e ∧ keeps x x' ∧ pf_startups x'.(dev) = (id, 28672) :: l) as Hstep.
  { intros A m k Hm Hk x e Hx. destruct (Hm x e (or_intror Hx)) as (a & x1 & R1 & K1). destruct (Hk a x1 e) as (x2 & l & R2 & K2 & S2); [by rewrite (keeps_lapic _ _ K1)|].
    exists x2, l. split; [by mstep R1|]. split; [by eapply keeps_chain|done]. }
  repeat (apply Hstep; [first [apply tame_lapicw|apply tame_store|apply tame_ret|apply tame_outb; left; done]|intros ?]).
  cbn [seq for_each]. apply Hstep; [go_tame; apply tame_lapicw|intros _]. intros x e Hx. rewrite !bind_assoc.
  destruct (lapicw_run ICRHI (Z.shiftl id 24) x e Hx) as (x1 & R1 & K1 & I1 & _). mstep R1. rewrite bind_assoc.
  destruct (lapicw_run ICRLO (Z.lor STARTUP (Z.shiftr 28672 12)) x1 e) as (x2 & R2 & K2 & _ & S2); [by rewrite (keeps_lapic _ _ K1)|]. mstep R2. rewrite !bind_ret_l.
  exists x2, (pf_startups x1.(dev)). split; [done|]. split; [by eapply keeps_chain|]. rewrite S2.
  destruct (pf_mmio_out (pf_base + 4 * ICRLO) (u32 (Z.lor STARTUP (Z.shiftr 28672 12))) x1.(dev)) as (_ & _ & _ & ->).
  destruct (pf_mmio_out (pf_base + 4 * ICRHI) (u32 (Z.shiftl id 24)) x.(dev)) as (_ & _ & I2 & _). rewrite Z.eqb_refl in I2. rewrite I1, I2, Z.eqb_refl.
  change (Z.land (u32 (Z.lor STARTUP (Z.shiftr 28672 12))) 1792 =? STARTUP) with true. cbn [andb]. do 2 f_equal.
  rewrite Z.shiftl_mul_pow2, Z.shiftr_div_pow2 by lia. rewrite u32_id by (unfold is_u32; lia). by apply Z.div_mul.
Qed.

(** ** The disk driver *)

(** As [keeps], but for the disk. *)
Definition same_conf (x x' : machine D) : Prop :=
  (x'.(ncpu), x'.(apicids), x'.(lapic), x'.(int_on), x'.(printed_out)) = (x.(ncpu), x.(apicids), x.(lapic), x.(int_on), x.(printed_out)) ∧ pf_cpu x'.(dev) = pf_cpu x.(dev).

Lemma keeps_conf x x' : keeps x x' → same_conf x x'.
Proof. intros [? ? _]. by split. Qed.

Lemma same_conf_trans x y z : same_conf x y → same_conf y z → same_conf x z.
Proof. intros [A1 A2] [B1 B2]. split; congruence. Qed.

Lemma located_conf ids b x x' : located ids b x → same_conf x x' → located ids b x'.
Proof.
  intros [L1 L2 L3] [K1 K2]. injection K1 as E1 E2 E3 E4 E5. split; [congruence|congruence|]. rewrite E1, E2, E3, K2. exact L3.
Qed.

Lemma outb_conf port v (x : machine D) : same_conf x (set_dev (port_out port v x.(dev)) x).
Proof. destruct (pf_port_out port v x.(dev)) as [H1 _]. by split. Qed.

(** The polls of the status register. *)
Lemma status_run (q : ide D) e : ∃ q', on_dev (inb 503) q e = Ret (if (at_disk q.(ide_mach).(dev)).(a_busy) then IDE_DRDY else IDE_BSY) q' e ∧
  same_conf q.(ide_mach) q'.(ide_mach) ∧ (at_disk q'.(ide_mach).(dev)).(a_busy) = pred (at_disk q.(ide_mach).(dev)).(a_busy).
Proof.
  destruct (on_dev_status q e) as (q' & R & (y & -> & Hy)). exists (set_mach y q). split; [exact R|]. split; [|change (at_disk y.(dev) = polled (at_disk q.(ide_mach).(dev))) in Hy; cbn; by rewrite Hy].
  revert R. unfold on_dev, inb. change (mach q) with (ide_mach q). destruct (pf_port_in 503 q.(ide_mach).(dev)) as [P1 _]. destruct (port_in 503 (dev (ide_mach q))) as [v d]. intros [= _ Hq].
  cbn [set_mach ide_board] in *. change (ide_mach (set_ide_mach y q)) with y. subst y. by split.
Qed.

Lemma idewait_conf n : ∀ (q : ide D) e, ((at_disk q.(ide_mach).(dev)).(a_busy) < n)%nat → ∃ q', idewait n false q e = Ret 0 q' e ∧ same_conf q.(ide_mach) q'.(ide_mach).
Proof.
  induction n as [|n IH]; intros q e Hb; [lia|]. cbn [idewait]. destruct (status_run q e) as (q1 & R1 & C1 & B1). mstep R1.
  destruct (a_busy _) as [|k]; [exists q1; done|]. change (negb (Z.land IDE_BSY (Z.lor IDE_BSY IDE_DRDY) =? IDE_DRDY)) with true. cbv iota.
  destruct (IH q1 e) as (q2 & R2 & C2); [simpl in B1; lia|]. exists q2. split; [done|by eapply same_conf_trans].
Qed.

Lemma probe_conf n : ∀ (q : ide D) e, ∃ q', probe n q e = Ret tt q' e ∧ same_conf q.(ide_mach) q'.(ide_mach).
Proof.
  induction n as [|n IH]; intros q e; [by exists q|]. cbn [probe]. destruct (status_run q e) as (q1 & R1 & C1 & _). mstep R1.
  destruct (a_busy _); (eexists; split; [reflexivity|exact C1]).
Qed.

Lemma ideinit_run fuel (q : ide D) e :
  apic_ok q.(ide_mach) → ((at_disk q.(ide_mach).(dev)).(a_busy) < fuel)%nat → ∃ q', ideinit fuel q e = Ret tt q' e ∧ same_conf q.(ide_mach) q'.(ide_mach).
Proof.
  intros Hq Hb. unfold ideinit. rewrite bind_modify. set (q0 := set_idelock false q).
  destruct (tame_picenable IRQ_IDE q0.(ide_mach) [] Hq) as ([] & x1 & R1 & K1). mstep (on_dev_run (W := ide D) _ q0 e tt x1 R1). rewrite bind_gets. set (q1 := set_mach x1 q0).
  destruct (tame_ioapicenable IRQ_IDE (ncpu (ide_mach q1) - 1) x1 []) as ([] & x2 & R2 & K2); [unfold apic_ok; by rewrite (keeps_lapic _ _ K1)|]. mstep (on_dev_run (W := ide D) _ q1 e tt x2 R2). set (q2 := set_mach x2 q1).
  destruct (idewait_conf fuel q2 e) as (q3 & R3 & C3); [change (at_disk (dev (ide_mach q2))) with (at_disk x2.(dev)); by rewrite (ke_disk _ _ K2), (ke_disk _ _ K1)|]. mstep R3.
  assert (same_conf q.(ide_mach) q3.(ide_mach)) as C by (eapply same_conf_trans; [eapply keeps_conf, keeps_chain; [exact K1|exact K2]|exact C3]).
  rewrite (bind_run _ _ _ _ _ _ _ (on_dev_run (W := ide D) (outb 502 _) q3 e tt _ eq_refl)). set (q4 := set_mach _ q3).
  destruct (probe_conf 1000 q4 e) as (q5 & R5 & C5). mstep R5. eexists. split; [by apply on_dev_run|].
  eapply same_conf_trans; [exact C|]. eapply same_conf_trans; [apply outb_conf|]. eapply same_conf_trans; [exact C5|]. apply outb_conf.
Qed.
End drivers.

(** ** Steps of the system *)

Section steps.
Context {D : Type} `{Platform D} (L : linkmap) (fuel : nat).
Hypothesis Hfuel : (pf_patience < fuel)%nat.
Notation sM := (M (system D)).

(** The state with the kernel [k] and the machine [x]. *)
Definition upd (k : kstate) (x : machine D) (s : system D) : system D := set_sy_k k (set_mach x s).

Lemma upd_id s : upd s.(sy_k) (mach s) s = s.
Proof. by destruct s as [? [] ? ? ? ?]. Qed.

Lemma on_k_run {A} (m : K A) k k' x s e a : m k [] = Ret a k' [] → on_k m (upd k x s) e = Ret a (upd k' x s) e.
Proof. intros Hm. unfold on_k, part. change (sy_k (upd k x s)) with k. by rewrite Hm. Qed.

Lemma on_k_modify {A} g (f : unit → sM A) k x s e : bind (on_k (modify g)) f (upd k x s) e = f tt (upd (g k) x s) e.
Proof. done. Qed.

Lemma on_dev_upd {A} (m : M (machine D) A) k x x' s e a : m x [] = Ret a x' [] → on_dev m (upd k x s) e = Ret a (upd k x' s) e.
Proof. intros Hm. unfold on_dev. change (mach (upd k x s)) with x. by rewrite Hm. Qed.

Lemma on_mach_exact {A} (m : M (machine D) A) k x x' s e a : m x [] = Ret a x' [] → x'.(printed_out) = [] → on_mach m (upd k x s) e = Ret a (upd k x' s) e.
Proof.
  intros R Ho. unfold on_mach. mstep (on_dev_upd m k x x' s e a R). rewrite bind_gets. change (mach (upd k x' s)) with x'. by rewrite decide_True.
Qed.

Lemma on_mach_run {A} (m : M (machine D) A) ids b k x s e :
  tame m → located ids b x → ∃ a x', on_mach m (upd k x s) e = Ret a (upd k x' s) e ∧ keeps x x'.
Proof.
  intros Hm Hx. destruct (Hm x [] (located_apic _ _ _ Hx)) as (a & x' & R & K). exists a, x'. split; [|done].
  apply on_mach_exact; [done|]. apply (located_keeps _ _ _ _ Hx K).
Qed.

(** A device function that may print, before the console has its lock. *)
Lemma on_mach_print (m : M (machine D) unit) k x s e x' kpd free :
  m x [] = Ret tt x' [] → keeps x (set_printed_out x.(printed_out) x') → x.(printed_out) = [] → kboot k kpd free →
  ∃ k', on_mach m (upd k x s) e = Ret tt (upd k' (set_printed_out [] x') s) e ∧ (k' = k ∨ ∃ cs, k' = printed cs k).
Proof.
  intros R K Ho Kb. unfold on_mach. mstep (on_dev_upd m k x x' s e tt R). rewrite bind_gets. change (mach (upd k x' s)) with x'. case_decide as Hd.
  - exists k. split; [|by left]. destruct x'. simpl in Hd. by subst.
  - rewrite bind_assoc, bind_modify. destruct (kboot_idle _ _ _ Kb) as (_ & _ & Hp).
    exists (printed (cstr x'.(printed_out)) k). split; [|right; by eexists].
    assert (cprintf "%s" [AStr (Some (printed_out x'))] k [] = Ret tt (printed (cstr (printed_out x')) k) []) as Hc by (apply cprintf_run; [done|]; simpl; by rewrite app_nil_r).
    unfold on_k, part, bind at 1. change (sy_k _) with k. by rewrite Hc.
Qed.

Lemma cpunum_sys ids b k x s e : located ids b x → ∃ x', cpunum L (upd k x s) e = Ret (Z.of_nat b) (upd k x' s) e ∧ keeps x x'.
Proof.
  intros Hx. destruct (cpunum_run ids b L.(ln_return) x [] Hx) as (x' & R & K). exists x'. split; [|done].
  apply on_mach_exact; [done|]. apply (located_keeps _ _ _ _ Hx K).
Qed.

(** This processor's record after [seginit]. *)
Definition segments (c : nat) (t : tables_state) : tables_state := Desc.seginit (L.(ln_cpus) + sizeof_cpu * Z.of_nat c) gdt_off cpu_off t.

Lemma seginit_sys ids b k x s e t : located ids b x → s.(sy_tab) !! b = Some t →
  ∃ x', seginit L (upd k x s) e = Ret tt (upd (on_cpu (λ c, set_c_id b (set_c_proc None c)) k) x' (set_sy_tab (<[b := segments b t]> s.(sy_tab)) s)) e ∧ keeps x x'.
Proof.
  intros Hx Ht. destruct (cpunum_sys ids b k x s e Hx) as (x' & R & K). exists x'. split; [|done]. unfold seginit. mstep R. cbv zeta. rewrite Nat2Z.id, bind_gets.
  change (sy_tab (upd k x' s)) with (sy_tab s). rewrite Ht, bind_deref, bind_modify. done.
Qed.

Lemma idtinit_sys b k x s e t : k.(k_cpu).(c_id) = b → s.(sy_tab) !! b = Some t →
  idtinit L (upd k x s) e = Ret tt (upd k x (set_sy_tab (<[b := Desc.idtinit L.(ln_idt) t]> s.(sy_tab)) s)) e.
Proof. intros <- Ht. unfold idtinit. rewrite !bind_gets. change (sy_tab (upd k x s)) with (sy_tab s). change (sy_k (upd k x s)) with k. by rewrite Ht, bind_deref. Qed.

Lemma starting_text c : ∃ cs, format (str ("cpu%d: starting" +:+ newline)) [AInt c] = Some cs.
Proof. eexists. reflexivity. Qed.

(** [mpmain] up to the scheduler. *)
Lemma mpmain_sys ids b k x s e t n :
  located ids b x → can_print k → k.(k_cpu).(c_id) = b → s.(sy_tab) !! b = Some t →
  ∃ cs x', mpmain L n (upd k x s) e = on_k (scheduler n) (upd (printed cs k) x'
      (set_sy_started (<[b := 1]> s.(sy_started)) (set_sy_tab (<[b := Desc.idtinit L.(ln_idt) t]> s.(sy_tab)) s))) e ∧ keeps x x'.
Proof.
  intros Hx Hp Hid Ht. destruct (starting_text (Z.of_nat b)) as [cs Hcs]. destruct (cpunum_sys ids b k x s e Hx) as (x' & R & K). exists cs, x'. split; [|done].
  unfold mpmain. mstep R. mstep (on_k_run _ _ _ x' s e _ (cprintf_run _ _ _ k [] Hp Hcs)).
  assert ((printed cs k).(k_cpu).(c_id) = b) as Hid' by (rewrite <- Hid; unfold printed; simpl; by destruct (truthy _)).
  mstep (idtinit_sys b _ x' s e t Hid' Ht). rewrite bind_gets, bind_modify. change (sy_k (upd (printed cs k) x' _)) with (printed cs k). by rewrite Hid'.
Qed.

(** A processor started by [startothers]. *)
(** No process is there to run. *)
Lemma no_process k kpd free : kboot k kpd free → highest k.(k_pt).(pt_proc) = None.
Proof.
  intros Kb. apply highest_None. intros j q Hj. destruct (kb_pt _ _ _ Kb) as [Hp _]. rewrite Hp in Hj. by apply lookup_replicate in Hj as [-> _].
Qed.

Lemma mpenter_sys r ids c k x s e t kpd free :
  located ids c x → kboot k kpd free → s.(sy_tab) !! c = Some t →
  ∃ k' x', mpenter L fuel r (upd k x s) e = Ret tt (upd k' x'
      (set_sy_started (<[c := 1]> s.(sy_started)) (set_sy_tab (<[c := Desc.idtinit L.(ln_idt) (segments c t)]> s.(sy_tab)) s))) e ∧
    keeps x x' ∧ (∀ y, y.(c_ncli) = 0 ∧ y.(c_if) = false → kboot (set_k_cpu y k') kpd free) ∧ k'.(k_mem) = k.(k_mem) ∧ k'.(k_cpu).(c_id) = c ∧ k'.(k_cpu).(c_cr3) = V2P kpd.
Proof.
  intros Hx Kb Ht. unfold mpenter. assert (switchkvm k [] = Ret tt (on_cpu (set_c_cr3 (V2P kpd)) k) []) as Hs.
  { unfold switchkvm. rewrite bind_gets, (kb_kpgdir _ _ _ Kb). done. }
  mstep (on_k_run _ _ _ x s e _ Hs). set (k1 := on_cpu _ k).
  destruct (seginit_sys ids c k1 x s e t Hx Ht) as (x1 & R1 & K1). mstep R1. set (k2 := on_cpu _ k1). set (s1 := set_sy_tab _ s).
  destruct (on_mach_run (lapicinit fuel) ids c k2 x1 s1 e (tame_lapicinit fuel Hfuel) (located_keeps _ _ _ _ Hx K1)) as ([] & x2 & R2 & K2). mstep R2.
  assert (kboot k2 kpd free) as Kb2 by (apply (kboot_same k); [done|done|apply Kb|apply Kb|done|done|apply Kb]).
  assert (s1.(sy_tab) !! c = Some (segments c t)) as Ht1 by (apply list_lookup_insert_eq; by eapply lookup_lt_Some).
  destruct (mpmain_sys ids c k2 x2 s1 e (segments c t) r) as (cs & x3 & R3 & K3); [by eapply located_keeps; [eapply located_keeps|]|by destruct (kboot_idle _ _ _ Kb2) as (_ & _ & ?)|done|exact Ht1|].
  rewrite R3. pose proof (kboot_printed k2 cs _ _ Kb2) as Kb3. destruct (scheduler_idle r (printed cs k2) []) as (y & R4 & Y1 & Y2);
    [apply Kb3|split; [apply Kb3|by rewrite (kb_spin _ _ _ Kb3)]|exact (no_process _ _ _ Kb3)|].
  exists (set_k_cpu y (printed cs k2)), x3. split; [|split; [|split; [|split; [done|]]]].
  - rewrite (on_k_run (scheduler r) (printed cs k2) (set_k_cpu y (printed cs k2)) x3 _ e tt R4). do 2 f_equal.
    unfold s1, set_sy_tab, set_sy_started. simpl. by rewrite list_insert_insert_eq.
  - eapply keeps_chain; [exact K1|]. by eapply keeps_chain.
  - intros y' Hy'. apply (kboot_same (printed cs k2)); [done|done|apply Kb3|done|done|done|apply Kb3].
  - change (k_cpu (set_k_cpu y (printed cs k2))) with y. rewrite Y1, Y2. unfold printed. simpl. by destruct (truthy _).
Qed.

(** ** The other processors *)

Definition idle_cpu (y : cpu) : Prop := y.(c_ncli) = 0 ∧ y.(c_if) = false.

(** What entryother.S reads, once [startothers] has written it. *)
Definition entry_ready (m : mem) : Prop :=
  load_bytes m code (length L.(ln_entryother)) = L.(ln_entryother) ∧ load32 m (code - 8) = L.(ln_mpenter) ∧
  load_words m (P2V (load32 m (code - 12))) NPDENTRIES = entrypgdir.

(** The system after processor [c] has started on the stack [esp], with [y] in its struct cpu. *)
Definition up (c : nat) (y : cpu) (esp : Z) (t : tables_state) (s : system D) : system D :=
  set_sy_cpus (<[c := y]> s.(sy_cpus)) (set_sy_started (<[c := 1]> s.(sy_started))
    (set_sy_tab (<[c := Desc.idtinit L.(ln_idt) (segments c t)]> s.(sy_tab)) (set_sy_stack (<[c := esp]> s.(sy_stack)) s))).

Lemma located_find ids b x c id : located ids b x → ids !! c = Some id →
  list_find (λ y, y = id) (take (Z.to_nat x.(ncpu)) x.(apicids)) = Some (c, id) ∧ x.(apicids) !! c = Some id.
Proof.
  intros [_ _ [(-> & _)|(_ & -> & Hi & Hnd & _)]] Hc; [done|]. rewrite Nat2Z.id, Hi. split; [by apply find_id|]. rewrite <- Hi in Hc. by apply lookup_take_Some in Hc as [? _].
Qed.

Lemma ap_step_run r ids b c id k x s kpd free t y l :
  located ids b x → kboot k kpd free → ids !! c = Some id → 0 ≤ id < 256 → pf_startups x.(dev) = (id, 28672) :: l → entry_ready k.(k_mem).(m_byte) →
  s.(sy_tab) !! c = Some t → s.(sy_cpus) !! c = Some y → idle_cpu y →
  ∃ k' x' y', ap_step L fuel r (upd k x s) = upd k' x' (up c y' (load32 k.(k_mem).(m_byte) (code - 4)) t s) ∧
    keeps x x' ∧ kboot k' kpd free ∧ k'.(k_mem) = k.(k_mem) ∧ k'.(k_cpu) = k.(k_cpu) ∧ y'.(c_id) = c ∧ y'.(c_cr3) = V2P kpd.
Proof.
  intros Hx Kb Hc Hid Hst Hready Ht Hy [Hy1 Hy2]. unfold ap_step. change (mach (upd k x s)) with x. rewrite Hst. change (P2V 28672) with code. cbv zeta.
  destruct (located_find _ _ _ _ _ Hx Hc) as [-> _]. change (sy_k (upd k x s)) with k. rewrite decide_True by exact Hready.
  unfold run_as. change (sy_cpus (upd k x s)) with (sy_cpus s). rewrite Hy. change (mach (upd k x s)) with x. change (sy_k (upd k x s)) with k. cbv zeta.
  set (m := k.(k_mem).(m_byte)). set (k1 := set_k_cpu (set_c_cr3 (load32 m (code - 12)) y) k). set (x1 := set_dev (pf_switch id x.(dev)) x).
  set (s1 := set_sy_stack (<[c := load32 m (code - 4)]> s.(sy_stack)) s).
  assert (located ids c x1) as Hx1.
  { destruct Hx as [L1 L2 [(-> & _)|(L3 & L4 & L5 & L6 & _)]]; [done|]. split; [done|done|]. right. do 4 (split; [done|]). change (dev x1) with (pf_switch id x.(dev)). by rewrite pf_switched. }
  assert (kboot k1 kpd free) as Kb1 by (apply (kboot_same k); [done|done|apply Kb|done|done|done|apply Kb]).
  destruct (mpenter_sys r ids c k1 x1 s1 [] t kpd free Hx1 Kb1 Ht) as (k2 & x2 & R & K & Kb2 & M2 & I2 & C2).
  change (set_sy_stack _ _) with (upd k1 x1 s1). rewrite R.
  exists (set_k_cpu k.(k_cpu) k2), (set_dev (pf_switch (pf_cpu x.(dev)) x2.(dev)) x2), k2.(k_cpu). split; [done|]. split; [|split; [|split; [exact M2|done]]].
  - destruct K as [C1 _ D1]. split; [exact C1|simpl; apply pf_switched, pf_id|]. simpl. by rewrite pf_switch_disk, D1; simpl; rewrite pf_switch_disk.
  - apply Kb2, Kb.
Qed.

(** The boot processor spins [w] times, then the other one runs. *)
Lemma wait_started_run r c k x s s' w e : s.(sy_started) !! c = Some 0 → ap_step L fuel r (upd k x s) = s' → s'.(sy_started) !! c = Some 1 →
  wait_started c (upd k x s) (replicate w id ++ ap_step L fuel r :: e) = Ret None s' e.
Proof.
  intros Hz Hs Ho. unfold wait_started, while_sleep. rewrite length_app, length_replicate. cbn [length].
  set (cond := bind (gets _) _). set (body := bind others_run _).
  assert (∀ e', cond (upd k x s) e' = Ret true (upd k x s) e') as Hc.
  { intros e'. unfold cond. rewrite bind_gets. change (sy_started (upd k x s)) with (sy_started s). by rewrite Hz. }
  assert (∀ e', cond s' e' = Ret false s' e') as Hc'. { intros e'. unfold cond. by rewrite bind_gets, Ho. }
  assert (∀ (g : system D → system D) z e', body z (g :: e') = Ret None (g z) e') as Hb by done.
  induction w as [|w IH].
  - cbn [replicate app Nat.add while_ret]. mstep (Hc (ap_step L fuel r :: e)). mstep (Hb (ap_step L fuel r) (upd k x s) e). rewrite Hs. by mstep (Hc' e).
  - cbn [replicate app]. change (S (S w + S (length e))) with (S (S (w + S (length e)))). set (m := S (w + S (length e))) in *. cbn [while_ret].
    mstep (Hc (id :: replicate w id ++ ap_step L fuel r :: e)). mstep (Hb id (upd k x s) (replicate w id ++ ap_step L fuel r :: e)). exact IH.
Qed.

Hypothesis Hlink : is_u32 L.(ln_mpenter).
Hypothesis Htable : KERNBASE + EXTMEM ≤ L.(ln_entrypgdir) ∧ L.(ln_entrypgdir) + 4096 ≤ 4294967296.

Lemma code_eq : code = KERNBASE + 28672.
Proof. done. Qed.

(** The words below the code, in the order they are written. *)
Definition entry_words (a : Z) (m : mem) : mem :=
  store32 (code - 12) (V2P L.(ln_entrypgdir)) (store32 (code - 8) L.(ln_mpenter) (store32 (code - 4) (u32 (a + KSTACKSIZE)) m)).

(** The code of entryother.S at its place, and the boot page table in the kernel's image. *)
Definition image_ok (m : mem) : Prop :=
  load_bytes m code (length L.(ln_entryother)) = L.(ln_entryother) ∧ load_words m L.(ln_entrypgdir) NPDENTRIES = entrypgdir.

Lemma image_ok_ext (m m' : mem) : (∀ x, x < code - 12 ∨ code ≤ x → m' x = m x) → image_ok m → image_ok m'.
Proof.
  intros Hm [H1 H2]. split.
  - rewrite <- H1 at 2. apply load_bytes_ext. intros x Hx. apply Hm. lia.
  - rewrite <- H2. apply load_words_ext. intros x Hx. apply Hm. rewrite code_eq. unfold EXTMEM in *. lia.
Qed.

Lemma entry_words_spec a (m : mem) :
  image_ok m →
  entry_ready (entry_words a m) ∧ load32 (entry_words a m) (code - 4) = u32 (a + KSTACKSIZE) ∧
  ∀ x, x < code - 12 ∨ code ≤ x → entry_words a m x = m x.
Proof.
  intros Hm. assert (∀ x, x < code - 12 ∨ code ≤ x → entry_words a m x = m x) as Hout by (intros x Hx; unfold entry_words; rewrite !store32_out by lia; done).
  destruct (image_ok_ext _ _ Hout Hm) as [I1 I2]. split; [|split; [|exact Hout]].
  - split; [exact I1|]. split.
    + unfold entry_words. rewrite load32_store32_ne by lia. by apply load32_store32_eq.
    + assert (load32 (entry_words a m) (code - 12) = V2P L.(ln_entrypgdir)) as -> by (apply load32_store32_eq, u32_range).
      rewrite P2V_V2P by (unfold EXTMEM, KERNBASE in *; lia). exact I2.
  - unfold entry_words. rewrite !load32_store32_ne by lia. apply load32_store32_eq, u32_range.
Qed.

Lemma startother_run w r ids b c id k x s e kpd a free t y :
  located ids b x → kboot k kpd (a :: free) → ids !! c = Some id → 0 ≤ id < 256 → c ≠ b →
  image_ok k.(k_mem).(m_byte) →
  s.(sy_tab) !! c = Some t → s.(sy_cpus) !! c = Some y → idle_cpu y → s.(sy_started) !! c = Some 0 →
  ∃ k' x' y', startother L c (upd k x s) (replicate w Datatypes.id ++ ap_step L fuel r :: e) = Ret tt (upd k' x' (up c y' (a + KSTACKSIZE) t s)) e ∧
    keeps x x' ∧ kboot k' kpd free ∧ (∀ z, z < code - 12 ∨ code ≤ z → k'.(k_mem).(m_byte) z = k.(k_mem).(m_byte) z) ∧
    (k'.(k_cpu).(c_id), k'.(k_cpu).(c_cr3)) = (k.(k_cpu).(c_id), k.(k_cpu).(c_cr3)) ∧ k'.(k_mem).(m_end) = k.(k_mem).(m_end) ∧ k'.(k_mem).(m_data) = k.(k_mem).(m_data) ∧
    k'.(k_mem).(m_forkret) = k.(k_mem).(m_forkret) ∧
    page_ok k.(k_mem) a ∧ a ∉ free ∧ (∀ p, owns k' kpd ∅ p ↔ owns k kpd ∅ p) ∧ y'.(c_id) = c ∧ y'.(c_cr3) = V2P kpd.
Proof.
  intros Hx Kb Hc Hid Hne Him Ht Hy Hyi Hs. unfold startother. destruct (cpunum_sys ids b k x s (replicate w Datatypes.id ++ ap_step L fuel r :: e) Hx) as (x1 & R1 & K1). mstep R1.
  rewrite (proj2 (Z.eqb_neq (Z.of_nat c) (Z.of_nat b))) by lia. destruct (kboot_kalloc k a kpd free [] Kb) as (k1 & Rk & Kb1 & M1 & Ha & Hna & Hoa & V1).
  mstep (on_k_run _ _ _ x1 s (replicate w Datatypes.id ++ ap_step L fuel r :: e) _ Rk). unfold storeM.
  rewrite !on_k_modify.
  set (k2 := on_mem _ _). assert (k2 = on_mem (set_m_byte (entry_words a k1.(k_mem).(m_byte))) k1) as Hk2 by (by destruct k1 as [? ? ? ? [] ? ? ?]).
  rewrite Hk2. clear Hk2. clear k2. set (k2 := on_mem _ k1). destruct (entry_words_spec a k1.(k_mem).(m_byte)) as (Hr & Hw & Hout); [by rewrite M1|].
  assert (kboot k2 kpd free) as Kb2 by (apply kboot_store; [done|]; intros z Hz; apply Hout; pose proof (kb_end _ _ _ Kb1); rewrite code_eq; unfold EXTMEM in *; lia).
  pose proof (located_keeps _ _ _ _ Hx K1) as Hx1. rewrite bind_gets. change (mach (upd k2 x1 s)) with x1. destruct (located_find _ _ _ _ _ Hx1 Hc) as [_ ->]. rewrite bind_deref.
  change (V2P code) with 28672. destruct (lapicstartap_run id x1 []) as (x2 & l & R2 & K2 & S2); [destruct Hx1 as [_ _ [(-> & _)|(? & _)]]; done|done|].
  pose proof (located_keeps _ _ _ _ Hx1 K2) as Hx2. mstep (on_mach_exact _ k2 x1 x2 s (replicate w Datatypes.id ++ ap_step L fuel r :: e) _ R2 (lo_out _ _ _ Hx2)).
  destruct (ap_step_run r ids b c id k2 x2 s kpd free t y l Hx2 Kb2 Hc Hid S2 Hr Ht Hy Hyi) as (k3 & x3 & y' & R3 & K3 & Kb3 & M3 & C3 & I3 & P3).
  change (k_mem k2).(m_byte) with (entry_words a k1.(k_mem).(m_byte)) in R3. rewrite Hw in R3. rewrite u32_id in R3.
  2: { destruct Ha as (_ & ? & ?). pose proof (kb_end _ _ _ Kb). unfold is_u32, KSTACKSIZE, PGSIZE, KERNBASE, PHYSTOP, EXTMEM in *. lia. }
  mstep (wait_started_run r c k2 x2 s _ w e Hs R3 (list_lookup_insert_eq _ _ _ (lookup_lt_Some _ _ _ Hs))).
  exists k3, x3, y'. split; [done|]. split; [eapply keeps_chain; [exact K1|]; by eapply keeps_chain|]. split; [done|].
  split; [intros z Hz; rewrite M3; change (k_mem k2).(m_byte) with (entry_words a k1.(k_mem).(m_byte)); rewrite Hout by done; by rewrite M1|].
  assert (∀ p, owns k3 kpd ∅ p ↔ owns k2 kpd ∅ p) as O3 by (intros p; unfold owns; by rewrite M3). rewrite C3, M3.
  destruct (kernel_table_stable k1 kpd free k2 free (kb_table _ _ _ Kb1)) as [_ O2]; [done|done|apply Kb2|apply Kb2| | |].
  { intros p z Hp Hz. apply Hout. destruct (owns_page _ _ _ _ _ (proj1 (kb_table _ _ _ Kb1)) Hp) as [(_ & He & _) _]. pose proof (kb_end _ _ _ Kb1). unfold in_page in Hz. rewrite code_eq. unfold EXTMEM in *. lia. }
  { intros p Hp. by apply (owns_page _ _ _ _ _ (proj1 (kb_table _ _ _ Kb1)) Hp). }
  destruct V1 as [(? & ? & ? & ? & E1) [Ec _]]. split; [change (k_cpu k2) with (k_cpu k1); by destruct Ec as [->| ->]|].
  change (k_mem k2) with (set_m_byte (entry_words a k1.(k_mem).(m_byte)) k1.(k_mem)). do 3 (split; [by rewrite E1|]). do 2 (split; [done|]). split; [intros p; by rewrite O3, O2, Hoa|done].
Qed.

(** Processor [c] can be started. *)
Record waiting (s : system D) (c : nat) : Prop := {
  wa_tab : is_Some (s.(sy_tab) !! c);
  wa_cpu : ∃ y, s.(sy_cpus) !! c = Some y ∧ idle_cpu y;
  wa_started : s.(sy_started) !! c = Some 0;
  wa_stack : (c < length s.(sy_stack))%nat
}.

(** It has been, on the page [p]. *)
Definition running_on (s s' : system D) (kpd : Z) (c : nat) (p : Z) : Prop :=
  ∃ t y, s.(sy_tab) !! c = Some t ∧ s'.(sy_tab) !! c = Some (Desc.idtinit L.(ln_idt) (segments c t)) ∧ s'.(sy_started) !! c = Some 1 ∧
    s'.(sy_stack) !! c = Some (p + KSTACKSIZE) ∧ s'.(sy_cpus) !! c = Some y ∧ y.(c_id) = c ∧ y.(c_cr3) = V2P kpd.

(** The parts of the system that belong to processor [c] are the same. *)
Definition same_at (s s' : system D) (c : nat) : Prop :=
  s'.(sy_tab) !! c = s.(sy_tab) !! c ∧ s'.(sy_started) !! c = s.(sy_started) !! c ∧ s'.(sy_stack) !! c = s.(sy_stack) !! c ∧ s'.(sy_cpus) !! c = s.(sy_cpus) !! c.

Lemma up_same c y esp t s c' : c' ≠ c → same_at s (up c y esp t s) c'.
Proof. intros Hne. unfold same_at, up. simpl. by rewrite !list_lookup_insert_ne by done. Qed.

Lemma up_running c y p t s kpd : waiting s c → s.(sy_tab) !! c = Some t → y.(c_id) = c → y.(c_cr3) = V2P kpd → running_on s (up c y (p + KSTACKSIZE) t s) kpd c p.
Proof.
  intros [_ (z & Hz & _) Hs Hl] Ht Hi Hc. exists t, y. unfold up. simpl. split; [done|].
  rewrite !list_lookup_insert_eq by (done || by eapply lookup_lt_Some). done.
Qed.

Lemma waiting_same s s' c : waiting s c → same_at s s' c → length s'.(sy_stack) = length s.(sy_stack) → waiting s' c.
Proof. intros [W1 W2 W3 W4] (E1 & E2 & E3 & E4) Hl. split; [by rewrite E1|by rewrite E4|by rewrite E2|by rewrite Hl]. Qed.

Lemma running_same s0 s s' kpd c p : running_on s0 s kpd c p → same_at s s' c → running_on s0 s' kpd c p.
Proof. intros (t & y & R1 & R2 & R3 & R4 & R5 & R6) (E1 & E2 & E3 & E4). exists t, y. by rewrite E1, E2, E3, E4. Qed.

(** What starting processors leaves of the kernel. *)
Record others_up (kpd : Z) (k k' : kstate) (free' : list Z) : Prop := {
  ou_boot : kboot k' kpd free';
  ou_bytes : ∀ z, z < code - 12 ∨ code ≤ z → k'.(k_mem).(m_byte) z = k.(k_mem).(m_byte) z;
  ou_cpu : (k'.(k_cpu).(c_id), k'.(k_cpu).(c_cr3)) = (k.(k_cpu).(c_id), k.(k_cpu).(c_cr3));
  ou_mem : (k'.(k_mem).(m_end), k'.(k_mem).(m_data), k'.(k_mem).(m_forkret)) = (k.(k_mem).(m_end), k.(k_mem).(m_data), k.(k_mem).(m_forkret));
  ou_owns : ∀ p, owns k' kpd ∅ p ↔ owns k kpd ∅ p
}.

Lemma others_up_trans kpd k k1 k2 free1 free2 : others_up kpd k k1 free1 → others_up kpd k1 k2 free2 → others_up kpd k k2 free2.
Proof.
  intros [A1 A2 A3 A4 A5] [B1 B2 B3 B4 B5]. split; [done|intros z Hz; by rewrite B2, A2|congruence|congruence|intros p; by rewrite B5].
Qed.

Lemma startothers_loop ids b kpd todo : ∀ k x s e ws ps free,
  located ids b x → kboot k kpd (ps ++ free) → Forall (λ id, 0 ≤ id < 256) ids → NoDup todo → (∀ c, c ∈ todo → (c < length ids)%nat) →
  (∀ c, c ∈ todo → c ≠ b → waiting s c) → length ps = length (filter (λ c, c ≠ b) todo) → length ws = length ps →
  image_ok k.(k_mem).(m_byte) →
  ∃ k' x' s', for_each todo (startother L) (upd k x s) (schedule L fuel ws ++ e) = Ret tt (upd k' x' s') e ∧
    keeps x x' ∧ others_up kpd k k' free ∧ s'.(sy_ide) = s.(sy_ide) ∧ length s'.(sy_stack) = length s.(sy_stack) ∧
    (∀ i c p, filter (λ c, c ≠ b) todo !! i = Some c → ps !! i = Some p → running_on s s' kpd c p) ∧
    (∀ c, c ∉ filter (λ c, c ≠ b) todo → same_at s s' c).
Proof.
  induction todo as [|c todo IH]; intros k x s e ws ps free Hx Kb Hids Hnd Hlt Hw Hps Hws Him.
  { destruct ps; [|done]. destruct ws; [|done]. exists k, x, s. split; [done|]. split; [apply keeps_self|]. split; [by split|]. done. }
  apply NoDup_cons in Hnd as [Hc Hnd]. cbn [for_each]. destruct (decide (c = b)) as [->|Hne].
  - rewrite filter_cons_False in * by (intros ?; done). unfold startother at 1.
    destruct (cpunum_sys ids b k x s (schedule L fuel ws ++ e) Hx) as (x1 & R1 & K1). rewrite bind_assoc. mstep R1. rewrite Z.eqb_refl, bind_ret_l.
    destruct (IH k x1 s e ws ps free) as (k' & x' & s' & R' & K' & H'); [by eapply located_keeps|done|done|done|intros c Hin; apply Hlt; by right|intros c Hin; apply Hw; by right|done|done|done|].
    exists k', x', s'. split; [done|]. split; [by eapply keeps_chain|done].
  - rewrite filter_cons_True in * by done. destruct ps as [|a ps]; [done|]. destruct ws as [|[w r] ws]; [done|]. cbn [length app] in *.
    unfold schedule. cbn [mbind list_bind fst snd]. fold (schedule L fuel ws). rewrite <- !app_assoc. cbn [app].
    destruct (lookup_lt_is_Some_2 ids c) as [id Hid]; [apply Hlt; by left|]. pose proof (Hw c ltac:(by left) Hne) as W. destruct (W) as [[t Ht] (y & Hy & Hyi) Hst _].
    destruct (startother_run w r ids b c id k x s (schedule L fuel ws ++ e) kpd a (ps ++ free) t y) as (k1 & x1 & y1 & R1 & K1 & Kb1 & B1 & C1 & E1 & E2 & E3 & _ & _ & O1 & I1 & P1);
      try done; [exact (Forall_lookup_1 _ _ _ _ Hids Hid)|]. mstep R1. set (s1 := up c y1 _ t s).
    assert (∀ c', c' ≠ c → same_at s s1 c') as Hsame by (intros; by apply up_same).
    destruct (IH k1 x1 s1 e ws ps free) as (k' & x' & s' & R' & K' & Hu & Hide & Hl & Hrun & Hrest); [by eapply located_keeps|done|done|done|intros c' Hin; apply Hlt; by right| |by injection Hps|by injection Hws| |].
    { intros c' Hin Hb. eapply waiting_same; [apply Hw; [by right|done]|apply Hsame; by intros ->|]. unfold s1, up. simpl. by rewrite length_insert. }
    { by apply (image_ok_ext k.(k_mem).(m_byte)). }
    exists k', x', s'. split; [exact R'|]. split; [by eapply keeps_chain|].
    split; [eapply others_up_trans; [|exact Hu]; split; [exact Kb1|exact B1|exact C1|by rewrite E1, E2, E3|exact O1]|]. split; [done|]. split; [rewrite Hl; unfold s1, up; simpl; by rewrite length_insert|]. split.
    + intros [|i] c' p Hc' Hp; simpl in Hc', Hp.
      * simplify_eq. eapply running_same; [by apply up_running|]. apply Hrest. intros [_ ?]%list_elem_of_filter. done.
      * destruct (Hrun i c' p Hc' Hp) as (t' & y' & T & Hr). exists t', y'. split; [|done]. assert (c' ≠ c) as Hne'.
        { intros ->. apply list_elem_of_lookup_2, list_elem_of_filter in Hc' as [_ ?]. done. }
        by destruct (Hsame c' Hne') as (<- & _).
    + intros c' [Hn1 Hn2]%not_elem_of_cons. destruct (Hsame c' Hn1) as (A1 & A2 & A3 & A4). destruct (Hrest c' Hn2) as (B1' & B2' & B3' & B4'). split_and!; congruence.
Qed.

(** ** Finding the processors *)

(** The BIOS area of [m] below [top] has no floating pointer structure and there is one processor, or it has a table with the
    processors [ids]. *)
Definition bios (m : mem) (top : Z) (ids : list Z) : Prop :=
  (∀ z, is_byte (m z)) ∧ base_memory m ≤ 1024 ∧
  ((ids = [] ∧ mpsearch m = 0) ∨
   (ids ≠ [] ∧ ∃ mp conf xs, mpconfig m = Some (mp, conf) ∧ Forall entry_ok xs ∧ conf_length m conf = sizeof_mpconf + Z.of_nat (length (xs ≫= entry_bytes)) ∧
      load_bytes m (conf + sizeof_mpconf) (length (xs ≫= entry_bytes)) = xs ≫= entry_bytes ∧ conf + conf_length m conf ≤ top ∧
      conf_lapicaddr m conf = pf_base ∧ proc_ids xs = ids ∧ (length xs < fuel)%nat)).

(** The boot processor is number [b] of [ids]. *)
Definition boots_on (ids : list Z) (b : nat) (x : machine D) : Prop :=
  (length ids ≤ 8)%nat ∧ NoDup ids ∧ Forall (λ id, 0 ≤ id < 256) ids ∧ (if decide (ids = []) then b = 0%nat else ids !! b = Some (pf_cpu x.(dev))).

(** The drivers' variables in the kernel's image. *)
Definition fresh (x : machine D) : Prop := x.(lapic) = 0 ∧ x.(ncpu) = 0 ∧ length x.(apicids) = 8%nat ∧ x.(int_on) = false ∧ x.(printed_out) = [].

Lemma mpinit_sys m m' top ids b x e :
  bios m top ids → KERNBASE + 1048576 + 4096 ≤ top → (∀ z, z < top → m' z = m z) → boots_on ids b x → fresh x →
  ∃ x', mpinit m' fuel x e = Ret tt x' e ∧ located ids b x' ∧ at_disk x'.(dev) = at_disk x.(dev).
Proof.
  intros (Hb & Hbase & Hcase) Htop Hext (Hlen & Hnd & _ & Hboot) (F1 & F2 & F3 & F4 & F5). unfold mpinit. destruct Hcase as [[-> Hs]|(Hids & mp & conf & xs & Hc & Hok & Hcl & Hl & Hct & Hlap & Hxs & Hf)].
  - destruct (mpsearch_ext m m' top Htop Hext Hb Hbase) as [Es _]. assert (mpconfig m' = None) as ->.
    { unfold mpconfig. by rewrite Es, Hs. }
    exists x. split; [done|]. split; [|done]. split; [done|done|]. left. by rewrite decide_True in Hboot.
  - destruct (mpconfig_ext m m' top Htop Hext Hb mp conf Hbase Hc) as (-> & El & Ea); [unfold sizeof_mpconf in *; lia|done|]. rewrite !bind_modify, El, Ea, Hlap.
    set (x1 := set_lapic _ _). destruct (mp_walk_run m' xs fuel (conf + sizeof_mpconf) (conf + conf_length m conf) x1 e Hok) as (x2 & R2 & An); [|lia|done|unfold NCPU; simpl; lia|done|].
    { rewrite <- Hl at 2. apply load_bytes_ext. intros z Hz. apply Hext. unfold sizeof_mpconf in *. lia. }
    pose proof (announced_ids xs x1 x2 An F2) as Hi. destruct An as [A1 _ _ _ _ (A2 & A3 & A4 & _ & _ & A5 & A6)]. simpl in A1, A2, A3, A4, A5, A6. rewrite F2, Hxs in A1.
    assert (x2.(ncpu) = Z.of_nat (length ids)) as En by (unfold NCPU in A1; lia). rewrite En, Nat2Z.id, Hxs, (take_ge ids) in Hi by lia.
    assert (located ids b x2) as Hx2.
    { rewrite decide_False in Hboot by done. split; [congruence|congruence|]. right. do 4 (split; [done|]). by rewrite A2. }
    mstep R2. rewrite bind_gets, A3. change (negb (truthy 1)) with false. cbv iota.
    assert (tame (if truthy (mp_imcrp m' mp) then outb 34 112;; v <- inb 35;; outb 35 (Z.lor v 1) else ret tt)) as Ht by (apply tame_if; go_tame).
    destruct (Ht x2 e (located_apic _ _ _ Hx2)) as ([] & x' & R & K). exists x'. split; [exact R|]. split; [by eapply located_keeps|]. by rewrite (ke_disk _ _ K), A2.
Qed.
End steps.

(** ** The kernel's memory *)

Lemma kinit1_run kend kdata kforkret kmycpu m disk e :
  KERNBASE + EXTMEM ≤ kend ≤ KERNBASE + 2000000 →
  let k := boot_state kend kdata kforkret kmycpu m disk in
  ∃ k1 free, kinit1 kend (KERNBASE + 4194304) k e = Ret tt k1 e ∧ vm_same k k1 ∧ kmem_idle k1 ∧ kmem_free k1.(k_mem) free ∧
    (530 ≤ length free)%nat ∧ (∀ p, p ∈ free → p < KERNBASE + 4194304) ∧ ∀ x, x < kend → k1.(k_mem).(m_byte) x = m x.
Proof.
  intros Hend k. unfold kinit1, initlock. rewrite !bind_modify. set (k0 := on_mem _ _).
  assert (k0 = k) as -> by (unfold k0, k, boot_state, set_k_spin; simpl; by rewrite delete_empty).
  unfold KERNBASE, EXTMEM in *. destruct (PGROUNDUP_spec kend) as [Hup _]; [lia|lia|].
  destruct (freerange_run k [] e kend 2151677952) as (k1 & new & R & V & I & F & Hin & Hl & Hb); [split; [split; done|done]| |done|simpl; lia|done|by intros p []%elem_of_nil|].
  - split; [simpl; unfold KERNBASE; lia|]. split; [constructor|]. split; [constructor|done].
  - exists k1, new. rewrite app_nil_r in F. split; [exact R|]. split; [done|]. split; [done|]. split; [done|]. split; [lia|]. split; [intros p [_ ?]%Hin; lia|].
    intros x Hx. apply Hb. lia.
Qed.

(** The state before the drivers. *)
Lemma memory_run kend kdata kforkret kmycpu m disk e :
  KERNBASE + EXTMEM ≤ kend ≤ KERNBASE + 2000000 → data_ok kdata →
  let k := boot_state kend kdata kforkret kmycpu m disk in
  ∃ k1 k2 kpd free, kinit1 kend (KERNBASE + 4194304) k e = Ret tt k1 e ∧ kvmalloc k1 e = Ret tt k2 e ∧ kboot k2 kpd free ∧ k2.(k_cpu).(c_cr3) = V2P kpd ∧
    (k2.(k_mem).(m_end), k2.(k_mem).(m_data), k2.(k_mem).(m_forkret)) = (kend, kdata, kforkret) ∧ (16 ≤ length free)%nat ∧
    ∀ x, x < kend → k2.(k_mem).(m_byte) x = m x.
Proof.
  intros Hend Hd k. destruct (kinit1_run kend kdata kforkret kmycpu m disk e Hend) as (k1 & free0 & R1 & V1 & I1 & F1 & L1 & P1 & B1). fold k in R1, V1.
  destruct (kvmalloc_run k1 free0 e I1 F1) as (kpd & k2 & used & free & T & [U Hk] & Hp & Hu & R2); [by rewrite (vm_same_data _ _ V1)|lia|].
  pose proof (vm_same_trans _ _ _ V1 (tk_same _ _ _ _ _ T)) as V2. pose proof (tk_used _ _ _ _ _ T) as Hfree.
  set (k3 := on_cpu _ _) in R2. exists k1, k3, kpd, free. split; [done|]. split; [done|].
  assert (k2.(k_cpu).(c_ncli) = 0 ∧ k2.(k_cpu).(c_if) = false) as Hc by (destruct V2 as [_ [[->| ->] _]]; done).
  pose proof (vm_same_end _ _ V2) as He2. pose proof (vm_same_data _ _ V2) as Hd2. destruct V2 as [(? & ? & ? & ? & E2) [_ [cs Hio]]].
  destruct (kernel_table_stable k2 kpd free k3 free (conj U Hk)) as [T3 O3]; [done|done|split; [destruct Hc as [Hn Hi]; split; [simpl; lia|done]|change (k_spin k3) with (k_spin k2); by rewrite E2]| | | |].
  { apply (kmem_free_ext k2.(k_mem)); [apply U|done|done|done]. }
  { done. }
  { intros p Hpo. by apply (owns_page _ _ _ _ _ U Hpo). }
  split; [|split; [done|split; [|split; [rewrite Hfree, length_app in L1; lia|]]]].
  - split; [exact Hc|change (k_spin k3) with (k_spin k2); by rewrite E2|done|done| |simpl; by rewrite Hd2|simpl; rewrite He2; simpl; unfold KERNBASE, EXTMEM in *; lia| | |].
    + intros p Hpp. apply P1. rewrite Hfree, elem_of_app. destruct Hpp as [?|[?%Hp|(? & ? & Hno)]%O3]; [by right|by left|by rewrite lookup_empty in Hno].
    + change (k_io k3) with (k_io k2). rewrite Hio. apply puts_ok. split; [simpl; lia|done].
    + change (k_pt k3) with (k_pt k2). by rewrite E2.
    + change (k_fs k3) with (k_fs k2). by rewrite E2.
  - simpl. rewrite He2, Hd2. by rewrite E2.
  - intros z Hx. simpl. rewrite (tk_bytes _ _ _ _ _ T); [by apply B1|]. intros p Hp' Hxp. destruct F1 as (_ & _ & Hok & _). destruct (proj1 (Forall_forall _ _) Hok p Hp') as (_ & He & _).
    rewrite (vm_same_end _ _ V1) in He. simpl in He. unfold in_page in Hxp. lia.
Qed.

(** Kernel steps of the drivers' initialisation. *)
Definition kstep (k k' : kstate) : Prop :=
  k'.(k_mem) = k.(k_mem) ∧ (k'.(k_cpu).(c_id), k'.(k_cpu).(c_cr3)) = (k.(k_cpu).(c_id), k.(k_cpu).(c_cr3)) ∧ ∀ kpd free, kboot k kpd free → kboot k' kpd free.

Lemma kstep_refl k : kstep k k.
Proof. done. Qed.

Lemma kstep_trans k k1 k2 : kstep k k1 → kstep k1 k2 → kstep k k2.
Proof. intros (A1 & A2 & A3) (B1 & B2 & B3). split; [congruence|]. split; [congruence|auto]. Qed.

Lemma kstep_printed cs k : kstep k (printed cs k).
Proof. split; [done|]. split; [unfold printed; simpl; by destruct (truthy _)|]. intros kpd free. apply kboot_printed. Qed.

Lemma kstep_initlock lk k : kstep k (set_k_spin (delete lk k.(k_spin)) k).
Proof.
  split; [done|]. split; [done|]. intros kpd free K. apply (kboot_same k); [done|done|simpl; rewrite (kb_spin _ _ _ K); apply delete_empty|apply K|done|done|apply K].
Qed.

Lemma kstep_binit k e : ∃ k', binit k e = Ret tt k' e ∧ kstep k k'.
Proof.
  destruct (binit_run k e) as (k' & R & H1 & H2 & H3 & H4 & H5 & H6). exists k'. split; [done|]. split; [done|]. split; [by rewrite H3|]. intros kpd free K.
  apply (kboot_same k); [done|done|apply H2, K|rewrite H3; apply K|done|done|rewrite H6; apply K].
Qed.

Lemma kstep_consoleinit k e : ∃ k', Console.consoleinit k e = Ret tt k' e ∧ kstep k k'.
Proof.
  eexists. split; [reflexivity|]. split; [done|]. split; [done|]. intros kpd free K. apply (kboot_same k); [done|done|simpl; rewrite (kb_spin _ _ _ K); apply delete_empty|apply K|done|done|apply K].
Qed.

Section devices_up.
Context {D : Type} `{Platform D} (L : linkmap) (fuel : nat).
Hypothesis Hfuel : (pf_patience < fuel)%nat.
Notation sM := (M (system D)).

Lemma xv6_text c : ∃ cs, format (str (newline +:+ "cpu%d: starting xv6" +:+ newline +:+ newline)) [AInt c] = Some cs.
Proof. eexists. reflexivity. Qed.

(** A device function in the middle of [main]. *)
Lemma mach_step {A} (m : M (machine D) A) ids b k x s e : tame m → located ids b x →
  ∃ a x', on_mach m (upd k x s) e = Ret a (upd k x' s) e ∧ located ids b x' ∧ at_disk x'.(dev) = at_disk x.(dev).
Proof.
  intros Hm Hx. destruct (on_mach_run m ids b k x s e Hm Hx) as (a & x' & R & K). exists a, x'. split; [done|]. split; [by eapply located_keeps|by apply K].
Qed.

(** From the local APIC to the timer. *)
Lemma drivers_run (rest : sM unit) ids b k x s e kpd free t :
  located ids b x → kboot k kpd free → s.(sy_tab) !! b = Some t → ((at_disk x.(dev)).(a_busy) < fuel)%nat →
  ∃ k' x' q,
   (on_mach (lapicinit fuel);;
    seginit L;;
    c <- cpunum L;;
    on_k (cprintf (newline +:+ "cpu%d: starting xv6" +:+ newline +:+ newline) [AInt c]);;
    on_mach picinit;;
    on_mach ioapicinit;;
    consoleinit;;
    on_mach uartinit;;
    on_k pinit;;
    tvinit L;;
    on_k binit;;
    on_k fileinit;;
    on_ide (ideinit fuel);;
    mp <- gets (λ s : system D, (mach s).(ismp));;
    (if negb (truthy mp) then on_mach timerinit else ret tt);;
    rest) (upd k x s) e =
   rest (upd k' x' (set_sy_ide q (set_sy_tab (Desc.tvinit L.(ln_vectors) <$> <[b := segments L b t]> s.(sy_tab)) s))) e ∧
   located ids b x' ∧ kboot k' kpd free ∧ k'.(k_mem) = k.(k_mem) ∧ k'.(k_cpu).(c_id) = b ∧ k'.(k_cpu).(c_cr3) = k.(k_cpu).(c_cr3).
Proof.
  intros Hx Kb Ht Hdisk.
  destruct (mach_step (lapicinit fuel) ids b k x s e (tame_lapicinit fuel Hfuel) Hx) as ([] & x1 & R1 & Hx1 & D1). mstep R1.
  destruct (seginit_sys L ids b k x1 s e t Hx1 Ht) as (x2 & R2 & K2). mstep R2. pose proof (located_keeps _ _ _ _ Hx1 K2) as Hx2. pose proof (ke_disk _ _ K2) as D2.
  set (k1 := on_cpu _ k). set (s1 := set_sy_tab _ s).
  assert (kboot k1 kpd free) as Kb1 by (apply (kboot_same k); [done|done|apply Kb|apply Kb|done|done|apply Kb]).
  destruct (cpunum_sys L ids b k1 x2 s1 e Hx2) as (x3 & R3 & K3). mstep R3. pose proof (located_keeps _ _ _ _ Hx2 K3) as Hx3. pose proof (ke_disk _ _ K3) as D3.
  destruct (xv6_text (Z.of_nat b)) as [cs Hcs]. destruct (kboot_idle _ _ _ Kb1) as (_ & _ & Hp1).
  mstep (on_k_run _ _ _ x3 s1 e _ (cprintf_run _ _ _ k1 [] Hp1 Hcs)). set (k2 := printed cs k1). pose proof (kstep_printed cs k1) as S2. fold k2 in S2. pose proof (proj2 (proj2 S2) _ _ Kb1) as Kb2.
  destruct (mach_step picinit ids b k2 x3 s1 e tame_picinit Hx3) as ([] & x4 & R4 & Hx4 & D4). mstep R4.
  destruct (ioapicinit_keeps x4 [] (located_apic _ _ _ Hx4)) as (x5 & R5 & K5).
  destruct (on_mach_print ioapicinit k2 x4 s1 e x5 kpd free R5 K5 (lo_out _ _ _ Hx4) Kb2) as (k3 & R5' & Hk3). mstep R5'.
  rewrite (lo_out _ _ _ Hx4) in K5. pose proof (located_keeps _ _ _ _ Hx4 K5) as Hx5. pose proof (ke_disk _ _ K5) as D5. set (x6 := set_printed_out [] x5) in *.
  assert (kstep k1 k3) as S3 by (eapply kstep_trans; [exact S2|]; destruct Hk3 as [->|[cs' ->]]; [apply kstep_refl|apply kstep_printed]).
  unfold consoleinit. destruct (kstep_consoleinit k3 []) as (k4 & R6 & S4). rewrite bind_assoc. mstep (on_k_run _ _ _ x6 s1 e _ R6). rewrite bind_assoc.
  destruct (mach_step (picenable IRQ_KBD) ids b k4 x6 s1 e (tame_picenable _) Hx5) as ([] & x7 & R7 & Hx7 & D7). mstep R7.
  destruct (mach_step (ioapicenable IRQ_KBD 0) ids b k4 x7 s1 e (tame_ioapicenable _ _) Hx7) as ([] & x8 & R8 & Hx8 & D8). mstep R8.
  destruct (mach_step uartinit ids b k4 x8 s1 e tame_uartinit Hx8) as ([] & x9 & R9 & Hx9 & D9). mstep R9.
  unfold pinit, initlock at 1. rewrite on_k_modify. set (k5 := set_k_spin _ k4). unfold tvinit, initlock at 1. rewrite bind_assoc, bind_modify.
  set (s2 := set_sy_tab (Desc.tvinit (ln_vectors L) <$> s1.(sy_tab)) s1). change (set_sy_tab _ (upd k5 x9 s1)) with (upd k5 x9 s2). rewrite on_k_modify. set (k6 := set_k_spin _ k5).
  destruct (kstep_binit k6 []) as (k7 & R10 & S7). mstep (on_k_run _ _ _ x9 s2 e _ R10). unfold fileinit, initlock at 1. rewrite on_k_modify. set (k8 := set_k_spin _ k7).
  assert (kstep k1 k8) as S8.
  { eapply kstep_trans; [exact S3|]. eapply kstep_trans; [exact S4|]. eapply kstep_trans; [apply (kstep_initlock Lptable)|]. eapply kstep_trans; [apply (kstep_initlock Ltime)|].
    eapply kstep_trans; [exact S7|]. apply kstep_initlock. }
  destruct (ideinit_run fuel (set_ide_mach x9 s2.(sy_ide)) [] (located_apic _ _ _ Hx9)) as (q & R11 & C11).
  { change (at_disk (dev (ide_mach (set_ide_mach x9 (sy_ide s2))))) with (at_disk x9.(dev)). rewrite D9, D8, D7. change (dev (set_printed_out [] x5)) with (dev x6) in D5. by rewrite D5, D4, D3, D2, D1. }
  assert (on_ide (ideinit fuel) (upd k8 x9 s2) e = Ret tt (upd k8 q.(ide_mach) (set_sy_ide q s2)) e) as R12.
  { unfold on_ide, part. change (sy_ide (upd k8 x9 s2)) with (set_ide_mach x9 s2.(sy_ide)). rewrite R11. unfold upd. cbn. by destruct q. }
  mstep R12. rewrite bind_gets. pose proof (located_conf _ _ _ _ Hx9 C11) as Hq.
  assert (∃ x', (if negb (truthy (ismp (mach (upd k8 (ide_mach q) (set_sy_ide q s2))))) then on_mach timerinit else ret tt) (upd k8 (ide_mach q) (set_sy_ide q s2)) e = Ret tt (upd k8 x' (set_sy_ide q s2)) e ∧ located ids b x') as (x' & R13 & Hx').
  { destruct (negb _); [|by eexists]. destruct (mach_step timerinit ids b k8 (ide_mach q) (set_sy_ide q s2) e tame_timerinit Hq) as ([] & x' & ? & ? & _). by exists x'. }
  mstep R13. exists k8, x', q. split; [done|]. split; [done|]. destruct S8 as (M8 & C8 & B8). split; [by apply B8|]. split; [exact M8|]. by injection C8.
Qed.
End devices_up.

(** ** The first process *)

Lemma kinit2_run k kpd free e :
  kboot k kpd free →
  ∃ k1 new, kinit2 (KERNBASE + 4194304) (KERNBASE + PHYSTOP) k e = Ret tt k1 e ∧ user_ready k1 kpd (new ++ free) ∧
    (∀ p, p ∈ new → KERNBASE + 4194304 ≤ p) ∧ (∀ p, owns k1 kpd ∅ p ↔ owns k kpd ∅ p) ∧ k1.(k_mem).(m_kpgdir) = kpd ∧ k1.(k_pt) = k.(k_pt) ∧
    (k1.(k_mem).(m_end), k1.(k_mem).(m_data), k1.(k_mem).(m_forkret)) = (k.(k_mem).(m_end), k.(k_mem).(m_data), k.(k_mem).(m_forkret)) ∧
    k1.(k_spin) = ∅ ∧ k1.(k_fs) = k.(k_fs) ∧ io_ok k1.(k_io) ∧ (k1.(k_cpu).(c_ncli) = 0 ∧ k1.(k_cpu).(c_if) = false) ∧ k1.(k_cpu).(c_id) = k.(k_cpu).(c_id).
Proof.
  intros K. destruct (kboot_idle _ _ _ K) as (Hwf & Hs & _). destruct (kb_table _ _ _ K) as [U _]. pose proof (kb_end _ _ _ K) as Hend.
  assert (PGROUNDUP (KERNBASE + 4194304) = KERNBASE + 4194304) as Hup by done.
  destruct (freerange_run k free e (KERNBASE + 4194304) (KERNBASE + PHYSTOP)) as (k1 & new & R & V & I & F & Hin & Hl & Hb); rewrite ?Hup; [apply U|apply U|done|unfold KERNBASE, PHYSTOP in *; lia|done|intros p Hp; apply K; by left|].
  rewrite Hup in Hin, Hl, Hb. set (k2 := on_mem (set_m_use_lock 1) k1). exists k2, new. split; [unfold kinit2; by mstep R|].
  assert (∀ p, p ∈ new → KERNBASE + 4194304 ≤ p) as Hnew by (intros p [_ ?]%Hin; lia).
  destruct (kernel_table_stable k kpd free k2 (new ++ free) (kb_table _ _ _ K)) as [T O]; [apply (vm_same_end _ _ V)|apply (vm_same_data _ _ V)|destruct I; by split| | | |].
  { apply (kmem_free_ext k1.(k_mem)); done. }
  { intros p x Hp Hx. apply Hb. left. destruct (owns_page _ _ _ _ _ U Hp) as [(Hm & _) _]. pose proof (kb_pages _ _ _ K p (or_intror Hp)). unfold in_page, PGSIZE, KERNBASE in *.
    pose proof (Z.div_mod p 4096 ltac:(done)). lia. }
  { intros p Hp [Hn|Hn]%elem_of_app; [|by apply (owns_page _ _ _ _ _ U Hp)]. pose proof (kb_pages _ _ _ K p (or_intror Hp)). specialize (Hnew p Hn). lia. }
  destruct (kb_pt _ _ _ K) as [Hpt _]. destruct V as [(? & ? & c & io & E) [Hc [cs Hio]]].
  assert (k2.(k_spin) = ∅) as Hsp by (change (k_spin k2) with (k_spin k1); rewrite E; apply K).
  assert ((k2.(k_cpu).(c_ncli) = 0 ∧ k2.(k_cpu).(c_if) = false) ∧ k2.(k_cpu).(c_id) = k.(k_cpu).(c_id)) as [Hn2 Hi2] by (change (k_cpu k2) with (k_cpu k1); pose proof (kb_cpu _ _ _ K) as [? ?]; by destruct Hc as [->| ->]).
  split; [split; [split; [apply I|by rewrite Hsp]|by rewrite Hsp|exact T| | | |]|do 2 (split; [done|])].
  - change (k_mem k2).(m_data) with (k_mem k1).(m_data). rewrite E. apply K.
  - change (k_pt k2) with (k_pt k1). rewrite E. change (pfind unused k.(k_pt).(pt_proc) = Some 0%nat). by rewrite Hpt.
  - change (k_fs k2) with (k_fs k1). rewrite E. change (k.(k_fs).(fs_inodes) ≠ [] ∧ Forall (λ y, i_ref y = 0) k.(k_fs).(fs_inodes)). rewrite (kb_inodes _ _ _ K). split; [done|]. by apply Forall_replicate.
  - rewrite length_app. unfold KERNBASE, PHYSTOP in *. lia.
  - change (k_io k2) with (k_io k1). rewrite Hio. change (k_pt k2) with (k_pt k1). change (k_fs k2) with (k_fs k1). change (k_mem k2) with (set_m_use_lock 1 k1.(k_mem)).
    split; [rewrite E; apply K|]. split; [by rewrite E|]. split; [by rewrite E|]. split; [done|]. split; [by rewrite E|]. split; [apply puts_ok, K|done].
Qed.

(** The other processors first, then the rest of memory. *)
Section finish.
Context {D : Type} `{Platform D} (L : linkmap) (fuel : nat).
Hypothesis Hfuel : (pf_patience < fuel)%nat.
Hypothesis Hlink : is_u32 L.(ln_mpenter).
Hypothesis Htable : KERNBASE + EXTMEM ≤ L.(ln_entrypgdir) ∧ L.(ln_entrypgdir) + 4096 ≤ 4294967296.
Hypothesis Himage : code + Z.of_nat (length L.(ln_entryother)) ≤ KERNBASE + EXTMEM.

(** The processors [startothers] starts, in its order. *)
Definition others (ids : list Z) (b : nat) : list nat := filter (λ c, c ≠ b) (seq 0 (length ids)).

Lemma length_others ids b : (length (others ids b) ≤ length ids)%nat.
Proof. unfold others. etrans; [apply length_filter|]. by rewrite length_seq. Qed.

Lemma load_store_bytes a bs (m : mem) : load_bytes (store_bytes a bs m) a (length bs) = bs.
Proof.
  unfold load_bytes. apply list_eq. intros i. rewrite list_lookup_fmap. destruct (decide (i < length bs)%nat) as [Hi|Hi].
  - rewrite lookup_seq_lt by done. simpl. destruct (lookup_lt_is_Some_2 bs i Hi) as [v Hv]. rewrite Hv. f_equal. apply store_bytes_in; [lia|].
    by replace (Z.to_nat (a + Z.of_nat i - a)) with i by lia.
  - rewrite lookup_seq_ge by lia. symmetry. apply lookup_ge_None_2. lia.
Qed.

Lemma located_ncpu ids b (x : machine D) : located ids b x → Z.to_nat x.(ncpu) = length ids.
Proof. intros [_ _ [(-> & _ & -> & _)|(_ & -> & _)]]; [done|lia]. Qed.

Lemma startothers_run ids b kpd k x s e ws ps free :
  located ids b x → kboot k kpd (ps ++ free) → Forall (λ id, 0 ≤ id < 256) ids → (∀ c, (c < length ids)%nat → c ≠ b → waiting s c) →
  length ps = length (others ids b) → length ws = length ps → load_words k.(k_mem).(m_byte) L.(ln_entrypgdir) NPDENTRIES = entrypgdir →
  ∃ k' x' s', startothers L (upd k x s) (schedule L fuel ws ++ e) = Ret tt (upd k' x' s') e ∧
    located ids b x' ∧ kboot k' kpd free ∧ (k'.(k_cpu).(c_id), k'.(k_cpu).(c_cr3)) = (k.(k_cpu).(c_id), k.(k_cpu).(c_cr3)) ∧
    (k'.(k_mem).(m_end), k'.(k_mem).(m_data), k'.(k_mem).(m_forkret)) = (k.(k_mem).(m_end), k.(k_mem).(m_data), k.(k_mem).(m_forkret)) ∧
    (∀ i c p, others ids b !! i = Some c → ps !! i = Some p → running_on L s s' kpd c p ∧ ¬ owns k' kpd ∅ p) ∧ same_at s s' b.
Proof.
  intros Hx Kb Hids Hw Hps Hws Htab. unfold startothers. rewrite on_k_modify. set (k1 := on_mem _ k). rewrite bind_gets. change (mach (upd k1 x s)) with x. rewrite (located_ncpu ids b x Hx).
  assert (kboot k1 kpd (ps ++ free)) as Kb1.
  { change k1 with (on_mem (set_m_byte (store_bytes code L.(ln_entryother) k.(k_mem).(m_byte))) k). apply kboot_store; [done|]. intros z Hz. apply store_bytes_out. pose proof (kb_end _ _ _ Kb). lia. }
  destruct (startothers_loop L fuel Hfuel Hlink Htable ids b kpd (seq 0 (length ids)) k1 x s e ws ps free) as (k' & x' & s' & R & K & U & _ & _ & Hr & Hrest);
    [done|done|done|apply NoDup_seq|by intros c [_ ?]%elem_of_seq|intros c [_ ?]%elem_of_seq; by apply Hw|done|done| |].
  { split; [apply load_store_bytes|]. rewrite <- Htab. apply load_words_ext. intros z Hz. apply store_bytes_out. lia. }
  exists k', x', s'. split; [exact R|]. split; [by eapply located_keeps|]. split; [apply U|]. split; [apply U|]. split; [apply U|]. split.
  - intros i c p Hc Hp. split; [by eapply Hr|]. rewrite (ou_owns _ _ _ _ U). intros Ho. apply (owns_page _ _ _ _ _ (proj1 (kb_table _ _ _ Kb1))) in Ho as [_ Ho].
    apply Ho, elem_of_app. left. by eapply list_elem_of_lookup_2.
  - apply Hrest. intros [? _]%list_elem_of_filter. done.
Qed.
End finish.

(** ** The end of [main] *)

(** The tables of a processor that runs. *)
Definition protected (L : linkmap) (c : nat) (t : tables_state) : tables_state :=
  segments L c (Desc.idtinit L.(ln_idt) (Desc.tvinit L.(ln_vectors) t)).

Lemma tvinit_segments L c t : Desc.tvinit L.(ln_vectors) (segments L c t) = segments L c (Desc.tvinit L.(ln_vectors) t).
Proof.
  assert (∀ f l t, foldl (λ t i, set_idt i (f i) t) (segments L c t) l = segments L c (foldl (λ t i, set_idt i (f i) t) t l)) as Hf.
  { intros f l. induction l as [|i l IH]; intros t'; [done|]. cbn [foldl]. rewrite <- IH. done. }
  unfold Desc.tvinit. cbv zeta. by rewrite Hf.
Qed.

(** The other two orders in which the tables are set up. *)
Lemma protected_boot L c t : Desc.idtinit L.(ln_idt) (Desc.tvinit L.(ln_vectors) (segments L c t)) = protected L c t.
Proof. rewrite tvinit_segments. done. Qed.
Lemma protected_other L c t : Desc.idtinit L.(ln_idt) (segments L c (Desc.tvinit L.(ln_vectors) t)) = protected L c t.
Proof. done. Qed.

Lemma scheduler_first n k p :
  k.(k_cpu).(c_if) = false → sched_idle k → k.(k_pt).(pt_proc) = <[0%nat := p]> (replicate NPROC zero_proc) → p.(p_state) = RUNNABLE → p.(p_pgdir) ≠ 0 →
  scheduler (S n) k [] = Switched (dispatched 0 p (scanning (on_cpu (set_c_proc None) k))).
Proof.
  intros Hif Hi Hp Hr Hpg. unfold scheduler. mstep (mycpu_off k [] Hif). rewrite bind_modify. cbn [rounds]. set (k1 := on_cpu _ k). unfold bind at 1.
  rewrite (scheduler_round_switched 0 p); [done|exact Hi| |change (k_pt k1) with (k_pt k); by rewrite Hp|done].
  apply highest_Some. change (k_pt k1) with (k_pt k). rewrite Hp. exists p. split; [done|]. split; [done|]. intros j q Hj Hq. split; [|lia].
  destruct j as [|j]; [by injection Hj as ->|]. exfalso. rewrite list_lookup_insert_ne in Hj by done. apply lookup_replicate in Hj as [-> _]. done.
Qed.

(** The first process runs: it is the only one, it has the code [init] at address 0 and nothing else of its own, and a table
    that shows the kernel the way the kernel's table does. *)
Record user_running (init : list Z) (kforkret : Z) (k : kstate) (kpd kstack pd : Z) (free : list Z) (us : gmap Z (Z * Z)) : Prop := {
  ru_cpu : k.(k_cpu).(c_proc) = Some 0%nat ∧ k.(k_cpu).(c_cr3) = V2P pd ∧ k.(k_cpu).(c_esp0) = u32 (kstack + KSTACKSIZE);
  ru_proc : k.(k_pt).(pt_proc) = <[0%nat := set_p_state RUNNING (first_process 1 kstack kforkret pd zero_proc)]> (replicate NPROC zero_proc);
  ru_init : k.(k_pt).(pt_initproc) = Some 0%nat ∧ k.(k_pt).(pt_nextpid) = 2;
  ru_space : uspace k pd free us;
  ru_one : contiguous us 1;
  ru_code : ∀ va, 0 ≤ va < 4096 → user_byte k pd va = Some (nth (Z.to_nat va) init 0);
  ru_kernel : ∀ va, KERNBASE ≤ va < 4294967296 → pte k.(k_mem).(m_byte) pd va = kernel_pte k.(k_mem).(m_data) va;
  ru_table : kernel_table k kpd free ∧ k.(k_mem).(m_kpgdir) = kpd;
  ru_apart : apart k kpd ∅ pd us;
  ru_kstack : kstack ∉ free ∧ ¬ owns k pd us kstack ∧ ¬ owns k kpd ∅ kstack;
  ru_root : ∃ xs, k.(k_fs).(fs_inodes) = root_inode zero_inode :: xs;
  ru_locks : k.(k_spin) !! Lptable ≠ None ∧ ∀ lk, lk ≠ Lptable → k.(k_spin) !! lk = None
}.

Lemma printed_cpu cs k : k.(k_cpu).(c_ncli) = 0 → (printed cs k).(k_cpu).(c_ncli) = 0 ∧ (printed cs k).(k_cpu).(c_id) = k.(k_cpu).(c_id) ∧ (printed cs k).(k_cpu).(c_if) = k.(k_cpu).(c_if).
Proof. intros Hn. unfold printed. simpl. by destruct (truthy _). Qed.

Lemma first_runs n init k kpd free k1 kstack pd free' us cs :
  user_started init k kpd free k1 zero_proc kstack pd free' us → k.(k_spin) = ∅ → k.(k_cpu).(c_ncli) = 0 ∧ k.(k_cpu).(c_if) = false → k.(k_mem).(m_kpgdir) = kpd →
  k.(k_pt).(pt_proc) = replicate NPROC zero_proc → k.(k_pt).(pt_nextpid) = 1 → k.(k_fs).(fs_inodes) = replicate NINODE zero_inode →
  ∃ k2, scheduler (S n) (printed cs k1) [] = Switched k2 ∧ user_running init k.(k_mem).(m_forkret) k2 kpd kstack pd free' us ∧ k2.(k_cpu).(c_id) = k.(k_cpu).(c_id) ∧
    k2.(k_mem) = k1.(k_mem).
Proof.
  intros [Q P S1 S2 S3 S4 S5 S6 S7 S8 S9 S10 S11 _] Hspin [Hn Hif] Hkpd Hproc Hpid Hinodes.
  destruct S10 as (S10 & _ & Hdata). set (p := first_process 1 kstack k.(k_mem).(m_forkret) pd zero_proc). rewrite Hpid in P. fold p in P.
  assert (k1.(k_spin) = ∅) as Hs1 by (by rewrite (qt_spin _ _ Q)).
  assert (k1.(k_cpu).(c_ncli) = 0 ∧ k1.(k_cpu).(c_id) = k.(k_cpu).(c_id) ∧ k1.(k_cpu).(c_if) = false) as (Hn1 & Hid1 & Hif1) by (by destruct (qt_cpu _ _ Q) as [->| ->]).
  destruct (printed_cpu cs k1 Hn1) as (Hn2 & Hid2 & Hif2). rewrite Hif1 in Hif2. set (k2 := printed cs k1) in *.
  assert (k2.(k_pt).(pt_proc) = <[0%nat := p]> (replicate NPROC zero_proc)) as Hp2 by (change (k_pt k2) with (k_pt k1); by rewrite P, <- Hproc).
  assert (sched_idle k2) as Hsi by (split; [done|change (k_spin k2) with (k_spin k1); by rewrite Hs1]).
  eexists. split; [by apply (scheduler_first n k2 p)|].
  set (k3 := scanning _). set (k4 := dispatched 0 p k3). assert (k4.(k_mem) = k1.(k_mem)) as Hm by done.
  assert (kmem_idle k4) as Hi4.
  { split; [exact (proj1 (scanning_wf (on_cpu (set_c_proc None) k2) Hsi))|]. change (k_spin k4) with (<[Lptable := k2.(k_cpu).(c_id)]> k1.(k_spin)). by rewrite Hs1. }
  assert (∀ d u q, owns k4 d u q ↔ owns k1 d u q) as Ho by done. destruct (kernel_table_mem _ _ _ k4 S5 Hi4 Hm) as [T4 _].
  split; [|split; [by rewrite <- Hid1|done]]. split; [done| | |by apply (uspace_mem k1)|done|exact S3|change (k_mem k4) with (k_mem k1); rewrite Hdata; exact S4| |done| | |].
  - change (k_pt k4).(pt_proc) with (<[0%nat := set_p_state RUNNING p]> k2.(k_pt).(pt_proc)). by rewrite Hp2, list_insert_insert_eq.
  - change (k_pt k4).(pt_initproc) with (k_pt k1).(pt_initproc). change (k_pt k4).(pt_nextpid) with (k_pt k1).(pt_nextpid). rewrite P. simpl. by rewrite Hpid.
  - split; [exact T4|]. change (k_mem k4) with (k_mem k1). by rewrite S10.
  - destruct S7 as (_ & ? & ? & ?). done.
  - destruct S11 as (x & xs & Ex & Efs). rewrite Hinodes in Ex. exists xs. change (k_fs k4) with (k_fs k1). rewrite Efs. by injection Ex as <- _.
  - change (k_spin k4) with (<[Lptable := k2.(k_cpu).(c_id)]> k1.(k_spin)). rewrite Hs1. split; [by rewrite lookup_insert_eq|]. intros lk Hlk. by rewrite lookup_insert_ne.
Qed.

Section boots.
Context {D : Type} `{Platform D} (L : linkmap) (fuel : nat).
Hypothesis Hfuel : (pf_patience < fuel)%nat.
Hypothesis Hlink : is_u32 L.(ln_mpenter).
Hypothesis Htable : KERNBASE + EXTMEM ≤ L.(ln_entrypgdir) ∧ L.(ln_entrypgdir) + 4096 ≤ 4294967296.
Hypothesis Himage : code + Z.of_nat (length L.(ln_entryother)) ≤ KERNBASE + EXTMEM.
Hypothesis Hinit : Z.of_nat (length L.(ln_initcode)) < 4096.

(** The state at the end of [main]: every processor runs on its tables, the other ones on stacks [ps] of their own. *)
Record running (ids : list Z) (b : nat) (kforkret : Z) (s s' : system D) (kpd kstack pd : Z) (free ps : list Z) (us : gmap Z (Z * Z)) : Prop := {
  rn_user : user_running L.(ln_initcode) kforkret s'.(sy_k) kpd kstack pd free us;
  rn_boot : s'.(sy_k).(k_cpu).(c_id) = b;
  rn_cpus : ∀ c t, c = b ∨ c ∈ others ids b → s.(sy_tab) !! c = Some t → s'.(sy_tab) !! c = Some (protected L c t) ∧ s'.(sy_started) !! c = Some 1;
  rn_others : ∀ i c p, others ids b !! i = Some c → ps !! i = Some p → s'.(sy_stack) !! c = Some (p + KSTACKSIZE) ∧ ∃ y, s'.(sy_cpus) !! c = Some y ∧ y.(c_id) = c ∧ y.(c_cr3) = V2P kpd;
  rn_count : length ps = length (others ids b) ∧ NoDup ps;
  rn_stacks : ∀ p, p ∈ ps → p ∉ free ∧ p ≠ kstack ∧ ¬ owns s'.(sy_k) pd us p ∧ ¬ owns s'.(sy_k) kpd ∅ p
}.

(** From [startothers] on. *)
Lemma finish_main_run n ws ids b kpd k x s ps free t :
  located ids b x → kboot k kpd (ps ++ free) → k.(k_cpu).(c_id) = b → Forall (λ id, 0 ≤ id < 256) ids → (∀ c, (c < length ids)%nat → c ≠ b → waiting s c) →
  s.(sy_tab) !! b = Some t → (b < length s.(sy_started))%nat → length ps = length (others ids b) →
  length ws = length ps → load_words k.(k_mem).(m_byte) L.(ln_entrypgdir) NPDENTRIES = entrypgdir →
  ∃ s1 s' kstack pd free' us, (startothers L;; on_k (kinit2 (P2V 4194304) (P2V PHYSTOP));; on_k (userinit L.(ln_initcode));; mpmain L (S n)) (upd k x s)
      (schedule L fuel ws) = Switched s' ∧
    user_running L.(ln_initcode) k.(k_mem).(m_forkret) s'.(sy_k) kpd kstack pd free' us ∧ s'.(sy_k).(k_cpu).(c_id) = b ∧
    (∀ i c p, others ids b !! i = Some c → ps !! i = Some p → running_on L s s1 kpd c p) ∧
    (∀ c, c ≠ b → same_at s1 s' c) ∧ s'.(sy_tab) !! b = Some (Desc.idtinit L.(ln_idt) t) ∧ s'.(sy_started) !! b = Some 1 ∧
    (∀ p, p ∈ ps → p ∉ free' ∧ p ≠ kstack ∧ ¬ owns s'.(sy_k) pd us p ∧ ¬ owns s'.(sy_k) kpd ∅ p).
Proof.
  intros Hx Kb Hid Hids Hw Ht Hb Hps Hws Htab. destruct (startothers_run L fuel Hfuel Hlink Htable Himage ids b kpd k x s [] ws ps free Hx Kb Hids Hw Hps Hws Htab) as (k1 & x1 & s1 & R1 & Hx1 & Kb1 & C1 & M1 & Hrun & Hsame).
  rewrite app_nil_r in R1. mstep R1. change (P2V 4194304) with (KERNBASE + 4194304). change (P2V PHYSTOP) with (KERNBASE + PHYSTOP).
  destruct (kinit2_run k1 kpd free [] Kb1) as (k2 & new & R2 & Ur & Hnew & O2 & Hkpd & Hpt & M2 & Hsp & Hfs & Hio & Hn & Hi). mstep (on_k_run _ _ _ x1 s1 [] _ R2).
  destruct (kb_pt _ _ _ Kb1) as [Hproc Hpid]. rewrite <- Hpt in Hproc, Hpid. destruct (userinit_run k2 kpd (new ++ free) [] L.(ln_initcode) zero_proc Ur) as (k3 & kstack & pd & free' & us & R3 & St); [by rewrite Hproc|done|].
  mstep (on_k_run _ _ _ x1 s1 [] _ R3). pose proof (st_quiet _ _ _ _ _ _ _ _ _ _ St) as Q. injection C1 as Cid _. injection M1 as _ _ Mf1. injection M2 as _ _ Mf2.
  destruct Hsame as (Et & Es & _). assert (k3.(k_cpu).(c_id) = b) as Hid3 by (destruct (qt_cpu _ _ Q) as [->| ->]; [|change (c_id (cpu_bracket (k_cpu k2))) with (k2.(k_cpu).(c_id))]; congruence).
  assert (can_print k3) as Hp3.
  { split; [destruct (st_io _ _ _ _ _ _ _ _ _ _ St) as [cs ->]; by apply puts_ok|]. split; [exact (quiet_wf _ _ Q (proj1 (ur_pt _ _ _ Ur)))|]. apply (quiet_free _ _ _ Q). by rewrite Hsp. }
  destruct (mpmain_sys L ids b k3 x1 s1 [] t (S n) Hx1 Hp3 Hid3) as (cs & x2 & R4 & _); [by rewrite Et|]. rewrite R4.
  destruct (first_runs n _ k2 kpd (new ++ free) k3 kstack pd free' us cs St Hsp Hn Hkpd Hproc Hpid) as (k4 & R5 & Ru & Hid4 & Hm4); [rewrite Hfs; apply Kb1|].
  set (s2 := set_sy_started _ _). exists s1, (upd k4 x2 s2), kstack, pd, free', us. split; [unfold on_k, part; change (sy_k (upd (printed cs k3) x2 s2)) with (printed cs k3); by rewrite R5|].
  change (sy_k (upd k4 x2 s2)) with k4. split; [by rewrite <- Mf1, <- Mf2|]. split; [congruence|]. split; [intros i c p Hc Hp; by apply (Hrun i c p)|].
  assert ((b < length s1.(sy_started))%nat) as Hb1 by (apply lookup_lt_is_Some; rewrite Es; by apply lookup_lt_is_Some).
  split; [intros c Hc; unfold same_at, s2; simpl; by rewrite !list_lookup_insert_ne by done|].
  split; [apply list_lookup_insert_eq; rewrite <- Et in Ht; by eapply lookup_lt_Some|]. split; [by apply list_lookup_insert_eq|].
  intros p Hp. destruct (st_owns _ _ _ _ _ _ _ _ _ _ St) as [Hin Hown]. assert (∀ d u, owns k4 d u p ↔ owns k3 d u p) as Ho by (intros d u; unfold owns; by rewrite Hm4).
  assert (p ∉ new ++ free) as Hpf.
  { rewrite elem_of_app. intros [Hpn%Hnew|Hpn]; [pose proof (kb_pages _ _ _ Kb p ltac:(left; apply elem_of_app; by left)); lia|].
    destruct (us_free _ _ _ _ (proj1 (kb_table _ _ _ Kb))) as (_ & Hnd & _). apply NoDup_app in Hnd as (_ & Hd & _). by apply (Hd p). }
  apply list_elem_of_lookup_1 in Hp as [i Hp]. destruct (lookup_lt_is_Some_2 (others ids b) i) as [c Hc]; [rewrite <- Hps; by eapply lookup_lt_Some|].
  destruct (Hrun i c p Hc Hp) as [_ Hno]. split; [intros ?; apply Hpf, Hin; by left|]. split; [intros ->; apply Hpf, (st_kstack _ _ _ _ _ _ _ _ _ _ St)|].
  rewrite !Ho. split; [intros ?; apply Hpf, Hin; by right|]. by rewrite Hown, O2.
Qed.

(** The machine when the boot loader enters the kernel, whose image ends at [kend] and writable data starts at [kdata]: the
    BIOS tells of the processors [ids], of which number [b] runs. *)
Record power_on (ids : list Z) (b : nat) (kend kdata kforkret kmycpu : Z) (s : system D) : Prop := {
  pw_kernel : ∃ m disk, s.(sy_k) = boot_state kend kdata kforkret kmycpu m disk ∧ bios fuel m kend ids ∧
    load_words m L.(ln_entrypgdir) NPDENTRIES = entrypgdir;
  pw_end : KERNBASE + EXTMEM + 4096 ≤ kend ≤ KERNBASE + 2000000;
  pw_table : KERNBASE + EXTMEM ≤ L.(ln_entrypgdir) ∧ L.(ln_entrypgdir) + 4096 ≤ kend;
  pw_data : data_ok kdata;
  pw_cpus : boots_on ids b (mach s);
  pw_drivers : fresh (mach s);
  pw_disk : ((at_disk (mach s).(dev)).(a_busy) < fuel)%nat;
  pw_waiting : ∀ c, (c < 8)%nat → waiting s c
}.

End boots.

Section before.
Context {D : Type} `{Platform D} (L : linkmap).

Lemma boots_on_lt ids b x : boots_on ids b x → (b < 8)%nat.
Proof. intros (Hl & _ & _ & Hb). case_decide; [lia|]. apply lookup_lt_Some in Hb. lia. Qed.

Lemma waiting_tables g c (s : system D) : waiting s c → waiting (set_sy_tab (g <$> s.(sy_tab)) s) c.
Proof. intros [[t Ht] W2 W3 W4]. split; [|done|done|done]. simpl. rewrite list_lookup_fmap, Ht. by eexists. Qed.

Lemma waiting_insert b t c (s : system D) : waiting s c → waiting (set_sy_tab (<[b := t]> s.(sy_tab)) s) c.
Proof. intros [Ht W2 W3 W4]. split; [|done|done|done]. simpl. apply lookup_lt_is_Some. rewrite length_insert. by apply lookup_lt_is_Some. Qed.

(** The tables when [startothers] begins. *)
Lemma tables_before b c t t0 (s : system D) : s.(sy_tab) !! b = Some t0 → s.(sy_tab) !! c = Some t →
  (Desc.tvinit L.(ln_vectors) <$> <[b := segments L b t0]> s.(sy_tab)) !! c =
    Some (if decide (c = b) then segments L b (Desc.tvinit L.(ln_vectors) t0) else Desc.tvinit L.(ln_vectors) t).
Proof.
  intros Hb Hc. rewrite list_lookup_fmap. case_decide as E.
  - subst c. rewrite list_lookup_insert_eq by (by eapply lookup_lt_Some). cbn [fmap option_fmap option_map]. by rewrite tvinit_segments.
  - by rewrite list_lookup_insert_ne, Hc by done.
Qed.
End before.

(** C27: from the boot loader's hand-over, [main] brings up a machine with any number of processors up to eight.  In whatever
    way each of the other processors, once started, lets the boot processor wait and goes through rounds of the scheduler
    before the boot processor goes on, [main] reaches the scheduler, which switches to the first process; every processor that
    the BIOS tells of has then its [started] flag, its segments and the interrupt table loaded; each of the others runs on
    a stack page of its own and the kernel's page table; the first process is the only one in the process table and has
    the code of initcode.S in its one page, the kernel mapped above it; and the pages of the stacks, of the two page
    tables, of the process and of the free list are all distinct. *)
Theorem main_correct {D : Type} `{Platform D} (L : linkmap) (fuel n : nat) (ws : list (nat * nat)) (ids : list Z) (b : nat) (kend kdata kforkret kmycpu : Z) (s : system D) :
  (pf_patience < fuel)%nat → is_u32 L.(ln_mpenter) → code + Z.of_nat (length L.(ln_entryother)) ≤ KERNBASE + EXTMEM → Z.of_nat (length L.(ln_initcode)) < 4096 →
  power_on L fuel ids b kend kdata kforkret kmycpu s → length ws = length (others ids b) →
  ∃ s' kpd kstack pd free ps us, main L fuel (S n) s (schedule L fuel ws) = Switched s' ∧
    running L ids b kforkret s s' kpd kstack pd free ps us.
Proof.
  intros Hfuel Hlink Himage Hinit [(m & disk & Hk & Hbios & Htab) Hend Htable Hdata Hcpus Hfresh Hdisk Hwait] Hws.
  pose proof (boots_on_lt _ _ _ Hcpus) as Hb8. destruct (Hwait b Hb8) as [[t0 Ht0] _ Hst0 _]. set (e := schedule L fuel ws).
  destruct (memory_run kend kdata kforkret kmycpu m disk [] ltac:(lia) Hdata) as (k1 & k2 & kpd & free & R1 & R2 & Kb2 & _ & E2 & Hfree & Hbytes). injection E2 as _ _ Ef2.
  assert (on_k (kinit1 kend (KERNBASE + 4194304)) s e = Ret tt (upd k1 (mach s) s) e) as R1'.
  { unfold on_k, part. rewrite Hk, R1. by destruct s as [? [] ? ? ? ?]. }
  unfold main. rewrite bind_gets, Hk. change (m_end _) with kend. change (P2V 4194304) with (KERNBASE + 4194304) at 1. mstep R1'. mstep (on_k_run _ _ _ (mach s) s e _ R2). rewrite bind_gets. change (sy_k (upd k2 (mach s) s)) with k2.
  destruct (mpinit_sys fuel Hfuel m k2.(k_mem).(m_byte) kend ids b (mach s) [] Hbios ltac:(unfold EXTMEM in *; lia) Hbytes Hcpus Hfresh) as (x1 & R3 & Hx1 & D1).
  mstep (on_mach_exact _ k2 (mach s) x1 s e _ R3 (lo_out _ _ _ Hx1)).
  pose proof (length_others ids b) as Hlo. destruct Hcpus as (Hl8 & Hnd & Hids & _).
  set (ps := take (length (others ids b)) free). set (rest := drop (length (others ids b)) free). assert (free = ps ++ rest) as Hpr by (symmetry; apply take_drop).
  assert (length ps = length (others ids b)) as Hps by (unfold ps; rewrite length_take; lia).
  edestruct (drivers_run L fuel Hfuel) as (k3 & x2 & q & R4 & Hx2 & Kb3 & M3 & Hid3 & _); [exact Hx1|exact Kb2|exact Ht0|by rewrite D1|]. rewrite R4. clear R4.
  set (s1 := set_sy_ide _ _). rewrite Hpr in Kb3. pose proof (tables_before L b b t0 t0 s Ht0 Ht0) as Ht1. rewrite decide_True in Ht1 by done.
  assert (KERNBASE + EXTMEM ≤ L.(ln_entrypgdir) ∧ L.(ln_entrypgdir) + 4096 ≤ 4294967296) as Htable' by (unfold KERNBASE in *; lia).
  destruct (finish_main_run L fuel Hfuel Hlink Htable' Himage Hinit n ws ids b kpd k3 x2 s1 ps rest (segments L b (Desc.tvinit L.(ln_vectors) t0)) Hx2 Kb3 Hid3 Hids) as (s2 & s' & kstack & pd & free' & us & R5 & Ru & Hbid & Hrun & Hsame & Htb & Hsb & Hst); [|exact Ht1|by eapply lookup_lt_Some|done|congruence| |].
  { intros c Hc _. eapply waiting_same; [apply (waiting_tables (Desc.tvinit L.(ln_vectors))), (waiting_insert b (segments L b t0)), Hwait; lia|done|done]. }
  { rewrite M3, <- Htab. apply load_words_ext. intros z Hz. apply Hbytes. unfold NPDENTRIES in Hz. lia. }
  rewrite M3, Ef2 in Ru. exists s', kpd, kstack, pd, free', ps, us. split; [exact R5|].
  assert (∀ i c p, others ids b !! i = Some c → ps !! i = Some p → c ≠ b ∧ running_on L s1 s' kpd c p) as Hrun'.
  { intros i c p Hc Hp. assert (c ≠ b) as Hne by (apply list_elem_of_lookup_2, list_elem_of_filter in Hc as [? _]; done). split; [done|]. eapply running_same; [by eapply Hrun|by apply Hsame]. }
  split; [done|done| | |split; [done|]|exact Hst].
  - intros c t [->|Hc] Ht; [rewrite Ht0 in Ht; injection Ht as <-; split; [exact Htb|done]|].
    apply list_elem_of_lookup_1 in Hc as [i Hc]. destruct (lookup_lt_is_Some_2 ps i) as [p Hp]; [rewrite Hps; by eapply lookup_lt_Some|].
    destruct (Hrun' i c p Hc Hp) as (Hne & t1 & y & T1 & T2 & T3 & _). split; [|done]. rewrite T2. pose proof (tables_before L b c t t0 s Ht0 Ht) as Tc. rewrite decide_False in Tc by done.
    change (sy_tab s1) with (Desc.tvinit (ln_vectors L) <$> <[b := segments L b t0]> s.(sy_tab)) in T1. rewrite T1 in Tc. by injection Tc as ->.
  - intros i c p Hc Hp. destruct (Hrun' i c p Hc Hp) as (_ & t1 & y & _ & _ & _ & T4 & T5 & T6). split; [done|]. by exists y.
  - destruct (us_free _ _ _ _ (proj1 (kb_table _ _ _ Kb3))) as (_ & Hn & _). by apply NoDup_app in Hn as [? _].
Qed.

(** ** An example: the disk and local APICs, two processors *)

Record board : Type := Mkboard {
  bd_disk : ata;
  bd_cpu : Z;
  bd_icrhi : Z;
  bd_startups : list (Z * Z);
  bd_pending : nat
}.

Definition demo_lapic : Z := 4276092928.
Definition pending (d : board) : nat := Nat.min d.(bd_pending) 2.

#[local] Instance board_hardware : Hardware board := {|
  port_in port d :=
    if (496 <=? port) && (port <=? 503) then let r := ata_in port d.(bd_disk) in (fst r, Mkboard (snd r) d.(bd_cpu) d.(bd_icrhi) d.(bd_startups) d.(bd_pending))
    else (0, d);
  port_out port v d := Mkboard (ata_out (λ _, 3%nat) port v d.(bd_disk)) d.(bd_cpu) d.(bd_icrhi) d.(bd_startups) d.(bd_pending);
  mmio_in a d :=
    if a =? demo_lapic + 4 * ID then (Z.shiftl (d.(bd_cpu) mod 256) 24, d)
    else if a =? demo_lapic + 4 * ICRLO then (if (pending d =? 0)%nat then 0 else DELIVS, Mkboard d.(bd_disk) d.(bd_cpu) d.(bd_icrhi) d.(bd_startups) (pred (pending d)))
    else (0, d);
  mmio_out a v d :=
    if a =? demo_lapic + 4 * ICRHI then Mkboard d.(bd_disk) d.(bd_cpu) v d.(bd_startups) d.(bd_pending)
    else if (a =? demo_lapic + 4 * ICRLO) && (Z.land v 1792 =? STARTUP)
    then Mkboard d.(bd_disk) d.(bd_cpu) d.(bd_icrhi) ((Z.shiftr d.(bd_icrhi) 24, 4096 * (v mod 256)) :: d.(bd_startups)) d.(bd_pending)
    else if a =? demo_lapic + 4 * ICRLO then Mkboard d.(bd_disk) d.(bd_cpu) d.(bd_icrhi) d.(bd_startups) 2 else d
|}.
#[local] Instance board_ata : Ata board.
Proof. refine {| at_disk d := d.(bd_disk); at_delay _ := 3%nat |}; [done|]. by intros port d [->| ->]. Defined.

#[local] Instance board_laws : Platform board.
Proof.
  refine {| pf_base := demo_lapic; pf_cpu d := d.(bd_cpu) mod 256; pf_switch id d := Mkboard d.(bd_disk) id d.(bd_icrhi) d.(bd_startups) d.(bd_pending);
            pf_icrhi := bd_icrhi; pf_startups := bd_startups; pf_pending := pending; pf_patience := 2%nat |}.
  - done.
  - intros d. by apply Z.mod_pos_bound.
  - intros d. unfold pending. lia.
  - intros id d Hid. by apply Z.mod_small.
  - done.
  - done.
  - intros port d. simpl. by destruct (_ && _).
  - intros port d Hp. simpl. destruct (_ && _) eqn:E; [bool_facts; lia|done].
  - intros a d. simpl. by destruct (a =? _); [|destruct (a =? _)].
  - done.
  - intros d. unfold mmio_in, board_hardware. change (demo_lapic + 4 * ICRLO =? demo_lapic + 4 * ID) with false. rewrite Z.eqb_refl. cbv iota. unfold fst, snd. split.
    + by destruct (pending d =? 0)%nat.
    + unfold pending. simpl. lia.
  - intros a v d. unfold mmio_out, board_hardware. destruct (Z.eqb_spec a (demo_lapic + 4 * ICRHI)) as [->|].
    + done.
    + destruct (a =? demo_lapic + 4 * ICRLO); [|done]. by destruct (Z.land v 1792 =? STARTUP).
Defined.

Definition demo_link : linkmap := Mklinkmap 2148663296 2148662272 (λ i, 2148550000 + 10 * Z.of_nat i) (replicate 89 144) 2148543600 2148573184 (replicate 44 144) 0.

(** The memory of demo_bios with the two entries of the boot page table. *)
Definition demo_memory (z : Z) : Z :=
  if (z =? demo_link.(ln_entrypgdir)) || (z =? demo_link.(ln_entrypgdir) + 2048) then 131 else demo_bios z.

(** The second processor of demo_bios is the boot processor. *)
Definition demo_power_on : system board :=
  let m := Mkmachine (Mkboard (Mkata (λ _, 0) ∅ 0 [] None 0) 2 0 [] 0) 0 0 0 0 (replicate 8 0) 0 0 false 0 [] in
  Mksystem (boot_state 2148711424 2148564992 2148545000 2148542000 demo_memory []) (Mkide m false [] 0 [] [] [])
    (replicate 8 (boot_state 0 0 0 0 demo_memory []).(k_cpu)) (replicate 8 (Mktables (replicate 7 zero_segdesc) (replicate 256 zero_gatedesc) [] [] 0 0 0))
    (replicate 8 0) (replicate 8 0).

Lemma main_correct_witness : ∃ s' kpd kstack pd free ps us, main demo_link 10 5 demo_power_on [id; id; ap_step demo_link 10 3] = Switched s' ∧
  running demo_link [0; 2] 1 2148545000 demo_power_on s' kpd kstack pd free ps us.
Proof.
  apply (main_correct demo_link 10 4 [(2, 3)]%nat [0; 2] 1 2148711424 2148564992 2148545000 2148542000 demo_power_on).
  - simpl. lia.
  - done.
  - done.
  - done.
  - split.
    + exists demo_memory, []. split; [done|]. split; [|vm_compute; reflexivity]. split; [|split; [by vm_compute|]].
      * intros z. unfold demo_memory. destruct (_ || _); [done|]. unfold demo_bios. destruct (decide (KERNBASE + 983040 ≤ z < KERNBASE + 983040 + Z.of_nat (length (demo_mp ++ demo_conf)))) as [Hz|Hz]; [|rewrite store_bytes_out by lia; done].
        destruct (lookup_lt_is_Some_2 (demo_mp ++ demo_conf) (Z.to_nat (z - (KERNBASE + 983040)))) as [v Hv]; [lia|]. rewrite (store_bytes_in _ _ _ z v) by (lia || done).
        assert (Forall is_byte (demo_mp ++ demo_conf)) as Hb by (vm_compute; repeat constructor; done). exact (Forall_lookup_1 _ _ _ _ Hb Hv).
      * right. split; [done|]. exists (KERNBASE + 983040), (KERNBASE + 983056), demo_entries. split; [by vm_compute|]. split; [repeat constructor; done|]. do 5 (split; [by vm_compute|]). simpl. lia.
    + done.
    + done.
    + done.
    + split; [simpl; lia|]. split; [|split; [repeat constructor; done|done]]. apply NoDup_cons. split; [|apply NoDup_singleton]. by intros ?%list_elem_of_singleton.
    + done.
    + simpl. lia.
    + intros c Hc. do 8 (destruct c as [|c]; [split; [by eexists|by eexists|done|simpl; lia]|]). lia.
  - done.
Defined.
