(* ===== verification/Exec.v ===== *)
(** * Program loading (exec.c, and loaduvm of vm.c) *)

From S2P Require Import Prelude KState Spinlock Print Mem Args Kalloc Vm Proc Sleeplock Bio Log Inode Console CString Fs Pipe File ProcLife.
#[local] Open Scope kernel_scope.

(** The loop of [loaduvm] from [i]. *)
Fixpoint loaduvm_loop (fuel : nat) (pgdir addr : Z) (ip : nat) (offset sz i : Z) : K Z :=
  match fuel with
  | O => fault "fuel"
  | S fuel' =>
      if negb (i <? sz) then ret 0 else
      pte <- walkpgdir pgdir (u32 (addr + i)) false;;
      if pte =? 0 then panic "loaduvm: address should exist" else
      e <- loadM pte;;
      let pa := PTE_ADDR e in
      let n := if sz - i <? PGSIZE then sz - i else PGSIZE in
      r <- readi ip (ToKern (P2V pa)) (u32 (offset + i)) n;;
      if negb (fst r =? n) then ret (-1) else
      loaduvm_loop fuel' pgdir addr ip offset sz (i + PGSIZE)
  end.

Definition loaduvm (pgdir addr : Z) (ip : nat) (offset sz : Z) : K Z :=
  if negb (addr mod PGSIZE =? 0) then panic "loaduvm: addr must be page aligned" else
  loaduvm_loop (Z.to_nat (sz / PGSIZE + 2)) pgdir addr ip offset sz 0.

(** [struct elfhdr], 52 bytes, and [struct proghdr], 32 bytes. *)
Definition ELF_MAGIC : Z := 1179403647.
Definition ELF_PROG_LOAD : Z := 1.
Definition elf_magic (d : list Z) : Z := word_at d 0.
Definition elf_entry (d : list Z) : Z := word_at d 24.
Definition elf_phoff (d : list Z) : Z := word_at d 28.
Definition elf_phnum (d : list Z) : Z := le_val (slice 44 2 d).

Record proghdr : Type := Mkproghdr {
  ph_type : Z; ph_off : Z; ph_vaddr : Z; ph_filesz : Z; ph_memsz : Z
}.

Definition decode_ph (d : list Z) : proghdr :=
  {| ph_type := word_at d 0; ph_off := word_at d 4; ph_vaddr := word_at d 8;
     ph_filesz := word_at d 16; ph_memsz := word_at d 20 |}.

(** The loop over the program headers; [None] is [goto bad]. *)
Fixpoint load_segments (n : nat) (ip : nat) (pgdir off sz : Z) : K (option Z) :=
  match n with
  | O => ret (Some sz)
  | S n' =>
      r <- readi ip ToLocal (u32 off) 32;;
      if negb (fst r =? 32) then ret None else
      let ph := decode_ph (snd r) in
      if negb (ph.(ph_type) =? ELF_PROG_LOAD) then load_segments n' ip pgdir (off + 32) sz else
      if ph.(ph_memsz) <? ph.(ph_filesz) then ret None else
      if u32 (ph.(ph_vaddr) + ph.(ph_memsz)) <? ph.(ph_vaddr) then ret None else
      sz <- allocuvm pgdir sz (u32 (ph.(ph_vaddr) + ph.(ph_memsz)));;
      if sz =? 0 then ret None else
      if negb (ph.(ph_vaddr) mod PGSIZE =? 0) then ret None else
      l <- loaduvm pgdir ph.(ph_vaddr) ip ph.(ph_off) ph.(ph_filesz);;
      if l <? 0 then ret None else
      load_segments n' ip pgdir (off + 32) sz
  end.

(** The loop that pushes the argument strings, from [sp]; the stack pointer
    and the addresses of the strings. *)
Fixpoint push_args (argc : nat) (pgdir sp : Z) (argv : list (list Z)) : K (option (Z * list Z)) :=
  match argv with
  | [] => ret (Some (sp, []))
  | arg :: argv' =>
      if (MAXARG <=? argc)%nat then ret None else
      let sp := Z.land (u32 (sp - (Z.of_nat (length arg) + 1))) (Z.lnot 3) in
      r <- copyout pgdir sp (arg ++ [0]);;
      if r <? 0 then ret None else
      r <- push_args (S argc) pgdir sp argv';;
      ret ((λ '(sp', ps), (sp', sp :: ps)) <$> r)
  end.

(** The part of [path] after the last slash. *)
Fixpoint last_elem (last s : list Z) : list Z :=
  match s with
  | [] => last
  | c :: s' => last_elem (if c =? 47 then s' else last) s'
  end.

(** The label [bad]; [ip] is [Some] while the inode is locked. *)
Definition exec_bad (pgdir : Z) (ip : option nat) : K Z :=
  (if truthy pgdir then freevm pgdir else ret tt);;
  (match ip with Some ip => iunlockput ip;; end_op | None => ret tt end);;
  ret (-1).

(** The part of [exec] after the segments are loaded and the inode released. *)
Definition exec_commit (path : list Z) (argv : list (list Z)) (pgdir sz entry : Z) : K Z :=
  let sz := PGROUNDUP sz in
  sz <- allocuvm pgdir sz (u32 (sz + 2 * PGSIZE));;
  if sz =? 0 then exec_bad pgdir None else
  clearpteu pgdir (u32 (sz - 2 * PGSIZE));;
  r <- push_args 0 pgdir sz argv;;
  match r with
  | None => exec_bad pgdir None
  | Some (sp, ptrs) =>
      let argc := Z.of_nat (length ptrs) in
      let ustack := [4294967295; argc; u32 (sp - (argc + 1) * 4)] ++ ptrs ++ [0] in
      let sp := u32 (sp - (3 + argc + 1) * 4) in
      r <- copyout pgdir sp (ustack ≫= le_bytes 4);;
      if r <? 0 then exec_bad pgdir None else
      i <- curproc;;
      modp i (λ p, set_p_name (safestrcpy p.(p_name) (last_elem path path) 16) p);;
      p <- getp i;;
      let oldpgdir := p.(p_pgdir) in
      modp i (λ p, set_p_tf (set_tf_esp sp (set_tf_eip entry p.(p_tf))) (set_p_sz sz (set_p_pgdir pgdir p)));;
      p <- getp i;;
      switchuvm p p;;
      freevm oldpgdir;;
      ret 0
  end.

(** [readi(...) < sizeof(elf)] compares as unsigned: a result of -1 passes,
    and [elf] is then read uninitialised. *)
Definition exec (path : list Z) (argv : list (list Z)) : K Z :=
  begin_op;;
  o <- namei path;;
  match o with
  | None => end_op;; ret (-1)
  | Some ip =>
      ilock (Some ip);;
      r <- readi ip ToLocal 0 52;;
      if u32 (fst r) <? 52 then exec_bad 0 (Some ip) else
      if fst r <? 0 then fault "uninitialised elfhdr" else
      let elf := snd r in
      if negb (elf_magic elf =? ELF_MAGIC) then exec_bad 0 (Some ip) else
      pgdir <- setupkvm;;
      if pgdir =? 0 then exec_bad 0 (Some ip) else
      l <- load_segments (Z.to_nat (elf_phnum elf)) ip pgdir (elf_phoff elf) 0;;
      match l with
      | None => exec_bad pgdir (Some ip)
      | Some sz =>
          iunlockput ip;;
          end_op;;
          exec_commit path argv pgdir sz (elf_entry elf)
      end
  end.
