(* ===== verification/Sysproc.v ===== *)
(** * Process system calls (sysproc.c) *)

From S2P Require Import Prelude KState Spinlock Print Mem Args Kalloc Vm Proc Sleeplock Bio Log Inode Console CString Fs Pipe File ProcLife.
#[local] Open Scope kernel_scope.

Definition sys_fork : K Z := fork.
Definition sys_exit : K Z := exit.
Definition sys_wait : K Z := wait.

Definition sys_kill : K Z :=
  a <- argint 0;;
  match a with None => ret (-1) | Some pid => kill pid end.

Definition sys_getpid : K Z := i <- curproc;; p <- getp i;; ret p.(p_pid).

Definition sys_sbrk : K Z :=
  a <- argint 0;;
  match a with
  | None => ret (-1)
  | Some n =>
      i <- curproc;; p <- getp i;;
      let addr := s32 p.(p_sz) in
      r <- growproc n;;
      if r <? 0 then ret (-1) else ret addr
  end.

(** [ticks - ticks0 < n] is an unsigned comparison. *)
Definition sys_sleep : K Z :=
  a <- argint 0;;
  match a with
  | None => ret (-1)
  | Some n =>
      acquire Ltime;;
      ticks0 <- gets (λ s, s.(k_pt).(pt_ticks));;
      r <- while_sleep (ticks <- gets (λ s, s.(k_pt).(pt_ticks));; ret (u32 (ticks - ticks0) <? u32 n))
             (k <- killed;;
              if k : bool then ret (Some tt) else sleep ChTicks Ltime;; ret None);;
      release Ltime;;
      ret (match r with Some _ => -1 | None => 0 end)
  end.

Definition sys_uptime : K Z :=
  acquire Ltime;;
  xticks <- gets (λ s, s.(k_pt).(pt_ticks));;
  release Ltime;;
  ret (s32 xticks).
