(* ===== verification/Sysfile.v ===== *)
(** * File system calls (sysfile.c) *)

From S2P Require Import Prelude KState Spinlock Print Mem Args Kalloc Vm Proc Sleeplock Bio Log Inode Console CString Fs Pipe File ProcLife Exec.
#[local] Open Scope kernel_scope.

(** The descriptor and its file, or [None] for -1. *)
Definition argfd (n : Z) : K (option (nat * nat)) :=
  a <- argint n;;
  match a with
  | None => ret None
  | Some fd =>
      if (fd <? 0) || (Z.of_nat NOFILE <=? fd) then ret None else
      i <- curproc;; p <- getp i;;
      ret ((Z.to_nat fd,.) <$> ofile p (Z.to_nat fd))
  end.

(** The lowest free descriptor, or -1. *)
Definition fdalloc (f : nat) : K Z :=
  i <- curproc;; p <- getp i;;
  match list_find (λ o : option nat, o = None) p.(p_ofile) with
  | Some (fd, _) => modp i (set_ofile fd (Some f));; ret (Z.of_nat fd)
  | None => ret (-1)
  end.

Definition sys_dup : K Z :=
  o <- argfd 0;;
  match o with
  | None => ret (-1)
  | Some (_, f) =>
      fd <- fdalloc f;;
      if fd <? 0 then ret (-1) else
      filedup f;;
      ret fd
  end.

(** The arguments of read and write: the file, the buffer and the count. *)
Definition rw_args : K (option (nat * Z * Z)) :=
  o <- argfd 0;;
  match o with
  | None => ret None
  | Some (_, f) =>
      a <- argint 2;;
      match a with
      | None => ret None
      | Some n => b <- argptr 1 n;; ret ((λ p, (f, p, n)) <$> b)
      end
  end.

Definition sys_read : K Z :=
  a <- rw_args;;
  match a with None => ret (-1) | Some (f, p, n) => fileread f p n end.

Definition sys_write : K Z :=
  a <- rw_args;;
  match a with None => ret (-1) | Some (f, p, n) => filewrite f p n end.

Definition sys_close : K Z :=
  o <- argfd 0;;
  match o with
  | None => ret (-1)
  | Some (fd, f) =>
      i <- curproc;;
      modp i (set_ofile fd None);;
      fileclose f;;
      ret 0
  end.

Definition sys_fstat : K Z :=
  o <- argfd 0;;
  match o with
  | None => ret (-1)
  | Some (_, f) =>
      b <- argptr 1 20;;
      match b with None => ret (-1) | Some st => filestat f st end
  end.

Definition ops_fail : K Z := end_op;; ret (-1).

(** The label [bad] of [sys_link]. *)
Definition link_bad (ip : nat) : K Z :=
  ilock (Some ip);;
  modi ip (λ x, set_i_nlink (s16 (x.(i_nlink) - 1)) x);;
  iupdate ip;;
  iunlockput ip;;
  ops_fail.

Definition sys_link : K Z :=
  a <- argstr 0;;
  match a with
  | None => ret (-1)
  | Some (_, old) =>
      b <- argstr 1;;
      match b with
      | None => ret (-1)
      | Some (_, new) =>
          begin_op;;
          o <- namei old;;
          match o with
          | None => ops_fail
          | Some ip =>
              ilock (Some ip);;
              x <- geti ip;;
              if x.(i_type) =? T_DIR then iunlockput ip;; ops_fail else
              modi ip (λ x, set_i_nlink (s16 (x.(i_nlink) + 1)) x);;
              iupdate ip;;
              iunlock (Some ip);;
              d <- nameiparent new;;
              match d with
              | None => link_bad ip
              | Some (dp, name) =>
                  ilock (Some dp);;
                  y <- geti dp;;
                  x <- geti ip;;
                  r <- (if negb (y.(i_dev) =? x.(i_dev)) then ret (-1) else dirlink dp name x.(i_inum));;
                  if r <? 0 then iunlockput dp;; link_bad ip else
                  iunlockput dp;;
                  iput ip;;
                  end_op;;
                  ret 0
              end
          end
      end
  end.

(** The entries of [dp] from the third on. *)
Definition isdirempty (dp : nat) : K bool :=
  x <- geti dp;;
  r <- for_ret (drop 2 (dirent_offs x.(i_size))) (λ off,
         r <- readi dp ToLocal off dirent_size;;
         if negb (fst r =? dirent_size) then panic "isdirempty: readi" else
         if negb (de_inum (snd r) =? 0) then ret (Some false) else ret None);;
  ret (default true r).

Definition unlink_bad (dp : nat) : K Z := iunlockput dp;; ops_fail.

Definition sys_unlink : K Z :=
  a <- argstr 0;;
  match a with
  | None => ret (-1)
  | Some (_, path) =>
      begin_op;;
      d <- nameiparent path;;
      match d with
      | None => ops_fail
      | Some (dp, name) =>
          ilock (Some dp);;
          if (namecmp name (str ".") =? 0) || (namecmp name (str "..") =? 0) then unlink_bad dp else
          o <- dirlookup dp name;;
          match o with
          | None => unlink_bad dp
          | Some (ip, off) =>
              ilock (Some ip);;
              x <- geti ip;;
              if x.(i_nlink) <? 1 then panic "unlink: nlink < 1" else
              empty <- (if x.(i_type) =? T_DIR then isdirempty ip else ret true);;
              if negb empty then iunlockput ip;; unlink_bad dp else
              r <- writei dp (FromLocal (replicate 16 0)) off dirent_size;;
              if negb (r =? dirent_size) then panic "unlink: writei" else
              x <- geti ip;;
              (if x.(i_type) =? T_DIR then
                 modi dp (λ y, set_i_nlink (s16 (y.(i_nlink) - 1)) y);; iupdate dp
               else ret tt);;
              iunlockput dp;;
              modi ip (λ x, set_i_nlink (s16 (x.(i_nlink) - 1)) x);;
              iupdate ip;;
              iunlockput ip;;
              end_op;;
              ret 0
          end
      end
  end.

(** A new or existing inode, locked. *)
Definition create (path : list Z) (type major minor : Z) : K (option nat) :=
  d <- nameiparent path;;
  match d with
  | None => ret None
  | Some (dp, name) =>
      ilock (Some dp);;
      o <- dirlookup dp name;;
      match o with
      | Some (ip, _) =>
          iunlockput dp;;
          ilock (Some ip);;
          x <- geti ip;;
          if (type =? T_FILE) && (x.(i_type) =? T_FILE) then ret (Some ip) else
          iunlockput ip;;
          ret None
      | None =>
          y <- geti dp;;
          ip <- ialloc y.(i_dev) type;;
          ilock (Some ip);;
          modi ip (λ x, set_i_nlink 1 (set_i_minor minor (set_i_major major x)));;
          iupdate ip;;
          x <- geti ip;;
          (if type =? T_DIR then
             modi dp (λ y, set_i_nlink (s16 (y.(i_nlink) + 1)) y);;
             iupdate dp;;
             r <- dirlink ip (str ".") x.(i_inum);;
             r <- (if r <? 0 then ret r else dirlink ip (str "..") y.(i_inum));;
             if r <? 0 then panic "create dots" else ret tt
           else ret tt);;
          r <- dirlink dp name x.(i_inum);;
          if r <? 0 then panic "create: dirlink" else
          iunlockput dp;;
          ret (Some ip)
      end
  end.

(** The inode to open, locked; [None] after [end_op]. *)
Definition open_inode (path : list Z) (omode : Z) : K (option nat) :=
  if truthy (Z.land omode O_CREATE) then
    o <- create path T_FILE 0 0;;
    match o with None => end_op;; ret None | Some ip => ret (Some ip) end
  else
    o <- namei path;;
    match o with
    | None => end_op;; ret None
    | Some ip =>
        ilock (Some ip);;
        x <- geti ip;;
        if (x.(i_type) =? T_DIR) && negb (omode =? O_RDONLY) then
          iunlockput ip;; end_op;; ret None
        else ret (Some ip)
    end.

Definition open_file (ip : nat) (omode : Z) (x : file) : file :=
  let w := truthy (Z.land omode O_WRONLY) in
  set_f_writable (if w || truthy (Z.land omode O_RDWR) then 1 else 0)
    (set_f_readable (if w then 0 else 1)
      (set_f_off 0 (set_f_ip (Some ip) (set_f_type FD_INODE x)))).

Definition sys_open : K Z :=
  a <- argstr 0;;
  match a with
  | None => ret (-1)
  | Some (_, path) =>
      b <- argint 1;;
      match b with
      | None => ret (-1)
      | Some omode =>
          begin_op;;
          o <- open_inode path omode;;
          match o with
          | None => ret (-1)
          | Some ip =>
              f <- filealloc;;
              fd <- (match f with Some f => fdalloc f | None => ret (-1) end);;
              match f with
              | Some f =>
                  if fd <? 0 then fileclose f;; iunlockput ip;; ops_fail else
                  iunlock (Some ip);;
                  end_op;;
                  modf f (open_file ip omode);;
                  ret fd
              | None => iunlockput ip;; ops_fail
              end
          end
      end
  end.

(** The inode [sys_mkdir] and [sys_mknod] create is released at once. *)
Definition finish_create (o : option nat) : K Z :=
  match o with
  | None => ops_fail
  | Some ip => iunlockput ip;; end_op;; ret 0
  end.

Definition sys_mkdir : K Z :=
  begin_op;;
  a <- argstr 0;;
  match a with
  | None => ops_fail
  | Some (_, path) => o <- create path T_DIR 0 0;; finish_create o
  end.

Definition sys_mknod : K Z :=
  begin_op;;
  a <- argstr 0;;
  match a with
  | None => ops_fail
  | Some (_, path) =>
      b <- argint 1;;
      match b with
      | None => ops_fail
      | Some major =>
          c <- argint 2;;
          match c with
          | None => ops_fail
          | Some minor => o <- create path T_DEV (s16 major) (s16 minor);; finish_create o
          end
      end
  end.

Definition sys_chdir : K Z :=
  begin_op;;
  a <- argstr 0;;
  match a with
  | None => ops_fail
  | Some (_, path) =>
      o <- namei path;;
      match o with
      | None => ops_fail
      | Some ip =>
          ilock (Some ip);;
          x <- geti ip;;
          if negb (x.(i_type) =? T_DIR) then iunlockput ip;; ops_fail else
          iunlock (Some ip);;
          i <- curproc;; p <- getp i;;
          cwd <- deref p.(p_cwd);;
          iput cwd;;
          end_op;;
          modp i (set_p_cwd (Some ip));;
          ret 0
      end
  end.

(** The loop of [sys_exec] that fetches the arguments from [uargv]. *)
Fixpoint fetch_argv (n : nat) (i : nat) (uargv : Z) : K (option (list (list Z))) :=
  match n with
  | O => ret None
  | S n' =>
      a <- fetchint (u32 (uargv + 4 * Z.of_nat i));;
      match a with
      | None => ret None
      | Some uarg =>
          if uarg =? 0 then ret (Some []) else
          b <- fetchstr (u32 uarg);;
          match b with
          | None => ret None
          | Some (_, arg) => r <- fetch_argv n' (S i) uargv;; ret ((arg ::.) <$> r)
          end
      end
  end.

Definition sys_exec : K Z :=
  a <- argstr 0;;
  match a with
  | None => ret (-1)
  | Some (_, path) =>
      b <- argint 1;;
      match b with
      | None => ret (-1)
      | Some uargv =>
          c <- fetch_argv MAXARG 0 (u32 uargv);;
          match c with None => ret (-1) | Some argv => exec path argv end
      end
  end.

Definition sys_pipe : K Z :=
  a <- argptr 0 8;;
  match a with
  | None => ret (-1)
  | Some fd =>
      o <- pipealloc;;
      match o with
      | None => ret (-1)
      | Some (rf, wf) =>
          fd0 <- fdalloc rf;;
          fd1 <- (if fd0 <? 0 then ret (-1) else fdalloc wf);;
          if (fd0 <? 0) || (fd1 <? 0) then
            (if 0 <=? fd0 then i <- curproc;; modp i (set_ofile (Z.to_nat fd0) None) else ret tt);;
            fileclose rf;;
            fileclose wf;;
            ret (-1)
          else
            ustore_bytes fd (le_bytes 4 fd0);;
            ustore_bytes (fd + 4) (le_bytes 4 fd1);;
            ret 0
      end
  end.
