(* ===== verification/Trap.v ===== *)
(** * Traps (trap.c) and the system call table (syscall.c)

    The dispatch of system calls, device interrupts and exceptions.  What the
    devices hold when an interrupt arrives is an input of [trap]. *)

From S2P Require Import Prelude KState Spinlock Print Mem Hardware Desc Args Kalloc Vm Proc Priority Syscall Sleeplock Bio Log Inode Console Kbd CString Fs Pipe File ProcLife Exec Sysproc Sysfile.
#[local] Open Scope kernel_scope.

(** ** The table [syscalls] *)

Definition syscalls (num : Z) : option (K Z) :=
  match num with
  | 1 => Some sys_fork | 2 => Some sys_exit | 3 => Some sys_wait | 4 => Some sys_pipe
  | 5 => Some sys_read | 6 => Some sys_kill | 7 => Some sys_exec | 8 => Some sys_fstat
  | 9 => Some sys_chdir | 10 => Some sys_dup | 11 => Some sys_getpid | 12 => Some sys_sbrk
  | 13 => Some sys_sleep | 14 => Some sys_uptime | 15 => Some sys_open | 16 => Some sys_write
  | 17 => Some sys_mknod | 18 => Some sys_unlink | 19 => Some sys_link | 20 => Some sys_mkdir
  | 21 => Some sys_close | 22 => Some sys_nice | 23 => Some sys_lock | 24 => Some sys_release
  | 25 => Some sys_strace | 26 => Some sys_dump | 27 => Some sys_eflag | 28 => Some sys_sflag
  | 29 => Some sys_fflag
  | _ => None
  end.

(** ** trap *)


(** What the devices hold: scan codes, received characters, the faulting
    address in %cr2. *)
Record devices : Type := Mkdevices {
  kbd_port : list Z;
  com1_port : list Z;
  cr2 : Z
}.

(** [consoleintr(uartgetc)]. *)
Definition uartintr (port : list Z) : K unit := consoleintr port.

(** The disk driver of memide.c has no interrupts. *)
Definition ideintr : K unit := ret tt.

Definition fmt_spurious : string := "cpu%d: spurious interrupt at %x:%x" +:+ newline.
Definition fmt_unexpected : string := "unexpected trap %d from cpu %d eip %x (cr2=0x%x)" +:+ newline.
Definition fmt_killproc : string :=
  "pid %d %s: trap %d err %d on cpu %d eip 0x%x addr 0x%x--kill proc" +:+ newline.

Definition cpunum : K nat := gets (λ s, s.(k_cpu).(c_id)).

(** The timer: only the first processor counts ticks. *)
Definition timer_tick : K unit :=
  id <- cpunum;;
  if (id =? 0)%nat then
    acquire Ltime;;
    modpt (λ t, set_pt_ticks (u32 (t.(pt_ticks) + 1)) t);;
    wakeup ChTicks;;
    release Ltime
  else ret tt.

(** [if(proc && proc->killed && (tf->cs&3) == DPL_USER) exit();] *)
Definition exit_if_killed (user : bool) : K unit :=
  o <- proc_var;;
  match o with
  | None => ret tt
  | Some i =>
      p <- getp i;;
      if truthy p.(p_killed) && user then exit;; ret tt else ret tt
  end.

(** The [switch] of [trap]. *)
Definition trap_irq (d : devices) (tf : trapframe) : K unit :=
  let n := tf.(tf_trapno) in
  id <- cpunum;;
  if n =? T_IRQ0 + IRQ_TIMER then timer_tick else
  if n =? T_IRQ0 + IRQ_IDE then ideintr else
  if n =? T_IRQ0 + IRQ_IDE + 1 then ret tt else
  if n =? T_IRQ0 + IRQ_KBD then kbdintr d.(kbd_port) else
  if n =? T_IRQ0 + IRQ_COM1 then uartintr d.(com1_port) else
  if (n =? T_IRQ0 + 7) || (n =? T_IRQ0 + IRQ_SPURIOUS) then
    cprintf fmt_spurious [AInt (Z.of_nat id); AInt tf.(tf_cs); AInt tf.(tf_eip)] else
  o <- proc_var;;
  match o with
  | Some i =>
      if Z.land tf.(tf_cs) 3 =? 0 then
        cprintf fmt_unexpected [AInt n; AInt (Z.of_nat id); AInt tf.(tf_eip); AInt d.(cr2)];;
        panic "trap"
      else
        p <- getp i;;
        cprintf fmt_killproc [AInt p.(p_pid); AStr (Some p.(p_name)); AInt n; AInt tf.(tf_err);
                              AInt (Z.of_nat id); AInt tf.(tf_eip); AInt d.(cr2)];;
        modp i (set_p_killed 1)
  | None =>
      cprintf fmt_unexpected [AInt n; AInt (Z.of_nat id); AInt tf.(tf_eip); AInt d.(cr2)];;
      panic "trap"
  end.

Definition trap_syscall (tf : trapframe) : K unit :=
  i <- curproc;; p <- getp i;;
  (if truthy p.(p_killed) then exit;; ret tt else ret tt);;
  modp i (set_p_tf tf);;
  syscall syscalls;;
  i <- curproc;; p <- getp i;;
  if truthy p.(p_killed) then exit;; ret tt else ret tt.

Definition trap (d : devices) (tf : trapframe) : K unit :=
  if tf.(tf_trapno) =? T_SYSCALL then trap_syscall tf else
  let user := Z.land tf.(tf_cs) 3 =? DPL_USER in
  trap_irq d tf;;
  exit_if_killed user;;
  o <- proc_var;;
  (match o with
   | None => ret tt
   | Some i =>
       p <- getp i;;
       if bool_decide (p.(p_state) = RUNNING) && (tf.(tf_trapno) =? T_IRQ0 + IRQ_TIMER)
       then yield else ret tt
   end);;
  exit_if_killed user.
