(* ===== verification/X86.v ===== *)
(** * The processor (the instructions of swtch.S, trapasm.S, usys.S, initcode.S, entry.S, bootasm.S, entryother.S)

    The part of the 80386 that the assembly files use: registers, the stack in
    memory, control registers, the way into and out of an interrupt.  Code is a
    map from addresses to instructions.  The segments that the code uses to
    address memory all have base 0, so that an address is an offset; a selector is
    not checked against its descriptor when it is loaded.  Memory is what the
    processor sees through its page table. *)

From S2P Require Import Prelude KState Print Mem Hardware Desc.

Inductive reg : Type := EAX | ECX | EDX | EBX | ESP | EBP | ESI | EDI.
Inductive sreg : Type := CS | DS | ES | FS | GS | SS.
Inductive creg : Type := CR0 | CR3 | CR4.

(** Registers are told apart by a number. *)
Class Tag (R : Type) : Type := tag : R → nat.
#[export] Instance reg_tag : Tag reg := λ r, match r with EAX => 0 | ECX => 1 | EDX => 2 | EBX => 3 | ESP => 4 | EBP => 5 | ESI => 6 | EDI => 7 end%nat.
#[export] Instance sreg_tag : Tag sreg := λ r, match r with CS => 0 | DS => 1 | ES => 2 | FS => 3 | GS => 4 | SS => 5 end%nat.
#[export] Instance creg_tag : Tag creg := λ r, match r with CR0 => 0 | CR3 => 1 | CR4 => 2 end%nat.

#[export] Instance reg_eq_dec : EqDecision reg.
Proof. solve_decision. Defined.
#[export] Instance sreg_eq_dec : EqDecision sreg.
Proof. solve_decision. Defined.

(** [f] with [v] at [r]. *)
Definition upd {R} `{Tag R} (r : R) (v : Z) (f : R → Z) : R → Z := λ r', if (tag r =? tag r')%nat then v else f r'.

(** The constructors are named after the AT&T mnemonics; the letters after the underscore are the operands in their order:
    register, immediate, segment register, control register, memory at a register, memory at an address. *)
Inductive instr : Type :=
| PUSHL_R (r : reg) | PUSHL_I (v : Z) | PUSHL_S (s : sreg) | POPL_R (r : reg) | POPL_S (s : sreg) | PUSHAL | POPAL
| MOVL_RR (r r' : reg) | MOVL_IR (v : Z) (r : reg) | MOVL_MR (d : Z) (b r : reg) | MOVL_RM (r b : reg) | MOVL_AR (a : Z) (r : reg)
| MOVL_CR (c : creg) (r : reg) | MOVL_RC (r : reg) (c : creg)
| MOVW_IR (v : Z) (r : reg) | MOVW_RR (r r' : reg) | MOVW_RS (r : reg) (s : sreg) | XORW_RR (r r' : reg)
| ADDL_IR (v : Z) (r : reg) | ORL_IR (v : Z) (r : reg)
| MOVB_I (v : Z) | TESTB_I (v : Z) | INB (port : Z) | OUTB (port : Z) | OUTW
| JMP (a : Z) | JMP_R (r : reg) | JNZ (a : Z) | LJMP (sel a : Z) | CALL (a : Z) | CALL_A (a : Z) | RET
| INT (n : Z) | IRET | CLI | LGDT (a : Z).

Section processor.
Context {D : Type} `{Hardware D}.

(** [x_gdtr]: base and limit; [x_tss]: ss0 and esp0 of the task state. *)
Record x86 : Type := Mkx86 {
  x_reg : reg → Z; x_seg : sreg → Z; x_cr : creg → Z; x_eip : Z; x_flags : Z;
  x_gdtr : Z * Z; x_idt : list gatedesc; x_tss : Z * Z; x_mem : mem; x_dev : D
}.

Definition set_reg (r : reg) (v : Z) (s : x86) : x86 :=
  Mkx86 (upd r v s.(x_reg)) s.(x_seg) s.(x_cr) s.(x_eip) s.(x_flags) s.(x_gdtr) s.(x_idt) s.(x_tss) s.(x_mem) s.(x_dev).
Definition set_seg (r : sreg) (v : Z) (s : x86) : x86 :=
  Mkx86 s.(x_reg) (upd r v s.(x_seg)) s.(x_cr) s.(x_eip) s.(x_flags) s.(x_gdtr) s.(x_idt) s.(x_tss) s.(x_mem) s.(x_dev).
Definition set_cr (r : creg) (v : Z) (s : x86) : x86 :=
  Mkx86 s.(x_reg) s.(x_seg) (upd r v s.(x_cr)) s.(x_eip) s.(x_flags) s.(x_gdtr) s.(x_idt) s.(x_tss) s.(x_mem) s.(x_dev).
Definition set_eip (v : Z) (s : x86) : x86 :=
  Mkx86 s.(x_reg) s.(x_seg) s.(x_cr) v s.(x_flags) s.(x_gdtr) s.(x_idt) s.(x_tss) s.(x_mem) s.(x_dev).
Definition set_flags (v : Z) (s : x86) : x86 :=
  Mkx86 s.(x_reg) s.(x_seg) s.(x_cr) s.(x_eip) v s.(x_gdtr) s.(x_idt) s.(x_tss) s.(x_mem) s.(x_dev).
Definition set_gdtr (v : Z * Z) (s : x86) : x86 :=
  Mkx86 s.(x_reg) s.(x_seg) s.(x_cr) s.(x_eip) s.(x_flags) v s.(x_idt) s.(x_tss) s.(x_mem) s.(x_dev).
Definition set_mem (v : mem) (s : x86) : x86 :=
  Mkx86 s.(x_reg) s.(x_seg) s.(x_cr) s.(x_eip) s.(x_flags) s.(x_gdtr) s.(x_idt) s.(x_tss) v s.(x_dev).
Definition set_dev (v : D) (s : x86) : x86 :=
  Mkx86 s.(x_reg) s.(x_seg) s.(x_cr) s.(x_eip) s.(x_flags) s.(x_gdtr) s.(x_idt) s.(x_tss) s.(x_mem) v.

(** ** Flags *)

Definition set_bit (i : Z) (b : bool) (f : Z) : Z := if b then Z.lor f (2 ^ i) else Z.land f (Z.lnot (2 ^ i)).
Definition parity (v : Z) : bool := negb (foldl (λ b i, xorb b (Z.testbit v i)) false [0; 1; 2; 3; 4; 5; 6; 7]).

(** Carry, parity, zero, sign and overflow after an operation of [w] bits with the result [v]. *)
Definition status (w v : Z) (carry overflow : bool) (f : Z) : Z :=
  set_bit 0 carry (set_bit 2 (parity v) (set_bit 6 (v =? 0) (set_bit 7 (Z.testbit v (w - 1)) (set_bit 11 overflow f)))).
Definition logic_flags (w v f : Z) : Z := status w v false false f.
Definition add_flags (a b f : Z) : Z :=
  let v := u32 (a + b) in
  set_bit 4 (16 <=? a mod 16 + b mod 16)
    (status 32 v (4294967296 <=? a + b) (Bool.eqb (Z.testbit a 31) (Z.testbit b 31) && xorb (Z.testbit a 31) (Z.testbit v 31)) f).

(** ** The stack *)

Definition push (v : Z) (s : x86) : x86 :=
  let a := u32 (s.(x_reg) ESP - 4) in set_reg ESP a (set_mem (store32 a v s.(x_mem)) s).
Definition top (s : x86) : Z := load32 s.(x_mem) (s.(x_reg) ESP).
Definition drop_top (n : Z) (s : x86) : x86 := set_reg ESP (u32 (s.(x_reg) ESP + n)) s.
Definition pop_to (f : Z → x86 → x86) (s : x86) : x86 := f (top s) (drop_top 4 s).

(** ** Interrupts *)

Definition cpl (s : x86) : Z := s.(x_seg) CS mod 4.

(** The processor's exceptions that come with an error code: double fault, invalid task state, segment not present, stack
    fault, general protection, page fault and alignment check.  Later processors have three more, with features that have to
    be turned on first; no other exception of this processor and no device interrupt has one. *)
Definition exceptions_with_code : list nat := [8; 10; 11; 12; 13; 14; 17]%nat.

Definition pushes_code (n : nat) : Prop := n ∈ exceptions_with_code.

(** An interrupt through the gate [g], which leads to privilege 0.  From user mode the processor changes to the stack of the
    task state.  It clears the trap, nested task, resume and virtual-8086 flags, and an interrupt gate the interrupt flag. *)
Definition deliver (g : gatedesc) (err : option Z) (s : x86) : x86 :=
  let '(ss0, esp0) := s.(x_tss) in
  let s1 := if 0 <? cpl s then push (s.(x_reg) ESP) (push (s.(x_seg) SS) (set_reg ESP esp0 (set_seg SS ss0 s))) else s in
  let s2 := push s.(x_eip) (push (s.(x_seg) CS) (push s.(x_flags) s1)) in
  let s3 := match err with Some e => push e s2 | None => s2 end in
  let f := set_bit 8 false (set_bit 14 false (set_bit 16 false (set_bit 17 false s.(x_flags)))) in
  set_flags (if g.(gd_type) =? STS_IG32 then set_bit 9 false f else f) (set_eip (gate_handler g) (set_seg CS g.(gd_cs) s3)).

(** [iret] at privilege 0; a return to an outer level takes the stack pointer, too. *)
Definition iret (s : x86) : option x86 :=
  if negb (cpl s =? 0) then None else
  let s1 := pop_to set_eip s in
  let s2 := pop_to (λ v, set_seg CS (u16 v)) s1 in
  let s3 := pop_to set_flags s2 in
  Some (if 0 <? cpl s3 then
          let esp := top s3 in let s4 := drop_top 4 s3 in let ss := top s4 in
          set_reg ESP esp (set_seg SS (u16 ss) s4)
        else s3).

(** ** Instructions *)

Definition low16 (old v : Z) : Z := old - u16 old + u16 v.
Definition low8 (old v : Z) : Z := old - u8 old + u8 v.

Definition exec (i : instr) (s : x86) : option x86 :=
  let r := s.(x_reg) in
  match i with
  | PUSHL_R a => Some (push (r a) s)
  | PUSHL_I v => Some (push (u32 v) s)
  | PUSHL_S a => Some (push (s.(x_seg) a) s)
  | POPL_R a => Some (pop_to (set_reg a) s)
  | POPL_S a => Some (pop_to (λ v, set_seg a (u16 v)) s)
  | PUSHAL => Some (push (r EDI) (push (r ESI) (push (r EBP) (push (r ESP) (push (r EBX) (push (r EDX) (push (r ECX) (push (r EAX) s))))))))
  | POPAL => Some (pop_to (set_reg EAX) (pop_to (set_reg ECX) (pop_to (set_reg EDX) (pop_to (set_reg EBX) (drop_top 4
               (pop_to (set_reg EBP) (pop_to (set_reg ESI) (pop_to (set_reg EDI) s))))))))
  | MOVL_RR a b => Some (set_reg b (r a) s)
  | MOVL_IR v a => Some (set_reg a (u32 v) s)
  | MOVL_MR d b a => Some (set_reg a (load32 s.(x_mem) (u32 (r b + d))) s)
  | MOVL_RM a b => Some (set_mem (store32 (r b) (r a) s.(x_mem)) s)
  | MOVL_AR p a => Some (set_reg a (load32 s.(x_mem) p) s)
  | MOVL_CR c a => Some (set_reg a (s.(x_cr) c) s)
  | MOVL_RC a c => Some (set_cr c (r a) s)
  | MOVW_IR v a => Some (set_reg a (low16 (r a) v) s)
  | MOVW_RR a b => Some (set_reg b (low16 (r b) (r a)) s)
  | MOVW_RS a g => Some (set_seg g (u16 (r a)) s)
  | XORW_RR a b => let v := Z.lxor (u16 (r a)) (u16 (r b)) in Some (set_flags (logic_flags 16 v s.(x_flags)) (set_reg b (low16 (r b) v) s))
  | ADDL_IR v a => Some (set_flags (add_flags (r a) (u32 v) s.(x_flags)) (set_reg a (u32 (r a + v)) s))
  | ORL_IR v a => let v := Z.lor (r a) (u32 v) in Some (set_flags (logic_flags 32 v s.(x_flags)) (set_reg a v s))
  | MOVB_I v => Some (set_reg EAX (low8 (r EAX) v) s)
  | TESTB_I v => Some (set_flags (logic_flags 8 (Z.land (u8 (r EAX)) v) s.(x_flags)) s)
  | INB p => let '(v, d) := port_in p s.(x_dev) in Some (set_reg EAX (low8 (r EAX) v) (set_dev d s))
  | OUTB p => Some (set_dev (port_out p (u8 (r EAX)) s.(x_dev)) s)
  | OUTW => Some (set_dev (port_out (u16 (r EDX)) (u16 (r EAX)) s.(x_dev)) s)
  | JMP a => Some (set_eip a s)
  | JMP_R a => Some (set_eip (r a) s)
  | JNZ a => Some (if Z.testbit s.(x_flags) 6 then s else set_eip a s)
  | LJMP sel a => Some (set_eip a (set_seg CS sel s))
  | CALL a => Some (set_eip a (push s.(x_eip) s))
  | CALL_A p => let a := load32 s.(x_mem) p in Some (set_eip a (push s.(x_eip) s))
  | RET => Some (pop_to set_eip s)
  | INT n => g ← s.(x_idt) !! Z.to_nat n; if (g.(gd_p) =? 1) && (cpl s <=? g.(gd_dpl)) then Some (deliver g None s) else None
  | IRET => iret s
  | CLI => Some (set_flags (set_bit 9 false s.(x_flags)) s)
  | LGDT p => Some (set_gdtr (load32 s.(x_mem) (p + 2) mod 16777216, u16 (load32 s.(x_mem) p)) s)
  end.

(** ** Code *)

(** The instruction at an address, and the address of the next. *)
Definition code : Type := Z → option (instr * Z).

Definition step (c : code) (s : x86) : option x86 := '(i, next) ← c s.(x_eip); exec i (set_eip next s).

Fixpoint steps (c : code) (n : nat) (s : x86) : option x86 := match n with O => Some s | S n' => s ← step c s; steps c n' s end.

(** The processor comes from [s] to [s'] by itself. *)
Inductive comes (c : code) (s' : x86) : x86 → Prop :=
| comes_here : comes c s' s'
| comes_step s s1 : step c s = Some s1 → comes c s' s1 → comes c s' s.

(** The instructions [l] are one after the other from [a] to [b]. *)
Fixpoint located (c : code) (a : Z) (l : list instr) (b : Z) : Prop :=
  match l with [] => a = b | i :: l' => ∃ a', c a = Some (i, a') ∧ located c a' l' b end.

Lemma comes_trans c s1 s2 s3 : comes c s2 s1 → comes c s3 s2 → comes c s3 s1.
Proof. induction 1 as [|s s1 Hs _ IH]; [done|]. intros. eapply comes_step; [exact Hs|by apply IH]. Qed.

Lemma step_at c s s' s1 i a n : s.(x_eip) = a → c a = Some (i, n) → exec i (set_eip n s) = Some s1 → comes c s' s1 → comes c s' s.
Proof. intros Ha Hc He Hs. eapply comes_step; [|exact Hs]. unfold step. by rewrite Ha, Hc. Qed.

Lemma comes_steps c s s' : comes c s' s ↔ ∃ n, steps c n s = Some s'.
Proof.
  split.
  - induction 1 as [|s s1 Hs _ [n IH]]; [by exists O|]. exists (S n). cbn [steps]. by rewrite Hs.
  - intros [n Hn]. revert s Hn. induction n as [|n IH]; intros s Hn; cbn [steps] in Hn; [injection Hn as ->; constructor|].
    destruct (step c s) as [s1|] eqn:E; [|done]. eapply comes_step; [exact E|by apply IH].
Qed.

Lemma located_app c a l1 l2 b : located c a (l1 ++ l2) b ↔ ∃ a', located c a l1 a' ∧ located c a' l2 b.
Proof.
  revert a. induction l1 as [|i l1 IH]; intros a; simpl; [naive_solver|]. split.
  - intros (a1 & H1 & H2). apply IH in H2 as (a' & H2 & H3). eauto 10.
  - intros (a' & (a1 & H1 & H2) & H3). exists a1. split; [done|]. apply IH. eauto.
Qed.

(** ** What is on the stack *)

(** The stack pointer is [e], and the words [ws] are there. *)
Definition words (m : mem) (a : Z) (ws : list Z) : Prop := ∀ i w, ws !! i = Some w → load32 m (a + 4 * Z.of_nat i) = w.
Definition stack (s : x86) (e : Z) (ws : list Z) : Prop := s.(x_reg) ESP = e ∧ is_u32 e ∧ words s.(x_mem) e ws.

Lemma words_split m a w ws : words m a (w :: ws) ↔ load32 m a = w ∧ words m (a + 4) ws.
Proof.
  split.
  - intros Hw. split; [specialize (Hw O w eq_refl); by rewrite Z.add_0_r in Hw|]. intros i v Hi. specialize (Hw (S i) v Hi). rewrite <- Hw. f_equal. lia.
  - intros [H1 H2] [|i] v Hi; [injection Hi as <-; by rewrite Z.add_0_r|]. specialize (H2 i v Hi). rewrite <- H2. f_equal. lia.
Qed.

Lemma words_ext (m m' : mem) a ws : (∀ x, a ≤ x < a + 4 * Z.of_nat (length ws) → m x = m' x) → words m a ws → words m' a ws.
Proof. intros Hx Hw i w Hi. rewrite <- (Hw i w Hi). pose proof (lookup_lt_Some _ _ _ Hi). apply load32_ext. intros x Hr. symmetry. apply Hx. lia. Qed.

Lemma stack_push s e ws v : stack s e ws → 4 ≤ e → is_u32 v → stack (push v s) (e - 4) (v :: ws).
Proof.
  intros (He & Hr & Hw) H4 Hv. unfold is_u32 in *. split; [|split; [unfold is_u32; lia|]]; unfold push; cbn [x_reg x_mem set_reg set_mem]; rewrite He, u32_id by (unfold is_u32; lia); [done|].
  apply words_split. split; [by apply load32_store32_eq|]. rewrite Z.sub_add. eapply words_ext; [|exact Hw]. intros x Hx. symmetry. apply store32_out. lia.
Qed.

(** The stack has grown from [hi] down: nothing else of the memory [m] has changed. *)
Definition grown (m : mem) (hi : Z) (s : x86) (e : Z) (ws : list Z) : Prop :=
  stack s e ws ∧ e ≤ hi ∧ ∀ y, y < e ∨ hi ≤ y → s.(x_mem) y = m y.

Lemma grown_start s e ws : stack s e ws → grown s.(x_mem) e s e ws.
Proof. intros Hs. split; [done|]. split; [lia|done]. Qed.

Lemma grown_same m hi s s' e ws : grown m hi s e ws → s'.(x_reg) ESP = s.(x_reg) ESP → s'.(x_mem) = s.(x_mem) → grown m hi s' e ws.
Proof. intros ((H1 & H2 & H3) & H4 & H5) E1 E2. split; [split; [congruence|]; split; [done|by rewrite E2]|]. split; [done|]. by rewrite E2. Qed.

Lemma grown_push m hi s e ws v : grown m hi s e ws → 4 ≤ e → is_u32 v → grown m hi (push v s) (e - 4) (v :: ws).
Proof.
  intros (Hs & Hle & Hm) H4 Hv. split; [by apply stack_push|]. split; [lia|]. intros y Hy. rewrite <- Hm by lia. destruct Hs as (He & Hr & _).
  unfold is_u32 in *. unfold push. cbn [x_mem set_mem set_reg]. rewrite He, u32_id by (unfold is_u32; lia). apply store32_out. lia.
Qed.

Lemma stack_top s e w ws : stack s e (w :: ws) → top s = w.
Proof. intros (He & _ & Hw). unfold top. rewrite He. by apply words_split in Hw as [? _]. Qed.

Lemma stack_drop s e w ws : stack s e (w :: ws) → is_u32 (e + 4) → stack (drop_top 4 s) (e + 4) ws.
Proof. intros (He & Hr & Hw) Hn. apply words_split in Hw as [_ Hw]. split; [|done]. unfold drop_top. cbn [x_reg set_reg]. rewrite He. by apply u32_id. Qed.

Lemma stack_u32 s e ws : stack s e ws → is_u32 e.
Proof. by intros (_ & ? & _). Qed.

Lemma pop_to_eq f s e w ws : stack s e (w :: ws) → pop_to f s = f w (drop_top 4 s).
Proof. intros Hs. unfold pop_to. by rewrite (stack_top _ _ _ _ Hs). Qed.

(** ** Runs of pushes and pops *)

(** Registers that are not in [rs], and everything but memory and the instruction pointer, are the same. *)
Definition keeps (rs : list reg) (s s' : x86) : Prop :=
  (∀ r, r ∉ rs → s'.(x_reg) r = s.(x_reg) r) ∧ s'.(x_seg) = s.(x_seg) ∧ s'.(x_cr) = s.(x_cr) ∧ s'.(x_flags) = s.(x_flags) ∧
  s'.(x_gdtr) = s.(x_gdtr) ∧ s'.(x_idt) = s.(x_idt) ∧ s'.(x_tss) = s.(x_tss) ∧ s'.(x_dev) = s.(x_dev).

Lemma keeps_same rs s : keeps rs s s.
Proof. by split_and!. Qed.
Lemma keeps_join rs rs' s1 s2 s3 : keeps rs s1 s2 → keeps rs' s2 s3 → keeps (rs ++ rs') s1 s3.
Proof.
  intros (R1 & H1 & H2 & H3 & H4 & H5 & H6 & H7) (R2 & K1 & K2 & K3 & K4 & K5 & K6 & K7). split_and!; try congruence.
  intros r Hr. rewrite R2, R1; [done|set_solver..].
Qed.
Lemma keeps_weaken rs rs' s s' : keeps rs s s' → rs ⊆ rs' → keeps rs' s s'.
Proof. intros (R1 & H1) Hs. split; [|done]. intros r Hr. apply R1. set_solver. Qed.
Lemma keeps_twice rs s1 s2 s3 : keeps rs s1 s2 → keeps rs s2 s3 → keeps rs s1 s3.
Proof. intros H1 H2. apply (keeps_weaken (rs ++ rs)); [by eapply keeps_join|set_solver]. Qed.
Lemma upd_other {R} `{Tag R} (r r' : R) v f : tag r ≠ tag r' → upd r v f r' = f r'.
Proof. intros Hne. unfold upd. by rewrite (proj2 (Nat.eqb_neq _ _)). Qed.
Lemma tag_inj (r r' : reg) : tag r = tag r' → r = r'.
Proof. by destruct r, r'. Qed.
(** The same with a test that computes. *)
Lemma keeps_into rs rs' s s' : keeps rs s s' → forallb (λ r, existsb (λ r', tag r =? tag r')%nat rs') rs = true → keeps rs' s s'.
Proof.
  intros Hk Hb. eapply keeps_weaken; [exact Hk|]. intros r Hr. apply list_elem_of_In in Hr. rewrite forallb_forall in Hb. specialize (Hb r Hr). apply existsb_exists in Hb as (r' & Hin & E).
  apply Nat.eqb_eq, tag_inj in E as ->. by apply list_elem_of_In.
Qed.
Lemma keeps_reg r v s : keeps [r] s (set_reg r v s).
Proof. split_and!; try done. intros r' Hr. cbn [x_reg set_reg]. apply upd_other. intros E. apply tag_inj in E as ->. set_solver. Qed.

Lemma keeps_push v s : keeps [ESP] s (push v s).
Proof. apply (keeps_reg ESP _ (set_mem _ s)). Qed.

(** The values, the first one pushed first. *)
Definition pushes (vs : list Z) (s : x86) : x86 := foldl (λ s v, push v s) s vs.

Lemma pushes_grown vs : ∀ m hi s e ws, grown m hi s e ws → 4 * Z.of_nat (length vs) ≤ e → Forall is_u32 vs →
  grown m hi (pushes vs s) (e - 4 * Z.of_nat (length vs)) (rev vs ++ ws) ∧ keeps [ESP] s (pushes vs s) ∧ (pushes vs s).(x_eip) = s.(x_eip).
Proof.
  induction vs as [|v vs IH]; intros m hi s e ws Hg Hle Hv; [rewrite Z.sub_0_r; split_and!; [done|apply keeps_same|done]|].
  apply Forall_cons in Hv as [Hv Hvs]. cbn [length] in *. destruct (IH m hi (push v s) (e - 4) (v :: ws)) as (H1 & H2 & H3); [by apply grown_push; [|lia|]|lia|done|].
  cbn [pushes foldl]. split_and!; [|by eapply keeps_twice; [apply keeps_push|]|done].
  simpl rev. rewrite <- app_assoc. replace (e - 4 * Z.of_nat (S (length vs))) with (e - 4 - 4 * Z.of_nat (length vs)) by lia. exact H1.
Qed.

(** What a simple push instruction pushes. *)
Definition value (i : instr) (s : x86) : option Z :=
  match i with
  | PUSHL_R r => if (tag r =? tag ESP)%nat then None else Some (s.(x_reg) r)
  | PUSHL_S g => Some (s.(x_seg) g)
  | PUSHL_I v => Some (u32 v)
  | _ => None
  end.

Lemma value_keeps i s s' : keeps [ESP] s s' → value i s' = value i s.
Proof.
  intros (Hr & Hs & _). destruct i; try done; cbn [value]; [|by rewrite Hs]. destruct (_ =? _)%nat eqn:E; [done|]. rewrite Hr; [done|]. intros Hin. apply list_elem_of_singleton in Hin as ->. done.
Qed.

Lemma value_exec i v s n : value i s = Some v → exec i (set_eip n s) = Some (push v (set_eip n s)).
Proof. destruct i; try done; cbn [value]; [|by intros [= <-]..]. destruct (_ =? _)%nat; [done|]. by intros [= <-]. Qed.

Lemma run_pushes c l : ∀ vs s a b m hi e ws, located c a l b → s.(x_eip) = a → Forall2 (λ i v, value i s = Some v) l vs →
  grown m hi s e ws → 4 * Z.of_nat (length vs) ≤ e → Forall is_u32 vs →
  ∃ s', comes c s' s ∧ s'.(x_eip) = b ∧ keeps [ESP] s s' ∧ grown m hi s' (e - 4 * Z.of_nat (length vs)) (rev vs ++ ws).
Proof.
  induction l as [|i l IH]; intros vs s a b m hi e ws Hl Ha Hv Hg Hle Hu.
  - apply Forall2_nil_inv_l in Hv as ->. exists s. rewrite Z.sub_0_r. split_and!; [constructor|by rewrite Ha|apply keeps_same|done].
  - apply Forall2_cons_inv_l in Hv as (v & vs' & Hv & Hvs & ->). destruct Hl as (a1 & L1 & Hl). apply Forall_cons in Hu as [Hu Hus]. cbn [length] in *.
    assert (keeps [ESP] s (push v (set_eip a1 s))) as Hk by apply (keeps_push v (set_eip a1 s)).
    destruct (IH vs' (push v (set_eip a1 s)) a1 b m hi (e - 4) (v :: ws) Hl eq_refl) as (s' & C1 & E1 & K1 & G1).
    + eapply Forall2_impl; [exact Hvs|]. intros j w Hj. cbv beta in Hj. rewrite <- Hj. by apply value_keeps.
    + apply grown_push; [exact Hg|lia|done].
    + lia.
    + done.
    + exists s'. split_and!; [eapply step_at; [exact Ha|exact L1|by apply value_exec|done]|done|by eapply keeps_twice|].
      simpl rev. rewrite <- app_assoc. replace (e - 4 * Z.of_nat (S (length vs'))) with (e - 4 - 4 * Z.of_nat (length vs')) by lia. exact G1.
Qed.

Lemma pop_reg r s e w ws : stack s e (w :: ws) → is_u32 (e + 4) → r ≠ ESP →
  ∃ s', pop_to (set_reg r) s = s' ∧ stack s' (e + 4) ws ∧ s'.(x_reg) r = w ∧ keeps [ESP; r] s s' ∧ s'.(x_mem) = s.(x_mem) ∧ s'.(x_eip) = s.(x_eip).
Proof.
  intros Hs Hn Hr. eexists. split; [by eapply pop_to_eq|]. split_and!; [|cbn; unfold upd; by rewrite Nat.eqb_refl| |done|done].
  - destruct (stack_drop _ _ _ _ Hs Hn) as (H1 & H2 & H3). split; [|done]. rewrite <- H1. cbn [x_reg set_reg]. apply upd_other. intros E. by apply tag_inj in E.
  - apply (keeps_join [ESP] [r] _ (drop_top 4 s)); apply keeps_reg.
Qed.

(** The registers, the first one popped first. *)
Definition pops (rs : list reg) (s : x86) : x86 := foldl (λ s r, pop_to (set_reg r) s) s rs.

Lemma pops_spec rs : ∀ ws1 s e ws, stack s e (ws1 ++ ws) → length ws1 = length rs → is_u32 (e + 4 * Z.of_nat (length rs)) → ESP ∉ rs → NoDup rs →
  ∃ s', pops rs s = s' ∧ stack s' (e + 4 * Z.of_nat (length rs)) ws ∧ keeps (ESP :: rs) s s' ∧ s'.(x_mem) = s.(x_mem) ∧ s'.(x_eip) = s.(x_eip) ∧ Forall2 (λ r w, s'.(x_reg) r = w) rs ws1.
Proof.
  induction rs as [|r rs IH]; intros [|w ws1] s e ws Hs Hlen Hu Hesp Hnd; try discriminate Hlen.
  - exists s. rewrite Z.add_0_r. split_and!; [done|done|apply keeps_same|done|done|constructor].
  - apply NoDup_cons in Hnd as [Hr Hnd]. cbn [length app] in *. injection Hlen as Hlen. pose proof (stack_u32 _ _ _ Hs) as He. unfold is_u32 in *.
    destruct (pop_reg r s e w (ws1 ++ ws) Hs) as (s1 & E1 & S1 & R1 & K1 & M1 & P1); [unfold is_u32; lia|set_solver|].
    destruct (IH ws1 s1 (e + 4) ws S1 Hlen) as (s' & C2 & S2 & K2 & M2 & P2 & F2); [unfold is_u32; lia|set_solver|done|].
    exists s'. split_and!; [cbn [pops foldl]; by rewrite E1| |apply (keeps_weaken ([ESP; r] ++ (ESP :: rs))); [by apply (keeps_join _ _ s s1 s')|set_solver]|by rewrite M2, M1|by rewrite P2, P1|].
    + replace (e + 4 * Z.of_nat (S (length rs))) with (e + 4 + 4 * Z.of_nat (length rs)) by lia. exact S2.
    + constructor; [|done]. rewrite <- R1. apply K2. set_solver.
Qed.

Lemma popal_eq s : exec POPAL s = Some (pops [EBX; EDX; ECX; EAX] (drop_top 4 (pops [EDI; ESI; EBP] s))).
Proof. reflexivity. Qed.

(** Tests that compute. *)
Lemma reg_notin (r : reg) rs : existsb (λ r', tag r =? tag r')%nat rs = false → r ∉ rs.
Proof.
  intros Hb Hr. apply list_elem_of_In in Hr. assert (existsb (λ r', tag r =? tag r')%nat rs = true) as E; [|by rewrite E in Hb].
  apply existsb_exists. exists r. split; [done|apply Nat.eqb_refl].
Qed.

Lemma run_pops c rs : ∀ ws1 s a b e ws, located c a (POPL_R <$> rs) b → s.(x_eip) = a → stack s e (ws1 ++ ws) → length ws1 = length rs →
  is_u32 (e + 4 * Z.of_nat (length rs)) → ESP ∉ rs → NoDup rs →
  ∃ s', comes c s' s ∧ s'.(x_eip) = b ∧ keeps (ESP :: rs) s s' ∧ stack s' (e + 4 * Z.of_nat (length rs)) ws ∧ s'.(x_mem) = s.(x_mem) ∧
    Forall2 (λ r w, s'.(x_reg) r = w) rs ws1.
Proof.
  induction rs as [|r rs IH]; intros [|w ws1] s a b e ws Hl Ha Hs Hlen Hu Hesp Hnd; try discriminate Hlen.
  - exists s. rewrite Z.add_0_r. split_and!; [constructor|by rewrite Ha|apply keeps_same|done|done|constructor].
  - destruct Hl as (a1 & L1 & Hl). apply NoDup_cons in Hnd as [Hr Hnd]. cbn [length app] in *. injection Hlen as Hlen. unfold is_u32 in *. pose proof (stack_u32 _ _ _ Hs) as He. unfold is_u32 in He.
    destruct (pop_reg r (set_eip a1 s) e w (ws1 ++ ws) Hs) as (s1 & E1 & S1 & R1 & K1 & M1 & P1); [unfold is_u32; lia|set_solver|].
    destruct (IH ws1 s1 a1 b (e + 4) ws Hl P1 S1 Hlen) as (s' & C2 & P2 & K2 & S2 & M2 & F2); [unfold is_u32; lia|set_solver|done|].
    exists s'. split_and!; [eapply step_at; [exact Ha|exact L1|cbn [exec]; by rewrite E1|done]|done| | |by rewrite M2, M1|].
    + apply (keeps_weaken ([ESP; r] ++ (ESP :: rs))); [by apply (keeps_join _ _ s s1 s')|set_solver].
    + replace (e + 4 * Z.of_nat (S (length rs))) with (e + 4 + 4 * Z.of_nat (length rs)) by lia. exact S2.
    + constructor; [|done]. rewrite <- R1. apply K2. set_solver.
Qed.

(** Memory, the instruction pointer and all registers but the segment registers [gs] are the same; [ESP] is free. *)
Definition seg_only (gs : list sreg) (s s' : x86) : Prop :=
  (∀ g, g ∉ gs → s'.(x_seg) g = s.(x_seg) g) ∧ (∀ r, r ≠ ESP → s'.(x_reg) r = s.(x_reg) r) ∧ s'.(x_cr) = s.(x_cr) ∧ s'.(x_flags) = s.(x_flags) ∧ s'.(x_mem) = s.(x_mem).

Lemma seg_tag_inj (r r' : sreg) : tag r = tag r' → r = r'.
Proof. by destruct r, r'. Qed.

Lemma pop_seg g s e w ws : stack s e (w :: ws) → is_u32 (e + 4) →
  ∃ s', pop_to (λ v, set_seg g (u16 v)) s = s' ∧ stack s' (e + 4) ws ∧ s'.(x_seg) g = u16 w ∧ seg_only [g] s s' ∧ s'.(x_eip) = s.(x_eip).
Proof.
  intros Hs Hn. eexists. split; [by eapply pop_to_eq|]. split_and!; [exact (stack_drop _ _ _ _ Hs Hn)|cbn; unfold upd; by rewrite Nat.eqb_refl| |done].
  split_and!; try done.
  - intros g' Hg. cbn [x_seg set_seg drop_top set_reg]. apply upd_other. intros E. apply seg_tag_inj in E as ->. set_solver.
  - intros r Hr. cbn [x_reg set_seg drop_top set_reg]. apply upd_other. intros E. by apply tag_inj in E.
Qed.

Lemma seg_only_trans gs gs' s1 s2 s3 : seg_only gs s1 s2 → seg_only gs' s2 s3 → seg_only (gs ++ gs') s1 s3.
Proof.
  intros (R1 & H1 & H2 & H3 & H4) (R2 & K1 & K2 & K3 & K4). split_and!; try congruence.
  - intros r Hr. rewrite R2, R1; [done|set_solver..].
  - intros r Hr. by rewrite K1, H1.
Qed.

Lemma run_seg_pops c gs : ∀ ws1 s a b e ws, located c a (POPL_S <$> gs) b → s.(x_eip) = a → stack s e (ws1 ++ ws) → length ws1 = length gs →
  is_u32 (e + 4 * Z.of_nat (length gs)) → NoDup gs →
  ∃ s', comes c s' s ∧ s'.(x_eip) = b ∧ stack s' (e + 4 * Z.of_nat (length gs)) ws ∧ seg_only gs s s' ∧ Forall2 (λ g w, s'.(x_seg) g = u16 w) gs ws1.
Proof.
  induction gs as [|r rs IH]; intros [|w ws1] s a b e ws Hl Ha Hs Hlen Hu Hnd; try discriminate Hlen.
  - exists s. rewrite Z.add_0_r. split_and!; [constructor|by rewrite Ha|done|by split_and!|constructor].
  - destruct Hl as (a1 & L1 & Hl). apply NoDup_cons in Hnd as [Hr Hnd]. cbn [length app] in *. injection Hlen as Hlen. pose proof (stack_u32 _ _ _ Hs) as He. unfold is_u32 in *.
    destruct (pop_seg r (set_eip a1 s) e w (ws1 ++ ws) Hs) as (s1 & E1 & S1 & R1 & K1 & P1); [unfold is_u32; lia|].
    destruct (IH ws1 s1 a1 b (e + 4) ws Hl P1 S1 Hlen) as (s' & C2 & P2 & S2 & K2 & F2); [unfold is_u32; lia|done|].
    exists s'. split_and!; [eapply step_at; [exact Ha|exact L1|cbn [exec]; by rewrite E1|done]|done| |by apply (seg_only_trans [r] rs s s1 s')|].
    + replace (e + 4 * Z.of_nat (S (length rs))) with (e + 4 + 4 * Z.of_nat (length rs)) by lia. exact S2.
    + constructor; [|done]. rewrite <- R1. by apply K2.
Qed.

(** [iret] to user mode. *)
Lemma iret_user s e eip cs fl esp ss : stack s e [eip; cs; fl; esp; ss] → is_u32 (e + 20) → cpl s = 0 → 0 < u16 cs mod 4 →
  ∃ s', iret s = Some s' ∧ s'.(x_eip) = eip ∧ s'.(x_flags) = fl ∧ s'.(x_reg) ESP = esp ∧ (∀ r, r ≠ ESP → s'.(x_reg) r = s.(x_reg) r) ∧
    s'.(x_seg) CS = u16 cs ∧ s'.(x_seg) SS = u16 ss ∧ (∀ g, g ≠ CS → g ≠ SS → s'.(x_seg) g = s.(x_seg) g) ∧ s'.(x_mem) = s.(x_mem).
Proof.
  intros Hs Hu H0 Hcs. pose proof (stack_u32 _ _ _ Hs) as He. unfold is_u32 in *. unfold iret. rewrite H0. change (negb (0 =? 0)) with false. cbv iota zeta.
  rewrite (pop_to_eq _ _ _ _ _ Hs). pose proof (stack_drop _ _ _ _ Hs ltac:(unfold is_u32; lia)) as H1. set (s1 := set_eip eip (drop_top 4 s)).
  rewrite (pop_to_eq _ s1 _ _ _ H1). pose proof (stack_drop s1 _ _ _ H1 ltac:(unfold is_u32; lia)) as H2. set (s2 := set_seg CS (u16 cs) (drop_top 4 s1)).
  rewrite (pop_to_eq _ s2 _ _ _ H2). pose proof (stack_drop s2 _ _ _ H2 ltac:(unfold is_u32; lia)) as H3. set (s3 := set_flags fl (drop_top 4 s2)).
  assert (cpl s3 = u16 cs mod 4) as -> by done. rewrite (proj2 (Z.ltb_lt _ _)) by done.
  assert (top s3 = esp) as -> by exact (stack_top s3 _ _ _ H3). pose proof (stack_drop s3 _ _ _ H3 ltac:(unfold is_u32; lia)) as H4.
  rewrite (stack_top (drop_top 4 s3) _ _ _ H4). eexists. split; [reflexivity|]. split_and!; try reflexivity.
  - intros r Hr. destruct r; done.
  - intros g H5 H6. destruct g; done.
Qed.

(** ** Flags *)

Lemma set_bit_testbit i b f j : 0 ≤ i → 0 ≤ j → Z.testbit (set_bit i b f) j = if i =? j then b else Z.testbit f j.
Proof.
  intros Hi Hj. unfold set_bit. destruct b.
  - rewrite Z.lor_spec, Z.pow2_bits_eqb by done. destruct (Z.eqb_spec i j) as [->|]; [apply orb_true_r|apply orb_false_r].
  - rewrite Z.land_spec, Z.lnot_spec, Z.pow2_bits_eqb by done. destruct (Z.eqb_spec i j) as [->|]; [apply andb_false_r|apply andb_true_r].
Qed.

(** Arithmetic leaves the interrupt flag alone, and the zero flag says whether the result is zero. *)
Lemma logic_flags_IF w v f : Z.testbit (logic_flags w v f) 9 = Z.testbit f 9.
Proof. unfold logic_flags, status. by rewrite !set_bit_testbit. Qed.
Lemma logic_flags_ZF w v f : Z.testbit (logic_flags w v f) 6 = (v =? 0).
Proof. unfold logic_flags, status. by rewrite !set_bit_testbit. Qed.

Lemma u8_low8 old v : u8 (low8 old v) = u8 v.
Proof.
  unfold low8, u8. rewrite (Z.mod_eq old 256) by done. replace (old - (old - 256 * (old / 256)) + v mod 256) with (v mod 256 + old / 256 * 256) by lia.
  rewrite Z.mod_add by done. apply Z.mod_mod. done.
Qed.

Lemma located_fun (c : code) l : ∀ a b b', located c a l b → located c a l b' → b = b'.
Proof. induction l as [|i l IH]; intros a b b' H1 H2; cbn [located] in *; [congruence|]. destruct H1 as (a1 & E1 & H1), H2 as (a2 & E2 & H2). rewrite E1 in E2. injection E2 as <-. by eapply IH. Qed.
End processor.
Arguments x86 D : clear implicits.
Arguments Mkx86 {D}.
