(* ===== verification/Asm.v ===== *)
(** * Context switch, trap entry and system call stubs (swtch.S, trapasm.S, vectors.pl, usys.S, initcode.S)

    The assembly between the C functions, on the processor of X86.v.  [swtch]
    saves a [struct context] and loads another; the vectors and [alltraps] build a
    [struct trapframe] and call [trap]; [trapret] goes back to what the frame says.
    These are the facts behind the primitives of the kernel model: the switch of
    the monad and the trap frame as a record. *)

From S2P Require Import Prelude KState Print Mem Hardware Desc X86 Trap.

(** ** The layouts of proc.h and x86.h in memory *)

Definition context_at (m : mem) (a : Z) : context :=
  Mkcontext (load32 m a) (load32 m (a + 4)) (load32 m (a + 8)) (load32 m (a + 12)) (load32 m (a + 16)).

Definition load16 (m : mem) (a : Z) : Z := u16 (load32 m a).

(** The member at offset 12, [oesp], is not used; a ushort is followed by its padding. *)
Definition frame_at (m : mem) (a : Z) : trapframe :=
  Mktrapframe (load32 m a) (load32 m (a + 4)) (load32 m (a + 8)) (load32 m (a + 16)) (load32 m (a + 20)) (load32 m (a + 24)) (load32 m (a + 28))
    (load16 m (a + 32)) (load16 m (a + 36)) (load16 m (a + 40)) (load16 m (a + 44)) (load32 m (a + 48)) (load32 m (a + 52))
    (load32 m (a + 56)) (load16 m (a + 60)) (load32 m (a + 64)) (load32 m (a + 68)) (load16 m (a + 72)).

(** ** The code *)

Definition swtch : list instr :=
  [MOVL_MR 4 ESP EAX; MOVL_MR 8 ESP EDX;
   PUSHL_R EBP; PUSHL_R EBX; PUSHL_R ESI; PUSHL_R EDI;
   MOVL_RM ESP EAX; MOVL_RR EDX ESP;
   POPL_R EDI; POPL_R ESI; POPL_R EBX; POPL_R EBP; RET].

Definition has_error_code (i : nat) : bool := bool_decide (i = 8 ∨ (10 ≤ i ∧ i ≤ 14) ∨ i = 17)%nat.

(** What vectors.pl prints for the vector [i]. *)
Definition vector (alltraps : Z) (i : nat) : list instr :=
  (if negb (has_error_code i) then [PUSHL_I 0] else []) ++ [PUSHL_I (Z.of_nat i); JMP alltraps].

Definition alltraps (trap : Z) : list instr :=
  [PUSHL_S DS; PUSHL_S ES; PUSHL_S FS; PUSHL_S GS; PUSHAL;
   MOVW_IR (Z.shiftl SEG_KDATA 3) EAX; MOVW_RS EAX DS; MOVW_RS EAX ES;
   MOVW_IR (Z.shiftl SEG_KCPU 3) EAX; MOVW_RS EAX FS; MOVW_RS EAX GS;
   PUSHL_R ESP; CALL trap; ADDL_IR 4 ESP].

Definition trapret : list instr := [POPAL; POPL_S GS; POPL_S FS; POPL_S ES; POPL_S DS; ADDL_IR 8 ESP; IRET].

(** [SYSCALL(name)], for the number of the call. *)
Definition SYSCALL (n : Z) : list instr := [MOVL_IR n EAX; INT T_SYSCALL; RET].

(** The code of initcode.S: [start] up to [exit], and the loop at [exit]. *)
Definition initcode_start (init argv : Z) : list instr := [PUSHL_I argv; PUSHL_I init; PUSHL_I 0; MOVL_IR 7 EAX; INT T_SYSCALL].
Definition initcode_exit (exit : Z) : list instr := [MOVL_IR 2 EAX; INT T_SYSCALL; JMP exit].

Ltac notin := apply reg_notin; reflexivity.
Ltac next H := eapply step_at; [|exact H| |]; [reflexivity|reflexivity|].

Section code.
Context {D : Type} `{Hardware D} (c : code).

Lemma context_words m a x : words m a [cx_edi x; cx_esi x; cx_ebx x; cx_ebp x; cx_eip x] ↔ context_at m a = x.
Proof.
  rewrite !words_split. rewrite <- !Z.add_assoc. change (4 + 4) with 8. change (4 + 8) with 12. change (4 + 12) with 16. unfold context_at.
  destruct x as [x1 x2 x3 x4 x5]. cbn [cx_edi cx_esi cx_ebx cx_ebp cx_eip]. split.
  - intros (-> & -> & -> & -> & -> & _). done.
  - by intros [= <- <- <- <- <-].
Qed.

(** Where [swtch] may be called: [old] and [new] are its arguments and [ret] the return address on the stack [e], the new
    context is not on the part of the stack that [swtch] uses, and [*old] is in neither context. *)
Record switching (s : x86 D) (e ret old new : Z) : Prop := {
  sw_stack : stack s e [ret; old; new];
  sw_room : 16 ≤ e ∧ e + 12 < 4294967296;
  sw_regs : ∀ r, is_u32 (s.(x_reg) r);
  sw_new : 0 ≤ new ∧ new + 20 < 4294967296;
  sw_old : is_u32 old;
  sw_apart : new + 20 ≤ e - 16 ∨ e ≤ new;
  sw_slot : (new + 20 ≤ old ∨ old + 4 ≤ new) ∧ (old + 4 ≤ e - 16 ∨ e + 4 ≤ old)
}.

(** What [swtch] leaves: the registers of the context [x] that was at [new], and in memory the old context at [e - 16] with
    its address at [old]. *)
Record switched (s s' : x86 D) (e ret old new : Z) (x : context) : Prop := {
  sd_eip : s'.(x_eip) = cx_eip x;
  sd_esp : s'.(x_reg) ESP = new + 20;
  sd_regs : s'.(x_reg) EDI = cx_edi x ∧ s'.(x_reg) ESI = cx_esi x ∧ s'.(x_reg) EBX = cx_ebx x ∧ s'.(x_reg) EBP = cx_ebp x;
  sd_saved : context_at s'.(x_mem) (e - 16) = Mkcontext (s.(x_reg) EDI) (s.(x_reg) ESI) (s.(x_reg) EBX) (s.(x_reg) EBP) ret;
  sd_slot : load32 s'.(x_mem) old = e - 16;
  sd_mem : ∀ y, (y < e - 16 ∨ e ≤ y) → (y < old ∨ old + 4 ≤ y) → s'.(x_mem) y = s.(x_mem) y;
  sd_keeps : keeps [EAX; EDX; ESP; EDI; ESI; EBX; EBP] s s'
}.

(** Up to the change of the stack. *)
Lemma swtch_saves a b s e ret old new : located c a swtch b → s.(x_eip) = a → switching s e ret old new →
  ∃ s' a', comes c s' s ∧ located c a' (drop 6 swtch) b ∧ s'.(x_eip) = a' ∧ keeps [EAX; EDX; ESP] s s' ∧ s'.(x_reg) EAX = old ∧ s'.(x_reg) EDX = new ∧
    grown s.(x_mem) e s' (e - 16) [s.(x_reg) EDI; s.(x_reg) ESI; s.(x_reg) EBX; s.(x_reg) EBP; ret; old; new].
Proof.
  intros (a1 & L1 & a2 & L2 & Hl) Ha [Hst [H16 Hhi] Hregs Hnew Hold _ _]. pose proof Hst as (He & Hr & Hw). unfold is_u32 in Hr.
  rewrite !words_split in Hw. destruct Hw as (W0 & W1 & W2 & _). rewrite <- Z.add_assoc in W2. change (4 + 4) with 8 in W2.
  set (s2 := set_reg EDX new (set_eip a2 (set_reg EAX old (set_eip a1 s)))).
  assert (comes c s2 s) as C2.
  { eapply step_at; [exact Ha|exact L1|reflexivity|]. next L2. cbn [x_mem x_reg set_reg set_eip upd tag reg_tag Nat.eqb]. rewrite He, !u32_id by (unfold is_u32; lia). rewrite W1, W2. constructor. }
  assert (keeps [EAX; EDX] s s2) as K2 by (apply (keeps_join [EAX] [EDX] _ (set_reg EAX old s)); [apply keeps_reg|apply (keeps_reg EDX new (set_eip a2 (set_reg EAX old (set_eip a1 s))))]).
  apply (located_app c a2 [PUSHL_R EBP; PUSHL_R EBX; PUSHL_R ESI; PUSHL_R EDI]) in Hl as (a6 & Hp & Hl).
  destruct (run_pushes c _ [s.(x_reg) EBP; s.(x_reg) EBX; s.(x_reg) ESI; s.(x_reg) EDI] s2 a2 a6 _ _ e _ Hp eq_refl ltac:(repeat constructor) (grown_start s2 e _ Hst) ltac:(simpl; lia) ltac:(repeat constructor; apply Hregs)) as (s' & C & E & K & G).
  exists s', a6. pose proof (keeps_join _ _ _ _ _ K2 K) as K'. split_and!; [by eapply comes_trans|done|done|done|by rewrite (proj1 K) by notin|by rewrite (proj1 K) by notin|exact G].
Qed.

Lemma swtch_runs a b s e ret old new : located c a swtch b → s.(x_eip) = a → switching s e ret old new →
  ∃ s', comes c s' s ∧ switched s s' e ret old new (context_at s.(x_mem) new).
Proof.
  intros Hl Ha Hsw. destruct (swtch_saves a b s e ret old new Hl Ha Hsw) as (s6 & a6 & C6 & (a7 & L7 & a8 & L8 & Hpop) & P6 & K6 & R1 & R2 & ((E6 & _ & W6) & _ & M6)).
  destruct Hsw as [_ [H16 Hhi] Hregs [Hn1 Hn2] Hold Hd1 [Hd2 Hd3]]. unfold is_u32 in Hold. set (x := context_at s.(x_mem) new).
  set (m' := store32 old (e - 16) s6.(x_mem)). set (s8 := set_reg ESP new (set_eip a8 (set_mem m' (set_eip a7 s6)))).
  assert (comes c s8 s6) as C8.
  { eapply step_at; [exact P6|exact L7|reflexivity|]. next L8. cbn [set_eip set_mem x_reg x_mem]. rewrite E6, R1, R2. constructor. }
  assert (keeps [ESP] s6 s8) as K8 by apply (keeps_reg ESP new (set_eip a8 (set_mem m' (set_eip a7 s6)))).
  assert (∀ y, (y < e - 16 ∨ e ≤ y) → (y < old ∨ old + 4 ≤ y) → m' y = s.(x_mem) y) as M8.
  { intros y H1 H2. unfold m'. rewrite store32_out by lia. by apply M6. }
  assert (stack s8 new [cx_edi x; cx_esi x; cx_ebx x; cx_ebp x; cx_eip x]) as S8.
  { split; [done|]. split; [unfold is_u32; lia|]. eapply words_ext; [|by apply context_words]. intros y Hy. simpl in Hy. symmetry. apply M8; lia. }
  change (located c a8 ((POPL_R <$> [EDI; ESI; EBX; EBP]) ++ [RET]) b) in Hpop. apply located_app in Hpop as (a12 & Hpop & a13 & L13 & _).
  destruct (run_pops c [EDI; ESI; EBX; EBP] [cx_edi x; cx_esi x; cx_ebx x; cx_ebp x] s8 a8 a12 new [cx_eip x] Hpop eq_refl S8 eq_refl) as (s12 & C12 & P12 & K12 & S12 & M12 & F12);
    [unfold is_u32; simpl; lia|notin|by apply (bool_decide_unpack _)|].
  rewrite !Forall2_cons in F12. destruct F12 as (F1 & F2 & F3 & F4 & _).
  set (s13 := set_eip (cx_eip x) (drop_top 4 (set_eip a13 s12))).
  assert (comes c s13 s12) as C13 by (eapply step_at; [exact P12|exact L13|reflexivity|]; rewrite (pop_to_eq _ (set_eip a13 s12) _ _ _ S12); constructor).
  exists s13. split; [by apply (comes_trans c s s6), (comes_trans c s6 s8), (comes_trans c s8 s12)|]. change (x_mem s8) with m' in M12. split; try done.
  - destruct (stack_drop (set_eip a13 s12) _ _ _ S12 ltac:(unfold is_u32; simpl; lia)) as (E13 & _). etrans; [exact E13|simpl; lia].
  - change (x_mem s13) with (x_mem s12). rewrite M12. apply context_words. cbn [cx_edi cx_esi cx_ebx cx_ebp cx_eip]. eapply (words_ext s6.(x_mem)).
    + intros y Hy. simpl in Hy. symmetry. apply store32_out. lia.
    + intros i w Hi. apply W6. by destruct i as [|[|[|[|[|i]]]]].
  - change (x_mem s13) with (x_mem s12). rewrite M12. apply load32_store32_eq. unfold is_u32. lia.
  - change (x_mem s13) with (x_mem s12). rewrite M12. exact M8.
  - eapply keeps_into; [eapply keeps_join; [exact K6|eapply keeps_join; [exact K8|eapply keeps_join; [exact K12|apply (keeps_reg ESP _ (set_eip a13 s12))]]]|reflexivity].
Qed.

(** C7: [swtch] goes on with the context it is given, and the thread that has called it can be gone back to: a later call of
    [swtch], by another thread, with the address it stored goes on at its return address with its stack pointer, %ebx, %esi,
    %edi and %ebp, if nothing has written to the twenty bytes of the saved context. *)
Theorem swtch_returns a b s e ret old new : located c a swtch b → s.(x_eip) = a → switching s e ret old new →
  ∃ s1, comes c s1 s ∧ switched s s1 e ret old new (context_at s.(x_mem) new) ∧
    ∀ s2 e2 ret2 old2, s2.(x_eip) = a → switching s2 e2 ret2 old2 (load32 s1.(x_mem) old) → (∀ y, e - 16 ≤ y < e + 4 → s2.(x_mem) y = s1.(x_mem) y) →
      ∃ s3, comes c s3 s2 ∧ s3.(x_eip) = ret ∧ s3.(x_reg) ESP = e + 4 ∧ ∀ r, r ∈ [EBX; ESI; EDI; EBP] → s3.(x_reg) r = s.(x_reg) r.
Proof.
  intros Hl Ha Hs. destruct (swtch_runs a b s e ret old new Hl Ha Hs) as (s1 & C1 & H1). exists s1. split; [done|]. split; [done|].
  intros s2 e2 ret2 old2 Ha2 Hs2 Hm. destruct (swtch_runs a b s2 e2 ret2 old2 _ Hl Ha2 Hs2) as (s3 & C3 & [E1 E2 (R1 & R2 & R3 & R4) _ _ _ _]).
  destruct H1 as [_ _ _ Hsaved Hslot _ _]. rewrite Hslot in *. assert (context_at s2.(x_mem) (e - 16) = context_at s1.(x_mem) (e - 16)) as Hc.
  { apply context_words. eapply words_ext; [|by apply context_words]. intros y Hy. simpl in Hy. symmetry. apply Hm. lia. }
  rewrite Hc, Hsaved in *. exists s3. split; [done|]. split; [done|]. split; [rewrite E2; lia|].
  intros r Hr. rewrite !elem_of_cons in Hr. destruct Hr as [->|[->|[->|[->|Hr]]]]; [done..|by apply elem_of_nil in Hr].
Qed.

(** ** The way into the kernel *)

Record wf (s : x86 D) : Prop := {
  wf_reg : ∀ r, is_u32 (s.(x_reg) r);
  wf_seg : ∀ g, 0 ≤ s.(x_seg) g < 65536;
  wf_eip : is_u32 s.(x_eip);
  wf_flags : is_u32 s.(x_flags)
}.

(** What the processor pushes from user mode. *)
Definition user_pushes (err : option Z) (s : x86 D) : list Z :=
  s.(x_seg) SS :: s.(x_reg) ESP :: s.(x_flags) :: s.(x_seg) CS :: s.(x_eip) :: option_list err.

Lemma deliver_eq g err s ss0 esp0 : 0 < cpl s → s.(x_tss) = (ss0, esp0) →
  ∃ f, deliver g err s = set_flags f (set_eip (gate_handler g) (set_seg CS g.(gd_cs) (pushes (user_pushes err s) (set_reg ESP esp0 (set_seg SS ss0 s))))).
Proof. intros Hcpl Ht. eexists. unfold deliver. rewrite Ht, (proj2 (Z.ltb_lt _ _)) by done. destruct err; reflexivity. Qed.

(** The processor after an interrupt from user mode through the gate [g], with an error code or without one. *)
Lemma deliver_user g err s ss0 esp0 : wf s → 0 < cpl s → s.(x_tss) = (ss0, esp0) → 24 ≤ esp0 → is_u32 esp0 → (∀ e, err = Some e → is_u32 e) →
  ∃ d, deliver g err s = d ∧ d.(x_eip) = gate_handler g ∧ (∀ r, r ≠ ESP → d.(x_reg) r = s.(x_reg) r) ∧
    (∀ r, d.(x_seg) r = upd CS g.(gd_cs) (upd SS ss0 s.(x_seg)) r) ∧
    grown s.(x_mem) esp0 d (esp0 - 4 * Z.of_nat (5 + length (option_list err)))
      (option_list err ++ [s.(x_eip); s.(x_seg) CS; s.(x_flags); s.(x_reg) ESP; s.(x_seg) SS]).
Proof.
  intros [Hr Hg He Hf] Hcpl Ht Hlo Hu Herr. destruct (deliver_eq g err s ss0 esp0 Hcpl Ht) as [f ->].
  assert (length (user_pushes err s) = 5 + length (option_list err))%nat as Hlen by done.
  assert (rev (user_pushes err s) ++ [] = option_list err ++ [s.(x_eip); s.(x_seg) CS; s.(x_flags); s.(x_reg) ESP; s.(x_seg) SS]) as Hrev by by destruct err.
  destruct (pushes_grown (user_pushes err s) s.(x_mem) esp0 (set_reg ESP esp0 (set_seg SS ss0 s)) esp0 []) as (G & (K1 & K2 & _) & P).
  - split; [|split; [lia|done]]. split; [done|]. split; [done|]. by intros i w Hi.
  - rewrite Hlen. destruct err; simpl; lia.
  - assert (∀ g, is_u32 (s.(x_seg) g)) as Hg' by (intros g'; specialize (Hg g'); unfold is_u32; lia).
    unfold user_pushes. rewrite !Forall_cons. split_and!; try done. destruct err as [e|]; [|constructor]. apply Forall_singleton. by apply Herr.
  - rewrite Hlen, Hrev in G. generalize dependent (pushes (user_pushes err s) (set_reg ESP esp0 (set_seg SS ss0 s))). intros d' G K1 K2 P.
    eexists. split; [reflexivity|]. split_and!; [done| | |by eapply grown_same].
    + intros r Hne. cbn [x_reg set_flags set_eip set_seg]. rewrite K1 by set_solver. apply upd_other. intros Et. by apply tag_inj in Et.
    + intros r. cbn [x_seg set_flags set_eip set_seg]. by rewrite K2.
Qed.

(** vectors.pl leaves room for an error code exactly where the processor pushes none. *)
Lemma has_error_code_iff n : has_error_code n = true ↔ pushes_code n.
Proof.
  unfold has_error_code, pushes_code, exceptions_with_code. rewrite bool_decide_eq_true, !elem_of_cons, elem_of_nil. lia.
Qed.

Lemma no_code_syscall : is_Some (None : option Z) ↔ pushes_code 64.
Proof. split; [by intros []|]. intros Hc%has_error_code_iff. discriminate Hc. Qed.

(** The code of a vector makes all frames alike. *)
Lemma vector_runs all n a b m hi s e err rest : located c a (vector all n) b → s.(x_eip) = a → (n < 256)%nat → is_Some err ↔ has_error_code n = true →
  grown m hi s e (option_list err ++ rest) → 8 ≤ e →
  ∃ s', comes c s' s ∧ s'.(x_eip) = all ∧ keeps [ESP] s s' ∧ grown m hi s' (e - 8 + 4 * Z.of_nat (length (option_list err))) (Z.of_nat n :: default 0 err :: rest).
Proof.
  intros Hl Ha Hn Herr Hg He. assert (is_u32 (Z.of_nat n)) as Hu by (unfold is_u32; lia). unfold vector in Hl.
  assert (∃ a2, located c a (if negb (has_error_code n) then [PUSHL_I 0; PUSHL_I (Z.of_nat n)] else [PUSHL_I (Z.of_nat n)]) a2 ∧ located c a2 [JMP all] b) as (a2 & H1 & (a3 & LJ & _)).
  { destruct (negb (has_error_code n)); apply located_app; exact Hl. }
  assert (∃ s1, comes c s1 s ∧ s1.(x_eip) = a2 ∧ keeps [ESP] s s1 ∧ grown m hi s1 (e - 8 + 4 * Z.of_nat (length (option_list err))) (Z.of_nat n :: default 0 err :: rest)) as (s1 & C1 & P1 & K1 & G1).
  { destruct (has_error_code n) eqn:En; cbn [negb] in H1; destruct err as [w|]; [| |destruct Herr as [Hs _]; by specialize (Hs (ex_intro _ w eq_refl))|].
    - destruct (run_pushes c _ [Z.of_nat n] s a a2 m hi e (w :: rest) H1 Ha) as (s1 & R); [repeat constructor; cbn [value]; by rewrite u32_id|exact Hg|simpl; lia|by rewrite ?Forall_cons|].
      exists s1. replace (e - 8 + _) with (e - 4 * Z.of_nat (length [Z.of_nat n])) by (simpl; lia). exact R.
    - destruct Herr as [_ Hs]. by destruct (Hs eq_refl).
    - destruct (run_pushes c _ [0; Z.of_nat n] s a a2 m hi e rest H1 Ha) as (s1 & R); [repeat constructor; cbn [value]; by rewrite u32_id|exact Hg|simpl; lia|by rewrite ?Forall_cons|].
      exists s1. replace (e - 8 + _) with (e - 4 * Z.of_nat (length [0; Z.of_nat n])) by (simpl; lia). exact R. }
  exists (set_eip all (set_eip a3 s1)). split_and!; [eapply comes_trans; [exact C1|]; eapply step_at; [exact P1|exact LJ|reflexivity|constructor]|done|exact K1|]. eapply grown_same; [exact G1|done|done].
Qed.

Lemma u16_low16 old v : u16 (low16 old v) = u16 v.
Proof.
  unfold low16, u16. rewrite (Z.mod_eq old 65536) by done. replace (old - (old - 65536 * (old / 65536)) + v mod 65536) with (v mod 65536 + old / 65536 * 65536) by lia.
  rewrite Z.mod_add by done. apply Z.mod_mod. done.
Qed.

(** The six moves that load the kernel's data segments. *)
Lemma segments_run a b s : located c a (take 6 (drop 5 (alltraps 0))) b → s.(x_eip) = a →
  ∃ s', comes c s' s ∧ s'.(x_eip) = b ∧ s'.(x_reg) ESP = s.(x_reg) ESP ∧ s'.(x_mem) = s.(x_mem) ∧
    s'.(x_seg) DS = 16 ∧ s'.(x_seg) ES = 16 ∧ s'.(x_seg) FS = 24 ∧ s'.(x_seg) GS = 24 ∧ s'.(x_seg) CS = s.(x_seg) CS ∧ s'.(x_seg) SS = s.(x_seg) SS.
Proof.
  intros (a1 & L1 & a2 & L2 & a3 & L3 & a4 & L4 & a5 & L5 & a6 & L6 & <-) Ha. eexists. split.
  - eapply step_at; [exact Ha|exact L1|reflexivity|]. next L2. next L3. next L4. next L5. next L6. constructor.
  - split_and!; try reflexivity; cbn [x_seg x_reg set_reg set_seg set_eip upd tag sreg_tag reg_tag Nat.eqb]; by rewrite u16_low16.
Qed.

(** [alltraps] up to the call of [trap], whose argument is the address of the frame. *)
Lemma alltraps_runs trap a b s e m hi rest : (∀ x i n, c x = Some (i, n) → is_u32 n) → located c a (alltraps trap ++ trapret) b → s.(x_eip) = a →
  grown m hi s e rest → 56 ≤ e → (∀ r, is_u32 (s.(x_reg) r)) → (∀ g, 0 ≤ s.(x_seg) g < 65536) →
  ∃ s' ret, comes c s' s ∧ s'.(x_eip) = trap ∧ located c ret (ADDL_IR 4 ESP :: trapret) b ∧
    grown m hi s' (e - 56) (ret :: (e - 48) :: [s.(x_reg) EDI; s.(x_reg) ESI; s.(x_reg) EBP; e - 16; s.(x_reg) EBX; s.(x_reg) EDX; s.(x_reg) ECX; s.(x_reg) EAX;
      s.(x_seg) GS; s.(x_seg) FS; s.(x_seg) ES; s.(x_seg) DS] ++ rest) ∧
    s'.(x_seg) DS = 16 ∧ s'.(x_seg) ES = 16 ∧ s'.(x_seg) FS = 24 ∧ s'.(x_seg) GS = 24 ∧ s'.(x_seg) CS = s.(x_seg) CS ∧ s'.(x_seg) SS = s.(x_seg) SS.
Proof.
  intros Hcode Hl Ha Hg He Hr Hs. pose proof (stack_u32 _ _ _ (proj1 Hg)) as Heu. unfold is_u32 in Heu.
  assert (∀ g, is_u32 (s.(x_seg) g)) as Hs' by (intros g; specialize (Hs g); unfold is_u32; lia).
  change (located c a ([PUSHL_S DS; PUSHL_S ES; PUSHL_S FS; PUSHL_S GS] ++ PUSHAL :: take 6 (drop 5 (alltraps 0)) ++ PUSHL_R ESP :: CALL trap :: ADDL_IR 4 ESP :: trapret) b) in Hl.
  apply located_app in Hl as (a4 & H4 & a5 & L5 & Hl). apply located_app in Hl as (a11 & H11 & a12 & L12 & ret & L13 & Hl).
  destruct (run_pushes c _ [s.(x_seg) DS; s.(x_seg) ES; s.(x_seg) FS; s.(x_seg) GS] s a a4 m hi e rest H4 Ha ltac:(repeat constructor) Hg) as (s4 & C4 & P4 & K4 & G4); [simpl; lia|by rewrite !Forall_cons|].
  replace (e - _) with (e - 16) in G4 by (simpl; lia). assert (s4.(x_reg) ESP = e - 16) as E4 by apply G4.
  set (vs := [s4.(x_reg) EAX; s4.(x_reg) ECX; s4.(x_reg) EDX; s4.(x_reg) EBX; s4.(x_reg) ESP; s4.(x_reg) EBP; s4.(x_reg) ESI; s4.(x_reg) EDI]).
  assert (vs = [s.(x_reg) EAX; s.(x_reg) ECX; s.(x_reg) EDX; s.(x_reg) EBX; e - 16; s.(x_reg) EBP; s.(x_reg) ESI; s.(x_reg) EDI]) as Hvs by (unfold vs; rewrite E4, !(proj1 K4) by notin; done).
  destruct (pushes_grown vs m hi (set_eip a5 s4) (e - 16) _ (grown_same _ _ _ (set_eip a5 s4) _ _ G4 eq_refl eq_refl)) as (G5 & K5 & P5); [simpl; lia|rewrite Hvs, !Forall_cons; unfold is_u32; split_and!; (apply Hr || lia || constructor)|].
  assert (comes c (pushes vs (set_eip a5 s4)) s4) as C5 by (eapply step_at; [exact P4|exact L5|reflexivity|constructor]).
  replace (e - 16 - _) with (e - 48) in G5 by (simpl; lia). set (s5 := pushes vs (set_eip a5 s4)) in *. clearbody s5. rewrite Hvs in G5.
  destruct (segments_run a5 a11 s5 H11 P5) as (s11 & C11 & P11 & E11 & M11 & Hsegs). pose proof (grown_same _ _ _ s11 _ _ G5 E11 M11) as G11.
  pose proof (grown_push _ _ (set_eip a12 s11) _ _ (e - 48) (grown_same _ _ _ (set_eip a12 s11) _ _ G11 eq_refl eq_refl) ltac:(lia) ltac:(unfold is_u32; lia)) as G12.
  set (s12 := push (e - 48) (set_eip a12 s11)) in *. pose proof (grown_push _ _ (set_eip ret s12) _ _ ret (grown_same _ _ _ (set_eip ret s12) _ _ G12 eq_refl eq_refl) ltac:(lia) (Hcode _ _ _ L13)) as G13.
  exists (set_eip trap (push ret (set_eip ret s12))), ret. destruct K4 as (_ & K4 & _). destruct K5 as (_ & K5 & _). destruct Hsegs as (D1 & D2 & D3 & D4 & D5 & D6).
  split_and!; [|done|exact Hl| |exact D1|exact D2|exact D3|exact D4|etrans; [exact D5|]; rewrite K5; cbn [set_eip x_seg]; by rewrite K4|etrans; [exact D6|]; rewrite K5; cbn [set_eip x_seg]; by rewrite K4].
  - apply (comes_trans c s s4 _ C4), (comes_trans c s4 s5 _ C5), (comes_trans c s5 s11 _ C11). eapply step_at; [exact P11|exact L12|reflexivity|].
    change (x_reg (set_eip a12 s11) ESP) with (x_reg s11 ESP). rewrite (proj1 (proj1 G11)). next L13. constructor.
  - replace (e - 56) with (e - 48 - 4 - 4) by lia. eapply grown_same; [exact G13|reflexivity|reflexivity].
Qed.

(** ** The way back *)

(** The processor is where the frame [t] says, with the registers it holds. *)
Record resumed (s : x86 D) (t : trapframe) : Prop := {
  re_eip : s.(x_eip) = tf_eip t;
  re_flags : s.(x_flags) = tf_eflags t;
  re_regs : s.(x_reg) EDI = tf_edi t ∧ s.(x_reg) ESI = tf_esi t ∧ s.(x_reg) EBP = tf_ebp t ∧ s.(x_reg) EBX = tf_ebx t ∧
    s.(x_reg) EDX = tf_edx t ∧ s.(x_reg) ECX = tf_ecx t ∧ s.(x_reg) EAX = tf_eax t ∧ s.(x_reg) ESP = tf_esp t;
  re_segs : s.(x_seg) GS = tf_gs t ∧ s.(x_seg) FS = tf_fs t ∧ s.(x_seg) ES = tf_es t ∧ s.(x_seg) DS = tf_ds t ∧ s.(x_seg) CS = tf_cs t ∧ s.(x_seg) SS = tf_ss t
}.

Lemma popal_runs s e edi esi ebp o ebx edx ecx eax ws : stack s e ([edi; esi; ebp; o; ebx; edx; ecx; eax] ++ ws) → is_u32 (e + 32) →
  ∃ s', exec POPAL s = Some s' ∧ stack s' (e + 32) ws ∧ s'.(x_mem) = s.(x_mem) ∧ s'.(x_eip) = s.(x_eip) ∧ s'.(x_seg) = s.(x_seg) ∧
    s'.(x_reg) EDI = edi ∧ s'.(x_reg) ESI = esi ∧ s'.(x_reg) EBP = ebp ∧ s'.(x_reg) EBX = ebx ∧ s'.(x_reg) EDX = edx ∧ s'.(x_reg) ECX = ecx ∧ s'.(x_reg) EAX = eax.
Proof.
  intros Hs Hu. pose proof (stack_u32 _ _ _ Hs) as He. unfold is_u32 in *.
  destruct (pops_spec [EDI; ESI; EBP] [edi; esi; ebp] s e ([o; ebx; edx; ecx; eax] ++ ws) Hs eq_refl) as (s1 & E1 & S1 & K1 & M1 & P1 & F1); [unfold is_u32; simpl; lia|notin|by apply (bool_decide_unpack _)|].
  replace (e + _) with (e + 12) in S1 by (simpl; lia). pose proof (stack_drop _ _ _ _ S1 ltac:(unfold is_u32; lia)) as S2.
  destruct (pops_spec [EBX; EDX; ECX; EAX] [ebx; edx; ecx; eax] (drop_top 4 s1) (e + 12 + 4) ws S2 eq_refl) as (s3 & E3 & S3 & K3 & M3 & P3 & F3); [unfold is_u32; simpl; lia|notin|by apply (bool_decide_unpack _)|].
  rewrite !Forall2_cons in F1. rewrite !Forall2_cons in F3. destruct F1 as (R1 & R2 & R3 & _). destruct F3 as (R4 & R5 & R6 & R7 & _).
  exists s3. split_and!; try done.
  - by rewrite popal_eq, E1, E3.
  - replace (e + 32) with (e + 12 + 4 + 4 * Z.of_nat (length [EBX; EDX; ECX; EAX])) by (simpl; lia). exact S3.
  - by rewrite M3.
  - by rewrite P3.
  - destruct K1 as (_ & K1 & _). destruct K3 as (_ & -> & _). exact K1.
  - rewrite (proj1 K3) by notin. exact R1.
  - rewrite (proj1 K3) by notin. exact R2.
  - rewrite (proj1 K3) by notin. exact R3.
Qed.

Lemma trapret_runs a b s e : located c a trapret b → s.(x_eip) = a → s.(x_reg) ESP = e → 0 ≤ e → e + 76 < 4294967296 → cpl s = 0 →
  0 < tf_cs (frame_at s.(x_mem) e) mod 4 → ∃ s', comes c s' s ∧ resumed s' (frame_at s.(x_mem) e) ∧ s'.(x_mem) = s.(x_mem).
Proof.
  intros (a1 & L1 & Hl) Ha He Hlo Hhi Hcpl Hcs. set (m := s.(x_mem)) in *.
  assert (stack s e ([load32 m e; load32 m (e + 4); load32 m (e + 8); load32 m (e + 12); load32 m (e + 16); load32 m (e + 20); load32 m (e + 24); load32 m (e + 28)] ++
    [load32 m (e + 32); load32 m (e + 36); load32 m (e + 40); load32 m (e + 44)] ++ [load32 m (e + 48); load32 m (e + 52)] ++
    [load32 m (e + 56); load32 m (e + 60); load32 m (e + 64); load32 m (e + 68); load32 m (e + 72)])) as Hs.
  { split; [done|]. split; [unfold is_u32; lia|]. change (x_mem s) with m. clear. intros i w Hi. do 19 (destruct i as [|i]; [injection Hi as <-; f_equal; lia|]). done. }
  destruct (popal_runs (set_eip a1 s) e _ _ _ _ _ _ _ _ _ Hs ltac:(unfold is_u32; lia)) as (s1 & E1 & S1 & M1 & P1 & G1 & R1 & R2 & R3 & R4 & R5 & R6 & R7).
  change (located c a1 ((POPL_S <$> [GS; FS; ES; DS]) ++ [ADDL_IR 8 ESP; IRET]) b) in Hl. apply located_app in Hl as (a5 & H5 & a6 & L6 & a7 & L7 & _).
  destruct (run_seg_pops c [GS; FS; ES; DS] _ s1 a1 a5 (e + 32) _ H5 P1 S1 eq_refl) as (s5 & C5 & P5 & S5 & (K5 & Q5 & _ & _ & M5) & F5); [unfold is_u32; simpl; lia|by apply (bool_decide_unpack _)|].
  rewrite !Forall2_cons in F5. destruct F5 as (F1 & F2 & F3 & F4 & _).
  set (s6 := set_flags (add_flags (s5.(x_reg) ESP) (u32 8) s5.(x_flags)) (set_reg ESP (u32 (s5.(x_reg) ESP + 8)) (set_eip a6 s5))).
  assert (stack s6 (e + 56) [load32 m (e + 56); load32 m (e + 60); load32 m (e + 64); load32 m (e + 68); load32 m (e + 72)]) as S6.
  { destruct S5 as (S51 & _ & S52). replace (e + 32 + _) with (e + 48) in S51, S52 by (simpl; lia). split; [|split; [unfold is_u32; lia|]].
    - unfold s6. cbn [x_reg set_flags set_reg]. unfold upd. rewrite Nat.eqb_refl, S51, u32_id by (unfold is_u32; lia). lia.
    - change (x_mem s6) with (x_mem s5). cbn [app] in S52. rewrite words_split in S52. destruct S52 as [_ S52]. rewrite words_split in S52. destruct S52 as [_ S52]. replace (e + 48 + 4 + 4) with (e + 56) in S52 by lia. exact S52. }
  assert (cpl s6 = 0) as Hc6. { unfold cpl. change (x_seg s6) with (x_seg s5). rewrite K5 by (by apply (bool_decide_unpack _)). rewrite G1. exact Hcpl. }
  destruct (iret_user (set_eip a7 s6) _ _ _ _ _ _ S6 ltac:(unfold is_u32; lia) Hc6 Hcs) as (s7 & E7 & I1 & I2 & I3 & I4 & I5 & I6 & I7 & I8).
  exists s7. split; [|split; [split|]].
  - eapply step_at; [exact Ha|exact L1|exact E1|]. eapply comes_trans; [exact C5|]. eapply step_at; [exact P5|exact L6|reflexivity|]. eapply step_at; [|exact L7|exact E7|constructor]. done.
  - done.
  - done.
  - split_and!; try exact I3; rewrite I4 by done; change (x_reg (set_eip a7 s6)) with (upd ESP (u32 (s5.(x_reg) ESP + 8)) s5.(x_reg)); cbn [upd tag reg_tag Nat.eqb]; by rewrite Q5.
  - split_and!; try done; rewrite I7 by done; done.
  - rewrite I8. change (x_mem (set_eip a7 s6)) with (x_mem s5). by rewrite M5, M1.
Qed.

(** ** A trap from user mode and back *)

(** The frame of a trap with the number [n] from the state [s]. *)
Definition user_frame (s : x86 D) (n : nat) (err : option Z) : trapframe :=
  Mktrapframe (s.(x_reg) EDI) (s.(x_reg) ESI) (s.(x_reg) EBP) (s.(x_reg) EBX) (s.(x_reg) EDX) (s.(x_reg) ECX) (s.(x_reg) EAX)
    (s.(x_seg) GS) (s.(x_seg) FS) (s.(x_seg) ES) (s.(x_seg) DS) (Z.of_nat n) (default 0 err)
    s.(x_eip) (s.(x_seg) CS) s.(x_flags) (s.(x_reg) ESP) (s.(x_seg) SS).

Lemma frame_words m a t o : 0 ≤ tf_gs t < 65536 → 0 ≤ tf_fs t < 65536 → 0 ≤ tf_es t < 65536 → 0 ≤ tf_ds t < 65536 → 0 ≤ tf_cs t < 65536 → 0 ≤ tf_ss t < 65536 →
  words m a [tf_edi t; tf_esi t; tf_ebp t; o; tf_ebx t; tf_edx t; tf_ecx t; tf_eax t; tf_gs t; tf_fs t; tf_es t; tf_ds t; tf_trapno t; tf_err t;
    tf_eip t; tf_cs t; tf_eflags t; tf_esp t; tf_ss t] → frame_at m a = t.
Proof.
  intros H1 H2 H3 H4 H5 H6 Hw. assert (∀ x, 0 ≤ x < 65536 → u16 x = x) as Hu by (intros; by apply Z.mod_small).
  pose proof (Hw 0%nat _ eq_refl) as E0. rewrite Z.add_0_r in E0.
  assert (load32 m (a + 4) = tf_esi t) as E1 by exact (Hw 1%nat _ eq_refl). assert (load32 m (a + 8) = tf_ebp t) as E2 by exact (Hw 2%nat _ eq_refl). assert (load32 m (a + 16) = tf_ebx t) as E4 by exact (Hw 4%nat _ eq_refl). assert (load32 m (a + 20) = tf_edx t) as E5 by exact (Hw 5%nat _ eq_refl). assert (load32 m (a + 24) = tf_ecx t) as E6 by exact (Hw 6%nat _ eq_refl).
  assert (load32 m (a + 28) = tf_eax t) as E7 by exact (Hw 7%nat _ eq_refl). assert (load32 m (a + 32) = tf_gs t) as E8 by exact (Hw 8%nat _ eq_refl). assert (load32 m (a + 36) = tf_fs t) as E9 by exact (Hw 9%nat _ eq_refl).
  assert (load32 m (a + 40) = tf_es t) as E10 by exact (Hw 10%nat _ eq_refl). assert (load32 m (a + 44) = tf_ds t) as E11 by exact (Hw 11%nat _ eq_refl). assert (load32 m (a + 48) = tf_trapno t) as E12 by exact (Hw 12%nat _ eq_refl).
  assert (load32 m (a + 52) = tf_err t) as E13 by exact (Hw 13%nat _ eq_refl). assert (load32 m (a + 56) = tf_eip t) as E14 by exact (Hw 14%nat _ eq_refl). assert (load32 m (a + 60) = tf_cs t) as E15 by exact (Hw 15%nat _ eq_refl).
  assert (load32 m (a + 64) = tf_eflags t) as E16 by exact (Hw 16%nat _ eq_refl). assert (load32 m (a + 68) = tf_esp t) as E17 by exact (Hw 17%nat _ eq_refl). assert (load32 m (a + 72) = tf_ss t) as E18 by exact (Hw 18%nat _ eq_refl).
  unfold frame_at, load16. rewrite E0, E1, E2, E4, E5, E6, E7, E8, E9, E10, E11, E12, E13, E14, E15, E16, E17, E18, !Hu by done. by destruct t.
Qed.

(** The code is in memory: the vector [n] at [vec], trapasm.S at [all]. *)
Record linked (n : nat) (vec all trap : Z) : Prop := {
  ln_u32 : ∀ x i next, c x = Some (i, next) → is_u32 next;
  ln_vector : ∃ b, located c vec (vector all n) b;
  ln_alltraps : ∃ b, located c all (alltraps trap ++ trapret) b
}.

(** [trap] has been called with the frame at [tf], on the kernel's stack and with the kernel's segments. *)
Record trapping (s : x86 D) (trap ret tf : Z) : Prop := {
  tr_eip : s.(x_eip) = trap;
  tr_stack : stack s (tf - 8) [ret; tf];
  tr_segs : s.(x_seg) DS = 16 ∧ s.(x_seg) ES = 16 ∧ s.(x_seg) FS = 24 ∧ s.(x_seg) GS = 24 ∧ s.(x_seg) CS = 8
}.

Lemma trap_enters n vec all trap g err s ss0 esp0 : linked n vec all trap → (n < 256)%nat → gate_handler g = vec → g.(gd_cs) = 8 →
  (is_Some err ↔ pushes_code n) → (∀ e, err = Some e → is_u32 e) → wf s → 0 < cpl s → s.(x_tss) = (ss0, esp0) → 84 ≤ esp0 → is_u32 esp0 → 0 ≤ ss0 < 65536 →
  ∃ s1 ret b, comes c s1 (deliver g err s) ∧ trapping s1 trap ret (esp0 - 76) ∧ frame_at s1.(x_mem) (esp0 - 76) = user_frame s n err ∧
    (∀ y, y < esp0 - 84 ∨ esp0 ≤ y → s1.(x_mem) y = s.(x_mem) y) ∧ located c ret (ADDL_IR 4 ESP :: trapret) b.
Proof.
  intros [Hu32 [bv Hv] [ba Hall]] Hn Hg1 Hg2 Herr Herru Hwf Hcpl Ht Hlo Hu Hss. pose proof Hwf as [Hr Hsg He Hf].
  destruct (deliver_user g err s ss0 esp0 Hwf Hcpl Ht ltac:(lia) Hu Herru) as (d & -> & Pd & Rd & Sd & Gd).
  destruct (vector_runs all n vec bv s.(x_mem) esp0 d _ err _ Hv ltac:(congruence) Hn (iff_trans Herr (iff_sym (has_error_code_iff n))) Gd) as (sv & Cv & Pv & (Kv & Kvs & _) & Gv); [destruct err; simpl; lia|].
  assert (esp0 - 4 * Z.of_nat (5 + length (option_list err)) - 8 + 4 * Z.of_nat (length (option_list err)) = esp0 - 28) as Hesp by (destruct err; simpl; lia). rewrite Hesp in Gv.
  assert (∀ r, r ≠ ESP → sv.(x_reg) r = s.(x_reg) r) as Rv. { intros r Hne. rewrite Kv, Rd; [done|done|]. intros Hin. by apply list_elem_of_singleton in Hin. }
  unfold is_u32 in Hu. destruct (alltraps_runs trap all ba sv _ s.(x_mem) esp0 _ Hu32 Hall Pv Gv) as (s1 & ret & C1 & P1 & L1 & G1 & D1 & D2 & D3 & D4 & D5 & _).
  - lia.
  - intros r. destruct (decide (r = ESP)) as [->|Hne]; [|rewrite Rv by done; apply Hr]. rewrite (proj1 (proj1 Gv)). unfold is_u32. lia.
  - intros r. rewrite Kvs, Sd. destruct r; cbn [upd tag sreg_tag Nat.eqb]; rewrite ?Hg2; try apply Hsg; lia.
  - replace (esp0 - 28 - 56) with (esp0 - 84) in G1 by lia. replace (esp0 - 28 - 48) with (esp0 - 76) in G1 by lia. destruct G1 as ((E1 & U1 & W1) & _ & M1). exists s1, ret, ba.
    split_and!; [by eapply comes_trans| | |exact M1|exact L1].
    + split; [done| |split_and!; [done..|]; rewrite D5, Kvs, Sd; exact Hg2]. replace (esp0 - 76 - 8) with (esp0 - 84) by lia. split; [done|]. split; [done|].
      intros i w Hi. apply W1. by destruct i as [|[|i]].
    + cbn [app] in W1. rewrite words_split in W1. destruct W1 as [_ W1]. rewrite words_split in W1. destruct W1 as [_ W1]. replace (esp0 - 84 + 4 + 4) with (esp0 - 76) in W1 by lia.
      rewrite !Kvs, !Sd, !Rv in W1 by done. cbn [upd tag sreg_tag Nat.eqb] in W1. by apply (frame_words _ _ (user_frame s n err) (esp0 - 28 - 16)); try apply Hsg.
Qed.

Lemma trap_leaves ret b s tf : located c ret (ADDL_IR 4 ESP :: trapret) b → s.(x_eip) = ret → s.(x_reg) ESP = tf - 4 → 4 ≤ tf → tf + 76 < 4294967296 → cpl s = 0 →
  0 < tf_cs (frame_at s.(x_mem) tf) mod 4 → ∃ s', comes c s' s ∧ resumed s' (frame_at s.(x_mem) tf) ∧ s'.(x_mem) = s.(x_mem).
Proof.
  intros (a1 & L1 & Hl) Ha He Hlo Hhi Hcpl Hcs.
  destruct (trapret_runs a1 b (set_flags (add_flags (s.(x_reg) ESP) (u32 4) s.(x_flags)) (set_reg ESP (u32 (s.(x_reg) ESP + 4)) (set_eip a1 s))) tf Hl eq_refl) as (s' & C & R & M); [|lia|lia|done|done|].
  - cbn [x_reg set_flags set_reg]. unfold upd. rewrite Nat.eqb_refl, He, u32_id by (unfold is_u32; lia). lia.
  - exists s'. split_and!; [|done|done]. eapply step_at; [exact Ha|exact L1|reflexivity|exact C].
Qed.

(** C8: every interrupt from user mode, with an error code where the processor pushes one, comes to a call of [trap] with a frame that holds all
    registers of the user program and the number of the interrupt, and nothing but the kernel stack has changed.  When
    [trap] returns, the program goes on with the registers that the frame then holds. *)
Theorem trap_round_trip n vec all trap g err s ss0 esp0 : linked n vec all trap → (n < 256)%nat → gate_handler g = vec → g.(gd_cs) = 8 →
  (is_Some err ↔ pushes_code n) → (∀ e, err = Some e → is_u32 e) → wf s → 0 < cpl s → s.(x_tss) = (ss0, esp0) → 84 ≤ esp0 → is_u32 esp0 → 0 ≤ ss0 < 65536 →
  ∃ s1 ret, comes c s1 (deliver g err s) ∧ trapping s1 trap ret (esp0 - 76) ∧ frame_at s1.(x_mem) (esp0 - 76) = user_frame s n err ∧
    (∀ y, y < esp0 - 84 ∨ esp0 ≤ y → s1.(x_mem) y = s.(x_mem) y) ∧
    ∀ s2, s2.(x_eip) = ret → s2.(x_reg) ESP = esp0 - 80 → cpl s2 = 0 → 0 < tf_cs (frame_at s2.(x_mem) (esp0 - 76)) mod 4 →
      ∃ s3, comes c s3 s2 ∧ resumed s3 (frame_at s2.(x_mem) (esp0 - 76)) ∧ s3.(x_mem) = s2.(x_mem).
Proof.
  intros Hl Hn Hg1 Hg2 Herr Herru Hwf Hcpl Ht Hlo Hu Hss. destruct (trap_enters n vec all trap g err s ss0 esp0) as (s1 & ret & b & C1 & T1 & F1 & M1 & L1); [done..|].
  exists s1, ret. split_and!; [done..|]. intros s2 P2 E2 Hc Hcs. unfold is_u32 in Hu. by apply (trap_leaves ret b); [| |lia|lia|lia| |].
Qed.

(** The stub of a system call up to its [int]. *)
Lemma stub_calls num a b s g : (∀ x i next, c x = Some (i, next) → is_u32 next) → located c a (SYSCALL num) b → s.(x_eip) = a → is_u32 num → s.(x_idt) !! 64%nat = Some g → g.(gd_p) = 1 → cpl s ≤ g.(gd_dpl) →
  ∃ s' a' next, comes c (deliver g None s') s ∧ s'.(x_eip) = a' ∧ is_u32 a' ∧ c a' = Some (RET, next) ∧ keeps [EAX] s s' ∧ s'.(x_reg) EAX = num ∧ s'.(x_mem) = s.(x_mem).
Proof.
  intros Hcode (a1 & L1 & a2 & L2 & a3 & L3 & _) Ha Hn Hg Hp Hd. exists (set_eip a2 (set_reg EAX num (set_eip a1 s))), a2, a3. split_and!; try done; [|by eapply Hcode|apply (keeps_reg EAX num (set_eip a1 s))].
  eapply step_at; [exact Ha|exact L1|reflexivity|]. rewrite u32_id by done. eapply step_at; [reflexivity|exact L2| |constructor].
  cbn [exec]. change (Z.to_nat T_SYSCALL) with 64%nat. change (x_idt (set_eip a2 (set_reg EAX num (set_eip a1 s)))) with (x_idt s). rewrite Hg. cbn [mbind option_bind].
  change (cpl (set_eip a2 (set_reg EAX num (set_eip a1 s)))) with (cpl s). by rewrite Hp, (proj2 (Z.leb_le _ _)).
Qed.

(** C9: a system call as the program sees it.  The stub of usys.S brings its number in %eax to [trap]; when [trap] returns and has
    changed no more than %eax in the frame, the stub returns to its caller with that value and all other registers, segments
    and flags as they were. *)
Theorem system_call_returns num vec all trap g s a b e ret ss0 esp0 : linked 64 vec all trap → located c a (SYSCALL num) b → s.(x_eip) = a → is_u32 num →
  s.(x_idt) !! 64%nat = Some g → g.(gd_p) = 1 → cpl s ≤ g.(gd_dpl) → gate_handler g = vec → g.(gd_cs) = 8 → wf s → 0 < cpl s → s.(x_tss) = (ss0, esp0) →
  84 ≤ esp0 → is_u32 esp0 → 0 ≤ ss0 < 65536 → stack s e [ret] → is_u32 (e + 4) →
  ∃ s1 ra t, comes c s1 s ∧ trapping s1 trap ra (esp0 - 76) ∧ frame_at s1.(x_mem) (esp0 - 76) = t ∧ tf_eax t = num ∧ tf_trapno t = 64 ∧ tf_esp t = e ∧
    ∀ s2 r, s2.(x_eip) = ra → s2.(x_reg) ESP = esp0 - 80 → cpl s2 = 0 → frame_at s2.(x_mem) (esp0 - 76) = set_tf_eax r t → load32 s2.(x_mem) e = ret →
      ∃ s3, comes c s3 s2 ∧ s3.(x_eip) = ret ∧ s3.(x_reg) ESP = e + 4 ∧ s3.(x_reg) EAX = r ∧ (∀ r', r' ∉ [EAX; ESP] → s3.(x_reg) r' = s.(x_reg) r') ∧
        (∀ g', s3.(x_seg) g' = s.(x_seg) g') ∧ s3.(x_flags) = s.(x_flags) ∧ s3.(x_mem) = s2.(x_mem).
Proof.
  intros Hl Hst Ha Hnum Hg Hp Hd Hg1 Hg2 Hwf Hcpl Ht Hlo Hu Hss (He & Heu & _) He4.
  destruct (stub_calls num a b s g (ln_u32 _ _ _ _ Hl) Hst Ha Hnum Hg Hp Hd) as (s' & a' & next & C0 & P0 & U0 & LR & (K1 & K2 & _ & K4 & _ & _ & K7 & _) & R0 & M0).
  assert (∀ r, r ≠ EAX → s'.(x_reg) r = s.(x_reg) r) as K1' by (intros r Hr; apply K1; intros Hin; by apply list_elem_of_singleton in Hin). destruct Hwf as [W1 W2 W3 W4].
  destruct (trap_enters 64 vec all trap g None s' ss0 esp0) as (s1 & ra & b' & C1 & T1 & F1 & M1 & L1); [done|lia|done|done|exact no_code_syscall|done| |by unfold cpl; rewrite K2|by rewrite K7|done..|].
  { split; [|by rewrite K2|by rewrite P0|by rewrite K4]. intros r. destruct (decide (r = EAX)) as [->|Hr]; [by rewrite R0|by rewrite K1']. }
  exists s1, ra, (user_frame s' 64 None). split_and!; [by eapply comes_trans|done|done|done|done|by simpl; rewrite K1'|].
  intros s2 r P2 E2 Hc HF Hret. unfold is_u32 in Hu.
  destruct (trap_leaves ra b' s2 (esp0 - 76) L1 P2 ltac:(lia) ltac:(lia) ltac:(lia) Hc) as (s3 & C3 & [Q1 Q2 (X1 & X2 & X3 & X4 & X5 & X6 & X7 & X8) (Y1 & Y2 & Y3 & Y4 & Y5 & Y6)] & M3).
  { rewrite HF. simpl. unfold cpl in Hcpl. by rewrite K2. }
  rewrite HF in *. cbn in Q1, Q2, X1, X2, X3, X4, X5, X6, X7, X8, Y1, Y2, Y3, Y4, Y5, Y6. rewrite K1' in X1, X2, X3, X4, X5, X6, X8 by done. rewrite K2 in Y1, Y2, Y3, Y4, Y5, Y6.
  exists (set_eip ret (drop_top 4 (set_eip next s3))). split_and!; try done.
  - eapply comes_trans; [exact C3|]. rewrite P0 in Q1. eapply step_at; [exact Q1|exact LR| |constructor]. cbn [exec]. unfold pop_to, top.
    change (x_mem (set_eip next s3)) with (x_mem s3). change (x_reg (set_eip next s3) ESP) with (x_reg s3 ESP). by rewrite M3, X8, He, Hret.
  - cbn. unfold upd. simpl. rewrite X8, He. by apply u32_id.
  - intros r' Hr'. rewrite !not_elem_of_cons in Hr'. destruct Hr' as (N1 & N2 & _). by destruct r'.
  - by intros [].
  - cbn. by rewrite Q2, K4.
Qed.

(** ** The first steps of a process *)

(** [allocproc] leaves a context with [forkret] below the address of [trapret] below the frame: when the scheduler's [swtch] has gone
    to [forkret] and it returns, the process goes on as its frame says. *)
Lemma first_return a b s sp n : located c a trapret b → c s.(x_eip) = Some (RET, n) → s.(x_reg) ESP = sp + 20 → load32 s.(x_mem) (sp + 20) = a →
  0 ≤ sp → sp + 100 < 4294967296 → cpl s = 0 → 0 < tf_cs (frame_at s.(x_mem) (sp + 24)) mod 4 →
  ∃ s', comes c s' s ∧ resumed s' (frame_at s.(x_mem) (sp + 24)) ∧ s'.(x_mem) = s.(x_mem).
Proof.
  intros Hl Hc He Ha Hlo Hhi Hcpl Hcs. destruct (trapret_runs a b (set_eip a (drop_top 4 (set_eip n s))) (sp + 24) Hl eq_refl) as (s' & C & R & M); [|lia|lia|done|done|].
  - cbn. unfold upd. simpl. rewrite He, u32_id by (unfold is_u32; lia). lia.
  - exists s'. split_and!; [|done|done]. eapply step_at; [reflexivity|exact Hc| |exact C]. cbn [exec]. unfold pop_to, top.
    change (x_mem (set_eip n s)) with (x_mem s). change (x_reg (set_eip n s) ESP) with (x_reg s ESP). by rewrite He, Ha.
Qed.

(** The first process asks for exec with the arguments [init] and [argv]: above the place of a return address they are where [argint]
    and [argptr] look for them. *)
Lemma initcode_execs init argv a b s e g : located c a (initcode_start init argv) b → s.(x_eip) = a → stack s e [] → 12 ≤ e → is_u32 init → is_u32 argv →
  s.(x_idt) !! 64%nat = Some g → g.(gd_p) = 1 → cpl s ≤ g.(gd_dpl) →
  ∃ s', comes c (deliver g None s') s ∧ s'.(x_reg) EAX = 7 ∧ stack s' (e - 12) [0; init; argv] ∧ s'.(x_seg) = s.(x_seg).
Proof.
  intros Hl Ha Hs He Hi Hv Hg Hp Hd. change (located c a ([PUSHL_I argv; PUSHL_I init; PUSHL_I 0] ++ [MOVL_IR 7 EAX; INT T_SYSCALL]) b) in Hl.
  apply located_app in Hl as (a3 & H3 & a4 & L4 & a5 & L5 & _).
  destruct (run_pushes c _ [argv; init; 0] s a a3 s.(x_mem) e e [] H3 Ha) as (s3 & C3 & P3 & (_ & K1 & _ & _ & _ & K2 & _) & (S3 & _));
    [repeat constructor; cbn [value]; by rewrite u32_id|by apply grown_start|simpl; lia|by rewrite !Forall_cons|].
  replace (e - _) with (e - 12) in S3 by (simpl; lia). set (s5 := set_eip a5 (set_reg EAX 7 (set_eip a4 s3))). exists s5.
  split_and!; [|done|exact S3|exact K1]. eapply comes_trans; [exact C3|]. eapply step_at; [exact P3|exact L4|reflexivity|]. eapply step_at; [reflexivity|exact L5| |constructor].
  cbn [exec]. change (Z.to_nat T_SYSCALL) with 64%nat. change (x_idt (set_eip a5 (set_reg EAX (u32 7) (set_eip a4 s3)))) with (x_idt s3). rewrite K2, Hg. cbn [mbind option_bind].
  change (cpl (set_eip a5 (set_reg EAX (u32 7) (set_eip a4 s3)))) with (s3.(x_seg) CS mod 4). rewrite K1. change (x_seg s CS mod 4) with (cpl s). by rewrite Hp, (proj2 (Z.leb_le _ _)).
Qed.
End code.

(** ** The stubs of usys.S *)

Definition usys : list (string * Z) :=
  [("fork", 1); ("exit", 2); ("wait", 3); ("pipe", 4); ("read", 5); ("write", 16); ("close", 21); ("kill", 6); ("exec", 7); ("open", 15);
   ("mknod", 17); ("unlink", 18); ("fstat", 8); ("link", 19); ("mkdir", 20); ("chdir", 9); ("dup", 10); ("getpid", 11); ("sbrk", 12);
   ("sleep", 13); ("uptime", 14); ("nice", 22); ("lock", 23); ("release", 24); ("strace", 25); ("dump", 26); ("eflag", 27); ("sflag", 28); ("fflag", 29)]%string.

(** There is a stub for every system call the kernel has a handler for, and for no other number. *)
Lemma usys_complete num : num ∈ usys.*2 ↔ is_Some (syscalls num).
Proof.
  split.
  - intros Hin. repeat (apply elem_of_cons in Hin as [->|Hin]; [by eexists|]). by apply elem_of_nil in Hin.
  - intros [h Hh]. assert (1 ≤ num ≤ 29) as Hr by (unfold syscalls in Hh; repeat case_match; (lia || discriminate Hh)).
    apply (bool_decide_unpack _). assert (∃ k, (k < 29)%nat ∧ num = Z.of_nat k + 1) as (k & Hk & ->) by (exists (Z.to_nat (num - 1)); lia).
    do 29 (destruct k as [|k]; [reflexivity|]). lia.
Qed.

(** ** A small machine *)

#[local] Instance no_devices : Hardware unit :=
  {| port_in := λ _ d, (0, d); port_out := λ _ _ d, d; mmio_in := λ _ d, (0, d); mmio_out := λ _ _ d, d |}.

(** The vector of system calls at 4096, trapasm.S at 4099, a stub at 4120, [swtch] at 4123; [trap] is at 9000. *)
Definition some_code : code := λ x,
  if x <? 4096 then None else
  i ← (vector 4099 64 ++ alltraps 9000 ++ trapret ++ SYSCALL 11 ++ swtch) !! Z.to_nat (x - 4096); Some (i, x + 1).

Definition some_gate : gatedesc := SETGATE true 8 4096 3.

(** A user program that has just called the stub, with 500 as the return address. *)
Definition some_user : x86 unit :=
  Mkx86 (upd ESP 8188 (λ r, Z.of_nat (tag r))) (upd CS 27 (λ _, 35)) (λ _, 0) 4120 514 (0, 0) (replicate 65 some_gate) (16, 16384) (store32 8188 500 (λ _, 0)) tt.

Lemma some_linked : linked some_code 64 4096 4099 9000.
Proof.
  split.
  - intros x i next. unfold some_code. destruct (x <? 4096) eqn:E; [done|]. apply Z.ltb_ge in E. destruct (_ !! _) as [j|] eqn:Hj; [|done]. intros [= _ <-].
    apply lookup_lt_Some in Hj. simpl in Hj. unfold is_u32. lia.
  - eexists. repeat (eexists; split; [reflexivity|]). reflexivity.
  - eexists. repeat (eexists; split; [reflexivity|]). reflexivity.
Qed.

Lemma some_wf : wf some_user.
Proof. split; [intros []; done|intros []; done|done|done]. Qed.

Lemma trap_round_trip_witness : ∃ s1 ret, comes some_code s1 (deliver some_gate None some_user) ∧ trapping s1 9000 ret 16308 ∧ frame_at s1.(x_mem) 16308 = user_frame some_user 64 None.
Proof.
  destruct (trap_round_trip some_code 64 4096 4099 9000 some_gate None some_user 16 16384 some_linked) as (s1 & ret & H1 & H2 & H3 & _); [lia|done|done|exact no_code_syscall|done|apply some_wf|done|done|done|done|done|].
  by exists s1, ret.
Defined.

Lemma system_call_returns_witness : ∃ s1 ra t, comes some_code s1 some_user ∧ trapping s1 9000 ra 16308 ∧ frame_at s1.(x_mem) 16308 = t ∧ tf_eax t = 11 ∧ tf_esp t = 8188.
Proof.
  destruct (system_call_returns some_code 11 4096 4099 9000 some_gate some_user 4120 4123 8188 500 16 16384 some_linked) as (s1 & ra & t & H1 & H2 & H3 & H4 & _ & H5 & _); try done.
  - repeat (eexists; split; [reflexivity|]). reflexivity.
  - apply some_wf.
  - split; [done|]. split; [done|]. intros [|i] w Hi; [|done]. injection Hi as <-. reflexivity.
  - by exists s1, ra, t.
Defined.

(** A call of [swtch] on the stack at 8192, from a thread whose context pointer is kept at 700, to a context at 6000. *)
Definition some_thread : x86 unit :=
  Mkx86 (upd ESP 8192 (λ r, Z.of_nat (tag r))) (λ _, 16) (λ _, 0) 4123 2 (0, 0) [] (16, 16384)
    (store32 8192 500 (store32 8196 700 (store32 8200 6000 (store32 6016 600 (λ _, 0))))) tt.

Lemma swtch_returns_witness : ∃ s1, comes some_code s1 some_thread ∧ s1.(x_eip) = 600 ∧ s1.(x_reg) ESP = 6020 ∧ load32 s1.(x_mem) 700 = 8176.
Proof.
  destruct (swtch_returns some_code 4123 4136 some_thread 8192 500 700 6000) as (s1 & H1 & [H2 H3 _ _ H4 _ _] & _).
  - repeat (eexists; split; [reflexivity|]). reflexivity.
  - done.
  - split; try done; [|by intros []|lia|lia]. split; [done|]. split; [done|]. intros [|[|[|i]]] w Hi; [injection Hi as <-; reflexivity..|done].
  - exists s1. by split_and!.
Defined.
