(* ===== verification/AsmBoot.v ===== *)
(** * The first instructions (bootasm.S, entry.S, entryother.S, asm.h, sign.pl)

    How a processor comes from the BIOS, or from the interrupt that starts it, to
    the C functions [bootmain], [main] and [mpenter].  Until paging is on, memory is
    physical memory; the page directory that entry.S and entryother.S then use maps
    low addresses to themselves ([entrypgdir_maps] of Main.v), so that the code goes
    on in the same memory. *)

From S2P Require Import Prelude KState Print Mem Hardware Desc X86 Asm.

(** ** asm.h *)

Definition SEG_NULLASM : list Z := [0; 0; 0; 0; 0; 0; 0; 0].
Definition SEG_ASM (type base lim : Z) : list Z :=
  le_bytes 2 (Z.land (Z.shiftr lim 12) 65535) ++ le_bytes 2 (Z.land base 65535) ++
  [Z.land (Z.shiftr base 16) 255; Z.lor 144 type; Z.lor 192 (Z.land (Z.shiftr lim 28) 15); Z.land (Z.shiftr base 24) 255].

(** The descriptor in eight bytes, as the processor reads them. *)
Definition segdesc_of (bs : list Z) : segdesc :=
  let b := nth_default 0 bs in
  Mksegdesc (b 0%nat + 256 * b 1%nat) (b 2%nat + 256 * b 3%nat) (b 4%nat) (b 5%nat mod 16) (b 5%nat / 16 mod 2) (b 5%nat / 32 mod 4) (b 5%nat / 128)
    (b 6%nat mod 16) (b 6%nat / 16 mod 2) (b 6%nat / 32 mod 2) (b 6%nat / 64 mod 2) (b 6%nat / 128) (b 7%nat).

(** The table of bootasm.S and entryother.S. *)
Definition boot_gdt : list Z := SEG_NULLASM ++ SEG_ASM (Z.lor STA_X STA_R) 0 4294967295 ++ SEG_ASM STA_W 0 4294967295.

(** Its segments are the kernel's code and data segments of [seginit]. *)
Lemma boot_gdt_segments :
  segdesc_of (slice 8 8 boot_gdt) = SEG (Z.lor STA_X STA_R) 0 4294967295 0 ∧ segdesc_of (slice 16 8 boot_gdt) = SEG STA_W 0 4294967295 0.
Proof. by split. Qed.

(** ** sign.pl *)

(** What becomes of the boot block in the file; [None] when it is too large. *)
Definition sign (file : list Z) : option (list Z) :=
  let buf := take 1000 file in
  if (510 <? length buf)%nat then None else Some (buf ++ replicate (510 - length buf) 0 ++ [85; 170]).

(** A signed block is one sector with the mark the BIOS looks for, and begins with the code; a block of more than 510 bytes is
    refused and never cut. *)
Lemma sign_sector file : match sign file with
  | Some buf => length buf = 512%nat ∧ take (length file) buf = file ∧ slice 510 2 buf = [85; 170]
  | None => (510 < length file)%nat
  end.
Proof.
  unfold sign. rewrite length_take. destruct (Nat.ltb_spec 510 (1000 `min` length file)) as [Hl|Hl]; [lia|]. rewrite (take_ge file) by lia. replace (1000 `min` length file)%nat with (length file) by lia.
  split_and!; [rewrite !length_app, length_replicate; simpl; lia|apply take_app_length|].
  unfold slice. rewrite app_assoc, drop_app_ge, length_app, length_replicate by (rewrite length_app, length_replicate; lia). replace (510 - _)%nat with O by lia. done.
Qed.

(** ** The code *)

Definition CR0_PE : Z := 1.
Definition CR0_WP : Z := 65536.
Definition CR0_PG : Z := 2147483648.
Definition CR4_PSE : Z := 16.


Definition zero_segments : list instr := [CLI; XORW_RR EAX EAX; MOVW_RS EAX DS; MOVW_RS EAX ES; MOVW_RS EAX SS].
Definition protect (gdtdesc start32 : Z) : list instr :=
  [LGDT gdtdesc; MOVL_CR CR0 EAX; ORL_IR CR0_PE EAX; MOVL_RC EAX CR0; LJMP (Z.shiftl SEG_KCODE 3) start32].
Definition data_segments : list instr :=
  [MOVW_IR (Z.shiftl SEG_KDATA 3) EAX; MOVW_RS EAX DS; MOVW_RS EAX ES; MOVW_RS EAX SS; MOVW_IR 0 EAX; MOVW_RS EAX FS; MOVW_RS EAX GS].
Definition breakpoint (spin : Z) : list instr := [MOVW_IR 35328 EAX; MOVW_RR EAX EDX; OUTW; MOVW_IR 35552 EAX; OUTW; JMP spin].


Definition entry (entrypgdir stack main : Z) : list instr :=
  [MOVL_CR CR4 EAX; ORL_IR CR4_PSE EAX; MOVL_RC EAX CR4;
   MOVL_IR (entrypgdir - KERNBASE) EAX; MOVL_RC EAX CR3;
   MOVL_CR CR0 EAX; ORL_IR (Z.lor CR0_PG CR0_WP) EAX; MOVL_RC EAX CR0;
   MOVL_IR (stack + KSTACKSIZE) ESP;
   MOVL_IR main EAX; JMP_R EAX].

Definition entryother16 (gdtdesc start32 : Z) : list instr := zero_segments ++ protect gdtdesc start32.
Definition entryother32 (start spin : Z) : list instr :=
  data_segments ++
  [MOVL_CR CR4 EAX; ORL_IR CR4_PSE EAX; MOVL_RC EAX CR4;
   MOVL_AR (start - 12) EAX; MOVL_RC EAX CR3;
   MOVL_CR CR0 EAX; ORL_IR (Z.lor CR0_PE (Z.lor CR0_PG CR0_WP)) EAX; MOVL_RC EAX CR0;
   MOVL_AR (start - 4) ESP; CALL_A (start - 8)] ++ breakpoint spin.

Section boot.
Context {D : Type} `{Hardware D} (c : code).

(** [entry.S] turns paging on and goes to [main] on the kernel's stack. *)
Lemma entry_runs entrypgdir stk main a b s : located c a (entry entrypgdir stk main) b → s.(x_eip) = a → KERNBASE ≤ entrypgdir < 4294967296 → is_u32 (stk + KSTACKSIZE) → is_u32 main →
  ∃ s', comes c s' s ∧ s'.(x_eip) = main ∧ s'.(x_reg) ESP = stk + KSTACKSIZE ∧ s'.(x_cr) CR3 = V2P entrypgdir ∧
    s'.(x_cr) CR4 = Z.lor (s.(x_cr) CR4) CR4_PSE ∧ s'.(x_cr) CR0 = Z.lor (s.(x_cr) CR0) (Z.lor CR0_PG CR0_WP) ∧ s'.(x_mem) = s.(x_mem) ∧ s'.(x_seg) = s.(x_seg).
Proof.
  intros (a1 & L1 & a2 & L2 & a3 & L3 & a4 & L4 & a5 & L5 & a6 & L6 & a7 & L7 & a8 & L8 & a9 & L9 & a10 & L10 & a11 & L11 & _) Ha Hp Hs Hm. eexists. split.
  - eapply step_at; [exact Ha|exact L1|reflexivity|]. next L2. next L3. next L4. next L5. next L6. next L7. next L8. next L9. next L10. next L11. constructor.
  - split_and!; try reflexivity; [by apply u32_id|by apply u32_id].
Qed.

(** Memory, the stack pointer and the devices are the same, and interrupts are off if they were. *)
Definition quiet (s s' : x86 D) : Prop :=
  s'.(x_mem) = s.(x_mem) ∧ s'.(x_reg) ESP = s.(x_reg) ESP ∧ (Z.testbit s.(x_flags) 9 = false → Z.testbit s'.(x_flags) 9 = false).

Lemma zero_segments_run a b s : located c a zero_segments b → s.(x_eip) = a →
  ∃ s', comes c s' s ∧ s'.(x_eip) = b ∧ s'.(x_mem) = s.(x_mem) ∧ Z.testbit s'.(x_flags) 9 = false ∧ s'.(x_cr) = s.(x_cr) ∧ s'.(x_dev) = s.(x_dev) ∧
    s'.(x_seg) DS = 0 ∧ s'.(x_seg) ES = 0 ∧ s'.(x_seg) SS = 0.
Proof.
  intros (a1 & L1 & a2 & L2 & a3 & L3 & a4 & L4 & a5 & L5 & <-) Ha. eexists. split.
  - eapply step_at; [exact Ha|exact L1|reflexivity|]. next L2. next L3. next L4. next L5. constructor.
  - split_and!; try reflexivity.
    + cbn [x_flags set_seg set_eip set_flags]. by rewrite logic_flags_IF, set_bit_testbit.
    + cbn [x_seg x_reg set_reg set_seg set_eip set_flags upd tag sreg_tag reg_tag Nat.eqb]. by rewrite u16_low16, Z.lxor_nilpotent.
    + cbn [x_seg x_reg set_reg set_seg set_eip set_flags upd tag sreg_tag reg_tag Nat.eqb]. by rewrite u16_low16, Z.lxor_nilpotent.
    + cbn [x_seg x_reg set_reg set_seg set_eip set_flags upd tag sreg_tag reg_tag Nat.eqb]. by rewrite u16_low16, Z.lxor_nilpotent.
Qed.

Lemma protect_runs gdtdesc start32 a b s : located c a (protect gdtdesc start32) b → s.(x_eip) = a →
  ∃ s', comes c s' s ∧ s'.(x_eip) = start32 ∧ quiet s s' ∧ s'.(x_dev) = s.(x_dev) ∧ s'.(x_seg) CS = 8 ∧
    s'.(x_gdtr) = (load32 s.(x_mem) (gdtdesc + 2) mod 16777216, u16 (load32 s.(x_mem) gdtdesc)) ∧
    s'.(x_cr) CR0 = Z.lor (s.(x_cr) CR0) CR0_PE ∧ s'.(x_cr) CR4 = s.(x_cr) CR4.
Proof.
  intros (a1 & L1 & a2 & L2 & a3 & L3 & a4 & L4 & a5 & L5 & _) Ha. eexists. split.
  - eapply step_at; [exact Ha|exact L1|reflexivity|]. next L2. next L3. next L4. next L5. constructor.
  - split_and!; try reflexivity. split_and!; try reflexivity. intros HI. cbn [x_flags set_seg set_eip set_flags set_cr set_reg set_gdtr]. by rewrite logic_flags_IF.
Qed.

Lemma data_segments_run a b s : located c a data_segments b → s.(x_eip) = a →
  ∃ s', comes c s' s ∧ s'.(x_eip) = b ∧ quiet s s' ∧ s'.(x_dev) = s.(x_dev) ∧ s'.(x_gdtr) = s.(x_gdtr) ∧ s'.(x_cr) = s.(x_cr) ∧ s'.(x_seg) CS = s.(x_seg) CS ∧
    s'.(x_seg) DS = 16 ∧ s'.(x_seg) ES = 16 ∧ s'.(x_seg) SS = 16 ∧ s'.(x_seg) FS = 0 ∧ s'.(x_seg) GS = 0.
Proof.
  intros (a1 & L1 & a2 & L2 & a3 & L3 & a4 & L4 & a5 & L5 & a6 & L6 & a7 & L7 & <-) Ha. eexists. split.
  - eapply step_at; [exact Ha|exact L1|reflexivity|]. next L2. next L3. next L4. next L5. next L6. next L7. constructor.
  - split_and!; try reflexivity; [by split_and!|..]; cbn [x_seg x_reg set_reg set_seg set_eip upd tag sreg_tag reg_tag Nat.eqb]; by rewrite u16_low16.
Qed.

(** Flat kernel segments, protected mode, interrupts off. *)
Record protected (s : x86 D) (gdt : Z) : Prop := {
  pr_segs : s.(x_seg) CS = 8 ∧ s.(x_seg) DS = 16 ∧ s.(x_seg) ES = 16 ∧ s.(x_seg) SS = 16 ∧ s.(x_seg) FS = 0 ∧ s.(x_seg) GS = 0;
  pr_gdtr : s.(x_gdtr) = (gdt, 23);
  pr_off : Z.testbit s.(x_flags) 9 = false
}.

(** From the table load to the data segments. *)
Lemma into_protected gdtdesc gdt start32 a b b' l s : located c a (protect gdtdesc start32) b → located c start32 (data_segments ++ l) b' → s.(x_eip) = a →
  u16 (load32 s.(x_mem) gdtdesc) = 23 → load32 s.(x_mem) (gdtdesc + 2) = gdt → 0 ≤ gdt < 16777216 → Z.testbit s.(x_flags) 9 = false →
  ∃ s' a', comes c s' s ∧ s'.(x_eip) = a' ∧ located c a' l b' ∧ protected s' gdt ∧ s'.(x_mem) = s.(x_mem) ∧ s'.(x_dev) = s.(x_dev) ∧
    s'.(x_cr) CR0 = Z.lor (s.(x_cr) CR0) CR0_PE ∧ s'.(x_cr) CR4 = s.(x_cr) CR4.
Proof.
  intros Hp Hd Ha H23 Hgdt Hr Hoff. destruct (protect_runs gdtdesc start32 a b s Hp Ha) as (s1 & C1 & P1 & (M1 & _ & F1) & D1 & S1 & G1 & R1 & R2).
  apply located_app in Hd as (a' & Hd & Hl). destruct (data_segments_run start32 a' s1 Hd P1) as (s2 & C2 & P2 & (M2 & _ & F2) & D2 & G2 & R3 & T1 & T2 & T3 & T4 & T5 & T6).
  exists s2, a'. rewrite R3. split_and!; [by eapply comes_trans|done|done| |by rewrite M2|by rewrite D2|done|done].
  split; [by rewrite T1|by rewrite G2, G1, Hgdt, H23, Z.mod_small by lia|by apply F2, F1].
Qed.

(** The words [startothers] has left below [start] are used: the page directory, the address of [mpenter], the stack. *)
Lemma entryother_runs start gdtdesc gdt start32 spin a b b' s stk pgdir mpenter :
  located c a (entryother16 gdtdesc start32) b → located c start32 (entryother32 start spin) b' → s.(x_eip) = a →
  u16 (load32 s.(x_mem) gdtdesc) = 23 → load32 s.(x_mem) (gdtdesc + 2) = gdt → 0 ≤ gdt < 16777216 →
  load32 s.(x_mem) (start - 4) = stk → load32 s.(x_mem) (start - 8) = mpenter → load32 s.(x_mem) (start - 12) = pgdir → 4 ≤ stk < 4294967296 →
  ∃ s', comes c s' s ∧ s'.(x_eip) = mpenter ∧ protected s' gdt ∧ s'.(x_reg) ESP = stk - 4 ∧ s'.(x_cr) CR3 = pgdir ∧
    s'.(x_cr) CR0 = Z.lor (Z.lor (s.(x_cr) CR0) CR0_PE) (Z.lor CR0_PE (Z.lor CR0_PG CR0_WP)) ∧ s'.(x_cr) CR4 = Z.lor (s.(x_cr) CR4) CR4_PSE ∧
    ∀ y, y < stk - 4 ∨ stk ≤ y → s'.(x_mem) y = s.(x_mem) y.
Proof.
  intros H16 H32 Ha H23 Hgdt Hr Hstk Hmp Hpg Hs. apply located_app in H16 as (a1 & Hz & Hp).
  destruct (zero_segments_run a a1 s Hz Ha) as (s1 & C1 & P1 & M1 & F1 & R1 & D1 & _).
  destruct (into_protected gdtdesc gdt start32 a1 b b' _ s1 Hp H32 P1) as (s2 & a2 & C2 & P2 & Hl & [(S1 & S2 & S3 & S4 & S5 & S6) G2 F2] & M2 & _ & Q1 & Q2); [by rewrite M1|by rewrite M1|done|done|].
  destruct Hl as (b1 & L1 & b2 & L2 & b3 & L3 & b4 & L4 & b5 & L5 & b6 & L6 & b7 & L7 & b8 & L8 & b9 & L9 & b10 & L10 & _).
  rewrite M1 in M2. set (s3 := set_cr CR0 (Z.lor (s2.(x_cr) CR0) (Z.lor CR0_PE (Z.lor CR0_PG CR0_WP))) (set_cr CR3 pgdir (set_cr CR4 (Z.lor (s2.(x_cr) CR4) CR4_PSE) s2))).
  assert (∃ s9, comes c s9 s2 ∧ s9.(x_eip) = b9 ∧ s9.(x_cr) = s3.(x_cr) ∧ s9.(x_reg) ESP = stk ∧ s9.(x_seg) = s2.(x_seg) ∧ s9.(x_gdtr) = s2.(x_gdtr) ∧ s9.(x_mem) = s2.(x_mem) ∧
    Z.testbit s9.(x_flags) 9 = Z.testbit s2.(x_flags) 9) as (s9 & C9 & P9 & R9 & E9 & G9 & T9 & M9 & F9).
  { eexists. split.
    - eapply step_at; [exact P2|exact L1|reflexivity|]. next L2. next L3. next L4. next L5. next L6. next L7. next L8. next L9. constructor.
    - split_and!; try reflexivity.
      + cbn [x_cr set_reg set_cr set_eip set_flags x_reg x_mem upd tag reg_tag creg_tag Nat.eqb]. by rewrite M2, Hpg.
      + cbn [x_cr set_reg set_cr set_eip set_flags x_reg x_mem upd tag reg_tag creg_tag Nat.eqb]. by rewrite M2, Hstk.
      + cbn [x_flags set_reg set_cr set_eip set_flags]. by rewrite !logic_flags_IF. }
  exists (set_eip mpenter (push b10 (set_eip b10 s9))).
  assert (comes c (set_eip mpenter (push b10 (set_eip b10 s9))) s9) as C10.
  { eapply step_at; [exact P9|exact L10| |constructor]. cbn [exec]. change (x_mem (set_eip b10 s9)) with (x_mem s9). by rewrite M9, M2, Hmp. }
  split; [by apply (comes_trans c s s1 _ C1), (comes_trans c s1 s2 _ C2), (comes_trans c s2 s9 _ C9)|]. split; [done|]. split.
  - split; [change (x_seg (set_eip mpenter (push b10 (set_eip b10 s9)))) with (x_seg s9); by rewrite G9|etrans; [exact T9|done]|etrans; [exact F9|done]].
  - change (x_cr (set_eip mpenter (push b10 (set_eip b10 s9)))) with (x_cr s9). rewrite R9, R1 in *. split_and!.
    + cbn. unfold upd. simpl. by rewrite E9, u32_id by (unfold is_u32; lia).
    + done.
    + cbn. by rewrite Q1.
    + cbn. by rewrite Q2.
    + intros y Hy. unfold push. cbn [x_mem set_eip set_reg set_mem x_reg]. rewrite E9, u32_id by (unfold is_u32; lia). rewrite store32_out by lia. by rewrite M9, M2.
Qed.







End boot.

(** A controller that is busy for a number of polls, and what has been written to it. *)
#[local] Instance slow_controller : Hardware (nat * list (Z * Z)) :=
  {| port_in := λ _ d, match d with (S n, l) => (2, (n, l)) | (O, l) => (0, (O, l)) end; port_out := λ p v d, (d.1, d.2 ++ [(p, v)]);
     mmio_in := λ _ d, (0, d); mmio_out := λ _ _ d, d |}.



