(* ===== verification/Ulib.v ===== *)
(** * The user library (ulib.c, printf.c) and its view of the kernel (user.h)

    User programs reach the kernel through the system calls of user.h only.
    [Sys] is that interface, for an arbitrary type [W] of what the calls act
    on; [Streams] says what programs that copy bytes rely on: [read] takes a
    prefix of the bytes that are left, [write] appends.  Programs are written
    for any [Sys], and their theorems hold for any [Streams].

    A C string is the list of its characters without the NUL; the end of the
    list reads as NUL.  [exit] does not return. *)

From S2P Require Import Prelude KState Print Mem.
#[local] Open Scope kernel_scope.

(** ** System calls *)

(** [struct stat] as [fstat] fills it. *)
Record ustat : Type := Mkustat {
  us_type : Z; us_dev : Z; us_ino : Z; us_nlink : Z; us_size : Z
}.

(** A call that returns -1 and otherwise stores a result returns an [option]. *)
Class Sys (W : Type) : Type := {
  u_read : Z → Z → M W (option (list Z));
  u_write : Z → list Z → M W Z;
  u_open : list Z → Z → M W Z;
  u_close : Z → M W Z;
  u_exit : ∀ A, M W A;
  u_fork : M W Z;
  u_wait : M W Z;
  u_exec : list Z → list (list Z) → M W Z;
  u_pipe : M W (option (Z * Z));
  u_dup : Z → M W Z;
  u_chdir : list Z → M W Z;
  u_mknod : list Z → Z → Z → M W Z;
  u_mkdir : list Z → M W Z;
  u_link : list Z → list Z → M W Z;
  u_unlink : list Z → M W Z;
  u_fstat : Z → M W (option ustat);
  u_kill : Z → M W Z;
  u_sleep : Z → M W Z;
  u_getpid : M W Z;
  u_nice : Z → Z → M W Z;
  u_strace : Z → M W Z;
  u_dump : Z → M W Z;
  u_eflag : Z → M W Z;
  u_sflag : Z → M W Z;
  u_fflag : Z → M W Z
}.
Arguments u_exit {W _} A.

(** ** Strings (ulib.c) *)

Definition hd0 (s : list Z) : Z := default 0 (head s).

(** The characters [strcpy(s, t)] stores, the NUL included. *)
Fixpoint strcpy (t : list Z) : list Z :=
  if hd0 t =? 0 then [0] else
  match t with [] => [0] | c :: t' => c :: strcpy t' end.

Fixpoint strcmp (p q : list Z) : Z :=
  match p with
  | c :: p' => if negb (c =? 0) && (c =? hd0 q) then strcmp p' (tail q) else u8 c - u8 (hd0 q)
  | [] => 0 - u8 (hd0 q)
  end.

Fixpoint strlen (s : list Z) : Z :=
  match s with [] => 0 | c :: s' => if c =? 0 then 0 else 1 + strlen s' end.

(** The index [strchr] returns as a pointer. *)
Fixpoint strchr (s : list Z) (c : Z) : option nat :=
  match s with
  | [] => None
  | b :: s' => if b =? 0 then None else if b =? c then Some 0%nat else S <$> strchr s' c
  end.

Fixpoint atoi_loop (s : list Z) (n : Z) : Z :=
  match s with
  | c :: s' => if (48 <=? c) && (c <=? 57) then atoi_loop s' (s32 (n * 10 + c - 48)) else n
  | [] => n
  end.

Definition atoi (s : list Z) : Z := atoi_loop s 0.

(** ** Memory *)

Fixpoint memset_loop (n : nat) (a c : Z) (m : mem) : mem :=
  match n with O => m | S n' => memset_loop n' (a + 1) c (store_bytes a [u8 c] m) end.

Definition memset (dst c n : Z) (m : mem) : mem := memset_loop (Z.to_nat n) dst c m.

(** Always upwards, unlike the kernel's. *)
Fixpoint memmove_loop (n : nat) (d s : Z) (m : mem) : mem :=
  match n with O => m | S n' => memmove_loop n' (d + 1) (s + 1) (store_bytes d [m s] m) end.

Definition memmove (dst src n : Z) (m : mem) : mem := memmove_loop (Z.to_nat n) dst src m.

(** ** Formatted output (printf.c) *)

(** [digits[d]] of the table "0123456789ABCDEF". *)
Definition udigit (d : Z) : Z := if d <? 10 then 48 + d else 55 + d.

Fixpoint uprintint_digits (fuel : nat) (x base : Z) : list Z :=
  match fuel with
  | O => []
  | S fuel' =>
      udigit (x mod base) ::
      (if x / base =? 0 then [] else uprintint_digits fuel' (x / base) base)
  end.

(** The characters [printint] writes; a 32-bit value has at most 32 digits. *)
Definition uprintint (xx base : Z) (sgn : bool) : list Z :=
  let neg := sgn && (xx <? 0) in
  let x := u32 (if neg then - xx else xx) in
  let buf := uprintint_digits 32 x base in
  reverse (if neg then buf ++ [45] else buf).

(** The characters [printf] writes; [None] when a conversion has no argument
    of its kind. *)
Fixpoint uformat (fmt : list Z) (args : list arg) : option (list Z) :=
  match fmt with
  | [] => Some []
  | c :: fmt1 =>
      if negb (c =? 37) then (c ::.) <$> uformat fmt1 args else
      match fmt1 with
      | [] => Some []
      | d :: fmt2 =>
          if d =? 100 then                            (* %d *)
            match args with
            | AInt x :: args' => (uprintint x 10 true ++.) <$> uformat fmt2 args'
            | _ => None
            end
          else if (d =? 120) || (d =? 112) then       (* %x, %p *)
            match args with
            | AInt x :: args' => (uprintint x 16 false ++.) <$> uformat fmt2 args'
            | _ => None
            end
          else if d =? 115 then                       (* %s *)
            match args with
            | AStr (Some s) :: args' => (cstr s ++.) <$> uformat fmt2 args'
            | AStr None :: args' => (str "(null)" ++.) <$> uformat fmt2 args'
            | _ => None
            end
          else if d =? 99 then                        (* %c *)
            match args with
            | AInt x :: args' => (u8 x ::.) <$> uformat fmt2 args'
            | _ => None
            end
          else if d =? 37 then (37 ::.) <$> uformat fmt2 args
          else (λ o, 37 :: d :: o) <$> uformat fmt2 args
      end
  end.

Section programs.
Context {W : Type} `{Sys W}.

Definition putc (fd c : Z) : M W unit := u_write fd [c];; ret tt.

Definition printf (fd : Z) (fmt : string) (args : list arg) : M W unit :=
  match uformat (str fmt) args with
  | Some cs => for_each cs (putc fd)
  | None => fault "printf: missing argument"
  end.

(** The loop of [gets], which stores at most [k] more characters. *)
Fixpoint gets_loop (k : nat) (acc : list Z) : M W (list Z) :=
  match k with
  | O => ret acc
  | S k' =>
      r <- u_read 0 1;;
      match r with
      | Some [c] => if (c =? 10) || (c =? 13) then ret (acc ++ [c]) else gets_loop k' (acc ++ [c])
      | _ => ret acc
      end
  end.

(** The line [gets(buf, max)] leaves in [buf], without the NUL. *)
Definition ugets (max : Z) : M W (list Z) := gets_loop (Z.to_nat (max - 1)) [].

Definition stat (n : list Z) : M W (option ustat) :=
  fd <- u_open n O_RDONLY;;
  if fd <? 0 then ret None else
  r <- u_fstat fd;;
  u_close fd;;
  ret r.

End programs.

(** ** What programs rely on *)

Class Streams (W : Type) `{Sys W} : Type := {
  (** the bytes still to be read from a descriptor, and those written to it *)
  pending : W → Z → list Z;
  written : W → Z → list Z;
  read_spec w e fd n : 0 < n →
    ∃ bs w', u_read fd n w e = Ret (Some bs) w' e ∧ Z.of_nat (length bs) ≤ n ∧
      pending w fd = bs ++ pending w' fd ∧ (bs = [] → pending w fd = []) ∧
      (∀ fd', fd' ≠ fd → pending w' fd' = pending w fd') ∧ written w' = written w;
  write_spec w e fd bs :
    ∃ w', u_write fd bs w e = Ret (Z.of_nat (length bs)) w' e ∧
      written w' fd = written w fd ++ bs ∧ (∀ fd', fd' ≠ fd → written w' fd' = written w fd') ∧
      pending w' = pending w;
  (** [exit] does not return *)
  exit_spec w e A : u_exit A w e = Switched w
}.

Section streams.
Context {W : Type} `{Streams W}.
Implicit Types (w : W) (e : list (W → W)).

(** [w'] is [w] after [bs] has been written to [fd]. *)
Record wrote (fd : Z) (bs : list Z) (w w' : W) : Prop := {
  wo_here : written w' fd = written w fd ++ bs;
  wo_other : ∀ fd', fd' ≠ fd → written w' fd' = written w fd';
  wo_pending : pending w' = pending w
}.

Lemma wrote_nil fd w : wrote fd [] w w.
Proof. split; [by rewrite app_nil_r|done..]. Qed.

Lemma wrote_trans fd bs bs' w w' w'' : wrote fd bs w w' → wrote fd bs' w' w'' → wrote fd (bs ++ bs') w w''.
Proof.
  intros [H1 O1 P1] [H2 O2 P2]. split; [by rewrite H2, H1, app_assoc| |by rewrite P2].
  intros fd' Hne. by rewrite O2, O1.
Qed.

Lemma write_run w e fd bs : ∃ w', u_write fd bs w e = Ret (Z.of_nat (length bs)) w' e ∧ wrote fd bs w w'.
Proof. destruct (write_spec w e fd bs) as (w' & Hr & ? & ? & ?). by exists w'. Qed.

Lemma puts_run w e fd cs : ∃ w', for_each cs (putc fd) w e = Ret tt w' e ∧ wrote fd cs w w'.
Proof.
  revert w. induction cs as [|c cs IH]; intros w; simpl.
  { exists w. split; [done|apply wrote_nil]. }
  destruct (write_run w e fd [c]) as (w1 & Hr & Hw1). destruct (IH w1) as (w2 & Hr2 & Hw2).
  exists w2. split; [|by apply (wrote_trans fd [c] cs w w1 w2)].
  erewrite bind_run; [exact Hr2|]. unfold putc. by mstep Hr.
Qed.

(** [printf] writes the characters of the format. *)
Lemma printf_run w e fd fmt args cs :
  uformat (str fmt) args = Some cs → ∃ w', printf fd fmt args w e = Ret tt w' e ∧ wrote fd cs w w'.
Proof. intros Hf. unfold printf. rewrite Hf. apply puts_run. Qed.

End streams.

(** ** An instance: files whose reads are whole, or of at most [lim] bytes *)

Definition updz {A} (f : Z → A) (i : Z) (x : A) : Z → A := λ j, if j =? i then x else f j.

Lemma updz_eq {A} (f : Z → A) i x : updz f i x i = x.
Proof. unfold updz. by rewrite Z.eqb_refl. Qed.

Lemma updz_ne {A} (f : Z → A) i j x : j ≠ i → updz f i x j = f j.
Proof. intros Hne. unfold updz. by rewrite (proj2 (Z.eqb_neq _ _) Hne). Qed.

Record files (lim : option positive) : Type := Mkfiles { fl_in : Z → list Z; fl_out : Z → list Z }.
Arguments Mkfiles {lim} fl_in fl_out.
Arguments fl_in {lim} f.
Arguments fl_out {lim} f.

Definition read_size (lim : option positive) (n : Z) : nat :=
  Z.to_nat (match lim with Some k => Z.min n (Zpos k) | None => n end).

#[export] Instance files_sys lim : Sys (files lim) := {|
  u_read fd n := λ w e, let k := read_size lim n in
    Ret (Some (take k (w.(fl_in) fd))) (Mkfiles (updz w.(fl_in) fd (drop k (w.(fl_in) fd))) w.(fl_out)) e;
  u_write fd bs := λ w e, Ret (Z.of_nat (length bs)) (Mkfiles w.(fl_in) (updz w.(fl_out) fd (w.(fl_out) fd ++ bs))) e;
  u_open _ _ := ret 3; u_close _ := ret 0; u_exit _ := λ w _, Switched w; u_fork := ret 2; u_wait := ret 2;
  u_exec _ _ := λ w _, Switched w; u_pipe := ret (Some (3, 4)); u_dup fd := ret fd; u_chdir _ := ret 0;
  u_mknod _ _ _ := ret 0; u_mkdir _ := ret 0; u_link _ _ := ret 0; u_unlink _ := ret 0; u_fstat _ := ret None;
  u_kill _ := ret 0; u_sleep _ := ret 0; u_getpid := ret 1; u_nice _ _ := ret 1; u_strace _ := ret 0;
  u_dump _ := ret 0; u_eflag _ := ret 0; u_sflag _ := ret 0; u_fflag _ := ret 0
|}.

#[export] Program Instance files_streams lim : Streams (files lim) := {|
  pending w := w.(fl_in);
  written w := w.(fl_out)
|}.
Next Obligation.
  intros lim w e fd n Hn. eexists _, _. split; [done|]. simpl. rewrite updz_eq, take_drop. split_and!; [|done| | |done].
  - rewrite length_take. unfold read_size. destruct lim; lia.
  - intros Ht. destruct (fl_in w fd) as [|c l]; [done|]. destruct (read_size lim n) eqn:E; [|done].
    unfold read_size in E. destruct lim; lia.
  - intros fd' Hne. by rewrite updz_ne.
Qed.
Next Obligation.
  intros lim w e fd bs. eexists. split; [done|]. simpl. rewrite updz_eq. split_and!; [done| |done].
  intros fd' Hne. by rewrite updz_ne.
Qed.
Next Obligation. done. Qed.

(** A world in which descriptor [fd] has the bytes [text]. *)
Definition one_file (lim : option positive) (fd : Z) (text : list Z) : files lim :=
  Mkfiles (λ fd', if fd' =? fd then text else []) (λ _, []).
