(* ===== verification/Grep.v ===== *)
(** * grep (grep.c)

    The matcher of Kernighan and Pike against the language of its patterns,
    and the program around it, which reads a descriptor through a buffer of
    1024 bytes and writes the lines that match. *)

From S2P Require Import Prelude KState Print Mem Ulib.
#[local] Open Scope kernel_scope.

(** ** The matcher *)

(** [matchstar(c, re, text)], where [here] is [matchhere(re, _)]. *)
Definition matchstar (here : list Z → bool) (c : Z) : list Z → bool :=
  fix star (text : list Z) : bool :=
    here text ||
    match text with [] => false | t :: text' => ((t =? c) || (c =? 46)) && star text' end.

Fixpoint matchhere (re text : list Z) {struct re} : bool :=
  match re with
  | [] => true
  | c :: re1 =>
      let step := match text with
                  | [] => false
                  | t :: text' => ((c =? 46) || (c =? t)) && matchhere re1 text'
                  end in
      match re1 with
      | [] => if c =? 36 then bool_decide (text = []) else step
      | d :: re2 => if d =? 42 then matchstar (matchhere re2) c text else step
      end
  end.

(** The loop of [match] over the suffixes of the text, the empty one included. *)
Fixpoint match_any (re text : list Z) : bool :=
  matchhere re text || match text with [] => false | _ :: text' => match_any re text' end.

Definition match_ (re text : list Z) : bool :=
  match re with
  | c :: re' => if c =? 94 then matchhere re' text else match_any re text
  | [] => match_any re text
  end.

(** ** The program *)

(** The inner loop, on the bytes of the buffer from [p] to [m]: the lines that
    end in the buffer are written if they match; what is left is returned.
    [k] bounds the lines. *)
Section grep.
Context {W : Type} `{Sys W}.

Fixpoint grep_lines (k : nat) (pattern p : list Z) : M W (list Z) :=
  match k with
  | O => ret p
  | S k' =>
      match strchr p 10 with
      | None => ret p
      | Some q =>
          (if match_ pattern (take q p) then u_write 1 (take (S q) p);; ret tt else ret tt);;
          grep_lines k' pattern (drop (S q) p)
      end
  end.

(** [buf] is the bytes the buffer holds, [m] of them. *)
Fixpoint grep_loop (fuel : nat) (pattern : list Z) (fd : Z) (buf : list Z) : M W unit :=
  match fuel with
  | O => fault "fuel"
  | S fuel' =>
      r <- u_read fd (1024 - Z.of_nat (length buf) - 1);;
      match r with
      | Some (c :: bs) =>
          let buf := buf ++ c :: bs in
          rest <- grep_lines (length buf) pattern buf;;
          grep_loop fuel' pattern fd (if bool_decide (length rest = length buf) then [] else rest)
      | _ => ret tt
      end
  end.

Definition grep (fuel : nat) (pattern : list Z) (fd : Z) : M W unit := grep_loop fuel pattern fd [].

(** [main]: [argv] without the program's name. *)
Definition grep_main (fuel : nat) (args : list (list Z)) : M W unit :=
  match args with
  | [] => printf 2 ("usage: grep pattern [file ...]" +:+ newline) [];; u_exit _
  | [pattern] => grep fuel pattern 0;; u_exit _
  | pattern :: files =>
      for_each files (λ f,
        fd <- u_open f 0;;
        if fd <? 0 then printf 1 ("grep: cannot open %s" +:+ newline) [AStr (Some f)];; u_exit _ else
        grep fuel pattern fd;;
        u_close fd;;
        ret tt);;
      u_exit _
  end.

End grep.

(** ** The language of a pattern *)

(** The atoms of a pattern without its ^: a character or . and whether a star
    follows, and whether the pattern ends in $. *)
Fixpoint atoms (re : list Z) : list (Z * bool) * bool :=
  match re with
  | [] => ([], false)
  | c :: re1 =>
      match re1 with
      | [] => if c =? 36 then ([], true) else ([(c, false)], false)
      | d :: re2 =>
          if d =? 42 then let '(l, b) := atoms re2 in ((c, true) :: l, b)
          else let '(l, b) := atoms re1 in ((c, false) :: l, b)
      end
  end.

Definition sym (c t : Z) : Prop := c = 46 ∨ t = c.

(** The strings a list of atoms stands for. *)
Inductive lang : list (Z * bool) → list Z → Prop :=
| lang_nil : lang [] []
| lang_one c t l w : sym c t → lang l w → lang ((c, false) :: l) (t :: w)
| lang_star c l u w : Forall (sym c) u → lang l w → lang ((c, true) :: l) (u ++ w).

(** A prefix of the text is in the language; all of it after a $. *)
Definition prefix_in (p : list (Z * bool) * bool) (text : list Z) : Prop :=
  ∃ w post, text = w ++ post ∧ lang p.1 w ∧ (p.2 = true → post = []).

(** What a pattern promises about a line. *)
Definition line_matches (re text : list Z) : Prop :=
  if decide (head re = Some 94) then prefix_in (atoms (tail re)) text
  else ∃ pre suf, text = pre ++ suf ∧ prefix_in (atoms re) suf.

Lemma symb c t : (t =? c) || (c =? 46) = true ↔ sym c t.
Proof. unfold sym. rewrite orb_true_iff, !Z.eqb_eq. tauto. Qed.

Lemma symb' c t : (c =? 46) || (c =? t) = true ↔ sym c t.
Proof. unfold sym. rewrite orb_true_iff, !Z.eqb_eq. intuition congruence. Qed.

Lemma matchstar_iff here c text :
  matchstar here c text = true ↔ ∃ u v, text = u ++ v ∧ Forall (sym c) u ∧ here v = true.
Proof.
  induction text as [|t text IH]; simpl; rewrite orb_true_iff.
  - split; [intros [H|H]; [|done]; by exists [], []|].
    intros (u & v & E & _ & Hv). symmetry in E. apply app_eq_nil in E as [-> ->]. by left.
  - rewrite andb_true_iff, symb, IH. split.
    + intros [H|(Hs & u & v & -> & Hu & Hv)]; [by exists [], (t :: text)|].
      exists (t :: u), v. split_and!; [done|by constructor|done].
    + intros ([|t' u] & v & E & Hu & Hv); simplify_eq/=; [by left|right].
      apply Forall_cons in Hu as [? ?]. split; [done|]. by exists u, v.
Qed.

Lemma prefix_in_star c l b text :
  prefix_in ((c, true) :: l, b) text ↔ ∃ u v, text = u ++ v ∧ Forall (sym c) u ∧ prefix_in (l, b) v.
Proof.
  unfold prefix_in. simpl. split.
  - intros (w & post & -> & Hl & Hb). inversion Hl; subst. exists u, (w0 ++ post).
    split_and!; [by rewrite app_assoc|done|]. by exists w0, post.
  - intros (u & v & -> & Hu & w & post & -> & Hl & Hb). exists (u ++ w), post.
    split_and!; [by rewrite app_assoc|by constructor|done].
Qed.

Lemma prefix_in_one c l b text :
  prefix_in ((c, false) :: l, b) text ↔ ∃ t v, text = t :: v ∧ sym c t ∧ prefix_in (l, b) v.
Proof.
  unfold prefix_in. simpl. split.
  - intros (w & post & -> & Hl & Hb). inversion Hl; subst. exists t, (w0 ++ post). split_and!; [done..|]. by exists w0, post.
  - intros (t & v & -> & Hs & w & post & -> & Hl & Hb). exists (t :: w), post. split_and!; [done|by constructor|done].
Qed.

Lemma prefix_in_nil b text : prefix_in ([], b) text ↔ (b = true → text = []).
Proof.
  unfold prefix_in. simpl. split.
  - intros (w & post & -> & Hl & Hb). inversion Hl; subst. done.
  - intros Hb. exists [], text. split_and!; [done|constructor|done].
Qed.

Lemma step_iff c re1 l b text :
  (∀ v, matchhere re1 v = true ↔ prefix_in (l, b) v) →
  match text with [] => false | t :: text' => ((c =? 46) || (c =? t)) && matchhere re1 text' end = true ↔
  prefix_in ((c, false) :: l, b) text.
Proof.
  intros IH. rewrite prefix_in_one. destruct text as [|t text].
  - split; [done|]. by intros (? & ? & ? & _).
  - rewrite andb_true_iff, symb', IH. split; [intros [? ?]; by exists t, text|].
    intros (t' & v & [= <- <-] & ? & ?). done.
Qed.

Lemma matchhere_cons2 c d re text :
  matchhere (c :: d :: re) text =
    if d =? 42 then matchstar (matchhere re) c text
    else match text with [] => false | t :: text' => ((c =? 46) || (c =? t)) && matchhere (d :: re) text' end.
Proof. done. Qed.

Lemma atoms_cons2 c d re :
  atoms (c :: d :: re) =
    if d =? 42 then ((c, true) :: (atoms re).1, (atoms re).2)
    else ((c, false) :: (atoms (d :: re)).1, (atoms (d :: re)).2).
Proof. cbn [atoms]. destruct (d =? 42); [by destruct (atoms re)|]. by destruct (match re with [] => _ | _ => _ end). Qed.

Lemma matchhere_iff re text : matchhere re text = true ↔ prefix_in (atoms re) text.
Proof.
  remember (length re) as n eqn:Hn. assert (length re ≤ n)%nat as Hle by lia. clear Hn. revert re text Hle.
  induction n as [|n IH]; intros [|c [|d re2]] text Hle; simpl in Hle; try lia.
  1,2: simpl; rewrite prefix_in_nil; split; done.
  - cbn [matchhere atoms]. destruct (c =? 36); [rewrite prefix_in_nil, bool_decide_eq_true; tauto|].
    apply (step_iff c []). intros v. by rewrite prefix_in_nil.
  - rewrite matchhere_cons2, atoms_cons2. destruct (d =? 42).
    + rewrite matchstar_iff, prefix_in_star. setoid_rewrite IH; [|lia]. by rewrite <- surjective_pairing.
    + apply step_iff. intros v. rewrite IH by (simpl; lia). by rewrite <- surjective_pairing.
Qed.

Lemma match_any_iff re text :
  match_any re text = true ↔ ∃ pre suf, text = pre ++ suf ∧ prefix_in (atoms re) suf.
Proof.
  induction text as [|t text IH]; cbn [match_any]; rewrite orb_true_iff, matchhere_iff.
  - split; [intros [H|H]; [by exists [], []|done]|].
    intros (pre & suf & E & Hp). symmetry in E. apply app_eq_nil in E as [-> ->]. by left.
  - rewrite IH. split.
    + intros [H|(pre & suf & -> & Hp)]; [by exists [], (t :: text)|]. by exists (t :: pre), suf.
    + intros ([|t' pre] & suf & E & Hp); simplify_eq/=; [by left|right]. by exists pre, suf.
Qed.

(** C36: the matcher of grep accepts a line exactly when a part of the line is in
    the language of the pattern: the atoms in order, a starred atom any number
    of times, at the start of the line after ^ and up to its end before a
    final $. *)
Theorem match_correct re text : match_ re text = true ↔ line_matches re text.
Proof.
  unfold match_, line_matches. destruct re as [|c re]; [by rewrite decide_False, match_any_iff|]. simpl.
  destruct (c =? 94) eqn:E; bool_facts.
  - subst. rewrite decide_True by done. apply matchhere_iff.
  - rewrite decide_False by congruence. apply match_any_iff.
Qed.

(** ** The lines of a text *)

(** The complete lines, without their newlines, and what follows the last. *)
Fixpoint cut (text : list Z) : list (list Z) * list Z :=
  match text with
  | [] => ([], [])
  | c :: text' =>
      let '(ls, r) := cut text' in
      if c =? 10 then ([] :: ls, r) else
      match ls with [] => ([], c :: r) | l :: ls' => ((c :: l) :: ls', r) end
  end.

(** The output for the lines [ls]. *)
Definition matching (pattern : list Z) (ls : list (list Z)) : list Z :=
  ls ≫= λ l, if match_ pattern l then l ++ [10] else [].

Lemma cut_none r : 10 ∉ r → cut r = ([], r).
Proof.
  induction r as [|c r IH]; intros Hr; [done|]. apply not_elem_of_cons in Hr as [Hc Hr]. simpl.
  rewrite IH by done. destruct (c =? 10) eqn:E; bool_facts; [congruence|done].
Qed.

Lemma cut_line l t : 10 ∉ l → cut (l ++ 10 :: t) = (l :: (cut t).1, (cut t).2).
Proof.
  induction l as [|c l IH]; intros Hl; simpl; [by destruct (cut t)|]. apply not_elem_of_cons in Hl as [Hc Hl].
  rewrite IH by done. destruct (c =? 10) eqn:E; bool_facts; [congruence|done].
Qed.

(** The first newline of a text without NULs. *)
Lemma strchr_line p :
  Forall (λ c, c ≠ 0) p →
  match strchr p 10 with
  | Some q => ∃ l t, p = l ++ 10 :: t ∧ length l = q ∧ 10 ∉ l
  | None => 10 ∉ p
  end.
Proof.
  induction p as [|c p IH]; intros Hp; [apply not_elem_of_nil|]. apply Forall_cons in Hp as [Hc Hp]. simpl.
  rewrite (proj2 (Z.eqb_neq _ _) Hc). destruct (c =? 10) eqn:E; bool_facts.
  - exists [], p. split_and!; [by subst|done|apply not_elem_of_nil].
  - specialize (IH Hp). destruct (strchr p 10) as [q|]; simpl.
    + destruct IH as (l & t & -> & <- & Hl). exists (c :: l), t. split_and!; [done..|]. by apply not_elem_of_cons.
    + by apply not_elem_of_cons.
Qed.

Lemma text_cases p :
  Forall (λ c, c ≠ 0) p → 10 ∉ p ∨ ∃ l t, p = l ++ 10 :: t ∧ strchr p 10 = Some (length l) ∧ 10 ∉ l.
Proof.
  intros Hp. pose proof (strchr_line p Hp) as H. destruct (strchr p 10) as [q|]; [right|by left].
  destruct H as (l & t & ? & ? & ?). exists l, t. split_and!; [done| |done]. by f_equal.
Qed.

(** Every text is lines followed by a text without a newline. *)
Lemma cut_ind (P : list Z → Prop) :
  (∀ r, 10 ∉ r → P r) → (∀ l t, 10 ∉ l → P t → P (l ++ 10 :: t)) → ∀ text, P text.
Proof.
  intros Hn Hl text. remember (length text) as n eqn:E. assert (length text ≤ n)%nat as Hle by lia. clear E.
  revert text Hle. induction n as [|n IH]; intros text Hle.
  { destruct text; [|simpl in *; lia]. apply Hn, not_elem_of_nil. }
  destruct (decide (10 ∈ text)) as [Hin|]; [|by apply Hn].
  apply list_elem_of_split_l in Hin as (l & t & -> & Hnl). apply Hl; [done|]. apply IH.
  rewrite length_app in Hle. simpl in Hle. lia.
Qed.

Lemma cut_rest text : 10 ∉ (cut text).2.
Proof.
  induction text as [r Hr|l t Hl IH] using cut_ind; [by rewrite cut_none|by rewrite cut_line].
Qed.

Lemma Forall_cut (P : Z → Prop) text : Forall P text → Forall P (cut text).2.
Proof.
  induction text as [r Hr|l t Hl IH] using cut_ind; [by rewrite cut_none|]. rewrite cut_line by done. simpl.
  intros [_ [_ ?]%Forall_cons]%Forall_app. auto.
Qed.

Lemma cut_app p d :
  cut (p ++ d) = ((cut p).1 ++ (cut ((cut p).2 ++ d)).1, (cut ((cut p).2 ++ d)).2).
Proof.
  induction p as [r Hr|l t Hl IH] using cut_ind.
  - rewrite (cut_none r Hr). simpl. by destruct (cut (r ++ d)).
  - rewrite <- app_assoc, <- app_comm_cons, !cut_line by done. simpl. by rewrite IH.
Qed.

Lemma cut_length text : (length (cut text).2 ≤ length text)%nat ∧
  (length (cut text).2 = length text → (cut text).1 = [] ∧ 10 ∉ text).
Proof.
  induction text as [r Hr|l t Hl IH] using cut_ind; [by rewrite cut_none|]. rewrite cut_line by done. simpl.
  rewrite length_app. simpl. split; lia.
Qed.

Lemma matching_app pattern l l' : matching pattern (l ++ l') = matching pattern l ++ matching pattern l'.
Proof. apply bind_app. Qed.

Section grep_spec.
Context {W : Type} `{Streams W}.
Implicit Types (w : W) (e : list (W → W)).

Lemma grep_lines_run k pattern p w e :
  Forall (λ c, c ≠ 0) p → (length p ≤ k)%nat →
  ∃ w', grep_lines k pattern p w e = Ret (cut p).2 w' e ∧ wrote 1 (matching pattern (cut p).1) w w'.
Proof.
  revert p w. induction k as [|k IH]; intros p w Hp Hk.
  { destruct p; [|simpl in *; lia]. exists w. split; [done|apply wrote_nil]. }
  cbn [grep_lines]. destruct (text_cases p Hp) as [Hno|(l & t & -> & Hq & Hl)].
  - pose proof (strchr_line p Hp) as Hs. destruct (strchr p 10); [destruct Hs as (? & ? & -> & _); set_solver|].
    rewrite cut_none by done. exists w. split; [done|apply wrote_nil].
  - rewrite Hq, cut_line by done. rewrite take_app_length, drop_app_ge by lia.
    replace (S (length l) - length l)%nat with 1%nat by lia.
    replace (take (S (length l)) (l ++ 10 :: t)) with (l ++ [10]).
    2: { rewrite take_app_ge by lia. by replace (S (length l) - length l)%nat with 1%nat by lia. }
    apply Forall_app in Hp as [_ Hp]. apply Forall_cons in Hp as [_ Hp]. rewrite length_app in Hk. simpl in Hk.
    unfold matching. simpl. destruct (match_ pattern l).
    + destruct (write_run w e 1 (l ++ [10])) as (w1 & Hr & Hw). destruct (IH t w1 Hp ltac:(lia)) as (w' & Hr' & Hw').
      exists w'. split; [rewrite bind_assoc; by mstep Hr|by eapply wrote_trans].
    + destruct (IH t w Hp ltac:(lia)) as (w' & Hr' & Hw'). by exists w'.
Qed.

(** The lines, and what follows the last, fit the buffer. *)
Definition fits (text : list Z) : Prop :=
  Forall (λ l : list Z, length l ≤ 1022)%nat ((cut text).1 ++ [(cut text).2]).

Lemma fits_rest p d : fits (p ++ d) → fits ((cut p).2 ++ d).
Proof. unfold fits. rewrite cut_app. simpl. rewrite <- app_assoc. by intros [_ ?]%Forall_app. Qed.

(** A line that fits cannot fill the buffer. *)
Lemma fits_full p d : fits (p ++ d) → 10 ∉ p → (length p ≤ 1022)%nat.
Proof.
  unfold fits. intros Hf Hp. rewrite cut_app, (cut_none p Hp) in Hf. simpl in Hf.
  induction d as [r Hr|l t Hl _] using cut_ind.
  - rewrite cut_none in Hf by (apply not_elem_of_app; split; done). simpl in Hf.
    apply Forall_cons in Hf as [Hf _]. simpl in Hf. rewrite length_app in Hf. lia.
  - rewrite app_assoc, cut_line in Hf by (apply not_elem_of_app; split; done). simpl in Hf.
    apply Forall_cons in Hf as [Hf _]. simpl in Hf. rewrite length_app in Hf. lia.
Qed.

(** Reads of a regular file return as much as was asked for, or all there is. *)
Definition full_reads (fd : Z) : Prop :=
  ∀ w e n bs w', 0 < n → u_read fd n w e = Ret (Some bs) w' e →
    Z.of_nat (length bs) = Z.min n (Z.of_nat (length (pending w fd))).

Lemma grep_loop_run fuel pattern fd buf w e :
  let text := buf ++ pending w fd in
  full_reads fd → Forall (λ c, c ≠ 0) text → fits text → 10 ∉ buf → (length buf ≤ 1022)%nat →
  (length (pending w fd) < fuel)%nat →
  ∃ w', grep_loop fuel pattern fd buf w e = Ret tt w' e ∧ pending w' fd = [] ∧
        written w' 1 = written w 1 ++ matching pattern (cut text).1 ∧ ∀ fd', fd' ≠ 1 → written w' fd' = written w fd'.
Proof.
  revert buf w. induction fuel as [|fuel IH]; intros buf w text Hfull Hnz Hfit Hbuf Hlen Hfuel; [lia|].
  cbn [grep_loop]. assert (0 < 1024 - Z.of_nat (length buf) - 1) as Hpos by lia.
  destruct (read_spec w e fd _ Hpos) as (bs & w1 & Hr & _ & Hpend & Hnil & _ & Hwr).
  mstep Hr. pose proof (Hfull _ _ _ _ _ Hpos Hr) as Hbs. subst text.
  destruct bs as [|c bs].
  { exists w1. specialize (Hnil eq_refl). rewrite Hpend in Hnil. simpl in Hnil. rewrite Hpend, Hnil, Hwr. simpl.
    rewrite app_nil_r, cut_none by done. by rewrite app_nil_r. }
  rewrite Hpend, app_assoc in *. set (buf1 := buf ++ c :: bs) in *. cbv zeta.
  pose proof Hnz as [Hnz1 Hnz2]%Forall_app.
  destruct (grep_lines_run (length buf1) pattern buf1 w1 e Hnz1 ltac:(lia)) as (w2 & Hr2 & Hw2). mstep Hr2.
  pose proof (cut_length buf1) as [Hle Heq]. destruct Hw2 as [Hh2 Ho2 Hp2]. rewrite Hwr in *.
  case_bool_decide as E.
  - destruct (Heq E) as [Hnone Hno]. pose proof (fits_full _ _ Hfit Hno) as Hshort. subst buf1.
    rewrite !length_app in *. simpl length in *. assert (pending w1 fd = []) as Hp1 by (apply length_zero_iff_nil; lia).
    destruct (IH [] w2) as (w' & Hrun & Hpe & Hwo & Hot); rewrite ?Hp2, ?Hp1;
      [done|constructor|repeat constructor; simpl; lia|apply not_elem_of_nil|simpl; lia|simpl; lia|].
    exists w'. rewrite app_nil_r, Hnone. rewrite Hp2, Hp1 in Hwo. simpl in Hwo. rewrite Hh2, Hnone in Hwo.
    split_and!; [done|done|by rewrite Hwo, app_nil_r|]. intros fd' Hne. by rewrite Hot, Ho2.
  - assert (length (cut buf1).2 < length buf1)%nat as Hlt by lia. unfold buf1 in Hlt at 2. rewrite length_app in Hlt. simpl in *.
    destruct (IH (cut buf1).2 w2) as (w' & Hrun & Hpe & Hwo & Hot); try done; rewrite ?Hp2.
    + apply Forall_app. split; [by apply Forall_cut|done].
    + by apply fits_rest.
    + apply cut_rest.
    + lia.
    + rewrite length_app in Hfuel. lia.
    + exists w'. split_and!; [done|done| |intros fd' Hne; by rewrite Hot, Ho2].
      rewrite Hwo, Hp2, Hh2, (cut_app buf1). simpl. by rewrite matching_app, app_assoc.
Qed.

(** C37: grep on a regular file, where [read] returns all it is asked for up
    to the end ([full_reads]), without NULs and with lines of at most 1022
    bytes ([fits]).  With one step per byte it reads the file to its end and
    writes exactly the complete lines that match the pattern, in order, each
    with its newline; a last line without a newline is not considered.  When
    a read stops in a line, as a pipe's may, lines can be lost: see
    [grep_drops_partial_line]. *)
Theorem grep_correct fuel pattern fd w e :
  let text := pending w fd in
  full_reads fd → Forall (λ c, c ≠ 0) text → fits text → (length text < fuel)%nat →
  ∃ w', grep fuel pattern fd w e = Ret tt w' e ∧ pending w' fd = [] ∧
        written w' 1 = written w 1 ++ matching pattern (cut text).1.
Proof.
  intros text Hfull Hnz Hfit Hfuel.
  destruct (grep_loop_run fuel pattern fd [] w e) as (w' & ? & ? & ? & _); try done; [apply not_elem_of_nil|simpl; lia|].
  by exists w'.
Qed.

End grep_spec.

(** ** Examples *)

Lemma files_full_reads fd : full_reads (W := files None) fd.
Proof. intros w e n bs w' Hn [= <- _]. simpl. rewrite length_take. unfold read_size. lia. Qed.

(** Three lines, the first and the last with an a after which a c follows. *)
Definition abc_text : list Z := str "abc" ++ [10] ++ str "bcd" ++ [10] ++ str "xac" ++ [10].

Lemma grep_correct_witness :
  Forall (λ c, c ≠ 0) abc_text ∧ fits abc_text ∧
  ∃ w', grep 13 (str "ab*c$") 3 (one_file None 3 abc_text) [] = Ret tt w' [] ∧
        written w' 1 = str "abc" ++ [10] ++ str "xac" ++ [10].
Proof.
  assert (Forall (λ c, c ≠ 0) abc_text) as H1 by (apply (bool_decide_eq_true_1 _); vm_compute; reflexivity).
  assert (fits abc_text) as H2 by (apply (bool_decide_eq_true_1 _); vm_compute; reflexivity).
  split; [exact H1|]. split; [exact H2|].
  destruct (grep_correct 13 (str "ab*c$") 3 (one_file None 3 abc_text) [] (files_full_reads 3) H1 H2)
    as (w' & Hrun & _ & Hw); [vm_compute; lia|].
  exists w'. split; [exact Hrun|]. rewrite Hw. vm_compute. reflexivity.
Defined.

(** A pipe that delivers the line abc in pieces of two bytes: the piece without
    a newline is dropped, and the rest of the line is taken for the line. *)
Lemma grep_drops_partial_line :
  ∃ w', grep 5 (str "c") 3 (one_file (Some 2%positive) 3 (str "abc" ++ [10])) [] = Ret tt w' [] ∧
        written w' 1 = str "c" ++ [10] ∧ match_ (str "c") (str "abc") = true.
Proof. eexists. vm_compute. done. Qed.
