(* ===== verification/UserProgs.v ===== *)
(** * User programs (cat.c, echo.c, wc.c, tail.c, ls.c, nice.c, init.c and the
      small ones)

    Each program is the [main] of its file on the arguments that follow the
    program's name.  Loops that end when the input ends take the bound [fuel]
    on their turns. *)

From S2P Require Import Prelude KState Print Mem Ulib.
#[local] Open Scope kernel_scope.

Section programs.
Context {W : Type} `{Sys W}.

Definition line (fmt : string) : string := fmt +:+ newline.

(** [for] over the files of the command line that [cat] and [wc] share: the
    first that cannot be opened ends the program. *)
Definition over_files (name : string) (prog : Z → list Z → M W unit) (args : list (list Z)) : M W unit :=
  match args with
  | [] => prog 0 [];; u_exit _
  | _ =>
      for_each args (λ f,
        fd <- u_open f 0;;
        if fd <? 0 then printf 1 (line (name +:+ ": cannot open %s")) [AStr (Some f)];; u_exit _ else
        prog fd f;;
        u_close fd;;
        ret tt);;
      u_exit _
  end.

(** ** cat *)

Fixpoint cat (fuel : nat) (fd : Z) : M W unit :=
  match fuel with
  | O => fault "fuel"
  | S fuel' =>
      r <- u_read fd 512;;
      match r with
      | None => printf 1 (line "cat: read error") [];; u_exit _
      | Some [] => ret tt
      | Some bs =>
          n <- u_write 1 bs;;
          if negb (n =? Z.of_nat (length bs)) then printf 1 (line "cat: write error") [];; u_exit _ else
          cat fuel' fd
      end
  end.

Definition cat_main (fuel : nat) : list (list Z) → M W unit := over_files "cat" (λ fd _, cat fuel fd).

(** ** wc *)

(** The counts of lines, words and characters, and [inword]. *)
Record counts : Type := Mkcounts { ct_l : Z; ct_w : Z; ct_c : Z; ct_inword : bool }.

Definition is_space (c : Z) : bool := bool_decide (is_Some (strchr [32; 13; 9; 10; 11] c)).

Definition wc_char (k : counts) (c : Z) : counts :=
  {| ct_c := s32 (k.(ct_c) + 1);
     ct_l := if c =? 10 then s32 (k.(ct_l) + 1) else k.(ct_l);
     ct_w := if is_space c then k.(ct_w) else if k.(ct_inword) then k.(ct_w) else s32 (k.(ct_w) + 1);
     ct_inword := negb (is_space c) |}.

Fixpoint wc_loop (fuel : nat) (fd : Z) (k : counts) : M W counts :=
  match fuel with
  | O => fault "fuel"
  | S fuel' =>
      r <- u_read fd 512;;
      match r with
      | None => printf 1 (line "wc: read error") [];; u_exit _
      | Some [] => ret k
      | Some bs => wc_loop fuel' fd (foldl wc_char k bs)
      end
  end.

Definition wc (fuel : nat) (fd : Z) (name : list Z) : M W unit :=
  k <- wc_loop fuel fd {| ct_l := 0; ct_w := 0; ct_c := 0; ct_inword := false |};;
  printf 1 (line "%d %d %d %s") [AInt k.(ct_l); AInt k.(ct_w); AInt k.(ct_c); AStr (Some name)].

Definition wc_main (fuel : nat) : list (list Z) → M W unit := over_files "wc" (wc fuel).

(** ** echo *)

Fixpoint echo_loop (args : list (list Z)) : M W unit :=
  match args with
  | [] => ret tt
  | a :: args' =>
      printf 1 "%s%s" [AStr (Some a); AStr (Some (match args' with [] => [10] | _ => [32] end))];;
      echo_loop args'
  end.

Definition echo_main (args : list (list Z)) : M W unit := echo_loop args;; u_exit _.

(** ** kill, ln, rm, mkdir, zombie, dump, hello *)

Definition kill_main (args : list (list Z)) : M W unit :=
  match args with
  | [] => printf 2 (line "usage: kill pid...") [];; u_exit _
  | _ => for_each args (λ a, u_kill (atoi a);; ret tt);; u_exit _
  end.

Definition ln_main (args : list (list Z)) : M W unit :=
  match args with
  | [old; new] =>
      r <- u_link old new;;
      (if r <? 0 then printf 2 (line "link %s %s: failed") [AStr (Some old); AStr (Some new)] else ret tt);;
      u_exit _
  | _ => printf 2 (line "Usage: ln old new") [];; u_exit _
  end.

(** [rm] and [mkdir] stop at the first failure. *)
Fixpoint until_failure (call : list Z → M W Z) (fmt : string) (args : list (list Z)) : M W unit :=
  match args with
  | [] => ret tt
  | a :: args' =>
      r <- call a;;
      if r <? 0 then printf 2 fmt [AStr (Some a)] else until_failure call fmt args'
  end.

Definition rm_main (args : list (list Z)) : M W unit :=
  match args with
  | [] => printf 2 (line "Usage: rm files...") [];; u_exit _
  | _ => until_failure u_unlink (line "rm: %s failed to delete") args;; u_exit _
  end.

Definition mkdir_main (args : list (list Z)) : M W unit :=
  match args with
  | [] => printf 2 (line "Usage: mkdir files...") [];; u_exit _
  | _ => until_failure u_mkdir (line "mkdir: %s failed to create") args;; u_exit _
  end.

Definition zombie_main : M W unit :=
  pid <- u_fork;;
  (if 0 <? pid then u_sleep 5;; ret tt else ret tt);;
  u_exit _.

Definition dump_main : M W unit := u_dump 0;; u_exit _.

Definition hello_main : M W unit := printf 1 "Hello, World!" [];; u_exit _.

(** ** child *)

Definition forkP : M W unit :=
  index <- u_fork;;
  if index =? 0 then fd <- u_open (str "README") 0;; u_close fd;; u_exit _ else u_wait;; ret tt.

Definition child_main : M W unit :=
  u_strace T_STRACE;;
  forkP;;
  u_strace T_UNSTRACE;;
  u_strace (Z.lor T_STRACE T_FORK);;
  forkP;;
  u_strace T_UNSTRACE;;
  u_exit _.

(** ** nice *)

Fixpoint spawn_loop (fuel : nat) (target_pid : Z) : M W Z :=
  match fuel with
  | O => fault "fuel"
  | S fuel' =>
      pid <- u_fork;;
      if pid <=? 0 then ret pid
      else if target_pid <=? pid then ret pid
      else u_sleep 10;; spawn_loop fuel' target_pid
  end.

Definition spawn (fuel : nat) (target_pid : Z) : M W unit :=
  pid <- spawn_loop fuel target_pid;;
  if pid =? 0 then spins else ret tt.

Definition nice_main (fuel : nat) (args : list (list Z)) : M W unit :=
  match args with
  | [] => printf 2 (line "Usage: nice [pid] value") [];; u_exit _
  | _ =>
      pv <- match args with
            | [v] => pid <- u_getpid;; ret (pid, atoi v)
            | [p; v] => ret (atoi p, atoi v)
            | _ => ret (-1, 0)
            end;;
      let '(pid, value) := (pv : Z * Z) in
      if (value <? 1) || (5 <? value) then
        printf 2 (line "Error: nice value must be between 1 and 5") [];; u_exit _
      else
        old_nice <- u_nice pid value;;
        old_nice <- (if old_nice =? -1 then
                       printf 2 (line "Process with PID  %d  isn't found.") [AInt pid; AInt pid];;
                       spawn fuel pid;;
                       o <- u_nice pid value;;
                       if o =? -1 then
                         printf 2 (line "Error: Unable to change nice value for PID %d") [AInt pid];; u_exit Z
                       else ret o
                     else ret old_nice);;
        printf 1 (line "%d  %d") [AInt pid; AInt old_nice];;
        u_exit _
  end.

(** ** init *)

(** The inner loop: reap until the shell has ended. *)
Fixpoint init_wait (fuel : nat) (pid : Z) : M W unit :=
  match fuel with
  | O => fault "fuel"
  | S fuel' =>
      wpid <- u_wait;;
      if (0 <=? wpid) && negb (wpid =? pid) then printf 1 (line "zombie!") [];; init_wait fuel' pid else ret tt
  end.

(** [rounds] turns of the endless loop. *)
Fixpoint init_loop (rounds fuel : nat) : M W unit :=
  match rounds with
  | O => ret tt
  | S rounds' =>
      printf 1 (line "init: starting sh") [];;
      pid <- u_fork;;
      if pid <? 0 then printf 1 (line "init: fork failed") [];; u_exit _
      else if pid =? 0 then
        u_exec (str "sh") [str "sh"];;
        printf 1 (line "init: exec sh failed") [];;
        u_exit _
      else init_wait fuel pid;; init_loop rounds' fuel
  end.

Definition init_main (rounds fuel : nat) : M W unit :=
  fd <- u_open (str "console") O_RDWR;;
  (if fd <? 0 then u_mknod (str "console") 1 1;; u_open (str "console") O_RDWR;; ret tt else ret tt);;
  u_dup 0;;
  u_dup 0;;
  init_loop rounds fuel.

(** ** tail *)

Definition MAX_LINES : nat := 100.
Definition MAX_LINE_LENGTH : nat := 512.

(** The inner loop of [read_and_storelines]: one character at a time into
    [line], which keeps what it held before; at most [k] characters. *)
Fixpoint tail_line (k : nat) (fd : Z) (buf : list Z) (i : nat) : M W (list Z * nat) :=
  match k with
  | O => fault "fuel"
  | S k' =>
      r <- u_read fd 1;;
      match r with
      | Some [c] =>
          if (c =? 10) || bool_decide (i = MAX_LINE_LENGTH - 2)%nat
          then ret (<[S i := 0]> (<[i := c]> buf), S i)
          else tail_line k' fd (<[i := c]> buf) (S i)
      | _ => ret (buf, i)
      end
  end.

(** [lines] are the lines stored so far; [k] more fit the array. *)
Fixpoint read_and_storelines (k : nat) (fd : Z) (buf : list Z) (lines : list (list Z)) : M W (list (list Z)) :=
  match k with
  | O => ret lines
  | S k' =>
      r <- tail_line (MAX_LINE_LENGTH - 1) fd buf 0;;
      let '(buf, i) := (r : list Z * nat) in
      if bool_decide (i = 0%nat) then ret lines else
      if bool_decide (0 ∈ buf) then read_and_storelines k' fd buf (lines ++ [cstr buf])
      else fault "tail: line without NUL"
  end.

Definition print_lastlines (lines : list (list Z)) (n : Z) : M W unit :=
  let lineCount := Z.of_nat (length lines) in
  let start := if n <? lineCount then lineCount - n else 0 in
  for_each (drop (Z.to_nat start) lines) (λ l, printf 1 "%s" [AStr (Some l)]).

(** [buf] is what the stack holds where [line] will be. *)
Definition tail_main (buf : list Z) (args : list (list Z)) : M W unit :=
  let '(n, args) := match args with
                    | a :: args' => if hd0 a =? 45 then (atoi (tail a), args') else (10, args)
                    | [] => (10, [])
                    end in
  lines <- match args with
           | [] => read_and_storelines MAX_LINES 0 buf []
           | f :: _ =>
               fd <- u_open f O_RDONLY;;
               if fd <? 0 then printf 2 (line "tail: can't be opened :( %s") [AStr (Some f)];; u_exit _ else
               ls <- read_and_storelines MAX_LINES fd buf [];;
               u_close fd;;
               ret ls
           end;;
  print_lastlines lines n;;
  u_exit _.

(** ** ls *)

Definition UDIRSIZ : nat := 14.

(** The part of a path after its last slash. *)
Fixpoint after_slash (path : list Z) : list Z :=
  match path with
  | [] => []
  | c :: path' => if bool_decide (47 ∈ path') then after_slash path' else if c =? 47 then path' else path
  end.

Definition fmtname (path : list Z) : list Z :=
  let p := after_slash path in
  if (UDIRSIZ <=? length p)%nat then p else p ++ replicate (UDIRSIZ - length p) 32.

Definition ls_print (name : list Z) (st : ustat) : M W unit :=
  printf 1 (line "%s %d %d %d") [AStr (Some (fmtname name)); AInt st.(us_type); AInt st.(us_ino); AInt st.(us_size)].

(** The entries of a directory, 16 bytes each: an inode number and a name. *)
Fixpoint ls_dir (fuel : nat) (fd : Z) (path : list Z) : M W unit :=
  match fuel with
  | O => fault "fuel"
  | S fuel' =>
      r <- u_read fd 16;;
      match r with
      | Some de =>
          if negb (bool_decide (length de = 16%nat)) then ret tt else
          if le_val (take 2 de) =? 0 then ls_dir fuel' fd path else
          let buf := path ++ [47] ++ cstr (drop 2 de) in
          st <- stat buf;;
          (match st with
           | None => printf 1 (line "ls: cannot stat %s") [AStr (Some buf)]
           | Some st => ls_print buf st
           end);;
          ls_dir fuel' fd path
      | None => ret tt
      end
  end.

Definition ls (fuel : nat) (path : list Z) : M W unit :=
  fd <- u_open path 0;;
  if fd <? 0 then printf 2 (line "ls: cannot open %s") [AStr (Some path)] else
  st <- u_fstat fd;;
  match st with
  | None => printf 2 (line "ls: cannot stat %s") [AStr (Some path)];; u_close fd;; ret tt
  | Some st =>
      (if st.(us_type) =? 2 then ls_print path st
       else if st.(us_type) =? 1 then
         if (512 <? length path + 1 + UDIRSIZ + 1)%nat then printf 1 (line "ls: path too long") []
         else ls_dir fuel fd path
       else ret tt);;
      u_close fd;;
      ret tt
  end.

Definition ls_main (fuel : nat) (args : list (list Z)) : M W unit :=
  match args with
  | [] => ls fuel (str ".");; u_exit _
  | _ => for_each args (ls fuel);; u_exit _
  end.

End programs.

(** ** cat and wc *)

(** The pieces of a text between separators, empty ones included. *)
Fixpoint pieces (sep : Z → bool) (text : list Z) : list (list Z) :=
  match text with
  | [] => [[]]
  | c :: text' =>
      if sep c then [] :: pieces sep text'
      else match pieces sep text' with [] => [[c]] | p :: ps => (c :: p) :: ps end
  end.

(** The words of a text are its pieces between white space. *)
Definition words (text : list Z) : list (list Z) := filter (λ p, p ≠ []) (pieces is_space text).
Definition newlines (text : list Z) : list Z := filter (λ c, c = 10) text.

(** A text that begins in a word. *)
Definition starts_word (text : list Z) : bool :=
  match text with [] => false | c :: _ => negb (is_space c) end.

Definition counts_of (text : list Z) (k : counts) : counts :=
  {| ct_l := k.(ct_l) + Z.of_nat (length (newlines text));
     ct_w := k.(ct_w) + Z.of_nat (length (words text))
             - (if k.(ct_inword) && starts_word text then 1 else 0);
     ct_c := k.(ct_c) + Z.of_nat (length text);
     ct_inword := match last text with Some c => negb (is_space c) | None => k.(ct_inword) end |}.

Lemma pieces_head sep text : ∃ p ps, pieces sep text = p :: ps ∧ (p = [] ↔ match text with c :: _ => sep c = true | [] => True end).
Proof.
  destruct text as [|c text]; simpl; [by exists [], []|]. destruct (sep c); [by exists [], (pieces sep text)|].
  destruct (pieces sep text); by eexists _, _.
Qed.

Lemma words_cons c text :
  length (words (c :: text)) =
    (length (words text) + if is_space c then 0 else if starts_word text then 0 else 1)%nat.
Proof.
  unfold words. simpl. destruct (is_space c); [rewrite filter_cons_False by naive_solver; lia|].
  destruct (pieces_head is_space text) as (p & ps & Hp & Hiff). rewrite Hp, filter_cons_True by done.
  rewrite filter_cons. destruct text as [|d text]; simpl in *.
  - destruct (decide (p ≠ [])); [tauto|]. simpl. lia.
  - destruct (is_space d), (decide (p ≠ [])); simpl; try lia; naive_solver.
Qed.

Lemma words_length text : (length (words text) ≤ length text)%nat.
Proof.
  induction text as [|c text IH]; [done|]. rewrite words_cons. simpl.
  destruct (is_space c); [lia|]. destruct (starts_word _); lia.
Qed.

Lemma newlines_length text : (length (newlines text) ≤ length text)%nat.
Proof. apply length_filter. Qed.

(** The loop over the bytes, as long as no counter overflows. *)
Lemma wc_chars text k :
  0 ≤ k.(ct_l) ≤ k.(ct_c) → 0 ≤ k.(ct_w) ≤ k.(ct_c) → (k.(ct_inword) = true → 1 ≤ k.(ct_w)) →
  k.(ct_c) + Z.of_nat (length text) < 2147483648 →
  foldl wc_char k text = counts_of text k.
Proof.
  revert k. induction text as [|c text IH]; intros k Hl Hw Hin Hc.
  { destruct k as [l w c b]. unfold counts_of. simpl. rewrite andb_false_r. f_equal; lia. }
  simpl in *. unfold wc_char at 2. rewrite !s32_id by (unfold is_s32; lia).
  rewrite IH; simpl; [|destruct (c =? 10); lia|destruct (is_space c), (ct_inword k); lia| |lia].
  2: { destruct (is_space c); [done|]. destruct (ct_inword k); [auto|lia]. }
  unfold counts_of. simpl. f_equal.
  - unfold newlines. rewrite filter_cons. destruct (c =? 10) eqn:E; bool_facts.
    + rewrite decide_True by done. simpl. lia.
    + rewrite decide_False by done. lia.
  - rewrite words_cons. destruct (is_space c), (ct_inword k), (starts_word text); simpl; lia.
  - lia.
  - destruct text as [|d text]; [done|]. rewrite !last_cons. destruct (last text); done.
Qed.

Section streams.
Context {W : Type} `{Streams W}.
Implicit Types (w : W) (e : list (W → W)).

Lemma wc_loop_run fuel fd k w e :
  (length (pending w fd) < fuel)%nat →
  ∃ w', wc_loop fuel fd k w e = Ret (foldl wc_char k (pending w fd)) w' e ∧
        pending w' fd = [] ∧ written w' = written w.
Proof.
  revert k w. induction fuel as [|fuel IH]; intros k w Hf; [lia|]. cbn [wc_loop].
  destruct (read_spec w e fd 512) as (bs & w1 & Hr & _ & Hp & Hnil & _ & Hw); [lia|]. mstep Hr.
  destruct bs as [|b bs].
  - exists w1. specialize (Hnil eq_refl). rewrite Hnil in Hp. simpl in Hp. by rewrite Hnil, <- Hp.
  - rewrite Hp in Hf. simpl in Hf. rewrite length_app in Hf.
    destruct (IH (foldl wc_char k (b :: bs)) w1) as (w' & Hr' & Hp' & Hw'); [lia|].
    exists w'. rewrite Hp, foldl_app. split_and!; [exact Hr'|done|congruence].
Qed.

(** Wc on any descriptor, however its bytes arrive: it reads to the end and
    prints the number of newlines, of words (the pieces between white space
    that are not empty) and of bytes, and the name. *)
Theorem wc_correct fuel fd name w e :
  let text := pending w fd in
  (length text < fuel)%nat → Z.of_nat (length text) < 2147483648 → Forall (λ c, c ≠ 0) name →
  ∃ w', wc fuel fd name w e = Ret tt w' e ∧ pending w' fd = [] ∧
        written w' 1 = written w 1 ++ uprintint (Z.of_nat (length (newlines text))) 10 true ++ [32]
          ++ uprintint (Z.of_nat (length (words text))) 10 true ++ [32]
          ++ uprintint (Z.of_nat (length text)) 10 true ++ [32] ++ name ++ [10].
Proof.
  intros text Hf Hlen Hname. set (k0 := {| ct_l := 0; ct_w := 0; ct_c := 0; ct_inword := false |}).
  destruct (wc_loop_run fuel fd k0 w e Hf) as (w1 & Hr & Hp & Hw). fold text in Hr.
  rewrite (wc_chars text k0) in Hr by (simpl; lia || done).
  set (k := counts_of text k0) in *. pose proof (printf_run w1 e 1 (line "%d %d %d %s")
    [AInt k.(ct_l); AInt k.(ct_w); AInt k.(ct_c); AStr (Some name)]) as Hpr.
  destruct (Hpr _ eq_refl) as (w2 & Hr2 & [Hw2 _ Hp2]). exists w2. split; [unfold wc; fold k0; mstep Hr; exact Hr2|].
  split; [by rewrite Hp2|]. rewrite Hw2, Hw, (cstr_id name Hname).
  replace (ct_w k) with (Z.of_nat (length (words text))) by (simpl; lia). done.
Qed.

Lemma cat_run fuel fd w e :
  (length (pending w fd) < fuel)%nat →
  ∃ w', cat fuel fd w e = Ret tt w' e ∧ pending w' fd = [] ∧ written w' 1 = written w 1 ++ pending w fd.
Proof.
  revert w. induction fuel as [|fuel IH]; intros w Hf; [lia|]. cbn [cat].
  destruct (read_spec w e fd 512) as (bs & w1 & Hr & _ & Hp & Hnil & _ & Hw); [lia|]. mstep Hr.
  destruct bs as [|b bs].
  - exists w1. specialize (Hnil eq_refl). rewrite Hnil in Hp. simpl in Hp. by rewrite Hnil, <- Hp, Hw, app_nil_r.
  - destruct (write_run w1 e 1 (b :: bs)) as (w2 & Hr2 & [Hw2 _ Hp2]). mstep Hr2. rewrite Z.eqb_refl. simpl.
    rewrite Hp in Hf. simpl in Hf. rewrite length_app in Hf. destruct (IH w2) as (w' & Hr' & Hp' & Hw'); [rewrite Hp2; lia|].
    exists w'. split_and!; [done..|]. rewrite Hw', Hw2, Hp2, Hw, Hp. by rewrite <- app_assoc.
Qed.

(** ** tail *)

Lemma read_one w e fd c rest :
  pending w fd = c :: rest → ∃ w', u_read fd 1 w e = Ret (Some [c]) w' e ∧ pending w' fd = rest ∧ written w' = written w.
Proof.
  intros Hp. destruct (read_spec w e fd 1) as (bs & w' & Hr & Hlen & Hpend & Hnil & _ & Hw); [lia|].
  rewrite Hp in *. destruct bs as [|b [|b' bs]]; [by specialize (Hnil eq_refl)| |simpl in Hlen; lia].
  exists w'. by simplify_eq/=.
Qed.

Lemma read_none w e fd :
  pending w fd = [] → ∃ w', u_read fd 1 w e = Ret (Some []) w' e ∧ pending w' fd = [] ∧ written w' = written w.
Proof.
  intros Hp. destruct (read_spec w e fd 1) as (bs & w' & Hr & Hlen & Hpend & _ & _ & Hw); [lia|].
  rewrite Hp in Hpend. symmetry in Hpend. apply app_eq_nil in Hpend as [-> ?]. by exists w'.
Qed.

Lemma take_insert_S (l : list Z) i c : (i < length l)%nat → take (S i) (<[i := c]> l) = take i l ++ [c].
Proof.
  intros Hi. rewrite (take_S_r _ _ c) by (by apply list_lookup_insert_eq). by rewrite take_insert_ge.
Qed.

Lemma tail_line_run k l rest fd buf i w e :
  10 ∉ l → pending w fd = l ++ 10 :: rest → length buf = MAX_LINE_LENGTH →
  (i + length l ≤ MAX_LINE_LENGTH - 2)%nat → (length l < k)%nat →
  ∃ buf' w', tail_line k fd buf i w e = Ret (buf', S (i + length l)) w' e ∧ length buf' = MAX_LINE_LENGTH ∧
    take (i + length l + 2) buf' = take i buf ++ l ++ [10; 0] ∧ pending w' fd = rest ∧ written w' = written w.
Proof.
  revert k buf i w. induction l as [|c l IH]; intros [|k] buf i w Hl Hp Hb Hi Hk; simpl in *; try lia; cbn [tail_line].
  - destruct (read_one w e fd 10 rest Hp) as (w' & Hr & Hp' & Hw). mstep Hr. simpl. eexists _, w'.
    rewrite Nat.add_0_r in *. split_and!; [done|by rewrite !length_insert| |done|done].
    unfold MAX_LINE_LENGTH in *. replace (i + 2)%nat with (S (S i)) by lia.
    rewrite !take_insert_S by (rewrite ?length_insert; lia). by rewrite <- app_assoc.
  - apply not_elem_of_cons in Hl as [Hc Hl]. destruct (read_one w e fd c _ Hp) as (w1 & Hr & Hp1 & Hw1). mstep Hr.
    rewrite (proj2 (Z.eqb_neq c 10)), bool_decide_eq_false_2 by (congruence || lia). simpl.
    destruct (IH k (<[i := c]> buf) (S i) w1 Hl Hp1) as (buf' & w' & Hr' & Hlb & Ht & Hp' & Hw'); [by rewrite length_insert|lia|lia|].
    exists buf', w'. split_and!; [| done| |done|congruence].
    + rewrite Hr'. do 2 f_equal. lia.
    + replace (i + S (length l) + 2)%nat with (S i + length l + 2)%nat by lia. rewrite Ht.
      unfold MAX_LINE_LENGTH in *. rewrite take_insert_S by lia. by rewrite <- app_assoc.
Qed.

Lemma tail_line_end k fd buf i w e :
  pending w fd = [] → ∃ w', tail_line (S k) fd buf i w e = Ret (buf, i) w' e ∧ written w' = written w.
Proof.
  intros Hp. destruct (read_none w e fd Hp) as (w' & Hr & _ & Hw). exists w'. split; [|done].
  cbn [tail_line]. by mstep Hr.
Qed.

(** The lines of a text that tail stores whole. *)
Definition short_line (l : list Z) : Prop := Forall (λ c, c ≠ 0 ∧ c ≠ 10) l ∧ (length l ≤ MAX_LINE_LENGTH - 2)%nat.

Definition with_newlines (ls : list (list Z)) : list (list Z) := (λ l, l ++ [10]) <$> ls.

Lemma read_and_storelines_run k fd buf ls acc w e :
  Forall short_line ls → pending w fd = concat (with_newlines ls) → length buf = MAX_LINE_LENGTH → (length ls ≤ k)%nat →
  ∃ w', read_and_storelines k fd buf acc w e = Ret (acc ++ with_newlines ls) w' e ∧ written w' = written w.
Proof.
  revert k buf acc w. induction ls as [|l ls IH]; intros k buf acc w Hls Hp Hb Hk.
  - simpl in Hp. rewrite app_nil_r. destruct k as [|k]; [by exists w|]. cbn [read_and_storelines].
    destruct (tail_line_end 510 fd buf 0 w e Hp) as (w' & Hr & Hw). exists w'. split; [by mstep Hr|done].
  - destruct k as [|k]; [simpl in Hk; lia|]. apply Forall_cons in Hls as [[Hnz Hlen] Hls].
    assert (10 ∉ l) as H10. { intros Hin. rewrite Forall_forall in Hnz. by destruct (Hnz 10 Hin). }
    assert (pending w fd = l ++ 10 :: concat (with_newlines ls)) as Hp' by (rewrite Hp; simpl; by rewrite <- app_assoc).
    destruct (tail_line_run (MAX_LINE_LENGTH - 1) l _ fd buf 0 w e H10 Hp' Hb Hlen) as (buf' & w1 & Hr & Hb' & Ht & Hp1 & Hw1).
    { unfold MAX_LINE_LENGTH in *. lia. }
    assert (buf' = (l ++ [10]) ++ 0 :: drop (length l + 2) buf') as Hbuf.
    { rewrite <- (take_drop (length l + 2) buf') at 1. simpl in Ht. rewrite Ht, <- !app_assoc. done. }
    assert (cstr buf' = l ++ [10]) as Hc.
    { rewrite Hbuf. apply cstr_app_nul. apply Forall_app. split; [|by repeat constructor].
      eapply Forall_impl; [exact Hnz|]. naive_solver. }
    cbn [read_and_storelines]. mstep Hr. simpl. rewrite bool_decide_eq_true_2 by (rewrite Hbuf, elem_of_app, elem_of_cons; tauto). rewrite Hc.
    destruct (IH k buf' (acc ++ [l ++ [10]]) w1 Hls Hp1 Hb' ltac:(simpl in Hk; lia)) as (w' & Hr' & Hw').
    exists w'. split; [|congruence]. by rewrite Hr', <- app_assoc.
Qed.

Lemma print_lines_run ls w e :
  Forall (Forall (λ c, c ≠ 0)) ls →
  ∃ w', for_each ls (λ l, printf 1 "%s" [AStr (Some l)]) w e = Ret tt w' e ∧ wrote 1 (concat ls) w w'.
Proof.
  revert w. induction ls as [|l ls IH]; intros w Hls; [exists w; split; [done|apply wrote_nil]|].
  apply Forall_cons in Hls as [Hl Hls]. simpl.
  destruct (printf_run w e 1 "%s" [AStr (Some l)] l) as (w1 & Hr & Hw1); [simpl; by rewrite (cstr_id l Hl), app_nil_r|].
  destruct (IH w1 Hls) as (w' & Hr' & Hw'). exists w'. split; [by mstep Hr|by eapply wrote_trans].
Qed.

(** Tail of a standard input of at most 100 lines of at most 510 characters,
    all ended by newlines: it prints the last lines, ten of them or as many as
    the option says, and exits. *)
Theorem tail_correct buf args n ls w e :
  (args = [] ∧ n = 10 ∨ ∃ d, args = [45 :: d] ∧ n = atoi d) → 0 ≤ n → length buf = MAX_LINE_LENGTH →
  Forall short_line ls → pending w 0 = concat (with_newlines ls) → (length ls ≤ MAX_LINES)%nat →
  ∃ w', tail_main buf args w e = Switched w' ∧
        written w' 1 = written w 1 ++ concat (with_newlines (drop (length ls - Z.to_nat n) ls)).
Proof.
  intros Hargs Hn Hb Hls Hp Hk.
  destruct (read_and_storelines_run MAX_LINES 0 buf ls [] w e Hls Hp Hb Hk) as (w1 & Hr1 & Hw1).
  assert (∀ m, Forall (Forall (λ c, c ≠ 0)) (drop m (with_newlines ls))) as Hnz.
  { intros m. apply Forall_drop, Forall_fmap. eapply Forall_impl; [exact Hls|]. intros l [Hl _]. simpl.
    apply Forall_app. split; [|by repeat constructor]. eapply Forall_impl; [exact Hl|]. naive_solver. }
  destruct (print_lines_run _ w1 e (Hnz (length ls - Z.to_nat n)%nat)) as (w2 & Hr2 & [Hw2 _ _]).
  exists w2. split; [|unfold with_newlines; by rewrite Hw2, Hw1, fmap_drop].
  assert (print_lastlines (with_newlines ls) n w1 e = Ret tt w2 e) as Hpl.
  { unfold print_lastlines, with_newlines in *. rewrite length_fmap in *. rewrite <- Hr2. f_equal.
    destruct (n <? Z.of_nat (length ls)) eqn:E; bool_facts; f_equal; lia. }
  unfold tail_main. destruct Hargs as [[-> ->]|(d & -> & ->)].
  - cbv beta iota zeta. mstep Hr1. mstep Hpl. apply exit_spec.
  - change (hd0 (45 :: d) =? 45) with true. cbv beta iota zeta. mstep Hr1. mstep Hpl. apply exit_spec.
Qed.

End streams.

(** ** Examples *)

Lemma wc_correct_witness :
  ∃ w', wc 12 3 (str "f") (one_file (Some 4%positive) 3 (str "ab  cd" ++ [10] ++ str "e" ++ [10])) [] = Ret tt w' [] ∧
        written w' 1 = str "2 3 9 f" ++ [10].
Proof.
  destruct (wc_correct 12 3 (str "f") (one_file (Some 4%positive) 3 (str "ab  cd" ++ [10] ++ str "e" ++ [10])) [])
    as (w' & Hrun & _ & Hw); [vm_compute; lia|reflexivity|by repeat constructor|].
  exists w'. split; [exact Hrun|]. rewrite Hw. vm_compute. reflexivity.
Defined.

Definition three_lines : list (list Z) := [str "one"; str "two"; str "three"].

Lemma tail_correct_witness :
  Forall short_line three_lines ∧
  ∃ w', tail_main (replicate 512 7) [str "-2"] (one_file None 0 (concat (with_newlines three_lines))) [] = Switched w' ∧
        written w' 1 = str "two" ++ [10] ++ str "three" ++ [10].
Proof.
  assert (Forall short_line three_lines) as Hs by (apply (bool_decide_eq_true_1 _); vm_compute; reflexivity).
  split; [exact Hs|].
  destruct (tail_correct (replicate 512 7) [str "-2"] 2 three_lines (one_file None 0 (concat (with_newlines three_lines))) [])
    as (w' & Hrun & Hw); [right; by exists [50]|lia|reflexivity|exact Hs|reflexivity|vm_compute; lia|].
  exists w'. split; [exact Hrun|]. rewrite Hw. vm_compute. reflexivity.
Defined.

(** A last line without a newline is printed with what the buffer held after
    it, here the end of the line before. *)
Lemma tail_stale_line :
  ∃ w', tail_main (replicate 512 0) [str "-1"] (one_file None 0 (str "hello" ++ [10] ++ str "by")) [] = Switched w' ∧
        written w' 1 = str "byllo" ++ [10].
Proof. eexists. vm_compute. done. Qed.

(** Of a file of more than 100 lines, only the first 100 are considered. *)
Lemma tail_only_first_lines :
  ∃ w', tail_main (replicate 512 0) [str "-1"]
          (one_file None 0 (concat (replicate 100 (str "a" ++ [10])) ++ str "last" ++ [10])) [] = Switched w' ∧
        written w' 1 = str "a" ++ [10].
Proof. eexists. vm_compute. done. Qed.
