(* ===== verification/Shell.v ===== *)
(** * The shell (sh.c)

    The command parser, the interpreter of commands and the main loop with its
    strace commands.

    A pointer into the command line is the suffix of the line it points to.
    The parser leaves pointers to the start and the end of each word; after it,
    [nulterminate] stores a NUL at each end.  [panic] prints its message and
    ends the process, so that the parser's result is a command or the message. *)

From S2P Require Import Prelude KState Print Mem Ulib UserProgs.
#[local] Open Scope kernel_scope.

(** ** Commands *)

(** [T] is the type of words: pointers after parsing, strings at run time. *)
Inductive cmd (T : Type) : Type :=
| EXEC (argv : list T)
| REDIR (c : cmd T) (file : T) (mode fd : Z)
| PIPE (left right : cmd T)
| LIST (left right : cmd T)
| BACK (c : cmd T).
Arguments EXEC {T} argv.
Arguments REDIR {T} c file mode fd.
Arguments PIPE {T} left right.
Arguments LIST {T} left right.
Arguments BACK {T} c.

Definition MAXARGS : nat := 10.

(** A word of the line: [q] and [eq]. *)
Record word : Type := Mkword { w_q : list Z; w_eq : list Z }.

(** ** Tokens *)

Definition whitespace : list Z := [32; 9; 13; 10; 11].
Definition symbols : list Z := str "<|>&;()".

Definition in_str (set : list Z) (c : Z) : bool := bool_decide (is_Some (strchr set c)).

Fixpoint skip (P : Z → bool) (s : list Z) : list Z :=
  match s with [] => [] | c :: s' => if P c then skip P s' else s end.

Definition skip_ws : list Z → list Z := skip (in_str whitespace).
Definition is_wordchar (c : Z) : bool := negb (in_str whitespace c) && negb (in_str symbols c).

(** The token at [ps]: its kind, its start and end, and the new [ps]. *)
Definition gettoken (ps : list Z) : Z * word * list Z :=
  let s := skip_ws ps in
  let '(ret, e) :=
    match s with
    | [] => (0, s)
    | c :: s' =>
        if in_str (str "|();&<") c then (c, s')
        else if c =? 62 then
          match s' with
          | d :: s'' => if d =? 62 then (43, s'') else (62, s')
          | [] => (62, s')
          end
        else (97, skip is_wordchar s)
    end in
  (ret, {| w_q := s; w_eq := e |}, skip_ws e).

(** Whether the next character is one of [toks], and the new [ps]. *)
Definition peek (ps : list Z) (toks : string) : bool * list Z :=
  let s := skip_ws ps in
  (match s with c :: _ => in_str (str toks) c | [] => false end, s).

(** ** The parser *)

Inductive parsed (A : Type) : Type :=
| Parsed (a : A) (ps : list Z)
| Syntax (msg : string)
| NoFuel.
Arguments Parsed {A} a ps.
Arguments Syntax {A} msg.
Arguments NoFuel {A}.

Definition pbind {A B} (p : parsed A) (k : A → list Z → parsed B) : parsed B :=
  match p with Parsed a ps => k a ps | Syntax m => Syntax m | NoFuel => NoFuel end.

Definition redir (tok : Z) (f : word) (c : cmd word) : cmd word :=
  if tok =? 60 then REDIR c f O_RDONLY 0
  else if tok =? 62 then REDIR c f (Z.lor O_WRONLY O_CREATE) 1
  else if tok =? 43 then REDIR c f (Z.lor O_WRONLY O_CREATE) 1
  else c.

(** The loop of [parseredirs]: what it wraps around the command. *)
Fixpoint parseredirs (fuel : nat) (ps : list Z) (wrap : cmd word → cmd word) : parsed (cmd word → cmd word) :=
  match fuel with
  | O => NoFuel
  | S fuel' =>
      let '(b, ps) := peek ps "<>" in
      if b : bool then
        let '(tok, _, ps) := gettoken ps in
        let '(t, f, ps) := gettoken ps in
        if negb (t =? 97) then Syntax "missing file for redirection"
        else parseredirs fuel' ps (λ c, redir tok f (wrap c))
      else Parsed wrap ps
  end.

(** The loop of [parseexec] over the words and redirections. *)
Fixpoint parseargs (fuel : nat) (ps : list Z) (argv : list word) (wrap : cmd word → cmd word) : parsed (cmd word) :=
  match fuel with
  | O => NoFuel
  | S fuel' =>
      let '(b, ps) := peek ps "|)&;" in
      if b : bool then Parsed (wrap (EXEC argv)) ps else
      let '(tok, a, ps) := gettoken ps in
      if tok =? 0 then Parsed (wrap (EXEC argv)) ps
      else if negb (tok =? 97) then Syntax "syntax"
      else
        let argv := argv ++ [a] in
        if (MAXARGS <=? length argv)%nat then Syntax "too many args"
        else pbind (parseredirs fuel' ps wrap) (λ wrap ps, parseargs fuel' ps argv wrap)
  end.

(** The loop of [parseline] over the &s. *)
Fixpoint parsebacks (fuel : nat) (ps : list Z) (c : cmd word) : parsed (cmd word) :=
  match fuel with
  | O => NoFuel
  | S fuel' =>
      let '(b, ps) := peek ps "&" in
      if b : bool then let '(_, _, ps) := gettoken ps in parsebacks fuel' ps (BACK c) else Parsed c ps
  end.

(** [n] bounds the turns of the loops. *)
Fixpoint parseline (fuel n : nat) (ps : list Z) : parsed (cmd word) :=
  match fuel with
  | O => NoFuel
  | S fuel' =>
      pbind (parsepipe fuel' n ps) (λ c ps,
      pbind (parsebacks n ps c) (λ c ps,
      let '(b, ps) := peek ps ";" in
      if b : bool then
        let '(_, _, ps) := gettoken ps in
        pbind (parseline fuel' n ps) (λ r ps, Parsed (LIST c r) ps)
      else Parsed c ps))
  end
with parsepipe (fuel n : nat) (ps : list Z) : parsed (cmd word) :=
  match fuel with
  | O => NoFuel
  | S fuel' =>
      pbind (parseexec fuel' n ps) (λ c ps,
      let '(b, ps) := peek ps "|" in
      if b : bool then
        let '(_, _, ps) := gettoken ps in
        pbind (parsepipe fuel' n ps) (λ r ps, Parsed (PIPE c r) ps)
      else Parsed c ps)
  end
with parseexec (fuel n : nat) (ps : list Z) : parsed (cmd word) :=
  match fuel with
  | O => NoFuel
  | S fuel' =>
      let '(b, ps) := peek ps "(" in
      if b : bool then parseblock fuel' n ps else
      pbind (parseredirs n ps (λ c, c)) (λ wrap ps, parseargs n ps [] wrap)
  end
with parseblock (fuel n : nat) (ps : list Z) : parsed (cmd word) :=
  match fuel with
  | O => NoFuel
  | S fuel' =>
      let '(b, ps) := peek ps "(" in
      if negb b then Syntax "parseblock" else
      let '(_, _, ps) := gettoken ps in
      pbind (parseline fuel' n ps) (λ c ps,
      let '(b, ps) := peek ps ")" in
      if negb b then Syntax "syntax - missing )" else
      let '(_, _, ps) := gettoken ps in
      pbind (parseredirs n ps (λ c, c)) (λ wrap ps, Parsed (wrap c) ps))
  end.

(** The parser calls are nested at most four deep per character. *)
Definition parse_fuel (s : list Z) : nat := 4 * length s + 8.

(** [parsecmd] up to its test for leftovers. *)
Definition parse (s : list Z) : parsed (cmd word) :=
  pbind (parseline (parse_fuel s) (S (length s)) s) (λ c ps, Parsed c (peek ps "").2).

(** ** nulterminate *)

(** Store a NUL at [eq] in the line [s], of which [len] characters were there. *)
Definition put_nul (len : nat) (w : word) (s : list Z) : list Z := <[(len - length w.(w_eq))%nat := 0]> s.

Fixpoint nulterminate (len : nat) (c : cmd word) (s : list Z) : list Z :=
  match c with
  | EXEC argv => foldl (λ s w, put_nul len w s) s argv
  | REDIR c f _ _ => put_nul len f (nulterminate len c s)
  | PIPE l r | LIST l r => nulterminate len r (nulterminate len l s)
  | BACK c => nulterminate len c s
  end.

(** The string a word stands for, in the line [s] after [nulterminate]. *)
Definition string_of (len : nat) (s : list Z) (w : word) : list Z := cstr (drop (len - length w.(w_q)) s).

Fixpoint cmd_map {T U} (f : T → U) (c : cmd T) : cmd U :=
  match c with
  | EXEC argv => EXEC (f <$> argv)
  | REDIR c t m fd => REDIR (cmd_map f c) (f t) m fd
  | PIPE l r => PIPE (cmd_map f l) (cmd_map f r)
  | LIST l r => LIST (cmd_map f l) (cmd_map f r)
  | BACK c => BACK (cmd_map f c)
  end.

(** The command with its strings, as [runcmd] sees it. *)
Definition strings (s : list Z) (c : cmd word) : cmd (list Z) :=
  cmd_map (string_of (length s) (nulterminate (length s) c s)) c.

(** ** Running commands *)

Section run.
Context {W : Type} `{Sys W}.

Definition sh_panic {A} (msg : string) : M W A :=
  printf 2 (line "%s") [AStr (Some (str msg))];; u_exit A.

Definition fork1 : M W Z :=
  pid <- u_fork;;
  if pid =? -1 then sh_panic "fork" else ret pid.

Definition parsecmd (s : list Z) : M W (cmd (list Z)) :=
  match parse s with
  | Parsed c [] => ret (strings s c)
  | Parsed _ ps => printf 2 (line "leftovers: %s") [AStr (Some ps)];; sh_panic "syntax"
  | Syntax msg => sh_panic msg
  | NoFuel => fault "fuel"
  end.

Fixpoint runcmd (stracing : bool) (c : cmd (list Z)) : M W unit :=
  (match c with
   | EXEC [] => u_exit _
   | EXEC (a :: argv) =>
       (if stracing then u_strace (Z.lor T_STRACE T_FORK);; ret tt else ret tt);;
       u_exec a (a :: argv);;
       printf 2 (line "exec %s failed") [AStr (Some a)]
   | REDIR c f mode fd =>
       u_close fd;;
       r <- u_open f mode;;
       if r <? 0 then printf 2 (line "open %s failed") [AStr (Some f)];; u_exit _ else
       runcmd stracing c
   | LIST l r =>
       pid <- fork1;;
       (if pid =? 0 then runcmd stracing l else ret tt);;
       u_wait;;
       runcmd stracing r
   | PIPE l r =>
       p <- u_pipe;;
       match p with
       | None => sh_panic "pipe"
       | Some (p0, p1) =>
           pid <- fork1;;
           (if pid =? 0 then
              u_close 1;; u_dup p1;; u_close p0;; u_close p1;; runcmd stracing l
            else ret tt);;
           pid <- fork1;;
           (if pid =? 0 then
              u_close 0;; u_dup p0;; u_close p0;; u_close p1;; runcmd stracing r
            else ret tt);;
           u_close p0;;
           u_close p1;;
           u_wait;;
           u_wait;;
           ret tt
       end
   | BACK c =>
       pid <- fork1;;
       if pid =? 0 then runcmd stracing c else ret tt
   end);;
  u_exit _.

(** ** The strace commands *)

(** [stracing], [dumping], [straceRunning] and [straceFlag]. *)
Record shstate : Type := Mksh { sh_stracing : bool; sh_dumping : bool; sh_running : bool; sh_flag : bool }.

(** The comparison stops at the newline of [s1]. *)
Fixpoint streq (s1 s2 : list Z) : bool :=
  match s1 with
  | [] => false
  | c :: s1' => if negb (c =? hd0 s2) then false else if c =? 10 then true else streq s1' (tail s2)
  end.

Definition syscall_names : list (list Z) :=
  str <$> ["fork"; "exit"; "wait"; "pipe"; "read"; "kill"; "exec"; "fstat"; "chdir"; "dup"; "getpid"; "sbrk";
           "sleep"; "uptime"; "open"; "write"; "mknod"; "unlink"; "link"; "mkdir"; "close"; "trace"].

(** The index of the last name that [strcmp] finds equal, -1 for none. *)
Definition name_index (s : list Z) : Z :=
  foldl (λ k i, if strcmp s (syscall_names !!! i) =? 0 then Z.of_nat i else k) (-1) (seq 0 22).

(** [syscallCmd] has 20 bytes, the last of which must be left for the NUL. *)
Definition parse_syscallN (buf : list Z) (start : nat) : M W Z :=
  let s := slice start (length buf - 1 - start) buf in
  if (20 <=? length s)%nat then fault "syscallCmd overflow" else ret (name_index s).

Definition starts (pre : string) (buf : list Z) : bool :=
  bool_decide (take (length (str pre)) buf = str pre).

(** Run a command line in a child and wait for it. *)
Definition run_line (stracing : bool) (s : list Z) : M W unit :=
  pid <- fork1;;
  (if pid =? 0 then c <- parsecmd s;; runcmd stracing c else ret tt);;
  u_wait;;
  ret tt.

Definition straceR_commands (sh : shstate) (buf : list Z) : M W (bool * shstate) :=
  if streq buf (str (line "strace on")) then
    ret (true, Mksh true sh.(sh_dumping) sh.(sh_running) sh.(sh_flag))
  else if streq buf (str (line "strace off")) then
    ret (true, Mksh false sh.(sh_dumping) sh.(sh_running) sh.(sh_flag))
  else if sh.(sh_dumping) || streq buf (str (line "strace dump")) then
    run_line sh.(sh_stracing) (drop 7 buf);;
    ret (true, Mksh sh.(sh_stracing) false sh.(sh_running) sh.(sh_flag))
  else ret (false, sh).

Definition straceO_commands (sh : shstate) (buf : list Z) : M W (bool * shstate) :=
  let on := Mksh true sh.(sh_dumping) sh.(sh_running) true in
  if starts "strace -e " buf then
    i <- parse_syscallN buf 10;; u_eflag i;; ret (true, on)
  else if starts "strace -s -e " buf then
    i <- parse_syscallN buf 13;; u_sflag 1;; u_eflag i;; ret (true, on)
  else if starts "strace -f -e " buf then
    i <- parse_syscallN buf 13;; u_fflag 1;; u_eflag i;; ret (true, on)
  else if starts "strace -s" buf then u_sflag 1;; ret (true, on)
  else if starts "strace -f" buf then u_fflag 1;; ret (true, on)
  else ret (false, sh).

Definition straceR_mode (sh : shstate) (buf : list Z) : M W (bool * shstate) :=
  if sh.(sh_running) || starts "strace run " buf then
    run_line true (drop 11 buf);;
    ret (true, Mksh true sh.(sh_dumping) true sh.(sh_flag))
  else ret (false, sh).

(** ** The main loop *)

(** One turn of the loop of [main] on the line [buf]. *)
Definition sh_turn (sh : shstate) (buf : list Z) : M W shstate :=
  if starts "cd " buf then
    let dir := drop 3 (take (length buf - 1) buf) in
    r <- u_chdir dir;;
    (if r <? 0 then printf 2 (line "cannot cd %s") [AStr (Some dir)] else ret tt);;
    ret sh
  else
    r1 <- straceR_commands sh buf;;
    let '(b, sh) := (r1 : bool * shstate) in
    if b then ret sh else
    r2 <- straceO_commands sh buf;;
    let '(b, sh) := (r2 : bool * shstate) in
    if b then ret sh else
    r3 <- straceR_mode sh buf;;
    let '(b, sh) := (r3 : bool * shstate) in
    if b then ret sh else
    (if negb sh.(sh_running) then run_line sh.(sh_stracing) buf else u_wait;; ret tt);;
    ret (Mksh (sh.(sh_stracing) && negb sh.(sh_flag) && negb sh.(sh_running)) sh.(sh_dumping)
              sh.(sh_running) sh.(sh_flag)).

Definition getcmd (nbuf : Z) : M W (list Z) :=
  printf 2 "$ " [];;
  buf <- ugets nbuf;;
  ret (cstr buf).

Fixpoint sh_loop (fuel : nat) (sh : shstate) : M W unit :=
  match fuel with
  | O => fault "fuel"
  | S fuel' =>
      buf <- getcmd 100;;
      match buf with
      | [] => u_exit _
      | _ => sh <- sh_turn sh buf;; sh_loop fuel' sh
      end
  end.

(** [main]: three descriptors first. *)
Fixpoint open_console (fuel : nat) : M W unit :=
  match fuel with
  | O => fault "fuel"
  | S fuel' =>
      fd <- u_open (str "console") O_RDWR;;
      if fd <? 0 then ret tt
      else if 3 <=? fd then u_close fd;; ret tt
      else open_console fuel'
  end.

Definition sh_main (fuel : nat) : M W unit :=
  open_console 5;;
  sh_loop fuel (Mksh false false false false).

End run.

(** ** The parser always ends *)

(** [p] is a result, and leaves at most [n] characters. *)
Definition leaves {A} (n : nat) (p : parsed A) : Prop :=
  match p with Parsed _ ps => (length ps ≤ n)%nat | Syntax _ => True | NoFuel => False end.

Lemma leaves_bind {A B} n m (p : parsed A) (k : A → list Z → parsed B) :
  leaves n p → (∀ a ps, (length ps ≤ n)%nat → leaves m (k a ps)) → leaves m (pbind p k).
Proof. destruct p; simpl; auto. Qed.

Lemma leaves_mono {A} n m (p : parsed A) : leaves n p → (n ≤ m)%nat → leaves m p.
Proof. destruct p; simpl; auto with lia. Qed.

Lemma skip_le P s : (length (skip P s) ≤ length s)%nat.
Proof. induction s as [|c s IH]; simpl; [lia|]. destruct (P c); simpl; lia. Qed.

Lemma skip_cases P s : skip P s = [] ∨ ∃ c s', skip P s = c :: s' ∧ P c = false.
Proof. induction s as [|c s IH]; simpl; [by left|]. destruct (P c) eqn:E; [done|]. right. by exists c, s. Qed.

Lemma skip_idem P s : skip P (skip P s) = skip P s.
Proof. destruct (skip_cases P s) as [->|(c & s' & E & Hc)]; [done|]. rewrite E. simpl. by rewrite Hc. Qed.

Lemma in_str_elem set c : Forall (λ b, b ≠ 0) set → in_str set c = true ↔ c ∈ set.
Proof.
  intros Hs. unfold in_str. rewrite bool_decide_eq_true. induction Hs as [|b set Hb Hs IH]; simpl.
  - split; [by intros []|by intros []%elem_of_nil].
  - rewrite (proj2 (Z.eqb_neq _ _) Hb), elem_of_cons. destruct (b =? c) eqn:E; bool_facts.
    + subst. split; [by left|done].
    + rewrite fmap_is_Some, IH. intuition congruence.
Qed.

(** Decide membership of a character in a literal string. *)
Ltac in_literal := rewrite in_str_elem by (by repeat constructor); rewrite ?elem_of_cons, ?elem_of_nil.

Lemma wordchar_first c :
  in_str whitespace c = false → in_str (str "|();&<") c = false → (c =? 62) = false → is_wordchar c = true.
Proof.
  intros Hw Hs Hg. unfold is_wordchar. rewrite Hw. simpl. apply negb_true_iff, not_true_iff_false.
  apply not_true_iff_false in Hs. bool_facts. revert Hs. unfold symbols, str. simpl. do 2 in_literal. naive_solver.
Qed.

Lemma gettoken_le ps : (length (gettoken ps).2 ≤ length ps)%nat.
Proof.
  unfold gettoken. pose proof (skip_le (in_str whitespace) ps) as H1. fold (skip_ws ps) in H1.
  destruct (skip_ws ps) as [|c s]; simpl; [lia|]. simpl in H1.
  destruct (in_str _ c); simpl; [pose proof (skip_le (in_str whitespace) s); unfold skip_ws; lia|].
  destruct (c =? 62).
  - destruct s as [|d s']; simpl; [lia|]. destruct (d =? 62); unfold skip_ws; simpl in *.
    + pose proof (skip_le (in_str whitespace) s'). lia.
    + destruct (in_str whitespace d); pose proof (skip_le (in_str whitespace) s'); simpl; lia.
  - unfold skip_ws. etrans; [apply skip_le|]. pose proof (skip_le is_wordchar s). destruct (is_wordchar c); simpl; lia.
Qed.

Lemma gettoken_lt ps : skip_ws ps ≠ [] → (length (gettoken ps).2 < length ps)%nat ∧ (gettoken ps).1.1 ≠ 0.
Proof.
  unfold gettoken. pose proof (skip_le (in_str whitespace) ps) as H1. fold (skip_ws ps) in H1.
  destruct (skip_cases (in_str whitespace) ps) as [E|(c & s & E & Hc)]; fold (skip_ws ps) in E; [done|].
  rewrite E in *. intros _. simpl in H1.
  destruct (in_str (str "|();&<") c) eqn:Hsym; simpl.
  { pose proof (skip_le (in_str whitespace) s). unfold skip_ws. split; [lia|]. intros ->. by vm_compute in Hsym. }
  destruct (c =? 62) eqn:Hg.
  - destruct s as [|d s']; simpl; [split; [lia|done]|]. destruct (d =? 62); unfold skip_ws; simpl in *.
    + pose proof (skip_le (in_str whitespace) s'). split; [lia|done].
    + destruct (in_str whitespace d); pose proof (skip_le (in_str whitespace) s'); simpl; split; lia || done.
  - rewrite (wordchar_first c Hc Hsym Hg). split; [|done]. unfold skip_ws. simpl.
    pose proof (skip_le (in_str whitespace) (skip is_wordchar s)). pose proof (skip_le is_wordchar s). lia.
Qed.

(** [peek] skips white space; a token follows if it succeeds. *)
Lemma peek_le ps toks : (length (peek ps toks).2 ≤ length ps)%nat.
Proof. apply skip_le. Qed.

Lemma peek_token ps toks :
  (peek ps toks).1 = true → (length (gettoken (peek ps toks).2).2 < length ps)%nat.
Proof.
  unfold peek. simpl. intros Hb. assert (skip_ws (skip_ws ps) ≠ []) as Hne.
  { unfold skip_ws. rewrite skip_idem. fold (skip_ws ps). by destruct (skip_ws ps). }
  pose proof (gettoken_lt _ Hne) as [? _]. pose proof (skip_le (in_str whitespace) ps) as H1. fold (skip_ws ps) in H1. lia.
Qed.

Lemma parseredirs_leaves fuel ps wrap : (length ps < fuel)%nat → leaves (length ps) (parseredirs fuel ps wrap).
Proof.
  revert ps wrap. induction fuel as [|fuel IH]; intros ps wrap Hf; [lia|]. cbn [parseredirs].
  pose proof (peek_le ps "<>") as H1. pose proof (peek_token ps "<>") as H2.
  destruct (peek ps "<>") as [b ps1]. simpl in *. destruct b; [|done]. specialize (H2 eq_refl).
  destruct (gettoken ps1) as [[tok w] ps2]. simpl in H2. pose proof (gettoken_le ps2) as H3.
  destruct (gettoken ps2) as [[t f] ps3]. simpl in H3. destruct (negb (t =? 97)); [done|].
  eapply leaves_mono; [apply IH; lia|lia].
Qed.

Lemma parseargs_leaves fuel ps argv wrap : (length ps < fuel)%nat → leaves (length ps) (parseargs fuel ps argv wrap).
Proof.
  revert ps argv wrap. induction fuel as [|fuel IH]; intros ps argv wrap Hf; [lia|]. cbn [parseargs].
  pose proof (peek_le ps "|)&;") as H1. destruct (peek ps "|)&;") as [b ps1] eqn:E. simpl in *. destruct b; [done|].
  pose proof (gettoken_le ps1) as H2. destruct (decide (skip_ws ps1 = [])) as [Hnil|Hne].
  - unfold gettoken at 1. rewrite Hnil. simpl. lia.
  - destruct (gettoken_lt ps1 Hne) as [H3 _]. destruct (gettoken ps1) as [[tok a] ps2]. simpl in H2, H3.
    destruct (tok =? 0); [simpl; lia|]. destruct (negb (tok =? 97)); [done|]. cbv zeta. case_if; [done|].
    eapply leaves_bind; [apply parseredirs_leaves; lia|]. intros wrap' ps3 H4. eapply leaves_mono; [apply IH; lia|lia].
Qed.

Lemma parsebacks_leaves fuel ps c : (length ps < fuel)%nat → leaves (length ps) (parsebacks fuel ps c).
Proof.
  revert ps c. induction fuel as [|fuel IH]; intros ps c Hf; [lia|]. cbn [parsebacks].
  pose proof (peek_le ps "&") as H1. pose proof (peek_token ps "&") as H2.
  destruct (peek ps "&") as [b ps1]. simpl in *. destruct b; [|done]. specialize (H2 eq_refl).
  destruct (gettoken ps1) as [[tok w] ps2]. simpl in H2. eapply leaves_mono; [apply IH; lia|lia].
Qed.

Ltac psimpl := cbn [fst snd negb leaves length pbind] in *.

Lemma parse_leaves fuel n ps :
  (length ps < n)%nat →
  ((4 * length ps + 4 ≤ fuel)%nat → leaves (length ps) (parseline fuel n ps)) ∧
  ((4 * length ps + 3 ≤ fuel)%nat → leaves (length ps) (parsepipe fuel n ps)) ∧
  ((4 * length ps + 2 ≤ fuel)%nat → leaves (length ps) (parseexec fuel n ps)) ∧
  ((4 * length ps + 1 ≤ fuel)%nat → leaves (length ps) (parseblock fuel n ps)).
Proof.
  revert ps. induction fuel as [|fuel IH]; intros ps Hn; [split_and!; lia|]. split_and!; intros Hf.
  - cbn [parseline]. eapply leaves_bind; [apply IH; lia|]. intros c ps1 H1.
    eapply leaves_bind; [apply parsebacks_leaves; lia|]. intros c' ps2 H2.
    pose proof (peek_le ps2 ";") as H3. pose proof (peek_token ps2 ";") as H4. destruct (peek ps2 ";") as [[] ps3]; psimpl; [|lia].
    specialize (H4 eq_refl). destruct (gettoken ps3) as [? ps4]. destruct p. psimpl.
    eapply leaves_bind; [apply IH; lia|]. psimpl. lia.
  - cbn [parsepipe]. eapply leaves_bind; [apply IH; lia|]. intros c ps1 H1.
    pose proof (peek_le ps1 "|") as H3. pose proof (peek_token ps1 "|") as H4. destruct (peek ps1 "|") as [[] ps3]; psimpl; [|lia].
    specialize (H4 eq_refl). destruct (gettoken ps3) as [? ps4]. destruct p. psimpl.
    eapply leaves_bind; [apply IH; lia|]. psimpl. lia.
  - cbn [parseexec]. pose proof (peek_le ps "(") as H1. destruct (peek ps "(") as [[] ps1]; psimpl.
    + eapply leaves_mono; [apply IH; lia|lia].
    + eapply leaves_bind; [apply parseredirs_leaves; lia|]. intros w ps2 H2.
      eapply leaves_mono; [apply parseargs_leaves; lia|lia].
  - cbn [parseblock]. pose proof (peek_token ps "(") as H1. destruct (peek ps "(") as [[] ps1]; psimpl; [|done].
    specialize (H1 eq_refl). destruct (gettoken ps1) as [? ps2]. destruct p. psimpl.
    eapply leaves_bind; [apply IH; lia|]. intros c ps3 H3.
    pose proof (peek_token ps3 ")") as H4. destruct (peek ps3 ")") as [[] ps4]; psimpl; [|done].
    specialize (H4 eq_refl). destruct (gettoken ps4) as [? ps5]. destruct p. psimpl.
    eapply leaves_bind; [apply parseredirs_leaves; lia|]. psimpl. lia.
Qed.

(** C33: the parser of the shell ends on every line: it returns a command or
    the message of a syntax error. *)
Theorem parse_terminates s : ∃ r, parse s = r ∧ r ≠ NoFuel ∧ ∀ c ps, r = Parsed c ps → (length ps ≤ length s)%nat.
Proof.
  exists (parse s). split; [done|]. unfold parse, parse_fuel.
  pose proof (proj1 (parse_leaves (4 * length s + 8) (S (length s)) s ltac:(lia)) ltac:(lia)) as H.
  destruct (parseline _ _ _) as [c ps| |]; simpl in *; [|done..].
  split; [done|]. intros c' ps' [= <- <-]. pose proof (peek_le ps ""). simpl in *. lia.
Qed.

(** ** The words of a parsed command *)

Fixpoint cmd_words {T} (c : cmd T) : list T :=
  match c with
  | EXEC argv => argv
  | REDIR c f _ _ => cmd_words c ++ [f]
  | PIPE l r | LIST l r => cmd_words l ++ cmd_words r
  | BACK c => cmd_words c
  end.

Lemma nulterminate_words len c s : nulterminate len c s = foldl (λ s w, put_nul len w s) s (cmd_words c).
Proof.
  revert s. induction c as [argv|c IH f m fd|l IHl r IHr|l IHl r IHr|c IH]; intros s; simpl; [done|..|done].
  - by rewrite IH, foldl_app.
  - by rewrite IHr, IHl, foldl_app.
  - by rewrite IHr, IHl, foldl_app.
Qed.

(** The characters of a word. *)
Definition text (w : word) : list Z := take (length w.(w_q) - length w.(w_eq)) w.(w_q).

(** A word of the line [s]: word characters from [q] to [eq], where the word
    ends. *)
Definition word_in (s : list Z) (w : word) : Prop :=
  w.(w_q) = text w ++ w.(w_eq) ∧ suffix w.(w_q) s ∧ Forall (λ c, is_wordchar c = true) (text w) ∧
  match w.(w_eq) with [] => True | c :: _ => is_wordchar c = false end.

Lemma suffix_skip P s : suffix (skip P s) s.
Proof. induction s as [|c s IH]; simpl; [done|]. destruct (P c); [by apply suffix_cons_r|done]. Qed.

Lemma skip_split P s : s = take (length s - length (skip P s)) s ++ skip P s ∧
  Forall (λ c, P c = true) (take (length s - length (skip P s)) s).
Proof.
  induction s as [|c s [IH1 IH2]]; [done|]. simpl. destruct (P c) eqn:E; simpl.
  - pose proof (skip_le P s). rewrite Nat.sub_succ_l by lia. simpl. split; [by f_equal|by constructor].
  - rewrite Nat.sub_diag. done.
Qed.

Lemma gettoken_suffix ps : suffix (gettoken ps).2 ps.
Proof.
  unfold gettoken. pose proof (suffix_skip (in_str whitespace) ps) as H1. fold (skip_ws ps) in H1.
  assert (∀ s, suffix s (skip_ws ps) → suffix (skip_ws s) ps) as H2.
  { intros s Hs. etrans; [apply suffix_skip|]. by etrans. }
  destruct (skip_ws ps) as [|c s]; simpl; [done|].
  destruct (in_str _ c); simpl; [apply H2; by apply suffix_cons_r|]. destruct (c =? 62).
  - destruct s as [|d s]; simpl; [apply H2; by apply suffix_cons_r|].
    destruct (d =? 62); apply H2; [by do 2 apply suffix_cons_r|by apply suffix_cons_r].
  - apply H2. change (suffix (skip is_wordchar (c :: s)) (c :: s)). apply suffix_skip.
Qed.

(** A token of kind 'a' is a word. *)
Lemma gettoken_word s ps :
  suffix ps s → (gettoken ps).1.1 = 97 → word_in s (gettoken ps).1.2 ∧ text (gettoken ps).1.2 ≠ [].
Proof.
  intros Hs. unfold gettoken. destruct (skip_cases (in_str whitespace) ps) as [E|(c & l & E & Hc)];
    fold (skip_ws ps) in E; rewrite E; simpl; [done|].
  pose proof (suffix_skip (in_str whitespace) ps) as Hsuf. fold (skip_ws ps) in Hsuf. rewrite E in Hsuf.
  destruct (in_str (str "|();&<") c) eqn:Hsym; simpl.
  { intros ->. by vm_compute in Hsym. }
  destruct (c =? 62) eqn:Hg.
  { destruct l as [|d l]; [done|]. by destruct (d =? 62). }
  intros _. pose proof (wordchar_first c Hc Hsym Hg) as Hw. rewrite Hw. simpl.
  destruct (skip_split is_wordchar (c :: l)) as [H1 H2]. simpl in H1, H2. rewrite Hw in H1, H2.
  unfold word_in, text. simpl. split_and!; [done|by etrans|done| |].
  - destruct (skip_cases is_wordchar l) as [->|(d & l' & -> & Hd)]; done.
  - pose proof (skip_le is_wordchar l). by rewrite Nat.sub_succ_l by lia.
Qed.

Section words.
Context (s : list Z).

(** [p] leaves a suffix of the line, and its result satisfies [Q]. *)
Definition sound {A} (Q : A → Prop) (p : parsed A) : Prop :=
  match p with Parsed a ps => suffix ps s ∧ Q a | _ => True end.

Definition words_ok (c : cmd word) : Prop := Forall (word_in s) (cmd_words c).
Definition wrap_ok (f : cmd word → cmd word) : Prop := ∀ c, words_ok c → words_ok (f c).

Lemma sound_bind {A B} (Q : A → Prop) (R : B → Prop) (p : parsed A) (k : A → list Z → parsed B) :
  sound Q p → (∀ a ps, suffix ps s → Q a → sound R (k a ps)) → sound R (pbind p k).
Proof. destruct p; simpl; naive_solver. Qed.

Lemma peek_suffix ps toks : suffix ps s → suffix (peek ps toks).2 s.
Proof. intros H. etrans; [apply suffix_skip|done]. Qed.

Lemma token_suffix ps : suffix ps s → suffix (gettoken ps).2 s.
Proof. intros H. etrans; [apply gettoken_suffix|done]. Qed.

Lemma wrap_id : wrap_ok (λ c, c).
Proof. by intros c. Qed.

Lemma redir_ok tok f wrap : word_in s f → wrap_ok wrap → wrap_ok (λ c, redir tok f (wrap c)).
Proof.
  intros Hf Hw c Hc. specialize (Hw c Hc). unfold redir, words_ok in *.
  repeat case_if; simpl; rewrite ?Forall_app, ?Forall_singleton; done.
Qed.

Lemma parseredirs_sound fuel ps wrap :
  suffix ps s → wrap_ok wrap → sound wrap_ok (parseredirs fuel ps wrap).
Proof.
  revert ps wrap. induction fuel as [|fuel IH]; intros ps wrap Hs Hw; cbn [parseredirs]; [done|].
  pose proof (peek_suffix ps "<>" Hs) as H1. destruct (peek ps "<>") as [[] ps1]; psimpl; [|done].
  pose proof (token_suffix ps1 H1) as H2. destruct (gettoken ps1) as [[tok w] ps2]. psimpl.
  pose proof (token_suffix ps2 H2) as H3. pose proof (gettoken_word s ps2 H2) as H4.
  destruct (gettoken ps2) as [[t f] ps3]. psimpl. destruct (t =? 97) eqn:E; bool_facts; psimpl; [|done].
  apply IH; [done|]. apply redir_ok; [by apply H4|done].
Qed.

Lemma parseargs_sound fuel ps argv wrap :
  suffix ps s → Forall (word_in s) argv → wrap_ok wrap → sound words_ok (parseargs fuel ps argv wrap).
Proof.
  revert ps argv wrap. induction fuel as [|fuel IH]; intros ps argv wrap Hs Ha Hw; cbn [parseargs]; [done|].
  pose proof (peek_suffix ps "|)&;" Hs) as H1. destruct (peek ps "|)&;") as [[] ps1]; psimpl; [split; [done|by apply Hw]|].
  pose proof (token_suffix ps1 H1) as H2. pose proof (gettoken_word s ps1 H1) as H3.
  destruct (gettoken ps1) as [[tok a] ps2]. psimpl. destruct (tok =? 0); [split; [done|by apply Hw]|].
  destruct (tok =? 97) eqn:E; bool_facts; psimpl; [|done]. case_if; [done|].
  eapply sound_bind; [by apply parseredirs_sound|]. intros wrap' ps3 H4 Hw'. apply IH; [done| |done].
  apply Forall_app. split; [done|]. apply Forall_singleton. by apply H3.
Qed.

Lemma parsebacks_sound fuel ps c : suffix ps s → words_ok c → sound words_ok (parsebacks fuel ps c).
Proof.
  revert ps c. induction fuel as [|fuel IH]; intros ps c Hs Hc; cbn [parsebacks]; [done|].
  pose proof (peek_suffix ps "&" Hs) as H1. destruct (peek ps "&") as [[] ps1]; psimpl; [|done].
  pose proof (token_suffix ps1 H1) as H2. destruct (gettoken ps1) as [[tok w] ps2]. psimpl. by apply IH.
Qed.

Lemma parse_sound fuel n ps :
  suffix ps s →
  sound words_ok (parseline fuel n ps) ∧ sound words_ok (parsepipe fuel n ps) ∧
  sound words_ok (parseexec fuel n ps) ∧ sound words_ok (parseblock fuel n ps).
Proof.
  revert ps. induction fuel as [|fuel IH]; intros ps Hs; [done|]. split_and!.
  - cbn [parseline]. eapply sound_bind; [by apply IH|]. intros c ps1 H1 Hc.
    eapply sound_bind; [by apply parsebacks_sound|]. intros c' ps2 H2 Hc'.
    pose proof (peek_suffix ps2 ";" H2) as H3. destruct (peek ps2 ";") as [[] ps3]; psimpl; [|done].
    pose proof (token_suffix ps3 H3) as H4. destruct (gettoken ps3) as [[tok w] ps4]. psimpl.
    eapply sound_bind; [by apply IH|]. intros r ps5 H5 Hr. split; [done|]. by apply Forall_app.
  - cbn [parsepipe]. eapply sound_bind; [by apply IH|]. intros c ps1 H1 Hc.
    pose proof (peek_suffix ps1 "|" H1) as H3. destruct (peek ps1 "|") as [[] ps3]; psimpl; [|done].
    pose proof (token_suffix ps3 H3) as H4. destruct (gettoken ps3) as [[tok w] ps4]. psimpl.
    eapply sound_bind; [by apply IH|]. intros r ps5 H5 Hr. split; [done|]. by apply Forall_app.
  - cbn [parseexec]. pose proof (peek_suffix ps "(" Hs) as H1. destruct (peek ps "(") as [[] ps1]; psimpl; [by apply IH|].
    eapply sound_bind; [apply parseredirs_sound; [done|apply wrap_id]|]. intros w ps2 H2 Hw. by apply parseargs_sound.
  - cbn [parseblock]. pose proof (peek_suffix ps "(" Hs) as H1. destruct (peek ps "(") as [[] ps1]; psimpl; [|done].
    pose proof (token_suffix ps1 H1) as H2. destruct (gettoken ps1) as [[tok w] ps2]. psimpl.
    eapply sound_bind; [by apply IH|]. intros c ps3 H3 Hc.
    pose proof (peek_suffix ps3 ")" H3) as H4. destruct (peek ps3 ")") as [[] ps4]; psimpl; [|done].
    pose proof (token_suffix ps4 H4) as H5. destruct (gettoken ps4) as [[tok' w'] ps5]. psimpl.
    eapply sound_bind; [apply parseredirs_sound; [done|apply wrap_id]|]. intros wrap ps6 H6 Hw. split; [done|by apply Hw].
Qed.

Lemma parse_words c ps : parse s = Parsed c ps → words_ok c.
Proof.
  unfold parse. pose proof (proj1 (parse_sound (parse_fuel s) (S (length s)) s ltac:(done))) as H.
  destruct (parseline _ _ _); simpl in *; [|done..]. intros [= <- _]. apply H.
Qed.

(** ** NULs at the ends of the words *)

Lemma put_nuls_lookup ws l p :
  foldl (λ l w, put_nul (length s) w l) l ws !! p =
    if bool_decide (Exists (λ w, p = length s - length w.(w_eq))%nat ws) then (λ _, 0) <$> l !! p else l !! p.
Proof.
  revert l. induction ws as [|w ws IH]; intros l; cbn [foldl]; [by rewrite bool_decide_eq_false_2 by (by intros ?%Exists_nil)|].
  rewrite IH. clear IH. unfold put_nul. rewrite (bool_decide_ext _ _ (Exists_cons _ _ _)).
  destruct (decide (p = length s - length (w_eq w))%nat) as [Hp|Hp].
  - rewrite (bool_decide_eq_true_2 (_ ∨ _)) by (by left). rewrite Hp.
    destruct (decide (length s - length (w_eq w) < length l)%nat).
    + rewrite list_lookup_insert_eq by done. destruct (lookup_lt_is_Some_2 l (length s - length (w_eq w))%nat) as [x ->]; [done|].
      by destruct (bool_decide _).
    + rewrite lookup_ge_None_2 by (rewrite length_insert; lia). rewrite lookup_ge_None_2 by lia. by destruct (bool_decide _).
  - rewrite list_lookup_insert_ne by congruence. erewrite (bool_decide_ext (_ ∨ _)); [done|tauto].
Qed.

Lemma word_in_lookup w i c : word_in s w → text w !! i = Some c → s !! (length s - length w.(w_q) + i)%nat = Some c.
Proof.
  intros (Hq & [pre ->] & _ & _) Hi. rewrite length_app. replace (_ + _ - _)%nat with (length pre) by lia.
  rewrite lookup_app_r by lia. replace (_ - _)%nat with i by lia. rewrite Hq. by apply lookup_app_l_Some.
Qed.

Lemma suffix_head (e : list Z) : suffix e s → s !! (length s - length e)%nat = head e.
Proof.
  intros [pre Hpre]. rewrite Hpre. rewrite length_app. replace (_ + _ - _)%nat with (length pre) by lia.
  rewrite lookup_app_r, Nat.sub_diag by lia. by destruct e.
Qed.

Lemma word_end_suffix w : word_in s w → suffix w.(w_eq) s.
Proof. intros (Hq & Hsuf & _). etrans; [|exact Hsuf]. rewrite Hq. by apply suffix_app_r. Qed.

(** The end of a word is not inside another. *)
Lemma word_end_apart w w' i :
  word_in s w → word_in s w' → (i < length (text w))%nat →
  (length s - length w.(w_q) + i)%nat ≠ (length s - length w'.(w_eq))%nat.
Proof.
  intros Hw Hw' Hi Heq. destruct (lookup_lt_is_Some_2 (text w) i Hi) as [c Hc].
  pose proof (word_in_lookup w i c Hw Hc) as Hl. rewrite Heq in Hl. destruct Hw as (_ & _ & Hchars & _).
  pose proof (proj1 (Forall_lookup _ _) Hchars i c Hc) as Hcw. simpl in Hcw.
  rewrite (suffix_head _ (word_end_suffix w' Hw')) in Hl. destruct Hw' as (_ & _ & _ & Hend).
  destruct (w_eq w') as [|d l]; simplify_eq/=. congruence.
Qed.

Lemma hd0_drop n (l : list Z) : hd0 (drop n l) = default 0 (l !! n).
Proof. unfold hd0. f_equal. revert n. induction l as [|x l IH]; intros [|n]; simpl; done. Qed.

Lemma cstr_prefix t l :
  Forall (λ c, c ≠ 0) t → take (length t) l = t → hd0 (drop (length t) l) = 0 → cstr l = t.
Proof.
  intros Ht Htake Hd. rewrite <- (take_drop (length t) l), Htake. destruct (drop (length t) l) as [|d l'].
  - rewrite app_nil_r. by apply cstr_id.
  - unfold hd0 in Hd. simpl in Hd. subst d. by apply cstr_app_nul.
Qed.

(** After [nulterminate] every word reads as its characters. *)
Lemma string_of_text c w :
  Forall (λ c, c ≠ 0) s → words_ok c → w ∈ cmd_words c →
  string_of (length s) (nulterminate (length s) c s) w = text w.
Proof.
  intros Hnz Hc Hin. rewrite nulterminate_words. unfold string_of.
  pose proof (proj1 (Forall_forall _ _) Hc) as Hall. pose proof (Hall w Hin) as Hw.
  set (s' := foldl _ _ _). set (off := (length s - length (w_q w))%nat).
  assert (length (w_q w) = length (text w) + length (w_eq w))%nat as Hlq.
  { destruct Hw as (Hq & _). rewrite Hq at 1. apply length_app. }
  assert (length (w_q w) ≤ length s)%nat as Hls by (destruct Hw as (_ & Hsuf & _); by apply suffix_length).
  assert (∀ i, (i < length (text w))%nat → s' !! (off + i)%nat = text w !! i) as Hsame.
  { intros i Hi. unfold s'. rewrite put_nuls_lookup, bool_decide_eq_false_2.
    - destruct (lookup_lt_is_Some_2 (text w) i Hi) as [x Hx]. rewrite Hx. by apply word_in_lookup.
    - intros (w' & Hw' & Heq)%Exists_exists. by apply (word_end_apart w w' i Hw (Hall w' Hw') Hi). }
  apply cstr_prefix.
  - apply Forall_lookup. intros i x Hx. apply (proj1 (Forall_lookup _ _) Hnz (off + i)%nat). by apply word_in_lookup.
  - apply list_eq. intros i. destruct (decide (i < length (text w))%nat).
    + rewrite lookup_take_lt, lookup_drop by done. by apply Hsame.
    + rewrite !lookup_ge_None_2; [done|lia|rewrite length_take; lia].
  - rewrite drop_drop, hd0_drop. unfold s'. rewrite put_nuls_lookup, bool_decide_eq_true_2; [by destruct (s !! _)|].
    apply Exists_exists. exists w. split; [done|]. unfold off. lia.
Qed.

End words.

(** ** Printing commands, and reading them back *)

Definition good_word (w : list Z) : Prop := w ≠ [] ∧ Forall (λ c, is_wordchar c = true ∧ c ≠ 0) w.

(** The commands the parser can produce. *)
Fixpoint wf_cmd (c : cmd (list Z)) : Prop :=
  match c with
  | EXEC argv => Forall good_word argv ∧ (length argv < MAXARGS)%nat
  | REDIR c f mode fd =>
      wf_cmd c ∧ good_word f ∧ (mode = O_RDONLY ∧ fd = 0 ∨ mode = Z.lor O_WRONLY O_CREATE ∧ fd = 1)
  | PIPE l r | LIST l r => wf_cmd l ∧ wf_cmd r
  | BACK c => wf_cmd c
  end.

(** A command as a line, with parentheses around its parts. *)
Fixpoint show (c : cmd (list Z)) : list Z :=
  match c with
  | EXEC argv => argv ≫= λ w, 32 :: w
  | REDIR c f _ fd => 40 :: show c ++ 41 :: (if fd =? 0 then 60 else 62) :: f
  | PIPE l r => 40 :: show l ++ 41 :: 124 :: 40 :: show r ++ [41]
  | LIST l r => 40 :: show l ++ 41 :: 59 :: 40 :: show r ++ [41]
  | BACK c => 40 :: show c ++ [41; 38]
  end.

(** What may follow a command inside a line: its end, or a closing parenthesis. *)
Definition stop (rest : list Z) : Prop := match rest with [] => True | c :: _ => c = 41 end.

Lemma skip_ws_stop rest : stop rest → skip_ws rest = rest.
Proof. destruct rest as [|c rest]; [done|]. by intros ->. Qed.

Lemma wordchar_facts c :
  is_wordchar c = true → in_str whitespace c = false ∧ in_str symbols c = false.
Proof. unfold is_wordchar. intros H. bool_facts. done. Qed.

Lemma in_str_sub set set' c :
  Forall (λ b, b ≠ 0) set → Forall (λ b, b ≠ 0) set' → set ⊆ set' → in_str set' c = false → in_str set c = false.
Proof.
  intros H1 H2 Hsub Hf. apply not_true_iff_false. rewrite in_str_elem by done. intros Hin%Hsub.
  apply (in_str_elem set' c H2) in Hin. congruence.
Qed.

Lemma skip_ws_word w l : good_word w → skip_ws (w ++ l) = w ++ l.
Proof.
  intros [Hne Hw]. destruct w as [|c w]; [done|]. apply Forall_cons in Hw as [[Hc _] _].
  unfold skip_ws. simpl. by rewrite (proj1 (wordchar_facts c Hc)).
Qed.

Lemma skip_word w l :
  Forall (λ c, is_wordchar c = true ∧ c ≠ 0) w → match l with [] => True | c :: _ => is_wordchar c = false end →
  skip is_wordchar (w ++ l) = l.
Proof.
  intros Hw Hl. induction Hw as [|c w [Hc _] _ IH]; simpl; [|by rewrite Hc].
  destruct l as [|c l]; [done|]. simpl. by rewrite Hl.
Qed.

Lemma gettoken_good w l :
  good_word w → match l with [] => True | c :: _ => is_wordchar c = false end →
  gettoken (w ++ l) = (97, {| w_q := w ++ l; w_eq := l |}, skip_ws l).
Proof.
  intros Hg Hl. unfold gettoken. rewrite (skip_ws_word w l Hg). pose proof Hg as [Hne Hw].
  destruct w as [|c w]; [done|]. pose proof Hw as [[Hc _] _]%Forall_cons. cbn [app].
  destruct (wordchar_facts c Hc) as [Hws Hsym].
  rewrite (in_str_sub (str "|();&<") symbols c); [|by repeat constructor|by repeat constructor|set_solver|done].
  destruct (c =? 62) eqn:E; bool_facts; [by subst|].
  change (skip is_wordchar (c :: w ++ l)) with (skip is_wordchar ((c :: w) ++ l)). by rewrite skip_word.
Qed.

Lemma text_good w l : text {| w_q := w ++ l; w_eq := l |} = w.
Proof. unfold text. simpl. rewrite length_app, Nat.add_sub. apply take_app_length. Qed.

(** [peek] of a literal list of symbols. *)
Lemma peek_word w l toks :
  good_word w → Forall (λ b, b ≠ 0) (str toks) → str toks ⊆ symbols → peek (w ++ l) toks = (false, w ++ l).
Proof.
  intros Hg Ht Hsub. unfold peek. rewrite (skip_ws_word w l Hg). destruct Hg as [Hne Hw]. destruct w as [|c w]; [done|].
  apply Forall_cons in Hw as [[Hc _] _]. simpl. f_equal. eapply in_str_sub; [done| |done|by apply wordchar_facts].
  by repeat constructor.
Qed.

Lemma peek_skip ps toks : peek (skip_ws ps) toks = peek ps toks.
Proof. unfold peek, skip_ws. by rewrite skip_idem. Qed.

(** Side conditions on literal strings. *)
Ltac literal := first [assumption | solve [repeat constructor; discriminate] | set_solver].

Lemma skip_ws_idem ps : skip_ws (skip_ws ps) = skip_ws ps.
Proof. apply skip_idem. Qed.

(** What follows the words of a command does not belong to a word. *)
Lemma args_end argv rest :
  stop rest → match (argv ≫= λ w : list Z, 32 :: w) ++ rest with [] => True | c :: _ => is_wordchar c = false end.
Proof. intros Hs. destruct argv; simpl; [|done]. destruct rest; [done|]. simpl in Hs. by subst. Qed.

Lemma peek_args argv rest toks :
  stop rest → Forall good_word argv → Forall (λ b, b ≠ 0) (str toks) → str toks ⊆ symbols → 41 ∉ str toks →
  peek ((argv ≫= λ w : list Z, 32 :: w) ++ rest) toks = (false, skip_ws ((argv ≫= λ w : list Z, 32 :: w) ++ rest)).
Proof.
  intros Hs Hg Ht Hsub H41. destruct Hg as [|w argv Hw Hg]; simpl.
  - unfold peek. rewrite skip_ws_stop by done. destruct rest as [|c rest]; [done|]. simpl in Hs. subst c. f_equal.
    apply not_true_iff_false. by rewrite in_str_elem.
  - rewrite <- app_assoc. rewrite <- peek_skip. change (skip_ws (32 :: ?l)) with (skip_ws l).
    rewrite (skip_ws_word w) by done. by apply peek_word.
Qed.

Lemma parseredirs_none fuel ps wrap ps1 :
  (0 < fuel)%nat → peek ps "<>" = (false, ps1) → parseredirs fuel ps wrap = Parsed wrap ps1.
Proof. intros Hf Hp. destruct fuel; [lia|]. cbn [parseredirs]. by rewrite Hp. Qed.

Lemma parseargs_show argv rest fuel ps acc wrap :
  stop rest → Forall good_word argv → (length acc + length argv < MAXARGS)%nat → (length argv < fuel)%nat →
  skip_ws ps = skip_ws ((argv ≫= λ w, 32 :: w) ++ rest) →
  ∃ ws, parseargs fuel ps acc wrap = Parsed (wrap (EXEC (acc ++ ws))) rest ∧ text <$> ws = argv.
Proof.
  intros Hs Hg. revert fuel ps acc. induction Hg as [|w argv Hw Hg IH]; intros [|fuel] ps acc Hlen Hf Hps; simpl in Hf; try lia;
    cbn [parseargs]; rewrite <- (peek_skip ps), Hps.
  - exists []. rewrite app_nil_r. cbn [mbind list_bind app]. rewrite (skip_ws_stop rest Hs). destruct rest as [|c rest]; [split; reflexivity|]. simpl in Hs. subst c. split; reflexivity.
  - set (l := (argv ≫= λ w, 32 :: w) ++ rest). cbn [mbind list_bind app]. rewrite <- app_assoc. fold l. change (skip_ws (32 :: ?l)) with (skip_ws l).
    rewrite (skip_ws_word w), (peek_word w) by literal.
    rewrite (gettoken_good w l Hw) by (by apply args_end). simpl (97 =? 0). simpl (97 =? 97). simpl negb. cbv iota zeta.
    simpl in Hlen. unfold MAXARGS in *. destruct (Nat.leb_spec 10 (length (acc ++ [{| w_q := w ++ l; w_eq := l |}]))) as [Hle|_].
    { rewrite length_app in Hle. simpl in Hle. lia. }
    rewrite (parseredirs_none fuel (skip_ws l) wrap (skip_ws l)); [|lia|].
    2: { rewrite peek_skip. apply peek_args; literal. }
    simpl pbind.
    destruct (IH fuel (skip_ws l) (acc ++ [{| w_q := w ++ l; w_eq := l |}])) as (ws & Hr & Ht).
    { rewrite length_app. simpl. lia. } { lia. } { apply skip_ws_idem. }
    exists ({| w_q := w ++ l; w_eq := l |} :: ws). split; [by rewrite Hr, <- app_assoc|]. by rewrite fmap_cons, text_good, Ht.
Qed.

(** The nesting of parser calls on a printed command. *)
Fixpoint depth (c : cmd (list Z)) : nat :=
  match c with
  | EXEC _ => 3
  | REDIR c _ _ _ | BACK c => depth c + 6
  | PIPE l r | LIST l r => depth l + depth r + 6
  end.

(** [c] is read back by [parseline]. *)
Definition reads_back (c : cmd (list Z)) : Prop :=
  ∀ fuel n ps rest,
    stop rest → (depth c ≤ fuel)%nat → (length (show c) < n)%nat → skip_ws ps = skip_ws (show c ++ rest) →
    ∃ c', parseline fuel n ps = Parsed c' rest ∧ cmd_map text c' = c.

(** A command in parentheses, followed by something that is not a redirection. *)
Lemma parseexec_paren c fuel n ps l :
  reads_back c → (depth c + 2 ≤ fuel)%nat → (length (show c) < n)%nat → skip_ws ps = 40 :: show c ++ 41 :: l →
  ∃ c', cmd_map text c' = c ∧
    parseexec fuel n ps = pbind (parseredirs n (skip_ws l) (λ c, c)) (λ wrap ps, Parsed (wrap c') ps).
Proof.
  intros Hc Hf Hn Hps. destruct fuel as [|[|fuel]]; [lia..|]. cbn [parseexec]. rewrite <- (peek_skip ps), Hps.
  change (peek (40 :: ?l) "(") with (true, 40 :: l). cbv iota beta zeta. cbn [parseblock].
  change (peek (40 :: ?l) "(") with (true, 40 :: l). cbv iota beta zeta. simpl negb. cbv iota.
  change (gettoken (40 :: ?l)) with (40, {| w_q := 40 :: l; w_eq := l |}, skip_ws l). cbv iota beta zeta.
  destruct (Hc fuel n (skip_ws (show c ++ 41 :: l)) (41 :: l)) as (c' & Hr & Ht); [done|lia|done|apply skip_ws_idem|].
  exists c'. split; [done|]. rewrite Hr. done.
Qed.

Lemma parsebacks_none n rest c : (0 < n)%nat → stop rest → parsebacks n rest c = Parsed c rest.
Proof.
  intros Hn Hs. destruct n; [lia|]. cbn [parsebacks]. destruct rest as [|d rest]; [done|]. simpl in Hs. by subst.
Qed.

(** The end of [parsepipe] and [parseline] at the end of a command. *)
Lemma parsepipe_stop fuel n ps c rest :
  stop rest → parseexec fuel n ps = Parsed c rest → parsepipe (S fuel) n ps = Parsed c rest.
Proof. intros Hs Hr. cbn [parsepipe]. rewrite Hr. destruct rest as [|d rest]; [done|]. simpl in Hs. by subst. Qed.

Lemma parseline_stop fuel n ps c rest :
  (0 < n)%nat → stop rest → parsepipe fuel n ps = Parsed c rest → parseline (S fuel) n ps = Parsed c rest.
Proof.
  intros Hn Hs Hr. cbn [parseline]. rewrite Hr. cbn [pbind]. rewrite parsebacks_none by done. cbn [pbind].
  destruct rest as [|d rest]; [done|]. simpl in Hs. by subst.
Qed.

(** The last part of a command, in parentheses. *)
Lemma parseexec_last c fuel n ps rest :
  reads_back c → (depth c + 2 ≤ fuel)%nat → (length (show c) < n)%nat → stop rest →
  skip_ws ps = 40 :: show c ++ 41 :: rest → ∃ c', cmd_map text c' = c ∧ parseexec fuel n ps = Parsed c' rest.
Proof.
  intros Hc Hf Hn Hs Hps. destruct (parseexec_paren c fuel n ps rest Hc Hf Hn Hps) as (c' & Ht & Hr).
  exists c'. split; [done|]. rewrite Hr, (skip_ws_stop rest Hs), (parseredirs_none n rest _ rest); [done|lia|].
  destruct rest as [|d rest]; [done|]. simpl in Hs. by subst.
Qed.

(** A first part in parentheses, followed by a symbol other than < and >. *)
Lemma parseexec_first c fuel n ps d l :
  reads_back c → (depth c + 2 ≤ fuel)%nat → (length (show c) < n)%nat → d = 124 ∨ d = 59 ∨ d = 38 →
  skip_ws ps = 40 :: show c ++ 41 :: d :: l → ∃ c', cmd_map text c' = c ∧ parseexec fuel n ps = Parsed c' (d :: l).
Proof.
  intros Hc Hf Hn Hd Hps. destruct (parseexec_paren c fuel n ps (d :: l) Hc Hf Hn Hps) as (c' & Ht & Hr).
  exists c'. split; [done|]. rewrite Hr. destruct n; [lia|]. by destruct Hd as [->|[->| ->]].
Qed.

Lemma length_show_exec (argv : list (list Z)) : (length argv ≤ length (show (EXEC argv)))%nat.
Proof.
  induction argv as [|w argv IH]; [done|].
  change (show (EXEC (w :: argv))) with ((32 :: w) ++ show (EXEC argv)). rewrite length_app. simpl length in *. lia.
Qed.

Lemma reads_back_exec argv : wf_cmd (EXEC argv) → reads_back (EXEC argv).
Proof.
  intros [Hg Hlen] fuel n ps rest Hs Hf Hn Hps. pose proof (length_show_exec argv). cbn [show depth] in *.
  assert (∀ toks, Forall (λ b, b ≠ 0) (str toks) → str toks ⊆ symbols → 41 ∉ str toks →
            peek ps toks = (false, skip_ws ((argv ≫= λ w : list Z, 32 :: w) ++ rest))) as Hpeek.
  { intros toks ???. rewrite <- (peek_skip ps), Hps, peek_skip. by apply peek_args. }
  destruct fuel as [|[|[|fuel]]]; [lia..|].
  destruct (parseargs_show argv rest n (skip_ws ((argv ≫= λ w : list Z, 32 :: w) ++ rest)) [] (λ c, c)) as (ws & Hr & Ht);
    [done|done|simpl; lia|lia|apply skip_ws_idem|].
  exists (EXEC ws). split; [|simpl; by rewrite Ht].
  apply parseline_stop; [lia|done|]. apply parsepipe_stop; [done|]. cbn [parseexec]. rewrite Hpeek by literal. cbv iota beta zeta.
  erewrite parseredirs_none; [|lia|rewrite peek_skip; apply peek_args; literal]. exact Hr.
Qed.

Lemma parseredirs_one t f rest n :
  t = 60 ∨ t = 62 → good_word f → stop rest → (1 < n)%nat →
  parseredirs n (skip_ws (t :: f ++ rest)) (λ c, c) =
    Parsed (λ c, redir t {| w_q := f ++ rest; w_eq := rest |} c) rest.
Proof.
  intros Ht Hf Hs Hn. destruct n as [|[|n]]; [lia..|].
  assert (skip_ws (t :: f ++ rest) = t :: f ++ rest) as -> by (by destruct Ht as [-> | ->]).
  cbn [parseredirs]. replace (peek (t :: f ++ rest) "<>") with (true, t :: f ++ rest) by (by destruct Ht as [-> | ->]).
  cbv iota beta zeta. assert (gettoken (t :: f ++ rest) = (t, {| w_q := t :: f ++ rest; w_eq := f ++ rest |}, f ++ rest)) as ->.
  { rewrite <- (skip_ws_word f rest Hf) at 4. destruct Ht as [-> | ->]; [reflexivity|]. unfold gettoken.
    destruct Hf as [Hne Hf]. destruct f as [|c f]; [done|]. apply Forall_cons in Hf as [[Hc _] _]. cbn [app].
    change (skip_ws (62 :: ?l)) with (62 :: l). cbv iota beta zeta. change (in_str (str "|();&<") 62) with false. cbv iota.
    change (62 =? 62) with true. cbv iota. destruct (c =? 62) eqn:E; bool_facts; [by subst|done]. }
  cbv iota beta zeta. rewrite (gettoken_good f rest Hf) by (destruct rest as [|d rest]; [done|]; simpl in Hs; by subst).
  cbv iota beta zeta. simpl negb. cbv iota. rewrite (skip_ws_stop rest Hs).
  destruct rest as [|d rest]; [done|]. simpl in Hs. by subst.
Qed.

Lemma reads_back_redir c f mode fd : reads_back c → wf_cmd (REDIR c f mode fd) → reads_back (REDIR c f mode fd).
Proof.
  intros Hc (_ & Hf & Hm) fuel n ps rest Hs Hfu Hn Hps. cbn [show depth] in *. simpl in Hn. rewrite length_app in Hn. simpl in Hn.
  set (t := if fd =? 0 then 60 else 62) in *. assert (t = 60 ∨ t = 62) as Ht by (unfold t; destruct (fd =? 0); auto).
  assert (skip_ws ps = 40 :: show c ++ 41 :: t :: f ++ rest) as Hps'.
  { rewrite Hps. simpl. by rewrite <- app_assoc. }
  destruct fuel as [|[|fuel]]; [lia..|].
  destruct (parseexec_paren c fuel n ps _ Hc ltac:(lia) ltac:(lia) Hps') as (c' & Htc & Hr).
  rewrite (parseredirs_one t f rest n Ht Hf Hs) in Hr by lia. cbn [pbind] in Hr.
  eexists. split; [apply parseline_stop; [lia|done|]; apply parsepipe_stop; [done|exact Hr]|].
  unfold redir, t. destruct Hm as [[-> ->]|[-> ->]]; simpl; rewrite text_good, Htc; done.
Qed.

Lemma reads_back_pipe l r : reads_back l → reads_back r → reads_back (PIPE l r).
Proof.
  intros Hl Hr fuel n ps rest Hs Hfu Hn Hps. cbn [show depth] in *. simpl in Hn. rewrite length_app in Hn. simpl in Hn. rewrite length_app in Hn.
  assert (skip_ws ps = 40 :: show l ++ 41 :: 124 :: 40 :: show r ++ 41 :: rest) as Hps'.
  { rewrite Hps. simpl. rewrite <- app_assoc. simpl. by rewrite <- app_assoc. }
  destruct fuel as [|[|[|fuel]]]; [lia..|].
  destruct (parseexec_first l (S fuel) n ps 124 _ Hl ltac:(lia) ltac:(lia) ltac:(auto) Hps') as (l' & Htl & Hrl).
  destruct (parseexec_last r fuel n (40 :: show r ++ 41 :: rest) rest Hr ltac:(lia) ltac:(lia) Hs eq_refl) as (r' & Htr & Hrr).
  exists (PIPE l' r'). split; [|simpl; by rewrite Htl, Htr].
  apply parseline_stop; [lia|done|]. cbn [parsepipe]. rewrite Hrl. cbn [pbind].
  change (peek (124 :: ?x) "|") with (true, 124 :: x). cbv iota beta zeta.
  change (gettoken (124 :: ?x)) with (124, {| w_q := 124 :: x; w_eq := x |}, skip_ws x). cbv iota beta zeta.
  change (skip_ws (40 :: ?x)) with (40 :: x). pose proof (parsepipe_stop fuel n _ _ rest Hs Hrr) as Hpr.
  cbn [parsepipe] in Hpr. rewrite Hpr. done.
Qed.

Lemma reads_back_list l r : reads_back l → reads_back r → reads_back (LIST l r).
Proof.
  intros Hl Hr fuel n ps rest Hs Hfu Hn Hps. cbn [show depth] in *. simpl in Hn. rewrite length_app in Hn. simpl in Hn. rewrite length_app in Hn.
  assert (skip_ws ps = 40 :: show l ++ 41 :: 59 :: 40 :: show r ++ 41 :: rest) as Hps'.
  { rewrite Hps. simpl. rewrite <- app_assoc. simpl. by rewrite <- app_assoc. }
  destruct fuel as [|[|[|fuel]]]; [lia..|].
  destruct (parseexec_first l (S fuel) n ps 59 _ Hl ltac:(lia) ltac:(lia) ltac:(auto) Hps') as (l' & Htl & Hrl).
  destruct (parseexec_last r fuel n (40 :: show r ++ 41 :: rest) rest Hr ltac:(lia) ltac:(lia) Hs eq_refl) as (r' & Htr & Hrr).
  pose proof (parseline_stop (S fuel) n _ _ rest ltac:(lia) Hs (parsepipe_stop fuel n _ _ rest Hs Hrr)) as Hlr.
  exists (LIST l' r'). split; [|simpl; by rewrite Htl, Htr].
  change (parseline (S (S (S fuel))) n ps) with
    (pbind (parsepipe (S (S fuel)) n ps) (λ c ps, pbind (parsebacks n ps c) (λ c ps,
       let '(b, ps) := peek ps ";" in
       if b then let '(_, _, ps) := gettoken ps in pbind (parseline (S (S fuel)) n ps) (λ r ps, Parsed (LIST c r) ps)
       else Parsed c ps))).
  cbn [parsepipe]. rewrite Hrl. cbn [pbind]. change (peek (59 :: ?x) "|") with (false, 59 :: x). cbv iota beta zeta. cbn [pbind].
  destruct n as [|n]; [lia|]. cbn [parsebacks]. change (peek (59 :: ?x) "&") with (false, 59 :: x). cbv iota beta zeta. cbn [pbind].
  change (peek (59 :: ?x) ";") with (true, 59 :: x). cbv iota beta zeta.
  change (gettoken (59 :: ?x)) with (59, {| w_q := 59 :: x; w_eq := x |}, skip_ws x). cbv iota beta zeta.
  change (skip_ws (40 :: ?x)) with (40 :: x). rewrite Hlr. done.
Qed.

Lemma reads_back_back c : reads_back c → reads_back (BACK c).
Proof.
  intros Hc fuel n ps rest Hs Hfu Hn Hps. cbn [show depth] in *. simpl in Hn. rewrite length_app in Hn. simpl in Hn.
  assert (skip_ws ps = 40 :: show c ++ 41 :: 38 :: rest) as Hps'.
  { rewrite Hps. simpl. by rewrite <- app_assoc. }
  destruct fuel as [|[|fuel]]; [lia..|].
  destruct (parseexec_first c fuel n ps 38 _ Hc ltac:(lia) ltac:(lia) ltac:(auto) Hps') as (c' & Htc & Hrc).
  exists (BACK c'). split; [|simpl; by rewrite Htc].
  cbn [parseline parsepipe]. rewrite Hrc. cbn [pbind]. change (peek (38 :: ?x) "|") with (false, 38 :: x). cbv iota beta zeta. cbn [pbind].
  destruct n as [|n]; [lia|]. cbn [parsebacks]. change (peek (38 :: ?x) "&") with (true, 38 :: x). cbv iota beta zeta.
  change (gettoken (38 :: ?x)) with (38, {| w_q := 38 :: x; w_eq := x |}, skip_ws x). cbv iota beta zeta.
  rewrite (skip_ws_stop rest Hs), parsebacks_none by (done || lia). cbn [pbind].
  destruct rest as [|d rest]; [done|]. simpl in Hs. by subst.
Qed.

Lemma show_reads_back c : wf_cmd c → reads_back c.
Proof.
  induction c as [argv|c IH f m fd|l IHl r IHr|l IHl r IHr|c IH]; intros Hc.
  - by apply reads_back_exec.
  - apply reads_back_redir; [apply IH, Hc|done].
  - destruct Hc. apply reads_back_pipe; auto.
  - destruct Hc. apply reads_back_list; auto.
  - apply reads_back_back; auto.
Qed.

Lemma depth_show c : (depth c ≤ parse_fuel (show c))%nat.
Proof.
  unfold parse_fuel. induction c as [argv|c IH f m fd|l IHl r IHr|l IHl r IHr|c IH]; cbn [depth]; [lia|..];
    cbn [show]; simpl length; rewrite !length_app; simpl length; rewrite ?length_app; simpl length; lia.
Qed.

Lemma show_nonzero c : wf_cmd c → Forall (λ b, b ≠ 0) (show c).
Proof.
  assert (∀ w, good_word w → Forall (λ b, b ≠ 0) w) as Hw by (intros w [_ H]; eapply Forall_impl; [exact H|naive_solver]).
  induction c as [argv|c IH f m fd|l IHl r IHr|l IHl r IHr|c IH]; cbn [wf_cmd show].
  - intros [Hg _]. induction Hg as [|w argv H Hg IH]; [constructor|].
    change ((w :: argv) ≫= ?g) with ((32 :: w) ++ (argv ≫= g)). apply Forall_app. split; [constructor; [done|auto]|done].
  - intros (Hc & Hf & _). repeat first [apply IH; assumption | apply Hw; assumption | constructor | apply Forall_app; split | done]. by destruct (fd =? 0).
  - intros [Hl Hr]. repeat first [apply IHl; assumption | apply IHr; assumption | constructor | apply Forall_app; split | done].
  - intros [Hl Hr]. repeat first [apply IHl; assumption | apply IHr; assumption | constructor | apply Forall_app; split | done].
  - intros Hc. repeat first [apply IH; assumption | constructor | apply Forall_app; split | done].
Qed.

Lemma cmd_map_ext {T U} (f g : T → U) c : (∀ w, w ∈ cmd_words c → f w = g w) → cmd_map f c = cmd_map g c.
Proof.
  induction c as [argv|c IH t m fd|l IHl r IHr|l IHl r IHr|c IH]; simpl; intros Hw.
  - f_equal. apply list_fmap_ext. intros i w Hi. apply Hw. by eapply list_elem_of_lookup_2.
  - rewrite IH, Hw; [done|set_solver..].
  - rewrite IHl, IHr; [done|set_solver..].
  - rewrite IHl, IHr; [done|set_solver..].
  - by rewrite IH.
Qed.

(** C32: a command printed as a line, with parentheses around its parts, is read back by the parser of the
    shell, with nothing left over; and after [nulterminate] has cut the line into strings, the strings [runcmd]
    finds through the pointers into the line are exactly the words, file names and modes of the command. *)
Theorem shell_round_trip c : wf_cmd c → ∃ c', parse (show c) = Parsed c' [] ∧ strings (show c) c' = c.
Proof.
  intros Hc. destruct (show_reads_back c Hc (parse_fuel (show c)) (S (length (show c))) (show c) [])
    as (c' & Hp & Ht); [done|apply depth_show|lia|by rewrite app_nil_r|].
  assert (parse (show c) = Parsed c' []) as Hparse by (unfold parse; by rewrite Hp).
  exists c'. split; [done|]. transitivity (cmd_map text c'); [|done]. unfold strings. apply cmd_map_ext. intros w Hw.
  apply string_of_text; [by apply show_nonzero|by eapply parse_words|done].
Qed.

(** Witness: [(cat < in) | (wc > out)] and a list in the background. *)
Lemma shell_round_trip_witness :
  let c := BACK (LIST (PIPE (REDIR (EXEC [str "cat"]) (str "in") O_RDONLY 0)
                            (REDIR (EXEC [str "wc"; str "x"]) (str "out") (Z.lor O_WRONLY O_CREATE) 1)) (EXEC [])) in
  ∃ c', parse (show c) = Parsed c' [] ∧ strings (show c) c' = c.
Proof.
  apply (shell_round_trip (BACK (LIST (PIPE (REDIR (EXEC [str "cat"]) (str "in") O_RDONLY 0)
                            (REDIR (EXEC [str "wc"; str "x"]) (str "out") (Z.lor O_WRONLY O_CREATE) 1)) (EXEC [])))).
  assert (∀ w, w ≠ [] → forallb (λ c, is_wordchar c && negb (c =? 0)) w = true → good_word w) as Hg.
  { intros w Hne H. split; [done|]. apply Forall_forall. intros c Hc. eapply forallb_forall in H; [|by apply list_elem_of_In].
    apply andb_true_iff in H as [H1 H2]. split; [done|]. intros ->. discriminate. }
  pose proof (Hg (str "cat")) as H1. pose proof (Hg (str "in")) as H2. pose proof (Hg (str "wc")) as H3.
  pose proof (Hg (str "x")) as H4. pose proof (Hg (str "out")) as H5. unfold wf_cmd, MAXARGS.
  split_and!; try (by left); try (by right); try (simpl; lia); rewrite ?Forall_cons, ?Forall_nil; auto.
Defined.

(** ** The strace mode of the shell *)

Lemma streq_starts buf pre l :
  streq buf (pre ++ l) = true → Forall (λ c, c ≠ 10) pre → take (length pre) buf = pre.
Proof.
  intros Hs Hp. revert buf Hs. induction Hp as [|p pre Hp _ IH]; intros buf Hs; [done|].
  destruct buf as [|c buf]; [done|]. simpl in *. change (hd0 (p :: ?r)) with p in Hs. destruct (Z.eqb_spec c p) as [->|]; [|done].
  cbn [negb] in Hs. destruct (Z.eqb_spec p 10) as [->|]; [done|]. by rewrite (IH buf).
Qed.

Lemma streq_not_starts buf pre rest :
  starts pre buf = false → forallb (λ c, negb (c =? 10)) (str pre) = true → streq buf (str pre ++ rest) = false.
Proof.
  unfold starts. intros Hp Hn. apply bool_decide_eq_false in Hp. apply not_true_iff_false. intros Hs.
  destruct Hp. apply (streq_starts _ _ _ Hs). apply Forall_forall. intros c Hc.
  eapply forallb_forall in Hn; [|by apply list_elem_of_In]. by bool_facts.
Qed.

Lemma starts_longer pre pre' rest buf : str pre' = str pre ++ rest → starts pre buf = false → starts pre' buf = false.
Proof.
  unfold starts. rewrite !bool_decide_eq_false. intros Hp Hn Ht. apply Hn. rewrite Hp in Ht.
  apply (f_equal (take (length (str pre)))) in Ht. rewrite take_take, length_app in Ht.
  rewrite take_app_length in Ht. by rewrite Nat.min_l in Ht by lia.
Qed.

(** Once a line has started with "strace run ", the flag that says so is never cleared: every later line that is
    not a built-in command loses its first eleven characters, and is traced. *)
Lemma strace_run_sticks {W} `{Sys W} (sh : shstate) (buf : list Z) w hp :
  sh.(sh_running) = true → sh.(sh_dumping) = false → starts "cd " buf = false → starts "strace " buf = false →
  sh_turn sh buf w hp = (run_line true (drop 11 buf);; ret (Mksh true false true sh.(sh_flag))) w hp.
Proof.
  intros Hr Hd Hcd Hst. unfold sh_turn, straceR_commands, straceO_commands, straceR_mode.
  change (str (line "strace on")) with (str "strace " ++ [111; 110; 10]).
  change (str (line "strace off")) with (str "strace " ++ [111; 102; 102; 10]).
  change (str (line "strace dump")) with (str "strace " ++ [100; 117; 109; 112; 10]).
  rewrite Hcd, !(streq_not_starts buf "strace ") by done. rewrite Hd. cbn [orb]. rewrite bind_ret_l. cbv iota beta.
  rewrite (starts_longer "strace " "strace -e " [45; 101; 32]), (starts_longer "strace " "strace -s -e " [45; 115; 32; 45; 101; 32]),
    (starts_longer "strace " "strace -f -e " [45; 102; 32; 45; 101; 32]), (starts_longer "strace " "strace -s" [45; 115]),
    (starts_longer "strace " "strace -f" [45; 102]) by done.
  rewrite bind_ret_l. cbv iota beta. rewrite Hr. cbn [orb]. rewrite bind_assoc. apply bind_ext. intros [] w' hp'.
  by rewrite bind_ret_l, Hd.
Qed.
