(* ===== verification/ShellTrace.v ===== *)
(** The [strace -e] command across the system call boundary: the index the shell
    computes from a name ([parse_syscallN] of sh.c) against the table the kernel
    looks the index up in ([syscallnames] of syscall.c). *)

From stdpp Require Import base list strings.
From S2P Require Import Prelude KState Print Args Syscall Ulib Shell.
#[local] Open Scope kernel_scope.

(** ** Names and strings *)

Definition plain (s : list Z) : Prop := Forall (λ c, 0 < c < 256) s.

Lemma u8_plain c : 0 < c < 256 → u8 c = c.
Proof. intros Hc. unfold u8. apply Z.mod_small. lia. Qed.

Lemma strcmp_eq p q : plain p → plain q → strcmp p q = 0 ↔ p = q.
Proof.
  intros Hp. revert q. induction Hp as [|c p Hc Hp IH]; intros q Hq.
  - destruct Hq as [|d q Hd Hq]; [done|]. simpl. change (hd0 (d :: q)) with d. rewrite (u8_plain d) by done.
    split; [lia|done].
  - destruct Hq as [|d q Hd Hq]; simpl.
    + change (hd0 []) with 0. rewrite andb_comm, (proj2 (Z.eqb_neq c 0)) by lia. simpl. rewrite (u8_plain c) by done.
      change (u8 0) with 0. split; [lia|done].
    + change (hd0 (d :: q)) with d. rewrite (proj2 (Z.eqb_neq c 0)) by lia. cbn [negb andb].
      destruct (Z.eqb_spec c d) as [->|Hne].
      * rewrite IH by done. split; [by intros ->|by intros [= ->]].
      * rewrite !u8_plain by done. split; [lia|congruence].
Qed.

Lemma syscall_names_plain i : (i < 22)%nat → plain (syscall_names !!! i).
Proof.
  intros Hi. assert (Forall plain syscall_names) as H by (unfold plain; repeat constructor).
  rewrite Forall_lookup in H. apply (H i). by apply list_lookup_lookup_total_lt.
Qed.

Lemma syscall_names_differ i j : (i < 22)%nat → (j < 22)%nat → syscall_names !!! i = syscall_names !!! j → i = j.
Proof.
  intros Hi Hj Heq. assert (NoDup syscall_names) as H by (apply (bool_decide_unpack _); vm_compute; done).
  eapply NoDup_lookup; [done|by apply list_lookup_lookup_total_lt|]. rewrite Heq. by apply list_lookup_lookup_total_lt.
Qed.

(** ** The index of a name *)

(** The loop over the names: the last match wins. *)
Lemma name_index_app s n :
  plain s → (n ≤ 22)%nat →
  let k := foldl (λ k i, if strcmp s (syscall_names !!! i) =? 0 then Z.of_nat i else k) (-1) (seq 0 n) in
  (∃ i, (i < n)%nat ∧ k = Z.of_nat i ∧ s = syscall_names !!! i) ∨
  k = -1 ∧ ∀ i, (i < n)%nat → s ≠ syscall_names !!! i.
Proof.
  intros Hs. induction n as [|n IH]; intros Hn; [right; split; [done|lia]|].
  rewrite seq_S, foldl_app. cbn [foldl]. rewrite Nat.add_0_l. cbv zeta.
  destruct (Z.eqb_spec (strcmp s (syscall_names !!! n)) 0) as [He|He]; rewrite strcmp_eq in He by (done || apply syscall_names_plain; lia).
  - left. exists n. split; [lia|done].
  - destruct IH as [(i & Hi & Hk & Heq)|[Hk Hall]]; [lia|left; exists i; split; [lia|done]|].
    right. split; [done|]. intros i Hi. assert (i = n ∨ (i < n)%nat) as [->|H] by lia; [done|by apply Hall].
Qed.

Lemma name_index_spec i : (i < 22)%nat → name_index (syscall_names !!! i) = Z.of_nat i.
Proof.
  intros Hi. destruct (name_index_app (syscall_names !!! i) 22 (syscall_names_plain i Hi) ltac:(lia))
    as [(j & Hj & Hk & Heq)|[_ Hall]]; [|by destruct (Hall i Hi)].
  apply syscall_names_differ in Heq as ->; done.
Qed.

Lemma name_index_unknown s : plain s → s ∉ syscall_names → name_index s = -1.
Proof.
  intros Hs Hn. destruct (name_index_app s 22 Hs ltac:(lia)) as [(i & Hi & _ & ->)|[Hk _]]; [|done].
  destruct Hn. apply list_elem_of_lookup. exists i. by apply list_lookup_lookup_total_lt.
Qed.

(** The shell's names but the last are the kernel's, one place further on. *)
Lemma names_agree i : (i < 21)%nat → ∃ nm, named (Z.of_nat i + 1) nm ∧ str nm = syscall_names !!! i.
Proof.
  intros Hi. assert (∃ nm, syscallnames !! S i = Some (Some nm) ∧ str nm = syscall_names !!! i) as (nm & H1 & H2).
  { do 21 (destruct i as [|i]; [eexists; split; reflexivity|]). lia. }
  exists nm. split; [|done]. split; [lia|]. by rewrite Z.add_1_r, <- Nat2Z.inj_succ, Nat2Z.id.
Qed.

(** The line that asks for the calls of one name. *)
Definition strace_e (name : list Z) : list Z := str "strace -e " ++ name ++ [10].

Lemma parse_syscallN_run {W} `{Sys W} pre s (w : W) hp :
  (length s < 20)%nat → parse_syscallN (str pre ++ s ++ [10]) (length (str pre)) w hp = Ret (name_index s) w hp.
Proof.
  intros Hs. unfold parse_syscallN.
  assert (length (str pre ++ s ++ [10%Z]) - 1 - length (str pre) = length s)%nat as -> by (rewrite !length_app; cbn [length]; lia).
  rewrite slice_app_r by lia. rewrite Nat.sub_diag. unfold slice. rewrite drop_0, take_app_length.
  cbv zeta. by rewrite (proj2 (Nat.leb_gt _ _)) by lia.
Qed.

(** [strace -e] selects the calls of the given name.  For each name the shell knows but its last one, the
    shell turns the line "strace -e name" into an index, and the kernel's filter with this index as [e_flag] lets
    through exactly the calls whose name is the given one. *)
Theorem strace_e_selects {W} `{Sys W} (w : W) hp s num nm st e :
  s ∈ syscall_names → s ≠ str "trace" → named num nm →
  ∃ i, parse_syscallN (strace_e s) 10 w hp = Ret i w hp ∧
       names_match i num st e = Ret (bool_decide (s = str nm)) st e.
Proof.
  intros [i Hi]%list_elem_of_lookup Hne Hn. pose proof (lookup_lt_Some _ _ _ Hi) as Hlt. simpl in Hlt.
  apply list_lookup_total_correct in Hi as <-. assert (i ≠ 21)%nat by (by intros ->).
  exists (Z.of_nat i). split.
  - rewrite <- name_index_spec by done. apply (parse_syscallN_run "strace -e ").
    clear. do 22 (destruct i as [|i]; [vm_compute; lia|]). vm_compute. lia.
  - destruct (names_agree i ltac:(lia)) as (na & Ha & <-). by apply names_match_run.
Qed.

(** Witness: "strace -e write" against [write] and [read]. *)
Lemma strace_e_selects_witness :
  let w := one_file None 0 [] in
  (∃ i, parse_syscallN (strace_e (str "write")) 10 w [] = Ret i w [] ∧
        names_match i 16 (user_state []) [] = Ret true (user_state []) []) ∧
  (∃ i, parse_syscallN (strace_e (str "write")) 10 w [] = Ret i w [] ∧
        names_match i 5 (user_state []) [] = Ret false (user_state []) []).
Proof.
  split.
  - apply (strace_e_selects (one_file None 0 []) [] (str "write") 16 "write" (user_state []) []); [|done|split; [lia|done]].
    apply (bool_decide_unpack _). vm_compute. done.
  - apply (strace_e_selects (one_file None 0 []) [] (str "write") 5 "read" (user_state []) []); [|done|split; [lia|done]].
    apply (bool_decide_unpack _). vm_compute. done.
Defined.

(** The last name of the shell's table is at the place of [nice] in the kernel's, which is empty there: with
    "strace -e trace" the filter follows a null pointer. *)
Lemma strace_e_trace {W} `{Sys W} (w : W) hp num st e :
  ∃ i, parse_syscallN (strace_e (str "trace")) 10 w hp = Ret i w hp ∧
       names_match i num st e = Fault "null pointer".
Proof. exists 21. split; [|done]. apply (parse_syscallN_run "strace -e " (str "trace")). vm_compute. lia. Qed.
