(* ===== verification/Umalloc.v ===== *)
(** * The user memory allocator (umalloc.c)

    The allocator of Kernighan and Ritchie: the free blocks form a ring through
    their headers, in the order of their addresses, that starts at [base].
    Addresses count bytes; sizes count headers of eight bytes, the header of
    the block included.  Memory is that of Mem.v; [sbrk] is the system call, which
    grants a request or refuses it as the kernel decides ([grant]). *)

From S2P Require Import Prelude KState Mem.
#[local] Open Scope kernel_scope.

(** The memory of the process, [freep], and the end of the memory. *)
Record heap : Type := Mkheap { h_mem : mem; h_freep : Z; h_brk : Z }.

Section allocator.
(** The address of [base]. *)
Context (base : Z).

(** ** Headers *)

Definition sizeof_Header : Z := 8.

(** [p + n] for a pointer to a header. *)
Definition padd (p n : Z) : Z := u32 (p + sizeof_Header * n).

(** [p->s.ptr] and [p->s.size]. *)
Definition get_ptr (p : Z) : M heap Z := gets (λ h, load32 h.(h_mem) p).
Definition get_size (p : Z) : M heap Z := gets (λ h, load32 h.(h_mem) (p + 4)).
Definition set_ptr (p v : Z) : M heap unit :=
  modify (λ h, Mkheap (store32 p v h.(h_mem)) h.(h_freep) h.(h_brk)).
Definition set_size (p v : Z) : M heap unit :=
  modify (λ h, Mkheap (store32 (p + 4) v h.(h_mem)) h.(h_freep) h.(h_brk)).
Definition set_freep (p : Z) : M heap unit := modify (λ h, Mkheap h.(h_mem) p h.(h_brk)).

(** ** free *)

(** The search for the place of [bp] in the ring. *)
Fixpoint free_find (fuel : nat) (bp p : Z) : M heap Z :=
  match fuel with
  | O => fault "fuel"
  | S fuel' =>
      nx <- get_ptr p;;
      if (p <? bp) && (bp <? nx) then ret p
      else if (nx <=? p) && ((p <? bp) || (bp <? nx)) then ret p
      else free_find fuel' bp nx
  end.

(** Join [bp] to the block after it, if it touches it. *)
Definition join_next (bp p : Z) : M heap unit :=
  sz <- get_size bp;;
  nx <- get_ptr p;;
  if padd bp sz =? nx then
    nsz <- get_size nx;;
    set_size bp (u32 (sz + nsz));;
    nx <- get_ptr p;;
    nnx <- get_ptr nx;;
    set_ptr bp nnx
  else set_ptr bp nx.

(** Join [bp] to the block [p] before it, if it touches it. *)
Definition join_prev (bp p : Z) : M heap unit :=
  psz <- get_size p;;
  if padd p psz =? bp then
    bsz <- get_size bp;;
    set_size p (u32 (psz + bsz));;
    bnx <- get_ptr bp;;
    set_ptr p bnx
  else set_ptr p bp.

Definition free (fuel : nat) (ap : Z) : M heap unit :=
  let bp := padd ap (-1) in
  fp <- gets h_freep;;
  p <- free_find fuel bp fp;;
  join_next bp p;;
  join_prev bp p;;
  set_freep p.

(** ** sbrk and malloc *)

(** [sbrk(n)]: the old break, or -1; [grant brk n] says whether the kernel agrees. *)
Definition sbrk (grant : Z → Z → bool) (n : Z) : M heap Z :=
  brk <- gets h_brk;;
  if grant brk n then modify (λ h, Mkheap h.(h_mem) h.(h_freep) (u32 (brk + n)));; ret brk
  else ret (u32 (-1)).

Definition morecore (grant : Z → Z → bool) (fuel : nat) (nu : Z) : M heap Z :=
  let nu := if nu <? 4096 then 4096 else nu in
  p <- sbrk grant (s32 (nu * sizeof_Header));;
  if p =? u32 (-1) then ret 0 else
  set_size p nu;;
  free fuel (padd p 1);;
  gets h_freep.

(** Take [nunits] from the end of the block [p], or the whole of it. *)
Definition carve (nunits prevp p : Z) : M heap Z :=
  sz <- get_size p;;
  p <- (if sz =? nunits then nx <- get_ptr p;; set_ptr prevp nx;; ret p
        else
          set_size p (u32 (sz - nunits));;
          sz <- get_size p;;
          let p := padd p sz in
          set_size p nunits;;
          ret p);;
  set_freep prevp;;
  ret (padd p 1).

Fixpoint malloc_loop (grant : Z → Z → bool) (fuel k : nat) (nunits prevp p : Z) : M heap Z :=
  match k with
  | O => fault "fuel"
  | S k' =>
      sz <- get_size p;;
      if nunits <=? sz then carve nunits prevp p
      else
        fp <- gets h_freep;;
        if p =? fp then
          p <- morecore grant fuel nunits;;
          if p =? 0 then ret 0 else nx <- get_ptr p;; malloc_loop grant fuel k' nunits p nx
        else nx <- get_ptr p;; malloc_loop grant fuel k' nunits p nx
  end.

Definition units (nbytes : Z) : Z := u32 (u32 (nbytes + sizeof_Header - 1) / sizeof_Header + 1).

Definition malloc (grant : Z → Z → bool) (fuel k : nat) (nbytes : Z) : M heap Z :=
  let nunits := units nbytes in
  fp <- gets h_freep;;
  (if fp =? 0 then set_ptr base base;; set_freep base;; set_size base 0 else ret tt);;
  prevp <- gets h_freep;;
  p <- get_ptr prevp;;
  malloc_loop grant fuel k nunits prevp p.

(** ** The ring of free blocks *)

(** A block: its address and its size in headers. *)
Abbreviation block := (Z * Z)%type (only parsing).

(** Where the last pointer of a chain of blocks goes that is followed by [N]. *)
Definition next (N : list block) (q : Z) : Z := match N with [] => q | (b, _) :: _ => b end.

(** The headers of [N] hold its sizes, and lead from one block to the next, and then to [q]. *)
Fixpoint chain (m : mem) (N : list block) (q : Z) : Prop :=
  match N with
  | [] => True
  | (a, s) :: N' => load32 m a = next N' q ∧ load32 m (a + 4) = s ∧ chain m N' q
  end.

(** The blocks are in the order of their addresses, apart from each other, with a gap in between. *)
Fixpoint spaced (N : list block) (hi : Z) : Prop :=
  match N with
  | [] => True
  | (a, s) :: N' => 0 ≤ s ∧ a + 8 * Z.max s 1 ≤ next N' hi ∧ (N' ≠ [] → a + 8 * s ≠ next N' hi) ∧ spaced N' hi
  end.

(** The free blocks of [h] are [L]. *)
Record ring (h : heap) (L : list block) : Prop := {
  r_base : 0 < base;
  r_brk : h.(h_brk) ≤ KERNBASE;
  r_chain : chain h.(h_mem) ((base, 0) :: L) base;
  r_spaced : spaced ((base, 0) :: L) h.(h_brk);
  r_sizes : Forall (λ b, 1 ≤ b.2) L;
  r_freep : h.(h_freep) ∈ base :: L.*1
}.

Definition in_block (b : block) (x : Z) : Prop := b.1 ≤ x < b.1 + 8 * b.2.
Definition covered (L : list block) (x : Z) : Prop := Exists (λ b, in_block b x) L.

(** ** Chains *)

Lemma chain_app m N1 N2 q : chain m (N1 ++ N2) q ↔ chain m N1 (next N2 q) ∧ chain m N2 q.
Proof.
  induction N1 as [|[a s] N1 IH]; simpl; [tauto|]. rewrite IH.
  assert (next (N1 ++ N2) q = next N1 (next N2 q)) as -> by (by destruct N1). tauto.
Qed.

(** A chain depends on the headers of its blocks only. *)
Lemma chain_ext m m' N q :
  (∀ a s x, (a, s) ∈ N → a ≤ x < a + 8 → m' x = m x) → chain m N q → chain m' N q.
Proof.
  induction N as [|[a s] N IH]; intros Hm; simpl; [done|]. intros (Hp & Hs & Hc).
  split_and!; [|..|apply IH; [|done]; intros ?????; eapply Hm; [by right|done]].
  - rewrite <- Hp. apply load32_ext. intros x Hx. eapply Hm; [by left|lia].
  - rewrite <- Hs. apply load32_ext. intros x Hx. eapply Hm; [by left|lia].
Qed.

Lemma spaced_app N1 N2 hi : spaced (N1 ++ N2) hi → spaced N1 (next N2 hi) ∧ spaced N2 hi.
Proof.
  induction N1 as [|[a s] N1 IH]; simpl; [done|]. intros (H0 & Hle & Hne & Hs). destruct (IH Hs) as [H1 H2].
  assert (next (N1 ++ N2) hi = next N1 (next N2 hi)) as Hn by (by destruct N1). rewrite Hn in Hle, Hne.
  split_and!; auto. intros HN. apply Hne. by destruct N1.
Qed.

(** The blocks of a chain are below its end, and after its first block. *)
Lemma spaced_below N hi a s : spaced N hi → (a, s) ∈ N → 0 ≤ s ∧ a + 8 * Z.max s 1 ≤ hi.
Proof.
  revert a s. induction N as [|[b t] N IH]; intros a s Hs Hin; [by apply elem_of_nil in Hin|].
  destruct Hs as (H0 & Hle & _ & Hs). apply elem_of_cons in Hin as [[= -> ->]|Hin]; [|by apply IH].
  destruct N as [|[c u] N]; simpl in Hle; [lia|]. destruct (IH c u Hs ltac:(by left)). lia.
Qed.

Lemma spaced_above b t N hi a s : spaced ((b, t) :: N) hi → (a, s) ∈ N → b + 8 * Z.max t 1 ≤ a ∧ b + 8 * t ≠ a.
Proof.
  revert b t. induction N as [|[c u] N IH]; intros b t Hs Hin; [by apply elem_of_nil in Hin|].
  destruct Hs as (H0 & Hle & Hne & Hs). simpl in Hle, Hne. apply elem_of_cons in Hin as [[= -> ->]|Hin]; [by split; [|apply Hne]|].
  destruct (IH c u Hs Hin). lia.
Qed.

Lemma spaced_nodup N hi : spaced N hi → NoDup N.*1.
Proof.
  induction N as [|[a s] N IH]; intros Hs; [constructor|]. apply NoDup_cons. split; [|by apply IH, Hs].
  intros ([b t] & Heq & Hin)%list_elem_of_fmap. cbn [fst] in Heq. subst b. destruct (spaced_above _ _ _ _ _ _ Hs Hin). lia.
Qed.

(** The node before the one a pointer leads to. *)
Lemma node_split (N : list block) p : p ∈ N.*1 → ∃ N1 s N2, N = N1 ++ (p, s) :: N2.
Proof.
  intros ([p' s] & -> & Hin)%list_elem_of_fmap. apply list_elem_of_split in Hin as (N1 & N2 & ->). by exists N1, s, N2.
Qed.

(** From any node, the ring leads through all the others and back. *)
Lemma ring_from h L q :
  ring h L → q ∈ base :: L.*1 →
  ∃ s R, chain h.(h_mem) ((q, s) :: R) q ∧ (q, s) :: R ≡ₚ (base, 0) :: L.
Proof.
  intros Hr Hq. destruct (node_split ((base, 0) :: L) q Hq) as (N1 & s & N2 & HN).
  pose proof (r_chain h L Hr) as Hc. rewrite HN, chain_app in Hc. destruct Hc as [Hc1 Hc2].
  exists s, (N2 ++ N1). split; [|rewrite HN, <- Permutation_middle; by rewrite Permutation_app_comm].
  change ((q, s) :: N2 ++ N1) with (((q, s) :: N2) ++ N1). rewrite chain_app. split; [|done].
  assert (next N1 q = base) as ->; [|done]. destruct N1 as [|[b t] N1]; simpl in *; congruence.
Qed.

(** ** The place of a block in the ring *)

Definition stops (bp p nx : Z) : bool :=
  (p <? bp) && (bp <? nx) || (nx <=? p) && ((p <? bp) || (bp <? nx)).

Lemma free_find_walk fuel bp q s R r h e :
  chain h.(h_mem) ((q, s) :: R) r →
  Exists (λ x, stops bp x (load32 h.(h_mem) x) = true) (q :: R.*1) → (length R < fuel)%nat →
  ∃ p, p ∈ q :: R.*1 ∧ stops bp p (load32 h.(h_mem) p) = true ∧ free_find fuel bp q h e = Ret p h e.
Proof.
  revert q s R. induction fuel as [|fuel IH]; intros q s R Hc Hex Hf; [lia|].
  cbn [free_find]. unfold get_ptr. rewrite bind_gets. destruct (stops bp q (load32 (h_mem h) q)) eqn:E.
  - exists q. split_and!; [by left|done|]. unfold stops in E. destruct ((q <? bp) && _); [done|]. simpl in E. by rewrite E.
  - pose proof E as E'. unfold stops in E. apply orb_false_iff in E as [-> ->]. apply Exists_cons in Hex as [Hex|Hex]; [congruence|].
    destruct R as [|[b t] R]; [by apply Exists_nil in Hex|]. destruct Hc as (Hq & _ & Hc). cbn [next] in Hq. rewrite Hq.
    destruct (IH b t R Hc Hex) as (p & Hin & Hst & ->); [simpl in Hf; lia|]. exists p. split_and!; [by right|done|done].
Qed.

(** The last node before [bp]: where the search ends. *)
Lemma place_exists N hi bp a s :
  spaced ((a, s) :: N) hi → a < bp → (∀ b t, (b, t) ∈ N → b ≠ bp) →
  ∃ N1 p ps N2, (a, s) :: N = N1 ++ (p, ps) :: N2 ∧ p < bp ∧ ∀ b t, (b, t) ∈ N2 → bp < b.
Proof.
  revert a s. induction N as [|[b t] N IH]; intros a s Hs Ha Hne.
  - exists [], a, s, []. split_and!; [done|done|]. by intros ?? ?%elem_of_nil.
  - destruct (Z.lt_ge_cases b bp) as [Hb|Hb].
    + destruct (IH b t) as (N1 & p & ps & N2 & -> & Hp & HN); [apply Hs|done|intros; apply (Hne b0 t0); by right|].
      by exists ((a, s) :: N1), p, ps, N2.
    + exists [], a, s, ((b, t) :: N). split_and!; [done|done|]. intros c u Hc.
      pose proof (Hne b t ltac:(by left)). apply elem_of_cons in Hc as [[= -> ->]|Hc]; [lia|].
      destruct Hs as (_ & _ & _ & Hs). destruct (spaced_above b t N hi c u Hs Hc). lia.
Qed.

Lemma node_above h L N1 p ps N2 : ring h L → (base, 0) :: L = N1 ++ (p, ps) :: N2 → base ≤ p.
Proof.
  intros Hr HN. assert ((p, ps) ∈ (base, 0) :: L) as Hin by (rewrite HN; set_solver).
  apply elem_of_cons in Hin as [[= -> ->]|Hin]; [lia|]. destruct (spaced_above _ _ _ _ _ _ (r_spaced h L Hr) Hin). lia.
Qed.

Lemma freep_pos h L : ring h L → 0 < h.(h_freep).
Proof.
  intros Hr. destruct (node_split ((base, 0) :: L) _ (r_freep h L Hr)) as (N1 & s & N2 & HN).
  pose proof (node_above h L _ _ _ _ Hr HN). pose proof (r_base h L Hr). lia.
Qed.

Lemma stops_place h L N1 p ps N2 bp :
  ring h L → (base, 0) :: L = N1 ++ (p, ps) :: N2 → base < bp →
  stops bp p (load32 h.(h_mem) p) = true → p < bp ∧ ∀ b t, (b, t) ∈ N2 → bp < b.
Proof.
  intros Hr HN Hb Hst. pose proof (r_chain h L Hr) as Hc. pose proof (r_spaced h L Hr) as Hs.
  rewrite HN in Hc, Hs. apply chain_app in Hc as [_ (Hnx & _ & Hc)]. apply spaced_app in Hs as [_ Hs].
  pose proof (node_above h L N1 p ps N2 Hr HN) as Hbp.
  rewrite Hnx in Hst. unfold stops in Hst. destruct N2 as [|[c u] N2]; cbn [next] in Hst.
  - split; [|by intros ?? ?%elem_of_nil]. apply orb_true_iff in Hst as [Hst|Hst]; bool_facts; [lia|].
    match goal with H : _ || _ = true |- _ => apply orb_true_iff in H as [?|?] end; bool_facts; lia.
  - pose proof (spaced_above _ _ _ _ c u Hs ltac:(by left)) as [Hpc _]. destruct (spaced_below _ _ p ps Hs ltac:(by left)) as [? _].
    apply orb_true_iff in Hst as [Hst|Hst]; bool_facts; [|lia]. split; [done|]. intros b t Hbt.
    apply elem_of_cons in Hbt as [[= -> ->]|Hbt]; [lia|]. destruct Hs as (_ & _ & _ & Hs).
    destruct (spaced_above _ _ _ _ b t Hs Hbt). lia.
Qed.

Lemma place_stops h L N1 p ps N2 bp :
  ring h L → (base, 0) :: L = N1 ++ (p, ps) :: N2 → p < bp → (∀ b t, (b, t) ∈ N2 → bp < b) → base < bp →
  stops bp p (load32 h.(h_mem) p) = true.
Proof.
  intros Hr HN Hp HN2 Hb. pose proof (r_chain h L Hr) as Hc. rewrite HN in Hc. apply chain_app in Hc as [_ (-> & _)].
  pose proof (node_above h L N1 p ps N2 Hr HN) as Hbp.
  unfold stops. rewrite (proj2 (Z.ltb_lt p bp) Hp). destruct N2 as [|[c u] N2]; cbn [next].
  - apply orb_true_iff. right. simpl. by rewrite (proj2 (Z.leb_le base p)).
  - rewrite (proj2 (Z.ltb_lt bp c)); [done|]. apply (HN2 c u). by left.
Qed.

(** The search of [free] ends at the node after which the block belongs. *)
Lemma free_find_run h L bp fuel e :
  ring h L → base < bp → (∀ b t, (b, t) ∈ L → b ≠ bp) → (length L < fuel)%nat →
  ∃ N1 p ps N2, (base, 0) :: L = N1 ++ (p, ps) :: N2 ∧ p < bp ∧ (∀ b t, (b, t) ∈ N2 → bp < b) ∧
    free_find fuel bp h.(h_freep) h e = Ret p h e.
Proof.
  intros Hr Hb Hne Hf. destruct (ring_from h L _ Hr (r_freep h L Hr)) as (s & R & Hc & HR).
  assert (∀ x, x ∈ h_freep h :: R.*1 ↔ x ∈ base :: L.*1) as Hmem.
  { intros x. change (x ∈ ((h_freep h, s) :: R).*1 ↔ x ∈ ((base, 0) :: L).*1). by rewrite HR. }
  destruct (place_exists L _ bp base 0 (r_spaced h L Hr) Hb Hne) as (N1 & p & ps & N2 & HN & Hp & HN2).
  destruct (free_find_walk fuel bp (h_freep h) s R _ h e Hc) as (x & Hx & Hst & ->).
  - apply Exists_exists. exists p. split; [|by eapply place_stops]. apply Hmem.
    change (p ∈ ((base, 0) :: L).*1). rewrite HN, fmap_app. set_solver.
  - apply Permutation_length in HR. simpl in HR. lia.
  - apply Hmem in Hx. destruct (node_split ((base, 0) :: L) x Hx) as (N1' & xs & N2' & HN').
    exists N1', x, xs, N2'. split; [done|]. destruct (stops_place h L N1' x xs N2' bp Hr HN' Hb Hst). done.
Qed.

(** ** Joining blocks *)

Lemma padd_small p n : 0 ≤ p + 8 * n < 4294967296 → padd p n = p + 8 * n.
Proof. intros H. unfold padd, sizeof_Header. by rewrite u32_id. Qed.

(** [m'] differs from [m] in the header at [a] only. *)
Definition only_header (a : Z) (m m' : mem) : Prop := ∀ x, x < a ∨ a + 8 ≤ x → m' x = m x.

Lemma chain_only a m m' N q :
  only_header a m m' → (∀ b t, (b, t) ∈ N → b + 8 ≤ a ∨ a + 8 ≤ b) → chain m N q → chain m' N q.
Proof. intros Hm HN. apply chain_ext. intros b t x Hb Hx. apply Hm. destruct (HN b t Hb); lia. Qed.

Lemma load_only a m m' p : only_header a m m' → p + 4 ≤ a ∨ a + 8 ≤ p → load32 m' p = load32 m p.
Proof. intros Hm Hp. apply load32_ext. intros x Hx. apply Hm. lia. Qed.

Lemma covered_cons b L x : covered (b :: L) x ↔ in_block b x ∨ covered L x.
Proof. apply Exists_cons. Qed.

(** Storing in a header. *)
Lemma store_ptr_only a v m : only_header a m (store32 a v m).
Proof. intros x Hx. apply store32_out. lia. Qed.

Lemma store_size_only a v m : only_header a m (store32 (a + 4) v m).
Proof. intros x Hx. apply store32_out. lia. Qed.

Lemma only_header_trans a m1 m2 m3 : only_header a m1 m2 → only_header a m2 m3 → only_header a m1 m3.
Proof. intros H1 H2 x Hx. rewrite H2, H1 by lia. done. Qed.

(** Storing both fields of a header. *)
Lemma store_header a v w m :
  is_u32 v → is_u32 w → let m' := store32 a v (store32 (a + 4) w m) in
  load32 m' a = v ∧ load32 m' (a + 4) = w ∧ only_header a m m'.
Proof.
  intros Hv Hw. split_and!.
  - by apply load32_store32_eq.
  - rewrite load32_store32_ne by lia. by apply load32_store32_eq.
  - eapply only_header_trans; [apply store_size_only|apply store_ptr_only].
Qed.

Lemma next_range h N a s :
  spaced ((a, s) :: N) h.(h_brk) → 0 ≤ a → 0 ≤ base → base < a → h.(h_brk) ≤ KERNBASE → is_u32 (next N base).
Proof.
  unfold KERNBASE, is_u32. intros (H0 & Hle & _ & Hs) Ha Hb Hba Hbrk. destruct N as [|[c u] N]; cbn [next] in *.
  - lia.
  - destruct (spaced_below _ _ c u Hs ltac:(by left)). lia.
Qed.

Lemma join_next_run h e N2 bp s p :
  let m := h.(h_mem) in
  0 ≤ base → h.(h_brk) ≤ KERNBASE → base < bp → p + 8 ≤ bp → load32 m (bp + 4) = s → 1 ≤ s → load32 m p = next N2 base →
  chain m N2 base → bp + 8 * s ≤ next N2 h.(h_brk) → spaced N2 h.(h_brk) → Forall (λ b, 1 ≤ b.2) N2 →
  ∃ m' s' N2', join_next bp p h e = Ret tt (Mkheap m' h.(h_freep) h.(h_brk)) e ∧ only_header bp m m' ∧
    chain m' ((bp, s') :: N2') base ∧ spaced ((bp, s') :: N2') h.(h_brk) ∧ s ≤ s' ∧ Forall (λ b, 1 ≤ b.2) N2' ∧
    (length N2' ≤ length N2)%nat ∧ ∀ x, covered ((bp, s') :: N2') x ↔ in_block (bp, s) x ∨ covered N2 x.
Proof.
  intros m Hb Hbrk Hbp Hp Hs Hs1 Hnx Hc Hle Hsp Hsz. unfold join_next, get_size, get_ptr, set_size, set_ptr. rewrite !bind_gets.
  fold m. rewrite Hs, Hnx. unfold KERNBASE in Hbrk.
  assert (bp + 8 * s ≤ h_brk h) as Hin.
  { destruct N2 as [|[c t] N2]; [done|]. simpl in Hle. destruct (spaced_below _ _ c t Hsp ltac:(by left)). lia. }
  rewrite padd_small by lia. destruct (Z.eqb_spec (bp + 8 * s) (next N2 base)) as [He|He].
  - destruct N2 as [|[c t] N2]; simpl in He; [lia|]. destruct Hc as (Hc1 & Hc2 & Hc3). apply Forall_cons in Hsz as [Ht Hsz].
    simpl in Ht, Hle. destruct (spaced_below _ _ c t Hsp ltac:(by left)) as [_ Hct].
    rewrite bind_gets, bind_modify. cbn [next h_mem]. fold m. rewrite Hc2, !bind_gets. cbn [h_mem].
    rewrite (load_only bp m _ p (store_size_only bp _ m)), Hnx by lia. cbn [next].
    rewrite (load_only bp m _ c (store_size_only bp _ m)), Hc1 by lia.
    rewrite (u32_id (s + t)) by (unfold is_u32; lia).
    destruct (store_header bp (next N2 base) (s + t) m) as (Hm1 & Hm2 & Hm3);
      [eapply next_range; [exact Hsp|(done || lia)..]|unfold is_u32; lia|].
    eexists _, (s + t), N2. split; [reflexivity|]. cbn [h_mem chain spaced]. split_and!; [done|done|done| |lia| | | |lia|done|simpl; lia|].
    + apply (chain_only bp m); [done| |done]. intros b u Hbu. destruct (spaced_above _ _ _ _ b u Hsp Hbu). lia.
    + destruct Hsp as (_ & H & _). lia.
    + destruct Hsp as (_ & _ & H & _). intros HN. specialize (H HN). lia.
    + apply Hsp.
    + intros x. rewrite !covered_cons. unfold in_block. cbn [fst snd]. assert (bp ≤ x < bp + 8 * (s + t) ↔ bp ≤ x < bp + 8 * s ∨ c ≤ x < c + 8 * t) by lia. tauto.
  - assert (is_u32 (next N2 base)) as Hu.
    { unfold is_u32. destruct N2 as [|[c t] N2]; cbn [next] in *; [lia|]. destruct (spaced_below _ _ c t Hsp ltac:(by left)). lia. }
    exists (store32 bp (next N2 base) m), s, N2. split; [reflexivity|]. cbn [chain spaced]. split_and!; [apply store_ptr_only| | | |lia| | | |lia|done|lia|].
    + by apply load32_store32_eq.
    + by rewrite load32_store32_ne by lia.
    + apply (chain_only bp m); [apply store_ptr_only| |done]. intros b u Hbu.
      destruct N2 as [|[c t] N2]; [by apply elem_of_nil in Hbu|]. simpl in Hle.
      apply elem_of_cons in Hbu as [[= -> ->]|Hbu]; [lia|]. destruct (spaced_below _ _ c t Hsp ltac:(by left)). destruct (spaced_above _ _ _ _ b u Hsp Hbu). lia.
    + destruct N2 as [|[c t] N2]; cbn [next] in *; lia.
    + intros HN. destruct N2 as [|[c t] N2]; [done|]. exact He.
    + done.
    + intros x. apply covered_cons.
Qed.

Lemma join_prev_run h e N bp s p ps :
  let m := h.(h_mem) in
  0 ≤ p → h.(h_brk) ≤ KERNBASE → load32 m (p + 4) = ps → 0 ≤ ps → p + 8 * Z.max ps 1 ≤ bp → 1 ≤ s →
  chain m ((bp, s) :: N) base → spaced ((bp, s) :: N) h.(h_brk) → is_u32 (next N base) → Forall (λ b, 1 ≤ b.2) N →
  ∃ m' ps' N', join_prev bp p h e = Ret tt (Mkheap m' h.(h_freep) h.(h_brk)) e ∧ only_header p m m' ∧
    chain m' ((p, ps') :: N') base ∧ spaced ((p, ps') :: N') h.(h_brk) ∧ Forall (λ b, 1 ≤ b.2) N' ∧
    (ps = 0 ∧ ps' = 0 ∨ 1 ≤ ps ∧ 1 ≤ ps') ∧ Exists (λ b, s ≤ b.2) ((p, ps') :: N') ∧
    (length N' ≤ S (length N))%nat ∧ ∀ x, covered ((p, ps') :: N') x ↔ in_block (p, ps) x ∨ covered ((bp, s) :: N) x.
Proof.
  intros m Hp Hbrk Hps H0 Hle Hs (Hc1 & Hc2 & Hc3) Hsp Hu Hsz. unfold KERNBASE in Hbrk.
  destruct (spaced_below _ _ bp s Hsp ltac:(by left)) as [_ Hin]. pose proof Hsp as (_ & Hn1 & Hn2 & Hsp').
  unfold join_prev, get_size, get_ptr, set_size, set_ptr. rewrite !bind_gets. fold m. rewrite Hps, padd_small by lia.
  destruct (Z.eqb_spec (p + 8 * ps) bp) as [He|He].
  - rewrite bind_gets. fold m. rewrite Hc2, bind_modify, bind_gets. cbn [h_mem]. fold m. rewrite (u32_id (ps + s)) by (unfold is_u32; lia).
    rewrite (load_only p m _ bp (store_size_only p _ m)), Hc1 by lia.
    destruct (store_header p (next N base) (ps + s) m) as (Hm1 & Hm2 & Hm3); [done|unfold is_u32; lia|].
    eexists _, (ps + s), N. split; [reflexivity|]. cbn [h_mem chain spaced]. split_and!; [done|done|done| |lia|lia| |done|done|lia| |lia|].
    + apply (chain_only p m); [done| |done]. intros b u Hbu. destruct (spaced_above _ _ _ _ b u Hsp Hbu). lia.
    + intros HN. specialize (Hn2 HN). lia.
    + left. cbn [snd]. lia.
    + intros x. rewrite !covered_cons. unfold in_block. cbn [fst snd].
      assert (p ≤ x < p + 8 * (ps + s) ↔ p ≤ x < p + 8 * ps ∨ bp ≤ x < bp + 8 * s) by lia. tauto.
  - exists (store32 p bp m), ps, ((bp, s) :: N). split; [reflexivity|]. cbn [chain spaced next].
    split_and!; [apply store_ptr_only| | | | | |lia|lia|done|lia|done|done|done| | | | |].
    + apply load32_store32_eq. unfold is_u32. lia.
    + by rewrite load32_store32_ne by lia.
    + by rewrite load32_store32_ne by lia.
    + by rewrite load32_store32_ne by lia.
    + apply (chain_only p m); [apply store_ptr_only| |done]. intros b u Hbu. destruct (spaced_above _ _ _ _ b u Hsp Hbu). lia.
    + by constructor.
    + lia.
    + right. left. done.
    + simpl. lia.
    + intros x. apply covered_cons.
Qed.

(** A node with another tail. *)
Lemma spaced_tail N1 p s N2 s' N2' hi :
  spaced (N1 ++ (p, s) :: N2) hi → spaced ((p, s') :: N2') hi → spaced (N1 ++ (p, s') :: N2') hi.
Proof.
  induction N1 as [|[a t] N1 IH]; simpl app; [done|]. intros (H0 & Hle & Hne & Hs) Hs'.
  assert (∀ s N2, next (N1 ++ (p, s) :: N2) hi = next N1 p) as Hn by (intros; by destruct N1).
  split_and!; [done|by rewrite Hn in Hle |- *|intros _; rewrite Hn|by apply IH].
  rewrite Hn in Hne. apply Hne. by destruct N1.
Qed.

Lemma covered_app L1 L2 x : covered (L1 ++ L2) x ↔ covered L1 x ∨ covered L2 x.
Proof. apply Exists_app. Qed.

(** [(bp, s)] is a block outside the free list, with its size in its header. *)
Record outside (h : heap) (L : list block) (bp s : Z) : Prop := {
  o_low : base + 8 ≤ bp;
  o_high : bp + 8 * s ≤ h.(h_brk);
  o_size : 1 ≤ s;
  o_header : load32 h.(h_mem) (bp + 4) = s;
  o_apart : ∀ a t, (a, t) ∈ L → bp + 8 * s ≤ a ∨ a + 8 * t ≤ bp
}.

(** Where the node [p] of a split of the ring is in the free list. *)
Lemma node_cases L N1 p ps N2 :
  (base, 0) :: L = N1 ++ (p, ps) :: N2 →
  (N1 = [] ∧ p = base ∧ ps = 0 ∧ L = N2) ∨ ∃ L1, N1 = (base, 0) :: L1 ∧ L = L1 ++ (p, ps) :: N2.
Proof. destruct N1 as [|b N1]; simpl; [intros [= -> -> ->]; by left|intros [= <- ->]; right; by exists N1]. Qed.

Lemma outside_place h L N1 p ps N2 bp s :
  ring h L → outside h L bp s → (base, 0) :: L = N1 ++ (p, ps) :: N2 → p < bp → (∀ b t, (b, t) ∈ N2 → bp < b) →
  0 ≤ ps ∧ p + 8 * Z.max ps 1 ≤ bp ∧ bp + 8 * s ≤ next N2 h.(h_brk) ∧ Forall (λ b, 1 ≤ b.2) N2.
Proof.
  intros Hr [Hlo Hhi Hs _ Hap] HN Hp HN2.
  assert (∀ b, b ∈ N2 → b ∈ L) as Hsub by (destruct (node_cases _ _ _ _ _ HN) as [(_ & _ & _ & ->)|(L1 & _ & ->)]; set_solver).
  split; [|split; [|split]].
  - pose proof (r_spaced h L Hr) as Hsp. rewrite HN in Hsp. apply spaced_app in Hsp as [_ Hsp]. apply Hsp.
  - destruct (node_cases _ _ _ _ _ HN) as [(_ & -> & -> & _)|(L1 & _ & HL)]; [lia|].
    assert ((p, ps) ∈ L) as Hin by (rewrite HL; set_solver). pose proof (r_sizes h L Hr) as Hsz.
    rewrite Forall_forall in Hsz. specialize (Hsz _ Hin). simpl in Hsz. destruct (Hap p ps Hin); lia.
  - destruct N2 as [|[c u] N2]; [done|]. cbn [next]. pose proof (HN2 c u ltac:(by left)).
    pose proof (r_sizes h L Hr) as Hsz. rewrite Forall_forall in Hsz. specialize (Hsz (c, u) (Hsub _ ltac:(by left))). simpl in Hsz.
    destruct (Hap c u (Hsub _ ltac:(by left))); lia.
  - pose proof (r_sizes h L Hr) as Hsz. rewrite Forall_forall in Hsz |- *. auto.
Qed.

(** The block [(base, 0)] covers nothing. *)
Lemma covered_base L x : covered ((base, 0) :: L) x ↔ covered L x.
Proof. rewrite covered_cons. unfold in_block. cbn [fst snd]. intuition lia. Qed.

(** The ring after its part from [p] on has been replaced. *)
Lemma ring_replace h L N1 p ps N2 m' ps' N4 :
  ring h L → (base, 0) :: L = N1 ++ (p, ps) :: N2 →
  (∀ b t x, (b, t) ∈ N1 → b ≤ x < b + 8 → m' x = h.(h_mem) x) →
  chain m' ((p, ps') :: N4) base → spaced ((p, ps') :: N4) h.(h_brk) → Forall (λ b, 1 ≤ b.2) N4 →
  ps = 0 ∧ ps' = 0 ∨ 1 ≤ ps ∧ 1 ≤ ps' →
  ∃ L', (base, 0) :: L' = N1 ++ (p, ps') :: N4 ∧ ring (Mkheap m' p h.(h_brk)) L'.
Proof.
  intros Hr HN Hm Hc Hsp Hsz Hps. pose proof (r_chain h L Hr) as Hch. pose proof (r_spaced h L Hr) as Hspc. rewrite HN in Hch, Hspc.
  assert (∃ L', (base, 0) :: L' = N1 ++ (p, ps') :: N4 ∧ Forall (λ b, 1 ≤ b.2) L') as (L' & HN' & Hsz').
  { pose proof (r_sizes h L Hr) as HszL. destruct (node_cases _ _ _ _ _ HN) as [(-> & -> & -> & ->)|(L1 & -> & ->)].
    - exists N4. destruct Hps as [[_ ->]|[? _]]; [done|lia].
    - exists (L1 ++ (p, ps') :: N4). split; [done|]. apply Forall_app in HszL as [H1 [H2 _]%Forall_cons]. simpl in H2.
      apply Forall_app. split; [done|]. constructor; [|done]. simpl. lia. }
  exists L'. split; [done|]. split; cbn [h_mem h_brk h_freep].
  - apply Hr.
  - apply Hr.
  - rewrite HN'. apply chain_app. split; [|done]. apply chain_app in Hch as [Hch _]. by apply (chain_ext h.(h_mem)).
  - rewrite HN'. by eapply spaced_tail.
  - done.
  - change (p ∈ ((base, 0) :: L').*1). rewrite HN', fmap_app. set_solver.
Qed.

(** What [free] does: the block joins the free ones. *)
Lemma free_run h L bp s fuel e :
  ring h L → outside h L bp s → (length L < fuel)%nat →
  ∃ h' L', free fuel (bp + 8) h e = Ret tt h' e ∧ ring h' L' ∧ h'.(h_brk) = h.(h_brk) ∧
    Exists (λ b, s ≤ b.2) L' ∧ (∀ x, covered L' x ↔ in_block (bp, s) x ∨ covered L x) ∧ (length L' ≤ S (length L))%nat ∧
    ∀ x, ¬ covered L' x → x < base ∨ base + 8 ≤ x → h'.(h_mem) x = h.(h_mem) x.
Proof.
  intros Hr Ho Hf. pose proof Ho as [Hlo Hhi Hs1 Hhd Hap]. pose proof (r_base h L Hr) as Hb. pose proof (r_brk h L Hr) as Hbrk.
  pose proof (r_sizes h L Hr) as Hsz. unfold free. unfold KERNBASE in Hbrk.
  rewrite padd_small by lia. replace (bp + 8 + 8 * -1) with bp by lia. rewrite bind_gets.
  destruct (free_find_run h L bp fuel e Hr) as (N1 & p & ps & N2 & HN & Hp & HN2 & Hfind); [lia| |done|].
  { intros b t Hbt ->. rewrite Forall_forall in Hsz. specialize (Hsz _ Hbt). simpl in Hsz. destruct (Hap _ _ Hbt); lia. }
  mstep Hfind. destruct (outside_place h L N1 p ps N2 bp s Hr Ho HN Hp HN2) as (H0 & Hple & Hnle & HszN).
  pose proof (node_above h L N1 p ps N2 Hr HN) as Hbp. pose proof (r_chain h L Hr) as Hc. pose proof (r_spaced h L Hr) as Hsp.
  rewrite HN in Hc, Hsp. pose proof Hsp as [Hsp1 Hsp2]%spaced_app. apply chain_app in Hc as [Hc1 (Hpn & Hps & Hc2)].
  destruct (join_next_run h e N2 bp s p) as (m1 & s1 & N3 & Hj1 & Hm1 & Hch1 & Hspc1 & Hs1' & Hsz1 & Hlen1 & Hcov1); [lia|done|lia|lia|done|done|done|done|done|apply Hsp2|done|].
  mstep Hj1.
  destruct (join_prev_run (Mkheap m1 (h_freep h) (h_brk h)) e N3 bp s1 p ps) as (m2 & ps2 & N4 & Hj2 & Hm2 & Hch2 & Hspc2 & Hsz2 & Hps2 & Hex & Hlen2 & Hcov2);
    [lia|done| |done|done|lia|done|done| |done|].
  { cbn [h_mem]. rewrite <- Hps. apply (load_only bp); [done|lia]. }
  { eapply (next_range h N3 bp); [exact Hspc1|lia..|exact Hbrk]. }
  mstep Hj2. cbn [h_mem h_freep h_brk] in *.
  assert (∀ x, x < p ∨ p + 8 ≤ x → x < bp ∨ bp + 8 ≤ x → m2 x = h_mem h x) as Hm by (intros x ??; by rewrite Hm2, Hm1).
  destruct (ring_replace h L N1 p ps N2 m2 ps2 N4 Hr HN) as (L' & HN' & Hr'); [|done..|].
  { intros b t x Hbt Hx. destruct (spaced_below _ _ b t Hsp1 Hbt) as [_ Hbp2]. cbn [next] in Hbp2. apply Hm; lia. }
  assert (∀ x, covered L' x ↔ in_block (bp, s) x ∨ covered L x) as Hcov.
  { intros x. rewrite <- (covered_base L'), <- (covered_base L), HN, HN', !covered_app, Hcov2, Hcov1, covered_cons. tauto. }
  exists (Mkheap m2 p (h_brk h)), L'. split_and!; [done|done|done| |done| |].
  - destruct (proj1 (Exists_exists _ _) Hex) as ([a t] & Hin & Ht). simpl in Ht. apply Exists_exists. exists (a, t). split; [|simpl; lia].
    assert ((a, t) ∈ (base, 0) :: L') as [[= -> ->]|?]%elem_of_cons by (rewrite HN'; set_solver); [lia|done].
  - apply (f_equal length) in HN, HN'. rewrite length_app in HN, HN'. simpl in HN, HN'. lia.
  - intros x Hx Hxb. cbn [h_mem]. assert (¬ in_block (bp, s) x) as Hnb by (intros ?; apply Hx, Hcov; by left).
    unfold in_block in Hnb. cbn [fst snd] in Hnb. apply Hm; [|lia].
    destruct Hps2 as [[-> _]|[Hps1 _]].
    + destruct (node_cases _ _ _ _ _ HN) as [(_ & -> & _)|(L1 & _ & HL)]; [lia|].
      rewrite Forall_forall in Hsz. assert ((p, 0) ∈ L) as Hin by (rewrite HL; set_solver). specialize (Hsz _ Hin). simpl in Hsz. lia.
    + assert (¬ in_block (p, ps) x) as Hnp; [|unfold in_block in Hnp; cbn [fst snd] in Hnp; lia].
      intros Hin. apply Hx, Hcov. right. apply covered_base. rewrite HN. apply covered_app. right. apply covered_cons. by left.
Qed.

(** ** Taking a block *)

Lemma chain_size m N q a t : chain m N q → (a, t) ∈ N → load32 m (a + 4) = t.
Proof.
  induction N as [|[b u] N IH]; [by intros _ ?%elem_of_nil|]. intros (_ & Hs & Hc) [[= -> ->]|Hin]%elem_of_cons; auto.
Qed.

Lemma spaced_mid N1 a t N2 hi :
  spaced (N1 ++ (a, t) :: N2) hi →
  (∀ c u, (c, u) ∈ N1 → c + 8 * Z.max u 1 ≤ a) ∧ (∀ c u, (c, u) ∈ N2 → a + 8 * Z.max t 1 ≤ c).
Proof.
  intros [H1 H2]%spaced_app. split; intros c u Hin.
  - apply (spaced_below _ _ c u H1 Hin).
  - apply (spaced_above _ _ _ _ c u H2 Hin).
Qed.

(** The node before a free block. *)
Lemma node_before h L x a t :
  ring h L → x ∈ base :: L.*1 → load32 h.(h_mem) x = a → (a, t) ∈ L →
  ∃ N1 xs N2, (base, 0) :: L = N1 ++ (x, xs) :: (a, t) :: N2.
Proof.
  intros Hr Hx Hl Ha. destruct (node_split ((base, 0) :: L) x Hx) as (N1 & xs & N2 & HN).
  pose proof (r_chain h L Hr) as Hc. pose proof Hc as Hc'. rewrite HN in Hc'. apply chain_app in Hc' as [_ (Hnx & _)].
  rewrite Hl in Hnx. destruct (spaced_above _ _ _ _ a t (r_spaced h L Hr) Ha) as [Hab _].
  destruct N2 as [|[c u] N2]; cbn [next] in Hnx; [lia|]. subst c. exists N1, xs, N2. rewrite HN. do 3 f_equal.
  assert (load32 h.(h_mem) (a + 4) = u) as <- by (eapply chain_size; [exact Hc|rewrite HN; set_solver]).
  f_equal. eapply chain_size; [exact Hc|by right].
Qed.

(** What is left of the ring after [(a, t)] has lost [n] headers. *)
Definition left_over (a t n : Z) (N2 : list block) : list block := if t =? n then N2 else (a, t - n) :: N2.

(** The memory [carve] leaves. *)
Lemma carve_memory h N1 x xs a t N2 n e :
  let m := h.(h_mem) in let b := a + 8 * (t - n) in
  0 < base → base ≤ x → h.(h_brk) ≤ KERNBASE → chain m ((x, xs) :: (a, t) :: N2) base →
  spaced (N1 ++ (x, xs) :: (a, t) :: N2) h.(h_brk) → 1 ≤ n ≤ t →
  ∃ m', carve n x a h e = Ret (b + 8) (Mkheap m' x h.(h_brk)) e ∧
    (∀ y, y < x ∨ x + 8 ≤ y → y < a ∨ a + 8 * t ≤ y → m' y = m y) ∧
    chain m' ((x, xs) :: left_over a t n N2) base ∧ load32 m' (b + 4) = n.
Proof.
  intros m b Hb Hx Hbrk (Hc1 & Hc2 & Hc3 & Hc4 & Hc5) Hsp Hn. cbn [next] in *. unfold KERNBASE in Hbrk.
  apply spaced_app in Hsp as [_ Hsp]. pose proof (spaced_above _ _ _ _ a t Hsp ltac:(by left)) as [Hxa _].
  destruct (spaced_below _ _ a t Hsp ltac:(set_solver)) as [_ Hat]. pose proof Hsp as (_ & _ & _ & Hsp2).
  unfold carve, get_size, get_ptr, set_size, set_ptr, set_freep. rewrite bind_gets. fold m. rewrite Hc4.
  unfold left_over. destruct (Z.eqb_spec t n) as [->|Hne].
  - rewrite !bind_assoc, bind_gets. fold m. rewrite Hc3, bind_assoc, bind_modify, bind_ret_l, bind_modify. cbn [h_mem h_brk h_freep].
    rewrite padd_small by lia. assert (is_u32 (next N2 base)) as Hu by (eapply (next_range h N2 a); [exact Hsp2|lia..|exact Hbrk]).
    exists (store32 x (next N2 base) m). split; [unfold ret, b; do 2 f_equal; lia|]. cbn [chain]. split_and!.
    + intros y Hy _. apply store_ptr_only. lia.
    + by apply load32_store32_eq.
    + by rewrite load32_store32_ne by lia.
    + apply (chain_only x m); [apply store_ptr_only| |done]. intros c u Hc. destruct (spaced_above _ _ _ _ c u Hsp2 Hc). lia.
    + unfold b. rewrite load32_store32_ne by lia. rewrite <- Hc4. f_equal. lia.
  - rewrite !bind_assoc, bind_modify, bind_assoc, bind_gets. cbn [h_mem h_brk h_freep].
    rewrite (u32_id (t - n)) by (unfold is_u32; lia). rewrite load32_store32_eq by (unfold is_u32; lia). rewrite padd_small by lia. fold b.
    rewrite bind_assoc, bind_modify, bind_ret_l, bind_modify. cbn [h_mem h_brk h_freep]. rewrite padd_small by lia. fold m.
    set (m1 := store32 (a + 4) (t - n) m). assert (∀ y, y < a + 4 ∨ a + 8 ≤ y → m1 y = m y) as Hm1 by (intros; apply store32_out; lia).
    assert (∀ z, z + 4 ≤ b + 4 ∨ b + 8 ≤ z → load32 (store32 (b + 4) n m1) z = load32 m1 z) as Hl by (intros; apply load32_store32_ne; lia).
    assert (∀ z, z + 4 ≤ a + 4 ∨ a + 8 ≤ z → load32 m1 z = load32 m z) as Hl1 by (intros; apply load32_store32_ne; lia).
    eexists. split; [unfold ret; do 2 f_equal; lia|]. cbn [chain next]. split_and!.
    + intros y _ Hy. rewrite store32_out by lia. apply Hm1. lia.
    + rewrite Hl, Hl1 by lia. done.
    + rewrite Hl, Hl1 by lia. done.
    + rewrite Hl, Hl1 by lia. done.
    + rewrite Hl by lia. apply load32_store32_eq. unfold is_u32. lia.
    + apply (chain_ext m); [|done]. intros c u y Hc Hy. destruct (spaced_above _ _ _ _ c u Hsp2 Hc) as [? _].
      rewrite store32_out by lia. apply Hm1. lia.
    + apply load32_store32_eq. unfold is_u32. lia.
Qed.

Lemma left_over_spaced N1 x xs a t N2 n hi :
  1 ≤ n ≤ t → spaced (N1 ++ (x, xs) :: (a, t) :: N2) hi → spaced ((x, xs) :: left_over a t n N2) hi.
Proof.
  intros Hn [_ (Hxs & Hxa & Hxne & _ & Hle & Hne & Hs2)]%spaced_app. cbn [next] in *.
  unfold left_over. destruct (Z.eqb_spec t n) as [->|Htn]; cbn [spaced next].
  - split_and!; [done|lia|intros _; lia|done].
  - split_and!; [done|lia|intros _; by apply Hxne|lia|lia|intros HN2; lia|done].
Qed.

Lemma left_over_sizes h L N1 x xs a t N2 n :
  ring h L → (base, 0) :: L = N1 ++ (x, xs) :: (a, t) :: N2 → 1 ≤ n ≤ t →
  Forall (λ b, 1 ≤ b.2) (left_over a t n N2) ∧ (xs = 0 ∧ xs = 0 ∨ 1 ≤ xs ∧ 1 ≤ xs).
Proof.
  intros Hr HN Hn. pose proof (r_sizes h L Hr) as Hsz.
  assert (Forall (λ b, 1 ≤ b.2) N2 → Forall (λ b, 1 ≤ b.2) (left_over a t n N2)) as H.
  { intros. unfold left_over. destruct (Z.eqb_spec t n); [done|]. constructor; [simpl; lia|done]. }
  destruct (node_cases _ _ _ _ _ HN) as [(_ & _ & -> & HL)|(L1 & _ & HL)]; rewrite HL in Hsz.
  - apply Forall_cons in Hsz as [_ Hsz]. split; [by apply H|by left].
  - apply Forall_app in Hsz as [_ [Hsx [_ Hsz]%Forall_cons]%Forall_cons]. simpl in Hsx. split; [by apply H|right; lia].
Qed.

(** The block taken lies in [(a, t)], apart from all that is left. *)
Lemma left_over_apart N1 x xs a t N2 n hi c u :
  1 ≤ n ≤ t → spaced (N1 ++ (x, xs) :: (a, t) :: N2) hi → (c, u) ∈ N1 ++ (x, xs) :: left_over a t n N2 →
  let b := a + 8 * (t - n) in b + 8 * n ≤ c ∨ c + 8 * u ≤ b.
Proof.
  intros Hn Hsp Hin b. unfold b. rewrite cons_middle, app_assoc in Hsp. destruct (spaced_mid _ _ _ _ _ Hsp) as [Hlo Hhi].
  rewrite cons_middle, app_assoc in Hin. apply elem_of_app in Hin as [Hin|Hin]; [specialize (Hlo c u Hin); lia|].
  unfold left_over in Hin. destruct (Z.eqb_spec t n) as [->|Htn]; [specialize (Hhi c u Hin); lia|].
  apply elem_of_cons in Hin as [[= -> ->]|Hin]; [lia|specialize (Hhi c u Hin); lia].
Qed.

Lemma left_over_covered a t n N2 y :
  1 ≤ n ≤ t → covered ((a, t) :: N2) y ↔ in_block (a + 8 * (t - n), n) y ∨ covered (left_over a t n N2) y.
Proof.
  intros Hn. unfold left_over. destruct (Z.eqb_spec t n) as [->|Htn]; rewrite !covered_cons; unfold in_block; cbn [fst snd].
  - rewrite Z.sub_diag, Z.mul_0_r, Z.add_0_r. done.
  - assert (a ≤ y < a + 8 * t ↔ a + 8 * (t - n) ≤ y < a + 8 * (t - n) + 8 * n ∨ a ≤ y < a + 8 * (t - n)) by lia. tauto.
Qed.

Lemma carve_run h L N1 x xs a t N2 n e :
  ring h L → (base, 0) :: L = N1 ++ (x, xs) :: (a, t) :: N2 → 1 ≤ n ≤ t →
  let b := a + 8 * (t - n) in
  ∃ h' L', carve n x a h e = Ret (b + 8) h' e ∧ ring h' L' ∧ h'.(h_brk) = h.(h_brk) ∧ outside h' L' b n ∧
    (∀ y, covered L y ↔ in_block (b, n) y ∨ covered L' y) ∧
    ∀ y, ¬ covered L y → y < base ∨ base + 8 ≤ y → h'.(h_mem) y = h.(h_mem) y.
Proof.
  intros Hr HN Hn b. pose proof (r_base h L Hr) as Hb. pose proof (r_spaced h L Hr) as Hsp. pose proof (r_chain h L Hr) as Hc.
  pose proof (node_above h L _ _ _ _ Hr HN) as Hbx. rewrite HN in Hsp, Hc. pose proof (proj2 (proj1 (chain_app _ _ _ _) Hc)) as Hcx.
  destruct (carve_memory h N1 x xs a t N2 n e Hb Hbx (r_brk h L Hr) Hcx Hsp Hn) as (m' & Hrun & Hm & Hc' & Hhd). fold b in Hrun, Hhd.
  destruct (left_over_sizes h L _ _ _ _ _ _ n Hr HN Hn) as [Hsz' Hxs'].
  pose proof (left_over_spaced _ _ _ _ _ _ n _ Hn Hsp) as Hsp'. pose proof (proj1 (spaced_mid N1 x xs _ _ Hsp)) as Hbelow.
  destruct (ring_replace h L N1 x xs _ m' xs (left_over a t n N2) Hr HN) as (L' & HN' & Hr'); [|done..|].
  { pose proof (proj2 (spaced_app _ _ _ Hsp)) as (_ & Hxa & _). cbn [next] in Hxa.
    intros c u y Hcu Hy. specialize (Hbelow c u Hcu). apply Hm; lia. }
  pose proof (proj2 (spaced_app _ _ _ Hsp)) as Hspx. pose proof (spaced_above _ _ _ _ a t Hspx ltac:(by left)) as [Hxa _].
  destruct (spaced_below _ _ a t Hspx ltac:(set_solver)) as [_ Hat].
  exists (Mkheap m' x h.(h_brk)), L'. split_and!; [done|done|done| | |].
  - split; cbn [h_mem h_brk]; [unfold b; lia|unfold b; lia|lia|done|].
    intros c u Hcu. eapply left_over_apart; [done|done|]. rewrite <- HN'. by right.
  - intros y. rewrite <- (covered_base L), <- (covered_base L'), HN, HN', !covered_app, (covered_cons (x, xs) (_ :: _)), (covered_cons (x, xs)), left_over_covered by done.
    fold b. tauto.
  - intros y Hy Hyb. cbn [h_mem]. rewrite <- (covered_base L), HN, covered_app, !covered_cons in Hy. unfold in_block in Hy. cbn [fst snd] in Hy.
    apply Hm; [|lia]. destruct Hxs' as [[-> _]|[Hxs _]]; [|lia].
    destruct (node_cases _ _ _ _ _ HN) as [(_ & -> & _)|(L1 & _ & HL)]; [lia|].
    pose proof (r_sizes h L Hr) as Hsz. rewrite HL in Hsz. apply Forall_app in Hsz as [_ [Hsz _]%Forall_cons]. simpl in Hsz. lia.
Qed.

(** ** The allocator and its client *)

Definition apart (b c : block) : Prop := b.1 + 8 * b.2 ≤ c.1 ∨ c.1 + 8 * c.2 ≤ b.1.

Fixpoint pairwise (A : list block) : Prop :=
  match A with [] => True | b :: A' => Forall (apart b) A' ∧ pairwise A' end.

(** [A] are the blocks the client has.  They are disjoint, each has its size in its header, and together with the
    free blocks they make up the memory from [lo] to the break: nothing is lost. *)
Definition heap_inv (lo : Z) (h : heap) (A : list block) : Prop :=
  (h.(h_freep) = 0 ∧ A = [] ∧ lo = h.(h_brk) ∧ 0 < base ∧ base + 8 ≤ h.(h_brk) ≤ KERNBASE) ∨
  ∃ L, ring h L ∧ Forall (λ b, outside h L b.1 b.2) A ∧ pairwise A ∧ lo ≤ h.(h_brk) ∧
    ∀ x, lo ≤ x < h.(h_brk) ↔ covered L x ∨ covered A x.

Lemma pairwise_perm A B : A ≡ₚ B → pairwise A → pairwise B.
Proof.
  induction 1 as [|b A B HAB IH|b c A|A B C _ IH1 _ IH2]; simpl; [done|..|auto].
  - intros [Hf Hp]. split; [by rewrite <- HAB|auto].
  - rewrite !Forall_cons. unfold apart. intuition lia.
Qed.

Lemma heap_inv_perm lo h A B : A ≡ₚ B → heap_inv lo h A → heap_inv lo h B.
Proof.
  intros HAB [(H1 & -> & H2)|(L & Hr & Ho & Hp & Hlo & Hc)].
  - left. apply Permutation_nil_l in HAB as ->. done.
  - right. exists L. split_and!; [done|by rewrite <- HAB|by eapply pairwise_perm|done|]. intros x. rewrite Hc. unfold covered. by rewrite HAB.
Qed.

Lemma ring_length h L : ring h L → base + 8 * Z.of_nat (S (length L)) ≤ h.(h_brk).
Proof.
  intros Hr. pose proof (r_spaced h L Hr) as Hs. change (S (length L)) with (length ((base, 0) :: L)).
  set (N := (base, 0) :: L) in *. change base with (next N 0) at 1. assert (N ≠ []) as HN by done. clearbody N.
  induction N as [|[a s] N IH]; [done|]. destruct Hs as (H0 & Hn & _ & Hs). cbn [next] in *.
  destruct N as [|[b t] N]; [simpl in *; lia|]. specialize (IH Hs ltac:(done)). cbn [next length] in *. lia.
Qed.

(** Blocks without a common address are apart. *)
Lemma points_apart b c : 1 ≤ b.2 → 1 ≤ c.2 → (∀ y, in_block b y → in_block c y → False) → apart b c.
Proof.
  unfold in_block, apart. intros Hb Hc Hno. destruct (Z.le_gt_cases (b.1 + 8 * b.2) c.1); [by left|].
  destruct (Z.le_gt_cases (c.1 + 8 * c.2) b.1); [by right|]. destruct (Hno (Z.max b.1 c.1)); lia.
Qed.

Lemma outside_points h L b s y : outside h L b s → in_block (b, s) y → ¬ covered L y ∧ base + 8 ≤ y < h.(h_brk).
Proof.
  intros [Hlo Hhi _ _ Hap] Hy. unfold in_block in Hy. cbn [fst snd] in Hy. split; [|lia].
  intros ([a t] & Hin & Hat)%Exists_exists. unfold in_block in Hat. cbn [fst snd] in Hat. destruct (Hap a t Hin); lia.
Qed.

(** A client's block survives a change of the heap that leaves its memory and its addresses alone. *)
Lemma outside_kept h L h' L' b s :
  outside h L b s → ring h' L' → h.(h_brk) ≤ h'.(h_brk) →
  (∀ y, in_block (b, s) y → ¬ covered L' y ∧ h'.(h_mem) y = h.(h_mem) y) → outside h' L' b s.
Proof.
  intros [Hlo Hhi Hs Hhd Hap] Hr Hbrk Hy. split; [done|lia|done| |].
  - rewrite <- Hhd. apply load32_ext. intros y Hx. apply Hy. unfold in_block. cbn [fst snd]. lia.
  - intros a t Hat. apply (points_apart (b, s) (a, t)); [done|exact (proj1 (Forall_forall _ _) (r_sizes _ _ Hr) _ Hat)|].
    intros y Hb Ha. apply (proj1 (Hy y Hb)). apply Exists_exists. by exists (a, t).
Qed.

(** C25: [free] returns a block to the allocator.  For every block the client has, [free] ends; the client keeps its
    other blocks, with their sizes and their contents, and no memory is lost: the invariant holds for them. *)
Theorem free_correct lo h A b n A' fuel e :
  heap_inv lo h A → A ≡ₚ (b, n) :: A' → (Z.to_nat h.(h_brk) ≤ fuel)%nat →
  ∃ h', free fuel (b + 8) h e = Ret tt h' e ∧ heap_inv lo h' A' ∧
    ∀ c x, c ∈ A' → in_block c x → h'.(h_mem) x = h.(h_mem) x.
Proof.
  intros HI HA Hf. apply (heap_inv_perm _ _ _ _ HA) in HI as [(_ & [=] & _)|(L & Hr & Ho & [Hap Hp] & Hlo & Hc)].
  apply Forall_cons in Ho as [Hob Ho]. cbn [fst snd] in Hob. pose proof (ring_length h L Hr). pose proof (r_base h L Hr).
  destruct (free_run h L b n fuel e Hr Hob) as (h' & L' & Hrun & Hr' & Hbrk & _ & Hcov & _ & Hfr); [lia|].
  assert (∀ c y, c ∈ A' → in_block c y → ¬ covered L' y ∧ h_mem h' y = h_mem h y) as Hkept.
  { intros c y Hc' Hy. rewrite Forall_forall in Ho, Hap. destruct (outside_points h L c.1 c.2 y (Ho c Hc')) as [Hn Hr3]; [by destruct c|].
    assert (¬ covered L' y) as Hn'; [|split; [done|apply Hfr; [done|lia]]]. rewrite Hcov. intros [Hb|?]; [|done].
    specialize (Hap c Hc'). unfold apart, in_block in *. cbn [fst snd] in *. lia. }
  exists h'. split; [done|]. split; [|intros c x Hc' Hx; by apply (Hkept c)]. right. exists L'. split_and!; [done| |done|lia|].
  - apply Forall_forall. intros c Hc'. rewrite Forall_forall in Ho. apply (outside_kept h L); [by apply Ho|done|lia|].
    intros y Hy. apply (Hkept c); [done|]. by destruct c.
  - intros x. rewrite Hbrk, Hc, covered_cons, Hcov. tauto.
Qed.

(** ** The search of malloc *)

(** Whether [sbrk(n)] succeeds at a given break. *)
Context (grant : Z → Z → bool).

(** [malloc_loop] from a node on: it finds a block that is large enough, or comes to [freep] and asks for more. *)
Lemma malloc_walk fuel k n prev ps R h e :
  let m := h.(h_mem) in let q := h.(h_freep) in
  chain m ((prev, ps) :: R) q → (∀ a t, (a, t) ∈ R → a ≠ q) → (length R < k)%nat →
  (∃ x a t, x ∈ prev :: R.*1 ∧ load32 m x = a ∧ a ∈ R.*1 ++ [q] ∧ load32 m (a + 4) = t ∧ n ≤ t ∧
     malloc_loop grant fuel k n prev (load32 m prev) h e = carve n x a h e) ∨
  (∀ a, a ∈ R.*1 ++ [q] → load32 m (a + 4) < n) ∧
    malloc_loop grant fuel k n prev (load32 m prev) h e =
      (p <- morecore grant fuel n;;
       if p =? 0 then ret 0 else nx <- get_ptr p;; malloc_loop grant fuel (k - S (length R)) n p nx) h e.
Proof.
  intros m q. revert prev ps k. induction R as [|[a t] R IH]; intros prev ps k Hc Hq Hk.
  - destruct Hc as (Hp & _). cbn [next] in Hp. destruct k as [|k]; [lia|]. cbn [malloc_loop]. unfold get_size. rewrite !bind_gets. fold m.
    destruct (Z.leb_spec n (load32 m (load32 m prev + 4))) as [Hn|Hn].
    + left. exists prev, (load32 m prev), (load32 m (load32 m prev + 4)). split_and!; [by left|done|rewrite Hp; by left|done|done|done].
    + right. rewrite Hp in Hn |- *. split; [intros a [->|[]%elem_of_nil]%elem_of_cons; lia|].
      rewrite bind_gets. fold q. rewrite Z.eqb_refl. simpl. by rewrite Nat.sub_0_r.
  - destruct Hc as (Hp & _ & Hc). cbn [next] in Hp. destruct k as [|k]; [simpl in Hk; lia|]. cbn [malloc_loop]. unfold get_size. rewrite !bind_gets. fold m.
    pose proof Hc as (_ & Ht & _). rewrite Hp, Ht. destruct (Z.leb_spec n t) as [Hn|Hn].
    + left. exists prev, a, t. split_and!; [by left|done|by left|done|done|done].
    + rewrite bind_gets. fold q. rewrite (proj2 (Z.eqb_neq a q)) by (apply (Hq a t); by left).
      assert ((nx <- get_ptr a;; malloc_loop grant fuel k n a nx) h e = malloc_loop grant fuel k n a (load32 m a) h e) as -> by done. simpl in Hk.
      destruct (IH a t k Hc) as [(x & b & u & Hx & Hl & Hb & Hu & Hnu & Hrun)|[Hall Hrun]]; [intros ?? H; eapply Hq; by right|lia|..].
      * left. exists x, b, u. split_and!; [by right|done|by right|done|done|done].
      * right. split; [|by rewrite Hrun]. intros b [->|Hb]%elem_of_cons; [cbn [fst]; lia|by apply Hall].
Qed.

(** [b] of [n] headers has been taken out of the free blocks [L], and of memory added at the end. *)
Record took (h : heap) (L : list block) (b n : Z) (h' : heap) (L' : list block) : Prop := {
  tk_ring : ring h' L';
  tk_brk : h.(h_brk) ≤ h'.(h_brk);
  tk_outside : outside h' L' b n;
  tk_covered : ∀ y, covered L y ∨ h.(h_brk) ≤ y < h'.(h_brk) ↔ in_block (b, n) y ∨ covered L' y;
  tk_frame : ∀ y, ¬ covered L y → y < h.(h_brk) → y < base ∨ base + 8 ≤ y → h'.(h_mem) y = h.(h_mem) y
}.

Lemma malloc_search fuel k n h L e :
  ring h L → 1 ≤ n → (length L < k)%nat →
  (∃ b h' L', malloc_loop grant fuel k n h.(h_freep) (load32 h.(h_mem) h.(h_freep)) h e = Ret (b + 8) h' e ∧ took h L b n h' L') ∨
  Forall (λ b, b.2 < n) L ∧
    malloc_loop grant fuel k n h.(h_freep) (load32 h.(h_mem) h.(h_freep)) h e =
      (p <- morecore grant fuel n;;
       if p =? 0 then ret 0 else nx <- get_ptr p;; malloc_loop grant fuel (k - S (length L)) n p nx) h e.
Proof.
  intros Hr Hn Hk. destruct (ring_from h L _ Hr (r_freep h L Hr)) as (s & R & Hc & HR).
  pose proof (Permutation_length HR) as Hlen. simpl in Hlen. pose proof (r_spaced h L Hr) as Hsp.
  assert (∀ x, x ∈ h_freep h :: R.*1 ↔ x ∈ base :: L.*1) as Hmem.
  { intros x. change (x ∈ ((h_freep h, s) :: R).*1 ↔ x ∈ ((base, 0) :: L).*1). by rewrite HR. }
  assert (NoDup (h_freep h :: R.*1)) as [Hnd _]%NoDup_cons.
  { change (NoDup ((h_freep h, s) :: R).*1). rewrite HR. by apply (spaced_nodup _ (h_brk h)). }
  destruct (malloc_walk fuel k n (h_freep h) s R h e Hc) as [(x & a & t & Hx & Hl & Ha & Ht & Hnt & Hrun)|[Hall Hrun]].
  { intros a t Hat ->. apply Hnd. apply list_elem_of_fmap. by exists (h_freep h, t). }
  { lia. }
  - left. rewrite Hrun. assert (a ∈ base :: L.*1) as Ha' by (apply Hmem; set_solver).
    assert ((a, t) ∈ L) as HaL.
    { change (a ∈ ((base, 0) :: L).*1) in Ha'. apply list_elem_of_fmap in Ha' as ([a' t'] & Heq & Hin). cbn [fst] in Heq. subst a'.
      rewrite (chain_size _ _ _ _ _ (r_chain h L Hr) Hin) in Ht. subst t'. apply elem_of_cons in Hin as [[= _ ->]|Hin]; [lia|done]. }
    destruct (node_before h L x a t Hr (proj1 (Hmem x) Hx) Hl HaL) as (N1 & xs & N2 & HN).
    destruct (carve_run h L N1 x xs a t N2 n e Hr HN) as (h' & L' & -> & Hr' & Hbrk & Ho & Hcov & Hfr); [lia|].
    eexists _, h', L'. split; [reflexivity|]. split; [done|lia|done| |auto]. intros y. rewrite <- Hcov. intuition lia.
  - right. replace (length L) with (length R) by lia. split; [|done]. apply Forall_forall. intros [a t] Hat. cbn [snd].
    rewrite <- (chain_size _ _ _ a t (r_chain h L Hr)) by (by right). apply Hall.
    assert (a ∈ h_freep h :: R.*1) as Hin by (apply Hmem; right; apply list_elem_of_fmap; by exists (a, t)). set_solver.
Qed.

(** ** More memory *)

(** The kernel keeps a process below its own addresses. *)
Definition bounded : Prop := ∀ brk n, grant brk n = true → brk + n ≤ KERNBASE.

Lemma spaced_grow N hi hi' : spaced N hi → hi ≤ hi' → spaced N hi'.
Proof.
  intros Hs Hle. induction N as [|[a s] N IH]; [done|]. destruct Hs as (H0 & Hn & Hne & Hs). split_and!; [done| | |by apply IH].
  - destruct N as [|[b t] N]; cbn [next] in *; lia.
  - intros HN. specialize (Hne HN). by destruct N.
Qed.

Lemma morecore_run fuel n h L e :
  bounded → ring h L → base + 8 ≤ h.(h_brk) → 1 ≤ n → 8 * n < 2147483648 → (length L < fuel)%nat →
  let nu := Z.max n 4096 in
  (grant h.(h_brk) (8 * nu) = false ∧ morecore grant fuel n h e = Ret 0 h e) ∨
  ∃ h' L', morecore grant fuel n h e = Ret h'.(h_freep) h' e ∧ ring h' L' ∧ h'.(h_brk) = h.(h_brk) + 8 * nu ∧
    Exists (λ b, n ≤ b.2) L' ∧ (length L' ≤ S (length L))%nat ∧
    (∀ y, covered L' y ↔ covered L y ∨ h.(h_brk) ≤ y < h'.(h_brk)) ∧
    ∀ y, ¬ covered L y → y < h.(h_brk) → y < base ∨ base + 8 ≤ y → h'.(h_mem) y = h.(h_mem) y.
Proof.
  intros Hg Hr Hlo Hn Hn8 Hf nu. pose proof (r_base h L Hr) as Hb. pose proof (r_brk h L Hr) as Hbrk. unfold KERNBASE in Hbrk.
  unfold morecore. assert ((if n <? 4096 then 4096 else n) = nu) as -> by (unfold nu; destruct (Z.ltb_spec n 4096); lia).
  rewrite (s32_id (nu * sizeof_Header)) by (unfold is_s32, sizeof_Header, nu; lia). unfold sbrk. rewrite bind_assoc, bind_gets.
  replace (nu * sizeof_Header) with (8 * nu) by (unfold sizeof_Header; lia).
  destruct (grant (h_brk h) (8 * nu)) eqn:Hgr; [right|by left].
  pose proof (Hg _ _ Hgr) as Hhi. unfold KERNBASE in Hhi. rewrite bind_assoc, bind_modify, bind_ret_l.
  change (u32 (-1)) with 4294967295. rewrite (proj2 (Z.eqb_neq (h_brk h) 4294967295)) by lia.
  unfold set_size. rewrite bind_modify. cbn [h_mem h_freep h_brk]. rewrite u32_id by (unfold is_u32; lia). rewrite padd_small by lia.
  set (h1 := Mkheap (store32 (h_brk h + 4) nu (h_mem h)) (h_freep h) (h_brk h + 8 * nu)).
  assert (∀ a t, (a, t) ∈ (base, 0) :: L → a + 8 * Z.max t 1 ≤ h_brk h) as Hbel
    by (intros a t Hat; by apply (spaced_below _ _ a t (r_spaced h L Hr))).
  assert (ring h1 L) as Hr1.
  { split; cbn [h_mem h_freep h_brk h1]; [done|done| | |apply Hr|apply Hr].
    - apply (chain_only (h_brk h) (h_mem h)); [apply store_size_only| |apply Hr]. intros a t Hat. specialize (Hbel a t Hat). lia.
    - apply (spaced_grow _ (h_brk h)); [apply Hr|lia]. }
  destruct (free_run h1 L (h_brk h) nu fuel e Hr1) as (h' & L' & Hrun & Hr' & Hbrk' & Hex & Hcov & Hlen & Hfr); [|done|].
  { split; cbn [h_mem h_brk h1]; [done|lia|lia|apply load32_store32_eq; unfold is_u32; lia|].
    intros a t Hat. specialize (Hbel a t ltac:(by right)). lia. }
  replace (h_brk h + 8 * 1) with (h_brk h + 8) by lia. mstep Hrun. exists h', L'. cbn [h_brk h1] in Hbrk'. split_and!; [done|done|done| |done| |].
  - eapply Exists_impl; [exact Hex|]. cbn beta. lia.
  - intros y. rewrite Hcov, Hbrk'. unfold in_block. cbn [fst snd]. tauto.
  - intros y Hy Hyb Hbase. rewrite Hfr; [apply store32_out; lia| |done]. rewrite Hcov. unfold in_block. cbn [fst snd]. intuition lia.
Qed.

(** The whole search. *)
Lemma malloc_loop_run fuel k n h L e :
  bounded → ring h L → 1 ≤ n → 8 * n < 2147483648 → base + 8 ≤ h.(h_brk) → (length L < fuel)%nat → (2 * length L + 3 ≤ k)%nat →
  (∃ b h' L', malloc_loop grant fuel k n h.(h_freep) (load32 h.(h_mem) h.(h_freep)) h e = Ret (b + 8) h' e ∧ took h L b n h' L') ∨
  grant h.(h_brk) (8 * Z.max n 4096) = false ∧ Forall (λ b, b.2 < n) L ∧
    malloc_loop grant fuel k n h.(h_freep) (load32 h.(h_mem) h.(h_freep)) h e = Ret 0 h e.
Proof.
  intros Hg Hr Hn Hn8 Hlo Hf Hk. destruct (malloc_search fuel k n h L e Hr Hn) as [H|[Hall ->]]; [lia|by left|].
  destruct (morecore_run fuel n h L e Hg Hr Hlo Hn Hn8 Hf) as [[Hno Hrun]|(h1 & L1 & Hrun & Hr1 & Hbrk & Hex & Hlen & Hcov & Hfr)];
    mstep Hrun; [by right|left]. pose proof (r_base h L Hr) as Hb.
  pose proof (freep_pos h1 L1 Hr1) as Hfp. rewrite (proj2 (Z.eqb_neq _ _)) by lia. unfold get_ptr. rewrite bind_gets.
  destruct (malloc_search fuel (k - S (length L)) n h1 L1 e Hr1 Hn) as [(b & h' & L' & Hrun' & Ht)|[Hall1 _]]; [lia| |].
  - exists b, h', L'. split; [done|]. destruct Ht as [Ht1 Ht2 Ht3 Ht4 Ht5]. split; [done|lia|done| |].
    + intros y. rewrite <- Ht4, Hcov. intuition lia.
    + intros y Hy Hyb Hyo. rewrite Ht5; [by apply Hfr| |lia|done]. rewrite Hcov. intuition lia.
  - exfalso. apply Exists_exists in Hex as (c & Hin & Hc). rewrite Forall_forall in Hall1. specialize (Hall1 c Hin). cbn beta in Hall1. lia.
Qed.

(** ** malloc *)

Lemma units_spec nbytes :
  0 ≤ nbytes < 2147483632 → let n := units nbytes in 1 ≤ n ∧ 8 * n < 2147483648 ∧ nbytes ≤ 8 * (n - 1) < nbytes + 8.
Proof.
  intros Hn n. unfold n, units, sizeof_Header. rewrite (u32_id (nbytes + 8 - 1)) by (unfold is_u32; lia).
  pose proof (Z.div_mod (nbytes + 8 - 1) 8 ltac:(lia)). pose proof (Z.mod_pos_bound (nbytes + 8 - 1) 8 ltac:(lia)).
  rewrite u32_id by (unfold is_u32; lia). lia.
Qed.

(** The client's view of a block taken from the free ones. *)
Lemma took_inv lo h L A b n h' L' :
  ring h L → Forall (λ b, outside h L b.1 b.2) A → pairwise A → (∀ x, lo ≤ x < h.(h_brk) ↔ covered L x ∨ covered A x) →
  lo ≤ h.(h_brk) → took h L b n h' L' →
  heap_inv lo h' ((b, n) :: A) ∧ ∀ c x, c ∈ A → in_block c x → h'.(h_mem) x = h.(h_mem) x.
Proof.
  intros Hr Ho Hp Hc Hlo [Hr' Hbrk Hob Hcov Hfr]. rewrite Forall_forall in Ho.
  assert (∀ c y, c ∈ A → in_block c y → ¬ in_block (b, n) y ∧ ¬ covered L' y ∧ h_mem h' y = h_mem h y) as Hkept.
  { intros c y Hin Hy. destruct (outside_points h L c.1 c.2 y (Ho c Hin)) as [Hn Hr3]; [by destruct c|].
    pose proof (Hcov y) as [_ Hcov']. assert (¬ (in_block (b, n) y ∨ covered L' y)) as Hno by (intros H; destruct (Hcov' H); [done|lia]).
    split_and!; [tauto|tauto|apply Hfr; [done|lia|lia]]. }
  split; [|intros c x Hin Hx; by apply (Hkept c)]. right. exists L'. split_and!; [done| | |lia|].
  - constructor; [done|]. apply Forall_forall. intros c Hin. apply (outside_kept h L); [by apply Ho|done|lia|].
    intros y Hy. destruct (Hkept c y Hin) as (_ & ? & ?); [by destruct c|done].
  - split; [|done]. apply Forall_forall. intros c Hin. apply points_apart; [apply Hob|apply (Ho c Hin)|].
    intros y Hb Hy. by destruct (Hkept c y Hin Hy).
  - intros x. rewrite covered_cons. pose proof (Hcov x). pose proof (Hc x).
    assert (lo ≤ x < h_brk h' ↔ lo ≤ x < h_brk h ∨ h_brk h ≤ x < h_brk h') as -> by lia. tauto.
Qed.

(** Two blocks of a chain are apart, with a gap in between. *)
Lemma spaced_apart N hi a s b t :
  spaced N hi → (a, s) ∈ N → (b, t) ∈ N →
  (a, s) = (b, t) ∨ a + 8 * Z.max s 1 ≤ b ∧ a + 8 * s ≠ b ∨ b + 8 * Z.max t 1 ≤ a ∧ b + 8 * t ≠ a.
Proof.
  revert a s b t. induction N as [|[c u] N IH]; intros a s b t Hs Ha Hb; [by apply elem_of_nil in Ha|].
  apply elem_of_cons in Ha as [[= -> ->]|Ha]; apply elem_of_cons in Hb as [[= -> ->]|Hb].
  - by left.
  - right. left. by apply (spaced_above _ _ _ _ b t Hs).
  - right. right. by apply (spaced_above _ _ _ _ a s Hs).
  - destruct Hs as (_ & _ & _ & Hs). by apply IH.
Qed.

(** Free memory without a hole is in one block. *)
Lemma free_interval h L a c :
  ring h L → a < c → (∀ x, a ≤ x < c → covered L x) → ∃ b, b ∈ L ∧ b.1 ≤ a ∧ c ≤ b.1 + 8 * b.2.
Proof.
  intros Hr Hac Hcov. destruct (proj1 (Exists_exists _ _) (Hcov a ltac:(lia))) as ([b t] & Hin & Hb). unfold in_block in Hb. cbn [fst snd] in Hb.
  exists (b, t). cbn [fst snd]. split; [done|]. split; [lia|]. destruct (decide (c ≤ b + 8 * t)) as [|Hlt]; [done|exfalso].
  destruct (proj1 (Exists_exists _ _) (Hcov (b + 8 * t) ltac:(lia))) as ([b' t'] & Hin' & Hb'). unfold in_block in Hb'. cbn [fst snd] in Hb'.
  destruct (spaced_apart _ _ b t b' t' (r_spaced h L Hr)) as [[= -> ->]|[[? ?]|[? ?]]]; [by right|by right|lia|lia|lia].
Qed.

(** Between [lo] and the break there are no [n] headers in a row that the client does not have. *)
Definition no_room (lo : Z) (h : heap) (A : list block) (n : Z) : Prop :=
  ∀ a, lo ≤ a → a + 8 * n ≤ h.(h_brk) → ¬ ∀ x, a ≤ x < a + 8 * n → ¬ covered A x.

Lemma ring_no_room lo h L A n :
  ring h L → (∀ x, lo ≤ x < h.(h_brk) ↔ covered L x ∨ covered A x) → 1 ≤ n → Forall (λ b, b.2 < n) L → no_room lo h A n.
Proof.
  intros Hr Hc Hn Hall a Hlo Hhi Hno.
  destruct (free_interval h L a (a + 8 * n) Hr ltac:(lia)) as ([b t] & Hin & H1 & H2).
  - intros x Hx. destruct (proj1 (Hc x) ltac:(lia)) as [|HA]; [done|]. by destruct (Hno x Hx).
  - rewrite Forall_forall in Hall. specialize (Hall _ Hin). cbn [fst snd] in *. lia.
Qed.

(** What [malloc] of [nbytes] promises, for a heap [h] whose client has the blocks [A].  It fails only when the memory
    the client has left has no room for the request and the kernel refuses what [morecore] asks for. *)
Definition malloc_ok (lo : Z) (h : heap) (A : list block) (nbytes p : Z) (h' : heap) : Prop :=
  (p = 0 ∧ heap_inv lo h' A ∧ h'.(h_brk) = h.(h_brk) ∧ no_room lo h A (units nbytes) ∧
     grant h.(h_brk) (8 * Z.max (units nbytes) 4096) = false ∨
   ∃ b n, p = b + 8 ∧ nbytes ≤ 8 * (n - 1) < nbytes + 8 ∧ heap_inv lo h' ((b, n) :: A)) ∧
  ∀ c x, c ∈ A → in_block c x → h'.(h_mem) x = h.(h_mem) x.

Lemma malloc_ready lo h A nbytes fuel e L :
  bounded → ring h L → Forall (λ b, outside h L b.1 b.2) A → pairwise A →
  (∀ x, lo ≤ x < h.(h_brk) ↔ covered L x ∨ covered A x) → lo ≤ h.(h_brk) →
  0 ≤ nbytes < 2147483632 → (Z.to_nat h.(h_brk) ≤ fuel)%nat →
  ∃ p h', malloc_loop grant fuel fuel (units nbytes) h.(h_freep) (load32 h.(h_mem) h.(h_freep)) h e = Ret p h' e ∧
    malloc_ok lo h A nbytes p h'.
Proof.
  intros Hg Hr Ho Hp Hc Hlo Hn Hf. destruct (units_spec nbytes Hn) as (Hn1 & Hn8 & Hnb). set (n := units nbytes) in *.
  pose proof (ring_length h L Hr). pose proof (r_base h L Hr).
  destruct (malloc_loop_run fuel fuel n h L e Hg Hr Hn1 Hn8) as [(b & h' & L' & Hrun & Ht)|(Hno & Hall & Hrun)]; [lia..| |].
  - destruct (took_inv lo h L A b n h' L' Hr Ho Hp Hc Hlo Ht) as [HI' Hk]. exists (b + 8), h'. split; [done|].
    split; [right; by exists b, n|done].
  - exists 0, h. split; [done|]. split; [|done]. left. split; [done|]. split; [right; by exists L|].
    split; [done|]. split; [by apply (ring_no_room lo h L)|exact Hno].
Qed.

Lemma malloc_run lo h A nbytes fuel e :
  bounded → heap_inv lo h A → 0 ≤ nbytes < 2147483632 → (Z.to_nat h.(h_brk) ≤ fuel)%nat →
  ∃ p h', malloc grant fuel fuel nbytes h e = Ret p h' e ∧ malloc_ok lo h A nbytes p h'.
Proof.
  intros Hg HI Hn Hf. unfold malloc. rewrite bind_gets. destruct HI as [(Hfp & -> & -> & Hb & Hbk)|(L & Hr & Ho & Hp & Hlo & Hc)].
  - rewrite Hfp. change (0 =? 0) with true. cbv iota. unfold set_ptr, set_freep, set_size.
    rewrite !bind_assoc, bind_modify, bind_assoc, bind_modify, bind_modify, bind_gets. unfold get_ptr. rewrite bind_gets.
    unfold KERNBASE in Hbk. cbn [h_mem h_brk h_freep].
    set (h0 := Mkheap (store32 (base + 4) 0 (store32 base base (h_mem h))) base (h_brk h)).
    destruct (malloc_ready (h_brk h) h0 [] nbytes fuel e []) as (p & h' & Hrun & Hres & _); [done| |done|done| |done|done|done|].
    + split; cbn [h_mem h_brk h_freep h0]; [done|unfold KERNBASE; lia| | |done|by left].
      * cbn [chain next]. split_and!; [|apply load32_store32_eq; done|done].
        rewrite load32_store32_ne by lia. apply load32_store32_eq. unfold is_u32. lia.
      * cbn [spaced next]. split_and!; [done|lia|done|done].
    + intros x. cbn [h_brk h0]. unfold covered. rewrite !Exists_nil. lia.
    + exists p, h'. split; [exact Hrun|]. split; [exact Hres|by intros ?? ?%elem_of_nil].
  - pose proof (freep_pos h L Hr) as Hfp. rewrite (proj2 (Z.eqb_neq _ _)), bind_ret_l, bind_gets by lia.
    unfold get_ptr. rewrite bind_gets. by apply (malloc_ready lo h A nbytes fuel e L).
Qed.

(** C24: [malloc] hands out memory of its own.  For every request below two gigabytes it ends.  It returns 0 only when no
    gap between the client's blocks has room for the request and the kernel refuses the memory [morecore] asks for,
    which is the request in headers or 4096 headers, whichever is more; the break is then as it was.  Otherwise it returns
    the address after the header of a block that is large enough and no more than seven bytes larger than asked for, and
    that is apart from all the blocks the client has.  The client's blocks keep their sizes and contents, and no memory is
    lost. *)
Theorem malloc_correct lo h A nbytes fuel e :
  bounded → heap_inv lo h A → 0 ≤ nbytes < 2147483632 → (Z.to_nat h.(h_brk) ≤ fuel)%nat →
  ∃ p h', malloc grant fuel fuel nbytes h e = Ret p h' e ∧ malloc_ok lo h A nbytes p h'.
Proof. apply malloc_run. Qed.

End allocator.

(** ** Examples *)

(** A process that may grow to 1 MB, with [base] at 4096 and its memory up to 8192. *)
Definition megabyte (brk n : Z) : bool := brk + n <=? 1048576.
Definition fresh_heap : heap := Mkheap (λ _, 0) 0 8192.

Lemma megabyte_bounded : bounded megabyte.
Proof. intros brk n H. unfold megabyte in H. bool_facts. unfold KERNBASE. lia. Qed.

Lemma fresh_heap_inv : heap_inv 4096 8192 fresh_heap [].
Proof. left. split_and!; [done..|]. simpl. unfold KERNBASE. lia. Qed.

(** Witness: the first request of a process. *)
Lemma malloc_correct_witness :
  ∃ p h', malloc 4096 megabyte (Z.to_nat 8192) (Z.to_nat 8192) 100 fresh_heap [] = Ret p h' [] ∧ malloc_ok 4096 megabyte 8192 fresh_heap [] 100 p h'.
Proof. apply (malloc_correct 4096 megabyte 8192 fresh_heap [] 100 (Z.to_nat 8192) [] megabyte_bounded fresh_heap_inv); [lia|apply le_n]. Defined.

(** One block of 14 headers at 8192, which is all the heap has. *)
Definition one_block : heap :=
  Mkheap (store32 8196 14 (store32 4100 0 (store32 4096 4096 (λ _, 0)))) 4096 8304.

Lemma one_block_inv : heap_inv 4096 8192 one_block [(8192, 14)].
Proof.
  right. exists []. split_and!; [split| |done|done|].
  - done.
  - simpl. unfold KERNBASE. lia.
  - simpl. split_and!; [vm_compute; reflexivity..|done].
  - simpl. split_and!; (done || lia).
  - done.
  - by left.
  - constructor; [|constructor]. split; cbn [fst snd]; [lia|simpl; lia|lia|vm_compute; reflexivity|by intros ?? ?%elem_of_nil].
  - intros x. unfold covered. rewrite Exists_nil, Exists_cons, Exists_nil. unfold in_block. simpl. lia.
Qed.

(** Witness: the block is given back. *)
Lemma free_correct_witness :
  ∃ h', free (Z.to_nat 8304) 8200 one_block [] = Ret tt h' [] ∧ heap_inv 4096 8192 h' [] ∧
    ∀ c x, c ∈ [] → in_block c x → h'.(h_mem) x = one_block.(h_mem) x.
Proof. apply (free_correct 4096 8192 one_block [(8192, 14)] 8192 14 [] (Z.to_nat 8304) [] one_block_inv); [done|apply le_n]. Defined.

(** The size of a request near 2^32 wraps around: [malloc(0xffffffff)] asks for one header. *)
Lemma malloc_overflow : units 4294967295 = 1.
Proof. done. Qed.
