(* ===== verification/Uos.v ===== *)
(** * Programs and the system calls they make (user.h)

    A program is an interaction tree whose events are system calls, so that
    [fork] can give the rest of the program to two processes and a loop that
    never ends is a program too.  [sys] says what the calls do: the files,
    directories, descriptors, pipes, processes and priority locks a program sees,
    without the caches, locks and page tables the kernel has below them.  The
    processes take turns, one call at a time, in any order. *)

From ITree Require Import ITree.
From S2P Require Import Prelude KState Print Mem Priority Fs Ulib.

(** ** Programs *)

Variant sysE : Type → Type :=
| Fork : sysE Z
| Exit : sysE void
| Wait : sysE Z
| Kill (pid : Z) : sysE Z
| Getpid : sysE Z
| Sleep (n : Z) : sysE Z
| Uptime : sysE Z
| Exec (path : list Z) (argv : list (list Z)) : sysE Z
| Pipe : sysE (option (Z * Z))
| Read (fd n : Z) : sysE (option (list Z))
| Write (fd : Z) (bs : list Z) : sysE Z
| Open (path : list Z) (mode : Z) : sysE Z
| Close (fd : Z) : sysE Z
| Link (old new : list Z) : sysE Z
| Unlink (path : list Z) : sysE Z
| Mkdir (path : list Z) : sysE Z
| Chdir (path : list Z) : sysE Z
| Nice (pid value : Z) : sysE Z
| Lock (id : Z) : sysE Z
| Release (id : Z) : sysE Z
| Sbrk (n : Z) : sysE Z
| Strace (flags : Z) : sysE Z
| Load (a : Z) : sysE Z                       (* a byte of the process's memory *)
| Store (a v : Z) : sysE unit
| SleepAt (p : Z) : sysE Z                    (* sleep, its argument at address p *)
| LinkAt (old : list Z) (p : Z) : sysE Z      (* link, its second path at address p *)
| Privileged : sysE void                      (* an instruction that faults in user mode *)
| Until (start n : Z) : sysE Z.               (* a sleep that has begun at tick [start] *)

Definition prog : Type → Type := itree sysE.

Declare Scope prog_scope.
Delimit Scope prog_scope with prog.
Notation "x <- c1 ;; c2" := (ITree.bind c1 (λ x, c2))
  (at level 100, c1 at next level, right associativity) : prog_scope.
Notation "c1 ;; c2" := (ITree.bind c1 (λ _, c2))
  (at level 100, right associativity) : prog_scope.
#[local] Open Scope prog_scope.

Definition call {X} (e : sysE X) : prog X := ITree.trigger e.
Definition pure {A} (a : A) : prog A := go (RetF a).

Definition fork : prog Z := call Fork.
Definition exit {A} : prog A := x <- call Exit;; match x with end.
Definition wait : prog Z := call Wait.

Fixpoint puts (fd : Z) (cs : list Z) : prog unit :=
  match cs with [] => pure tt | c :: cs' => call (Write fd [c]);; puts fd cs' end.

(** [printf] writes one character at a time. *)
Definition printf (fd : Z) (fmt : string) (args : list arg) : prog unit := puts fd (default [] (uformat (str fmt) args)).
Definition say (msg : string) : prog unit := printf 1 msg [].

(** ** What the system holds *)

(** A directory is its slots in order, a free slot with inode number 0. *)
Inductive node : Type := NFile (bs : list Z) | NDir (es : list (list Z * nat)).
Record unode : Type := Mkunode { n_node : node; n_link : Z }.

Inductive chan : Type :=
| CInode (ino : nat) (off : Z) (r w : bool)
| CRead (p : nat)
| CWrite (p : nat)
| CCons.
Record ufile : Type := Mkufile { f_chan : chan; f_ref : nat }.
Record upipe : Type := Mkupipe { q_data : list Z; q_r : bool; q_w : bool }.

Record uproc : Type := Mkuproc {
  up_parent : nat;
  up_zombie : bool;
  up_killed : bool;
  up_fds : list (option nat);
  up_cwd : nat;
  up_sz : Z;
  up_mem : gmap Z Z;
  up_nice : Z;
  up_prio : Z;
  up_orig : Z
}.

Record os : Type := Mkos {
  o_procs : gmap nat uproc;
  o_pid : nat;                (* the next process id *)
  o_files : gmap nat ufile;   (* the file table *)
  o_nodes : gmap nat unode;   (* inode number to file *)
  o_pipes : gmap nat upipe;
  o_locks : gmap Z nat;       (* the holder of a held lock *)
  o_free : Z;                 (* free pages *)
  o_ticks : Z;
  o_out : list Z              (* what the console has shown *)
}.

Definition set_procs v σ := Mkos v σ.(o_pid) σ.(o_files) σ.(o_nodes) σ.(o_pipes) σ.(o_locks) σ.(o_free) σ.(o_ticks) σ.(o_out).
Definition set_pid v σ := Mkos σ.(o_procs) v σ.(o_files) σ.(o_nodes) σ.(o_pipes) σ.(o_locks) σ.(o_free) σ.(o_ticks) σ.(o_out).
Definition set_files v σ := Mkos σ.(o_procs) σ.(o_pid) v σ.(o_nodes) σ.(o_pipes) σ.(o_locks) σ.(o_free) σ.(o_ticks) σ.(o_out).
Definition set_nodes v σ := Mkos σ.(o_procs) σ.(o_pid) σ.(o_files) v σ.(o_pipes) σ.(o_locks) σ.(o_free) σ.(o_ticks) σ.(o_out).
Definition set_pipes v σ := Mkos σ.(o_procs) σ.(o_pid) σ.(o_files) σ.(o_nodes) v σ.(o_locks) σ.(o_free) σ.(o_ticks) σ.(o_out).
Definition set_locks v σ := Mkos σ.(o_procs) σ.(o_pid) σ.(o_files) σ.(o_nodes) σ.(o_pipes) v σ.(o_free) σ.(o_ticks) σ.(o_out).
Definition set_free v σ := Mkos σ.(o_procs) σ.(o_pid) σ.(o_files) σ.(o_nodes) σ.(o_pipes) σ.(o_locks) v σ.(o_ticks) σ.(o_out).
Definition set_ticks v σ := Mkos σ.(o_procs) σ.(o_pid) σ.(o_files) σ.(o_nodes) σ.(o_pipes) σ.(o_locks) σ.(o_free) v σ.(o_out).
Definition set_out v σ := Mkos σ.(o_procs) σ.(o_pid) σ.(o_files) σ.(o_nodes) σ.(o_pipes) σ.(o_locks) σ.(o_free) σ.(o_ticks) v.

Definition set_zombie v p := Mkuproc p.(up_parent) v p.(up_killed) p.(up_fds) p.(up_cwd) p.(up_sz) p.(up_mem) p.(up_nice) p.(up_prio) p.(up_orig).
Definition set_killed v p := Mkuproc p.(up_parent) p.(up_zombie) v p.(up_fds) p.(up_cwd) p.(up_sz) p.(up_mem) p.(up_nice) p.(up_prio) p.(up_orig).
Definition set_parent v p := Mkuproc v p.(up_zombie) p.(up_killed) p.(up_fds) p.(up_cwd) p.(up_sz) p.(up_mem) p.(up_nice) p.(up_prio) p.(up_orig).
Definition set_fds v p := Mkuproc p.(up_parent) p.(up_zombie) p.(up_killed) v p.(up_cwd) p.(up_sz) p.(up_mem) p.(up_nice) p.(up_prio) p.(up_orig).
Definition set_cwd v p := Mkuproc p.(up_parent) p.(up_zombie) p.(up_killed) p.(up_fds) v p.(up_sz) p.(up_mem) p.(up_nice) p.(up_prio) p.(up_orig).
Definition set_mem sz m p := Mkuproc p.(up_parent) p.(up_zombie) p.(up_killed) p.(up_fds) p.(up_cwd) sz m p.(up_nice) p.(up_prio) p.(up_orig).
Definition set_prio nice prio orig p := Mkuproc p.(up_parent) p.(up_zombie) p.(up_killed) p.(up_fds) p.(up_cwd) p.(up_sz) p.(up_mem) nice prio orig.

Definition upd_proc (pid : nat) (f : uproc → uproc) (σ : os) : os := set_procs (alter f pid σ.(o_procs)) σ.

(** ** Files *)

(** A file or directory is kept while it has a name, a descriptor or is a current directory. *)
Definition in_use (ino : nat) (σ : os) : bool :=
  map_fold (λ _ f b, b || (match f.(f_chan) with CInode i _ _ _ => (i =? ino)%nat | _ => false end)) false σ.(o_files) ||
  map_fold (λ _ p b, b || (negb p.(up_zombie) && (p.(up_cwd) =? ino)%nat)) false σ.(o_procs).

Definition iput (ino : nat) (σ : os) : os :=
  match σ.(o_nodes) !! ino with
  | Some x => if (x.(n_link) =? 0) && negb (in_use ino σ) then set_nodes (delete ino σ.(o_nodes)) σ else σ
  | None => σ
  end.

Definition entries (ino : nat) (σ : os) : option (list (list Z * nat)) :=
  match σ.(o_nodes) !! ino with Some (Mkunode (NDir es) _) => Some es | _ => None end.

Definition dir_find (name : list Z) (es : list (list Z * nat)) : option nat :=
  e ← list_find (λ e, e.2 ≠ 0%nat ∧ e.1 = name) es; Some e.2.2.

(** From the directory [ino] along [names]. *)
Fixpoint lookup_path (ino : nat) (names : list (list Z)) (σ : os) : option nat :=
  match names with
  | [] => Some ino
  | name :: names' => es ← entries ino σ; i ← dir_find name es; lookup_path i names' σ
  end.

Definition start_of (pid : nat) (path : list Z) (σ : os) : nat :=
  match path with
  | 47 :: _ => 1%nat
  | _ => match σ.(o_procs) !! pid with Some p => p.(up_cwd) | None => 1%nat end
  end.

Definition find (pid : nat) (path : list Z) (σ : os) : option nat := lookup_path (start_of pid path σ) (Fs.elements path) σ.

(** The directory that holds the last name of the path. *)
Definition find_parent (pid : nat) (path : list Z) (σ : os) : option (nat * list Z) :=
  match reverse (Fs.elements path) with
  | [] => None
  | name :: rest => d ← lookup_path (start_of pid path σ) (reverse rest) σ; _ ← entries d σ; Some (d, name)
  end.

(** A new name goes to the first free slot. *)
Definition add_entry (e : list Z * nat) (es : list (list Z * nat)) : list (list Z * nat) :=
  match list_find (λ e, e.2 = 0%nat) es with Some (i, _) => <[i := e]> es | None => es ++ [e] end.

Definition set_entries (d : nat) (es : list (list Z * nat)) (σ : os) : os :=
  set_nodes (alter (λ x, Mkunode (NDir es) x.(n_link)) d σ.(o_nodes)) σ.
Definition add_links (ino : nat) (n : Z) (σ : os) : os :=
  set_nodes (alter (λ x, Mkunode x.(n_node) (x.(n_link) + n)) ino σ.(o_nodes)) σ.

Definition first_free {A} (m : gmap nat A) (l : list nat) : option nat := snd <$> list_find (λ i, m !! i = None) l.

Definition dot : list Z := [46].
Definition dotdot : list Z := [46; 46].

(** A new file, or directory with its two names, in [d] under [name]. *)
Definition make (d : nat) (name : list Z) (es : list (list Z * nat)) (dir : bool) (σ : os) : option (nat * os) :=
  i ← first_free σ.(o_nodes) (seq 1 199);
  let x := if dir then NDir [(dot, i); (dotdot, d)] else NFile [] in
  let σ := set_nodes (<[i := Mkunode x 1]> σ.(o_nodes)) σ in
  let σ := if dir then add_links d 1 σ else σ in
  Some (i, set_entries d (add_entry (name, i) es) σ).

Definition is_dir (ino : nat) (σ : os) : bool := match entries ino σ with Some _ => true | None => false end.

(** [open] with O_CREATE gives an existing file, and not a directory. *)
Definition create_file (pid : nat) (path : list Z) (σ : os) : option (nat * os) :=
  '(d, name) ← find_parent pid path σ; es ← entries d σ;
  match dir_find name es with
  | Some i => if is_dir i σ then None else Some (i, σ)
  | None => make d name es false σ
  end.

Definition do_mkdir (pid : nat) (path : list Z) (σ : os) : option os :=
  '(d, name) ← find_parent pid path σ; es ← entries d σ;
  match dir_find name es with Some _ => None | None => snd <$> make d name es true σ end.

Definition do_link (pid : nat) (old new : list Z) (σ : os) : option os :=
  i ← find pid old σ;
  if is_dir i σ then None else
  '(d, name) ← find_parent pid new σ; es ← entries d σ;
  match dir_find name es with Some _ => None | None => Some (set_entries d (add_entry (name, i) es) (add_links i 1 σ)) end.

Definition empty_dir (es : list (list Z * nat)) : bool := forallb (λ e, (e.2 =? 0)%nat) (drop 2 es).

Definition do_unlink (pid : nat) (path : list Z) (σ : os) : option os :=
  '(d, name) ← find_parent pid path σ; es ← entries d σ;
  if bool_decide (name = dot) || bool_decide (name = dotdot) then None else
  '(k, e) ← list_find (λ e, e.2 ≠ 0%nat ∧ e.1 = name) es;
  let i := e.2 in
  if (match entries i σ with Some es' => negb (empty_dir es') | None => false end) then None else
  let σ := if is_dir i σ then add_links d (-1) σ else σ in
  Some (iput i (add_links i (-1) (set_entries d (<[k := ([], 0%nat)]> es) σ))).

(** ** Descriptors *)

Definition NOFILE : nat := 16.
Definition NFILE : nat := 100.
Definition NPROC : nat := 64.

Definition fd_of (pid : nat) (fd : Z) (σ : os) : option nat :=
  p ← σ.(o_procs) !! pid; if 0 <=? fd then mjoin (p.(up_fds) !! Z.to_nat fd) else None.
Definition chan_of (pid : nat) (fd : Z) (σ : os) : option (nat * ufile) :=
  i ← fd_of pid fd σ; f ← σ.(o_files) !! i; Some (i, f).
Definition set_chan (i : nat) (c : chan) (σ : os) : os := set_files (alter (λ f, Mkufile c f.(f_ref)) i σ.(o_files)) σ.

Definition close_end (p : nat) (writer : bool) (σ : os) : os :=
  match σ.(o_pipes) !! p with
  | None => σ
  | Some q =>
      let q := if writer then Mkupipe q.(q_data) q.(q_r) false else Mkupipe q.(q_data) false q.(q_w) in
      set_pipes (if q.(q_r) || q.(q_w) then <[p := q]> σ.(o_pipes) else delete p σ.(o_pipes)) σ
  end.

Definition close_file (i : nat) (σ : os) : os :=
  match σ.(o_files) !! i with
  | None => σ
  | Some f =>
      if (1 <? f.(f_ref))%nat then set_files (<[i := Mkufile f.(f_chan) (pred f.(f_ref))]> σ.(o_files)) σ else
      let σ := set_files (delete i σ.(o_files)) σ in
      match f.(f_chan) with
      | CInode ino _ _ _ => iput ino σ
      | CRead p => close_end p false σ
      | CWrite p => close_end p true σ
      | CCons => σ
      end
  end.

(** The first free descriptor of the process and the first free file. *)
Definition new_fd (pid : nat) (c : chan) (σ : os) : option (Z * os) :=
  p ← σ.(o_procs) !! pid;
  i ← first_free σ.(o_files) (seq 0 NFILE);
  '(fd, _) ← list_find (λ o, o = None) p.(up_fds);
  Some (Z.of_nat fd, upd_proc pid (set_fds (<[fd := Some i]> p.(up_fds))) (set_files (<[i := Mkufile c 1]> σ.(o_files)) σ)).

(** ** What a call does *)

(** It returns, waits for another process, or goes on as another call. *)
Inductive answer (X : Type) : Type :=
| Returns (x : X) (σ : os)
| Blocks
| Again (e : sysE X) (f : X → X) (σ : os).
Arguments Returns {X}.
Arguments Blocks {X}.
Arguments Again {X}.

Definition from_option (r : option os) (σ : os) : answer Z := match r with Some σ' => Returns 0 σ' | None => Returns (-1) σ end.

Definition do_open (pid : nat) (path : list Z) (mode : Z) (σ : os) : option (Z * os) :=
  '(i, σ) ← (if negb (Z.land mode 512 =? 0) then create_file pid path σ else
              i ← find pid path σ; if is_dir i σ && negb (mode =? 0) then None else Some (i, σ));
  new_fd pid (CInode i 0 (Z.land mode 1 =? 0) (negb (Z.land mode 1 =? 0) || negb (Z.land mode 2 =? 0))) σ.

Definition MAXSIZE : Z := 71680.
(** A file is written in pieces of three blocks; the first that does not fit ends the call. *)
Fixpoint write_pieces (fuel : nat) (data : list Z) (off : Z) (bs : list Z) : list Z * Z * bool :=
  match fuel, bs with
  | _, [] => (data, off, true)
  | O, _ => (data, off, false)
  | S fuel', _ =>
      let piece := take 1536 bs in
      if MAXSIZE <? off + Z.of_nat (length piece) then (data, off, false) else
      write_pieces fuel' (take (Z.to_nat off) data ++ piece ++ drop (Z.to_nat off + length piece) data) (off + Z.of_nat (length piece)) (drop 1536 bs)
  end.

Definition do_write (pid : nat) (fd : Z) (bs : list Z) (σ : os) : answer Z :=
  match chan_of pid fd σ with
  | None => Returns (-1) σ
  | Some (i, Mkufile CCons _) => Returns (Z.of_nat (length bs)) (set_out (σ.(o_out) ++ bs) σ)
  | Some (i, Mkufile (CRead _) _) => Returns (-1) σ
  | Some (i, Mkufile (CWrite p) _) =>
      match σ.(o_pipes) !! p with
      | None => Returns (-1) σ
      | Some q =>
          let k := Nat.min (512 - length q.(q_data)) (length bs) in
          let σ' := set_pipes (<[p := Mkupipe (q.(q_data) ++ take k bs) q.(q_r) q.(q_w)]> σ.(o_pipes)) σ in
          if (k =? length bs)%nat then Returns (Z.of_nat (length bs)) σ'
          else if negb q.(q_r) then Returns (-1) σ'
          else if (k =? 0)%nat then Blocks
          else Again (Write fd (drop k bs)) (λ r, if r =? -1 then -1 else Z.of_nat (length bs)) σ'
      end
  | Some (i, Mkufile (CInode ino off r w) _) =>
      if negb w then Returns (-1) σ else
      match σ.(o_nodes) !! ino with
      | Some (Mkunode (NFile data) n) =>
          let '(data, off, ok) := write_pieces (length bs) data off bs in
          Returns (if ok then Z.of_nat (length bs) else -1)
            (set_chan i (CInode ino off r w) (set_nodes (<[ino := Mkunode (NFile data) n]> σ.(o_nodes)) σ))
      | _ => Returns (-1) σ
      end
  end.

(** The bytes of a directory. *)
Definition dir_bytes (es : list (list Z * nat)) : list Z :=
  es ≫= λ e, le_bytes 2 (Z.of_nat e.2) ++ take 14 (e.1 ++ replicate 14 0).

Definition do_read (pid : nat) (fd n : Z) (σ : os) : answer (option (list Z)) :=
  if n <? 0 then Returns None σ else
  match chan_of pid fd σ with
  | None => Returns None σ
  | Some (i, Mkufile CCons _) => Blocks
  | Some (i, Mkufile (CWrite _) _) => Returns None σ
  | Some (i, Mkufile (CRead p) _) =>
      match σ.(o_pipes) !! p with
      | None => Returns None σ
      | Some q =>
          if (length q.(q_data) =? 0)%nat && q.(q_w) then Blocks else
          Returns (Some (take (Z.to_nat n) q.(q_data))) (set_pipes (<[p := Mkupipe (drop (Z.to_nat n) q.(q_data)) q.(q_r) q.(q_w)]> σ.(o_pipes)) σ)
      end
  | Some (i, Mkufile (CInode ino off r w) _) =>
      if negb r then Returns None σ else
      match σ.(o_nodes) !! ino with
      | None => Returns None σ
      | Some x =>
          let data := match x.(n_node) with NFile bs => bs | NDir es => dir_bytes es end in
          let bs := take (Z.to_nat n) (drop (Z.to_nat off) data) in
          Returns (Some bs) (set_chan i (CInode ino (off + Z.of_nat (length bs)) r w) σ)
      end
  end.

Definition do_pipe (pid : nat) (σ : os) : option (Z * Z * os) :=
  p ← first_free σ.(o_pipes) (seq 0 NFILE);
  '(r, σ) ← new_fd pid (CRead p) (set_pipes (<[p := Mkupipe [] true true]> σ.(o_pipes)) σ);
  '(w, σ) ← new_fd pid (CWrite p) σ;
  Some (r, w, σ).

(** ** Processes *)

Section system.
(** The programs on the disk, and the bytes of the running program's image. *)
Context (programs : list Z → option (list (list Z) → prog unit)) (image : Z → Z).

Definition pages (sz : Z) : Z := (sz + 4095) / 4096.

Definition die (pid : nat) (σ : os) : os :=
  match σ.(o_procs) !! pid with
  | None => σ
  | Some p =>
      let σ := foldl (λ σ o, match o with Some i => close_file i σ | None => σ end) σ p.(up_fds) in
      let σ := upd_proc pid (λ p, set_zombie true (set_fds (replicate NOFILE None) p)) σ in
      let σ := iput p.(up_cwd) σ in
      set_procs ((λ q, if (q.(up_parent) =? pid)%nat then set_parent 1 q else q) <$> σ.(o_procs)) σ
  end.

(** The child of [pid], when there is a slot and memory. *)
Definition do_fork (pid : nat) (σ : os) : option (nat * os) :=
  p ← σ.(o_procs) !! pid;
  if (NPROC <=? size σ.(o_procs))%nat || (σ.(o_free) <? pages p.(up_sz)) then None else
  let c := σ.(o_pid) in
  let child := Mkuproc pid false false p.(up_fds) p.(up_cwd) p.(up_sz) p.(up_mem) 3 3 (-1) in
  let files := foldl (λ fs o, match o with Some i => alter (λ f, Mkufile f.(f_chan) (S f.(f_ref))) i fs | None => fs end) σ.(o_files) p.(up_fds) in
  Some (c, set_free (σ.(o_free) - pages p.(up_sz)) (set_files files (set_pid (S c) (set_procs (<[c := child]> σ.(o_procs)) σ)))).

Definition children (pid : nat) (σ : os) : list nat :=
  omap (λ '(c, p), if (p.(up_parent) =? pid)%nat then Some c else None) (map_to_list σ.(o_procs)).
Definition zombies (pid : nat) (σ : os) : list nat :=
  List.filter (λ c, match σ.(o_procs) !! c with Some p => p.(up_zombie) | None => false end) (children pid σ).

(** Any of the children that have exited may be the one. *)
Definition do_wait (choice pid : nat) (σ : os) : answer Z :=
  match children pid σ with
  | [] => Returns (-1) σ
  | _ =>
      match zombies pid σ !! choice with
      | None => Blocks
      | Some c =>
          let sz := match σ.(o_procs) !! c with Some p => p.(up_sz) | None => 0 end in
          Returns (Z.of_nat c) (set_free (σ.(o_free) + pages sz) (set_procs (delete c σ.(o_procs)) σ))
      end
  end.

Definition tell (fmt : string) (args : list arg) (σ : os) : os := set_out (σ.(o_out) ++ default [] (format (str fmt) args)) σ.

Definition do_lock (pid : nat) (id : Z) (σ : os) : answer Z :=
  if (id <? 0) || (NLOCKS <=? id) then Returns (-1) σ else
  match σ.(o_procs) !! pid with
  | None => Returns (-1) σ
  | Some p =>
      match σ.(o_locks) !! id with
      | None => Returns 0 (tell fmt_acquired [AInt (Z.of_nat pid); AInt id; AInt p.(up_prio)] (set_locks (<[id := pid]> σ.(o_locks)) σ))
      | Some h =>
          match σ.(o_procs) !! h with
          | None => Returns 0 σ
          | Some q =>
              if p.(up_prio) <? q.(up_prio) then
                Returns 0 (tell fmt_inversion [AInt (Z.of_nat h); AInt p.(up_prio); AInt (Z.of_nat pid)]
                  (upd_proc h (set_prio q.(up_nice) p.(up_prio) (if q.(up_orig) =? -1 then q.(up_prio) else q.(up_orig))) σ))
              else Returns 0 σ
          end
      end
  end.

Definition do_release (pid : nat) (id : Z) (σ : os) : answer Z :=
  if (id <? 0) || (NLOCKS <=? id) then Returns (-1) σ else
  match σ.(o_procs) !! pid with
  | None => Returns (-1) σ
  | Some p =>
      if negb (bool_decide (σ.(o_locks) !! id = Some pid)) then Returns 0 σ else
      let σ := set_locks (delete id σ.(o_locks)) σ in
      if negb (p.(up_orig) =? -1) then
        Returns 0 (upd_proc pid (set_prio p.(up_nice) p.(up_orig) (-1))
          (tell fmt_restored [AInt (Z.of_nat pid); AInt p.(up_prio); AInt p.(up_orig); AInt id] σ))
      else Returns 0 (tell fmt_released [AInt (Z.of_nat pid); AInt id] σ)
  end.

Definition do_nice (pid value : Z) (σ : os) : answer Z :=
  if (value <? 1) || (5 <? value) then Returns (-1) σ else
  match σ.(o_procs) !! Z.to_nat pid with
  | Some p => Returns p.(up_nice) (upd_proc (Z.to_nat pid) (set_prio value value p.(up_orig)) σ)
  | None => Returns (-1) σ
  end.

Definition do_kill (pid : Z) (σ : os) : answer Z :=
  match σ.(o_procs) !! Z.to_nat pid with
  | Some _ => Returns 0 (upd_proc (Z.to_nat pid) (set_killed true) σ)
  | None => Returns (-1) σ
  end.

(** Memory grows by zero bytes, and shrinks by whole pages. *)
Definition do_sbrk (pid : nat) (n : Z) (σ : os) : answer Z :=
  match σ.(o_procs) !! pid with
  | None => Returns (-1) σ
  | Some p =>
      let sz := u32 (p.(up_sz) + n) in
      let more := pages sz - pages p.(up_sz) in
      if (0 <? n) && ((KERNBASE <=? sz) || (sz <? p.(up_sz)) || (σ.(o_free) <? more)) then Returns (-1) σ else
      if (n <? 0) && (p.(up_sz) <=? sz) then Returns (-1) σ else
      Returns (s32 p.(up_sz)) (set_free (σ.(o_free) - more)
        (upd_proc pid (set_mem sz (if n <? 0 then filter (λ '(a, _), a < 4096 * pages sz) p.(up_mem) else p.(up_mem))) σ))
  end.

(** The C string at address [p] of the image, of a process of [sz] bytes. *)
Fixpoint string_at (fuel : nat) (p sz : Z) : option (list Z) :=
  match fuel with
  | O => None
  | S fuel' => if sz <=? p then None else if image p =? 0 then Some [] else (image p ::.) <$> string_at fuel' (p + 1) sz
  end.

Definition size_of (pid : nat) (σ : os) : Z := match σ.(o_procs) !! pid with Some p => p.(up_sz) | None => 0 end.

(** The calls that return to the program that makes them. *)
Definition sys {X} (e : sysE X) (choice pid : nat) (σ : os) : answer X :=
  match e in sysE X return answer X with
  | Fork | Exec _ _ => Returns (-1) σ
  | Exit | Privileged => Blocks
  | Wait => do_wait choice pid σ
  | Kill p => do_kill p σ
  | Getpid => Returns (Z.of_nat pid) σ
  | Sleep n => Again (Until σ.(o_ticks) n) id σ
  | Until start n => if u32 (σ.(o_ticks) - start) <? u32 n then Blocks else Returns 0 σ
  | Uptime => Returns σ.(o_ticks) σ
  | Pipe => match do_pipe pid σ with Some (r, w, σ') => Returns (Some (r, w)) σ' | None => Returns None σ end
  | Read fd n => do_read pid fd n σ
  | Write fd bs => do_write pid fd bs σ
  | Open path mode => match do_open pid path mode σ with Some (fd, σ') => Returns fd σ' | None => Returns (-1) σ end
  | Close fd =>
      match fd_of pid fd σ with
      | Some i => Returns 0 (close_file i (upd_proc pid (λ p, set_fds (<[Z.to_nat fd := None]> p.(up_fds)) p) σ))
      | None => Returns (-1) σ
      end
  | Link old new => from_option (do_link pid old new σ) σ
  | Unlink path => from_option (do_unlink pid path σ) σ
  | Mkdir path => from_option (do_mkdir pid path σ) σ
  | Chdir path =>
      match find pid path σ with
      | Some i =>
          if is_dir i σ then
            let old := match σ.(o_procs) !! pid with Some p => p.(up_cwd) | None => 1%nat end in
            Returns 0 (iput old (upd_proc pid (set_cwd i) σ))
          else Returns (-1) σ
      | None => Returns (-1) σ
      end
  | Nice p value => do_nice p value σ
  | Lock id => do_lock pid id σ
  | Release id => do_release pid id σ
  | Sbrk n => do_sbrk pid n σ
  | Strace _ => Returns 0 σ                   (* what the kernel then says of the calls is not shown *)
  | Load a => Returns (match σ.(o_procs) !! pid with Some p => default 0 (p.(up_mem) !! a) | None => 0 end) σ
  | Store a v => Returns tt (upd_proc pid (λ p, set_mem p.(up_sz) (<[a := v]> p.(up_mem)) p) σ)
  | SleepAt p => if (size_of pid σ <=? p) || (size_of pid σ <? p + 4) then Returns (-1) σ else
                 Again (Until σ.(o_ticks) (s32 (le_val (image <$> [p; p + 1; p + 2; p + 3])))) id σ
  | LinkAt old p =>
      match string_at (Z.to_nat (size_of pid σ)) p (size_of pid σ) with
      | Some new => from_option (do_link pid old new σ) σ
      | None => Returns (-1) σ
      end
  end.

(** The arguments must fit into the one page of the new stack. *)
Definition args_size (argv : list (list Z)) : Z :=
  foldl (λ n a, (n + Z.of_nat (length a) + 1 + 3) / 4 * 4) 0 argv + 4 * (4 + Z.of_nat (length argv)).

Definition do_exec (pid : nat) (path : list Z) (argv : list (list Z)) (σ : os) : option (prog unit) :=
  i ← find pid path σ; f ← programs path;
  if is_dir i σ || (32 <? length argv)%nat || (4096 <? args_size argv) then None else Some (f argv).

(** ** Processes taking turns *)

(** A process that runs, one that has ended, and the clock. *)
Inductive thread : Type := Run (pid : nat) (t : prog unit) | Gone (pid : nat) | Timer.

(** A program that returns from [main], or touches memory that is not its own, is killed; so is one another process has
    killed. *)
Definition step (choice : nat) (th : thread) (σ : os) : option (thread * os * list thread) :=
  match th with
  | Gone _ => None
  | Timer => Some (Timer, set_ticks (u32 (σ.(o_ticks) + 1)) σ, [])
  | Run pid t =>
      let dead := Some (Gone pid, die pid σ, []) in
      let within a := (0 <=? a) && (a <? 4096 * pages (size_of pid σ)) in
      let plain {X} (e : sysE X) (k : X → prog unit) :=
        match sys e choice pid σ with
        | Returns x σ' => Some (Run pid (k x), σ', [])
        | Blocks => None
        | Again e' f σ' => Some (Run pid (go (VisF e' (λ x, k (f x)))), σ', [])
        end in
      match σ.(o_procs) !! pid with
      | None => None
      | Some p =>
          if p.(up_killed) then dead else
          match observe t with
          | RetF _ => dead
          | TauF t' => Some (Run pid t', σ, [])
          | @VisF _ _ _ X e k =>
              match e in sysE X return (X → prog unit) → option (thread * os * list thread) with
              | Fork => λ k,
                  match do_fork pid σ with
                  | Some (c, σ') => Some (Run pid (k (Z.of_nat c)), σ', [Run c (k 0)])
                  | None => Some (Run pid (k (-1)), σ, [])
                  end
              | Exit | Privileged => λ _, dead
              | Exec path argv => λ k,
                  match do_exec pid path argv σ with
                  | Some t' => Some (Run pid t', upd_proc pid (λ p, set_mem p.(up_sz) ∅ p) σ, [])
                  | None => Some (Run pid (k (-1)), σ, [])
                  end
              | Load a => λ k, if within a then plain (Load a) k else dead
              | Store a v => λ k, if within a then plain (Store a v) k else dead
              | e => λ k, plain e k
              end k
          end
      end
  end.

(** A schedule names the thread that makes the next step, and which zombie it takes. *)
Definition pool : Type := list thread * os.

Definition turn (ts : pool) (i choice : nat) : option pool :=
  th ← fst ts !! i;
  '(th', σ', new) ← step choice th (snd ts);
  Some (<[i := th']> (fst ts) ++ new, σ').

Inductive reaches (ts : pool) : pool → Prop :=
| reaches_refl : reaches ts ts
| reaches_step ts1 i choice ts2 : reaches ts ts1 → turn ts1 i choice = Some ts2 → reaches ts ts2.

(** One way to run: each thread runs until it cannot, then the next. *)
Fixpoint run_thread (fuel : nat) (i : nat) (ts : pool) : nat * pool :=
  match fuel with
  | O => (O, ts)
  | S fuel' => match turn ts i 0 with Some ts' => run_thread fuel' i ts' | None => (fuel, ts) end
  end.
End system.
