(* ===== verification/Usched.v ===== *)
(** * Every schedule

    What is certain to happen, whatever the order in which the processes take
    their steps and whichever zombie [wait] finds first: [inevitably P] holds of a
    pool from which no run can go on for ever, or end, without coming through [P].
    With it, the steps of one process among others. *)

From ITree Require Import ITree ITreeFacts.
From S2P Require Import Prelude KState Print Mem Priority Fs Ulib Uos.

Section sched.
Context (programs : list Z → option (list (list Z) → prog unit)) (image : Z → Z).
Notation turn := (turn programs image).
Notation step := (step programs image).

Inductive inevitably (P : pool → Prop) (ts : pool) : Prop :=
| inev_now : P ts → inevitably P ts
| inev_step : (∃ i c ts', turn ts i c = Some ts') → (∀ i c ts', turn ts i c = Some ts' → inevitably P ts') → inevitably P ts.

(** A turn of a pool is a step of one of its threads. *)
Lemma turn_inv ts i c ts' : turn ts i c = Some ts' → ∃ th th' σ' new, fst ts !! i = Some th ∧ step c th (snd ts) = Some (th', σ', new) ∧ ts' = (<[i := th']> (fst ts) ++ new, σ').
Proof.
  unfold Uos.turn. destruct (fst ts !! i) as [th|] eqn:E; [|done]. cbn [mbind option_bind]. destruct (step c th (snd ts)) as [[[th' σ'] new]|] eqn:Es; [|done].
  intros [= <-]. by exists th, th', σ', new.
Qed.
Lemma turn_intro l σ i c th th' σ' new : l !! i = Some th → step c th σ = Some (th', σ', new) → turn (l, σ) i c = Some (<[i := th']> l ++ new, σ').
Proof. intros Hi Hs. unfold Uos.turn. cbn [fst snd]. rewrite Hi. cbn [mbind option_bind]. by rewrite Hs. Qed.

Lemma inev_trans P Q ts : inevitably P ts → (∀ ts', P ts' → inevitably Q ts') → inevitably Q ts.
Proof. intros H HPQ. induction H as [ts Hp|ts Hex _ IH]; [by apply HPQ|]. apply inev_step; [done|eauto]. Qed.

Lemma inev_mono (P Q : pool → Prop) ts : inevitably P ts → (∀ ts', P ts' → Q ts') → inevitably Q ts.
Proof. intros H HPQ. apply (inev_trans P); [done|]. intros ts' Hp. by apply inev_now, HPQ. Qed.

(** An invariant with a measure that every step decreases. *)
Lemma inev_measure (I : nat → pool → Prop) (P : pool → Prop) :
  (∀ n ts, I n ts → P ts ∨ ((∃ i c ts', turn ts i c = Some ts') ∧ ∀ i c ts', turn ts i c = Some ts' → ∃ n', (n' < n)%nat ∧ I n' ts')) →
  ∀ n ts, I n ts → inevitably P ts.
Proof.
  intros Hstep n. induction n as [n IH] using lt_wf_ind. intros ts Hi. destruct (Hstep n ts Hi) as [?|[Hex Hall]]; [by apply inev_now|].
  apply inev_step; [done|]. intros i c ts' Ht. destruct (Hall i c ts' Ht) as (n' & Hlt & Hi'). by eapply IH.
Qed.

(** What is inevitable does happen, in runs of some length. *)
Lemma inev_reaches P ts : inevitably P ts → ∃ ts', reaches programs image ts ts' ∧ P ts'.
Proof.
  induction 1 as [ts Hp|ts (i & c & ts1 & Ht) _ IH]; [exists ts; split; [constructor|done]|].
  destruct (IH i c ts1 Ht) as (ts' & Hr & Hp). exists ts'. split; [|done]. clear Hp.
  induction Hr as [|? ? ? ? _ IHr ?]; [by econstructor; [constructor|]|by econstructor].
Qed.
End sched.

(** ** The steps of a program *)

Section steps.
Context (programs : list Z → option (list (list Z) → prog unit)) (image : Z → Z).
Notation step := (step programs image).
Notation sys := (sys image).

(** Process [pid] runs, and no one has killed it. *)
Definition alive (pid : nat) (σ : os) : Prop := ∃ p, σ.(o_procs) !! pid = Some p ∧ p.(up_killed) = false.

(** The calls that neither make nor replace nor end a process, nor touch memory. *)
Definition plain {X} (e : sysE X) : Prop :=
  match e with Fork | Exit | Privileged | Exec _ _ | Load _ | Store _ _ => False | _ => True end.

Lemma step_plain {X} (e : sysE X) k t c pid σ :
  alive pid σ → observe t = VisF e k → plain e →
  step c (Run pid t) σ =
    match sys e c pid σ with
    | Returns x σ' => Some (Run pid (k x), σ', [])
    | Blocks => None
    | Again e' f σ' => Some (Run pid (go (VisF e' (λ x, k (f x)))), σ', [])
    end.
Proof. intros (p & Hp & Hk) Ht He. unfold Uos.step. rewrite Hp, Hk, Ht. by destruct e. Qed.

Lemma step_fork k t c pid σ :
  alive pid σ → observe t = VisF Fork k →
  step c (Run pid t) σ =
    match do_fork pid σ with
    | Some (ch, σ') => Some (Run pid (k (Z.of_nat ch)), σ', [Run ch (k 0)])
    | None => Some (Run pid (k (-1)), σ, [])
    end.
Proof. intros (p & Hp & Hk) Ht. unfold Uos.step. by rewrite Hp, Hk, Ht. Qed.

Lemma step_exit k t c pid σ : alive pid σ → observe t = VisF Exit k → step c (Run pid t) σ = Some (Gone pid, die pid σ, []).
Proof. intros (p & Hp & Hk) Ht. unfold Uos.step. by rewrite Hp, Hk, Ht. Qed.

Lemma step_tau t t' c pid σ : alive pid σ → observe t = TauF t' → step c (Run pid t) σ = Some (Run pid t', σ, []).
Proof. intros (p & Hp & Hk) Ht. unfold Uos.step. by rewrite Hp, Hk, Ht. Qed.

(** [pid] alone takes the program from [t] to [t'], whichever zombie it would take. *)
Inductive goes (pid : nat) : prog unit → os → prog unit → os → Prop :=
| goes_refl t t' σ : t ≅ t' → goes pid t σ t' σ
| goes_call {X} (e : sysE X) k x t σ σ1 t' σ' :
    t ≅ Vis e k → alive pid σ → plain e → (∀ c, sys e c pid σ = Returns x σ1) → goes pid (k x) σ1 t' σ' → goes pid t σ t' σ'
| goes_tau t0 t σ t' σ' : t ≅ Tau t0 → alive pid σ → goes pid t0 σ t' σ' → goes pid t σ t' σ'.

Lemma goes_eq pid t t1 σ t' σ' : t ≅ t1 → goes pid t1 σ t' σ' → goes pid t σ t' σ'.
Proof.
  intros Ht H. destruct H as [? ? ? H|X e k x ? ? ? ? ? H|t0 ? ? ? ? H]; [apply goes_refl; by rewrite Ht|eapply (goes_call pid e k x); try done; by rewrite Ht|eapply (goes_tau pid t0); try done; by rewrite Ht].
Qed.

Lemma goes_trans pid t σ t1 σ1 t2 σ2 : goes pid t σ t1 σ1 → goes pid t1 σ1 t2 σ2 → goes pid t σ t2 σ2.
Proof. induction 1; intros; [by eapply goes_eq|by eapply goes_call; eauto|by eapply goes_tau; eauto]. Qed.

(** Every thread but [i] is gone. *)
Definition alone (i : nat) (ts : pool) : Prop := ∀ j th, j ≠ i → fst ts !! j = Some th → ∃ p, th = Gone p.

Lemma alone_insert i th l σ σ' : alone i (l, σ) → alone i (<[i := th]> l, σ').
Proof. intros H j th' Hj Ht. simpl in Ht. rewrite list_lookup_insert_ne in Ht by done. by eapply H. Qed.

(** A step of the one that is left. *)
Lemma inev_alone P i pid t l σ th' σ' :
  alone i (l, σ) → l !! i = Some (Run pid t) → (∀ c, step c (Run pid t) σ = Some (th', σ', [])) →
  inevitably programs image P (<[i := th']> l, σ') → inevitably programs image P (l, σ).
Proof.
  intros Ha Hi Hs HP. assert (∀ c, turn programs image (l, σ) i c = Some (<[i := th']> l, σ')) as Ht.
  { intros c. unfold turn. cbn [fst snd]. rewrite Hi. cbn [mbind option_bind]. rewrite Hs. cbn [mbind option_bind]. by rewrite app_nil_r. }
  apply inev_step; [by exists i, 0%nat, (<[i := th']> l, σ')|]. intros j c ts' Hj. destruct (decide (j = i)) as [->|Hne].
  - rewrite Ht in Hj. by injection Hj as <-.
  - unfold turn in Hj. simpl in Hj. destruct (l !! j) as [th|] eqn:Hl; [|done]. destruct (Ha j th Hne Hl) as [p ->]. done.
Qed.

Lemma inev_goes P i pid t0 σ t' σ' :
  goes pid t0 σ t' σ' → ∀ t l, t ≅ t0 → alone i (l, σ) → l !! i = Some (Run pid t) →
  (∀ t1, t1 ≅ t' → inevitably programs image P (<[i := Run pid t1]> l, σ')) → inevitably programs image P (l, σ).
Proof.
  induction 1 as [t0 t' σ E|X e k x t0 σ σ1 t' σ' E Hal Hp Hs _ IH|t1 t0 σ t' σ' E Hal _ IH]; intros t l Ht Ha Hi HP.
  - rewrite <- (list_insert_id l i (Run pid t)) by done. apply HP. by rewrite Ht.
  - rewrite E in Ht. apply eqitree_inv_Vis_r in Ht as (k' & Ho & Hk). eapply inev_alone; [done|done|intros c; by rewrite (step_plain e k' t c pid σ Hal Ho Hp), Hs|].
    eapply (IH (k' x)); [done|by eapply alone_insert|by apply list_lookup_insert_eq; eapply lookup_lt_Some|]. intros t1 Ht1. rewrite list_insert_insert_eq. by apply HP.
  - rewrite E in Ht. apply eqitree_inv_Tau_r in Ht as (t2 & Ho & Hk). eapply inev_alone; [done|done|intros c; by rewrite (step_tau t t2 c pid σ Hal Ho)|].
    eapply (IH t2); [done|by eapply alone_insert|by apply list_lookup_insert_eq; eapply lookup_lt_Some|]. intros t3 Ht3. rewrite list_insert_insert_eq. by apply HP.
Qed.

(** *** The shapes of programs *)

Lemma call_vis {X} (e : sysE X) (k : X → prog unit) : ITree.bind (call e) k ≅ Vis e k.
Proof. apply bind_trigger. Qed.

Lemma call_bind_vis {X A} (e : sysE X) (f : X → prog A) (g : A → prog unit) : ITree.bind (ITree.bind (call e) f) g ≅ Vis e (λ x, ITree.bind (f x) g).
Proof. by rewrite bind_bind, call_vis. Qed.

Lemma goes_bind {X} (e : sysE X) (k : X → prog unit) x pid σ σ1 t' σ' :
  alive pid σ → plain e → (∀ c, sys e c pid σ = Returns x σ1) → goes pid (k x) σ1 t' σ' → goes pid (ITree.bind (call e) k) σ t' σ'.
Proof. intros Ha He Hs Hg. eapply (goes_call pid e k x); [apply call_vis|done|done|exact Hs|exact Hg]. Qed.

Lemma goes_assoc {A B} (a : prog A) (f : A → prog B) (g : B → prog unit) pid σ t' σ' :
  goes pid (ITree.bind a (λ x, ITree.bind (f x) g)) σ t' σ' → goes pid (ITree.bind (ITree.bind a f) g) σ t' σ'.
Proof. apply goes_eq. apply bind_bind. Qed.

Lemma goes_pure {A} (a : A) (k : A → prog unit) pid σ t' σ' : goes pid (k a) σ t' σ' → goes pid (ITree.bind (pure a) k) σ t' σ'.
Proof. apply goes_eq. apply Eqit.bind_ret_l. Qed.

Lemma goes_iter {A B} (body : A → prog (A + B)) x (k : B → prog unit) pid σ t' σ' :
  goes pid (ITree.bind (body x) (λ lr, match lr with inl a => Tau (ITree.bind (ITree.iter body a) k) | inr b => k b end)) σ t' σ' →
  goes pid (ITree.bind (ITree.iter body x) k) σ t' σ'.
Proof.
  apply goes_eq. rewrite unfold_iter, bind_bind. apply eqit_bind; [reflexivity|]. intros [a|b]; [by rewrite bind_tau|by rewrite Eqit.bind_ret_l].
Qed.

(** The console is on descriptor [fd]. *)
Definition on_console (pid : nat) (fd : Z) (σ : os) : Prop := ∃ i n, chan_of pid fd σ = Some (i, Mkufile CCons n).

Lemma puts_goes pid fd (k : unit → prog unit) cs t' σ' : ∀ σ,
  alive pid σ → on_console pid fd σ → goes pid (k tt) (set_out (σ.(o_out) ++ cs) σ) t' σ' → goes pid (ITree.bind (puts fd cs) k) σ t' σ'.
Proof.
  induction cs as [|c cs IH]; intros σ Ha Hc Hg.
  - apply goes_pure. rewrite app_nil_r in Hg. by destruct σ.
  - cbn [puts]. apply goes_assoc. eapply (goes_bind (Write fd [c])); [done|done|intros ?; simpl; unfold do_write; destruct Hc as (i & n & ->); reflexivity|].
    apply IH; [done|done|]. simpl. rewrite <- app_assoc. exact Hg.
Qed.

Lemma say_goes pid msg (k : unit → prog unit) σ t' σ' : uformat (str msg) [] = Some (str msg) →
  alive pid σ → on_console pid 1 σ → goes pid (k tt) (set_out (σ.(o_out) ++ str msg) σ) t' σ' → goes pid (ITree.bind (say msg) k) σ t' σ'.
Proof. intros Hm Ha Hc Hg. unfold say, printf. rewrite Hm. by apply puts_goes. Qed.

(** The one that is left forks, or exits. *)
Lemma inev_fork P i pid t l σ k c σ' :
  alone i (l, σ) → l !! i = Some (Run pid t) → t ≅ Vis Fork k → alive pid σ → do_fork pid σ = Some (c, σ') →
  (∀ tp tc, tp ≅ k (Z.of_nat c) → tc ≅ k 0 → inevitably programs image P (<[i := Run pid tp]> l ++ [Run c tc], σ')) → inevitably programs image P (l, σ).
Proof.
  intros Ha Hi Ht Hal Hf HP. apply eqitree_inv_Vis_r in Ht as (k' & Ho & Hk).
  assert (∀ c0, step c0 (Run pid t) σ = Some (Run pid (k' (Z.of_nat c)), σ', [Run c (k' 0)])) as Hst by (intros c0; by rewrite (step_fork k' t c0 pid σ Hal Ho), Hf).
  apply inev_step; [eexists i, 0%nat, _; by eapply turn_intro|]. intros j c0 ts' (th & th' & σ1 & new & Hj & Hs & ->)%turn_inv. cbn [fst snd] in *.
  destruct (decide (j = i)) as [->|Hne]; [|by destruct (Ha j th Hne Hj) as [? ->]]. rewrite Hi in Hj. injection Hj as <-. rewrite Hst in Hs. injection Hs as <- <- <-. by apply HP.
Qed.

Lemma inev_exit (P : pool → Prop) i pid t l σ : alone i (l, σ) → l !! i = Some (Run pid t) → t ≅ exit → alive pid σ → P (<[i := Gone pid]> l, die pid σ) → inevitably programs image P (l, σ).
Proof.
  intros Ha Hi Ht Hal HP. unfold exit in Ht. rewrite call_vis in Ht. apply eqitree_inv_Vis_r in Ht as (k' & Ho & _).
  eapply inev_alone; [done|done|intros c; by apply (step_exit k')|by apply inev_now].
Qed.

Lemma exit_bind {A B} (k : A → prog B) : ITree.bind exit k ≅ exit.
Proof. unfold exit. rewrite bind_bind. apply eqit_bind; [reflexivity|]. intros []. Qed.
End steps.

(** ** The calls on an open file *)

Section calls.
Implicit Types (σ : os) (pid : nat).

Lemma chan_lookup pid fd σ p i f : σ.(o_procs) !! pid = Some p → 0 ≤ fd → p.(up_fds) !! Z.to_nat fd = Some (Some i) → σ.(o_files) !! i = Some f →
  chan_of pid fd σ = Some (i, f).
Proof. intros Hp Hfd Hi Hf. unfold chan_of, fd_of. rewrite Hp. simpl. rewrite (proj2 (Z.leb_le _ _) Hfd), Hi. simpl. by rewrite Hf. Qed.

(** An append of at most three blocks. *)
Lemma write_append pid fd bs σ i ino r n data l :
  chan_of pid fd σ = Some (i, Mkufile (CInode ino (Z.of_nat (length data)) r true) n) → σ.(o_nodes) !! ino = Some (Mkunode (NFile data) l) →
  (0 < length bs ≤ 1536)%nat → Z.of_nat (length data + length bs) ≤ MAXSIZE →
  do_write pid fd bs σ = Returns (Z.of_nat (length bs))
    (set_chan i (CInode ino (Z.of_nat (length (data ++ bs))) r true) (set_nodes (<[ino := Mkunode (NFile (data ++ bs)) l]> σ.(o_nodes)) σ)).
Proof.
  intros Hc Hn [Hb Hb'] Hm. unfold do_write. rewrite Hc. simpl. rewrite Hn. destruct bs as [|b bs']; [simpl in Hb; lia|]. set (bs := b :: bs') in *.
  change (length bs) with (S (length bs')) at 1. cbn [write_pieces]. change (b :: bs') with bs. rewrite (take_ge bs) by lia. rewrite (proj2 (Z.ltb_ge _ _)) by lia.
  rewrite (drop_ge bs) by lia. rewrite Nat2Z.id, (take_ge data), (drop_ge data), app_nil_r by lia. replace (write_pieces (length bs') _ _ []) with (data ++ bs, Z.of_nat (length data) + Z.of_nat (length bs), true) by (by destruct (length bs')).
  rewrite length_app. by rewrite Nat2Z.inj_add.
Qed.

Lemma read_file pid fd m σ i ino off w n data l :
  chan_of pid fd σ = Some (i, Mkufile (CInode ino (Z.of_nat off) true w) n) → σ.(o_nodes) !! ino = Some (Mkunode (NFile data) l) →
  let bs := take m (drop off data) in
  do_read pid fd (Z.of_nat m) σ = Returns (Some bs) (set_chan i (CInode ino (Z.of_nat (off + length bs)) true w) σ).
Proof.
  intros Hc Hn bs. unfold do_read. rewrite (proj2 (Z.ltb_ge _ _)) by lia. rewrite Hc. simpl. rewrite Hn. simpl. rewrite !Nat2Z.id. fold bs. by rewrite Nat2Z.inj_add.
Qed.

Lemma set_chan_twice i c c' σ : set_chan i c' (set_chan i c σ) = set_chan i c' σ.
Proof.
  unfold set_chan, set_files. simpl. f_equal. apply map_eq. intros j. destruct (decide (j = i)) as [->|Hj]; [rewrite !lookup_alter_eq|by rewrite !lookup_alter_ne].
  by destruct (o_files σ !! i).
Qed.

Lemma chan_set pid fd σ i c c' n : chan_of pid fd σ = Some (i, Mkufile c n) → chan_of pid fd (set_chan i c' σ) = Some (i, Mkufile c' n).
Proof.
  unfold chan_of. change (fd_of pid fd (set_chan i c' σ)) with (fd_of pid fd σ). destruct (fd_of pid fd σ) as [j|]; [|done]. simpl.
  destruct (o_files σ !! j) as [f|] eqn:E; [|done]. intros [= -> ->]. by rewrite lookup_alter_eq, E.
Qed.

Lemma first_free_some {A} (m : gmap nat A) l i : i ∈ l → m !! i = None → ∃ j, first_free m l = Some j ∧ m !! j = None ∧ j ∈ l.
Proof.
  intros Hi Hm. unfold first_free. destruct (list_find _ l) as [[k j]|] eqn:E.
  - apply list_find_Some in E as (Hk & Hj & _). exists j. split_and!; [done|done|by eapply list_elem_of_lookup_2].
  - apply list_find_None in E. rewrite Forall_forall in E. by destruct (E i Hi).
Qed.

Lemma upd_proc_insert pid f σ p : σ.(o_procs) !! pid = Some p → upd_proc pid f σ = set_procs (<[pid := f p]> σ.(o_procs)) σ.
Proof.
  intros Hp. unfold upd_proc. f_equal. apply map_eq. intros j. destruct (decide (j = pid)) as [->|Hj]; [by rewrite lookup_alter_eq, Hp, lookup_insert_eq|].
  by rewrite lookup_alter_ne, lookup_insert_ne.
Qed.

(** A descriptor for [c]: the first free one of the process, and some free entry of the file table. *)
Lemma new_fd_some pid c σ p k i : σ.(o_procs) !! pid = Some p → list_find (λ o, o = None) p.(up_fds) = Some (k, None) → (i < NFILE)%nat → σ.(o_files) !! i = None →
  ∃ f, σ.(o_files) !! f = None ∧ (f < NFILE)%nat ∧
    new_fd pid c σ = Some (Z.of_nat k, set_files (<[f := Mkufile c 1]> σ.(o_files)) (set_procs (<[pid := set_fds (<[k := Some f]> p.(up_fds)) p]> σ.(o_procs)) σ)).
Proof.
  intros Hp Hk Hi Hf. destruct (first_free_some σ.(o_files) (seq 0 NFILE) i) as (f & Hff & Hnone & Hin); [apply elem_of_seq; lia|done|].
  apply elem_of_seq in Hin. exists f. split; [done|]. split; [lia|]. unfold new_fd. rewrite Hp. cbn [mbind option_bind]. rewrite Hff. cbn [mbind option_bind]. rewrite Hk. simpl.
  by rewrite (upd_proc_insert pid _ _ p).
Qed.

Lemma iput_keeps ino σ : (iput ino σ).(o_procs) = σ.(o_procs) ∧ (iput ino σ).(o_files) = σ.(o_files) ∧ (iput ino σ).(o_out) = σ.(o_out).
Proof. unfold iput. destruct (o_nodes σ !! ino); [|done]. by destruct (_ && _). Qed.

(** One of several references goes. *)
Lemma close_shared i σ c n : σ.(o_files) !! i = Some (Mkufile c (S (S n))) → close_file i σ = set_files (<[i := Mkufile c (S n)]> σ.(o_files)) σ.
Proof. intros H. unfold close_file. by rewrite H. Qed.

Lemma iput_linked ino σ x : σ.(o_nodes) !! ino = Some x → x.(n_link) ≠ 0 → iput ino σ = σ.
Proof. intros H Hn. unfold iput. rewrite H. by rewrite (proj2 (Z.eqb_neq _ _) Hn). Qed.

Lemma close_last_file i σ ino off r w x : σ.(o_files) !! i = Some (Mkufile (CInode ino off r w) 1) → σ.(o_nodes) !! ino = Some x → x.(n_link) ≠ 0 →
  close_file i σ = set_files (delete i σ.(o_files)) σ.
Proof. intros H Hx Hn. unfold close_file. rewrite H. simpl. by apply (iput_linked _ _ x). Qed.

Lemma sys_close_last image pid fd σ p i ino off r w x c :
  σ.(o_procs) !! pid = Some p → 0 ≤ fd → p.(up_fds) !! Z.to_nat fd = Some (Some i) →
  σ.(o_files) !! i = Some (Mkufile (CInode ino off r w) 1) → σ.(o_nodes) !! ino = Some x → x.(n_link) ≠ 0 →
  sys image (Close fd) c pid σ =
    Returns 0 (set_files (delete i σ.(o_files)) (set_procs (<[pid := set_fds (<[Z.to_nat fd := None]> p.(up_fds)) p]> σ.(o_procs)) σ)).
Proof.
  intros Hp H0 Hi Hf Hx Hl. simpl. unfold fd_of. rewrite Hp. simpl. rewrite (proj2 (Z.leb_le _ _) H0), Hi. simpl. rewrite (upd_proc_insert pid _ σ p Hp).
  by rewrite (close_last_file i _ ino off r w x).
Qed.

Lemma entries_dir d σ es n : σ.(o_nodes) !! d = Some (Mkunode (NDir es) n) → entries d σ = Some es.
Proof. intros H. unfold entries. by rewrite H. Qed.

(** [name] in the current directory. *)
Lemma find_name pid name σ p es n : σ.(o_procs) !! pid = Some p → Fs.elements name = [name] → head name ≠ Some 47 → σ.(o_nodes) !! p.(up_cwd) = Some (Mkunode (NDir es) n) →
  find pid name σ = dir_find name es ∧ find_parent pid name σ = Some (p.(up_cwd), name).
Proof.
  intros Hp He Hh Hd. assert (start_of pid name σ = p.(up_cwd)) as Hs.
  { unfold start_of. rewrite Hp. destruct name as [|c name]; [done|]. simpl in Hh. destruct c as [|c|c]; [done| |done]. do 6 (destruct c as [c|c|]; try done). }
  unfold find, find_parent. rewrite He, Hs. simpl. unfold entries. rewrite Hd. simpl. split; [by destruct (dir_find name es)|done].
Qed.

Lemma sys_open_read image pid name σ p es n i data l k j c :
  σ.(o_procs) !! pid = Some p → Fs.elements name = [name] → head name ≠ Some 47 → σ.(o_nodes) !! p.(up_cwd) = Some (Mkunode (NDir es) n) →
  dir_find name es = Some i → σ.(o_nodes) !! i = Some (Mkunode (NFile data) l) →
  list_find (λ o, o = None) p.(up_fds) = Some (k, None) → (j < NFILE)%nat → σ.(o_files) !! j = None →
  ∃ f, σ.(o_files) !! f = None ∧ sys image (Open name 0) c pid σ = Returns (Z.of_nat k)
    (set_files (<[f := Mkufile (CInode i 0 true false) 1]> σ.(o_files)) (set_procs (<[pid := set_fds (<[k := Some f]> p.(up_fds)) p]> σ.(o_procs)) σ)).
Proof.
  intros Hp He Hh Hd Hi Hx Hk Hj Hf. destruct (new_fd_some pid (CInode i 0 true false) σ p k j Hp Hk Hj Hf) as (f & Hf' & _ & Hnew). exists f. split; [done|].
  simpl. unfold do_open. change (Z.land 0 512) with 0. simpl. rewrite (proj1 (find_name pid name σ p es n Hp He Hh Hd)), Hi. simpl. unfold is_dir, entries. rewrite Hx. simpl. by rewrite Hnew.
Qed.

Lemma sys_unlink_keeps image pid path σ : ∃ r σ', (∀ c, sys image (Unlink path) c pid σ = Returns r σ') ∧
  σ'.(o_procs) = σ.(o_procs) ∧ σ'.(o_files) = σ.(o_files) ∧ σ'.(o_out) = σ.(o_out).
Proof.
  simpl. destruct (do_unlink pid path σ) as [σ'|] eqn:E; [|by exists (-1), σ]. exists 0, σ'. split; [done|]. revert E. unfold do_unlink.
  destruct (find_parent pid path σ) as [[d name]|]; [|done]. simpl. destruct (entries d σ) as [es|]; [|done]. simpl. destruct (_ || _); [done|].
  destruct (list_find _ es) as [[k e]|]; [|done]. simpl. destruct (match entries e.2 σ with Some es' => _ | None => _ end); [done|]. intros [= <-].
  pose proof (iput_keeps e.2) as Hk. destruct (is_dir e.2 σ); by (split_and!; [rewrite (proj1 (Hk _))|rewrite (proj1 (proj2 (Hk _)))|rewrite (proj2 (proj2 (Hk _)))]).
Qed.

Lemma close_end_out p w σ : (close_end p w σ).(o_out) = σ.(o_out).
Proof. unfold close_end. by destruct (o_pipes σ !! p). Qed.
Lemma close_file_out i σ : (close_file i σ).(o_out) = σ.(o_out).
Proof.
  unfold close_file. destruct (o_files σ !! i) as [f|]; [|done]. destruct (1 <? f_ref f)%nat; [done|]. destruct (f_chan f); [by rewrite (proj2 (proj2 (iput_keeps _ _)))|by rewrite close_end_out..|done].
Qed.
Lemma die_out pid σ : (die pid σ).(o_out) = σ.(o_out).
Proof.
  unfold die. destruct (o_procs σ !! pid) as [p|]; [|done]. cbn [set_procs o_out]. rewrite (proj2 (proj2 (iput_keeps _ _))). cbn [upd_proc set_procs o_out].
  generalize σ. induction (up_fds p) as [|o l IH]; intros τ; [done|]. cbn [foldl]. rewrite IH. destruct o; [by rewrite close_file_out|done].
Qed.

(** The exit of a process that has the console on its descriptors, and no other file. *)
Lemma die_console pid σ p ci r x : σ.(o_procs) !! pid = Some p → p.(up_fds) = [Some ci; Some ci; Some ci] ++ replicate 13 None →
  σ.(o_files) !! ci = Some (Mkufile CCons (S (S (S (S r))))) → σ.(o_nodes) !! p.(up_cwd) = Some x → x.(n_link) ≠ 0 →
  die pid σ = set_procs ((λ q, if (q.(up_parent) =? pid)%nat then set_parent 1 q else q) <$> <[pid := set_zombie true (set_fds (replicate NOFILE None) p)]> σ.(o_procs))
    (set_files (<[ci := Mkufile CCons (S r)]> σ.(o_files)) σ).
Proof.
  intros Hp Hf Hc Hx Hl. unfold die. rewrite Hp, Hf. cbn [app foldl replicate].
  rewrite (close_shared ci _ CCons (S (S r)) Hc). set (σ1 := set_files _ σ). rewrite (close_shared ci σ1 CCons (S r)) by apply lookup_insert_eq.
  set (σ2 := set_files _ σ1). rewrite (close_shared ci σ2 CCons r) by apply lookup_insert_eq. set (σ3 := set_files _ σ2).
  rewrite (upd_proc_insert pid _ σ3 p Hp). rewrite (iput_linked (up_cwd p) _ x); [|exact Hx|exact Hl]. unfold σ3, σ2, σ1. simpl. by rewrite !insert_insert_eq.
Qed.

(** *** Names *)

Lemma dir_find_add name i es : dir_find name es = None → i ≠ 0%nat → dir_find name (add_entry (name, i) es) = Some i.
Proof.
  intros Hn Hi. unfold dir_find in *. destruct (list_find _ es) as [|] eqn:E; [done|]. clear Hn. unfold add_entry. induction es as [|e es IH].
  - simpl. by rewrite decide_True.
  - simpl in E. destruct (decide (e.2 ≠ 0%nat ∧ e.1 = name)) as [|Hne]; [done|]. destruct (list_find _ es) as [|] eqn:E'; [done|]. specialize (IH eq_refl). simpl.
    destruct (decide (e.2 = 0%nat)) as [He|He]; [simpl; by rewrite decide_True|]. destruct (list_find (λ e, e.2 = 0%nat) es) as [[k x]|]; simpl in *; rewrite (decide_False _ _ Hne).
    + destruct (list_find _ (<[k := _]> es)) as [[? ?]|]; [by simpl in *|done].
    + destruct (list_find _ (es ++ _)) as [[? ?]|]; [by simpl in *|done].
Qed.

(** A name that is not there cannot be removed; [open] makes a file of it. *)
Lemma sys_unlink_none image pid name σ p es n c : σ.(o_procs) !! pid = Some p → Fs.elements name = [name] → head name ≠ Some 47 →
  σ.(o_nodes) !! p.(up_cwd) = Some (Mkunode (NDir es) n) → dir_find name es = None → sys image (Unlink name) c pid σ = Returns (-1) σ.
Proof.
  intros Hp He Hh Hd Hn. simpl. unfold do_unlink. rewrite (proj2 (find_name pid name σ p es n Hp He Hh Hd)). simpl. rewrite (entries_dir _ _ _ _ Hd). simpl.
  destruct (_ || _); [done|]. unfold dir_find in Hn. by destruct (list_find _ es).
Qed.

Lemma sys_open_create image pid name σ p es n a j k :
  σ.(o_procs) !! pid = Some p → Fs.elements name = [name] → head name ≠ Some 47 → σ.(o_nodes) !! p.(up_cwd) = Some (Mkunode (NDir es) n) → dir_find name es = None →
  (0 < a < 200)%nat → σ.(o_nodes) !! a = None → list_find (λ o, o = None) p.(up_fds) = Some (k, None) → (j < NFILE)%nat → σ.(o_files) !! j = None →
  ∃ i f, i ≠ 0%nat ∧ σ.(o_nodes) !! i = None ∧ σ.(o_files) !! f = None ∧ (f < NFILE)%nat ∧ ∀ c, sys image (Open name 514) c pid σ = Returns (Z.of_nat k)
    (set_files (<[f := Mkufile (CInode i 0 true true) 1]> σ.(o_files))
      (set_procs (<[pid := set_fds (<[k := Some f]> p.(up_fds)) p]> σ.(o_procs))
        (set_nodes (<[p.(up_cwd) := Mkunode (NDir (add_entry (name, i) es)) n]> (<[i := Mkunode (NFile []) 1]> σ.(o_nodes))) σ))).
Proof.
  intros Hp He Hh Hd Hn Ha Hna Hk Hj Hf. destruct (first_free_some σ.(o_nodes) (seq 1 199) a) as (i & Hi & Hni & Hin); [apply elem_of_seq; lia|done|]. apply elem_of_seq in Hin.
  simpl. unfold do_open. change (negb (Z.land 514 512 =? 0)) with true. cbv iota. unfold create_file. rewrite (proj2 (find_name pid name σ p es n Hp He Hh Hd)). simpl.
  rewrite (entries_dir _ _ _ _ Hd). simpl. rewrite Hn. unfold make. rewrite Hi. simpl. unfold set_entries. simpl.
  replace (alter _ (up_cwd p) _) with (<[p.(up_cwd) := Mkunode (NDir (add_entry (name, i) es)) n]> (<[i := Mkunode (NFile []) 1]> σ.(o_nodes))).
  2: { apply map_eq. intros x. destruct (decide (x = up_cwd p)) as [->|Hx]; [|by rewrite lookup_insert_ne, lookup_alter_ne]. rewrite lookup_insert_eq, lookup_alter_eq.
       destruct (decide (i = up_cwd p)) as [->|Hx]; [by rewrite Hd in Hni|]. by rewrite lookup_insert_ne, Hd. }
  set (σ1 := set_nodes _ (set_nodes _ σ)). destruct (new_fd_some pid (CInode i 0 true true) σ1 p k j) as (f & Hf' & Hlt & Hnew); [done..|].
  exists i, f. split_and!; [lia|done|done|done|]. intros c. rewrite Hnew. done.
Qed.

(** *** Children *)

Lemma elem_children pid c σ : c ∈ children pid σ ↔ ∃ p, σ.(o_procs) !! c = Some p ∧ p.(up_parent) = pid.
Proof.
  unfold children. rewrite list_elem_of_omap. split.
  - intros ([c' p] & Hin & Hc). apply elem_of_map_to_list in Hin. destruct (_ =? _)%nat eqn:E; [|done]. injection Hc as <-. apply Nat.eqb_eq in E. by exists p.
  - intros (p & Hp & Hpar). exists (c, p). split; [by apply elem_of_map_to_list|]. by rewrite Hpar, Nat.eqb_refl.
Qed.

Lemma NoDup_children pid σ : NoDup (children pid σ).
Proof.
  unfold children. pose proof (NoDup_fst_map_to_list σ.(o_procs)) as H. revert H. generalize (map_to_list σ.(o_procs)). intros l. induction l as [|[c p] l IH]; intros H; [constructor|].
  cbn [fmap list_fmap] in H. apply NoDup_cons in H as [Hc Hl]. simpl. destruct (_ =? _)%nat; [|by apply IH]. apply NoDup_cons. split; [|by apply IH].
  rewrite list_elem_of_omap. intros ([c' p'] & Hin & Hc'). destruct (_ =? _)%nat; [|done]. injection Hc' as ->. apply Hc. apply list_elem_of_fmap. by exists (c, p').
Qed.

(** A process with one child. *)
Lemma children_one pid c σ p : σ.(o_procs) !! c = Some p → p.(up_parent) = pid → (∀ c' p', σ.(o_procs) !! c' = Some p' → p'.(up_parent) = pid → c' = c) →
  children pid σ = [c].
Proof.
  intros Hp Hpar Honly. pose proof (NoDup_children pid σ) as Hnd. assert (∀ c', c' ∈ children pid σ → c' = c) as Hall by (intros c' (p' & ? & ?)%elem_children; by eapply Honly).
  assert (c ∈ children pid σ) as Hin by (apply elem_children; by exists p). destruct (children pid σ) as [|a l]; [by apply elem_of_nil in Hin|].
  rewrite (Hall a) in * by (by left). destruct l as [|b l]; [done|]. apply NoDup_cons in Hnd as [Hn _]. exfalso. apply Hn. rewrite (Hall b) by (right; by left). by left.
Qed.

Lemma elem_zombies pid c σ : c ∈ zombies pid σ ↔ ∃ p, σ.(o_procs) !! c = Some p ∧ p.(up_parent) = pid ∧ p.(up_zombie) = true.
Proof.
  unfold zombies. rewrite list_elem_of_In, filter_In, <- list_elem_of_In, elem_children. split.
  - intros [(p & Hp & Hpar) Hz]. rewrite Hp in Hz. by exists p.
  - intros (p & Hp & Hpar & Hz). split; [by exists p|by rewrite Hp].
Qed.

(** Without children [wait] fails; with some it takes one of the zombies, or waits. *)
Lemma wait_none c pid σ : (∀ c p, σ.(o_procs) !! c = Some p → p.(up_parent) ≠ pid) → do_wait c pid σ = Returns (-1) σ.
Proof.
  intros H. unfold do_wait. destruct (children pid σ) as [|a l] eqn:E; [done|]. assert (a ∈ children pid σ) as (p & Hp & Hpar)%elem_children by (rewrite E; by left). by apply H in Hp.
Qed.
Lemma wait_some c pid σ a p : σ.(o_procs) !! a = Some p → p.(up_parent) = pid →
  do_wait c pid σ = match zombies pid σ !! c with
    | None => Blocks
    | Some z => Returns (Z.of_nat z) (set_free (σ.(o_free) + pages (match σ.(o_procs) !! z with Some p => p.(up_sz) | None => 0 end)) (set_procs (delete z σ.(o_procs)) σ))
    end.
Proof.
  intros Hp Hpar. unfold do_wait. destruct (children pid σ) as [|b l] eqn:E; [|done]. assert (a ∈ children pid σ) as Hin by (apply elem_children; by exists p).
  rewrite E in Hin. by apply elem_of_nil in Hin.
Qed.

Lemma wait_one pid c σ p ch : σ.(o_procs) !! c = Some p → p.(up_parent) = pid → (∀ c' p', σ.(o_procs) !! c' = Some p' → p'.(up_parent) = pid → c' = c) →
  do_wait ch pid σ = (if p.(up_zombie) then match ch with O => Returns (Z.of_nat c) (set_free (σ.(o_free) + pages p.(up_sz)) (set_procs (delete c σ.(o_procs)) σ)) | _ => Blocks end else Blocks).
Proof.
  intros Hp Hpar Honly. unfold do_wait, zombies. rewrite (children_one pid c σ p Hp Hpar Honly). simpl. rewrite Hp. destruct (up_zombie p); [|by destruct ch]. destruct ch; [simpl; by rewrite Hp|by destruct ch].
Qed.
End calls.

(** The one that is left waits for its only child, which has exited. *)
Lemma inev_wait programs image P i pid t l σ k c p :
  alone i (l, σ) → l !! i = Some (Run pid t) → t ≅ Vis Wait k → alive pid σ →
  σ.(o_procs) !! c = Some p → p.(up_parent) = pid → p.(up_zombie) = true → (∀ c' p', σ.(o_procs) !! c' = Some p' → p'.(up_parent) = pid → c' = c) →
  (∀ t', t' ≅ k (Z.of_nat c) → inevitably programs image P (<[i := Run pid t']> l, set_free (σ.(o_free) + pages p.(up_sz)) (set_procs (delete c σ.(o_procs)) σ))) →
  inevitably programs image P (l, σ).
Proof.
  intros Ha Hi Ht Hal Hp Hpar Hz Honly HP. apply eqitree_inv_Vis_r in Ht as (h & Ho & Hh).
  assert (∀ c0, step programs image c0 (Run pid t) σ = match c0 with O => Some (Run pid (h (Z.of_nat c)), set_free (σ.(o_free) + pages p.(up_sz)) (set_procs (delete c σ.(o_procs)) σ), []) | _ => None end) as Hst.
  { intros c0. rewrite (step_plain programs image Wait h t c0 pid σ Hal Ho I). simpl. rewrite (wait_one pid c σ p c0 Hp Hpar Honly), Hz. by destruct c0. }
  apply inev_step; [eexists i, 0%nat, _; eapply turn_intro; [exact Hi|by rewrite Hst]|]. intros j c0 ts' (th & th' & σ1 & new & Hj & Hs & ->)%turn_inv. cbn [fst snd] in *.
  destruct (decide (j = i)) as [->|Hne]; [|by destruct (Ha j th Hne Hj) as [? ->]]. rewrite Hi in Hj. injection Hj as <-. rewrite Hst in Hs. destruct c0; [|done]. injection Hs as <- <- <-.
  rewrite app_nil_r. by apply HP.
Qed.
