(* ===== verification/Usertests.v ===== *)
(** * The tests of the system calls (usertests.c)

    Each test is a program of Uos.v.  [buf], the buffer the tests share, is an
    argument and a result of the tests that use it. *)

From ITree Require Import ITree.
From S2P Require Import Prelude KState Print Mem Priority Fs Ulib UserProgs Umalloc Uos.
#[local] Open Scope prog_scope.

(** ** The shape of a test *)

(** [if(b){ printf(1, msg); exit(); }] *)
Definition oops (b : bool) (msg : string) : prog unit := if b then say msg;; exit else pure tt.

Fixpoint each {A} (l : list A) (f : A → prog unit) : prog unit :=
  match l with [] => pure tt | x :: l' => f x;; each l' f end.

Fixpoint fold {A S} (l : list A) (f : A → S → prog S) (s : S) : prog S :=
  match l with [] => pure s | x :: l' => s' <- f x s;; fold l' f s' end.

Definition open (path : string) (mode : Z) : prog Z := call (Open (str path) mode).
Definition close (fd : Z) : prog Z := call (Close fd).
Definition write (fd : Z) (bs : list Z) : prog Z := call (Write fd bs).
Definition unlink (path : string) : prog Z := call (Unlink (str path)).
Definition link (old new : string) : prog Z := call (Link (str old) (str new)).
Definition mkdir (path : string) : prog Z := call (Mkdir (str path)).
Definition chdir (path : string) : prog Z := call (Chdir (str path)).

(** [read(fd, buf, n)]: the result, and [buf] with the bytes. *)
Definition read (fd n : Z) (buf : list Z) : prog (Z * list Z) :=
  r <- call (Read fd n);;
  match r with
  | Some bs => pure (Z.of_nat (length bs), splice 0 bs buf)
  | None => pure (-1, buf)
  end.

Definition sizeof_buf : Z := 8192.
Definition O_CREATE_RDWR : Z := Z.lor O_CREATE O_RDWR.

(** ** Directories and the current directory *)

Definition iputtest : prog unit :=
  say (line "iput test");;
  r <- mkdir "iputdir";; oops (r <? 0) (line "mkdir failed");;
  r <- chdir "iputdir";; oops (r <? 0) (line "chdir iputdir failed");;
  r <- unlink "../iputdir";; oops (r <? 0) (line "unlink ../iputdir failed");;
  r <- chdir "/";; oops (r <? 0) (line "chdir / failed");;
  say (line "iput test ok").

Definition exitiputtest : prog unit :=
  say (line "exitiput test");;
  pid <- fork;;
  oops (pid <? 0) (line "fork failed");;
  if pid =? 0 then
    r <- mkdir "iputdir";; oops (r <? 0) (line "mkdir failed");;
    r <- chdir "iputdir";; oops (r <? 0) (line "child chdir failed");;
    r <- unlink "../iputdir";; oops (r <? 0) (line "unlink ../iputdir failed");;
    exit
  else
  wait;;
  say (line "exitiput test ok").

Definition openiputtest : prog unit :=
  say (line "openiput test");;
  r <- mkdir "oidir";; oops (r <? 0) (line "mkdir oidir failed");;
  pid <- fork;;
  oops (pid <? 0) (line "fork failed");;
  if pid =? 0 then
    fd <- open "oidir" O_RDWR;;
    oops (0 <=? fd) (line "open directory for write succeeded");;
    exit
  else
  call (Sleep 1);;
  r <- unlink "oidir";; oops (negb (r =? 0)) (line "unlink failed");;
  wait;;
  say (line "openiput test ok").

(** ** Files *)

Definition opentest : prog unit :=
  say (line "open test");;
  fd <- open "echo" 0;;
  oops (fd <? 0) (line "open echo failed!");;
  close fd;;
  fd <- open "doesnotexist" 0;;
  oops (0 <=? fd) (line "open doesnotexist succeeded!");;
  say (line "open test ok").

(** [if(b) printf(yes) else { printf(no); exit(); }] *)
Definition expect (b : bool) (yes no : string) : prog unit := if b then say yes else say no;; exit.

Definition writetest (buf : list Z) : prog (list Z) :=
  say (line "small file test");;
  fd <- open "small" O_CREATE_RDWR;;
  expect (0 <=? fd) (line "creat small succeeded; ok") (line "error: creat small failed!");;
  each (seq 0 100) (λ i,
    n <- write fd (str "aaaaaaaaaa");;
    (if negb (n =? 10) then printf 1 (line "error: write aa %d new file failed") [AInt (Z.of_nat i)];; exit else pure tt);;
    n <- write fd (str "bbbbbbbbbb");;
    if negb (n =? 10) then printf 1 (line "error: write bb %d new file failed") [AInt (Z.of_nat i)];; exit else pure tt);;
  say (line "writes ok");;
  close fd;;
  fd <- open "small" O_RDONLY;;
  expect (0 <=? fd) (line "open small succeeded ok") (line "error: open small failed!");;
  r <- read fd 2000 buf;; let '(i, buf) := r in
  expect (i =? 2000) (line "read succeeded ok") (line "read failed");;
  close fd;;
  r <- unlink "small";; oops (r <? 0) (line "unlink small failed");;
  say (line "small file test ok");;
  pure buf.

Definition MAXFILE : nat := 140.

(** The first word of [buf], an int. *)
Definition int0 (buf : list Z) : Z := s32 (le_val (take 4 buf)).

Definition writetest1 (buf : list Z) : prog (list Z) :=
  say (line "big files test");;
  fd <- open "big" O_CREATE_RDWR;;
  oops (fd <? 0) (line "error: creat big failed!");;
  buf <- fold (seq 0 MAXFILE) (λ i buf,
    let buf := splice 0 (le_bytes 4 (Z.of_nat i)) buf in
    n <- write fd (take 512 buf);;
    oops (negb (n =? 512)) (line "error: write big file failed");;
    pure buf) buf;;
  close fd;;
  fd <- open "big" O_RDONLY;;
  oops (fd <? 0) (line "error: open big failed!");;
  buf <- ITree.iter (λ s : Z * list Z,
    let '(n, buf) := s in
    r <- read fd 512 buf;; let '(i, buf) := r in
    if i =? 0 then
      (if n =? Z.of_nat MAXFILE - 1 then printf 1 "read only %d blocks from big" [AInt n];; exit else pure (inr buf))
    else if negb (i =? 512) then printf 1 (line "read failed %d") [AInt i];; exit
    else if negb (int0 buf =? n) then printf 1 (line "read content of block %d is %d") [AInt n; AInt (int0 buf)];; exit
    else pure (inl (n + 1, buf))) (0, buf);;
  close fd;;
  r <- unlink "big";; oops (r <? 0) (line "unlink big failed");;
  say (line "big files ok");;
  pure buf.

(** A name of two characters. *)
Definition name2 (a b : Z) : list Z := [a; b].

Definition createtest : prog unit :=
  say (line "many creates, followed by unlink test");;
  each (seq 0 52) (λ i, fd <- call (Open (name2 97 (48 + Z.of_nat i)) O_CREATE_RDWR);; close fd;; pure tt);;
  each (seq 0 52) (λ i, call (Unlink (name2 97 (48 + Z.of_nat i)));; pure tt);;
  say (line "many creates, followed by unlink; ok").

Definition dirtest : prog unit :=
  say (line "mkdir test");;
  r <- mkdir "dir0";; oops (r <? 0) (line "mkdir failed");;
  r <- chdir "dir0";; oops (r <? 0) (line "chdir dir0 failed");;
  r <- chdir "..";; oops (r <? 0) (line "chdir .. failed");;
  r <- unlink "dir0";; oops (r <? 0) (line "unlink dir0 failed");;
  say (line "mkdir test ok").

Definition echoargv : list (list Z) := str <$> ["echo"; "ALL"; "TESTS"; "PASSED"].

Definition exectest : prog unit :=
  say (line "exec test");;
  r <- call (Exec (str "echo") echoargv);;
  oops (r <? 0) (line "exec echo failed").

(** ** Processes and pipes *)

(** [buf[i] = seq++] for [i] up to [n]. *)
Definition fill (sq n : Z) : list Z := (λ i, u8 (sq + Z.of_nat i)) <$> seq 0 (Z.to_nat n).

Definition pipe1_child (r w : Z) (buf : list Z) : prog unit :=
  close r;;
  fold (seq 0 5) (λ _ '(sq, buf),
    let buf := splice 0 (fill sq 1033) buf in
    n <- write w (take 1033 buf);;
    oops (negb (n =? 1033)) (line "pipe1 oops 1");;
    pure (sq + 1033, buf)) (0, buf);;
  exit.

(** Whether the bytes read were the next of the sequence, with their number. *)
Definition pipe1_loop (r : Z) (s : Z * Z * Z * list Z) : prog ((Z * Z * Z * list Z) + (bool * Z * list Z)) :=
  let '(sq, total, cc, buf) := s in
  x <- read r cc buf;; let '(n, buf) := x in
  if negb (0 <? n) then pure (inr (true, total, buf)) else
  if decide (u8 <$> take (Z.to_nat n) buf = fill sq n) then
    pure (inl (sq + n, total + n, (if sizeof_buf <? cc * 2 then sizeof_buf else cc * 2), buf))
  else say (line "pipe1 oops 2");; pure (inr (false, total, buf)).

Definition pipe1 (buf : list Z) : prog (list Z) :=
  p <- call Pipe;;
  match p with
  | None => say (line "pipe() failed");; exit
  | Some (r, w) =>
      pid <- fork;;
      if pid =? 0 then pipe1_child r w buf;; pure buf
      else if 0 <? pid then
        close w;;
        x <- ITree.iter (pipe1_loop r) (0, 0, 1, buf);; let '(good, total, buf) := x in
        if negb good then pure buf else
        (if negb (total =? 5 * 1033) then printf 1 (line "pipe1 oops 3 total %d") [AInt total];; exit else pure tt);;
        close r;;
        wait;;
        say (line "pipe1 ok");;
        pure buf
      else say (line "fork() failed");; exit
  end.

(** A process that computes without end. *)
Definition spin {A} : prog A := ITree.spin.

(** [pfds] is not written when [pipe] fails; what it holds is [junk]. *)
Definition preempt (junk : Z * Z) (buf : list Z) : prog (list Z) :=
  say "preempt: ";;
  pid1 <- fork;;
  if pid1 =? 0 then spin else
  pid2 <- fork;;
  if pid2 =? 0 then spin else
  p <- call Pipe;;
  let '(r, w) := default junk p in
  pid3 <- fork;;
  if pid3 =? 0 then
    close r;;
    n <- write w (str "x");;
    (if negb (n =? 1) then say "preempt write error" else pure tt);;
    close w;;
    spin
  else
  close w;;
  x <- read r sizeof_buf buf;; let '(n, buf) := x in
  if negb (n =? 1) then say "preempt read error";; pure buf else
  close r;;
  say "kill... ";;
  call (Kill pid1);;
  call (Kill pid2);;
  call (Kill pid3);;
  say "wait... ";;
  wait;;
  wait;;
  wait;;
  say (line "preempt ok");;
  pure buf.

(** The rounds left; whether the test goes on. *)
Fixpoint exitwait_loop (n : nat) : prog bool :=
  match n with
  | O => pure true
  | S n' =>
      pid <- fork;;
      if pid <? 0 then say (line "fork failed");; pure false else
      if negb (pid =? 0) then
        r <- wait;;
        if negb (r =? pid) then say (line "wait wrong pid");; pure false else exitwait_loop n'
      else exit
  end.

Definition exitwait : prog unit :=
  ok <- exitwait_loop 100;;
  if ok then say (line "exitwait ok") else pure tt.

(** ** More file system tests *)

(** The writes of [sharedfd]. *)
Fixpoint sharedfd_writes (n : nat) (fd : Z) (bs : list Z) : prog unit :=
  match n with
  | O => pure tt
  | S n' =>
      r <- write fd bs;;
      if negb (r =? 10) then say (line "fstests: write sharedfd failed") else sharedfd_writes n' fd bs
  end.

Definition count (c : Z) (bs : list Z) : Z := Z.of_nat (length (List.filter (Z.eqb c) bs)).

(** It counts the whole of its buffer of ten characters, whatever was read. *)
Definition sharedfd_count (fd : Z) (s : Z * Z * list Z) : prog ((Z * Z * list Z) + (Z * Z)) :=
  let '(nc, np, b) := s in
  x <- read fd 10 b;; let '(n, b) := x in
  if negb (0 <? n) then pure (inr (nc, np)) else pure (inl (nc + count 99 b, np + count 112 b, b)).

(** What is in the file when both have written; [b] is the buffer. *)
Definition sharedfd_finish (fd : Z) (b : list Z) : prog unit :=
  close fd;;
  fd <- open "sharedfd" 0;;
  if fd <? 0 then say (line "fstests: cannot open sharedfd for reading") else
  x <- ITree.iter (sharedfd_count fd) (0, 0, b);; let '(nc, np) := x in
  close fd;;
  unlink "sharedfd";;
  if (nc =? 10000) && (np =? 10000) then say (line "sharedfd ok")
  else printf 1 (line "sharedfd oops %d %d") [AInt nc; AInt np];; exit.

Definition sharedfd_body (fd pid : Z) : prog unit :=
  let b := replicate 10 (if pid =? 0 then 99 else 112) in
  sharedfd_writes 1000 fd b;;
  (if pid =? 0 then exit else wait);;
  sharedfd_finish fd b.

Definition sharedfd : prog unit :=
  say (line "sharedfd test");;
  unlink "sharedfd";;
  fd <- open "sharedfd" O_CREATE_RDWR;;
  if fd <? 0 then say "fstests: cannot open sharedfd for writing" else
  pid <- fork;;
  sharedfd_body fd pid.

Definition fourfiles_child (i : nat) (buf : list Z) : prog unit :=
  fd <- call (Open (name2 102 (48 + Z.of_nat i)) O_CREATE_RDWR);;
  oops (fd <? 0) (line "create failed");;
  let buf := splice 0 (replicate 512 (48 + Z.of_nat i)) buf in
  each (seq 0 12) (λ _,
    n <- write fd (take 500 buf);;
    if negb (n =? 500) then printf 1 (line "write failed %d") [AInt n];; exit else pure tt);;
  exit.

(** The length of a file all of whose characters are [c]. *)
Definition fourfiles_check (fd c : Z) (s : Z * list Z) : prog ((Z * list Z) + (Z * list Z)) :=
  let '(total, buf) := s in
  x <- read fd sizeof_buf buf;; let '(n, buf) := x in
  if negb (0 <? n) then pure (inr (total, buf)) else
  oops (negb (forallb (Z.eqb c) (take (Z.to_nat n) buf))) (line "wrong char");;
  pure (inl (total + n, buf)).

Definition fourfiles (buf : list Z) : prog (list Z) :=
  say (line "fourfiles test");;
  each (seq 0 4) (λ i,
    call (Unlink (name2 102 (48 + Z.of_nat i)));;
    pid <- fork;;
    oops (pid <? 0) (line "fork failed");;
    if pid =? 0 then fourfiles_child i buf else pure tt);;
  each (seq 0 4) (λ _, wait;; pure tt);;
  buf <- fold (seq 0 2) (λ i buf,
    fd <- call (Open (name2 102 (48 + Z.of_nat i)) 0);;
    x <- ITree.iter (fourfiles_check fd (48 + Z.of_nat i)) (0, buf);; let '(total, buf) := x in
    close fd;;
    (if negb (total =? 12 * 500) then printf 1 (line "wrong length %d") [AInt total];; exit else pure tt);;
    call (Unlink (name2 102 (48 + Z.of_nat i)));;
    pure buf) buf;;
  say (line "fourfiles ok");;
  pure buf.

Definition N : nat := 20.

Definition createdelete_child (pi : nat) : prog unit :=
  each (seq 0 N) (λ i,
    fd <- call (Open (name2 (112 + Z.of_nat pi) (48 + Z.of_nat i)) O_CREATE_RDWR);;
    oops (fd <? 0) (line "create failed");;
    close fd;;
    if (0 <? i)%nat && (i mod 2 =? 0)%nat then
      r <- call (Unlink (name2 (112 + Z.of_nat pi) (48 + Z.of_nat (i / 2))));;
      oops (r <? 0) (line "unlink failed")
    else pure tt);;
  exit.

(** Whether the files are there that should be. *)
Definition createdelete_check (i pi : nat) : prog unit :=
  let name := name2 (112 + Z.of_nat pi) (48 + Z.of_nat i) in
  fd <- call (Open name 0);;
  (if ((i =? 0)%nat || (N / 2 <=? i)%nat) && (fd <? 0) then
     printf 1 (line "oops createdelete %s didn't exist") [AStr (Some name)];; exit
   else if ((1 <=? i)%nat && (i <? N / 2)%nat) && (0 <=? fd) then
     printf 1 (line "oops createdelete %s did exist") [AStr (Some name)];; exit
   else pure tt);;
  if 0 <=? fd then close fd;; pure tt else pure tt.

Definition createdelete : prog unit :=
  say (line "createdelete test");;
  each (seq 0 4) (λ pi,
    pid <- fork;;
    oops (pid <? 0) (line "fork failed");;
    if pid =? 0 then createdelete_child pi else pure tt);;
  each (seq 0 4) (λ _, wait;; pure tt);;
  each (seq 0 N) (λ i, each (seq 0 4) (λ pi, createdelete_check i pi));;
  each (seq 0 N) (λ i, each (seq 0 4) (λ pi, call (Unlink (name2 (112 + Z.of_nat i) (48 + Z.of_nat i)));; pure tt));;
  say (line "createdelete ok").

Definition unlinkread (buf : list Z) : prog (list Z) :=
  say (line "unlinkread test");;
  fd <- open "unlinkread" O_CREATE_RDWR;;
  oops (fd <? 0) (line "create unlinkread failed");;
  write fd (str "hello");;
  close fd;;
  fd <- open "unlinkread" O_RDWR;;
  oops (fd <? 0) (line "open unlinkread failed");;
  r <- unlink "unlinkread";; oops (negb (r =? 0)) (line "unlink unlinkread failed");;
  fd1 <- open "unlinkread" O_CREATE_RDWR;;
  write fd1 (str "yyy");;
  close fd1;;
  x <- read fd sizeof_buf buf;; let '(n, buf) := x in
  oops (negb (n =? 5)) "unlinkread read failed";;
  oops (negb (hd0 buf =? 104)) (line "unlinkread wrong data");;
  n <- write fd (take 10 buf);; oops (negb (n =? 10)) (line "unlinkread write failed");;
  close fd;;
  unlink "unlinkread";;
  say (line "unlinkread ok");;
  pure buf.

Definition linktest (buf : list Z) : prog (list Z) :=
  say (line "linktest");;
  unlink "lf1";;
  unlink "lf2";;
  fd <- open "lf1" O_CREATE_RDWR;;
  oops (fd <? 0) (line "create lf1 failed");;
  n <- write fd (str "hello");; oops (negb (n =? 5)) (line "write lf1 failed");;
  close fd;;
  r <- link "lf1" "lf2";; oops (r <? 0) (line "link lf1 lf2 failed");;
  unlink "lf1";;
  fd <- open "lf1" 0;; oops (0 <=? fd) (line "unlinked lf1 but it is still there!");;
  fd <- open "lf2" 0;; oops (fd <? 0) (line "open lf2 failed");;
  x <- read fd sizeof_buf buf;; let '(n, buf) := x in
  oops (negb (n =? 5)) (line "read lf2 failed");;
  close fd;;
  r <- link "lf2" "lf2";; oops (0 <=? r) (line "link lf2 lf2 succeeded! oops");;
  unlink "lf2";;
  r <- link "lf2" "lf1";; oops (0 <=? r) (line "link non-existant succeeded! oops");;
  r <- link "." "lf1";; oops (0 <=? r) (line "link . lf1 succeeded! oops");;
  say (line "linktest ok");;
  pure buf.

Definition concreate_make (i : nat) : prog unit :=
  let file := name2 67 (48 + Z.of_nat i) in
  call (Unlink file);;
  pid <- fork;;
  (if negb (pid =? 0) && (i mod 3 =? 1)%nat then call (Link (str "C0") file);; pure tt
   else if (pid =? 0) && (i mod 5 =? 1)%nat then call (Link (str "C0") file);; pure tt
   else
     fd <- call (Open file O_CREATE_RDWR);;
     (if fd <? 0 then printf 1 (line "concreate create %s failed") [AStr (Some file)];; exit else pure tt);;
     close fd;;
     pure tt);;
  if pid =? 0 then exit else wait;; pure tt.

(** A char as a number. *)
Definition schar (c : Z) : Z := if u8 c <? 128 then u8 c else u8 c - 256.

(** One entry [de] of the directory; the files seen so far are marked in [fa]. *)
Definition concreate_list (fd : Z) (s : nat * list bool * list Z) : prog ((nat * list bool * list Z) + nat) :=
  let '(n, fa, de) := s in
  x <- read fd 16 de;; let '(r, de) := x in
  if negb (0 <? r) then pure (inr n) else
  if le_val (take 2 de) =? 0 then pure (inl (n, fa, de)) else
  let name := drop 2 de in
  if (hd0 name =? 67) && (nth 2 name 0 =? 0) then
    let i := schar (nth 1 name 0) - 48 in
    if (i <? 0) || (40 <=? i) then printf 1 (line "concreate weird file %s") [AStr (Some (cstr name))];; exit
    else if nth (Z.to_nat i) fa false then printf 1 (line "concreate duplicate file %s") [AStr (Some (cstr name))];; exit
    else pure (inl (S n, <[Z.to_nat i := true]> fa, de))
  else pure (inl (n, fa, de)).

Definition concreate_remove (i : nat) : prog unit :=
  let file := name2 67 (48 + Z.of_nat i) in
  pid <- fork;;
  oops (pid <? 0) (line "fork failed");;
  (if ((i mod 3 =? 0)%nat && (pid =? 0)) || ((i mod 3 =? 1)%nat && negb (pid =? 0)) then
     each (seq 0 4) (λ _, fd <- call (Open file 0);; close fd;; pure tt)
   else each (seq 0 4) (λ _, call (Unlink file);; pure tt));;
  if pid =? 0 then exit else wait;; pure tt.

Definition concreate : prog unit :=
  say (line "concreate test");;
  each (seq 0 40) concreate_make;;
  fd <- open "." 0;;
  n <- ITree.iter (concreate_list fd) (0%nat, replicate 40 false, replicate 16 0);;
  close fd;;
  oops (negb (n =? 40)%nat) (line "concreate not enough files in directory listing");;
  each (seq 0 40) concreate_remove;;
  say (line "concreate ok").

Definition linkunlink : prog unit :=
  say (line "linkunlink test");;
  unlink "x";;
  pid <- fork;;
  oops (pid <? 0) (line "fork failed");;
  fold (seq 0 100) (λ _ x,
    let x := u32 (x * 1103515245 + 12345) in
    (if x mod 3 =? 0 then fd <- open "x" (Z.lor O_RDWR O_CREATE);; close fd
     else if x mod 3 =? 1 then link "cat" "x"
     else unlink "x");;
    pure x) (if pid =? 0 then 97 else 1);;
  (if pid =? 0 then exit else wait);;
  say (line "linkunlink ok").

Definition bigdir_name (i : nat) : list Z := [120; 48 + Z.of_nat (i / 64); 48 + Z.of_nat (i mod 64)].

Definition bigdir : prog unit :=
  say (line "bigdir test");;
  unlink "bd";;
  fd <- open "bd" O_CREATE;;
  oops (fd <? 0) (line "bigdir create failed");;
  close fd;;
  each (seq 0 500) (λ i, r <- call (Link (str "bd") (bigdir_name i));; oops (negb (r =? 0)) (line "bigdir link failed"));;
  unlink "bd";;
  each (seq 0 500) (λ i, r <- call (Unlink (bigdir_name i));; oops (negb (r =? 0)) "bigdir unlink failed");;
  say (line "bigdir ok").

(** The first part of [subdir]: names through directories. *)
Definition subdir_make (buf : list Z) : prog (list Z) :=
  unlink "ff";;
  r <- mkdir "dd";; oops (negb (r =? 0)) (line "subdir mkdir dd failed");;
  fd <- open "dd/ff" O_CREATE_RDWR;; oops (fd <? 0) (line "create dd/ff failed");;
  write fd (str "ff");;
  close fd;;
  r <- unlink "dd";; oops (0 <=? r) (line "unlink dd (non-empty dir) succeeded!");;
  r <- mkdir "/dd/dd";; oops (negb (r =? 0)) (line "subdir mkdir dd/dd failed");;
  fd <- open "dd/dd/ff" O_CREATE_RDWR;; oops (fd <? 0) (line "create dd/dd/ff failed");;
  write fd (str "FF");;
  close fd;;
  fd <- open "dd/dd/../ff" 0;; oops (fd <? 0) (line "open dd/dd/../ff failed");;
  x <- read fd sizeof_buf buf;; let '(cc, buf) := x in
  oops (negb (cc =? 2) || negb (hd0 buf =? 102)) (line "dd/dd/../ff wrong content");;
  close fd;;
  r <- link "dd/dd/ff" "dd/dd/ffff";; oops (negb (r =? 0)) (line "link dd/dd/ff dd/dd/ffff failed");;
  r <- unlink "dd/dd/ff";; oops (negb (r =? 0)) (line "unlink dd/dd/ff failed");;
  fd <- open "dd/dd/ff" O_RDONLY;; oops (0 <=? fd) (line "open (unlinked) dd/dd/ff succeeded");;
  r <- chdir "dd";; oops (negb (r =? 0)) (line "chdir dd failed");;
  r <- chdir "dd/../../dd";; oops (negb (r =? 0)) (line "chdir dd/../../dd failed");;
  r <- chdir "dd/../../../dd";; oops (negb (r =? 0)) (line "chdir dd/../../dd failed");;
  r <- chdir "./..";; oops (negb (r =? 0)) (line "chdir ./.. failed");;
  fd <- open "dd/dd/ffff" 0;; oops (fd <? 0) (line "open dd/dd/ffff failed");;
  x <- read fd sizeof_buf buf;; let '(cc, buf) := x in
  oops (negb (cc =? 2)) (line "read dd/dd/ffff wrong len");;
  close fd;;
  pure buf.

(** The second part: calls that must fail. *)
Definition subdir_errors : prog unit :=
  fd <- open "dd/dd/ff" O_RDONLY;; oops (0 <=? fd) (line "open (unlinked) dd/dd/ff succeeded!");;
  fd <- open "dd/ff/ff" O_CREATE_RDWR;; oops (0 <=? fd) (line "create dd/ff/ff succeeded!");;
  fd <- open "dd/xx/ff" O_CREATE_RDWR;; oops (0 <=? fd) (line "create dd/xx/ff succeeded!");;
  fd <- open "dd" O_CREATE;; oops (0 <=? fd) (line "create dd succeeded!");;
  fd <- open "dd" O_RDWR;; oops (0 <=? fd) (line "open dd rdwr succeeded!");;
  fd <- open "dd" O_WRONLY;; oops (0 <=? fd) (line "open dd wronly succeeded!");;
  r <- link "dd/ff/ff" "dd/dd/xx";; oops (r =? 0) (line "link dd/ff/ff dd/dd/xx succeeded!");;
  r <- link "dd/xx/ff" "dd/dd/xx";; oops (r =? 0) (line "link dd/xx/ff dd/dd/xx succeeded!");;
  r <- link "dd/ff" "dd/dd/ffff";; oops (r =? 0) (line "link dd/ff dd/dd/ffff succeeded!");;
  r <- mkdir "dd/ff/ff";; oops (r =? 0) (line "mkdir dd/ff/ff succeeded!");;
  r <- mkdir "dd/xx/ff";; oops (r =? 0) (line "mkdir dd/xx/ff succeeded!");;
  r <- mkdir "dd/dd/ffff";; oops (r =? 0) (line "mkdir dd/dd/ffff succeeded!");;
  r <- unlink "dd/xx/ff";; oops (r =? 0) (line "unlink dd/xx/ff succeeded!");;
  r <- unlink "dd/ff/ff";; oops (r =? 0) (line "unlink dd/ff/ff succeeded!");;
  r <- chdir "dd/ff";; oops (r =? 0) (line "chdir dd/ff succeeded!");;
  r <- chdir "dd/xx";; oops (r =? 0) (line "chdir dd/xx succeeded!");;
  r <- unlink "dd/dd/ffff";; oops (negb (r =? 0)) (line "unlink dd/dd/ff failed");;
  r <- unlink "dd/ff";; oops (negb (r =? 0)) (line "unlink dd/ff failed");;
  r <- unlink "dd";; oops (r =? 0) (line "unlink non-empty dd succeeded!");;
  r <- unlink "dd/dd";; oops (r <? 0) (line "unlink dd/dd failed");;
  r <- unlink "dd";; oops (r <? 0) (line "unlink dd failed").

Definition subdir (buf : list Z) : prog (list Z) :=
  say (line "subdir test");;
  buf <- subdir_make buf;;
  subdir_errors;;
  say (line "subdir ok");;
  pure buf.

(** [sz] goes from 499 in steps of 471 up to twelve blocks. *)
Definition bigwrite (buf : list Z) : prog unit :=
  say (line "bigwrite test");;
  unlink "bigwrite";;
  each ((λ k, 499 + 471 * Z.of_nat k) <$> seq 0 12) (λ sz,
    fd <- open "bigwrite" O_CREATE_RDWR;;
    oops (fd <? 0) (line "cannot create bigwrite");;
    each (seq 0 2) (λ _,
      cc <- write fd (take (Z.to_nat sz) buf);;
      if negb (cc =? sz) then printf 1 (line "write(%d) ret %d") [AInt sz; AInt cc];; exit else pure tt);;
    close fd;;
    unlink "bigwrite";;
    pure tt);;
  say (line "bigwrite ok").

Definition bigfile_loop (fd : Z) (s : Z * Z * list Z) : prog ((Z * Z * list Z) + (Z * list Z)) :=
  let '(i, total, buf) := s in
  x <- read fd 300 buf;; let '(cc, buf) := x in
  oops (cc <? 0) (line "read bigfile failed");;
  if cc =? 0 then pure (inr (total, buf)) else
  oops (negb (cc =? 300)) (line "short read bigfile");;
  oops (negb (schar (hd0 buf) =? i / 2) || negb (schar (nth 299 buf 0) =? i / 2)) (line "read bigfile wrong data");;
  pure (inl (i + 1, total + cc, buf)).

Definition bigfile (buf : list Z) : prog (list Z) :=
  say (line "bigfile test");;
  unlink "bigfile";;
  fd <- open "bigfile" O_CREATE_RDWR;;
  oops (fd <? 0) "cannot create bigfile";;
  buf <- fold (seq 0 20) (λ i buf,
    let buf := splice 0 (replicate 600 (Z.of_nat i)) buf in
    n <- write fd (take 600 buf);; oops (negb (n =? 600)) (line "write bigfile failed");;
    pure buf) buf;;
  close fd;;
  fd <- open "bigfile" 0;;
  oops (fd <? 0) (line "cannot open bigfile");;
  x <- ITree.iter (bigfile_loop fd) (0, 0, buf);; let '(total, buf) := x in
  close fd;;
  oops (negb (total =? 20 * 600)) (line "read bigfile wrong total");;
  unlink "bigfile";;
  say (line "bigfile test ok");;
  pure buf.

Definition fourteen : prog unit :=
  say (line "fourteen test");;
  r <- mkdir "12345678901234";; oops (negb (r =? 0)) (line "mkdir 12345678901234 failed");;
  r <- mkdir "12345678901234/123456789012345";; oops (negb (r =? 0)) (line "mkdir 12345678901234/123456789012345 failed");;
  fd <- open "123456789012345/123456789012345/123456789012345" O_CREATE;;
  oops (fd <? 0) (line "create 123456789012345/123456789012345/123456789012345 failed");;
  close fd;;
  fd <- open "12345678901234/12345678901234/12345678901234" 0;;
  oops (fd <? 0) (line "open 12345678901234/12345678901234/12345678901234 failed");;
  close fd;;
  r <- mkdir "12345678901234/12345678901234";; oops (r =? 0) (line "mkdir 12345678901234/12345678901234 succeeded!");;
  r <- mkdir "123456789012345/12345678901234";; oops (r =? 0) (line "mkdir 12345678901234/123456789012345 succeeded!");;
  say (line "fourteen ok").

Definition rmdot : prog unit :=
  say (line "rmdot test");;
  r <- mkdir "dots";; oops (negb (r =? 0)) (line "mkdir dots failed");;
  r <- chdir "dots";; oops (negb (r =? 0)) (line "chdir dots failed");;
  r <- unlink ".";; oops (r =? 0) (line "rm . worked!");;
  r <- unlink "..";; oops (r =? 0) (line "rm .. worked!");;
  r <- chdir "/";; oops (negb (r =? 0)) (line "chdir / failed");;
  r <- unlink "dots/.";; oops (r =? 0) (line "unlink dots/. worked!");;
  r <- unlink "dots/..";; oops (r =? 0) (line "unlink dots/.. worked!");;
  r <- unlink "dots";; oops (negb (r =? 0)) (line "unlink dots failed!");;
  say (line "rmdot ok").

Definition dirfile : prog unit :=
  say (line "dir vs file");;
  fd <- open "dirfile" O_CREATE;; oops (fd <? 0) (line "create dirfile failed");;
  close fd;;
  r <- chdir "dirfile";; oops (r =? 0) (line "chdir dirfile succeeded!");;
  fd <- open "dirfile/xx" 0;; oops (0 <=? fd) (line "create dirfile/xx succeeded!");;
  fd <- open "dirfile/xx" O_CREATE;; oops (0 <=? fd) (line "create dirfile/xx succeeded!");;
  r <- mkdir "dirfile/xx";; oops (r =? 0) (line "mkdir dirfile/xx succeeded!");;
  r <- unlink "dirfile/xx";; oops (r =? 0) (line "unlink dirfile/xx succeeded!");;
  r <- link "README" "dirfile/xx";; oops (r =? 0) (line "link to dirfile/xx succeeded!");;
  r <- unlink "dirfile";; oops (negb (r =? 0)) (line "unlink dirfile failed!");;
  fd <- open "." O_RDWR;; oops (0 <=? fd) (line "open . for writing succeeded!");;
  fd <- open "." 0;;
  n <- write fd (str "x");; oops (0 <? n) (line "write . succeeded!");;
  close fd;;
  say (line "dir vs file OK").

Definition iref : prog unit :=
  say (line "empty file name");;
  each (seq 0 51) (λ _,
    r <- mkdir "irefd";; oops (negb (r =? 0)) (line "mkdir irefd failed");;
    r <- chdir "irefd";; oops (negb (r =? 0)) (line "chdir irefd failed");;
    mkdir "";;
    link "README" "";;
    fd <- open "" O_CREATE;;
    (if 0 <=? fd then close fd;; pure tt else pure tt);;
    fd <- open "xx" O_CREATE;;
    (if 0 <=? fd then close fd;; pure tt else pure tt);;
    unlink "xx";;
    pure tt);;
  chdir "/";;
  say (line "empty file name OK").

(** How many times [fork] worked, of at most [k]. *)
Fixpoint fork_all (k n : nat) : prog nat :=
  match k with
  | O => pure n
  | S k' =>
      pid <- fork;;
      if pid <? 0 then pure n else
      if pid =? 0 then exit else fork_all k' (S n)
  end.

Definition forktest : prog unit :=
  say (line "fork test");;
  n <- fork_all 1000 0;;
  oops (n =? 1000)%nat (line "fork claimed to work 1000 times!");;
  each (seq 0 n) (λ _, r <- wait;; oops (r <? 0) (line "wait stopped early"));;
  r <- wait;; oops (negb (r =? -1)) (line "wait got too many");;
  say (line "fork test OK").

(** ** Memory *)

Definition BIG : Z := 104857600.
Definition sbrk (n : Z) : prog Z := r <- call (Sbrk n);; pure (u32 r).

(** One byte at a time, and in a child. *)
Definition sbrk_small (a : Z) : prog Z :=
  a <- fold (seq 0 5000) (λ i a,
    b <- sbrk 1;;
    (if negb (b =? a) then printf 1 (line "sbrk test failed %d %x %x") [AInt (Z.of_nat i); AInt a; AInt b];; exit else pure tt);;
    call (Store b 1);;
    pure (u32 (b + 1))) a;;
  pid <- fork;;
  oops (pid <? 0) (line "sbrk test fork failed");;
  sbrk 1;;
  c <- sbrk 1;;
  oops (negb (c =? u32 (a + 1))) (line "sbrk test failed post-fork");;
  (if pid =? 0 then exit else pure tt);;
  wait.

(** Up to [BIG], a page down and up again, and back to [oldbrk]. *)
Definition sbrk_big (oldbrk : Z) : prog unit :=
  a <- sbrk 0;;
  p <- sbrk (s32 (BIG - a));;
  oops (negb (p =? a)) (line "sbrk test failed to grow big address space; enough phys mem?");;
  call (Store (BIG - 1) 99);;
  a <- sbrk 0;;
  c <- sbrk (-4096);;
  oops (c =? 4294967295) (line "sbrk could not deallocate");;
  c <- sbrk 0;;
  (if negb (c =? u32 (a - 4096)) then printf 1 (line "sbrk deallocation produced wrong address, a %x c %x") [AInt a; AInt c];; exit else pure tt);;
  a <- sbrk 0;;
  c <- sbrk 4096;;
  d <- (if negb (c =? a) then pure true else d <- sbrk 0;; pure (negb (d =? u32 (a + 4096))));;
  (if d : bool then printf 1 (line "sbrk re-allocation failed, a %x c %x") [AInt a; AInt c];; exit else pure tt);;
  v <- call (Load (BIG - 1));;
  oops (v =? 99) (line "sbrk de-allocation didn't really deallocate");;
  a <- sbrk 0;;
  b <- sbrk 0;;
  c <- sbrk (s32 (- (b - oldbrk)));;
  if negb (c =? a) then printf 1 (line "sbrk downsize failed, a %x c %x") [AInt a; AInt c];; exit else pure tt.

(** A child for each of some addresses of the kernel. *)
Definition sbrk_kernel : prog unit :=
  each ((λ k, KERNBASE + 50000 * Z.of_nat k) <$> seq 0 40) (λ a,
    ppid <- call Getpid;;
    pid <- fork;;
    oops (pid <? 0) (line "fork failed");;
    (if pid =? 0 then
       v <- call (Load a);;
       printf 1 (line "oops could read %x = %x") [AInt a; AInt v];;
       call (Kill ppid);;
       exit
     else pure tt);;
    wait;;
    pure tt).

(** Children that use up the memory. *)
Definition sbrk_exhaust : prog unit :=
  p <- call Pipe;;
  match p with
  | None => say (line "pipe() failed");; exit
  | Some (r, w) =>
      pids <- fold (seq 0 10) (λ _ pids,
        pid <- fork;;
        (if pid =? 0 then
           b <- sbrk 0;;
           sbrk (s32 (BIG - b));;
           write w (str "x");;
           ITree.iter (λ _ : unit, call (Sleep 1000);; pure (inl tt)) tt
         else pure tt);;
        (if negb (pid =? -1) then call (Read r 1);; pure tt else pure tt);;
        pure (pids ++ [pid])) [];;
      c <- sbrk 4096;;
      each pids (λ pid, if pid =? -1 then pure tt else call (Kill pid);; wait;; pure tt);;
      oops (c =? 4294967295) (line "failed sbrk leaked memory")
  end.

Definition sbrktest : prog unit :=
  say (line "sbrk test");;
  oldbrk <- sbrk 0;;
  a <- sbrk 0;;
  sbrk_small a;;
  sbrk_big oldbrk;;
  sbrk_kernel;;
  sbrk_exhaust;;
  b <- sbrk 0;;
  (if oldbrk <? b then b <- sbrk 0;; sbrk (s32 (- (b - oldbrk))) else pure 0);;
  say (line "sbrk test OK").

(** [validateint] makes the system call with the stack pointer at [p]. *)
Definition validateint (p : Z) : prog unit := call (SleepAt p);; pure tt.

Definition validatetest : prog unit :=
  say (line "validate test");;
  each ((λ k, 4096 * Z.of_nat k) <$> seq 0 276) (λ p,
    pid <- fork;;
    (if pid =? 0 then validateint p;; exit else pure tt);;
    call (Sleep 0);;
    call (Sleep 0);;
    call (Kill pid);;
    wait;;
    r <- call (LinkAt (str "nosuchfile") p);;
    oops (negb (r =? -1)) (line "link should not succeed"));;
  say (line "validate ok").

(** [uninit] is an array of 10000 bytes without an initialiser. *)
Definition bsstest (uninit : list Z) : prog unit :=
  say (line "bss test");;
  each uninit (λ c, oops (negb (c =? 0)) (line "bss test failed"));;
  say (line "bss test ok").

Definition bigarg : list Z := str (line "bigargs test: failed") ++ replicate 199 32.

Definition bigargtest : prog unit :=
  unlink "bigarg-ok";;
  pid <- fork;;
  (if pid =? 0 then
     say (line "bigarg test");;
     call (Exec (str "echo") (replicate 31 bigarg));;
     say (line "bigarg test ok");;
     fd <- open "bigarg-ok" O_CREATE;;
     close fd;;
     exit
   else oops (pid <? 0) (line "bigargtest: fork failed"));;
  wait;;
  fd <- open "bigarg-ok" 0;;
  oops (fd <? 0) (line "bigarg test failed!");;
  close fd;;
  unlink "bigarg-ok";;
  pure tt.

Definition fsfull_name (n : Z) : list Z := [102; 48 + n / 1000; 48 + (n mod 1000) / 100; 48 + (n mod 100) / 10; 48 + n mod 10].

(** Blocks are written until one is not. *)
Definition fsfull_write (fd : Z) (buf : list Z) : prog Z :=
  ITree.iter (λ total : Z,
    cc <- write fd (take 512 buf);;
    if cc <? 512 then pure (inr total) else pure (inl (total + cc))) 0.

Definition fsfull (buf : list Z) : prog unit :=
  say (line "fsfull test");;
  nfiles <- ITree.iter (λ n : Z,
    printf 1 (line "writing %s") [AStr (Some (fsfull_name n))];;
    fd <- call (Open (fsfull_name n) O_CREATE_RDWR);;
    if fd <? 0 then printf 1 (line "open %s failed") [AStr (Some (fsfull_name n))];; pure (inr n) else
    total <- fsfull_write fd buf;;
    printf 1 (line "wrote %d bytes") [AInt total];;
    close fd;;
    if total =? 0 then pure (inr n) else pure (inl (n + 1))) 0;;
  each (reverse (seq 0 (Z.to_nat (nfiles + 1)))) (λ k, call (Unlink (fsfull_name (Z.of_nat k)));; pure tt);;
  say (line "fsfull test finished").

(** A user program may not use the ports: the [outb] faults. *)
Definition uio : prog unit :=
  say (line "uio test");;
  pid <- fork;;
  (if pid =? 0 then
     x <- call Privileged;; match x with end
   else oops (pid <? 0) (line "fork failed"));;
  wait;;
  say (line "uio test done").

Definition argptest : prog unit :=
  fd <- open "init" O_RDONLY;;
  (if fd <? 0 then printf 2 (line "open failed") [];; exit else pure tt);;
  sbrk 0;;
  call (Read fd (-1));;
  close fd;;
  say (line "arg test passed").

(** The generator: its new state and the number. *)
Definition rand (randstate : Z) : Z * Z := let s := u32 (randstate * 1664525 + 1013904223) in (s, s).

(** ** The allocator, and the whole *)

Section main.
(** What umalloc.c needs: the address of [base], the memory the kernel grants, and enough fuel for its loops. *)
Context (base : Z) (grant : Z → Z → bool) (fuel : nat).

(** A call of the allocator on the heap of the process. *)
Definition on_heap {A} (m : M heap A) (h : heap) : prog (A * heap) :=
  match m h [] with Ret a h' _ => pure (a, h') | _ => spin end.

(** Blocks of 10001 bytes, each with the address of the one before, until there are no more. *)
Definition mem_fill (s : Z * heap) : prog ((Z * heap) + (Z * heap)) :=
  let '(m1, h) := s in
  x <- on_heap (malloc base grant fuel fuel 10001) h;; let '(m2, h) := x in
  if m2 =? 0 then pure (inr (m1, h)) else pure (inl (m2, Mkheap (store32 m2 m1 h.(h_mem)) h.(h_freep) h.(h_brk))).

Definition mem_empty (s : Z * heap) : prog ((Z * heap) + heap) :=
  let '(m1, h) := s in
  if m1 =? 0 then pure (inr h) else
  let m2 := load32 h.(h_mem) m1 in
  x <- on_heap (free fuel m1) h;; let '(_, h) := x in
  pure (inl (m2, h)).

Definition mem (h : heap) : prog unit :=
  say (line "mem test");;
  ppid <- call Getpid;;
  pid <- fork;;
  if pid =? 0 then
    x <- ITree.iter mem_fill (0, h);;
    h <- ITree.iter mem_empty x;;
    x <- on_heap (malloc base grant fuel fuel 20480) h;; let '(m1, h) := x in
    (if m1 =? 0 then say (line "couldn't allocate mem?!!");; call (Kill ppid);; exit else pure tt);;
    on_heap (free fuel m1) h;;
    say (line "mem ok");;
    exit
  else wait;; pure tt.

Definition main (junk : Z * Z) (h : heap) : prog unit :=
  say (line "usertests starting");;
  fd <- open "usertests.ran" 0;;
  oops (0 <=? fd) (line "already ran user tests -- rebuild fs.img");;
  fd <- open "usertests.ran" O_CREATE;;
  close fd;;
  let buf := replicate 8192 0 in
  argptest;;
  createdelete;;
  linkunlink;;
  concreate;;
  buf <- fourfiles buf;;
  sharedfd;;
  bigargtest;;
  bigwrite buf;;
  bigargtest;;
  bsstest (replicate 10000 0);;
  sbrktest;;
  validatetest;;
  opentest;;
  buf <- writetest buf;;
  buf <- writetest1 buf;;
  createtest;;
  openiputtest;;
  exitiputtest;;
  iputtest;;
  mem h;;
  buf <- pipe1 buf;;
  buf <- preempt junk buf;;
  exitwait;;
  rmdot;;
  fourteen;;
  buf <- bigfile buf;;
  buf <- subdir buf;;
  buf <- linktest buf;;
  buf <- unlinkread buf;;
  dirfile;;
  iref;;
  forktest;;
  bigdir;;
  uio;;
  exectest;;
  exit.
End main.
