(* ===== verification/TestProgs.v ===== *)
(** * The other test programs (etest1.c, etest2.c, etest3.c, test1.c, test2.c, test3.c, forktest.c, stressfs.c, memoryleak.c, finite.c, infinite.c)

    Programs of Uos.v, each in a module of its own, and what their
    computations amount to: the numbers test2 shows are the primes, those of test3
    Fibonacci numbers that stay inside an int. *)

From Stdlib Require Import Znumtheory.
From ITree Require Import ITree.
From S2P Require Import Prelude KState Print Mem Priority Fs Ulib UserProgs Umalloc Uos Usertests.
#[local] Open Scope prog_scope.

(** A loop that does not end. *)
Definition forever {A B} (body : A → prog A) (a : A) : prog B := ITree.iter (λ a, a' <- body a;; pure (inl a')) a.

Definition get_time : prog Z := call Uptime.
Definition getpid : prog Z := call Getpid.
Definition sleep (n : Z) : prog Z := call (Sleep n).
Definition nice (pid value : Z) : prog Z := call (Nice pid value).
Definition lock (id : Z) : prog Z := call (Lock id).
Definition release (id : Z) : prog Z := call (Release id).
Definition kill (pid : Z) : prog Z := call (Kill pid).

Definition log_result (success : bool) (message : string) : prog unit :=
  t <- get_time;;
  if success then printf 1 (line "[Time  %d] SUCCESS:  %s") [AInt t; AStr (Some (str message))]
  else printf 1 (line "[Time  %d] FAILURE:  %s") [AInt t; AStr (Some (str message))].

(** A line with the time, the process and other numbers. *)
Definition note (fmt : string) (more : list Z) : prog unit :=
  t <- get_time;; pid <- getpid;; printf 1 (line fmt) (AInt t :: AInt pid :: (AInt <$> more)).

(** ** etest1.c *)
Module Etest1.
Definition VALID_LOCK_ID : Z := 1.
Definition INVALID_LOCK_ID : Z := 7.

Definition first : prog unit :=
  note "[Time  %d] Process  %d  attempting to acquire lock %d (Should succeed)" [VALID_LOCK_ID];;
  r <- lock VALID_LOCK_ID;;
  (if r =? 0 then
     log_result true "Process successfully acquired lock";;
     sleep 30;;
     note "[Time %d] Process %d releasing lock %d (Should succeed)" [VALID_LOCK_ID];;
     r <- release VALID_LOCK_ID;;
     if r =? 0 then log_result true "Process successfully released lock" else log_result false "Failed to release lock"
   else log_result false "Failed to acquire lock");;
  exit.

Definition second : prog unit :=
  note "[Time  %d] Process  %d  attempting to acquire lock %d (Should wait if lock is held, then acquire)" [VALID_LOCK_ID];;
  r <- lock VALID_LOCK_ID;;
  (if r =? 0 then
     log_result true "Second process successfully acquired lock after waiting";;
     note "[Time  %d] Process  %d  releasing lock %d (Should succeed)" [VALID_LOCK_ID];;
     r <- release VALID_LOCK_ID;;
     if r =? 0 then log_result true "Second process successfully released lock" else log_result false "Failed to release lock"
   else log_result false "Second process failed to acquire lock");;
  exit.

Definition test_basic_lock_functionality : prog unit :=
  say (line "[TEST START] Test 1: Basic Lock Functionality");;
  pid1 <- fork;;
  if pid1 =? 0 then first else
  sleep 5;;
  t <- get_time;;
  printf 1 (line "[Time  %d] Parent process attempting to acquire invalid lock  %d") [AInt t; AInt INVALID_LOCK_ID];;
  r <- lock INVALID_LOCK_ID;;
  (if r =? -1 then log_result true "Correctly failed to acquire invalid lock" else log_result false "Incorrectly acquired invalid lock");;
  pid2 <- fork;;
  if pid2 =? 0 then second else
  wait;;
  wait;;
  say (line "[TEST END] Test 1: Basic Lock Functionality").

Definition main : prog unit := test_basic_lock_functionality;; exit.
End Etest1.

(** ** etest2.c *)
Module Etest2.
Definition LOCK_ID : Z := 1.

Definition low_priority : prog unit :=
  pid <- getpid;; nice pid 5;;
  note "[Time  %d] Low-priority process  %d  started with priority %d" [5];;
  note "[Time %d] Low-priority process %d attempting to acquire lock %d (Should acquire lock)" [LOCK_ID];;
  r <- lock LOCK_ID;;
  (if r =? 0 then
     log_result true "Low-priority process acquired lock";;
     each (seq 0 5) (λ i,
       note "[Time  %d] Low-priority process  %d  is working (%d  seconds)" [Z.of_nat i + 1];;
       sleep 100;; pure tt);;
     note "[Time  %d] Low-priority process  %d  releasing lock  %d (Should release lock)" [LOCK_ID];;
     r <- release LOCK_ID;;
     if r =? 0 then log_result true "Low-priority process released lock" else log_result false "Low-priority process failed to release lock"
   else log_result false "Low-priority process failed to acquire lock");;
  exit.

Definition high_priority : prog unit :=
  sleep 300;;
  pid <- getpid;; nice pid 1;;
  note "[Time  %d] High-priority process  %d  started with priority  %d" [1];;
  note "[Time  %d] High-priority process  %d  attempting to acquire lock  %d (Should wait if lock is held)" [LOCK_ID];;
  r <- lock LOCK_ID;;
  (if r =? 0 then
     log_result true "High-priority process acquired lock after waiting";;
     note "[Time  %d] High-priority process  %d  releasing lock  %d (Should release lock)" [LOCK_ID];;
     r <- release LOCK_ID;;
     if r =? 0 then log_result true "High-priority process released lock" else log_result false "High-priority process failed to release lock"
   else log_result false "High-priority process failed to acquire lock");;
  exit.

Definition main : prog unit :=
  say (line "[TEST START] Test 2: Priority Inversion (Basic Priority Inversion)");;
  pid1 <- fork;;
  (if pid1 =? 0 then low_priority else pure tt);;
  pid2 <- fork;;
  (if pid2 =? 0 then high_priority else pure tt);;
  wait;;
  wait;;
  say (line "[TEST END] Test 2: Priority Inversion (Basic Priority Inversion)");;
  exit.
End Etest2.

(** ** etest3.c *)
Module Etest3.
Definition LOCK_ID : Z := 2.

Definition low_priority : prog unit :=
  pid <- getpid;; nice pid 5;;
  note "[Time  %d] Low-priority process  %d  started with priority  %d" [5];;
  note "[Time  %d] Low-priority process  %d  attempting to acquire lock %d (Should acquire lock)" [LOCK_ID];;
  r <- lock LOCK_ID;;
  (if r =? 0 then
     log_result true "Low-priority process acquired lock";;
     each (seq 0 5) (λ i,
       note "[Time  %d] Low-priority process  %d  is working (%d  seconds)" [Z.of_nat i + 1];;
       sleep 100;; pure tt);;
     note "[Time  %d] Low-priority process  %d  releasing lock  %d (Should release lock)" [LOCK_ID];;
     r <- release LOCK_ID;;
     if r =? 0 then
       log_result true "Low-priority process released lock";;
       note "[Time  %d] Low-priority process  %d  priority restored to  %d  after releasing lock" [5]
     else log_result false "Low-priority process failed to release lock"
   else log_result false "Low-priority process failed to acquire lock");;
  exit.

Definition high_priority : prog unit :=
  sleep 300;;
  pid <- getpid;; nice pid 1;;
  note "[Time  %d] High-priority process  %d  started with priority  %d" [1];;
  note "[Time  %d] High-priority process  %d  attempting to acquire lock %d (Should wait if lock is held)" [LOCK_ID];;
  r <- lock LOCK_ID;;
  (if r =? 0 then
     log_result true "High-priority process acquired lock after waiting";;
     note "[Time  %d] High-priority process  %d  releasing lock  %d (Should release lock)" [LOCK_ID];;
     r <- release LOCK_ID;;
     if r =? 0 then log_result true "High-priority process released lock" else log_result false "High-priority process failed to release lock"
   else log_result false "High-priority process failed to acquire lock");;
  exit.

Definition main : prog unit :=
  say (line "[TEST START] Test 3: Priority Inversion (Priority Inheritance)");;
  pid1 <- fork;;
  (if pid1 =? 0 then low_priority else pure tt);;
  pid2 <- fork;;
  (if pid2 =? 0 then high_priority else pure tt);;
  wait;;
  wait;;
  say (line "[TEST END] Test 3: Priority Inversion (Priority Inheritance)");;
  exit.
End Etest3.

(** ** test1.c *)
Module Test1.
Definition talk (fmt : string) (n : Z) (u : unit) : prog unit := pid <- getpid;; printf 1 (line fmt) [AInt pid];; sleep n;; pure tt.

Definition main : prog unit :=
  pid1 <- fork;;
  (if pid1 =? 0 then
     pid <- getpid;; nice pid 1;;
     forever (talk "High priority process  %d" 10) tt
   else
     pid2 <- fork;;
     if pid2 =? 0 then
       pid <- getpid;; nice pid 5;;
       forever (talk "Low priority process  %d" 15) tt
     else wait;; wait;; pure tt);;
  exit.
End Test1.

(** ** test2.c and test3.c *)

(** Three children at the priorities 1, 3 and 5, killed after three hundred ticks. *)
Definition three (work : prog unit) : prog unit :=
  pid1 <- fork;;
  if pid1 =? 0 then pid <- getpid;; nice pid 1;; work;; exit else
  pid2 <- fork;;
  if pid2 =? 0 then pid <- getpid;; nice pid 3;; work;; exit else
  pid3 <- fork;;
  if pid3 =? 0 then pid <- getpid;; nice pid 5;; work;; exit else
  sleep 300;;
  kill pid1;; kill pid2;; kill pid3;;
  wait;; wait;; wait;;
  exit.

Module Test2.
(** The inner loop from [j]: whether it finds no divisor of [i].  [fuel] bounds the iterations. *)
Fixpoint no_divisor (fuel : nat) (j i : Z) : bool :=
  match fuel with
  | O => true
  | S fuel' => if j * j <=? i then (if Z.rem i j =? 0 then false else no_divisor fuel' (j + 1) i) else true
  end.
Definition is_prime (i : Z) : bool := no_divisor 1000 2 i.

Definition primes_step (i : Z) : prog Z :=
  (if is_prime i then pid <- getpid;; printf 1 (line "Process  %d and Prime  %d") [AInt pid; AInt i] else pure tt);;
  let i := i + 1 in
  pure (if 1000000 <? i then 2 else i).
Definition primes : prog unit := forever primes_step 2.
Definition main : prog unit := three primes.

(** The loop from [j] on looks for a divisor whose square is at most [i]. *)
Lemma no_divisor_spec fuel j i : 2 ≤ j → i < (j + Z.of_nat fuel) * (j + Z.of_nat fuel) →
  no_divisor fuel j i = true ↔ ∀ d, j ≤ d → d * d ≤ i → ¬ (d | i).
Proof.
  revert j. induction fuel as [|fuel IH]; intros j Hj Hf; cbn [no_divisor].
  - split; [|done]. intros _ d Hd Hdd. nia.
  - destruct (Z.leb_spec (j * j) i) as [Hle|Hgt].
    + destruct (Z.eqb_spec (Z.rem i j) 0) as [E|E].
      * split; [done|]. intros H. exfalso. apply (H j); [lia|done|]. apply Z.rem_divide; [lia|done].
      * rewrite IH by nia. split; intros H d Hd Hdd; [|apply H; lia]. destruct (Z.eq_dec d j) as [->|Hne]; [|apply H; lia].
        intros Hdiv. apply E. apply Z.rem_divide; [lia|done].
    + split; [|done]. intros _ d Hd Hdd. nia.
Qed.

(** Test2 shows a number it comes to exactly if it is a prime. *)
Theorem is_prime_correct i : 2 ≤ i ≤ 1000000 → is_prime i = true ↔ prime i.
Proof.
  intros Hi. unfold is_prime. rewrite no_divisor_spec by lia. split.
  - intros H. apply prime_alt. split; [lia|]. intros n Hn Hdiv. destruct (Z.le_gt_cases (n * n) i) as [Hle|Hgt]; [by apply (H n); [lia| |]|].
    destruct Hdiv as [q Hq]. apply (H q); [nia|nia|]. exists n. lia.
  - intros Hp d Hd Hdd Hdiv. destruct (prime_divisors i Hp d Hdiv) as [?|[?|[?|?]]]; nia.
Qed.

Lemma is_prime_correct_witness : is_prime 999983 = true ↔ prime 999983.
Proof. apply (is_prime_correct 999983). lia. Defined.
End Test2.

Module Test3.
(** [a] and [b]; [c] is their sum. *)
Definition next (s : Z * Z) : Z * Z := let c := s.1 + s.2 in if 1000000 <? c then (0, 1) else (s.2, c).
Definition fibonacci_step (s : Z * Z) : prog (Z * Z) :=
  pid <- getpid;; printf 1 (line "Process  %d and Fibonacci  %d") [AInt pid; AInt (s.1 + s.2)];;
  sleep 1;; pure (next s).
Definition fibonacci : prog unit := forever fibonacci_step (0, 1).
Definition main : prog unit := three fibonacci.

Fixpoint fib (n : nat) : Z := match n with O => 0 | S n' => match n' with O => 1 | S n'' => fib n' + fib n'' end end.

(** The numbers test3 shows are the Fibonacci numbers from the second to the thirty-first, over and over; none of them
    leaves the range of an int. *)
Theorem fibonacci_numbers k : let s := Nat.iter k next (0, 1) in
  s.1 + s.2 = fib (k mod 30 + 2) ∧ 0 ≤ s.1 + s.2 < 2147483648.
Proof.
  cbv zeta. assert (Nat.iter k next (0, 1) = (fib (k mod 30), fib (k mod 30 + 1)) ∧ (k mod 30 < 30)%nat) as [-> Hlt].
  { split; [|by apply Nat.mod_upper_bound]. induction k as [|k IH]; [done|]. cbn [Nat.iter nat_rect]. change (next (Nat.iter k next (0, 1)) = (fib (S k mod 30), fib (S k mod 30 + 1))).
    rewrite IH. pose proof (Nat.mod_upper_bound k 30 ltac:(lia)) as Hlt. replace (S k) with (1 + k)%nat by lia. rewrite <- Nat.add_mod_idemp_r by lia. revert Hlt. generalize (k mod 30)%nat. intros r Hr.
    do 30 (destruct r as [|r]; [vm_compute; reflexivity|]). lia. }
  revert Hlt. generalize (k mod 30)%nat. intros r Hr. do 30 (destruct r as [|r]; [vm_compute; intuition congruence|]). lia.
Qed.
End Test3.

(** ** forktest.c *)
Module Forktest.
Definition N : nat := 1000.
(** [printf] of this program writes its string as it is. *)
Definition printf (fd : Z) (s : string) : prog unit := call (Write fd (str s));; pure tt.
Definition stop (b : bool) (msg : string) : prog unit := if b then printf 1 msg;; exit else pure tt.

Definition forktest : prog unit :=
  printf 1 (line "fork test");;
  n <- fork_all N 0;;
  stop (n =? N)%nat (line "fork claimed to work N times!");;
  each (seq 0 n) (λ _, r <- wait;; stop (r <? 0) (line "wait stopped early"));;
  r <- wait;; stop (negb (r =? -1)) (line "wait got too many");;
  printf 1 (line "fork test OK").
Definition main : prog unit := forktest;; exit.
End Forktest.

(** ** stressfs.c *)
Module Stressfs.
(** The number of forks before one that returns a child. *)
Fixpoint forks (k i : nat) : prog nat :=
  match k with O => pure i | S k' => r <- fork;; if 0 <? r then pure i else forks k' (S i) end.

Definition main : prog unit :=
  say (line "stressfs starting");;
  let data := replicate 512 97 in
  i <- forks 4 0;;
  printf 1 (line "write %d") [AInt (Z.of_nat i)];;
  let path := str "stressfs" ++ [48 + Z.of_nat i] in
  fd <- call (Open path O_CREATE_RDWR);;
  each (seq 0 20) (λ _, write fd data;; pure tt);;
  close fd;;
  say (line "read");;
  fd <- call (Open path O_RDONLY);;
  data <- fold (seq 0 20) (λ _ data, x <- read fd 512 data;; pure (snd x)) data;;
  close fd;;
  wait;;
  exit.
End Stressfs.

(** ** memoryleak.c *)
Module Memoryleak.
Section leak.
Context (base : Z) (grant : Z → Z → bool) (fuel : nat).
Definition indexS : Z := 4 * 100000000.

Definition leak (h : heap) : prog (heap + heap) :=
  x <- on_heap (malloc base grant fuel fuel indexS) h;; let '(index, h) := x in
  if index =? 0 then say (line "Memory allocation failed.");; pure (inr h) else pure (inl h).

Definition main (h : heap) : prog unit :=
  call (Strace T_STRACE);;
  ITree.iter leak h;;
  exit.
End leak.
End Memoryleak.

(** ** finite.c and infinite.c

    Host programs. stdio's [printf] formats [%c] and [%d] as the user library's does;
    its buffer only delays the output. *)
Module Finite.
Definition main (buf : list Z) : prog unit :=
  x <- read 0 512 buf;; let '(n, buf) := x in
  each (seq 0 (Z.to_nat (n `min` 10))) (λ i, printf 1 (line "%c") [AInt (nth i buf 0)]);;
  exit.
End Finite.

Module Infinite.
(** [i] is an int: what the code does is defined for the first 2{^31} rounds. *)
Definition main : prog unit := forever (λ i, printf 1 "%d" [AInt i];; pure (i + 1)) 0.
End Infinite.
