(* ===== verification/Urun.v ===== *)
(** * A system to run programs on

    The system after the shell has started a program: init (process 1), the
    program (process 2), the root directory with a few files, the console on the
    three standard descriptors.  [run] runs the program there, the processes taking turns. *)

From ITree Require Import ITree.
From S2P Require Import Prelude KState Print Mem Priority Fs Ulib UserProgs Uos Usertests.
#[local] Open Scope prog_scope.

(** init waits for the processes it inherits (init.c: the inner loop of main). *)
Definition init : prog unit := ITree.iter (λ _ : unit, wait;; pure (inl tt)) tt.

(** The programs the tests start. *)
Definition echo (argv : list (list Z)) : prog unit := each (tail argv) (λ a, puts 1 a;; puts 1 [32]);; puts 1 [10];; exit.
Definition programs (path : list Z) : option (list (list Z) → prog unit) := if decide (path = str "echo") then Some echo else None.
Definition image (a : Z) : Z := 0.

Definition file0 : unode := Mkunode (NFile (replicate 100 65)) 1.
Definition root : list (list Z * nat) := [(dot, 1%nat); (dotdot, 1%nat); (str "README", 2%nat); (str "cat", 3%nat); (str "echo", 4%nat); (str "init", 5%nat)].
Definition proc0 (parent : nat) : uproc := Mkuproc parent false false ([Some 0%nat; Some 0%nat; Some 0%nat] ++ replicate 13 None) 1 60000 ∅ 3 3 (-1).
Definition os0 : os :=
  Mkos {[1%nat := proc0 0; 2%nat := proc0 1]} 3 {[0%nat := Mkufile CCons 6]}
    (list_to_map [(1%nat, Mkunode (NDir root) 1); (2%nat, file0); (3%nat, file0); (4%nat, file0); (5%nat, file0)]) ∅ ∅ 56000 0 [].

(** At most [q] steps of thread [i]. *)
Fixpoint quantum (q i : nat) (ts : pool) : pool :=
  match q with O => ts | S q' => match turn programs image ts i 0 with Some ts' => quantum q' i ts' | None => ts end end.
Definition round (q : nat) (ts : pool) : pool := foldl (λ ts i, quantum (if (i =? 2)%nat then 1 else q) i ts) ts (seq 0 (length (fst ts))).
Definition ended (ts : pool) : bool := match fst ts !! 1%nat with Some (Gone _) => true | _ => false end.
Fixpoint rounds (n q : nat) (ts : pool) : pool := match n with O => ts | S n' => if ended ts then ts else rounds n' q (round q ts) end.

(** The program [t] as process 2, [n] rounds in which each process makes at most [q] steps and the clock one. *)
Definition run (t : prog unit) (n q : nat) : pool := rounds n q ([Run 1 init; Run 2 t; Timer], os0).
Definition shown (t : prog unit) (n q : nat) : option (list Z) := let ts := run t n q in if ended ts then Some (snd ts).(o_out) else None.

(** A run is one of the schedules. *)
Lemma reaches_trans a b c : reaches programs image a b → reaches programs image b c → reaches programs image a c.
Proof. intros Hab Hbc. induction Hbc as [|? ? ? ? _ IH Ht]; [done|by eapply reaches_step]. Qed.
Lemma quantum_reaches q i ts : reaches programs image ts (quantum q i ts).
Proof.
  revert ts. induction q as [|q IH]; intros ts; [constructor|]. simpl. destruct (turn _ _ ts i 0) as [ts'|] eqn:E; [|constructor].
  eapply reaches_trans; [|apply IH]. eapply reaches_step; [constructor|exact E].
Qed.
Lemma rounds_reaches n q ts : reaches programs image ts (rounds n q ts).
Proof.
  revert ts. induction n as [|n IH]; intros ts; [constructor|]. cbn [rounds]. destruct (ended ts); [constructor|]. eapply reaches_trans; [|apply IH]. unfold round. generalize (seq 0 (length (fst ts))). intros l. revert ts.
  induction l as [|i l IHl]; intros ts; [constructor|]. simpl. eapply reaches_trans; [apply quantum_reaches|apply IHl].
Qed.

(** What [shown] says can happen. *)
Lemma shown_reaches t n q out : shown t n q = Some out → ∃ ts, reaches programs image ([Run 1 init; Run 2 t; Timer], os0) ts ∧ ended ts = true ∧ (snd ts).(o_out) = out.
Proof. unfold shown. destruct (ended (run t n q)) eqn:E; [|done]. intros [= <-]. exists (run t n q). split; [apply rounds_reaches|done]. Qed.
