(* ===== verification/Clib.v ===== *)
(** * What preprocess.c and flow.c use of C and its library

    The outcome of a computation that may exit or whose behaviour C does not
    define, and the string functions, on characters as [Z]. *)

From S2P Require Import Prelude KState Print CString.

Inductive c_outcome (A : Type) : Type :=
| Done (a : A)
| Exits (status : Z)
| Undefined.
Arguments Done {A}.
Arguments Exits {A}.
Arguments Undefined {A}.

Definition obind {A B} (m : c_outcome A) (f : A → c_outcome B) : c_outcome B :=
  match m with Done a => f a | Exits n => Exits n | Undefined => Undefined end.

Declare Scope outcome_scope.
Delimit Scope outcome_scope with outcome.
Notation "x <- c1 ;; c2" := (obind c1 (λ x, c2)) (at level 100, c1 at next level, right associativity) : outcome_scope.
#[local] Open Scope outcome_scope.

(** A pointer that may be NULL is used; an array is read at an index. *)
Definition the {A} (o : option A) : c_outcome A := match o with Some a => Done a | None => Undefined end.
Definition at_index {A} (l : list A) (i : Z) : c_outcome A := if i <? 0 then Undefined else the (l !! Z.to_nat i).
Definition set_index {A} (l : list A) (i : Z) (f : A → c_outcome A) : c_outcome (list A) :=
  x <- at_index l i;; y <- f x;; Done (<[Z.to_nat i := y]> l).

(** [strcpy] of [value] to an array of [n] characters. *)
Definition strcpy_to (n : nat) (value : option (list Z)) : c_outcome (list Z) :=
  v <- the value;; if (length v <? n)%nat then Done v else Undefined.

Definition isdigit (c : Z) : bool := (48 <=? c) && (c <=? 57).
Definition isalpha (c : Z) : bool := (97 <=? c) && (c <=? 122) || (65 <=? c) && (c <=? 90).
Definition isalnum (c : Z) : bool := isalpha c || isdigit c.

Fixpoint skip (p : Z → bool) (s : list Z) : list Z := match s with [] => [] | c :: s' => if p c then skip p s' else s end.
Fixpoint upto (p : Z → bool) (s : list Z) : list Z := match s with [] => [] | c :: s' => if p c then [] else c :: upto p s' end.

(** [strtok] with one delimiter: the next token and what is left for the next call. *)
Definition strtok (d : Z) (s : list Z) : option (list Z) * list Z :=
  match skip (Z.eqb d) s with
  | [] => (None, [])
  | s' => let tok := upto (Z.eqb d) s' in (Some tok, drop (S (length tok)) s')
  end.

(** [atoi], which is [(int) strtol(s, NULL, 10)]: space, a sign, digits; a long saturates, an int wraps around. *)
Definition isspace (c : Z) : bool := (c =? 32) || (9 <=? c) && (c <=? 13).
Definition digits (s : list Z) : Z := foldl (λ n c, 10 * n + (c - 48)) 0 (upto (λ c, negb (isdigit c)) s).
Definition strtol (s : list Z) : Z :=
  let n := match skip isspace s with 45 :: s' => - digits s' | 43 :: s' => digits s' | s' => digits s' end in
  Z.max (-9223372036854775808) (Z.min 9223372036854775807 n).
Definition atoi (s : list Z) : Z := s32 (strtol s).

(** The lines [fgets] with a buffer of [n] characters returns of a file. *)
Fixpoint fgets_lines (fuel n : nat) (s : list Z) : list (list Z) :=
  match fuel, s with
  | O, _ | _, [] => []
  | S fuel', _ =>
      let k := Nat.min (S (length (upto (Z.eqb 10) s))) (n - 1) in
      take k s :: fgets_lines fuel' n (drop k s)
  end.

(** ** Tokens *)

Lemma upto_app p a b : Forall (λ c, p c = false) a → upto p (a ++ b) = a ++ upto p b.
Proof. induction 1 as [|c a Hc _ IH]; [done|]. simpl. by rewrite Hc, IH. Qed.

Lemma skip_none p s : match s with [] => True | c :: _ => p c = false end → skip p s = s.
Proof. destruct s as [|c s]; [done|]. simpl. by intros ->. Qed.

(** A token that the delimiter ends. *)
Lemma strtok_token d tok rest : tok ≠ [] → Forall (λ c, c ≠ d) tok → strtok d (tok ++ d :: rest) = (Some tok, rest).
Proof.
  intros Hne Ht. assert (Forall (λ c, (d =? c) = false) tok) as Hf by (eapply Forall_impl; [exact Ht|]; intros c Hc; cbn beta in Hc |- *; lia).
  unfold strtok. rewrite skip_none; [|destruct tok as [|c tok]; [done|]; by apply Forall_cons in Hf as [? _]].
  assert (upto (Z.eqb d) (tok ++ d :: rest) = tok) as E by (rewrite upto_app by done; simpl; rewrite Z.eqb_refl; apply app_nil_r).
  destruct (tok ++ d :: rest) as [|c s] eqn:El; [by destruct tok|]. rewrite E, <- El. f_equal. by rewrite drop_app_ge, Nat.sub_succ_l, Nat.sub_diag by lia.
Qed.

(** The last token. *)
Lemma strtok_last d tok : tok ≠ [] → Forall (λ c, c ≠ d) tok → strtok d tok = (Some tok, []).
Proof.
  intros Hne Ht. assert (Forall (λ c, (d =? c) = false) tok) as Hf by (eapply Forall_impl; [exact Ht|]; intros c Hc; cbn beta in Hc |- *; lia).
  unfold strtok. rewrite skip_none; [|destruct tok as [|c tok]; [done|]; by apply Forall_cons in Hf as [? _]].
  assert (upto (Z.eqb d) tok = tok) as E by (rewrite <- (app_nil_r tok) at 1; rewrite upto_app by done; apply app_nil_r).
  destruct tok as [|c s] eqn:El; [done|]. rewrite E. f_equal. by rewrite drop_ge by lia.
Qed.

(** What [strtok] returns has no delimiter and is not empty. *)
Lemma strtok_clean d s tok rest : strtok d s = (Some tok, rest) → tok ≠ [] ∧ Forall (λ c, c ≠ d) tok ∧ (length tok ≤ length s)%nat ∧ ∀ P : Z → Prop, Forall P s → Forall P tok ∧ Forall P rest.
Proof.
  unfold strtok. assert (∀ l, Forall (λ c, c ≠ d) (upto (Z.eqb d) l) ∧ ∃ l', l = upto (Z.eqb d) l ++ l') as Hu.
  { induction l as [|c l [IH (l' & IH')]]; [split; [done|by exists []]|]. simpl. destruct (Z.eqb_spec d c) as [->|Hne]; [split; [done|by exists (c :: l)]|].
    split; [by constructor|]. exists l'. simpl. by rewrite <- IH'. }
  assert (∀ l, ∃ l', l = l' ++ skip (Z.eqb d) l) as Hs.
  { induction l as [|c l (l' & IH)]; [by exists []|]. simpl. destruct (d =? c); [exists (c :: l'); simpl; by rewrite <- IH|by exists []]. }
  destruct (Hs s) as (pre & Hpre). destruct (skip (Z.eqb d) s) as [|c s'] eqn:E; [done|]. set (u := upto (Z.eqb d) (c :: s')). intros Heq. assert (u = tok) as <- by congruence. assert (drop (S (length u)) (c :: s') = rest) as <- by congruence. clear Heq.
  assert ((d =? c) = false) as Hc. { clear -E. induction s as [|x s IH]; [done|]. simpl in E. destruct (d =? x) eqn:Ex; [by apply IH|]. by injection E as -> _. }
  destruct (Hu (c :: s')) as [H1 (l' & H2)].
  pose proof (f_equal length Hpre) as L1. pose proof (f_equal length H2) as L2. rewrite length_app in L1, L2.
  fold u in H1, H2, L2. split_and!; [unfold u; simpl; by rewrite Hc|done|lia|].
  intros P HP. rewrite Hpre in HP. apply Forall_app in HP as [_ HP]. split; [rewrite H2 in HP; by apply Forall_app in HP as [? _]|by apply Forall_drop].
Qed.

(** ** Arrays *)

Lemma set_index_done {A} (l l' : list A) i f : set_index l i f = Done l' → 0 ≤ i < Z.of_nat (length l) ∧ ∃ x y, l !! Z.to_nat i = Some x ∧ f x = Done y ∧ l' = <[Z.to_nat i := y]> l.
Proof.
  unfold set_index, at_index. destruct (Z.ltb_spec i 0) as [|Hi]; [done|]. destruct (l !! Z.to_nat i) as [x|] eqn:E; [|done]. cbn [the obind]. destruct (f x) as [y| |] eqn:Ef; [|done|done].
  intros [= <-]. pose proof (lookup_lt_Some _ _ _ E). split; [lia|]. by exists x, y.
Qed.

Lemma set_index_run {A} (l : list A) (i : nat) x y f : l !! i = Some x → f x = Done y → set_index l (Z.of_nat i) f = Done (<[i := y]> l).
Proof. intros Hx Hf. unfold set_index, at_index. rewrite (proj2 (Z.ltb_ge _ _)), Nat2Z.id, Hx by lia. cbn [the obind]. by rewrite Hf. Qed.

(** What holds of the elements still does. *)
Lemma set_index_Forall {A} (P : A → Prop) (l l' : list A) i f : set_index l i f = Done l' → Forall P l → (∀ x y, P x → f x = Done y → P y) →
  0 ≤ i < Z.of_nat (length l) ∧ length l' = length l ∧ Forall P l'.
Proof.
  intros (Hi & x & y & Hx & Hf & ->)%set_index_done HP Hxy. split_and!; [lia|lia|by rewrite length_insert|]. apply Forall_insert; [done|]. eapply Hxy; [|exact Hf]. exact (Forall_lookup_1 _ _ _ _ HP Hx).
Qed.

Lemma strcpy_to_done n value v : strcpy_to n value = Done v → value = Some v ∧ (length v < n)%nat.
Proof. unfold strcpy_to. destruct value as [w|]; [|done]. cbn [the obind]. destruct (Nat.ltb_spec (length w) n); [|done]. by intros [= <-]. Qed.
