(* ===== verification/Preprocess.v ===== *)
(** * The macro preprocessor (preprocess.c)

    The definitions of the command line and the replacement of names in a
    line.  The program cannot be built as it is (it includes a file that does not exist
    and uses undeclared names in [processingDefine] and [file]), so these two,
    and [main], which only calls them, are not modelled. *)

From S2P Require Import Prelude KState Print CString Ulib Clib.
#[local] Open Scope outcome_scope.

Definition maxDefinitions : nat := 100.
Definition maxVariable : nat := 256.
Definition maxLength : nat := 1024.

(** The two arrays of a definition, [maxVariable] and [maxLength] characters. *)
Record Definition_t : Type := MkDefinition { variable : list Z; value : list Z }.

(** The first [numDef] elements of [definitions]; the others are zero. *)
Definition definitions := list Definition_t.
Definition numDef (ds : definitions) : nat := length ds.

(** The array in memory, from which the strings are read. *)
Definition flat (ds : definitions) : list Z :=
  (ds ≫= λ d, variable d ++ value d) ++ replicate ((maxVariable + maxLength) * (maxDefinitions - numDef ds)) 0.
Definition variable_of (ds : definitions) (i : nat) : list Z := cstr (drop ((maxVariable + maxLength) * i) (flat ds)).
Definition value_of (ds : definitions) (i : nat) : list Z := cstr (drop ((maxVariable + maxLength) * i + maxVariable) (flat ds)).

(** ** Identifiers *)

Definition ident_start (c : Z) : bool := isalpha c || (c =? 95).
Definition ident_char (c : Z) : bool := isalpha c || isdigit c || (c =? 95).

Fixpoint validity_loop (s : list Z) : bool := match s with [] => true | c :: s' => if negb (ident_char c) then false else validity_loop s' end.
Definition validity (s : list Z) : bool := if negb (ident_start (Ulib.hd0 s)) then false else validity_loop (tail s).

(** ** Definitions *)

Definition addDefine (ds : definitions) (var val : list Z) : c_outcome definitions :=
  if (maxDefinitions <=? numDef ds)%nat then Exits 0 else
  if negb (validity var) then Exits 0 else
  Done (ds ++ [MkDefinition (strncpy maxVariable var) (strncpy maxLength val)]).

Definition add (ds : definitions) (definition : list Z) : c_outcome definitions :=
  match strchr definition 61 with
  | None => Exits 0
  | Some equal => if (maxVariable <=? equal)%nat then Undefined else addDefine ds (take equal definition) (drop (S equal) definition)
  end.

(** The arguments after the first two. *)
Fixpoint parsing (ds : definitions) (argv : list (list Z)) : c_outcome definitions :=
  match argv with
  | [] => Done ds
  | a :: argv' =>
      if strncmp 2 a (str "-D") =? 0 then ds <- add ds (drop 2 a);; parsing ds argv' else Exits 0
  end.

(** ** Replacement *)

(** The inner loop from definition [i]: the first that matches at [pos], and is not followed by a character of a name. *)
Fixpoint match_at (ds : definitions) (k i : nat) (line : list Z) (pos : nat) : c_outcome (option nat) :=
  match k with
  | O => Done None
  | S k' =>
      let length := length (variable_of ds i) in
      c <- the (line !! (pos + length)%nat);;
      if negb (isalnum c) && negb (c =? 95) && (strncmp length (drop pos line) (variable_of ds i) =? 0) then Done (Some i)
      else match_at ds k' (S i) line pos
  end.

(** The outer loop; [result] is what has been written to the array of that name.  Each round reads at least one character
    of [line] when no variable is empty, so that [fuel] of one more than the length is enough. *)
Fixpoint replacing_loop (fuel : nat) (ds : definitions) (line : list Z) (pos : nat) (result : list Z) : c_outcome (list Z) :=
  match fuel with
  | O => Undefined
  | S fuel' =>
      c <- the (line !! pos);;
      if c =? 0 then (if (length result <? maxLength)%nat then Done result else Undefined) else
      m <- match_at ds (numDef ds) 0 line pos;;
      match m with
      | Some i =>
          let result := result ++ value_of ds i in
          if (maxLength <? length result)%nat then Undefined else replacing_loop fuel' ds line (pos + length (variable_of ds i)) result
      | None => if (maxLength <=? length result)%nat then Undefined else replacing_loop fuel' ds line (S pos) (result ++ [c])
      end
  end.

(** [line] is the whole buffer. *)
Definition replacing (ds : definitions) (line : list Z) : c_outcome (list Z) :=
  result <- replacing_loop (S (length line)) ds line 0 [];;
  if (length line <? S (length result))%nat then Undefined else Done (splice 0 (result ++ [0]) line).

(** ** What replacement means *)

(** The first definition whose name begins [text] and is not the beginning of a longer name there. *)
Definition first_match (defs : list (list Z * list Z)) (text : list Z) : option (list Z * list Z) :=
  snd <$> list_find (λ d, take (length d.1) text = d.1 ∧ ident_char (CString.hd0 (drop (length d.1) text)) = false) defs.

Fixpoint expand_fuel (fuel : nat) (defs : list (list Z * list Z)) (text : list Z) : list Z :=
  match fuel, text with
  | O, _ | _, [] => []
  | S fuel', c :: text' =>
      match first_match defs text with
      | Some (n, v) => v ++ expand_fuel fuel' defs (drop (length n) text)
      | None => c :: expand_fuel fuel' defs text'
      end
  end.
Definition expand (defs : list (list Z * list Z)) (text : list Z) : list Z := expand_fuel (length text) defs text.

(** The same as a relation: a name that matches is replaced, any other character stays. *)
Inductive replaced (defs : list (list Z * list Z)) : list Z → list Z → Prop :=
| replaced_nil : replaced defs [] []
| replaced_name n v rest out : first_match defs (n ++ rest) = Some (n, v) → replaced defs rest out → replaced defs (n ++ rest) (v ++ out)
| replaced_char c rest out : first_match defs (c :: rest) = None → replaced defs rest out → replaced defs (c :: rest) (c :: out).

(** The characters of a string. *)
Definition is_char (c : Z) : Prop := 0 < c < 256.
(** Names are identifiers that fit into their array, and values fit too. *)
Definition def_ok (d : list Z * list Z) : Prop :=
  validity d.1 = true ∧ Forall is_char d.1 ∧ (0 < length d.1 < maxVariable)%nat ∧ Forall is_char d.2 ∧ (length d.2 < maxLength)%nat.
Definition row (d : list Z * list Z) : Definition_t := MkDefinition (strncpy maxVariable d.1) (strncpy maxLength d.2).

Lemma first_match_some defs text n v : first_match defs text = Some (n, v) → Forall def_ok defs → (n, v) ∈ defs ∧ (0 < length n)%nat ∧ text = n ++ drop (length n) text.
Proof.
  unfold first_match. destruct (list_find _ defs) as [[i d]|] eqn:E; [|done]. intros [= ->] Hd. apply list_find_Some in E as (Hi & [Ht _] & _). simpl in Ht.
  apply list_elem_of_lookup_2 in Hi. rewrite Forall_forall in Hd. destruct (Hd _ Hi) as (_ & _ & Hl & _). split_and!; [done|simpl in Hl; lia|]. rewrite <- Ht at 1. by rewrite take_drop.
Qed.

Lemma expand_fuel_replaced defs : Forall def_ok defs → ∀ fuel text, (length text ≤ fuel)%nat → replaced defs text (expand_fuel fuel defs text).
Proof.
  intros Hd fuel. induction fuel as [|fuel IH]; intros [|c text] Hf; [constructor|simpl in Hf; lia|constructor|]. cbn [expand_fuel].
  destruct (first_match defs (c :: text)) as [[n v]|] eqn:E; [|constructor; [done|apply IH; simpl in Hf; lia]].
  destruct (first_match_some _ _ _ _ E Hd) as (_ & Hl & Ht). set (rest := drop (length n) (c :: text)) in *. rewrite Ht in E |- *. constructor; [done|]. apply IH.
  unfold rest. rewrite length_drop. simpl in *. lia.
Qed.

(** The relation is a function, so that [expand] does not depend on its fuel. *)
Lemma expand_fuel_enough defs : Forall def_ok defs → ∀ f1 f2 text, (length text ≤ f1)%nat → (length text ≤ f2)%nat → expand_fuel f1 defs text = expand_fuel f2 defs text.
Proof.
  intros Hd f1. induction f1 as [|f1 IH]; intros f2 [|c text] H1 H2; [by destruct f2|simpl in H1; lia|by destruct f2|]. destruct f2 as [|f2]; [simpl in H2; lia|]. cbn [expand_fuel].
  destruct (first_match defs (c :: text)) as [[n v]|] eqn:E; [|f_equal; apply IH; simpl in *; lia].
  destruct (first_match_some _ _ _ _ E Hd) as (_ & Hl & _). f_equal. apply IH; rewrite length_drop; simpl in *; lia.
Qed.

Lemma chars_nonzero l : Forall is_char l → Forall (λ c, c ≠ 0) l.
Proof. intros H. eapply Forall_impl; [exact H|]. unfold is_char. intros c Hc. cbn beta in *. lia. Qed.
Lemma chars_bytes l : Forall is_char l → Forall is_byte l.
Proof. intros H. eapply Forall_impl; [exact H|]. unfold is_char, is_byte. intros c Hc. cbn beta in *. lia. Qed.

Lemma strncpy_fits n t : Forall is_char t → (length t < n)%nat → ∃ k, strncpy n t = t ++ 0 :: replicate k 0 ∧ length (strncpy n t) = n.
Proof.
  intros Ht Hn. rewrite strncpy_eq, (cstr_id t) by (by apply chars_nonzero). rewrite take_ge by lia. exists (n - length t - 1)%nat.
  destruct (n - length t)%nat as [|k] eqn:E; [lia|]. split; [simpl; do 3 f_equal; lia|]. rewrite length_app, length_replicate. lia.
Qed.

(** The strings the program reads are the ones it was given. *)
Lemma flat_drop (tl : list Z) defs i d : Forall def_ok defs → defs !! i = Some d → ∃ rest,
  drop ((maxVariable + maxLength) * i) (((row <$> defs) ≫= λ d, variable d ++ value d) ++ tl) = strncpy maxVariable d.1 ++ strncpy maxLength d.2 ++ rest.
Proof.
  intros Hd. revert i. induction Hd as [|d0 defs H0 _ IH]; intros i Hi; [done|]. destruct H0 as (_ & H1 & H2 & H3 & H4).
  destruct (strncpy_fits maxVariable d0.1 H1) as (k1 & _ & L1); [lia|]. destruct (strncpy_fits maxLength d0.2 H3) as (k2 & _ & L2); [lia|].
  cbn [fmap list_fmap mbind list_bind]. rewrite <- !app_assoc. destruct i as [|i].
  - injection Hi as ->. rewrite Nat.mul_0_r, drop_0. cbn [row variable value]. eexists. reflexivity.
  - destruct (IH i Hi) as (rest & IH'). exists rest. cbn [row variable value]. rewrite app_assoc, drop_app_ge by (rewrite length_app, L1, L2, Nat.mul_succ_r; lia). rewrite length_app, L1, L2.
    by rewrite Nat.mul_succ_r, Nat.add_sub.
Qed.

Lemma strings_of defs i d : Forall def_ok defs → defs !! i = Some d → variable_of (row <$> defs) i = d.1 ∧ value_of (row <$> defs) i = d.2.
Proof.
  intros Hd Hi. unfold variable_of, value_of, flat. rewrite <- drop_drop. destruct (flat_drop (replicate ((maxVariable + maxLength) * (maxDefinitions - numDef (row <$> defs))) 0) defs i d Hd Hi) as (rest & ->).
  apply list_elem_of_lookup_2 in Hi. rewrite Forall_forall in Hd. destruct (Hd d Hi) as (_ & H1 & H2 & H3 & H4).
  destruct (strncpy_fits maxVariable d.1 H1) as (k1 & E1 & L1); [lia|]. destruct (strncpy_fits maxLength d.2 H3) as (k2 & E2 & L2); [lia|]. split.
  - rewrite E1, <- app_assoc. apply cstr_app_nul. by apply chars_nonzero.
  - rewrite drop_app_ge, L1, Nat.sub_diag, drop_0 by lia. rewrite E2, <- app_assoc. apply cstr_app_nul. by apply chars_nonzero.
Qed.

(** ** The loops compute it *)

(** [line] holds [text] and a NUL, and has room behind it for the longest name. *)
Definition holds (line text : list Z) : Prop := Forall is_char text ∧ ∃ junk, line = text ++ 0 :: junk ∧ Forall is_byte junk.
Definition room (defs : list (list Z * list Z)) (line text : list Z) : Prop := ∀ d, d ∈ defs → (length text + length d.1 < length line)%nat.

Lemma ident_nul : ident_char 0 = false.
Proof. done. Qed.

Lemma match_at_spec defs line text pos : Forall def_ok defs → holds line text → room defs line text → (pos ≤ length text)%nat →
  ∀ k i, (i + k = length defs)%nat →
  match_at (row <$> defs) k i line pos = Done ((λ '(j, _), (i + j)%nat) <$>
    list_find (λ d, take (length d.1) (drop pos text) = d.1 ∧ ident_char (CString.hd0 (drop (length d.1) (drop pos text))) = false) (drop i defs)).
Proof.
  intros Hd [Ht (junk & -> & Hj)] Hr Hpos k. induction k as [|k IH]; intros i Hik; [by rewrite (drop_ge defs) by lia|]. cbn [match_at].
  destruct (lookup_lt_is_Some_2 defs i ltac:(lia)) as [d Hi]. rewrite (drop_S _ _ _ Hi). destruct (strings_of defs i d Hd Hi) as [-> _].
  pose proof (list_elem_of_lookup_2 _ _ _ Hi) as Hin. pose proof (Hr d Hin) as Hroom. rewrite length_app in Hroom. simpl in Hroom.
  rewrite Forall_forall in Hd. destruct (Hd d Hin) as (_ & H1 & H2 & _ & _).
  destruct (lookup_lt_is_Some_2 (text ++ 0 :: junk) (pos + length d.1)%nat) as [c Hc]; [rewrite length_app; simpl; lia|]. rewrite Hc. cbn [the obind].
  assert (drop pos (text ++ 0 :: junk) = drop pos text ++ 0 :: junk) as Edrop by (by rewrite drop_app_le).
  assert ((strncmp (length d.1) (drop pos (text ++ 0 :: junk)) d.1 =? 0) = bool_decide (take (length d.1) (drop pos text) = d.1)) as ->.
  { apply eq_true_iff_eq. rewrite Z.eqb_eq, bool_decide_eq_true, strncmp_zero, Edrop, cstr_app_nul, (cstr_id d.1), (take_ge d.1); [done|lia|by apply chars_nonzero|by apply Forall_drop, chars_nonzero| |by apply chars_bytes].
    apply Forall_drop, Forall_app. split; [by apply chars_bytes|]. constructor; [unfold is_byte; lia|done]. }
  assert (take (length d.1) (drop pos text) = d.1 → c = CString.hd0 (drop (length d.1) (drop pos text)) ∧ negb (isalnum c) && negb (c =? 95) = negb (ident_char c)) as Hcase.
  { intros E. split; [|unfold ident_char, isalnum; by destruct (isalpha c), (isdigit c), (c =? 95)]. rewrite drop_drop. assert (length d.1 ≤ length (drop pos text))%nat as Hl by (rewrite <- E at 1; rewrite length_take; lia).
    rewrite length_drop in Hl. destruct (decide (pos + length d.1 = length text)%nat) as [Heq|Hne].
    - rewrite Heq, lookup_app_r, Nat.sub_diag in Hc by lia. injection Hc as <-. by rewrite drop_ge by lia.
    - rewrite lookup_app_l in Hc by lia. by rewrite (drop_S _ _ _ Hc). }
  cbn [list_find]. destruct (decide (take (length d.1) (drop pos text) = d.1)) as [E|E].
  - destruct (Hcase E) as [<- ->]. rewrite bool_decide_eq_true_2, andb_true_r by done. destruct (ident_char c) eqn:Ec; cbn [negb].
    + rewrite decide_False by (intros [_ ?]; done). rewrite IH by lia. destruct (list_find _ (drop (S i) defs)) as [[j ?]|]; [|done]. simpl. do 2 f_equal. lia.
    + rewrite decide_True by done. simpl. do 2 f_equal. lia.
  - rewrite bool_decide_eq_false_2, andb_false_r by done. rewrite decide_False by tauto. rewrite IH by lia. destruct (list_find _ (drop (S i) defs)) as [[j ?]|]; [|done]. simpl. do 2 f_equal. lia.
Qed.

Lemma match_at_first defs line text pos : Forall def_ok defs → holds line text → room defs line text → (pos ≤ length text)%nat →
  match first_match defs (drop pos text) with
  | None => match_at (row <$> defs) (length defs) 0 line pos = Done None
  | Some d => ∃ i, match_at (row <$> defs) (length defs) 0 line pos = Done (Some i) ∧ defs !! i = Some d
  end.
Proof.
  intros Hd Hh Hr Hp. rewrite (match_at_spec defs line text pos Hd Hh Hr Hp (length defs) 0) by lia. rewrite drop_0. unfold first_match.
  destruct (list_find _ defs) as [[i d]|] eqn:E; [|done]. exists i. split; [done|]. by apply list_find_Some in E as [? _].
Qed.

Lemma replacing_loop_run defs line text : Forall def_ok defs → holds line text → room defs line text → ∀ fuel pos result,
  (pos ≤ length text)%nat → (length (drop pos text) < fuel)%nat →
  let out := result ++ expand defs (drop pos text) in (length out < maxLength)%nat →
  replacing_loop fuel (row <$> defs) line pos result = Done out.
Proof.
  intros Hd Hh Hr fuel. induction fuel as [|fuel IH]; intros pos result Hp Hf out Hout; [lia|]. cbn [replacing_loop].
  destruct (Hh) as [Ht (junk & Hline & Hj)]. destruct (text !! pos) as [c|] eqn:Ec.
  - assert (line !! pos = Some c) as -> by (rewrite Hline, lookup_app_l by (by eapply lookup_lt_Some); done). cbn [the obind].
    assert (0 < c) as Hc by (rewrite Forall_forall in Ht; pose proof (Ht c (list_elem_of_lookup_2 _ _ _ Ec)) as H; unfold is_char in H; lia). rewrite (proj2 (Z.eqb_neq c 0)) by lia.
    replace (numDef (row <$> defs)) with (length defs) by (unfold numDef; by rewrite length_fmap).
    pose proof (drop_S _ _ _ Ec) as Edrop. pose proof (match_at_first defs line text pos Hd Hh Hr Hp) as Hm.
    destruct (first_match defs (drop pos text)) as [[n v]|] eqn:Em.
    + destruct Hm as (i & -> & Hi). cbn [obind]. destruct (strings_of defs i (n, v) Hd Hi) as [-> ->]. cbn [fst snd].
      destruct (first_match_some _ _ _ _ Em Hd) as (_ & Hl & Hpre). pose proof (f_equal length Hpre) as HL. rewrite length_app, !length_drop in HL.
      assert (out = (result ++ v) ++ expand defs (drop (pos + length n) text)) as Eout.
      { unfold out, expand at 1. rewrite Edrop. cbn [length expand_fuel]. rewrite <- Edrop, Em, <- app_assoc, drop_drop. do 2 f_equal. unfold expand. apply expand_fuel_enough; [done|rewrite !length_drop; lia|lia]. }
      rewrite Eout in Hout |- *. rewrite (proj2 (Nat.ltb_ge _ _)) by (rewrite !length_app in *; lia). apply IH; [lia|rewrite length_drop in *; lia|done].
    + rewrite Hm. cbn [obind]. assert (out = (result ++ [c]) ++ expand defs (drop (S pos) text)) as Eout.
      { unfold out, expand at 1. rewrite Edrop. cbn [length expand_fuel]. rewrite <- Edrop, Em, <- app_assoc. done. }
      rewrite Eout in Hout |- *. rewrite (proj2 (Nat.leb_gt _ _)) by (rewrite !length_app in *; simpl in *; lia).
      apply lookup_lt_Some in Ec. apply IH; [lia|rewrite length_drop in *; lia|done].
  - apply lookup_ge_None in Ec. assert (pos = length text) as -> by lia. assert (line !! length text = Some 0) as -> by (rewrite Hline, lookup_app_r, Nat.sub_diag by lia; done). cbn [the obind].
    change (0 =? 0) with true. cbv iota. unfold out in *. rewrite drop_ge in * by lia. rewrite app_nil_r in *. by rewrite (proj2 (Nat.ltb_lt _ _)) by done.
Qed.

(** C35: [replacing] rewrites a line in place: every defined name is replaced by its value where it stands and is not the
    beginning of a longer name, from the left to the right, the first of several definitions first; the other characters stay. *)
Theorem replacing_correct defs line text : Forall def_ok defs → holds line text → room defs line text →
  (length (expand defs text) < maxLength)%nat → (length (expand defs text) < length line)%nat →
  replaced defs text (expand defs text) ∧ replacing (row <$> defs) line = Done (splice 0 (expand defs text ++ [0]) line).
Proof.
  intros Hd Hh Hr H1 H2. split; [by apply expand_fuel_replaced|]. unfold replacing.
  rewrite (replacing_loop_run defs line text Hd Hh Hr) by (rewrite ?drop_0; try lia; destruct Hh as [_ (junk & -> & _)]; rewrite length_app; simpl; lia).
  cbn [obind]. rewrite drop_0. cbn [app]. by rewrite (proj2 (Nat.ltb_ge _ _)) by lia.
Qed.

(** Witness: a name in an expression, in a buffer of 1024 characters. *)
Lemma replacing_correct_witness :
  let defs := [(str "N", str "100"); (str "size_t", str "int")] in let line := str "x=N*sizeof(size_t)+N;" ++ replicate 1003 0 in
  replaced defs (str "x=N*sizeof(size_t)+N;") (str "x=100*sizeof(int)+100;") ∧ replacing (row <$> defs) line = Done (splice 0 (str "x=100*sizeof(int)+100;" ++ [0]) line).
Proof.
  apply (replacing_correct [(str "N", str "100"); (str "size_t", str "int")] (str "x=N*sizeof(size_t)+N;" ++ replicate 1003 0) (str "x=N*sizeof(size_t)+N;")).
  - repeat constructor; simpl; try (unfold maxVariable, maxLength; lia); try (unfold is_char; lia).
  - split; [repeat constructor; simpl; unfold is_char; lia|]. exists (replicate 1002 0). split; [done|]. apply Forall_replicate. unfold is_byte. lia.
  - intros d Hd. rewrite length_app, length_replicate. rewrite !elem_of_cons in Hd. destruct Hd as [->|[->|Hd]]; [simpl; lia|simpl; lia|by apply elem_of_nil in Hd].
  - vm_compute. lia.
  - rewrite length_app, length_replicate. vm_compute. lia.
Defined.

(** A name is replaced at the end of a longer name, too. *)
Lemma replacing_inside : expand [(str "FOO", str "1")] (str "xFOO FOOx FOO") = str "x1 FOOx 1".
Proof. reflexivity. Qed.

(** ** The command line *)

Lemma validity_no_equals s : validity s = true → Forall (λ c, c ≠ 61) s.
Proof.
  unfold validity. destruct s as [|c s]; [done|]. change (Ulib.hd0 (c :: s)) with c. cbn [tail]. destruct (ident_start c) eqn:E; [|by intros]. cbn [negb]. intros H. constructor; [by intros ->|].
  clear E. induction s as [|x s IH]; [done|]. cbn [validity_loop] in H. destruct (ident_char x) eqn:Ex; [cbn [negb] in H|done]. constructor; [by intros ->|by apply IH].
Qed.

Lemma strchr_equals s v : Forall is_char s → Forall (λ c, c ≠ 61) s → strchr (s ++ 61 :: v) 61 = Some (length s).
Proof.
  intros Hs Hn. induction Hs as [|c s Hc _ IH]; [done|]. apply Forall_cons in Hn as [H1 Hn]. cbn [app strchr length]. unfold is_char in Hc.
  rewrite (proj2 (Z.eqb_neq c 0)), (proj2 (Z.eqb_neq c 61)) by lia. by rewrite IH.
Qed.

(** The definitions of the command line, each of the form -DNAME=VALUE, are added in their order. *)
Theorem parsing_correct defs args : Forall def_ok args → (length defs + length args ≤ maxDefinitions)%nat →
  parsing (row <$> defs) ((λ d, str "-D" ++ d.1 ++ 61 :: d.2) <$> args) = Done (row <$> (defs ++ args)).
Proof.
  intros Ha. revert defs. induction Ha as [|d args Hd _ IH]; intros defs Hl; [by rewrite app_nil_r|]. destruct Hd as (Hv & H1 & H2 & H3 & H4). cbn [fmap list_fmap parsing]. simpl in Hl.
  change (strncmp 2 (str "-D" ++ d.1 ++ 61 :: d.2) (str "-D") =? 0) with true. cbv iota. change (drop 2 (str "-D" ++ d.1 ++ 61 :: d.2)) with (d.1 ++ 61 :: d.2).
  unfold add. rewrite strchr_equals by (done || by apply validity_no_equals). rewrite (proj2 (Nat.leb_gt _ _)) by lia.
  rewrite take_app_length. replace (drop (S (length d.1)) (d.1 ++ 61 :: d.2)) with d.2 by (rewrite drop_app_ge, Nat.sub_succ_l, Nat.sub_diag by lia; done).
  unfold addDefine, numDef. rewrite length_fmap, (proj2 (Nat.leb_gt _ _)), Hv by lia. cbn [negb obind].
  change [MkDefinition (strncpy maxVariable d.1) (strncpy maxLength d.2)] with (row <$> [d]). rewrite <- fmap_app, IH; [by rewrite <- app_assoc|]. rewrite length_app. simpl. lia.
Qed.

Lemma parsing_correct_witness : parsing [] [str "-DN=100"; str "-D_x9=a=b"] = Done (row <$> [(str "N", str "100"); (str "_x9", str "a=b")]).
Proof.
  apply (parsing_correct [] [(str "N", str "100"); (str "_x9", str "a=b")]); [|simpl; unfold maxDefinitions; lia].
  repeat constructor; simpl; try (unfold maxVariable, maxLength; lia); try (unfold is_char; lia).
Defined.
