(* ===== verification/Flow.v ===== *)
(** * The flow interpreter (flow.c)

    A flow file names commands (nodes), pipes between them and concatenations of
    their outputs.  The program reads the file into three tables and
    executes one of the pipes.  It is a program for Linux: what it asks of the
    system are the events [posixE]. *)

From ITree Require Import ITree ITreeFacts.
From ITree Require Import Interp.Recursion.
From S2P Require Import Prelude KState Print CString Clib.
#[local] Open Scope outcome_scope.

Definition maxNodes : nat := 100.
Definition lineLength : nat := 1000.
Definition commandLength : nat := 500.
Definition maxParts : nat := 10.

(** ** The tables *)

Record Node : Type := MkNode {
  n_name : list Z;
  n_command : list Z;
  n_errorTo : list Z;
  n_fileName : list Z;
  n_inputFile : Z;
  n_outputFile : Z
}.
Record Pipe : Type := MkPipe { p_name : list Z; p_from : list Z; p_to : list Z }.
Record Concatenation : Type := MkConcatenation { c_name : list Z; c_partCount : Z; c_parts : list (list Z) }.

(** The strings of an array are shorter than it; the globals are zero at first. *)
Definition node0 : Node := MkNode [] [] [] [] 0 0.
Definition pipe0 : Pipe := MkPipe [] [] [].
Definition concat0 : Concatenation := MkConcatenation [] 0 (replicate maxParts []).

Record tables : Type := MkTables {
  nodes : list Node;
  nodeCount : Z;
  pipes : list Pipe;
  pipeCount : Z;
  concatenations : list Concatenation;
  concatCount : Z
}.
Definition tables0 : tables := MkTables (replicate maxNodes node0) 0 (replicate maxNodes pipe0) 0 (replicate maxNodes concat0) 0.

Definition on_node (i : Z) (f : Node → c_outcome Node) (t : tables) : c_outcome tables :=
  l <- set_index t.(nodes) i f;; Done (MkTables l t.(nodeCount) t.(pipes) t.(pipeCount) t.(concatenations) t.(concatCount)).
Definition on_pipe (i : Z) (f : Pipe → c_outcome Pipe) (t : tables) : c_outcome tables :=
  l <- set_index t.(pipes) i f;; Done (MkTables t.(nodes) t.(nodeCount) l t.(pipeCount) t.(concatenations) t.(concatCount)).
Definition on_concat (i : Z) (f : Concatenation → c_outcome Concatenation) (t : tables) : c_outcome tables :=
  l <- set_index t.(concatenations) i f;; Done (MkTables t.(nodes) t.(nodeCount) t.(pipes) t.(pipeCount) l t.(concatCount)).

(** ** Reading a flow file *)

(** The tables, and the local variables [concatNow] and [partIndex] of [file]. *)
Record parser : Type := MkParser { ps_tables : tables; concatNow : Z; partIndex : Z }.

Definition is_key (name : list Z) (key : string) : bool := bool_decide (name = str key).

(** The branches of the chain of comparisons: a line [name=value]. *)
Definition file_entry (name : list Z) (value : option (list Z)) (p : parser) : c_outcome parser :=
  let t := p.(ps_tables) in
  let keep (m : c_outcome tables) := t <- m;; Done (MkParser t p.(concatNow) p.(partIndex)) in
  if is_key name "node" then
    keep (on_node t.(nodeCount) (λ n, v <- strcpy_to 50 value;; Done (MkNode v n.(n_command) n.(n_errorTo) n.(n_fileName) n.(n_inputFile) n.(n_outputFile))) t)
  else if is_key name "command" then
    t <- on_node t.(nodeCount) (λ n, v <- strcpy_to commandLength value;; Done (MkNode n.(n_name) v n.(n_errorTo) n.(n_fileName) n.(n_inputFile) n.(n_outputFile))) t;;
    Done (MkParser (MkTables t.(nodes) (t.(nodeCount) + 1) t.(pipes) t.(pipeCount) t.(concatenations) t.(concatCount)) p.(concatNow) p.(partIndex))
  else if is_key name "pipe" then keep (on_pipe t.(pipeCount) (λ x, v <- strcpy_to 50 value;; Done (MkPipe v x.(p_from) x.(p_to))) t)
  else if is_key name "from" then keep (on_pipe t.(pipeCount) (λ x, v <- strcpy_to 50 value;; Done (MkPipe x.(p_name) v x.(p_to))) t)
  else if is_key name "to" then
    t <- on_pipe t.(pipeCount) (λ x, v <- strcpy_to 50 value;; Done (MkPipe x.(p_name) x.(p_from) v)) t;;
    Done (MkParser (MkTables t.(nodes) t.(nodeCount) t.(pipes) (t.(pipeCount) + 1) t.(concatenations) t.(concatCount)) p.(concatNow) p.(partIndex))
  else if is_key name "concatenate" then
    let now := t.(concatCount) in
    t <- on_concat now (λ x, v <- strcpy_to 50 value;; Done (MkConcatenation v x.(c_partCount) x.(c_parts))) t;;
    Done (MkParser (MkTables t.(nodes) t.(nodeCount) t.(pipes) t.(pipeCount) t.(concatenations) (now + 1)) now 0)
  else if is_key name "parts" then
    keep (on_concat p.(concatNow) (λ x, v <- the value;; Done (MkConcatenation x.(c_name) (atoi v) x.(c_parts))) t)
  else if strncmp 5 name (str "part_") =? 0 then
    t <- on_concat p.(concatNow) (λ x, parts <- set_index x.(c_parts) p.(partIndex) (λ _, strcpy_to 50 value);; Done (MkConcatenation x.(c_name) x.(c_partCount) parts)) t;;
    Done (MkParser t p.(concatNow) (p.(partIndex) + 1))
  else if is_key name "stderr" then
    keep (on_node (t.(nodeCount) - 1) (λ n, v <- strcpy_to 50 value;; Done (MkNode n.(n_name) n.(n_command) v n.(n_fileName) n.(n_inputFile) n.(n_outputFile))) t)
  else if is_key name "file" then
    keep (on_node (t.(nodeCount) - 1) (λ n, v <- strcpy_to 50 value;; Done (MkNode n.(n_name) n.(n_command) n.(n_errorTo) v 1 n.(n_outputFile))) t)
  else if is_key name "name" then
    keep (on_node (t.(nodeCount) - 1) (λ n, v <- strcpy_to 50 value;; Done (MkNode n.(n_name) n.(n_command) n.(n_errorTo) v n.(n_inputFile) 1)) t)
  else Done p.

(** One round of the loop of [file]. *)
Definition file_line (line : list Z) (p : parser) : c_outcome parser :=
  let line := cstr line in
  if CString.hd0 line =? 10 then Done p else
  let '(name, rest) := strtok 61 line in
  let '(value, _) := strtok 10 rest in
  name <- the name;; file_entry name value p.

Fixpoint file_lines (lines : list (list Z)) (p : parser) : c_outcome parser :=
  match lines with [] => Done p | line :: lines' => p <- file_line line p;; file_lines lines' p end.

(** [content] is what the file holds; the program exits when it cannot be opened. *)
Definition file (content : option (list Z)) : c_outcome tables :=
  match content with
  | None => Exits 1
  | Some s => p <- file_lines (fgets_lines (length s) lineLength s) (MkParser tables0 (-1) 0);; Done p.(ps_tables)
  end.

(** ** Looking up names *)

Definition search {A} (name_of : A → list Z) (l : list A) (count : Z) (name : list Z) : Z :=
  match list_find (λ x, name_of x = name) (take (Z.to_nat count) l) with Some (i, _) => Z.of_nat i | None => -1 end.
Definition nodeSearch (t : tables) (name : list Z) : Z := search n_name t.(nodes) t.(nodeCount) name.
Definition pipeSearch (t : tables) (name : list Z) : Z := search p_name t.(pipes) t.(pipeCount) name.
Definition concatSearch (t : tables) (name : list Z) : Z := search c_name t.(concatenations) t.(concatCount) name.

(** ** The arguments of a command *)

(** One token: the quotes around it go if it has both. *)
Definition unquote (token : list Z) : list Z :=
  match token with
  | q :: rest => if (q =? 39) || (q =? 34) then (if bool_decide (q ∈ rest) then upto (Z.eqb q) rest else token) else token
  | [] => []
  end.

(** The loop of [nodeExecution]: at most [maxParts - 1] arguments. *)
Fixpoint arguments (k : nat) (rest : list Z) : list (list Z) :=
  match k with
  | O => []
  | S k' => match strtok 32 rest with (Some token, rest') => unquote token :: arguments k' rest' | (None, _) => [] end
  end.
Definition args_of (n : Node) : list (list Z) := arguments (maxParts - 1) n.(n_command).

(** ** Execution *)

Variant posixE : Type → Type :=
| PFork : posixE Z
| PExit (status : Z) : posixE void
| PWaitpid (pid : Z) : posixE unit
| PWait : posixE unit
| PPipe : posixE (option (Z * Z))
| PDup2 (old new : Z) : posixE unit
| PClose (fd : Z) : posixE unit
| POpen (path : list Z) : posixE Z            (* for reading *)
| PExec (args : list (list Z)) : posixE unit  (* returns when it fails *)
| PPerror (msg : list Z) : posixE unit
| PCrash : posixE void.                       (* what C does not define *)

(** The calls of the two functions that call each other. *)
Variant execE : Type → Type :=
| XPipe (pipeIndex output : Z) : execE unit
| XConcat (concatIndex output : Z) : execE unit.

Section execution.
Context (t : tables).
Context {E : Type → Type} `{posixE -< E}.
Close Scope outcome_scope.
Notation "x <- c1 ;; c2" := (ITree.bind c1 (λ x, c2)) (at level 100, c1 at next level, right associativity).
Notation "c1 ;; c2" := (ITree.bind c1 (λ _, c2)) (at level 100, right associativity).

Definition give {A} (a : A) : itree E A := go (RetF a).
Definition sys {X} (e : posixE X) : itree E X := trigger e.
Definition exit {A} (status : Z) : itree E A := x <- sys (PExit status);; match x with end.
Definition crash {A} : itree E A := x <- sys PCrash;; match x with end.

Definition STDIN_FILENO : Z := 0.
Definition STDOUT_FILENO : Z := 1.
Definition STDERR_FILENO : Z := 2.

Definition redirect (fd std : Z) : itree E unit := if fd =? std then give tt else sys (PDup2 fd std);; sys (PClose fd).

Definition nodeExecution (nodeIndex input output error : Z) : itree E unit :=
  pid <- sys PFork;;
  (if pid =? 0 then
     redirect input STDIN_FILENO;;
     redirect output STDOUT_FILENO;;
     redirect error STDERR_FILENO;;
     match at_index t.(nodes) nodeIndex with
     | Done n =>
         (if n.(n_inputFile) =? 0 then give tt else
            fd <- sys (POpen n.(n_fileName));;
            if fd =? -1 then sys (PPerror (str "open"));; exit 1 else
            sys (PDup2 fd STDIN_FILENO);; sys (PClose fd));;
         (if bool_decide (args_of n = []) then crash else give tt);;
         sys (PExec (args_of n));;
         exit 1
     | _ => crash
     end
   else give tt);;
  sys (PWaitpid pid).

End execution.

Section calls.
Context (t : tables).
Notation "x <- c1 ;; c2" := (ITree.bind c1 (λ x, c2)) (at level 100, c1 at next level, right associativity).
Notation "c1 ;; c2" := (ITree.bind c1 (λ _, c2)) (at level 100, right associativity).
Notation X := (execE +' posixE).

(** The case of a pipe from "stdout_to_stderr_for_mkdir": the errors of the node mkdir_attempt go to the node word_count. *)
Definition errors_of_mkdir (output : Z) : itree X unit :=
  r <- sys PPipe;;
  match r with
  | None => sys (PPerror (str "pipe"));; exit 1
  | Some (rd, wr) =>
      mkdir_pid <- sys PFork;;
      if mkdir_pid =? 0 then
        sys (PClose rd);;
        sys (PDup2 wr STDERR_FILENO);;
        sys (PClose wr);;
        nodeExecution t (nodeSearch t (str "mkdir_attempt")) STDIN_FILENO STDOUT_FILENO STDERR_FILENO;;
        exit 0
      else
      sys (PClose wr);;
      nodeExecution t (nodeSearch t (str "word_count")) rd output STDERR_FILENO;;
      sys (PClose rd);;
      exit 0
  end.

Definition pipe_body (pipeIndex output : Z) : itree X unit :=
  r <- sys PPipe;;
  match r, at_index t.(pipes) pipeIndex with
  | None, _ => sys (PPerror (str "pipe"));; exit 1
  | Some (rd, wr), Done p =>
      let fromIndex := nodeSearch t p.(p_from) in
      let toIndex := nodeSearch t p.(p_to) in
      let fromConcatIndex := concatSearch t p.(p_from) in
      let fromPipeIndex := pipeSearch t p.(p_from) in
      pid <- sys PFork;;
      if pid =? 0 then
        sys (PClose rd);;
        (if is_key p.(p_from) "stdout_to_stderr_for_mkdir" then errors_of_mkdir output
         else if is_key p.(p_from) "read_pipe" then nodeExecution t (nodeSearch t (str "read_file")) STDIN_FILENO wr STDERR_FILENO
         else if negb (fromConcatIndex =? -1) then trigger (XConcat fromConcatIndex wr)
         else if negb (fromPipeIndex =? -1) then trigger (XPipe fromPipeIndex wr)
         else if negb (fromIndex =? -1) then nodeExecution t fromIndex STDIN_FILENO wr STDERR_FILENO
         else exit 1);;
        sys (PClose wr);;
        exit 0
      else if pid <? 0 then sys (PPerror (str "fork failed"));; exit 1
      else
      sys (PClose wr);;
      (if negb (toIndex =? -1) then nodeExecution t toIndex rd output STDERR_FILENO else exit 1);;
      sys (PClose rd);;
      sys PWait
  | Some _, _ => crash
  end.

Fixpoint concat_parts (k : nat) (i : Z) (parts : list (list Z)) (output : Z) : itree X unit :=
  match k with
  | O => give tt
  | S k' =>
      match at_index parts i with
      | Done part =>
          let nodeIndex := nodeSearch t part in
          let pipeIndex := pipeSearch t part in
          (if negb (nodeIndex =? -1) then nodeExecution t nodeIndex STDIN_FILENO output STDERR_FILENO
           else if negb (pipeIndex =? -1) then trigger (XPipe pipeIndex output)
           else exit 1);;
          concat_parts k' (i + 1) parts output
      | _ => crash
      end
  end.
Definition concat_body (concatIndex output : Z) : itree X unit :=
  match at_index t.(concatenations) concatIndex with
  | Done c => concat_parts (Z.to_nat c.(c_partCount)) 0 c.(c_parts) output
  | _ => crash
  end.

Definition exec_body : execE ~> itree X :=
  λ _ e, match e with XPipe i output => pipe_body i output | XConcat i output => concat_body i output end.

Definition pipeExecution (pipeIndex output : Z) : itree posixE unit := mrec exec_body (XPipe pipeIndex output).
Definition concatExecution (concatIndex output : Z) : itree posixE unit := mrec exec_body (XConcat concatIndex output).
End calls.

(** The value [main] returns; [content] is what the file of the first argument holds. *)
Definition main (content : option (list Z)) (argv : list (list Z)) : itree posixE Z :=
  match argv with
  | [_; _; name] =>
      match file content with
      | Done t =>
          let pipeIndex := pipeSearch t name in
          if pipeIndex =? -1 then give 1 else ITree.bind (pipeExecution t pipeIndex (-1)) (λ _, give 0)
      | Exits n => exit n
      | Undefined => crash
      end
  | _ => give 1
  end.

(** ** The tables are well formed *)

(** A string of an array of [n] characters. *)
Definition fits (n : nat) (s : list Z) : Prop := (length s < n)%nat ∧ Forall (λ c, c ≠ 0 ∧ c ≠ 10) s.

Definition node_ok (n : Node) : Prop :=
  fits 50 n.(n_name) ∧ fits commandLength n.(n_command) ∧ fits 50 n.(n_errorTo) ∧ fits 50 n.(n_fileName) ∧
  (n.(n_inputFile) = 0 ∨ n.(n_inputFile) = 1) ∧ (n.(n_outputFile) = 0 ∨ n.(n_outputFile) = 1).
Definition pipe_ok (p : Pipe) : Prop := fits 50 p.(p_name) ∧ fits 50 p.(p_from) ∧ fits 50 p.(p_to).
Definition concat_ok (c : Concatenation) : Prop :=
  fits 50 c.(c_name) ∧ is_s32 c.(c_partCount) ∧ length c.(c_parts) = maxParts ∧ Forall (fits 50) c.(c_parts).

Definition counted {A} (ok : A → Prop) (l : list A) (n : Z) : Prop := length l = maxNodes ∧ Forall ok l ∧ 0 ≤ n ≤ Z.of_nat maxNodes.
Definition tables_ok (t : tables) : Prop :=
  counted node_ok t.(nodes) t.(nodeCount) ∧ counted pipe_ok t.(pipes) t.(pipeCount) ∧ counted concat_ok t.(concatenations) t.(concatCount).
Definition parser_ok (p : parser) : Prop := tables_ok p.(ps_tables) ∧ -1 ≤ p.(concatNow) < Z.of_nat maxNodes ∧ 0 ≤ p.(partIndex).

Lemma fits_nil n : (0 < n)%nat → fits n [].
Proof. intros H. split; [done|constructor]. Qed.

Lemma counted_set {A} (ok : A → Prop) l l' i f n : counted ok l n → set_index l i f = Done l' → (∀ x y, ok x → f x = Done y → ok y) →
  counted ok l' n ∧ 0 ≤ i < Z.of_nat maxNodes.
Proof. intros (Hl & Hf & Hn) Hs Hok. destruct (set_index_Forall ok l l' i f Hs Hf Hok) as (Hi & Hl' & Hf'). rewrite Hl in *. unfold counted. split_and!; done || lia. Qed.

(** A string that [strtok] found in a line. *)
Definition clean (value : option (list Z)) : Prop := ∀ v, value = Some v → Forall (λ c, c ≠ 0 ∧ c ≠ 10) v.

Lemma strcpy_fits n value v : clean value → strcpy_to n value = Done v → fits n v.
Proof. intros Hc [-> Hl]%strcpy_to_done. split; [done|]. by apply Hc. Qed.

Lemma node_step i f t t' : tables_ok t → on_node i f t = Done t' → (∀ x y, node_ok x → f x = Done y → node_ok y) →
  tables_ok t' ∧ 0 ≤ i < Z.of_nat maxNodes ∧ t'.(nodeCount) = t.(nodeCount) ∧ t'.(pipeCount) = t.(pipeCount) ∧ t'.(concatCount) = t.(concatCount).
Proof.
  intros (Hn & Hp & Hc) Hr Hf. unfold on_node in Hr. destruct (set_index _ i f) as [l| |] eqn:E; [|done|done]. injection Hr as <-.
  destruct (counted_set _ _ _ _ _ _ Hn E Hf). unfold tables_ok. split_and!; done || lia.
Qed.
Lemma pipe_step i f t t' : tables_ok t → on_pipe i f t = Done t' → (∀ x y, pipe_ok x → f x = Done y → pipe_ok y) →
  tables_ok t' ∧ 0 ≤ i < Z.of_nat maxNodes ∧ t'.(nodeCount) = t.(nodeCount) ∧ t'.(pipeCount) = t.(pipeCount) ∧ t'.(concatCount) = t.(concatCount).
Proof.
  intros (Hn & Hp & Hc) Hr Hf. unfold on_pipe in Hr. destruct (set_index _ i f) as [l| |] eqn:E; [|done|done]. injection Hr as <-.
  destruct (counted_set _ _ _ _ _ _ Hp E Hf). unfold tables_ok. split_and!; done || lia.
Qed.
Lemma concat_step i f t t' : tables_ok t → on_concat i f t = Done t' → (∀ x y, concat_ok x → f x = Done y → concat_ok y) →
  tables_ok t' ∧ 0 ≤ i < Z.of_nat maxNodes ∧ t'.(nodeCount) = t.(nodeCount) ∧ t'.(pipeCount) = t.(pipeCount) ∧ t'.(concatCount) = t.(concatCount).
Proof.
  intros (Hn & Hp & Hc) Hr Hf. unfold on_concat in Hr. destruct (set_index _ i f) as [l| |] eqn:E; [|done|done]. injection Hr as <-.
  destruct (counted_set _ _ _ _ _ _ Hc E Hf). unfold tables_ok. split_and!; done || lia.
Qed.

Lemma atoi_s32 s : is_s32 (atoi s).
Proof. apply s32_range. Qed.

(** The branches of [file_entry] have one of these shapes. *)
Lemma keep_ok (m : c_outcome tables) now part p' : (t <- m;; Done (MkParser t now part)) = Done p' → (∀ t, m = Done t → parser_ok (MkParser t now part)) → parser_ok p'.
Proof. destruct m as [t| |]; [|done|done]. intros [= <-] H. by apply H. Qed.
Lemma obind_done {A B} (m : c_outcome A) (f : A → c_outcome B) b : (x <- m;; f x) = Done b → ∃ a, m = Done a ∧ f a = Done b.
Proof. destruct m as [a| |]; [|done|done]. by exists a. Qed.

Ltac copied Hc :=
  intros ? ? Hok Heq; apply obind_done in Heq as (w & Hw & Heq); injection Heq as <-;
  first [apply (strcpy_fits _ _ _ Hc) in Hw|idtac].

Lemma file_entry_ok name value p p' : parser_ok p → clean value → file_entry name value p = Done p' → parser_ok p'.
Proof.
  intros (Ht & Hnow & Hpart) Hc He. unfold file_entry in He.
  repeat match type of He with (if ?b then _ else _) = Done _ => destruct b end.
  - apply (keep_ok _ _ _ _ He). intros t Hr. destruct (node_step _ _ _ _ Ht Hr) as (? & _); [|done]. copied Hc. by destruct Hok as (? & ? & ? & ? & ? & ?).
  - apply obind_done in He as (t & Hr & [= <-]). destruct (node_step _ _ _ _ Ht Hr) as ((H1 & H2 & H3) & Hi & E1 & _); [copied Hc; by destruct Hok as (? & ? & ? & ? & ? & ?)|].
    split; [|done]. split_and!; [|done|done]. destruct H1 as (? & ? & ?). unfold counted. cbn [ps_tables nodes nodeCount]. split_and!; [done|done|lia|lia].
  - apply (keep_ok _ _ _ _ He). intros t Hr. destruct (pipe_step _ _ _ _ Ht Hr) as (? & _); [|done]. copied Hc. by destruct Hok as (? & ? & ?).
  - apply (keep_ok _ _ _ _ He). intros t Hr. destruct (pipe_step _ _ _ _ Ht Hr) as (? & _); [|done]. copied Hc. by destruct Hok as (? & ? & ?).
  - apply obind_done in He as (t & Hr & [= <-]). destruct (pipe_step _ _ _ _ Ht Hr) as ((H1 & H2 & H3) & Hi & _ & E1 & _); [copied Hc; by destruct Hok as (? & ? & ?)|].
    split; [|done]. split_and!; [done| |done]. destruct H2 as (? & ? & ?). unfold counted. cbn [ps_tables pipes pipeCount]. split_and!; [done|done|lia|lia].
  - apply obind_done in He as (t & Hr & [= <-]). destruct (concat_step _ _ _ _ Ht Hr) as ((H1 & H2 & H3) & Hi & _ & _ & E1); [copied Hc; by destruct Hok as (? & ? & ? & ?)|].
    split; [|cbn [concatNow partIndex]; lia]. split_and!; [done|done|]. destruct H3 as (? & ? & ?). unfold counted. cbn [ps_tables concatenations concatCount]. split_and!; [done|done|lia|lia].
  - apply (keep_ok _ _ _ _ He). intros t Hr. destruct (concat_step _ _ _ _ Ht Hr) as (? & _); [|done]. copied Hc. destruct Hok as (? & ? & ? & ?). split; [done|]. split; [apply atoi_s32|done].
  - apply obind_done in He as (t & Hr & [= <-]). destruct (concat_step _ _ _ _ Ht Hr) as (? & _); [|split; [done|cbn [concatNow partIndex]; lia]].
    intros x y (O1 & O2 & O3 & O4) Heq. apply obind_done in Heq as (parts & Hs & [= <-]). apply (set_index_Forall (fits 50)) in Hs as (_ & Hl & Hf); [|done|intros; by eapply strcpy_fits].
    split; [done|]. split; [done|]. split; [cbn [c_parts]; congruence|done].
  - apply (keep_ok _ _ _ _ He). intros t Hr. destruct (node_step _ _ _ _ Ht Hr) as (? & _); [|done]. copied Hc. by destruct Hok as (? & ? & ? & ? & ? & ?).
  - apply (keep_ok _ _ _ _ He). intros t Hr. destruct (node_step _ _ _ _ Ht Hr) as (? & _); [|done]. copied Hc. destruct Hok as (? & ? & ? & ? & ? & ?). split_and!; try done. by right.
  - apply (keep_ok _ _ _ _ He). intros t Hr. destruct (node_step _ _ _ _ Ht Hr) as (? & _); [|done]. copied Hc. destruct Hok as (? & ? & ? & ? & ? & ?). split_and!; try done. by right.
  - by injection He as <-.
Qed.

Lemma file_line_ok line p p' : parser_ok p → file_line line p = Done p' → parser_ok p'.
Proof.
  intros Hp. unfold file_line. destruct (_ =? 10); [by intros [= <-]|]. destruct (strtok 61 (cstr line)) as [name rest] eqn:E1. destruct (strtok 10 rest) as [value rest'] eqn:E2.
  destruct name as [name|]; [|done]. cbn [the obind]. apply file_entry_ok; [done|]. intros v ->. pose proof (cstr_nonzero line) as Hn.
  destruct (strtok_clean _ _ _ _ E1) as (_ & _ & _ & H1). destruct (H1 _ Hn) as [_ Hr]. destruct (strtok_clean _ _ _ _ E2) as (_ & H10 & _ & H2). destruct (H2 _ Hr) as [Hv _].
  rewrite Forall_forall in *. intros c Hin. split; [by apply Hv|by apply H10].
Qed.

Lemma file_lines_ok lines p p' : parser_ok p → file_lines lines p = Done p' → parser_ok p'.
Proof.
  revert p. induction lines as [|line lines IH]; intros p Hp He; [by injection He as <-|]. cbn [file_lines] in He. apply obind_done in He as (p1 & H1 & H2).
  eapply IH; [by eapply file_line_ok|exact H2].
Qed.

Lemma tables0_ok : tables_ok tables0.
Proof.
  assert (∀ n, (0 < n)%nat → fits n []) as Hn by (intros; by apply fits_nil).
  unfold tables_ok, counted. cbn [tables0 nodes nodeCount pipes pipeCount concatenations concatCount]. rewrite !length_replicate.
  split_and!; try done; try (unfold maxNodes; lia); apply Forall_replicate.
  - split_and!; try (apply Hn; unfold commandLength; lia); by left.
  - split_and!; apply Hn; lia.
  - split_and!; [apply Hn; lia|done|done|apply Forall_replicate; apply Hn; lia].
Qed.

(** Whatever the flow file holds, when [file] returns, every string it has stored fits into its array with its NUL
    and holds no newline, the counts are within the tables and the flags are 0 or 1. *)
Theorem file_type content t : file content = Done t → tables_ok t.
Proof.
  destruct content as [s|]; [|done]. unfold file. intros He. apply obind_done in He as (p & H1 & [= <-]). eapply (file_lines_ok _ _ p); [|exact H1].
  split; [apply tables0_ok|]. cbn [concatNow partIndex]. unfold maxNodes. lia.
Qed.

(** ** A flow file read back *)

Inductive item : Type :=
| INode (name command : list Z)
| IPipe (name from to : list Z)
| IConcat (name : list Z) (parts : list (list Z)).

Definition entry (key : list Z) (value : list Z) : list Z := key ++ 61 :: value ++ [10].
Definition num (n : nat) : list Z := if (n <? 10)%nat then [48 + Z.of_nat n] else [49; 38 + Z.of_nat n].
(** The lines of an item, with an empty one behind. *)
Definition item_lines (i : item) : list (list Z) :=
  match i with
  | INode name command => [entry (str "node") name; entry (str "command") command]
  | IPipe name from to => [entry (str "pipe") name; entry (str "from") from; entry (str "to") to]
  | IConcat name parts =>
      entry (str "concatenate") name :: entry (str "parts") (num (length parts)) :: imap (λ i part, entry (str "part_" ++ num i) part) parts
  end ++ [[10]].
Definition print_flow (items : list item) : list Z := concat (items ≫= item_lines).

(** What the file means: its nodes, pipes and concatenations, in their order. *)
Record flow : Type := MkFlow { f_nodes : list (list Z * list Z); f_pipes : list (list Z * list Z * list Z); f_concats : list (list Z * list (list Z)) }.
Definition add_item (f : flow) (i : item) : flow :=
  match i with
  | INode name command => MkFlow (f.(f_nodes) ++ [(name, command)]) f.(f_pipes) f.(f_concats)
  | IPipe name from to => MkFlow f.(f_nodes) (f.(f_pipes) ++ [(name, from, to)]) f.(f_concats)
  | IConcat name parts => MkFlow f.(f_nodes) f.(f_pipes) (f.(f_concats) ++ [(name, parts)])
  end.
Definition flow_of (items : list item) : flow := foldl add_item (MkFlow [] [] []) items.

Definition pad {A B} (f : A → B) (b : B) (n : nat) (l : list A) : list B := (f <$> l) ++ replicate (n - length l) b.
Definition node_of (x : list Z * list Z) : Node := MkNode x.1 x.2 [] [] 0 0.
Definition pipe_of (x : list Z * list Z * list Z) : Pipe := MkPipe x.1.1 x.1.2 x.2.
Definition concat_of (x : list Z * list (list Z)) : Concatenation := MkConcatenation x.1 (Z.of_nat (length x.2)) (pad id [] maxParts x.2).
Definition tables_of (f : flow) : tables :=
  MkTables (pad node_of node0 maxNodes f.(f_nodes)) (Z.of_nat (length f.(f_nodes)))
    (pad pipe_of pipe0 maxNodes f.(f_pipes)) (Z.of_nat (length f.(f_pipes)))
    (pad concat_of concat0 maxNodes f.(f_concats)) (Z.of_nat (length f.(f_concats))).

(** A value that can be written and read back. *)
Definition value_ok (n : nat) (v : list Z) : Prop := v ≠ [] ∧ fits n v.
Definition item_ok (i : item) : Prop :=
  match i with
  | INode name command => value_ok 50 name ∧ value_ok commandLength command
  | IPipe name from to => value_ok 50 name ∧ value_ok 50 from ∧ value_ok 50 to
  | IConcat name parts => value_ok 50 name ∧ (length parts ≤ maxParts)%nat ∧ Forall (value_ok 50) parts
  end.
Definition flow_small (f : flow) : Prop := (length f.(f_nodes) ≤ maxNodes ∧ length f.(f_pipes) ≤ maxNodes ∧ length f.(f_concats) ≤ maxNodes)%nat.

(** An entry is one line, and its two parts are found again. *)
Lemma entry_line key v n p : key ≠ [] → Forall (λ c, c ≠ 0 ∧ c ≠ 61) key → CString.hd0 key ≠ 10 → value_ok n v → file_line (entry key v) p = file_entry key (Some v) p.
Proof.
  intros Hk Hkey Hk10 (Hv & _ & Hvc). unfold file_line, entry.
  assert (Forall (λ c, c ≠ 0) (key ++ 61 :: v ++ [10])) as Hn.
  { apply Forall_app. split; [eapply Forall_impl; [exact Hkey|]; by intros c [? _]|]. constructor; [done|]. apply Forall_app. split; [eapply Forall_impl; [exact Hvc|]; by intros c [? _]|by constructor]. }
  rewrite cstr_id by done. replace (CString.hd0 (key ++ 61 :: v ++ [10]) =? 10) with false by (destruct key as [|c key]; [done|]; symmetry; apply Z.eqb_neq; exact Hk10).
  rewrite strtok_token; [|done|eapply Forall_impl; [exact Hkey|]; by intros c [_ ?]]. rewrite strtok_token; [done|done|eapply Forall_impl; [exact Hvc|]; by intros c [_ ?]].
Qed.

Lemma strcpy_ok n v : value_ok n v → strcpy_to n (Some v) = Done v.
Proof. intros (_ & Hl & _). unfold strcpy_to. cbn [the obind]. by rewrite (proj2 (Nat.ltb_lt _ _)). Qed.

(** The next free element of a table. *)
Lemma pad_next {A B} (f : A → B) b n l : (length l < n)%nat → pad f b n l !! length l = Some b.
Proof. intros Hl. unfold pad. rewrite lookup_app_r, length_fmap, Nat.sub_diag by (rewrite length_fmap; lia). apply lookup_replicate. split; [done|lia]. Qed.
Lemma pad_insert {A B} (f : A → B) b n l x : (length l < n)%nat → <[length l := f x]> (pad f b n l) = pad f b n (l ++ [x]).
Proof.
  intros Hl. unfold pad. rewrite insert_app_r_alt, length_fmap, Nat.sub_diag by (rewrite length_fmap; lia). rewrite fmap_app, length_app. cbn [length fmap list_fmap].
  replace (n - length l)%nat with (S (n - (length l + 1))) by lia. cbn [replicate insert list_insert]. by rewrite <- app_assoc.
Qed.

(** The branch of a keyword. *)
Ltac branch :=
  unfold file_entry; cbn [ps_tables concatNow partIndex];
  repeat match goal with |- context [is_key (str ?a) ?b] => let r := eval vm_compute in (is_key (str a) b) in change (is_key (str a) b) with r; cbv iota end.
(** The line is an entry with the value [v], of an array of [n] characters, for the element [x] of its table. *)
Ltac keyword v n i Hi Hx :=
  rewrite (entry_line _ v n); [|done|by apply (bool_decide_unpack _)|done|done]; branch; unfold on_node, on_pipe, on_concat; rewrite Hi; erewrite (set_index_run _ i); [|exact Hx|rewrite strcpy_ok by done; reflexivity]; done.

Section keywords.
Context (t : tables) (now part : Z) (i : nat).
Notation P t' := (MkParser t' now part).
Notation with_node n := (λ k, P (MkTables (<[i := n]> t.(nodes)) k t.(pipes) t.(pipeCount) t.(concatenations) t.(concatCount))).
Notation with_pipe x := (λ k, P (MkTables t.(nodes) t.(nodeCount) (<[i := x]> t.(pipes)) k t.(concatenations) t.(concatCount))).

Lemma line_node v x : value_ok 50 v → t.(nodeCount) = Z.of_nat i → t.(nodes) !! i = Some x →
  file_line (entry (str "node") v) (P t) = Done (with_node (MkNode v x.(n_command) x.(n_errorTo) x.(n_fileName) x.(n_inputFile) x.(n_outputFile)) t.(nodeCount)).
Proof. intros Hv Hi Hx. keyword v 50%nat i Hi Hx. Qed.

Lemma line_command v x : value_ok commandLength v → t.(nodeCount) = Z.of_nat i → t.(nodes) !! i = Some x →
  file_line (entry (str "command") v) (P t) = Done (with_node (MkNode x.(n_name) v x.(n_errorTo) x.(n_fileName) x.(n_inputFile) x.(n_outputFile)) (t.(nodeCount) + 1)).
Proof. intros Hv Hi Hx. keyword v commandLength i Hi Hx. Qed.

Lemma line_pipe v x : value_ok 50 v → t.(pipeCount) = Z.of_nat i → t.(pipes) !! i = Some x →
  file_line (entry (str "pipe") v) (P t) = Done (with_pipe (MkPipe v x.(p_from) x.(p_to)) t.(pipeCount)).
Proof. intros Hv Hi Hx. keyword v 50%nat i Hi Hx. Qed.

Lemma line_from v x : value_ok 50 v → t.(pipeCount) = Z.of_nat i → t.(pipes) !! i = Some x →
  file_line (entry (str "from") v) (P t) = Done (with_pipe (MkPipe x.(p_name) v x.(p_to)) t.(pipeCount)).
Proof. intros Hv Hi Hx. keyword v 50%nat i Hi Hx. Qed.

Lemma line_to v x : value_ok 50 v → t.(pipeCount) = Z.of_nat i → t.(pipes) !! i = Some x →
  file_line (entry (str "to") v) (P t) = Done (with_pipe (MkPipe x.(p_name) x.(p_from) v) (t.(pipeCount) + 1)).
Proof. intros Hv Hi Hx. keyword v 50%nat i Hi Hx. Qed.

Notation with_concat x := (λ k, MkTables t.(nodes) t.(nodeCount) t.(pipes) t.(pipeCount) (<[i := x]> t.(concatenations)) k).

Lemma line_concatenate v x : value_ok 50 v → t.(concatCount) = Z.of_nat i → t.(concatenations) !! i = Some x →
  file_line (entry (str "concatenate") v) (P t) = Done (MkParser (with_concat (MkConcatenation v x.(c_partCount) x.(c_parts)) (Z.of_nat i + 1)) (Z.of_nat i) 0).
Proof. intros Hv Hi Hx. keyword v 50%nat i Hi Hx. Qed.

Lemma line_parts n x : (n ≤ maxParts)%nat → now = Z.of_nat i → t.(concatenations) !! i = Some x →
  file_line (entry (str "parts") (num n)) (P t) = Done (P (with_concat (MkConcatenation x.(c_name) (Z.of_nat n) x.(c_parts)) t.(concatCount))).
Proof.
  intros Hn Hi Hx. assert (value_ok 50 (num n) ∧ atoi (num n) = Z.of_nat n) as [Hv Ha].
  { unfold maxParts in Hn. do 11 (destruct n as [|n]; [split; [split; [done|]; split; [simpl; lia|by apply (bool_decide_unpack _)]|done]|]). lia. }
  rewrite (entry_line _ (num n) 50); [|done|by apply (bool_decide_unpack _)|done|done]. branch. unfold on_concat. rewrite Hi. erewrite (set_index_run _ i); [|exact Hx|cbn [the obind]; rewrite Ha; reflexivity]. done.
Qed.
End keywords.

Lemma is_key_part k key : (∀ s, str key ≠ str "part_" ++ s) → is_key (str "part_" ++ k) key = false.
Proof. intros H. apply bool_decide_eq_false. intros E. by apply (H k). Qed.

(** A line of a part: whatever the number in its name, the part goes to the next place. *)
Lemma line_part t i j k v x : value_ok 50 v → Forall (λ c, c ≠ 0 ∧ c ≠ 61) k → t.(concatenations) !! i = Some x → (j < length x.(c_parts))%nat →
  file_line (entry (str "part_" ++ k) v) (MkParser t (Z.of_nat i) (Z.of_nat j)) =
    Done (MkParser (MkTables t.(nodes) t.(nodeCount) t.(pipes) t.(pipeCount) (<[i := MkConcatenation x.(c_name) x.(c_partCount) (<[j := v]> x.(c_parts))]> t.(concatenations)) t.(concatCount))
      (Z.of_nat i) (Z.of_nat (S j))).
Proof.
  intros Hv Hk Hx Hj. rewrite (entry_line _ v 50); [|done|apply Forall_app; split; [by apply (bool_decide_unpack _)|done]|done|done]. unfold file_entry. cbn [ps_tables concatNow partIndex].
  rewrite !is_key_part by (intros s; done). change (strncmp 5 (str "part_" ++ k) (str "part_") =? 0) with true. cbv iota.
  destruct (lookup_lt_is_Some_2 _ _ Hj) as [w Hw]. unfold on_concat. rewrite (set_index_run _ i x (MkConcatenation x.(c_name) x.(c_partCount) (<[j := v]> x.(c_parts))) _ Hx).
  - cbn [obind]. by replace (Z.of_nat j + 1) with (Z.of_nat (S j)) by lia.
  - by rewrite (set_index_run _ j w v _ Hw) by (by apply strcpy_ok).
Qed.

Lemma file_lines_app a b p p' : file_lines a p = Done p' → file_lines (a ++ b) p = file_lines b p'.
Proof.
  revert p. induction a as [|l a IH]; intros p H; [by injection H as ->|]. cbn [app file_lines] in *. apply obind_done in H as (p1 & H1 & H2). rewrite H1. cbn [obind]. by apply IH.
Qed.

Lemma file_line_blank p : file_line [10] p = Done p.
Proof. done. Qed.

(** The parts of a concatenation, [before] of which are read. *)
Lemma part_lines_run t i c n (g : nat → list Z) rest : (∀ j, (j < length rest)%nat → Forall (λ c, c ≠ 0 ∧ c ≠ 61) (g j)) → ∀ before,
  t.(concatenations) !! i = Some (MkConcatenation c n (pad id [] maxParts before)) → (length before + length rest ≤ maxParts)%nat → Forall (value_ok 50) rest →
  file_lines (imap (λ j part, entry (str "part_" ++ g j) part) rest) (MkParser t (Z.of_nat i) (Z.of_nat (length before))) =
    Done (MkParser (MkTables t.(nodes) t.(nodeCount) t.(pipes) t.(pipeCount) (<[i := MkConcatenation c n (pad id [] maxParts (before ++ rest))]> t.(concatenations)) t.(concatCount))
      (Z.of_nat i) (Z.of_nat (length (before ++ rest)))).
Proof.
  revert g t. induction rest as [|v rest IH]; intros g t Hg before Hx Hl Hr.
  - cbn [imap file_lines]. rewrite app_nil_r, list_insert_id by done. by destruct t.
  - apply Forall_cons in Hr as [Hv Hr]. cbn [imap file_lines]. simpl in Hl. rewrite (line_part t i (length before) (g 0%nat) v _ Hv (Hg 0%nat ltac:(simpl; lia)) Hx).
    2: { cbn [c_parts]. unfold pad. rewrite length_app, length_fmap, length_replicate. lia. }
    cbn [obind c_name c_partCount c_parts]. pose proof (pad_insert id ([] : list Z) maxParts before v ltac:(lia)) as Hp. cbn [id] in Hp. rewrite Hp.
    change (λ x, (λ j part, entry (str "part_" ++ g j) part) (S x)) with (λ j part, entry (str "part_" ++ g (S j)) part). replace (S (length before)) with (length (before ++ [v])) by (rewrite length_app; simpl; lia).
    etrans; [apply (IH (λ j, g (S j))); cbn [concatenations]|].
    + intros j Hj. apply Hg. simpl. lia.
    + apply list_lookup_insert_eq. by eapply lookup_lt_Some.
    + rewrite length_app. simpl. lia.
    + done.
    + cbn [nodes nodeCount pipes pipeCount concatenations concatCount]. by rewrite list_insert_insert_eq, <- app_assoc.
Qed.

Lemma num_clean n : (n ≤ maxParts)%nat → Forall (λ c, c ≠ 0 ∧ c ≠ 61) (num n).
Proof. unfold maxParts. intros Hn. do 11 (destruct n as [|n]; [by apply (bool_decide_unpack _)|]). lia. Qed.

(** Reading the lines of an item adds it to the tables. *)
Lemma item_run f i now part : item_ok i → flow_small (add_item f i) → ∃ now' part',
  file_lines (item_lines i) (MkParser (tables_of f) now part) = Done (MkParser (tables_of (add_item f i)) now' part').
Proof.
  intros Hi (S1 & S2 & S3). destruct i as [name command|name from to|name parts]; unfold item_lines; cbn [add_item f_nodes f_pipes f_concats] in *; rewrite ?length_app in *; simpl in S1, S2, S3.
  - destruct Hi as [Hn Hc]. exists now, part. cbn [app file_lines]. pose proof (pad_next node_of node0 maxNodes f.(f_nodes) ltac:(lia)) as Hx.
    erewrite line_node; [|done|reflexivity|exact Hx]. cbn [obind]. erewrite line_command; [|done|reflexivity|cbn [nodes tables_of]; apply list_lookup_insert_eq; by eapply lookup_lt_Some].
    cbn [obind]. rewrite file_line_blank. cbn [obind file_lines nodes nodeCount pipes pipeCount concatenations concatCount tables_of]. rewrite list_insert_insert_eq. cbn [n_name n_errorTo n_fileName n_inputFile n_outputFile node0].
    unfold tables_of. cbn [f_nodes f_pipes f_concats]. rewrite <- (pad_insert node_of node0 maxNodes f.(f_nodes) (name, command)) by lia. rewrite length_app. cbn [length]. do 3 f_equal. lia.
  - destruct Hi as (Hn & Hf & Ht). exists now, part. cbn [app file_lines]. pose proof (pad_next pipe_of pipe0 maxNodes f.(f_pipes) ltac:(lia)) as Hx. pose proof (lookup_lt_Some _ _ _ Hx) as Hlt.
    erewrite line_pipe; [|done|reflexivity|exact Hx]. cbn [obind]. erewrite line_from; [|done|reflexivity|cbn [pipes tables_of]; by apply list_lookup_insert_eq]. cbn [obind].
    erewrite line_to; [|done|reflexivity|cbn [pipes tables_of]; apply list_lookup_insert_eq; by rewrite length_insert].
    cbn [obind]. rewrite file_line_blank. cbn [obind file_lines nodes nodeCount pipes pipeCount concatenations concatCount tables_of]. rewrite !list_insert_insert_eq. cbn [p_name p_from p_to].
    unfold tables_of. cbn [f_nodes f_pipes f_concats]. rewrite <- (pad_insert pipe_of pipe0 maxNodes f.(f_pipes) (name, from, to)) by lia. rewrite length_app. cbn [length]. do 3 f_equal. lia.
  - destruct Hi as (Hn & Hl & Hp). cbn [app]. pose proof (pad_next concat_of concat0 maxNodes f.(f_concats) ltac:(lia)) as Hx. pose proof (lookup_lt_Some _ _ _ Hx) as Hlt.
    eexists _, _. cbn [file_lines]. erewrite line_concatenate; [|done|reflexivity|exact Hx]. cbn [obind]. erewrite line_parts; [|done|reflexivity|cbn [concatenations tables_of]; by apply list_lookup_insert_eq]. cbn [obind].
    erewrite file_lines_app.
    2: { eapply (part_lines_run _ _ name (Z.of_nat (length parts)) num parts) with (before := []); [intros j Hj; apply num_clean; lia| |simpl; lia|done].
         cbn [concatenations c_name]. rewrite list_insert_insert_eq. apply list_lookup_insert_eq. done. }
    cbn [file_lines]. rewrite file_line_blank. cbn [obind nodes nodeCount pipes pipeCount concatenations concatCount tables_of app]. rewrite !list_insert_insert_eq.
    unfold tables_of. cbn [f_nodes f_pipes f_concats]. rewrite <- (pad_insert concat_of concat0 maxNodes f.(f_concats) (name, parts)) by lia. rewrite length_app. cbn [length].
    replace (Z.of_nat (length (f_concats f) + 1)) with (Z.of_nat (length (f_concats f)) + 1) by lia. reflexivity.
Qed.

(** A line [fgets] returns in one piece. *)
Definition whole (l : list Z) : Prop := ∃ l0, l = l0 ++ [10] ∧ Forall (λ c, c ≠ 10) l0 ∧ (length l < lineLength)%nat.

Lemma fgets_whole lines : Forall whole lines → ∀ fuel, (length (concat lines) ≤ fuel)%nat → fgets_lines fuel lineLength (concat lines) = lines.
Proof.
  induction 1 as [|l lines (l0 & -> & H10 & Hl) _ IH]; intros fuel Hf; [by destruct fuel|]. cbn [concat] in *. rewrite length_app in Hf. rewrite length_app in Hl, Hf. simpl in Hl, Hf.
  destruct fuel as [|fuel]; [lia|]. cbn [fgets_lines]. destruct ((l0 ++ [10]) ++ concat lines) as [|c s] eqn:E; [by destruct l0|]. rewrite <- E.
  assert (length (upto (Z.eqb 10) ((l0 ++ [10]) ++ concat lines)) = length l0) as ->.
  { rewrite <- app_assoc, upto_app by (eapply Forall_impl; [exact H10|]; intros x Hx; cbn beta in *; lia). simpl. by rewrite app_nil_r. }
  rewrite Nat.min_l by (unfold lineLength in *; lia). replace (S (length l0)) with (length (l0 ++ [10])) by (rewrite length_app; simpl; lia).
  rewrite take_app_length, drop_app_length. f_equal. apply IH. lia.
Qed.

Lemma whole_entry key v n : Forall (λ c, c ≠ 10) key → value_ok n v → (length key + n < lineLength - 1)%nat → whole (entry key v).
Proof.
  intros Hk (_ & Hl & Hv) Hn. exists (key ++ 61 :: v). unfold entry. split_and!; [by rewrite <- app_assoc| |rewrite length_app; simpl; rewrite length_app; simpl; unfold lineLength in *; lia].
  apply Forall_app. split; [done|]. constructor; [done|]. eapply Forall_impl; [exact Hv|]. by intros c [_ ?].
Qed.

Lemma num_value n : (n ≤ maxParts)%nat → value_ok 50 (num n) ∧ Forall (λ c, c ≠ 10) (num n) ∧ (length (num n) ≤ 2)%nat.
Proof. unfold maxParts. intros Hn. do 11 (destruct n as [|n]; [split_and!; [split; [done|]; split; [simpl; lia|by apply (bool_decide_unpack _)]|by apply (bool_decide_unpack _)|simpl; lia]|]). lia. Qed.

Lemma item_lines_whole i : item_ok i → Forall whole (item_lines i).
Proof.
  assert (whole [10]) as Hb by (exists []; split_and!; [done|done|unfold lineLength; simpl; lia]).
  assert (∀ k v n, Forall (λ c, c ≠ 10) (str k) → value_ok n v → (n ≤ 500)%nat → (length (str k) < 20)%nat → whole (entry (str k) v)) as He.
  { intros k v n Hk Hv Hn Hl. apply (whole_entry _ _ n Hk Hv). unfold lineLength. lia. }
  intros Hi. destruct i as [name command|name from to|name parts]; unfold item_lines.
  - destruct Hi as [Hn Hc]. repeat constructor; [apply (He _ _ 50%nat)|apply (He _ _ 500%nat)|done]; try done; try (by apply (bool_decide_unpack _)); simpl; lia.
  - destruct Hi as (Hn & Hf & Ht). repeat constructor; [apply (He _ _ 50%nat)..|done]; try done; try (by apply (bool_decide_unpack _)); simpl; lia.
  - destruct Hi as (Hn & Hl & Hp). destruct (num_value _ Hl) as (Hv & _). apply Forall_app. split; [|by constructor]. constructor; [apply (He _ _ 50%nat); try done; try (by apply (bool_decide_unpack _)); simpl; lia|].
    constructor; [apply (He _ _ 50%nat); try done; try (by apply (bool_decide_unpack _)); simpl; lia|]. apply Forall_forall. intros l Hin. apply list_elem_of_lookup_1 in Hin as (j & Hj). rewrite list_lookup_imap in Hj.
    destruct (parts !! j) as [v|] eqn:Ev; [|done]. injection Hj as <-. pose proof (lookup_lt_Some _ _ _ Ev). destruct (num_value j ltac:(lia)) as (_ & Hc & Hlen).
    apply (whole_entry (str "part_" ++ num j) v 50); [apply Forall_app; split; [by apply (bool_decide_unpack _)|done]|exact (Forall_lookup_1 _ _ _ _ Hp Ev)|]. rewrite length_app. simpl. unfold lineLength. lia.
Qed.

Lemma flow_small_prefix f i : flow_small (add_item f i) → flow_small f.
Proof. unfold flow_small. destruct i; simpl; rewrite ?length_app; simpl; lia. Qed.
Lemma flow_small_foldl f items : flow_small (foldl add_item f items) → flow_small f.
Proof. revert f. induction items as [|i items IH]; intros f H; [done|]. simpl in H. apply IH in H. by eapply flow_small_prefix. Qed.

Lemma items_run items f now part : Forall item_ok items → flow_small (foldl add_item f items) → ∃ now' part',
  file_lines (items ≫= item_lines) (MkParser (tables_of f) now part) = Done (MkParser (tables_of (foldl add_item f items)) now' part').
Proof.
  intros Hi. revert f now part. induction Hi as [|i items Hi _ IH]; intros f now part Hs; [by exists now, part|]. cbn [mbind list_bind foldl] in *.
  destruct (item_run f i now part Hi (flow_small_foldl _ _ Hs)) as (now1 & part1 & H1). destruct (IH (add_item f i) now1 part1 Hs) as (now2 & part2 & H2). exists now2, part2.
  rewrite (file_lines_app _ _ _ _ H1). exact H2.
Qed.

(** C34: a flow file is read as it is meant.  Written out as lines of keywords and values, in any order of its items, its
    nodes, pipes and concatenations come back in the tables, each in its order, with the unused elements zero. *)
Theorem file_roundtrip items : Forall item_ok items → flow_small (flow_of items) → file (Some (print_flow items)) = Done (tables_of (flow_of items)).
Proof.
  intros Hi Hs. unfold file, print_flow. rewrite fgets_whole; [|clear Hs; induction Hi as [|i items Hi _ IH]; [constructor|]; cbn [mbind list_bind]; apply Forall_app; split; [by apply item_lines_whole|done]|done].
  change tables0 with (tables_of (MkFlow [] [] [])). destruct (items_run items (MkFlow [] [] []) (-1) 0 Hi Hs) as (now & part & ->). done.
Qed.

(** ** Names and words *)

(** [search] finds the first element of that name. *)
Lemma search_spec {A} (name_of : A → list Z) l count name : 0 ≤ count ≤ Z.of_nat (length l) →
  let i := search name_of l count name in
  i = -1 ∧ (∀ j x, (Z.of_nat j < count) → l !! j = Some x → name_of x ≠ name) ∨
  0 ≤ i < count ∧ (∃ x, l !! Z.to_nat i = Some x ∧ name_of x = name) ∧ ∀ j x, (j < Z.to_nat i)%nat → l !! j = Some x → name_of x ≠ name.
Proof.
  intros Hc. unfold search. destruct (list_find _ _) as [[i x]|] eqn:E; cbv zeta.
  - right. apply list_find_Some in E as (Hi & Hn & Hmin). apply lookup_take_Some in Hi as [Hi Hlt]. rewrite Nat2Z.id. split; [lia|]. split; [by exists x|].
    intros j y Hj Hy. apply (Hmin j y); [|done]. apply lookup_take_Some. split; [done|lia].
  - left. split; [done|]. apply list_find_None in E. intros j x Hj Hx. rewrite Forall_forall in E. apply E. eapply list_elem_of_lookup_2, lookup_take_Some. split; [exact Hx|lia].
Qed.

Fixpoint join (ws : list (list Z)) : list Z := match ws with [] => [] | [w] => w | w :: ws' => w ++ 32 :: join ws' end.
Definition plain_word (w : list Z) : Prop := w ≠ [] ∧ Forall (λ c, c ≠ 32) w ∧ head w ≠ Some 39 ∧ head w ≠ Some 34.

Lemma unquote_plain w : plain_word w → unquote w = w.
Proof.
  intros (_ & _ & H1 & H2). destruct w as [|c w]; [done|]. cbn [unquote]. simpl in H1, H2.
  destruct (Z.eqb_spec c 39) as [->|]; [done|]. destruct (Z.eqb_spec c 34) as [->|]; [done|]. done.
Qed.

(** A command is split at its spaces into the arguments of the program, the first nine of them. *)
Theorem args_of_words n ws : n.(n_command) = join ws → Forall plain_word ws → args_of n = take 9 ws.
Proof.
  intros Hn. unfold args_of. rewrite Hn. change (maxParts - 1)%nat with 9%nat. clear Hn. generalize 9%nat. intros k Hw. revert k. induction Hw as [|w ws Hw Hws IH]; intros k; [by destruct k|].
  destruct k as [|k]; [done|]. cbn [arguments take]. destruct (Hw) as (Hne & H32 & _). destruct ws as [|w' ws].
  - cbn [join]. rewrite strtok_last by done. rewrite unquote_plain by done. f_equal. by rewrite <- IH.
  - change (join (w :: w' :: ws)) with (w ++ 32 :: join (w' :: ws)). rewrite strtok_token by done. rewrite unquote_plain by done. f_equal. apply IH.
Qed.

Lemma args_of_words_witness : args_of (MkNode [] (str "grep Hello hello.txt") [] [] 0 0) = [str "grep"; str "Hello"; str "hello.txt"].
Proof.
  apply (args_of_words (MkNode [] (str "grep Hello hello.txt") [] [] 0 0) [str "grep"; str "Hello"; str "hello.txt"]); [done|].
  repeat constructor; done.
Defined.

(** Quotes go when they are around one word; a space inside of them still splits it. *)
Lemma quoted_arguments :
  args_of (MkNode [] (str "sed 's/o/u/g'") [] [] 0 0) = [str "sed"; str "s/o/u/g"] ∧
  args_of (MkNode [] (str "grep 'two words' f") [] [] 0 0) = [str "grep"; str "'two"; str "words'"; str "f"].
Proof. done. Qed.

(** ** Witnesses *)

Definition example_flow : list item :=
  [INode (str "cat_foo") (str "cat foo.txt"); INode (str "sed_o_u") (str "sed 's/o/u/g'");
   IPipe (str "foo_to_fuu") (str "cat_foo") (str "sed_o_u");
   IConcat (str "foo_then_fuu") [str "cat_foo"; str "foo_to_fuu"];
   INode (str "word_count") (str "wc"); IPipe (str "shenanigan") (str "foo_then_fuu") (str "word_count")].

Lemma example_flow_ok : Forall item_ok example_flow.
Proof. repeat constructor; (done || (simpl; unfold commandLength, maxParts; lia)). Qed.

Lemma file_roundtrip_witness : file (Some (print_flow example_flow)) = Done (tables_of (flow_of example_flow)).
Proof. apply (file_roundtrip example_flow example_flow_ok). unfold flow_small. simpl. unfold maxNodes. lia. Defined.

Lemma file_type_witness : tables_ok (tables_of (flow_of example_flow)).
Proof. apply (file_type (Some (print_flow example_flow))). vm_compute. reflexivity. Defined.
