(* ===== verification/FlowRun.v ===== *)
(** * Running a flow

    What flow.c asks of Linux, in so far as it matters for what a flow shows: processes, descriptors, pipes,
    and commands that read their standard input to its end and then write.  [show] runs a flow file. *)

From ITree Require Import ITree.
From S2P Require Import Prelude KState Print CString Clib Flow.

(** What a descriptor is for. *)
Inductive object : Type := Terminal | ReadEnd (p : nat) | WriteEnd (p : nat) | Contents (bs : list Z).

(** A command, from its standard input to its standard output and standard error. *)
Definition command : Type := list Z → list Z * list Z.
Inductive body : Type := Program (t : itree posixE Z) | Command (f : command) | Ended (reaped : bool).
Record task : Type := MkTask { k_parent : nat; k_fds : gmap Z object; k_body : body }.
Record system : Type := MkSystem { tasks : list task; pipes : list (list Z); screen : list Z }.

Section run.
Context (files : list Z → option (list Z)) (commands : list (list Z) → option command).

Definition set_task (i : nat) (k : task) (σ : system) : system := MkSystem (<[i := k]> σ.(tasks)) σ.(pipes) σ.(screen).
Definition free_fd (fds : gmap Z object) (from : nat) : Z := match list_find (λ n, fds !! Z.of_nat n = None) (seq from 50) with Some (_, n) => Z.of_nat n | None => 1000 end.

(** Someone can still write to the pipe. *)
Definition written (p : nat) (σ : system) : bool :=
  existsb (λ k, match k.(k_body) with Ended _ => false | _ => existsb (λ '(_, o), match o with WriteEnd q => (q =? p)%nat | _ => false end) (map_to_list k.(k_fds)) end) σ.(tasks).
Definition ended (i : nat) (σ : system) : bool := match σ.(tasks) !! i with Some (MkTask _ _ (Ended _)) => true | _ => false end.

Definition emit (o : option object) (bs : list Z) (σ : system) : system :=
  match o with
  | Some Terminal => MkSystem σ.(tasks) σ.(pipes) (σ.(screen) ++ bs)
  | Some (WriteEnd p) => MkSystem σ.(tasks) (alter (λ d, d ++ bs) p σ.(pipes)) σ.(screen)
  | _ => σ
  end.

(** The children of task [i] that it has not waited for. *)
Definition zombie (i : nat) (k : task) : bool := match k with MkTask q _ (Ended false) => (q =? i)%nat | _ => false end.
Definition child (i : nat) (k : task) : bool := match k with MkTask q _ (Ended true) => false | MkTask q _ _ => (q =? i)%nat end.
Definition reap (j : nat) (σ : system) : system := MkSystem (alter (λ x, MkTask x.(k_parent) ∅ (Ended true)) j σ.(tasks)) σ.(pipes) σ.(screen).

(** The step of task [i], whose process id is [i + 1]. *)
Definition step_program (i : nat) (parent : nat) (fds : gmap Z object) (t : itree posixE Z) (σ : system) : option system :=
  let go fds t := Some (set_task i (MkTask parent fds (Program t)) σ) in
  let stop := Some (set_task i (MkTask parent ∅ (Ended false)) σ) in
  match observe t with
  | RetF _ => stop
  | TauF t' => go fds t'
  | VisF e k =>
      match e in posixE X return (X → itree posixE Z) → option system with
      | PFork => λ k,
          let n := length σ.(tasks) in
          Some (MkSystem (<[i := MkTask parent fds (Program (k (Z.of_nat n + 1)))]> σ.(tasks) ++ [MkTask i fds (Program (k 0))]) σ.(pipes) σ.(screen))
      | PExit _ | PCrash => λ _, stop
      | PWaitpid pid => λ k, if ended (Z.to_nat (pid - 1)) σ then Some (set_task i (MkTask parent fds (Program (k tt))) (reap (Z.to_nat (pid - 1)) σ)) else None
      | PWait => λ k,
          match list_find (λ x, Is_true (zombie i x)) σ.(tasks) with
          | Some (j, _) => Some (set_task i (MkTask parent fds (Program (k tt))) (reap j σ))
          | None => if existsb (child i) σ.(tasks) then None else go fds (k tt)
          end
      | PPipe => λ k,
          let p := length σ.(pipes) in
          let rd := free_fd fds 0 in let fds := <[rd := ReadEnd p]> fds in
          let wr := free_fd fds 0 in let fds := <[wr := WriteEnd p]> fds in
          Some (set_task i (MkTask parent fds (Program (k (Some (rd, wr))))) (MkSystem σ.(tasks) (σ.(pipes) ++ [[]]) σ.(screen)))
      | PDup2 a b => λ k, go (match fds !! a with Some o => <[b := o]> fds | None => fds end) (k tt)
      | PClose fd => λ k, go (delete fd fds) (k tt)
      | POpen path => λ k, match files path with Some bs => let fd := free_fd fds 0 in go (<[fd := Contents bs]> fds) (k fd) | None => go fds (k (-1)) end
      | PExec args => λ k, match commands args with Some f => Some (set_task i (MkTask parent fds (Command f)) σ) | None => go fds (k tt) end
      | PPerror _ => λ k, go fds (k tt)
      end k
  end.

Definition step_task (i : nat) (σ : system) : option system :=
  match σ.(tasks) !! i with
  | None | Some (MkTask _ _ (Ended _)) => None
  | Some (MkTask parent fds (Program t)) => step_program i parent fds t σ
  | Some (MkTask parent fds (Command f)) =>
      let run bs :=
        let '(out, err) := f bs in
        Some (set_task i (MkTask parent ∅ (Ended false)) (emit (fds !! 2) err (emit (fds !! 1) out σ))) in
      match fds !! 0 with
      | Some (ReadEnd p) => if written p σ then None else run (default [] (σ.(pipes) !! p))
      | Some (Contents bs) => run bs
      | _ => run []
      end
  end.

(** The tasks take turns. *)
Fixpoint turns (l : list nat) (σ : system) : system :=
  match l with [] => σ | i :: l' => turns l' (match step_task i σ with Some σ' => σ' | None => σ end) end.
Fixpoint run_all (fuel : nat) (σ : system) : system :=
  match fuel with O => σ | S fuel' => run_all fuel' (turns (seq 0 (length σ.(tasks))) σ) end.

(** What the terminal shows when every process has ended. *)
Definition show (content : list Z) (name : list Z) : option (list Z) :=
  let σ := run_all 200 (MkSystem [MkTask 1000 {[0 := Terminal; 1 := Terminal; 2 := Terminal]} (Program (main (Some content) [[]; []; name]))] [] []) in
  if forallb (λ k, match k.(k_body) with Ended _ => true | _ => false end) σ.(tasks) then Some σ.(screen) else None.
End run.

(** ** Examples *)

(** Commands that suffice for the flows of the repository. *)
Definition upper (c : Z) : Z := if (97 <=? c) && (c <=? 122) then c - 32 else c.
Definition wc (bs : list Z) : list Z := printint (Z.of_nat (length (List.filter (Z.eqb 10) bs))) 10 true ++ [32] ++ printint (Z.of_nat (length bs)) 10 true ++ [10].
Definition commands (args : list (list Z)) : option command :=
  if decide (args = [str "cat"; str "hello.txt"]) then Some (λ _, (str "Hello" ++ [10], []))
  else if decide (args = [str "cat"; str "foo.txt"]) then Some (λ _, (str "foo" ++ [10], []))
  else if decide (args = [str "tr"; str "[:lower:]"; str "[:upper:]"]) then Some (λ bs, (upper <$> bs, []))
  else if decide (args = [str "sed"; str "s/o/u/g"]) then Some (λ bs, ((λ c, if c =? 111 then 117 else c) <$> bs, []))
  else if decide (args = [str "wc"]) then Some (λ bs, (wc bs, []))
  else if decide (args = [str "mkdir"; str "a"]) then Some (λ _, ([], str "mkdir: a exists" ++ [10]))
  else None.
Definition files (path : list Z) : option (list Z) := None.

(** test1.flow, complicated.flow and test2.flow. *)
Definition test1_flow : list item :=
  [INode (str "cat_hello") (str "cat hello.txt"); INode (str "to_upper") (str "tr '[:lower:]' '[:upper:]'");
   IPipe (str "hello_upper") (str "cat_hello") (str "to_upper"); IConcat (str "hello_both") [str "cat_hello"; str "hello_upper"];
   INode (str "word_count") (str "wc"); IPipe (str "shenanigan") (str "hello_both") (str "word_count")].

Lemma flows_shown :
  show files commands (print_flow test1_flow) (str "hello_upper") = Some (str "HELLO" ++ [10]) ∧
  show files commands (print_flow test1_flow) (str "shenanigan") = Some (str "2 12" ++ [10]) ∧
  show files commands (print_flow example_flow) (str "foo_to_fuu") = Some (str "fuu" ++ [10]) ∧
  show files commands (print_flow example_flow) (str "shenanigan") = Some (str "2 8" ++ [10]).
Proof. vm_compute. done. Qed.

(** extra_1.flow: the errors are counted, and then word_count runs a second time, on a pipe nothing is written to. *)
Definition extra_1 : list Z :=
  entry (str "node") (str "mkdir_attempt") ++ entry (str "command") (str "mkdir a") ++ [10] ++ entry (str "node") (str "word_count") ++ entry (str "command") (str "wc") ++ [10] ++
  entry (str "stderr") (str "stdout_to_stderr_for_mkdir") ++ entry (str "from") (str "mkdir_attempt") ++ [10] ++
  entry (str "pipe") (str "catch_errors") ++ entry (str "from") (str "stdout_to_stderr_for_mkdir") ++ entry (str "to") (str "word_count").

Lemma errors_counted_twice : show files commands extra_1 (str "catch_errors") = Some (str "1 16" ++ [10] ++ str "0 0" ++ [10]).
Proof. vm_compute. done. Qed.
