(* ===== verification/Leak.v ===== *)
(** * memoryleak ends (memoryleak.c)

    The program asks for 400 MB again and again and gives nothing back.  The
    blocks malloc hands out lie apart below KERNBASE, so there are at most
    five of them; then malloc returns 0 and the program says so and exits. *)

From ITree Require Import ITree ITreeFacts.
From S2P Require Import Prelude KState Print Mem Priority Fs Ulib UserProgs Umalloc Uos Usched Usertests TestProgs Urun.
#[local] Open Scope prog_scope.
Import Memoryleak.

(** Blocks of at least [s] bytes that lie apart below [hi]: each has a multiple of [s] of its own. *)
Definition mark (s : Z) (b : Z * Z) : Z := (b.1 + s - 1) / s.

Lemma mark_in s b : 0 < s → b.1 ≤ mark s b * s < b.1 + s.
Proof. intros Hs. unfold mark. pose proof (Z.div_mod (b.1 + s - 1) s ltac:(lia)). pose proof (Z.mod_pos_bound (b.1 + s - 1) s Hs). lia. Qed.

Lemma blocks_bounded s hi (A : list (Z * Z)) :
  0 < s → 0 < hi → Forall (λ b, 0 < b.1 ∧ s ≤ 8 * b.2 ∧ b.1 + 8 * b.2 ≤ hi) A → pairwise A → Z.of_nat (length A) * s < hi.
Proof.
  intros Hs Hhi HA Hp. assert (NoDup (mark s <$> A)) as Hnd.
  { induction A as [|b A IH]; [constructor|]. apply Forall_cons in HA as [Hb HA]. destruct Hp as [Hap Hp]. cbn. apply NoDup_cons. split; [|by apply IH].
    rewrite list_elem_of_fmap. intros (c & Hc & Hin). rewrite Forall_forall in Hap, HA. pose proof (Hap c Hin) as Hbc. pose proof (HA c Hin) as Hc'. cbn beta in Hc'. unfold apart in Hbc.
    pose proof (mark_in s b Hs). pose proof (mark_in s c Hs). rewrite Hc in *. lia. }
  assert (∀ k, k ∈ mark s <$> A → 0 < k ∧ k * s < hi) as Hr.
  { intros k (b & -> & Hin)%list_elem_of_fmap. rewrite Forall_forall in HA. pose proof (HA b Hin) as Hb. cbn beta in Hb. pose proof (mark_in s b Hs). nia. }
  assert (Z.to_nat <$> (mark s <$> A) ⊆+ seq 1 (Z.to_nat ((hi - 1) / s))) as Hsub.
  { apply NoDup_submseteq.
    - apply NoDup_fmap_2_strong; [|done]. intros x y Hx Hy Hxy. pose proof (Hr x Hx). pose proof (Hr y Hy). lia.
    - intros n (k & -> & Hk)%list_elem_of_fmap. pose proof (Hr k Hk). apply elem_of_seq. assert (k ≤ (hi - 1) / s) by (apply Z.div_le_lower_bound; lia). lia. }
  apply submseteq_length in Hsub. rewrite !length_fmap, length_seq in Hsub. pose proof (Z.div_pos (hi - 1) s ltac:(lia) Hs). pose proof (Z.mul_div_le (hi - 1) s Hs). nia.
Qed.

Section leak.
Context (image : Z → Z) (base lo : Z) (grant : Z → Z → bool) (fuel : nat) (pid : nat).
Context (Hg : bounded grant) (Hfuel : (Z.to_nat KERNBASE ≤ fuel)%nat).

(** The blocks the program has lost. *)
Definition lost (h : heap) (A : list (Z * Z)) : Prop := heap_inv base lo h A ∧ Forall (λ b, 400000000 ≤ 8 * (b.2 - 1)) A.

Lemma lost_few h A : lost h A → (length A ≤ 5)%nat.
Proof.
  intros [[(_ & -> & _)|(L & Hr & Ho & Hp & _)] Hs]; [simpl; lia|]. pose proof (r_base _ _ _ Hr). pose proof (r_brk _ _ _ Hr) as Hb.
  pose proof (blocks_bounded 400000008 KERNBASE A ltac:(lia) ltac:(unfold KERNBASE; lia)) as Hn. unfold KERNBASE in *.
  assert (Z.of_nat (length A) * 400000008 < 2147483648); [|lia]. apply Hn; [|done]. rewrite Forall_forall in Ho, Hs |- *. intros b Hin.
  pose proof (Hs b Hin) as H1. cbn beta in H1. pose proof (Umalloc.o_low _ _ _ _ _ (Ho b Hin)). pose proof (Umalloc.o_high _ _ _ _ _ (Ho b Hin)). lia.
Qed.

Lemma brk_fuel h A : heap_inv base lo h A → (Z.to_nat h.(h_brk) ≤ fuel)%nat.
Proof. intros [(_ & _ & _ & _ & Hb)|(L & Hr & _)]; [lia|]. pose proof (r_brk _ _ _ Hr). lia. Qed.

(** A request: the loop ends, or one more block is lost. *)
Lemma leak_step h A (k : heap + heap → prog unit) σ t' σ' :
  lost h A → alive pid σ → on_console pid 1 σ →
  (∀ h', goes image pid (k (inr h')) (set_out (σ.(o_out) ++ str (line "Memory allocation failed.")) σ) t' σ') →
  (∀ h' b, lost h' (b :: A) → goes image pid (k (inl h')) σ t' σ') →
  goes image pid (ITree.bind (leak base grant fuel h) k) σ t' σ'.
Proof.
  intros [Hh Hs] Ha Hc Hend Hmore. destruct (malloc_run base grant lo h A indexS fuel [] Hg Hh) as (p & h' & Hrun & [Hok _]); [unfold indexS; lia|by eapply brk_fuel|].
  unfold leak. apply goes_assoc. unfold on_heap. rewrite Hrun. apply goes_pure. destruct Hok as [(-> & _)|(b & n & -> & Hn & Hh')].
  - apply goes_assoc. apply say_goes; [done|done|done|]. apply goes_pure. apply Hend.
  - assert (0 < b) as Hb. { destruct Hh' as [(_ & ? & _)|(L & Hr & Ho & _)]; [done|]. apply Forall_cons in Ho as [Ho _]. pose proof (Umalloc.o_low _ _ _ _ _ Ho). pose proof (r_base _ _ _ Hr). simpl in *. lia. }
    rewrite (proj2 (Z.eqb_neq _ _)) by lia. apply goes_pure. apply (Hmore h' (b, n)). split; [done|]. constructor; [unfold indexS in Hn; simpl; lia|done].
Qed.

Lemma leak_loop (k : heap → prog unit) t' σ σ' : alive pid σ → on_console pid 1 σ →
  (∀ h', goes image pid (k h') (set_out (σ.(o_out) ++ str (line "Memory allocation failed.")) σ) t' σ') →
  ∀ n h A, (5 - length A < n)%nat → lost h A → goes image pid (ITree.bind (ITree.iter (leak base grant fuel) h) k) σ t' σ'.
Proof.
  intros Ha Hc Hend n. induction n as [|n IH]; intros h A Hn Hl; [lia|]. apply goes_iter. eapply leak_step; [exact Hl|done|done|exact Hend|].
  intros h' b Hl'. eapply goes_tau; [reflexivity|done|]. pose proof (lost_few _ _ Hl'). apply (IH h' (b :: A)); [simpl in *; lia|done].
Qed.

(** C26: memoryleak comes to its end, for every kernel that keeps a process below KERNBASE: [malloc] comes to return 0, the
    program says so once and exits.  It is the program that ends, after the first request the kernel refuses: it makes no further
    one, and nothing kills it. *)
Theorem memoryleak_ends h σ : heap_inv base lo h [] → alive pid σ → on_console pid 1 σ →
  goes image pid (main base grant fuel h) σ exit (set_out (σ.(o_out) ++ str (line "Memory allocation failed.")) σ).
Proof.
  intros Hh Ha Hc. unfold main. eapply (goes_bind _ (Strace _)); [done|done|by intros c|]. eapply (leak_loop _ _ _ _ Ha Hc) with (n := 6%nat) (A := []); [|simpl; lia|by split].
  intros h'. by apply goes_refl.
Qed.
End leak.

(** Witness: a process that may grow to one megabyte. *)
Lemma memoryleak_ends_witness :
  goes image 2 (main 4096 megabyte (Z.to_nat KERNBASE) fresh_heap) os0 exit (set_out (str (line "Memory allocation failed.")) os0).
Proof.
  apply (memoryleak_ends image 4096 8192 megabyte (Z.to_nat KERNBASE) 2 megabyte_bounded (le_n _) fresh_heap os0 fresh_heap_inv); [by exists (proc0 1)|by exists 0%nat, 6%nat].
Defined.
