(* ===== verification/ForkTest.v ===== *)
(** * A parent and its children (usertests.c: forktest; forktest.c)

    forktest makes children until the kernel has no room for more; the children
    exit at once, each when it is scheduled, and the parent waits for all of them.
    Whatever the schedule and whichever zombie [wait] takes, the parent
    gets back exactly the children it made. *)

From ITree Require Import ITree ITreeFacts.
From S2P Require Import Prelude KState Print Mem Priority Fs Ulib UserProgs Uos Usched Usertests TestProgs Urun.
#[local] Open Scope prog_scope.

Section family.
Context (programs : list Z → option (list (list Z) → prog unit)) (image : Z → Z).
Context (me cwd ci : nat) (Hme : (1 < me)%nat).
Notation turn := (turn programs image).
Notation step := (step programs image).

(** ** The parent and its children *)

Definition std : list (option nat) := [Some ci; Some ci; Some ci] ++ replicate 13 None.

(** The children that have not exited. *)
Definition running (ths : list thread) : list nat := omap (λ th, match th with Run c _ => Some c | _ => None end) ths.
(** Every child that has a thread is about to exit, or has. *)
Definition exits (th : thread) : Prop := match th with Run c t => t ≅ exit | Gone _ => True | Timer => False end.

(** [dead] are the children [wait] has not seen yet. *)
Record family (σ : os) (ths : list thread) (dead : list nat) (out : list Z) : Prop := {
  fa_me : ∃ p, σ.(o_procs) !! me = Some p ∧ p.(up_killed) = false ∧ p.(up_fds) = std ∧ p.(up_cwd) = cwd ∧ (p.(up_parent) < me)%nat;
  fa_run : ∀ c, c ∈ running ths → ∃ p, σ.(o_procs) !! c = Some p ∧ p.(up_killed) = false ∧ p.(up_zombie) = false ∧ p.(up_parent) = me ∧ p.(up_fds) = std ∧ p.(up_cwd) = cwd;
  fa_dead : ∀ c, c ∈ dead → ∃ p, σ.(o_procs) !! c = Some p ∧ p.(up_zombie) = true ∧ p.(up_parent) = me;
  fa_all : ∀ c p, σ.(o_procs) !! c = Some p → p.(up_parent) = me → c ∈ running ths ++ dead;
  fa_nodup : NoDup (running ths ++ dead);
  fa_old : ∀ c, c ∈ running ths ++ dead → (me < c)%nat;
  fa_pid : (me < σ.(o_pid))%nat ∧ ∀ c p, σ.(o_procs) !! c = Some p → (c < σ.(o_pid))%nat;
  fa_size : (size σ.(o_procs) ≤ NPROC)%nat;
  fa_cons : ∃ r, σ.(o_files) !! ci = Some (Mkufile CCons r) ∧ (3 * S (length (running ths)) ≤ r)%nat;
  fa_cwd : ∃ es n, σ.(o_nodes) !! cwd = Some (Mkunode (NDir es) n) ∧ n ≠ 0;
  fa_out : σ.(o_out) = out
}.

Lemma running_app a b : running (a ++ b) = running a ++ running b.
Proof. apply omap_app. Qed.

Lemma family_alive σ ths dead out : family σ ths dead out → alive me σ.
Proof. intros Hf. destruct (fa_me _ _ _ _ Hf) as (p & ? & ? & _). by exists p. Qed.

(** There are fewer children than process slots. *)
Lemma family_few σ ths dead out : family σ ths dead out → (length (running ths ++ dead) ≤ NPROC)%nat.
Proof.
  intros Hf. etrans; [|exact (fa_size _ _ _ _ Hf)]. rewrite <- (size_dom (D := gset nat)). rewrite <- (size_list_to_set (C := gset nat)) by apply Hf. apply subseteq_size.
  intros c Hc. rewrite elem_of_list_to_set, elem_of_app in Hc. apply elem_of_dom. destruct Hc as [Hc|Hc]; [destruct (fa_run _ _ _ _ Hf c Hc) as (p & -> & _)|destruct (fa_dead _ _ _ _ Hf c Hc) as (p & -> & _)]; by eexists.
Qed.

(** ** fork *)

Lemma family_fork σ ths dead out c σ' t : family σ ths dead out → do_fork me σ = Some (c, σ') → family σ' (ths ++ [Run c t]) dead out.
Proof.
  intros [(p & P1 & P2 & P3 & P4 & P5) Hrun Hdead Hall Hnd Hold [Hpid Hlt] Hsz (r & C1 & C2) Hcwd Hout]. unfold do_fork. rewrite P1. cbn [mbind option_bind].
  destruct (_ || _) eqn:E; [done|]. apply orb_false_iff in E as [Hlen _]. apply Nat.leb_gt in Hlen. intros [= <- <-]. rewrite P3. cbn [std app replicate foldl].
  assert (σ.(o_procs) !! σ.(o_pid) = None) as Hnew by (destruct (o_procs σ !! o_pid σ) as [q|] eqn:E; [apply Hlt in E; lia|done]).
  assert (∀ c, c ∈ running ths ++ dead → c ≠ σ.(o_pid)) as Hne.
  { intros c Hc ->. apply elem_of_app in Hc as [Hc|Hc]; [destruct (Hrun _ Hc) as (q & Hq & _)|destruct (Hdead _ Hc) as (q & Hq & _)]; by rewrite Hnew in Hq. }
  assert (running (ths ++ [Run (o_pid σ) t]) = running ths ++ [σ.(o_pid)]) as Hrt by (by rewrite running_app).
  split; cbn [set_free set_files set_pid set_procs o_procs o_files o_nodes o_out o_pid]; rewrite ?Hrt.
  - exists p. rewrite lookup_insert_ne by lia. done.
  - intros c [Hc|Hc]%elem_of_app; [|apply list_elem_of_singleton in Hc as ->; eexists; rewrite lookup_insert_eq; split; [done|]; simpl; by rewrite P4].
    destruct (Hrun c Hc) as (q & Hq & ?). exists q. rewrite lookup_insert_ne; [done|]. symmetry. apply Hne, elem_of_app. by left.
  - intros c Hc. destruct (Hdead c Hc) as (q & Hq & ?). exists q. rewrite lookup_insert_ne; [done|]. symmetry. apply Hne, elem_of_app. by right.
  - intros c q [[<- <-]|[Hc Hq]]%lookup_insert_Some Hpar; [rewrite !elem_of_app; left; right; by left|]. pose proof (Hall c q Hq Hpar) as Hin. rewrite !elem_of_app in *. tauto.
  - rewrite <- app_assoc. cbn [app]. rewrite <- Permutation_middle. apply NoDup_cons. split; [|done]. intros Hc. by apply Hne in Hc.
  - intros c Hc. rewrite !elem_of_app, list_elem_of_singleton in Hc. destruct Hc as [[Hc| ->]|Hc]; [|done|]; apply Hold, elem_of_app; tauto.
  - split; [lia|]. intros c q [[<- <-]|[Hc Hq]]%lookup_insert_Some; [lia|]. apply Hlt in Hq. lia.
  - rewrite map_size_insert, Hnew. simpl. lia.
  - exists (S (S (S r))). rewrite !lookup_alter_eq, C1. split; [done|]. rewrite length_app. simpl. lia.
  - done.
  - done.
Qed.

(** ** exit *)

Lemma family_exit σ a c t b dead out : family σ (a ++ Run c t :: b) dead out → family (die c σ) (a ++ Gone c :: b) (c :: dead) out.
Proof.
  intros [(p & P1 & P2 & P3 & P4 & P5) Hrun Hdead Hall Hnd Hold [Hpid Hlt] Hsz (r & C1 & C2) (es & n & D1 & D2) Hout].
  assert (running (a ++ Run c t :: b) = running a ++ c :: running b) as E1 by (by rewrite running_app).
  assert (running (a ++ Gone c :: b) = running a ++ running b) as E2 by (by rewrite running_app).
  rewrite E1 in *. destruct (Hrun c ltac:(rewrite elem_of_app; right; by left)) as (q & Q1 & Q2 & Q3 & Q4 & Q5 & Q6).
  assert (me < c)%nat as Hc by (apply Hold; rewrite !elem_of_app; left; right; by left).
  assert (c ∉ (running a ++ running b) ++ dead ∧ NoDup ((running a ++ running b) ++ dead)) as [Hnc Hnd'].
  { rewrite <- !app_assoc in *. cbn [app] in Hnd. rewrite <- Permutation_middle in Hnd. by apply NoDup_cons in Hnd. }
  rewrite length_app in C2. cbn [length] in C2. destruct r as [|[|[|[|r]]]]; [lia..|].
  rewrite (die_console c σ q ci r (Mkunode (NDir es) n)); [|done|done|done|by rewrite Q6|done].
  assert (∀ d q', d ≠ c → σ.(o_procs) !! d = Some q' → (q'.(up_parent) ≠ c) →
    ((λ q, if (q.(up_parent) =? c)%nat then set_parent 1 q else q) <$> <[c := set_zombie true (set_fds (replicate NOFILE None) q)]> σ.(o_procs)) !! d = Some q') as Hkeep.
  { intros d q' Hd Hq Hpar. rewrite lookup_fmap, lookup_insert_ne, Hq by done. simpl. by rewrite (proj2 (Nat.eqb_neq _ _) Hpar). }
  split; cbn [set_files set_procs o_procs o_files o_nodes o_out o_pid]; rewrite ?E2.
  - exists p. split; [|done]. apply Hkeep; [lia|done|lia].
  - intros d Hd. destruct (Hrun d ltac:(rewrite elem_of_app, elem_of_cons in *; tauto)) as (q' & Hq' & K1 & K2 & K3 & K4). exists q'. split; [|done]. apply Hkeep; [|done|lia].
    intros ->. apply Hnc, elem_of_app. by left.
  - intros d [->|Hd]%elem_of_cons.
    + eexists. rewrite lookup_fmap, lookup_insert_eq. simpl. rewrite Q4, (proj2 (Nat.eqb_neq me c)) by lia. by split_and!.
    + destruct (Hdead d Hd) as (q' & Hq' & K1 & K2). exists q'. split; [|done]. apply Hkeep; [|done|lia]. intros ->. apply Hnc, elem_of_app. by right.
  - intros d q' Hd Hpar. rewrite lookup_fmap in Hd. destruct (decide (d = c)) as [->|Hne]; [rewrite elem_of_app; right; by left|]. rewrite lookup_insert_ne in Hd by done.
    destruct (o_procs σ !! d) as [q''|] eqn:Ed; [|done]. injection Hd as <-. destruct (_ =? _)%nat; [simpl in Hpar; lia|]. pose proof (Hall d q'' Ed Hpar) as Hin.
    rewrite !elem_of_app, !elem_of_cons in *. tauto.
  - rewrite <- Permutation_middle. by apply NoDup_cons.
  - intros d Hd. rewrite !elem_of_app, elem_of_cons in Hd. destruct Hd as [Hd|[->|Hd]]; [|done|]; apply Hold; rewrite !elem_of_app, elem_of_cons; tauto.
  - split; [done|]. intros d q' Hd. rewrite lookup_fmap in Hd. destruct (decide (d = c)) as [->|Hne]; [by apply (Hlt _ _ Q1)|]. rewrite lookup_insert_ne in Hd by done.
    destruct (o_procs σ !! d) as [q''|] eqn:Ed; [|done]. by apply (Hlt _ _ Ed).
  - rewrite map_size_fmap, map_size_insert, Q1. done.
  - exists (S r). rewrite lookup_insert_eq. split; [done|]. rewrite length_app. lia.
  - by exists es, n.
  - done.
Qed.

(** ** wait *)

Lemma family_zombies σ ths dead out c : family σ ths dead out → c ∈ zombies me σ ↔ c ∈ dead.
Proof.
  intros Hf. rewrite elem_zombies. split; [|intros Hc; by destruct (fa_dead _ _ _ _ Hf c Hc) as (p & ? & ? & ?); exists p].
  intros (p & Hp & Hpar & Hz). pose proof (fa_all _ _ _ _ Hf c p Hp Hpar) as Hin. apply elem_of_app in Hin as [Hin|]; [|done].
  destruct (fa_run _ _ _ _ Hf c Hin) as (q & Hq & _ & Hz' & _). rewrite Hp in Hq. injection Hq as ->. by rewrite Hz in Hz'.
Qed.

(** [wait] takes one of the dead. *)
Lemma family_reap σ ths d1 c d2 out v : family σ ths (d1 ++ c :: d2) out → family (set_free v (set_procs (delete c σ.(o_procs)) σ)) ths (d1 ++ d2) out.
Proof.
  intros [(p & P1 & P2 & P3 & P4 & P5) Hrun Hdead Hall Hnd Hold [Hpid Hlt] Hsz Hcons Hcwd Hout].
  rewrite app_assoc, <- Permutation_middle, <- app_assoc in Hnd. apply NoDup_cons in Hnd as [Hnc Hnd].
  assert (me < c)%nat as Hc by (apply Hold; rewrite !elem_of_app; right; right; by left).
  assert (∀ d, d ∈ running ths ++ d1 ++ d2 → d ≠ c) as Hne by (by intros d Hd ->).
  split; cbn [set_free set_procs o_procs o_files o_nodes o_out o_pid]; [| | | |done| | | |done|done|done].
  - exists p. rewrite lookup_delete_ne by lia. done.
  - intros d Hd. destruct (Hrun d Hd) as (q & ? & ?). exists q. rewrite lookup_delete_ne; [done|]. symmetry. apply Hne, elem_of_app. by left.
  - intros d Hd. destruct (Hdead d) as (q & ? & ?); [rewrite elem_of_app, elem_of_cons in *; tauto|]. exists q. rewrite lookup_delete_ne; [done|]. symmetry. apply Hne, elem_of_app. by right.
  - intros d q [Hd Hq]%lookup_delete_Some Hpar. pose proof (Hall d q Hq Hpar) as Hin. rewrite !elem_of_app, elem_of_cons in *. destruct Hin as [?|[?|[?|?]]]; [tauto|tauto|congruence|tauto].
  - intros d Hd. apply Hold. rewrite !elem_of_app, elem_of_cons in *. tauto.
  - split; [done|]. intros d q [_ Hq]%lookup_delete_Some. by eapply Hlt.
  - rewrite map_size_delete. destruct (_ !! c); simpl; lia.
Qed.

(** ** Every schedule *)

(** The parent: [K n] when [n] children are made, [W m] with [m] of them to wait for, [E] in the end. *)
Context (K W : nat → prog unit) (E : prog unit).
Context (HK : ∀ n, (n < 1000)%nat → K n ≅ W n).
Context (HW : ∀ m, ∃ k, W m ≅ Vis Wait k ∧ match m with O => k (-1) ≅ E | S m' => ∀ r, 0 ≤ r → k r ≅ W m' end).

(** Where the parent can be, with the children it has; [n] bounds the steps that are left. *)
Definition forking (k : nat) (t : prog unit) (m : nat) : Prop := t ≅ ITree.bind (fork_all k m) K ∧ (m + k = 1000)%nat.
Definition busy (out : list Z) (n : nat) (ts : pool) : Prop :=
  ∃ t ths dead σ f, ts = (Run me t :: ths, σ) ∧ family σ ths dead out ∧ Forall exits ths ∧
    n = (f + length (running ths) + length (running ths ++ dead) + 1)%nat ∧
    (f = 0%nat ∧ t ≅ W (length (running ths ++ dead)) ∨ ∃ k, f = S (3 * k) ∧ forking k t (length (running ths ++ dead))).
Definition over (out : list Z) (ts : pool) : Prop :=
  ∃ t ths σ, ts = (Run me t :: ths, σ) ∧ t ≅ E ∧ family σ ths [] out ∧ Forall (λ th, ∃ c, th = Gone c) ths.

Lemma gone_all ths : Forall exits ths → running ths = [] → Forall (λ th, ∃ c, th = Gone c) ths.
Proof. induction 1 as [|th ths Hth _ IH]; intros Hr; [constructor|]. destruct th; [done|constructor; [by eexists|by apply IH]|done]. Qed.

(** The parent forks once more, or finds that it cannot. *)
Lemma fork_turn σ ths dead out k t c : family σ ths dead out → forking k t (length (running ths ++ dead)) →
  ∃ t' σ' new, step c (Run me t) σ = Some (Run me t', σ', new) ∧
    (new = [] ∧ σ' = σ ∧ t' ≅ W (length (running ths ++ dead)) ∨
     ∃ k' d tc, k = S k' ∧ new = [Run d tc] ∧ tc ≅ exit ∧ family σ' (ths ++ new) dead out ∧ forking k' t' (S (length (running ths ++ dead)))).
Proof.
  intros Hf [Ht Hk]. pose proof (family_few _ _ _ _ Hf) as Hn. unfold NPROC in Hn. set (n := length _) in *. destruct k as [|k']; [lia|]. cbn [fork_all] in Ht. unfold fork in Ht. rewrite call_bind_vis in Ht.
  apply eqitree_inv_Vis_r in Ht as (h & Ho & Hh). rewrite (step_fork programs image h t c me σ (family_alive _ _ _ _ Hf) Ho).
  destruct (do_fork me σ) as [[d σ']|] eqn:Ef.
  - eexists _, _, _. split; [done|]. right. exists k', d, (h 0). split_and!; [done|done|rewrite (Hh 0); apply exit_bind|by eapply family_fork|].
    assert (me < d)%nat as Hd. { pose proof (fa_pid _ _ _ _ Hf) as [Hp _]. unfold do_fork in Ef. destruct (o_procs σ !! me); [|done]. cbn [mbind option_bind] in Ef. destruct (_ || _); [done|]. injection Ef as <- _. done. }
    split; [|lia]. rewrite (Hh (Z.of_nat d)). rewrite (proj2 (Z.ltb_ge _ _)), (proj2 (Z.eqb_neq _ _)) by lia. done.
  - eexists _, _, _. split; [done|]. left. split_and!; [done|done|]. rewrite (Hh (-1)). change (-1 <? 0) with true. cbv iota. unfold pure. rewrite Eqit.bind_ret_l. apply HK. lia.
Qed.

(** The parent waits. *)
Lemma wait_turn σ ths dead out t c : family σ ths dead out → t ≅ W (length (running ths ++ dead)) →
  match step c (Run me t) σ with
  | None => running ths ++ dead ≠ [] ∧ zombies me σ !! c = None
  | Some (th', σ', new) => ∃ t' dead', th' = Run me t' ∧ new = [] ∧ family σ' ths dead' out ∧
      (dead = [] ∧ dead' = [] ∧ running ths = [] ∧ t' ≅ E ∨ length dead = S (length dead') ∧ t' ≅ W (length (running ths ++ dead')))
  end.
Proof.
  intros Hf Ht. destruct (HW (length (running ths ++ dead))) as (k & Hk & Hm). rewrite Hk in Ht. apply eqitree_inv_Vis_r in Ht as (h & Ho & Hh).
  rewrite (step_plain programs image Wait h t c me σ (family_alive _ _ _ _ Hf) Ho I). simpl. destruct (decide (running ths ++ dead = [])) as [Hnil|Hne].
  - rewrite wait_none; [|intros d p Hp Hpar; pose proof (fa_all _ _ _ _ Hf d p Hp Hpar) as Hin; rewrite Hnil in Hin; by apply elem_of_nil in Hin].
    rewrite Hnil in Hm. apply app_eq_nil in Hnil as [Hr ->]. exists (h (-1)), []. split_and!; [done|done|done|]. left. split_and!; [done|done|done|]. by rewrite (Hh (-1)).
  - assert (∃ a p, σ.(o_procs) !! a = Some p ∧ p.(up_parent) = me) as (a & p & Ha & Hpar).
    { destruct (running ths ++ dead) as [|a l] eqn:El; [done|]. assert (a ∈ running ths ++ dead) as [Hin|Hin]%elem_of_app by (rewrite El; by left);
        [destruct (fa_run _ _ _ _ Hf a Hin) as (p & ? & _ & _ & ? & _)|destruct (fa_dead _ _ _ _ Hf a Hin) as (p & ? & _ & ?)]; by exists a, p. }
    rewrite (wait_some c me σ a p Ha Hpar). destruct (zombies me σ !! c) as [z|] eqn:Ez; [|done].
    apply list_elem_of_lookup_2 in Ez. rewrite (family_zombies _ _ _ _ z Hf) in Ez. apply list_elem_of_split in Ez as (d1 & d2 & ->).
    exists (h (Z.of_nat z)), (d1 ++ d2). split_and!; [done|done|by apply family_reap|]. right. split; [rewrite !length_app; simpl; lia|].
    rewrite (Hh (Z.of_nat z)). replace (length (running ths ++ d1 ++ z :: d2)) with (S (length (running ths ++ d1 ++ d2))) in Hm by (rewrite !length_app; simpl; lia). apply Hm. lia.
Qed.

(** A child exits. *)
Lemma exit_turn σ ths dead out i c t ch : family σ ths dead out → Forall exits ths → ths !! i = Some (Run c t) →
  ∃ σ', step ch (Run c t) σ = Some (Gone c, σ', []) ∧ family σ' (<[i := Gone c]> ths) (c :: dead) out ∧ Forall exits (<[i := Gone c]> ths) ∧
    length (running ths) = S (length (running (<[i := Gone c]> ths))).
Proof.
  intros Hf Hex Hi. pose proof (Forall_lookup_1 _ _ _ _ Hex Hi) as Ht. cbn [exits] in Ht. unfold exit in Ht. rewrite call_vis in Ht. apply eqitree_inv_Vis_r in Ht as (h & Ho & _).
  pose proof (list_elem_of_split_length _ _ _ Hi) as (a & b & -> & ->). assert (c ∈ running (a ++ Run c t :: b)) as Hc by (rewrite running_app, elem_of_app; right; by left).
  destruct (fa_run _ _ _ _ Hf c Hc) as (p & Hp & Hk & _). exists (die c σ). rewrite (insert_app_r_alt _ _ (length a)), Nat.sub_diag by lia. cbn [insert list_insert]. split_and!.
  - apply (step_exit programs image h); [by exists p|done].
  - by eapply family_exit.
  - apply Forall_app in Hex as [Ha Hb]. apply Forall_cons in Hb as [_ Hb]. apply Forall_app. split; [done|]. by constructor.
  - rewrite !running_app, !length_app. simpl. lia.
Qed.

Lemma running_index ths : running ths ≠ [] → ∃ i c t, ths !! i = Some (Run c t).
Proof.
  intros Hr. destruct (running ths) as [|c l] eqn:Er; [done|]. assert (c ∈ running ths) as Hc by (rewrite Er; by left). apply list_elem_of_omap in Hc as (th & Hin & Hth).
  destruct th as [d t| |]; [|done|done]. apply list_elem_of_lookup_1 in Hin as (i & Hi). by exists i, d, t.
Qed.

Lemma busy_goes_on out n ts : busy out n ts → ∃ i c ts', turn ts i c = Some ts'.
Proof.
  intros (t & ths & dead & σ & f & -> & Hf & Hex & _ & Hcase). destruct Hcase as [[_ Ht]|(k & _ & Hk)].
  - pose proof (wait_turn σ ths dead out t 0 Hf Ht) as Hw. destruct (step 0 (Run me t) σ) as [[[th' σ'] new]|] eqn:Es; [eexists 0%nat, 0%nat, _; by eapply turn_intro|].
    destruct Hw as [Hne Hz]. assert (dead = []) as ->. { destruct dead as [|d dead]; [done|]. assert (d ∈ zombies me σ) as Hd by (apply (family_zombies _ _ _ _ d Hf); by left). destruct (zombies me σ); [by apply elem_of_nil in Hd|done]. }
    rewrite app_nil_r in Hne. destruct (running_index ths Hne) as (i & c & tc & Hi). destruct (exit_turn σ ths [] out i c tc 0 Hf Hex Hi) as (σ' & Hst & _).
    eexists (S i), 0%nat, _. by eapply turn_intro; [|exact Hst].
  - destruct (fork_turn σ ths dead out k t 0 Hf Hk) as (t' & σ' & new & Hst & _). eexists 0%nat, 0%nat, _. by eapply turn_intro; [|exact Hst].
Qed.

Lemma busy_step out n ts i c ts' : busy out n ts → turn ts i c = Some ts' → ∃ n', (n' < n)%nat ∧ (busy out n' ts' ∨ over out ts').
Proof.
  intros (t & ths & dead & σ & f & -> & Hf & Hex & -> & Hcase) (th & th' & σ1 & new & Hi & Hst & ->)%turn_inv. cbn [fst snd] in *. destruct i as [|i].
  - injection Hi as <-. destruct Hcase as [[-> Ht]|(k & -> & Hk)].
    + pose proof (wait_turn σ ths dead out t c Hf Ht) as Hw. rewrite Hst in Hw. destruct Hw as (t' & dead' & -> & -> & Hf' & [(-> & -> & Hr & Ht')|[Hl Ht']]); rewrite (app_nil_r (<[0%nat := Run me t']> (Run me t :: ths))).
      * exists 0%nat. split; [lia|]. right. exists t', ths, σ1. split_and!; [done|done|done|by apply gone_all].
      * eexists. split; [|left; exists t', ths, dead', σ1, 0%nat; split_and!; [done|done|done|reflexivity|by left]]. rewrite !length_app. lia.
    + destruct (fork_turn σ ths dead out k t c Hf Hk) as (t' & σ' & new' & Hst' & Hres). rewrite Hst' in Hst. injection Hst as <- <- <-.
      destruct Hres as [(-> & -> & Ht')|(k' & d & tc & -> & -> & Htc & Hf' & Hk')]; cbn [app].
      * rewrite app_nil_r. eexists. split; [|left; exists t', ths, dead, σ, 0%nat; split_and!; [done|done|done|reflexivity|by left]]. lia.
      * assert (length (running (ths ++ [Run d tc])) = S (length (running ths))) as El by (rewrite running_app, length_app; simpl; lia).
        eexists. split; [|left; exists t', (ths ++ [Run d tc]), dead, σ', (S (3 * k')); split_and!; [done|done|apply Forall_app; split; [done|by constructor]|reflexivity|]].
        -- rewrite !length_app, El. lia.
        -- right. exists k'. split; [done|]. rewrite length_app, El. rewrite length_app in Hk'. exact Hk'.
  - cbn [lookup list_lookup] in Hi. pose proof (Forall_lookup_1 _ _ _ _ Hex Hi) as Ht'. destruct th as [d tc|d|]; [|done|done].
    destruct (exit_turn σ ths dead out i d tc c Hf Hex Hi) as (σ' & Hst' & Hf' & Hex' & Hl). rewrite Hst' in Hst. injection Hst as <- <- <-. rewrite app_nil_r.
    assert (length (running (<[i := Gone d]> ths) ++ d :: dead) = length (running ths ++ dead)) as El by (rewrite !length_app, Hl; simpl; lia).
    eexists. split; [|left; exists t, (<[i := Gone d]> ths), (d :: dead), σ', f; split_and!; [done|done|done|reflexivity|by rewrite El]]. rewrite El. lia.
Qed.

Lemma busy_over out n ts : busy out n ts → inevitably programs image (over out) ts.
Proof.
  intros H. apply (inev_measure programs image (λ n ts, busy out n ts ∨ over out ts) (over out)) with (n := n); [|by left].
  intros n' ts' [Hw|Hd]; [right|by left]. split; [by eapply busy_goes_on|]. intros i c ts'' Ht. by eapply busy_step.
Qed.

(** All processes have exited, and the console shows [out]. *)
Definition all_gone (out : list Z) (ts : pool) : Prop := Forall (λ th, ∃ c, th = Gone c) (fst ts) ∧ (snd ts).(o_out) = out.

Lemma forks_done σ t out out' : family σ [] [] out → t ≅ ITree.bind (fork_all 1000 0) K →
  (∀ τ ths, family τ ths [] out → ∃ τ', goes image me E τ exit τ' ∧ alive me τ' ∧ τ'.(o_out) = out') →
  inevitably programs image (all_gone out') ([Run me t], σ).
Proof.
  intros Hf Ht HE. eapply inev_trans; [apply (busy_over out) with (n := 3002%nat)|].
  { exists t, [], [], σ, 3001%nat. split_and!; [done|done|done|done|right; by exists 1000%nat]. }
  intros ts (t1 & ths & τ & -> & Ht1 & Hf1 & Hg). destruct (HE τ ths Hf1) as (τ' & Hgo & Ha & Ho).
  assert (∀ th υ, alone 0 (th :: ths, υ)) as Hal by (intros th υ [|j] th' Hj Hl; [done|]; exact (Forall_lookup_1 _ _ _ _ Hg Hl)).
  eapply (inev_goes programs image _ 0 me); [exact Hgo|exact Ht1|apply Hal|done|]. intros t2 Ht2. eapply (inev_exit programs image _ 0 me t2); [apply Hal|done|exact Ht2|done|].
  split; [constructor; [by eexists|done]|]. cbn [snd]. by rewrite die_out.
Qed.
End family.

Arguments family me cwd ci : clear implicits.

Section test.
Context (programs : list Z → option (list (list Z) → prog unit)) (image : Z → Z).
Context (me cwd ci : nat) (Hme : (1 < me)%nat).
Notation family := (family me cwd ci).

Lemma family_out σ ths dead out out' : family σ ths dead out → family (set_out out' σ) ths dead out'.
Proof. by intros []. Qed.

Lemma family_console σ ths dead out : family σ ths dead out → on_console me 1 σ.
Proof.
  intros Hf. destruct (fa_me _ _ _ _ _ _ _ Hf) as (p & Hp & _ & Hfd & _). destruct (fa_cons _ _ _ _ _ _ _ Hf) as (r & Hr & _).
  exists ci, r. apply (chan_lookup me 1 σ p); [done|done|by rewrite Hfd|done].
Qed.

Lemma each_length {A B} (l : list A) (l' : list B) (x : prog unit) : length l = length l' → each l (λ _, x) = each l' (λ _, x).
Proof. revert l'. induction l as [|a l IH]; intros [|b l'] Hl; [done|done|done|]. cbn [each]. by rewrite (IH l') by (by injection Hl). Qed.

(** The rest of either program when the children are made: it waits for each with [check], once more with [last], and
    goes on to [fin]. *)
Definition waits (check last : Z → prog unit) (fin : prog unit) (m : nat) : prog unit :=
  each (seq 0 m) (λ _, ITree.bind wait check);; ITree.bind wait (λ r, last r;; fin).

Lemma waits_wait check last fin m : (∀ r, 0 ≤ r → check r = pure tt) → last (-1) = pure tt →
  ∃ k, waits check last fin m ≅ Vis Wait k ∧ match m with O => k (-1) ≅ fin | S m' => ∀ r, 0 ≤ r → k r ≅ waits check last fin m' end.
Proof.
  intros Hc Hl. destruct m as [|m]; unfold waits; cbn [seq each].
  - eexists. split; [unfold pure, wait; rewrite Eqit.bind_ret_l; apply call_vis|]. cbv beta. rewrite Hl. unfold pure. by rewrite Eqit.bind_ret_l.
  - eexists. split; [unfold wait at 1; rewrite bind_bind; apply call_bind_vis|]. intros r Hr. cbv beta. rewrite (Hc r Hr). unfold pure. rewrite Eqit.bind_ret_l.
    by rewrite (each_length (seq 1 m) (seq 0 m)) by (by rewrite !length_seq).
Qed.

(** Such a program, from its first message [hi] on. *)
Lemma test_done σ t K check last fin hi ok :
  family σ [] [] σ.(o_out) →
  (∀ n, (n < 1000)%nat → K n ≅ waits check last fin n) → (∀ r, 0 ≤ r → check r = pure tt) → last (-1) = pure tt →
  goes image me t σ (ITree.bind (fork_all 1000 0) K) (set_out (σ.(o_out) ++ hi) σ) →
  (∀ τ, alive me τ → on_console me 1 τ → goes image me fin τ exit (set_out (τ.(o_out) ++ ok) τ)) →
  inevitably programs image (all_gone (σ.(o_out) ++ hi ++ ok)) ([Run me t], σ).
Proof.
  intros Hf HK Hc Hl Hgo Hfin. assert (∀ th τ, alone 0 ([th], τ)) as Hal by (by intros ? ? [|j] ? Hj Hn).
  eapply (inev_goes programs image _ 0 me); [exact Hgo|reflexivity|apply Hal|done|]. intros t1 Ht1.
  eapply (forks_done programs image me cwd ci Hme K (waits check last fin) fin HK); [intros m; by apply waits_wait|by apply (family_out _ _ _ (o_out σ))|exact Ht1|].
  intros τ ths Hf'. exists (set_out (τ.(o_out) ++ ok) τ). pose proof (family_alive _ _ _ _ _ _ _ Hf') as Ha. split_and!; [apply Hfin; [done|by eapply family_console]|done|].
  simpl. by rewrite (fa_out _ _ _ _ _ _ _ Hf'), <- app_assoc.
Qed.

(** The fork test of usertests, in any schedule: it makes as many children as there is room for, gets all of them back,
    says that all is well, and every process has exited. *)
Theorem forktest_correct σ : family σ [] [] σ.(o_out) →
  inevitably programs image (all_gone (σ.(o_out) ++ str (line "fork test") ++ str (line "fork test OK"))) ([Run me (forktest;; exit)], σ).
Proof.
  intros Hf. pose proof (family_alive _ _ _ _ _ _ _ Hf) as Ha. pose proof (family_console _ _ _ _ Hf) as Hc.
  eapply (test_done σ _ _ (λ r, oops (r <? 0) (line "wait stopped early")) (λ r, oops (negb (r =? -1)) (line "wait got too many")) (say (line "fork test OK");; exit)); [done| | |done| |].
  2: { intros r Hr. unfold oops. by rewrite (proj2 (Z.ltb_ge _ _)) by lia. }
  2: { unfold forktest. apply goes_assoc. apply say_goes; [done|done|done|]. apply goes_assoc. by apply goes_refl. }
  - intros n Hn. cbv beta. unfold oops at 1. rewrite (proj2 (Nat.eqb_neq n 1000)) by lia. unfold pure at 1. rewrite Eqit.bind_ret_l. unfold waits.
    rewrite bind_bind. apply eqit_bind; [reflexivity|]. intros []. rewrite bind_bind. apply eqit_bind; [reflexivity|]. intros r. by rewrite bind_bind.
  - intros τ Ha' Hc'. apply say_goes; [done|done|done|]. by apply goes_refl.
Qed.

(** The program forktest, which writes each of its messages with one call. *)
Theorem forktest_main_correct σ : family σ [] [] σ.(o_out) →
  inevitably programs image (all_gone (σ.(o_out) ++ str (line "fork test") ++ str (line "fork test OK"))) ([Run me Forktest.main], σ).
Proof.
  intros Hf. pose proof (family_alive _ _ _ _ _ _ _ Hf) as Ha. pose proof (family_console _ _ _ _ Hf) as Hc.
  assert (∀ s τ (k : unit → prog unit) t' τ', alive me τ → on_console me 1 τ → goes image me (k tt) (set_out (τ.(o_out) ++ str s) τ) t' τ' → goes image me (ITree.bind (Forktest.printf 1 s) k) τ t' τ') as Hsay.
  { intros s τ k t' τ' Ha' (i & r & Hi) Hg. unfold Forktest.printf. apply goes_assoc. eapply (goes_bind _ (Write 1 (str s))); [done|done|intros c; simpl; unfold do_write; by rewrite Hi|]. by apply goes_pure. }
  unfold Forktest.main.
  eapply (test_done σ _ _ (λ r, Forktest.stop (r <? 0) (line "wait stopped early")) (λ r, Forktest.stop (negb (r =? -1)) (line "wait got too many")) (Forktest.printf 1 (line "fork test OK");; exit)); [done| | |done| |].
  2: { intros r Hr. unfold Forktest.stop. by rewrite (proj2 (Z.ltb_ge _ _)) by lia. }
  2: { unfold Forktest.forktest. apply goes_assoc. apply Hsay; [done|done|]. apply goes_assoc. by apply goes_refl. }
  - intros n Hn. cbv beta. unfold Forktest.stop at 1. rewrite (proj2 (Nat.eqb_neq n Forktest.N)) by (unfold Forktest.N; lia). unfold pure at 1. rewrite Eqit.bind_ret_l. unfold waits.
    rewrite bind_bind. apply eqit_bind; [reflexivity|]. intros []. rewrite bind_bind. apply eqit_bind; [reflexivity|]. intros r. by rewrite bind_bind.
  - intros τ Ha' Hc'. apply Hsay; [done|done|]. by apply goes_refl.
Qed.
End test.

(** The system of Urun.v. *)
Lemma os0_family : family 2 1 0 os0 [] [] [].
Proof.
  assert (∀ c p, os0.(o_procs) !! c = Some p → (c = 1%nat ∨ c = 2%nat) ∧ (p = proc0 0 ∨ p = proc0 1)) as Hos.
  { intros c p Hc. unfold os0 in Hc. simpl in Hc. apply lookup_insert_Some in Hc as [[<- <-]|[_ Hc]]; [tauto|]. apply lookup_singleton_Some in Hc as [<- <-]. tauto. }
  split.
  - exists (proc0 1). split_and!; [done|done|done|done|simpl; lia].
  - by intros c ?%elem_of_nil.
  - by intros c ?%elem_of_nil.
  - intros c p Hc Hp. destruct (Hos c p Hc) as [_ [->| ->]]; done.
  - constructor.
  - by intros c ?%elem_of_nil.
  - split; [simpl; lia|]. intros c p Hc. destruct (Hos c p Hc) as [[->| ->] _]; simpl; lia.
  - vm_compute. lia.
  - exists 6%nat. split; [done|simpl; lia].
  - by exists root, 1.
  - done.
Qed.

Lemma forktest_correct_witness : inevitably programs image (all_gone (str (line "fork test") ++ str (line "fork test OK"))) ([Run 2 (forktest;; exit)], os0).
Proof. apply (forktest_correct programs image 2 1 0 ltac:(lia) os0 os0_family). Defined.
Lemma forktest_main_correct_witness : inevitably programs image (all_gone (str (line "fork test") ++ str (line "fork test OK"))) ([Run 2 Forktest.main], os0).
Proof. apply (forktest_main_correct programs image 2 1 0 ltac:(lia) os0 os0_family). Defined.
