(* ===== verification/PipeTest.v ===== *)
(** * Bytes through a pipe (usertests.c: pipe1)

    A child writes 5165 bytes to a pipe that holds at most 512, and the parent
    reads them in pieces of its own.  Whatever the schedule, neither waits for
    ever, and what comes out is what went in. *)

From ITree Require Import ITree ITreeFacts.
From S2P Require Import Prelude KState Print Mem Priority Fs Ulib UserProgs Uos Usched Usertests Urun.
#[local] Open Scope prog_scope.

Section pipe1.
Context (programs : list Z → option (list (list Z) → prog unit)) (image : Z → Z).
(** The parent and the child, their directory, the console, and the two ends of the pipe [pp]. *)
Context (me ch cwd ci fr fw pp : nat) (out : list Z).
Context (Hmc : me ≠ ch) (Hme : me ≠ 1%nat) (Hcr : ci ≠ fr) (Hcw : ci ≠ fw) (Hrw : fr ≠ fw).
Notation turn := (turn programs image).
Notation step := (step programs image).

Definition total : nat := Z.to_nat 5165.
Definition D : list Z := fill 0 5165.

Definition pfds (w : bool) : list (option nat) := [Some ci; Some ci; Some ci; Some fr; (if w then Some fw else None)] ++ replicate 11 None.
Definition cfds (r : bool) : list (option nat) := [Some ci; Some ci; Some ci; (if r then Some fr else None); Some fw] ++ replicate 11 None.
Definition b2n (b : bool) : nat := if b then 1 else 0.

(** [W] bytes are written and [R] of them read; the parent still has the end for writing ([pw]), the child the end for
    reading ([cr]); the child [runs] or has exited. *)
Record piping (σ : os) (pw cr runs : bool) (W R : nat) : Prop := {
  g_me : ∃ p, σ.(o_procs) !! me = Some p ∧ p.(up_killed) = false ∧ p.(up_fds) = pfds pw ∧ p.(up_parent) ≠ me ∧ p.(up_parent) ≠ ch;
  g_ch : ∃ p, σ.(o_procs) !! ch = Some p ∧ p.(up_killed) = false ∧ p.(up_parent) = me ∧ p.(up_zombie) = negb runs ∧ (runs = true → p.(up_fds) = cfds cr ∧ p.(up_cwd) = cwd);
  g_only : ∀ c p, σ.(o_procs) !! c = Some p → p.(up_parent) = me → c = ch;
  g_cwd : ∃ x, σ.(o_nodes) !! cwd = Some x ∧ x.(n_link) ≠ 0;
  g_cons : ∃ r, σ.(o_files) !! ci = Some (Mkufile CCons r) ∧ (if runs then 6 ≤ r else 3 ≤ r)%nat;
  g_read : σ.(o_files) !! fr = Some (Mkufile (CRead pp) (S (b2n cr)));
  g_write : pw || runs = true → σ.(o_files) !! fw = Some (Mkufile (CWrite pp) (b2n pw + b2n runs));
  g_pipe : σ.(o_pipes) !! pp = Some (Mkupipe (take (W - R) (drop R D)) true (pw || runs));
  g_nums : (R ≤ W ≤ total)%nat ∧ (W - R ≤ 512)%nat ∧ (runs = false → cr = false ∧ W = total);
  g_out : σ.(o_out) = out
}.

Lemma piping_me σ pw cr runs W R : piping σ pw cr runs W R → alive me σ.
Proof. intros Hg. destruct (g_me _ _ _ _ _ _ Hg) as (p & ? & ? & _). by exists p. Qed.
Lemma piping_ch σ pw cr W R : piping σ pw cr true W R → alive ch σ.
Proof. intros Hg. destruct (g_ch _ _ _ _ _ _ Hg) as (p & ? & ? & _). by exists p. Qed.

Lemma length_D : length D = total.
Proof. unfold D, fill. by rewrite length_fmap, length_seq. Qed.
Lemma length_piece W R : (R ≤ W ≤ total)%nat → length (take (W - R) (drop R D)) = (W - R)%nat.
Proof. intros H. rewrite length_take, length_drop, length_D. lia. Qed.

(** ** Closing *)

Lemma piping_child_close σ pw W R c : piping σ pw true true W R → ∃ σ', sys image (Close 3) c ch σ = Returns 0 σ' ∧ piping σ' pw false true W R.
Proof.
  intros [G1 (p & P1 & P2 & P3 & P4 & P5) G3 G4 G5 G6 G7 G8 G9 G10]. destruct (P5 eq_refl) as [P6 P7]. simpl in G6. eexists. split.
  - simpl. unfold fd_of. rewrite P1. simpl. rewrite P6. simpl. rewrite (upd_proc_insert ch _ σ p P1). rewrite (close_shared fr _ (CRead pp) 0); [reflexivity|exact G6].
  - split; cbn [set_files set_procs o_procs o_files o_nodes o_pipes o_out].
    + destruct G1 as (q & ? & ?). exists q. by rewrite lookup_insert_ne.
    + eexists. rewrite lookup_insert_eq. split; [done|]. simpl. by rewrite P6.
    + intros d q [[<- <-]|[_ Hd]]%lookup_insert_Some Hq; [done|by eapply G3].
    + done.
    + destruct G5 as (r & ? & ?). exists r. by rewrite lookup_insert_ne.
    + by rewrite lookup_insert_eq.
    + intros H. rewrite lookup_insert_ne by done. by apply G7.
    + done.
    + destruct G9 as (? & ? & _). split; [done|]. by split.
    + done.
Qed.

(** The end for writing: one of two descriptors, or the last. *)
Lemma close_w σ n data : σ.(o_files) !! fw = Some (Mkufile (CWrite pp) (S n)) → σ.(o_pipes) !! pp = Some (Mkupipe data true true) →
  close_file fw σ = match n with
    | S n' => set_files (<[fw := Mkufile (CWrite pp) (S n')]> σ.(o_files)) σ
    | O => set_pipes (<[pp := Mkupipe data true false]> σ.(o_pipes)) (set_files (delete fw σ.(o_files)) σ)
    end.
Proof. intros Hf Hp. destruct n as [|n]; [|by apply close_shared]. unfold close_file. rewrite Hf. simpl. unfold close_end. simpl. by rewrite Hp. Qed.

Lemma piping_parent_close σ cr runs W R c : piping σ true cr runs W R → ∃ σ', sys image (Close 4) c me σ = Returns 0 σ' ∧ piping σ' false cr runs W R.
Proof.
  intros [(p & P1 & P2 & P3 & P4 & P5) G2 G3 G4 G5 G6 G7 G8 G9 G10]. specialize (G7 eq_refl). simpl in G7. eexists. split.
  - simpl. unfold fd_of. rewrite P1. simpl. rewrite P3. simpl. rewrite (upd_proc_insert me _ σ p P1). rewrite (close_w _ (b2n runs) (take (W - R) (drop R D))); [reflexivity|exact G7|exact G8].
  - assert (∀ d q, <[me := set_fds (<[4%nat := None]> (pfds true)) p]> (o_procs σ) !! d = Some q → up_parent q = me → d = ch) as G3'.
    { intros d q [[<- <-]|[_ Hd]]%lookup_insert_Some Hq; [done|by eapply G3]. }
    assert (∃ q, <[me := set_fds (<[4%nat := None]> (pfds true)) p]> (o_procs σ) !! me = Some q ∧ up_killed q = false ∧ up_fds q = pfds false ∧ up_parent q ≠ me ∧ up_parent q ≠ ch) as G1' by (eexists; by rewrite lookup_insert_eq).
    rewrite P3. destruct runs; split; cbn [b2n set_files set_procs set_pipes o_procs o_files o_nodes o_pipes o_out]; rewrite ?lookup_insert_ne by done; try done.
    + by rewrite lookup_insert_eq.
    + destruct G5 as (r & ? & ?). exists r. by rewrite lookup_delete_ne.
    + by rewrite lookup_delete_ne.
    + by rewrite lookup_insert_eq.
Qed.

(** ** The exit of the child *)

Lemma piping_exit σ pw R : piping σ pw false true total R → piping (die ch σ) pw false false total R.
Proof.
  intros [(q & Q1 & Q2 & Q3 & Q4 & Q5) (p & P1 & P2 & P3 & P4 & P5) G3 (x & X1 & X2) (r & C1 & C2) G6 G7 G8 G9 G10]. destruct (P5 eq_refl) as [P6 P7].
  specialize (G7 (orb_true_r _)). rewrite orb_true_r in G8. destruct r as [|[|[|[|r]]]]; [lia..|]. unfold die. rewrite P1, P6. cbn [cfds app foldl replicate].
  rewrite (close_shared ci _ CCons (S (S r)) C1). set (σ1 := set_files _ σ). rewrite (close_shared ci σ1 CCons (S r)) by apply lookup_insert_eq.
  set (σ2 := set_files _ σ1). rewrite (close_shared ci σ2 CCons r) by apply lookup_insert_eq. set (σ3 := set_files _ σ2).
  assert (σ3.(o_files) !! fw = Some (Mkufile (CWrite pp) (S (b2n pw)))) as E3 by (simpl; rewrite !lookup_insert_ne by done; rewrite G7; by destruct pw).
  rewrite (close_w σ3 (b2n pw) _ E3 G8). set (σ4 := match b2n pw with O => _ | S _ => _ end).
  assert (σ4.(o_procs) = σ.(o_procs) ∧ σ4.(o_nodes) = σ.(o_nodes) ∧ σ4.(o_out) = σ.(o_out)) as (K1 & K2 & K3) by (unfold σ4; by destruct pw).
  assert (σ4.(o_pipes) !! pp = Some (Mkupipe (take (total - R) (drop R D)) true pw)) as K4 by (unfold σ4; destruct pw; [exact G8|apply lookup_insert_eq]).
  assert (σ4.(o_files) !! ci = Some (Mkufile CCons (S r)) ∧ σ4.(o_files) !! fr = σ.(o_files) !! fr ∧ (pw = true → σ4.(o_files) !! fw = Some (Mkufile (CWrite pp) 1))) as (K5 & K6 & K7).
  { unfold σ4. split_and!.
    - destruct pw; simpl; [rewrite lookup_insert_ne by done|rewrite lookup_delete_ne by done]; apply lookup_insert_eq.
    - destruct pw; simpl; [rewrite lookup_insert_ne by done|rewrite lookup_delete_ne by done]; by rewrite !lookup_insert_ne.
    - intros ->. apply lookup_insert_eq. }
  clearbody σ4. rewrite (upd_proc_insert ch _ σ4 p) by (by rewrite K1). rewrite P7, (iput_linked cwd _ x); [|simpl; by rewrite K2|exact X2].
  split; cbn [set_procs o_procs o_files o_nodes o_pipes o_out]; rewrite ?K1, ?K2, ?K3, ?K4, ?K6; try done.
  - exists q. rewrite lookup_fmap, lookup_insert_ne, Q1 by done. simpl. by rewrite (proj2 (Nat.eqb_neq _ _) Q5).
  - eexists. rewrite lookup_fmap, lookup_insert_eq. simpl. rewrite P3, (proj2 (Nat.eqb_neq me ch)) by done. split; [done|]. done.
  - intros d q' Hd Hq'. rewrite lookup_fmap in Hd. destruct (decide (d = ch)) as [|Hne]; [done|]. rewrite lookup_insert_ne in Hd by done.
    destruct (o_procs σ !! d) as [q1|] eqn:Ed; [|done]. injection Hd as <-. destruct (_ =? _)%nat; [simpl in Hq'; by rewrite Hq' in Hme|]. by eapply G3.
  - by exists x.
  - exists (S r). split; [done|lia].
  - rewrite orb_false_r. intros ->. simpl. by apply K7.
  - by rewrite orb_false_r.
  - destruct G9 as (? & ? & _). split; [done|]. by split.
Qed.

(** ** Reading and writing *)

(** A write of the next [n] bytes: as many of them as there is room for. *)
Lemma piping_write σ pw W R n : piping σ pw false true W R → (0 < n)%nat → (W + n ≤ total)%nat →
  let rest := take n (drop W D) in let k := Nat.min (512 - (W - R)) n in
  ∃ σ', piping σ' pw false true (W + k) R ∧
    do_write ch 4 rest σ = (if (k =? n)%nat then Returns (Z.of_nat n) σ' else if (k =? 0)%nat then Blocks
      else Again (Write 4 (take (n - k) (drop (W + k) D))) (λ r, if r =? -1 then -1 else Z.of_nat n) σ').
Proof.
  intros Hg Hn Hle rest k. destruct Hg as [G1 G2 G3 G4 G5 G6 G7 G8 G9 G10]. destruct G2 as (p & P1 & P2 & P3 & P4 & P5). destruct (P5 eq_refl) as [P6 P7]. destruct G9 as (N1 & N2 & N3).
  assert (length rest = n) as Hr by (unfold rest; rewrite length_take, length_drop, length_D; lia).
  assert (take (W - R) (drop R D) ++ take k rest = take (W + k - R) (drop R D)) as Hq.
  { unfold rest. rewrite take_take, Nat.min_l by (unfold k; lia). replace (W + k - R)%nat with ((W - R) + k)%nat by lia. rewrite <- (take_take_drop (drop R D)), drop_drop. do 3 f_equal. lia. }
  exists (set_pipes (<[pp := Mkupipe (take (W + k - R) (drop R D)) true true]> σ.(o_pipes)) σ). split.
  - split; cbn [set_pipes o_procs o_files o_nodes o_pipes o_out]; try done; [by exists p|by rewrite lookup_insert_eq, orb_true_r|]. split; [unfold k; lia|]. split; [unfold k; lia|done].
  - specialize (G7 (orb_true_r _)). rewrite orb_true_r in G8. unfold do_write. rewrite (chan_lookup ch 4 σ p fw (Mkufile (CWrite pp) (b2n pw + b2n true)) P1); [|done|by rewrite P6|exact G7].
    rewrite G8. cbn [q_data q_r q_w negb]. rewrite length_piece, Hr by done. fold k. rewrite Hq. replace (drop k rest) with (take (n - k) (drop (W + k) D)); [done|].
    unfold rest. by rewrite skipn_firstn_comm, drop_drop.
Qed.

(** A read of at most [m] bytes: what there is, unless there is nothing and the child may still write. *)
Lemma piping_read σ cr runs W R m : piping σ false cr runs W R → let n := Nat.min m (W - R) in
  ∃ σ', piping σ' false cr runs W (R + n) ∧
    do_read me 3 (Z.of_nat m) σ = (if (W =? R)%nat && runs then Blocks else Returns (Some (take n (drop R D))) σ').
Proof.
  intros Hg n. destruct Hg as [G1 G2 G3 G4 G5 G6 G7 G8 G9 G10]. destruct G1 as (p & P1 & P2 & P3 & P4). destruct G9 as (N1 & N2 & N3). simpl in G8.
  exists (set_pipes (<[pp := Mkupipe (take (W - (R + n)) (drop (R + n) D)) true runs]> σ.(o_pipes)) σ). split.
  - split; cbn [set_pipes o_procs o_files o_nodes o_pipes o_out]; try done; [by exists p|by rewrite lookup_insert_eq|]. unfold n. split; [lia|]. split; [lia|done].
  - unfold do_read. rewrite (proj2 (Z.ltb_ge _ _)) by lia. rewrite (chan_lookup me 3 σ p fr (Mkufile (CRead pp) (S (b2n cr))) P1); [|done|by rewrite P3|exact G6]. rewrite G8. cbn [q_data q_r q_w].
    rewrite length_piece by done. replace (W - R =? 0)%nat with (W =? R)%nat by (destruct (Nat.eqb_spec W R), (Nat.eqb_spec (W - R) 0); lia). destruct (_ && runs); [done|].
    rewrite Nat2Z.id, take_take. fold n. replace (drop m (take (W - R) (drop R D))) with (take (W - (R + n)) (drop (R + n) D)); [done|]. rewrite skipn_firstn_comm, drop_drop. unfold n. destruct (Nat.le_ge_cases m (W - R)).
    + rewrite Nat.min_l by done. f_equal. lia.
    + rewrite Nat.min_r by done. replace (W - (R + (W - R)))%nat with 0%nat by lia. by replace (W - R - m)%nat with 0%nat by lia.
Qed.

(** ** What is left of the programs *)

(** The bytes of the sequence from [W] on are those of [D]. *)
Lemma fill_D W n : (W + n ≤ total)%nat → fill (Z.of_nat W) (Z.of_nat n) = take n (drop W D).
Proof.
  intros H. unfold D, fill. rewrite <- fmap_drop, <- fmap_take. rewrite drop_seq, take_seq. change (Z.to_nat 5165) with total. rewrite Nat2Z.id, Nat.min_l by lia.
  replace (0 + W)%nat with W by lia. apply list_eq. intros i. rewrite !list_lookup_fmap. destruct (decide (i < n)%nat) as [Hi|Hi].
  - rewrite !lookup_seq_lt by done. simpl. do 2 f_equal. lia.
  - rewrite !lookup_seq_ge by lia. done.
Qed.

Definition rest_of (x : bool * Z * list Z) : prog unit :=
  (let '(good, total, buf) := x in
   if negb good then pure buf else
   (if negb (total =? 5 * 1033) then printf 1 (line "pipe1 oops 3 total %d") [AInt total];; exit else pure tt);;
   close 3;; wait;; say (line "pipe1 ok");; pure buf);; exit.
Definition PL (s : Z * Z * Z * list Z) : prog unit := ITree.bind (ITree.iter (pipe1_loop 3) s) rest_of.

Definition child_step (x : nat) (s : Z * list Z) : prog (Z * list Z) :=
  let '(sq, buf) := s in
  let buf := splice 0 (fill sq 1033) buf in
  n <- write 4 (take 1033 buf);;
  oops (negb (n =? 1033)) (line "pipe1 oops 1");;
  pure (sq + 1033, buf).
Definition CL (l : list nat) (s : Z * list Z) : prog unit := fold l child_step s;; exit.

(** The loop of the parent is at a read. *)
Lemma PL_read sq cc buf : ∃ k, PL (sq, sq, cc, buf) ≅ Vis (Read 3 cc) k ∧
  k (Some []) ≅ rest_of (true, sq, buf) ∧
  ∀ bs, bs ≠ [] → (length bs ≤ length buf)%nat → u8 <$> bs = fill sq (Z.of_nat (length bs)) → let n := Z.of_nat (length bs) in
    k (Some bs) ≅ Tau (PL (sq + n, sq + n, (if sizeof_buf <? cc * 2 then sizeof_buf else cc * 2), splice 0 bs buf)).
Proof.
  unfold PL. eexists. split.
  - rewrite unfold_iter. rewrite bind_bind. unfold pipe1_loop at 1, read. rewrite bind_bind. rewrite call_bind_vis. reflexivity.
  - cbv beta. split.
    + unfold pure. rewrite Eqit.bind_ret_l. simpl. rewrite Eqit.bind_ret_l. cbv iota. by rewrite Eqit.bind_ret_l.
    + intros bs Hne Hl Hbs. unfold pure at 1. rewrite Eqit.bind_ret_l. cbv iota beta. set (n := Z.of_nat (length bs)). assert (0 < n) as Hn by (unfold n; destruct bs; [done|simpl; lia]).
      rewrite (proj2 (Z.ltb_lt _ _) Hn). cbn [negb]. rewrite decide_True.
      2: { unfold n. rewrite Nat2Z.id. unfold splice. rewrite take_0, app_nil_l, take_app_length. exact Hbs. }
      unfold pure. rewrite Eqit.bind_ret_l. cbv iota. rewrite bind_tau. reflexivity.
Qed.

(** The child is at a write, or at its end. *)
Lemma CL_write x l W buf : (W + 1033 ≤ total)%nat → ∃ k buf', CL (x :: l) (Z.of_nat W, buf) ≅ Vis (Write 4 (take 1033 (drop W D))) k ∧ k 1033 ≅ CL l (Z.of_nat (W + 1033), buf').
Proof.
  intros HW. assert (length (fill (Z.of_nat W) 1033) = 1033%nat) as Hl by (unfold fill; by rewrite length_fmap, length_seq).
  unfold CL. cbn [fold]. exists (λ n, ITree.bind (ITree.bind (ITree.bind (oops (negb (n =? 1033)) (line "pipe1 oops 1")) (λ _, pure (Z.of_nat W + 1033, splice 0 (fill (Z.of_nat W) 1033) buf))) (λ s, fold l child_step s)) (λ _, exit)), (splice 0 (fill (Z.of_nat W) 1033) buf). split.
  - rewrite bind_bind. unfold child_step at 1. unfold write. rewrite call_bind_vis.
    replace (take 1033 (splice 0 (fill (Z.of_nat W) 1033) buf)) with (take 1033 (drop W D)).
    2: { rewrite <- (fill_D W 1033) by done. unfold splice. rewrite take_0, app_nil_l. change (Z.of_nat 1033) with 1033. by rewrite take_app_le, take_ge by lia. }
    apply eqit_Vis. intros n. symmetry. rewrite bind_bind. reflexivity.
  - cbv beta. change (negb (1033 =? 1033)) with false. unfold oops, pure. rewrite !Eqit.bind_ret_l. by replace (Z.of_nat (W + 1033)) with (Z.of_nat W + 1033) by lia.
Qed.
Lemma CL_end s : CL [] s ≅ exit.
Proof. unfold CL. cbn [fold]. unfold pure. by rewrite Eqit.bind_ret_l. Qed.

(** Where the child is. *)
Definition child_at (th : thread) (cr runs : bool) (W : nat) : Prop :=
  if runs then ∃ t, th = Run ch t ∧
    (if cr then W = 0%nat ∧ ∃ buf, t ≅ Vis (Close 3) (λ _, CL (seq 0 5) (0, buf))
     else W = total ∧ t ≅ exit ∨
          ∃ n l k buf, (0 < n)%nat ∧ (W + n + 1033 * length l = total)%nat ∧ t ≅ Vis (Write 4 (take n (drop W D))) k ∧ k (Z.of_nat n) ≅ CL l (Z.of_nat (W + n), buf))
  else th = Gone ch.
(** Where the parent is. *)
Definition parent_at (t : prog unit) (pw tau : bool) (R : nat) : Prop :=
  if pw then tau = false ∧ R = 0%nat ∧ ∃ buf, length buf = Z.to_nat 8192 ∧ t ≅ Vis (Close 4) (λ _, PL (0, 0, 1, buf))
  else ∃ cc buf, (0 < cc ≤ Z.to_nat 8192)%nat ∧ length buf = Z.to_nat 8192 ∧
    let s := (Z.of_nat R, Z.of_nat R, Z.of_nat cc, buf) in if tau then t ≅ Tau (PL s) else t ≅ PL s.

Lemma child_at_CL l W buf t : (W + 1033 * length l = total)%nat → t ≅ CL l (Z.of_nat W, buf) → child_at (Run ch t) false true W.
Proof.
  intros Hl Ht. exists t. split; [done|]. destruct l as [|x l]; [left; split; [cbn [length] in Hl; lia|by rewrite Ht, CL_end]|]. right. cbn [length] in Hl.
  destruct (CL_write x l W buf ltac:(lia)) as (k & buf' & H1 & H2). exists 1033%nat, l, k, buf'. split_and!; [lia|lia|by rewrite Ht|done].
Qed.

(** A turn of the child. *)
Lemma pipe_child_turn σ pw cr W R t c : piping σ pw cr true W R → child_at (Run ch t) cr true W →
  match step c (Run ch t) σ with
  | None => (W - R)%nat = 512%nat
  | Some (th', σ', new) => new = [] ∧ ∃ cr' runs' W', piping σ' pw cr' runs' W' R ∧ child_at th' cr' runs' W' ∧ (b2n cr' + b2n runs' + (total - W') < b2n cr + 1 + (total - W))%nat
  end.
Proof.
  intros Hg (t' & [= <-] & Hcase). pose proof (piping_ch _ _ _ _ _ Hg) as Ha. pose proof (g_nums _ _ _ _ _ _ Hg) as (N1 & N2 & _). destruct cr.
  - destruct Hcase as [-> (buf & Ht)]. apply eqitree_inv_Vis_r in Ht as (k & Ho & Hk). destruct (piping_child_close σ pw 0 R c Hg) as (σ' & Hs & Hg').
    rewrite (step_plain programs image (Close 3) k t c ch σ Ha Ho I), Hs. split; [done|]. exists false, true, 0%nat. split_and!; [done|eapply (child_at_CL (seq 0 5)); [done|apply Hk]|cbn [b2n]; lia].
  - destruct Hcase as [[-> Ht]|(n & l & k & buf & Hn & Hsum & Ht & Hk)].
    + unfold exit in Ht. rewrite call_vis in Ht. apply eqitree_inv_Vis_r in Ht as (k & Ho & Hk). rewrite (step_exit programs image k t c ch σ Ha Ho). split; [done|].
      exists false, false, total. split_and!; [by apply piping_exit|done|cbn [b2n]; lia].
    + apply eqitree_inv_Vis_r in Ht as (h & Ho & Hh). destruct (piping_write σ pw W R n Hg Hn ltac:(lia)) as (σ' & Hg' & Hw). set (m := Nat.min (512 - (W - R)) n) in *.
      rewrite (step_plain programs image (Write 4 _) h t c ch σ Ha Ho I). simpl. rewrite Hw. destruct (Nat.eqb_spec m n) as [Em|Em].
      * rewrite Em in *. split; [done|]. exists false, true, (W + n)%nat. split_and!; [done|eapply (child_at_CL l (W + n)%nat buf); [lia|by rewrite (Hh (Z.of_nat n))]|cbn [b2n]; lia].
      * destruct (Nat.eqb_spec m 0) as [E0|E0]; [unfold m in *; lia|]. split; [done|]. exists false, true, (W + m)%nat. split_and!; [done| |cbn [b2n]; lia].
        eexists. split; [done|]. right. exists (n - m)%nat, l, (λ x, h (if x =? -1 then -1 else Z.of_nat n)), buf.
        assert (m ≤ n)%nat by (unfold m; lia). split_and!; [lia|lia|reflexivity|]. cbv beta. rewrite (proj2 (Z.eqb_neq _ _)) by lia. rewrite (Hh (Z.of_nat n)). by replace (W + m + (n - m))%nat with (W + n)%nat by lia.
Qed.

(** Everything is read, and the child is gone. *)
Definition drained (ts : pool) : Prop := ∃ t buf σ, ts = ([Run me t; Gone ch], σ) ∧ t ≅ rest_of (true, 5165, buf) ∧ piping σ false false false total total.

(** A turn of the parent. *)
Lemma pipe_parent_turn σ pw cr runs W R tau t thC c : piping σ pw cr runs W R → parent_at t pw tau R → child_at thC cr runs W →
  match step c (Run me t) σ with
  | None => pw = false ∧ W = R ∧ runs = true
  | Some (th', σ', new) => new = [] ∧ (drained ([th'; thC], σ') ∨
      ∃ t' pw' tau' R', th' = Run me t' ∧ piping σ' pw' cr runs W R' ∧ parent_at t' pw' tau' R' ∧ (b2n pw' + b2n tau' + 2 * (total - R') < b2n pw + b2n tau + 2 * (total - R))%nat)
  end.
Proof.
  intros Hg Hp Hc. pose proof (piping_me _ _ _ _ _ _ Hg) as Ha. pose proof (g_nums _ _ _ _ _ _ Hg) as (N1 & N2 & N3). destruct pw.
  - destruct Hp as (-> & -> & buf & Hb & Ht). apply eqitree_inv_Vis_r in Ht as (k & Ho & Hk). destruct (piping_parent_close σ cr runs W 0 c Hg) as (σ' & Hs & Hg').
    rewrite (step_plain programs image (Close 4) k t c me σ Ha Ho I), Hs. split; [done|]. right. exists (k 0), false, false, 0%nat. split_and!; [done|done| |cbn [b2n]; lia].
    exists 1%nat, buf. split_and!; [lia|lia|done|apply Hk].
  - destruct Hp as (cc & buf & Hcc & Hb & Ht). cbv zeta in Ht. destruct tau.
    + apply eqitree_inv_Tau_r in Ht as (t' & Ho & Ht'). rewrite (step_tau programs image t t' c me σ Ha Ho). split; [done|]. right. exists t', false, false, R. split_and!; [done|done|by exists cc, buf|cbn [b2n]; lia].
    + destruct (PL_read (Z.of_nat R) (Z.of_nat cc) buf) as (k & Hk & Heof & Hgot). rewrite Hk in Ht. apply eqitree_inv_Vis_r in Ht as (h & Ho & Hh).
      destruct (piping_read σ cr runs W R cc Hg) as (σ' & Hg' & Hr). rewrite (step_plain programs image (Read 3 _) h t c me σ Ha Ho I). simpl. rewrite Hr.
      destruct (Nat.eqb_spec W R) as [->|Hne]; cbn [andb].
      * destruct runs; [done|]. destruct (N3 eq_refl) as [-> ->]. rewrite Nat.sub_diag, Nat.min_0_r, take_0 in *. split; [done|]. left. unfold child_at in Hc. subst thC.
        exists (h (Some [])), buf, σ'. split_and!; [done|by rewrite (Hh (Some []))|by rewrite Nat.add_0_r in Hg'].
      * set (n := Nat.min cc (W - R)) in *. assert (0 < n ≤ cc)%nat as Hn by (unfold n; lia). assert (R + n ≤ total)%nat as Hle by (unfold n; lia).
        assert (length (take n (drop R D)) = n) as Hln by (rewrite length_take, length_drop, length_D; lia).
        split; [done|]. right. exists (h (Some (take n (drop R D)))), false, true, (R + n)%nat. split_and!; [done|done| |cbn [b2n]; lia].
        exists (if (sizeof_buf <? Z.of_nat cc * 2)%Z then Z.to_nat 8192 else (cc * 2)%nat), (splice 0 (take n (drop R D)) buf). split_and!.
        -- unfold sizeof_buf. destruct (Z.ltb_spec 8192 (Z.of_nat cc * 2)); lia.
        -- unfold sizeof_buf. destruct (Z.ltb_spec 8192 (Z.of_nat cc * 2)); lia.
        -- unfold splice. rewrite take_0, !length_app, length_drop, Hln. simpl. lia.
        -- cbv zeta iota. rewrite (Hh (Some (take n (drop R D)))), (Hgot (take n (drop R D))); [|intros E; by rewrite E in Hln; simpl in Hln; lia|lia|].
           ++ rewrite Hln. replace (Z.of_nat (R + n)) with (Z.of_nat R + Z.of_nat n) by lia. replace (Z.of_nat (if (sizeof_buf <? Z.of_nat cc * 2)%Z then Z.to_nat 8192 else (cc * 2)%nat)) with (if sizeof_buf <? Z.of_nat cc * 2 then sizeof_buf else Z.of_nat cc * 2); [reflexivity|].
              unfold sizeof_buf. destruct (Z.ltb_spec 8192 (Z.of_nat cc * 2)); lia.
           ++ rewrite Hln, fill_D by lia. rewrite <- (fill_D R n) by lia. unfold fill. rewrite <- list_fmap_compose. apply list_fmap_ext. intros i x _. simpl. unfold u8. by rewrite Z.mod_mod.
Qed.

(** ** Every schedule *)

Definition moves (n : nat) (ts : pool) : Prop :=
  ∃ t thC σ pw cr runs W R tau, ts = ([Run me t; thC], σ) ∧ piping σ pw cr runs W R ∧ parent_at t pw tau R ∧ child_at thC cr runs W ∧
    n = S (b2n cr + b2n runs + (total - W) + (b2n pw + b2n tau + 2 * (total - R)))%nat.

Lemma moves_on n ts : moves n ts → ∃ i c ts', turn ts i c = Some ts'.
Proof.
  intros (t & thC & σ & pw & cr & runs & W & R & tau & -> & Hg & Hp & Hc & _). pose proof (pipe_parent_turn σ pw cr runs W R tau t thC 0 Hg Hp Hc) as H.
  destruct (step 0 (Run me t) σ) as [[[th' σ'] new]|] eqn:Es; [eexists 0%nat, 0%nat, _; by eapply turn_intro|]. destruct H as (-> & -> & ->). destruct (Hc) as (tc & -> & _).
  pose proof (pipe_child_turn σ false cr R R tc 0 Hg Hc) as H'. destruct (step 0 (Run ch tc) σ) as [[[th' σ'] new]|] eqn:Es'; [eexists 1%nat, 0%nat, _; by eapply turn_intro; [|exact Es']|lia].
Qed.

Lemma moves_step n ts i c ts' : moves n ts → turn ts i c = Some ts' → ∃ n', (n' < n)%nat ∧ (moves n' ts' ∨ drained ts').
Proof.
  intros (t & thC & σ & pw & cr & runs & W & R & tau & -> & Hg & Hp & Hc & ->) (th & th' & σ1 & new & Hi & Hst & ->)%turn_inv. cbn [fst snd] in *.
  destruct i as [|[|i]]; [..|done]; cbn [lookup list_lookup] in Hi; injection Hi as <-.
  - pose proof (pipe_parent_turn σ pw cr runs W R tau t thC c Hg Hp Hc) as H. rewrite Hst in H. destruct H as (-> & [Hd|(t' & pw' & tau' & R' & -> & Hg' & Hp' & Hlt)]).
    + exists 0%nat. split; [lia|by right].
    + eexists. split; [|left; exists t', thC, σ1, pw', cr, runs, W, R', tau'; split_and!; [done|done|done|done|reflexivity]]. lia.
  - destruct runs; [|by rewrite Hc in Hst]. destruct (Hc) as (tc & -> & _). pose proof (pipe_child_turn σ pw cr W R tc c Hg Hc) as H. rewrite Hst in H.
    destruct H as (-> & cr' & runs' & W' & Hg' & Hc' & Hlt). eexists. split; [|left; exists t, th', σ1, pw, cr', runs', W', R, tau; split_and!; [done|done|done|done|reflexivity]]. cbn [b2n]. lia.
Qed.

Lemma moves_drained n ts : moves n ts → inevitably programs image drained ts.
Proof.
  intros H. apply (inev_measure programs image (λ n ts, moves n ts ∨ drained ts) drained) with (n := n); [|by left].
  intros n' ts' [Hw|Hd]; [right|by left]. split; [by eapply moves_on|]. intros i c ts'' Ht. by eapply moves_step.
Qed.

(** ** The end *)

Lemma close_r σ data : σ.(o_files) !! fr = Some (Mkufile (CRead pp) 1) → σ.(o_pipes) !! pp = Some (Mkupipe data true false) →
  close_file fr σ = set_pipes (delete pp σ.(o_pipes)) (set_files (delete fr σ.(o_files)) σ).
Proof. intros Hf Hp. unfold close_file. rewrite Hf. simpl. unfold close_end. simpl. by rewrite Hp. Qed.

Lemma drained_ends ts : drained ts → inevitably programs image (λ ts, fst ts = [Gone me; Gone ch] ∧ (snd ts).(o_out) = out ++ str (line "pipe1 ok")) ts.
Proof.
  intros (t & buf & σ & -> & Ht & Hg). pose proof (piping_me _ _ _ _ _ _ Hg) as Ha. destruct Hg as [(p & P1 & P2 & P3 & P4 & P5) (q & Q1 & Q2 & Q3 & Q4 & _) G3 G4 (r & C1 & C2) G6 _ G8 _ G10].
  set (p1 := set_fds (<[3%nat := None]> (pfds false)) p). set (σ1 := set_pipes (delete pp σ.(o_pipes)) (set_files (delete fr σ.(o_files)) (set_procs (<[me := p1]> σ.(o_procs)) σ))).
  assert (∀ c, sys image (Close 3) c me σ = Returns 0 σ1) as E1.
  { intros c. simpl. unfold fd_of. rewrite P1. simpl. rewrite P3. simpl. rewrite (upd_proc_insert me _ σ p P1). rewrite P3. erewrite close_r; [reflexivity|exact G6|exact G8]. }
  assert (∀ th τ, alone 0 ([th; Gone ch], τ)) as Hal by (intros ? ? [|[|j]] ? Hj Hl; [done|injection Hl as <-; by exists ch|done]).
  assert (alive me σ1) as Ha1 by (exists p1; by rewrite <- P2; split; [apply lookup_insert_eq|]).
  eapply (inev_goes programs image _ 0 me _ σ (ITree.bind (call Wait) (λ _, say (line "pipe1 ok");; exit)) σ1); [|exact Ht|apply Hal|done|].
  { unfold rest_of. cbn [negb]. change (negb (5165 =? 5 * 1033)) with false. cbv iota. apply goes_assoc, goes_pure, goes_assoc. eapply (goes_bind _ (Close 3)); [done|done|exact E1|].
    apply goes_refl. unfold wait. rewrite bind_bind. apply eqit_bind; [reflexivity|]. intros ?. rewrite bind_bind. apply eqit_bind; [reflexivity|]. intros ?. unfold pure. by rewrite Eqit.bind_ret_l. }
  intros t1 Ht1. rewrite call_vis in Ht1. assert (σ1.(o_procs) !! ch = Some q) as Hq1 by (unfold σ1; simpl; by rewrite lookup_insert_ne).
  eapply (inev_wait programs image _ 0 me); [apply Hal|done|exact Ht1|done|exact Hq1|done|done| |].
  { intros c' p' Hc' Hp'. unfold σ1 in Hc'. cbn [set_pipes set_files set_procs o_procs] in Hc'. apply lookup_insert_Some in Hc' as [[<- <-]|[_ Hd]]; [done|by eapply G3]. }
  intros t2 Ht2. set (σ2 := set_free _ _). assert (σ2.(o_procs) !! me = Some p1) as Hp2 by (unfold σ2, σ1; simpl; rewrite lookup_delete_ne, lookup_insert_eq by done; done).
  eapply (inev_goes programs image _ 0 me); [|exact Ht2|apply Hal|done|].
  { apply say_goes; [done|by exists p1| |by apply goes_refl]. exists ci, r. apply (chan_lookup me 1 σ2 p1); [done|done|done|]. unfold σ2, σ1. simpl. by rewrite lookup_delete_ne. }
  intros t3 Ht3. eapply (inev_exit programs image _ 0 me t3); [apply Hal|done|exact Ht3|by exists p1|]. split; [done|]. cbn [snd]. rewrite die_out. simpl. by rewrite G10.
Qed.
End pipe1.

(** ** The test *)

Section test.
Context (programs : list Z → option (list (list Z) → prog unit)) (image : Z → Z) (me cwd ci : nat).

(** A process as the shell starts it, no children, and a free slot of every kind. *)
Record prepared (σ : os) : Prop := {
  pr_me : ∃ p, σ.(o_procs) !! me = Some p ∧ p.(up_killed) = false ∧ p.(up_fds) = [Some ci; Some ci; Some ci] ++ replicate 13 None ∧ p.(up_cwd) = cwd ∧
    p.(up_parent) ≠ me ∧ p.(up_parent) ≠ σ.(o_pid) ∧ pages p.(up_sz) ≤ σ.(o_free);
  pr_pid : me ≠ 1%nat ∧ σ.(o_pid) ≠ me ∧ σ.(o_pid) ≠ 0%nat;
  pr_none : ∀ c p, σ.(o_procs) !! c = Some p → p.(up_parent) ≠ me;
  pr_procs : (size σ.(o_procs) < NPROC)%nat;
  pr_cons : ∃ r, σ.(o_files) !! ci = Some (Mkufile CCons r) ∧ (3 ≤ r)%nat;
  pr_cwd : ∃ x, σ.(o_nodes) !! cwd = Some x ∧ x.(n_link) ≠ 0;
  pr_files : ∃ i j, i ≠ j ∧ (i < NFILE)%nat ∧ (j < NFILE)%nat ∧ σ.(o_files) !! i = None ∧ σ.(o_files) !! j = None;
  pr_pipe : ∃ k, (k < NFILE)%nat ∧ σ.(o_pipes) !! k = None
}.

Lemma pipe1_parent buf pid : 0 < pid → ITree.bind (if pid =? 0 then pipe1_child 3 4 buf;; pure buf else if 0 <? pid then
    close 4;; x <- ITree.iter (pipe1_loop 3) (0, 0, 1, buf);; let '(good, total, buf) := x in
    if negb good then pure buf else
    (if negb (total =? 5 * 1033) then printf 1 (line "pipe1 oops 3 total %d") [AInt total];; exit else pure tt);;
    close 3;; wait;; say (line "pipe1 ok");; pure buf
  else say (line "fork() failed");; exit) (λ _, exit) ≅ Vis (Close 4) (λ _, PL (0, 0, 1, buf)).
Proof.
  intros Hp. rewrite (proj2 (Z.eqb_neq _ _)), (proj2 (Z.ltb_lt _ _) Hp) by lia. unfold close at 1. rewrite call_bind_vis. apply eqit_Vis. intros _. unfold PL. rewrite bind_bind. reflexivity.
Qed.
Lemma pipe1_child_vis buf : ITree.bind (pipe1_child 3 4 buf;; pure buf) (λ _, exit) ≅ Vis (Close 3) (λ _, CL (seq 0 5) (0, buf)).
Proof.
  unfold pipe1_child. rewrite !bind_bind. unfold close at 1. rewrite call_vis. apply eqit_Vis. intros _. unfold CL. rewrite bind_bind. apply eqit_bind; [reflexivity|]. intros ?. apply exit_bind.
Qed.

(** The pipe is made. *)
Lemma pipe_made σ : prepared σ → ∃ fr fw pp σ', (∀ c, sys image Pipe c me σ = Returns (Some (3, 4)) σ') ∧ ci ≠ fr ∧ ci ≠ fw ∧ fr ≠ fw ∧
  (∃ p, σ'.(o_procs) !! me = Some p ∧ p.(up_killed) = false ∧ p.(up_fds) = pfds ci fr fw true ∧ p.(up_cwd) = cwd ∧ p.(up_parent) ≠ me ∧ p.(up_parent) ≠ σ.(o_pid) ∧ pages p.(up_sz) ≤ σ.(o_free)) ∧
  (∀ c, c ≠ me → σ'.(o_procs) !! c = σ.(o_procs) !! c) ∧ size σ'.(o_procs) = size σ.(o_procs) ∧ σ'.(o_files) !! ci = σ.(o_files) !! ci ∧
  σ'.(o_files) !! fr = Some (Mkufile (CRead pp) 1) ∧ σ'.(o_files) !! fw = Some (Mkufile (CWrite pp) 1) ∧ σ'.(o_pipes) !! pp = Some (Mkupipe [] true true) ∧
  σ'.(o_nodes) = σ.(o_nodes) ∧ σ'.(o_pid) = σ.(o_pid) ∧ σ'.(o_free) = σ.(o_free) ∧ σ'.(o_out) = σ.(o_out).
Proof.
  intros [(p & P1 & P2 & P3 & P4 & P5 & P6 & P7) _ _ _ (r & C1 & C2) _ (i & j & Hij & Hi & Hj & Fi & Fj) (k & Hk & Fk)].
  destruct (first_free_some σ.(o_pipes) (seq 0 NFILE) k) as (pp & Hpp & Hppn & _); [apply elem_of_seq; lia|done|].
  set (σ0 := set_pipes (<[pp := Mkupipe [] true true]> σ.(o_pipes)) σ).
  destruct (new_fd_some me (CRead pp) σ0 p 3 i) as (fr & Hfr & _ & E1); [done|by rewrite P3|done|done|]. set (p1 := set_fds _ p) in E1. set (σ1 := set_files _ _) in E1.
  assert (∃ j', (j' < NFILE)%nat ∧ σ1.(o_files) !! j' = None) as (j' & Hj' & Fj').
  { destruct (decide (i = fr)) as [->|Hne]; [exists j|exists i]; (split; [done|]); simpl; by rewrite lookup_insert_ne. }
  destruct (new_fd_some me (CWrite pp) σ1 p1 4 j') as (fw & Hfw & _ & E2); [apply lookup_insert_eq|unfold p1; simpl; by rewrite P3|done|done|]. set (p2 := set_fds _ p1) in E2. set (σ2 := set_files _ _) in E2.
  assert (fr ≠ fw) as Hrw by (intros ->; simpl in Hfw; by rewrite lookup_insert_eq in Hfw). assert (ci ≠ fr) as Hcr by (intros <-; simpl in Hfr; by rewrite C1 in Hfr).
  assert (ci ≠ fw) as Hcw by (intros <-; simpl in Hfw; by rewrite lookup_insert_ne, C1 in Hfw).
  exists fr, fw, pp, σ2. split; [intros c; simpl; unfold do_pipe; rewrite Hpp; cbn [mbind option_bind]; fold σ0; rewrite E1; cbn [mbind option_bind]; rewrite E2; done|].
  split_and!; try done.
  - exists p2. split; [apply lookup_insert_eq|]. unfold p2, p1. simpl. by rewrite P3.
  - intros c Hc. simpl. by rewrite !lookup_insert_ne.
  - simpl. rewrite map_size_insert, lookup_insert_eq. rewrite map_size_insert, P1. done.
  - simpl. by rewrite !lookup_insert_ne.
  - simpl. by rewrite lookup_insert_ne, lookup_insert_eq.
  - simpl. apply lookup_insert_eq.
  - simpl. apply lookup_insert_eq.
Qed.

(** The pipe test of usertests, in any schedule: the child writes 5165 bytes to the pipe and the parent reads them, in their
    order and none twice, neither of them waits for ever, and the parent says that all is well when both are through. *)
Theorem pipe1_correct σ buf : prepared σ → length buf = Z.to_nat 8192 →
  inevitably programs image (λ ts, fst ts = [Gone me; Gone σ.(o_pid)] ∧ (snd ts).(o_out) = σ.(o_out) ++ str (line "pipe1 ok")) ([Run me (pipe1 buf;; exit)], σ).
Proof.
  intros Hr Hb. destruct (pipe_made σ Hr) as (fr & fw & pp & σ1 & E1 & Hcr & Hcw & Hrw & (p & P1 & P2 & P3 & P4 & P5 & P6 & P7) & Hkeep & Hsize & Fc & Ffr & Ffw & Fpp & En & Epid & Efree & Eout).
  destruct Hr as [(p0 & Q1 & Q2 & _) (D1 & D2 & D3) Hnone Hprocs (r & C1 & C2) Hcwd _ _]. set (ch := σ.(o_pid)) in *.
  assert (∃ σ2, do_fork me σ1 = Some (ch, σ2) ∧ piping me ch cwd ci fr fw pp σ.(o_out) σ2 true true true 0 0) as (σ2 & Ef & Hg).
  { eexists. split; [unfold do_fork; rewrite P1; cbn [mbind option_bind]; rewrite Hsize, (proj2 (Nat.leb_gt _ _) Hprocs), Efree, (proj2 (Z.ltb_ge _ _) P7), Epid; reflexivity|].
    split; cbn [set_free set_files set_pid set_procs o_procs o_files o_nodes o_pipes o_out]; rewrite ?En, ?Eout, ?P3; cbn [pfds app replicate foldl]; try done.
    - exists p. by rewrite lookup_insert_ne.
    - eexists. rewrite lookup_insert_eq. split; [done|]. simpl. by rewrite P4.
    - intros c q [[<- <-]|[_ Hc]]%lookup_insert_Some Hq; [done|]. destruct (decide (c = me)) as [->|Hne]; [rewrite P1 in Hc; by injection Hc as <-|]. rewrite Hkeep in Hc by done. by apply Hnone in Hc.
    - exists (S (S (S r))). rewrite (lookup_alter_ne _ _ fw ci), (lookup_alter_ne _ _ fr ci) by done. rewrite !lookup_alter_eq, Fc, C1. split; [done|lia].
    - rewrite lookup_alter_ne, lookup_alter_eq, !lookup_alter_ne, Ffr by done. done.
    - intros _. rewrite lookup_alter_eq, !lookup_alter_ne, Ffw by done. done.
    - split_and!; [lia|unfold total; lia|lia|done]. }
  assert (∀ th τ, alone 0 ([th], τ)) as Hal by (by intros ? ? [|x] ? Hx Hl).
  eapply (inev_goes programs image _ 0 me); [|reflexivity|apply Hal|done|].
  { unfold pipe1. apply goes_assoc. eapply (goes_bind _ Pipe); [by exists p0|done|exact E1|]. cbv iota beta. apply goes_assoc. apply goes_refl. reflexivity. }
  intros t1 Ht1. unfold fork in Ht1. rewrite call_vis in Ht1. eapply (inev_fork programs image _ 0 me); [apply Hal|done|exact Ht1|by exists p|exact Ef|]. intros tp tc Htp Htc.
  rewrite pipe1_parent in Htp by lia. assert (tc ≅ Vis (Close 3) (λ _, CL (seq 0 5) (0, buf))) as Htc' by (etransitivity; [exact Htc|apply pipe1_child_vis]).
  eapply inev_trans; [apply (moves_drained programs image me ch cwd ci fr fw pp σ.(o_out)) with (n := S (2 + total + (1 + 2 * total)))|]; [done..| |].
  - exists tp, (Run ch tc), σ2, true, true, true, 0%nat, 0%nat, false. split_and!; [done|done| | |rewrite Nat.sub_0_r; reflexivity].
    + split_and!; [done|done|]. by exists buf.
    + exists tc. split; [done|]. split; [done|]. by exists buf.
  - intros ts Hd. eapply inev_mono; [by apply (drained_ends programs image me ch cwd ci fr fw pp σ.(o_out))|]. done.
Qed.
End test.

Lemma pipe1_correct_witness :
  inevitably programs image (λ ts, fst ts = [Gone 2; Gone 3] ∧ (snd ts).(o_out) = str (line "pipe1 ok")) ([Run 2 (pipe1 (replicate (Z.to_nat 8192) 0);; exit)], os0).
Proof.
  apply (pipe1_correct programs image 2 1 0 os0); [|apply length_replicate]. split.
  - exists (proc0 1). by split_and!.
  - done.
  - intros c p Hc. unfold os0 in Hc. simpl in Hc. apply lookup_insert_Some in Hc as [[<- <-]|[_ Hc]]; [done|]. by apply lookup_singleton_Some in Hc as [<- <-].
  - vm_compute. lia.
  - exists 6%nat. split; [done|lia].
  - by exists (Mkunode (NDir root) 1).
  - exists 1%nat, 2%nat. unfold NFILE. split_and!; [done|lia|lia|done|done].
  - exists 0%nat. split; [unfold NFILE; lia|done].
Defined.
