(* ===== verification/TestRuns.v ===== *)
(** * The tests run (usertests.c, etest1.c, etest3.c, stressfs.c)

    On the system of Urun.v: the tests of one process, for which there is but one
    schedule; a schedule of the others; and what the tests of the priority locks show. *)

From ITree Require Import ITree ITreeFacts.
From S2P Require Import Prelude KState Print Mem Priority Fs Ulib UserProgs Uos Usched Usertests TestProgs Urun ForkTest.
#[local] Open Scope prog_scope.

(** ** One process *)

(** The state in which a process that makes no other leaves the system when it exits. *)
Fixpoint alone_run (fuel : nat) (pid : nat) (t : prog unit) (σ : os) : option os :=
  match fuel with
  | O => None
  | S fuel' =>
      match σ.(o_procs) !! pid with
      | None => None
      | Some p =>
          if p.(up_killed) then None else
          match observe t with
          | RetF _ => None
          | TauF t' => alone_run fuel' pid t' σ
          | @VisF _ _ _ X e k =>
              match e in sysE X return (X → prog unit) → option os with
              | Exit => λ _, Some (die pid σ)
              | Fork | Privileged | Exec _ _ | Load _ | Store _ _ | Wait => λ _, None
              | e => λ k, match sys image e 0 pid σ with Returns x σ' => alone_run fuel' pid (k x) σ' | _ => None end
              end k
          end
      end
  end.

(** No choice is left to the schedule. *)
Lemma alone_run_inev fuel pid t σ σ' : alone_run fuel pid t σ = Some σ' → inevitably programs image (λ ts, ts = ([Gone pid], σ')) ([Run pid t], σ).
Proof.
  revert t σ. induction fuel as [|fuel IH]; intros t σ H; [done|]. cbn [alone_run] in H. destruct (o_procs σ !! pid) as [p|] eqn:Hp; [|done]. destruct (up_killed p) eqn:Hk; [done|].
  assert (alive pid σ) as Ha by (by exists p). assert (∀ th τ, alone 0 ([th], τ)) as Hal by (by intros ? ? [|j] ? Hj Hn).
  destruct (observe t) as [u|t'|X e k] eqn:Ho; [done| |].
  - eapply (inev_alone programs image _ 0); [apply Hal|done|intros c; by apply (step_tau programs image t t')|]. by apply IH.
  - destruct (match e with Exit => true | _ => false end) eqn:Ee.
    + destruct e; try done. injection H as <-. eapply (inev_alone programs image _ 0); [apply Hal|done|intros c; by apply (step_exit programs image k)|]. by apply inev_now.
    + assert (∃ x σ1, sys image e 0 pid σ = Returns x σ1 ∧ alone_run fuel pid (k x) σ1 = Some σ' ∧ plain e ∧ ∀ c, sys image e c pid σ = sys image e 0 pid σ) as (x & σ1 & Hs & Hr & Hpl & Hc).
      { destruct e; try done; cbn beta iota in H; match type of H with match ?s with _ => _ end = _ => destruct s as [x σ1| |] eqn:Hs; [|done|done] end; exists x, σ1; by split_and!. }
      eapply (inev_alone programs image _ 0); [apply Hal|done|intros c; by rewrite (step_plain programs image e k t c pid σ Ha Ho Hpl), Hc, Hs|]. by apply IH.
Qed.

Definition buf0 : list Z := replicate 8192 0.
Definition lines (l : list string) : list Z := l ≫= (λ s, str (line s)).

Definition single_tests : list (prog unit * list Z) := [
  (iputtest, lines ["iput test"; "iput test ok"]);
  (opentest, lines ["open test"; "open test ok"]);
  (dirtest, lines ["mkdir test"; "mkdir test ok"]);
  (createtest, lines ["many creates, followed by unlink test"; "many creates, followed by unlink; ok"]);
  ((unlinkread buf0;; pure tt), lines ["unlinkread test"; "unlinkread ok"]);
  ((linktest buf0;; pure tt), lines ["linktest"; "linktest ok"]);
  ((subdir buf0;; pure tt), lines ["subdir test"; "subdir ok"]);
  (fourteen, lines ["fourteen test"; "fourteen ok"]);
  (rmdot, lines ["rmdot test"; "rmdot ok"]);
  (dirfile, lines ["dir vs file"; "dir vs file OK"]);
  (iref, lines ["empty file name"; "empty file name OK"])].

(** The check of one test by running it. *)
Definition passes (fuel : nat) (σ : os) (x : prog unit * list Z) : bool :=
  match alone_run fuel 2 (x.1;; exit) σ with Some σ' => bool_decide (σ'.(o_out) = x.2) | None => false end.

Lemma passes_inev fuel σ l : forallb (passes fuel σ) l = true → Forall (λ x : prog unit * list Z, inevitably programs image (all_gone x.2) ([Run 2 (x.1;; exit)], σ)) l.
Proof.
  intros H. apply List.Forall_forall. intros [t out] Hin. rewrite forallb_forall in H. specialize (H (t, out) Hin). unfold passes in H. cbn [fst snd] in H |- *.
  destruct (alone_run fuel 2 (t;; exit) σ) as [σ'|] eqn:E; [|discriminate H]. apply bool_decide_eq_true in H.
  eapply inev_mono; [exact (alone_run_inev _ _ _ _ _ E)|]. intros ts ->. split; [repeat constructor; by eexists|exact H].
Qed.

(** The file system tests of usertests that make no other process: each of them comes to its end, and
    says that it is ok. *)
Theorem single_tests_pass : Forall (λ x : prog unit * list Z, inevitably programs image (all_gone x.2) ([Run 2 (x.1;; exit)], os0)) single_tests.
Proof. apply (passes_inev 2000 os0). vm_compute. reflexivity. Qed.

(** ** Several processes *)

(** What a schedule of a test shows. *)
Definition can_show (t : prog unit) (out : list Z) : Prop := ∃ ts, reaches programs image ([Run 1 init; Run 2 t; Timer], os0) ts ∧ ended ts = true ∧ (snd ts).(o_out) = out.

Definition shows (n q : nat) (x : prog unit * list Z) : bool := bool_decide (shown x.1 n q = Some x.2).
Lemma shows_can n q l : forallb (shows n q) l = true → Forall (λ x : prog unit * list Z, can_show x.1 x.2) l.
Proof.
  intros H. apply List.Forall_forall. intros [t out] Hin. rewrite forallb_forall in H. specialize (H (t, out) Hin). unfold shows in H. apply bool_decide_eq_true in H.
  exact (shown_reaches _ _ _ _ H).
Qed.

Definition forking_tests : list (prog unit * list Z) := [
  ((exitiputtest;; exit), lines ["exitiput test"; "exitiput test ok"]);
  ((openiputtest;; exit), lines ["openiput test"; "openiput test ok"]);
  ((exitwait;; exit), lines ["exitwait ok"]);
  ((createdelete;; exit), lines ["createdelete test"; "createdelete ok"]);
  ((linkunlink;; exit), lines ["linkunlink test"; "linkunlink ok"]);
  ((concreate;; exit), lines ["concreate test"; "concreate ok"]);
  ((pipe1 buf0;; exit), lines ["pipe1 ok"]);
  ((preempt (0, 0) buf0;; exit), str "preempt: " ++ str "kill... " ++ str "wait... " ++ lines ["preempt ok"]);
  (Stressfs.main, lines ["stressfs starting"; "write 0"; "read"; "write 1"; "read"; "write 2"; "read"; "write 3"; "read"; "write 4"; "read"])].

(** The tests of usertests that make other processes, and stressfs, have a schedule in which they pass. *)
Theorem forking_tests_pass : Forall (λ x : prog unit * list Z, can_show x.1 x.2) forking_tests.
Proof. apply (shows_can 300 500). vm_compute. reflexivity. Qed.

(** ** The priority locks *)

Definition tail_is (s : list Z) (out : list Z) : bool := bool_decide (drop (length out - length s) out = s).

(** The second process of etest1 has said that it has the lock, which the first one holds. *)
Definition overlap (ts : pool) : bool :=
  bool_decide ((snd ts).(o_locks) !! Etest1.VALID_LOCK_ID = Some 3%nat) &&
  tail_is (lines ["[Time  7] SUCCESS:  Second process successfully acquired lock after waiting"; "[Time  7] Process  4  releasing lock 1 (Should succeed)"; "[Time  7] SUCCESS:  Second process successfully released lock"]) (snd ts).(o_out).

Lemma reaches_run (P : pool → bool) t n q : P (run t n q) = true → ∃ ts, reaches programs image ([Run 1 init; Run 2 t; Timer], os0) ts ∧ P ts = true.
Proof. intros H. exists (run t n q). split; [apply rounds_reaches|exact H]. Qed.

(** Etest1 does not test what it says: its second process reports that it has acquired the lock after waiting, and that it
    has released it, while the first process holds the lock, because the system call lock does not wait. *)
Theorem etest1_overlap : ∃ ts, reaches programs image ([Run 1 init; Run 2 Etest1.main; Timer], os0) ts ∧ overlap ts = true.
Proof. apply (reaches_run overlap _ 7 1000). vm_compute. reflexivity. Qed.

(** A run of etest3: the process that holds the lock is raised from priority 5 to priority 1 while a process of that
    priority asks for the lock, and gets its own priority back when it releases the lock. *)
Theorem etest3_inherits : can_show Etest3.main (lines [
  "[TEST START] Test 3: Priority Inversion (Priority Inheritance)";
  "[Time  2] Low-priority process  3  started with priority  5";
  "[Time  2] Low-priority process  3  attempting to acquire lock 2 (Should acquire lock)";
  "Process  3  acquired lock  2 with the priority  5";
  "[Time  2] SUCCESS:  Low-priority process acquired lock";
  "[Time  2] Low-priority process  3  is working (1  seconds)";
  "[Time  102] Low-priority process  3  is working (2  seconds)";
  "[Time  202] Low-priority process  3  is working (3  seconds)";
  "[Time  302] Low-priority process  3  is working (4  seconds)";
  "[Time  302] High-priority process  4  started with priority  1";
  "[Time  302] High-priority process  4  attempting to acquire lock 2 (Should wait if lock is held)";
  "Detection of Priority Inversion: Process  3  (holder) priority elevated to  1  because of Process  4";
  "[Time  302] SUCCESS:  High-priority process acquired lock after waiting";
  "[Time  302] High-priority process  4  releasing lock  2 (Should release lock)";
  "[Time  302] SUCCESS:  High-priority process released lock";
  "[Time  402] Low-priority process  3  is working (5  seconds)";
  "[Time  502] Low-priority process  3  releasing lock  2 (Should release lock)";
  "Process  3  restoring priority from  1  to original priority  5  after releasing lock 2";
  "[Time  502] SUCCESS:  Low-priority process released lock";
  "[Time  502] Low-priority process  3  priority restored to  5  after releasing lock";
  "[TEST END] Test 3: Priority Inversion (Priority Inheritance)"]).
Proof. apply (shown_reaches _ 600 1000). vm_compute. reflexivity. Qed.
