(* ===== verification/SharedFd.v ===== *)
(** * Two processes on one descriptor (usertests.c: sharedfd)

    A parent and its child write a thousand times each to the same open file.
    Whatever the order of the writes, every one of them goes behind the others,
    because the offset is shared; the parent finds all of them. *)

From ITree Require Import ITree ITreeFacts.
From S2P Require Import Prelude KState Print Mem Priority Fs Ulib UserProgs Uos Usched Usertests Urun.
#[local] Open Scope prog_scope.

Section sharedfd.
Context (programs : list Z → option (list (list Z) → prog unit)) (image : Z → Z).
(** The parent and the child, the current directory, the file, its entry in the file table and the console's. *)
Context (me ch cwd ino fi ci : nat) (out : list Z).
Context (Hfi' : (fi < NFILE)%nat) (Hmc : me ≠ ch) (Hme : me ≠ 1%nat) (Hch : ch ≠ 0%nat) (Hfi : fi ≠ ci) (Hino : ino ≠ cwd).
Notation turn := (turn programs image).
Notation step := (step programs image).
Notation goes := (goes image).

Definition fds : list (option nat) := [Some ci; Some ci; Some ci; Some fi] ++ replicate 12 None.
Definition pb : list Z := replicate 10 112.
Definition cb : list Z := replicate 10 99.

(** [i] and [j] writes are left to the parent and the child, which [runs] or has exited. *)
Record shares (σ : os) (runs : bool) (i j : nat) (data : list Z) : Prop := {
  s_me : ∃ p, σ.(o_procs) !! me = Some p ∧ p.(up_killed) = false ∧ p.(up_fds) = fds ∧ p.(up_cwd) = cwd ∧ p.(up_parent) ≠ me ∧ p.(up_parent) ≠ ch;
  s_ch : ∃ p, σ.(o_procs) !! ch = Some p ∧ p.(up_killed) = false ∧ p.(up_parent) = me ∧ p.(up_zombie) = negb runs ∧ (runs = true → p.(up_fds) = fds ∧ p.(up_cwd) = cwd);
  s_only : ∀ c p, σ.(o_procs) !! c = Some p → p.(up_parent) = me → c = ch;
  s_file : σ.(o_files) !! fi = Some (Mkufile (CInode ino (Z.of_nat (length data)) true true) (if runs then 2 else 1));
  s_cons : ∃ r, σ.(o_files) !! ci = Some (Mkufile CCons r) ∧ (if runs then 6 ≤ r else 3 ≤ r)%nat;
  s_data : σ.(o_nodes) !! ino = Some (Mkunode (NFile data) 1);
  s_count : Z.of_nat (length data) + 10 * Z.of_nat i + 10 * Z.of_nat j = 20000 ∧ count 99 data + 10 * Z.of_nat j = 10000 ∧ count 112 data + 10 * Z.of_nat i = 10000;
  s_dir : ∃ es n, σ.(o_nodes) !! cwd = Some (Mkunode (NDir es) n) ∧ n ≠ 0 ∧ dir_find (str "sharedfd") es = Some ino;
  s_out : σ.(o_out) = out
}.

(** What is left of the two programs. *)
Definition finish : prog unit := sharedfd_finish 3 pb;; exit.
Definition PT (i : nat) : prog unit := sharedfd_writes i 3 pb;; wait;; finish.
Definition CT (j : nat) : prog unit := sharedfd_writes j 3 cb;; exit.

Lemma alive_me σ runs i j data : shares σ runs i j data → alive me σ.
Proof. intros Hs. destruct (s_me _ _ _ _ _ Hs) as (p & ? & ? & _). by exists p. Qed.
Lemma alive_ch σ i j data : shares σ true i j data → alive ch σ.
Proof. intros Hs. destruct (s_ch _ _ _ _ _ Hs) as (p & ? & ? & _). by exists p. Qed.

Lemma count_app c a b : count c (a ++ b) = count c a + count c b.
Proof. unfold count. rewrite List.filter_app, length_app. lia. Qed.

(** A write of either of them. *)
Lemma shares_write σ runs i j i' j' data pid bs :
  shares σ runs i j data → (pid = me ∧ bs = pb ∧ i = S i' ∧ j = j' ∨ pid = ch ∧ runs = true ∧ bs = cb ∧ i = i' ∧ j = S j') →
  ∃ σ', do_write pid 3 bs σ = Returns 10 σ' ∧ shares σ' runs i' j' (data ++ bs).
Proof.
  intros Hs Hcase. destruct (s_count _ _ _ _ _ Hs) as (Hl & Hc & Hp). assert (length bs = 10%nat) as Hb by (by destruct Hcase as [(_ & -> & _)|(_ & _ & -> & _)]).
  assert (chan_of pid 3 σ = Some (fi, Mkufile (CInode ino (Z.of_nat (length data)) true true) (if runs then 2%nat else 1%nat))) as Hchan.
  { destruct Hcase as [(-> & _)|(-> & -> & _)].
    - destruct (s_me _ _ _ _ _ Hs) as (p & Hpr & _ & Hf & _). apply (chan_lookup me 3 σ p); [done|done|by rewrite Hf|apply Hs].
    - destruct (s_ch _ _ _ _ _ Hs) as (p & Hpr & _ & _ & _ & Hf). destruct (Hf eq_refl) as [Hf' _]. apply (chan_lookup ch 3 σ p); [done|done|by rewrite Hf'|apply Hs]. }
  eexists. split; [rewrite (write_append pid 3 bs σ fi ino true _ data 1 Hchan (s_data _ _ _ _ _ Hs)); [by rewrite Hb|lia|unfold MAXSIZE; destruct Hcase as [(_ & _ & -> & _)|(_ & _ & _ & _ & ->)]; lia]|].
  destruct Hs as [S1 S2 S3 S4 S5 S6 S7 S8 S9]. split; simpl; [exact S1|exact S2|exact S3| | | | | |exact S9].
  - rewrite lookup_alter_eq, S4. done.
  - destruct S5 as (r & Hr & ?). exists r. by rewrite lookup_alter_ne.
  - by rewrite lookup_insert_eq.
  - rewrite length_app, !count_app, Hb. destruct Hcase as [(_ & -> & -> & ->)|(_ & _ & -> & -> & ->)]; [change (count 99 pb) with 0; change (count 112 pb) with 10|change (count 99 cb) with 10; change (count 112 cb) with 0]; lia.
  - destruct S8 as (es & n & ? & ?). exists es, n. by rewrite lookup_insert_ne.
Qed.

Lemma PT_write i : PT (S i) ≅ Vis (Write 3 pb) (λ r, (if negb (r =? 10) then say (line "fstests: write sharedfd failed") else sharedfd_writes i 3 pb);; wait;; finish).
Proof. unfold PT. cbn [sharedfd_writes]. apply call_bind_vis. Qed.
Lemma PT_wait : PT 0 ≅ Vis Wait (λ _, finish).
Proof. unfold PT. cbn [sharedfd_writes]. unfold pure. rewrite Eqit.bind_ret_l. apply call_vis. Qed.
Lemma CT_write j : CT (S j) ≅ Vis (Write 3 cb) (λ r, (if negb (r =? 10) then say (line "fstests: write sharedfd failed") else sharedfd_writes j 3 cb);; exit).
Proof. unfold CT. cbn [sharedfd_writes]. apply call_bind_vis. Qed.
Lemma CT_exit : ∃ h, CT 0 ≅ Vis Exit h.
Proof. eexists. unfold CT. cbn [sharedfd_writes]. unfold pure. rewrite Eqit.bind_ret_l. unfold exit. apply call_vis. Qed.

(** The exit of the child. *)
Lemma shares_die σ i data : shares σ true i 0 data → shares (die ch σ) false i 0 data.
Proof.
  intros Hs. destruct (Hs) as [S1 S2 S3 S4 (r & S5 & Hr) S6 S7 S8 S9]. destruct S2 as (p & P1 & P2 & P3 & P4 & P5). destruct (P5 eq_refl) as [P6 P7]. destruct S8 as (es & n & D1 & D2 & D3).
  destruct r as [|[|[|[|r]]]]; [lia|lia|lia|lia|]. unfold die. rewrite P1, P6. unfold fds. cbn [app foldl replicate].
  rewrite (close_shared ci _ CCons (S (S r)) S5). set (σ1 := set_files _ σ). assert (σ1.(o_files) !! ci = Some (Mkufile CCons (S (S (S r))))) as E1 by (simpl; by rewrite lookup_insert_eq).
  rewrite (close_shared ci σ1 CCons (S r) E1). set (σ2 := set_files _ σ1). assert (σ2.(o_files) !! ci = Some (Mkufile CCons (S (S r)))) as E2 by (simpl; by rewrite lookup_insert_eq).
  rewrite (close_shared ci σ2 CCons r E2). set (σ3 := set_files _ σ2).
  assert (σ3.(o_files) !! fi = Some (Mkufile (CInode ino (Z.of_nat (length data)) true true) 2)) as E3 by (simpl; by rewrite !lookup_insert_ne).
  rewrite (close_shared fi σ3 _ 0 E3). set (σ4 := set_files _ σ3). rewrite P7.
  rewrite (iput_linked cwd (upd_proc ch _ σ4) (Mkunode (NDir es) n)); [|done|done].
  destruct S1 as (q & Q1 & Q2 & Q3 & Q4 & Q5 & Q6).
  split; simpl.
  - exists q. rewrite lookup_fmap, lookup_alter_ne, Q1 by done. simpl. by rewrite (proj2 (Nat.eqb_neq _ _) Q6).
  - eexists. rewrite lookup_fmap, lookup_alter_eq, P1. simpl. rewrite P3, (proj2 (Nat.eqb_neq me ch)) by done. split; [done|]. done.
  - intros c p0 Hc Hpar. rewrite lookup_fmap in Hc. destruct (decide (c = ch)) as [|Hne]; [done|]. rewrite lookup_alter_ne in Hc by done.
    destruct (o_procs σ !! c) as [p1|] eqn:E; [|done]. injection Hc as <-. destruct (_ =? _)%nat; [simpl in Hpar; by rewrite Hpar in Hme|]. by eapply S3.
  - by rewrite lookup_insert_eq.
  - exists (S r). rewrite lookup_insert_ne, lookup_insert_eq by done. split; [done|lia].
  - done.
  - done.
  - by exists es, n.
  - done.
Qed.

(** The parent has waited for the child. *)
Record waited (σ : os) (data : list Z) : Prop := {
  w_me : ∃ p, σ.(o_procs) !! me = Some p ∧ p.(up_killed) = false ∧ p.(up_fds) = fds ∧ p.(up_cwd) = cwd;
  w_file : σ.(o_files) !! fi = Some (Mkufile (CInode ino 20000 true true) 1);
  w_cons : ∃ r, σ.(o_files) !! ci = Some (Mkufile CCons r) ∧ (3 ≤ r)%nat;
  w_data : σ.(o_nodes) !! ino = Some (Mkunode (NFile data) 1);
  w_count : length data = Z.to_nat 20000 ∧ count 99 data = 10000 ∧ count 112 data = 10000;
  w_dir : ∃ es n, σ.(o_nodes) !! cwd = Some (Mkunode (NDir es) n) ∧ n ≠ 0 ∧ dir_find (str "sharedfd") es = Some ino;
  w_out : σ.(o_out) = out
}.

Lemma shares_wait σ data c : shares σ false 0 0 data → ∃ σ', do_wait c me σ = (if (c =? 0)%nat then Returns (Z.of_nat ch) σ' else Blocks) ∧ waited σ' data.
Proof.
  intros [S1 S2 S3 S4 S5 S6 S7 S8 S9]. destruct S2 as (p & P1 & P2 & P3 & P4 & _). eexists. split; [rewrite (wait_one me ch σ p c P1 P3 S3), P4; by destruct c|].
  destruct S1 as (q & Q1 & Q2 & Q3 & Q4 & Q5 & Q6). split; simpl; [|rewrite S4; repeat f_equal; lia|done|done|lia|done|done].
  exists q. by rewrite lookup_delete_ne.
Qed.

(** Where the two processes can be, with a bound on the steps that are left. *)
Definition writing (n : nat) (ts : pool) : Prop :=
  ∃ runs i j data tp thC σ, ts = ([Run me tp; thC], σ) ∧ shares σ runs i j data ∧ tp ≅ PT i ∧
    (if runs then ∃ tc, thC = Run ch tc ∧ tc ≅ CT j else thC = Gone ch ∧ j = 0%nat) ∧ n = (i + j + (if runs then 1 else 0) + 1)%nat.
Definition done_writing (ts : pool) : Prop :=
  ∃ tp data σ, ts = ([Run me tp; Gone ch], σ) ∧ tp ≅ finish ∧ waited σ data.

(** A turn of the parent. *)
Lemma parent_turn σ runs i j data tp c : shares σ runs i j data → tp ≅ PT i →
  match i with
  | S i' => ∃ tp' σ', step c (Run me tp) σ = Some (Run me tp', σ', []) ∧ tp' ≅ PT i' ∧ shares σ' runs i' j (data ++ pb)
  | O => if runs then step c (Run me tp) σ = None else
         j = 0%nat → ∃ tp' σ', step c (Run me tp) σ = (if (c =? 0)%nat then Some (Run me tp', σ', []) else None) ∧ tp' ≅ finish ∧ waited σ' data
  end.
Proof.
  intros Hs Ht. pose proof (alive_me _ _ _ _ _ Hs) as Ha. destruct i as [|i'].
  - rewrite PT_wait in Ht. apply eqitree_inv_Vis_r in Ht as (k & Ho & Hk). destruct runs.
    + destruct (s_ch _ _ _ _ _ Hs) as (p & P1 & P2 & P3 & P4 & _). rewrite (step_plain programs image Wait k tp c me σ Ha Ho I). simpl.
      rewrite (wait_one me ch σ p c P1 P3 (s_only _ _ _ _ _ Hs)). by rewrite P4.
    + intros ->. destruct (shares_wait σ data c Hs) as (σ' & Hw & Hd). exists (k (Z.of_nat ch)), σ'. split; [|by split].
      rewrite (step_plain programs image Wait k tp c me σ Ha Ho I). simpl. rewrite Hw. by destruct (c =? 0)%nat.
  - rewrite PT_write in Ht. apply eqitree_inv_Vis_r in Ht as (k & Ho & Hk). destruct (shares_write σ runs (S i') j i' j data me pb Hs) as (σ' & Hw & Hs'); [by left|].
    exists (k 10), σ'. split; [|by split; [apply Hk|]]. rewrite (step_plain programs image (Write 3 pb) k tp c me σ Ha Ho I). simpl. by rewrite Hw.
Qed.

(** A turn of the child. *)
Lemma child_turn σ i j data tc c : shares σ true i j data → tc ≅ CT j →
  match j with
  | S j' => ∃ tc' σ', step c (Run ch tc) σ = Some (Run ch tc', σ', []) ∧ tc' ≅ CT j' ∧ shares σ' true i j' (data ++ cb)
  | O => ∃ σ', step c (Run ch tc) σ = Some (Gone ch, σ', []) ∧ shares σ' false i 0 data
  end.
Proof.
  intros Hs Ht. pose proof (alive_ch _ _ _ _ Hs) as Ha. destruct j as [|j'].
  - destruct CT_exit as (h & Hh). rewrite Hh in Ht. apply eqitree_inv_Vis_r in Ht as (k & Ho & Hk). exists (die ch σ). split; [by apply (step_exit programs image k)|by apply shares_die].
  - rewrite CT_write in Ht. apply eqitree_inv_Vis_r in Ht as (k & Ho & Hk). destruct (shares_write σ true i (S j') i j' data ch cb Hs) as (σ' & Hw & Hs'); [by right|].
    exists (k 10), σ'. split; [|by split; [apply Hk|]]. rewrite (step_plain programs image (Write 3 cb) k tc c ch σ Ha Ho I). simpl. by rewrite Hw.
Qed.

(** Someone can go on. *)
Lemma writing_goes_on n ts : writing n ts → ∃ i c ts', turn ts i c = Some ts'.
Proof.
  intros (runs & i & j & data & tp & thC & σ & -> & Hs & Ht & Hc & ->). pose proof (parent_turn σ runs i j data tp 0 Hs Ht) as Hp. destruct i as [|i].
  - destruct runs.
    + destruct Hc as (tc & -> & Htc). pose proof (child_turn σ 0 j data tc 0 Hs Htc) as Hch'. destruct j; [destruct Hch' as (σ' & Hst & _)|destruct Hch' as (tc' & σ' & Hst & _)];
        (eexists 1%nat, 0%nat, _; by eapply turn_intro; [|exact Hst]).
    + destruct Hc as [-> ->]. destruct (Hp eq_refl) as (tp' & σ' & Hst & _). eexists 0%nat, 0%nat, _. by eapply turn_intro; [|exact Hst].
  - destruct Hp as (tp' & σ' & Hst & _). eexists 0%nat, 0%nat, _. by eapply turn_intro; [|exact Hst].
Qed.

Lemma writing_step n ts i c ts' : writing n ts → turn ts i c = Some ts' → ∃ n', (n' < n)%nat ∧ (writing n' ts' ∨ done_writing ts').
Proof.
  intros (runs & a & j & data & tp & thC & σ & -> & Hs & Ht & Hc & ->) (th & th' & σ1 & new & Hi & Hst & ->)%turn_inv. cbn [fst snd] in *.
  destruct i as [|[|i]]; [..|done]; cbn [lookup list_lookup] in Hi; injection Hi as <-.
  - pose proof (parent_turn σ runs a j data tp c Hs Ht) as Hp. destruct a as [|a].
    + destruct runs; [by rewrite Hp in Hst|]. destruct Hc as [-> ->]. destruct (Hp eq_refl) as (tp' & σ' & Hst' & Ht' & Hw). rewrite Hst' in Hst.
      destruct (c =? 0)%nat; [|done]. injection Hst as <- <- <-. exists 0%nat. split; [lia|]. right. by exists tp', data, σ'.
    + destruct Hp as (tp' & σ' & Hst' & Ht' & Hs'). rewrite Hst' in Hst. injection Hst as <- <- <-. eexists. split; [|left; by exists runs, a, j, (data ++ pb), tp', thC, σ']. lia.
  - destruct runs; [|by destruct Hc as [-> _]]. destruct Hc as (tc & -> & Htc). pose proof (child_turn σ a j data tc c Hs Htc) as Hch'. destruct j as [|j].
    + destruct Hch' as (σ' & Hst' & Hs'). rewrite Hst' in Hst. injection Hst as <- <- <-. eexists. split; [|left; by exists false, a, 0%nat, data, tp, (Gone ch), σ']. lia.
    + destruct Hch' as (tc' & σ' & Hst' & Htc' & Hs'). rewrite Hst' in Hst. injection Hst as <- <- <-.
      eexists. split; [|left; exists true, a, j, (data ++ cb), tp, (Run ch tc'), σ'; split_and!; [done|done|done|by exists tc'|reflexivity]]. lia.
Qed.

Lemma writing_done n ts : writing n ts → inevitably programs image done_writing ts.
Proof.
  intros H. apply (inev_measure programs image (λ n ts, writing n ts ∨ done_writing ts) done_writing) with (n := n); [|by left].
  intros n' ts' [Hw|Hd]; [right|by left]. split; [by eapply writing_goes_on|]. intros i c ts'' Ht. by eapply writing_step.
Qed.

(** The parent reads the file, ten characters at a time. *)
Lemma reads_goes f data (k : Z * Z → prog unit) t' σ' m : ∀ off nc np b σ,
  alive me σ → chan_of me 3 σ = Some (f, Mkufile (CInode ino (Z.of_nat off) true false) 1) → σ.(o_nodes) !! ino = Some (Mkunode (NFile data) 1) →
  length data = (off + 10 * m)%nat → length b = 10%nat →
  goes me (k (nc + count 99 (drop off data), np + count 112 (drop off data))) (set_chan f (CInode ino (Z.of_nat (length data)) true false) σ) t' σ' →
  goes me (ITree.bind (ITree.iter (sharedfd_count 3) (nc, np, b)) k) σ t' σ'.
Proof.
  induction m as [|m IH]; intros off nc np b σ Ha Hc Hn Hl Hb Hg; apply goes_iter; unfold sharedfd_count; apply goes_assoc; unfold read; apply goes_assoc.
  - eapply (goes_bind _ (Read 3 10)); [done|done|intros c; simpl; by apply (read_file me 3 10 σ f ino off false 1 data 1)|]. cbv beta.
    rewrite (drop_ge data) in * by lia. rewrite take_nil. cbn [length]. cbv iota beta. apply goes_pure. simpl. apply goes_pure. replace (off + 0)%nat with (length data) by lia.
    change (count 99 []) with 0 in Hg. change (count 112 []) with 0 in Hg. by rewrite !Z.add_0_r in Hg.
  - set (bs := take 10 (drop off data)). assert (length bs = 10%nat) as Hbs by (unfold bs; rewrite length_take, length_drop; lia).
    eapply (goes_bind _ (Read 3 10)); [done|done|intros c; simpl; by apply (read_file me 3 10 σ f ino off false 1 data 1)|]. cbv beta. fold bs.
    cbv iota beta. apply goes_pure. rewrite Hbs. change (0 <? Z.of_nat 10) with true. cbn [negb]. apply goes_pure. eapply goes_tau; [reflexivity|done|].
    assert (drop off data = bs ++ drop (off + 10) data) as Hd by (unfold bs; rewrite <- (take_drop 10 (drop off data)) at 1; by rewrite drop_drop).
    unfold splice. rewrite take_0, drop_ge, app_nil_l, app_nil_r by lia. rewrite Hd, !count_app, !Z.add_assoc in Hg.
    eapply IH; [done|by eapply chan_set|done|lia|done|]. by rewrite set_chan_twice.
Qed.

(** The parent finds what the two have written. *)
Lemma finish_goes σ data : waited σ data → ∃ σ', goes me finish σ exit σ' ∧ alive me σ' ∧ σ'.(o_out) = out ++ str (line "sharedfd ok").
Proof.
  intros [(p & P1 & P2 & P3 & P4) W1 (r & W2 & Hr) W3 (Hl & H99 & H112) (es & n & D1 & D2 & D3) W5].
  assert (Fs.elements (str "sharedfd") = [str "sharedfd"]) as He by done.
  pose proof (λ c, sys_close_last image me 3 σ p fi ino 20000 true true _ c P1 ltac:(lia) ltac:(by rewrite P3) W1 W3 ltac:(done)) as E1.
  set (p1 := set_fds _ p) in E1. set (σ1 := set_files _ _) in E1.
  assert (σ1.(o_procs) !! me = Some p1) as Hp1 by apply lookup_insert_eq.
  destruct (sys_open_read image me (str "sharedfd") σ1 p1 es n ino data 1 3 fi 0) as (f & Hf & E2'); [done|done|done|by rewrite <- D1, <- P4|done|done|by unfold p1; simpl; rewrite P3|done|apply lookup_delete_eq|].
  assert (∀ c, sys image (Open (str "sharedfd") 0) c me σ1 = sys image (Open (str "sharedfd") 0) 0 me σ1) as E2 by done. rewrite E2' in E2. clear E2'.
  set (σ2 := set_files _ _) in E2.
  destruct (decide (f = ci)) as [->|Hfci]; [unfold σ1 in Hf; simpl in Hf; by rewrite lookup_delete_ne, W2 in Hf|].
  set (p2 := set_fds (<[3%nat := Some f]> (up_fds p1)) p1) in σ2. assert (σ2.(o_procs) !! me = Some p2) as Hp2 by apply lookup_insert_eq.
  assert (up_fds p2 = [Some ci; Some ci; Some ci; Some f] ++ replicate 12 None) as Hfds by (unfold p2, p1; simpl; by rewrite P3).
  set (σ3 := set_chan f (CInode ino (Z.of_nat (length data)) true false) σ2).
  assert (up_fds p2 !! Z.to_nat 3 = Some (Some f)) as H3 by (by rewrite Hfds).
  assert (σ3.(o_files) !! f = Some (Mkufile (CInode ino (Z.of_nat (length data)) true false) 1)) as Hf3 by (simpl; by rewrite lookup_alter_eq, lookup_insert_eq).
  pose proof (λ c, sys_close_last image me 3 σ3 p2 f ino (Z.of_nat (length data)) true false _ c Hp2 ltac:(lia) H3 Hf3 W3 ltac:(done)) as E3.
  set (p3 := set_fds _ p2) in E3. set (σ4 := set_files _ _) in E3. destruct (sys_unlink_keeps image me (str "sharedfd") σ4) as (v & σ5 & E5 & K1 & K2 & K3).
  assert (σ5.(o_procs) !! me = Some p3) as Hp3 by (rewrite K1; apply lookup_insert_eq).
  exists (set_out (σ5.(o_out) ++ str (line "sharedfd ok")) σ5). split_and!; [|by exists p3|simpl; rewrite K3; by rewrite <- W5].
  unfold finish, sharedfd_finish. apply goes_assoc. eapply (goes_bind _ (Close 3)); [by exists p|done|exact E1|]. apply goes_assoc.
  eapply (goes_bind _ (Open (str "sharedfd") 0)); [by exists p1|done|exact E2|]. cbv beta. change (Z.of_nat 3 <? 0) with false. cbv iota. apply goes_assoc.
  eapply (reads_goes f data _ _ _ 2000 0); [by exists p2|apply (chan_lookup me 3 σ2 p2); [done|done|by rewrite Hfds|simpl; by rewrite lookup_insert_eq]|done|by rewrite Hl|done|].
  rewrite drop_0, H99, H112. fold σ3. cbv iota beta. apply goes_assoc. eapply (goes_bind _ (Close 3)); [by exists p2|done|exact E3|].
  apply goes_assoc. eapply (goes_bind _ (Unlink (str "sharedfd"))); [by exists p3; split; [apply lookup_insert_eq|]|done|exact E5|].
  change ((0 + 10000 =? 10000) && (0 + 10000 =? 10000)) with true. cbv iota.
  apply say_goes; [done|by exists p3| |by apply goes_refl]. exists ci, r. apply (chan_lookup me 1 σ5 p3); [done|done|change (up_fds p3) with (<[3%nat := None]> (up_fds p2)); by rewrite Hfds|].
  rewrite K2. unfold σ4. simpl. rewrite lookup_delete_ne, lookup_alter_ne, lookup_insert_ne by done. unfold σ1. simpl. by rewrite lookup_delete_ne.
Qed.

Lemma done_finishes ts : done_writing ts → inevitably programs image (λ ts, fst ts = [Gone me; Gone ch] ∧ (snd ts).(o_out) = out ++ str (line "sharedfd ok")) ts.
Proof.
  intros (tp & data & σ & -> & Ht & Hw). destruct (finish_goes σ data Hw) as (σ' & Hg & Ha & Ho).
  assert (∀ th τ, alone 0 ([th; Gone ch], τ)) as Hal by (intros ? ? [|[|j]] ? Hj Hl; [done|injection Hl as <-; by exists ch|done]).
  eapply (inev_goes programs image _ 0 me); [exact Hg|exact Ht|apply Hal|done|]. intros t1 Ht1. eapply (inev_exit programs image _ 0 me t1); [apply Hal|done|exact Ht1|done|].
  split; [done|]. cbn [snd]. by rewrite die_out.
Qed.
End sharedfd.

(** ** The test *)

Section test.
Context (programs : list Z → option (list (list Z) → prog unit)) (image : Z → Z) (me cwd ci : nat).

(** A process as the shell starts it: the console on its three descriptors, no children, and a free slot of every kind. *)
Record ready (σ : os) : Prop := {
  r_me : ∃ p, σ.(o_procs) !! me = Some p ∧ p.(up_killed) = false ∧ p.(up_fds) = [Some ci; Some ci; Some ci] ++ replicate 13 None ∧ p.(up_cwd) = cwd ∧
    p.(up_parent) ≠ me ∧ p.(up_parent) ≠ σ.(o_pid) ∧ pages p.(up_sz) ≤ σ.(o_free);
  r_pid : me ≠ 1%nat ∧ σ.(o_pid) ≠ me ∧ σ.(o_pid) ≠ 0%nat;
  r_none : ∀ c p, σ.(o_procs) !! c = Some p → p.(up_parent) ≠ me;
  r_procs : (size σ.(o_procs) < NPROC)%nat;
  r_cons : ∃ r, σ.(o_files) !! ci = Some (Mkufile CCons r) ∧ (3 ≤ r)%nat;
  r_dir : ∃ es n, σ.(o_nodes) !! cwd = Some (Mkunode (NDir es) n) ∧ n ≠ 0 ∧ dir_find (str "sharedfd") es = None;
  r_file : ∃ j, (j < NFILE)%nat ∧ σ.(o_files) !! j = None;
  r_node : ∃ a, (0 < a < 200)%nat ∧ σ.(o_nodes) !! a = None
}.

(** What the parent and the child have to do after the fork. *)
Lemma body_parent ch : ch ≠ 0%nat → ITree.bind (sharedfd_body 3 (Z.of_nat ch)) (λ _, exit) ≅ PT 1000.
Proof. intros Hch. unfold sharedfd_body, PT, finish. replace (Z.of_nat ch =? 0) with false by lia. rewrite bind_bind. apply eqit_bind; [reflexivity|]. intros ?. by rewrite bind_bind. Qed.
Lemma body_child : ITree.bind (sharedfd_body 3 0) (λ _, exit) ≅ CT 1000.
Proof. unfold sharedfd_body, CT. change (0 =? 0) with true. cbv iota. rewrite bind_bind. apply eqit_bind; [reflexivity|]. intros ?. by rewrite bind_bind, exit_bind. Qed.

(** The file is there, on descriptor 3. *)
Record opened (σ : os) (i f : nat) : Prop := {
  op_me : ∃ p, σ.(o_procs) !! me = Some p ∧ p.(up_killed) = false ∧ p.(up_fds) = fds f ci ∧ p.(up_cwd) = cwd ∧
    p.(up_parent) ≠ me ∧ p.(up_parent) ≠ σ.(o_pid) ∧ pages p.(up_sz) ≤ σ.(o_free);
  op_pid : me ≠ 1%nat ∧ σ.(o_pid) ≠ me ∧ σ.(o_pid) ≠ 0%nat;
  op_none : ∀ c p, σ.(o_procs) !! c = Some p → p.(up_parent) ≠ me;
  op_procs : (size σ.(o_procs) < NPROC)%nat;
  op_cons : ∃ r, σ.(o_files) !! ci = Some (Mkufile CCons r) ∧ (3 ≤ r)%nat;
  op_file : σ.(o_files) !! f = Some (Mkufile (CInode i 0 true true) 1);
  op_data : σ.(o_nodes) !! i = Some (Mkunode (NFile []) 1);
  op_dir : ∃ es n, σ.(o_nodes) !! cwd = Some (Mkunode (NDir es) n) ∧ n ≠ 0 ∧ dir_find (str "sharedfd") es = Some i;
  op_ne : f ≠ ci ∧ i ≠ cwd ∧ (f < NFILE)%nat
}.

Lemma open_goes σ : ready σ → ∃ i f σ',
  goes image me (sharedfd;; exit) σ (ITree.bind fork (λ pid, sharedfd_body 3 pid;; exit)) σ' ∧ opened σ' i f ∧ σ'.(o_pid) = σ.(o_pid) ∧
  σ'.(o_out) = σ.(o_out) ++ str (line "sharedfd test").
Proof.
  intros [(p & P1 & P2 & P3 & P4 & P5 & P6 & P7) Hpid Hnone Hprocs (r & C1 & C2) (es & n & D1 & D2 & D3) (j & J1 & J2) (a & A1 & A2)].
  set (σ1 := set_out (σ.(o_out) ++ str (line "sharedfd test")) σ). assert (Fs.elements (str "sharedfd") = [str "sharedfd"]) as He by done.
  rewrite <- P4 in D1. destruct (sys_open_create image me (str "sharedfd") σ1 p es n a j 3) as (i & f & Hi0 & Hi & Hf & Hlt & Hop); [done..|by rewrite P3|done|done|].
  assert (f ≠ ci) as Hfc by (intros ->; simpl in Hf; by rewrite C1 in Hf). assert (i ≠ up_cwd p) as Hic by (intros ->; simpl in Hi; by rewrite D1 in Hi).
  set (σ2 := set_files _ _) in Hop. exists i, f, σ2. split_and!; [| |done|done].
  - unfold sharedfd. apply goes_assoc. apply say_goes; [done|by exists p| |].
    { exists ci, r. by apply (chan_lookup me 1 σ p); [|done|rewrite P3|]. }
    apply goes_assoc. eapply (goes_bind _ (Unlink (str "sharedfd"))); [by exists p|done|intros c; by apply (sys_unlink_none image me (str "sharedfd") σ1 p es n)|].
    apply goes_assoc. eapply (goes_bind _ (Open (str "sharedfd") 514)); [by exists p|done|exact Hop|]. cbv beta. change (Z.of_nat 3 <? 0) with false. cbv iota. apply goes_assoc. by apply goes_refl.
  - split; simpl; rewrite ?P4 in *.
    + eexists. rewrite lookup_insert_eq. split; [done|]. simpl. rewrite P3. done.
    + done.
    + intros c q Hc. destruct (decide (c = me)) as [->|Hne]; [rewrite lookup_insert_eq in Hc; by injection Hc as <-|rewrite lookup_insert_ne in Hc by done; by eapply Hnone].
    + by rewrite map_size_insert, P1.
    + exists r. by rewrite lookup_insert_ne.
    + by rewrite lookup_insert_eq.
    + by rewrite lookup_insert_ne, lookup_insert_eq.
    + eexists _, n. rewrite lookup_insert_eq. split; [done|]. split; [done|]. by apply dir_find_add.
    + done.
Qed.

(** After the fork each has a thousand writes before it. *)
Lemma fork_shares σ i f : opened σ i f → ∃ σ', do_fork me σ = Some (σ.(o_pid), σ') ∧ shares me σ.(o_pid) cwd i f ci σ.(o_out) σ' true 1000 1000 [].
Proof.
  intros [(p & P1 & P2 & P3 & P4 & P5 & P6 & P7) (H1 & H2 & H3) Hnone Hprocs (r & C1 & C2) Hf Hd Hdir (Hfc & Hic & Hlt)].
  eexists. split; [unfold do_fork; rewrite P1; cbn [mbind option_bind]; rewrite (proj2 (Nat.leb_gt _ _) Hprocs), (proj2 (Z.ltb_ge _ _) P7); reflexivity|].
  split; cbn [set_free set_files set_pid set_procs o_procs o_files o_nodes o_out].
  - exists p. by rewrite lookup_insert_ne.
  - eexists. rewrite lookup_insert_eq. split; [done|]. simpl. by rewrite P3, P4.
  - intros c q Hc Hq. destruct (decide (c = o_pid σ)) as [|Hne]; [done|]. rewrite lookup_insert_ne in Hc by done. by apply Hnone in Hc.
  - rewrite P3. cbn [fds app replicate foldl]. by rewrite lookup_alter_eq, !lookup_alter_ne, Hf.
  - exists (S (S (S r))). rewrite P3. cbn [fds app replicate foldl]. rewrite lookup_alter_ne, !lookup_alter_eq, C1 by done. split; [done|lia].
  - done.
  - done.
  - done.
  - done.
Qed.

(** Two processes, a thousand writes each to one shared file, scheduled in any order: every run of [sharedfd] comes
    to an end with both of them gone, and the parent has found every character and said so. *)
Theorem sharedfd_correct σ : ready σ →
  inevitably programs image (λ ts, fst ts = [Gone me; Gone σ.(o_pid)] ∧
    (snd ts).(o_out) = σ.(o_out) ++ str (line "sharedfd test") ++ str (line "sharedfd ok")) ([Run me (sharedfd;; exit)], σ).
Proof.
  intros Hr. destruct (open_goes σ Hr) as (i & f & σ1 & Hg & Ho & Hp & Hout). destruct (fork_shares σ1 i f Ho) as (σ2 & Hf & Hs).
  destruct (op_pid _ _ _ Ho) as (H1 & H2 & H3). destruct (op_ne _ _ _ Ho) as (H4 & H5 & H6). destruct (op_me _ _ _ Ho) as (p & Hpr & Hk & _).
  assert (∀ th τ, alone 0 ([th], τ)) as Hal by (by intros ? ? [|j] ? Hj Hl).
  eapply (inev_goes programs image _ 0 me); [exact Hg|reflexivity|apply Hal|done|]. intros t1 Ht1. unfold fork in Ht1. rewrite call_vis in Ht1.
  eapply (inev_fork programs image _ 0 me); [apply Hal|done|exact Ht1|by exists p|exact Hf|]. intros tp tc Htp Htc. rewrite body_parent in Htp by done. rewrite body_child in Htc.
  eapply inev_trans; [apply (writing_done programs image me σ1.(o_pid) cwd i f ci σ1.(o_out)) with (n := 2002%nat)|]; [done..| |].
  - exists true, 1000%nat, 1000%nat, [], tp, (Run (o_pid σ1) tc), σ2. split_and!; [done|done|done|by exists tc|done].
  - intros ts Hd. eapply inev_mono; [apply (done_finishes programs image me σ1.(o_pid) cwd i f ci σ1.(o_out)); [done..|exact Hd]|].
    intros ts' [E1 E2]. by rewrite E1, E2, Hp, Hout, <- app_assoc.
Qed.
End test.

Lemma sharedfd_correct_witness :
  inevitably programs image (λ ts, fst ts = [Gone 2; Gone 3] ∧ (snd ts).(o_out) = str (line "sharedfd test") ++ str (line "sharedfd ok"))
    ([Run 2 (sharedfd;; exit)], os0).
Proof.
  apply (sharedfd_correct programs image 2 1 0 os0). split.
  - exists (proc0 1). by split_and!.
  - done.
  - intros c p Hc. unfold os0 in Hc. simpl in Hc. apply lookup_insert_Some in Hc as [[<- <-]|[_ Hc]]; [done|]. by apply lookup_singleton_Some in Hc as [<- <-].
  - vm_compute. lia.
  - exists 6%nat. split; [done|lia].
  - exists root, 1. by split_and!.
  - exists 1%nat. split; [unfold NFILE; lia|done].
  - exists 6%nat. split; [lia|done].
Defined.
